(* ===== verification/_CoqProject ===== *)
-Q . S2P
Prelude.v
GoStrings.v
NetIP.v
OsNet.v
Monitor.v
Underlay.v
Types.v
Fs.v
Json.v
Store.v
Stores.v
NetURL.v
Escape.v
ProfileIO.v
LogBuf.v
Vpn.v
Router.v
LinuxNet.v
LinuxConfig.v
Journal.v
NetRecovery.v
OsWindows.v
OsDarwin.v
Buffer.v
Session.v
DynRoutes.v
UserNet.v
Auth.v
Tunnel.v
Backend.v
BackendInv.v
Channel.v
Controller.v
Wire.v
Service.v
Access.v
Feed.v
Appd.v
AppdInv.v
Guarantees.v
Isolation.v
Recovery.v
Concurrency.v
ApiServer.v
LocalClient.v
LocalApi.v
Startup.v
Tray.v
Socks5.v
Socks5Server.v
Netcheck.v
Updater.v
CliFlags.v
CliInput.v
CliHelp.v
Cli.v
LoginProbe.v
TrayActions.v
