(* ===== verification/Prelude.v ===== *)
(** * FlexConnect: a verification library

    FlexConnect is a VPN client for AnyConnect servers.  A privileged daemon
    (src/cmd/flexconnectd, src/internal/appd) keeps the profiles, their secrets
    and the state of the one connection; local programs (src/cmd/flexconnect,
    src/client/systray) talk to it over the Local API
    (src/internal/apiserver, src/client/local); the daemon drives a VPN backend
    (src/internal/vpn/anyconnect) which authenticates, opens the CSTP and DTLS
    channels, moves packets and configures the network of the operating system
    (src/internal/anyconnect, src/internal/osnet).  This library models those
    parts as Rocq definitions and proves what makes them correct.

    ** The parts and their files

    Foundations.  Prelude.v (this file): record updates, the error tree of Go
    with [errors.Is], the state monad [M] with its three outcomes, weakest
    preconditions and their tactics, lists.  GoStrings.v, NetIP.v, NetURL.v,
    Escape.v, Json.v: the functions of Go's strings, strconv, net/netip,
    net/url and encoding/json that the sources call.  Fs.v: the file calls of
    an atomic replacement under faults, death and loss of power.

    Data.  Types.v (internal/types), Wire.v (the request bodies as JSON),
    OsNet.v (internal/osnet/types.go), ProfileIO.v (internal/profileio),
    LogBuf.v (internal/logbuf), Vpn.v (internal/vpn: the contract between
    daemon and backend).

    Storage.  Store.v (internal/store/file), Stores.v (internal/secret, and the
    classes [StateStore] and [SecretStore] the daemon is verified against).

    The daemon.  Service.v is the record its mutex protects; Access.v the
    rights and views of actors (internal/appd/v2.go); Feed.v the event ring and
    its watchers; Appd.v the operations (daemon.go, v2.go) over a world of
    stores, clock, answers, goroutines and timers.  AppdInv.v is the invariant,
    Recovery.v the profile transactions and their recovery, Guarantees.v and
    Isolation.v what clients are promised, Concurrency.v the closed system of
    all goroutines.  Startup.v is the start (cmd/flexconnectd), Updater.v the
    update checker.

    The Local API.  ApiServer.v (internal/apiserver) is written for any
    instance of the class [Daemon]; LocalClient.v (client/local) for any
    transport, and then over that server; LocalApi.v makes Appd.v the daemon
    of both.

    The backend and the tunnel.  Backend.v and BackendInv.v
    (internal/vpn/anyconnect), Tunnel.v (tunnel.go, rpc/connect.go), Auth.v
    (anyconnect/auth), Session.v (session.go), Buffer.v (packets and framing),
    Channel.v (tls.go, dtls.go, the workers of tun.go), Controller.v
    (controller.go), DynRoutes.v (tun.go, dynamic split routes), UserNet.v
    (usernet.go), Socks5.v and Socks5Server.v (internal/socks5).

    The network of the machine.  Router.v plans routes (internal/router).
    LinuxNet.v, LinuxConfig.v, OsWindows.v and OsDarwin.v are the three
    managers (manager_linux.go, manager_windows.go, manager_darwin.go);
    Journal.v the ownership journal over any manager that keeps
    [ManagerPromise]; NetRecovery.v the recovery on Linux; Monitor.v and
    Underlay.v the physical network below the tunnel.

    Programs.  CliFlags.v, CliInput.v, CliHelp.v, Cli.v
    (cmd/flexconnect/main.go), LoginProbe.v (internal/loginprobe), Netcheck.v
    (internal/netcheck), Tray.v and TrayActions.v (client/systray).

    ** How the code is read

    An operation is a definition with the source's name; its result is a value
    of a sum or of [Outcome].  In [M], [Failed] is a Go error that was
    returned, with every change made before it; [Crashed] is the death of the
    process, of which only durable storage and the kernel remain.  A run-time
    panic is [Crashed] or [None].  Machine integers are Z with their
    conversions and wrap-around written out.  A map whose order of iteration
    shows is a list or a list of the map in some order.

    Concurrency comes in three forms.  Where one mutex guards everything (the
    daemon) an operation is a program in which every place that releases the
    mutex is [gap]; theorems hold for every [gap] that keeps the invariant, and
    Concurrency.v gives [gap] the other goroutines' steps: a waiting goroutine
    is replayed from the worlds in which it got the mutex back.  Where
    goroutines meet in several places (Backend, Controller, Monitor, the server
    of Socks5Server) the system is a step relation with one program counter per
    goroutine.  Where a type is used under locks of its own (Session), each
    locked section is one transition.

    Faults.  Every file call of Fs.v may fail or be where the machine stops;
    unsynced data and unsynced renames may be lost.  Every call of the kernel
    classes may fail or be where the daemon dies.  So "crash safe" means: for
    every schedule of faults.

    ** What is a parameter

    Other programs and libraries: the VPN server (scripts of answers in Auth.v,
    Tunnel.v, Netcheck.v), the kernel's routing ([Kernel], [WinNet], [Darwin],
    with their documented behaviour as law classes and with instances that
    satisfy them), resolver daemons, pion/dtls, gvisor, gopacket (what a DNS
    answer contains), the semver library, sysinfo.  Of Go's standard library
    the XML decoder, [fmt.Sprintf] with a format that the server sends,
    [time.ParseDuration], [URL.String], floating-point formatting and the text
    of encoded JSON in the CLI.  A theorem that uses a law has a witness over a
    concrete instance.

    ** What the theorems show

    Crash safety: [commit_crash_safe], [crash_recovery_restores],
    [Save_crash_atomic].  Invariants of whole systems: [daemon_invariant],
    [backend_owns_everything], [monitor_tells_the_story],
    [dynamic_routes_bounded].  Separation of users: [clients_isolated],
    [http_isolation], [ordinary_client_views], [gate_keeps_out];
    [diagnostics_views] states what is shown beyond that.  Composition:
    [client_is_daemon] makes a client's method the daemon's operation;
    [login_saves_what_was_verified] takes this up to the login dialog.
    Refinement and equivalence with a reference: [Plan_refines_last_wins],
    [reported_routes_are_installed], [close_cause_first_wins],
    [inbound_matches_history], [secret_stays_hidden].  Ends and liveness:
    [Disconnect_is_final], [close_hook_once], [controller_drains],
    [socks_close_drains], [tls_channel_any_server].  Round trips:
    [parse_state_encoded], [tls_stream_roundtrip].  What the network managers
    leave behind: [windows_life], [darwin_life].  Several theorems state
    behaviour that the code probably does not intend; they say so where they
    stand.

    ** Fuel

    Recursion that is not structural takes fuel that its argument bounds:
    trimming and fields take the length of the text, [parse_v6_loop] the
    length of the address, [readFrames] one more than the length of the stream
    ([readFrames_ends]), eviction the number of entries, the TLS reader one turn
    per eight bytes ([tls_channel_any_server]), the prompts two more than the
    bytes and reads to come ([left]; the loops of CliInput.v and Cli.v are
    proved not to run out), [client_Connect] one, since a call without a name
    is answered by a call with one, [health_rounds] the reports that a bounded
    queue can hold.

    ** What is not modelled

    Sockets, pipes and the credentials of peers (internal/ipc); the Windows
    service and elevation (cmd/flexconnectd); the event subscriptions that wake
    the monitor; the Windows replacements of the file calls; the DTLS handshake
    (the rest of dtls.go) and the user-space TCP stack, which are libraries'
    work; logging; the widgets, the clipboard program and the timers of the
    tray; the flags and the report of the CLI's netcheck command; packaging
    (release/dist, cmd/dist), icons and build information.  Deadlines and
    timeouts are outcomes of the call that has them, not clocks, except in the
    daemon, whose clock is part of its world.
    [prepareLoginProfileLocked] (appd/daemon.go:1707) has no caller. *)

From stdpp Require Export base tactics list option strings gmap.
From Stdlib Require Export ZArith Lia.
From Stdlib Require Import Ascii.

#[global] Set Default Proof Using "Type".

(** ** Record updates

    Go code assigns fields one by one; [r <| f := v |>] is the record [r] with
    the field [f] replaced.  A record type declares its constructor applied to
    its projections once ([Eta]); the setter of a field is found from it. *)

Class Eta (R : Type) := eta_expand : R → R.

Class Setter {R T : Type} (proj : R → T) := set_field : (T → T) → R → R.
Arguments set_field {R T} proj {_} _ _.

Ltac build_setter proj :=
  lazymatch type of proj with
  | ?R → ?T =>
      let g := fresh "g" in let r := fresh "r" in
      refine (λ (g : T → T) (r : R), _);
      let e := constr:(_ : Eta R) in
      let e := eval cbv beta delta [eta_expand] in (@eta_expand R e) in
      let e := (let h := head e in eval cbv beta delta [h] in (e r)) in
      let e := lazymatch e with context [proj r] => eval pattern (proj r) in e end in
      lazymatch e with
      | ?body _ => let b := eval cbv beta in (body (g (proj r))) in exact b
      end
  end
with head t := lazymatch t with ?f _ => head f | _ => t end.

#[export] Hint Extern 0 (Setter ?proj) => build_setter proj : typeclass_instances.

Declare Scope go_scope.
Delimit Scope go_scope with go.
Open Scope go_scope.

Notation "r <| f := v |>" := (set_field f (fun _ => v) r)
  (at level 1, f at next level, left associativity,
   format "r  <| f  :=  v |>") : go_scope.
Notation "r <| f ::= g |>" := (set_field f g r)
  (at level 1, f at next level, left associativity,
   format "r  <| f  ::=  g |>") : go_scope.

(** ** Boolean tests on strings and integers, as Go writes them *)

Notation "a == b" := (String.eqb a b) (at level 70, no associativity) : go_scope.
Notation "a != b" := (negb (String.eqb a b)) (at level 70, no associativity) : go_scope.

Lemma eqb_true (a b : string) : (a == b) = true ↔ a = b.
Proof. apply String.eqb_eq. Qed.

Lemma eqb_false (a b : string) : (a == b) = false ↔ a ≠ b.
Proof. apply String.eqb_neq. Qed.

Lemma eqb_refl (a : string) : (a == a) = true.
Proof. apply String.eqb_refl. Qed.

(** ** Go error values

    An error is a tree: a text, a sentinel compared with [errors.Is], a
    [fmt.Errorf] wrapper with one [%w], one of the repository's error types
    (appd.CodedError, vpn.ConnectError, profileio.ValidationError), or an
    [errors.Join].  [EofKind], [NetTimeout] and [DnsError] stand for the
    standard library's values the code tests for. *)

Inductive sentinel :=
  | SecretNotFound | NotExist | NoPermission | NetErrClosed | CtxCanceled | CtxDeadlineExceeded
  | IoEOF | IoUnexpectedEOF | NoTunnelAddress | UnsupportedIPv6Proxy
  | NoCurrentProfile | ConnectInProgress | NetTimeout | DnsError | TlsVerification.

#[export] Instance sentinel_eq_dec : EqDecision sentinel.
Proof. solve_decision. Defined.

#[warnings="-register-all"]
Inductive error :=
  | ErrText (msg : string)
  | ErrSentinel (s : sentinel) (msg : string)
  | ErrWrap (pre : string) (inner : error) (post : string)
  | ErrCoded (code message : string) (retryable : bool) (cause : option error)
  | ErrConnect (stage : string) (retryable : bool) (inner : error)
  | ErrValidation (inner : error)
  | ErrJoin (first second : error).

Fixpoint error_msg (e : error) : string :=
  match e with
  | ErrText m => m
  | ErrSentinel _ m => m
  | ErrWrap pre i post => pre +:+ error_msg i +:+ post
  | ErrCoded _ m _ _ => m
  | ErrConnect stage _ i => stage +:+ ": " +:+ error_msg i
  | ErrValidation i => error_msg i
  | ErrJoin a b => error_msg a +:+ String "010" "" +:+ error_msg b
  end.

(** [errors.Is(e, s)]: depth-first search of the tree. *)
Fixpoint errors_is (e : error) (s : sentinel) : bool :=
  match e with
  | ErrText _ => false
  | ErrSentinel s' _ => bool_decide (s' = s)
  | ErrWrap _ i _ => errors_is i s
  | ErrCoded _ _ _ c => match c with Some i => errors_is i s | None => false end
  | ErrConnect _ _ i => errors_is i s
  | ErrValidation i => errors_is i s
  | ErrJoin a b => errors_is a s || errors_is b s
  end.

(** ** The state monad with errors and crashes

    A computation threads a world [W].  [Failed] is a returned Go error: the
    world keeps every change made before it.  [Crashed] is the death of the
    process in the middle of the computation: what is left is only what
    durable storage holds. *)

Inductive Outcome (A : Type) :=
  | Done (a : A)
  | Failed (e : error)
  | Crashed.
Arguments Done {A} a.
Arguments Failed {A} e.
Arguments Crashed {A}.

Definition M (W A : Type) : Type := W → W * Outcome A.

#[export] Instance M_ret W : MRet (M W) := λ A a w, (w, Done a).
#[export] Instance M_bind W : MBind (M W) := λ A B f m w,
  match m w with
  | (w', Done a) => f a w'
  | (w', Failed e) => (w', Failed e)
  | (w', Crashed) => (w', Crashed)
  end.

Definition read {W A} (f : W → A) : M W A := λ w, (w, Done (f w)).
Definition modify {W} (f : W → W) : M W () := λ w, (f w, Done ()).
Definition fail {W A} (e : error) : M W A := λ w, (w, Failed e).

(** [if cond { return err }] and [if cond { stmt }]. *)
Definition fail_if {W} (b : bool) (e : error) : M W () := if b then fail e else mret ().
Definition when {W} (b : bool) (m : M W ()) : M W () := if b then m else mret ().

(** [err := call()] followed by code that inspects [err]. *)
Definition try {W A} (m : M W A) : M W (error + A) := λ w,
  match m w with
  | (w', Done a) => (w', Done (inr a))
  | (w', Failed e) => (w', Done (inl e))
  | (w', Crashed) => (w', Crashed)
  end.

(** [if err := call(); err != nil { return wrap(err) }]. *)
Definition wrap {W A} (g : error → error) (m : M W A) : M W A := λ w,
  match m w with
  | (w', Failed e) => (w', Failed (g e))
  | r => r
  end.

(** Weakest preconditions: what holds of the outcome and the final world. *)
Definition wp {W A} (m : M W A) (Q : Outcome A → W → Prop) (w : W) : Prop :=
  Q (snd (m w)) (fst (m w)).

Section wp.
Context {W : Type}.
Implicit Types (w : W).

Lemma wp_run {A} (m : M W A) Q w w' o : wp m Q w → m w = (w', o) → Q o w'.
Proof. unfold wp. intros H E. by rewrite E in H. Qed.

Lemma wp_intro {A} (m : M W A) (Q : Outcome A → W → Prop) w :
  (∀ w' o, m w = (w', o) → Q o w') → wp m Q w.
Proof. intros H. apply H. by destruct (m w). Qed.

Lemma wp_mono {A} (m : M W A) (Q Q' : Outcome A → W → Prop) w :
  wp m Q w → (∀ o w', Q o w' → Q' o w') → wp m Q' w.
Proof. unfold wp. auto. Qed.

Lemma wp_ret {A} (a : A) Q w : Q (Done a) w → wp (mret a) Q w.
Proof. done. Qed.

Lemma wp_fail {A} e (Q : Outcome A → W → Prop) w : Q (Failed e) w → wp (fail e) Q w.
Proof. done. Qed.

Lemma wp_read {A} (f : W → A) Q w : Q (Done (f w)) w → wp (read f) Q w.
Proof. done. Qed.

Lemma wp_modify (f : W → W) Q w : Q (Done ()) (f w) → wp (modify f) Q w.
Proof. done. Qed.

Lemma wp_bind {A B} (m : M W A) (f : A → M W B) Q w :
  wp m (λ o w', match o with
                | Done a => wp (f a) Q w'
                | Failed e => Q (Failed e) w'
                | Crashed => Q Crashed w'
                end) w →
  wp (m ≫= f) Q w.
Proof. unfold wp, mbind, M_bind. by destruct (m w) as [w' [a|e|]]. Qed.

Lemma wp_try {A} (m : M W A) Q w :
  wp m (λ o w', match o with
                | Done a => Q (Done (inr a)) w'
                | Failed e => Q (Done (inl e)) w'
                | Crashed => Q Crashed w'
                end) w →
  wp (try m) Q w.
Proof. unfold wp, try. by destruct (m w) as [w' [a|e|]]. Qed.

Lemma wp_wrap {A} g (m : M W A) Q w :
  wp m (λ o w', match o with Failed e => Q (Failed (g e)) w' | _ => Q o w' end) w →
  wp (wrap g m) Q w.
Proof. unfold wp, wrap. by destruct (m w) as [w' [a|e|]]. Qed.

Lemma wp_fail_if (b : bool) e Q w :
  (b = true → Q (Failed e) w) → (b = false → Q (Done ()) w) → wp (fail_if b e) Q w.
Proof. destruct b; unfold wp; cbn; auto. Qed.

Lemma wp_when (b : bool) (m : M W ()) Q w :
  (b = true → wp m Q w) → (b = false → Q (Done ()) w) → wp (when b m) Q w.
Proof. destruct b; unfold wp; cbn; auto. Qed.

(** [preserves I m]: every run of [m], complete, failed or cut short,
    keeps the invariant. *)
Definition preserves {A} (I : W → Prop) (m : M W A) : Prop := ∀ w, I w → wp m (λ _, I) w.

Lemma preserves_ret {A} I (a : A) : preserves I (mret a).
Proof. by intros w Hw. Qed.

Lemma preserves_fail {A} I e : preserves I (fail (A:=A) e).
Proof. by intros w Hw. Qed.

Lemma preserves_read {A} I (f : W → A) : preserves I (read f).
Proof. by intros w Hw. Qed.

Lemma preserves_modify (I : W → Prop) f : (∀ w, I w → I (f w)) → preserves I (modify f).
Proof. intros H w Hw. by apply H. Qed.

Lemma preserves_bind {A B} I (m : M W A) (f : A → M W B) :
  preserves I m → (∀ a, preserves I (f a)) → preserves I (m ≫= f).
Proof.
  intros Hm Hf w Hw. apply wp_bind. eapply wp_mono; [by apply Hm|].
  intros [a|e|] w' Hw'; [by apply Hf|done|done].
Qed.

Lemma preserves_try {A} I (m : M W A) : preserves I m → preserves I (try m).
Proof.
  intros Hm w Hw. apply wp_try. eapply wp_mono; [by apply Hm|]. by intros [] ?.
Qed.

Lemma preserves_wrap {A} I g (m : M W A) : preserves I m → preserves I (wrap g m).
Proof.
  intros Hm w Hw. apply wp_wrap. eapply wp_mono; [by apply Hm|]. by intros [] ?.
Qed.

Lemma preserves_fail_if I (b : bool) e : preserves I (fail_if b e).
Proof. intros w Hw. by apply wp_fail_if. Qed.

Lemma preserves_when I (b : bool) (m : M W ()) : preserves I m → preserves I (when b m).
Proof. intros Hm w Hw. apply wp_when; [intros _; by apply Hm|done]. Qed.

Lemma preserves_if {A} I (b : bool) (m1 m2 : M W A) :
  preserves I m1 → preserves I m2 → preserves I (if b then m1 else m2).
Proof. by destruct b. Qed.
End wp.

Create Rewrite HintDb go_rw.
Create HintDb go discriminated.
#[export] Hint Constants Opaque : go.
#[export] Hint Variables Opaque : go.
#[export] Hint Resolve preserves_ret preserves_fail preserves_read preserves_bind
  preserves_try preserves_wrap preserves_fail_if preserves_when preserves_if : go.

(** One step of symbolic execution of a monadic goal. *)
Ltac wp_step :=
  lazymatch goal with
  | |- wp (mret _) _ _ => apply wp_ret
  | |- wp (fail _) _ _ => apply wp_fail
  | |- wp (read _) _ _ => apply wp_read
  | |- wp (modify _) _ _ => apply wp_modify
  | |- wp (mbind _ _) _ _ => apply wp_bind
  | |- wp (try _) _ _ => apply wp_try
  | |- wp (wrap _ _) _ _ => apply wp_wrap
  | |- wp (fail_if _ _) _ _ => apply wp_fail_if; intros ?
  | |- wp (when _ _) _ _ => apply wp_when; intros ?
  end.
Ltac wp_steps := repeat (wp_step; cbv beta iota).

(** Structural search for [preserves] goals; the leaves go to the hints. *)
Ltac preserve :=
  repeat first
    [ progress intros
    | apply preserves_ret | apply preserves_fail | apply preserves_read
    | apply preserves_fail_if
    | apply preserves_when | apply preserves_try | apply preserves_wrap
    | solve [eauto 2 with go]
    | apply preserves_bind
    | match goal with
      | |- preserves _ (match ?x with _ => _ end) => destruct x eqn:?
      end ].

(** ** Lists *)

Section lists.
Context {A : Type}.

(** [s[len(s)-n:]] for the bounded histories the daemon keeps. *)
Definition last_n (n : nat) (l : list A) : list A := drop (length l - n) l.

Lemma length_last_n n l : length (last_n n l) = min n (length l).
Proof. unfold last_n. rewrite length_drop. lia. Qed.

Lemma last_n_all n l : length l ≤ n → last_n n l = l.
Proof. intros H. unfold last_n. by replace (length l - n) with 0 by lia. Qed.

Lemma last_n_suffix n l : ∃ k, last_n n l `suffix_of` l ∧ l = k ++ last_n n l.
Proof.
  exists (take (length l - n) l). unfold last_n. split.
  - exists (take (length l - n) l). by rewrite take_drop.
  - by rewrite take_drop.
Qed.

Lemma last_n_Forall (P : A → Prop) n l : Forall P l → Forall P (last_n n l).
Proof. apply Forall_drop. Qed.

(** First index whose element satisfies a test: the [for i := range] loops
    with a [break]. *)
Fixpoint find_index (f : A → bool) (l : list A) : option nat :=
  match l with
  | [] => None
  | x :: l => if f x then Some 0 else S <$> find_index f l
  end.

Lemma find_index_Some f l i :
  find_index f l = Some i →
  ∃ x, l !! i = Some x ∧ f x = true ∧ ∀ j y, j < i → l !! j = Some y → f y = false.
Proof.
  revert i; induction l as [|a l IH]; intros i; cbn; [done|].
  destruct (f a) eqn:Ha.
  - intros [= <-]. exists a. split_and!; [done..|]. lia.
  - intros (j & Hj & ->)%fmap_Some. destruct (IH j Hj) as (x & Hx & Hf & Hmin).
    exists x. split_and!; [done..|]. intros [|k] y Hk; cbn; [congruence|].
    apply Hmin. lia.
Qed.

Lemma find_index_None f l : find_index f l = None ↔ Forall (λ x, f x = false) l.
Proof.
  induction l as [|a l IH]; cbn; [by split|].
  rewrite Forall_cons. destruct (f a) eqn:Ha.
  - split; [done|]. by intros [? _].
  - destruct (find_index f l); cbn; naive_solver.
Qed.
End lists.

Lemma list_filter_fmap {A B} (P : B → Prop) `{∀ x, Decision (P x)} (f : A → B) (l : list A) :
  filter P (f <$> l) = f <$> filter (λ x, P (f x)) l.
Proof.
  induction l as [|a l IH]; [done|]. rewrite fmap_cons, !filter_cons, IH.
  by destruct (decide (P (f a))).
Qed.
