(* ===== verification/GoStrings.v ===== *)
(** * Go strings

    The functions of Go's [strings], [strconv] and [slices] packages that the
    modelled sources call.  A Go string is a byte sequence; it is the standard
    [string] (a list of 8-bit [ascii]).  [TrimSpace] removes the UTF-8 encoding
    of every character of Unicode's White_Space property, so it is exact on
    UTF-8 text; [ToLower] maps the ASCII letters and leaves other bytes alone;
    [quote] (the verb %q) escapes control bytes and leaves bytes above 0x7f
    as they are. *)

From S2P Require Import Prelude.
From stdpp Require Export pretty.
From Stdlib Require Export Ascii.

Open Scope go_scope.

Definition len (s : string) : nat := String.length s.

Fixpoint drop_str (n : nat) (s : string) : string :=
  match n, s with
  | 0, _ => s
  | S n, String _ s => drop_str n s
  | S _, EmptyString => EmptyString
  end.

Fixpoint take_str (n : nat) (s : string) : string :=
  match n, s with
  | S n, String c s => String c (take_str n s)
  | _, _ => EmptyString
  end.

Definition rev_str (s : string) : string :=
  String.string_of_list_ascii (reverse (String.list_ascii_of_string s)).

Definition HasPrefix (s p : string) : bool := String.prefix p s.
Definition HasSuffix (s p : string) : bool := String.prefix (rev_str p) (rev_str s).
Definition TrimPrefix (s p : string) : string := if HasPrefix s p then drop_str (len p) s else s.
Definition TrimSuffix (s p : string) : string :=
  if HasSuffix s p then take_str (len s - len p) s else s.

(** [strings.IndexByte] and [strings.LastIndexByte]. *)
Fixpoint index_byte (s : string) (c : ascii) : option nat :=
  match s with
  | EmptyString => None
  | String d s => if Ascii.eqb d c then Some 0 else S <$> index_byte s c
  end.
Fixpoint last_index_byte (s : string) (c : ascii) : option nat :=
  match s with
  | EmptyString => None
  | String d s =>
      match last_index_byte s c with
      | Some i => Some (S i)
      | None => if Ascii.eqb d c then Some 0 else None
      end
  end.
Definition contains_byte (s : string) (c : ascii) : bool := bool_decide (is_Some (index_byte s c)).

(** [strings.Contains]. *)
Fixpoint Contains (s sub : string) : bool :=
  HasPrefix s sub ||
  match s with
  | EmptyString => false
  | String _ s => Contains s sub
  end.

(** [strings.Split(s, sep)] for a one-byte separator. *)
Fixpoint split_byte (s : string) (c : ascii) : list string :=
  match s with
  | EmptyString => [""]
  | String d s =>
      if Ascii.eqb d c then "" :: split_byte s c
      else match split_byte s c with
           | w :: ws => String d w :: ws
           | [] => [String d ""]
           end
  end.

(** [strings.Join]. *)
Definition Join (l : list string) (sep : string) : string := String.concat sep l.

(** [strings.ReplaceAll] of one byte by one byte. *)
Fixpoint replace_byte (s : string) (c d : ascii) : string :=
  match s with
  | EmptyString => EmptyString
  | String a s => String (if Ascii.eqb a c then d else a) (replace_byte s c d)
  end.

Definition lower_byte (c : ascii) : ascii :=
  let n := nat_of_ascii c in
  if (65 <=? n)%nat && (n <=? 90)%nat then ascii_of_nat (n + 32) else c.

Fixpoint ToLower (s : string) : string :=
  match s with
  | EmptyString => EmptyString
  | String c s => String (lower_byte c) (ToLower s)
  end.

(** ** White space *)

Definition bytes_str (l : list nat) : string := String.string_of_list_ascii (ascii_of_nat <$> l).

(** The UTF-8 encodings of the characters for which unicode.IsSpace holds. *)
Definition white_space : list string := bytes_str <$>
  [ [9]; [10]; [11]; [12]; [13]; [32];
    [0xC2; 0x85]; [0xC2; 0xA0]; [0xE1; 0x9A; 0x80];
    [0xE2; 0x80; 0x80]; [0xE2; 0x80; 0x81]; [0xE2; 0x80; 0x82]; [0xE2; 0x80; 0x83];
    [0xE2; 0x80; 0x84]; [0xE2; 0x80; 0x85]; [0xE2; 0x80; 0x86]; [0xE2; 0x80; 0x87];
    [0xE2; 0x80; 0x88]; [0xE2; 0x80; 0x89]; [0xE2; 0x80; 0x8A];
    [0xE2; 0x80; 0xA8]; [0xE2; 0x80; 0xA9]; [0xE2; 0x80; 0xAF]; [0xE2; 0x81; 0x9F];
    [0xE3; 0x80; 0x80] ].

(** The longest prefix of [s] made of the encodings in [ws] is dropped; the
    length of [s] bounds the number of rounds, each of which removes a byte. *)
Fixpoint trim_left_fuel (fuel : nat) (ws : list string) (s : string) : string :=
  match fuel with
  | 0 => s
  | S fuel =>
      match list_find (λ w, HasPrefix s w = true) ws with
      | Some (_, w) => trim_left_fuel fuel ws (drop_str (len w) s)
      | None => s
      end
  end.
Definition trim_left (ws : list string) (s : string) : string := trim_left_fuel (len s) ws s.
Definition TrimSpace (s : string) : string :=
  rev_str (trim_left (rev_str <$> white_space) (rev_str (trim_left white_space s))).

(** [strings.Fields]: the pieces between white space. *)
Fixpoint fields_fuel (fuel : nat) (word s : string) : list string :=
  let flush := if word == "" then [] else [word] in
  match fuel with
  | O => flush
  | S fuel =>
    match s with
    | EmptyString => flush
    | String c rest =>
      match list_find (λ w, HasPrefix s w = true) white_space with
      | Some (_, w) => flush ++ fields_fuel fuel "" (drop_str (len w) s)
      | None => fields_fuel fuel (word +:+ String c "") rest
      end
    end
  end.
Definition Fields (s : string) : list string := fields_fuel (S (len s)) "" s.

(** [strings.TrimRight(s, cutset)] for an ASCII cutset. *)
Definition TrimRight (s : string) (cutset : list ascii) : string :=
  rev_str (trim_left ((λ c, String c "") <$> cutset) (rev_str s)).

(** ** Numbers *)

Definition is_digit (c : ascii) : bool :=
  let n := nat_of_ascii c in (48 <=? n)%nat && (n <=? 57)%nat.
Definition digit_val (c : ascii) : Z := (Z.of_nat (nat_of_ascii c) - 48)%Z.

Fixpoint parse_digits (s : string) (acc : Z) : option Z :=
  match s with
  | EmptyString => Some acc
  | String c s => if is_digit c then parse_digits s (acc * 10 + digit_val c)%Z else None
  end.

Definition max_int64 : Z := (2 ^ 63 - 1)%Z.
Definition max_uint64 : Z := (2 ^ 64 - 1)%Z.

(** [strconv.ParseUint(s, 10, 64)]. *)
Definition ParseUint (s : string) : option Z :=
  match s with
  | EmptyString => None
  | _ => n ← parse_digits s 0; guard (n ≤ max_uint64)%Z;; Some n
  end.

(** [strconv.Atoi] on a 64-bit platform. *)
Definition Atoi (s : string) : option Z :=
  match s with
  | String "+" (String _ _ as r) => n ← parse_digits r 0; guard (n ≤ max_int64)%Z;; Some n
  | String "-" (String _ _ as r) => n ← parse_digits r 0; guard (n ≤ max_int64 + 1)%Z;; Some (- n)%Z
  | EmptyString => None
  | _ => n ← parse_digits s 0; guard (n ≤ max_int64)%Z;; Some n
  end.

(** The value [strconv.Atoi] returns next to its error: out of range it is the
    nearest bound, for a syntax error it is zero. *)
Definition Atoi_value (s : string) : Z :=
  let clamp sign body := match body with
    | EmptyString => 0%Z
    | _ => match parse_digits body 0 with
           | Some n => if sign : bool then Z.max (- n) (- max_int64 - 1) else Z.min n max_int64
           | None => 0%Z
           end
    end in
  match s with
  | String "+" r => clamp false r
  | String "-" r => clamp true r
  | _ => clamp false s
  end.

(** Arithmetic of a 64-bit [int]: the result wraps around. *)
Definition wrap64 (z : Z) : Z := ((z + 2 ^ 63) mod 2 ^ 64 - 2 ^ 63)%Z.

(** [strconv.Itoa] and the verbs %d on integers. *)
Definition Itoa (n : Z) : string := pretty n.

Lemma wrap64_id z : (- 2 ^ 63 ≤ z < 2 ^ 63)%Z → wrap64 z = z.
Proof. intros H. unfold wrap64. rewrite Z.mod_small; lia. Qed.

(** ** The verb %q *)

Definition hex_digit (n : nat) : ascii :=
  ascii_of_nat (if (n <? 10)%nat then 48 + n else 87 + n).
Definition quote_byte (c : ascii) : string :=
  let n := nat_of_ascii c in
  match n with
  | 7 => "\a" | 8 => "\b" | 9 => "\t" | 10 => "\n" | 11 => "\v" | 12 => "\f" | 13 => "\r"
  | 34 => String "\" (String "034" EmptyString)
  | 92 => "\\"
  | _ => if (n <? 32)%nat || (n =? 127)%nat
         then String "\" (String "x" (String (hex_digit (n / 16)) (String (hex_digit (n mod 16)) "")))
         else String c ""
  end.
Fixpoint quote_body (s : string) : string :=
  match s with
  | EmptyString => ""
  | String c s => quote_byte c +:+ quote_body s
  end.
Definition quote (s : string) : string :=
  String "034" (quote_body s +:+ String "034" EmptyString).

(** ** Booleans, and the errors of strconv *)

(** [strconv.ParseBool]. *)
Definition ParseBool (s : string) : option bool :=
  if bool_decide (s ∈ ["1"; "t"; "T"; "true"; "TRUE"; "True"]) then Some true
  else if bool_decide (s ∈ ["0"; "f"; "F"; "false"; "FALSE"; "False"]) then Some false
  else None.

Definition syntax_error (func v : string) : error := ErrText ("strconv." +:+ func +:+ ": parsing " +:+ quote v +:+ ": invalid syntax").

Definition atoi_error (v : string) : error :=
  let digits := match v with String c v' => if bool_decide (c ∈ ["+"; "-"]%char) then v' else v | _ => v end in
  match digits, parse_digits digits 0 with
  | String _ _, Some _ => ErrText ("strconv.Atoi: parsing " +:+ quote v +:+ ": value out of range")
  | _, _ => syntax_error "Atoi" v
  end.

(** ** Lemmas *)

Lemma str_app_cons c (s t : string) : String c s +:+ t = String c (s +:+ t).
Proof. done. Qed.

Lemma str_app_nil_l (s : string) : "" +:+ s = s.
Proof. done. Qed.

Lemma str_app_nil_r (s : string) : s +:+ "" = s.
Proof. induction s as [|c s IH]; [done|]. by rewrite str_app_cons, IH. Qed.

Lemma str_app_assoc (a b c : string) : (a +:+ b) +:+ c = a +:+ (b +:+ c).
Proof. induction a as [|x a IH]; [done|]. rewrite ?str_app_cons. cbn. by rewrite IH. Qed.

Lemma list_of_str_app a b :
  String.list_ascii_of_string (a +:+ b) = String.list_ascii_of_string a ++ String.list_ascii_of_string b.
Proof. induction a as [|x a IH]; [done|]. rewrite ?str_app_cons. cbn. by rewrite IH. Qed.

Lemma str_of_list_app a b :
  String.string_of_list_ascii (a ++ b) = String.string_of_list_ascii a +:+ String.string_of_list_ascii b.
Proof. induction a as [|x a IH]; [done|]. rewrite ?str_app_cons. cbn. by rewrite IH. Qed.

Lemma rev_str_app a b : rev_str (a +:+ b) = rev_str b +:+ rev_str a.
Proof. unfold rev_str. by rewrite list_of_str_app, reverse_app, str_of_list_app. Qed.

Lemma rev_str_involutive s : rev_str (rev_str s) = s.
Proof.
  unfold rev_str. rewrite String.list_ascii_of_string_of_list_ascii, reverse_involutive.
  apply String.string_of_list_ascii_of_string.
Qed.

Lemma len_app a b : len (a +:+ b) = len a + len b.
Proof. induction a as [|x a IH]; [done|]. unfold len in *. rewrite str_app_cons. cbn. by rewrite IH. Qed.

Lemma HasPrefix_cons c d p s :
  HasPrefix (String d s) (String c p) = if Ascii.ascii_dec c d then HasPrefix s p else false.
Proof. done. Qed.

Lemma HasPrefix_spec s p : HasPrefix s p = true ↔ ∃ t, s = p +:+ t.
Proof.
  revert s; induction p as [|c p IH]; intros s.
  - split; [by exists s|]. by destruct s.
  - destruct s as [|d s].
    { split; [done|]; intros [t Ht]. by rewrite str_app_cons in Ht. }
    rewrite HasPrefix_cons. destruct (Ascii.ascii_dec c d) as [->|Hne].
    + rewrite IH. split; intros [t Ht]; exists t; rewrite ?str_app_cons in *; congruence.
    + split; [done|]. intros [t Ht]. rewrite str_app_cons in Ht. congruence.
Qed.

Lemma drop_str_app p t : drop_str (len p) (p +:+ t) = t.
Proof. induction p as [|c p IH]; [by destruct t|apply IH]. Qed.

Lemma take_str_app p t : take_str (len p) (p +:+ t) = p.
Proof. induction p as [|c p IH]; [by destruct t|]. rewrite str_app_cons. cbn. f_equal. apply IH. Qed.

Lemma HasPrefix_app p t : HasPrefix (p +:+ t) p = true.
Proof. apply HasPrefix_spec. by exists t. Qed.

Lemma TrimPrefix_app p t : TrimPrefix (p +:+ t) p = t.
Proof. unfold TrimPrefix. by rewrite HasPrefix_app, drop_str_app. Qed.

Lemma len_drop_str n s : len (drop_str n s) = len s - n.
Proof. revert s; induction n as [|n IH]; intros [|c s]; cbn; [done..|apply IH]. Qed.

(** *** White space *)

Definition no_prefix (ws : list string) (s : string) : Prop :=
  Forall (λ w, HasPrefix s w = false) ws.

Lemma no_prefix_find ws s :
  no_prefix ws s ↔ list_find (λ w, HasPrefix s w = true) ws = None.
Proof.
  unfold no_prefix. rewrite list_find_None, !Forall_forall.
  by setoid_rewrite not_true_iff_false.
Qed.

Lemma trim_left_id ws s : no_prefix ws s → trim_left ws s = s.
Proof.
  intros H%no_prefix_find. unfold trim_left. destruct (len s); cbn; [done|].
  by rewrite H.
Qed.

Lemma trim_left_fuel_spec fuel ws s :
  Forall (λ w, w ≠ "") ws → len s ≤ fuel →
  no_prefix ws (trim_left_fuel fuel ws s) ∧ ∃ u, s = u +:+ trim_left_fuel fuel ws s.
Proof.
  intros Hws. revert s; induction fuel as [|fuel IH]; intros s Hlen; cbn.
  - destruct s as [|c s]; [|cbn in Hlen; lia]. split; [|by exists ""].
    eapply Forall_impl; [done|]. by intros [|c w] ?.
  - destruct (list_find _ ws) as [[i w]|] eqn:Hf.
    + apply list_find_Some in Hf as (Hi & [t ->]%HasPrefix_spec & _).
      assert (w ≠ "") as Hne.
      { rewrite Forall_forall in Hws. apply Hws. by eapply list_elem_of_lookup_2. }
      rewrite drop_str_app. rewrite len_app in Hlen.
      destruct (IH t) as [Hnp [u Hu]].
      { destruct w; [done|]. cbn in Hlen. lia. }
      split; [done|]. exists (w +:+ u). by rewrite str_app_assoc, <- Hu.
    + split; [by apply no_prefix_find|by exists ""].
Qed.

Lemma trim_left_spec ws s :
  Forall (λ w, w ≠ "") ws →
  no_prefix ws (trim_left ws s) ∧ ∃ u, s = u +:+ trim_left ws s.
Proof. intros. by apply trim_left_fuel_spec. Qed.

Lemma no_prefix_app ws s t : no_prefix ws (s +:+ t) → no_prefix ws s.
Proof.
  intros H. eapply Forall_impl; [done|]. intros w Hw; cbn in *.
  apply not_true_iff_false. apply not_true_iff_false in Hw. intros [u ->]%HasPrefix_spec.
  apply Hw, HasPrefix_spec. exists (u +:+ t). by rewrite str_app_assoc.
Qed.

Lemma white_space_nonempty : Forall (λ w, w ≠ "") white_space.
Proof. apply (bool_decide_unpack _). vm_compute. exact I. Qed.

Lemma rev_white_space_nonempty : Forall (λ w, w ≠ "") (rev_str <$> white_space).
Proof. apply (bool_decide_unpack _). vm_compute. exact I. Qed.

(** [TrimSpace s] has no white space at either end. *)
Definition trimmed (s : string) : Prop :=
  no_prefix white_space s ∧ no_prefix (rev_str <$> white_space) (rev_str s).

Lemma TrimSpace_trimmed s : trimmed (TrimSpace s).
Proof.
  unfold trimmed, TrimSpace.
  destruct (trim_left_spec white_space s white_space_nonempty) as [Hl _].
  set (l := trim_left white_space s) in *.
  destruct (trim_left_spec _ (rev_str l) rev_white_space_nonempty) as [Hr [u Hu]].
  rewrite rev_str_involutive. split; [|done].
  apply (f_equal rev_str) in Hu. rewrite rev_str_involutive, rev_str_app in Hu.
  rewrite Hu in Hl. by eapply no_prefix_app.
Qed.

Lemma TrimSpace_id s : trimmed s → TrimSpace s = s.
Proof.
  intros [Hl Hr]. unfold TrimSpace.
  by rewrite (trim_left_id _ s), trim_left_id, rev_str_involutive.
Qed.

Lemma TrimSpace_idem s : TrimSpace (TrimSpace s) = TrimSpace s.
Proof. apply TrimSpace_id, TrimSpace_trimmed. Qed.

Lemma TrimSpace_nil : TrimSpace "" = "".
Proof. done. Qed.

#[export] Hint Resolve TrimSpace_trimmed : go.
#[export] Hint Rewrite TrimSpace_idem TrimSpace_nil str_app_nil_r eqb_refl : go_rw.

(** *** Concatenations that stay trimmed *)

(** White space encodings of more than one byte have no ASCII byte. *)
Definition wide (w : string) : bool :=
  match w with
  | String _ (String _ _) => forallb (λ c, (128 <=? nat_of_ascii c)%nat) (String.list_ascii_of_string w)
  | _ => true
  end.

Lemma HasPrefix_app_ascii w s c t :
  (nat_of_ascii c < 128)%nat → HasPrefix (s +:+ String c t) w = true →
  HasPrefix s w = true ∨ ∃ d, d ∈ String.list_ascii_of_string w ∧ (nat_of_ascii d < 128)%nat.
Proof.
  intros Hc. revert w; induction s as [|a s IH]; intros [|b w].
  - by left.
  - rewrite str_app_nil_l, HasPrefix_cons. destruct (Ascii.ascii_dec b c) as [->|]; [|done].
    intros _. right. exists c. split; [by left|done].
  - left. done.
  - rewrite str_app_cons, !HasPrefix_cons. destruct (Ascii.ascii_dec b a) as [->|]; [|done].
    intros [?|(d & Hd & ?)]%IH; [by left|]. right. exists d. split; [by right|done].
Qed.

Lemma no_prefix_app_ascii ws s c t :
  forallb wide ws = true → s ≠ "" → (nat_of_ascii c < 128)%nat →
  no_prefix ws s → no_prefix ws (s +:+ String c t).
Proof.
  intros Hw Hs Hc H. unfold no_prefix in *. rewrite Forall_forall in *. intros w Hin.
  specialize (H w Hin). apply not_true_iff_false. intros Hp.
  rewrite forallb_forall in Hw. specialize (Hw w (proj1 (list_elem_of_In _ _) Hin)).
  destruct w as [|a [|b w]].
  - by destruct s.
  - destruct s as [|d s]; [done|]. rewrite str_app_cons, HasPrefix_cons in *.
    destruct (Ascii.ascii_dec a d); [|done]. by destruct s.
  - destruct (HasPrefix_app_ascii _ _ _ _ Hc Hp) as [?|(d & Hd & Hlt)]; [congruence|].
    cbn [wide] in Hw. rewrite forallb_forall in Hw.
    specialize (Hw d (proj1 (list_elem_of_In _ _) Hd)). apply Nat.leb_le in Hw. lia.
Qed.

Lemma rev_str_nonempty s : s ≠ "" → rev_str s ≠ "".
Proof. intros Hs Hr. apply Hs. by rewrite <- (rev_str_involutive s), Hr. Qed.

Lemma rev_str_cons c s : rev_str (String c s) = rev_str s +:+ String c "".
Proof.
  replace (String c s) with (String c "" +:+ s) by done. by rewrite rev_str_app.
Qed.

(** Two non-empty trimmed texts joined by an ASCII byte are trimmed. *)
Lemma trimmed_join a c b :
  trimmed a → trimmed b → a ≠ "" → b ≠ "" → (nat_of_ascii c < 128)%nat →
  trimmed (a +:+ String c b).
Proof.
  intros [Ha _] [_ Hb] Hna Hnb Hc. split.
  - by apply no_prefix_app_ascii.
  - rewrite rev_str_app, rev_str_cons, str_app_assoc.
    apply no_prefix_app_ascii; [by vm_compute|by apply rev_str_nonempty|done..].
Qed.
