(* ===== verification/NetIP.v ===== *)
(** * Internet addresses

    Go's [net/netip] addresses and prefixes, and the IPv4 masks of package
    [net], as far as the modelled sources use them: parsing, printing,
    masking and classification.  An address is nothing (the zero [netip.Addr]),
    a 32-bit IPv4 address or a 128-bit IPv6 address with a zone. *)

From S2P Require Import Prelude GoStrings.

Open Scope go_scope.
Open Scope Z_scope.

Inductive Addr :=
  | AddrNone
  | Addr4 (a : Z)
  | Addr6 (a : Z) (zone : string).

#[export] Instance Addr_eq_dec : EqDecision Addr.
Proof. solve_decision. Defined.

#[export] Instance Addr_countable : Countable Addr.
Proof.
  apply (inj_countable'
    (λ a, match a with
          | AddrNone => inl ()
          | Addr4 a => inr (inl a)
          | Addr6 a z => inr (inr (a, z))
          end)
    (λ x, match x with
          | inl () => AddrNone
          | inr (inl a) => Addr4 a
          | inr (inr (a, z)) => Addr6 a z
          end)).
  by intros [].
Defined.

(** ** Classification *)

Definition BitLen (a : Addr) : Z :=
  match a with AddrNone => 0 | Addr4 _ => 32 | Addr6 _ _ => 128 end.
Definition IsValid (a : Addr) : bool := match a with AddrNone => false | _ => true end.
Definition Is4 (a : Addr) : bool := match a with Addr4 _ => true | _ => false end.
Definition Is4In6 (a : Addr) : bool :=
  match a with Addr6 a _ => Z.shiftr a 32 =? 0xffff | _ => false end.
Definition Is6 (a : Addr) : bool := match a with Addr6 _ _ => true | _ => false end.

Definition Unmap (a : Addr) : Addr :=
  match a with
  | Addr6 v _ => if Is4In6 a then Addr4 (Z.land v 0xffffffff) else a
  | _ => a
  end.

Definition IPv4Unspecified : Addr := Addr4 0.
Definition IPv6Unspecified : Addr := Addr6 0 "".
Definition IsUnspecified (a : Addr) : bool :=
  bool_decide (a = IPv4Unspecified) || bool_decide (a = IPv6Unspecified).
Definition IsLoopback (a : Addr) : bool :=
  match Unmap a with
  | Addr4 v => Z.shiftr v 24 =? 127
  | Addr6 v _ => v =? 1
  | AddrNone => false
  end.
Definition IsMulticast (a : Addr) : bool :=
  match Unmap a with
  | Addr4 v => Z.shiftr v 28 =? 0xe
  | Addr6 v _ => Z.shiftr v 120 =? 0xff
  | AddrNone => false
  end.
Definition IsLinkLocalUnicast (a : Addr) : bool :=
  match Unmap a with
  | Addr4 v => Z.shiftr v 16 =? 0xa9fe
  | Addr6 v _ => Z.shiftr v 118 =? 0x3fa
  | AddrNone => false
  end.
Definition IsGlobalUnicast (a : Addr) : bool :=
  match Unmap a with
  | AddrNone => false
  | Addr4 v => negb (v =? 0) && negb (v =? 0xffffffff)
  | Addr6 v _ => negb (v =? 0)
  end && negb (IsLoopback a) && negb (IsMulticast a) && negb (IsLinkLocalUnicast a).

(** ** Parsing *)

(** One decimal octet: digits only, no leading zero, at most 255. *)
Definition parse_octet (s : string) : option Z :=
  match s with
  | EmptyString => None
  | String "0" (String _ _) => None
  | _ => n ← parse_digits s 0; guard (n ≤ 255);; Some n
  end.

Definition v4_value (a b c d : Z) : Z := ((a * 256 + b) * 256 + c) * 256 + d.

Definition parse_v4_value (s : string) : option Z :=
  match split_byte s "." with
  | [f1; f2; f3; f4] =>
      a ← parse_octet f1; b ← parse_octet f2; c ← parse_octet f3; d ← parse_octet f4;
      Some (v4_value a b c d)
  | _ => None
  end.

Definition hex_val (c : ascii) : option Z :=
  let n := Z.of_nat (nat_of_ascii c) in
  if (48 <=? n) && (n <=? 57) then Some (n - 48)
  else if (97 <=? n) && (n <=? 102) then Some (n - 87)
  else if (65 <=? n) && (n <=? 70) then Some (n - 55)
  else None.

(** Longest run of hexadecimal digits: value, number of digits, rest. *)
Fixpoint hex_run (s : string) (acc : Z) (n : nat) : Z * nat * string :=
  match s with
  | String c r =>
      match hex_val c with
      | Some v => hex_run r (acc * 16 + v) (S n)
      | None => (acc, n, s)
      end
  | EmptyString => (acc, n, s)
  end.

(** The group loop of [netip.parseIPv6]: at most eight rounds; [groups] holds
    the 16-bit groups read so far, [ell] the position of the "::" in groups.
    Returns the groups, the ellipsis and the unread rest. *)
Fixpoint parse_v6_loop (fuel : nat) (s : string) (groups : list Z) (ell : option nat)
    : option (list Z * option nat * string) :=
  match fuel with
  | O => Some (groups, ell, s)
  | S fuel =>
      let '(acc, off, rest) := hex_run s 0 0 in
      if (4 <? off)%nat then None
      else if (off =? 0)%nat then None
      else match rest with
      | String "." _ =>
          let i := length groups in
          if bool_decide (ell = None) && negb (i =? 6)%nat then None
          else if (6 <? i)%nat then None
          else v ← parse_v4_value s;
               Some (groups ++ [Z.shiftr v 16; Z.land v 0xffff], ell, EmptyString)
      | EmptyString => Some (groups ++ [acc], ell, EmptyString)
      | String ":" EmptyString => None
      | String ":" (String ":" r) =>
          match ell with
          | Some _ => None
          | None =>
              let groups := groups ++ [acc] in
              match r with
              | EmptyString => Some (groups, Some (length groups), EmptyString)
              | _ => parse_v6_loop fuel r groups (Some (length groups))
              end
          end
      | String ":" r => parse_v6_loop fuel r (groups ++ [acc]) ell
      | _ => None
      end
  end.

Definition v6_value (groups : list Z) : Z := foldl (λ acc g, acc * 65536 + g) 0 groups.

Definition parse_v6 (s : string) : option Addr :=
  let '(s, zone, bad) :=
    match index_byte s "%" with
    | Some i => (take_str i s, drop_str (S i) s, (i + 1 =? len s)%nat)
    | None => (s, EmptyString, false)
    end in
  if bad then None
  else
    let '(s, ell) :=
      match s with
      | String ":" (String ":" r) => (r, Some O)
      | _ => (s, None)
      end in
    if (s == EmptyString) && bool_decide (ell = Some O) then Some (Addr6 0 zone)
    else
      '(groups, ell, rest) ← parse_v6_loop 8 s [] ell;
      if negb (rest == EmptyString) then None
      else
        let n := length groups in
        match ell with
        | None => if (n =? 8)%nat then Some (Addr6 (v6_value groups) zone) else None
        | Some e =>
            if (n =? 8)%nat then None
            else Some (Addr6 (v6_value (take e groups ++ replicate (8 - n) 0 ++ drop e groups)) zone)
        end.

(** [netip.ParseAddr]: the first '.', ':' or '%' decides the family. *)
Fixpoint first_sep (s : string) : option ascii :=
  match s with
  | EmptyString => None
  | String c r =>
      if Ascii.eqb c "." || Ascii.eqb c ":" || Ascii.eqb c "%" then Some c else first_sep r
  end.

Definition ParseAddr (s : string) : option Addr :=
  match first_sep s with
  | Some "."%char => Addr4 <$> parse_v4_value s
  | Some ":"%char => parse_v6 s
  | _ => None
  end.

(** ** Printing *)

Definition octet (v : Z) (i : Z) : Z := Z.land (Z.shiftr v (8 * (3 - i))) 255.

Definition v4_string (v : Z) : string :=
  Itoa (octet v 0) +:+ "." +:+ Itoa (octet v 1) +:+ "." +:+
  Itoa (octet v 2) +:+ "." +:+ Itoa (octet v 3).

(** A 16-bit group in lower-case hexadecimal without leading zeros. *)
Definition hex_group (g : Z) : string :=
  let d k := Z.to_nat (Z.land (Z.shiftr g (4 * k)) 15) in
  let s0 := String (hex_digit (d 0)) EmptyString in
  let s1 := String (hex_digit (d 1)) s0 in
  let s2 := String (hex_digit (d 2)) s1 in
  let s3 := String (hex_digit (d 3)) s2 in
  if g <? 16 then s0 else if g <? 256 then s1 else if g <? 4096 then s2 else s3.

Definition v6_groups (v : Z) : list Z :=
  (λ i : nat, Z.land (Z.shiftr v (16 * (7 - Z.of_nat i))) 65535) <$> seq 0 8.

Fixpoint zero_run (l : list Z) : nat :=
  match l with 0 :: l => S (zero_run l) | _ => O end.

(** First longest run of at least two zero groups, as (start, end). *)
Definition best_run (groups : list Z) : option (nat * nat) :=
  foldl (λ best i,
    let l := zero_run (drop i groups) in
    let cur := match best with Some (s, e) => (e - s)%nat | None => O end in
    if (2 <=? l)%nat && (cur <? l)%nat then Some (i, (i + l)%nat) else best)
    None (seq 0 8).

Definition v6_string (v : Z) : string :=
  let groups := v6_groups v in
  match best_run groups with
  | Some (s, e) =>
      Join (hex_group <$> take s groups) ":" +:+ "::" +:+ Join (hex_group <$> drop e groups) ":"
  | None => Join (hex_group <$> groups) ":"
  end.

Definition zone_suffix (zone : string) : string :=
  if zone == EmptyString then EmptyString else "%" +:+ zone.

Definition addr_string (a : Addr) : string :=
  match a with
  | AddrNone => "invalid IP"
  | Addr4 v => v4_string v
  | Addr6 v zone =>
      (if Is4In6 a then "::ffff:" +:+ v4_string (Z.land v 0xffffffff) else v6_string v)
      +:+ zone_suffix zone
  end.

(** ** Prefixes *)

(** [netip.Prefix]; an invalid prefix has [pfx_bits = -1]. *)
Record Prefix := mkPrefix { pfx_addr : Addr; pfx_bits : Z }.

#[export] Instance Prefix_eq_dec : EqDecision Prefix.
Proof. solve_decision. Defined.

#[export] Instance Prefix_countable : Countable Prefix.
Proof.
  apply (inj_countable' (λ p, (pfx_addr p, pfx_bits p)) (λ '(a, b), mkPrefix a b)).
  by intros [].
Defined.

Definition without_zone (a : Addr) : Addr :=
  match a with Addr6 v _ => Addr6 v EmptyString | _ => a end.

Definition PrefixFrom (a : Addr) (bits : Z) : Prefix :=
  mkPrefix (without_zone a)
    (if IsValid a && (0 <=? bits) && (bits <=? BitLen a) then bits else -1).

Definition pfx_valid (p : Prefix) : bool := 0 <=? pfx_bits p.

Definition mask_value (width bits v : Z) : Z :=
  Z.shiftl (Z.shiftr v (width - bits)) (width - bits).

(** [Prefix.Masked]. *)
Definition Masked (p : Prefix) : Prefix :=
  if pfx_valid p then
    match pfx_addr p with
    | AddrNone => mkPrefix AddrNone (-1)
    | Addr4 v => mkPrefix (Addr4 (mask_value 32 (pfx_bits p) v)) (pfx_bits p)
    | Addr6 v _ => mkPrefix (Addr6 (mask_value 128 (pfx_bits p) v) EmptyString) (pfx_bits p)
    end
  else mkPrefix AddrNone (-1).

Definition prefix_string (p : Prefix) : string :=
  if pfx_valid p then addr_string (pfx_addr p) +:+ "/" +:+ Itoa (pfx_bits p)
  else "invalid Prefix".

(** The length part of [netip.ParsePrefix]: no sign, no leading zero. *)
Definition parse_bits (s : string) : option Z :=
  match s with
  | String c (String _ _) => if is_digit c && negb (Ascii.eqb c "0") then Atoi s else None
  | _ => Atoi s
  end.

Definition netip_ParsePrefix (s : string) : option Prefix :=
  i ← last_index_byte s "/";
  a ← ParseAddr (take_str i s);
  match a with
  | Addr6 _ (String _ _) => None
  | _ =>
      bits ← parse_bits (drop_str (S i) s);
      if (bits <? 0) || (BitLen a <? bits) then None else Some (PrefixFrom a bits)
  end.

(** ** Package net: 4-byte masks *)

(** [net.ParseIP(s).To4()] as a value. *)
Definition ParseIP4 (s : string) : option Z :=
  match ParseAddr s with
  | Some a =>
      match a with
      | Addr6 _ (String _ _) => None
      | _ => match Unmap a with Addr4 v => Some v | _ => None end
      end
  | None => None
  end.

(** [net.ParseIP(s)]: any address without a zone. *)
Definition ParseIP (s : string) : option Addr :=
  match ParseAddr s with
  | Some (Addr6 _ (String _ _)) => None
  | r => r
  end.

(** [net.IPMask.Size] of a 4-byte mask: the number of leading ones, when the
    mask is canonical. *)
Definition mask_size (m : Z) : option Z :=
  (λ x : nat * nat, Z.of_nat (snd x)) <$>
    list_find (λ n : nat, m = mask_value 32 (Z.of_nat n) 0xffffffff) (seq 0 33).

(** ** Facts *)

Definition addr_ok (a : Addr) : Prop :=
  match a with
  | AddrNone => True
  | Addr4 v => 0 ≤ v < 2 ^ 32
  | Addr6 v _ => 0 ≤ v < 2 ^ 128
  end.

Lemma mask_value_idem w b v : b ≤ w → mask_value w b (mask_value w b v) = mask_value w b v.
Proof.
  intros Hb. unfold mask_value.
  rewrite Z.shiftr_shiftl_l by lia.
  by rewrite Z.sub_diag, Z.shiftl_0_r.
Qed.

Lemma mask_value_range w b v :
  0 ≤ b ≤ w → 0 ≤ v < 2 ^ w → 0 ≤ mask_value w b v < 2 ^ w.
Proof.
  intros Hb Hv. unfold mask_value.
  rewrite Z.shiftl_mul_pow2, Z.shiftr_div_pow2 by lia.
  assert (0 < 2 ^ (w - b)) as Hp by (apply Z.pow_pos_nonneg; lia).
  pose proof (Z.mul_div_le v (2 ^ (w - b)) Hp).
  pose proof (Z.div_pos v (2 ^ (w - b)) ltac:(lia) Hp). nia.
Qed.

Lemma Masked_idem p : pfx_bits p ≤ BitLen (pfx_addr p) → Masked (Masked p) = Masked p.
Proof.
  destruct p as [a b]; cbn; intros Hb. unfold Masked; cbn.
  destruct (pfx_valid (mkPrefix a b)) eqn:Hv; [|done].
  destruct a; cbn in *; [done|..]; unfold pfx_valid in *; cbn in *; rewrite Hv;
    by rewrite mask_value_idem by done.
Qed.

Example parse_examples :
  ParseAddr "10.1.2.3" = Some (Addr4 0x0a010203) ∧
  ParseAddr "010.1.2.3" = None ∧
  (addr_string <$> ParseAddr "2001:db8:0:0:1::1") = Some "2001:db8::1:0:0:1" ∧
  (addr_string <$> ParseAddr "::ffff:1.2.3.4") = Some "::ffff:1.2.3.4" ∧
  (addr_string <$> ParseAddr "::") = Some "::" ∧
  (addr_string <$> ParseAddr "fe80::1%eth0") = Some "fe80::1%eth0" ∧
  (prefix_string <$> netip_ParsePrefix "10.0.0.0/08") = None ∧
  (prefix_string <$> netip_ParsePrefix "10.0.0.0/8") = Some "10.0.0.0/8" ∧
  mask_size 0xffffff00 = Some 24 ∧ mask_size 0xff00ff00 = None.
Proof. vm_compute. auto 20. Qed.

(** ** IPv4 text round trips *)

Lemma split_byte_none w c : index_byte w c = None → split_byte w c = [w].
Proof.
  induction w as [|d w IH]; cbn; [done|].
  destruct (Ascii.eqb d c); [done|]. destruct (index_byte w c); [done|].
  intros _. by rewrite IH.
Qed.

Lemma split_byte_app w c r :
  index_byte w c = None → split_byte (w +:+ String c r) c = w :: split_byte r c.
Proof.
  induction w as [|d w IH].
  - intros _. rewrite str_app_nil_l. cbn [split_byte]. by rewrite Ascii.eqb_refl.
  - rewrite str_app_cons. cbn [split_byte index_byte]. destruct (Ascii.eqb d c); [done|].
    destruct (index_byte w c); [done|]. intros _. by rewrite IH.
Qed.

(** Facts about the 256 octets and the 33 mask lengths, by evaluation. *)
Definition small_ok (n : nat) : bool :=
  let s := Itoa (Z.of_nat n) in
  bool_decide (parse_octet s = Some (Z.of_nat n)) &&
  bool_decide (index_byte s "." = None) && bool_decide (first_sep s = None) &&
  bool_decide (last_index_byte s "/" = None) && bool_decide (parse_bits s = Some (Z.of_nat n)).

Lemma all_small_ok : forallb small_ok (seq 0 256) = true.
Proof. vm_compute. reflexivity. Qed.

Lemma small_octet o : 0 ≤ o < 256 →
  parse_octet (Itoa o) = Some o ∧ index_byte (Itoa o) "." = None ∧
  first_sep (Itoa o) = None ∧ last_index_byte (Itoa o) "/" = None ∧
  parse_bits (Itoa o) = Some o.
Proof.
  intros Ho. pose proof all_small_ok as H. rewrite forallb_forall in H.
  specialize (H (Z.to_nat o)). rewrite in_seq in H. unfold small_ok in H.
  rewrite Z2Nat.id in H by lia.
  rewrite !andb_true_iff, !bool_decide_eq_true in H. naive_solver lia.
Qed.

Lemma octet_range v i : 0 ≤ octet v i < 256.
Proof.
  unfold octet. change 255 with (Z.ones 8). rewrite Z.land_ones by lia.
  apply Z.mod_pos_bound. lia.
Qed.

Lemma octets_value v :
  0 ≤ v < 2 ^ 32 → v4_value (octet v 0) (octet v 1) (octet v 2) (octet v 3) = v.
Proof.
  intros Hv. unfold v4_value, octet. change 255 with (Z.ones 8).
  rewrite !Z.land_ones, !Z.shiftr_div_pow2 by lia.
  change (2 ^ (8 * (3 - 0))) with 16777216. change (2 ^ (8 * (3 - 1))) with 65536.
  change (2 ^ (8 * (3 - 2))) with 256. change (2 ^ (8 * (3 - 3))) with 1.
  change (2 ^ 8) with 256. change (2 ^ 32) with 4294967296 in Hv.
  Z.div_mod_to_equations. lia.
Qed.

Lemma dot_app a b : a +:+ ("." +:+ b) = a +:+ String "." b.
Proof. done. Qed.

Lemma parse_v4_string v : 0 ≤ v < 2 ^ 32 → parse_v4_value (v4_string v) = Some v.
Proof.
  intros Hv. unfold parse_v4_value, v4_string.
  rewrite !dot_app, !split_byte_app, split_byte_none by (apply small_octet, octet_range).
  rewrite !(proj1 (small_octet _ (octet_range _ _))). cbn. by rewrite octets_value.
Qed.

Lemma first_sep_app a c r :
  first_sep a = None → first_sep (a +:+ String c r) = first_sep (String c r).
Proof.
  induction a as [|d a IH]; [done|]. rewrite str_app_cons. cbn.
  destruct (Ascii.eqb d "." || Ascii.eqb d ":" || Ascii.eqb d "%"); [done|]. exact IH.
Qed.

Lemma ParseAddr_v4_string v : 0 ≤ v < 2 ^ 32 → ParseAddr (v4_string v) = Some (Addr4 v).
Proof.
  intros Hv. unfold ParseAddr. unfold v4_string at 1.
  rewrite dot_app, first_sep_app by (apply small_octet, octet_range).
  cbn. by rewrite parse_v4_string.
Qed.

Lemma last_index_byte_app a c r :
  last_index_byte r c = None → last_index_byte (a +:+ String c r) c = Some (len a).
Proof.
  intros Hr. induction a as [|d a IH].
  - rewrite str_app_nil_l. cbn [last_index_byte]. by rewrite Hr, Ascii.eqb_refl.
  - rewrite str_app_cons. cbn [last_index_byte]. by rewrite IH.
Qed.

Lemma drop_str_app_S a c r : drop_str (S (len a)) (a +:+ String c r) = r.
Proof. induction a as [|d a IH]; [by destruct r|]. rewrite str_app_cons. exact IH. Qed.

Definition prefix4 (v b : Z) : Prefix := mkPrefix (Addr4 v) b.

Lemma prefix4_string v b : 0 ≤ b →
  prefix_string (prefix4 v b) = v4_string v +:+ String "/" (Itoa b).
Proof.
  intros Hb. unfold prefix_string, prefix4, pfx_valid. cbn.
  by rewrite (proj2 (Z.leb_le 0 b) Hb).
Qed.

Lemma ParsePrefix_prefix4_string v b :
  0 ≤ v < 2 ^ 32 → 0 ≤ b ≤ 32 →
  netip_ParsePrefix (prefix_string (prefix4 v b)) = Some (prefix4 v b).
Proof.
  intros Hv Hb. rewrite prefix4_string by lia.
  destruct (small_octet b ltac:(lia)) as (_ & _ & _ & Hslash & Hbits).
  unfold netip_ParsePrefix. rewrite last_index_byte_app by done. cbn [mbind option_bind].
  rewrite take_str_app, ParseAddr_v4_string by done. cbn [mbind option_bind].
  rewrite drop_str_app_S, Hbits. cbn.
  destruct (Z.ltb_spec b 0); [lia|]. destruct (Z.ltb_spec 32 b); [lia|].
  unfold PrefixFrom. cbn.
  destruct (Z.leb_spec 0 b); [|lia]. by destruct (Z.leb_spec b 32); [|lia].
Qed.
