(* ===== verification/OsNet.v ===== *)
(** * Network configuration values (internal/osnet/types.go)

    Parsing of route prefixes and addresses as servers and users write them
    (CIDR, address/netmask, bare address), printing, and the set difference
    that turns a desired route list into kernel changes.  A Go
    [map[netip.Prefix]bool] whose values are always [true] is the set of its
    keys; the order in which Go ranges over it is unspecified, and [elements]
    stands for one such order. *)

From S2P Require Import Prelude GoStrings NetIP.

Open Scope go_scope.
Open Scope Z_scope.

(** ** Data *)

Record LocalInterface := mkLocalInterface {
  li_Name : string;
  li_IP4 : string;
  li_MAC : string;
  li_Gateway : string;
  li_InterfaceIndex : Z;
}.

(** osnet.UnderlaySnapshot (monitor.go). *)
Record UnderlaySnapshot := mkUnderlaySnapshot {
  us_InterfaceName : string;
  us_InterfaceIndex : Z;
  us_LocalIPv4 : Addr;
  us_Gateway : Addr;
  us_GatewayInterface : Z;
  us_RouteMetric : Z;
  us_Generation : Z;
}.
#[export] Instance UnderlaySnapshot_eta : Eta UnderlaySnapshot := λ r,
  mkUnderlaySnapshot (us_InterfaceName r) (us_InterfaceIndex r) (us_LocalIPv4 r)
    (us_Gateway r) (us_GatewayInterface r) (us_RouteMetric r) (us_Generation r).
#[export] Instance UnderlaySnapshot_eq_dec : EqDecision UnderlaySnapshot.
Proof. solve_decision. Defined.

Definition zero_snapshot : UnderlaySnapshot :=
  mkUnderlaySnapshot "" 0 AddrNone AddrNone 0 0 0.

(** osnet.UnderlayChange (monitor.go). *)
Record UnderlayChange := mkUnderlayChange {
  uc_Before : UnderlaySnapshot; uc_After : UnderlaySnapshot; uc_Reasons : list string;
  uc_RebindRequired : bool; uc_Err : option error;
}.

Record Config := mkConfig {
  cfg_InterfaceName : string;
  cfg_InterfaceIndex : Z;
  cfg_VPNAddress : Prefix;
  cfg_MTU : Z;
  cfg_Underlay : UnderlaySnapshot;
  cfg_ServerAddress : Addr;
  cfg_Gateway : Addr;
  cfg_GatewayInterfaceIndex : Z;
  cfg_IncludeRoutes : list Prefix;
  cfg_ExcludeRoutes : list Prefix;
  cfg_DNSServers : list Addr;
}.

Record DynamicRoutes := mkDynamicRoutes {
  dyn_Include : list Addr;
  dyn_Exclude : list Addr;
}.

(** ** Parsing *)

(** [PrefixFromIPMask ip mask]: the address is kept whole, host bits
    included. *)
Definition PrefixFromIPMask (ip mask : string) : error + Prefix :=
  match ParseAddr (TrimSpace ip) with
  | None => inl (ErrText "ParseAddr")
  | Some addr =>
      let addr := Unmap addr in
      match ParseIP4 (TrimSpace mask) with
      | None => inl (ErrText ("invalid IPv4 mask: " +:+ mask))
      | Some parsedMask =>
          match mask_size parsedMask with
          | None => inl (ErrText ("invalid IPv4 mask: " +:+ mask))
          | Some ones => inr (PrefixFrom addr ones)
          end
      end
  end.

Definition ParsePrefix (raw : string) : error + Prefix :=
  let raw := TrimSpace raw in
  if raw == "" then inl (ErrText "empty prefix")
  else if contains_byte raw "/" then
    match split_byte raw "/" with
    | [p0; p1] =>
        if contains_byte p1 "." then PrefixFromIPMask p0 p1
        else match netip_ParsePrefix raw with
             | None => inl (ErrText "ParsePrefix")
             | Some prefix => inr (Masked prefix)
             end
    | _ => inl (ErrText ("invalid route prefix: " +:+ raw))
    end
  else
    match ParseAddr raw with
    | None => inl (ErrText "ParseAddr")
    | Some addr => let addr := Unmap addr in inr (PrefixFrom addr (BitLen addr))
    end.

Fixpoint ParsePrefixes (raw : list string) : error + list Prefix :=
  match raw with
  | [] => inr []
  | value :: raw =>
      let value := TrimSpace value in
      if value == "" then ParsePrefixes raw
      else match ParsePrefix value with
           | inl e => inl e
           | inr prefix =>
               match ParsePrefixes raw with
               | inl e => inl e
               | inr out => inr (prefix :: out)
               end
           end
  end.

Fixpoint ParseAddrs (raw : list string) : error + list Addr :=
  match raw with
  | [] => inr []
  | value :: raw =>
      let value := TrimSpace value in
      if value == "" then ParseAddrs raw
      else match ParseAddr value with
           | None => inl (ErrText "ParseAddr")
           | Some addr =>
               match ParseAddrs raw with
               | inl e => inl e
               | inr out => inr (Unmap addr :: out)
               end
           end
  end.

Definition PrefixStrings (prefixes : list Prefix) : list string :=
  (λ p, prefix_string (Masked p)) <$> prefixes.

Definition AddrStrings (addrs : list Addr) : list string :=
  (λ a, addr_string (Unmap a)) <$> addrs.

(** ** Route set difference *)

(** The first loop of [DiffPrefixes]: [(add, state)] after reading [next]. *)
Fixpoint diff_loop (old : gset Prefix) (next : list Prefix) (add : list Prefix)
    (state : gset Prefix) : list Prefix * gset Prefix :=
  match next with
  | [] => (add, state)
  | prefix :: next =>
      let prefix := Masked prefix in
      if bool_decide (prefix ∈ state) then diff_loop old next add state
      else
        let state := {[prefix]} ∪ state in
        if bool_decide (prefix ∈ old) then diff_loop old next add state
        else diff_loop old next (add ++ [prefix]) state
  end.

Definition DiffPrefixes (old : gset Prefix) (next : list Prefix)
    : list Prefix * list Prefix * gset Prefix :=
  let '(add, state) := diff_loop old next [] ∅ in
  (add, elements (old ∖ state), state).

Definition withoutPrefixes (prefixes removed : list Prefix) : list Prefix :=
  if (length prefixes =? 0)%nat || (length removed =? 0)%nat then prefixes
  else filter (λ p, Masked p ∉ (list_to_set (Masked <$> removed) : gset Prefix)) prefixes.

(** ** The result of a difference *)

Definition masked_set (l : list Prefix) : gset Prefix := list_to_set (Masked <$> l).

Lemma masked_set_cons p l : masked_set (p :: l) = {[Masked p]} ∪ masked_set l.
Proof. done. Qed.

Lemma elem_of_masked_set p l : p ∈ masked_set l ↔ ∃ q, p = Masked q ∧ q ∈ l.
Proof. unfold masked_set. rewrite elem_of_list_to_set, list_elem_of_fmap. done. Qed.

Lemma diff_loop_spec old next add state :
  NoDup add → (list_to_set add : gset Prefix) = state ∖ old →
  let '(add', state') := diff_loop old next add state in
  state' = state ∪ masked_set next ∧
  NoDup add' ∧ (list_to_set add' : gset Prefix) = state' ∖ old.
Proof.
  revert add state; induction next as [|p next IH]; intros add state Hnd Hadd;
    cbn [diff_loop].
  { split_and!; [|done..]. unfold masked_set. set_solver. }
  rewrite masked_set_cons. case_bool_decide as Hs.
  { specialize (IH add state Hnd Hadd). destruct (diff_loop _ _ _ _) as [a s].
    destruct IH as (-> & ? & ?). split_and!; [set_solver|done..]. }
  case_bool_decide as Ho.
  - specialize (IH add ({[Masked p]} ∪ state) Hnd).
    destruct (diff_loop _ _ _ _) as [a s]. destruct IH as (-> & ? & ?).
    { rewrite Hadd. set_solver. }
    split_and!; [set_solver|done..].
  - specialize (IH (add ++ [Masked p]) ({[Masked p]} ∪ state)).
    destruct (diff_loop _ _ _ _) as [a s]. destruct IH as (-> & ? & ?).
    { apply NoDup_app. split_and!; [done| |apply NoDup_singleton].
      intros x Hx%(elem_of_list_to_set (C:=gset Prefix)). rewrite Hadd in Hx. set_solver. }
    { rewrite list_to_set_app_L, Hadd. set_solver. }
    split_and!; [set_solver|done..].
Qed.

Lemma DiffPrefixes_facts old next add del state :
  DiffPrefixes old next = (add, del, state) →
  state = masked_set next ∧
  NoDup add ∧ (list_to_set add : gset Prefix) = state ∖ old ∧
  NoDup del ∧ (list_to_set del : gset Prefix) = old ∖ state.
Proof.
  unfold DiffPrefixes. pose proof (diff_loop_spec old next [] ∅) as H.
  destruct (diff_loop _ _ _ _) as [a s]. intros [= <- <- <-].
  destruct H as (-> & ? & ?); [constructor|set_solver|].
  split_and!; [set_solver|done|set_solver|apply NoDup_elements|].
  by rewrite list_to_set_elements_L.
Qed.

(** [DiffPrefixes] computes exactly the change between the installed set
    and the masked desired list: the additions are the missing prefixes, each
    once; the deletions are the stale ones, each once; applying them to the
    old set gives the new state, and a second call has nothing to do. *)
Theorem DiffPrefixes_exact old next add del state :
  DiffPrefixes old next = (add, del, state) →
  (old ∪ list_to_set add) ∖ list_to_set del = state ∧
  (∀ p, p ∈ state ↔ ∃ q, q ∈ next ∧ p = Masked q) ∧
  (∀ p, p ∈ add → p ∉ old) ∧ (∀ p, p ∈ del → p ∈ old) ∧
  NoDup add ∧ NoDup del ∧
  DiffPrefixes state next = ([], [], state).
Proof.
  intros H. apply DiffPrefixes_facts in H as (-> & Hna & Ha & Hnd & Hd).
  split_and!; [| | | |done|done|].
  - rewrite Ha, Hd. apply set_eq. intros p.
    destruct (decide (p ∈ old)), (decide (p ∈ masked_set next)); set_solver.
  - intros p. rewrite elem_of_masked_set. naive_solver.
  - intros p Hp%(elem_of_list_to_set (C:=gset Prefix)). rewrite Ha in Hp. set_solver.
  - intros p Hp%(elem_of_list_to_set (C:=gset Prefix)). rewrite Hd in Hp. set_solver.
  - destruct (DiffPrefixes (masked_set next) next) as [[a d] s] eqn:E.
    apply DiffPrefixes_facts in E as (-> & _ & Ea & _ & Ed).
    rewrite difference_diag_L in Ea, Ed.
    destruct a; [|set_solver]. by destruct d; [|set_solver].
Qed.

Definition demo_p8 : Prefix := prefix4 0x0a000000 8.
Definition demo_host8 : Prefix := prefix4 0x0a010203 8.
Definition demo_p16 : Prefix := prefix4 0xc0a80000 16.

Example DiffPrefixes_example :
  fst (DiffPrefixes {[demo_p16]} [demo_host8; demo_p8]) = ([demo_p8], [demo_p16]).
Proof. vm_compute. reflexivity. Qed.

Lemma DiffPrefixes_exact_witness :
  ∃ add del state, DiffPrefixes {[demo_p16]} [demo_host8; demo_p8] = (add, del, state) ∧
    ({[demo_p16]} ∪ list_to_set add) ∖ list_to_set del = state.
Proof.
  destruct (DiffPrefixes {[demo_p16]} [demo_host8; demo_p8]) as [[add del] state] eqn:E.
  exists add, del, state. split; [reflexivity|].
  apply (DiffPrefixes_exact {[demo_p16]} [demo_host8; demo_p8]). exact E.
Defined.
