(* ===== verification/Monitor.v ===== *)
(** * The underlay monitor (src/internal/osnet/monitor.go)

    [NewMonitor], the loop [run] with its debounce, [emit] into a channel with
    room for sixteen changes, and the goroutine that [Changes] starts between
    that channel and its reader, as steps that interleave.  What the snapshot
    function answers is an argument of the step that calls it; the ticker may
    fire whenever the loop waits. *)

From S2P Require Import Prelude GoStrings NetIP OsNet.

Open Scope go_scope.
Open Scope Z_scope.

Definition Snapshot : Type := error + UnderlaySnapshot.

(** ** Comparing two paths *)

Definition sameUnderlay (a b : UnderlaySnapshot) : bool :=
  (us_InterfaceName a =? us_InterfaceName b)%string && (us_InterfaceIndex a =? us_InterfaceIndex b) &&
  bool_decide (us_LocalIPv4 a = us_LocalIPv4 b) && bool_decide (us_Gateway a = us_Gateway b) &&
  (us_GatewayInterface a =? us_GatewayInterface b) && (us_RouteMetric a =? us_RouteMetric b).

Definition underlayRequiresRebind (a b : UnderlaySnapshot) : bool :=
  negb (us_InterfaceName a =? us_InterfaceName b)%string || negb (us_InterfaceIndex a =? us_InterfaceIndex b) ||
  bool_decide (us_LocalIPv4 a ≠ us_LocalIPv4 b) || bool_decide (us_Gateway a ≠ us_Gateway b) ||
  negb (us_GatewayInterface a =? us_GatewayInterface b) || negb (us_RouteMetric a =? us_RouteMetric b).

Definition underlayReasons (a b : UnderlaySnapshot) : list string :=
  let reasons :=
    (if negb (us_InterfaceName a =? us_InterfaceName b)%string || negb (us_InterfaceIndex a =? us_InterfaceIndex b)
     then ["interface_changed"] else []) ++
    (if bool_decide (us_LocalIPv4 a ≠ us_LocalIPv4 b) then ["local_address_changed"] else []) ++
    (if bool_decide (us_Gateway a ≠ us_Gateway b) || negb (us_GatewayInterface a =? us_GatewayInterface b)
     then ["gateway_changed"] else []) ++
    (if negb (us_RouteMetric a =? us_RouteMetric b) then ["route_metric_changed"] else []) in
  match reasons with [] => ["underlay_changed"] | _ => reasons end.

(** ** The monitor *)

Inductive Phase :=
  | Waiting                              (* for the ticker, the trigger or the context *)
  | Debouncing                           (* the path differed; the timer runs *)
  | Emitting (change : UnderlayChange)   (* in [emit] *)
  | Stopped.                             (* returned: [changes] is closed *)

Record underlayMonitor := mkMonitor {
  mo_current : UnderlaySnapshot;
  mo_lastSnapshotError : bool;
  mo_phase : Phase;
  mo_changes : list UnderlayChange;      (* what [m.changes] holds *)
  mo_trigger : bool;                     (* what [m.trigger] holds *)
  mo_canceled : bool;                    (* m.ctx *)
  mo_holding : option UnderlayChange;    (* taken by the goroutine of [Changes] *)
  mo_out : list UnderlayChange;          (* what its channel holds *)
  mo_received : list UnderlayChange;     (* what the reader got *)
  mo_reader_gone : bool;                 (* the reader's context *)
}.
#[export] Instance underlayMonitor_eta : Eta underlayMonitor := λ r,
  mkMonitor (mo_current r) (mo_lastSnapshotError r) (mo_phase r) (mo_changes r) (mo_trigger r) (mo_canceled r)
    (mo_holding r) (mo_out r) (mo_received r) (mo_reader_gone r).

(** The changes_capacity of both channels. *)
Definition changes_capacity : nat := 16.

Definition NewMonitor (initial : Snapshot) : error + underlayMonitor :=
  match initial with
  | inl err => inl (ErrWrap "read initial underlay snapshot: " err "")
  | inr initial => inr (mkMonitor (initial <| us_Generation := 1 |>) false Waiting [] false false None [] [] false)
  end.

Definition error_change (before : UnderlaySnapshot) (reason : string) (err : error) : UnderlayChange :=
  mkUnderlayChange before zero_snapshot [reason] true (Some err).

(** The turn of the loop up to the debounce. *)
Definition first_reading (answer : Snapshot) (m : underlayMonitor) : underlayMonitor :=
  match answer with
  | inl err =>
    if mo_lastSnapshotError m then m <| mo_phase := Waiting |>
    else m <| mo_lastSnapshotError := true |> <| mo_phase := Emitting (error_change (mo_current m) "snapshot_error" err) |>
  | inr next =>
    m <| mo_lastSnapshotError := false |>
      <| mo_phase := if sameUnderlay (mo_current m) next then Waiting else Debouncing |>
  end.

(** The rest of it, after the timer. *)
Definition latest_reading (answer : Snapshot) (m : underlayMonitor) : underlayMonitor :=
  let before := mo_current m in
  match answer with
  | inl err => m <| mo_phase := Emitting (error_change before "snapshot_error_after_change" err) |>
  | inr latest =>
    let next := latest <| us_Generation := (us_Generation before + 1) mod 2 ^ 64 |> in
    m <| mo_current := next |>
      <| mo_phase := Emitting (mkUnderlayChange before next (underlayReasons before next) (underlayRequiresRebind before next) None) |>
  end.

Inductive step : underlayMonitor → underlayMonitor → Prop :=
  (* the notifier calls back: a send that does not block *)
  | step_notify m : step m (m <| mo_trigger := true |>)
  | step_tick m answer : mo_phase m = Waiting → step m (first_reading answer m)
  | step_triggered m answer :
      mo_phase m = Waiting → mo_trigger m = true → step m (first_reading answer (m <| mo_trigger := false |>))
  | step_debounced m answer : mo_phase m = Debouncing → step m (latest_reading answer m)
  | step_emit m change :
      mo_phase m = Emitting change → (length (mo_changes m) < changes_capacity)%nat →
      step m (m <| mo_changes ::= λ l, l ++ [change] |> <| mo_phase := Waiting |>)
  | step_emit_canceled m change :
      mo_phase m = Emitting change → mo_canceled m = true → step m (m <| mo_phase := Waiting |>)
  | step_stop m : mo_phase m = Waiting ∨ mo_phase m = Debouncing → mo_canceled m = true → step m (m <| mo_phase := Stopped |>)
  (* Close, or the context the monitor was made with *)
  | step_cancel m : step m (m <| mo_canceled := true |>)
  | step_relay_take m change rest :
      mo_holding m = None → mo_changes m = change :: rest →
      step m (m <| mo_holding := Some change |> <| mo_changes := rest |>)
  | step_relay_put m change :
      mo_holding m = Some change → (length (mo_out m) < changes_capacity)%nat →
      step m (m <| mo_holding := None |> <| mo_out ::= λ l, l ++ [change] |>)
  | step_receive m change rest :
      mo_out m = change :: rest → step m (m <| mo_out := rest |> <| mo_received ::= λ l, l ++ [change] |>)
  | step_reader_gone m : step m (m <| mo_reader_gone := true |>)
  | step_relay_quits m : mo_reader_gone m = true → step m (m <| mo_holding := None |>).

Definition reachable (initial : UnderlaySnapshot) (m : underlayMonitor) : Prop :=
  ∃ start, NewMonitor (inr initial) = inr start ∧ rtc step start m.

(** ** What the changes tell *)

Lemma sameUnderlay_spec a b : sameUnderlay a b = true ↔ a <| us_Generation := 0 |> = b <| us_Generation := 0 |>.
Proof.
  unfold sameUnderlay. rewrite !andb_true_iff, String.eqb_eq, !Z.eqb_eq, !bool_decide_eq_true.
  destruct a, b; cbn. split; [intros (((((-> & ->) & ->) & ->) & ->) & ->); done|]. intros [=]. by subst.
Qed.

Lemma rebind_unless_same a b : underlayRequiresRebind a b = negb (sameUnderlay a b).
Proof.
  unfold underlayRequiresRebind, sameUnderlay. rewrite !negb_andb. by rewrite !bool_decide_not.
Qed.

Lemma reasons_same a b : sameUnderlay a b = true ↔ underlayReasons a b = ["underlay_changed"].
Proof.
  unfold sameUnderlay, underlayReasons. rewrite !bool_decide_not.
  destruct (_ =? _)%string, (us_InterfaceIndex a =? _), (bool_decide (us_LocalIPv4 a = _)), (bool_decide (us_Gateway a = _)),
    (us_GatewayInterface a =? _), (us_RouteMetric a =? _); cbn; split; done.
Qed.

(** What one change says, given the path before it. *)
Inductive tells (u : UnderlaySnapshot) : UnderlayChange → UnderlaySnapshot → Prop :=
  | tells_error reason err :
      reason ∈ ["snapshot_error"; "snapshot_error_after_change"] → tells u (error_change u reason err) u
  | tells_change v :
      us_Generation v = (us_Generation u + 1) mod 2 ^ 64 →
      tells u (mkUnderlayChange u v (underlayReasons u v) (underlayRequiresRebind u v) None) v.
Inductive story : UnderlaySnapshot → list UnderlayChange → UnderlaySnapshot → Prop :=
  | story_nil u : story u [] u
  | story_cons u c v l w : tells u c v → story v l w → story u (c :: l) w.

Lemma story_snoc u l v c w : story u l v → tells v c w → story u (l ++ [c]) w.
Proof. induction 1; intros Hc; cbn; repeat (econstructor; try done). by apply IHstory. Qed.

Definition pending (m : underlayMonitor) : list UnderlayChange := match mo_phase m with Emitting c => [c] | _ => [] end.
(** Every change there has been, from the reader's hands back to the loop. *)
Definition history (m : underlayMonitor) : list UnderlayChange :=
  mo_received m ++ mo_out m ++ option_list (mo_holding m) ++ mo_changes m ++ pending m.

Definition inv (initial : UnderlaySnapshot) (m : underlayMonitor) : Prop :=
  (length (mo_changes m) ≤ changes_capacity)%nat ∧ (length (mo_out m) ≤ changes_capacity)%nat ∧
  (mo_phase m = Stopped → mo_canceled m = true) ∧
  (mo_canceled m = false → mo_reader_gone m = false → story (initial <| us_Generation := 1 |>) (history m) (mo_current m)).

Lemma inv_fresh initial m : NewMonitor (inr initial) = inr m → inv initial m.
Proof. intros [= <-]. split_and!; cbn; [lia|lia|done|]. intros _ _. constructor. Qed.

Lemma told_first initial m answer :
  mo_phase m = Waiting → inv initial m → inv initial (first_reading answer m).
Proof.
  intros Hp (H1 & H2 & H3 & H4). unfold first_reading.
  assert (Hs : ∀ p, (∀ c, p ≠ Emitting c) → p ≠ Stopped → inv initial (m <| mo_phase := p |>)).
  { intros p Hn Hq. split_and!; cbn; [done|done|done|]. intros Hc Hg. specialize (H4 Hc Hg). revert H4.
    unfold history, pending. rewrite Hp. cbn. by destruct p as [| |c|]; [|..|destruct (Hn c)|]. }
  destruct answer as [err|next].
  - destruct (mo_lastSnapshotError m); [by apply Hs|]. split_and!; cbn; [done|done|done|]. intros Hc Hg. specialize (H4 Hc Hg).
    unfold history, pending in *. cbn. rewrite Hp, app_nil_r in H4. rewrite !app_assoc. rewrite !app_assoc in H4.
    eapply story_snoc; [exact H4|]. constructor. set_solver.
  - destruct (sameUnderlay _ _).
    + destruct (Hs Waiting) as (? & ? & ? & Hst); [done|done|]. by split_and!.
    + destruct (Hs Debouncing) as (? & ? & ? & Hst); [done|done|]. by split_and!.
Qed.

Lemma told_latest initial m answer :
  mo_phase m = Debouncing → inv initial m → inv initial (latest_reading answer m).
Proof.
  intros Hp (H1 & H2 & H3 & H4). unfold latest_reading.
  destruct answer as [err|next]; (split_and!; cbn; [done|done|done|]); intros Hc Hg; specialize (H4 Hc Hg);
    unfold history, pending in *; cbn; rewrite Hp, app_nil_r in H4; rewrite !app_assoc; rewrite !app_assoc in H4;
    (eapply story_snoc; [exact H4|]); constructor; [set_solver|done].
Qed.

Lemma monitor_step_inv initial m m' : inv initial m → step m m' → inv initial m'.
Proof.
  intros Hi Hst. destruct Hst as [m|m answer Hp|m answer Hp Ht|m answer Hp|m c Hp Hl|m c Hp Hc|m Hp Hc|m|m c rest Hh Hl|m c Hh Hl|m c rest Ho|m|m Hg].
  1: done. 1: by apply told_first. 1: by apply told_first. 1: by apply told_latest.
  all: destruct Hi as (H1 & H2 & H3 & H4); unfold changes_capacity in *; split_and!; cbn; try done; try congruence.
  all: try (rewrite ?length_app; cbn; unfold changes_capacity; lia).
  all: try (rewrite ?Hl, ?Ho in *; cbn in *; unfold changes_capacity in *; lia).
  all: intros Hc Hg; specialize (H4 Hc Hg); revert H4; unfold history, pending; cbn;
    rewrite ?Hp, ?Ho, ?Hh; try rewrite Hl; cbn; rewrite <- ?app_assoc, ?app_nil_r; cbn; done.
Qed.

Lemma monitor_reachable_inv initial m : reachable initial m → inv initial m.
Proof.
  intros (start & Hs & Hr). revert m Hr. apply (rtc_ind_r (inv initial)); [by apply inv_fresh|].
  intros y z _ Hst Hy. by eapply monitor_step_inv.
Qed.

(** What a reader knows who has seen some changes. *)
Definition known (u : UnderlaySnapshot) (l : list UnderlayChange) : UnderlaySnapshot :=
  foldl (λ u c, match uc_Err c with None => uc_After c | Some _ => u end) u l.

Lemma story_known u l v : story u l v → known u l = v.
Proof. induction 1 as [|u c v l w Ht _ IH]; [done|]. cbn. destruct Ht; cbn in *; exact IH. Qed.

Lemma story_changes u l v c :
  story u l v → c ∈ l → uc_Err c = None →
  (uc_RebindRequired c = false ↔ (uc_Before c) <| us_Generation := 0 |> = (uc_After c) <| us_Generation := 0 |>) ∧
  (uc_Reasons c = ["underlay_changed"] ↔ uc_RebindRequired c = false) ∧
  us_Generation (uc_After c) = (us_Generation (uc_Before c) + 1) mod 2 ^ 64.
Proof.
  induction 1 as [|u c' v l w Ht _ IH]; intros Hin He; [by apply not_elem_of_nil in Hin|].
  apply elem_of_cons in Hin as [->|Hin]; [|by apply IH]. destruct Ht as [|v Hg]; [done|]. cbn.
  rewrite rebind_unless_same, negb_false_iff, sameUnderlay_spec, <- reasons_same, sameUnderlay_spec. by split_and!.
Qed.

(** ** A run of failures *)

(** One pass of the loop with nobody else around: the first answer, and the
    one after the timer. *)
Definition turn (answers : Snapshot * Snapshot) (m : underlayMonitor) : underlayMonitor :=
  let m := first_reading (fst answers) m in
  let m := match mo_phase m with Debouncing => latest_reading (snd answers) m | _ => m end in
  m <| mo_changes ::= λ l, l ++ pending m |> <| mo_phase := Waiting |>.

Lemma turn_failed err latest m :
  turn (inl err, latest) m =
  if mo_lastSnapshotError m then m <| mo_changes ::= λ l, l ++ [] |> <| mo_phase := Waiting |>
  else m <| mo_lastSnapshotError := true |> <| mo_changes ::= λ l, l ++ [error_change (mo_current m) "snapshot_error" err] |>
         <| mo_phase := Waiting |>.
Proof. unfold turn, first_reading, pending. cbn. by destruct (mo_lastSnapshotError m). Qed.

(** While the path cannot be read, the failure is told once. *)
Lemma failures_told_once answers m :
  Forall (λ a, ∃ err, fst a = inl err) answers → mo_lastSnapshotError m = true →
  mo_changes (foldl (λ m a, turn a m) m answers) = mo_changes m ∧
  mo_current (foldl (λ m a, turn a m) m answers) = mo_current m.
Proof.
  intros Ha. revert m. induction Ha as [|[first latest] answers [err E] _ IH]; intros m Hm; [done|]. cbn in *. subst first.
  rewrite turn_failed, Hm.
  match goal with |- context [foldl _ ?m' answers] => destruct (IH m' Hm) as [-> ->] end. cbn.
  by rewrite app_nil_r.
Qed.

(** C34: What the monitor tells is what happened.  Until it or its reader is
    canceled, the changes the reader got, those on their way to it and the one
    the loop is about to send are, in order and without a gap, the whole story
    from the first snapshot to the current one: each starts at the path the one
    before led to, a failure leaves the path alone, a change raises the
    generation by one (modulo 2^64), and asks to rebind exactly if the physical
    path differs.  A reader that has everything knows the current path, and no
    more than sixteen changes wait in either channel. *)
Theorem monitor_tells_the_story initial m :
  reachable initial m →
  (length (mo_changes m) ≤ changes_capacity ∧ length (mo_out m) ≤ changes_capacity)%nat ∧
  (mo_canceled m = false → mo_reader_gone m = false →
     story (initial <| us_Generation := 1 |>) (history m) (mo_current m) ∧
     known (initial <| us_Generation := 1 |>) (history m) = mo_current m ∧
     ∀ c, c ∈ history m → uc_Err c = None →
       (uc_RebindRequired c = false ↔ (uc_Before c) <| us_Generation := 0 |> = (uc_After c) <| us_Generation := 0 |>) ∧
       (uc_Reasons c = ["underlay_changed"] ↔ uc_RebindRequired c = false)).
Proof.
  intros (H1 & H2 & _ & H4)%monitor_reachable_inv. split; [done|]. intros Hc Hg. specialize (H4 Hc Hg). split_and!; [done|by apply story_known|].
  intros c Hin He. destruct (story_changes _ _ _ c H4 Hin He) as (? & ? & _). done.
Qed.

(** The Wi-Fi goes away and another network is there. *)
Definition wifi : UnderlaySnapshot := mkUnderlaySnapshot "wlan0" 3 (Addr4 0xc0a80102) (Addr4 0xc0a80101) 3 600 0.
Definition cable : UnderlaySnapshot := mkUnderlaySnapshot "eth0" 2 (Addr4 0x0a000002) (Addr4 0x0a000001) 2 100 0.
Definition unreadable : error := ErrText "no default route".
Definition moved : underlayMonitor :=
  turn (inr cable, inr cable) (turn (inl unreadable, inl unreadable) (turn (inr wifi, inr cable)
    (mkMonitor (wifi <| us_Generation := 1 |>) false Waiting [] false false None [] [] false))).

Lemma monitor_tells_the_story_witness :
  uc_Reasons <$> mo_changes moved = [["snapshot_error"]; ["interface_changed"; "local_address_changed"; "gateway_changed"; "route_metric_changed"]] ∧
  known (wifi <| us_Generation := 1 |>) (history moved) = cable <| us_Generation := 2 |> ∧
  story (wifi <| us_Generation := 1 |>) (history moved) (cable <| us_Generation := 2 |>).
Proof.
  split; [vm_compute; reflexivity|].
  destruct (monitor_tells_the_story wifi moved) as (_ & H).
  - eexists. split; [reflexivity|].
    eapply rtc_l; [by apply (step_tick _ (inr wifi))|]. eapply rtc_l; [by apply (step_tick _ (inl unreadable))|].
    eapply rtc_l; [eapply step_emit; [reflexivity|vm_compute; repeat constructor]|].
    eapply rtc_l; [by apply (step_tick _ (inr cable))|]. eapply rtc_l; [by apply (step_debounced _ (inr cable))|].
    eapply rtc_l; [eapply step_emit; [reflexivity|vm_compute; repeat constructor]|]. vm_compute. apply rtc_refl.
  - assert (E : mo_current moved = cable <| us_Generation := 2 |>) by (vm_compute; reflexivity).
    rewrite <- E. destruct (H ltac:(vm_compute; reflexivity) ltac:(vm_compute; reflexivity)) as (H1 & H2 & _). split; [exact H2|exact H1].
Defined.
