(* ===== verification/Underlay.v ===== *)
(** * The underlay on Linux (monitor_linux.go and GetLocalInterface of
    manager_linux.go, src/internal/osnet)

    Which route the machine itself uses: the daemon binds its connection to it
    and excludes the server through it.  The kernel's answers are arguments. *)

From S2P Require Import Prelude GoStrings NetIP OsNet.

Open Scope go_scope.
Open Scope Z_scope.

(** The fields of netlink.Route the code reads: the size of the destination's
    mask, if there is a destination with one; the gateway and the source. *)
Record NlRoute := mkNlRoute {
  nr_Dst : option (option (Z * Z)); nr_Gw : option Addr; nr_Src : option Addr; nr_Priority : Z; nr_LinkIndex : Z;
}.
Record NlLink := mkNlLink { nl_Name : string; nl_MAC : string }.

(** [To4() != nil] and [Unmap]. *)
Definition v4_of (a : option Addr) : option Addr :=
  match a with Some a => if Is4 (Unmap a) then Some (Unmap a) else None | None => None end.

Definition is_default (r : NlRoute) : bool :=
  match nr_Dst r with Some (Some (ones, bits)) => (bits =? 32) && (ones =? 0) | _ => true end.

Section underlay.
Context (LinkByIndex : Z → error + NlLink) (AddrList : Z → error + list (option Addr)).

(** The loop over the routes: those of the excluded interface and of links that
    are gone are passed over. *)
Definition considered (excludeInterface : string) (r : NlRoute) : bool :=
  is_default r && match LinkByIndex (nr_LinkIndex r) with inl _ => false | inr l => nl_Name l != excludeInterface end.
Fixpoint best_default (excludeInterface : string) (routes : list NlRoute) (best : option NlRoute) : option NlRoute :=
  match routes with
  | [] => best
  | r :: routes =>
    best_default excludeInterface routes
      (if considered excludeInterface r
       then match best with Some b => if nr_Priority r <? nr_Priority b then Some r else best | None => Some r end
       else best)
  end.

Definition local_of (r : NlRoute) : error + Addr :=
  match v4_of (nr_Src r) with
  | Some local => inr local
  | None =>
    match AddrList (nr_LinkIndex r) with
    | inl err => inl err
    | inr addrs => match head (omap v4_of addrs) with
                   | Some local => inr local
                   | None => inl (ErrText "physical default interface has no IPv4 address")
                   end
    end
  end.

Definition GetUnderlaySnapshot (routes : error + list NlRoute) (excludeInterface : string) : error + UnderlaySnapshot :=
  match routes with
  | inl err => inl err
  | inr routes =>
    match best_default excludeInterface routes None with
    | None => inl (ErrText "no physical default IPv4 route")
    | Some best =>
      match LinkByIndex (nr_LinkIndex best) with
      | inl err => inl err
      | inr link =>
        match local_of best with
        | inl err => inl err
        | inr local =>
          inr (mkUnderlaySnapshot (nl_Name link) (nr_LinkIndex best) local (default AddrNone (v4_of (nr_Gw best)))
                 (nr_LinkIndex best) (nr_Priority best) 0)
        end
      end
    end
  end.

(** [GetLocalInterface] of manager_linux.go: only routes without a destination
    and with a gateway. *)
Definition gateway_default (r : NlRoute) : bool := bool_decide (nr_Dst r = None) && bool_decide (is_Some (nr_Gw r)).
Fixpoint best_gateway (routes : list NlRoute) (best : option NlRoute) : option NlRoute :=
  match routes with
  | [] => best
  | r :: routes =>
    best_gateway routes
      (if gateway_default r && match best with None => true | Some b => nr_Priority r <? nr_Priority b end then Some r else best)
  end.
Definition routeSourceIPv4 (r : NlRoute) : string :=
  match nr_Src r with
  | Some src => if Is4 (Unmap src) then addr_string (Unmap src) else
      match AddrList (nr_LinkIndex r) with inl _ => "" | inr addrs => default "" (addr_string <$> head (omap v4_of addrs)) end
  | None => match AddrList (nr_LinkIndex r) with inl _ => "" | inr addrs => default "" (addr_string <$> head (omap v4_of addrs)) end
  end.
Definition GetLocalInterface (routes : error + list NlRoute) : error + LocalInterface :=
  match routes with
  | inl err => inl err
  | inr routes =>
    match best_gateway routes None with
    | None => inl (ErrText "no default IPv4 route")
    | Some r =>
      match LinkByIndex (nr_LinkIndex r) with
      | inl err => inl err
      | inr link => inr (mkLocalInterface (nl_Name link) (routeSourceIPv4 r) (nl_MAC link)
                           (default "" ((λ gw, addr_string (Unmap gw)) <$> nr_Gw r)) (nr_LinkIndex r))
      end
    end
  end.

Lemma best_default_spec ex routes best :
  match best with Some b => considered ex b = true | None => True end →
  match best_default ex routes best with
  | None => best = None ∧ Forall (λ r, considered ex r = false) routes
  | Some s => (Some s = best ∨ s ∈ routes) ∧ considered ex s = true ∧
              (match best with Some b => nr_Priority s ≤ nr_Priority b | None => True end) ∧
              Forall (λ r, considered ex r = true → nr_Priority s ≤ nr_Priority r) routes
  end.
Proof.
  revert best. induction routes as [|r routes IH]; intros best Hb; cbn [best_default].
  { destruct best as [b|]; [|done]. split_and!; [by left|done|lia|constructor]. }
  destruct (considered ex r) eqn:Hc.
  - set (best' := match best with Some b => _ | None => Some r end).
    assert (H' : ∃ b', best' = Some b' ∧ considered ex b' = true ∧ nr_Priority b' ≤ nr_Priority r ∧ (b' = r ∨ Some b' = best) ∧
              match best with Some b => nr_Priority b' ≤ nr_Priority b | None => True end).
    { unfold best'. destruct best as [b|]; [|exists r; split_and!; [done|done|lia|by left|done]]. destruct (Z.ltb_spec (nr_Priority r) (nr_Priority b)).
      - exists r. split_and!; [done|done|lia|by left|lia].
      - exists b. split_and!; [done|done|lia|by right|lia]. }
    clearbody best'. destruct H' as (b' & -> & Hb' & Hr & Hfrom & Hle). specialize (IH (Some b') Hb').
    destruct (best_default ex routes (Some b')) as [s|]; [|by destruct IH].
    destruct IH as (Hin & Hs & Hsb & Hall). split_and!; [|done| |].
    + destruct Hin as [E|Hin]; [injection E as ->; destruct Hfrom as [->| ->]; [right; by left|by left]|right; by right].
    + destruct best; [lia|done].
    + constructor; [intros _; lia|done].
  - specialize (IH best Hb). destruct (best_default ex routes best) as [s|].
    + destruct IH as (Hin & Hs & Hsb & Hall). split_and!; [destruct Hin; [by left|right; by right]|done|done|].
      constructor; [congruence|done].
    + destruct IH as [-> Hall]. split; [done|]. by constructor.
Qed.

(** The underlay is a default route of a link that exists and is not the
    tunnel's own, and none of those has a smaller metric; its local address is
    an IPv4 address. *)
Theorem underlay_is_best routes ex s :
  GetUnderlaySnapshot (inr routes) ex = inr s →
  us_InterfaceName s ≠ ex ∧ Is4 (us_LocalIPv4 s) = true ∧
  ∃ r, r ∈ routes ∧ is_default r = true ∧ nr_LinkIndex r = us_InterfaceIndex s ∧ nr_Priority r = us_RouteMetric s ∧
    Forall (λ r', considered ex r' = true → nr_Priority r ≤ nr_Priority r') routes.
Proof.
  unfold GetUnderlaySnapshot. pose proof (best_default_spec ex routes None I) as H.
  destruct (best_default ex routes None) as [r|]; [|done]. destruct H as (Hin & Hc & _ & Hall).
  destruct (LinkByIndex (nr_LinkIndex r)) as [?|link] eqn:El; [done|].
  destruct (local_of r) as [?|local] eqn:Ea; [done|]. intros [= <-]. cbn.
  unfold considered in Hc. rewrite El in Hc. apply andb_true_iff in Hc as [Hd Hn%negb_true_iff%eqb_false].
  assert (H4 : Is4 local = true).
  { assert (V : ∀ a b, v4_of a = Some b → Is4 b = true).
    { intros [a|] b; cbn; [|done]. destruct (Is4 (Unmap a)) eqn:E4; [|done]. by intros [= <-]. }
    unfold local_of in Ea. destruct (v4_of (nr_Src r)) as [l|] eqn:Es; [injection Ea as <-; by eapply V|].
    destruct (AddrList _) as [?|addrs]; [done|]. destruct (head _) as [l|] eqn:Eh; [|done]. injection Ea as <-.
    apply head_Some in Eh as [tl Eh]. assert (Hl : l ∈ omap v4_of addrs) by (rewrite Eh; by left).
    apply list_elem_of_omap in Hl as (a & _ & Ha). by eapply V. }
  destruct Hin as [Hin|Hin]; [done|]. split_and!; [done|done|]. exists r. done.
Qed.
End underlay.
