(* ===== verification/Types.v ===== *)
(** * The daemon's data (internal/types/types.go)

    The records the daemon, the Local API and the clients exchange, field by
    field.  A Go pointer field that may be nil is an [option]; a Go slice that
    the code distinguishes from nil ([!= nil]) is an [option] of a list, any
    other slice is a list.  Time stamps are the strings the code stores; they
    come from [rfc3339] applied to a number of nanoseconds since 1970. *)

From S2P Require Import Prelude GoStrings.

Open Scope go_scope.
Open Scope Z_scope.

(** ** Time

    [time.Time] is a number of nanoseconds; the zero time is [None] where the
    code tests [IsZero].  [rfc3339] and [rfc3339_nano] are the layouts the code
    uses, in UTC. *)

Definition Second : Z := 1000000000.
Definition Minute : Z := 60 * Second.
Definition Millisecond : Z := 1000000.

Definition pad (n : nat) (s : string) : string :=
  Nat.iter (n - len s) (λ t, String "0" t) s.

(** Civil date of a day number counted from 1970-01-01 (proleptic Gregorian). *)
Definition civil_from_days (days : Z) : Z * Z * Z :=
  let z := days + 719468 in
  let era := z / 146097 in
  let doe := z - era * 146097 in
  let yoe := (doe - doe / 1460 + doe / 36524 - doe / 146096) / 365 in
  let doy := doe - (365 * yoe + yoe / 4 - yoe / 100) in
  let mp := (5 * doy + 2) / 153 in
  let d := doy - (153 * mp + 2) / 5 + 1 in
  let m := if mp <? 10 then mp + 3 else mp - 9 in
  let y := yoe + era * 400 + (if m <=? 2 then 1 else 0) in
  (y, m, d).

Definition date_time (t : Z) : string :=
  let secs := t / Second in
  let '(y, m, d) := civil_from_days (secs / 86400) in
  let s := secs mod 86400 in
  pad 4 (Itoa y) +:+ "-" +:+ pad 2 (Itoa m) +:+ "-" +:+ pad 2 (Itoa d) +:+ "T" +:+
  pad 2 (Itoa (s / 3600)) +:+ ":" +:+ pad 2 (Itoa (s / 60 mod 60)) +:+ ":" +:+
  pad 2 (Itoa (s mod 60)).

Definition rfc3339 (t : Z) : string := date_time t +:+ "Z".

Definition rfc3339_nano (t : Z) : string :=
  let frac := t mod Second in
  date_time t +:+
  (if frac =? 0 then "" else "." +:+ TrimRight (pad 9 (Itoa frac)) ["0"%char]) +:+ "Z".

Example rfc3339_example :
  rfc3339_nano 1788257106120000000 = "2026-09-01T10:05:06.12Z" ∧
  rfc3339 951782400000000000 = "2000-02-29T00:00:00Z".
Proof. vm_compute. done. Qed.

(** ** Enumerations *)

(** [StateNone] is the empty text, the zero value of the type. *)
Inductive State :=
  | StateNone | StateDisconnected | StateConnecting | StateConnected | StateReconnecting | StateError.
#[export] Instance State_eq_dec : EqDecision State.
Proof. solve_decision. Defined.

(** The text of the constants. *)
Definition state_name (s : State) : string :=
  match s with
  | StateNone => "" | StateDisconnected => "Disconnected" | StateConnecting => "Connecting" | StateConnected => "Connected"
  | StateReconnecting => "Reconnecting" | StateError => "Error"
  end.
Inductive OperationState := OperationRunning | OperationSucceeded | OperationFailed.
#[export] Instance OperationState_eq_dec : EqDecision OperationState.
Proof. solve_decision. Defined.

(** A [types.ProfileScope] is a string: requests and state files may hold any
    value until validation. *)
Definition ProfileScopeUser : string := "user".
Definition ProfileScopeMachine : string := "machine".

(** ** Records *)

Record RouteSpec := mkRouteSpec {
  rs_Destination : string;
  rs_Action : string;
  rs_Metric : Z;
  rs_Source : string;
  rs_Enabled : bool;
}.
#[export] Instance RouteSpec_eta : Eta RouteSpec := λ r,
  mkRouteSpec (rs_Destination r) (rs_Action r) (rs_Metric r) (rs_Source r) (rs_Enabled r).
#[export] Instance RouteSpec_eq_dec : EqDecision RouteSpec.
Proof. solve_decision. Defined.

Record Profile := mkProfile {
  pr_ID : string;
  pr_Name : string;
  pr_ServerURL : string;
  pr_Username : string;
  pr_SecretRef : string;
  pr_Scope : string;
  pr_OwnerID : string;
  pr_Group : string;
  pr_AcceptServerRoutes : bool;
  pr_AutoReconnect : option bool;
  pr_ApplyDNS : option bool;
  pr_CustomInclude : list string;
  pr_CustomExclude : list string;
  pr_DNSOverrides : list string;
  pr_SOCKS5Enabled : bool;
  pr_SOCKS5Listen : string;
  pr_MTU : Z;
  pr_CreatedAt : string;
  pr_UpdatedAt : string;
}.
#[export] Instance Profile_eta : Eta Profile := λ r,
  mkProfile (pr_ID r) (pr_Name r) (pr_ServerURL r) (pr_Username r) (pr_SecretRef r) (pr_Scope r)
    (pr_OwnerID r) (pr_Group r) (pr_AcceptServerRoutes r) (pr_AutoReconnect r) (pr_ApplyDNS r)
    (pr_CustomInclude r) (pr_CustomExclude r) (pr_DNSOverrides r) (pr_SOCKS5Enabled r)
    (pr_SOCKS5Listen r) (pr_MTU r) (pr_CreatedAt r) (pr_UpdatedAt r).
#[export] Instance Profile_eq_dec : EqDecision Profile.
Proof. solve_decision. Defined.

Definition zero_profile : Profile :=
  mkProfile "" "" "" "" "" "" "" "" false None None [] [] [] false "" 0 "" "".

Record ProfileCreateRequest := mkProfileCreateRequest {
  cr_Name : string;
  cr_ServerURL : string;
  cr_Username : string;
  cr_Password : string;
  cr_Group : string;
  cr_Scope : string;
  cr_AcceptServerRoutes : option bool;
  cr_AutoReconnect : option bool;
  cr_ApplyDNS : option bool;
  cr_CustomInclude : list string;
  cr_CustomExclude : list string;
  cr_DNSOverrides : list string;
  cr_SOCKS5Enabled : bool;
  cr_SOCKS5Listen : string;
  cr_MTU : Z;
}.
#[export] Instance ProfileCreateRequest_eta : Eta ProfileCreateRequest := λ r,
  mkProfileCreateRequest (cr_Name r) (cr_ServerURL r) (cr_Username r) (cr_Password r)
    (cr_Group r) (cr_Scope r) (cr_AcceptServerRoutes r) (cr_AutoReconnect r) (cr_ApplyDNS r)
    (cr_CustomInclude r) (cr_CustomExclude r) (cr_DNSOverrides r) (cr_SOCKS5Enabled r)
    (cr_SOCKS5Listen r) (cr_MTU r).

Record ProfileUpdateRequest := mkProfileUpdateRequest {
  ur_Name : option string;
  ur_ServerURL : option string;
  ur_Username : option string;
  ur_Group : option string;
  ur_AcceptServerRoutes : option bool;
  ur_AutoReconnect : option bool;
  ur_ApplyDNS : option bool;
  ur_CustomInclude : option (list string);
  ur_CustomExclude : option (list string);
  ur_DNSOverrides : option (list string);
  ur_SOCKS5Enabled : option bool;
  ur_SOCKS5Listen : option string;
  ur_MTU : option Z;
  ur_Password : option string;
}.
#[export] Instance ProfileUpdateRequest_eta : Eta ProfileUpdateRequest := λ r,
  mkProfileUpdateRequest (ur_Name r) (ur_ServerURL r) (ur_Username r) (ur_Group r)
    (ur_AcceptServerRoutes r) (ur_AutoReconnect r) (ur_ApplyDNS r) (ur_CustomInclude r)
    (ur_CustomExclude r) (ur_DNSOverrides r) (ur_SOCKS5Enabled r) (ur_SOCKS5Listen r) (ur_MTU r)
    (ur_Password r).

Record UnderlayInfo := mkUnderlayInfo {
  ui_InterfaceName : string;
  ui_InterfaceIndex : Z;
  ui_LocalIPv4 : string;
  ui_Gateway : string;
  ui_GatewayInterface : Z;
  ui_RouteMetric : Z;
  ui_Generation : Z;
}.
#[export] Instance UnderlayInfo_eta : Eta UnderlayInfo := λ r,
  mkUnderlayInfo (ui_InterfaceName r) (ui_InterfaceIndex r) (ui_LocalIPv4 r) (ui_Gateway r)
    (ui_GatewayInterface r) (ui_RouteMetric r) (ui_Generation r).

Record SessionInfo := mkSessionInfo {
  si_ConnectionID : string;
  si_ServerAddress : string;
  si_LocalAddress : string;
  si_RemoteAddress : string;
  si_Hostname : string;
  si_TUNName : string;
  si_VPNAddress : string;
  si_VPNMask : string;
  si_DNS : list string;
  si_MTU : Z;
  si_SplitInclude : list string;
  si_SplitExclude : list string;
  si_TLSCipher : string;
  si_DTLSCipher : string;
  si_Underlay : option UnderlayInfo;
}.
#[export] Instance SessionInfo_eta : Eta SessionInfo := λ r,
  mkSessionInfo (si_ConnectionID r) (si_ServerAddress r) (si_LocalAddress r)
    (si_RemoteAddress r) (si_Hostname r) (si_TUNName r) (si_VPNAddress r) (si_VPNMask r)
    (si_DNS r) (si_MTU r) (si_SplitInclude r) (si_SplitExclude r) (si_TLSCipher r)
    (si_DTLSCipher r) (si_Underlay r).

Definition zero_session : SessionInfo :=
  mkSessionInfo "" "" "" "" "" "" "" "" [] 0 [] [] "" "" None.

Record TunnelRuntime := mkTunnelRuntime {
  tr_State : string;
  tr_TLSState : string;
  tr_DTLSState : string;
  tr_TUNReads : Z;
  tr_TUNWrites : Z;
  tr_TUNReadErrors : Z;
  tr_TUNWriteErrors : Z;
  tr_DPDSent : Z;
  tr_DPDResponses : Z;
  tr_QueueDrops : Z;
  tr_LastNetworkChange : string;
  tr_LastNetworkChangeInfo : string;
}.
#[export] Instance TunnelRuntime_eta : Eta TunnelRuntime := λ r,
  mkTunnelRuntime (tr_State r) (tr_TLSState r) (tr_DTLSState r) (tr_TUNReads r) (tr_TUNWrites r)
    (tr_TUNReadErrors r) (tr_TUNWriteErrors r) (tr_DPDSent r) (tr_DPDResponses r)
    (tr_QueueDrops r) (tr_LastNetworkChange r) (tr_LastNetworkChangeInfo r).

Definition zero_tunnel_runtime : TunnelRuntime := mkTunnelRuntime "" "" "" 0 0 0 0 0 0 0 "" "".

Record RuntimeDiagnostics := mkRuntimeDiagnostics {
  rd_Underlay : option UnderlayInfo;
  rd_Tunnel : option TunnelRuntime;
}.
#[export] Instance RuntimeDiagnostics_eta : Eta RuntimeDiagnostics := λ r,
  mkRuntimeDiagnostics (rd_Underlay r) (rd_Tunnel r).

Record NetworkChange := mkNetworkChange {
  nc_Before : option UnderlayInfo;
  nc_After : option UnderlayInfo;
  nc_Reasons : list string;
  nc_RebindRequired : bool;
  nc_Error : string;
  nc_Time : string;
}.
#[export] Instance NetworkChange_eta : Eta NetworkChange := λ r,
  mkNetworkChange (nc_Before r) (nc_After r) (nc_Reasons r) (nc_RebindRequired r) (nc_Error r)
    (nc_Time r).

Record ConnectionFault := mkConnectionFault {
  cf_Code : string;
  cf_Transport : string;
  cf_Error : string;
  cf_Time : string;
}.
#[export] Instance ConnectionFault_eta : Eta ConnectionFault := λ r,
  mkConnectionFault (cf_Code r) (cf_Transport r) (cf_Error r) (cf_Time r).

Record ConnectionEvent := mkConnectionEvent {
  ce_ID : string;
  ce_ConnectionID : string;
  ce_ProfileID : string;
  ce_Kind : string;
  ce_ReasonCode : string;
  ce_Transport : string;
  ce_Error : string;
  ce_Attempt : Z;
  ce_NextRetryAt : string;
  ce_SessionStarted : string;
  ce_SessionEnded : string;
  ce_DurationMS : Z;
  ce_Time : string;
  ce_TransportFaults : list ConnectionFault;
}.
#[export] Instance ConnectionEvent_eta : Eta ConnectionEvent := λ r,
  mkConnectionEvent (ce_ID r) (ce_ConnectionID r) (ce_ProfileID r) (ce_Kind r) (ce_ReasonCode r)
    (ce_Transport r) (ce_Error r) (ce_Attempt r) (ce_NextRetryAt r) (ce_SessionStarted r)
    (ce_SessionEnded r) (ce_DurationMS r) (ce_Time r) (ce_TransportFaults r).

Definition zero_event : ConnectionEvent := mkConnectionEvent "" "" "" "" "" "" "" 0 "" "" "" 0 "" [].

Record ReconnectSnapshot := mkReconnectSnapshot {
  rsn_Active : bool;
  rsn_ProfileID : string;
  rsn_Attempt : Z;
  rsn_NextRetryAt : string;
  rsn_LifecycleID : string;
}.
#[export] Instance ReconnectSnapshot_eta : Eta ReconnectSnapshot := λ r,
  mkReconnectSnapshot (rsn_Active r) (rsn_ProfileID r) (rsn_Attempt r) (rsn_NextRetryAt r)
    (rsn_LifecycleID r).

Record TrafficStats := mkTrafficStats {
  ts_BytesSent : Z;
  ts_BytesReceived : Z;
}.
#[export] Instance TrafficStats_eta : Eta TrafficStats := λ r,
  mkTrafficStats (ts_BytesSent r) (ts_BytesReceived r).

(** Rates are the pair (bytes, nanoseconds) whose quotient Go stores as a
    float64; [None] is the rate 0. *)

Record TrafficSnapshot := mkTrafficSnapshot {
  tn_Connected : bool;
  tn_BytesSent : Z;
  tn_BytesReceived : Z;
  tn_BytesSentPerSecond : option (Z * Z);
  tn_BytesReceivedPerSecond : option (Z * Z);
  tn_SampledAt : string;
}.
#[export] Instance TrafficSnapshot_eta : Eta TrafficSnapshot := λ r,
  mkTrafficSnapshot (tn_Connected r) (tn_BytesSent r) (tn_BytesReceived r)
    (tn_BytesSentPerSecond r) (tn_BytesReceivedPerSecond r) (tn_SampledAt r).

Definition zero_traffic : TrafficSnapshot := mkTrafficSnapshot false 0 0 None None "".

Record Operation := mkOperation {
  op_ID : string;
  op_Kind : string;
  op_ProfileID : string;
  op_AttemptID : string;
  op_State : OperationState;
  op_ErrorCode : string;
  op_Error : string;
  op_StartedAt : string;
  op_EndedAt : string;
  op_OwnerID : string;
}.
#[export] Instance Operation_eta : Eta Operation := λ r,
  mkOperation (op_ID r) (op_Kind r) (op_ProfileID r) (op_AttemptID r) (op_State r)
    (op_ErrorCode r) (op_Error r) (op_StartedAt r) (op_EndedAt r) (op_OwnerID r).

Record Status := mkStatus {
  st_State : State;
  st_CurrentProfileID : string;
  st_SelectedProfileID : string;
  st_ConnectedProfileID : string;
  st_ControlMode : string;
  st_AttemptID : string;
  st_Operation : option Operation;
  st_Session : option SessionInfo;
  st_EffectiveRoutes : list RouteSpec;
  st_LastError : string;
  st_SOCKS5Enabled : bool;
  st_SOCKS5Listen : string;
  st_UpdatedAt : string;
}.
#[export] Instance Status_eta : Eta Status := λ r,
  mkStatus (st_State r) (st_CurrentProfileID r) (st_SelectedProfileID r)
    (st_ConnectedProfileID r) (st_ControlMode r) (st_AttemptID r) (st_Operation r)
    (st_Session r) (st_EffectiveRoutes r) (st_LastError r) (st_SOCKS5Enabled r)
    (st_SOCKS5Listen r) (st_UpdatedAt r).

Definition zero_status : Status :=
  mkStatus StateNone "" "" "" "" "" None None [] "" false "" "".

Record ComponentStatus := mkComponentStatus {
  cs_Name : string;
  cs_Ready : bool;
  cs_Message : string;
}.
#[export] Instance ComponentStatus_eta : Eta ComponentStatus := λ r,
  mkComponentStatus (cs_Name r) (cs_Ready r) (cs_Message r).
#[export] Instance ComponentStatus_eq_dec : EqDecision ComponentStatus.
Proof. solve_decision. Defined.

Record ReadyStatus := mkReadyStatus {
  rdy_Ready : bool;
  rdy_Components : list ComponentStatus;
}.
#[export] Instance ReadyStatus_eta : Eta ReadyStatus := λ r,
  mkReadyStatus (rdy_Ready r) (rdy_Components r).

Record ControlModeRequest := mkControlModeRequest {
  cm_Mode : string;
  cm_ProfileID : string;
}.
#[export] Instance ControlModeRequest_eta : Eta ControlModeRequest := λ r,
  mkControlModeRequest (cm_Mode r) (cm_ProfileID r).

Record RouteUpdateRequest := mkRouteUpdateRequest {
  ru_AcceptServerRoutes : option bool;
  ru_CustomInclude : option (list string);
  ru_CustomExclude : option (list string);
}.
#[export] Instance RouteUpdateRequest_eta : Eta RouteUpdateRequest := λ r,
  mkRouteUpdateRequest (ru_AcceptServerRoutes r) (ru_CustomInclude r) (ru_CustomExclude r).

Record LogEntry := mkLogEntry {
  le_Time : string;
  le_Level : string;
  le_Message : string;
}.
#[export] Instance LogEntry_eta : Eta LogEntry := λ r,
  mkLogEntry (le_Time r) (le_Level r) (le_Message r).

Record Notify := mkNotify {
  nt_Epoch : string;
  nt_Revision : Z;
  nt_Version : string;
  nt_Event : string;
  nt_Status : option Status;
  nt_Traffic : option TrafficSnapshot;
  nt_Profile : option Profile;
  nt_Profiles : list Profile;
  nt_Logs : list LogEntry;
  nt_Message : string;
  nt_Error : string;
  nt_Connection : option ConnectionEvent;
  nt_Network : option NetworkChange;
  nt_Operation : option Operation;
  nt_Time : string;
}.
#[export] Instance Notify_eta : Eta Notify := λ r,
  mkNotify (nt_Epoch r) (nt_Revision r) (nt_Version r) (nt_Event r) (nt_Status r) (nt_Traffic r)
    (nt_Profile r) (nt_Profiles r) (nt_Logs r) (nt_Message r) (nt_Error r) (nt_Connection r)
    (nt_Network r) (nt_Operation r) (nt_Time r).

Definition zero_notify : Notify :=
  mkNotify "" 0 "" "" None None None [] [] "" "" None None None "".

Record UpdateAsset := mkUpdateAsset {
  ua_Name : string;
  ua_DownloadURL : string;
  ua_Size : Z;
}.
#[export] Instance UpdateAsset_eta : Eta UpdateAsset := λ r,
  mkUpdateAsset (ua_Name r) (ua_DownloadURL r) (ua_Size r).

Record UpdateInfo := mkUpdateInfo {
  uin_CurrentVersion : string;
  uin_LatestVersion : string;
  uin_UpdateAvailable : bool;
  uin_ReleaseURL : string;
  uin_PublishedAt : string;
  uin_Assets : list UpdateAsset;
  uin_CheckedAt : string;
  uin_Disabled : bool;
  uin_Error : string;
}.
#[export] Instance UpdateInfo_eta : Eta UpdateInfo := λ r,
  mkUpdateInfo (uin_CurrentVersion r) (uin_LatestVersion r) (uin_UpdateAvailable r)
    (uin_ReleaseURL r) (uin_PublishedAt r) (uin_Assets r) (uin_CheckedAt r) (uin_Disabled r)
    (uin_Error r).

Definition zero_update_info : UpdateInfo := mkUpdateInfo "" "" false "" "" [] "" false "".

(** ** Helpers *)

Definition BoolValue (v : option bool) (defaultValue : bool) : bool :=
  match v with None => defaultValue | Some b => b end.

(** [newIDFrom reader]: sixteen bytes read in full, in hexadecimal.  The
    reader is the list of bytes it can still deliver. *)
Fixpoint hex_encode (bytes : list nat) : string :=
  match bytes with
  | [] => ""
  | b :: bytes => String (hex_digit (b / 16)) (String (hex_digit (b mod 16)) (hex_encode bytes))
  end.

Definition newIDFrom (reader : list nat) : error + (string * list nat) :=
  if (length reader =? 0)%nat then inl (ErrSentinel IoEOF "EOF")
  else if (length reader <? 16)%nat then inl (ErrSentinel IoUnexpectedEOF "unexpected EOF")
  else inr (hex_encode (take 16 reader), drop 16 reader).

(** [NewProfile name] once the identifier [id] has been drawn. *)
Definition NewProfile (name id : string) (now : Z) : Profile :=
  mkProfile id name "" "" "" ProfileScopeMachine "system" "" true (Some false) (Some true)
    [] [] [] false "127.0.0.1:1080" 1399 (rfc3339 now) (rfc3339 now).

Lemma len_hex_encode bytes : len (hex_encode bytes) = (2 * length bytes)%nat.
Proof.
  induction bytes as [|b bytes IH]; [done|]. unfold len in *. cbn. rewrite IH. lia.
Qed.
