(* ===== verification/Fs.v ===== *)
(** * Durable files

    The system calls internal/store/file, internal/secret and
    internal/osnet/journal use to replace a file atomically, on one directory,
    with a fault schedule: every call succeeds, returns an error, or is where
    the process (and the machine) dies.  What a restart can find is given by
    [may_read]: a rename may be lost until the directory is synced, and a file
    that was not synced may hold anything.  The operating system is not part of
    the repository: these are the documented POSIX semantics of the calls. *)

From S2P Require Import Prelude GoStrings.

Open Scope go_scope.
Open Scope Z_scope.

(** What happens to the next system call. *)
Inductive Fault := Pass | Errs (msg : string) | Dies.

Record Node (C : Type) := mkNode {
  nd_data : C;
  nd_synced : bool;
  nd_mode : Z;
}.
Arguments mkNode {C} _ _ _.
Arguments nd_data {C} _.
Arguments nd_synced {C} _.
Arguments nd_mode {C} _.
#[export] Instance Node_eta C : Eta (Node C) := λ r, mkNode (nd_data r) (nd_synced r) (nd_mode r).

(** [fs_names] is the directory as the process sees it, [fs_hist] the versions
    a crash may leave (the current one and those not yet flushed). *)
Record FS (C : Type) := mkFS {
  fs_names : gmap string nat;
  fs_hist : list (gmap string nat);
  fs_nodes : gmap nat (Node C);
  fs_next : nat;
  fs_dirmode : Z;
  fs_sched : list Fault;
}.
Arguments mkFS {C} _ _ _ _ _ _.
Arguments fs_names {C} _.
Arguments fs_hist {C} _.
Arguments fs_nodes {C} _.
Arguments fs_next {C} _.
Arguments fs_dirmode {C} _.
Arguments fs_sched {C} _.
#[export] Instance FS_eta C : Eta (FS C) := λ r,
  mkFS (fs_names r) (fs_hist r) (fs_nodes r) (fs_next r) (fs_dirmode r) (fs_sched r).

Section calls.
Context {C : Type} (empty_data : C).
Notation IO := (M (FS C)).

Definition fault_of (w : FS C) : Fault :=
  match fs_sched w with [] => Pass | f :: _ => f end.

(** One call: consume a fault, run the effect or its failure effect. *)
Definition syscall {A} (on_fault : FS C → FS C) (act : IO A) : IO A := λ w,
  let w' := w <| fs_sched ::= tail |> in
  match fault_of w with
  | Pass => act w'
  | Errs msg => (on_fault w', Failed (ErrText msg))
  | Dies => (on_fault w', Crashed)
  end.

(** A call whose only effect the model keeps is that it can fail. *)
Definition checked : IO () := syscall id (mret ()).

Definition set_names (f : gmap string nat → gmap string nat) (w : FS C) : FS C :=
  w <| fs_names ::= f |> <| fs_hist ::= cons (f (fs_names w)) |>.

Definition set_node (i : nat) (f : Node C → Node C) (w : FS C) : FS C :=
  w <| fs_nodes ::= alter f i |>.

(** [os.CreateTemp]: an unused name (O_EXCL) and a fresh inode. *)
Definition temp_name (base suffix : string) (w : FS C) : string :=
  base +:+ Itoa (Z.of_nat (fs_next w)) +:+ suffix.

Definition create_temp (base suffix : string) : IO (string * nat) :=
  syscall id (λ w,
    let name := temp_name base suffix w in
    match fs_names w !! name with
    | Some _ => (w, Failed (ErrText "createtemp: file exists"))
    | None =>
        (set_names <[name := fs_next w]>
           (w <| fs_nodes ::= <[fs_next w := mkNode empty_data false 384]> |> <| fs_next ::= S |>),
         Done (name, fs_next w))
    end).

Definition chmod_fd (i : nat) (mode : Z) : IO () :=
  syscall id (modify (set_node i (λ n, n <| nd_mode := mode |>))).

(** A failed or interrupted write leaves some other content behind. *)
Definition write_fd (i : nat) (data torn : C) : IO () :=
  syscall (set_node i (λ n, n <| nd_data := torn |> <| nd_synced := false |>))
    (modify (set_node i (λ n, n <| nd_data := data |> <| nd_synced := false |>))).

Definition sync_fd (i : nat) : IO () :=
  syscall id (modify (set_node i (λ n, n <| nd_synced := true |>))).

Definition rename (source target : string) : IO () :=
  syscall id (λ w,
    match fs_names w !! source with
    | None => (w, Failed (ErrSentinel NotExist "rename: no such file"))
    | Some i => (set_names (λ m, <[target := i]> (delete source m)) w, Done ())
    end).

(** [os.Remove]: the name goes; a missing file is an error. *)
Definition remove (name : string) : IO () :=
  syscall id (λ w,
    match fs_names w !! name with
    | None => (w, Failed (ErrSentinel NotExist "remove: no such file"))
    | Some _ => (set_names (delete name) w, Done ())
    end).

Definition chmod (name : string) (mode : Z) : IO () :=
  syscall id (λ w,
    match fs_names w !! name with
    | None => (w, Failed (ErrSentinel NotExist "chmod: no such file"))
    | Some i => (set_node i (λ n, n <| nd_mode := mode |>) w, Done ())
    end).

Definition chmod_dir (mode : Z) : IO () :=
  syscall id (modify (λ w, w <| fs_dirmode := mode |>)).

(** [dir.Sync]: only the current directory survives from here on. *)
Definition sync_dir : IO () :=
  syscall id (modify (λ w, w <| fs_hist := [fs_names w] |>)).

Definition read_file (name : string) : IO C :=
  syscall id (λ w,
    match fs_names w !! name ≫= λ i, fs_nodes w !! i with
    | None => (w, Failed (ErrSentinel NotExist "open: no such file"))
    | Some n => (w, Done (nd_data n))
    end).

(** A deferred call: it runs whatever the body returned, its own error is
    dropped, and it does not run when the process died. *)
Definition defer {A} (cleanup : Outcome A → IO ()) (body : IO A) : IO A := λ w,
  match body w with
  | (w', Crashed) => (w', Crashed)
  | (w', o) => match cleanup o w' with
               | (w'', Crashed) => (w'', Crashed)
               | (w'', _) => (w'', o)
               end
  end.

(** ** What a reader and a restart find *)

Definition contents (w : FS C) (name : string) : option C :=
  nd_data <$> (fs_names w !! name ≫= λ i, fs_nodes w !! i).

(** The file [name] may read as [r] after a crash in state [w]. *)
Definition may_read (w : FS C) (name : string) (r : option C) : Prop :=
  ∃ names, names ∈ fs_hist w ∧
    match names !! name with
    | None => r = None
    | Some i => match fs_nodes w !! i with
                | None => r = None
                | Some n => if nd_synced n then r = Some (nd_data n) else is_Some r
                end
    end.

(** ** The life of an atomic replacement

    [may_hold name V]: every surviving directory shows one of the contents [V],
    synced.  [filling]: a temporary inode exists besides.  [renamed]: the
    process sees the new file, a crash may leave an old one.  [replaced]: only
    the new file is left. *)

Definition shows (w : FS C) (name : string) (r : option C) (names : gmap string nat) : Prop :=
  match names !! name with
  | None => r = None
  | Some i => (i < fs_next w)%nat ∧
      ∃ n, fs_nodes w !! i = Some n ∧ nd_synced n = true ∧ r = Some (nd_data n)
  end.

Definition shows_in (w : FS C) (name : string) (V : option C → Prop) (names : gmap string nat) : Prop :=
  ∃ r, V r ∧ shows w name r names.

Definition may_hold (name : string) (V : option C → Prop) (w : FS C) : Prop :=
  fs_names w ∈ fs_hist w ∧ ∀ names, names ∈ fs_hist w → shows_in w name V names.

Definition or_new (V : option C → Prop) (new : C) (r : option C) : Prop := V r ∨ r = Some new.

Definition filling (name tmp : string) (V : option C → Prop) (i : nat) (P : Node C → Prop)
    (w : FS C) : Prop :=
  may_hold name V w ∧ fs_names w !! tmp = Some i ∧ tmp ≠ name ∧ (i < fs_next w)%nat ∧
  (∀ names, names ∈ fs_hist w → names !! name ≠ Some i) ∧
  (∃ n, fs_nodes w !! i = Some n ∧ P n).

Definition has_mode (name : string) (mode : Z) (w : FS C) : Prop :=
  ∀ i n, fs_names w !! name = Some i → fs_nodes w !! i = Some n → nd_mode n = mode.

Definition renamed (name : string) (V : option C → Prop) (new : C) (mode : Z) (w : FS C) : Prop :=
  may_hold name (or_new V new) w ∧ shows w name (Some new) (fs_names w) ∧ has_mode name mode w.

Definition replaced (name : string) (new : C) (mode : Z) (w : FS C) : Prop :=
  may_hold name (λ r, r = Some new) w ∧ has_mode name mode w.

Lemma may_hold_mono name (V V' : option C → Prop) w :
  may_hold name V w → (∀ r, V r → V' r) → may_hold name V' w.
Proof.
  intros [Hc H] HV. split; [done|]. intros names Hn. destruct (H _ Hn) as (r & Hr & Hs).
  exists r. auto.
Qed.

Lemma may_hold_or_new name V new w : may_hold name V w → may_hold name (or_new V new) w.
Proof. intros H. eapply may_hold_mono; [done|]. by left. Qed.

(** What a crash leaves is one of the contents. *)
Lemma may_hold_read name V w r : may_hold name V w → may_read w name r → V r.
Proof.
  intros [_ H] (names & Hin & Hr). destruct (H names Hin) as (r' & HV & Hs).
  unfold shows in Hs. destruct (names !! name) as [i|]; [|congruence].
  destruct Hs as (_ & n & Hn & Hsy & ->). rewrite Hn, Hsy in Hr. by subst.
Qed.

Lemma shows_may_read name r w names :
  names ∈ fs_hist w → shows w name r names → may_read w name r.
Proof.
  intros Hin Hs. exists names. split; [done|]. unfold shows in Hs.
  destruct (names !! name); [|done]. by destruct Hs as (_ & nd & -> & -> & ->).
Qed.

Lemma may_hold_self name V w : may_hold name V w → may_hold name (may_read w name) w.
Proof.
  intros [Hc H]. split; [done|]. intros names Hin. destruct (H _ Hin) as (r & _ & Hs).
  exists r. split; [by eapply shows_may_read|done].
Qed.

Lemma shows_contents name r w : shows w name r (fs_names w) → contents w name = r.
Proof.
  unfold shows, contents. destruct (fs_names w !! name) as [i|]; cbn; [|done].
  intros (_ & n & -> & _ & ->). done.
Qed.

(** What the process reads is one of the contents. *)
Lemma may_hold_contents name V w : may_hold name V w → V (contents w name).
Proof.
  intros [Hc H]. destruct (H _ Hc) as (r & HV & Hs). by rewrite (shows_contents _ _ _ Hs).
Qed.

(** A restart: one of the surviving directories, the synced files, and
    anything in the others. *)
Definition restart (w w' : FS C) : Prop :=
  fs_names w' ∈ fs_hist w ∧ fs_hist w' = [fs_names w'] ∧ fs_next w' = fs_next w ∧
  ∀ i n, fs_nodes w !! i = Some n → nd_synced n = true → fs_nodes w' !! i = Some n.

Lemma restart_now w :
  fs_names w ∈ fs_hist w → restart w (w <| fs_hist := [fs_names w] |> <| fs_sched := [] |>).
Proof. intros H. by split_and!. Qed.

(** A restart settles on one content. *)
Lemma may_hold_restart name V w w' :
  may_hold name V w → restart w w' → V (contents w' name) ∧
    may_hold name (λ r, r = contents w' name) w'.
Proof.
  intros [_ H] (Hin & Hh & Hn & Hk). destruct (H _ Hin) as (r & HV & Hs).
  assert (Hs' : shows w' name r (fs_names w')).
  { unfold shows in *. destruct (fs_names w' !! name) as [i|]; [|done].
    destruct Hs as (Hi & n & Hi' & Hsy & ->). rewrite Hn. split; [done|]. exists n. eauto. }
  rewrite (shows_contents _ _ _ Hs'). split; [done|]. split; rewrite Hh; [by left|].
  intros names ->%list_elem_of_singleton. by exists r.
Qed.

(** Fault handling of one call: the schedule is not part of any predicate. *)
Lemma wp_syscall {A} (act : IO A) on_fault (Q : Outcome A → FS C → Prop) w :
  (∀ s, let w' := w <| fs_sched := s |> in
     wp act Q w' ∧ (∀ msg, Q (Failed (ErrText msg)) (on_fault w')) ∧ Q Crashed (on_fault w')) →
  wp (syscall on_fault act) Q w.
Proof.
  intros H. unfold wp, syscall. destruct (H (tail (fs_sched w))) as (H1 & H2 & H3).
  destruct (fault_of w); [exact H1|apply H2|exact H3].
Qed.

Lemma wp_defer {A} (cleanup : Outcome A → IO ()) (body : IO A) Q w :
  wp body (λ o w', match o with
                   | Crashed => Q Crashed w'
                   | _ => wp (cleanup o) (λ o' w'', match o' with
                                                    | Crashed => Q Crashed w''
                                                    | _ => Q o w''
                                                    end) w'
                   end) w →
  wp (defer cleanup body) Q w.
Proof.
  unfold wp, defer. destruct (body w) as [w' [a|e|]]; cbn; [| |done];
    destruct (cleanup _ w') as [w'' [[]|e'|]]; done.
Qed.

(** ** Transitions *)

Lemma nodes_set_node i f w : fs_nodes (set_node i f w) = alter f i (fs_nodes w).
Proof. done. Qed.

Lemma lookup_alter_Some' (f : Node C → Node C) i (m : gmap nat (Node C)) n :
  alter f i m !! i = Some n → ∃ n', m !! i = Some n' ∧ n = f n'.
Proof. rewrite lookup_alter_eq. intros (n' & -> & ->)%fmap_Some. eauto. Qed.

Lemma shows_set_node w name V names i f :
  names !! name ≠ Some i → shows_in w name V names → shows_in (set_node i f w) name V names.
Proof.
  intros Hne (r & HV & Hs). exists r. split; [done|]. revert Hs. unfold shows. destruct (names !! name) as [j|]; [|done].
  rewrite nodes_set_node, lookup_alter_ne; [done|]. congruence.
Qed.

Lemma filling_set_node name tmp V i (P Q : Node C → Prop) f w :
  filling name tmp V i P w → (∀ n, P n → Q (f n)) →
  filling name tmp V i Q (set_node i f w).
Proof.
  intros ((Hc & Hb) & Ht & Hne & Hi & Hf & n & Hn & HP) HQ. split_and!; try done.
  - split; [done|]. intros names Hin. apply shows_set_node; [by apply Hf|by apply Hb].
  - exists (f n). rewrite nodes_set_node, lookup_alter_eq, Hn. auto.
Qed.

Lemma filling_mono name tmp V i (P Q : Node C → Prop) w :
  filling name tmp V i P w → (∀ n, P n → Q n) → filling name tmp V i Q w.
Proof. intros (Hb & Ht & Hne & Hi & Hf & n & Hn & HP) HQ. split_and!; eauto. Qed.

Lemma filling_hold name tmp V i P w : filling name tmp V i P w → may_hold name V w.
Proof. by intros [H _]. Qed.

Lemma wp_checked (Q : Outcome () → FS C → Prop) w :
  (∀ s, let w' := w <| fs_sched := s |> in
     Q (Done ()) w' ∧ (∀ msg, Q (Failed (ErrText msg)) w') ∧ Q Crashed w') → wp checked Q w.
Proof. intros H. by apply wp_syscall. Qed.

Lemma wp_checked_keep (P : FS C → Prop) w :
  (∀ s, P (w <| fs_sched := s |>)) → wp checked (λ _, P) w.
Proof. intros H. apply wp_checked. intros s w'. split; [|split; [intros e|]]; apply H. Qed.

Lemma wp_checked_filling name tmp V i P w :
  filling name tmp V i P w → wp checked (λ _, filling name tmp V i P) w.
Proof. intros H. by apply wp_checked_keep. Qed.

Lemma wp_checked_renamed name V new mode w :
  renamed name V new mode w → wp checked (λ _, renamed name V new mode) w.
Proof. intros H. by apply wp_checked_keep. Qed.

Lemma wp_checked_hold name V w :
  may_hold name V w → wp checked (λ _, may_hold name V) w.
Proof. intros H. by apply wp_checked_keep. Qed.

Lemma wp_checked_replaced name new mode w :
  replaced name new mode w → wp checked (λ _, replaced name new mode) w.
Proof. intros H. by apply wp_checked_keep. Qed.

Lemma wp_create_temp base suffix name V w :
  may_hold name V w → HasPrefix name base = false →
  wp (create_temp base suffix) (λ o w', match o with
    | Done (tmp, i) => filling name tmp V i (λ _, True) w'
    | _ => may_hold name V w'
    end) w.
Proof.
  intros Hb Hne. apply wp_syscall. intros s w'. split; [|by split; [intros e|]].
  apply wp_intro. intros w'' o. cbv beta zeta.
  destruct (fs_names w' !! temp_name base suffix w') eqn:E.
  { intros [= <- <-]. exact Hb. }
  intros [= <- <-]. destruct Hb as [Hc Hb].
  assert (Htn : temp_name base suffix w' ≠ name).
  { intros <-. unfold temp_name in Hne. by rewrite HasPrefix_app in Hne. }
  assert (Hs : ∀ names, names ∈ fs_hist w → names !! name ≠ Some (fs_next w)
    ∧ shows_in (set_names <[temp_name base suffix w' := fs_next w]>
         (w' <| fs_nodes ::= <[fs_next w := mkNode empty_data false 384]> |> <| fs_next ::= S |>))
        name V names).
  { intros names Hin. destruct (Hb names Hin) as (r & HV & Hr). unfold shows_in, shows in *. cbn.
    destruct (names !! name) as [j|]; [|by eauto]. destruct Hr as (Hj & n & Hn & Hn').
    split; [intros [= ->]; lia|]. exists r. split; [done|]. split; [lia|]. exists n. split; [|done].
    rewrite lookup_insert_ne; [done|lia]. }
  split_and!; cbn.
  - split; cbn; [by left|]. intros names [->|Hin]%elem_of_cons; [|by apply Hs].
    destruct (Hs _ Hc) as [_ (r & HV & Hr)]. exists r. split; [done|].
    unfold shows in *. by rewrite lookup_insert_ne.
  - by rewrite lookup_insert_eq.
  - done.
  - lia.
  - intros names [->|Hin]%elem_of_cons; [|by apply Hs].
    rewrite lookup_insert_ne by done. by apply Hs.
  - eexists. by rewrite lookup_insert_eq.
Qed.

Lemma wp_on_fd name tmp V i (P Q : Node C → Prop) g f w :
  filling name tmp V i P w → (∀ n, P n → Q (f n)) →
  (∀ w', filling name tmp V i P w' → may_hold name V (g w')) →
  wp (syscall g (modify (set_node i f))) (λ o w', match o with
    | Done _ => filling name tmp V i Q w'
    | _ => may_hold name V w'
    end) w.
Proof.
  intros H HQ Hg. apply wp_syscall. intros s w'. split; [|split; [intros e|]]; [|by apply Hg..].
  apply wp_modify. by eapply filling_set_node.
Qed.

Lemma wp_chmod_fd name tmp V i P mode w :
  filling name tmp V i P w →
  wp (chmod_fd i mode) (λ o w', match o with
    | Done _ => filling name tmp V i (λ n, nd_mode n = mode) w'
    | _ => may_hold name V w'
    end) w.
Proof. intros H. eapply wp_on_fd; [done|done|apply filling_hold]. Qed.

Lemma wp_write_fd name tmp V i mode data torn w :
  filling name tmp V i (λ n, nd_mode n = mode) w →
  wp (write_fd i data torn) (λ o w', match o with
    | Done _ => filling name tmp V i (λ n, nd_mode n = mode ∧ nd_data n = data) w'
    | _ => may_hold name V w'
    end) w.
Proof.
  intros H. eapply wp_on_fd; [done|done|]. intros w' Hw'.
  eapply filling_hold, (filling_set_node _ _ _ _ _ (λ _, True)); [exact Hw'|done].
Qed.

Lemma wp_sync_fd name tmp V i mode data w :
  filling name tmp V i (λ n, nd_mode n = mode ∧ nd_data n = data) w →
  wp (sync_fd i) (λ o w', match o with
    | Done _ => filling name tmp V i (λ n, nd_mode n = mode ∧ nd_data n = data ∧ nd_synced n = true) w'
    | _ => may_hold name V w'
    end) w.
Proof. intros H. eapply wp_on_fd; [done|naive_solver|apply filling_hold]. Qed.

Lemma wp_rename name tmp V i mode new w :
  filling name tmp V i (λ n, nd_mode n = mode ∧ nd_data n = new ∧ nd_synced n = true) w →
  wp (rename tmp name) (λ o w', match o with
    | Done _ => renamed name V new mode w'
    | _ => may_hold name V w'
    end) w.
Proof.
  intros ((Hc & Hb) & Ht & Hne & Hi & Hf & n & Hn & Hm & Hd & Hs). apply wp_syscall. intros s w'.
  split; [|by split; [intros e|]]. apply wp_intro. intros w'' o. subst w'. cbn. rewrite Ht.
  intros [= <- <-].
  assert (Hshow : shows (set_names (λ m, <[name := i]> (delete tmp m)) (w <| fs_sched := s |>))
                    name (Some new) (<[name := i]> (delete tmp (fs_names w)))).
  { unfold shows. rewrite lookup_insert_eq. split; [done|]. exists n. by rewrite Hd. }
  split_and!; [split|done|]; cbn.
  - by left.
  - intros names [->|Hin]%elem_of_cons.
    + exists (Some new). split; [by right|done].
    + destruct (Hb _ Hin) as (r & HV & Hr). exists r. split; [by left|done].
  - unfold has_mode. cbn. intros j nj. rewrite lookup_insert_eq. intros [= <-] Hj. by simplify_eq.
Qed.

Lemma shows_chmod w name names r i mode s :
  shows w name r names →
  shows (set_node i (λ n, n <| nd_mode := mode |>) (w <| fs_sched := s |>)) name r names.
Proof.
  unfold shows. destruct (names !! name) as [j|]; [|done].
  intros (Hj & n & Hn & Hrest). split; [done|]. rewrite nodes_set_node.
  destruct (decide (i = j)) as [->|Hne].
  - rewrite lookup_alter_eq. cbn. rewrite Hn. cbn. eauto.
  - rewrite lookup_alter_ne by done. eauto.
Qed.

Lemma may_hold_chmod w name V i mode s :
  may_hold name V w →
  may_hold name V (set_node i (λ n, n <| nd_mode := mode |>) (w <| fs_sched := s |>)).
Proof.
  intros [Hc H]. split; [done|]. intros names Hin. destruct (H _ Hin) as (r & HV & Hs).
  exists r. split; [done|]. by apply shows_chmod.
Qed.

(** A call that keeps what the file shows: its contents, and an error that is
    the operating system's. *)
Definition keeps (name : string) (V : option C → Prop) (c : option C) (A : Type)
    (o : Outcome A) (w : FS C) : Prop :=
  may_hold name V w ∧ contents w name = c ∧
  match o with Failed e => errors_is e SecretNotFound = false | _ => True end.

Lemma wp_chmod_keeps name V mode w :
  may_hold name V w → wp (chmod name mode) (keeps name V (contents w name) ()) w.
Proof.
  intros H. apply wp_syscall. intros s w'. split; [|by split; [intros e|]].
  apply wp_intro. intros w'' o. subst w'. cbn.
  destruct (fs_names w !! name) as [i|] eqn:Hi; intros [= <- <-]; [|done].
  split_and!; [by apply may_hold_chmod| |done].
  unfold contents. cbn. rewrite Hi. cbn. rewrite lookup_alter_eq. by destruct (fs_nodes w !! i).
Qed.

Lemma wp_chmod_dir_keeps name V mode w :
  may_hold name V w → wp (chmod_dir mode) (keeps name V (contents w name) ()) w.
Proof. intros H. apply wp_syscall. intros s w'. split; [|by split; [intros e|]]. done. Qed.

Lemma wp_chmod name V new mode mode' w :
  renamed name V new mode w →
  wp (chmod name mode') (λ o w', match o with
    | Done _ => renamed name V new mode' w'
    | _ => renamed name V new mode w'
    end) w.
Proof.
  intros H. apply wp_syscall. intros s w'. split; [|by split; [intros e|]].
  apply wp_intro. intros w'' o. subst w'. cbn. pose proof H as ((Hc & He) & Hs & Hm).
  destruct (fs_names w !! name) as [i|] eqn:Hi; [|by intros [= <- <-]].
  intros [= <- <-].
  split_and!; [by apply may_hold_chmod|by apply shows_chmod|].
  unfold has_mode. cbn. intros j n. rewrite Hi. intros [= <-].
  intros (n' & _ & ->)%lookup_alter_Some'. done.
Qed.

Lemma wp_sync_dir name V new mode w :
  renamed name V new mode w →
  wp sync_dir (λ o w', match o with
    | Done _ => replaced name new mode w'
    | _ => renamed name V new mode w'
    end) w.
Proof.
  intros H. apply wp_syscall. intros s w'. split; [|by split; [intros e|]].
  apply wp_modify. subst w'. destruct H as (_ & Hs & Hm). split; [split|done]; cbn.
  - by left.
  - intros names ->%list_elem_of_singleton. by eexists.
Qed.

Lemma renamed_hold name V new mode w : renamed name V new mode w → may_hold name (or_new V new) w.
Proof. by intros [H _]. Qed.

Lemma replaced_hold name V new mode w : replaced name new mode w → may_hold name (or_new V new) w.
Proof. intros [H _]. eapply may_hold_mono; [done|]. by right. Qed.

(** Removing another name changes nothing of what [name] shows. *)
Lemma may_hold_remove name tmp V w :
  may_hold name V w → tmp ≠ name → may_hold name V (set_names (delete tmp) w).
Proof.
  intros [Hc Hb] Hne. split; cbn; [by left|].
  intros names [->|Hin]%elem_of_cons; [|by apply Hb].
  destruct (Hb _ Hc) as (r & HV & Hr). exists r. split; [done|].
  unfold shows in *. cbn. by rewrite lookup_delete_ne.
Qed.

Lemma wp_remove_hold name tmp V w :
  may_hold name V w → tmp ≠ name → wp (remove tmp) (λ _ w', may_hold name V w') w.
Proof.
  intros H Hne. apply wp_syscall. intros s w'. split; [|by split; [intros e|]].
  apply wp_intro. intros w'' o. subst w'. cbn.
  destruct (fs_names w !! tmp); intros [= <- <-]; [|done]. by apply may_hold_remove.
Qed.

Lemma wp_remove_replaced name tmp new mode w :
  replaced name new mode w → tmp ≠ name →
  wp (remove tmp) (λ _ w', replaced name new mode w') w.
Proof.
  intros H Hne. apply wp_syscall. intros s w'. split; [|by split; [intros e|]].
  apply wp_intro. intros w'' o. subst w'. cbn.
  destruct (fs_names w !! tmp); intros [= <- <-]; [|done].
  destruct H as [Hb Hm]. split; [by apply may_hold_remove|]. unfold has_mode. cbn.
  rewrite lookup_delete_ne by done. exact Hm.
Qed.

(** Reading: what the process sees, or an error. *)
Lemma wp_read_file name V w :
  may_hold name V w →
  wp (read_file name) (λ o w', keeps name V (contents w name) C o w' ∧
    match o with
    | Done c => contents w name = Some c
    | Failed e => fs_sched w = [] → e = ErrSentinel NotExist "open: no such file" ∧ contents w name = None
    | Crashed => fs_sched w ≠ []
    end) w.
Proof.
  intros H. unfold wp, read_file, syscall, fault_of, keeps.
  destruct (fs_sched w) as [|[|e|] sched] eqn:Hs; cbn; rewrite ?Hs; cbn;
    try (split_and!; done); unfold contents; cbn;
    destruct (fs_names w !! name ≫= _) as [n|] eqn:Hf; split_and!; try done;
    cbn; by rewrite Hf.
Qed.

End calls.

(** One call of a replacement: apply its transition, and leave the case where
    it succeeded; a call that failed leaves the file old or new. *)
#[export] Hint Resolve may_hold_or_new renamed_hold replaced_hold filling_hold : go.
Tactic Notation "io_step" uconstr(lem) :=
  eapply wp_mono; [by eapply lem|];
  let o := fresh "o" in let w := fresh "w" in let H := fresh "H" in
  intros o w H; destruct o; cbn beta iota in H |- *; [|solve [eauto 4 with go | cbn; eauto 4 with go]..].

