(* ===== verification/Json.v ===== *)
(** * JSON documents

    The part of encoding/json the code relies on: values as trees, a file as
    the sequence of values its decoder can still produce, and struct decoding
    with DisallowUnknownFields.  Object keys match a field name exactly or,
    failing that, up to case; [null] leaves a field as it is (a pointer, slice
    or map becomes nil). *)

From S2P Require Import Prelude GoStrings.
From stdpp Require Import sorting.

Open Scope go_scope.
Open Scope Z_scope.

Inductive json :=
  | JNull
  | JBool (b : bool)
  | JNum (z : Z)
  | JStr (s : string)
  | JArr (l : list json)
  | JObj (fields : list (string * json)).

(** A file: the values before the end of the text or before the first byte
    that is not JSON ([txt_junk]).  A blank file has no value and no junk. *)
Record Text := mkText {
  txt_values : list json;
  txt_junk : bool;
}.

Definition blank : Text := mkText [] false.
Definition text_of (j : json) : Text := mkText [j] false.

Definition decode_error : error := ErrText "json: cannot unmarshal value".
Definition unknown_field (k : string) : error := ErrText ("json: unknown field " +:+ quote k).

(** ** Scalars *)

Definition dec_string (old : string) (j : json) : error + string :=
  match j with JNull => inr old | JStr s => inr s | _ => inl decode_error end.
Definition dec_bool (old : bool) (j : json) : error + bool :=
  match j with JNull => inr old | JBool b => inr b | _ => inl decode_error end.
Definition fits_int64 (z : Z) : bool :=
  (-9223372036854775808 <=? z) && (z <=? 9223372036854775807).
#[global] Strategy 1000 [fits_int64].
Definition dec_int (old : Z) (j : json) : error + Z :=
  match j with
  | JNull => inr old
  | JNum z => if fits_int64 z then inr z else inl decode_error
  | _ => inl decode_error
  end.
Definition dec_pbool (j : json) : error + option bool :=
  match j with JNull => inr None | JBool b => inr (Some b) | _ => inl decode_error end.

Fixpoint dec_items (l : list json) : error + list string :=
  match l with
  | [] => inr []
  | j :: l => match dec_string "" j, dec_items l with
              | inr s, inr r => inr (s :: r)
              | inl e, _ => inl e
              | _, inl e => inl e
              end
  end.
Definition dec_strings (j : json) : error + list string :=
  match j with JNull => inr [] | JArr l => dec_items l | _ => inl decode_error end.

Fixpoint dec_entries (m : gmap string string) (l : list (string * json)) : error + gmap string string :=
  match l with
  | [] => inr m
  | (k, j) :: l => match dec_string "" j with
                   | inr s => dec_entries (<[k := s]> m) l
                   | inl e => inl e
                   end
  end.
Definition dec_map (old : gmap string string) (j : json) : error + gmap string string :=
  match j with JNull => inr ∅ | JObj l => dec_entries old l | _ => inl decode_error end.

Definition enc_pbool (b : option bool) : json :=
  match b with None => JNull | Some b => JBool b end.
Definition enc_strings (l : list string) : json := JArr (JStr <$> l).

(** Maps are printed with their keys in order. *)
Definition str_le (x y : string * string) : Prop := String.leb x.1 y.1 = true.
#[export] Instance str_le_dec : RelDecision str_le.
Proof. intros x y. unfold str_le. apply _. Defined.
Definition enc_map (m : gmap string string) : json :=
  JObj ((λ kv, (kv.1, JStr kv.2)) <$> merge_sort str_le (map_to_list m)).

(** [omitempty]. *)
Definition omit (b : bool) (k : string) (j : json) : list (string * json) :=
  if b then [] else [(k, j)].

Definition on_ok {A B} (g : A → B) (x : error + A) : error + B :=
  match x with inl e => inl e | inr a => inr (g a) end.
Notation "g <$?> x" := (on_ok g x) (at level 61, left associativity) : go_scope.

Lemma on_ok_inr {A B} (g : A → B) x b : g <$?> x = inr b → ∃ a, x = inr a ∧ g a = b.
Proof. destruct x as [e|a]; [done|]. intros [= <-]. eauto. Qed.

(** ** Structs

    A struct type is its field names and a function that stores a value into
    the named field. *)

Definition field_of (names : list string) (k : string) : option string :=
  if existsb (String.eqb k) names then Some k
  else List.find (λ n, ToLower n == ToLower k) names.

Section struct.
Context {R : Type} (names : list string) (set : string → json → R → error + R).

Fixpoint decode_fields (l : list (string * json)) (r : R) : error + R :=
  match l with
  | [] => inr r
  | (k, j) :: l =>
      match field_of names k with
      | None => inl (unknown_field k)
      | Some f => match set f j r with
                  | inl e => inl e
                  | inr r' => decode_fields l r'
                  end
      end
  end.

Definition decode_struct (r : R) (j : json) : error + R :=
  match j with
  | JNull => inr r
  | JObj l => decode_fields l r
  | _ => inl decode_error
  end.

(** A run of the decoder, field by field. *)
Inductive Decodes : list (string * json) → R → R → Prop :=
  | Decodes_nil r : Decodes [] r r
  | Decodes_cons k j l r r' r'' :
      existsb (String.eqb k) names = true → set k j r = inr r' →
      Decodes l r' r'' → Decodes ((k, j) :: l) r r''.

Lemma Decodes_fields l r r' : Decodes l r r' → decode_fields l r = inr r'.
Proof.
  induction 1 as [|k j l r r' r'' Hk Hs _ IH]; [done|]. cbn. unfold field_of. by rewrite Hk, Hs.
Qed.

Lemma Decodes_struct l r r' : Decodes l r r' → decode_struct r (JObj l) = inr r'.
Proof. apply Decodes_fields. Qed.

Lemma Decodes_then {A} (g : R → A) l r r' a :
  Decodes l r r' → g r' = a → g <$?> decode_struct r (JObj l) = inr a.
Proof. intros H <-. by rewrite (Decodes_struct _ _ _ H). Qed.

Lemma Decodes_omit (b : bool) k j l r r' r'' :
  existsb (String.eqb k) names = true →
  (b = true → r' = r) → (b = false → set k j r = inr r') →
  Decodes l r' r'' → Decodes (omit b k j ++ l) r r''.
Proof.
  intros Hk Ht Hf Hl. destruct b; cbn [omit app].
  - by rewrite <- Ht.
  - eapply Decodes_cons; eauto.
Qed.
End struct.

(** Slices of structs and pointers to structs. *)
Section nested.
Context {A : Type} (dec : json → error + A).

Fixpoint dec_list_items (l : list json) : error + list A :=
  match l with
  | [] => inr []
  | j :: l => match dec j, dec_list_items l with
              | inr a, inr r => inr (a :: r)
              | inl e, _ => inl e
              | _, inl e => inl e
              end
  end.
Definition dec_list (j : json) : error + list A :=
  match j with JNull => inr [] | JArr l => dec_list_items l | _ => inl decode_error end.

Definition dec_ptr (j : json) : error + option A :=
  match j with
  | JNull => inr None
  | _ => match dec j with inr a => inr (Some a) | inl e => inl e end
  end.

Lemma dec_list_enc {B} (enc : B → json) (g : B → A) l :
  Forall (λ b, dec (enc b) = inr (g b)) l → dec_list (JArr (enc <$> l)) = inr (g <$> l).
Proof.
  intros H. cbn. induction H as [|a l Ha _ IH]; [done|]. cbn. by rewrite Ha, IH.
Qed.

Lemma dec_ptr_obj l a : dec (JObj l) = inr a → dec_ptr (JObj l) = inr (Some a).
Proof. intros H. unfold dec_ptr. by rewrite H. Qed.
End nested.

(** A decoding error is never the secret store's "not found". *)
Definition plain {A} (x : error + A) : Prop :=
  match x with inl e => errors_is e SecretNotFound = false | inr _ => True end.

Lemma dec_string_plain old j : plain (dec_string old j).
Proof. by destruct j. Qed.

Lemma dec_entries_plain m l : plain (dec_entries m l).
Proof.
  revert m. induction l as [|[k j] l IH]; intros m; [done|]. cbn.
  pose proof (dec_string_plain "" j). by destruct (dec_string "" j).
Qed.

Lemma dec_map_plain m j : plain (dec_map m j).
Proof. destruct j; try done. apply dec_entries_plain. Qed.

(** ** Round trips of the scalars *)

Lemma dec_strings_enc l : dec_strings (enc_strings l) = inr l.
Proof. cbn. induction l as [|s l IH]; [done|]. cbn. by rewrite IH. Qed.

Lemma dec_pbool_enc b : dec_pbool (enc_pbool b) = inr b.
Proof. by destruct b. Qed.

(** The Go integers of a struct are machine integers. *)
Definition int64 (z : Z) : Prop := -9223372036854775808 ≤ z ≤ 9223372036854775807.

Lemma dec_int_in_range old z : int64 z → dec_int old (JNum z) = inr z.
Proof. unfold int64. intros H. cbn. unfold fits_int64. by rewrite (proj2 (Z.leb_le _ _)), (proj2 (Z.leb_le _ _)) by lia. Qed.

Lemma dec_entries_list (l : list (string * string)) m :
  NoDup l.*1 → (∀ k, k ∈ l.*1 → m !! k = None) →
  dec_entries m ((λ kv, (kv.1, JStr kv.2)) <$> l) = inr (list_to_map l ∪ m).
Proof.
  revert m. induction l as [|[k s] l IH]; intros m Hnd Hm; cbn.
  - by rewrite (left_id_L ∅ (∪)).
  - apply NoDup_cons in Hnd as [Hk Hnd]. rewrite IH; [|done|].
    + rewrite <- insert_union_l, <- insert_union_r; [done|].
      by apply not_elem_of_list_to_map_1.
    + intros k' Hk'. rewrite lookup_insert_ne; [apply Hm; by right|]. by intros ->.
Qed.

Lemma dec_map_enc m : dec_map ∅ (enc_map m) = inr m.
Proof.
  unfold enc_map, dec_map. rewrite dec_entries_list.
  - rewrite (right_id_L ∅ (∪)).
    by rewrite (list_to_map_proper _ (map_to_list m)), list_to_map_to_list;
      [|rewrite merge_sort_Permutation; apply NoDup_fst_map_to_list|apply merge_sort_Permutation].
  - rewrite merge_sort_Permutation. apply NoDup_fst_map_to_list.
  - intros. apply lookup_empty.
Qed.
