(* ===== verification/Store.v ===== *)
(** * The state file (internal/store/file)

    The persisted data, its JSON form, and the atomic replacement of the state
    file.  [types.Profile] keeps [SecretRef] and [OwnerID] out of its own JSON;
    [storedProfile] is the one place that writes them. *)

From S2P Require Import Prelude GoStrings Types Fs Json.

Open Scope go_scope.
Open Scope Z_scope.

Definition CurrentSchemaVersion : Z := 2.

Record Intent := mkIntent {
  in_Version : Z;
  in_Kind : string;
  in_ProfileID : string;
  in_NewProfile : option Profile;
  in_OldSecretRef : string;
  in_NewSecretRef : string;
}.
#[export] Instance Intent_eta : Eta Intent := λ r,
  mkIntent (in_Version r) (in_Kind r) (in_ProfileID r) (in_NewProfile r) (in_OldSecretRef r)
    (in_NewSecretRef r).
#[export] Instance Intent_eq_dec : EqDecision Intent.
Proof. solve_decision. Defined.

Record Data := mkData {
  da_SchemaVersion : Z;
  da_Profiles : list Profile;
  da_CurrentProfileID : string;
  da_SelectedProfiles : gmap string string;
  da_ControlMode : string;
  da_MachineProfileID : string;
  da_Intent : option Intent;
}.
#[export] Instance Data_eta : Eta Data := λ r,
  mkData (da_SchemaVersion r) (da_Profiles r) (da_CurrentProfileID r) (da_SelectedProfiles r)
    (da_ControlMode r) (da_MachineProfileID r) (da_Intent r).

Definition zero_data : Data := mkData 0 [] "" ∅ "" "" None.

(** ** The JSON form of a profile *)

Definition profile_fields (p : Profile) : list (string * json) :=
  [("id", JStr (pr_ID p));
   ("name", JStr (pr_Name p));
   ("server_url", JStr (pr_ServerURL p));
   ("username", JStr (pr_Username p));
   ("scope", JStr (pr_Scope p));
   ("group", JStr (pr_Group p));
   ("accept_server_routes", JBool (pr_AcceptServerRoutes p));
   ("auto_reconnect", enc_pbool (pr_AutoReconnect p));
   ("apply_dns", enc_pbool (pr_ApplyDNS p));
   ("custom_include_routes", enc_strings (pr_CustomInclude p));
   ("custom_exclude_routes", enc_strings (pr_CustomExclude p));
   ("dns_overrides", enc_strings (pr_DNSOverrides p));
   ("socks5_enabled", JBool (pr_SOCKS5Enabled p));
   ("socks5_listen", JStr (pr_SOCKS5Listen p));
   ("mtu", JNum (pr_MTU p));
   ("created_at", JStr (pr_CreatedAt p));
   ("updated_at", JStr (pr_UpdatedAt p))].

Definition profile_names : list string :=
  ["id"; "name"; "server_url"; "username"; "scope"; "group"; "accept_server_routes"; "auto_reconnect"; "apply_dns"; "custom_include_routes"; "custom_exclude_routes"; "dns_overrides"; "socks5_enabled"; "socks5_listen"; "mtu"; "created_at"; "updated_at"].

Definition set_profile (f : string) (j : json) (p : Profile) : error + Profile :=
  if f == "id" then (λ v, p <| pr_ID := v |>) <$?> dec_string (pr_ID p) j else
  if f == "name" then (λ v, p <| pr_Name := v |>) <$?> dec_string (pr_Name p) j else
  if f == "server_url" then (λ v, p <| pr_ServerURL := v |>) <$?> dec_string (pr_ServerURL p) j else
  if f == "username" then (λ v, p <| pr_Username := v |>) <$?> dec_string (pr_Username p) j else
  if f == "scope" then (λ v, p <| pr_Scope := v |>) <$?> dec_string (pr_Scope p) j else
  if f == "group" then (λ v, p <| pr_Group := v |>) <$?> dec_string (pr_Group p) j else
  if f == "accept_server_routes" then (λ v, p <| pr_AcceptServerRoutes := v |>) <$?> dec_bool (pr_AcceptServerRoutes p) j else
  if f == "auto_reconnect" then (λ v, p <| pr_AutoReconnect := v |>) <$?> dec_pbool j else
  if f == "apply_dns" then (λ v, p <| pr_ApplyDNS := v |>) <$?> dec_pbool j else
  if f == "custom_include_routes" then (λ v, p <| pr_CustomInclude := v |>) <$?> dec_strings j else
  if f == "custom_exclude_routes" then (λ v, p <| pr_CustomExclude := v |>) <$?> dec_strings j else
  if f == "dns_overrides" then (λ v, p <| pr_DNSOverrides := v |>) <$?> dec_strings j else
  if f == "socks5_enabled" then (λ v, p <| pr_SOCKS5Enabled := v |>) <$?> dec_bool (pr_SOCKS5Enabled p) j else
  if f == "socks5_listen" then (λ v, p <| pr_SOCKS5Listen := v |>) <$?> dec_string (pr_SOCKS5Listen p) j else
  if f == "mtu" then (λ v, p <| pr_MTU := v |>) <$?> dec_int (pr_MTU p) j else
  if f == "created_at" then (λ v, p <| pr_CreatedAt := v |>) <$?> dec_string (pr_CreatedAt p) j else
  if f == "updated_at" then (λ v, p <| pr_UpdatedAt := v |>) <$?> dec_string (pr_UpdatedAt p) j else
  inl (unknown_field f).

(** [json.Marshal(profile)]: what the Local API and the logs can show. *)
Definition marshal_profile (p : Profile) : json := JObj (profile_fields p).

(** ** The stored forms *)

Record storedProfile := mkStoredProfile {
  sp_Profile : Profile;
  sp_SecretRef : string;
  sp_OwnerID : string;
}.
#[export] Instance storedProfile_eta : Eta storedProfile := λ r,
  mkStoredProfile (sp_Profile r) (sp_SecretRef r) (sp_OwnerID r).

Record storedIntent := mkStoredIntent {
  si'_Version : Z;
  si'_Kind : string;
  si'_ProfileID : string;
  si'_NewProfile : option storedProfile;
  si'_OldSecretRef : string;
  si'_NewSecretRef : string;
}.
#[export] Instance storedIntent_eta : Eta storedIntent := λ r,
  mkStoredIntent (si'_Version r) (si'_Kind r) (si'_ProfileID r) (si'_NewProfile r)
    (si'_OldSecretRef r) (si'_NewSecretRef r).

Record storedData := mkStoredData {
  sd_SchemaVersion : Z;
  sd_Profiles : list storedProfile;
  sd_CurrentProfileID : string;
  sd_SelectedProfiles : gmap string string;
  sd_ControlMode : string;
  sd_MachineProfileID : string;
  sd_Intent : option storedIntent;
}.
#[export] Instance storedData_eta : Eta storedData := λ r,
  mkStoredData (sd_SchemaVersion r) (sd_Profiles r) (sd_CurrentProfileID r)
    (sd_SelectedProfiles r) (sd_ControlMode r) (sd_MachineProfileID r) (sd_Intent r).

Definition toStoredProfile (profile : Profile) : storedProfile :=
  mkStoredProfile profile (pr_SecretRef profile) (pr_OwnerID profile).

Definition fromStoredProfile (profile : storedProfile) : Profile :=
  let result := sp_Profile profile in
  let result := result <| pr_SecretRef := sp_SecretRef profile |> in
  let result := result <| pr_OwnerID := sp_OwnerID profile |> in
  result.

Definition toStoredIntent (i : Intent) : storedIntent :=
  mkStoredIntent (in_Version i) (in_Kind i) (in_ProfileID i) (toStoredProfile <$> in_NewProfile i)
    (in_OldSecretRef i) (in_NewSecretRef i).

Definition toStoredData (data : Data) : storedData :=
  mkStoredData (da_SchemaVersion data) (toStoredProfile <$> da_Profiles data)
    (da_CurrentProfileID data) (da_SelectedProfiles data) (da_ControlMode data)
    (da_MachineProfileID data) (toStoredIntent <$> da_Intent data).

Definition fromStoredIntent (i : storedIntent) : Intent :=
  mkIntent (si'_Version i) (si'_Kind i) (si'_ProfileID i) (fromStoredProfile <$> si'_NewProfile i)
    (si'_OldSecretRef i) (si'_NewSecretRef i).

Definition fromStoredData (disk : storedData) : Data :=
  mkData (sd_SchemaVersion disk) (fromStoredProfile <$> sd_Profiles disk)
    (sd_CurrentProfileID disk) (sd_SelectedProfiles disk) (sd_ControlMode disk)
    (sd_MachineProfileID disk) (fromStoredIntent <$> sd_Intent disk).

(** ** Encoding *)

Definition stored_profile_names : list string := profile_names ++ ["secret_ref"; "owner_id"].

Definition enc_storedProfile (p : storedProfile) : json :=
  JObj (profile_fields (sp_Profile p) ++
        [("secret_ref", JStr (sp_SecretRef p)); ("owner_id", JStr (sp_OwnerID p))]).

Definition enc_storedIntent (i : storedIntent) : json :=
  JObj ([("version", JNum (si'_Version i)); ("kind", JStr (si'_Kind i));
         ("profile_id", JStr (si'_ProfileID i))] ++
        match si'_NewProfile i with
        | None => []
        | Some p => [("new_profile", enc_storedProfile p)]
        end ++
        omit (si'_OldSecretRef i == "") "old_secret_ref" (JStr (si'_OldSecretRef i)) ++
        omit (si'_NewSecretRef i == "") "new_secret_ref" (JStr (si'_NewSecretRef i)) ++ []).

Definition enc_storedData (d : storedData) : json :=
  JObj ([("schema_version", JNum (sd_SchemaVersion d));
         ("profiles", JArr (enc_storedProfile <$> sd_Profiles d));
         ("current_profile_id", JStr (sd_CurrentProfileID d));
         ("selected_profiles", enc_map (sd_SelectedProfiles d));
         ("control_mode", JStr (sd_ControlMode d))] ++
        omit (sd_MachineProfileID d == "") "machine_profile_id" (JStr (sd_MachineProfileID d)) ++
        match sd_Intent d with
        | None => []
        | Some i => [("intent", enc_storedIntent i)]
        end).

(** ** Decoding *)

Definition set_storedProfile (f : string) (j : json) (p : storedProfile) : error + storedProfile :=
  if f == "secret_ref" then (λ v, p <| sp_SecretRef := v |>) <$?> dec_string (sp_SecretRef p) j else
  if f == "owner_id" then (λ v, p <| sp_OwnerID := v |>) <$?> dec_string (sp_OwnerID p) j else
  (λ v, p <| sp_Profile := v |>) <$?> set_profile f j (sp_Profile p).

Definition dec_storedProfile : json → error + storedProfile :=
  decode_struct stored_profile_names set_storedProfile (mkStoredProfile zero_profile "" "").

Definition zero_storedIntent : storedIntent := mkStoredIntent 0 "" "" None "" "".

Definition set_storedIntent (f : string) (j : json) (i : storedIntent) : error + storedIntent :=
  if f == "version" then (λ v, i <| si'_Version := v |>) <$?> dec_int (si'_Version i) j else
  if f == "kind" then (λ v, i <| si'_Kind := v |>) <$?> dec_string (si'_Kind i) j else
  if f == "profile_id" then (λ v, i <| si'_ProfileID := v |>) <$?> dec_string (si'_ProfileID i) j else
  if f == "new_profile" then (λ v, i <| si'_NewProfile := v |>) <$?> dec_ptr dec_storedProfile j else
  if f == "old_secret_ref" then (λ v, i <| si'_OldSecretRef := v |>) <$?> dec_string (si'_OldSecretRef i) j else
  if f == "new_secret_ref" then (λ v, i <| si'_NewSecretRef := v |>) <$?> dec_string (si'_NewSecretRef i) j else
  inl (unknown_field f).

Definition dec_storedIntent : json → error + storedIntent :=
  decode_struct ["version"; "kind"; "profile_id"; "new_profile"; "old_secret_ref"; "new_secret_ref"]
    set_storedIntent zero_storedIntent.

Definition zero_storedData : storedData := mkStoredData 0 [] "" ∅ "" "" None.

Definition set_storedData (f : string) (j : json) (d : storedData) : error + storedData :=
  if f == "schema_version" then (λ v, d <| sd_SchemaVersion := v |>) <$?> dec_int (sd_SchemaVersion d) j else
  if f == "profiles" then (λ v, d <| sd_Profiles := v |>) <$?> dec_list dec_storedProfile j else
  if f == "current_profile_id" then (λ v, d <| sd_CurrentProfileID := v |>) <$?> dec_string (sd_CurrentProfileID d) j else
  if f == "selected_profiles" then (λ v, d <| sd_SelectedProfiles := v |>) <$?> dec_map (sd_SelectedProfiles d) j else
  if f == "control_mode" then (λ v, d <| sd_ControlMode := v |>) <$?> dec_string (sd_ControlMode d) j else
  if f == "machine_profile_id" then (λ v, d <| sd_MachineProfileID := v |>) <$?> dec_string (sd_MachineProfileID d) j else
  if f == "intent" then (λ v, d <| sd_Intent := v |>) <$?> dec_ptr dec_storedIntent j else
  inl (unknown_field f).

Definition dec_storedData : json → error + storedData :=
  decode_struct ["schema_version"; "profiles"; "current_profile_id"; "selected_profiles";
                 "control_mode"; "machine_profile_id"; "intent"]
    set_storedData zero_storedData.

(** ** Load and Save *)

Definition fresh_data : Data := mkData CurrentSchemaVersion [] "" ∅ "user" "" None.

Definition parse_state (path : string) (t : Text) : error + Data :=
  match txt_values t, txt_junk t with
  | [], false => inl (ErrText ("state file " +:+ path +:+ " is empty"))
  | [], true => inl decode_error
  | j :: rest, junk =>
      match dec_storedData j with
      | inl e => inl e
      | inr disk =>
          match rest, junk with
          | [], false => inr (fromStoredData disk)
          | [], true => inl (ErrWrap "state file contains trailing data: " decode_error "")
          | JObj [] :: _, _ => inl (ErrText "state file contains multiple JSON values")
          | JNull :: _, _ => inl (ErrText "state file contains multiple JSON values")
          | _ :: _, _ => inl (ErrWrap "state file contains trailing data: " decode_error "")
          end
      end
  end.

Notation IO := (M (FS Text)).

Definition Load (path : string) : IO Data :=
  r ← try (read_file path);
  match r with
  | inl e => if errors_is e NotExist then mret fresh_data else fail e
  | inr t => match parse_state path t with inl e => fail e | inr d => mret d end
  end.

(** The platform half: [os.Rename], [os.Chmod] and [dir.Sync] on Unix. *)
Definition replaceFile (source target : string) : IO () := rename source target.
Definition syncParentDir : IO () := checked;; sync_dir.
Definition secureFile (path : string) : IO () := chmod path 384.

(** [torn] is what an interrupted write leaves in the temporary file. *)
Definition Save (path : string) (torn : Text) (data : Data) : IO () :=
  checked;;                                  (* os.MkdirAll *)
  let b := text_of (enc_storedData (toStoredData data)) in
  '(tmpPath, tmp) ← create_temp blank ".flexconnect-state-" ".tmp";
  defer (λ o,
      _ ← try checked;                       (* tmp.Close *)
      match o with
      | Done _ => mret ()                    (* committed *)
      | _ => _ ← try (remove tmpPath); mret ()
      end)
    (chmod_fd tmp 384;;
     write_fd tmp b torn;;
     sync_fd tmp;;
     checked;;                               (* tmp.Close *)
     replaceFile tmpPath path;;
     wrap (λ e, ErrWrap "secure state file: " e "") (secureFile path);;
     syncParentDir).

(** ** Round trip *)

Definition profile_int64 (p : Profile) : Prop := int64 (pr_MTU p).
(** Decode one field: the key is known, and the value stored is explicit. *)
Ltac set_step :=
  cbn -[dec_int enc_strings dec_strings enc_pbool dec_pbool enc_map dec_map];
  rewrite ?dec_strings_enc, ?dec_pbool_enc, ?dec_map_enc, ?dec_int_in_range by assumption;
  unfold set_field; cbn; reflexivity.
Ltac field_steps :=
  repeat (eapply Decodes_cons; [reflexivity|set_step|]); try apply Decodes_nil.

(** The embedded profile decodes without its two internal fields. *)
Definition embedded (p : storedProfile) : storedProfile :=
  p <| sp_Profile := (sp_Profile p) <| pr_SecretRef := "" |> <| pr_OwnerID := "" |> |>.

Lemma dec_storedProfile_enc p :
  profile_int64 (sp_Profile p) → dec_storedProfile (enc_storedProfile p) = inr (embedded p).
Proof.
  intros Hr. apply Decodes_struct. destruct p as [[] ? ?]. cbn in Hr.
  field_steps.
Qed.

Lemma fromStoredProfile_embedded p : fromStoredProfile (embedded (toStoredProfile p)) = p.
Proof. by destruct p. Qed.

Lemma fromStored_enc p :
  profile_int64 p →
  fromStoredProfile <$?> dec_storedProfile (enc_storedProfile (toStoredProfile p)) = inr p.
Proof.
  intros H. rewrite dec_storedProfile_enc by exact H. cbn [on_ok].
  by rewrite fromStoredProfile_embedded.
Qed.

Definition intent_int64 (i : Intent) : Prop :=
  int64 (in_Version i) ∧
  match in_NewProfile i with None => True | Some p => profile_int64 p end.

Lemma dec_storedIntent_enc i :
  intent_int64 i →
  fromStoredIntent <$?> dec_storedIntent (enc_storedIntent (toStoredIntent i)) = inr i.
Proof.
  intros [Hv Hp]. unfold dec_storedIntent, enc_storedIntent.
  destruct i as [ver kind pid np os ns]. cbn in Hv, Hp.
  assert (Hend : ∀ (r : storedIntent), si'_OldSecretRef r = "" → si'_NewSecretRef r = "" →
    Decodes ["version"; "kind"; "profile_id"; "new_profile"; "old_secret_ref"; "new_secret_ref"]
      set_storedIntent
      (omit (os == "") "old_secret_ref" (JStr os) ++ omit (ns == "") "new_secret_ref" (JStr ns) ++ [])
      r (r <| si'_OldSecretRef := os |> <| si'_NewSecretRef := ns |>)).
  { intros [] Ho Hn. cbn in Ho, Hn. subst.
    eapply Decodes_omit; [done| |done|]; [intros ->%eqb_true; done|].
    eapply Decodes_omit; [done| |done|apply Decodes_nil]. intros ->%eqb_true. done. }
  destruct np as [np|]; eapply Decodes_then.
  - cbn -[enc_storedProfile omit toStoredProfile].
    do 3 (eapply Decodes_cons; [reflexivity|set_step|]).
    eapply Decodes_cons; [reflexivity| |].
    { cbn -[dec_storedProfile enc_storedProfile dec_ptr]. unfold dec_ptr.
      rewrite dec_storedProfile_enc by exact Hp. unfold set_field. cbn. reflexivity. }
    apply Hend; done.
  - by destruct np.
  - cbn -[omit]. do 3 (eapply Decodes_cons; [reflexivity|set_step|]). apply Hend; done.
  - done.
Qed.

Definition data_int64 (d : Data) : Prop :=
  int64 (da_SchemaVersion d) ∧ Forall profile_int64 (da_Profiles d) ∧
  match da_Intent d with None => True | Some i => intent_int64 i end.

Lemma dec_profiles_enc ps :
  Forall profile_int64 ps →
  dec_list dec_storedProfile (JArr (enc_storedProfile <$> (toStoredProfile <$> ps))) =
    inr (embedded ∘ toStoredProfile <$> ps).
Proof.
  intros H. rewrite <- list_fmap_compose.
  apply (dec_list_enc _ (enc_storedProfile ∘ toStoredProfile)).
  eapply Forall_impl; [exact H|]. intros p Hp. by apply dec_storedProfile_enc.
Qed.

Lemma fromStored_profiles (ps : list Profile) : fromStoredProfile <$> (embedded ∘ toStoredProfile <$> ps) = ps.
Proof.
  rewrite <- list_fmap_compose. rewrite <- (list_fmap_id ps) at 2.
  apply list_fmap_ext. intros _ p _. apply fromStoredProfile_embedded.
Qed.

Lemma dec_storedData_enc d :
  data_int64 d → fromStoredData <$?> dec_storedData (enc_storedData (toStoredData d)) = inr d.
Proof.
  intros (Hv & Hps & Hi). destruct d as [ver ps cur sel mode mach int]. cbn in Hv, Hps, Hi.
  set (result si := mkStoredData ver (embedded ∘ toStoredProfile <$> ps) cur sel mode mach si).
  assert (Hfields : ∀ si rest r, r = result si →
    Decodes ["schema_version"; "profiles"; "current_profile_id"; "selected_profiles";
             "control_mode"; "machine_profile_id"; "intent"] set_storedData rest (result None) r →
    Decodes ["schema_version"; "profiles"; "current_profile_id"; "selected_profiles";
             "control_mode"; "machine_profile_id"; "intent"] set_storedData
      ([("schema_version", JNum ver);
        ("profiles", JArr (enc_storedProfile <$> (toStoredProfile <$> ps)));
        ("current_profile_id", JStr cur); ("selected_profiles", enc_map sel);
        ("control_mode", JStr mode)] ++
       omit (mach == "") "machine_profile_id" (JStr mach) ++ rest) zero_storedData r).
  { intros si rest r -> Hrest. eapply Decodes_cons; [reflexivity|set_step|].
    eapply Decodes_cons; [reflexivity| |].
    { cbn -[dec_list dec_storedProfile enc_storedProfile].
      rewrite dec_profiles_enc by exact Hps. unfold set_field. cbn -[embedded toStoredProfile].
      reflexivity. }
    do 3 (eapply Decodes_cons; [reflexivity|set_step|]).
    eapply Decodes_omit; [done| |done|exact Hrest]. by intros ->%eqb_true. }
  destruct int as [i|].
  - destruct (on_ok_inr _ _ _ (dec_storedIntent_enc i Hi)) as (si & Hsi & Hback).
    eapply Decodes_then; [apply (Hfields (Some si))|]; [reflexivity| |].
    + eapply Decodes_cons; [reflexivity| |apply Decodes_nil].
      cbn -[dec_storedIntent enc_storedIntent dec_ptr embedded toStoredProfile].
      unfold enc_storedIntent in Hsi |- *. by rewrite (dec_ptr_obj _ _ _ Hsi).
    + unfold fromStoredData. cbn -[embedded toStoredProfile]. f_equal; [|by f_equal].
      apply fromStored_profiles.
  - eapply Decodes_then; [apply (Hfields None)|]; [reflexivity|apply Decodes_nil|].
    unfold fromStoredData. cbn -[embedded toStoredProfile]. f_equal. apply fromStored_profiles.
Qed.

Lemma parse_state_ok path d :
  data_int64 d → parse_state path (text_of (enc_storedData (toStoredData d))) = inr d.
Proof.
  intros H. unfold parse_state. cbn [txt_values txt_junk text_of].
  by destruct (on_ok_inr _ _ _ (dec_storedData_enc d H)) as (sd & -> & ->).
Qed.

(** C15: what [Save] writes is what [Load] reads back: encoding the data with
    its internal fields and decoding the file gives the same data, whatever
    profiles, selections and pending intent it holds. *)
Theorem parse_state_encoded path d :
  data_int64 d → parse_state path (text_of (enc_storedData (toStoredData d))) = inr d.
Proof. apply parse_state_ok. Qed.

(** ** Save replaces the file atomically *)

Definition encoded (d : Data) : Text := text_of (enc_storedData (toStoredData d)).

Section save.
Context (path : string) (Hpath : HasPrefix path ".flexconnect-state-" = false).
Implicit Types (V : option Text → Prop).

Lemma wp_secureFile V new mode w :
  renamed path V new mode w →
  wp (wrap (λ e, ErrWrap "secure state file: " e "") (secureFile path))
     (λ o w', match o with
              | Done _ => renamed path V new 384 w'
              | _ => renamed path V new mode w'
              end) w.
Proof.
  intros H. apply wp_wrap. eapply wp_mono; [by apply wp_chmod|]. by intros [] ?.
Qed.

Lemma wp_syncParentDir V new mode w :
  renamed path V new mode w →
  wp syncParentDir (λ o w', match o with
    | Done _ => replaced path new mode w'
    | _ => renamed path V new mode w'
    end) w.
Proof.
  intros H. apply wp_bind. io_step wp_checked_renamed. io_step wp_sync_dir. done.
Qed.

(** Every way the call can end, from a file that may read any of [V]. *)
Definition replaces V (new : Text) (o : Outcome ()) (w : FS Text) : Prop :=
  match o with
  | Done _ => replaced path new 384 w
  | _ => may_hold path (or_new V new) w
  end.

Lemma wp_fill V new torn tmpPath tmp w :
  filling path tmpPath V tmp (λ _, True) w →
  wp (chmod_fd tmp 384;; write_fd tmp new torn;; sync_fd tmp;; checked;;
      replaceFile tmpPath path;;
      wrap (λ e, ErrWrap "secure state file: " e "") (secureFile path);; syncParentDir)
     (λ o w', replaces V new o w' ∧ tmpPath ≠ path) w.
Proof.
  intros H. assert (Hne : tmpPath ≠ path) by apply H.
  eapply (wp_mono _ (replaces V new)); [|by split].
  apply wp_bind. io_step wp_chmod_fd.
  apply wp_bind. io_step wp_write_fd.
  apply wp_bind. io_step wp_sync_fd.
  apply wp_bind. io_step wp_checked_filling.
  apply wp_bind. io_step wp_rename.
  apply wp_bind. io_step wp_secureFile.
  io_step wp_syncParentDir. done.
Qed.

Lemma wp_Save V torn data w :
  may_hold path V w → wp (Save path torn data) (replaces V (encoded data)) w.
Proof using Hpath.
  intros H. unfold Save.
  apply wp_bind. io_step wp_checked_hold.
  apply wp_bind. io_step wp_create_temp. destruct a0 as [tmpPath tmp].
  apply wp_defer. eapply wp_mono; [by eapply wp_fill|]. intros o w2 [Ho Hne].
  destruct o; cbn in Ho; [..|done]; apply wp_bind, wp_try.
  - eapply wp_mono; [by apply wp_checked_replaced|]. intros [] w3 Hw3; try done.
    by eapply replaced_hold.
  - eapply wp_mono; [by apply wp_checked_hold|]. intros [] w3 Hw3; try done;
      apply wp_bind, wp_try; (eapply wp_mono; [by apply wp_remove_hold|]; by intros [] ? ?).
Qed.

End save.

Lemma wp_Load path d w :
  data_int64 d → may_hold path (λ r, r = Some (encoded d)) w → fs_sched w = [] →
  wp (Load path) (λ o _, o = Done d) w.
Proof.
  intros Hd Hb Hs. pose proof (may_hold_contents _ _ _ Hb) as Hc. cbn in Hc.
  apply wp_bind, wp_try. eapply wp_mono; [by apply wp_read_file|].
  intros [t|e|] w' (_ & Ho).
  - cbv beta iota. rewrite Hc in Ho. injection Ho as <-. unfold encoded.
    by rewrite parse_state_ok.
  - destruct (Ho Hs) as [_ Hn]. congruence.
  - done.
Qed.

(** C11: [Save] is an atomic, private replacement of the state file under every
    failure of every system call and a crash at any point: from a file that
    may hold any of [V] (what earlier failed saves left), when [Save] returns
    nil every restart loads exactly [data]; when it returns an error or the
    process dies, every restart finds one of [V] or loads [data]. *)
Theorem Save_crash_atomic path torn V data w w1 o w2 :
  HasPrefix path ".flexconnect-state-" = false → data_int64 data → may_hold path V w →
  Save path torn data w = (w1, o) → restart w1 w2 → fs_sched w2 = [] →
  match o with
  | Done _ => snd (Load path w2) = Done data ∧ has_mode path 384 w1
  | _ => V (contents w2 path) ∨ snd (Load path w2) = Done data
  end.
Proof.
  intros Hpath Hdata Hb E Hr Hs.
  pose proof (wp_run _ _ _ _ _ (wp_Save path Hpath _ torn data w Hb) E) as H.
  assert (Hload : contents w2 path = Some (encoded data) →
    may_hold path (λ r, r = contents w2 path) w2 → snd (Load path w2) = Done data).
  { intros Hc Hh. rewrite Hc in Hh. apply (wp_Load path data w2 Hdata Hh Hs). }
  destruct o; cbn in H.
  - destruct H as [H Hm]. destruct (may_hold_restart _ _ _ _ H Hr). auto.
  - destruct (may_hold_restart _ _ _ _ H Hr) as [[?|?] ?]; auto.
  - destruct (may_hold_restart _ _ _ _ H Hr) as [[?|?] ?]; auto.
Qed.

Definition witness_data : Data :=
  mkData CurrentSchemaVersion [zero_profile <| pr_ID := "a" |> <| pr_SecretRef := "profile/a/1" |>]
    "a" {[ "u" := "a" ]} "user" "" (Some (mkIntent 1 "update" "a" None "x" "y")).

Lemma parse_state_encoded_witness :
  data_int64 witness_data ∧
  parse_state "s" (text_of (enc_storedData (toStoredData witness_data))) = inr witness_data.
Proof.
  assert (H : data_int64 witness_data).
  { split; [done|]. split; [by repeat constructor|]. done. }
  split; [exact H|]. exact (parse_state_encoded "s" witness_data H).
Defined.

Definition witness_disk : FS Text :=
  mkFS {[ "state.json" := 0%nat ]} [ {[ "state.json" := 0%nat ]} ]
    {[ 0%nat := mkNode (encoded witness_data) true 384 ]} 1 448
    [Pass; Pass; Pass; Pass; Pass; Pass; Pass; Dies].

Definition witness_after : FS Text := fst (Save "state.json" blank fresh_data witness_disk).

Lemma Save_crash_atomic_witness :
  snd (Save "state.json" blank fresh_data witness_disk) = Crashed ∧
  (let w2 := witness_after <| fs_hist := [fs_names witness_after] |> <| fs_sched := [] |> in
   contents w2 "state.json" = Some (encoded witness_data) ∨
   snd (Load "state.json" w2) = Done fresh_data).
Proof.
  assert (Hc : snd (Save "state.json" blank fresh_data witness_disk) = Crashed) by (vm_compute; reflexivity).
  split; [exact Hc|].
  refine (Save_crash_atomic "state.json" blank (λ r, r = Some (encoded witness_data)) fresh_data
    witness_disk witness_after Crashed _ eq_refl _ _ _ _ _).
  - split; [done|]. split; [by repeat constructor|]. done.
  - split; [by left|]. intros names ->%list_elem_of_singleton. eexists. split; [done|].
    unfold shows. cbn. rewrite lookup_singleton_eq. split; [lia|]. eexists. done.
  - unfold witness_after. rewrite <- Hc. by destruct (Save _ _ _ _).
  - apply restart_now. vm_compute. left.
  - vm_compute. reflexivity.
Defined.
