(* ===== verification/Stores.v ===== *)
(** * Secret stores, and what the daemon expects of its two stores

    internal/secret: the keyring, memory and file back ends; and the
    interfaces ([StateStore], [SecretStore]) the daemon is verified against,
    with the implementations as instances. *)

From S2P Require Import Prelude GoStrings Types Fs Json Store.

Open Scope go_scope.
Open Scope Z_scope.

(** ** Interfaces

    [st_may s d]: a later [Load] may return [d]; [ss_may s ref v]: a later
    [Get ref] may find [v].  After a failed or interrupted write more than one
    answer is possible; a completed write leaves one.  A completed [Delete]
    promises less: the file store answers nil without flushing anything when
    the entry is already gone, so after an earlier failed [Delete] a crash can
    still bring the secret back ([Delete_retry_not_durable] below). *)

Class StateStore (S : Type) := {
  st_Save : Data → M S ();
  st_ok : S → Prop;
  st_may : S → Data → Prop;
  st_Save_spec d s : st_ok s → data_int64 d →
    wp (st_Save d) (λ o s', st_ok s' ∧
      (∀ d', st_may s' d' → st_may s d' ∨ d' = d) ∧
      (o = Done () → ∀ d', st_may s' d' → d' = d)) s;
}.

Class SecretStore (S : Type) := {
  ss_Get : string → M S string;
  ss_Put : string → string → M S ();
  ss_Delete : string → M S ();
  ss_ok : S → Prop;
  ss_may : S → string → option string → Prop;
  ss_Get_spec ref s : ss_ok s →
    wp (ss_Get ref) (λ o s', ss_ok s' ∧
      (∀ r x, ss_may s' r x → ss_may s r x) ∧
      match o with
      | Done v => ss_may s ref (Some v)
      | Failed e => errors_is e SecretNotFound = true → ss_may s ref None
      | Crashed => True
      end) s;
  ss_Put_spec ref v s : ss_ok s →
    wp (ss_Put ref v) (λ o s', ss_ok s' ∧
      (∀ r x, ss_may s' r x → ss_may s r x ∨ (r = ref ∧ x = Some v)) ∧
      (o = Done () → ∀ x, ss_may s' ref x → x = Some v)) s;
  ss_Delete_spec ref s : ss_ok s →
    wp (ss_Delete ref) (λ o s', ss_ok s' ∧
      (∀ r x, ss_may s' r x → ss_may s r x ∨ (r = ref ∧ x = None)) ∧
      (o = Done () → ss_may s' ref None)) s;
}.

Definition ErrNotFound (ref : string) : error :=
  ErrWrap "" (ErrSentinel SecretNotFound "secret not found") (": " +:+ ref).

(** A state store that never fails, for concrete runs. *)
#[export] Program Instance ideal_state_store : StateStore Data := {|
  st_Save d := modify (λ _, d);
  st_ok _ := True;
  st_may s d := s = d;
|}.
Next Obligation. intros d s _ _. apply wp_modify. split_and!; [done|auto|done]. Qed.

(** ** The memory store *)

Module MemoryStore.
Definition Get (ref : string) : M (gmap string string) string := λ data,
  match data !! ref with
  | None => (data, Failed (ErrNotFound ref))
  | Some v => (data, Done v)
  end.
Definition Put (ref value : string) : M (gmap string string) () := modify <[ref := value]>.
Definition Delete (ref : string) : M (gmap string string) () := modify (delete ref).
End MemoryStore.

#[export] Program Instance memory_secret_store : SecretStore (gmap string string) := {|
  ss_Get := MemoryStore.Get;
  ss_Put := MemoryStore.Put;
  ss_Delete := MemoryStore.Delete;
  ss_ok _ := True;
  ss_may m r x := m !! r = x;
|}.
Next Obligation.
  intros ref m _. unfold wp, MemoryStore.Get. by destruct (m !! ref) eqn:E; cbn.
Qed.
Next Obligation.
  intros ref v m _. apply wp_modify. split_and!; [done| |].
  - intros r x <-. destruct (decide (r = ref)) as [->|Hne].
    + right. by rewrite lookup_insert_eq.
    + left. by rewrite lookup_insert_ne.
  - intros _ x <-. by rewrite lookup_insert_eq.
Qed.
Next Obligation.
  intros ref m _. apply wp_modify. split_and!; [done| |].
  - intros r x <-. destruct (decide (r = ref)) as [->|Hne].
    + right. by rewrite lookup_delete_eq.
    + left. by rewrite lookup_delete_ne.
  - intros _. by rewrite lookup_delete_eq.
Qed.

(** ** The keyring store

    github.com/zalando/go-keyring is third-party: its three calls are
    parameters; [keyring.ErrNotFound] is the error they report for a missing
    entry. *)

Module KeyringStore.
Section keyring.
Context {K : Type}.
Context (keyring_Get : string → string → M K string)
        (keyring_Set : string → string → string → M K ())
        (keyring_Delete : string → string → M K ())
        (is_not_found : error → bool).

Definition Get (service ref : string) : M K string :=
  r ← try (keyring_Get service ref);
  match r with
  | inl e => if is_not_found e then fail (ErrNotFound ref) else fail e
  | inr value => mret value
  end.

Definition Put (service ref value : string) : M K () := keyring_Set service ref value.

Definition Delete (service ref : string) : M K () :=
  r ← try (keyring_Delete service ref);
  match r with
  | inl e => if is_not_found e then mret () else fail e
  | inr _ => mret ()
  end.

(** The keyring answers when the probe key is found or known to be missing. *)
Definition Probe (service : string) : M K () :=
  r ← try (keyring_Get service "flexconnect.keyring-probe");
  match r with
  | inl e => if is_not_found e then mret () else fail e
  | inr _ => mret ()
  end.
End keyring.
End KeyringStore.

(** ** The file store *)

Module FileStore.
Notation IO := (M (FS Text)).

Definition secureDir : IO () := chmod_dir 448.
Definition secureFile (path : string) : IO () := chmod path 384.
Definition replaceAtomic (source destination : string) : IO () := rename source destination.
Definition syncDir : IO () := checked;; sync_dir.

(** [os.Stat]. *)
Definition stat (path : string) : IO () :=
  syscall id (λ w,
    match fs_names w !! path with
    | None => (w, Failed (ErrSentinel NotExist "stat: no such file"))
    | Some _ => (w, Done ())
    end).

(** [json.Unmarshal] into a map: one value and nothing after it. *)
Definition unmarshal_map (t : Text) : error + gmap string string :=
  match txt_values t, txt_junk t with
  | [j], false => dec_map ∅ j
  | _, _ => inl decode_error
  end.

Definition parse_secrets (path : string) (t : Text) : error + gmap string string :=
  match txt_values t, txt_junk t with
  | [], false => inr ∅
  | _, _ => match unmarshal_map t with
            | inl e => inl (ErrWrap ("load secret file " +:+ path +:+ ": ") e "")
            | inr m => inr m
            end
  end.

Definition loadLocked (path : string) : IO (gmap string string) :=
  r ← try (stat path);
  match r with
  | inl e => if errors_is e NotExist then mret ∅ else fail e
  | inr _ =>
      wrap (λ e, ErrWrap "secure secret directory: " e "") secureDir;;
      wrap (λ e, ErrWrap "secure secret file: " e "") (secureFile path);;
      b ← read_file path;
      match parse_secrets path b with inl e => fail e | inr m => mret m end
  end.

(** [if err := call(); err != nil { f.Close(); return err }]. *)
Definition closing (m : IO ()) : IO () :=
  r ← try m;
  match r with
  | inl e => _ ← try checked; fail e
  | inr _ => mret ()
  end.

Definition saveLocked (path : string) (torn : Text) (data : gmap string string) : IO () :=
  checked;;                                  (* os.MkdirAll *)
  wrap (λ e, ErrWrap "secure secret directory: " e "") secureDir;;
  let b := text_of (enc_map data) in
  '(tmp, f) ← create_temp blank (path +:+ ".tmp-") "";
  defer (λ _, _ ← try (remove tmp); mret ())
    (closing (chmod_fd f 384);;
     closing (write_fd f b torn);;
     closing (sync_fd f);;
     checked;;                               (* f.Close *)
     replaceAtomic tmp path;;
     wrap (λ e, ErrWrap "secure secret file: " e "") (secureFile path);;
     syncDir).

Section ops.
Context (path : string) (torn : Text).

Definition Get (ref : string) : IO string :=
  data ← loadLocked path;
  match data !! ref with
  | None => fail (ErrNotFound ref)
  | Some v => mret v
  end.

Definition Put (ref value : string) : IO () :=
  data ← loadLocked path;
  saveLocked path torn (<[ref := value]> data).

Definition Delete (ref : string) : IO () :=
  data ← loadLocked path;
  match data !! ref with
  | None => mret ()
  | Some _ => saveLocked path torn (delete ref data)
  end.
End ops.
End FileStore.

(** *** The file store keeps the interface *)

Module FileStoreSpec.
Import FileStore.

Section spec.
Context (path : string) (torn : Text).
Implicit Types (V : option Text → Prop).

(** The secrets a content holds; [None] when it cannot be loaded. *)
Definition secrets_of (c : option Text) : option (gmap string string) :=
  match c with
  | None => Some ∅
  | Some t => match parse_secrets path t with inr m => Some m | inl _ => None end
  end.

Definition may (w : FS Text) (ref : string) (x : option string) : Prop :=
  ∃ c m, may_read w path c ∧ secrets_of c = Some m ∧ m !! ref = x.

Definition ok (w : FS Text) : Prop := may_hold path (may_read w path) w.

Lemma secrets_of_enc m : secrets_of (Some (text_of (enc_map m))) = Some m.
Proof.
  unfold secrets_of, parse_secrets, unmarshal_map. cbn [txt_values txt_junk text_of].
  by rewrite dec_map_enc.
Qed.

Lemma parse_secrets_plain t : plain (parse_secrets path t).
Proof.
  unfold parse_secrets. assert (H : plain (unmarshal_map t)).
  { unfold unmarshal_map. destruct (txt_values t) as [|j []]; try done.
    destruct (txt_junk t); [done|]. apply dec_map_plain. }
  by destruct (txt_values t), (txt_junk t), (unmarshal_map t).
Qed.

(** Loading changes nothing but modes, and returns what the file holds. *)
Definition loads V (c : option Text) (o : Outcome (gmap string string)) (w : FS Text) : Prop :=
  keeps path V c _ o w ∧ match o with Done m => secrets_of c = Some m | _ => True end.

Ltac kept :=
  unfold loads, keeps in *; cbn in *; destruct_and?; split_and?; first [done|congruence].

Lemma wp_loadLocked V w :
  may_hold path V w → wp (loadLocked path) (loads V (contents w path)) w.
Proof.
  intros H. unfold loadLocked. apply wp_bind, wp_try, wp_syscall. intros s w'.
  split; [|by split_and!]. apply wp_intro. intros w1 o. subst w'. cbn.
  destruct (fs_names w !! path) as [i|] eqn:Hi; intros [= <- <-].
  2:{ cbn. rewrite bool_decide_eq_true_2 by done. apply wp_ret. unfold loads, keeps, contents. cbn.
      rewrite Hi. by split_and!. }
  apply wp_bind, wp_wrap. eapply wp_mono; [by apply (wp_chmod_dir_keeps path V)|].
  intros o w1 K1. change (contents (w <| fs_sched := s |>) path) with (contents w path) in K1.
  destruct o as [[]|e|]; [|kept..].
  apply wp_bind, wp_wrap. eapply wp_mono; [apply (wp_chmod_keeps path V); kept|].
  intros [[]|e|] w2 K2; [|kept..].
  apply wp_bind. eapply wp_mono; [apply (wp_read_file path V); kept|].
  intros [t|e|] w3 [K3 Ht]; [|kept..].
  pose proof (parse_secrets_plain t) as Hp. destruct (parse_secrets path t) as [e|m] eqn:Hm.
  - apply wp_fail. kept.
  - apply wp_ret. split; [kept|].
    replace (contents w path) with (Some t) by (unfold keeps in *; destruct_and?; congruence).
    unfold secrets_of. by rewrite Hm.
Qed.

Lemma wp_closing (P : FS Text → Prop) V m w :
  wp m (λ o w', match o with Done _ => P w' | _ => may_hold path V w' end) w →
  wp (closing m) (λ o w', match o with Done _ => P w' | _ => may_hold path V w' end) w.
Proof.
  intros H. apply wp_bind, wp_try. eapply wp_mono; [exact H|]. intros [[]|e|] w1 H1; [done| |done].
  apply wp_bind, wp_try. eapply wp_mono; [by apply wp_checked_hold|]. by intros [] ?.
Qed.

Definition replaces V (new : Text) (o : Outcome ()) (w : FS Text) : Prop :=
  match o with
  | Done _ => replaced path new 384 w
  | _ => may_hold path (or_new V new) w
  end.

Lemma wp_publish V new tmp w f :
  filling path tmp V f (λ n, nd_mode n = 384 ∧ nd_data n = new ∧ nd_synced n = true) w →
  wp (checked;; replaceAtomic tmp path;;
      wrap (λ e, ErrWrap "secure secret file: " e "") (secureFile path);; syncDir)
     (replaces V new) w.
Proof.
  intros H.
  apply wp_bind. io_step wp_checked_filling.
  apply wp_bind. io_step wp_rename.
  apply wp_bind, wp_wrap. io_step wp_chmod.
  apply wp_bind. io_step wp_checked_renamed.
  io_step wp_sync_dir. done.
Qed.

Lemma path_not_temp : HasPrefix path (path +:+ ".tmp-") = false.
Proof.
  destruct (HasPrefix path _) eqn:E; [|done]. apply HasPrefix_spec in E as [t E].
  apply (f_equal len) in E. rewrite !len_app in E. cbn in E. lia.
Qed.

Lemma wp_saveLocked V m w :
  may_hold path V w →
  wp (saveLocked path torn m) (replaces V (text_of (enc_map m))) w.
Proof.
  intros H. unfold saveLocked.
  apply wp_bind. io_step wp_checked_hold.
  apply wp_bind, wp_wrap. eapply wp_mono; [by apply (wp_chmod_dir_keeps path V)|].
  intros [[]|e|] w1 (K1 & _); [|by apply may_hold_or_new..].
  apply wp_bind. io_step (wp_create_temp blank (path +:+ ".tmp-") "" path V _ K1 path_not_temp).
  destruct a0 as [tmp f]. apply wp_defer.
  assert (Hne : tmp ≠ path) by apply H1.
  eapply (wp_mono _ (replaces V (text_of (enc_map m)))).
  - apply wp_bind. io_step (wp_closing _ V _ _ (wp_chmod_fd _ _ _ _ _ _ _ H1)).
    apply wp_bind. io_step (wp_closing _ V _ _ (wp_write_fd _ _ _ _ _ _ _ _ H2)).
    apply wp_bind. io_step (wp_closing _ V _ _ (wp_sync_fd _ _ _ _ _ _ _ H3)).
    by eapply wp_publish.
  - intros o w9 Ho. destruct o; cbn in Ho; [..|done]; apply wp_bind, wp_try.
    + eapply wp_mono; [by apply wp_remove_replaced|]. intros [] w3 Hw3; try done.
      by eapply replaced_hold.
    + eapply wp_mono; [by apply wp_remove_hold|]. by intros [] w3 ?.
Qed.

(** What may be found after replacing the secrets [m] of the file by [m']. *)
Lemma may_replaces w w' m' o :
  ok w → replaces (may_read w path) (text_of (enc_map m')) o w' →
  ok w' ∧
  (∀ r x, may w' r x → may w r x ∨ m' !! r = x) ∧
  (o = Done () → ∀ r x, may w' r x → m' !! r = x).
Proof.
  intros Hok Ho.
  assert (Hnew : ∀ r x c m, c = Some (text_of (enc_map m')) → secrets_of c = Some m →
                 m !! r = x → m' !! r = x).
  { intros r x c m -> Hm <-. rewrite secrets_of_enc in Hm. by simplify_eq. }
  assert (Hh : may_hold path (or_new (may_read w path) (text_of (enc_map m'))) w').
  { destruct o; [by eapply replaced_hold|exact Ho..]. }
  split_and!.
  - by apply may_hold_self in Hh.
  - intros r x (c & m & Hc & Hm & Hx). destruct (may_hold_read _ _ _ _ Hh Hc) as [Hold|Hn].
    + left. by exists c, m.
    + right. by eapply Hnew.
  - intros -> r x (c & m & Hc & Hm & Hx). cbn in Ho. destruct Ho as [Ho _].
    eapply Hnew; [by eapply (may_hold_read _ _ _ _ Ho)|done..].
Qed.

Lemma ok_loads w c o w' :
  ok w → loads (may_read w path) c o w' → ok w' ∧ ∀ r x, may w' r x → may w r x.
Proof.
  intros Hok [(Hh & _ & _) _]. split; [by apply may_hold_self in Hh|].
  intros r x (c' & m & Hc & Hm & Hx). exists c', m. split; [|done].
  by eapply (may_hold_read _ _ _ _ Hh).
Qed.

Lemma may_current w m : ok w → secrets_of (contents w path) = Some m → ∀ r, may w r (m !! r).
Proof.
  intros Hok Hm r. exists (contents w path), m. split; [|done]. by apply may_hold_contents.
Qed.

Lemma loads_error V c e w :
  loads V c (Failed e) w → errors_is e SecretNotFound = false.
Proof. by intros [(_ & _ & He) _]. Qed.

#[export] Program Instance file_secret_store : SecretStore (FS Text) := {|
  ss_Get := FileStore.Get path;
  ss_Put := FileStore.Put path torn;
  ss_Delete := FileStore.Delete path torn;
  ss_ok := ok;
  ss_may := may;
|}.
Next Obligation.
  intros ref w Hok. apply wp_bind. eapply wp_mono; [by apply wp_loadLocked|].
  intros [m|e|] w' Hl; destruct (ok_loads _ _ _ _ Hok Hl) as [Hok' Hmay].
  - destruct Hl as [_ Hm]. destruct (m !! ref) eqn:Hr.
    + apply wp_ret. split_and!; [done..|]. rewrite <- Hr. by apply may_current.
    + apply wp_fail. split_and!; [done..|]. intros _. rewrite <- Hr. by apply may_current.
  - split_and!; [done..|]. by rewrite (loads_error _ _ _ _ Hl).
  - by split_and!.
Qed.
Next Obligation.
  intros ref v w Hok. apply wp_bind. eapply wp_mono; [by apply wp_loadLocked|].
  intros o w1 Hl; destruct (ok_loads _ _ _ _ Hok Hl) as [Hok' Hmay].
  destruct o as [m|e|]; [|by split_and!; eauto..].
  eapply wp_mono; [by apply wp_saveLocked|]. intros o w2 H.
  destruct (may_replaces _ _ _ _ Hok' H) as (Hok2 & Hany & Hdone). split_and!; [done| |].
  - intros r x Hx. destruct (Hany r x Hx) as [?|<-]; [by auto|].
    destruct (decide (r = ref)) as [->|Hne]; [right; by rewrite lookup_insert_eq|left].
    rewrite lookup_insert_ne by done. destruct Hl as [_ Hm]. by apply may_current.
  - intros -> x Hx. rewrite <- (Hdone eq_refl _ _ Hx). apply lookup_insert_eq.
Qed.
Next Obligation.
  intros ref w Hok. apply wp_bind. eapply wp_mono; [by apply wp_loadLocked|].
  intros o w1 Hl; destruct (ok_loads _ _ _ _ Hok Hl) as [Hok' Hmay].
  destruct o as [m|e|]; [|by split_and!; eauto..].
  destruct (m !! ref) eqn:Href.
  2:{ apply wp_ret. split_and!; [by auto..|]. intros _. rewrite <- Href. destruct Hl as [Hk Hm].
      apply may_current; [done|]. destruct Hk as (_ & -> & _). exact Hm. }
  eapply wp_mono; [by apply wp_saveLocked|]. intros o w2 H.
  destruct (may_replaces _ _ _ _ Hok' H) as (Hok2 & Hany & Hdone). split_and!; [done| |].
  - intros r x Hx. destruct (Hany r x Hx) as [?|<-]; [by auto|].
    destruct (decide (r = ref)) as [->|Hne]; [right; by rewrite lookup_delete_eq|left].
    rewrite lookup_delete_ne by done. destruct Hl as [_ Hm]. by apply may_current.
  - intros ->. destruct H as [Hr _]. rewrite <- (lookup_delete_eq m ref).
    apply may_current; [done|]. rewrite (may_hold_contents _ _ _ Hr). apply secrets_of_enc.
Qed.
End spec.
End FileStoreSpec.

(** A file-store [Delete] retried after a failed directory sync returns nil
    while a crash can still bring the secret back. *)
Lemma Delete_retry_not_durable :
  ∃ (w1 w2 w3 : FS Text),
    FileStore.Put "s" blank "ref" "v" (mkFS ∅ [∅] ∅ 0 448 []) = (w1, Done ()) ∧
    FileStore.Delete "s" blank "ref"
      (w1 <| fs_sched := replicate 14 Pass ++ [Errs "EIO"] |>) = (w2, Failed (ErrText "EIO")) ∧
    FileStore.Delete "s" blank "ref" w2 = (w3, Done ()) ∧
    FileStoreSpec.may "s" w3 "ref" (Some "v").
Proof.
  eexists _, _, _. split; [vm_compute; reflexivity|]. split; [vm_compute; reflexivity|].
  split; [vm_compute; reflexivity|].
  eexists _, _. split; [eexists; split; [right; right; left|vm_compute; reflexivity]|].
  split; [vm_compute; reflexivity|]. vm_compute. reflexivity.
Qed.

(** *** The state file keeps the interface *)

Section state_store.
Context (path : string) (torn : Text) (Hpath : HasPrefix path ".flexconnect-state-" = false).

(** What [Load] makes of a content. *)
Definition load_of (c : option Text) : error + Data :=
  match c with None => inr fresh_data | Some t => parse_state path t end.

Definition state_may (w : FS Text) (d : Data) : Prop :=
  ∃ c, may_read w path c ∧ load_of c = inr d.

Lemma file_Save_spec d w :
  may_hold path (may_read w path) w → data_int64 d →
  wp (Store.Save path torn d) (λ o w', may_hold path (may_read w' path) w' ∧
    (∀ d', state_may w' d' → state_may w d' ∨ d' = d) ∧
    (o = Done () → ∀ d', state_may w' d' → d' = d)) w.
Proof using Hpath.
  intros Hok Hd. eapply wp_mono; [by apply wp_Save|]. intros o w' H.
  assert (Hh : may_hold path (or_new (may_read w path) (encoded d)) w').
  { destruct o; [by eapply replaced_hold|exact H..]. }
  assert (Hnew : ∀ d', load_of (Some (encoded d)) = inr d' → d' = d).
  { intros d'. cbn -[parse_state encoded]. unfold encoded. rewrite parse_state_ok by done. congruence. }
  split_and!.
  - by eapply may_hold_self.
  - intros d' (c & Hc & Hl). destruct (may_hold_read _ _ _ _ Hh Hc) as [Hv | ->]; [left; by exists c|auto].
  - intros -> d' (c & Hc & Hl). destruct H as [H _].
    pose proof (may_hold_read _ _ _ _ H Hc) as ->. by apply Hnew.
Qed.

#[export] Instance file_state_store : StateStore (FS Text) := {|
  st_Save := Store.Save path torn;
  st_ok w := may_hold path (may_read w path) w;
  st_may := state_may;
  st_Save_spec := file_Save_spec;
|}.
End state_store.
