(* ===== verification/NetURL.v ===== *)
(** * URLs and host:port addresses

    net/url's [Parse] and net's [SplitHostPort] and [JoinHostPort], as far as
    profile validation and the SOCKS5 listener depend on them: which texts are
    rejected, and the scheme, user, host, query and fragment of the others.
    Error texts are abbreviated. *)

From S2P Require Import Prelude GoStrings NetIP.

Open Scope go_scope.
Open Scope Z_scope.

(** [strings.Cut] at the first occurrence of a byte. *)
Definition cut (s : string) (c : ascii) : string * string * bool :=
  match index_byte s c with
  | None => (s, "", false)
  | Some i => (take_str i s, drop_str (S i) s, true)
  end.

Fixpoint count_byte (s : string) (c : ascii) : nat :=
  match s with
  | EmptyString => 0
  | String d s => (if Ascii.eqb d c then 1 else 0) + count_byte s c
  end%nat.

Definition between (lo hi : nat) (c : ascii) : bool :=
  (lo <=? nat_of_ascii c)%nat && (nat_of_ascii c <=? hi)%nat.
Definition is_alpha (c : ascii) : bool := between 65 90 c || between 97 122 c.
Definition is_one_of (s : string) (c : ascii) : bool := contains_byte s c.
Fixpoint all_bytes (f : ascii → bool) (s : string) : bool :=
  match s with EmptyString => true | String c s => f c && all_bytes f s end.

Record URL := mkURL {
  url_Scheme : string;
  url_Opaque : string;
  url_User : bool;          (* User != nil *)
  url_Host : string;
  url_Path : string;
  url_ForceQuery : bool;
  url_RawQuery : string;
  url_Fragment : string;
}.
#[export] Instance URL_eta : Eta URL := λ r,
  mkURL (url_Scheme r) (url_Opaque r) (url_User r) (url_Host r) (url_Path r)
    (url_ForceQuery r) (url_RawQuery r) (url_Fragment r).

Definition zero_url : URL := mkURL "" "" false "" "" false "" "".

(** Percent decoding.  [host] is the host mode: only non-ASCII bytes and [%25]
    may be encoded, and the other bytes must be allowed in a host. *)
Definition host_byte (c : ascii) : bool :=
  is_alpha c || is_digit c || is_one_of "-_.~!$&'()*+,;=:[]<>" c || Ascii.eqb c "034"%char
  || between 128 255 c.

Fixpoint unescape (host : bool) (s : string) : option string :=
  match s with
  | EmptyString => Some EmptyString
  | String "%" (String a (String b rest)) =>
      match hex_val a, hex_val b with
      | Some x, Some y =>
          if host && (x <? 8) && negb ((x =? 2) && (y =? 5)) then None
          else String (ascii_of_nat (Z.to_nat (16 * x + y))) <$> unescape host rest
      | _, _ => None
      end
  | String c rest =>
      if Ascii.eqb c "%" || (host && negb (host_byte c)) then None
      else String c <$> unescape host rest
  end.

(** [getScheme]: a scheme is letters, then letters, digits and [+-.]; text
    that cannot be a scheme means there is none. *)
Fixpoint scheme_at (first : bool) (acc s : string) : option (string * string) + unit :=
  match s with
  | EmptyString => inl None
  | String c rest =>
      if is_alpha c then scheme_at false (acc +:+ String c "") rest
      else if is_digit c || is_one_of "+-." c then
        (if first then inl None else scheme_at false (acc +:+ String c "") rest)
      else if Ascii.eqb c ":" then (if first then inr () else inl (Some (acc, rest)))
      else inl None
  end.

Definition validOptionalPort (port : string) : bool :=
  match port with
  | EmptyString => true
  | String c rest => Ascii.eqb c ":" && all_bytes is_digit rest
  end.

Definition validUserinfo (s : string) : bool :=
  all_bytes (λ c, is_alpha c || is_digit c || is_one_of "-._:~!$&'()*+,;=%@" c) s.

Definition parseHost (host : string) : option string :=
  match last_index_byte host "[" with
  | Some openB =>
      match last_index_byte host "]" with
      | None => None
      | Some closeB =>
          let colonPort := drop_str (S closeB) host in
          if negb (validOptionalPort colonPort) then None else
          hostname ← unescape true (take_str (closeB - S openB) (drop_str (S openB) host));
          match ParseAddr hostname with
          | None => None
          | Some addr => if Is4 addr then None else Some ("[" +:+ hostname +:+ "]" +:+ colonPort)
          end
      end
  | None =>
      match index_byte host ":" with
      | Some i => if validOptionalPort (drop_str i host) then unescape true host else None
      | None => unescape true host
      end
  end.

(** The user information is only remembered as present. *)
Definition parseAuthority (authority : string) : option (bool * string) :=
  match last_index_byte authority "@" with
  | None => host ← parseHost authority; Some (false, host)
  | Some i =>
      host ← parseHost (drop_str (S i) authority);
      let userinfo := take_str i authority in
      if negb (validUserinfo userinfo) then None else
      _ ← unescape false userinfo; Some (true, host)
  end.

Definition parse_rest (u : URL) (rest : string) : option URL :=
  let '(u, rest) :=
    if HasSuffix rest "?" && (count_byte rest "?" =? 1)%nat
    then (u <| url_ForceQuery := true |>, take_str (len rest - 1) rest)
    else let '(path, query, _) := cut rest "?" in (u <| url_RawQuery := query |>, path) in
  if negb (HasPrefix rest "/") && (url_Scheme u != "") then Some (u <| url_Opaque := rest |>)
  else if negb (HasPrefix rest "/") && contains_byte (fst (fst (cut rest "/"))) ":" then None
  else if ((url_Scheme u != "") || negb (HasPrefix rest "///")) && HasPrefix rest "//" then
    let authority := drop_str 2 rest in
    let '(authority, path) :=
      match index_byte authority "/" with
      | Some i => (take_str i authority, drop_str i authority)
      | None => (authority, "")
      end in
    '(user, host) ← parseAuthority authority;
    p ← unescape false path;
    Some (u <| url_User := user |> <| url_Host := host |> <| url_Path := p |>)
  else p ← unescape false rest; Some (u <| url_Path := p |>).

(** [url.Parse]. *)
Definition url_Parse (rawURL : string) : option URL :=
  let '(u, frag, _) := cut rawURL "#" in
  if negb (all_bytes (λ c, between 32 126 c || between 128 255 c) u) then None else
  if u == "*" then Some (zero_url <| url_Path := "*" |>) else
  url ← match scheme_at true "" u with
        | inr _ => None
        | inl None => parse_rest zero_url u
        | inl (Some (scheme, rest)) => parse_rest (zero_url <| url_Scheme := ToLower scheme |>) rest
        end;
  f ← unescape false frag;
  Some (url <| url_Fragment := f |>).

(** [Hostname] and [Port]. *)
Definition split_url_host (hostPort : string) : string * string :=
  let '(host, port) :=
    match last_index_byte hostPort ":" with
    | Some colon =>
        if validOptionalPort (drop_str colon hostPort)
        then (take_str colon hostPort, drop_str (S colon) hostPort) else (hostPort, "")
    | None => (hostPort, "")
    end in
  if HasPrefix host "[" && HasSuffix host "]"
  then (take_str (len host - 2) (drop_str 1 host), port) else (host, port).
Definition url_Hostname (u : URL) : string := fst (split_url_host (url_Host u)).
Definition url_Port (u : URL) : string := snd (split_url_host (url_Host u)).

(** ** net.SplitHostPort *)

Definition addr_error (err addr : string) : error := ErrText ("address " +:+ addr +:+ ": " +:+ err).

Definition SplitHostPort (hostport : string) : error + (string * string) :=
  match last_index_byte hostport ":" with
  | None => inl (addr_error "missing port in address" hostport)
  | Some i =>
      let port := drop_str (S i) hostport in
      if HasPrefix hostport "[" then
        match index_byte hostport "]" with
        | None => inl (addr_error "missing ']' in address" hostport)
        | Some e =>
            if (S e =? len hostport)%nat then inl (addr_error "missing port in address" hostport)
            else if (S e =? i)%nat then
              (* drop the brackets; no bracket may remain *)
              if contains_byte (drop_str 1 hostport) "["
              then inl (addr_error "unexpected '[' in address" hostport)
              else if contains_byte (drop_str (S e) hostport) "]"
              then inl (addr_error "unexpected ']' in address" hostport)
              else inr (take_str (e - 1) (drop_str 1 hostport), port)
            else
              match String.get (S e) hostport with
              | Some ":"%char => inl (addr_error "too many colons in address" hostport)
              | _ => inl (addr_error "missing port in address" hostport)
              end
        end
      else
        let host := take_str i hostport in
        if contains_byte host ":" then inl (addr_error "too many colons in address" hostport)
        else if contains_byte hostport "[" then inl (addr_error "unexpected '[' in address" hostport)
        else if contains_byte hostport "]" then inl (addr_error "unexpected ']' in address" hostport)
        else inr (host, port)
  end.

Definition JoinHostPort (host port : string) : string :=
  if contains_byte host ":" then "[" +:+ host +:+ "]:" +:+ port else host +:+ ":" +:+ port.

Example url_examples :
  (url_Scheme <$> url_Parse "HTTPS://vpn.example.com:8443/x") = Some "https" ∧
  (url_Port <$> url_Parse "https://vpn.example.com:8443/x") = Some "8443" ∧
  (url_Hostname <$> url_Parse "https://[2001:db8::1]:443") = Some "2001:db8::1" ∧
  (url_User <$> url_Parse "https://u:p@h/") = Some true ∧
  (url_Opaque <$> url_Parse "https:h") = Some "h" ∧
  url_Parse "https://h:x/" = None ∧ url_Parse "https://%zz/" = None ∧
  SplitHostPort "[::1]:80" = inr ("::1", "80") ∧
  SplitHostPort "127.0.0.1:1080" = inr ("127.0.0.1", "1080").
Proof. vm_compute. repeat split. Qed.
