(* ===== verification/Escape.v ===== *)
(** * Paths and queries of URLs

    What the Local API and its clients use of net/url and net/http besides
    parsing: escaping of a path segment and of a query component, the query's
    values, and the clean form of a path. *)

From S2P Require Import Prelude GoStrings NetIP NetURL.

Open Scope go_scope.

(** ** Escaping *)

Definition upper_hex (n : nat) : ascii := ascii_of_nat (if (n <? 10)%nat then 48 + n else 55 + n).
Definition escape_byte (c : ascii) : string :=
  let n := nat_of_ascii c in String "%" (String (upper_hex (n / 16)) (String (upper_hex (n mod 16)) "")).
Definition unreserved (c : ascii) : bool := is_alpha c || is_digit c || is_one_of "-_.~" c.

Fixpoint PathEscape (s : string) : string :=
  match s with
  | EmptyString => ""
  | String c s => (if unreserved c || is_one_of "$&+=:@" c then String c "" else escape_byte c) +:+ PathEscape s
  end.

Fixpoint QueryEscape (s : string) : string :=
  match s with
  | EmptyString => ""
  | String c s =>
    (if unreserved c then String c "" else if Ascii.eqb c " " then "+" else escape_byte c) +:+ QueryEscape s
  end.

Definition PathUnescape : string → option string := unescape false.
Definition QueryUnescape (s : string) : option string := unescape false (replace_byte s "+" " ").

(** [url.ParseQuery]; a pair that is not well formed is left out. *)
Definition parse_pair (pair : string) : option (string * string) :=
  if contains_byte pair ";" || (pair == "") then None
  else
    let '(key, value, _) := cut pair "=" in
    key ← QueryUnescape key; value ← QueryUnescape value; Some (key, value).
Definition parse_query (raw : string) : list (string * string) := omap parse_pair (split_byte raw "&").
Definition query_Get (query : list (string * string)) (key : string) : string :=
  match List.find (λ kv, fst kv == key) query with Some kv => snd kv | None => "" end.

(** ** Clean paths *)

Definition clean_segment (acc : list string) (segment : string) : list string :=
  if (segment == "") || (segment == ".") then acc
  else if segment == ".." then removelast acc else acc ++ [segment].

Definition cleanPath (p : string) : string :=
  if p == "" then "/"
  else
    let p := if HasPrefix p "/" then p else "/" +:+ p in
    let np := "/" +:+ Join (foldl clean_segment [] (split_byte p "/")) "/" in
    if HasSuffix p "/" && (np != "/") then np +:+ "/" else np.

(** ** Facts *)

Lemma unescape_escaped c r : unescape false (escape_byte c +:+ r) = String c <$> unescape false r.
Proof. by destruct c as [[] [] [] [] [] [] [] []]. Qed.

Lemma unescape_plain c r : c ≠ "%"%char → unescape false (String c r) = String c <$> unescape false r.
Proof. intros H. destruct c as [[] [] [] [] [] [] [] []]; first [reflexivity | by destruct H]. Qed.

Lemma PathUnescape_PathEscape s : PathUnescape (PathEscape s) = Some s.
Proof.
  unfold PathUnescape. induction s as [|c s IH]; [done|]. cbn [PathEscape]. destruct (_ || _) eqn:E.
  - rewrite str_app_cons. change ("" +:+ ?x) with x. rewrite unescape_plain; [by rewrite IH|]. by intros ->.
  - by rewrite unescape_escaped, IH.
Qed.

Lemma index_byte_app_none a b c : index_byte a c = None → index_byte b c = None → index_byte (a +:+ b) c = None.
Proof.
  intros Ha Hb. induction a as [|d a IH]; [done|]. rewrite str_app_cons. cbn [index_byte] in *.
  destruct (Ascii.eqb d c); [done|].
  destruct (index_byte a c); [done|]. by rewrite IH.
Qed.

(** An escaped segment holds no byte a path gives a meaning to. *)
Lemma PathEscape_free s c : c = "/"%char ∨ c = "?"%char ∨ c = "#"%char → index_byte (PathEscape s) c = None.
Proof.
  intros Hc. induction s as [|d s IH]; [done|]. cbn [PathEscape]. apply index_byte_app_none; [|done].
  destruct Hc as [->|[->| ->]]; destruct d as [[] [] [] [] [] [] [] []]; reflexivity.
Qed.

Lemma PathEscape_empty s : PathEscape s = "" → s = "".
Proof. destruct s as [|c s]; [done|]. cbn. by destruct (_ || _). Qed.

(** A path that is its own clean form. *)
Lemma foldl_clean acc l :
  Forall (λ w, w ≠ "" ∧ w ≠ "." ∧ w ≠ "..") l → foldl clean_segment acc l = acc ++ l.
Proof.
  revert acc. induction l as [|w l IH]; intros acc H; [by rewrite app_nil_r|].
  apply Forall_cons in H as [(H1 & H2 & H3) H]. cbn. rewrite IH by done. unfold clean_segment.
  rewrite (proj2 (eqb_false w "") H1), (proj2 (eqb_false w ".") H2), (proj2 (eqb_false w "..") H3). cbn. by rewrite <- app_assoc.
Qed.

(** A segment that means only itself. *)
Definition plain_id (id : string) : Prop := id ≠ "" ∧ id ≠ "." ∧ id ≠ "..".

Lemma PathEscape_plain id : plain_id id → PathEscape id ≠ "" ∧ PathEscape id ≠ "." ∧ PathEscape id ≠ "..".
Proof.
  intros (H1 & H2 & H3). pose proof (PathUnescape_PathEscape id) as E.
  split_and!; intros H; rewrite H in E; injection E as <-; done.
Qed.

Lemma no_slash_suffix p w : w ≠ "" → index_byte w "/" = None → HasSuffix (p +:+ w) "/" = false.
Proof.
  intros Hn Hw. unfold HasSuffix. rewrite rev_str_app. pose proof (rev_str_involutive w) as E.
  destruct (rev_str w) as [|c r]; [by subst|]. rewrite str_app_cons. change (rev_str "/") with "/".
  change (HasPrefix (String c (r +:+ rev_str p)) "/" = false). destruct (HasPrefix _ "/") eqn:H; [|done].
  apply HasPrefix_spec in H as (t & H). injection H as -> _. rewrite rev_str_cons in E. subst w. exfalso. clear -Hw.
  induction (rev_str r) as [|d q IH]; [done|]. rewrite str_app_cons in Hw. cbn [index_byte] in Hw.
  destruct (Ascii.eqb d "/"); [done|]. apply IH. by destruct (index_byte (q +:+ "/") "/").
Qed.

Lemma split_resource dir w :
  index_byte dir "/" = None → index_byte w "/" = None →
  split_byte ("/v2/" +:+ dir +:+ "/" +:+ w) "/" = [""; "v2"; dir; w].
Proof.
  intros Hd Hw. change ("/v2/" +:+ ?x) with ("" +:+ String "/" ("v2" +:+ String "/" x)). rewrite !split_byte_app by done.
  change ("/" +:+ w) with (String "/" w). rewrite split_byte_app by done. by rewrite split_byte_none.
Qed.

Lemma cleanPath_resource dir w :
  plain_id dir → plain_id w → index_byte dir "/" = None → index_byte w "/" = None →
  cleanPath ("/v2/" +:+ dir +:+ "/" +:+ w) = "/v2/" +:+ dir +:+ "/" +:+ w.
Proof.
  intros Hd Hw Hd' Hw'. unfold cleanPath. rewrite (proj2 (eqb_false _ "")) by done.
  change (HasPrefix ("/v2/" +:+ ?x) "/") with true. cbn iota. rewrite split_resource by done.
  change (foldl clean_segment [] (?a :: ?l)) with (foldl clean_segment [] l).
  rewrite foldl_clean by (repeat constructor; first [done|apply Hd|apply Hw]).
  change ("/" +:+ Join ([] ++ ["v2"; dir; w]) "/") with ("/v2/" +:+ dir +:+ "/" +:+ w).
  replace (HasSuffix ("/v2/" +:+ dir +:+ "/" +:+ w) "/") with false; [done|].
  rewrite <- !str_app_assoc. symmetry. apply no_slash_suffix; [apply Hw|done].
Qed.
