(* ===== verification/ProfileIO.v ===== *)
(** * Profile normalization and validation (internal/profileio) *)

From S2P Require Import Prelude GoStrings NetIP NetURL Types.

Open Scope go_scope.
Open Scope Z_scope.

Definition normalizeList_loop (st : list string * gset string) (value : string) :
    list string * gset string :=
  let '(out, seen) := st in
  let value := TrimSpace value in
  if (value == "") || bool_decide (value ∈ seen) then (out, seen)
  else (out ++ [value], {[ value ]} ∪ seen).

Definition normalizeList (values : list string) : list string :=
  fst (foldl normalizeList_loop ([], ∅) values).

Definition NormalizeServerURL (v : string) : string :=
  let v := TrimSpace v in
  if v == "" then ""
  else if Contains v "://" then v
  else "https://" +:+ v.

Definition DefaultProfileName (serverURL username : string) : string :=
  let host :=
    match url_Parse serverURL with
    | Some parsed => if url_Host parsed != "" then url_Host parsed else serverURL
    | None => serverURL
    end in
  let host := TrimSpace host in
  let username := TrimSpace username in
  if (username != "") && (host != "") then username +:+ "@" +:+ host
  else if host != "" then host
  else if username != "" then username
  else "Profile".

Definition NormalizeProfile (profile : Profile) : Profile :=
  let profile := profile <| pr_Name ::= TrimSpace |> in
  let profile := profile <| pr_Username ::= TrimSpace |> in
  let profile := profile <| pr_Group ::= TrimSpace |> in
  let profile := profile <| pr_ServerURL ::= NormalizeServerURL |> in
  let profile := profile <| pr_CustomInclude ::= normalizeList |> in
  let profile := profile <| pr_CustomExclude ::= normalizeList |> in
  let profile := profile <| pr_DNSOverrides ::= normalizeList |> in
  let profile := profile <| pr_SOCKS5Listen ::= TrimSpace |> in
  let profile :=
    if pr_Name profile == ""
    then profile <| pr_Name := DefaultProfileName (pr_ServerURL profile) (pr_Username profile) |>
    else profile in
  let profile :=
    match pr_AutoReconnect profile with
    | None => profile <| pr_AutoReconnect := Some false |>
    | Some _ => profile
    end in
  match pr_ApplyDNS profile with
  | None => profile <| pr_ApplyDNS := Some true |>
  | Some _ => profile
  end.

(** ** Validation *)

(** The loop stops at the first control character; a byte above 0x7f is part
    of a larger rune. *)
Fixpoint has_control (value : string) : bool :=
  match value with
  | EmptyString => false
  | String c rest => (nat_of_ascii c <? 32)%nat || (nat_of_ascii c =? 127)%nat || has_control rest
  end.

Definition validateText (field value : string) (required : bool) (maximum : Z) : option error :=
  let value := TrimSpace value in
  if required && (value == "") then Some (ErrText (field +:+ " is required"))
  else if maximum <? Z.of_nat (len value)
  then Some (ErrText (field +:+ " exceeds " +:+ Itoa maximum +:+ " bytes"))
  else if has_control value then Some (ErrText (field +:+ " contains control characters"))
  else None.

Definition parse_failed (what : string) : error := ErrText ("parse " +:+ quote what).

(** [if err := check; err != nil { return err }; rest]. *)
Definition and_then (check rest : option error) : option error :=
  match check with Some e => Some e | None => rest end.
Notation "c ;? r" := (and_then c r) (at level 100, r at level 200, right associativity) : go_scope.
Definition reject_if (b : bool) (e : error) : option error := if b then Some e else None.

Definition validateServerURL (server : string) : option error :=
  match url_Parse server with
  | None => Some (ErrWrap "invalid server URL: " (parse_failed server) "")
  | Some parsed =>
      reject_if (url_Scheme parsed != "https") (ErrText "server URL scheme must be https") ;?
      reject_if ((url_Hostname parsed == "") || url_User parsed || (url_RawQuery parsed != "")
                 || (url_Fragment parsed != "") || (url_Opaque parsed != "") || url_ForceQuery parsed)
        (ErrText "server URL must contain only an HTTPS host, optional port, and path") ;?
      reject_if (match ParseAddr (url_Hostname parsed) with
                 | Some addr => negb (Is4 (Unmap addr))
                 | None => false
                 end)
        (ErrText "IPv6 literal VPN server URLs are not supported") ;?
      let port := url_Port parsed in
      reject_if ((port != "") &&
                 match Atoi port with
                 | None => true
                 | Some value => (value <? 1) || (65535 <? value)
                 end)
        (ErrText ("invalid server URL port " +:+ quote port))
  end.

Definition validateRoute (value : string) : option error :=
  match netip_ParsePrefix (TrimSpace value) with
  | None => Some (ErrWrap ("invalid route " +:+ quote value +:+ ": ") (parse_failed value) "")
  | Some prefix => reject_if (negb (Is4 (pfx_addr prefix))) (ErrText ("route " +:+ quote value +:+ " is not IPv4"))
  end.

Definition validateDNS (value : string) : option error :=
  match ParseAddr (TrimSpace value) with
  | None => Some (ErrWrap ("invalid DNS server " +:+ quote value +:+ ": ") (parse_failed value) "")
  | Some addr =>
      reject_if (negb (Is4 addr) || IsUnspecified addr || IsMulticast addr)
        (ErrText ("invalid DNS server " +:+ quote value))
  end.

Fixpoint validate_each (f : string → option error) (l : list string) : option error :=
  match l with [] => None | v :: l => f v ;? validate_each f l end.

Definition validateSOCKS5 (listen : string) : option error :=
  match SplitHostPort (TrimSpace listen) with
  | inl e => Some (ErrWrap "invalid SOCKS5 listen address: " e "")
  | inr (host, port) =>
      reject_if (host == "") (ErrText "SOCKS5 listen host is required") ;?
      reject_if ((host != "localhost") &&
                 match ParseAddr host with
                 | None => true
                 | Some addr => (negb (Is4 addr) && negb (Is6 addr)) || IsMulticast addr
                 end)
        (ErrText ("invalid SOCKS5 listen host " +:+ quote host)) ;?
      match Atoi port with
      | None => Some (ErrText ("invalid SOCKS5 listen port " +:+ quote port))
      | Some value =>
          reject_if ((value <? 0) || (65535 <? value))
            (ErrText ("invalid SOCKS5 listen port " +:+ quote port)) ;?
          reject_if ((value =? 0) && (host != "localhost") &&
                     match ParseAddr host with
                     | None => true
                     | Some addr => negb (IsValid addr) || negb (IsLoopback addr)
                     end)
            (ErrText "SOCKS5 port 0 is only valid on loopback")
      end
  end.

Definition validateProfile (profile : Profile) : option error :=
  validateText "profile name" (pr_Name profile) true 128 ;?
  validateText "username" (pr_Username profile) true 256 ;?
  validateText "group" (pr_Group profile) false 256 ;?
  validateServerURL (pr_ServerURL profile) ;?
  reject_if ((pr_MTU profile <? 576) || (9000 <? pr_MTU profile))
    (ErrText "MTU must be between 576 and 9000") ;?
  reject_if ((pr_Scope profile != ProfileScopeUser) && (pr_Scope profile != ProfileScopeMachine))
    (ErrText ("invalid profile scope " +:+ quote (pr_Scope profile))) ;?
  reject_if (TrimSpace (pr_OwnerID profile) == "") (ErrText "profile owner is required") ;?
  let routes := pr_CustomInclude profile ++ pr_CustomExclude profile in
  reject_if (512 <? Z.of_nat (length routes)) (ErrText "profile route list exceeds 512 entries") ;?
  validate_each validateRoute routes ;?
  reject_if (16 <? Z.of_nat (length (pr_DNSOverrides profile)))
    (ErrText "DNS server list exceeds 16 entries") ;?
  validate_each validateDNS (pr_DNSOverrides profile) ;?
  if pr_SOCKS5Enabled profile then validateSOCKS5 (pr_SOCKS5Listen profile) else None.

Definition ValidateProfile (profile : Profile) : option error :=
  match validateProfile profile with
  | Some err => Some (ErrValidation err)
  | None => None
  end.

(** ** Normalized lists *)

Definition clean (v : string) : Prop := trimmed v ∧ v ≠ "".

Lemma normalizeList_loop_eq out seen w :
  normalizeList_loop (out, seen) w =
    if (TrimSpace w == "") || bool_decide (TrimSpace w ∈ seen) then (out, seen)
    else (out ++ [TrimSpace w], {[ TrimSpace w ]} ∪ seen).
Proof. done. Qed.

Lemma normalizeList_fold l out seen :
  (∀ v, v ∈ seen ↔ v ∈ out) → NoDup out →
  let out' := fst (foldl normalizeList_loop (out, seen) l) in
  NoDup out' ∧
  ∀ v, v ∈ out' ↔ v ∈ out ∨ (v ≠ "" ∧ ∃ w, w ∈ l ∧ v = TrimSpace w).
Proof.
  cbv zeta. revert out seen. induction l as [|w l IH]; intros out seen Hseen Hnd; cbn [foldl].
  - split; [done|]. set_solver.
  - rewrite normalizeList_loop_eq. case_eq ((TrimSpace w == "") || bool_decide (TrimSpace w ∈ seen)).
    + intros Hskip. destruct (IH out seen Hseen Hnd) as [Hnd' Hin]. split; [done|].
      intros v. rewrite Hin. apply orb_true_iff in Hskip as [He%eqb_true|Hs%bool_decide_eq_true].
      * set_solver.
      * apply Hseen in Hs. set_solver.
    + intros [Hne%eqb_false Hns%bool_decide_eq_false]%orb_false_iff.
      destruct (IH (out ++ [TrimSpace w]) ({[ TrimSpace w ]} ∪ seen)) as [Hnd' Hin].
      { set_solver. }
      { apply NoDup_app. split_and!; [done| |apply NoDup_singleton]. set_solver. }
      split; [done|]. intros v. rewrite Hin. set_solver.
Qed.

Lemma normalizeList_spec l :
  NoDup (normalizeList l) ∧
  ∀ v, v ∈ normalizeList l ↔ v ≠ "" ∧ ∃ w, w ∈ l ∧ v = TrimSpace w.
Proof.
  destruct (normalizeList_fold l [] ∅) as [H1 H2]; [set_solver|constructor|].
  split; [exact H1|]. intros v. unfold normalizeList. rewrite H2. set_solver.
Qed.

Lemma normalizeList_clean l : Forall clean (normalizeList l).
Proof.
  apply Forall_forall. intros v (Hne & w & _ & ->)%(proj2 (normalizeList_spec l)).
  split; [apply TrimSpace_trimmed|done].
Qed.

Lemma normalizeList_id_fold l out seen :
  (∀ v, v ∈ seen ↔ v ∈ out) → NoDup (out ++ l) → Forall clean l →
  fst (foldl normalizeList_loop (out, seen) l) = out ++ l.
Proof.
  revert out seen. induction l as [|w l IH]; intros out seen Hseen Hnd Hc; cbn [foldl fst].
  - by rewrite app_nil_r.
  - apply Forall_cons in Hc as [[Ht Hne] Hc]. rewrite normalizeList_loop_eq.
    rewrite (TrimSpace_id _ Ht), (proj2 (eqb_false _ _) Hne), bool_decide_eq_false_2; cbn [orb].
    2:{ rewrite Hseen. apply NoDup_app in Hnd as (_ & Hd & _). set_solver. }
    rewrite cons_middle, app_assoc in Hnd. rewrite IH by (done || set_solver).
    by rewrite <- app_assoc.
Qed.

Lemma normalizeList_id l : NoDup l → Forall clean l → normalizeList l = l.
Proof. intros. by apply (normalizeList_id_fold l [] ∅); [set_solver| |]. Qed.

Lemma normalizeList_idem l : normalizeList (normalizeList l) = normalizeList l.
Proof. apply normalizeList_id; [apply normalizeList_spec|apply normalizeList_clean]. Qed.

(** ** Normalized texts *)

Lemma Contains_https v : Contains ("https://" +:+ v) "://" = true.
Proof.
  rewrite ?str_app_cons, str_app_nil_l. cbn [Contains].
  rewrite !HasPrefix_cons. cbn. by destruct v.
Qed.

Lemma trimmed_https v : trimmed v → v ≠ "" → trimmed ("https://" +:+ v).
Proof.
  intros Hv Hne. change ("https://" +:+ v) with ("https:/" +:+ String "/" v).
  apply trimmed_join; [|done..|vm_compute; lia].
  apply (bool_decide_unpack _). vm_compute. exact I.
Qed.

Lemma NormalizeServerURL_trimmed v : trimmed (NormalizeServerURL v).
Proof.
  unfold NormalizeServerURL. destruct (TrimSpace v == "") eqn:E; [by apply (TrimSpace_trimmed "")|].
  destruct (Contains _ _); [apply TrimSpace_trimmed|].
  apply trimmed_https; [apply TrimSpace_trimmed|by apply eqb_false].
Qed.

Lemma NormalizeServerURL_idem v : NormalizeServerURL (NormalizeServerURL v) = NormalizeServerURL v.
Proof.
  unfold NormalizeServerURL at 1. rewrite (TrimSpace_id _ (NormalizeServerURL_trimmed v)).
  unfold NormalizeServerURL. destruct (TrimSpace v == "") eqn:E; [done|].
  destruct (Contains (TrimSpace v) "://") eqn:Hc.
  - by rewrite E, Hc.
  - by rewrite Contains_https.
Qed.

Lemma DefaultProfileName_clean server user : clean (DefaultProfileName server user).
Proof.
  unfold DefaultProfileName.
  set (h := TrimSpace (match url_Parse server with Some _ => _ | None => _ end)).
  set (u := TrimSpace user).
  assert (Hh : trimmed h) by apply TrimSpace_trimmed.
  assert (Hu : trimmed u) by apply TrimSpace_trimmed.
  destruct (u == "") eqn:Eu, (h == "") eqn:Eh; cbn [negb andb];
    first [apply eqb_true in Eu|apply eqb_false in Eu]; first [apply eqb_true in Eh|apply eqb_false in Eh].
  - split; [|done]. apply (bool_decide_unpack _). vm_compute. exact I.
  - exact (conj Hh Eh).
  - exact (conj Hu Eu).
  - clearbody u h. split; [by apply trimmed_join; [..|vm_compute; lia]|]. by destruct u.
Qed.

(** The normalized profile, field by field. *)
Definition normal_name (p : Profile) : string :=
  if TrimSpace (pr_Name p) == ""
  then DefaultProfileName (NormalizeServerURL (pr_ServerURL p)) (TrimSpace (pr_Username p))
  else TrimSpace (pr_Name p).

Lemma NormalizeProfile_eq p :
  NormalizeProfile p =
    mkProfile (pr_ID p) (normal_name p) (NormalizeServerURL (pr_ServerURL p))
      (TrimSpace (pr_Username p)) (pr_SecretRef p) (pr_Scope p) (pr_OwnerID p)
      (TrimSpace (pr_Group p)) (pr_AcceptServerRoutes p)
      (Some (BoolValue (pr_AutoReconnect p) false)) (Some (BoolValue (pr_ApplyDNS p) true))
      (normalizeList (pr_CustomInclude p)) (normalizeList (pr_CustomExclude p))
      (normalizeList (pr_DNSOverrides p)) (pr_SOCKS5Enabled p) (TrimSpace (pr_SOCKS5Listen p))
      (pr_MTU p) (pr_CreatedAt p) (pr_UpdatedAt p).
Proof.
  destruct p as [id name server user ref scope owner group acc auto dns inc exc dnsl se sl mtu ca ua].
  unfold NormalizeProfile, normal_name.
  lazy -[TrimSpace normalizeList NormalizeServerURL DefaultProfileName String.eqb].
  destruct (String.eqb (TrimSpace name) ""), auto, dns; reflexivity.
Qed.

(** Normalizing a profile twice is normalizing it once, so what the daemon
    stores is a fixed point and re-saving an unchanged profile changes nothing. *)
Theorem NormalizeProfile_idempotent p :
  NormalizeProfile (NormalizeProfile p) = NormalizeProfile p.
Proof.
  assert (Hn : clean (normal_name p)).
  { unfold normal_name. destruct (TrimSpace (pr_Name p) == "") eqn:E;
      [apply DefaultProfileName_clean|]. split; [apply TrimSpace_trimmed|by apply eqb_false]. }
  assert (Hnn : normal_name (NormalizeProfile p) = normal_name p).
  { rewrite NormalizeProfile_eq. revert Hn. generalize (normal_name p). intros n Hn.
    unfold normal_name. cbn [pr_Name]. rewrite (TrimSpace_id _ (proj1 Hn)).
    by rewrite (proj2 (eqb_false _ _) (proj2 Hn)). }
  rewrite (NormalizeProfile_eq (NormalizeProfile p)), Hnn, (NormalizeProfile_eq p).
  cbn [pr_ID pr_Name pr_ServerURL pr_Username pr_SecretRef pr_Scope pr_OwnerID pr_Group
    pr_AcceptServerRoutes pr_AutoReconnect pr_ApplyDNS pr_CustomInclude pr_CustomExclude
    pr_DNSOverrides pr_SOCKS5Enabled pr_SOCKS5Listen pr_MTU pr_CreatedAt pr_UpdatedAt BoolValue].
  by rewrite !TrimSpace_idem, !normalizeList_idem, NormalizeServerURL_idem.
Qed.

(** ** What a validated profile guarantees *)

Lemma and_then_None c r : (c ;? r) = None ↔ c = None ∧ r = None.
Proof. destruct c; cbn; naive_solver. Qed.

Lemma reject_if_None b e : reject_if b e = None ↔ b = false.
Proof. by destruct b. Qed.

Lemma validate_each_None f l : validate_each f l = None ↔ Forall (λ v, f v = None) l.
Proof.
  induction l as [|v l IH]; cbn [validate_each]; [by split|].
  by rewrite and_then_None, Forall_cons, IH.
Qed.

#[local] Hint Rewrite and_then_None reject_if_None validate_each_None orb_false_iff
  Z.ltb_ge negb_false_iff eqb_true eqb_false : go_rw.

Definition safe_server (server : string) : Prop :=
  ∃ u, url_Parse server = Some u ∧ url_Scheme u = "https" ∧ url_Hostname u ≠ "" ∧
    url_User u = false ∧ url_RawQuery u = "" ∧ url_Fragment u = "" ∧ url_Opaque u = "" ∧
    (∀ a, ParseAddr (url_Hostname u) = Some a → Is4 (Unmap a) = true) ∧
    (url_Port u = "" ∨ ∃ n, Atoi (url_Port u) = Some n ∧ 1 ≤ n ≤ 65535).

Definition ipv4_route (value : string) : Prop :=
  ∃ p, netip_ParsePrefix (TrimSpace value) = Some p ∧ Is4 (pfx_addr p) = true.

Definition ipv4_server (value : string) : Prop :=
  ∃ a, ParseAddr (TrimSpace value) = Some a ∧ Is4 a = true ∧
    IsUnspecified a = false ∧ IsMulticast a = false.

(** A listener that can only be reached from this host, or a fixed port. *)
Definition safe_listener (listen : string) : Prop :=
  ∃ host port n, SplitHostPort (TrimSpace listen) = inr (host, port) ∧ Atoi port = Some n ∧
    0 ≤ n ≤ 65535 ∧
    (host = "localhost" ∨ ∃ a, ParseAddr host = Some a ∧ IsMulticast a = false ∧
                               (n = 0 → IsLoopback a = true)).

Lemma validateServerURL_safe server : validateServerURL server = None → safe_server server.
Proof.
  unfold validateServerURL, safe_server. destruct (url_Parse server) as [u|]; [|done].
  cbv zeta. autorewrite with go_rw. intros (Hs & (((((Hh & Hu) & Hq) & Hf) & Ho) & _) & Ha & Hp).
  exists u. split_and!; try done.
  - intros a Ea. rewrite Ea in Ha. by apply negb_false_iff in Ha.
  - apply andb_false_iff in Hp as [Hp|Hp]; [left; by apply negb_false_iff, eqb_true in Hp|].
    right. destruct (Atoi (url_Port u)) as [n|]; [|done]. exists n. split; [done|].
    apply orb_false_iff in Hp as [H1 H2]. lia.
Qed.

Lemma validateRoute_ipv4 v : validateRoute v = None → ipv4_route v.
Proof.
  unfold validateRoute, ipv4_route. destruct (netip_ParsePrefix (TrimSpace v)) as [p|]; [|done].
  autorewrite with go_rw. eauto.
Qed.

Lemma validateDNS_ipv4 v : validateDNS v = None → ipv4_server v.
Proof.
  unfold validateDNS, ipv4_server. destruct (ParseAddr (TrimSpace v)) as [a|]; [|done].
  autorewrite with go_rw. intros [[? ?] ?]. eauto.
Qed.

Lemma validateSOCKS5_safe listen : validateSOCKS5 listen = None → safe_listener listen.
Proof.
  unfold validateSOCKS5, safe_listener.
  destruct (SplitHostPort (TrimSpace listen)) as [e|[host port]]; [done|].
  destruct (Atoi port) as [n|] eqn:En; rewrite !and_then_None, !reject_if_None; [|naive_solver].
  intros (_ & Ha & Hn & H0). exists host, port, n. split_and!; try done.
  { apply orb_false_iff in Hn as [H1 H2]. lia. }
  { apply orb_false_iff in Hn as [H1 H2]. lia. }
  destruct (host == "localhost") eqn:El; [left; by apply eqb_true|right].
  cbn [negb andb] in Ha. rewrite andb_true_r in H0.
  destruct (ParseAddr host) as [a|]; [|done]. exists a.
  apply orb_false_iff in Ha as [_ Hm]. split_and!; [done..|]. intros ->.
  cbn [Z.eqb andb] in H0. apply orb_false_iff in H0 as [_ H0]. by apply negb_false_iff.
Qed.

(** C16: a profile that validates can only name an HTTPS gateway without
    credentials, query or fragment on a legal port, an MTU the tunnel can use,
    IPv4 routes and DNS servers within the limits, and a SOCKS5 listener that
    is loopback-only when its port is chosen by the system. *)
Theorem ValidateProfile_sound p :
  ValidateProfile p = None →
  safe_server (pr_ServerURL p) ∧ 576 ≤ pr_MTU p ≤ 9000 ∧
  (pr_Scope p = "user" ∨ pr_Scope p = "machine") ∧ TrimSpace (pr_OwnerID p) ≠ "" ∧
  Forall ipv4_route (pr_CustomInclude p ++ pr_CustomExclude p) ∧
  (length (pr_CustomInclude p ++ pr_CustomExclude p) ≤ 512)%nat ∧
  Forall ipv4_server (pr_DNSOverrides p) ∧ (length (pr_DNSOverrides p) ≤ 16)%nat ∧
  (pr_SOCKS5Enabled p = true → safe_listener (pr_SOCKS5Listen p)).
Proof.
  unfold ValidateProfile. destruct (validateProfile p) eqn:E; [done|]. intros _. revert E.
  unfold validateProfile. cbv zeta. rewrite !and_then_None, !reject_if_None, !validate_each_None.
  intros (_ & _ & _ & Hs & Hm & Hsc & Ho & Hrl & Hr & Hdl & Hd & Hk).
  split_and!.
  - by apply validateServerURL_safe.
  - apply orb_false_iff in Hm as [H1 H2]. lia.
  - apply orb_false_iff in Hm as [H1 H2]. lia.
  - apply andb_false_iff in Hsc as [H|H]; apply negb_false_iff, eqb_true in H; auto.
  - by apply eqb_false.
  - eapply Forall_impl; [exact Hr|]. apply validateRoute_ipv4.
  - lia.
  - eapply Forall_impl; [exact Hd|]. apply validateDNS_ipv4.
  - lia.
  - intros He. rewrite He in Hk. by apply validateSOCKS5_safe.
Qed.

Definition sample_profile : Profile :=
  mkProfile "p1" "Corp" "https://vpn.example.com:8443" "alice" "profile/p1/s" "user" "S-1" ""
    true (Some false) (Some true) ["10.0.0.0/8"] ["192.168.1.7/32"] ["10.0.0.53"] true
    "127.0.0.1:0" 1399 "" "".

Lemma ValidateProfile_sound_witness :
  ValidateProfile sample_profile = None ∧ safe_server (pr_ServerURL sample_profile).
Proof.
  assert (H : ValidateProfile sample_profile = None) by (vm_compute; reflexivity).
  split; [exact H|]. exact (proj1 (ValidateProfile_sound sample_profile H)).
Defined.
