(* ===== verification/LogBuf.v ===== *)
(** * The in-memory log (internal/logbuf) *)

From S2P Require Import Prelude GoStrings Types.

Open Scope go_scope.

Record Buffer := mkBuffer {
  lb_entries : list LogEntry;
  lb_limit : nat;
}.
#[export] Instance Buffer_eta : Eta Buffer := λ r, mkBuffer (lb_entries r) (lb_limit r).

Definition New (limit : Z) : Buffer :=
  mkBuffer [] (Z.to_nat (if (limit <=? 0)%Z then 200%Z else limit)).

Definition Add (now level message : string) (b : Buffer) : Buffer :=
  let entries := lb_entries b ++ [mkLogEntry now level message] in
  b <| lb_entries := if (lb_limit b <? length entries)%nat then last_n (lb_limit b) entries else entries |>.

Definition Snapshot (b : Buffer) : list LogEntry := lb_entries b.

Definition bounded (b : Buffer) : Prop := (length (lb_entries b) ≤ lb_limit b)%nat.

Lemma entries_Add now level message b :
  lb_entries (Add now level message b) =
    let entries := lb_entries b ++ [mkLogEntry now level message] in
    if (lb_limit b <? length entries)%nat then last_n (lb_limit b) entries else entries.
Proof. done. Qed.

Lemma Add_bounded now level message b : bounded b → bounded (Add now level message b).
Proof.
  unfold bounded. intros H. rewrite entries_Add. cbv zeta. change (lb_limit (Add _ _ _ b)) with (lb_limit b).
  destruct (Nat.ltb_spec (lb_limit b) (length (lb_entries b ++ [mkLogEntry now level message]))).
  - rewrite length_last_n. lia.
  - lia.
Qed.

Lemma Add_limit now level message b : lb_limit (Add now level message b) = lb_limit b.
Proof. done. Qed.

(** The buffer is the last [limit] lines added, in order. *)
Lemma Add_last_n now level message b (all : list LogEntry) :
  lb_entries b = last_n (lb_limit b) all →
  lb_entries (Add now level message b) = last_n (lb_limit b) (all ++ [mkLogEntry now level message]).
Proof.
  intros H. rewrite entries_Add. cbv zeta. set (e := mkLogEntry now level message).
  assert (Hlen : length (lb_entries b) = min (lb_limit b) (length all)) by (by rewrite H, length_last_n).
  assert (Hsuf : last_n (lb_limit b) (lb_entries b ++ [e]) = last_n (lb_limit b) (all ++ [e])).
  { rewrite H. unfold last_n. rewrite !length_app, length_drop. cbn.
    destruct (decide (length all ≤ lb_limit b)%nat) as [Hle|Hgt].
    - replace (length all - lb_limit b)%nat with 0%nat by lia. rewrite drop_0.
      by replace (length all - 0 + 1)%nat with (length all + 1)%nat by lia.
    - destruct (lb_limit b) as [|n].
      + rewrite !drop_ge; [done|..]; rewrite ?length_app, ?length_drop; cbn; lia.
      + rewrite !drop_app_le by (rewrite ?length_drop; lia). f_equal. rewrite drop_drop. f_equal. lia. }
  destruct (Nat.ltb_spec (lb_limit b) (length (lb_entries b ++ [e]))); [done|].
  rewrite <- Hsuf. by rewrite last_n_all.
Qed.
