(* ===== verification/Vpn.v ===== *)
(** * The VPN backend contract (internal/vpn)

    The messages between the daemon and a VPN backend, and the classification
    of its errors. *)

From S2P Require Import Prelude GoStrings Types.

Open Scope go_scope.
Open Scope Z_scope.

Record NetworkSnapshot := mkNetworkSnapshot {
  ns_InterfaceName : string;
  ns_InterfaceIndex : Z;
  ns_LocalIPv4 : string;
  ns_Gateway : string;
  ns_GatewayInterface : Z;
  ns_RouteMetric : Z;
  ns_Generation : Z;
}.
#[export] Instance NetworkSnapshot_eta : Eta NetworkSnapshot := λ r,
  mkNetworkSnapshot (ns_InterfaceName r) (ns_InterfaceIndex r) (ns_LocalIPv4 r) (ns_Gateway r)
    (ns_GatewayInterface r) (ns_RouteMetric r) (ns_Generation r).

(** [vpn.NetworkChange]; its name in [types] is taken by the daemon's form. *)

Record BackendChange := mkBackendChange {
  bc_Before : NetworkSnapshot;
  bc_After : NetworkSnapshot;
  bc_Reasons : list string;
  bc_RebindRequired : bool;
  bc_Error : string;
}.
#[export] Instance BackendChange_eta : Eta BackendChange := λ r,
  mkBackendChange (bc_Before r) (bc_After r) (bc_Reasons r) (bc_RebindRequired r) (bc_Error r).

Record TransportFault := mkTransportFault {
  tf_Code : string;
  tf_Transport : string;
  tf_Error : string;
  tf_Time : string;
}.
#[export] Instance TransportFault_eta : Eta TransportFault := λ r,
  mkTransportFault (tf_Code r) (tf_Transport r) (tf_Error r) (tf_Time r).

Record DisconnectInfo := mkDisconnectInfo {
  di_Code : string;
  di_Transport : string;
  di_Error : string;
  di_Time : string;
  di_TransportFaults : list TransportFault;
}.
#[export] Instance DisconnectInfo_eta : Eta DisconnectInfo := λ r,
  mkDisconnectInfo (di_Code r) (di_Transport r) (di_Error r) (di_Time r) (di_TransportFaults r).

Record Event := mkEvent {
  ev_Type : string;
  ev_ConnectionID : string;
  ev_AttemptID : string;
  ev_ProfileID : string;
  ev_OwnerID : string;
  ev_Session : option SessionInfo;
  ev_Err : option error;
  ev_Close : option DisconnectInfo;
  ev_Network : option BackendChange;
  ev_Component : string;
}.
#[export] Instance Event_eta : Eta Event := λ r,
  mkEvent (ev_Type r) (ev_ConnectionID r) (ev_AttemptID r) (ev_ProfileID r) (ev_OwnerID r)
    (ev_Session r) (ev_Err r) (ev_Close r) (ev_Network r) (ev_Component r).

Definition zero_vpn_event : Event := mkEvent "" "" "" "" "" None None None None "".

Record ConnectRequest := mkConnectRequest {
  cq_Profile : Profile;
  cq_Password : string;
  cq_AttemptID : string;
  cq_ConnectionID : string;
  cq_OwnerID : string;
}.
#[export] Instance ConnectRequest_eta : Eta ConnectRequest := λ r,
  mkConnectRequest (cq_Profile r) (cq_Password r) (cq_AttemptID r) (cq_ConnectionID r)
    (cq_OwnerID r).

Definition WrapConnectError (stage : string) (retryable : bool) (err : option error) : option error :=
  match err with None => None | Some e => Some (ErrConnect stage retryable e) end.

(** [errors.As(err, &connectErr)]: the first ConnectError in depth-first order. *)
Fixpoint as_connect_error (e : error) : option (string * bool) :=
  match e with
  | ErrText _ | ErrSentinel _ _ => None
  | ErrWrap _ i _ => as_connect_error i
  | ErrCoded _ _ _ c => match c with Some i => as_connect_error i | None => None end
  | ErrConnect stage retryable _ => Some (stage, retryable)
  | ErrValidation i => as_connect_error i
  | ErrJoin a b => match as_connect_error a with Some r => Some r | None => as_connect_error b end
  end.

Definition IsRetryable (err : error) : bool :=
  match as_connect_error err with Some (_, retryable) => retryable | None => false end.
