(* ===== verification/Router.v ===== *)
(** * Route planning (internal/router/planner.go)

    [mergeRoutes] merges four route lists, later lists overriding earlier
    ones per normalized destination.  [Plan] reports the result to clients
    and [MergeRouteLists] feeds it to the platform network manager. *)

From S2P Require Import Prelude GoStrings NetIP OsNet Types.

Open Scope go_scope.
Open Scope Z_scope.

(** ** Definitions *)

Record RouteLists := mkRouteLists {
  rl_Include : list string;
  rl_Exclude : list string;
}.

Record mergedRoute := mkMergedRoute {
  mr_destination : string;
  mr_action : string;
  mr_metric : Z;
  mr_source : string;
}.
#[export] Instance mergedRoute_eq_dec : EqDecision mergedRoute.
Proof. solve_decision. Defined.

Definition normalizeDestination (raw : string) : string :=
  let raw := TrimSpace raw in
  if raw == "" then ""
  else match ParsePrefix raw with
       | inr prefix => prefix_string prefix
       | inl _ => raw
       end.

(** The closure [appendRoutes] of [mergeRoutes]: one value, then all values.
    The state is [(routes, byDestination)]. *)
Definition appendRoute (action source : string) (metric : Z)
    (st : list mergedRoute * gmap string nat) (raw : string)
    : list mergedRoute * gmap string nat :=
  let '(routes, byDestination) := st in
  let destination := normalizeDestination raw in
  if destination == "" then st
  else
    let entry := mkMergedRoute destination action metric source in
    match byDestination !! destination with
    | Some index => (<[index := entry]> routes, byDestination)
    | None => (routes ++ [entry], <[destination := length routes]> byDestination)
    end.

Definition appendRoutes (values : list string) (action source : string) (metric : Z)
    (st : list mergedRoute * gmap string nat) : list mergedRoute * gmap string nat :=
  foldl (appendRoute action source metric) st values.

Definition mergeRoutes (serverInclude serverExclude localInclude localExclude : list string)
    : list mergedRoute :=
  let st := ([], ∅) in
  let st := appendRoutes serverInclude "include" "server" 6 st in
  let st := appendRoutes serverExclude "exclude" "server" 5 st in
  let st := appendRoutes localInclude "include" "local" 4 st in
  let st := appendRoutes localExclude "exclude" "local" 3 st in
  fst st.

Definition Plan (serverInclude serverExclude : list string) (profile : Profile)
    : list RouteSpec :=
  let '(serverInclude, serverExclude) :=
    if negb (pr_AcceptServerRoutes profile) then ([], []) else (serverInclude, serverExclude) in
  let merged :=
    mergeRoutes serverInclude serverExclude (pr_CustomInclude profile) (pr_CustomExclude profile) in
  (λ route, mkRouteSpec (mr_destination route) (mr_action route) (mr_metric route)
              (mr_source route) true) <$> merged.

(** The loop of [MergeRouteLists]. *)
Definition splitRoute (acc : RouteLists) (route : mergedRoute) : RouteLists :=
  if mr_action route == "include"
  then mkRouteLists (rl_Include acc ++ [mr_destination route]) (rl_Exclude acc)
  else if mr_action route == "exclude"
  then mkRouteLists (rl_Include acc) (rl_Exclude acc ++ [mr_destination route])
  else acc.

Definition MergeRouteLists (serverInclude serverExclude localInclude localExclude : list string)
    : RouteLists :=
  foldl splitRoute (mkRouteLists [] [])
    (mergeRoutes serverInclude serverExclude localInclude localExclude).

(** ** Specification

    The entries of the four groups in order of increasing precedence; the
    route of a destination is its last entry. *)

Definition entries_of (values : list string) (action source : string) (metric : Z)
    : list mergedRoute :=
  omap (λ raw, let d := normalizeDestination raw in
               if d == "" then None else Some (mkMergedRoute d action metric source)) values.

Definition all_entries (si se li le : list string) : list mergedRoute :=
  entries_of si "include" "server" 6 ++ entries_of se "exclude" "server" 5 ++
  entries_of li "include" "local" 4 ++ entries_of le "exclude" "local" 3.

(** Last entry for [d]. *)
Definition last_entry (d : string) (l : list mergedRoute) : option mergedRoute :=
  last (filter (λ e, mr_destination e = d) l).

(** ** The merge refines the specification *)

Section merge.

(** [byDestination] indexes [routes] by destination, exactly. *)
Definition indexed (st : list mergedRoute * gmap string nat) : Prop :=
  ∀ d i, st.2 !! d = Some i ↔ ∃ e, st.1 !! i = Some e ∧ mr_destination e = d.

(** [st] represents the entries [l] read so far. *)
Definition represents (l : list mergedRoute) (st : list mergedRoute * gmap string nat) : Prop :=
  indexed st ∧ ∀ e, e ∈ st.1 ↔ last_entry (mr_destination e) l = Some e.

Lemma last_entry_snoc d l e :
  last_entry d (l ++ [e]) = if decide (mr_destination e = d) then Some e else last_entry d l.
Proof.
  unfold last_entry. rewrite filter_app, filter_cons, filter_nil.
  case_decide; [by rewrite last_snoc|by rewrite app_nil_r].
Qed.

Lemma last_entry_dest d l e : last_entry d l = Some e → mr_destination e = d.
Proof.
  intros H%last_Some_elem_of. by apply list_elem_of_filter in H as [? _].
Qed.

Lemma indexed_lookup st e :
  indexed st → e ∈ st.1 → ∃ i, st.1 !! i = Some e ∧ st.2 !! (mr_destination e) = Some i.
Proof.
  intros Hix [i Hi]%list_elem_of_lookup. exists i. split; [done|]. apply Hix. eauto.
Qed.

Lemma indexed_unique st i j e e' :
  indexed st → st.1 !! i = Some e → st.1 !! j = Some e' →
  mr_destination e = mr_destination e' → i = j.
Proof.
  intros Hix Hi Hj Heq.
  assert (st.2 !! mr_destination e = Some i) by (apply Hix; eauto).
  assert (st.2 !! mr_destination e = Some j) by (apply Hix; eauto). congruence.
Qed.

Lemma represents_update l routes byd d i e :
  represents l (routes, byd) → mr_destination e = d → byd !! d = Some i →
  represents (l ++ [e]) (<[i := e]> routes, byd).
Proof.
  intros [Hix Hl] Hd Hi. destruct (proj1 (Hix d i) Hi) as (old & Hold & Hdest); cbn in *.
  assert (i < length routes)%nat as Hlt by (by eapply lookup_lt_Some).
  assert (∀ j, <[i:=e]> routes !! j = if decide (i = j) then Some e else routes !! j) as Hlk.
  { intros j. case_decide as Hj; [subst j; by apply list_lookup_insert_eq|].
    by apply list_lookup_insert_ne. }
  split.
  - intros d' j; cbn. rewrite Hlk. rewrite (Hix d' j). cbn.
    case_decide as Hj; [|done]. subst j. rewrite Hold.
    split; intros (e' & [= <-] & <-); [exists e|exists old]; by rewrite ?Hd, ?Hdest.
  - intros e'; cbn. rewrite last_entry_snoc. case_decide as He.
    + split; [|intros [= ->]; eapply list_elem_of_lookup_2; by rewrite Hlk, decide_True].
      intros [j Hj]%list_elem_of_lookup. rewrite Hlk in Hj. case_decide as Hij; [done|].
      destruct Hij. symmetry.
      eapply (indexed_unique (routes, byd)); cbn; [done..|]. congruence.
    + rewrite <- Hl. split; intros [j Hj]%list_elem_of_lookup.
      * rewrite Hlk in Hj. case_decide; [congruence|]. by eapply list_elem_of_lookup_2.
      * apply list_elem_of_lookup. exists j. rewrite Hlk.
        case_decide; naive_solver.
Qed.

Lemma represents_extend l routes byd d e :
  represents l (routes, byd) → mr_destination e = d → byd !! d = None →
  represents (l ++ [e]) (routes ++ [e], <[d := length routes]> byd).
Proof.
  intros [Hix Hl] Hd Hn. split.
  - intros d' j; cbn. destruct (decide (d = d')) as [<-|Hne].
    + rewrite lookup_insert_eq. split.
      * intros [= <-]. exists e. by rewrite list_lookup_middle.
      * intros (e' & He' & Hd'). apply lookup_app_Some in He' as [He'|[Hge He']].
        { assert (byd !! d = Some j) by (apply Hix; eauto). congruence. }
        apply list_lookup_singleton_Some in He' as [He' ->]. f_equal. lia.
    + rewrite lookup_insert_ne by done. rewrite (Hix d' j); cbn.
      split; intros (e' & He' & Hd').
      * exists e'. split; [|done]. by apply lookup_app_l_Some.
      * exists e'. split; [|done]. apply lookup_app_Some in He' as [?|[_ He']]; [done|].
        apply list_lookup_singleton_Some in He' as [_ ->]. congruence.
  - intros e'; cbn. rewrite elem_of_app, list_elem_of_singleton, last_entry_snoc.
    case_decide as He.
    + split; [|naive_solver]. intros [Hin| ->]; [|done].
      destruct (indexed_lookup (routes, byd) e' Hix Hin) as (i & _ & Hi). cbn in Hi.
      congruence.
    + rewrite <- Hl. naive_solver.
Qed.

Lemma represents_append l st action source metric raw :
  represents l st →
  represents (l ++ entries_of [raw] action source metric)
    (appendRoute action source metric st raw).
Proof.
  intros H. destruct st as [routes byd]. unfold appendRoute, entries_of; cbn.
  destruct (normalizeDestination raw == "") eqn:E; [by rewrite app_nil_r|].
  destruct (byd !! normalizeDestination raw) as [i|] eqn:Hi.
  - by eapply represents_update.
  - by eapply represents_extend.
Qed.

Lemma represents_appendRoutes l st values action source metric :
  represents l st →
  represents (l ++ entries_of values action source metric)
    (appendRoutes values action source metric st).
Proof.
  revert l st. induction values as [|raw values IH]; intros l st H.
  - unfold entries_of; cbn. by rewrite app_nil_r.
  - unfold entries_of. rewrite (omap_app _ [raw] values), app_assoc.
    apply IH. by apply represents_append.
Qed.

Lemma mergeRoutes_represents si se li le :
  ∃ byd, represents (all_entries si se li le) (mergeRoutes si se li le, byd).
Proof.
  unfold mergeRoutes, all_entries.
  assert (represents [] ([], ∅)) as H.
  { split; [intros d i; cbn; rewrite lookup_empty; naive_solver|].
    intros e; cbn. rewrite elem_of_nil. by split. }
  do 4 (eapply represents_appendRoutes in H).
  cbn [app] in H. rewrite <- !app_assoc in H.
  destruct (appendRoutes le _ _ _ _) as [routes byd] eqn:E. exists byd. cbn. rewrite <- E. exact H.
Qed.
End merge.

Lemma mergeRoutes_spec si se li le e :
  e ∈ mergeRoutes si se li le ↔
  last_entry (mr_destination e) (all_entries si se li le) = Some e.
Proof. destruct (mergeRoutes_represents si se li le) as [byd [_ H]]. apply (H e). Qed.

Lemma mergeRoutes_NoDup si se li le : NoDup (mr_destination <$> mergeRoutes si se li le).
Proof.
  destruct (mergeRoutes_represents si se li le) as [byd [Hix _]].
  apply NoDup_alt. intros i j d Hi Hj.
  apply list_lookup_fmap_Some in Hi as (e & -> & Hi).
  apply list_lookup_fmap_Some in Hj as (e' & Heq & Hj).
  by eapply (indexed_unique (mergeRoutes si se li le, byd)).
Qed.

Lemma mergeRoutes_action si se li le e :
  e ∈ mergeRoutes si se li le → mr_action e = "include" ∨ mr_action e = "exclude".
Proof.
  intros He%mergeRoutes_spec%last_Some_elem_of. apply list_elem_of_filter in He as [_ He].
  unfold all_entries, entries_of in He. rewrite !elem_of_app in He.
  destruct He as [He|[He|[He|He]]]; apply list_elem_of_omap in He as (raw & _ & He);
    case_match; naive_solver.
Qed.

Lemma splitRoute_fold l acc :
  (∀ e, e ∈ l → mr_action e = "include" ∨ mr_action e = "exclude") →
  foldl splitRoute acc l =
  mkRouteLists
    (rl_Include acc ++ (mr_destination <$> filter (λ e, mr_action e = "include") l))
    (rl_Exclude acc ++ (mr_destination <$> filter (λ e, mr_action e = "exclude") l)).
Proof.
  revert acc. induction l as [|e l IH]; intros acc Hact; cbn [foldl].
  - rewrite !filter_nil, !fmap_nil, !app_nil_r. by destruct acc.
  - rewrite IH by (intros; apply Hact; by right). rewrite !filter_cons. unfold splitRoute.
    destruct (Hact e (list_elem_of_here _ _)) as [E|E]; rewrite E; cbn;
      by rewrite <- ?app_assoc.
Qed.

(** *** Reported against installed routes *)

Definition action_of (d : string) (l : list mergedRoute) : option string :=
  mr_action <$> last_entry d l.

Lemma last_entry_app d l k :
  last_entry d (l ++ k) = match last_entry d k with Some e => Some e | None => last_entry d l end.
Proof. unfold last_entry. by rewrite filter_app, last_app. Qed.

Lemma last_entry_entries_of values action source metric d :
  last_entry d (entries_of values action source metric) =
  if decide (d ≠ "" ∧ d ∈ normalizeDestination <$> values)
  then Some (mkMergedRoute d action metric source) else None.
Proof.
  induction values as [|raw values IH] using rev_ind.
  { rewrite decide_False; [done|]. cbn. rewrite elem_of_nil. naive_solver. }
  unfold entries_of. rewrite omap_app, last_entry_app. fold (entries_of values action source metric).
  cbn. destruct (normalizeDestination raw == "") eqn:E.
  - apply eqb_true in E. cbn. rewrite IH. apply decide_ext. rewrite fmap_app; cbn.
    rewrite elem_of_app, list_elem_of_singleton. naive_solver.
  - apply eqb_false in E. unfold last_entry at 1. rewrite filter_cons, filter_nil. cbn.
    destruct (decide (normalizeDestination raw = d)) as [<-|Hne]; cbn.
    + rewrite decide_True; [done|]. split; [done|]. rewrite fmap_app; cbn. set_solver.
    + rewrite IH. apply decide_ext. rewrite fmap_app; cbn.
      rewrite elem_of_app, list_elem_of_singleton. naive_solver.
Qed.

Lemma elem_of_merged_list si se li le a d :
  d ∈ mr_destination <$> filter (λ e, mr_action e = a) (mergeRoutes si se li le) ↔
  action_of d (all_entries si se li le) = Some a.
Proof.
  unfold action_of. rewrite list_elem_of_fmap, fmap_Some.
  setoid_rewrite list_elem_of_filter. setoid_rewrite mergeRoutes_spec. split.
  - intros (e & -> & <- & He). eauto.
  - intros (e & He & ->). pose proof (last_entry_dest _ _ _ He) as <-. eauto.
Qed.

Lemma MergeRouteLists_eq si se li le :
  MergeRouteLists si se li le =
  mkRouteLists
    (mr_destination <$> filter (λ e, mr_action e = "include") (mergeRoutes si se li le))
    (mr_destination <$> filter (λ e, mr_action e = "exclude") (mergeRoutes si se li le)).
Proof. apply splitRoute_fold, mergeRoutes_action. Qed.

Lemma action_of_cases si se li le d :
  action_of d (all_entries si se li le) = None ∨
  action_of d (all_entries si se li le) = Some "include" ∨
  action_of d (all_entries si se li le) = Some "exclude".
Proof.
  unfold action_of, all_entries. rewrite !last_entry_app, !last_entry_entries_of.
  repeat case_decide; cbn; auto.
Qed.

(** Normalizing again changes nothing. *)
Definition stable (raw : string) : Prop :=
  normalizeDestination (normalizeDestination raw) = normalizeDestination raw.

Lemma action_of_dest_stable si se li le d a :
  Forall stable (si ++ se ++ li ++ le) →
  action_of d (all_entries si se li le) = Some a → d ≠ "" ∧ normalizeDestination d = d.
Proof.
  rewrite Forall_forall. intros Hst.
  assert (∀ values, values ⊆ si ++ se ++ li ++ le → d ∈ normalizeDestination <$> values →
    normalizeDestination d = d) as Hd.
  { intros values Hsub (raw & -> & Hraw)%list_elem_of_fmap. apply Hst, Hsub, Hraw. }
  unfold action_of, all_entries. rewrite !last_entry_app, !last_entry_entries_of.
  intros Ha.
  assert (∃ values, values ⊆ si ++ se ++ li ++ le ∧ d ≠ "" ∧
    d ∈ normalizeDestination <$> values) as (values & Hsub & Hne & Hin); [|eauto].
  repeat (case_decide as H; [eexists; split; [|exact H]; set_solver|clear H]).
  by cbn in Ha.
Qed.

(** Merging the merged lists with the same local lists decides every
    destination the same way. *)
Lemma action_of_remerge si se li le d :
  Forall stable (si ++ se ++ li ++ le) →
  let m := MergeRouteLists si se li le in
  action_of d (all_entries (rl_Include m) (rl_Exclude m) li le) =
  action_of d (all_entries si se li le).
Proof.
  intros Hst m. subst m. rewrite MergeRouteLists_eq. cbn [rl_Include rl_Exclude].
  set (inc := mr_destination <$> _). set (exc := mr_destination <$> filter _ _ ).
  assert (∀ a (l : list string), (∀ x, x ∈ l ↔ action_of x (all_entries si se li le) = Some a) →
    (d ≠ "" ∧ d ∈ normalizeDestination <$> l) ↔
    action_of d (all_entries si se li le) = Some a) as Hin.
  { intros a l Hl. rewrite list_elem_of_fmap. split.
    - intros (Hne & x & -> & Hx). apply Hl in Hx.
      by destruct (action_of_dest_stable _ _ _ _ _ _ Hst Hx) as [_ ->].
    - intros Ha. destruct (action_of_dest_stable _ _ _ _ _ _ Hst Ha) as [Hne Heq].
      split; [done|]. exists d. split; [done|]. by apply Hl. }
  pose proof (Hin "include" inc (elem_of_merged_list _ _ _ _ _)) as Hinc.
  pose proof (Hin "exclude" exc (elem_of_merged_list _ _ _ _ _)) as Hexc.
  destruct (action_of_cases si se li le d) as [Hc|[Hc|Hc]]; rewrite Hc in *;
    revert Hc; unfold action_of, all_entries; rewrite !last_entry_app, !last_entry_entries_of;
    repeat case_decide; cbn; naive_solver.
Qed.

(** ** Properties *)

(** C12: the routes the daemon reports are the routes installed on the host.  The
    tunnel installs [MergeRouteLists] of the server's and the profile's routes;
    the daemon later plans from the lists of that session.  When normalizing a
    listed route twice is the same as normalizing it once, the reported
    destinations with each action are exactly the installed ones. *)
Theorem reported_routes_are_installed si se profile d a :
  let accept := pr_AcceptServerRoutes profile in
  let installed := MergeRouteLists (if accept then si else []) (if accept then se else [])
                     (pr_CustomInclude profile) (pr_CustomExclude profile) in
  Forall stable (si ++ se ++ pr_CustomInclude profile ++ pr_CustomExclude profile) →
  (∃ r, r ∈ Plan (rl_Include installed) (rl_Exclude installed) profile ∧
        rs_Destination r = d ∧ rs_Action r = a) ↔
  (a = "include" ∧ d ∈ rl_Include installed) ∨ (a = "exclude" ∧ d ∈ rl_Exclude installed).
Proof.
  cbv zeta. intros Hst. set (li := pr_CustomInclude profile) in *.
  set (le := pr_CustomExclude profile) in *.
  set (si' := if pr_AcceptServerRoutes profile then si else []).
  set (se' := if pr_AcceptServerRoutes profile then se else []).
  assert (Forall stable (si' ++ se' ++ li ++ le)) as Hst'.
  { rewrite Forall_forall in *. intros x Hx. apply Hst. subst si' se'.
    destruct (pr_AcceptServerRoutes profile); set_solver. }
  set (m := MergeRouteLists si' se' li le).
  trans (action_of d (all_entries si' se' li le) = Some a).
  - unfold Plan. fold li le. subst m si' se'.
    destruct (pr_AcceptServerRoutes profile); cbn [negb];
      [rewrite <- (action_of_remerge _ _ _ _ d Hst')|];
      rewrite <- elem_of_merged_list, list_elem_of_fmap; setoid_rewrite list_elem_of_fmap;
      setoid_rewrite list_elem_of_filter; naive_solver.
  - subst m. rewrite MergeRouteLists_eq; cbn. rewrite !elem_of_merged_list.
    destruct (action_of_cases si' se' li le d) as [H|[H|H]]; rewrite H; naive_solver.
Qed.

Lemma reported_routes_are_installed_witness :
  let installed := MergeRouteLists ["10.9.0.0/16"; "10.2.0.1"] [] ["10.1.0.0/16"] ["10.9.0.0/16"] in
  let p := zero_profile <| pr_AcceptServerRoutes := true |>
    <| pr_CustomInclude := ["10.1.0.0/16"] |> <| pr_CustomExclude := ["10.9.0.0/16"] |> in
  (∃ r, r ∈ Plan (rl_Include installed) (rl_Exclude installed) p ∧
        rs_Destination r = "10.2.0.1/32" ∧ rs_Action r = "include").
Proof.
  intros installed p.
  apply (reported_routes_are_installed ["10.9.0.0/16"; "10.2.0.1"] [] p "10.2.0.1/32" "include").
  - apply (bool_decide_unpack _). vm_compute. exact I.
  - left. split; [reflexivity|]. apply list_elem_of_In. vm_compute. auto.
Defined.

(** A route given as address/netmask keeps its host bits, so it is not stable:
    the same network is then both included and excluded. *)
Theorem netmask_route_not_canonical :
  normalizeDestination "10.1.2.3/255.255.0.0" = "10.1.2.3/16" ∧
  normalizeDestination "10.1.2.3/16" = "10.1.0.0/16" ∧
  ¬ stable "10.1.2.3/255.255.0.0" ∧
  MergeRouteLists [] ["10.1.2.3/255.255.0.0"] ["10.1.0.0/16"] [] =
    mkRouteLists ["10.1.0.0/16"] ["10.1.2.3/16"] ∧
  (Masked <$> netip_ParsePrefix "10.1.2.3/16") = netip_ParsePrefix "10.1.0.0/16".
Proof. split_and!; try (vm_compute; reflexivity). by vm_compute. Qed.

(** C14: the planned routes of a profile are, for every destination, exactly the
    last entry among server includes, server excludes, local includes and local
    excludes (server entries only if the profile accepts them), and no
    destination is planned twice. *)
Theorem Plan_refines_last_wins si se profile :
  let accept := pr_AcceptServerRoutes profile in
  let entries := all_entries (if accept then si else []) (if accept then se else [])
                   (pr_CustomInclude profile) (pr_CustomExclude profile) in
  NoDup (rs_Destination <$> Plan si se profile) ∧
  ∀ r, r ∈ Plan si se profile ↔
    ∃ e, last_entry (mr_destination e) entries = Some e ∧
         r = mkRouteSpec (mr_destination e) (mr_action e) (mr_metric e) (mr_source e) true.
Proof.
  cbn. unfold Plan. destruct (pr_AcceptServerRoutes profile); cbn.
  all: split; [rewrite <- list_fmap_compose; apply mergeRoutes_NoDup|].
  all: intros r; rewrite list_elem_of_fmap; setoid_rewrite mergeRoutes_spec; naive_solver.
Qed.

(** The routes installed by the network manager are the routes reported to
    clients: for a profile that accepts server routes, the include and exclude
    lists of [MergeRouteLists] are the destinations [Plan] reports with those
    actions, in order. *)
Theorem MergeRouteLists_agrees_with_Plan si se profile :
  pr_AcceptServerRoutes profile = true →
  MergeRouteLists si se (pr_CustomInclude profile) (pr_CustomExclude profile) =
  mkRouteLists
    (rs_Destination <$> filter (λ r, rs_Action r = "include") (Plan si se profile))
    (rs_Destination <$> filter (λ r, rs_Action r = "exclude") (Plan si se profile)).
Proof.
  intros Ha. unfold MergeRouteLists, Plan. rewrite Ha; cbn.
  rewrite splitRoute_fold by apply mergeRoutes_action; cbn.
  rewrite !list_filter_fmap, <- !list_fmap_compose. done.
Qed.

Definition demo_profile : Profile :=
  zero_profile <| pr_AcceptServerRoutes := true |>
    <| pr_CustomInclude := ["10.1.0.0/16"] |> <| pr_CustomExclude := ["10.9.0.0/255.255.0.0"] |>.

Lemma MergeRouteLists_agrees_with_Plan_witness :
  MergeRouteLists ["10.9.0.0/16"; "10.2.0.1"] ["10.1.0.0/16"]
    (pr_CustomInclude demo_profile) (pr_CustomExclude demo_profile) =
  mkRouteLists ["10.2.0.1/32"; "10.1.0.0/16"] ["10.9.0.0/16"].
Proof.
  rewrite (MergeRouteLists_agrees_with_Plan _ _ demo_profile); [|reflexivity].
  vm_compute. reflexivity.
Defined.

(** A destination the user lists as excluded is never planned as included,
    whatever the server announces and whatever the include list says. *)
Theorem Plan_local_exclude_wins si se profile raw r :
  raw ∈ pr_CustomExclude profile → normalizeDestination raw ≠ "" →
  r ∈ Plan si se profile → rs_Destination r = normalizeDestination raw →
  rs_Action r = "exclude" ∧ rs_Source r = "local" ∧ rs_Metric r = 3.
Proof.
  intros Hraw Hne Hr Hd.
  assert (∃ si' se', r ∈ (λ route, mkRouteSpec (mr_destination route) (mr_action route)
    (mr_metric route) (mr_source route) true) <$>
    mergeRoutes si' se' (pr_CustomInclude profile) (pr_CustomExclude profile))
    as (si' & se' & Hin).
  { revert Hr. unfold Plan. destruct (negb _); eauto. }
  apply list_elem_of_fmap in Hin as (e & -> & He%mergeRoutes_spec). cbn in *.
  assert (∃ e', last_entry (mr_destination e)
    (entries_of (pr_CustomExclude profile) "exclude" "local" 3) = Some e') as [e' He'].
  { apply last_is_Some. intros Hnil.
    assert (mkMergedRoute (normalizeDestination raw) "exclude" 3 "local" ∈
      filter (λ x, mr_destination x = mr_destination e)
        (entries_of (pr_CustomExclude profile) "exclude" "local" 3)) as Hm.
    { apply list_elem_of_filter. split; [done|]. apply list_elem_of_omap.
      exists raw. split; [done|]. cbn.
      destruct (normalizeDestination raw == "") eqn:E; [by apply eqb_true in E|done]. }
    rewrite Hnil in Hm. by apply elem_of_nil in Hm. }
  assert (e = e') as ->.
  { unfold last_entry, all_entries in *. rewrite !filter_app, !last_app, He' in He. congruence. }
  apply last_Some_elem_of, list_elem_of_filter in He' as [_ He'].
  apply list_elem_of_omap in He' as (x & _ & Hx). cbn in Hx.
  destruct (normalizeDestination x == ""); [done|]. by simplify_eq.
Qed.

Lemma Plan_local_exclude_wins_witness :
  let r := mkRouteSpec "10.9.0.0/16" "exclude" 3 "local" true in
  r ∈ Plan ["10.9.0.0/16"] [] demo_profile ∧ rs_Action r = "exclude".
Proof.
  intros r. assert (r ∈ Plan ["10.9.0.0/16"] [] demo_profile) as Hr.
  { apply list_elem_of_In. vm_compute. auto. }
  split; [exact Hr|].
  eapply (Plan_local_exclude_wins ["10.9.0.0/16"] [] demo_profile "10.9.0.0/255.255.0.0" r);
    [|intros H; vm_compute in H; discriminate H|exact Hr|vm_compute; reflexivity].
  apply list_elem_of_In. vm_compute. auto.
Defined.
