(* ===== verification/LinuxNet.v ===== *)
(** * The Linux network manager
    (src/internal/osnet/manager_linux.go, dns_selection.go and the platform
    half of journal_recover_linux.go)

    The manager owns five groups of routes, the VPN address and the DNS
    settings of one TUN device.  The kernel (netlink), systemd-resolved,
    NetworkManager and resolvconf are other programs: [Kernel] is the interface
    the code calls, [KernelLaws] what it documents.  A call succeeds, fails, or
    is where the daemon dies ([Crashed]).

    The results are stated on the kernel's routes: which of them the manager
    may have put there at any moment, and which of them it takes back. *)

From S2P Require Import Prelude GoStrings NetIP OsNet.

Open Scope go_scope.
Open Scope Z_scope.

(** ** The kernel *)

(** The fields of netlink.Route the code sets and compares. *)
Record Route := mkRoute {
  rt_LinkIndex : Z;
  rt_Dst : Prefix;
  rt_Gw : option Addr;
  rt_Priority : Z;
}.
#[export] Instance Route_eq_dec : EqDecision Route.
Proof. solve_decision. Defined.
#[export] Instance Route_countable : Countable Route.
Proof.
  apply (inj_countable' (λ r, (rt_LinkIndex r, rt_Dst r, rt_Gw r, rt_Priority r))
    (λ '(l, d, g, p), mkRoute l d g p)).
  by intros [].
Defined.

(** The values of a NetworkManager connection that the code reads or sets. *)
Inductive Variant := VBool (b : bool) | VDnsData (addresses : list string) | VOther (value : string).
Notation Settings := (gmap string (gmap string Variant)).

(** A link is known by its index. *)
Class Kernel (K : Type) := {
  LinkByName : string → M K Z;
  LinkByIndex : Z → M K Z;
  LinkSetUp : Z → M K ();
  LinkSetMulticastOff : Z → M K ();
  LinkSetMTU : Z → Z → M K ();
  netlink_ParseAddr : string → error + Prefix;
  Addr_Equal : Prefix → Prefix → bool;
  AddrList : Z → M K (list Prefix);
  AddrAdd : Z → Prefix → M K ();
  AddrDel : Z → Prefix → M K ();
  ParseIPNet : string → error + Prefix;
  RouteAdd : Route → M K ();
  RouteDel : Route → M K ();
  RouteListFiltered : Prefix → Z → M K (list Route);
  SystemBus : M K ();
  SetLinkDNS : Z → list Addr → M K ();
  SetLinkDomains : Z → M K ();
  RevertLink : Z → M K ();
  GetDeviceByIpIface : string → M K string;
  ObjectPath_IsValid : string → bool;
  GetAppliedConnection : string → M K (Settings * Z);
  Reapply : string → Settings → Z → M K ();
  LookPath_resolvconf : M K (option string);
  resolvconf_add : string → list Addr → M K ();
  resolvconf_delete : string → M K ();
  (* what a look at the system shows *)
  routes : K → gset Route;
  link_index : K → string → option Z;
}.

(** An IPv4 prefix without host bits. *)
Definition v4_prefix (p : Prefix) : Prop :=
  ∃ v b, 0 ≤ v < 2 ^ 32 ∧ 0 ≤ b ≤ 32 ∧ p = prefix4 v b ∧ Masked p = p.

Section quiet.
Context {K : Type} `{Kernel K}.

(** A call that changes neither the routes nor the links. *)
Definition same_net (k k' : K) : Prop := routes k' = routes k ∧ link_index k' = link_index k.
Definition quiet {A} (m : M K A) : Prop := ∀ k, wp m (λ _, same_net k) k.
End quiet.

Class KernelLaws (K : Type) `{Kernel K} := {
  law_LinkByName name k : wp (LinkByName name) (λ o k', same_net k k' ∧
    match o with
    | Done l => link_index k name = Some l
    | Failed _ => link_index k name = None
    | Crashed => True
    end) k;
  law_LinkByIndex i k : wp (LinkByIndex i) (λ o k', same_net k k' ∧
    match o with Done l => l = i | _ => True end) k;
  law_quiet : (∀ l, quiet (LinkSetUp l)) ∧ (∀ l, quiet (LinkSetMulticastOff l)) ∧
    (∀ l mtu, quiet (LinkSetMTU l mtu)) ∧ (∀ l, quiet (AddrList l)) ∧
    (∀ l a, quiet (AddrAdd l a)) ∧ (∀ l a, quiet (AddrDel l a));
  law_quiet_dns : quiet SystemBus ∧ (∀ l s, quiet (SetLinkDNS l s)) ∧ (∀ l, quiet (SetLinkDomains l)) ∧
    (∀ l, quiet (RevertLink l)) ∧ (∀ n, quiet (GetDeviceByIpIface n)) ∧
    (∀ d, quiet (GetAppliedConnection d)) ∧ (∀ d s v, quiet (Reapply d s v)) ∧
    quiet LookPath_resolvconf ∧ (∀ n s, quiet (resolvconf_add n s)) ∧ (∀ n, quiet (resolvconf_delete n));
  law_ParseIPNet p : v4_prefix p → ParseIPNet (prefix_string p) = inr p;
  law_RouteAdd r k : wp (RouteAdd r) (λ o k', link_index k' = link_index k ∧
    match o with
    | Done _ => routes k' = {[r]} ∪ routes k
    | Failed _ => routes k' = routes k
    | Crashed => routes k' = routes k ∨ routes k' = {[r]} ∪ routes k
    end) k;
  law_RouteDel r k : wp (RouteDel r) (λ o k', link_index k' = link_index k ∧
    match o with
    | Done _ => routes k' = routes k ∖ {[r]}
    | Failed e => routes k' = routes k ∧ (errors_is e NotExist = true → r ∉ routes k)
    | Crashed => routes k' = routes k ∨ routes k' = routes k ∖ {[r]}
    end) k;
  (* FAMILY_V4: the list is complete for an IPv4 destination *)
  law_RouteList dst l k : v4_prefix dst → wp (RouteListFiltered dst l) (λ o k', same_net k k' ∧
    match o with
    | Done rs => (∀ r, r ∈ rs → rt_Dst r = dst ∧ rt_LinkIndex r = l) ∧
                 (∀ r, r ∈ routes k → rt_Dst r = dst → rt_LinkIndex r = l → r ∈ rs)
    | _ => True
    end) k;
}.

(** ** Deleting a route *)

Section routeDel.
Context {K : Type} `{Kernel K}.

(** The routes of the list that the loop does not skip. *)
Definition selected (gateway : option Addr) (priority : Z) (route : Route) : bool :=
  if (0 <? priority) && negb (rt_Priority route =? priority) then false
  else
    match gateway with
    | None => match rt_Gw route with Some gw => IsUnspecified gw | None => true end
    | Some gateway => match rt_Gw route with
                      | None => false
                      | Some gw => bool_decide (Unmap gw = Unmap gateway)
                      end
    end.

Fixpoint delete_selected (gateway : option Addr) (priority : Z) (rs : list Route) : M K () :=
  match rs with
  | [] => mret ()
  | route :: rs =>
      if negb (selected gateway priority route) then delete_selected gateway priority rs
      else
        r ← try (RouteDel route);
        match r with
        | inl err => if negb (errors_is err NotExist) then fail err else delete_selected gateway priority rs
        | inr _ => delete_selected gateway priority rs
        end
  end.

Definition routeDel (prefix : Prefix) (link : option Z) (gateway : option Addr) (priority : Z) : M K () :=
  match link with
  | None => fail (ErrText ("missing link for route cleanup " +:+ prefix_string prefix))
  | Some l =>
      match ParseIPNet (prefix_string prefix) with
      | inl err => fail err
      | inr dst => rs ← RouteListFiltered dst l; delete_selected gateway priority rs
      end
  end.
End routeDel.

(** ** The manager's state *)

Inductive Group := GServer | GInclude | GExclude | GDynamicInclude | GDynamicExclude.
#[export] Instance Group_eq_dec : EqDecision Group.
Proof. solve_decision. Defined.

(** The maps from prefixes to [true] are sets. *)
Record platformManager := mkPlatformManager {
  pm_name : string;
  pm_link : option Z;
  pm_localLink : option Z;
  pm_gateway : option Addr;
  pm_serverRoutes : gset Prefix;
  pm_includeRoutes : gset Prefix;
  pm_excludeRoutes : gset Prefix;
  pm_dynamicInclude : gset Prefix;
  pm_dynamicExclude : gset Prefix;
  pm_dnsBackend : string;
  pm_nmDevice : string;
  pm_nmOriginal : option Settings;
  pm_vpnAddress : option Prefix;
  pm_vpnAddressOwned : bool;
}.
#[export] Instance platformManager_eta : Eta platformManager := λ r,
  mkPlatformManager (pm_name r) (pm_link r) (pm_localLink r) (pm_gateway r) (pm_serverRoutes r)
    (pm_includeRoutes r) (pm_excludeRoutes r) (pm_dynamicInclude r) (pm_dynamicExclude r)
    (pm_dnsBackend r) (pm_nmDevice r) (pm_nmOriginal r) (pm_vpnAddress r) (pm_vpnAddressOwned r).

Definition newPlatformManager (name : string) : platformManager :=
  mkPlatformManager name None None None ∅ ∅ ∅ ∅ ∅ "" "" None None false.

(** [&m.serverRoutes] and its siblings: reading and writing through the
    pointer. *)
Definition owned_in (g : Group) (m : platformManager) : gset Prefix :=
  match g with
  | GServer => pm_serverRoutes m
  | GInclude => pm_includeRoutes m
  | GExclude => pm_excludeRoutes m
  | GDynamicInclude => pm_dynamicInclude m
  | GDynamicExclude => pm_dynamicExclude m
  end.
Definition set_owned (g : Group) (s : gset Prefix) (m : platformManager) : platformManager :=
  match g with
  | GServer => m <| pm_serverRoutes := s |>
  | GInclude => m <| pm_includeRoutes := s |>
  | GExclude => m <| pm_excludeRoutes := s |>
  | GDynamicInclude => m <| pm_dynamicInclude := s |>
  | GDynamicExclude => m <| pm_dynamicExclude := s |>
  end.

Record NetW (K : Type) := mkNetW { nw_k : K; nw_m : platformManager }.
Arguments mkNetW {K} _ _.
Arguments nw_k {K} _.
Arguments nw_m {K} _.
#[export] Instance NetW_eta K : Eta (NetW K) := λ r, mkNetW (nw_k r) (nw_m r).

Definition addrsToHostPrefixes (addrs : list Addr) : list Prefix :=
  (λ a, let addr := Unmap a in PrefixFrom addr (BitLen addr)) <$> addrs.

(** osnet.chooseDNSBackend: the first attempt that succeeds. *)
Fixpoint try_backends {W} (attempts : list (string * M W ())) (errs : option error) : M W (error + string) :=
  match attempts with
  | [] => mret (inl (match errs with Some e => e | None => ErrText "" end))
  | (name, set) :: attempts =>
      r ← try set;
      match r with
      | inr _ => mret (inr name)
      | inl err =>
          let err := ErrWrap (name +:+ ": ") err "" in
          try_backends attempts (Some (match errs with Some e => ErrJoin e err | None => err end))
      end
  end.
Definition chooseDNSBackend {W} (attempts : list (string * M W ())) : M W (error + string) :=
  try_backends attempts None.

Section manager.
Context {K : Type} `{Kernel K}.
Notation NetM := (M (NetW K)).

Definition kernel {A} (call : M K A) : NetM A := λ w,
  let '(k, o) := call (nw_k w) in (w <| nw_k := k |>, o).
Definition self {A} (f : platformManager → A) : NetM A := read (λ w, f (nw_m w)).
Definition assign (f : platformManager → platformManager) : NetM () := modify (λ w, w <| nw_m ::= f |>).

Definition Up : NetM () :=
  name ← self pm_name;
  link ← kernel (LinkByName name);
  _ ← assign (λ m, m <| pm_link := Some link |>);
  _ ← kernel (LinkSetUp link);
  _ ← try (kernel (LinkSetMulticastOff link));
  mret ().

(** ** Routes *)

(** The loops of [syncRoutes]; [owned] is what is installed so far, stored
    back when a call fails. *)
Fixpoint add_routes (g : Group) (link : Z) (gw : option Addr) (priority : Z) (add : list Prefix)
    (owned : gset Prefix) : NetM (gset Prefix) :=
  match add with
  | [] => mret owned
  | prefix :: add =>
      match ParseIPNet (prefix_string prefix) with
      | inl err => fail err
      | inr dst =>
          r ← try (kernel (RouteAdd (mkRoute link dst gw priority)));
          match r with
          | inl err => _ ← assign (set_owned g owned); fail err
          | inr _ => add_routes g link gw priority add ({[prefix]} ∪ owned)
          end
      end
  end.

Fixpoint del_routes (g : Group) (link : Z) (gw : option Addr) (priority : Z) (del : list Prefix)
    (owned : gset Prefix) : NetM () :=
  match del with
  | [] => mret ()
  | prefix :: del =>
      r ← try (kernel (routeDel prefix (Some link) gw priority));
      match r with
      | inl err => _ ← assign (set_owned g owned); fail err
      | inr _ => del_routes g link gw priority del (owned ∖ {[prefix]})
      end
  end.

Definition syncRoutes (g : Group) (next : list Prefix) (link : option Z) (gw : option Addr) (priority : Z) : NetM () :=
  match link with
  | None => mret ()
  | Some link =>
      old ← self (owned_in g);
      let '(add, del, state) := DiffPrefixes old next in
      owned ← add_routes g link gw priority add old;
      _ ← del_routes g link gw priority del owned;
      assign (set_owned g state)
  end.

(** ** The VPN address *)

Definition deleteExactAddress (link : option Z) (owned : option Prefix) : NetM () :=
  match link, owned with
  | Some link, Some owned =>
      addresses ← kernel (AddrList link);
      match List.find (λ a, Addr_Equal a owned) addresses with
      | Some a => kernel (AddrDel link a)
      | None => mret ()
      end
  | _, _ => mret ()
  end.

Definition setVPNAddress (link : Z) (addr : Prefix) : NetM () :=
  owned ← self pm_vpnAddressOwned;
  current ← self pm_vpnAddress;
  let mine := if owned : bool then current else None in
  if match mine with Some a => Addr_Equal a addr | None => false end then mret () else
  _ ← match mine with
      | None => mret ()
      | Some a =>
          _ ← deleteExactAddress (Some link) (Some a);
          assign (λ m, m <| pm_vpnAddressOwned := false |>)
      end;
  addresses ← kernel (AddrList link);
  if existsb (λ a, Addr_Equal a addr) addresses then assign (λ m, m <| pm_vpnAddress := Some addr |>) else
  _ ← wrap (λ e, ErrWrap ("add VPN address " +:+ prefix_string addr +:+ ": ") e "") (kernel (AddrAdd link addr));
  _ ← assign (λ m, m <| pm_vpnAddress := Some addr |>);
  assign (λ m, m <| pm_vpnAddressOwned := true |>).

(** ** DNS *)

Definition setResolvedDNS (servers : list Addr) : NetM () :=
  link ← self pm_link;
  match link with
  | None => fail (ErrText "missing link for DNS")
  | Some link =>
      _ ← kernel SystemBus;
      _ ← kernel (SetLinkDNS link servers);
      r ← try (kernel (SetLinkDomains link));
      match r with
      | inl err => _ ← try (kernel (RevertLink link)); fail err
      | inr _ => mret ()
      end
  end.

Definition setNetworkManagerDNS (servers : list Addr) : NetM () :=
  _ ← kernel SystemBus;
  name ← self pm_name;
  device ← kernel (GetDeviceByIpIface name);
  _ ← fail_if (negb (ObjectPath_IsValid device)) (ErrText "NetworkManager returned an invalid device path");
  '(settings, version) ← kernel (GetAppliedConnection device);
  let ipv4 := match settings !! "ipv4" with Some m => m | None => ∅ end in
  match List.find (λ s, negb (Is4 (Unmap s))) servers with
  | Some s => fail (ErrText ("NetworkManager DNS only supports IPv4 addresses: " +:+ addr_string s))
  | None =>
      let dnsData := VDnsData ((λ s, addr_string (Unmap s)) <$> servers) in
      let ipv4 := <["dns-data" := dnsData]> (<["ignore-auto-dns" := VBool true]> ipv4) in
      _ ← kernel (Reapply device (<["ipv4" := ipv4]> settings) version);
      assign (λ m, m <| pm_nmDevice := device |> <| pm_nmOriginal := Some settings |>)
  end.

Definition restoreDNS : NetM () :=
  backend ← self pm_dnsBackend;
  if backend == "" then mret ()
  else if backend == "systemd-resolved" then
    _ ← kernel SystemBus;
    link ← self pm_link;
    match link with
    | None => fail (ErrText "missing link for DNS cleanup")
    | Some link => _ ← kernel (RevertLink link); assign (λ m, m <| pm_dnsBackend := "" |>)
    end
  else if backend == "resolvconf" then
    path ← kernel LookPath_resolvconf;
    match path with
    | None => fail (ErrText "resolvconf: executable file not found")
    | Some _ =>
        name ← self pm_name;
        _ ← wrap (λ e, ErrWrap "resolvconf delete failed: " e "") (kernel (resolvconf_delete ("flexconnect." +:+ name)));
        assign (λ m, m <| pm_dnsBackend := "" |>)
    end
  else if backend == "network-manager" then
    device ← self pm_nmDevice;
    original ← self pm_nmOriginal;
    match original with
    | Some original =>
        if negb (ObjectPath_IsValid device) then fail (ErrText "missing NetworkManager DNS ownership state") else
        _ ← kernel SystemBus;
        _ ← kernel (Reapply device original 0);
        assign (λ m, m <| pm_dnsBackend := "" |> <| pm_nmDevice := "" |> <| pm_nmOriginal := None |>)
    | None => fail (ErrText "missing NetworkManager DNS ownership state")
    end
  else fail (ErrText ("unknown DNS backend " +:+ quote backend)).

Definition setDNS (servers : list Addr) : NetM () :=
  if (length servers =? 0)%nat then restoreDNS else
  path ← kernel LookPath_resolvconf;
  name ← self pm_name;
  r ← chooseDNSBackend
        ([("systemd-resolved", setResolvedDNS servers); ("network-manager", setNetworkManagerDNS servers)] ++
         match path with
         | None => []
         | Some _ => [("resolvconf", wrap (λ e, ErrWrap "resolvconf add failed: " e "")
                                       (kernel (resolvconf_add ("flexconnect." +:+ name) servers)))]
         end);
  match r with
  | inl err => fail (ErrWrap "no supported Linux DNS owner succeeded: " err "")
  | inr backend => assign (λ m, m <| pm_dnsBackend := backend |>)
  end.

(** ** The operations *)

(** One entry of the [groups] table in [Close]. *)
Definition site (m : platformManager) (g : Group) : option Z * option Addr * Z :=
  match g with
  | GServer | GExclude | GDynamicExclude => (pm_localLink m, pm_gateway m, 5)
  | GInclude | GDynamicInclude => (pm_link m, None, 6)
  end.

(** The first error is kept, the rest of the cleanup goes on. *)
Definition keep_first (first : option error) (m : NetM ()) : NetM (option error) :=
  r ← try m;
  mret (match first, r with None, inl err => Some err | _, _ => first end).

Fixpoint close_prefixes (link : option Z) (gw : option Addr) (priority : Z) (prefixes : list Prefix)
    (first : option error) : NetM (option error) :=
  match prefixes with
  | [] => mret first
  | prefix :: prefixes =>
      first ← keep_first first (kernel (routeDel prefix link gw priority));
      close_prefixes link gw priority prefixes first
  end.

Fixpoint close_groups (groups : list Group) (first : option error) : NetM (option error) :=
  match groups with
  | [] => mret first
  | g :: groups =>
      m ← self id;
      let '(link, gw, priority) := site m g in
      first ← close_prefixes link gw priority (elements (owned_in g m)) first;
      _ ← assign (set_owned g ∅);
      close_groups groups first
  end.

Definition pm_Close : NetM () :=
  first ← close_groups [GServer; GInclude; GExclude; GDynamicInclude; GDynamicExclude] None;
  first ← keep_first first restoreDNS;
  m ← self id;
  first ← match pm_vpnAddressOwned m, pm_vpnAddress m with
          | true, Some a => keep_first first (deleteExactAddress (pm_link m) (Some a))
          | _, _ => mret first
          end;
  _ ← assign (λ m, m <| pm_vpnAddress := None |> <| pm_vpnAddressOwned := false |>);
  match first with Some err => fail err | None => mret () end.

Definition server_prefixes (cfg : Config) : list Prefix :=
  if IsValid (cfg_ServerAddress cfg)
  then [PrefixFrom (cfg_ServerAddress cfg) (BitLen (cfg_ServerAddress cfg))] else [].

(** The physical link and gateway of a configuration. *)
Definition set_underlay (cfg : Config) : NetM () :=
  _ ← assign (λ m, m <| pm_localLink := None |>);
  _ ← when (negb (cfg_GatewayInterfaceIndex cfg =? 0))
        (local ← wrap (λ e, ErrWrap ("resolve physical gateway interface " +:+ Itoa (cfg_GatewayInterfaceIndex cfg) +:+ ": ") e "")
                   (kernel (LinkByIndex (cfg_GatewayInterfaceIndex cfg)));
         assign (λ m, m <| pm_localLink := Some local |>));
  when (IsValid (cfg_Gateway cfg))
    (assign (λ m, m <| pm_gateway := ParseIP (addr_string (cfg_Gateway cfg)) |>)).

Definition pm_Set (cfg : option Config) : NetM () :=
  match cfg with
  | None => pm_Close
  | Some cfg =>
    if negb (pfx_valid (cfg_VPNAddress cfg)) then pm_Close else
    link ← self pm_link;
    _ ← match link with None => Up | Some _ => mret () end;
    link ← self pm_link;
    match link with
    | None => λ w, (w, Crashed)                              (* nil dereference *)
    | Some link =>
      _ ← when (0 <? cfg_MTU cfg) (kernel (LinkSetMTU link (cfg_MTU cfg)));
      match netlink_ParseAddr (prefix_string (cfg_VPNAddress cfg)) with
      | inl err => fail err
      | inr addr =>
        _ ← setVPNAddress link addr;
        _ ← set_underlay cfg;
        m ← self id;
        _ ← fail_if (IsValid (cfg_ServerAddress cfg) &&
                     (bool_decide (pm_localLink m = None) || bool_decide (pm_gateway m = None) ||
                      bool_decide (pm_localLink m = Some link)))
              (ErrText "missing physical underlay for VPN server route");
        let server := server_prefixes cfg in
        _ ← syncRoutes GServer server (pm_localLink m) (pm_gateway m) 5;
        _ ← syncRoutes GInclude (cfg_IncludeRoutes cfg) (Some link) None 6;
        _ ← syncRoutes GExclude (withoutPrefixes (cfg_ExcludeRoutes cfg) server) (pm_localLink m) (pm_gateway m) 5;
        setDNS (cfg_DNSServers cfg)
      end
    end
  end.

Definition pm_SetDynamicRoutes (r : DynamicRoutes) : NetM () :=
  m ← self id;
  _ ← syncRoutes GDynamicInclude (addrsToHostPrefixes (dyn_Include r)) (pm_link m) None 6;
  syncRoutes GDynamicExclude (addrsToHostPrefixes (dyn_Exclude r)) (pm_localLink m) (pm_gateway m) 5.
End manager.

(** ** Which routes the manager accounts for *)

(** A route at a site, with a destination of the set. *)
Definition held (s : option Z * option Addr * Z) (prefixes : gset Prefix) (r : Route) : Prop :=
  s.1.1 = Some (rt_LinkIndex r) ∧ rt_Gw r = s.1.2 ∧ rt_Priority r = s.2 ∧ rt_Dst r ∈ prefixes.

Lemma held_mono s P P' r : held s P r → P ⊆ P' → held s P' r.
Proof. intros (? & ? & ? & ?) HP. split_and!; set_solver. Qed.

Lemma held_selected s P r : 0 < s.2 → held s P r → selected s.1.2 s.2 r = true.
Proof.
  intros Hp (_ & Hg & Hpr & _). unfold selected. rewrite Hpr, Z.eqb_refl, andb_false_r, Hg.
  destruct s.1.2; [|done]. by apply bool_decide_eq_true.
Qed.

Lemma owned_set_same g s m : owned_in g (set_owned g s m) = s.
Proof. by destruct g. Qed.

Lemma owned_set_other g g' s m : g ≠ g' → owned_in g' (set_owned g s m) = owned_in g' m.
Proof. by destruct g, g'. Qed.

Lemma owned_set_id g m : set_owned g (owned_in g m) m = m.
Proof. by destruct g, m. Qed.

Lemma owned_set_set g s s' m : set_owned g s (set_owned g s' m) = set_owned g s m.
Proof. by destruct g, m. Qed.

Lemma site_set_owned g s m g' : site (set_owned g s m) g' = site m g'.
Proof. by destruct g, g'. Qed.

Lemma name_set_owned g s m : pm_name (set_owned g s m) = pm_name m.
Proof. by destruct g. Qed.

Lemma link_set_owned g s m : pm_link (set_owned g s m) = pm_link m.
Proof. by destruct g. Qed.

Lemma site_positive m g : 0 < (site m g).2.
Proof. by destruct g. Qed.

#[local] Set Default Proof Using "Type*".

Section accounting.
Context {K : Type} `{KernelLaws K}.
Implicit Types (k : K) (w : NetW K) (B : Route → Prop).

(** Every route of the kernel is one of [B] or one of a group. *)
Definition within B (sites : Group → option Z * option Addr * Z) (allowed : Group → gset Prefix) k : Prop :=
  ∀ r, r ∈ routes k → B r ∨ ∃ g, held (sites g) (allowed g) r.

Definition Held B w : Prop := within B (site (nw_m w)) (λ g, owned_in g (nw_m w)) (nw_k w).

Lemma within_mono B sites (A A' : Group → gset Prefix) k :
  within B sites A k → (∀ g, A g ⊆ A' g) → within B sites A' k.
Proof.
  intros Hw HA r Hr. destruct (Hw r Hr) as [|[g Hg]]; [by left|]. right. exists g.
  by eapply held_mono.
Qed.

Lemma within_fewer B sites A k k' :
  within B sites A k → (∀ r, r ∈ routes k' → r ∈ routes k) → within B sites A k'.
Proof. intros Hw Hs r Hr. by apply Hw, Hs. Qed.

(** *** Deletions *)

Definition target (prefix : Prefix) (link : option Z) (gw : option Addr) (priority : Z) (r : Route) : Prop :=
  rt_Dst r = prefix ∧ link = Some (rt_LinkIndex r) ∧ selected gw priority r = true.

(** [k'] is [k] without some of the targets. *)
Definition less prefix link gw priority k k' : Prop :=
  link_index k' = link_index k ∧ (∀ r, r ∈ routes k' → r ∈ routes k) ∧
  (∀ r, r ∈ routes k → r ∉ routes k' → target prefix link gw priority r).

Lemma less_trans p l gw pr k1 k2 k3 :
  less p l gw pr k1 k2 → less p l gw pr k2 k3 → less p l gw pr k1 k3.
Proof.
  intros (I1 & S1 & T1) (I2 & S2 & T2). split_and!; [congruence|auto|].
  intros r Hr Hr3. destruct (decide (r ∈ routes k2)); eauto.
Qed.

Lemma less_refl p l gw pr k : less p l gw pr k k.
Proof. by split_and!. Qed.

Lemma same_net_less p l gw pr k k' : same_net k k' → less p l gw pr k k'.
Proof. intros [Hr Hi]. split_and!; [done| |]; intros r; rewrite Hr; done. Qed.

Lemma wp_delete_selected p l gw pr rs k :
  (∀ r, r ∈ rs → rt_Dst r = p ∧ rt_LinkIndex r = l) →
  wp (delete_selected gw pr rs) (λ o k', less p (Some l) gw pr k k' ∧
    match o with
    | Done _ => ∀ r, r ∈ rs → selected gw pr r = true → r ∉ routes k'
    | _ => True
    end) k.
Proof.
  revert k. induction rs as [|route rs IH]; intros k Hrs.
  { apply wp_ret. split; [apply less_refl|]. intros r Hr. by apply not_elem_of_nil in Hr. }
  cbn [delete_selected].
  assert (Hrs' : ∀ r, r ∈ rs → rt_Dst r = p ∧ rt_LinkIndex r = l) by (intros; apply Hrs; by right).
  destruct (selected gw pr route) eqn:Hsel; cbn [negb].
  - assert (Ht : target p (Some l) gw pr route).
    { destruct (Hrs route) as [? ?]; [by left|]. split_and!; [done|congruence|done]. }
    assert (Hrest : ∀ k1, less p (Some l) gw pr k k1 → route ∉ routes k1 →
      wp (delete_selected gw pr rs) (λ o k', less p (Some l) gw pr k k' ∧
        match o with
        | Done _ => ∀ r, r ∈ route :: rs → selected gw pr r = true → r ∉ routes k'
        | _ => True
        end) k1).
    { intros k1 H1 Hno. eapply wp_mono; [by apply IH|]. intros o k2 [H2 Ho].
      split; [by eapply less_trans|]. destruct o; [|done..].
      intros r [->|Hr]%elem_of_cons Hs; [|by apply Ho]. intros Hin. by apply Hno, H2. }
    apply wp_bind, wp_try. eapply wp_mono; [apply law_RouteDel|].
    intros [u|e|] k1 [Hi Ho]; cbn beta iota in Ho |- *.
    + apply Hrest; rewrite ?Ho; [|set_solver]. split_and!; [done|set_solver|].
      intros r Hr Hr1. destruct (decide (r = route)) as [->|]; [done|]. set_solver.
    + destruct Ho as [Hr Hne]. assert (Hl : less p (Some l) gw pr k k1).
      { apply same_net_less. by split. }
      destruct (errors_is e NotExist) eqn:He; cbn [negb].
      * apply Hrest; [done|]. rewrite Hr. by apply Hne.
      * apply wp_fail. by split.
    + split; [|done]. split_and!; [done| |].
      * intros r. destruct Ho as [->| ->]; set_solver.
      * intros r Hr Hr1. destruct Ho as [Hk|Hk]; rewrite Hk in Hr1; [done|].
        destruct (decide (r = route)) as [->|]; [done|]. set_solver.
  - eapply wp_mono; [by apply IH|]. intros o k' [Hl Ho]. split; [done|]. destruct o; [|done..].
    intros r [->|Hr]%elem_of_cons Hs; [congruence|by apply Ho].
Qed.

Lemma wp_routeDel p link gw pr k :
  v4_prefix p →
  wp (routeDel p link gw pr) (λ o k', less p link gw pr k k' ∧
    match o with Done _ => is_Some link ∧ ∀ r, target p link gw pr r → r ∉ routes k' | _ => True end) k.
Proof.
  intros Hp. unfold routeDel. destruct link as [l|]; [|apply wp_fail; split; [apply less_refl|done]].
  rewrite (law_ParseIPNet p Hp). apply wp_bind. eapply wp_mono; [by apply law_RouteList|].
  intros o k1 [Hs Ho]. destruct o as [rs|e|]; [|by split; [apply same_net_less|]..].
  destruct Ho as [Hsound Hcomplete].
  eapply wp_mono; [by apply (wp_delete_selected p l)|]. intros o k2 [H2 Ho2].
  split; [eapply less_trans; [by apply same_net_less|done]|]. destruct o; [|done..].
  split; [by eexists|]. intros r (Hd & Hl & Hsel) Hin. apply (Ho2 r); [|done|done]. injection Hl as Hl.
  apply Hcomplete; [|done|done]. destruct Hs as [Hr _]. rewrite <- Hr. by apply H2.
Qed.

(** *** Lifting to the manager *)

Lemma wp_kernel {A} (call : M K A) (Q : Outcome A → NetW K → Prop) w :
  wp call (λ o k', Q o (mkNetW k' (nw_m w))) (nw_k w) → wp (kernel call) Q w.
Proof. unfold wp, kernel. destruct (call (nw_k w)) as [k' o], w. done. Qed.

Lemma wp_self {A} (f : platformManager → A) (Q : Outcome A → NetW K → Prop) w :
  Q (Done (f (nw_m w))) w → wp (self f) Q w.
Proof. done. Qed.

Lemma wp_assign f (Q : Outcome () → NetW K → Prop) w :
  Q (Done ()) (mkNetW (nw_k w) (f (nw_m w))) → wp (assign f) Q w.
Proof. by destruct w. Qed.

(** *** Installing and replacing one group *)

(** [P ∪ held s S] bounds the routes: what [S] counts is ours, the rest [P]. *)
Definition bounded (P : Route → Prop) s (S : gset Prefix) k : Prop :=
  ∀ r, r ∈ routes k → P r ∨ held s S r.

Lemma bounded_mono P s S S' k : bounded P s S k → S ⊆ S' → bounded P s S' k.
Proof. intros Hb HS r Hr. destruct (Hb r Hr); [by left|right]. by eapply held_mono. Qed.

Lemma wp_add_routes P g l gw pr add owned w :
  (∀ p, p ∈ add → v4_prefix p) → bounded P (Some l, gw, pr) owned (nw_k w) →
  wp (add_routes g l gw pr add owned) (λ o w',
    link_index (nw_k w') = link_index (nw_k w) ∧
    match o with
    | Done owned' => nw_m w' = nw_m w ∧ owned' = list_to_set add ∪ owned ∧
                     bounded P (Some l, gw, pr) owned' (nw_k w')
    | Failed _ => ∃ owned', nw_m w' = set_owned g owned' (nw_m w) ∧ owned' ⊆ list_to_set add ∪ owned ∧
                     bounded P (Some l, gw, pr) owned' (nw_k w')
    | Crashed => nw_m w' = nw_m w ∧ bounded P (Some l, gw, pr) (list_to_set add ∪ owned) (nw_k w')
    end) w.
Proof.
  revert owned w. induction add as [|p add IH]; intros owned w Hadd Hb.
  { apply wp_ret. split_and!; [done|done|set_solver|done]. }
  cbn [add_routes]. rewrite (law_ParseIPNet p) by (apply Hadd; by left).
  apply wp_bind, wp_try, wp_kernel. eapply wp_mono; [apply law_RouteAdd|].
  set (r0 := mkRoute l p gw pr).
  assert (Hown : held (Some l, gw, pr) {[p]} r0) by (split_and!; [done..|set_solver]).
  assert (Hgrow : ∀ k', routes k' = {[r0]} ∪ routes (nw_k w) →
    bounded P (Some l, gw, pr) ({[p]} ∪ owned) k').
  { intros k' Hk r Hr. rewrite Hk in Hr. apply elem_of_union in Hr as [->%elem_of_singleton|Hr].
    - right. eapply held_mono; [exact Hown|set_solver].
    - destruct (Hb r Hr) as [|Hh]; [by left|]. right. eapply held_mono; [exact Hh|set_solver]. }
  intros [[]|e|] k1 [Hi Ho]; cbn beta iota in Ho |- *.
  - eapply wp_mono; [apply IH; [intros; apply Hadd; by right|by apply Hgrow]|].
    intros o w' [Hi' Ho']. cbn in Hi'. split; [congruence|]. cbn [nw_m] in Ho'.
    destruct o as [owned'|e|].
    + destruct Ho' as (? & -> & ?). split_and!; [done|set_solver|done].
    + destruct Ho' as (o' & ? & ? & ?). exists o'. split_and!; [done|set_solver|done].
    + destruct Ho' as (? & ?). split; [done|]. eapply bounded_mono; [done|set_solver].
  - apply wp_bind, wp_assign, wp_fail. cbn. split; [done|]. exists owned. split_and!; [done|set_solver|].
    intros r Hr. rewrite Ho in Hr. by apply Hb.
  - split; [done|]. split; [done|].
    assert (Hb' : bounded P (Some l, gw, pr) ({[p]} ∪ owned) k1).
    { destruct Ho as [Hk|Hk]; [|by apply Hgrow]. eapply bounded_mono with (S := owned); [|set_solver].
      intros r Hr. rewrite Hk in Hr. by apply Hb. }
    eapply bounded_mono; [exact Hb'|set_solver].
Qed.

Lemma wp_del_routes P g l gw pr del owned w :
  0 < pr → (∀ p, p ∈ del → v4_prefix p) → bounded P (Some l, gw, pr) owned (nw_k w) →
  wp (del_routes g l gw pr del owned) (λ o w',
    link_index (nw_k w') = link_index (nw_k w) ∧
    match o with
    | Done _ => nw_m w' = nw_m w ∧ bounded P (Some l, gw, pr) (owned ∖ list_to_set del) (nw_k w')
    | Failed _ => ∃ owned', nw_m w' = set_owned g owned' (nw_m w) ∧ owned' ⊆ owned ∧
                     bounded P (Some l, gw, pr) owned' (nw_k w')
    | Crashed => nw_m w' = nw_m w ∧ bounded P (Some l, gw, pr) owned (nw_k w')
    end) w.
Proof.
  intros Hpr. revert owned w. induction del as [|p del IH]; intros owned w Hdel Hb.
  { apply wp_ret. split_and!; [done|done|]. eapply bounded_mono; [done|set_solver]. }
  cbn [del_routes].
  apply wp_bind, wp_try, wp_kernel.
  eapply wp_mono; [apply (wp_routeDel p (Some l)); apply Hdel; by left|].
  intros o k1 [(Hi & Hs & _) Ho].
  assert (Hk1 : bounded P (Some l, gw, pr) owned k1) by (intros r Hr; by apply Hb, Hs).
  destruct o as [[]|e|]; cbn beta iota in Ho |- *.
  - assert (Hb1 : bounded P (Some l, gw, pr) (owned ∖ {[p]}) k1).
    { intros r Hr. destruct (Hk1 r Hr) as [|Hh]; [by left|]. right. pose proof Hh as (Hl & Hg & Hp & Hd).
      split_and!; [done..|]. apply elem_of_difference. split; [done|].
      intros Heq%elem_of_singleton. apply (proj2 Ho r); [|done]. split_and!; [done|done|].
      by apply (held_selected (Some l, gw, pr) owned). }
    eapply wp_mono; [apply IH; [intros; apply Hdel; by right|done]|].
    intros o w' [Hi' Ho']. cbn in Hi'. split; [congruence|]. cbn [nw_m] in Ho'.
    destruct o as [[]|e|].
    + destruct Ho' as (? & Hb2). split; [done|]. eapply bounded_mono; [exact Hb2|set_solver].
    + destruct Ho' as (o' & ? & ? & ?). exists o'. split_and!; [done|set_solver|done].
    + destruct Ho' as (? & Hb2). split; [done|]. eapply bounded_mono; [exact Hb2|set_solver].
  - apply wp_bind, wp_assign, wp_fail. cbn. split; [done|]. by exists owned.
  - by split_and!.
Qed.

(** [syncRoutes] on one group: what it may own afterwards. *)
Lemma wp_syncRoutes_bounded P g next link gw pr w :
  0 < pr → (∀ p, p ∈ owned_in g (nw_m w) ∪ masked_set next → v4_prefix p) →
  bounded P (link, gw, pr) (owned_in g (nw_m w)) (nw_k w) →
  wp (syncRoutes g next link gw pr) (λ o w',
    link_index (nw_k w') = link_index (nw_k w) ∧
    (∃ owned', owned' ⊆ owned_in g (nw_m w) ∪ masked_set next ∧ nw_m w' = set_owned g owned' (nw_m w) ∧
       (o = Crashed ∨ bounded P (link, gw, pr) owned' (nw_k w')) ∧
       match link with None => owned' = owned_in g (nw_m w) | Some _ => o = Done () → owned' = masked_set next end) ∧
    bounded P (link, gw, pr) (owned_in g (nw_m w) ∪ masked_set next) (nw_k w')) w.
Proof.
  intros Hpr Hv4 Hb. unfold syncRoutes. destruct link as [l|].
  2: { apply wp_ret. split; [done|]. split.
       - exists (owned_in g (nw_m w)). rewrite owned_set_id. split_and!; [set_solver|done|by right|done].
       - eapply bounded_mono; [done|set_solver]. }
  apply wp_bind, wp_self. set (old := owned_in g (nw_m w)) in *.
  destruct (DiffPrefixes old next) as [[add del] state] eqn:E.
  apply DiffPrefixes_facts in E as (-> & _ & Ha & _ & Hd).
  apply wp_bind. eapply wp_mono; [apply wp_add_routes|].
  { intros p Hp%(elem_of_list_to_set (C:=gset Prefix)). apply Hv4. set_solver. }
  { exact Hb. }
  intros o w1 [Hi1 Ho1]. destruct o as [owned1|e|]; cbn beta iota in Ho1 |- *.
  2: { destruct Ho1 as (o' & Hm & Hsub & Hb1). split; [done|]. split.
       - exists o'. split_and!; [set_solver|done|by right|done].
       - eapply bounded_mono; [done|set_solver]. }
  2: { destruct Ho1 as (Hm & Hb1). split; [done|]. split.
       - exists old. split_and!; [set_solver| |by left|done]. unfold old. by rewrite owned_set_id.
       - eapply bounded_mono; [done|set_solver]. }
  destruct Ho1 as (Hm1 & -> & Hb1). apply wp_bind. eapply wp_mono; [apply wp_del_routes; [done| |exact Hb1]|].
  { intros p Hp%(elem_of_list_to_set (C:=gset Prefix)). apply Hv4. set_solver. }
  intros o w2 [Hi2 Ho2]. rewrite Hm1 in Ho2. destruct o as [[]|e|]; cbn beta iota in Ho2 |- *.
  - destruct Ho2 as (Hm2 & Hb2). apply wp_assign. cbn. split; [congruence|].
    assert (Hb3 : bounded P (Some l, gw, pr) (masked_set next) (nw_k w2)).
    { eapply bounded_mono; [exact Hb2|]. rewrite Ha, Hd. intros p.
      destruct (decide (p ∈ masked_set next)); set_solver. }
    split; [|eapply bounded_mono; [exact Hb3|set_solver]].
    exists (masked_set next). split_and!; [set_solver|congruence|by right|done].
  - destruct Ho2 as (o' & Hm2 & Hsub & Hb2). split; [congruence|]. split.
    + exists o'. split_and!; [set_solver|done|by right|done].
    + eapply bounded_mono; [exact Hb2|set_solver].
  - destruct Ho2 as (Hm2 & Hb2). split; [congruence|]. split.
    + exists old. split_and!; [set_solver| |by left|done]. unfold old. by rewrite owned_set_id.
    + eapply bounded_mono; [exact Hb2|set_solver].
Qed.
End accounting.

(** ** Calls that leave the routes alone *)

Section still.
Context {K : Type} `{KernelLaws K}.
Implicit Types (k : K) (w : NetW K).

(** Nothing that concerns routes has changed since [w0]. *)
Definition still w0 w : Prop :=
  same_net (nw_k w0) (nw_k w) ∧ pm_name (nw_m w) = pm_name (nw_m w0) ∧
  pm_link (nw_m w) = pm_link (nw_m w0) ∧ pm_localLink (nw_m w) = pm_localLink (nw_m w0) ∧
  pm_gateway (nw_m w) = pm_gateway (nw_m w0) ∧ ∀ g, owned_in g (nw_m w) = owned_in g (nw_m w0).

Lemma still_refl w : still w w.
Proof. by split_and!. Qed.

Lemma still_kernel {A} w0 (call : M K A) : quiet call → preserves (still w0) (kernel call).
Proof.
  intros Hq w ((Hr & Hi) & Hrest). apply wp_kernel. eapply wp_mono; [apply Hq|].
  intros o k' [Hr' Hi']. split; [|done]. split; cbn; congruence.
Qed.

Lemma still_assign w0 f :
  (∀ m, pm_name (f m) = pm_name m ∧ pm_link (f m) = pm_link m ∧ pm_localLink (f m) = pm_localLink m ∧
        pm_gateway (f m) = pm_gateway m ∧ ∀ g, owned_in g (f m) = owned_in g m) →
  preserves (still w0) (assign f).
Proof.
  intros Hf. apply preserves_modify. intros w (Hn & H1 & H2 & H3 & H4 & H5).
  destruct (Hf (nw_m w)) as (F1 & F2 & F3 & F4 & F5).
  split_and!; [exact Hn|cbn; congruence..|]. intros g. cbn. by rewrite F5.
Qed.

Lemma still_routes w0 w : still w0 w → ∀ r, r ∈ routes (nw_k w) ↔ r ∈ routes (nw_k w0).
Proof. intros ((Hr & _) & _) r. by rewrite Hr. Qed.

Lemma still_site w0 w g : still w0 w → site (nw_m w) g = site (nw_m w0) g.
Proof. intros (_ & _ & H1 & H2 & H3 & _). destruct g; cbn; congruence. Qed.

Lemma still_within w0 w B sites A : still w0 w → within B sites A (nw_k w0) → within B sites A (nw_k w).
Proof. intros Hs Hw r Hr. apply Hw. by apply (still_routes w0 w Hs). Qed.

Lemma still_Held w0 w B : still w0 w → Held B w0 → Held B w.
Proof.
  intros Hs Hh r Hr. destruct (Hh r) as [|[g Hg]]; [by apply (still_routes w0 w Hs)|by left|].
  right. exists g. rewrite (still_site w0 w g Hs). by destruct Hs as (_ & _ & _ & _ & _ & ->).
Qed.

Lemma quiet_try_backends w0 attempts errs :
  Forall (λ a, preserves (still w0) (snd a)) attempts →
  preserves (still w0) (try_backends attempts errs).
Proof.
  intros Hall. revert errs. induction Hall as [|[name set] attempts Ha _ IH]; intros errs.
  { apply preserves_ret. }
  cbn [try_backends]. apply preserves_bind; [by apply preserves_try|]. intros [e|u]; [apply IH|apply preserves_ret].
Qed.
End still.

(** Every call of a DNS or address routine is quiet, and every assignment it
    makes concerns another field. *)
Ltac quietly :=
  first [ apply law_quiet | apply law_quiet_dns
        | eapply law_LinkByName ].
Ltac keeps_still :=
  repeat first
    [ progress intros
    | apply still_kernel; quietly
    | apply still_assign; intros m; split_and!; [done..|]; intros []; done
    | apply preserves_ret | apply preserves_fail | apply preserves_read
    | apply preserves_fail_if | apply preserves_when | apply preserves_try | apply preserves_wrap
    | match goal with
      | |- preserves _ (self _) => apply preserves_read
      | |- preserves _ (match ?x with _ => _ end) => destruct x eqn:?
      end
    | apply preserves_bind ].

Section quiet_calls.
Context {K : Type} `{KernelLaws K}.
Implicit Types (w : NetW K).

Lemma still_deleteExactAddress w0 link owned : preserves (still w0) (deleteExactAddress link owned).
Proof. unfold deleteExactAddress. keeps_still. Qed.

Lemma still_setVPNAddress w0 link addr : preserves (still w0) (setVPNAddress link addr).
Proof.
  unfold setVPNAddress. keeps_still; apply still_deleteExactAddress.
Qed.

Lemma still_restoreDNS w0 : preserves (still w0) restoreDNS.
Proof. unfold restoreDNS. keeps_still. Qed.

Lemma still_setResolvedDNS w0 servers : preserves (still w0) (setResolvedDNS servers).
Proof. unfold setResolvedDNS. keeps_still. Qed.

Lemma still_setNetworkManagerDNS w0 servers : preserves (still w0) (setNetworkManagerDNS servers).
Proof. unfold setNetworkManagerDNS. keeps_still. Qed.

Lemma still_setDNS w0 servers : preserves (still w0) (setDNS servers).
Proof.
  unfold setDNS, chooseDNSBackend. destruct (length servers =? 0)%nat; [apply still_restoreDNS|].
  apply preserves_bind; [apply still_kernel; quietly|]. intros path.
  apply preserves_bind; [apply preserves_read|]. intros name.
  apply preserves_bind; [apply quiet_try_backends|intros r; keeps_still].
  apply Forall_app. split.
  - apply Forall_cons. split; [apply still_setResolvedDNS|].
    apply Forall_singleton, still_setNetworkManagerDNS.
  - destruct path; [|apply Forall_nil_2]. apply Forall_singleton. cbn [snd]. keeps_still.
Qed.
End quiet_calls.

(** ** The operations, seen from the routes *)

Definition v4_owned (m : platformManager) : Prop := ∀ g p, p ∈ owned_in g m → v4_prefix p.

Lemma v4_owned_empty g m : v4_owned m → v4_owned (set_owned g ∅ m).
Proof.
  intros Hv g' p. destruct (decide (g = g')) as [<-|Hne].
  - rewrite owned_set_same. set_solver.
  - rewrite owned_set_other by done. apply Hv.
Qed.

Section operations.
Context {K : Type} `{KernelLaws K}.
Context (B : Route → Prop).
Implicit Types (w : NetW K).

(** The groups once [next] may have been added to [g]. *)
Definition grown (m : platformManager) (g : Group) (next : list Prefix) (g' : Group) : gset Prefix :=
  if decide (g = g') then owned_in g m ∪ masked_set next else owned_in g' m.

Lemma wp_syncRoutes g next w :
  Held B w → v4_owned (nw_m w) → (∀ p, p ∈ masked_set next → v4_prefix p) →
  let '(link, gw, pr) := site (nw_m w) g in
  wp (syncRoutes g next link gw pr) (λ o w',
    link_index (nw_k w') = link_index (nw_k w) ∧
    within B (site (nw_m w)) (grown (nw_m w) g next) (nw_k w') ∧
    ∃ owned', owned' ⊆ owned_in g (nw_m w) ∪ masked_set next ∧ nw_m w' = set_owned g owned' (nw_m w) ∧
       (o = Crashed ∨ Held B w') ∧
       match link with None => owned' = owned_in g (nw_m w) | Some _ => o = Done () → owned' = masked_set next end) w.
Proof.
  intros HH Hv Hn. destruct (site (nw_m w) g) as [[link gw] pr] eqn:Hsite.
  pose proof (site_positive (nw_m w) g) as Hpr. rewrite Hsite in Hpr. cbn in Hpr.
  set (P := λ r, B r ∨ ∃ g', g ≠ g' ∧ held (site (nw_m w) g') (owned_in g' (nw_m w)) r).
  eapply wp_mono; [apply (wp_syncRoutes_bounded P); [done| |]|].
  - intros p [Hp|Hp]%elem_of_union; [by eapply Hv|by apply Hn].
  - intros r Hr. destruct (HH r Hr) as [|[g' Hg']]; [by left; left|].
    destruct (decide (g = g')) as [<-|Hne]; [right; by rewrite Hsite in Hg'|left; right; eauto].
  - intros o w' (Hi & (owned' & Hsub & Hm & Hb & Hd) & Hall). split; [done|]. split.
    + intros r Hr. destruct (Hall r Hr) as [[|(g' & Hne & Hg')]|Hg]; [by left|right..].
      * exists g'. unfold grown. by rewrite decide_False by done.
      * exists g. unfold grown. rewrite decide_True by done. by rewrite Hsite.
    + exists owned'. split_and!; [done|done| |done]. destruct Hb as [Hb|Hb]; [by left|right].
      intros r Hr. rewrite Hm.
      destruct (Hb r Hr) as [[|(g' & Hne & Hg')]|Hg]; [by left|right..].
      * exists g'. rewrite site_set_owned, owned_set_other by done. done.
      * exists g. rewrite site_set_owned, owned_set_same. by rewrite Hsite.
Qed.

(** *** Close *)

Lemma wp_close_prefixes link gw pr prefixes first w :
  (∀ p, p ∈ prefixes → v4_prefix p) →
  wp (close_prefixes link gw pr prefixes first) (λ o w',
    link_index (nw_k w') = link_index (nw_k w) ∧ nw_m w' = nw_m w ∧
    (∀ r, r ∈ routes (nw_k w') → r ∈ routes (nw_k w)) ∧
    match o with
    | Done first' => first' = None → first = None ∧
        ∀ p r, p ∈ prefixes → target p link gw pr r → r ∉ routes (nw_k w')
    | Failed _ => False
    | Crashed => True
    end) w.
Proof.
  revert first w. induction prefixes as [|p prefixes IH]; intros first w Hp.
  { apply wp_ret. split_and!; [done..|]. intros ->. split; [done|]. intros p r Hin.
    by apply not_elem_of_nil in Hin. }
  cbn [close_prefixes]. unfold keep_first. apply wp_bind, wp_bind, wp_try, wp_kernel.
  eapply wp_mono; [apply wp_routeDel; apply Hp; by left|].
  intros o k1 [(Hi & Hs & _) Ho].
  destruct o as [[]|e|]; cbn beta iota; [apply wp_ret..|by split_and!];
    (eapply wp_mono; [apply IH; intros; apply Hp; by right|]); cbn; intros o w' (Hi' & Hm & Hs' & Ho');
    (split_and!; [congruence|done|by auto|]); (destruct o as [first'|e'|]; [|done..]);
    intros Hf; destruct (Ho' Hf) as [Hfirst Hgone]; [|by destruct first].
  split; [by destruct first|].
  intros q r [->|Hq]%elem_of_cons Ht; [|by eapply Hgone]. intros Hin. by apply (proj2 Ho r Ht), Hs'.
Qed.

(** Emptying one group whose routes are gone. *)
Lemma Held_emptied g w k' :
  Held B w → (∀ r, r ∈ routes k' → r ∈ routes (nw_k w)) →
  (let '(link, gw, pr) := site (nw_m w) g in
   ∀ p r, p ∈ elements (owned_in g (nw_m w)) → target p link gw pr r → r ∉ routes k') →
  Held B (mkNetW k' (set_owned g ∅ (nw_m w))).
Proof.
  intros HH Hs Hgone r Hr. cbn in Hr. destruct (HH r) as [|[g' Hg']]; [by apply Hs|by left|].
  destruct (decide (g = g')) as [<-|Hne].
  - exfalso. destruct (site (nw_m w) g) as [[link gw] pr] eqn:Hsite.
    pose proof Hg' as (Hl & _ & _ & Hd). cbn in Hl.
    apply (Hgone (rt_Dst r) r); [by apply elem_of_elements| |exact Hr].
    split_and!; [done..|]. pose proof (site_positive (nw_m w) g) as Hpos. rewrite Hsite in Hpos.
    exact (held_selected _ _ _ Hpos Hg').
  - right. exists g'. cbn. rewrite site_set_owned, owned_set_other by done. done.
Qed.

(** After the groups have been emptied without an error, no route of theirs
    is left. *)
Lemma wp_close_groups groups first w :
  v4_owned (nw_m w) →
  wp (close_groups groups first) (λ o w',
    link_index (nw_k w') = link_index (nw_k w) ∧
    (∀ r, r ∈ routes (nw_k w') → r ∈ routes (nw_k w)) ∧
    match o with
    | Done first' => first' = None → first = None ∧ (Held B w → Held B w' ∧
        ∀ g, owned_in g (nw_m w') = if decide (g ∈ groups) then ∅ else owned_in g (nw_m w))
    | Failed _ => False
    | Crashed => True
    end) w.
Proof.
  revert first w. induction groups as [|g groups IH]; intros first w Hv.
  { apply wp_ret. split_and!; [done..|]. intros ->. split_and!; [done..|]. split; [done|]. intros g.
    by rewrite decide_False by apply not_elem_of_nil. }
  cbn [close_groups]. apply wp_bind, wp_self. cbv beta zeta. unfold id.
  destruct (site (nw_m w) g) as [[link gw] pr] eqn:Hsite.
  apply wp_bind. eapply wp_mono; [apply wp_close_prefixes|].
  { intros p Hp%elem_of_elements. by eapply Hv. }
  intros o w1 (Hi & Hm & Hs & Ho). destruct o as [first'|e|]; [|done|by split_and!].
  apply wp_bind, wp_assign. rewrite Hm.
  eapply wp_mono; [apply IH; cbn; by apply v4_owned_empty|].
  cbn. intros o w' (Hi' & Hs' & Ho'). split_and!; [congruence|auto|].
  destruct o as [first''|e|]; [|done..]. intros Hf'. destruct (Ho' Hf') as [Hf HH'].
  destruct (Ho Hf) as [Hfirst Hgone]. split; [done|]. intros HH.
  destruct HH' as [HH' Hown]; [apply Held_emptied; [done|done|by rewrite Hsite]|].
  split; [done|]. intros g'. rewrite Hown.
  destruct (decide (g = g')) as [<-|Hne].
  - rewrite owned_set_same. rewrite (decide_True (P := g ∈ g :: groups)) by by left.
    by destruct (decide (g ∈ groups)).
  - rewrite owned_set_other by done. destruct (decide (g' ∈ groups)).
    + by rewrite (decide_True (P := g' ∈ g :: groups)) by by right.
    + rewrite (decide_False (P := g' ∈ g :: groups)); [done|]. intros [?|?]%elem_of_cons; congruence.
Qed.

(** [Close]: routes only go, and when it returns nil all of the manager's are
    gone. *)
Lemma wp_Close w :
  v4_owned (nw_m w) →
  wp pm_Close (λ o w',
    link_index (nw_k w') = link_index (nw_k w) ∧
    (∀ r, r ∈ routes (nw_k w') → r ∈ routes (nw_k w)) ∧
    (o = Done () → Held B w → ∀ r, r ∈ routes (nw_k w') → B r)) w.
Proof.
  intros Hv. unfold pm_Close. apply wp_bind. eapply wp_mono; [by apply wp_close_groups|].
  intros o w1 (Hi & Hs & Ho). destruct o as [first|e|]; [|done|by split_and!].
  eapply (wp_mono _ (λ o w', still w1 w' ∧ (o = Done () → first = None))).
  - (* what follows does not concern routes *)
    unfold keep_first. apply wp_bind, wp_bind, wp_try.
    eapply wp_mono; [apply (still_restoreDNS w1), still_refl|].
    assert (Hend : ∀ (f' : option error) w2, still w1 w2 → (f' = None → first = None) →
      wp (m ← self id;
          first0 ← match pm_vpnAddressOwned m, pm_vpnAddress m with
                   | true, Some a => r ← try (deleteExactAddress (pm_link m) (Some a));
                       mret (match f', r with None, inl err => Some err | _, _ => f' end)
                   | _, _ => mret f'
                   end;
          _ ← assign (λ m, m <| pm_vpnAddress := None |> <| pm_vpnAddressOwned := false |>);
          match first0 with Some err => fail err | None => mret () end)
        (λ o w', still w1 w' ∧ (o = Done () → first = None)) w2).
    { intros f' w2 H2 Hf'. apply wp_bind, wp_self. cbv beta zeta. unfold id.
      assert (Hlast : ∀ (f'' : option error) w3, still w1 w3 → (f'' = None → first = None) →
        wp (_ ← assign (λ m, m <| pm_vpnAddress := None |> <| pm_vpnAddressOwned := false |>);
            match f'' with Some err => fail err | None => mret () end)
          (λ o w', still w1 w' ∧ (o = Done () → first = None)) w3).
      { intros f'' w3 H3 Hf''. apply wp_bind. eapply wp_mono.
        - apply (still_assign w1); [|exact H3]. intros m. split_and!; [done..|]. by intros [].
        - intros [[]|e|] w4 H4; [|done..]. destruct f''; [by apply wp_fail|by apply wp_ret; auto]. }
      destruct (pm_vpnAddressOwned (nw_m w2)), (pm_vpnAddress (nw_m w2)) as [a|];
        try (apply wp_bind, wp_ret; by apply Hlast).
      apply wp_bind, wp_bind, wp_try. eapply wp_mono; [by apply (still_deleteExactAddress w1)|].
      intros [[]|e|] w3 H3; [apply wp_ret, Hlast; [done|by destruct f'..]..|done]. }
    intros [[]|e|] w2 H2; [apply wp_ret, Hend; [done|by destruct first]..|done].
  - intros o w2 [H2 Hd]. pose proof (still_routes _ _ H2) as Hr.
    split_and!; [by destruct H2 as ((_ & ->) & _)|intros r; rewrite Hr; auto|].
    intros Hdone HH r. rewrite Hr. intros Hin. destruct (Ho (Hd Hdone)) as [_ Hheld].
    destruct (Hheld HH) as [Hw1 Hown]. destruct (Hw1 r Hin) as [|[g (_ & _ & _ & Hg)]]; [done|].
    rewrite Hown in Hg. exfalso. rewrite decide_True in Hg; [set_solver|]. destruct g; set_solver.
Qed.
End operations.
