(* ===== verification/LinuxConfig.v ===== *)
(** * What a network configuration installs on Linux

    [Set], [SetDynamicRoutes] and [Close] of the Linux manager (LinuxNet.v) for
    an IPv4 configuration: which routes they may leave in the kernel when they
    succeed, when they fail and when the daemon dies in the middle of them. *)

From S2P Require Import Prelude GoStrings NetIP OsNet LinuxNet.

Open Scope go_scope.
Open Scope Z_scope.

#[local] Set Default Proof Using "Type*".

(** ** What a configuration installs *)

Definition v4_addr (a : Addr) : Prop := ∃ v, 0 ≤ v < 2 ^ 32 ∧ a = Addr4 v.
Definition v4_route (p : Prefix) : Prop := ∃ v b, 0 ≤ v < 2 ^ 32 ∧ 0 ≤ b ≤ 32 ∧ p = prefix4 v b.

(** An IPv4 configuration of a TUN device. *)
Definition v4_config (cfg : Config) : Prop :=
  pfx_valid (cfg_VPNAddress cfg) = true ∧
  (cfg_ServerAddress cfg = AddrNone ∨ v4_addr (cfg_ServerAddress cfg)) ∧
  (cfg_Gateway cfg = AddrNone ∨ v4_addr (cfg_Gateway cfg)) ∧
  Forall v4_route (cfg_IncludeRoutes cfg) ∧ Forall v4_route (cfg_ExcludeRoutes cfg).

Definition cfg_local (cfg : Config) : option Z :=
  if cfg_GatewayInterfaceIndex cfg =? 0 then None else Some (cfg_GatewayInterfaceIndex cfg).
Definition cfg_gateway (cfg : Config) : option Addr :=
  if IsValid (cfg_Gateway cfg) then ParseIP (addr_string (cfg_Gateway cfg)) else None.

Definition cfg_site (l : Z) (cfg : Config) (g : Group) : option Z * option Addr * Z :=
  match g with
  | GServer | GExclude | GDynamicExclude => (cfg_local cfg, cfg_gateway cfg, 5)
  | GInclude | GDynamicInclude => (Some l, None, 6)
  end.

Definition planned (cfg : Config) (include exclude : list Addr) (g : Group) : gset Prefix :=
  match g with
  | GServer => masked_set (server_prefixes cfg)
  | GInclude => masked_set (cfg_IncludeRoutes cfg)
  | GExclude => masked_set (cfg_ExcludeRoutes cfg)
  | GDynamicInclude => masked_set (addrsToHostPrefixes include)
  | GDynamicExclude => masked_set (addrsToHostPrefixes exclude)
  end.

Lemma v4_masked p : v4_route p → v4_prefix (Masked p).
Proof.
  intros (v & b & Hv & Hb & ->). unfold Masked, prefix4, pfx_valid. cbn.
  destruct (Z.leb_spec 0 b); [|lia].
  exists (mask_value 32 b v), b. split_and!; [apply mask_value_range; lia..|lia|lia|done|].
  unfold Masked, prefix4, pfx_valid. cbn. destruct (Z.leb_spec 0 b); [|lia].
  by rewrite mask_value_idem by lia.
Qed.

Lemma v4_masked_set l p : Forall v4_route l → p ∈ masked_set l → v4_prefix p.
Proof.
  intros Hl (q & -> & Hq)%elem_of_masked_set. rewrite Forall_forall in Hl. by apply v4_masked, Hl.
Qed.

Lemma v4_host a : v4_addr a → v4_route (PrefixFrom a (BitLen a)).
Proof.
  intros (v & Hv & ->). exists v, 32. split_and!; [lia|lia|lia|lia|done].
Qed.

Lemma v4_server cfg : v4_config cfg → Forall v4_route (server_prefixes cfg).
Proof.
  intros (_ & [Hs|Hs] & _). all: unfold server_prefixes.
  - by rewrite Hs.
  - destruct (IsValid _); [|done]. apply Forall_singleton. by apply v4_host.
Qed.

Lemma v4_hosts addrs : Forall v4_addr addrs → Forall v4_route (addrsToHostPrefixes addrs).
Proof.
  intros Ha. apply Forall_fmap. eapply Forall_impl; [exact Ha|].
  intros a (v & Hv & ->). apply (v4_host (Addr4 v)). by exists v.
Qed.

Lemma masked_set_app l1 l2 : masked_set (l1 ++ l2) = masked_set l1 ∪ masked_set l2.
Proof. unfold masked_set. by rewrite fmap_app, list_to_set_app_L. Qed.

Lemma masked_set_mono l1 l2 : l1 ⊆ l2 → masked_set l1 ⊆ masked_set l2.
Proof.
  intros Hs p (q & -> & Hq)%elem_of_masked_set. apply elem_of_masked_set. exists q. split; [done|by apply Hs].
Qed.

Lemma withoutPrefixes_sub l r : withoutPrefixes l r ⊆ l.
Proof.
  unfold withoutPrefixes. destruct (_ || _); [done|]. intros p Hp. by apply list_elem_of_filter in Hp as [_ ?].
Qed.

Section configured.
Context {K : Type} `{KernelLaws K}.
Context (B : Route → Prop).
Implicit Types (w : NetW K) (A : Group → gset Prefix).

Definition upd A g S (g' : Group) : gset Prefix := if decide (g = g') then S else A g'.

(** The manager of [cfg] on link [l] owns at most [A]. *)
Record building (l : Z) (cfg : Config) A w : Prop := {
  bd_held : Held B w;
  bd_name : pm_name (nw_m w) = cfg_InterfaceName cfg;
  bd_index : link_index (nw_k w) (cfg_InterfaceName cfg) = Some l;
  bd_link : pm_link (nw_m w) = Some l;
  bd_site g : site (nw_m w) g = cfg_site l cfg g;
  bd_owned g : owned_in g (nw_m w) ⊆ A g;
  bd_none g : (cfg_site l cfg g).1.1 = None → owned_in g (nw_m w) = ∅;
}.

(** At most the routes of [A] are in the kernel besides [B]. *)
Definition leaves (cfg : Config) A w : Prop :=
  (∀ r, r ∈ routes (nw_k w) → B r) ∨
  ∃ l, link_index (nw_k w) (cfg_InterfaceName cfg) = Some l ∧ within B (cfg_site l cfg) A (nw_k w).

Lemma building_leaves l cfg A w : building l cfg A w → leaves cfg A w.
Proof.
  intros [HH Hn Hi Hl Hs Ho _]. right. exists l. split; [done|]. intros r Hr.
  destruct (HH r Hr) as [|[g Hg]]; [by left|]. right. exists g. rewrite <- Hs. by eapply held_mono.
Qed.

Lemma building_mono l cfg A A' w : building l cfg A w → (∀ g, A g ⊆ A' g) → building l cfg A' w.
Proof. intros [? ? ? ? ? Ho ?] HA. split; try done. intros g. etrans; [apply Ho|apply HA]. Qed.

Lemma leaves_mono cfg A A' w : leaves cfg A w → (∀ g, A g ⊆ A' g) → leaves cfg A' w.
Proof. intros [?|(l & Hl & Hw)] HA; [by left|]. right. exists l. split; [done|]. by eapply within_mono. Qed.

Lemma building_still l cfg A w w' : still w w' → building l cfg A w → building l cfg A w'.
Proof.
  intros Hst [HH Hn Hi Hl Hs Ho H0']. pose proof Hst as ((_ & Hx) & Hnm & Hlk & _ & _ & Hown). split.
  - by eapply still_Held.
  - congruence.
  - by rewrite Hx.
  - congruence.
  - intros g. by rewrite (still_site _ _ g Hst).
  - intros g. rewrite Hown. apply Ho.
  - intros g Hg. rewrite Hown. by apply H0'.
Qed.

Definition v4_sets A : Prop := ∀ g p, p ∈ A g → v4_prefix p.

Lemma building_v4 l cfg A w : v4_sets A → building l cfg A w → v4_owned (nw_m w).
Proof. intros Hv Hb g p Hp. eapply Hv, bd_owned; eauto. Qed.

(** One [syncRoutes] of a configuration. *)
Lemma building_sync l cfg A g next w :
  building l cfg A w → v4_sets A → Forall v4_route next →
  let '(link, gw, pr) := cfg_site l cfg g in
  wp (syncRoutes g next link gw pr) (λ o w', match o with
    | Done _ => building l cfg (upd A g (masked_set next)) w'
    | Failed _ => building l cfg (upd A g (A g ∪ masked_set next)) w'
    | Crashed => leaves cfg (upd A g (A g ∪ masked_set next)) w'
    end) w.
Proof.
  intros Hb Hv Hn. pose proof (wp_syncRoutes B g next w (bd_held _ _ _ _ Hb)
    (building_v4 _ _ _ _ Hv Hb) (λ p, v4_masked_set next p Hn)) as Hw.
  destruct Hb as [HH Hnm Hi Hl Hs Ho Hnone]. rewrite (Hs g) in Hw.
  destruct (cfg_site l cfg g) as [[link gw] pr] eqn:Hsite.
  eapply wp_mono; [exact Hw|]. intros o w' (Hix & Hwithin & owned' & Hsub & Hm & Hheld & Hdone).
  assert (Hbuild : ∀ S, owned' ⊆ S → o ≠ Crashed → (link = None → owned' = ∅) →
    building l cfg (upd A g S) w').
  { intros S HS Hc Hno. destruct Hheld as [|Hheld]; [done|]. split; rewrite ?Hm.
    - done.
    - by rewrite name_set_owned.
    - by rewrite Hix.
    - by rewrite link_set_owned.
    - intros g'. rewrite site_set_owned. apply Hs.
    - intros g'. unfold upd. destruct (decide (g = g')) as [<-|Hne];
        [by rewrite owned_set_same|rewrite owned_set_other by done; apply Ho].
    - intros g' Hg'. destruct (decide (g = g')) as [<-|Hne].
      + rewrite owned_set_same. apply Hno. by rewrite Hsite in Hg'.
      + rewrite owned_set_other by done. by apply Hnone. }
  pose proof (Hnone g) as Hg0. rewrite Hsite in Hg0. cbn in Hg0. pose proof (Ho g) as Hog.
  assert (Hno : link = None → owned' = ∅).
  { intros ->. rewrite Hdone. by apply Hg0. }
  destruct o as [[]|e|].
  - apply Hbuild; [|done|done]. destruct link; [by rewrite Hdone|]. rewrite Hno by done. set_solver.
  - apply Hbuild; [set_solver|done|done].
  - right. exists l. rewrite Hix. split; [done|]. intros r Hr.
    destruct (Hwithin r Hr) as [|[g' Hg']]; [by left|]. right. exists g'.
    rewrite Hs in Hg'. eapply held_mono; [exact Hg'|]. unfold grown, upd.
    destruct (decide (g = g')) as [<-|]; [set_solver|apply Ho].
Qed.

(** *** Set *)

(** A manager that has configured nothing. *)
Record fresh (name : string) w : Prop := {
  fr_routes r : r ∈ routes (nw_k w) → B r;
  fr_owned g : owned_in g (nw_m w) = ∅;
  fr_name : pm_name (nw_m w) = name;
  fr_gateway : pm_gateway (nw_m w) = None;
  fr_link l : pm_link (nw_m w) = Some l → link_index (nw_k w) name = Some l;
}.

Lemma fresh_still name w w' : still w w' → fresh name w → fresh name w'.
Proof.
  intros Hst [Hr Ho Hn Hg Hl]. pose proof Hst as ((_ & Hx) & Hnm & Hlk & _ & Hgw & Hown). split.
  - intros r Hin. apply Hr. by apply (still_routes _ _ Hst).
  - intros g. by rewrite Hown.
  - congruence.
  - congruence.
  - intros l. rewrite Hlk, Hx. apply Hl.
Qed.

Lemma fresh_leaves cfg A name w : fresh name w → leaves cfg A w.
Proof. intros Hf. left. apply Hf. Qed.

Lemma fresh_Held name w : fresh name w → Held B w ∧ v4_owned (nw_m w).
Proof.
  intros Hf. split; [intros r Hr; left; by apply (fr_routes _ _ Hf)|].
  intros g p. rewrite (fr_owned _ _ Hf). set_solver.
Qed.

(** A failure of [Set], before or while it installs routes. *)
Definition set_failed cfg w : Prop :=
  Held B w ∧ v4_owned (nw_m w) ∧ leaves cfg (planned cfg [] []) w.

Lemma fresh_set_failed cfg name w : fresh name w → set_failed cfg w.
Proof. intros Hf. destruct (fresh_Held _ _ Hf). split_and!; [done..|]. by eapply fresh_leaves. Qed.

Definition set_post cfg (P : NetW K → Prop) (o : Outcome ()) w : Prop :=
  match o with
  | Done _ => P w
  | Failed _ => set_failed cfg w
  | Crashed => leaves cfg (planned cfg [] []) w
  end.

(** A quiet step of [Set] on a fresh manager. *)
Lemma set_step {T} cfg name (m : M (NetW K) T) (Q : Outcome () → NetW K → Prop) (f : T → M (NetW K) ()) w :
  fresh name w → (∀ w0, preserves (still w0) m) →
  (∀ e w', set_failed cfg w' → Q (Failed e) w') → (∀ w', leaves cfg (planned cfg [] []) w' → Q Crashed w') →
  (∀ a w', still w w' → fresh name w' → wp (f a) Q w') → wp (m ≫= f) Q w.
Proof.
  intros Hf Hm HF HC Hk. apply wp_bind. eapply wp_mono; [apply (Hm w), still_refl|].
  intros o w' Hst. pose proof (fresh_still _ _ _ Hst Hf) as Hf'. destruct o.
  - by apply Hk.
  - eapply HF, fresh_set_failed, Hf'.
  - eapply HC, fresh_leaves, Hf'.
Qed.

Lemma wp_Up name w :
  fresh name w → wp Up (λ o w', fresh name w' ∧ (o = Done () → is_Some (pm_link (nw_m w')))) w.
Proof.
  intros Hf. unfold Up. apply wp_bind, wp_self, wp_bind, wp_kernel.
  eapply wp_mono; [apply law_LinkByName|]. intros o k1 [[Hr Hx] Ho].
  assert (Hf1 : fresh name (mkNetW k1 (nw_m w))).
  { apply (fresh_still name w); [|done]. by split_and!. }
  destruct o as [l|e|]; [|by split..].
  apply wp_bind, wp_assign. cbn [nw_k nw_m].
  assert (Hf2 : fresh name (mkNetW k1 ((nw_m w) <| pm_link := Some l |>))).
  { destruct Hf1 as [F1 F2 F3 F4 F5]. split; [done| |done|done|].
    - intros g. specialize (F2 g). by destruct g.
    - intros l' [= <-]. cbn. rewrite Hx, <- Ho. by rewrite (fr_name _ _ Hf). }
  clear Hf1. set (w2 := mkNetW _ _) in *.
  eapply (wp_mono _ (λ _, still w2)).
  - apply preserves_bind; [apply still_kernel; quietly| |apply still_refl]. intros u.
    apply preserves_bind; [keeps_still|]. intros r. apply preserves_ret.
  - intros o w' Hst. split; [by eapply fresh_still|]. intros _.
    destruct Hst as (_ & _ & -> & _). by eexists.
Qed.

Lemma fresh_assign name w f :
  fresh name w →
  (∀ m, pm_name (f m) = pm_name m ∧ pm_link (f m) = pm_link m ∧ ∀ g, owned_in g (f m) = owned_in g m) →
  pm_gateway (f (nw_m w)) = None → fresh name (mkNetW (nw_k w) (f (nw_m w))).
Proof.
  intros [F1 F2 F3 F4 F5] Hf Hg. destruct (Hf (nw_m w)) as (Hn & Hl & Ho). split; cbn; [done|..|done|].
  - intros g. by rewrite Ho.
  - congruence.
  - intros l. rewrite Hl. apply F5.
Qed.

(** A fresh manager whose link and sites are those of the configuration. *)
Lemma fresh_building l cfg w :
  (∀ r, r ∈ routes (nw_k w) → B r) → (∀ g, owned_in g (nw_m w) = ∅) →
  pm_name (nw_m w) = cfg_InterfaceName cfg → link_index (nw_k w) (cfg_InterfaceName cfg) = Some l →
  pm_link (nw_m w) = Some l → pm_localLink (nw_m w) = cfg_local cfg → pm_gateway (nw_m w) = cfg_gateway cfg →
  building l cfg (λ _, ∅) w.
Proof.
  intros Hr Ho Hn Hi Hl Hlo Hg. split; try done.
  - intros r Hin. left. by apply Hr.
  - intros []; cbn; congruence.
  - intros g. by rewrite Ho.
Qed.

Lemma planned_v4 cfg include exclude :
  v4_config cfg → Forall v4_addr include → Forall v4_addr exclude → v4_sets (planned cfg include exclude).
Proof.
  intros Hcfg Hi He. pose proof (v4_server cfg Hcfg). destruct Hcfg as (_ & _ & _ & ? & ?).
  intros g p. destruct g; cbn; apply v4_masked_set; try done; by apply v4_hosts.
Qed.

Lemma v4_sets_mono A A' : v4_sets A' → (∀ g, A g ⊆ A' g) → v4_sets A.
Proof. intros Hv HA g p Hp. by eapply Hv, HA. Qed.

Lemma upd_sub A A' g S : (∀ g, A g ⊆ A' g) → S ⊆ A' g → ∀ g', upd A g S g' ⊆ A' g'.
Proof. intros HA HS g'. unfold upd. destruct (decide (g = g')) as [<-|]; [done|apply HA]. Qed.

(** One group of [Set], within the plan. *)
Lemma install_step l cfg A g next f w :
  v4_config cfg → building l cfg A w → (∀ g, A g ⊆ planned cfg [] [] g) → Forall v4_route next →
  masked_set next ⊆ planned cfg [] [] g →
  (∀ w', building l cfg (upd A g (masked_set next)) w' →
     (∀ g', upd A g (masked_set next) g' ⊆ planned cfg [] [] g') →
     wp f (set_post cfg (building l cfg (planned cfg [] []))) w') →
  let '(link, gw, pr) := cfg_site l cfg g in
  wp (_ ← syncRoutes g next link gw pr; f) (set_post cfg (building l cfg (planned cfg [] []))) w.
Proof.
  intros Hcfg Hb HA Hn Hnp Hk.
  pose proof (planned_v4 cfg [] [] Hcfg (Forall_nil_2 _) (Forall_nil_2 _)) as Hv4.
  pose proof (building_sync l cfg A g next w Hb (v4_sets_mono _ _ Hv4 HA) Hn) as Hw.
  destruct (cfg_site l cfg g) as [[link gw] pr]. apply wp_bind. eapply wp_mono; [exact Hw|].
  assert (HS : A g ∪ masked_set next ⊆ planned cfg [] [] g) by (specialize (HA g); set_solver).
  intros [[]|e|] w2 H2.
  - apply Hk; [done|by apply upd_sub].
  - assert (Hb2 : building l cfg (planned cfg [] []) w2).
    { eapply building_mono; [exact H2|by apply upd_sub]. }
    split_and!; [apply Hb2|by eapply building_v4|by eapply building_leaves].
  - eapply leaves_mono; [exact H2|by apply upd_sub].
Qed.

(** The three groups of [Set], then the DNS servers. *)
Lemma wp_install l cfg w :
  v4_config cfg → building l cfg (λ _, ∅) w →
  wp (_ ← syncRoutes GServer (server_prefixes cfg) (cfg_local cfg) (cfg_gateway cfg) 5;
      _ ← syncRoutes GInclude (cfg_IncludeRoutes cfg) (Some l) None 6;
      _ ← syncRoutes GExclude (withoutPrefixes (cfg_ExcludeRoutes cfg) (server_prefixes cfg)) (cfg_local cfg) (cfg_gateway cfg) 5;
      setDNS (cfg_DNSServers cfg))
     (set_post cfg (building l cfg (planned cfg [] []))) w.
Proof.
  intros Hcfg Hb. pose proof Hcfg as (_ & _ & _ & Hinc & Hexc). pose proof (v4_server cfg Hcfg) as Hsrv.
  apply (install_step l cfg (λ _, ∅) GServer); [done..|set_solver|done|done|]. intros w1 H1 HA1.
  eapply (install_step l cfg _ GInclude); [done|exact H1|done..|]. intros w2 H2 HA2.
  eapply (install_step l cfg _ GExclude); [done|exact H2|done| | |].
  { apply Forall_forall. intros p Hp%withoutPrefixes_sub. rewrite Forall_forall in Hexc. by apply Hexc. }
  { apply masked_set_mono, withoutPrefixes_sub. }
  intros w3 H3 HA3. eapply wp_mono; [apply (still_setDNS w3), still_refl|]. intros o w4 H4.
  assert (Hb4 : building l cfg (planned cfg [] []) w4).
  { eapply building_still; [exact H4|]. by eapply building_mono. }
  destruct o; cbn; [done| |by eapply building_leaves].
  split_and!; [apply Hb4| |by eapply building_leaves].
  eapply building_v4; [|done]. by apply planned_v4.
Qed.

Definition configured cfg include exclude w : Prop := ∃ l, building l cfg (planned cfg include exclude) w.

Lemma wp_set_underlay l cfg w :
  fresh (cfg_InterfaceName cfg) w → pm_link (nw_m w) = Some l →
  wp (set_underlay cfg) (set_post cfg (building l cfg (λ _, ∅))) w.
Proof.
  intros Hf Hl. apply wp_bind, wp_assign. set (w1 := mkNetW _ _).
  assert (Hf1 : fresh (cfg_InterfaceName cfg) w1).
  { apply (fresh_assign _ _ _ Hf); [|apply Hf]. intros m. split_and!; [done..|]. by intros []. }
  pose proof (fr_link _ _ Hf l Hl) as Hix.
  assert (Hgw : ∀ w2, fresh (cfg_InterfaceName cfg) w2 → pm_link (nw_m w2) = Some l →
    pm_localLink (nw_m w2) = cfg_local cfg →
    wp (when (IsValid (cfg_Gateway cfg)) (assign (λ m, m <| pm_gateway := ParseIP (addr_string (cfg_Gateway cfg)) |>)))
      (set_post cfg (building l cfg (λ _, ∅))) w2).
  { intros w2 [F1 F2 F3 F4 F5] Hl2 Hlo. apply wp_when; intros Hv; [apply wp_assign|]; apply fresh_building;
      cbn; rewrite ?Hl2; try done; unfold cfg_gateway; rewrite ?Hv; try done; by apply F5. }
  apply wp_bind, wp_when; intros Hidx.
  - apply wp_bind, wp_wrap, wp_kernel. eapply wp_mono; [apply law_LinkByIndex|]. intros o k2 [[Hr Hx] Ho].
    assert (Hf2 : fresh (cfg_InterfaceName cfg) (mkNetW k2 (nw_m w1))).
    { apply (fresh_still _ w1); [by split_and!|done]. }
    destruct o as [local|e|]; [|by eapply fresh_set_failed|by eapply fresh_leaves].
    subst local. apply wp_assign, Hgw; cbn; [|done|].
    + apply (fresh_assign _ (mkNetW k2 (nw_m w1)) (λ m, m <| pm_localLink := Some (cfg_GatewayInterfaceIndex cfg) |>) Hf2);
        [|apply Hf2]. intros m. split_and!; [done..|]. by intros [].
    + unfold cfg_local. by apply negb_true_iff in Hidx as ->.
  - apply Hgw; [done..|]. cbn. unfold cfg_local. by apply negb_false_iff in Hidx as ->.
Qed.

(** [Set] from scratch. *)
Lemma wp_Set cfg w :
  v4_config cfg → fresh (cfg_InterfaceName cfg) w →
  wp (pm_Set (Some cfg)) (set_post cfg (configured cfg [] [])) w.
Proof.
  intros Hcfg Hf. unfold pm_Set. pose proof Hcfg as (-> & _). cbn [negb].
  apply wp_bind, wp_self, wp_bind.
  assert (Hlink : wp (match pm_link (nw_m w) with None => Up | Some _ => mret () end)
    (set_post cfg (λ w', fresh (cfg_InterfaceName cfg) w' ∧ is_Some (pm_link (nw_m w')))) w).
  { destruct (pm_link (nw_m w)) eqn:Hl.
    2: { eapply wp_mono; [by apply wp_Up|]. intros [[]|e|] w' [Hf' Hl'];
           [by split; [|apply Hl']|by eapply fresh_set_failed|by eapply fresh_leaves]. }
    apply wp_ret. split; [done|]. rewrite Hl. by eexists. }
  eapply wp_mono; [exact Hlink|]. clear Hlink w Hf. intros [[]|e|] w Hw; [|done..].
  destruct Hw as (Hf & l & Hl). apply wp_bind, wp_self. rewrite Hl.
  pose proof (fr_link _ _ Hf l Hl) as Hix.
  eapply (set_step cfg); [exact Hf|intros; keeps_still|done|done|]. intros u w1 H1 Hf1.
  destruct (netlink_ParseAddr _) as [err|addr]; [apply wp_fail; by eapply fresh_set_failed|].
  eapply (set_step cfg); [exact Hf1|intros; apply still_setVPNAddress|done|done|]. intros u2 w2 H2 Hf2.
  assert (Hl2 : pm_link (nw_m w2) = Some l).
  { destruct H1 as (_ & _ & Hl1 & _), H2 as (_ & _ & Hl2 & _). congruence. }
  apply wp_bind. eapply wp_mono; [by apply (wp_set_underlay l)|]. intros [[]|e|] w3 H3; [|done..].
  apply wp_bind, wp_self. cbv beta zeta. unfold id.
  assert (Hlo : pm_localLink (nw_m w3) = cfg_local cfg) by (pose proof (bd_site _ _ _ _ H3 GServer); cbn in *; congruence).
  assert (Hgw : pm_gateway (nw_m w3) = cfg_gateway cfg) by (pose proof (bd_site _ _ _ _ H3 GServer); cbn in *; congruence).
  rewrite Hlo, Hgw. apply wp_bind, wp_fail_if; intros _.
  - split_and!; [apply H3| |].
    + eapply building_v4; [|exact H3]. intros g p. set_solver.
    + eapply leaves_mono; [by eapply building_leaves|]. set_solver.
  - eapply wp_mono; [by apply wp_install|]. intros [] w4 H4; [by exists l|done..].
Qed.

Lemma building_underlay l cfg A w :
  building l cfg A w → pm_localLink (nw_m w) = cfg_local cfg ∧ pm_gateway (nw_m w) = cfg_gateway cfg.
Proof. intros Hb. pose proof (bd_site _ _ _ _ Hb GServer) as Hs. cbn in Hs. by injection Hs. Qed.

Lemma hosts_app l1 l2 : addrsToHostPrefixes (l1 ++ l2) = addrsToHostPrefixes l1 ++ addrsToHostPrefixes l2.
Proof. apply fmap_app. Qed.

(** *** SetDynamicRoutes *)

Lemma wp_SetDynamicRoutes cfg include exclude r w :
  v4_config cfg → Forall v4_addr (include ++ dyn_Include r) → Forall v4_addr (exclude ++ dyn_Exclude r) →
  configured cfg include exclude w →
  wp (pm_SetDynamicRoutes r) (λ o w', match o with
    | Done _ => configured cfg (dyn_Include r) (dyn_Exclude r) w'
    | Failed _ => configured cfg (include ++ dyn_Include r) (exclude ++ dyn_Exclude r) w'
    | Crashed => leaves cfg (planned cfg (include ++ dyn_Include r) (exclude ++ dyn_Exclude r)) w'
    end) w.
Proof.
  intros Hcfg Hi He [l Hb]. set (A' := planned cfg (include ++ dyn_Include r) (exclude ++ dyn_Exclude r)).
  pose proof (planned_v4 cfg _ _ Hcfg Hi He) as Hv4. fold A' in Hv4.
  apply Forall_app in Hi as [Hi1 Hi2]. apply Forall_app in He as [He1 He2].
  assert (HA' : ∀ g, A' g = planned cfg include exclude g ∪ planned cfg (dyn_Include r) (dyn_Exclude r) g).
  { intros []; cbn; rewrite ?hosts_app, ?masked_set_app; set_solver. }
  assert (Hold : ∀ g, planned cfg include exclude g ⊆ A' g) by (intros; rewrite HA'; set_solver).
  assert (Hnew : ∀ g, planned cfg (dyn_Include r) (dyn_Exclude r) g ⊆ A' g) by (intros; rewrite HA'; set_solver).
  unfold pm_SetDynamicRoutes. apply wp_bind, wp_self. cbv beta zeta. unfold id.
  destruct (building_underlay _ _ _ _ Hb) as [Hlo Hgw]. rewrite (bd_link _ _ _ _ Hb), Hlo, Hgw.
  pose proof (building_sync l cfg _ GDynamicInclude (addrsToHostPrefixes (dyn_Include r)) w Hb) as Hw1.
  apply wp_bind. eapply wp_mono; [apply Hw1; [by eapply v4_sets_mono|by apply v4_hosts]|].
  clear Hw1. intros o w1 H1. cbn beta iota in H1.
  assert (Hgrow : ∀ A g S, (∀ g', A g' ⊆ A' g') → S ⊆ A' g → ∀ g', upd A g S g' ⊆ A' g').
  { intros A g S HA HS. by apply upd_sub. }
  assert (Hinc : masked_set (addrsToHostPrefixes (dyn_Include r)) ⊆ A' GDynamicInclude) by apply (Hnew GDynamicInclude).
  assert (Hexc : masked_set (addrsToHostPrefixes (dyn_Exclude r)) ⊆ A' GDynamicExclude) by apply (Hnew GDynamicExclude).
  destruct o as [[]|e|].
  - pose proof (building_sync l cfg _ GDynamicExclude (addrsToHostPrefixes (dyn_Exclude r)) w1 H1) as Hw2.
    eapply wp_mono; [apply Hw2; [by eapply v4_sets_mono; [|apply Hgrow]|by apply v4_hosts]|].
    clear Hw2. intros [[]|e|] w2 H2.
    + exists l. eapply building_mono; [exact H2|]. intros []; cbn; set_solver.
    + exists l. eapply building_mono; [exact H2|]. apply Hgrow; [by apply Hgrow|].
      cbn. specialize (Hold GDynamicExclude). cbn in Hold. set_solver.
    + eapply leaves_mono; [exact H2|]. apply Hgrow; [by apply Hgrow|].
      cbn. specialize (Hold GDynamicExclude). cbn in Hold. set_solver.
  - exists l. eapply building_mono; [exact H1|]. apply Hgrow; [done|].
    specialize (Hold GDynamicInclude). set_solver.
  - eapply leaves_mono; [exact H1|]. apply Hgrow; [done|].
    specialize (Hold GDynamicInclude). set_solver.
Qed.

(** *** Close *)

Lemma leaves_fewer cfg A w w' :
  leaves cfg A w → link_index (nw_k w') = link_index (nw_k w) →
  (∀ r, r ∈ routes (nw_k w') → r ∈ routes (nw_k w)) → leaves cfg A w'.
Proof.
  intros [Hl|(l & Hl & Hw)] Hi Hs; [left; auto|]. right. exists l. rewrite Hi. split; [done|].
  by eapply within_fewer.
Qed.

Lemma wp_pm_Close cfg A w :
  Held B w → v4_owned (nw_m w) → leaves cfg A w →
  wp pm_Close (λ o w', leaves cfg A w' ∧ (o = Done () → ∀ r, r ∈ routes (nw_k w') → B r)) w.
Proof.
  intros HH Hv Hl. eapply wp_mono; [by apply (wp_Close B)|]. intros o w' (Hi & Hs & Hd).
  split; [by eapply leaves_fewer|auto].
Qed.
End configured.
