(* ===== verification/Journal.v ===== *)
(** * The network ownership journal (src/internal/osnet/journal.go, journal_unix.go)

    A manager wrapped in [journaledManager] writes, before it changes the
    system, a file that names everything it is about to own; after a crash the
    next start of the daemon reads the file and undoes what it names.

    The wrapped manager is the interface [Manager]; [ManagerPromise] is what
    the journal relies on: after [Set] and [SetDynamicRoutes], finished, failed
    or cut short, the system holds at most what their arguments say, and a
    [Close] that returns nil leaves nothing.  LinuxConfig.v and NetRecovery.v
    show that the Linux manager keeps the promise. *)

From S2P Require Import Prelude GoStrings NetIP OsNet Fs Json.

Open Scope go_scope.
Open Scope Z_scope.

Definition networkJournalSchema : Z := 1.

Record ownershipJournal := mkJournal {
  oj_Schema : Z;
  oj_Phase : string;
  oj_InterfaceName : string;
  oj_InterfaceIndex : Z;
  oj_VPNAddress : string;
  oj_Gateway : string;
  oj_GatewayInterfaceIndex : Z;
  oj_ServerAddress : string;
  oj_IncludeRoutes : list string;
  oj_ExcludeRoutes : list string;
  oj_DynamicInclude : list string;
  oj_DynamicExclude : list string;
  oj_DNSServers : list string;
}.
#[export] Instance ownershipJournal_eta : Eta ownershipJournal := λ r,
  mkJournal (oj_Schema r) (oj_Phase r) (oj_InterfaceName r) (oj_InterfaceIndex r) (oj_VPNAddress r)
    (oj_Gateway r) (oj_GatewayInterfaceIndex r) (oj_ServerAddress r) (oj_IncludeRoutes r)
    (oj_ExcludeRoutes r) (oj_DynamicInclude r) (oj_DynamicExclude r) (oj_DNSServers r).

(** ** The file *)

Definition journal_names : list string :=
  ["schema"; "phase"; "interface_name"; "interface_index"; "vpn_address"; "gateway";
   "gateway_interface_index"; "server_address"; "include_routes"; "exclude_routes";
   "dynamic_include"; "dynamic_exclude"; "dns_servers"].

Definition omit_strings (k : string) (l : list string) : list (string * json) :=
  omit (length l =? 0)%nat k (enc_strings l).

Definition enc_journal (j : ownershipJournal) : json :=
  JObj ([("schema", JNum (oj_Schema j)); ("phase", JStr (oj_Phase j));
         ("interface_name", JStr (oj_InterfaceName j))] ++
        omit (oj_InterfaceIndex j =? 0) "interface_index" (JNum (oj_InterfaceIndex j)) ++
        omit (oj_VPNAddress j == "") "vpn_address" (JStr (oj_VPNAddress j)) ++
        omit (oj_Gateway j == "") "gateway" (JStr (oj_Gateway j)) ++
        omit (oj_GatewayInterfaceIndex j =? 0) "gateway_interface_index" (JNum (oj_GatewayInterfaceIndex j)) ++
        omit (oj_ServerAddress j == "") "server_address" (JStr (oj_ServerAddress j)) ++
        omit_strings "include_routes" (oj_IncludeRoutes j) ++
        omit_strings "exclude_routes" (oj_ExcludeRoutes j) ++
        omit_strings "dynamic_include" (oj_DynamicInclude j) ++
        omit_strings "dynamic_exclude" (oj_DynamicExclude j) ++
        omit_strings "dns_servers" (oj_DNSServers j) ++ []).

Definition set_journal (f : string) (v : json) (j : ownershipJournal) : error + ownershipJournal :=
  if f == "schema" then (λ x, j <| oj_Schema := x |>) <$?> dec_int (oj_Schema j) v else
  if f == "phase" then (λ x, j <| oj_Phase := x |>) <$?> dec_string (oj_Phase j) v else
  if f == "interface_name" then (λ x, j <| oj_InterfaceName := x |>) <$?> dec_string (oj_InterfaceName j) v else
  if f == "interface_index" then (λ x, j <| oj_InterfaceIndex := x |>) <$?> dec_int (oj_InterfaceIndex j) v else
  if f == "vpn_address" then (λ x, j <| oj_VPNAddress := x |>) <$?> dec_string (oj_VPNAddress j) v else
  if f == "gateway" then (λ x, j <| oj_Gateway := x |>) <$?> dec_string (oj_Gateway j) v else
  if f == "gateway_interface_index" then (λ x, j <| oj_GatewayInterfaceIndex := x |>) <$?> dec_int (oj_GatewayInterfaceIndex j) v else
  if f == "server_address" then (λ x, j <| oj_ServerAddress := x |>) <$?> dec_string (oj_ServerAddress j) v else
  if f == "include_routes" then (λ x, j <| oj_IncludeRoutes := x |>) <$?> dec_strings v else
  if f == "exclude_routes" then (λ x, j <| oj_ExcludeRoutes := x |>) <$?> dec_strings v else
  if f == "dynamic_include" then (λ x, j <| oj_DynamicInclude := x |>) <$?> dec_strings v else
  if f == "dynamic_exclude" then (λ x, j <| oj_DynamicExclude := x |>) <$?> dec_strings v else
  if f == "dns_servers" then (λ x, j <| oj_DNSServers := x |>) <$?> dec_strings v else
  inl (unknown_field f).

Definition zero_journal : ownershipJournal := mkJournal 0 "" "" 0 "" "" 0 "" [] [] [] [] [].

Definition dec_journal : json → error + ownershipJournal := decode_struct journal_names set_journal zero_journal.

(** What [readNetworkJournal] makes of the bytes. *)
Definition parse_journal (t : Text) : error + ownershipJournal :=
  match txt_values t with
  | [] => inl (if txt_junk t then decode_error else ErrSentinel IoEOF "EOF")
  | j :: rest =>
      match dec_journal j with
      | inl e => inl e
      | inr journal =>
          if negb (length rest =? 0)%nat || txt_junk t then inl (ErrText "network journal contains trailing data")
          else if negb (oj_Schema journal =? networkJournalSchema) || (oj_InterfaceName journal == "")
          then inl (ErrText ("unsupported or incomplete network journal schema " +:+ Itoa (oj_Schema journal)))
          else inr journal
      end
  end.

Definition journalFromConfig (cfg : Config) : ownershipJournal :=
  mkJournal networkJournalSchema "planned" (cfg_InterfaceName cfg) (cfg_InterfaceIndex cfg)
    (prefix_string (cfg_VPNAddress cfg))
    (if IsValid (cfg_Gateway cfg) then addr_string (cfg_Gateway cfg) else "")
    (cfg_GatewayInterfaceIndex cfg)
    (if IsValid (cfg_ServerAddress cfg) then addr_string (cfg_ServerAddress cfg) else "")
    (PrefixStrings (cfg_IncludeRoutes cfg)) (PrefixStrings (cfg_ExcludeRoutes cfg)) [] []
    (AddrStrings (cfg_DNSServers cfg)).

(** [unionStrings]: first occurrences, in order. *)
Fixpoint add_unseen (seen : gset string) (out : list string) (values : list string) : gset string * list string :=
  match values with
  | [] => (seen, out)
  | value :: values =>
      if bool_decide (value ∈ seen) then add_unseen seen out values
      else add_unseen ({[value]} ∪ seen) (out ++ [value]) values
  end.
Definition unionStrings (first second : list string) : list string :=
  let '(seen, out) := add_unseen ∅ [] first in (add_unseen seen out second).2.

(** ** Writing and removing it *)

Section file.
Context (path : string) (torn : Text).
Notation IO := (M (FS Text)).

Definition syncJournalDir : IO () := checked;; sync_dir.

(** [if err := call; err != nil { f.Close(); return err }]. *)
Definition closing {A} (call : IO A) : IO A :=
  r ← try call;
  match r with
  | inl err => _ ← try checked; fail err
  | inr a => mret a
  end.

Definition writeNetworkJournal (journal : ownershipJournal) : IO () :=
  _ ← fail_if (path == "") (ErrText "network journal path is empty");
  _ ← checked;                                    (* os.MkdirAll *)
  '(tmp, f) ← create_temp blank ".flexconnect-network-" ".tmp";
  defer (λ _, _ ← try (remove tmp); mret ())
    (_ ← closing (chmod_fd f 384);
     _ ← closing (write_fd f (text_of (enc_journal journal)) torn);
     _ ← closing (sync_fd f);
     _ ← checked;                                 (* f.Close *)
     _ ← rename tmp path;
     _ ← chmod path 384;
     syncJournalDir).

Definition removeNetworkJournal : IO () :=
  r ← try (remove path);
  match r with
  | inl err => if errors_is err NotExist then mret () else fail err
  | inr _ => syncJournalDir
  end.

Definition readNetworkJournal : IO ownershipJournal :=
  b ← read_file path;
  match parse_journal b with inl err => fail err | inr journal => mret journal end.
End file.

(** ** The wrapped manager *)

Class Manager (I : Type) := {
  mgr_Up : M I ();
  mgr_Set : option Config → M I ();
  mgr_SetDynamicRoutes : DynamicRoutes → M I ();
  mgr_Close : M I ();
}.

Record JW (I : Type) := mkJW { jw_fs : FS Text; jw_in : I; jw_journal : ownershipJournal }.
Arguments mkJW {I} _ _ _.
Arguments jw_fs {I} _.
Arguments jw_in {I} _.
Arguments jw_journal {I} _.
#[export] Instance JW_eta I : Eta (JW I) := λ r, mkJW (jw_fs r) (jw_in r) (jw_journal r).

(** [journaledManager]: its [mu] is held by every operation, so each of them
    is one step. *)
Section journaled.
Context {I : Type} `{Manager I} (path : string) (torn : Text).
Notation JM := (M (JW I)).

Definition on_disk {A} (call : M (FS Text) A) : JM A := λ w,
  let '(fs, o) := call (jw_fs w) in (w <| jw_fs := fs |>, o).
Definition on_inner {A} (call : M I A) : JM A := λ w,
  let '(i, o) := call (jw_in w) in (w <| jw_in := i |>, o).
Definition put_journal (j : ownershipJournal) : JM () := modify (λ w, w <| jw_journal := j |>).

Definition wrapJournal (interfaceName : string) : ownershipJournal :=
  zero_journal <| oj_Schema := networkJournalSchema |> <| oj_Phase := "planned" |> <| oj_InterfaceName := interfaceName |>.

Definition closeLocked : JM () :=
  r ← try (on_inner mgr_Close);
  match r with
  | inl err =>
      j ← read jw_journal;
      let j := j <| oj_Phase := "cleanup_failed" |> in
      _ ← put_journal j;
      _ ← try (on_disk (writeNetworkJournal path torn j));
      fail err
  | inr _ => on_disk (removeNetworkJournal path)
  end.

Definition jm_Set (cfg : option Config) : JM () :=
  match cfg with
  | None => closeLocked
  | Some c =>
    if negb (pfx_valid (cfg_VPNAddress c)) then closeLocked else
    let j := (journalFromConfig c) <| oj_Phase := "planned" |> in
    _ ← put_journal j;
    _ ← wrap (λ e, ErrWrap "write network ownership plan: " e "") (on_disk (writeNetworkJournal path torn j));
    r ← try (on_inner (mgr_Set (Some c)));
    match r with
    | inl err =>
        cleanup ← try (on_inner mgr_Close);
        match cleanup with
        | inr _ => _ ← try (on_disk (removeNetworkJournal path)); fail err
        | inl cleanupErr => fail (ErrJoin err (ErrWrap "rollback network transaction: " cleanupErr ""))
        end
    | inr _ =>
        let j := j <| oj_Phase := "active" |> in
        _ ← put_journal j;
        r ← try (on_disk (writeNetworkJournal path torn j));
        match r with
        | inl err =>
            cleanup ← try (on_inner mgr_Close);
            match cleanup with
            | inr _ => _ ← try (on_disk (removeNetworkJournal path));
                       fail (ErrWrap "commit network ownership journal: " err "")
            | inl cleanupErr => fail (ErrJoin (ErrWrap "commit network ownership journal: " err "") cleanupErr)
            end
        | inr _ => mret ()
        end
    end
  end.

Definition jm_SetDynamicRoutes (r : DynamicRoutes) : JM () :=
  let nextInclude := AddrStrings (dyn_Include r) in
  let nextExclude := AddrStrings (dyn_Exclude r) in
  journal ← read jw_journal;
  let planned := journal <| oj_DynamicInclude := unionStrings (oj_DynamicInclude journal) nextInclude |>
                         <| oj_DynamicExclude := unionStrings (oj_DynamicExclude journal) nextExclude |>
                         <| oj_Phase := "planned" |> in
  _ ← wrap (λ e, ErrWrap "write dynamic route ownership plan: " e "") (on_disk (writeNetworkJournal path torn planned));
  res ← try (on_inner (mgr_SetDynamicRoutes r));
  match res with
  | inl err => _ ← put_journal planned; fail err
  | inr _ =>
      let committed := planned <| oj_DynamicInclude := nextInclude |> <| oj_DynamicExclude := nextExclude |>
                               <| oj_Phase := "active" |> in
      res ← try (on_disk (writeNetworkJournal path torn committed));
      match res with
      | inl err => _ ← put_journal planned; fail err
      | inr _ => put_journal committed
      end
  end.

(** The life of one manager in a VPN session: configured once, the dynamic
    routes reconciled any number of times (their errors only reported), closed. *)
Fixpoint reconcile_all (rs : list DynamicRoutes) : JM () :=
  match rs with
  | [] => mret ()
  | r :: rs => _ ← try (jm_SetDynamicRoutes r); reconcile_all rs
  end.
Definition manager_life (cfg : Config) (rs : list DynamicRoutes) : JM () :=
  _ ← on_inner mgr_Up;
  _ ← jm_Set (Some cfg);
  _ ← reconcile_all rs;
  closeLocked.
End journaled.

(** ** What is written is what is read *)

Ltac journal_value :=
  cbn -[dec_int enc_strings dec_strings];
  rewrite ?dec_strings_enc, ?dec_int_in_range by assumption; unfold set_field; cbn; reflexivity.
Ltac journal_default :=
  let H := fresh in intros H;
  first [ apply eqb_true in H | apply Z.eqb_eq in H | apply Nat.eqb_eq, length_zero_iff_nil in H ]; by subst.
Ltac journal_field :=
  unfold omit_strings; eapply Decodes_omit; [reflexivity| |intros _; journal_value|]; [journal_default|].

Definition journal_int64 (j : ownershipJournal) : Prop :=
  int64 (oj_Schema j) ∧ int64 (oj_InterfaceIndex j) ∧ int64 (oj_GatewayInterfaceIndex j).

Lemma dec_journal_enc j : journal_int64 j → dec_journal (enc_journal j) = inr j.
Proof.
  intros (H1 & H2 & H3). destruct j. cbn in H1, H2, H3. apply Decodes_struct.
  cbn [oj_Schema oj_Phase oj_InterfaceName oj_InterfaceIndex oj_VPNAddress oj_Gateway
    oj_GatewayInterfaceIndex oj_ServerAddress oj_IncludeRoutes oj_ExcludeRoutes oj_DynamicInclude
    oj_DynamicExclude oj_DNSServers app].
  do 3 (eapply Decodes_cons; [reflexivity|journal_value|]).
  do 10 journal_field. apply Decodes_nil.
Qed.

(** A journal the reader accepts. *)
Definition complete (j : ownershipJournal) : Prop :=
  journal_int64 j ∧ oj_Schema j = networkJournalSchema ∧ oj_InterfaceName j ≠ "".

Lemma parse_journal_enc j : complete j → parse_journal (text_of (enc_journal j)) = inr j.
Proof.
  intros (Hi & Hs & Hn). unfold parse_journal. cbn [txt_values txt_junk text_of].
  rewrite dec_journal_enc by done. cbn [length Nat.eqb negb orb]. rewrite Hs, Z.eqb_refl.
  by apply eqb_false in Hn as ->.
Qed.

(** ** The file is replaced atomically *)

Section durable.
Context (path : string) (torn : Text) (Hpath : HasPrefix path ".flexconnect-network-" = false).
Implicit Types (V : option Text → Prop) (w : FS Text).

Definition written V (new : Text) (o : Outcome ()) w : Prop :=
  match o with
  | Done _ => may_hold path (λ r, r = Some new) w
  | _ => may_hold path (or_new V new) w
  end.

Lemma wp_journal_closing {A} (call : M (FS Text) A) (Q : Outcome A → FS Text → Prop) V new w :
  wp call (λ o w', match o with Done a => Q (Done a) w' | _ => may_hold path (or_new V new) w' end) w →
  (∀ e w', may_hold path (or_new V new) w' → Q (Failed e) w') →
  (∀ w', may_hold path (or_new V new) w' → Q Crashed w') →
  wp (closing call) Q w.
Proof.
  intros Hcall HF HC. apply wp_bind, wp_try. eapply wp_mono; [exact Hcall|].
  intros [a|e|] w1 H1; [by apply wp_ret| |by apply HC].
  apply wp_bind, wp_try. eapply wp_mono; [by apply wp_checked_hold|].
  intros [u|e'|] w2 H2; [by apply wp_fail, HF..|by apply HC].
Qed.

(** From the temporary file to the directory that is flushed. *)
Lemma wp_fill_journal V new tmp f w :
  filling path tmp V f (λ _, True) w →
  wp (_ ← closing (chmod_fd f 384); _ ← closing (write_fd f new torn); _ ← closing (sync_fd f);
      _ ← checked; _ ← rename tmp path; _ ← chmod path 384; syncJournalDir) (written V new) w.
Proof.
  intros H. apply wp_bind, (wp_journal_closing _ _ V new); [io_step wp_chmod_fd|done|done].
  apply wp_bind, (wp_journal_closing _ _ V new); [io_step wp_write_fd|done|done].
  apply wp_bind, (wp_journal_closing _ _ V new); [io_step wp_sync_fd|done|done].
  apply wp_bind. io_step wp_checked_filling.
  apply wp_bind. io_step wp_rename.
  apply wp_bind. io_step wp_chmod.
  unfold syncJournalDir. apply wp_bind. io_step wp_checked_renamed. io_step wp_sync_dir. apply H7.
Qed.

Lemma wp_writeNetworkJournal V j w :
  may_hold path V w →
  wp (writeNetworkJournal path torn j) (written V (text_of (enc_journal j))) w.
Proof using Hpath.
  intros HV. unfold writeNetworkJournal.
  apply wp_bind, wp_fail_if; intros _; [by apply may_hold_or_new|].
  apply wp_bind. io_step wp_checked_hold.
  apply wp_bind. io_step wp_create_temp. destruct a0 as [tmp f].
  assert (Hne : tmp ≠ path) by apply H0.
  apply wp_defer. eapply wp_mono; [by apply wp_fill_journal|]. intros o w2 H2.
  destruct o as [[]|e|]; cbn in H2; [apply wp_bind, wp_try..|exact H2];
    (eapply wp_mono; [by apply wp_remove_hold|]); intros [] w3 H3; try done.
  eapply may_hold_mono; [exact H3|]. intros r Hr. by right.
Qed.

(** Removing: the file may still be there. *)
Definition or_absent V (r : option Text) : Prop := V r ∨ r = None.

Lemma may_hold_delete V w :
  may_hold path V w → may_hold path (or_absent V) (set_names (delete path) w).
Proof.
  intros [Hc Hb]. split; cbn; [by left|]. intros names [->|Hin]%elem_of_cons.
  - exists None. split; [by right|]. unfold shows. by rewrite lookup_delete_eq.
  - destruct (Hb _ Hin) as (r & HV & Hr). exists r. split; [by left|done].
Qed.

Lemma wp_remove_itself V w :
  may_hold path V w → wp (remove path) (λ _ w', may_hold path (or_absent V) w') w.
Proof.
  intros HV. apply wp_syscall. intros s w'.
  assert (HV' : may_hold path (or_absent V) w').
  { eapply (may_hold_mono path V); [exact HV|by left]. }
  split; [|by split; [intros e|]]. apply wp_intro. intros w'' o.
  destruct (fs_names w' !! path); intros [= <- <-]; [|done].
  apply may_hold_delete. exact HV.
Qed.

Lemma wp_sync_hold V w : may_hold path V w → wp sync_dir (λ _ w', may_hold path V w') w.
Proof.
  intros [Hc Hb]. apply wp_syscall. intros s w'. split; [|by split; [intros e|]].
  apply wp_modify. split; cbn; [by left|]. intros names ->%list_elem_of_singleton.
  destruct (Hb _ Hc) as (r & HV & Hr). by exists r.
Qed.

Lemma wp_removeNetworkJournal V w :
  may_hold path V w →
  wp (removeNetworkJournal path) (λ _ w', may_hold path (or_absent V) w') w.
Proof.
  intros HV. unfold removeNetworkJournal, syncJournalDir.
  apply wp_bind, wp_try. eapply wp_mono; [by apply wp_remove_itself|].
  intros [[]|e|] w1 H1; [| |done].
  - apply wp_bind. eapply wp_mono; [by apply wp_checked_hold|].
    intros [[]|e|] w2 H2; [by apply wp_sync_hold|done..].
  - destruct (errors_is e NotExist); [by apply wp_ret|by apply wp_fail].
Qed.
End durable.

(** ** The promise of the wrapped manager *)

Class ManagerPromise (I : Type) `{Manager I} := {
  mp_config : Config → Prop;             (* the configurations it is for *)
  mp_addr : Addr → Prop;                 (* and the dynamic addresses *)
  mp_fresh : Config → I → Prop;          (* nothing configured yet *)
  mp_configured : Config → list Addr → list Addr → I → Prop;
  mp_closable : I → Prop;
  (* the system holds at most what the arguments say *)
  mp_leaves : Config → list Addr → list Addr → I → Prop;
  mp_clean : I → Prop;                   (* nothing of the manager's is left *)
  mp_up cfg i : mp_config cfg → mp_fresh cfg i → wp mgr_Up (λ _ i', mp_fresh cfg i') i;
  mp_set cfg i : mp_config cfg → mp_fresh cfg i →
    wp (mgr_Set (Some cfg)) (λ o i', match o with
      | Done _ => mp_configured cfg [] [] i'
      | Failed _ => mp_closable i' ∧ mp_leaves cfg [] [] i'
      | Crashed => mp_leaves cfg [] [] i'
      end) i;
  mp_dynamic cfg a b r i : mp_config cfg →
    Forall mp_addr (a ++ dyn_Include r) → Forall mp_addr (b ++ dyn_Exclude r) → mp_configured cfg a b i →
    wp (mgr_SetDynamicRoutes r) (λ o i', match o with
      | Done _ => mp_configured cfg (dyn_Include r) (dyn_Exclude r) i'
      | Failed _ => mp_configured cfg (a ++ dyn_Include r) (b ++ dyn_Exclude r) i'
      | Crashed => mp_leaves cfg (a ++ dyn_Include r) (b ++ dyn_Exclude r) i'
      end) i;
  mp_close cfg a b i : mp_closable i → mp_leaves cfg a b i →
    wp mgr_Close (λ o i', mp_leaves cfg a b i' ∧ (o = Done () → mp_clean i')) i;
  mp_configured_facts cfg a b i : mp_config cfg → Forall mp_addr a → Forall mp_addr b →
    mp_configured cfg a b i → mp_closable i ∧ mp_leaves cfg a b i;
  mp_fresh_clean cfg i : mp_fresh cfg i → mp_clean i;
  mp_clean_leaves cfg a b i : mp_clean i → mp_leaves cfg a b i;
}.

(** ** The journal accounts for the system *)

Definition config_complete (cfg : Config) : Prop :=
  int64 (cfg_InterfaceIndex cfg) ∧ int64 (cfg_GatewayInterfaceIndex cfg) ∧ cfg_InterfaceName cfg ≠ "".

Section describes.
Context (ok : Addr → Prop).

(** [j] is the journal of [cfg] and names at least these dynamic addresses,
    and no string that is not an address of the kind. *)
Definition address_string (s : string) : Prop := ∃ a, ok a ∧ s = addr_string (Unmap a).
Definition describes (j : ownershipJournal) (cfg : Config) (a b : list Addr) : Prop :=
  (∃ phase di de, j = (journalFromConfig cfg) <| oj_Phase := phase |> <| oj_DynamicInclude := di |>
                        <| oj_DynamicExclude := de |>) ∧
  AddrStrings a ⊆ oj_DynamicInclude j ∧ AddrStrings b ⊆ oj_DynamicExclude j ∧
  Forall address_string (oj_DynamicInclude j) ∧ Forall address_string (oj_DynamicExclude j).

Lemma describes_complete j cfg a b : config_complete cfg → describes j cfg a b → complete j.
Proof. intros (? & ? & ?) ((phase & di & de & ->) & _). by split_and!. Qed.

Lemma describes_phase j cfg a b phase :
  describes j cfg a b → describes (j <| oj_Phase := phase |>) cfg a b.
Proof. intros ((p & di & de & ->) & Ha & Hb). split; [|done]. by exists phase, di, de. Qed.

Lemma describes_dynamic j cfg a b phase di de :
  (∃ a0 b0, describes j cfg a0 b0) → AddrStrings a ⊆ di → AddrStrings b ⊆ de →
  Forall address_string di → Forall address_string de →
  describes (j <| oj_DynamicInclude := di |> <| oj_DynamicExclude := de |> <| oj_Phase := phase |>) cfg a b.
Proof.
  intros (a0 & b0 & (p & di0 & de0 & ->) & _) Ha Hb Hi He. split; [|done]. by exists phase, di, de.
Qed.

Lemma AddrStrings_ok a : Forall ok a → Forall address_string (AddrStrings a).
Proof. intros Ha. apply Forall_fmap. eapply Forall_impl; [exact Ha|]. intros x Hx. by exists x. Qed.
End describes.

Lemma add_unseen_spec seen out values :
  (∀ x, x ∈ seen ↔ x ∈ out) →
  (∀ x, x ∈ (add_unseen seen out values).2 ↔ x ∈ out ∨ x ∈ values) ∧
  (∀ x, x ∈ (add_unseen seen out values).1 ↔ x ∈ (add_unseen seen out values).2).
Proof.
  revert seen out. induction values as [|v values IH]; intros seen out Hs; cbn [add_unseen].
  { split; [|done]. intros x. set_solver. }
  case_bool_decide as Hv.
  - destruct (IH seen out Hs) as [H1 H2]. split; [|done]. intros x. rewrite H1, elem_of_cons.
    rewrite Hs in Hv. naive_solver.
  - destruct (IH ({[v]} ∪ seen) (out ++ [v])) as [H1 H2].
    { intros x. rewrite elem_of_union, elem_of_singleton, elem_of_app, list_elem_of_singleton, Hs. naive_solver. }
    split; [|done]. intros x. rewrite H1, elem_of_app, list_elem_of_singleton, elem_of_cons. naive_solver.
Qed.

Lemma elem_of_unionStrings x l1 l2 : x ∈ unionStrings l1 l2 ↔ x ∈ l1 ∨ x ∈ l2.
Proof.
  unfold unionStrings. destruct (add_unseen_spec ∅ [] l1) as [H1 H2]; [set_solver|].
  destruct (add_unseen ∅ [] l1) as [seen out]. cbn in H1, H2.
  destruct (add_unseen_spec seen out l2 H2) as [H3 _]. rewrite H3, H1. set_solver.
Qed.

Lemma Forall_union (P : string → Prop) l1 l2 : Forall P l1 → Forall P l2 → Forall P (unionStrings l1 l2).
Proof. rewrite !Forall_forall. intros H1 H2 x [?|?]%elem_of_unionStrings; auto. Qed.

Lemma AddrStrings_app a b : AddrStrings (a ++ b) = AddrStrings a ++ AddrStrings b.
Proof. apply fmap_app. Qed.

Lemma union_app a l b : AddrStrings a ⊆ l → AddrStrings (a ++ b) ⊆ unionStrings l (AddrStrings b).
Proof.
  intros Ha x. rewrite AddrStrings_app, elem_of_app, elem_of_unionStrings. intros [?|?]; [left; by apply Ha|by right].
Qed.

Lemma union_right l b : AddrStrings b ⊆ unionStrings l (AddrStrings b).
Proof. intros x Hx. apply elem_of_unionStrings. by right. Qed.

Section accounts.
Context {I : Type} `{ManagerPromise I} (path : string) (torn : Text).
Context (Hpath : HasPrefix path ".flexconnect-network-" = false).
Implicit Types (w : JW I) (V : option Text → Prop).

Definition journal_text (j : ownershipJournal) : Text := text_of (enc_journal j).

(** The file names what the arguments say. *)
Definition named cfg a b (r : option Text) : Prop := ∃ j, r = Some (journal_text j) ∧ describes mp_addr j cfg a b.

(** The file names what is left, or nothing is left. *)
Definition accounts cfg a b (i : I) (r : option Text) : Prop := named cfg a b r ∨ (r = None ∧ mp_clean i).

Definition accounted cfg w : Prop :=
  ∃ a b, Forall mp_addr a ∧ Forall mp_addr b ∧ mp_leaves cfg a b (jw_in w) ∧
    may_hold path (accounts cfg a b (jw_in w)) (jw_fs w).

Definition active cfg a b w : Prop :=
  Forall mp_addr a ∧ Forall mp_addr b ∧ mp_configured cfg a b (jw_in w) ∧
  describes mp_addr (jw_journal w) cfg a b ∧ may_hold path (named cfg a b) (jw_fs w).

Lemma active_accounted cfg a b w : mp_config cfg → active cfg a b w → accounted cfg w ∧ mp_closable (jw_in w).
Proof.
  intros Hc (Ha & Hb & Hm & _ & Hf). destruct (mp_configured_facts cfg a b _ Hc Ha Hb Hm) as [Hcl Hl].
  split; [|done]. exists a, b. split_and!; [done..|]. eapply may_hold_mono; [exact Hf|]. by left.
Qed.

Lemma wp_disk {A} (call : M (FS Text) A) (Q : Outcome A → JW I → Prop) w :
  wp call (λ o fs, Q o (mkJW fs (jw_in w) (jw_journal w))) (jw_fs w) → wp (on_disk call) Q w.
Proof. unfold wp, on_disk. destruct (call (jw_fs w)) as [fs o], w. done. Qed.

Lemma wp_inner {A} (call : M I A) (Q : Outcome A → JW I → Prop) w :
  wp call (λ o i, Q o (mkJW (jw_fs w) i (jw_journal w))) (jw_in w) → wp (on_inner call) Q w.
Proof. unfold wp, on_inner. destruct (call (jw_in w)) as [i o], w. done. Qed.

Lemma wp_put_journal j (Q : Outcome () → JW I → Prop) w :
  Q (Done ()) (mkJW (jw_fs w) (jw_in w) j) → wp (put_journal j) Q w.
Proof. by destruct w. Qed.

(** A write of a journal that names at least as much. *)
Lemma wp_write_named V j cfg a b w :
  may_hold path V (jw_fs w) → (∀ r, V r → named cfg a b r) → describes mp_addr j cfg a b →
  wp (on_disk (writeNetworkJournal path torn j)) (λ o w',
    jw_in w' = jw_in w ∧ jw_journal w' = jw_journal w ∧ may_hold path (named cfg a b) (jw_fs w') ∧
    match o with Done _ => may_hold path (λ r, r = Some (journal_text j)) (jw_fs w') | _ => True end) w.
Proof using Hpath.
  intros HV Hn Hd. apply wp_disk. eapply wp_mono; [by apply (wp_writeNetworkJournal path torn Hpath V)|].
  intros o fs Ho. split; [done|]. split; [done|]. cbn [jw_fs].
  assert (Hj : named cfg a b (Some (text_of (enc_journal j)))) by (exists j; by split).
  split; [|by destruct o].
  destruct o; cbn in Ho; (eapply may_hold_mono; [exact Ho|]); intros r.
  - by intros ->.
  - by intros [?| ->]; auto.
  - by intros [?| ->]; auto.
Qed.

(** Giving everything back: [Close] of the wrapped manager and the file's
    removal, or the file stays. *)
Lemma wp_rollback {A} cfg a b V (m : error + () → M (JW I) A) (Q : Outcome A → JW I → Prop) w :
  Forall mp_addr a → Forall mp_addr b → mp_closable (jw_in w) → mp_leaves cfg a b (jw_in w) →
  may_hold path V (jw_fs w) → (∀ r, V r → named cfg a b r) →
  (∀ w', accounted cfg w' → Q Crashed w') →
  (∀ w', jw_journal w' = jw_journal w → mp_clean (jw_in w') → may_hold path V (jw_fs w') →
     mp_leaves cfg a b (jw_in w') → wp (m (inr ())) Q w') →
  (∀ err w', jw_journal w' = jw_journal w → may_hold path V (jw_fs w') →
     mp_leaves cfg a b (jw_in w') → wp (m (inl err)) Q w') →
  wp (try (on_inner mgr_Close) ≫= m) Q w.
Proof.
  intros Ha Hb Hcl Hl HV Hn HC Hok Hko. apply wp_bind, wp_try, wp_inner.
  eapply wp_mono; [by apply (mp_close cfg a b)|]. intros [[]|e|] i [Hl' Hd].
  - apply Hok; cbn; auto.
  - by apply Hko.
  - apply HC. exists a, b. split_and!; [done..|]. cbn. eapply may_hold_mono; [exact HV|]. left. auto.
Qed.

Lemma wp_removed {A} cfg a b V (m : error + () → M (JW I) A) (Q : Outcome A → JW I → Prop) w :
  Forall mp_addr a → Forall mp_addr b → mp_clean (jw_in w) →
  may_hold path V (jw_fs w) → (∀ r, V r → accounts cfg a b (jw_in w) r) →
  (∀ w', accounted cfg w' → Q Crashed w') →
  (∀ x w', accounted cfg w' → mp_clean (jw_in w') → wp (m x) Q w') →
  wp (try (on_disk (removeNetworkJournal path)) ≫= m) Q w.
Proof.
  intros Ha Hb Hc HV Hn HC Hk. apply wp_bind, wp_try, wp_disk.
  eapply wp_mono; [by apply (wp_removeNetworkJournal path V)|]. intros o fs Ho.
  assert (Hacc : accounted cfg (mkJW fs (jw_in w) (jw_journal w))).
  { exists a, b. split_and!; [done..|by apply mp_clean_leaves|]. cbn. eapply may_hold_mono; [exact Ho|].
    intros r [HVr| ->]; [by apply Hn|by right]. }
  destruct o as [u|e|]; [by apply Hk..|by apply HC].
Qed.

Lemma wp_closeLocked cfg a b w :
  mp_config cfg → active cfg a b w →
  wp (closeLocked path torn) (λ o w', accounted cfg w' ∧ (o = Done () → mp_clean (jw_in w'))) w.
Proof using Hpath.
  intros Hc Ha. pose proof (active_accounted _ _ _ _ Hc Ha) as [_ Hcl].
  destruct Ha as (Ha & Hb & Hm & Hj & Hf). destruct (mp_configured_facts cfg a b _ Hc Ha Hb Hm) as [_ Hl].
  unfold closeLocked. eapply wp_rollback; [exact Ha|exact Hb|exact Hcl|exact Hl|exact Hf|done|done| |].
  - intros w1 _ Hclean Hf1 Hl1. apply wp_disk.
    eapply wp_mono; [by apply wp_removeNetworkJournal|]. intros o fs Ho. split; [|done].
    exists a, b. split_and!; [done..|]. cbn. eapply may_hold_mono; [exact Ho|].
    intros r [?| ->]; [by left|by right].
  - intros err w1 Hj1 Hf1 Hl1. apply wp_bind, wp_read, wp_bind, wp_put_journal, wp_bind, wp_try.
    eapply wp_mono; [eapply (wp_write_named (named cfg a b)); [exact Hf1|done|]|].
    { rewrite Hj1. by apply describes_phase. }
    intros o w2 (Hi & _ & Hf2 & _). cbn in Hi.
    assert (Hacc : accounted cfg w2).
    { exists a, b. rewrite Hi. split_and!; [done..|]. eapply may_hold_mono; [exact Hf2|by left]. }
    by destruct o as [u|e|]; [apply wp_fail..|].
Qed.

(** The tail of a failed [Set]: remove what can be removed. *)
Lemma wp_undo cfg V (err : error) (joined : error → error) w :
  mp_closable (jw_in w) → mp_leaves cfg [] [] (jw_in w) →
  may_hold path V (jw_fs w) → (∀ r, V r → named cfg [] [] r) →
  wp (cleanup ← try (on_inner mgr_Close);
      match cleanup with
      | inr _ => _ ← try (on_disk (removeNetworkJournal path)); fail err
      | inl cleanupErr => fail (A:=()) (joined cleanupErr)
      end) (λ o w', accounted cfg w' ∧ o ≠ Done ()) w.
Proof.
  intros Hcl Hl HV Hn. eapply (wp_rollback cfg [] []); [done|done|done|done|exact HV|done|by split| |].
  - intros w1 _ Hc1 Hf1 Hl1. eapply (wp_removed cfg [] []); [done|done|done|exact Hf1| |by split|].
    + intros r Hr. left. by apply Hn.
    + intros x w2 H2 _. by apply wp_fail.
  - intros e w1 _ Hf1 Hl1. apply wp_fail. split; [|done]. exists [], []. split_and!; [done..|].
    eapply may_hold_mono; [exact Hf1|]. intros r Hr. left. by apply Hn.
Qed.

Lemma wp_jm_Set cfg w :
  mp_config cfg → pfx_valid (cfg_VPNAddress cfg) = true → mp_fresh cfg (jw_in w) →
  may_hold path (λ r, r = None) (jw_fs w) →
  wp (jm_Set path torn (Some cfg)) (λ o w', match o with
    | Done _ => active cfg [] [] w'
    | _ => accounted cfg w'
    end) w.
Proof using Hpath.
  intros Hcfg Hvalid Hfresh Hf. unfold jm_Set. rewrite Hvalid. cbn [negb]. cbv zeta.
  set (j0 := (journalFromConfig cfg) <| oj_Phase := "planned" |>).
  assert (Hj0 : describes mp_addr j0 cfg [] []).
  { split; [by exists "planned", [], []|]. split_and!; cbn; try apply Forall_nil_2; intros x Hx; by apply not_elem_of_nil in Hx. }
  pose proof (mp_fresh_clean cfg _ Hfresh) as Hclean.
  apply wp_bind, wp_put_journal, wp_bind, wp_wrap, wp_disk.
  eapply wp_mono; [by apply (wp_writeNetworkJournal path torn Hpath (λ r, r = None))|].
  intros o fs Ho. cbn [jw_fs jw_in jw_journal] in *.
  assert (Hacc : may_hold path (or_new (λ r, r = None) (journal_text j0)) fs → accounted cfg (mkJW fs (jw_in w) j0)).
  { intros Hm. exists [], []. split_and!; [done..|by apply mp_clean_leaves|]. cbn.
    eapply may_hold_mono; [exact Hm|]. intros r [->| ->]; [by right|left]. by exists j0. }
  destruct o as [[]|e|]; [|by apply Hacc..]. cbn [written] in Ho.
  assert (Hn0 : ∀ r, r = Some (text_of (enc_journal j0)) → named cfg [] [] r) by (intros r ->; by exists j0).
  apply wp_bind, wp_try, wp_inner. cbn. eapply wp_mono; [by apply mp_set|].
  intros [[]|e|] i Hi; cbn beta iota.
  - destruct (mp_configured_facts cfg [] [] i Hcfg (Forall_nil_2 _) (Forall_nil_2 _) Hi) as [Hcl Hl].
    apply wp_bind, wp_put_journal, wp_bind, wp_try. cbn.
    assert (Hj1 : describes mp_addr (j0 <| oj_Phase := "active" |>) cfg [] []) by by apply describes_phase.
    eapply wp_mono; [eapply (wp_write_named (λ r, r = Some (text_of (enc_journal j0)))); [exact Ho|done|exact Hj1]|].
    intros o w2 (Hi2 & Hj2 & Hf2 & _). cbn in Hi2, Hj2.
    destruct o as [u|e|].
    + split_and!; [done..|by rewrite Hi2|by rewrite Hj2|done].
    + eapply wp_mono; [eapply (wp_undo cfg (named cfg [] [])); [by rewrite Hi2..|exact Hf2|done]|].
      intros [[]|e'|] w3 [H3 H3']; [by destruct H3'|done..].
    + exists [], []. split_and!; [done..|by rewrite Hi2|]. eapply may_hold_mono; [exact Hf2|by left].
  - destruct Hi as [Hcl Hl].
    eapply wp_mono; [eapply (wp_undo cfg); [exact Hcl|exact Hl|exact Ho|done]|].
    intros [[]|e'|] w3 [H3 H3']; [by destruct H3'|done..].
  - exists [], []. split_and!; [done..|]. cbn. eapply may_hold_mono; [exact Ho|]. intros r Hr. left. by apply Hn0.
Qed.

Lemma wp_jm_SetDynamicRoutes cfg a b r w :
  mp_config cfg → Forall mp_addr (dyn_Include r) → Forall mp_addr (dyn_Exclude r) → active cfg a b w →
  wp (jm_SetDynamicRoutes path torn r) (λ o w', match o with
    | Crashed => accounted cfg w'
    | _ => ∃ a' b', active cfg a' b' w'
    end) w.
Proof using Hpath.
  intros Hcfg Hri Hre Hact. pose proof Hact as (Ha & Hb & Hm & Hj & Hf).
  unfold jm_SetDynamicRoutes. cbv zeta. apply wp_bind, wp_read.
  set (next := AddrStrings (dyn_Include r)). set (nexte := AddrStrings (dyn_Exclude r)).
  set (planned := (jw_journal w) <| oj_DynamicInclude := _ |> <| oj_DynamicExclude := _ |> <| oj_Phase := "planned" |>).
  assert (Hdi : Forall (address_string mp_addr) (unionStrings (oj_DynamicInclude (jw_journal w)) next)).
  { apply Forall_union; [apply Hj|by apply AddrStrings_ok]. }
  assert (Hde : Forall (address_string mp_addr) (unionStrings (oj_DynamicExclude (jw_journal w)) nexte)).
  { apply Forall_union; [apply Hj|by apply AddrStrings_ok]. }
  assert (Hplan : describes mp_addr planned cfg (a ++ dyn_Include r) (b ++ dyn_Exclude r)).
  { apply describes_dynamic; [by exists a, b|by apply union_app, Hj..|done|done]. }
  assert (Hplan_old : describes mp_addr planned cfg a b).
  { apply describes_dynamic; [by exists a, b|..|done|done]; intros x Hx; apply elem_of_unionStrings; left; by apply Hj. }
  assert (Hplan_new : describes mp_addr planned cfg (dyn_Include r) (dyn_Exclude r)).
  { apply describes_dynamic; [by exists a, b|by apply union_right..|done|done]. }
  assert (Hai : Forall mp_addr (a ++ dyn_Include r)) by by apply Forall_app.
  assert (Hbe : Forall mp_addr (b ++ dyn_Exclude r)) by by apply Forall_app.
  apply wp_bind, wp_wrap. eapply wp_mono; [by eapply (wp_write_named (named cfg a b))|].
  intros o w1 (Hi1 & Hj1 & Hf1 & Hp1).
  assert (Hact1 : active cfg a b w1) by (split_and!; [done..|by rewrite Hi1|by rewrite Hj1|done]).
  destruct o as [u|e|]; [|by exists a, b|by eapply active_accounted].
  assert (Hnamed : may_hold path (named cfg (a ++ dyn_Include r) (b ++ dyn_Exclude r)) (jw_fs w1)).
  { eapply may_hold_mono; [exact Hp1|]. intros x ->. by exists planned. }
  apply wp_bind, wp_try, wp_inner. rewrite Hi1.
  eapply wp_mono; [by apply (mp_dynamic cfg a b)|]. intros o i Hi.
  destruct o as [u2|e|]; cbn beta iota.
  - apply wp_bind, wp_try. eapply wp_mono; [eapply (wp_write_named _ _ cfg (dyn_Include r) (dyn_Exclude r)); [exact Hp1| |]|].
    + intros x ->. by exists planned.
    + apply (describes_dynamic mp_addr planned); [by eexists _, _|done|done|by apply AddrStrings_ok..].
    + intros o w2 (Hi2 & Hj2 & Hf2 & _). cbn in Hi2.
      destruct o as [u3|e|]; cbn beta iota.
      * apply wp_put_journal. exists (dyn_Include r), (dyn_Exclude r). split_and!; cbn; [done..|by rewrite Hi2| |done].
        apply (describes_dynamic mp_addr planned); [by eexists _, _|done|done|by apply AddrStrings_ok..].
      * apply wp_bind, wp_put_journal, wp_fail. exists (dyn_Include r), (dyn_Exclude r).
        split_and!; cbn; [done..|by rewrite Hi2|done|done].
      * exists (dyn_Include r), (dyn_Exclude r).
        destruct (mp_configured_facts cfg _ _ _ Hcfg Hri Hre Hi) as [_ Hl].
        split_and!; [done..|by rewrite Hi2|]. eapply may_hold_mono; [exact Hf2|by left].
  - apply wp_bind, wp_put_journal, wp_fail. by exists (a ++ dyn_Include r), (b ++ dyn_Exclude r).
  - exists (a ++ dyn_Include r), (b ++ dyn_Exclude r). split_and!; [done..|]. cbn.
    eapply may_hold_mono; [exact Hnamed|by left].
Qed.

Definition dynamic_ok (r : DynamicRoutes) : Prop := Forall mp_addr (dyn_Include r) ∧ Forall mp_addr (dyn_Exclude r).

Lemma wp_reconcile_all cfg a b rs w :
  mp_config cfg → Forall dynamic_ok rs → active cfg a b w →
  wp (reconcile_all path torn rs) (λ o w', match o with
    | Crashed => accounted cfg w'
    | _ => ∃ a' b', active cfg a' b' w'
    end) w.
Proof using Hpath.
  intros Hcfg Hrs. revert a b w. induction Hrs as [|r rs [Hi He] _ IH]; intros a b w Hact.
  { apply wp_ret. by exists a, b. }
  cbn [reconcile_all]. apply wp_bind, wp_try. eapply wp_mono; [by apply (wp_jm_SetDynamicRoutes cfg a b)|].
  intros [u|e|] w1 H1; [destruct H1 as (a' & b' & H1); by eapply IH..|done].
Qed.

(** A manager's whole life: at the end, and wherever the daemon dies, the
    journal on disk accounts for what the system holds; after a close that
    returned nil nothing is left. *)
Lemma wp_manager_life cfg rs w :
  mp_config cfg → pfx_valid (cfg_VPNAddress cfg) = true → Forall dynamic_ok rs → mp_fresh cfg (jw_in w) →
  may_hold path (λ r, r = None) (jw_fs w) →
  wp (manager_life path torn cfg rs) (λ o w', accounted cfg w' ∧ (o = Done () → mp_clean (jw_in w'))) w.
Proof using Hpath.
  intros Hcfg Hv Hrs Hfr Hf. apply wp_bind, wp_inner. eapply wp_mono; [by apply mp_up|]. intros o i Hi.
  pose proof (mp_fresh_clean cfg i Hi) as Hclean.
  assert (Hacc : accounted cfg (mkJW (jw_fs w) i (jw_journal w))).
  { exists [], []. split_and!; [done..|by apply mp_clean_leaves|]. eapply may_hold_mono; [exact Hf|]. by right. }
  destruct o as [u|e|]; [|by split..].
  apply wp_bind. eapply wp_mono; [by apply wp_jm_Set|].
  intros [[]|e|] w1 H1; [|by split..]. apply wp_bind. eapply wp_mono; [by apply (wp_reconcile_all cfg [] [])|].
  intros [[]|e|] w2 H2; cbn beta iota in H2.
  - destruct H2 as (a & b & H2). by eapply wp_closeLocked.
  - destruct H2 as (a & b & H2). split; [|done]. by eapply active_accounted.
  - by split.
Qed.
End accounts.
