(* ===== verification/NetRecovery.v ===== *)
(** * Network recovery on Linux
    (src/internal/osnet/journal_recover_linux.go, [RecoverNetworkJournal])

    The Linux manager keeps the promise the journal asks for, the recovery of a
    journal undoes every route it names, and so a crash at any moment of a VPN
    session leaves nothing behind once the next start has recovered. *)

From S2P Require Import Prelude GoStrings NetIP OsNet Fs Json LinuxNet LinuxConfig Journal.

Open Scope go_scope.
Open Scope Z_scope.

#[local] Set Default Proof Using "Type*".

(** ** The Linux manager under a journal *)

#[export] Instance linux_manager (K : Type) `{Kernel K} : Manager (NetW K) := {
  mgr_Up := Up;
  mgr_Set := pm_Set;
  mgr_SetDynamicRoutes := pm_SetDynamicRoutes;
  mgr_Close := pm_Close;
}.

#[export] Program Instance linux_promise (K : Type) `{KernelLaws K} (B : Route → Prop) : ManagerPromise (NetW K) := {
  mp_config := v4_config;
  mp_addr := v4_addr;
  mp_fresh cfg w := fresh B (cfg_InterfaceName cfg) w;
  mp_configured := configured B;
  mp_closable w := Held B w ∧ v4_owned (nw_m w);
  mp_leaves cfg a b w := leaves B cfg (planned cfg a b) w;
  mp_clean w := ∀ r, r ∈ routes (nw_k w) → B r;
}.
Next Obligation.
  intros K ? ? B cfg w Hcfg Hf. refine (wp_mono _ _ _ _ (wp_Up B _ w Hf) _). by intros o w' [? _].
Qed.
Next Obligation.
  intros K ? ? B cfg w Hcfg Hf. refine (wp_mono _ _ _ _ (wp_Set B cfg w Hcfg Hf) _).
  intros [u|e|] w' Hw; [done| |done]. destruct Hw as (? & ? & ?). by split_and!.
Qed.
Next Obligation.
  intros K ? ? B cfg a b r w Hcfg Ha Hb Hc. exact (wp_SetDynamicRoutes B cfg a b r w Hcfg Ha Hb Hc).
Qed.
Next Obligation.
  intros K ? ? B cfg a b w [HH Hv] Hl. exact (wp_pm_Close B cfg _ w HH Hv Hl).
Qed.
Next Obligation.
  intros K ? ? B cfg a b w Hcfg Ha Hb [l Hbd]. split_and!.
  - apply Hbd.
  - eapply building_v4; [|exact Hbd]. by apply planned_v4.
  - by eapply building_leaves.
Qed.
Next Obligation. intros K ? ? B cfg w Hf r. apply (fr_routes B _ _ Hf). Qed.
Next Obligation. intros K ? ? B cfg a b w Hc. by left. Qed.

(** ** Recovery *)

Definition host_prefix_string (address : string) : string :=
  match ParseAddr address with
  | None => address
  | Some addr => prefix_string (PrefixFrom addr (BitLen addr))
  end.
Definition routeStrings (address : string) : list string :=
  if address == "" then [] else [host_prefix_string address].
Definition hostRouteStrings (addresses : list string) : list string := host_prefix_string <$> addresses.

(** [errs = append(errs, err)] for an [errors.Join] at the end. *)
Definition also (errs : option error) (err : error) : option error :=
  Some (match errs with None => err | Some e => ErrJoin e err end).

Section recover.
Context {K : Type} `{Kernel K}.

(** One loop of [platformRecoverJournal]; [skip] is the test on [tunLink]. *)
Fixpoint recover_routes (skip : bool) (link : option Z) (gateway : option Addr) (priority : Z)
    (raws : list string) (errs : option error) : M K (option error) :=
  match raws with
  | [] => mret errs
  | raw :: raws =>
      match netip_ParsePrefix raw with
      | None => recover_routes skip link gateway priority raws (also errs (ErrText "ParsePrefix"))
      | Some prefix =>
          if skip then recover_routes skip link gateway priority raws errs else
          r ← try (routeDel prefix link gateway priority);
          recover_routes skip link gateway priority raws
            (match r with inl err => also errs err | inr _ => errs end)
      end
  end.

Definition attempt {A} (m : M K A) : M K (option A) :=
  r ← try m;
  mret (match r with inl _ => None | inr a => Some a end).

Definition recover_dns (journal : ownershipJournal) (tunLink : option Z) (errs : option error) : M K (option error) :=
  if (length (oj_DNSServers journal) =? 0)%nat then mret errs else
  _ ← match tunLink with
      | None => mret None
      | Some l =>
          bus ← attempt SystemBus;
          match bus with None => mret None | Some _ => attempt (RevertLink l) end
      end;
  path ← LookPath_resolvconf;
  match path with
  | None => mret errs
  | Some _ =>
      r ← try (resolvconf_delete ("flexconnect." +:+ oj_InterfaceName journal));
      mret (match r with
            | inl err => if negb (Contains (ToLower (error_msg err)) "not found") then also errs err else errs
            | inr _ => errs
            end)
  end.

Definition physical_raws (journal : ownershipJournal) : list string :=
  routeStrings (oj_ServerAddress journal) ++ oj_ExcludeRoutes journal ++ hostRouteStrings (oj_DynamicExclude journal).
Definition tun_raws (journal : ownershipJournal) : list string :=
  oj_IncludeRoutes journal ++ hostRouteStrings (oj_DynamicInclude journal).

Definition platformRecoverJournal (journal : ownershipJournal) : M K () :=
  physical ← (if oj_GatewayInterfaceIndex journal =? 0 then mret None
              else attempt (LinkByIndex (oj_GatewayInterfaceIndex journal)));
  let gateway := if oj_Gateway journal == "" then None else ParseIP (oj_Gateway journal) in
  errs ← recover_routes false physical gateway 5 (physical_raws journal) None;
  tunLink ← attempt (LinkByName (oj_InterfaceName journal));
  errs ← recover_routes (bool_decide (tunLink = None)) tunLink None 6 (tun_raws journal) errs;
  errs ← recover_dns journal tunLink errs;
  match errs with Some err => fail err | None => mret () end.
End recover.

(** A started daemon: the system and its disk. *)
Record Boot (K : Type) := mkBoot { bt_k : K; bt_fs : FS Text }.
Arguments mkBoot {K} _ _.
Arguments bt_k {K} _.
Arguments bt_fs {K} _.
#[export] Instance Boot_eta K : Eta (Boot K) := λ r, mkBoot (bt_k r) (bt_fs r).

Definition RecoverNetworkJournal {K} `{Kernel K} (path : string) : M (Boot K) () :=
  let disk {A} (m : M (FS Text) A) : M (Boot K) A := λ w, let '(fs, o) := m (bt_fs w) in (w <| bt_fs := fs |>, o) in
  let system {A} (m : M K A) : M (Boot K) A := λ w, let '(k, o) := m (bt_k w) in (w <| bt_k := k |>, o) in
  r ← try (disk (readNetworkJournal path));
  match r with
  | inl err => if errors_is err NotExist then mret ()
               else fail (ErrWrap "read network ownership journal: " err "")
  | inr journal =>
      _ ← wrap (λ e, ErrWrap "recover network ownership journal: " e "") (system (platformRecoverJournal journal));
      disk (removeNetworkJournal path)
  end.

(** ** What recovery removes *)

Section removal.
Context {K : Type} `{KernelLaws K}.
Implicit Types (k : K).

(** Only routes at this priority have gone since [k]. *)
Definition shrinks (k k' : K) : Prop :=
  link_index k' = link_index k ∧ (∀ r, r ∈ routes k' → r ∈ routes k) ∧
  (∀ r, r ∈ routes k → r ∉ routes k' → rt_Priority r = 5 ∨ rt_Priority r = 6).

Lemma shrinks_refl k : shrinks k k.
Proof. by split_and!. Qed.

Lemma shrinks_trans k1 k2 k3 : shrinks k1 k2 → shrinks k2 k3 → shrinks k1 k3.
Proof.
  intros (I1 & S1 & T1) (I2 & S2 & T2). split_and!; [congruence|auto|].
  intros r Hr Hr3. destruct (decide (r ∈ routes k2)); eauto.
Qed.

Lemma same_net_shrinks k k' : same_net k k' → shrinks k k'.
Proof. intros [Hr Hi]. split_and!; [done| |]; intros r; rewrite Hr; done. Qed.

Lemma selected_priority gw pr r : 0 < pr → selected gw pr r = true → rt_Priority r = pr.
Proof.
  intros Hp. unfold selected. destruct (Z.ltb_spec 0 pr); [|lia]. cbn [andb].
  destruct (Z.eqb_spec (rt_Priority r) pr); [done|]. done.
Qed.

Lemma less_shrinks p l gw pr k k' : pr = 5 ∨ pr = 6 → less p l gw pr k k' → shrinks k k'.
Proof.
  intros Hpr (Hi & Hs & Ht). split_and!; [done..|]. intros r Hr Hr'.
  destruct (Ht r Hr Hr') as (_ & _ & Hsel). apply selected_priority in Hsel; lia.
Qed.

(** The strings a recovery can parse are IPv4 prefixes. *)
Definition v4_raws (raws : list string) : Prop :=
  ∀ raw p, raw ∈ raws → netip_ParsePrefix raw = Some p → v4_prefix p.

Lemma wp_recover_routes skip link gw pr raws errs k :
  pr = 5 ∨ pr = 6 → v4_raws raws →
  wp (recover_routes skip link gw pr raws errs) (λ o k', shrinks k k' ∧
    match o with
    | Done errs' => errs' = None → errs = None ∧
        (skip = false → ∀ raw p, raw ∈ raws → netip_ParsePrefix raw = Some p →
           is_Some link ∧ ∀ r, target p link gw pr r → r ∉ routes k')
    | Failed _ => False
    | Crashed => True
    end) k.
Proof.
  intros Hpr. revert errs k. induction raws as [|raw raws IH]; intros errs k Hraws.
  { apply wp_ret. split; [apply shrinks_refl|]. intros ->. split; [done|]. intros _ raw p Hin.
    by apply not_elem_of_nil in Hin. }
  assert (Hraws' : v4_raws raws) by (intros raw' p Hin; apply Hraws; by right).
  cbn [recover_routes]. destruct (netip_ParsePrefix raw) as [p|] eqn:Hp.
  2: { eapply wp_mono; [by apply IH|]. intros o k' [Hs Ho]. split; [done|]. destruct o; [|done..].
       intros He. by destruct (Ho He). }
  destruct skip.
  { eapply wp_mono; [by apply IH|]. intros o k' [Hs Ho]. split; [done|]. destruct o; [|done..].
    intros He. destruct (Ho He). by split. }
  apply wp_bind, wp_try. eapply wp_mono; [apply wp_routeDel; eapply Hraws; [by left|done]|].
  intros o k1 [Hl Ho]. pose proof (less_shrinks _ _ _ _ _ _ Hpr Hl) as Hs1.
  destruct o as [u|e|]; cbn beta iota; [..|by split];
    (eapply wp_mono; [by apply IH|]); intros o k2 [Hs2 Ho2];
    (split; [by eapply shrinks_trans|]); (destruct o as [errs'|e'|]; [|done..]);
    intros He; destruct (Ho2 He) as [Herr Hgone]; [|by destruct errs].
  split; [done|]. intros _ raw' q [->|Hin]%elem_of_cons Hq; [|by eapply Hgone].
  assert (q = p) as -> by congruence. destruct Ho as [Hlink Ho]. split; [done|].
  intros r Ht Hr. apply (Ho r Ht). by apply Hs2.
Qed.

Lemma wp_attempt_quiet {A} (m : M K A) k : quiet m → wp (attempt m) (λ _, same_net k) k.
Proof.
  intros Hq. apply wp_bind, wp_try. eapply wp_mono; [apply Hq|]. by intros [a|e|] k' Hk'.
Qed.

Lemma same_net_trans k1 k2 k3 : same_net k1 k2 → same_net k2 k3 → same_net k1 k3.
Proof. intros [? ?] [? ?]. split; congruence. Qed.

Lemma wp_recover_dns journal tunLink errs k :
  wp (recover_dns journal tunLink errs) (λ o k', same_net k k' ∧
    match o with Done errs' => errs' = None → errs = None | _ => True end) k.
Proof.
  unfold recover_dns. destruct (_ =? _)%nat; [by apply wp_ret|].
  apply wp_bind. eapply (wp_mono _ (λ _, same_net k)).
  { destruct tunLink as [l|]; [|by apply wp_ret]. apply wp_bind.
    eapply wp_mono; [apply wp_attempt_quiet; quietly|]. intros [[u|]|e|] k1 H1; [|done..].
    eapply wp_mono; [apply wp_attempt_quiet; quietly|]. intros o k2 H2. by eapply same_net_trans. }
  intros [u|e|] k1 H1; [|by split..]. apply wp_bind.
  assert (Hlook : quiet (K:=K) LookPath_resolvconf) by quietly.
  eapply wp_mono; [apply Hlook|]. intros [[path|]|e|] k2 H2; [| |by split; [eapply same_net_trans|]..].
  - apply wp_bind, wp_try. assert (Hdel : quiet (K:=K) (resolvconf_delete ("flexconnect." +:+ oj_InterfaceName journal))) by quietly.
    eapply wp_mono; [apply Hdel|]. intros [v|e|] k3 H3; cbn beta iota;
      [apply wp_ret|apply wp_ret|]; (split; [by do 2 (eapply same_net_trans; [done|])|]); try done.
    by destruct (negb _), errs.
  - apply wp_ret. split; [by eapply same_net_trans|done].
Qed.

(** The routes a journal names, found again on a running system. *)
Definition names_route (journal : ownershipJournal) (k : K) (r : Route) : Prop :=
  let gateway := if oj_Gateway journal == "" then None else ParseIP (oj_Gateway journal) in
  (oj_GatewayInterfaceIndex journal ≠ 0 ∧ rt_LinkIndex r = oj_GatewayInterfaceIndex journal ∧
   selected gateway 5 r = true ∧ ∃ raw, raw ∈ physical_raws journal ∧ netip_ParsePrefix raw = Some (rt_Dst r)) ∨
  (link_index k (oj_InterfaceName journal) = Some (rt_LinkIndex r) ∧
   selected None 6 r = true ∧ ∃ raw, raw ∈ tun_raws journal ∧ netip_ParsePrefix raw = Some (rt_Dst r)).

Lemma wp_platformRecoverJournal journal k :
  v4_raws (physical_raws journal) → v4_raws (tun_raws journal) →
  wp (platformRecoverJournal journal) (λ o k', shrinks k k' ∧
    (o = Done () → ∀ r, r ∈ routes k' → ¬ names_route journal k r)) k.
Proof.
  intros Hv1 Hv2. unfold platformRecoverJournal. apply wp_bind.
  set (idx := oj_GatewayInterfaceIndex journal). cbv zeta.
  set (gateway := if oj_Gateway journal == "" then None else ParseIP (oj_Gateway journal)).
  eapply (wp_mono _ (λ o k', same_net k k' ∧
    match o with Done phys => phys = None ∨ (phys = Some idx ∧ idx ≠ 0) | _ => True end)).
  { destruct (Z.eqb_spec idx 0) as [Hz|Hz]; [apply wp_ret; split; [done|by left]|].
    apply wp_bind, wp_try. eapply wp_mono; [apply law_LinkByIndex|].
    intros [l|e|] k1 [H1 Ho]; cbn beta iota; [| |done]; (split; [done|]); [|by left].
    right. by rewrite Ho. }
  intros [phys|e|] k1 [H1 Hphys]; [|by split; [apply same_net_shrinks|]..].
  apply wp_bind. eapply wp_mono; [apply wp_recover_routes; [by left|exact Hv1]|].
  intros [errs1|e|] k2 [H2 Ho2]; [|done|].
  2: { split; [|done]. eapply shrinks_trans; [by apply same_net_shrinks|done]. }
  apply wp_bind. apply wp_bind, wp_try. eapply wp_mono; [apply law_LinkByName|].
  assert (Hs2 : shrinks k k2) by (eapply shrinks_trans; [by apply same_net_shrinks|done]).
  intros o k3 [H3 Ho3].
  assert (Hs3 : shrinks k k3) by (eapply shrinks_trans; [done|by apply same_net_shrinks]).
  assert (Hix : link_index k2 = link_index k) by apply Hs2. rewrite Hix in Ho3.
  assert (Hrest : ∀ tunLink, link_index k (oj_InterfaceName journal) = tunLink →
    wp (errs ← recover_routes (bool_decide (tunLink = None)) tunLink None 6 (tun_raws journal) errs1;
        errs ← recover_dns journal tunLink errs;
        match errs with Some err => fail err | None => mret () end)
      (λ o k', shrinks k k' ∧ (o = Done () → ∀ r, r ∈ routes k' → ¬ names_route journal k r)) k3).
  { clear o Ho3. intros tunLink Htun. apply wp_bind. eapply wp_mono; [apply wp_recover_routes; [by right|exact Hv2]|].
    intros [errs2|e|] k4 [H4 Ho4]; [|done|by split; [eapply shrinks_trans|]].
    apply wp_bind. eapply wp_mono; [apply wp_recover_dns|]. intros o k5 [H5 Ho5].
    assert (Hs5 : shrinks k3 k5) by (eapply shrinks_trans; [done|by apply same_net_shrinks]).
    destruct o as [errs3|e|]; [|by split; [eapply shrinks_trans|]..].
    destruct errs3 as [err|]; [apply wp_fail|apply wp_ret]; (split; [by eapply shrinks_trans|]); [done|].
    intros _ r Hr. destruct (Ho4 (Ho5 eq_refl)) as [Herr1 Hgone2]. destruct (Ho2 Herr1) as [_ Hgone1].
    assert (Hr4 : r ∈ routes k4) by (destruct H5 as [Heq _]; by rewrite <- Heq).
    assert (Hr2 : r ∈ routes k2) by (destruct H3 as [Heq _]; rewrite <- Heq; by apply H4).
    intros [(Hz & Hl & Hsel & raw & Hin & Hp)|(Hl & Hsel & raw & Hin & Hp)].
    - destruct (Hgone1 eq_refl raw _ Hin Hp) as [Hsome Hno]. apply (Hno r); [|done].
      destruct Hphys as [->|[-> _]]; [by destruct Hsome|]. split_and!; [done|by rewrite Hl|done].
    - rewrite Htun in Hl. subst tunLink. rewrite Hl in Hgone2.
      destruct (Hgone2 eq_refl raw _ Hin Hp) as [_ Hno]. by apply (Hno r). }
  destruct o as [l|e|]; cbn beta iota.
  - apply wp_ret. by apply Hrest.
  - apply wp_ret. by apply Hrest.
  - by split.
Qed.
End removal.

(** ** The journal of a configuration names all it installs *)

Lemma v4_addr_text v : 0 ≤ v < 2 ^ 32 → (v4_string v == "") = false ∧ ParseAddr (v4_string v) = Some (Addr4 v).
Proof.
  intros Hv. pose proof (ParseAddr_v4_string v Hv) as Hp. split; [|done].
  apply eqb_false. intros He. by rewrite He in Hp.
Qed.

Lemma v4_prefix_text p : v4_prefix p → netip_ParsePrefix (prefix_string p) = Some p.
Proof. intros (v & b & Hv & Hb & -> & _). by apply ParsePrefix_prefix4_string. Qed.

Lemma Masked_host v : 0 ≤ v < 2 ^ 32 → Masked (PrefixFrom (Addr4 v) 32) = PrefixFrom (Addr4 v) 32.
Proof.
  intros Hv. unfold Masked, PrefixFrom, pfx_valid, mask_value. cbn. by rewrite Z.shiftr_0_r, Z.shiftl_0_r.
Qed.

Lemma host_v4_prefix v : 0 ≤ v < 2 ^ 32 → v4_prefix (PrefixFrom (Addr4 v) 32).
Proof.
  intros Hv. exists v, 32. split_and!; [lia..|done|]. by apply Masked_host.
Qed.

Lemma host_prefix_string_v4 v :
  0 ≤ v < 2 ^ 32 → netip_ParsePrefix (host_prefix_string (v4_string v)) = Some (PrefixFrom (Addr4 v) 32).
Proof.
  intros Hv. unfold host_prefix_string. rewrite (proj2 (v4_addr_text v Hv)).
  by apply v4_prefix_text, host_v4_prefix.
Qed.

(** Strings that parse to IPv4 prefixes. *)
Definition v4_raw (raw : string) : Prop := ∃ p, netip_ParsePrefix raw = Some p ∧ v4_prefix p.

Lemma v4_raws_Forall raws : Forall v4_raw raws → v4_raws raws.
Proof.
  rewrite Forall_forall. intros Hf raw p Hin Hp. destruct (Hf raw Hin) as (q & Hq & Hv). congruence.
Qed.

Lemma v4_raw_prefixes l : Forall v4_route l → Forall v4_raw (PrefixStrings l).
Proof.
  intros Hl. apply Forall_fmap. eapply Forall_impl; [exact Hl|]. intros p Hp.
  pose proof (v4_masked p Hp) as Hm. exists (Masked p). split; [by apply v4_prefix_text|done].
Qed.

Lemma v4_raw_hosts l : Forall (address_string v4_addr) l → Forall v4_raw (hostRouteStrings l).
Proof.
  intros Hl. apply Forall_fmap. eapply Forall_impl; [exact Hl|]. intros s (a & (v & Hv & ->) & ->).
  exists (PrefixFrom (Addr4 v) 32). split; [by apply host_prefix_string_v4|by apply host_v4_prefix].
Qed.

Lemma elem_of_prefixes p l : p ∈ masked_set l → Forall v4_route l →
  ∃ raw, raw ∈ PrefixStrings l ∧ netip_ParsePrefix raw = Some p.
Proof.
  intros Hp Hl. pose proof (v4_masked_set _ _ Hl Hp) as Hv. apply elem_of_masked_set in Hp as (q & -> & Hq).
  exists (prefix_string (Masked q)). split; [|by apply v4_prefix_text].
  apply list_elem_of_fmap. by exists q.
Qed.

Lemma elem_of_hosts p addrs strings : p ∈ masked_set (addrsToHostPrefixes addrs) → Forall v4_addr addrs →
  AddrStrings addrs ⊆ strings → ∃ raw, raw ∈ hostRouteStrings strings ∧ netip_ParsePrefix raw = Some p.
Proof.
  intros (q & -> & Hq)%elem_of_masked_set Ha Hs. apply list_elem_of_fmap in Hq as (a & -> & Hin).
  rewrite Forall_forall in Ha. destruct (Ha a Hin) as (v & Hv & ->). cbn [Unmap BitLen].
  exists (host_prefix_string (v4_string v)). split.
  - apply list_elem_of_fmap. exists (v4_string v). split; [done|]. apply Hs, list_elem_of_fmap. by exists (Addr4 v).
  - change (Unmap (Addr4 v)) with (Addr4 v). change (BitLen (Addr4 v)) with 32.
    rewrite Masked_host by done. by apply host_prefix_string_v4.
Qed.

Section named.
Context (cfg : Config) (Hcfg : v4_config cfg).

Lemma server_raws :
  Forall v4_raw (routeStrings (oj_ServerAddress (journalFromConfig cfg))) ∧
  ∀ p, p ∈ masked_set (server_prefixes cfg) →
    ∃ raw, raw ∈ routeStrings (oj_ServerAddress (journalFromConfig cfg)) ∧ netip_ParsePrefix raw = Some p.
Proof using Hcfg.
  destruct Hcfg as (_ & [Hs|(v & Hv & Hs)] & _); unfold server_prefixes; cbn [journalFromConfig oj_ServerAddress];
    rewrite Hs; cbn [IsValid].
  - split; [apply Forall_nil_2|]. intros p Hp. set_solver.
  - unfold routeStrings. cbn [addr_string]. rewrite (proj1 (v4_addr_text v Hv)).
    change (BitLen (Addr4 v)) with 32.
    pose proof (host_prefix_string_v4 v Hv) as Hh. split.
    + apply Forall_singleton. exists (PrefixFrom (Addr4 v) 32). split; [done|by apply host_v4_prefix].
    + intros p (q & -> & ->%list_elem_of_singleton)%elem_of_masked_set. rewrite Masked_host by done.
      exists (host_prefix_string (v4_string v)). split; [by left|done].
Qed.

Lemma journal_gateway :
  (if oj_Gateway (journalFromConfig cfg) == "" then None else ParseIP (oj_Gateway (journalFromConfig cfg))) = cfg_gateway cfg.
Proof using Hcfg.
  destruct Hcfg as (_ & _ & [Hg|(v & Hv & Hg)] & _); unfold cfg_gateway; cbn [journalFromConfig oj_Gateway];
    rewrite Hg; cbn [IsValid]; [done|]. cbn [addr_string]. by rewrite (proj1 (v4_addr_text v Hv)).
Qed.

Lemma described_raws j a b :
  describes v4_addr j cfg a b → v4_raws (physical_raws j) ∧ v4_raws (tun_raws j).
Proof using Hcfg.
  intros ((phase & di & de & ->) & _ & _ & Hdi & Hde). pose proof Hcfg as (_ & _ & _ & Hi & He).
  split; apply v4_raws_Forall; unfold physical_raws, tun_raws; cbn -[routeStrings]; rewrite ?Forall_app; split_and!.
  - apply server_raws.
  - by apply v4_raw_prefixes.
  - by apply v4_raw_hosts.
  - by apply v4_raw_prefixes.
  - by apply v4_raw_hosts.
Qed.

(** Whatever the manager may hold, the journal names. *)
Lemma described_names {K} `{Kernel K} (k : K) l j a b g r :
  describes v4_addr j cfg a b → Forall v4_addr a → Forall v4_addr b →
  (rt_LinkIndex r = l → link_index k (cfg_InterfaceName cfg) = Some l) →
  held (cfg_site l cfg g) (planned cfg a b g) r → names_route j k r.
Proof using Hcfg.
  intros ((phase & di & de & ->) & Hda & Hdb & _) Ha Hb Hlink Hh.
  pose proof Hcfg as (_ & _ & _ & Hi & He).
  assert (Hsel : selected (cfg_site l cfg g).1.2 (cfg_site l cfg g).2 r = true).
  { eapply held_selected; [|exact Hh]. by destruct g. }
  destruct Hh as (Hl & _ & _ & Hd). unfold names_route, physical_raws, tun_raws. cbv zeta.
  cbn [set_field oj_GatewayInterfaceIndex oj_InterfaceName oj_IncludeRoutes oj_ExcludeRoutes
       oj_DynamicInclude oj_DynamicExclude oj_ServerAddress] in *.
  match goal with |- context [selected ?gw 5 r] => replace gw with (cfg_gateway cfg) by (symmetry; exact journal_gateway) end.
  destruct (cfg_site l cfg g) as [[sl sg] sp] eqn:Hsite. cbn [fst snd] in Hl, Hsel.
  assert (Hraw : ∃ raw, raw ∈ (match g with
      | GInclude | GDynamicInclude => PrefixStrings (cfg_IncludeRoutes cfg) ++ hostRouteStrings di
      | _ => routeStrings (oj_ServerAddress (journalFromConfig cfg)) ++ PrefixStrings (cfg_ExcludeRoutes cfg) ++ hostRouteStrings de
      end) ∧ netip_ParsePrefix raw = Some (rt_Dst r)).
  { destruct g; cbn [planned] in Hd.
    - destruct (proj2 server_raws _ Hd) as (raw & ? & ?). exists raw. set_solver.
    - destruct (elem_of_prefixes _ _ Hd Hi) as (raw & ? & ?). exists raw. set_solver.
    - destruct (elem_of_prefixes _ _ Hd He) as (raw & ? & ?). exists raw. set_solver.
    - destruct (elem_of_hosts _ _ _ Hd Ha Hda) as (raw & ? & ?). exists raw. set_solver.
    - destruct (elem_of_hosts _ _ _ Hd Hb Hdb) as (raw & ? & ?). exists raw. set_solver. }
  assert (Hlocal : cfg_local cfg = Some (rt_LinkIndex r) →
    cfg_GatewayInterfaceIndex cfg ≠ 0 ∧ rt_LinkIndex r = cfg_GatewayInterfaceIndex cfg).
  { unfold cfg_local. destruct (Z.eqb_spec (cfg_GatewayInterfaceIndex cfg) 0); [done|]. by intros [= <-]. }
  destruct g; injection Hsite as <- <- <-;
    first [left; destruct (Hlocal Hl) as [? ?]; by split_and!
          |right; injection Hl as ->; split_and!; [by apply Hlink|done|done]].
Qed.
End named.

(** ** A crash at any moment is repaired *)

Section restores.
Context {K : Type} `{KernelLaws K} (path : string) (cfg : Config).
Context (Hcfg : v4_config cfg) (Hcomplete : config_complete cfg).

(** What happens to the system when the daemon stops and is started again:
    routes may go with their links, and a route that stays keeps its link. *)
Definition rebooted (k k' : K) : Prop :=
  (∀ r, r ∈ routes k' → r ∈ routes k) ∧
  ∀ l r, link_index k (cfg_InterfaceName cfg) = Some l → r ∈ routes k' → rt_LinkIndex r = l →
    link_index k' (cfg_InterfaceName cfg) = Some l.

Lemma wp_read_absent (fs : FS Text) :
  wp (read_file path) (λ o _, match o with
    | Done c => contents fs path = Some c
    | Failed e => errors_is e NotExist = true → contents fs path = None
    | Crashed => True
    end) fs.
Proof.
  unfold wp, read_file, syscall, fault_of, contents. destruct (fs_sched fs) as [|[|e|] sched]; cbn; try done;
    by destruct (fs_names fs !! path ≫= _).
Qed.

(** A recovery that returned nil, by what it read. *)
Lemma recover_done (k k' : K) fs fs' :
  (∀ t, contents fs path = Some t → ∃ j, parse_journal t = inr j) →
  RecoverNetworkJournal path (mkBoot k fs) = (mkBoot k' fs', Done ()) →
  (contents fs path = None ∧ k' = k) ∨
  ∃ t j, contents fs path = Some t ∧ parse_journal t = inr j ∧ platformRecoverJournal j k = (k', Done ()).
Proof.
  intros Hok. pose proof (wp_read_absent fs) as Hr. unfold wp in Hr.
  unfold RecoverNetworkJournal, readNetworkJournal, try, wrap, mbind, M_bind. cbn [bt_fs bt_k].
  destruct (read_file path fs) as [fs1 [t|e|]] eqn:Hrd; cbn in Hr |- *; [| |done].
  - destruct (Hok t Hr) as [j Hj]. rewrite Hj. cbn.
    destruct (platformRecoverJournal j k) as [k1 [u|e|]] eqn:Hpl; cbn; [|done..].
    destruct (removeNetworkJournal path fs1) as [fs2 o]. cbn. intros [= <- _ ->].
    right. exists t, j. split_and!; [done..|]. by destruct u.
  - destruct (errors_is e NotExist) eqn:He; cbn; [|done]. intros [= <- _]. left. split; [by apply Hr|done].
Qed.

(** A recovery from a state the journal accounts for. *)
Lemma recovery_cleans (B : Route → Prop) w k2 fs2 :
  @accounted _ _ (linux_promise K B) path cfg w →
  rebooted (nw_k (jw_in w)) k2 → restart (jw_fs w) fs2 →
  (∀ t, contents fs2 path = Some t → ∃ j, parse_journal t = inr j) ∧
  ∀ k3 fs3, RecoverNetworkJournal path (mkBoot k2 fs2) = (mkBoot k3 fs3, Done ()) →
    (∀ r, r ∈ routes k3 → B r) ∧
    (∀ r, r ∈ routes k2 → r ∉ routes k3 → rt_Priority r = 5 ∨ rt_Priority r = 6).
Proof using Hcfg Hcomplete.
  intros (a & b & Ha & Hb & Hl & Hf) [Hsub Hidx] Hrs.
  destruct (may_hold_restart _ _ _ _ Hf Hrs) as [Hacc _].
  assert (Hok : ∀ t, contents fs2 path = Some t → ∃ j, parse_journal t = inr j).
  { intros t Ht. rewrite Ht in Hacc. destruct Hacc as [(j & [= ->] & Hd)|[? _]]; [|done].
    exists j. apply parse_journal_enc. by eapply describes_complete. }
  split; [exact Hok|]. intros k3 fs3 Hrec.
  destruct (recover_done _ _ _ _ Hok Hrec) as [[Hc ->]|(t & j' & Hc & Hp & Hpl)]; rewrite Hc in Hacc.
  { split; [|done]. destruct Hacc as [(j & ? & _)|[_ Hclean]]; [done|]. intros r Hr. by apply Hclean, Hsub. }
  destruct Hacc as [(j & [= ->] & Hd)|[? _]]; [|done].
  unfold journal_text in Hp. rewrite parse_journal_enc in Hp by by eapply describes_complete.
  injection Hp as <-. destruct (described_raws cfg Hcfg j a b Hd) as [Hv1 Hv2].
  pose proof (wp_run _ _ _ _ _ (wp_platformRecoverJournal j k2 Hv1 Hv2) Hpl) as [(_ & Hs & Hpr) Hgone].
  split; [|exact Hpr]. intros r Hr. pose proof (Hs r Hr) as Hr2.
  destruct Hl as [Hl|(l & Hl & Hw)]; [by apply Hl, Hsub|].
  destruct (Hw r (Hsub r Hr2)) as [|[g Hg]]; [done|]. exfalso. apply (Hgone eq_refl r Hr).
  eapply (described_names cfg Hcfg k2 l j a b g); [done..| |exact Hg].
  intros Hlr. by eapply Hidx.
Qed.
End restores.

(** The machine before a session: a manager that owns nothing. *)
Definition at_start {K} (name : string) (k : K) (fs : FS Text) : JW (NetW K) :=
  mkJW fs (mkNetW k (newPlatformManager name)) (wrapJournal name).


(** ** A small kernel *)

Module SimKernel.

(** Routes, links by name, and a schedule for the route calls. *)
Record Sim := mkSim { sim_routes : gset Route; sim_links : gmap string Z; sim_sched : list Fault }.
#[export] Instance Sim_eta : Eta Sim := λ r, mkSim (sim_routes r) (sim_links r) (sim_sched r).

Definition route_call (act : gset Route → error + gset Route) : M Sim () := λ k,
  let k' := k <| sim_sched ::= tail |> in
  match sim_sched k with
  | Errs msg :: _ => (k', Failed (ErrText msg))
  | Dies :: _ => (k', Crashed)
  | _ => match act (sim_routes k) with
         | inl e => (k', Failed e)
         | inr rs => (k' <| sim_routes := rs |>, Done ())
         end
  end.

#[export] Instance sim_kernel : Kernel Sim := {
  LinkByName name := λ k, (k, match sim_links k !! name with Some l => Done l | None => Failed (ErrText "Link not found") end);
  LinkByIndex i := mret i;
  LinkSetUp _ := mret ();
  LinkSetMulticastOff _ := mret ();
  LinkSetMTU _ _ := mret ();
  netlink_ParseAddr s := match netip_ParsePrefix s with Some p => inr p | None => inl (ErrText "invalid CIDR address") end;
  Addr_Equal a b := bool_decide (a = b);
  AddrList _ := mret [];
  AddrAdd _ _ := mret ();
  AddrDel _ _ := mret ();
  ParseIPNet s := match netip_ParsePrefix s with Some p => inr p | None => inl (ErrText "invalid CIDR address") end;
  RouteAdd r := route_call (λ rs, if bool_decide (r ∈ rs) then inl (ErrText "file exists") else inr ({[r]} ∪ rs));
  RouteDel r := route_call (λ rs, if bool_decide (r ∈ rs) then inr (rs ∖ {[r]}) else inl (ErrText "no such process"));
  RouteListFiltered dst l := read (λ k, filter (λ r, rt_Dst r = dst ∧ rt_LinkIndex r = l) (elements (sim_routes k)));
  SystemBus := mret ();
  SetLinkDNS _ _ := mret ();
  SetLinkDomains _ := mret ();
  RevertLink _ := mret ();
  GetDeviceByIpIface _ := mret "/device";
  ObjectPath_IsValid _ := true;
  GetAppliedConnection _ := mret (∅, 0);
  Reapply _ _ _ := mret ();
  LookPath_resolvconf := mret None;
  resolvconf_add _ _ := mret ();
  resolvconf_delete _ := mret ();
  routes := sim_routes;
  link_index k name := sim_links k !! name;
}.

#[export] Instance sim_laws : KernelLaws Sim.
Proof.
  split.
  - intros name k. unfold wp. cbn. split; [done|]. by destruct (sim_links k !! name).
  - intros i k. by split.
  - by split_and!.
  - by split_and!.
  - intros p Hp. cbn. by rewrite v4_prefix_text.
  - intros r k. unfold wp, RouteAdd. cbn. unfold route_call.
    destruct (sim_sched k) as [|[|e|] s]; cbn; try (by auto);
      (case_bool_decide; cbn; split; done).
  - intros r k. unfold wp, RouteDel. cbn. unfold route_call.
    destruct (sim_sched k) as [|[|e|] s]; cbn; try (by auto);
      (case_bool_decide; cbn; split; done).
  - intros dst l k _. unfold wp. cbn. split; [done|]. split.
    + by intros r [? _]%list_elem_of_filter.
    + intros r Hr ? ?. apply list_elem_of_filter. split; [done|]. by apply elem_of_elements.
Qed.

Definition cfg : Config :=
  mkConfig "flexconnect" 0 (prefix4 0x0a080005 24) 1399 zero_snapshot (Addr4 0xcb007105) (Addr4 0xc0a80101) 2
    [prefix4 0x0a000000 8] [prefix4 0xc0a80000 16] [].

Definition dynamic : DynamicRoutes := mkDynamicRoutes [Addr4 0x08080808] [Addr4 0x01010101].

Definition kernel_with (sched : list Fault) : Sim := mkSim ∅ {[ "flexconnect" := 7 ]} sched.
Definition disk : FS Text := mkFS ∅ [∅] ∅ 0 448 [].
Definition journal_path : string := "network-ownership.json".

(** The daemon dies while the last dynamic route is added. *)
Definition crashed_session : JW (NetW Sim) * Outcome () :=
  manager_life journal_path blank cfg [dynamic]
    (at_start "flexconnect" (kernel_with [Pass; Pass; Pass; Pass; Dies]) disk).

Definition start_again (w : JW (NetW Sim)) : Boot Sim :=
  mkBoot (nw_k (jw_in w)) ((jw_fs w) <| fs_hist := [fs_names (jw_fs w)] |> <| fs_sched := [] |>).
Definition after_restart : Boot Sim := start_again crashed_session.1.

Example crashed_with_routes : crashed_session.2 = Crashed ∧ size (routes (bt_k after_restart)) = 4%nat.
Proof. vm_compute. by split. Qed.

(** A failed [Set] whose rollback fails, and the [Close] with which
    SetupTunnelWithClient then gives the manager up. *)
Definition failed_set : JW (NetW Sim) * Outcome () :=
  jm_Set journal_path blank (Some cfg)
    (at_start "flexconnect" (kernel_with [Pass; Pass; Errs "netlink: busy"; Errs "netlink: busy"]) disk).
Definition closed_again : JW (NetW Sim) * Outcome () := closeLocked journal_path blank failed_set.1.
Definition next_start : Boot Sim * Outcome () :=
  RecoverNetworkJournal journal_path (start_again closed_again.1).

Lemma cfg_v4 : v4_config cfg ∧ config_complete cfg.
Proof.
  assert (Hr : ∀ v b, 0 ≤ v < 2 ^ 32 → 0 ≤ b ≤ 32 → Forall v4_route [prefix4 v b]).
  { intros v b Hv Hb. apply Forall_singleton. by exists v, b. }
  split; split_and!; try done.
  - right. by exists 0xcb007105.
  - right. by exists 0xc0a80101.
  - by apply Hr.
  - by apply Hr.
Qed.

Lemma dynamic_v4 : Forall (λ r, Forall v4_addr (dyn_Include r) ∧ Forall v4_addr (dyn_Exclude r)) [dynamic].
Proof.
  apply Forall_singleton. unfold dynamic. cbn [dyn_Include dyn_Exclude]. rewrite !Forall_singleton.
  split; [exists 0x08080808|exists 0x01010101]; (split; [lia|reflexivity]).
Qed.

Lemma disk_empty : may_hold journal_path (λ r : option Text, r = None) disk.
Proof. split; [by left|]. intros names ->%list_elem_of_singleton. by exists None. Qed.

Lemma started_again w : fs_names (jw_fs w) ∈ fs_hist (jw_fs w) →
  rebooted cfg (nw_k (jw_in w)) (bt_k (start_again w)) ∧ restart (jw_fs w) (bt_fs (start_again w)).
Proof. intros Hin. split; [by split|]. by apply restart_now. Qed.

Lemma crashed_run : ∃ w1 k3 fs3,
  manager_life journal_path blank cfg [dynamic]
    (at_start "flexconnect" (kernel_with [Pass; Pass; Pass; Pass; Dies]) disk) = (w1, Crashed) ∧
  fs_names (jw_fs w1) ∈ fs_hist (jw_fs w1) ∧
  RecoverNetworkJournal journal_path (start_again w1) = (mkBoot k3 fs3, Done ()).
Proof.
  exists crashed_session.1, (bt_k (RecoverNetworkJournal journal_path after_restart).1),
    (bt_fs (RecoverNetworkJournal journal_path after_restart).1).
  split; [vm_compute; reflexivity|]. split; [vm_compute; left|vm_compute; reflexivity].
Qed.
End SimKernel.

Import SimKernel.


(** A failed cleanup is forgotten by the next [Close].  [Close] of the
    Linux manager empties its route sets even where a deletion failed, and the
    setup of a tunnel closes the manager again after a [Set] that could not
    roll back: the journal that [Set] kept for the next start is removed, the
    route stays in the kernel, and the recovery of the next start has nothing
    to read.  (journal_test.go asks that a failed rollback keep its journal.) *)
Theorem second_close_forgets :
  (∃ e, failed_set.2 = Failed e) ∧ is_Some (contents (jw_fs failed_set.1) journal_path) ∧
  closed_again.2 = Done () ∧ contents (jw_fs closed_again.1) journal_path = None ∧
  next_start.2 = Done () ∧
  routes (bt_k next_start.1) = {[mkRoute 2 (prefix4 0xcb007105 32) (Some (Addr4 0xc0a80101)) 5]}.
Proof.
  split; [eexists; vm_compute; reflexivity|]. split; [eexists; vm_compute; reflexivity|].
  split; [vm_compute; reflexivity|]. split; [vm_compute; reflexivity|].
  split; [vm_compute; reflexivity|]. apply (bool_decide_eq_true_1 _). vm_compute. reflexivity.
Qed.
