(* ===== verification/OsWindows.v ===== *)
(** * The Windows network manager
    (src/internal/osnet/manager_windows.go, journal_recover_windows.go and
    default_route_windows.go)

    The same five groups of routes as on Linux, in the tables of Windows: a
    route is known by its interface (LUID), its prefix and its next hop, and
    carries a metric.  The IP Helper API behind winipcfg is another program:
    [WinNet] is the interface the code calls, [WinNetLaws] what it documents.

    The results: what a connection leaves in the routing table once its manager
    is closed, the DNS servers it gives back, the routes a recovery takes away,
    and which default route is chosen. *)

From S2P Require Import Prelude GoStrings NetIP OsNet Journal.

Open Scope go_scope.
Open Scope Z_scope.

(** ** Windows *)

Notation Key := (Z * Prefix * Addr)%type.

Class WinNet (K : Type) := {
  LUIDFromIndex : Z → M K Z;
  luid_Interface : Z → M K ();
  SetIPAddressesForFamily : Z → list Prefix → M K ();
  IPInterface : Z → M K ();
  IPInterface_Set : Z → Z → M K ();
  AddRoute : Z → Prefix → Addr → Z → M K ();
  luid_Route : Z → Prefix → Addr → M K Z;
  row_Delete : Z → Prefix → Addr → M K ();
  luid_DNS : Z → M K (list Addr);
  luid_SetDNS : Z → list Addr → M K ();
  (* errors.Is against ERROR_NOT_FOUND, ERROR_OBJECT_ALREADY_EXISTS and
     ERROR_ALREADY_EXISTS *)
  not_found : error → bool;
  isAlreadyExists : error → bool;
  (* what a look at the system shows: the metric of a route, the servers of
     an interface *)
  win_routes : K → gmap Key Z;
  win_dns : K → Z → list Addr;
  luid_of : K → Z → option Z;
}.

Section quiet.
Context {K : Type} `{WinNet K}.
Definition same_tables (k k' : K) : Prop := win_routes k' = win_routes k ∧ win_dns k' = win_dns k.
Definition silent {A} (m : M K A) : Prop := ∀ k, wp m (λ _, same_tables k) k.
End quiet.

Class WinNetLaws (K : Type) `{WinNet K} := {
  law_silent : (∀ i, silent (LUIDFromIndex i)) ∧ (∀ l, silent (luid_Interface l)) ∧
    (∀ l a, silent (SetIPAddressesForFamily l a)) ∧ (∀ l, silent (IPInterface l)) ∧ (∀ l m, silent (IPInterface_Set l m));
  law_LUIDFromIndex i k : wp (LUIDFromIndex i) (λ o _, match o with Done l => luid_of k i = Some l | _ => True end) k;
  law_AddRoute l p n m k : wp (AddRoute l p n m) (λ o k', win_dns k' = win_dns k ∧
    match o with
    | Done _ => win_routes k !! (l, p, n) = None ∧ win_routes k' = <[(l, p, n) := m]> (win_routes k)
    | Failed _ => win_routes k' = win_routes k
    | Crashed => True
    end) k;
  law_Route l p n k : wp (luid_Route l p n) (λ o k', same_tables k k' ∧
    match o with
    | Done metric => win_routes k !! (l, p, n) = Some metric
    | Failed e => not_found e = true → win_routes k !! (l, p, n) = None
    | Crashed => True
    end) k;
  law_row_Delete l p n k : wp (row_Delete l p n) (λ o k', win_dns k' = win_dns k ∧
    match o with
    | Done _ => win_routes k' = delete (l, p, n) (win_routes k)
    | Failed e => win_routes k' = win_routes k ∧ (not_found e = true → win_routes k !! (l, p, n) = None)
    | Crashed => True
    end) k;
  law_DNS l k : wp (luid_DNS l) (λ o k', same_tables k k' ∧ match o with Done servers => servers = win_dns k l | _ => True end) k;
  law_SetDNS l servers k : wp (luid_SetDNS l servers) (λ o k', win_routes k' = win_routes k ∧
    match o with
    | Done _ => win_dns k' l = servers ∧ ∀ l', l' ≠ l → win_dns k' l' = win_dns k l'
    | Failed _ => win_dns k' = win_dns k
    | Crashed => True
    end) k;
}.

(** ** The manager *)

Inductive WGroup := WServer | WInclude | WExclude | WDynamicIn | WDynamicEx.
#[export] Instance WGroup_eq_dec : EqDecision WGroup.
Proof. solve_decision. Defined.

Record platformManager := mkPlatformManager {
  wm_name : string;
  wm_tunLUID : Z;
  wm_gatewayLUID : Z;
  wm_gateway : Addr;
  wm_serverRoutes : gset Prefix;
  wm_routes : gset Prefix;
  wm_exclude : gset Prefix;
  wm_dynamicIn : gset Prefix;
  wm_dynamicEx : gset Prefix;
  wm_dnsOriginal : list Addr;
  wm_dnsCaptured : bool;
}.
#[export] Instance platformManager_eta : Eta platformManager := λ r,
  mkPlatformManager (wm_name r) (wm_tunLUID r) (wm_gatewayLUID r) (wm_gateway r) (wm_serverRoutes r) (wm_routes r)
    (wm_exclude r) (wm_dynamicIn r) (wm_dynamicEx r) (wm_dnsOriginal r) (wm_dnsCaptured r).

(** [newPlatformManager]: [luid] is what the device exposes, if it does. *)
Definition newPlatformManager (luid : option Z) (name : string) : error + platformManager :=
  match luid with
  | None => inl (ErrText "Windows TUN device does not expose LUID")
  | Some luid => inr (mkPlatformManager name luid 0 AddrNone ∅ ∅ ∅ ∅ ∅ [] false)
  end.

Definition owned (g : WGroup) (m : platformManager) : gset Prefix :=
  match g with
  | WServer => wm_serverRoutes m | WInclude => wm_routes m | WExclude => wm_exclude m
  | WDynamicIn => wm_dynamicIn m | WDynamicEx => wm_dynamicEx m
  end.
Definition own (g : WGroup) (s : gset Prefix) (m : platformManager) : platformManager :=
  match g with
  | WServer => m <| wm_serverRoutes := s |> | WInclude => m <| wm_routes := s |> | WExclude => m <| wm_exclude := s |>
  | WDynamicIn => m <| wm_dynamicIn := s |> | WDynamicEx => m <| wm_dynamicEx := s |>
  end.

Record WinW (K : Type) := mkWinW { ww_k : K; ww_m : platformManager }.
Arguments mkWinW {K} _ _.
Arguments ww_k {K} _.
Arguments ww_m {K} _.
#[export] Instance WinW_eta K : Eta (WinW K) := λ r, mkWinW (ww_k r) (ww_m r).

Definition addrsToHostPrefixes (addrs : list Addr) : list Prefix :=
  (λ a, let addr := Unmap a in PrefixFrom addr (BitLen addr)) <$> addrs.

Section manager.
Context {K : Type} `{WinNet K}.
Notation WinM := (M (WinW K)).

Definition kernel {A} (call : M K A) : WinM A := λ w, let '(k, o) := call (ww_k w) in (w <| ww_k := k |>, o).
Definition self {A} (f : platformManager → A) : WinM A := read (λ w, f (ww_m w)).
Definition assign (f : platformManager → platformManager) : WinM () := modify (λ w, w <| ww_m ::= f |>).

Definition deleteRoute (luid : Z) (prefix : Prefix) (nextHop : Addr) (expectedMetric : Z) : M K () :=
  if luid =? 0 then fail (ErrText ("missing interface LUID for route cleanup " +:+ prefix_string prefix))
  else
    row ← try (luid_Route luid prefix nextHop);
    match row with
    | inl err => if not_found err then mret () else fail err
    | inr metric =>
      if negb (metric =? expectedMetric) then mret ()
      else
        r ← try (row_Delete luid prefix nextHop);
        match r with
        | inl err => if not_found err then mret () else fail err
        | inr _ => mret ()
        end
    end.

Fixpoint add_routes (g : WGroup) (luid : Z) (nextHop : Addr) (metric : Z) (add : list Prefix) (installed : gset Prefix) : WinM (gset Prefix) :=
  match add with
  | [] => mret installed
  | prefix :: add =>
    r ← try (kernel (AddRoute luid prefix nextHop metric));
    match r with
    | inl err =>
      _ ← assign (own g installed);
      if isAlreadyExists err
      then fail (ErrText ("route " +:+ prefix_string prefix +:+ " already exists and is not owned by this connection"))
      else fail err
    | inr _ => add_routes g luid nextHop metric add ({[prefix]} ∪ installed)
    end
  end.

Fixpoint del_routes (g : WGroup) (luid : Z) (nextHop : Addr) (metric : Z) (del : list Prefix) (installed : gset Prefix) : WinM () :=
  match del with
  | [] => mret ()
  | prefix :: del =>
    r ← try (kernel (deleteRoute luid prefix nextHop metric));
    match r with
    | inl err => _ ← assign (own g installed); fail err
    | inr _ => del_routes g luid nextHop metric del (installed ∖ {[prefix]})
    end
  end.

Definition syncRoutes (g : WGroup) (next : list Prefix) (luid : Z) (nextHop : Addr) (metric : Z) : WinM () :=
  if (luid =? 0) && (0 <? length next)%nat then fail (ErrText "missing interface LUID for route sync")
  else
    old ← self (owned g);
    let '(add, del, state) := DiffPrefixes old next in
    installed ← add_routes g luid nextHop metric add old;
    _ ← del_routes g luid nextHop metric del installed;
    assign (own g state).

Definition setDNS (servers : list Addr) : WinM () :=
  captured ← self wm_dnsCaptured;
  tun ← self wm_tunLUID;
  _ ← when (negb captured)
        (original ← kernel (luid_DNS tun);
         assign (λ m, m <| wm_dnsOriginal := original |> <| wm_dnsCaptured := true |>));
  original ← self wm_dnsOriginal;
  kernel (luid_SetDNS tun (match servers with [] => original | _ => servers end)).

(** The groups of [Close]: where it looks for the routes of each. *)
Definition close_site (m : platformManager) (g : WGroup) : Z * Addr * Z :=
  match g with
  | WServer | WExclude | WDynamicEx => (wm_gatewayLUID m, wm_gateway m, 5)
  | WInclude | WDynamicIn => (wm_tunLUID m, IPv4Unspecified, 6)
  end.

Definition first_of (first : option error) (r : error + ()) : option error :=
  match r, first with inl err, None => Some err | _, _ => first end.
Fixpoint close_prefixes (site : Z * Addr * Z) (prefixes : list Prefix) (first : option error) : WinM (option error) :=
  match prefixes with
  | [] => mret first
  | prefix :: prefixes =>
    r ← try (kernel (deleteRoute site.1.1 prefix site.1.2 site.2));
    close_prefixes site prefixes (first_of first r)
  end.
Fixpoint close_groups (groups : list WGroup) (first : option error) : WinM (option error) :=
  match groups with
  | [] => mret first
  | g :: groups =>
    site ← self (λ m, close_site m g);
    prefixes ← self (owned g);
    first ← close_prefixes site (elements prefixes) first;
    _ ← assign (own g ∅);
    close_groups groups first
  end.
Definition all_groups : list WGroup := [WServer; WInclude; WExclude; WDynamicIn; WDynamicEx].

Definition Close : WinM () :=
  first ← close_groups all_groups None;
  captured ← self wm_dnsCaptured;
  first ← (if captured : bool then
             tun ← self wm_tunLUID;
             original ← self wm_dnsOriginal;
             r ← try (kernel (luid_SetDNS tun original));
             _ ← assign (λ m, m <| wm_dnsOriginal := [] |> <| wm_dnsCaptured := false |>);
             mret (first_of first r)
           else mret first);
  match first with Some err => fail err | None => mret () end.

Definition Up : WinM () := tun ← self wm_tunLUID; kernel (luid_Interface tun).

Definition server_prefixes (cfg : Config) : list Prefix :=
  if IsValid (cfg_ServerAddress cfg) then [PrefixFrom (cfg_ServerAddress cfg) (BitLen (cfg_ServerAddress cfg))] else [].

(** The end of [Set]: the routes and the DNS servers. *)
Definition install (cfg : Config) : WinM () :=
  let server := server_prefixes cfg in
  tun ← self wm_tunLUID;
  gatewayLUID ← self wm_gatewayLUID;
  gateway ← self wm_gateway;
  _ ← syncRoutes WServer server gatewayLUID gateway 5;
  _ ← syncRoutes WInclude (cfg_IncludeRoutes cfg) tun (pfx_addr (cfg_VPNAddress cfg)) 6;
  _ ← syncRoutes WExclude (withoutPrefixes (cfg_ExcludeRoutes cfg) server) gatewayLUID gateway 5;
  setDNS (cfg_DNSServers cfg).

Definition wm_Set (cfg : option Config) : WinM () :=
  match cfg with
  | None => Close
  | Some cfg =>
    if negb (pfx_valid (cfg_VPNAddress cfg)) then Close
    else
      _ ← when (IsValid (cfg_Gateway cfg)) (assign (λ m, m <| wm_gateway := cfg_Gateway cfg |>));
      _ ← when (negb (cfg_GatewayInterfaceIndex cfg =? 0))
            (luid ← kernel (LUIDFromIndex (cfg_GatewayInterfaceIndex cfg mod 2 ^ 32));
             assign (λ m, m <| wm_gatewayLUID := luid |>));
      tun ← self wm_tunLUID;
      _ ← kernel (SetIPAddressesForFamily tun [cfg_VPNAddress cfg]);
      _ ← when (0 <? cfg_MTU cfg) (_ ← kernel (IPInterface tun); kernel (IPInterface_Set tun (cfg_MTU cfg mod 2 ^ 32)));
      install cfg
  end.

Definition SetDynamicRoutes (routes : DynamicRoutes) : WinM () :=
  tun ← self wm_tunLUID;
  _ ← syncRoutes WDynamicIn (addrsToHostPrefixes (dyn_Include routes)) tun IPv4Unspecified 6;
  gatewayLUID ← self wm_gatewayLUID;
  gateway ← self wm_gateway;
  syncRoutes WDynamicEx (addrsToHostPrefixes (dyn_Exclude routes)) gatewayLUID gateway 5.
End manager.

(** ** What an operation does to the table

    The table as a function; [put] and [rid] change the routes of one site, a
    LUID, a next hop and a metric, for a set of prefixes. *)

Notation Table := (Key → option Z).
Notation Site := (Z * Addr * Z)%type.

Definition at_site (s : Site) (P : gset Prefix) (key : Key) : Prop := key.1.1 = s.1.1 ∧ key.2 = s.1.2 ∧ key.1.2 ∈ P.
#[export] Instance at_site_dec s P key : Decision (at_site s P key).
Proof. unfold at_site. apply _. Defined.

Definition put (s : Site) (P : gset Prefix) (t : Table) : Table := λ key, if decide (at_site s P key) then Some s.2 else t key.
Definition rid (s : Site) (P : gset Prefix) (t : Table) : Table := λ key,
  if decide (at_site s P key ∧ t key = Some s.2) then None else t key.
Definition free (s : Site) (P : gset Prefix) (t : Table) : Prop := ∀ p, p ∈ P → t (s.1.1, p, s.1.2) = None.

Lemma put_empty s t key : put s ∅ t key = t key.
Proof. unfold put. rewrite decide_False; [done|]. unfold at_site. set_solver. Qed.
Lemma rid_empty s t key : rid s ∅ t key = t key.
Proof. unfold rid. rewrite decide_False; [done|]. unfold at_site. set_solver. Qed.

Lemma put_ext s P t t' : (∀ key, t key = t' key) → ∀ key, put s P t key = put s P t' key.
Proof. intros H key. unfold put. by rewrite H. Qed.
Lemma rid_ext s P t t' : (∀ key, t key = t' key) → ∀ key, rid s P t key = rid s P t' key.
Proof. intros H key. unfold rid. by rewrite H. Qed.

Lemma put_union s P p t key : put s ({[p]} ∪ P) t key = put s P (put s {[p]} t) key.
Proof. unfold put, at_site. repeat case_decide; set_solver. Qed.
Lemma rid_union s P p t key : rid s ({[p]} ∪ P) t key = rid s P (rid s {[p]} t) key.
Proof. unfold rid, at_site. repeat case_decide; set_solver. Qed.

Lemma put_out s P t key : ¬ at_site s P key → put s P t key = t key.
Proof. intros H. unfold put. by rewrite decide_False. Qed.
Lemma put_in s P t key : at_site s P key → put s P t key = Some s.2.
Proof. intros H. unfold put. by rewrite decide_True. Qed.
Lemma rid_out s P t key : ¬ at_site s P key → rid s P t key = t key.
Proof. intros H. unfold rid. rewrite decide_False; [done|]. by intros [? _]. Qed.
Lemma rid_none s P t key : t key = None → rid s P t key = None.
Proof. intros H. unfold rid. case_decide; done. Qed.
Lemma rid_in s P t key : at_site s P key → t key = Some s.2 → rid s P t key = None.
Proof. intros H1 H2. unfold rid. by rewrite decide_True. Qed.
Lemma free_in s P t key : free s P t → at_site s P key → t key = None.
Proof. intros H (E1 & E2 & Hp). destruct key as [[l p] n]. cbn in *. subst. by apply H. Qed.

(** Adding at two sites and taking away at the second and at another one. *)
Lemma left_behind (physical : Site) tun vpn un P1 P2 P3 (t : Table) :
  physical.1.2 ≠ vpn → vpn ≠ un → (∀ p n, t (tun, p, n) = None) →
  free physical P1 t → free physical P3 (put (tun, vpn, 6) P2 (put physical P1 t)) →
  ∀ key, rid physical P3 (rid (tun, un, 6) P2 (rid physical P1 (put physical P3 (put (tun, vpn, 6) P2 (put physical P1 t))))) key =
         put (tun, vpn, 6) P2 t key.
Proof.
  intros Hgw Hun Hdev Hf1 Hf3 key.
  destruct (decide (key.2 = vpn)) as [Hv|Hv].
  { assert (∀ P, ¬ at_site physical P key) as Hn by (intros P (_ & E & _); congruence).
    rewrite (rid_out physical), (rid_out (tun, un, 6)), rid_out, put_out by (done || intros (_ & E & _); cbn in E; congruence).
    unfold put at 1 3. case_decide; [done|]. by apply put_out. }
  assert (Hnv : ¬ at_site (tun, vpn, 6) P2 key) by (intros (_ & E & _); done).
  rewrite (put_out _ _ t key Hnv).
  destruct (decide (at_site physical P3 key)) as [H3|H3].
  { assert (E : t key = None).
    { pose proof (free_in _ _ _ _ Hf3 H3) as E. rewrite put_out in E by done.
      destruct (decide (at_site physical P1 key)) as [H1|H1]; [by rewrite put_in in E|by rewrite put_out in E]. }
    rewrite E. destruct (decide (at_site physical P1 key)) as [H1|H1].
    - apply rid_none, rid_none, rid_in; [done|by apply put_in].
    - set (t3 := put physical P3 _).
      assert (X : rid physical P1 t3 key = Some physical.2) by (unfold t3; by rewrite rid_out, put_in).
      destruct (decide (at_site (tun, un, 6) P2 key ∧ Some physical.2 = Some 6)) as [[Ha Hb]|Hn].
      + apply rid_none, rid_in; [done|]. by rewrite X.
      + apply rid_in; [done|]. unfold rid at 1. by rewrite X, decide_False. }
  rewrite (rid_out physical P3) by done.
  destruct (decide (at_site physical P1 key)) as [H1|H1].
  { rewrite (free_in _ _ _ _ Hf1 H1). apply rid_none, rid_in; [done|]. rewrite put_out, put_out by done. by apply put_in. }
  destruct (decide (at_site (tun, un, 6) P2 key)) as [H2|H2].
  - assert (E : t key = None) by (destruct H2 as (E1 & _ & _); destruct key as [[l p] n]; cbn in E1; subst l; apply Hdev).
    rewrite E. apply rid_none, rid_none. by rewrite !put_out.
  - rewrite rid_out, rid_out, !put_out by done. done.
Qed.

#[local] Set Default Proof Using "Type*".

Section effects.
Context {K : Type} `{WinNetLaws K}.
Notation table k := (λ key, win_routes k !! key).

Lemma wp_and {W A} (m : M W A) (Q R : Outcome A → W → Prop) w : wp m Q w → wp m R w → wp m (λ o w', Q o w' ∧ R o w') w.
Proof using. by split. Qed.

Lemma win_kernel {A} (call : M K A) (Q : Outcome A → WinW K → Prop) w :
  wp call (λ o k, Q o (w <| ww_k := k |>)) (ww_k w) → wp (kernel call) Q w.
Proof. unfold wp, kernel. by destruct (call (ww_k w)). Qed.

(** Deleting a route takes exactly the one with the expected metric. *)
Lemma wp_deleteRoute s p k :
  wp (deleteRoute s.1.1 p s.1.2 s.2) (λ o k', win_dns k' = win_dns k ∧
    match o with
    | Done _ => ∀ key, table k' key = rid s {[p]} (table k) key
    | Failed _ => win_routes k' = win_routes k
    | Crashed => True
    end) k.
Proof.
  destruct s as [[l n] m]. unfold deleteRoute. cbn [fst snd]. destruct (l =? 0); [by apply wp_fail|].
  apply wp_bind, wp_try. eapply wp_mono; [apply law_Route|]. intros [metric|e|] k1 [[Hr Hd] Ho]; [| |done].
  - destruct (Z.eqb_spec metric m) as [->|Hm]; cbn [negb].
    + apply wp_bind, wp_try. eapply wp_mono; [apply law_row_Delete|]. intros [[]|e|] k2 [Hd2 Ho2]; [| |by rewrite Hd2].
      * apply wp_ret. split; [by rewrite Hd2|]. intros key. rewrite Ho2, Hr. unfold rid, at_site. cbn [fst snd].
        destruct (decide (key = (l, p, n))) as [->|Hne]; [rewrite lookup_delete_eq, decide_True by set_solver; done|].
        rewrite lookup_delete_ne, decide_False by (done || destruct key as [[??]?]; cbn; set_solver). done.
      * destruct Ho2 as [Hr2 Hn2]. destruct (not_found e) eqn:En; [|apply wp_fail; split; congruence].
        apply wp_ret. split; [congruence|]. intros key. rewrite Hr2, Hr. specialize (Hn2 eq_refl). rewrite Hr in Hn2. congruence.
    + apply wp_ret. split; [done|]. intros key. rewrite Hr. unfold rid, at_site. cbn [fst snd].
      rewrite decide_False; [done|]. destruct key as [[a b] c]. cbn. intros [(-> & -> & ->%elem_of_singleton) E]. congruence.
  - destruct (not_found e) eqn:En; [|by apply wp_fail; split; congruence].
    apply wp_ret. split; [done|]. intros key. rewrite Hr. unfold rid, at_site. cbn [fst snd].
    rewrite decide_False; [done|]. destruct key as [[a b] c]. cbn. intros [(-> & -> & ->%elem_of_singleton) E]. specialize (Ho eq_refl). congruence.
Qed.

(** What the world's table is, and that nothing else of it changed. *)
Definition reaches (w w' : WinW K) (t : Table) : Prop := (∀ key, table (ww_k w') key = t key) ∧ win_dns (ww_k w') = win_dns (ww_k w).

Lemma win_add_routes g l n m add P w :
  wp (add_routes g l n m add P) (λ o w', win_dns (ww_k w') = win_dns (ww_k w) ∧
    match o with
    | Done P' => P' = P ∪ list_to_set add ∧ ww_m w' = ww_m w ∧ NoDup add ∧ free (l, n, m) (list_to_set add) (table (ww_k w)) ∧
                 reaches w w' (put (l, n, m) (list_to_set add) (table (ww_k w)))
    | _ => True
    end) w.
Proof.
  revert P w. induction add as [|p add IH]; intros P w; cbn [add_routes].
  { apply wp_ret. split; [done|]. split_and!; [set_solver|done|constructor|by intros ? ?%elem_of_empty|]. split; [|done].
    intros key. by rewrite put_empty. }
  apply wp_bind, wp_try, win_kernel. eapply wp_mono; [apply law_AddRoute|]. intros [[]|e|] k1 [Hd Ho]; [| |done].
  - destruct Ho as [Hnone Hins]. eapply wp_mono; [apply IH|]. cbn [ww_k ww_m]. intros [P'|e|] w2 [Hd2 Ho2]; (split; [cbn in *; congruence|]); [|done..].
    cbn in Ho2. destruct Ho2 as (-> & Hm & Hnd & Hfree & Ht & _).
    assert (Hp : p ∉ add).
    { intros Hin. specialize (Hfree p ltac:(set_solver)). cbn in Hfree. rewrite Hins, lookup_insert_eq in Hfree. done. }
    assert (Hput : ∀ key, win_routes k1 !! key = put (l, n, m) {[p]} (table (ww_k w)) key).
    { intros key. rewrite Hins. unfold put, at_site. cbn [fst snd].
      destruct (decide (key = (l, p, n))) as [->|Hne]; [rewrite lookup_insert_eq, decide_True by set_solver; done|].
      rewrite lookup_insert_ne, decide_False by (done || destruct key as [[??]?]; cbn; set_solver). done. }
    cbn [list_to_set]. split_and!; [set_solver|done|by constructor| |].
    + intros q [->%elem_of_singleton|Hq]%elem_of_union; [done|]. specialize (Hfree q Hq). cbn in Hfree.
      rewrite Hins, lookup_insert_ne in Hfree; [done|]. intros [= ->]. set_solver.
    + split; [|cbn in *; congruence]. intros key. rewrite Ht. rewrite put_union. by apply put_ext.
  - apply wp_bind, wp_modify. destruct (isAlreadyExists e); by apply wp_fail.
Qed.

Lemma win_del_routes g l n m del P w :
  wp (del_routes g l n m del P) (λ o w', win_dns (ww_k w') = win_dns (ww_k w) ∧
    match o with
    | Done _ => ww_m w' = ww_m w ∧ reaches w w' (rid (l, n, m) (list_to_set del) (table (ww_k w)))
    | _ => True
    end) w.
Proof.
  revert P w. induction del as [|p del IH]; intros P w; cbn [del_routes].
  { apply wp_ret. split_and!; [done..|]. split; [|done]. intros key. by rewrite rid_empty. }
  apply wp_bind, wp_try, win_kernel. eapply wp_mono; [apply (wp_deleteRoute (l, n, m))|]. intros [[]|e|] k1 [Hd Ho]; [| |done].
  - eapply wp_mono; [apply IH|]. cbn [ww_k ww_m]. intros [[]|e|] w2 [Hd2 Ho2]; (split; [cbn in *; congruence|]); [|done..].
    destruct Ho2 as [Hm [Ht _]]. split; [done|]. split; [|cbn in *; congruence].
    intros key. rewrite Ht. cbn [list_to_set]. rewrite rid_union. by apply rid_ext.
  - apply wp_bind, wp_modify. by apply wp_fail.
Qed.

(** A group that held nothing now holds the routes it was given. *)
Lemma win_syncRoutes_first g next l n m w :
  owned g (ww_m w) = ∅ →
  wp (syncRoutes g next l n m) (λ o w', win_dns (ww_k w') = win_dns (ww_k w) ∧
    match o with
    | Done _ => ww_m w' = own g (masked_set next) (ww_m w) ∧ free (l, n, m) (masked_set next) (table (ww_k w)) ∧
                reaches w w' (put (l, n, m) (masked_set next) (table (ww_k w)))
    | _ => True
    end) w.
Proof.
  intros Hold. unfold syncRoutes. destruct (_ && _); [by apply wp_fail|]. apply wp_bind, wp_read.
  rewrite Hold. unfold DiffPrefixes.
  pose proof (diff_loop_spec ∅ next [] ∅ (NoDup_nil_2) ltac:(set_solver)) as Hdiff.
  destruct (diff_loop ∅ next [] ∅) as [add state]. destruct Hdiff as (-> & Hnd & Hadd).
  assert ((∅ : gset Prefix) ∖ (∅ ∪ masked_set next) = ∅) as -> by set_solver. rewrite elements_empty.
  assert (Hset : list_to_set add =@{gset Prefix} masked_set next) by set_solver. clear Hadd.
  apply wp_bind. eapply wp_mono; [apply win_add_routes|]. intros [P'|e|] w1 [Hd Ho]; [|done..].
  rewrite Hset in Ho. destruct Ho as (_ & Hm & _ & Hfree & Hr). cbn [del_routes].
  apply wp_bind, wp_ret, wp_modify. cbn. split_and!; [done| |done|exact Hr].
  rewrite Hm. f_equal. set_solver.
Qed.

Lemma win_close_prefixes s prefixes first w :
  wp (close_prefixes s prefixes first) (λ o w', win_dns (ww_k w') = win_dns (ww_k w) ∧
    match o with
    | Done first' => ww_m w' = ww_m w ∧ (first' = None → first = None ∧ reaches w w' (rid s (list_to_set prefixes) (table (ww_k w))))
    | Failed _ => False
    | Crashed => True
    end) w.
Proof.
  revert first w. induction prefixes as [|p prefixes IH]; intros first w; cbn [close_prefixes].
  { apply wp_ret. split_and!; [done..|]. intros ->. split; [done|]. split; [|done]. intros key. by rewrite rid_empty. }
  apply wp_bind, wp_try, win_kernel. eapply wp_mono; [apply wp_deleteRoute|]. intros [[]|e|] k1 [Hd Ho]; [| |done].
  - eapply wp_mono; [apply IH|]. cbn [ww_k ww_m]. intros [first'|e|] w2 [Hd2 Ho2]; (split; [cbn in *; congruence|]); [|done..].
    destruct Ho2 as [Hm Hf]. split; [done|]. intros Hn. destruct (Hf Hn) as [Hf1 [Ht _]].
    split; [by destruct first|]. split; [|cbn in *; congruence]. intros key. rewrite Ht. cbn [list_to_set].
    rewrite rid_union. by apply rid_ext.
  - eapply wp_mono; [apply IH|]. cbn [ww_k ww_m]. intros [first'|e'|] w2 [Hd2 Ho2]; (split; [cbn in *; congruence|]); [|done..].
    destruct Ho2 as [Hm Hf]. split; [done|]. intros Hn. destruct (Hf Hn) as [Hf1 _]. by destruct first.
Qed.

(** What a list of groups is given up to. *)
Definition closed_table (m : platformManager) (groups : list WGroup) (t : Table) : Table :=
  foldl (λ t g, rid (close_site m g) (owned g m) t) t groups.

Lemma closed_table_ext m groups t t' : (∀ key, t key = t' key) → ∀ key, closed_table m groups t key = closed_table m groups t' key.
Proof. revert t t'. induction groups as [|g groups IH]; intros t t' Heq; [done|]. cbn. apply IH. by apply rid_ext. Qed.

Lemma closed_table_own g m groups t : g ∉ groups → closed_table (own g ∅ m) groups t = closed_table m groups t.
Proof.
  revert t. induction groups as [|g' groups IH]; intros t Hg; [done|]. apply not_elem_of_cons in Hg as [Hne Hg].
  change (closed_table (own g ∅ m) groups (rid (close_site (own g ∅ m) g') (owned g' (own g ∅ m)) t) =
          closed_table m groups (rid (close_site m g') (owned g' m) t)).
  rewrite IH by done. by destruct g, g'.
Qed.

Definition emptied (groups : list WGroup) (m : platformManager) : platformManager := foldl (λ m g, own g ∅ m) m groups.

Lemma win_close_groups groups first w : NoDup groups →
  wp (close_groups groups first) (λ o w', win_dns (ww_k w') = win_dns (ww_k w) ∧
    match o with
    | Done first' => ww_m w' = emptied groups (ww_m w) ∧
                     (first' = None → first = None ∧ reaches w w' (closed_table (ww_m w) groups (table (ww_k w))))
    | Failed _ => False
    | Crashed => True
    end) w.
Proof.
  revert first w. induction groups as [|g groups IH]; intros first w Hnd; cbn [close_groups].
  { apply wp_ret. done. }
  apply NoDup_cons in Hnd as [Hg Hnd].
  apply wp_bind, wp_read, wp_bind, wp_read, wp_bind. eapply wp_mono; [apply win_close_prefixes|].
  intros [first1|e|] w1 [Hd Ho]; [|done..]. destruct Ho as [Hm Hf]. apply wp_bind, wp_modify.
  eapply wp_mono; [by apply IH|]. cbn [ww_k ww_m]. intros [first'|e|] w2 [Hd2 Ho2]; (split; [cbn in *; congruence|]); [|done..].
  destruct Ho2 as [Hm2 Hf2]. split; [rewrite Hm2; cbn; by rewrite Hm|].
  intros Hn. destruct (Hf2 Hn) as [H1 [Ht _]]. destruct (Hf H1) as [? [Ht1 _]]. split; [done|].
  split; [|cbn in *; congruence]. intros key. rewrite Ht.
  change (ww_m (w1 <| ww_m ::= own g ∅ |>)) with (own g ∅ (ww_m w1)).
  change (ww_k (w1 <| ww_m ::= own g ∅ |>)) with (ww_k w1).
  change (closed_table (ww_m w) (g :: groups) (table (ww_k w)))
    with (closed_table (ww_m w) groups (rid (close_site (ww_m w) g) (owned g (ww_m w)) (table (ww_k w)))).
  rewrite Hm, closed_table_own by done. apply closed_table_ext. intros key'.
  rewrite Ht1. by rewrite list_to_set_elements_L.
Qed.

Lemma wp_silent {A} (call : M K A) (Q : Outcome A → WinW K → Prop) w :
  silent call → (∀ o k', same_tables (ww_k w) k' → Q o (w <| ww_k := k' |>)) → wp (kernel call) Q w.
Proof. intros Hs HQ. apply win_kernel. eapply wp_mono; [apply Hs|]. auto. Qed.

Definition fresh (m : platformManager) : Prop :=
  (∀ g, owned g m = ∅) ∧ wm_dnsCaptured m = false.

(** [setDNS] remembers what was there before its first change. *)
Lemma wp_setDNS_first servers w : wm_dnsCaptured (ww_m w) = false →
  wp (setDNS servers) (λ o w', win_routes (ww_k w') = win_routes (ww_k w) ∧
    match o with
    | Done _ => ww_m w' = (ww_m w) <| wm_dnsOriginal := win_dns (ww_k w) (wm_tunLUID (ww_m w)) |> <| wm_dnsCaptured := true |> ∧
                ∀ l, l ≠ wm_tunLUID (ww_m w) → win_dns (ww_k w') l = win_dns (ww_k w) l
    | _ => True
    end) w.
Proof.
  intros Hc. unfold setDNS. apply wp_bind, wp_read, wp_bind, wp_read. rewrite Hc. cbn [negb].
  apply wp_bind, wp_bind, win_kernel. eapply wp_mono; [apply law_DNS|]. intros [original|e|] k1 [[Hr Hd] Ho]; [|by split..].
  apply wp_modify, wp_bind, wp_read, win_kernel. eapply wp_mono; [apply law_SetDNS|]. cbn [ww_k].
  intros [[]|e|] k2 [Hr2 Ho2]; (split; [cbn in *; congruence|]); [|done..].
  destruct Ho2 as [_ Ho2]. subst original. split; [by destruct w|]. intros l Hl. cbn in *. rewrite Ho2 by done. by rewrite Hd.
Qed.

(** What [Close] leaves behind when it reports no error. *)
Lemma win_Close w :
  wp Close (λ o w', match o with
    | Done _ => (∀ key, win_routes (ww_k w') !! key = closed_table (ww_m w) all_groups (table (ww_k w)) key) ∧
                (∀ l, win_dns (ww_k w') l =
                  if decide (wm_dnsCaptured (ww_m w) = true ∧ l = wm_tunLUID (ww_m w)) then wm_dnsOriginal (ww_m w) else win_dns (ww_k w) l) ∧
                fresh (ww_m w')
    | _ => True
    end) w.
Proof.
  unfold Close. apply wp_bind. eapply wp_mono; [apply win_close_groups; by apply (bool_decide_unpack _)|].
  intros [first|e|] w1 [Hd Ho]; [|done..]. destruct Ho as [Hm Hf]. apply wp_bind, wp_read.
  assert (Hcap : wm_dnsCaptured (ww_m w1) = wm_dnsCaptured (ww_m w) ∧ wm_tunLUID (ww_m w1) = wm_tunLUID (ww_m w) ∧
                 wm_dnsOriginal (ww_m w1) = wm_dnsOriginal (ww_m w) ∧ ∀ g, owned g (ww_m w1) = ∅).
  { rewrite Hm. split_and!; try done. by intros []. }
  destruct Hcap as (Hc & Ht & Ho & Hown). rewrite Hc. apply wp_bind. destruct (wm_dnsCaptured (ww_m w)) eqn:E.
  - apply wp_bind, wp_read, wp_bind, wp_read, wp_bind, wp_try, win_kernel. rewrite Ht, Ho.
    eapply wp_mono; [apply law_SetDNS|]. intros [[]|e|] k2 [Hr2 Ho2]; [| |done].
    + apply wp_bind, wp_modify, wp_ret. destruct first as [err|]; [by apply wp_fail|]. apply wp_ret.
      destruct (Hf eq_refl) as [_ [Htab _]]. cbn. rewrite Hr2. split_and!; [exact Htab| |split; [|done]].
      * intros l. destruct Ho2 as [Hs Hother]. case_decide as Hl; [by destruct Hl as [_ ->]|].
        rewrite Hother by (intros ->; apply Hl; done). by rewrite Hd.
      * intros g. specialize (Hown g). by destruct g.
    + apply wp_bind, wp_modify, wp_ret. by destruct first; apply wp_fail.
  - apply wp_ret. destruct first as [err|]; [by apply wp_fail|]. apply wp_ret.
    destruct (Hf eq_refl) as [_ [Htab _]]. split_and!; [exact Htab| |split; [done|congruence]].
    intros l. rewrite decide_False by (intros [? _]; done). by rewrite Hd.
Qed.

(** The beginning of [Set] leaves the tables alone. *)
Definition gateway_of (cfg : Config) (m : platformManager) : Addr := if IsValid (cfg_Gateway cfg) then cfg_Gateway cfg else wm_gateway m.

Lemma wp_Set_install cfg (Q : Outcome () → WinW K → Prop) w :
  pfx_valid (cfg_VPNAddress cfg) = true → (∀ e w', Q (Failed e) w') → (∀ w', Q Crashed w') →
  (∀ gl k, same_tables (ww_k w) k →
     wp (install cfg) Q (mkWinW k ((ww_m w) <| wm_gateway := gateway_of cfg (ww_m w) |> <| wm_gatewayLUID := gl |>))) →
  wp (wm_Set (Some cfg)) Q w.
Proof.
  intros Hvpn Hf Hc HQ. unfold wm_Set. rewrite Hvpn. cbn [negb].
  destruct law_silent as (Hs1 & _ & Hs3 & Hs4 & Hs5). set (gw := gateway_of cfg (ww_m w)) in *.
  apply wp_bind. eapply wp_mono with (Q := λ o w', o = Done () ∧ w' = w <| ww_m ::= λ m, m <| wm_gateway := gw |> |>).
  { apply wp_when; intros E; unfold gw, gateway_of; rewrite E; [by apply wp_modify|]. split; [done|]. by destruct w as [k []]. }
  intros o w1 [-> ->]. apply wp_bind.
  eapply wp_mono with (Q := λ o w', match o with Done _ => ∃ gl k1, same_tables (ww_k w) k1 ∧
    w' = mkWinW k1 ((ww_m w) <| wm_gateway := gw |> <| wm_gatewayLUID := gl |>) | _ => True end).
  { apply wp_when; intros E.
    - apply wp_bind, wp_silent; [apply Hs1|]. intros [gl|e|] k1 Hk; [|done..]. apply wp_modify. by exists gl, k1.
    - exists (wm_gatewayLUID (ww_m w)), (ww_k w). split; [done|]. by destruct w as [k []]. }
  intros [[]|e|] w1; [|by intros _; auto..]. intros (gl & k1 & [Hk1 Hd1] & ->).
  apply wp_bind, wp_read, wp_bind, wp_silent; [apply Hs3|]. intros [[]|e|] k2 [Hk2 Hd2]; [|auto..]. cbn in Hk2, Hd2.
  apply wp_bind, wp_when; intros E.
  - apply wp_bind, wp_silent; [apply Hs4|]. intros [[]|e|] k3 [Hk3 Hd3]; [|auto..].
    apply wp_silent; [apply Hs5|]. intros [[]|e|] k4 [Hk4 Hd4]; [|auto..]. cbn in Hk2, Hd2, Hk3, Hd3, Hk4, Hd4. apply HQ. split; congruence.
  - apply HQ. split; congruence.
Qed.

(** The routes and the servers of a fresh manager. *)
Lemma wp_install_first cfg w :
  fresh (ww_m w) →
  wp (install cfg) (λ o w', match o with
    | Done _ =>
        let m := ww_m w in
        let tun := wm_tunLUID m in
        let physical := (wm_gatewayLUID m, wm_gateway m, 5) in
        let server := masked_set (server_prefixes cfg) in
        let include := masked_set (cfg_IncludeRoutes cfg) in
        let exclude := masked_set (withoutPrefixes (cfg_ExcludeRoutes cfg) (server_prefixes cfg)) in
        let t1 := put physical server (table (ww_k w)) in
        let t2 := put (tun, pfx_addr (cfg_VPNAddress cfg), 6) include t1 in
        free physical server (table (ww_k w)) ∧ free physical exclude t2 ∧
        (∀ key, win_routes (ww_k w') !! key = put physical exclude t2 key) ∧
        ww_m w' = m <| wm_serverRoutes := server |> <| wm_routes := include |> <| wm_exclude := exclude |>
                    <| wm_dnsOriginal := win_dns (ww_k w) tun |> <| wm_dnsCaptured := true |> ∧
        ∀ l, l ≠ tun → win_dns (ww_k w') l = win_dns (ww_k w) l
    | _ => True
    end) w.
Proof.
  intros [Hown Hcap]. unfold install. do 3 apply wp_bind, wp_read.
  apply wp_bind. eapply wp_mono; [apply win_syncRoutes_first, (Hown WServer)|]. intros [[]|e|] w1 [Hd1 H1]; [|done..].
  destruct H1 as (Hm1 & Hf1 & Ht1 & _).
  apply wp_bind. eapply wp_mono; [apply win_syncRoutes_first; rewrite Hm1; exact (Hown WInclude)|].
  intros [[]|e|] w2 [Hd2 H2]; [|done..]. destruct H2 as (Hm2 & Hf2 & Ht2 & _).
  apply wp_bind. eapply wp_mono; [apply win_syncRoutes_first; rewrite Hm2, Hm1; exact (Hown WExclude)|].
  intros [[]|e|] w3 [Hd3 H3]; [|done..]. destruct H3 as (Hm3 & Hf3 & Ht3 & _).
  assert (Hm : ww_m w3 = (ww_m w) <| wm_serverRoutes := masked_set (server_prefixes cfg) |> <| wm_routes := masked_set (cfg_IncludeRoutes cfg) |>
     <| wm_exclude := masked_set (withoutPrefixes (cfg_ExcludeRoutes cfg) (server_prefixes cfg)) |>) by by rewrite Hm3, Hm2, Hm1.
  eapply wp_mono; [apply wp_setDNS_first; rewrite Hm; exact Hcap|]. intros [[]|e|] w4 [Hr4 H4]; [|done..]. destruct H4 as [Hm4 Hd4].
  assert (Hd : win_dns (ww_k w3) = win_dns (ww_k w)) by congruence.
  assert (E2 : ∀ key, win_routes (ww_k w2) !! key = put (wm_tunLUID (ww_m w), pfx_addr (cfg_VPNAddress cfg), 6) (masked_set (cfg_IncludeRoutes cfg))
      (put (wm_gatewayLUID (ww_m w), wm_gateway (ww_m w), 5) (masked_set (server_prefixes cfg)) (table (ww_k w))) key).
  { intros key. rewrite Ht2. by apply put_ext. }
  cbn zeta. split_and!; [exact Hf1| | | |].
  - intros p Hp. rewrite <-E2. exact (Hf3 p Hp).
  - intros key. rewrite Hr4, Ht3. by apply put_ext.
  - rewrite Hm4, Hm, Hd. done.
  - intros l Hl. rewrite Hd4, Hd; [done|]. rewrite Hm. exact Hl.
Qed.

Lemma fresh_pick luid name m : newPlatformManager luid name = inr m → fresh m ∧ wm_gateway m = AddrNone.
Proof. destruct luid; [|done]. intros [= <-]. split; [|done]. split; [by intros []|done]. Qed.

End effects.

(** ** Recovery after a crash (journal_recover_windows.go) *)

Definition host_text (raw : string) : string :=
  match ParseAddr raw with
  | None => raw
  | Some addr => prefix_string (PrefixFrom addr (BitLen addr))
  end.
Definition routeStrings (address : string) : list string := if address == "" then [] else [host_text address].
Definition hostRouteStrings (addresses : list string) : list string := host_text <$> addresses.

Definition physical_routes (journal : ownershipJournal) : list string :=
  routeStrings (oj_ServerAddress journal) ++ oj_ExcludeRoutes journal ++ hostRouteStrings (oj_DynamicExclude journal).

Definition join_err (errs : option error) (err : error) : option error :=
  Some (match errs with None => err | Some e => ErrJoin e err end).

Section recovery.
Context {K : Type} `{WinNet K}.

Fixpoint recover_each (luid : Z) (gateway : Addr) (raws : list string) (errs : option error) : M K () :=
  match raws with
  | [] => match errs with Some err => fail err | None => mret () end
  | raw :: raws =>
    match netip_ParsePrefix raw with
    | None => recover_each luid gateway raws (join_err errs (ErrText "netip.ParsePrefix"))
    | Some prefix =>
      r ← try (deleteRoute luid prefix gateway 5);
      recover_each luid gateway raws (match r with inl err => join_err errs err | inr _ => errs end)
    end
  end.

Definition recoverWindowsPhysicalRoutes (journal : ownershipJournal) : M K () :=
  if oj_GatewayInterfaceIndex journal =? 0 then mret ()
  else
    luid ← LUIDFromIndex (oj_GatewayInterfaceIndex journal mod 2 ^ 32);
    match ParseAddr (oj_Gateway journal) with
    | None => fail (ErrText "netip.ParseAddr")
    | Some gateway => recover_each luid gateway (physical_routes journal) None
    end.
Definition platformRecoverJournal (journal : ownershipJournal) : M K () := recoverWindowsPhysicalRoutes journal.
End recovery.

Section recovered.
Context {K : Type} `{WinNetLaws K}.
Notation table k := (λ key, win_routes k !! key).

Definition parsed (raws : list string) : gset Prefix := list_to_set (omap netip_ParsePrefix raws).

Lemma wp_recover_each luid gateway raws errs k :
  wp (recover_each luid gateway raws errs) (λ o k', win_dns k' = win_dns k ∧
    match o with
    | Done _ => errs = None ∧ Forall (λ raw, is_Some (netip_ParsePrefix raw)) raws ∧
                ∀ key, win_routes k' !! key = rid (luid, gateway, 5) (parsed raws) (table k) key
    | _ => True
    end) k.
Proof.
  revert errs k. induction raws as [|raw raws IH]; intros errs k; cbn [recover_each].
  { destruct errs; [by apply wp_fail|]. apply wp_ret. split_and!; [done..|]. intros key. unfold parsed. cbn. by rewrite rid_empty. }
  destruct (netip_ParsePrefix raw) as [prefix|] eqn:E.
  - apply wp_bind, wp_try. eapply wp_mono; [apply (wp_deleteRoute (luid, gateway, 5))|].
    intros [[]|e|] k1 [Hd Ho]; [| |done]; (eapply wp_mono; [apply IH|]); intros [[]|e'|] k2 [Hd2 Ho2]; (split; [congruence|]); try done.
    + destruct Ho2 as (-> & Hall & Ht). split; [done|]. split; [constructor; eauto|]. intros key. rewrite Ht.
      unfold parsed. cbn [omap list_omap]. rewrite E. cbn [list_to_set]. rewrite rid_union. by apply rid_ext.
    + by destruct Ho2 as [Hn _]; destruct errs.
  - eapply wp_mono; [apply IH|]. intros [[]|e'|] k2 [Hd2 Ho2]; (split; [done|]); [|done..]. by destruct Ho2 as [Hn _]; destruct errs.
Qed.

(** A recovery that reports no error has taken away every route of the journal
    that goes through the physical gateway, and nothing else; the DNS servers
    are not touched. *)
Theorem recovery_exact journal k :
  oj_GatewayInterfaceIndex journal ≠ 0 →
  wp (platformRecoverJournal journal) (λ o k', win_dns k' = win_dns k ∧ (o = Done () →
    ∃ luid gateway, luid_of k (oj_GatewayInterfaceIndex journal mod 2 ^ 32) = Some luid ∧ ParseAddr (oj_Gateway journal) = Some gateway ∧
      Forall (λ raw, is_Some (netip_ParsePrefix raw)) (physical_routes journal) ∧
      ∀ key, win_routes k' !! key = rid (luid, gateway, 5) (parsed (physical_routes journal)) (table k) key)) k.
Proof.
  intros Hi. unfold platformRecoverJournal, recoverWindowsPhysicalRoutes. rewrite (proj2 (Z.eqb_neq _ _) Hi).
  destruct law_silent as (Hs & _). apply wp_bind.
  eapply wp_mono; [apply (wp_and _ _ _ _ (Hs _ k) (law_LUIDFromIndex _ k))|].
  intros [luid|e|] k1 [[Hr Hd] Hl]; [|by split..]. destruct (ParseAddr _) as [gateway|] eqn:E; [|apply wp_fail; by split].
  eapply wp_mono; [apply wp_recover_each|]. intros o k2 [Hd2 Ho]. split; [congruence|]. intros ->.
  destruct Ho as (_ & Hall & Ht). exists luid, gateway. split_and!; [done..|]. intros key. rewrite Ht. by rewrite Hr.
Qed.
End recovered.

(** ** The default route (default_route_windows.go) *)

Record windowsDefaultRoute := mkDefaultRoute {
  dr_interfaceName : string; dr_interfaceIndex : Z; dr_localIPv4 : Addr; dr_mac : string; dr_gateway : Addr; dr_effectiveMetric : Z;
}.
Record windowsRouteCandidate := mkCandidate {
  wc_interfaceName : string; wc_interfaceIndex : Z; wc_localIPv4 : Addr; wc_mac : string; wc_gateway : Addr;
  wc_routeMetric : Z; wc_interfaceMetric : Z; wc_operational : bool; wc_ipv4Enabled : bool; wc_loopback : bool;
}.

(** The rows and the adapters the API returns, by the fields the code reads;
    [None] among the addresses is one that is no IP address. *)
Record ForwardRow := mkForwardRow { fw_Loopback : bool; fw_Destination : Prefix; fw_LUID : Z; fw_NextHop : Addr; fw_Metric : Z }.
Record Adapter := mkAdapter {
  ad_LUID : Z; ad_Unicast : list (option Addr); ad_FriendlyName : string; ad_IfIndex : Z; ad_Physical : string;
  ad_Ipv4Metric : Z; ad_Up : bool; ad_Ipv4Enabled : bool; ad_SoftwareLoopback : bool;
}.

(** [To4() == nil] skips the addresses that are not IPv4, mapped or not. *)
Fixpoint firstUsableWindowsIPv4 (addresses : list (option Addr)) : Addr :=
  match addresses with
  | [] => AddrNone
  | Some ip :: addresses =>
    let addr := Unmap ip in
    if Is4 addr && IsGlobalUnicast addr then addr else firstUsableWindowsIPv4 addresses
  | None :: addresses => firstUsableWindowsIPv4 addresses
  end.

Definition candidate_metric (c : windowsRouteCandidate) : Z := wc_routeMetric c + wc_interfaceMetric c.
Definition usable (excludeInterface : string) (c : windowsRouteCandidate) : bool :=
  negb (negb (wc_operational c) || negb (wc_ipv4Enabled c) || wc_loopback c ||
        (wc_interfaceName c == excludeInterface) || negb (IsGlobalUnicast (wc_localIPv4 c))).

(** The loop of [selectWindowsDefaultRoute]; the metrics are uint32, so their
    sum as uint64 does not wrap. *)
Definition better (c : windowsRouteCandidate) (best : option windowsRouteCandidate) : bool :=
  match best with
  | None => true
  | Some b => (candidate_metric c <? candidate_metric b) ||
              ((candidate_metric c =? candidate_metric b) && (wc_interfaceIndex c <? wc_interfaceIndex b))
  end.
Fixpoint select_from (excludeInterface : string) (candidates : list windowsRouteCandidate) (best : option windowsRouteCandidate)
    : option windowsRouteCandidate :=
  match candidates with
  | [] => best
  | c :: candidates =>
    select_from excludeInterface candidates (if negb (usable excludeInterface c) then best else if better c best then Some c else best)
  end.
Definition selectWindowsDefaultRoute (candidates : list windowsRouteCandidate) (excludeInterface : string) : error + windowsRouteCandidate :=
  match select_from excludeInterface candidates None with
  | None => inl (ErrText "no operational IPv4 default route with a usable source address")
  | Some c => inr c
  end.

Definition byLUID (adapters : list Adapter) (luid : Z) : option Adapter := last (filter (λ a, ad_LUID a = luid) adapters).

Definition candidate_of (adapters : list Adapter) (route : ForwardRow) : option windowsRouteCandidate :=
  if fw_Loopback route || negb (pfx_bits (fw_Destination route) =? 0) ||
     negb (bool_decide (Unmap (pfx_addr (fw_Destination route)) = IPv4Unspecified)) then None
  else
    adapter ← byLUID adapters (fw_LUID route);
    Some (mkCandidate (ad_FriendlyName adapter) (ad_IfIndex adapter) (firstUsableWindowsIPv4 (ad_Unicast adapter)) (ad_Physical adapter)
            (Unmap (fw_NextHop route)) (fw_Metric route) (ad_Ipv4Metric adapter) (ad_Up adapter) (ad_Ipv4Enabled adapter) (ad_SoftwareLoopback adapter)).

Definition getWindowsDefaultRoute (routes : error + list ForwardRow) (adapters : error + list Adapter) (excludeInterface : string)
    : error + windowsDefaultRoute :=
  match routes, adapters with
  | inl err, _ => inl (ErrWrap "read IPv4 route table: " err "")
  | inr _, inl err => inl (ErrWrap "read IPv4 adapters: " err "")
  | inr routes, inr adapters =>
    let candidates := omap (candidate_of adapters) routes in
    match selectWindowsDefaultRoute candidates excludeInterface with
    | inl err => inl (ErrWrap ("select IPv4 underlay from " +:+ Itoa (Z.of_nat (length candidates)) +:+ " default routes: ") err "")
    | inr selected =>
      let metric := candidate_metric selected in
      if max_int64 <? metric then inl (ErrText "selected IPv4 underlay metric overflows int")
      else inr (mkDefaultRoute (wc_interfaceName selected) (wc_interfaceIndex selected) (wc_localIPv4 selected) (wc_mac selected)
                  (wc_gateway selected) metric)
    end
  end.

Definition GetLocalInterface (routes : error + list ForwardRow) (adapters : error + list Adapter) : error + LocalInterface :=
  match getWindowsDefaultRoute routes adapters "" with
  | inl err => inl err
  | inr s => inr (mkLocalInterface (dr_interfaceName s) (addr_string (dr_localIPv4 s)) (dr_mac s) (addr_string (dr_gateway s)) (dr_interfaceIndex s))
  end.

(** monitor_windows.go. *)
Definition GetUnderlaySnapshot (routes : error + list ForwardRow) (adapters : error + list Adapter) (excludeInterface : string)
    : error + UnderlaySnapshot :=
  match getWindowsDefaultRoute routes adapters excludeInterface with
  | inl err => inl err
  | inr s => inr (mkUnderlaySnapshot (dr_interfaceName s) (dr_interfaceIndex s) (dr_localIPv4 s) (dr_gateway s) (dr_interfaceIndex s)
                    (dr_effectiveMetric s) 0)
  end.

(** No candidate comes before another: a smaller sum, or the same sum and a
    smaller index. *)
Definition not_before (c b : windowsRouteCandidate) : Prop :=
  candidate_metric b < candidate_metric c ∨
  candidate_metric b = candidate_metric c ∧ wc_interfaceIndex b ≤ wc_interfaceIndex c.

Lemma select_from_spec ex candidates best :
  match best with Some b => usable ex b = true | None => True end →
  match select_from ex candidates best with
  | None => best = None ∧ Forall (λ c, usable ex c = false) candidates
  | Some s => (Some s = best ∨ s ∈ candidates) ∧ usable ex s = true ∧
              (match best with Some b => not_before b s | None => True end) ∧
              Forall (λ c, usable ex c = true → not_before c s) candidates
  end.
Proof using.
  revert best. induction candidates as [|c candidates IH]; intros best Hb; cbn [select_from].
  { destruct best as [b|]; [|done]. split_and!; [by left|done| |constructor]. right. lia. }
  destruct (usable ex c) eqn:Hu; cbn [negb].
  - assert (Hb' : match (if better c best then Some c else best) with Some b => usable ex b = true | None => True end)
      by (by destruct (better c best)).
    specialize (IH _ Hb'). destruct (select_from ex candidates _) as [s|].
    + destruct IH as (Hin & Hs & Hbest & Hall). destruct (better c best) eqn:Eb.
      * split_and!; [right; destruct Hin as [[= ->]|]; set_solver|done| |].
        -- destruct best as [b|]; [|done]. cbn in Eb. unfold not_before in *.
           apply orb_true_iff in Eb as [Eb%Z.ltb_lt|[Eb%Z.eqb_eq Ei%Z.ltb_lt]%andb_true_iff]; lia.
        -- constructor; [by intros _|done].
      * destruct best as [b|]; [|done]. split_and!; [destruct Hin; [by left|right; set_solver]|done|done|].
        constructor; [intros _|done]. cbn in Eb. unfold not_before in *.
        apply orb_false_iff in Eb as [Eb%Z.ltb_ge Ei]. apply andb_false_iff in Ei as [Ei%Z.eqb_neq|Ei%Z.ltb_ge]; lia.
    + destruct IH as [E _]. by destruct (better c best) eqn:Eb, best.
  - specialize (IH best Hb). destruct (select_from ex candidates best) as [s|].
    + destruct IH as (Hin & Hs & Hbest & Hall). split_and!; [destruct Hin; [by left|right; set_solver]|done|done|].
      constructor; [congruence|done].
    + destruct IH as [-> Hall]. split; [done|]. by constructor.
Qed.

(** The route that is chosen is one the code can use, and none that it can use
    has a smaller effective metric, or the same and a smaller interface index;
    there is an error only when none can be used. *)
Theorem default_route_best candidates ex :
  match selectWindowsDefaultRoute candidates ex with
  | inr s => s ∈ candidates ∧ usable ex s = true ∧ Forall (λ c, usable ex c = true → not_before c s) candidates
  | inl _ => Forall (λ c, usable ex c = false) candidates
  end.
Proof using.
  unfold selectWindowsDefaultRoute. pose proof (select_from_spec ex candidates None I) as H.
  destruct (select_from ex candidates None) as [s|]; [|by destruct H].
  destruct H as ([?|?] & ? & _ & ?); done.
Qed.

(** And what the daemon takes for its underlay has a source address. *)
Theorem underlay_has_source routes adapters ex s :
  getWindowsDefaultRoute routes adapters ex = inr s →
  IsGlobalUnicast (dr_localIPv4 s) = true ∧ dr_interfaceName s ≠ ex ∧ dr_effectiveMetric s ≤ max_int64.
Proof using.
  unfold getWindowsDefaultRoute. destruct routes as [?|routes], adapters as [?|adapters]; try done.
  pose proof (default_route_best (omap (candidate_of adapters) routes) ex) as H.
  destruct (selectWindowsDefaultRoute _ _) as [?|c]; [done|]. destruct H as (_ & Hu & _).
  destruct (Z.ltb_spec max_int64 (candidate_metric c)); [done|]. intros [= <-]. cbn.
  unfold usable in Hu. rewrite !negb_orb, !negb_involutive, !andb_true_iff in Hu.
  destruct Hu as (((_ & _) & Hn) & Hg). split_and!; [done|by apply eqb_false, negb_true_iff|done].
Qed.

(** ** A machine to run it on *)

Module Example.

(** The table of routes and the servers of each interface; [unset] has none. *)
Definition machine : Type := gmap Key Z * gmap Z (list Addr).
Definition dns_of (k : machine) (l : Z) : list Addr := default [] (k.2 !! l).
Definition missing : error := ErrText "Element not found.".
Definition is_missing (e : error) : bool := match e with ErrText t => t == "Element not found." | _ => false end.

#[export] Instance machine_windows : WinNet machine := {
  LUIDFromIndex i := λ k, (k, Done (i * 1000));
  luid_Interface _ := λ k, (k, Done ());
  SetIPAddressesForFamily _ _ := λ k, (k, Done ());
  IPInterface _ := λ k, (k, Done ());
  IPInterface_Set _ _ := λ k, (k, Done ());
  AddRoute l p n m := λ k, match k.1 !! (l, p, n) with
                           | Some _ => (k, Failed (ErrText "The object already exists."))
                           | None => ((<[(l, p, n) := m]> k.1, k.2), Done ())
                           end;
  luid_Route l p n := λ k, match k.1 !! (l, p, n) with Some m => (k, Done m) | None => (k, Failed missing) end;
  row_Delete l p n := λ k, ((delete (l, p, n) k.1, k.2), Done ());
  luid_DNS l := λ k, (k, Done (dns_of k l));
  luid_SetDNS l servers := λ k, ((k.1, <[l := servers]> k.2), Done ());
  not_found := is_missing;
  isAlreadyExists e := match e with ErrText t => t == "The object already exists." | _ => false end;
  win_routes k := k.1;
  win_dns k := dns_of k;
  luid_of _ i := Some (i * 1000);
}.

#[export] Instance machine_windows_laws : WinNetLaws machine.
Proof.
  split.
  - done.
  - done.
  - intros l p n m k. unfold wp; cbn. destruct (k.1 !! (l, p, n)) eqn:E; cbn; by rewrite ?E.
  - intros l p n k. unfold wp; cbn. destruct (k.1 !! (l, p, n)) eqn:E; cbn; by rewrite ?E.
  - done.
  - done.
  - intros l servers k. unfold wp; cbn. unfold dns_of. cbn. split; [done|]. rewrite lookup_insert_eq. split; [done|].
    intros l' Hl. by rewrite lookup_insert_ne.
Qed.

Definition gw : Addr := Addr4 0xc0a80101.
Definition vpn : Addr := Addr4 0x0a080001.
Definition config : Config :=
  mkConfig "flex" 7 (prefix4 0x0a080001 24) 1399 zero_snapshot (Addr4 0xcb007105) gw 3 [prefix4 0x0a000000 8] [prefix4 0xac100000 16] [Addr4 0x0a080035].
Definition manager : platformManager := mkPlatformManager "flex" 7000 0 AddrNone ∅ ∅ ∅ ∅ ∅ [] false.
Definition start : WinW machine := mkWinW ({[(3000, prefix4 0 0, gw) := 25]}, {[3000 := [gw]]}) manager.
Definition life : M (WinW machine) () := _ ← wm_Set (Some config); Close.

Lemma life_done : (life start).2 = Done ().
Proof. vm_compute. reflexivity. Qed.

Lemma device_is_new p n : win_routes (ww_k start) !! (wm_tunLUID manager, p, n) = None.
Proof. apply lookup_singleton_ne. intros [=]. Qed.

(** The machine after the connection: what it had, and the route of the
    included network. *)
Example windows_life_left :
  map_to_list (win_routes (ww_k (life start).1)) = [((3000, prefix4 0 0, gw), 25); ((7000, prefix4 0x0a000000 8, vpn), 6)] ∨
  map_to_list (win_routes (ww_k (life start).1)) = [((7000, prefix4 0x0a000000 8, vpn), 6); ((3000, prefix4 0 0, gw), 25)].
Proof. vm_compute. first [left; reflexivity|right; reflexivity]. Qed.

End Example.
