(* ===== verification/OsDarwin.v ===== *)
(** * The macOS network manager
    (src/internal/osnet/manager_darwin.go, darwin_dns_contract.go,
    journal_recover_darwin.go and monitor_darwin.go)

    On macOS the manager runs programs: ifconfig, route and scutil, and reads
    the answer of [route -n get].  [Darwin] is what it runs, [DarwinLaws] what
    the manual of [route] says: a table from destinations to gateways, where
    [get] answers for an address with the longest destination it falls in.

    The results: which routes an operation can touch, what deleting a route
    does, and the two ways in which a route outlives its owner. *)

From S2P Require Import Prelude GoStrings NetIP OsNet Journal.
From S2P Require LinuxNet NetRecovery.

Open Scope go_scope.
Open Scope Z_scope.

(** ** Texts *)

Definition newline : ascii := ascii_of_nat 10.

(** A "key: value" line of [route -n get]. *)
Definition route_line (line : string) : option (string * string) :=
  match Fields (TrimSpace line) with
  | key :: value :: _ => Some (TrimSuffix key ":", value)
  | _ => None
  end.
Definition gateway_of_line (line : string) : option string :=
  match route_line line with Some (key, value) => if key == "gateway" then Some value else None | None => None end.
Definition gateway_field (out : string) : string := default "" (head (omap gateway_of_line (split_byte out newline))).

(** darwin_dns_contract.go. *)
Definition darwinDNSKey : string := "State:/Network/Service/FlexConnect/DNS".
Definition line_end : string := String newline "".
Definition darwinDNSSetScript (servers : list Addr) : string :=
  "d.init" +:+ line_end +:+ "d.add ServerAddresses * " +:+ Join (AddrStrings servers) " " +:+ line_end +:+
  "set " +:+ darwinDNSKey +:+ line_end.
Definition darwinDNSClearScript : string := "remove " +:+ darwinDNSKey +:+ line_end.

(** ** The programs *)

(** [run] joins the error of a program with what it printed. *)
Class Darwin (K : Type) := {
  ifconfig : list string → M K ();
  route_add : string → string → M K ();
  route_get : string → M K (string * option error);
  route_delete : string → M K ();
  scutil : string → M K (string * option error);
  (* what a look at the system shows: the gateway of each destination, by
     their texts, and the last script the store was given *)
  darwin_routes : K → gmap string string;
  darwin_dns : K → option string;
}.

(** The destinations an address falls in, and the longest of them. *)
Definition covers (a : Addr) (destination : string) : option Z :=
  match netip_ParsePrefix destination with
  | Some p => if bool_decide (Masked (PrefixFrom a (pfx_bits p)) = Masked p) then Some (pfx_bits p) else None
  | None => None
  end.
Definition best_route (t : gmap string string) (a : Addr) (gateway : option string) : Prop :=
  match gateway with
  | Some g => ∃ d b, t !! d = Some g ∧ covers a d = Some b ∧
                ∀ d' g' b', t !! d' = Some g' → covers a d' = Some b' → b' ≤ b
  | None => ∀ d g, t !! d = Some g → covers a d = None
  end.

Definition not_in_table (out : string) : bool := Contains (ToLower out) "not in table".

Class DarwinLaws (K : Type) `{Darwin K} := {
  law_ifconfig args k : wp (ifconfig args) (λ _ k', darwin_routes k' = darwin_routes k ∧ darwin_dns k' = darwin_dns k) k;
  law_scutil script k : wp (scutil script) (λ o k', darwin_routes k' = darwin_routes k ∧
    match o with
    | Done (_, None) => darwin_dns k' = Some script
    | Done (_, Some _) | Failed _ => darwin_dns k' = darwin_dns k
    | Crashed => True
    end) k;
  law_route_add d g k : wp (route_add d g) (λ o k', darwin_dns k' = darwin_dns k ∧
    match o with
    | Done _ => darwin_routes k !! d = None ∧ darwin_routes k' = <[d := g]> (darwin_routes k)
    | Failed _ => darwin_routes k' = darwin_routes k
    | Crashed => darwin_routes k' = darwin_routes k ∨ darwin_routes k' = <[d := g]> (darwin_routes k)
    end) k;
  law_route_get v k : 0 ≤ v < 2 ^ 32 → let a := Addr4 v in wp (route_get (addr_string a)) (λ o k', darwin_routes k' = darwin_routes k ∧ darwin_dns k' = darwin_dns k ∧
    match o with
    | Done (out, None) => ∃ g, best_route (darwin_routes k) a (Some g) ∧ gateway_field out = g
    | Done (out, Some _) => not_in_table out = true → best_route (darwin_routes k) a None
    | _ => True
    end) k;
  law_route_delete d k : wp (route_delete d) (λ o k', darwin_dns k' = darwin_dns k ∧
    match o with
    | Done _ => darwin_routes k' = delete d (darwin_routes k)
    | Failed _ => darwin_routes k' = darwin_routes k
    | Crashed => darwin_routes k' = darwin_routes k ∨ darwin_routes k' = delete d (darwin_routes k)
    end) k;
}.

(** ** The manager *)

Inductive DGroup := DServer | DInclude | DExclude | DDynamicInclude | DDynamicExclude.
#[export] Instance DGroup_eq_dec : EqDecision DGroup.
Proof. solve_decision. Defined.

Record platformManager := mkPlatformManager {
  dm_name : string; dm_gateway : Addr; dm_vpnAddr : Addr;
  dm_serverRoutes : gset Prefix; dm_includeRoutes : gset Prefix; dm_excludeRoutes : gset Prefix;
  dm_dynamicInclude : gset Prefix; dm_dynamicExclude : gset Prefix; dm_dnsSet : bool;
}.
#[export] Instance platformManager_eta : Eta platformManager := λ r,
  mkPlatformManager (dm_name r) (dm_gateway r) (dm_vpnAddr r) (dm_serverRoutes r) (dm_includeRoutes r) (dm_excludeRoutes r)
    (dm_dynamicInclude r) (dm_dynamicExclude r) (dm_dnsSet r).
Definition newPlatformManager (name : string) : platformManager := mkPlatformManager name AddrNone AddrNone ∅ ∅ ∅ ∅ ∅ false.

Definition owned (g : DGroup) (m : platformManager) : gset Prefix :=
  match g with
  | DServer => dm_serverRoutes m | DInclude => dm_includeRoutes m | DExclude => dm_excludeRoutes m
  | DDynamicInclude => dm_dynamicInclude m | DDynamicExclude => dm_dynamicExclude m
  end.
Definition own (g : DGroup) (s : gset Prefix) (m : platformManager) : platformManager :=
  match g with
  | DServer => m <| dm_serverRoutes := s |> | DInclude => m <| dm_includeRoutes := s |> | DExclude => m <| dm_excludeRoutes := s |>
  | DDynamicInclude => m <| dm_dynamicInclude := s |> | DDynamicExclude => m <| dm_dynamicExclude := s |>
  end.
(** The gateway of each group in [Close]. *)
Definition group_gateway (m : platformManager) (g : DGroup) : Addr :=
  match g with DServer | DExclude | DDynamicExclude => dm_gateway m | DInclude | DDynamicInclude => dm_vpnAddr m end.

Record DarW (K : Type) := mkDarW { dw_k : K; dw_m : platformManager }.
Arguments mkDarW {K} _ _.
Arguments dw_k {K} _.
Arguments dw_m {K} _.
#[export] Instance DarW_eta K : Eta (DarW K) := λ r, mkDarW (dw_k r) (dw_m r).

Definition addrsToHostPrefixes (addrs : list Addr) : list Prefix :=
  (λ a, let addr := Unmap a in PrefixFrom addr (BitLen addr)) <$> addrs.

Section manager.
Context {K : Type} `{Darwin K}.
Notation DarM := (M (DarW K)).

Definition kernel {A} (call : M K A) : DarM A := λ w, let '(k, o) := call (dw_k w) in (w <| dw_k := k |>, o).
Definition self {A} (f : platformManager → A) : DarM A := read (λ w, f (dw_m w)).
Definition assign (f : platformManager → platformManager) : DarM () := modify (λ w, w <| dw_m ::= f |>).

Definition deleteDarwinOwnedRoute (raw expectedGateway : string) : M K () :=
  match netip_ParsePrefix raw with
  | None => fail (ErrText "netip.ParsePrefix")
  | Some prefix =>
    '(out, err) ← route_get (addr_string (pfx_addr prefix));
    match err with
    | Some err =>
      if not_in_table out then mret ()
      else fail (ErrWrap ("inspect route " +:+ prefix_string prefix +:+ ": ") err (": " +:+ TrimSpace out))
    | None =>
      if gateway_field out != expectedGateway then mret () else route_delete (prefix_string prefix)
    end
  end.

Fixpoint add_routes (g : DGroup) (gateway : Addr) (add : list Prefix) (installed : gset Prefix) : DarM (gset Prefix) :=
  match add with
  | [] => mret installed
  | prefix :: add =>
    r ← try (kernel (route_add (prefix_string prefix) (addr_string gateway)));
    match r with
    | inl err => _ ← assign (own g installed); fail err
    | inr _ => add_routes g gateway add ({[prefix]} ∪ installed)
    end
  end.
Fixpoint del_routes (g : DGroup) (gateway : Addr) (del : list Prefix) (installed : gset Prefix) : DarM () :=
  match del with
  | [] => mret ()
  | prefix :: del =>
    r ← try (kernel (deleteDarwinOwnedRoute (prefix_string prefix) (addr_string gateway)));
    match r with
    | inl err => _ ← assign (own g installed); fail err
    | inr _ => del_routes g gateway del (installed ∖ {[prefix]})
    end
  end.
Definition syncRoutes (g : DGroup) (next : list Prefix) (gateway : Addr) : DarM () :=
  if negb (IsValid gateway) then mret ()
  else
    old ← self (owned g);
    let '(add, del, state) := DiffPrefixes old next in
    installed ← add_routes g gateway add old;
    _ ← del_routes g gateway del installed;
    assign (own g state).

Definition clearDarwinDNS : M K () :=
  '(out, err) ← scutil darwinDNSClearScript;
  match err with Some err => fail (ErrWrap "scutil DNS clear failed: " err (": " +:+ TrimSpace out)) | None => mret () end.
Definition setDarwinDNS (servers : list Addr) : M K () :=
  match servers with
  | [] => clearDarwinDNS
  | _ =>
    '(out, err) ← scutil (darwinDNSSetScript servers);
    match err with Some err => fail (ErrWrap "scutil DNS set failed: " err (": " +:+ TrimSpace out)) | None => mret () end
  end.

Definition first_of (first : option error) (r : error + ()) : option error :=
  match r, first with inl err, None => Some err | _, _ => first end.
Fixpoint close_prefixes (gateway : Addr) (prefixes : list Prefix) (first : option error) : DarM (option error) :=
  match prefixes with
  | [] => mret first
  | prefix :: prefixes =>
    r ← try (kernel (deleteDarwinOwnedRoute (prefix_string prefix) (addr_string gateway)));
    close_prefixes gateway prefixes (first_of first r)
  end.
Fixpoint close_groups (groups : list DGroup) (first : option error) : DarM (option error) :=
  match groups with
  | [] => mret first
  | g :: groups =>
    gateway ← self (λ m, group_gateway m g);
    prefixes ← self (owned g);
    first ← close_prefixes gateway (elements prefixes) first;
    _ ← assign (own g ∅);
    close_groups groups first
  end.
Definition all_groups : list DGroup := [DServer; DInclude; DExclude; DDynamicInclude; DDynamicExclude].

Definition Close : DarM () :=
  first ← close_groups all_groups None;
  set ← self dm_dnsSet;
  first ← (if set : bool then
             r ← try (kernel clearDarwinDNS);
             _ ← assign (λ m, m <| dm_dnsSet := false |>);
             mret (first_of first r)
           else mret first);
  match first with Some err => fail err | None => mret () end.

Definition Up : DarM () := mret ().

Definition server_prefixes (cfg : Config) : list Prefix :=
  if IsValid (cfg_ServerAddress cfg) && IsValid (cfg_Gateway cfg)
  then [PrefixFrom (cfg_ServerAddress cfg) (BitLen (cfg_ServerAddress cfg))] else [].

Definition dm_Set (cfg : option Config) : DarM () :=
  match cfg with
  | None => Close
  | Some cfg =>
    if negb (pfx_valid (cfg_VPNAddress cfg)) then Close
    else
      let vpnAddr := pfx_addr (cfg_VPNAddress cfg) in
      let gateway := cfg_Gateway cfg in
      _ ← assign (λ m, m <| dm_vpnAddr := vpnAddr |> <| dm_gateway := gateway |>);
      _ ← fail_if (IsValid (cfg_ServerAddress cfg) && negb (IsValid gateway))
            (ErrText "missing physical underlay gateway for VPN server route");
      name ← self dm_name;
      _ ← kernel (ifconfig [name; "inet"; addr_string vpnAddr; addr_string vpnAddr; "netmask"; "255.255.255.255"; "up"]);
      let server := server_prefixes cfg in
      _ ← syncRoutes DServer server gateway;
      _ ← syncRoutes DInclude (cfg_IncludeRoutes cfg) vpnAddr;
      _ ← syncRoutes DExclude (withoutPrefixes (cfg_ExcludeRoutes cfg) server) gateway;
      if (0 <? length (cfg_DNSServers cfg))%nat then
        _ ← kernel (setDarwinDNS (cfg_DNSServers cfg)); assign (λ m, m <| dm_dnsSet := true |>)
      else
        set ← self dm_dnsSet;
        when set (_ ← kernel clearDarwinDNS; assign (λ m, m <| dm_dnsSet := false |>))
  end.

Definition SetDynamicRoutes (routes : DynamicRoutes) : DarM () :=
  vpnAddr ← self dm_vpnAddr;
  gateway ← self dm_gateway;
  _ ← syncRoutes DDynamicInclude (addrsToHostPrefixes (dyn_Include routes)) vpnAddr;
  syncRoutes DDynamicExclude (addrsToHostPrefixes (dyn_Exclude routes)) gateway.
End manager.

(** ** Recovery after a crash *)

Definition host_text (raw : string) : string :=
  match ParseAddr raw with None => raw | Some addr => prefix_string (PrefixFrom addr (BitLen addr)) end.
Definition routeStrings (address : string) : list string := if address == "" then [] else [host_text address].
Definition hostRouteStrings (addresses : list string) : list string := host_text <$> addresses.
Definition join_err (errs : option error) (err : error) : option error :=
  Some (match errs with None => err | Some e => ErrJoin e err end).

Section recovery.
Context {K : Type} `{Darwin K}.
Fixpoint recover_each (gateway : string) (raws : list string) (errs : option error) : M K (option error) :=
  match raws with
  | [] => mret errs
  | raw :: raws =>
    r ← try (deleteDarwinOwnedRoute raw gateway);
    recover_each gateway raws (match r with inl err => join_err errs err | inr _ => errs end)
  end.

Definition physical_routes (journal : ownershipJournal) : list string :=
  routeStrings (oj_ServerAddress journal) ++ oj_ExcludeRoutes journal ++ hostRouteStrings (oj_DynamicExclude journal).
Definition tunnel_routes (journal : ownershipJournal) : list string :=
  oj_IncludeRoutes journal ++ hostRouteStrings (oj_DynamicInclude journal).
Definition vpn_gateway (journal : ownershipJournal) : string := default "" (head (split_byte (oj_VPNAddress journal) "/")).

Definition platformRecoverJournal (journal : ownershipJournal) : M K () :=
  errs ← recover_each (oj_Gateway journal) (physical_routes journal) None;
  errs ← recover_each (vpn_gateway journal) (tunnel_routes journal) errs;
  errs ← (if (0 <? length (oj_DNSServers journal))%nat then
            r ← try clearDarwinDNS;
            mret (match r with
                  | inl err => if Contains (ToLower (error_msg err)) "no such key" then errs else join_err errs err
                  | inr _ => errs
                  end)
          else mret errs);
  match errs with Some err => fail err | None => mret () end.
End recovery.

(** ** The local interface and the underlay *)

(** What [net.InterfaceByName] finds: the hardware address, the texts of the
    IPv4 addresses, the index. *)
Record NetInterface := mkNetInterface { ni_MAC : string; ni_IPv4 : list string; ni_Index : Z }.

Definition read_default (out : string) : string * string :=
  foldl (λ '(name, gateway) line,
    match route_line line with
    | Some (key, value) => if key == "interface" then (value, gateway) else if key == "gateway" then (name, value) else (name, gateway)
    | None => (name, gateway)
    end) ("", "") (split_byte out newline).

Definition GetLocalInterface (answer : string * option error) (InterfaceByName : string → option NetInterface) : error + LocalInterface :=
  match answer with
  | (out, Some err) => inl (ErrWrap "" err (": " +:+ out))
  | (out, None) =>
    let '(name, gateway) := read_default out in
    let info := match InterfaceByName name with
                | Some i => mkLocalInterface name (default "" (last (ni_IPv4 i))) (ni_MAC i) gateway (ni_Index i)
                | None => mkLocalInterface name "" "" gateway 0
                end in
    if (name == "") || (gateway == "") then inl (ErrText "incomplete local interface info") else inr info
  end.

Definition GetUnderlaySnapshot (info : error + LocalInterface) (excludeInterface : string) : error + UnderlaySnapshot :=
  match info with
  | inl err => inl err
  | inr info =>
    if (excludeInterface != "") && (li_Name info == excludeInterface) then inl (ErrText "default route resolves to excluded interface")
    else
      match ParseAddr (li_IP4 info), ParseAddr (li_Gateway info) with
      | None, _ | _, None => inl (ErrText "netip.ParseAddr")
      | Some local, Some gateway =>
        inr (mkUnderlaySnapshot (li_Name info) (li_InterfaceIndex info) (Unmap local) (Unmap gateway) (li_InterfaceIndex info) 0 0)
      end
  end.

Example reads_route_get :
  let out := "   route to: default" +:+ line_end +:+ "destination: default" +:+ line_end +:+ "    gateway: 192.168.1.1" +:+ line_end +:+
             "  interface: en0" +:+ line_end +:+ "      flags: <UP,GATEWAY,DONE>" +:+ line_end in
  gateway_field out = "192.168.1.1" ∧ read_default out = ("en0", "192.168.1.1") ∧
  GetUnderlaySnapshot (GetLocalInterface (out, None) (λ _, Some (mkNetInterface "aa:bb" ["192.168.1.7"] 5))) "utun3" =
    inr (mkUnderlaySnapshot "en0" 5 (Addr4 0xc0a80107) (Addr4 0xc0a80101) 5 0 0).
Proof. vm_compute. done. Qed.

(** ** What an operation does to the table *)

Notation Table := (string → option string).
Definition texts (P : gset Prefix) : gset string := set_map prefix_string P.
Definition put (gateway : string) (D : gset string) (t : Table) : Table := λ d, if decide (d ∈ D) then Some gateway else t d.
Definition rid (D : gset string) (t : Table) : Table := λ d, if decide (d ∈ D) then None else t d.

(** At its own first address, a destination is longer than every other one of
    the table. *)
Definition longest (T : gmap string string) (p : Prefix) : Prop :=
  ∀ d g b, T !! d = Some g → covers (pfx_addr p) d = Some b → d ≠ prefix_string p → b < pfx_bits p.

Definition v4s (P : gset Prefix) : Prop := ∀ p, p ∈ P → LinuxNet.v4_prefix p.

Lemma v4_text p : LinuxNet.v4_prefix p → netip_ParsePrefix (prefix_string p) = Some p.
Proof. apply NetRecovery.v4_prefix_text. Qed.

Lemma texts_inj p q : LinuxNet.v4_prefix p → LinuxNet.v4_prefix q → prefix_string p = prefix_string q → p = q.
Proof. intros Hp Hq E. apply v4_text in Hp, Hq. rewrite E in Hp. congruence. Qed.

Lemma covers_itself p : LinuxNet.v4_prefix p → covers (pfx_addr p) (prefix_string p) = Some (pfx_bits p).
Proof.
  intros Hp. unfold covers. rewrite v4_text by done. rewrite bool_decide_eq_true_2; [done|].
  destruct Hp as (v & b & Hv & Hb & -> & Hm). cbn [pfx_addr pfx_bits prefix4]. f_equal. unfold PrefixFrom, prefix4. cbn.
  rewrite !(proj2 (Z.leb_le _ _)) by lia. done.
Qed.

Lemma longest_sub T T' p : longest T p → (∀ d g, T' !! d = Some g → ∃ g', T !! d = Some g') → longest T' p.
Proof. intros HT Hsub d g b Hd Hc Hne. destruct (Hsub d g Hd) as [g' Hg']. by eapply HT. Qed.

(** The longest destination is the one [route -n get] answers with. *)
Lemma best_is_longest T p g g' : LinuxNet.v4_prefix p → T !! prefix_string p = Some g → longest T p →
  best_route T (pfx_addr p) (Some g') → g' = g.
Proof.
  intros Hp HT Hl (d & b & Hd & Hc & Hmax).
  destruct (decide (d = prefix_string p)) as [->|Hne]; [congruence|].
  pose proof (Hl d g' b Hd Hc Hne). pose proof (Hmax _ _ _ HT (covers_itself p Hp)). lia.
Qed.

Definition unshadowed (P : gset Prefix) (gateway : string) (T : gmap string string) : Prop :=
  v4s P ∧ ∀ p, p ∈ P → T !! prefix_string p = Some gateway ∧ longest T p.

Lemma unshadowed_delete P gateway T p :
  unshadowed P gateway T → LinuxNet.v4_prefix p → p ∉ P → unshadowed P gateway (delete (prefix_string p) T).
Proof.
  intros [Hv H1] Hp Hn. split; [done|]. intros q Hq. destruct (H1 q Hq) as [HT Hl]. split.
  - rewrite lookup_delete_ne; [done|]. intros E. apply texts_inj in E; [|done|by apply Hv]. by subst.
  - eapply longest_sub; [done|]. intros d g' Hd. apply lookup_delete_Some in Hd as [_ ?]. by exists g'.
Qed.

Lemma unshadowed_rid P Q gateway T T' :
  unshadowed P gateway T → v4s Q → P ## Q → (∀ d, T' !! d = rid (texts Q) (λ d, T !! d) d) → unshadowed P gateway T'.
Proof.
  intros [Hv H1] HQ Hdisj HT'. split; [done|]. intros p Hp. destruct (H1 p Hp) as [HT Hl]. split.
  - rewrite HT'. unfold rid. rewrite decide_False; [done|]. intros (q & E & Hq)%elem_of_map.
    apply texts_inj in E; [|by apply Hv|by apply HQ]. subst. by apply (Hdisj q).
  - eapply longest_sub; [done|]. intros d g. rewrite HT'. unfold rid. case_decide; [done|]. by exists g.
Qed.

Definition all_owned (groups : list DGroup) (m : platformManager) : gset Prefix := foldr (λ g P, owned g m ∪ P) ∅ groups.
Definition emptied (groups : list DGroup) (m : platformManager) : platformManager := foldl (λ m g, own g ∅ m) m groups.

Lemma all_owned_own g groups m : g ∉ groups → all_owned groups (own g ∅ m) = all_owned groups m.
Proof.
  induction groups as [|g' groups IH]; intros Hg; [done|]. apply not_elem_of_cons in Hg as [Hne Hg].
  cbn [all_owned foldr]. fold (all_owned groups (own g ∅ m)) (all_owned groups m). rewrite IH by done. by destruct g, g'.
Qed.

(** What the groups must be for [Close] to find every route. *)
Fixpoint findable (groups : list DGroup) (m : platformManager) (T : gmap string string) : Prop :=
  match groups with
  | [] => True
  | g :: groups => unshadowed (owned g m) (addr_string (group_gateway m g)) T ∧ owned g m ## all_owned groups m ∧ findable groups m T
  end.

Lemma findable_v4s groups m T : findable groups m T → v4s (all_owned groups m).
Proof.
  induction groups as [|g groups IH]; [by intros _ ? ?%elem_of_empty|]. intros ([Hv _] & _ & Hf).
  cbn [all_owned foldr]. fold (all_owned groups m). intros p [Hp|Hp]%elem_of_union; [by apply Hv|by apply IH].
Qed.

Lemma findable_next g groups m T T' Q :
  g ∉ groups → findable groups m T → v4s Q → Q ## all_owned groups m →
  (∀ d, T' !! d = rid (texts Q) (λ d, T !! d) d) → findable groups (own g ∅ m) T'.
Proof.
  intros Hg Hf HQ Hdisj HT'. induction groups as [|g' groups IH]; [done|]. apply not_elem_of_cons in Hg as [Hne Hg].
  cbn [all_owned foldr] in Hdisj. fold (all_owned groups m) in Hdisj.
  destruct Hf as (Hu & Hd & Hf). cbn [findable]. rewrite all_owned_own by done.
  assert (owned g' (own g ∅ m) = owned g' m ∧ group_gateway (own g ∅ m) g' = group_gateway m g') as [-> ->] by by destruct g, g'.
  split_and!; [|done|apply IH; [done|done|set_solver]]. eapply unshadowed_rid; [done|exact HQ|set_solver|exact HT'].
Qed.

(** The three groups of a configuration. *)
Definition cfg_server (cfg : Config) : gset Prefix := masked_set (server_prefixes cfg).
Definition cfg_include (cfg : Config) : gset Prefix := masked_set (cfg_IncludeRoutes cfg).
Definition cfg_exclude (cfg : Config) : gset Prefix := masked_set (withoutPrefixes (cfg_ExcludeRoutes cfg) (server_prefixes cfg)).

(** No destination of the machine or of the configuration is as long as one of
    the configuration's at that one's own address. *)
Definition no_shadow (T : gmap string string) (P : gset Prefix) : Prop :=
  ∀ p, p ∈ P → ∀ d b, (is_Some (T !! d) ∨ d ∈ texts P) → covers (pfx_addr p) d = Some b → d ≠ prefix_string p → b < pfx_bits p.

Definition cfg_routes (cfg : Config) : gset Prefix := cfg_server cfg ∪ (cfg_include cfg ∪ cfg_exclude cfg).

Lemma texts_union P Q : texts (P ∪ Q) = texts P ∪ texts Q.
Proof. apply set_map_union_L. Qed.

Lemma in_texts p P : p ∈ P → prefix_string p ∈ texts P.
Proof. intros Hp. apply elem_of_map. eauto. Qed.

(** After [Set], [Close] finds all of it. *)
Lemma applied_findable name cfg dns T0 T :
  v4s (cfg_routes cfg) → no_shadow T0 (cfg_routes cfg) →
  let gw := addr_string (cfg_Gateway cfg) in
  let vpn := addr_string (pfx_addr (cfg_VPNAddress cfg)) in
  let t1 := put gw (texts (cfg_server cfg)) (λ d, T0 !! d) in
  let t2 := put vpn (texts (cfg_include cfg)) t1 in
  (∀ d, d ∈ texts (cfg_include cfg) → t1 d = None) → (∀ d, d ∈ texts (cfg_exclude cfg) → t2 d = None) →
  (∀ d, T !! d = put gw (texts (cfg_exclude cfg)) t2 d) →
  findable all_groups (mkPlatformManager name (cfg_Gateway cfg) (pfx_addr (cfg_VPNAddress cfg)) (cfg_server cfg) (cfg_include cfg) (cfg_exclude cfg) ∅ ∅ dns) T.
Proof.
  intros Hv Hns gw vpn t1 t2 F2 F3 HT.
  assert (Hlong : ∀ p, p ∈ cfg_routes cfg → longest T p).
  { intros p Hp d g b Hd Hc Hne. eapply Hns; [exact Hp| |exact Hc|exact Hne]. rewrite HT in Hd. unfold t2, t1, put in Hd.
    unfold cfg_routes. rewrite !texts_union, !elem_of_union. repeat case_decide; [tauto..|left; by exists g]. }
  assert (HSI : ∀ d, d ∈ texts (cfg_server cfg) → d ∉ texts (cfg_include cfg)).
  { intros d HS HI. specialize (F2 d HI). unfold t1, put in F2. by rewrite decide_True in F2. }
  assert (HSE : ∀ d, d ∈ texts (cfg_server cfg) → d ∉ texts (cfg_exclude cfg)).
  { intros d HS HE. specialize (F3 d HE). unfold t2, t1, put in F3. rewrite decide_False in F3 by auto. by rewrite decide_True in F3. }
  assert (HIE : ∀ d, d ∈ texts (cfg_include cfg) → d ∉ texts (cfg_exclude cfg)).
  { intros d HI HE. specialize (F3 d HE). unfold t2, put in F3. by rewrite decide_True in F3. }
  assert (Hgs : ∀ p, p ∈ cfg_server cfg → T !! prefix_string p = Some gw).
  { intros p Hp%in_texts. rewrite HT. unfold t2, t1, put. rewrite decide_False, decide_False, decide_True by auto. done. }
  assert (Hgi : ∀ p, p ∈ cfg_include cfg → T !! prefix_string p = Some vpn).
  { intros p Hp%in_texts. rewrite HT. unfold t2, put. rewrite decide_False, decide_True by auto. done. }
  assert (Hge : ∀ p, p ∈ cfg_exclude cfg → T !! prefix_string p = Some gw).
  { intros p Hp%in_texts. rewrite HT. unfold put. by rewrite decide_True. }
  unfold cfg_routes, v4s in *.
  assert (Hempty : ∀ gateway, unshadowed ∅ gateway T) by (split; by intros p ?%elem_of_empty).
  cbn [findable all_groups owned all_owned foldr dm_serverRoutes dm_includeRoutes dm_excludeRoutes dm_dynamicInclude dm_dynamicExclude].
  unfold unshadowed at 1 2 3, v4s.
  split_and!; try apply Hempty; try done.
  - intros p Hp. apply Hv. set_solver.
  - intros p Hp. split; [by apply Hgs|apply Hlong; set_solver].
  - intros p Hp Hq. apply in_texts in Hp. assert (Hx : p ∈ cfg_include cfg ∨ p ∈ cfg_exclude cfg) by (clear -Hq; set_solver).
    destruct Hx as [Hx%in_texts|Hx%in_texts]; [by eapply HSI|by eapply HSE].
  - intros p Hp. apply Hv. set_solver.
  - intros p Hp. split; [by apply Hgi|apply Hlong; set_solver].
  - intros p Hp Hq. apply in_texts in Hp. assert (Hx : p ∈ cfg_exclude cfg) by (clear -Hq; set_solver). apply in_texts in Hx. by eapply HIE.
  - intros p Hp. apply Hv. set_solver.
  - intros p Hp. split; [by apply Hge|apply Hlong; set_solver].
Qed.

#[local] Set Default Proof Using "Type*".

Section effects.
Context {K : Type} `{DarwinLaws K}.
Notation table k := (λ d, darwin_routes k !! d).

Lemma dar_kernel {A} (call : M K A) (Q : Outcome A → DarW K → Prop) w :
  wp call (λ o k, Q o (w <| dw_k := k |>)) (dw_k w) → wp (kernel call) Q w.
Proof. unfold wp, kernel. by destruct (call (dw_k w)). Qed.

(** Deleting a route: it goes when the gateway the table answers with is the
    expected one; otherwise nothing happens and no error is reported. *)
Theorem delete_owned_route raw p expected k :
  netip_ParsePrefix raw = Some p → LinuxNet.v4_prefix p →
  wp (deleteDarwinOwnedRoute raw expected) (λ o k', darwin_dns k' = darwin_dns k ∧
    match o with
    | Done _ => best_route (darwin_routes k) (pfx_addr p) (Some expected) ∧ darwin_routes k' = delete (prefix_string p) (darwin_routes k) ∨
                darwin_routes k' = darwin_routes k ∧
                  ((∃ g, g ≠ expected ∧ best_route (darwin_routes k) (pfx_addr p) (Some g)) ∨ best_route (darwin_routes k) (pfx_addr p) None)
    | Failed _ => darwin_routes k' = darwin_routes k
    | Crashed => darwin_routes k' = darwin_routes k ∨ darwin_routes k' = delete (prefix_string p) (darwin_routes k)
    end) k.
Proof.
  intros E (v & b & Hv & _ & -> & _). unfold deleteDarwinOwnedRoute. rewrite E. apply wp_bind.
  eapply wp_mono; [apply (law_route_get v _ Hv)|].
  intros [[out [err|]]|e|] k1 (Hr & Hd & Ho); [| |by split; [|]|by split; [|left]].
  - destruct (not_in_table out); [|apply wp_fail; by split]. apply wp_ret. split; [done|]. right. split; [done|]. right. by apply Ho.
  - destruct Ho as (g & Hg & <-). destruct (gateway_field out == expected) eqn:Eg; cbn [negb].
    + apply eqb_true in Eg. eapply wp_mono; [apply law_route_delete|]. intros [[]|e|] k2 [Hd2 Ho2]; (split; [congruence|]).
      * left. rewrite Eg in Hg. split; [done|congruence].
      * congruence.
      * destruct Ho2 as [Ho2|Ho2]; [left|right]; congruence.
    + apply eqb_false in Eg. apply wp_ret. split; [done|]. right. split; [done|]. left. by exists (gateway_field out).
Qed.

(** One that is its owner's and is nowhere shadowed is gone. *)
Lemma wp_delete_longest p gateway k :
  LinuxNet.v4_prefix p → darwin_routes k !! prefix_string p = Some gateway → longest (darwin_routes k) p →
  wp (deleteDarwinOwnedRoute (prefix_string p) gateway) (λ o k', darwin_dns k' = darwin_dns k ∧
    match o with Done _ => darwin_routes k' = delete (prefix_string p) (darwin_routes k) | _ => True end) k.
Proof.
  intros Hp HT Hl. eapply wp_mono; [by apply (delete_owned_route _ p), Hp; apply v4_text|].
  intros [[]|e|] k1 [Hd Ho]; (split; [done|]); [|done..]. destruct Ho as [[_ ?]|[_ [(g & Hne & Hg)|Hn]]]; [done| |].
  - destruct Hne. by eapply best_is_longest.
  - specialize (Hn _ _ HT). by rewrite covers_itself in Hn.
Qed.

Lemma dar_add_routes g gateway add P w :
  wp (add_routes g gateway add P) (λ o w', darwin_dns (dw_k w') = darwin_dns (dw_k w) ∧
    match o with
    | Done P' => dw_m w' = dw_m w ∧
        (∀ d, d ∈ texts (list_to_set add) → darwin_routes (dw_k w) !! d = None) ∧
        ∀ d, darwin_routes (dw_k w') !! d = put (addr_string gateway) (texts (list_to_set add)) (table (dw_k w)) d
    | _ => True
    end) w.
Proof.
  revert P w. induction add as [|p add IH]; intros P w; cbn [add_routes].
  { apply wp_ret. split_and!; [done..| |]; unfold texts; cbn; [set_solver|].
    intros d. unfold put. rewrite decide_False by set_solver. done. }
  apply wp_bind, wp_try, dar_kernel. eapply wp_mono; [apply law_route_add|]. intros [[]|e|] k1 [Hd Ho]; [| |done].
  - destruct Ho as [Hnone Hins]. eapply wp_mono; [apply IH|]. cbn [dw_k dw_m].
    intros [P'|e|] w2 [Hd2 Ho2]; (split; [cbn in *; congruence|]); [|done..].
    cbn in Ho2. destruct Ho2 as (Hm & Hfree & Ht). split; [done|].
    assert (Hp : prefix_string p ∉ texts (list_to_set add)).
    { intros Hin. specialize (Hfree _ Hin). rewrite Hins, lookup_insert_eq in Hfree. done. }
    assert (Htx : texts (list_to_set (p :: add)) = {[prefix_string p]} ∪ texts (list_to_set add)) by (unfold texts; cbn; set_solver).
    rewrite Htx. split.
    + intros d [->%elem_of_singleton|Hin]%elem_of_union; [done|]. specialize (Hfree d Hin).
      rewrite Hins, lookup_insert_ne in Hfree; [done|]. by intros <-.
    + intros d. rewrite Ht. unfold put. destruct (decide (d = prefix_string p)) as [->|Hne].
      * rewrite decide_False, decide_True by (done || set_solver). rewrite Hins. apply lookup_insert_eq.
      * destruct (decide (d ∈ texts (list_to_set add))); [by rewrite decide_True by set_solver|].
        rewrite decide_False by set_solver. rewrite Hins. by rewrite lookup_insert_ne.
  - apply wp_bind, wp_modify. by apply wp_fail.
Qed.

(** A group that held nothing holds what it was given, when there is a gateway
    to give it. *)
Lemma dar_syncRoutes_first g next gateway w :
  owned g (dw_m w) = ∅ → IsValid gateway = true →
  wp (syncRoutes g next gateway) (λ o w', darwin_dns (dw_k w') = darwin_dns (dw_k w) ∧
    match o with
    | Done _ => dw_m w' = own g (masked_set next) (dw_m w) ∧
        (∀ d, d ∈ texts (masked_set next) → darwin_routes (dw_k w) !! d = None) ∧
        ∀ d, darwin_routes (dw_k w') !! d = put (addr_string gateway) (texts (masked_set next)) (table (dw_k w)) d
    | _ => True
    end) w.
Proof.
  intros Hold Hv. unfold syncRoutes. rewrite Hv. cbn [negb]. apply wp_bind, wp_read. rewrite Hold. unfold DiffPrefixes.
  pose proof (diff_loop_spec ∅ next [] ∅ (NoDup_nil_2) ltac:(set_solver)) as Hdiff.
  destruct (diff_loop ∅ next [] ∅) as [add state]. destruct Hdiff as (-> & Hnd & Hadd).
  assert ((∅ : gset Prefix) ∖ (∅ ∪ masked_set next) = ∅) as -> by set_solver. rewrite elements_empty.
  assert (Hset : list_to_set add =@{gset Prefix} masked_set next) by set_solver. clear Hadd.
  apply wp_bind. eapply wp_mono; [apply dar_add_routes|]. intros [P'|e|] w1 [Hd Ho]; [|done..].
  rewrite Hset in Ho. destruct Ho as (Hm & Hfree & Ht). cbn [del_routes].
  apply wp_bind, wp_ret, wp_modify. cbn. split_and!; [done| |done|exact Ht]. rewrite Hm. f_equal. set_solver.
Qed.

(** The first error is kept to the end. *)
Definition keeps_error (m : option error → M (DarW K) (option error)) : Prop :=
  ∀ e w, wp (m (Some e)) (λ o _, match o with Done first => first ≠ None | Failed _ => False | Crashed => True end) w.

Lemma close_prefixes_keeps gateway prefixes : keeps_error (close_prefixes gateway prefixes).
Proof.
  induction prefixes as [|p prefixes IH]; intros e w; cbn [close_prefixes]; [by apply wp_ret|].
  apply wp_bind, wp_try. apply wp_intro. intros w' [[]|e'|] _; [apply IH|apply IH|done].
Qed.

Lemma close_groups_keeps groups : keeps_error (close_groups groups).
Proof.
  induction groups as [|g groups IH]; intros e w; cbn [close_groups]; [by apply wp_ret|].
  apply wp_bind, wp_read, wp_bind, wp_read, wp_bind. eapply wp_mono; [apply close_prefixes_keeps|].
  intros [[e'|]|e'|] w1 Ho; [|done..]. apply wp_bind, wp_modify, IH.
Qed.

Lemma dar_close_prefixes gateway prefixes w :
  NoDup prefixes → unshadowed (list_to_set prefixes) (addr_string gateway) (darwin_routes (dw_k w)) →
  wp (close_prefixes gateway prefixes None) (λ o w',
    match o with
    | Done None => dw_m w' = dw_m w ∧ darwin_dns (dw_k w') = darwin_dns (dw_k w) ∧
        ∀ d, darwin_routes (dw_k w') !! d = rid (texts (list_to_set prefixes)) (table (dw_k w)) d
    | _ => True
    end) w.
Proof.
  revert w. induction prefixes as [|p prefixes IH]; intros w Hnd Hun; cbn [close_prefixes].
  { apply wp_ret. split_and!; [done..|]. intros d. unfold rid, texts. cbn. by rewrite decide_False by set_solver. }
  apply NoDup_cons in Hnd as [Hp Hnd]. destruct Hun as [Hv Hun].
  assert (Hv4 : LinuxNet.v4_prefix p) by (apply Hv; set_solver). destruct (Hun p ltac:(set_solver)) as [HT Hl].
  apply wp_bind, wp_try, dar_kernel. eapply wp_mono; [by apply wp_delete_longest|]. intros [[]|e|] k1 [Hd Ho]; [| |done].
  - eapply wp_mono; [apply IH; [done|]|].
    { cbn. rewrite Ho. apply unshadowed_delete; [|done|set_solver]. split; [intros q Hq; apply Hv|intros q Hq; apply Hun]; set_solver. }
    cbn [dw_k dw_m]. intros [[e|]|e|] w2 Ho2; [done| |done..].
    destruct Ho2 as (Hm & Hd2 & Ht). split_and!; [done|cbn in *; congruence|].
    intros d. rewrite Ht. unfold rid, texts. cbn. rewrite Ho.
    destruct (decide (d = prefix_string p)) as [->|Hne].
    + rewrite (decide_True (P := prefix_string p ∈ set_map prefix_string ({[p]} ∪ list_to_set prefixes))) by set_solver.
      case_decide; [done|]. apply lookup_delete_eq.
    + rewrite lookup_delete_ne by done. case_decide as E1; case_decide as E2; [done|set_solver| |done].
      exfalso. apply E1. apply elem_of_map in E2 as (q & -> & [->%elem_of_singleton|Hq]%elem_of_union); [done|]. apply elem_of_map. eauto.
  - eapply wp_mono; [apply close_prefixes_keeps|]. by intros [[e'|]|e'|] w2 Ho2.
Qed.

Lemma dar_close_groups groups w :
  NoDup groups → findable groups (dw_m w) (darwin_routes (dw_k w)) →
  wp (close_groups groups None) (λ o w',
    match o with
    | Done None => dw_m w' = emptied groups (dw_m w) ∧ darwin_dns (dw_k w') = darwin_dns (dw_k w) ∧
        ∀ d, darwin_routes (dw_k w') !! d = rid (texts (all_owned groups (dw_m w))) (table (dw_k w)) d
    | _ => True
    end) w.
Proof.
  revert w. induction groups as [|g groups IH]; intros w Hnd Hf; cbn [close_groups].
  { apply wp_ret. split_and!; [done..|]. intros d. unfold rid, texts. cbn. by rewrite decide_False by set_solver. }
  apply NoDup_cons in Hnd as [Hg Hnd]. destruct Hf as (Hu & Hd & Hf).
  apply wp_bind, wp_read, wp_bind, wp_read, wp_bind.
  eapply wp_mono; [apply dar_close_prefixes; [apply NoDup_elements|by rewrite list_to_set_elements_L]|].
  rewrite list_to_set_elements_L. intros [[e|]|e|] w1 Ho; [| |done..].
  - apply wp_bind, wp_modify. eapply wp_mono; [apply close_groups_keeps|]. by intros [[e'|]|e'|] w2 Ho2.
  - destruct Ho as (Hm & Hd1 & Ht). apply wp_bind, wp_modify. eapply wp_mono; [apply IH; [done|]|].
    { change (findable groups (own g ∅ (dw_m w1)) (darwin_routes (dw_k w1))). rewrite Hm.
      eapply findable_next; [done|exact Hf|exact (proj1 Hu)|done|exact Ht]. }
    change (dw_m (w1 <| dw_m ::= own g ∅ |>)) with (own g ∅ (dw_m w1)).
    change (dw_k (w1 <| dw_m ::= own g ∅ |>)) with (dw_k w1). rewrite Hm.
    intros [[e|]|e|] w2 Ho2; [done| |done..]. destruct Ho2 as (Hm2 & Hd2 & Ht2). split_and!; [done|congruence|].
    intros d. rewrite Ht2. rewrite all_owned_own by done. unfold rid. rewrite Ht. unfold rid.
    cbn [all_owned foldr]. fold (all_owned groups (dw_m w)). unfold texts. rewrite set_map_union_L.
    repeat case_decide; set_solver.
Qed.

Lemma wp_setDarwinDNS servers k :
  wp (setDarwinDNS servers) (λ o k', darwin_routes k' = darwin_routes k ∧
    match o with
    | Done _ => darwin_dns k' = Some (match servers with [] => darwinDNSClearScript | _ => darwinDNSSetScript servers end)
    | _ => True
    end) k.
Proof.
  unfold setDarwinDNS, clearDarwinDNS.
  destruct servers as [|s servers]; apply wp_bind; (eapply wp_mono; [apply law_scutil|]);
    intros [[out [err|]]|e|] k1 [Hr Ho]; try done; try (by apply wp_fail); by apply wp_ret.
Qed.

(** [Set] on a fresh manager, with a gateway. *)
Lemma wp_Set_first name cfg w :
  dw_m w = newPlatformManager name → pfx_valid (cfg_VPNAddress cfg) = true →
  IsValid (pfx_addr (cfg_VPNAddress cfg)) = true → IsValid (cfg_Gateway cfg) = true →
  wp (dm_Set (Some cfg)) (λ o w', match o with
    | Done _ =>
        let gw := addr_string (cfg_Gateway cfg) in
        let vpn := addr_string (pfx_addr (cfg_VPNAddress cfg)) in
        let t1 := put gw (texts (cfg_server cfg)) (table (dw_k w)) in
        let t2 := put vpn (texts (cfg_include cfg)) t1 in
        (∀ d, d ∈ texts (cfg_server cfg) → darwin_routes (dw_k w) !! d = None) ∧
        (∀ d, d ∈ texts (cfg_include cfg) → t1 d = None) ∧ (∀ d, d ∈ texts (cfg_exclude cfg) → t2 d = None) ∧
        (∀ d, darwin_routes (dw_k w') !! d = put gw (texts (cfg_exclude cfg)) t2 d) ∧
        dw_m w' = mkPlatformManager name (cfg_Gateway cfg) (pfx_addr (cfg_VPNAddress cfg)) (cfg_server cfg) (cfg_include cfg) (cfg_exclude cfg)
                    ∅ ∅ (0 <? length (cfg_DNSServers cfg))%nat ∧
        (cfg_DNSServers cfg = [] → darwin_dns (dw_k w') = darwin_dns (dw_k w))
    | _ => True
    end) w.
Proof.
  intros Hw Hv Hvpn Hgw. unfold dm_Set. rewrite Hv. cbn [negb]. apply wp_bind, wp_modify, wp_bind.
  rewrite Hgw, andb_false_r. apply wp_ret, wp_bind, wp_read, wp_bind, dar_kernel.
  eapply wp_mono; [apply law_ifconfig|]. intros [[]|e|] k1 [Hr1 Hd1]; [|done..]. cbn in Hr1, Hd1. apply wp_bind.
  eapply wp_mono; [apply dar_syncRoutes_first; [cbn; by rewrite Hw|done]|]. intros [[]|e|] w1 [Hda Ha]; [|done..].
  destruct Ha as (Hma & Hfa & Hta). cbn [dw_k] in Hda, Hfa, Hta. apply wp_bind.
  eapply wp_mono; [apply dar_syncRoutes_first; [rewrite Hma; cbn; by rewrite Hw|done]|]. intros [[]|e|] w2 [Hdb Hb]; [|done..].
  destruct Hb as (Hmb & Hfb & Htb). apply wp_bind.
  eapply wp_mono; [apply dar_syncRoutes_first; [rewrite Hmb, Hma; cbn; by rewrite Hw|done]|]. intros [[]|e|] w3 [Hdc Hc]; [|done..].
  destruct Hc as (Hmc & Hfc & Htc). fold (cfg_server cfg) in *. fold (cfg_include cfg) in *. fold (cfg_exclude cfg) in *.
  set (gw := addr_string (cfg_Gateway cfg)) in *. set (vpn := addr_string (pfx_addr (cfg_VPNAddress cfg))) in *.
  assert (Hm3 : dw_m w3 = mkPlatformManager name (cfg_Gateway cfg) (pfx_addr (cfg_VPNAddress cfg)) (cfg_server cfg) (cfg_include cfg) (cfg_exclude cfg) ∅ ∅ false).
  { rewrite Hmc, Hmb, Hma. cbn. by rewrite Hw. }
  cbn in Hfa. rewrite Hr1 in Hfa.
  assert (E1 : ∀ d, darwin_routes (dw_k w1) !! d = put gw (texts (cfg_server cfg)) (table (dw_k w)) d).
  { intros d. rewrite Hta. unfold put. cbn. by rewrite Hr1. }
  assert (E2 : ∀ d, darwin_routes (dw_k w2) !! d = put vpn (texts (cfg_include cfg)) (put gw (texts (cfg_server cfg)) (table (dw_k w))) d).
  { intros d. rewrite Htb. unfold put at 1 2. by rewrite E1. }
  assert (E3 : ∀ d, darwin_routes (dw_k w3) !! d = put gw (texts (cfg_exclude cfg)) (put vpn (texts (cfg_include cfg)) (put gw (texts (cfg_server cfg)) (table (dw_k w)))) d).
  { intros d. rewrite Htc. unfold put at 1 2. by rewrite E2. }
  assert (F2 : ∀ d, d ∈ texts (cfg_include cfg) → put gw (texts (cfg_server cfg)) (table (dw_k w)) d = None).
  { intros d Hd. rewrite <-E1. by apply Hfb. }
  assert (F3 : ∀ d, d ∈ texts (cfg_exclude cfg) → put vpn (texts (cfg_include cfg)) (put gw (texts (cfg_server cfg)) (table (dw_k w))) d = None).
  { intros d Hd. rewrite <-E2. by apply Hfc. }
  assert (Hdns : darwin_dns (dw_k w3) = darwin_dns (dw_k w)) by (cbn in Hda; congruence).
  destruct (cfg_DNSServers cfg) as [|s servers] eqn:Es; cbn [length Nat.ltb Nat.leb].
  - apply wp_bind, wp_read. rewrite Hm3. cbn [dm_dnsSet when]. apply wp_ret. cbn zeta. split_and!; done.
  - apply wp_bind, dar_kernel. eapply wp_mono; [apply wp_setDarwinDNS|]. intros [[]|e|] k4 [Hr4 _]; [|done..].
    apply wp_modify. cbn zeta. split_and!; [done..| |cbn; by rewrite Hm3|done]. intros d. cbn. rewrite Hr4. apply E3.
Qed.

End effects.

(** ** A machine to run it on *)

Module Example.

(** The table and the last script of the resolver's store. *)
Definition machine : Type := gmap string string * option string.

Definition pick_route (a : Addr) (l : list (string * string)) : option (Z * string) :=
  foldr (λ '(d, g) best,
    match covers a d, best with
    | None, _ => best
    | Some b, Some (b', g') => if b' <=? b then Some (b, g) else best
    | Some b, None => Some (b, g)
    end) None l.

Definition say (g : string) : string := "    gateway: " +:+ g +:+ line_end.

#[export] Instance machine_darwin : Darwin machine := {
  ifconfig _ := λ k, (k, Done ());
  route_add d g := λ k, match k.1 !! d with
                        | Some _ => (k, Failed (ErrText "File exists"))
                        | None => ((<[d := g]> k.1, k.2), Done ())
                        end;
  route_get text := λ k,
    match ParseAddr text with
    | None => (k, Failed (ErrText "bad address"))
    | Some a =>
      match pick_route a (map_to_list k.1) with
      | None => (k, Done ("route: writing to routing socket: not in table", Some (ErrText "exit status 1")))
      | Some (_, g) => if gateway_field (say g) == g then (k, Done (say g, None)) else (k, Failed (ErrText "unprintable gateway"))
      end
    end;
  route_delete d := λ k, ((delete d k.1, k.2), Done ());
  scutil script := λ k, ((k.1, Some script), Done ("", None));
  darwin_routes k := k.1;
  darwin_dns k := k.2;
}.

Lemma pick_route_spec a l :
  match pick_route a l with
  | Some (b, g) => (∃ d, (d, g) ∈ l ∧ covers a d = Some b) ∧ ∀ d' g' b', (d', g') ∈ l → covers a d' = Some b' → b' ≤ b
  | None => ∀ d g, (d, g) ∈ l → covers a d = None
  end.
Proof.
  induction l as [|[d g] l IH]; cbn [pick_route foldr]; [intros d g Hin; by apply not_elem_of_nil in Hin|].
  fold (pick_route a l).
  destruct (covers a d) as [b|] eqn:E; destruct (pick_route a l) as [[b' g']|].
  - destruct IH as [(d' & Hin & Hc) Hmax]. destruct (Z.leb_spec b' b).
    + split; [exists d; set_solver|]. intros d2 g2 b2 [[= -> ->]|Hin2]%elem_of_cons Hc2; [simplify_eq; lia|].
      specialize (Hmax _ _ _ Hin2 Hc2). lia.
    + split; [exists d'; set_solver|]. intros d2 g2 b2 [[= -> ->]|Hin2]%elem_of_cons Hc2; [simplify_eq; lia|]. by eapply Hmax.
  - split; [exists d; set_solver|]. intros d2 g2 b2 [[= -> ->]|Hin2]%elem_of_cons Hc2; [simplify_eq; lia|].
    by rewrite (IH _ _ Hin2) in Hc2.
  - destruct IH as [(d' & Hin & Hc) Hmax]. split; [exists d'; set_solver|].
    intros d2 g2 b2 [[= -> ->]|Hin2]%elem_of_cons Hc2; [congruence|]. by eapply Hmax.
  - intros d2 g2 [[= -> ->]|Hin2]%elem_of_cons; [done|]. by eapply IH.
Qed.

#[export] Instance machine_darwin_laws : DarwinLaws machine.
Proof.
  split.
  - done.
  - done.
  - intros d g k. unfold wp; cbn. destruct (k.1 !! d) eqn:E; cbn; by rewrite ?E.
  - intros v k Hv a. unfold wp, a, route_get, machine_darwin, addr_string.
    rewrite (proj2 (NetRecovery.v4_addr_text v Hv)).
    pose proof (pick_route_spec (Addr4 v) (map_to_list k.1)) as Hp.
    destruct (pick_route _ _) as [[b g]|].
    + destruct Hp as [(d & Hin%elem_of_map_to_list & Hc) Hmax].
      destruct (gateway_field (say g) == g) eqn:E; cbn [fst snd]; [|done]. apply eqb_true in E. split_and!; [done..|].
      exists g. split; [|done]. exists d, b. split_and!; [done..|].
      intros d' g' b' Hd'. by apply (Hmax d' g' b'), elem_of_map_to_list.
    + cbn [fst snd]. split_and!; [done..|]. intros _ d g Hd. by eapply Hp, elem_of_map_to_list.
  - done.
Qed.

Definition gw : Addr := Addr4 0xc0a80101.
Definition config (include exclude : list Prefix) (gateway : Addr) : Config :=
  mkConfig "utun3" 0 (prefix4 0x0a080001 24) 1399 zero_snapshot (Addr4 0xcb007105) gateway 0 include exclude [Addr4 0x0a080035].
Definition start : DarW machine :=
  mkDarW ({["0.0.0.0/0" := "192.168.1.1"; "192.168.1.0/24" := "192.168.1.7"]}, None) (newPlatformManager "utun3").
Definition life (cfg : Config) : M (DarW machine) () := _ ← dm_Set (Some cfg); Close.

(** An included network with an excluded part that begins where it begins:
    when the manager is closed [route -n get] answers for the part, and the
    network stays routed into the tunnel that is gone.  [Close] reports no
    error, and nobody owns the route any more. *)
Example hidden_route_stays :
  let w := life (config [prefix4 0x0a000000 8] [prefix4 0x0a000000 24] gw) start in
  w.2 = Done () ∧ darwin_routes (dw_k w.1) !! "10.0.0.0/8" = Some "10.8.0.1" ∧
  darwin_routes (dw_k start) !! "10.0.0.0/8" = None ∧ all_owned all_groups (dw_m w.1) = ∅.
Proof. vm_compute. split_and!; reflexivity. Qed.

(** When the physical gateway changes under an open connection, the routes
    that were there stay on the old gateway; what is no longer wanted is
    forgotten without being deleted. *)
Example old_gateway_stays :
  let '(w, o) := (_ ← dm_Set (Some (config [] [prefix4 0xac100000 16] gw)); dm_Set (Some (config [] [] (Addr4 0xc0a80201)))) start in
  o = Done () ∧ darwin_routes (dw_k w) !! "172.16.0.0/16" = Some "192.168.1.1" ∧
  darwin_routes (dw_k w) !! "203.0.113.5/32" = Some "192.168.1.1" ∧ dm_excludeRoutes (dw_m w) = ∅ ∧ dm_gateway (dw_m w) = Addr4 0xc0a80201.
Proof. vm_compute. split_and!; reflexivity. Qed.

Definition shadow_free (T : gmap string string) (P : gset Prefix) : bool :=
  forallb (λ p, forallb (λ d,
    match covers (pfx_addr p) d with Some b => (d == prefix_string p) || (b <? pfx_bits p) | None => true end)
    (elements (dom T ∪ texts P))) (elements P).

Lemma no_shadow_check T P : shadow_free T P = true → no_shadow T P.
Proof.
  unfold shadow_free. intros Hall p Hp d b Hd Hc Hne. rewrite forallb_forall in Hall.
  specialize (Hall p ltac:(by apply list_elem_of_In, elem_of_elements)). cbn in Hall. rewrite forallb_forall in Hall.
  specialize (Hall d). cbn in Hall. rewrite Hc in Hall.
  assert (Hin : d ∈ dom T ∪ texts P) by (apply elem_of_union; rewrite elem_of_dom; exact Hd).
  specialize (Hall ltac:(by apply list_elem_of_In, elem_of_elements)).
  apply orb_true_iff in Hall as [?%eqb_true|?%Z.ltb_lt]; done.
Qed.

Definition plain : Config := config [prefix4 0x0a000000 8] [prefix4 0x0a050000 16] gw.

Lemma plain_v4 : v4s (cfg_routes plain).
Proof.
  assert (E : Forall (λ p, p = prefix4 0xcb007105 32 ∨ p = prefix4 0x0a000000 8 ∨ p = prefix4 0x0a050000 16) (elements (cfg_routes plain)))
    by (apply (bool_decide_unpack _); vm_compute; exact I).
  intros p Hp. rewrite Forall_forall in E. specialize (E p ltac:(by apply elem_of_elements)).
  destruct E as [->|[->| ->]]; (eexists _, _; split; [|split; [|split; [reflexivity|reflexivity]]]); lia.
Qed.

Lemma plain_shadow : no_shadow (darwin_routes (dw_k start)) (cfg_routes plain).
Proof. apply no_shadow_check. vm_compute. reflexivity. Qed.

Lemma plain_done : (life plain start).2 = Done ().
Proof. vm_compute. reflexivity. Qed.

Lemma wp_done {W} (m : M W ()) (R : W → Prop) w : wp m (λ o w', o = Done () → R w') w → (m w).2 = Done () → R (m w).1.
Proof. unfold wp. auto. Qed.

End Example.
