(* ===== verification/Buffer.v ===== *)
(** * Packet buffers and their framing on the wire
    (src/internal/anyconnect/tunnel/buffer.go, the framing halves of tls.go and
    dtls.go, and src/internal/anyconnect/proto/protocol.go)

    A byte is an integer in [0, 256).  A Go slice that starts at the base of
    its array is the array and a length; what lies past the length is still
    there and reappears when the slice is extended, as the senders do to make
    room for the header.  [None] is a run-time panic (a slice bound out of
    range). *)

From S2P Require Import Prelude GoStrings.

Open Scope Z_scope.

(** ** Slices *)

Record Payload := mkPayload {
  pl_Type : Z;
  pl_arr : list Z;      (* the array behind Data *)
  pl_len : nat;         (* len(Data) *)
}.

#[export] Instance Payload_eta : Eta Payload := λ r, mkPayload (pl_Type r) (pl_arr r) (pl_len r).

(** [pl.Data] and [cap(pl.Data)]. *)
Definition data (pl : Payload) : list Z := take (pl_len pl) (pl_arr pl).
Definition capacity (pl : Payload) : nat := length (pl_arr pl).

(** The language's own guarantee about a slice. *)
Definition slice_ok (pl : Payload) : Prop := (pl_len pl ≤ capacity pl)%nat.

(** [pl.Data = pl.Data[lo:hi]]. *)
Definition reslice (lo hi : nat) (pl : Payload) : option Payload :=
  if decide (lo ≤ hi ∧ hi ≤ capacity pl)%nat
  then Some (pl <| pl_arr := drop lo (pl_arr pl) |> <| pl_len := (hi - lo)%nat |>)
  else None.

(** [copy(arr[at:], src)]: as much as fits. *)
Definition copy_at (i : nat) (src arr : list Z) : list Z :=
  take i arr ++ take (length arr - i) src ++ drop (i + length src) arr.

(** [append(pl.Data[:0], src...)].  The capacity of a reallocated array is
    left to the run time by the language; here it is exactly what is needed. *)
Definition append_at_start (src : list Z) (pl : Payload) : Payload :=
  (if decide (length src ≤ capacity pl)%nat then pl <| pl_arr := copy_at 0 src (pl_arr pl) |>
   else pl <| pl_arr := src |>) <| pl_len := length src |>.

(** ** The pool of buffers *)

Definition minimumPacketMTU : Z := 576.
Definition maximumPacketMTU : Z := 9000.
Definition packetHeadroom : Z := 256.

Definition payloadBufferSize (mtu : Z) : Z :=
  let mtu := if mtu <? minimumPacketMTU then 1399 else mtu in
  let mtu := if maximumPacketMTU <? mtu then maximumPacketMTU else mtu in
  mtu + packetHeadroom.

(** [payloadPools]: the buffers waiting under each size.  A [sync.Pool] may
    hand out any of them or none; [hit] is its choice. *)
Definition Pools : Type := gmap Z (list Payload).

Definition new_payload (size : Z) : Payload :=
  mkPayload 0 (replicate (Z.to_nat size) 0) (Z.to_nat size).

Definition poolForSize (size : Z) (hit : option nat) (pools : Pools) : Payload * Pools :=
  let l := default [] (pools !! size) in
  match hit ≫= λ i, pl ← l !! i; Some (pl, delete i l) with
  | Some (pl, l') => (pl, <[size := l']> pools)
  | None => (new_payload size, pools)
  end.

Definition getPayloadBuffer (mtu : Z) (hit : option nat) (pools : Pools) : option (Payload * Pools) :=
  let size := payloadBufferSize mtu in
  let '(pl, pools) := poolForSize size hit pools in
  pl ← reslice 0 (Z.to_nat size) pl; Some (pl, pools).

Definition putPayloadBuffer (pl : Payload) (pools : Pools) : Pools :=
  let size := Z.of_nat (capacity pl) in
  if (size <? minimumPacketMTU + packetHeadroom) || (maximumPacketMTU + packetHeadroom <? size) then pools
  else
    let pl := pl <| pl_Type := 0 |> <| pl_len := capacity pl |> in
    <[size := pl :: default [] (pools !! size)]> pools.

(** ** Reading from a connection

    [rd_bytes] is what the peer will have sent before the read fails with
    [rd_err] ([io.EOF] when it closes the connection). *)
Record Reader := mkReader { rd_bytes : list Z; rd_err : error }.

Definition io_EOF : error := ErrSentinel IoEOF "EOF".
Definition io_ErrUnexpectedEOF : error := ErrSentinel IoUnexpectedEOF "unexpected EOF".

(** [io.ReadFull]: what was read, and whether it was all. *)
Definition ReadFull (n : nat) (r : Reader) : Reader * list Z * option error :=
  if decide (n ≤ length (rd_bytes r))%nat
  then (mkReader (drop n (rd_bytes r)) (rd_err r), take n (rd_bytes r), None)
  else (mkReader [] (rd_err r), rd_bytes r,
        Some (match rd_bytes r, rd_err r with
              | _ :: _, ErrSentinel IoEOF _ => io_ErrUnexpectedEOF
              | _, e => e
              end)).

(** ** The CSTP frame: 8 bytes of header, then the packet *)

Definition proto_Header : list Z := [0x53; 0x54; 0x46; 0x01; 0; 0; 0; 0].
Definition maxCSTPPayloadSize : Z := 64 * 1024 - 1.

(** [binary.BigEndian.PutUint16] and [Uint16]. *)
Definition be16 (n : Z) : list Z := [n / 256 mod 256; n mod 256].
Definition uint16_be (hi lo : Z) : Z := hi * 256 + lo.

Definition hex_bytes (l : list Z) : string :=
  String.concat "" ((λ b, String (hex_digit (Z.to_nat (b / 16))) (String (hex_digit (Z.to_nat (b mod 16))) "")) <$> l).

Definition readCSTPFrame (r : Reader) (pl : option Payload) : Reader * option Payload * (error + (Z * Z)) :=
  match pl with
  | None => (r, None, inl (ErrText "nil CSTP payload"))
  | Some pl =>
    match ReadFull 8 r with
    | (r, _, Some err) => (r, Some pl, inl err)
    | (r, header, None) =>
      if negb (bool_decide (take 4 header = take 4 proto_Header)) || negb (header !!! 7%nat =? proto_Header !!! 7%nat)
      then (r, Some pl, inl (ErrText ("invalid CSTP header " +:+ hex_bytes header)))
      else
        let payloadSize := uint16_be (header !!! 4%nat) (header !!! 5%nat) in
        if maxCSTPPayloadSize <? payloadSize
        then (r, Some pl, inl (ErrText ("CSTP payload exceeds " +:+ Itoa maxCSTPPayloadSize +:+ " bytes: " +:+ Itoa payloadSize)))
        else
          let n := Z.to_nat payloadSize in
          let pl := if decide (capacity pl < n)%nat then pl <| pl_arr := replicate n 0 |> <| pl_len := n |>
                    else pl <| pl_len := n |> in
          match ReadFull n r with
          | (r, got, err) =>
            let pl := pl <| pl_arr ::= copy_at 0 got |> in
            match err with
            | Some err => (r, Some pl, inl err)
            | None => (r, Some pl, inr (header !!! 6%nat, Z.of_nat (length proto_Header) + payloadSize))
            end
          end
    end
  end.

(** What [payloadOutTLSToServer] makes of a payload before it writes it. *)
Definition cstp_out (pl : Payload) : option Payload :=
  if pl_Type pl =? 0 then
    let l := pl_len pl in
    pl ← reslice 0 (l + 8) pl;
    let pl := pl <| pl_arr ::= copy_at 8 (take l (pl_arr pl)) |> in
    let pl := pl <| pl_arr ::= copy_at 0 proto_Header |> in
    Some (pl <| pl_arr ::= copy_at 4 (be16 (Z.of_nat l)) |>)
  else
    let pl := append_at_start proto_Header pl in
    Some (pl <| pl_arr ::= <[6%nat := pl_Type pl]> |>).

(** What [payloadOutDTLSToServer] makes of it: one byte of header. *)
Definition dtls_out (pl : Payload) : option Payload :=
  if pl_Type pl =? 0 then
    let l := pl_len pl in
    pl ← reslice 0 (l + 1) pl;
    let pl := pl <| pl_arr ::= copy_at 1 (take l (pl_arr pl)) |> in
    Some (pl <| pl_arr ::= <[0%nat := pl_Type pl]> |>)
  else Some (append_at_start [pl_Type pl] pl).

(** The frame the protocol describes, whatever buffer it is built in. *)
Definition cstp_wire (type : Z) (packet : list Z) : list Z :=
  [0x53; 0x54; 0x46; 0x01] ++ be16 (Z.of_nat (length packet)) ++ [type; 0] ++ packet.

Definition dtls_wire (type : Z) (packet : list Z) : list Z := type :: packet.

(** ** Slices: lemmas *)

Lemma copy_at_app a b c src :
  length b = length src → copy_at (length a) src (a ++ b ++ c) = a ++ src ++ c.
Proof.
  intros Hb. unfold copy_at. rewrite take_app_length, !length_app.
  rewrite take_ge by lia.
  rewrite (assoc_L (++) a b c), drop_app_ge by (rewrite length_app; lia).
  rewrite length_app, <-Hb. by replace (length a + length b - (length a + length b))%nat with 0%nat by lia.
Qed.

Lemma copy_at_start b c src : length b = length src → copy_at 0 src (b ++ c) = src ++ c.
Proof. exact (copy_at_app [] b c src). Qed.

Lemma length_copy_at i src arr : (i ≤ length arr)%nat → length (copy_at i src arr) = length arr.
Proof. intros Hi. unfold copy_at. rewrite !length_app, !length_take, length_drop. lia. Qed.

Lemma copy_at_byte b arr : (0 < length arr)%nat → copy_at 0 [b] arr = <[0%nat := b]> arr.
Proof. destruct arr as [|x arr]; cbn; [lia|]. intros _. unfold copy_at. cbn. by rewrite firstn_nil, drop_0. Qed.

Lemma length_data pl : slice_ok pl → length (data pl) = pl_len pl.
Proof. unfold slice_ok, data, capacity. rewrite length_take. lia. Qed.

Lemma reslice_Some lo hi pl :
  (lo ≤ hi ∧ hi ≤ capacity pl)%nat →
  reslice lo hi pl = Some (mkPayload (pl_Type pl) (drop lo (pl_arr pl)) (hi - lo)).
Proof. intros H. unfold reslice. by rewrite decide_True by done. Qed.

Lemma reslice_None lo hi pl : (capacity pl < hi)%nat → reslice lo hi pl = None.
Proof. intros H. unfold reslice. rewrite decide_False by lia. done. Qed.

(** ** Framing *)

(** A packet moves [k] bytes up when there is room for them. *)
Lemma shift_up k pl (h : list Z) :
  slice_ok pl → length h = k → (pl_len pl + k ≤ capacity pl)%nat →
  ∃ tail, copy_at 0 h (copy_at k (data pl) (pl_arr pl)) = h ++ data pl ++ tail.
Proof.
  intros Hok Hk Hroom. unfold capacity in Hroom.
  pose proof (length_data pl Hok) as Hl.
  assert (E : pl_arr pl = take k (pl_arr pl) ++ take (pl_len pl) (drop k (pl_arr pl)) ++ drop (k + pl_len pl) (pl_arr pl)).
  { rewrite <-drop_drop. by rewrite !take_drop. }
  exists (drop (k + pl_len pl) (pl_arr pl)).
  assert (Ht : length (take k (pl_arr pl)) = k) by (rewrite length_take; lia).
  rewrite E at 1. rewrite <-Ht at 1. rewrite copy_at_app.
  - by rewrite copy_at_start by congruence.
  - rewrite length_take, length_drop. lia.
Qed.

Lemma cstp_out_data pl :
  pl_Type pl = 0 → slice_ok pl → (pl_len pl + 8 ≤ capacity pl)%nat →
  ∃ pl', cstp_out pl = Some pl' ∧ data pl' = cstp_wire 0 (data pl).
Proof.
  intros HT Hok Hroom. unfold cstp_out. rewrite HT, (reslice_Some 0 (pl_len pl + 8)) by lia. cbn -[copy_at be16].
  eexists; split; [reflexivity|]. unfold data at 1. cbn -[copy_at be16 take].
  rewrite drop_0, (Nat.sub_0_r (pl_len pl + 8)). fold (data pl).
  destruct (shift_up 8 pl proto_Header Hok eq_refl Hroom) as [tail ->].
  change (proto_Header ++ data pl ++ tail)
    with ([0x53; 0x54; 0x46; 0x01] ++ [0; 0] ++ [0; 0] ++ data pl ++ tail).
  change 4%nat with (length [0x53; 0x54; 0x46; 0x01]). rewrite copy_at_app by done.
  unfold cstp_wire. rewrite length_data by done. rewrite !(assoc_L (++)), take_app_le.
  2:{ cbn. rewrite length_data by done. lia. }
  apply take_ge. cbn. rewrite length_data by done. lia.
Qed.

Lemma cstp_out_control pl :
  pl_Type pl ≠ 0 → ∃ pl', cstp_out pl = Some pl' ∧ data pl' = cstp_wire (pl_Type pl) [].
Proof.
  intros HT. unfold cstp_out. rewrite (proj2 (Z.eqb_neq _ _) HT).
  eexists; split; [reflexivity|]. unfold append_at_start, data.
  case_decide as Hc; cbn -[copy_at]; [|reflexivity].
  destruct (pl_arr pl) as [|a0 [|a1 [|a2 [|a3 [|a4 [|a5 [|a6 [|a7 tl]]]]]]]] eqn:E;
    unfold capacity in Hc; rewrite E in Hc; cbn in Hc; try lia. reflexivity.
Qed.

Lemma cstp_out_panics pl :
  pl_Type pl = 0 → (capacity pl < pl_len pl + 8)%nat → cstp_out pl = None.
Proof. intros HT H. unfold cstp_out. by rewrite HT, reslice_None. Qed.

Lemma dtls_out_data pl :
  pl_Type pl = 0 → slice_ok pl → (pl_len pl + 1 ≤ capacity pl)%nat →
  ∃ pl', dtls_out pl = Some pl' ∧ data pl' = dtls_wire 0 (data pl).
Proof.
  intros HT Hok Hroom. unfold dtls_out. rewrite HT, (reslice_Some 0 (pl_len pl + 1)) by lia. cbn -[copy_at].
  eexists; split; [reflexivity|]. unfold data at 1. cbn -[copy_at take].
  rewrite drop_0, (Nat.sub_0_r (pl_len pl + 1)). fold (data pl).
  destruct (shift_up 1 pl [0] Hok eq_refl Hroom) as [tail Ht].
  assert (E : <[0%nat := 0]> (copy_at 1 (data pl) (pl_arr pl)) = 0 :: data pl ++ tail).
  { change (0 :: data pl ++ tail) with ([0] ++ data pl ++ tail). rewrite <-Ht.
    rewrite copy_at_byte; [done|]. rewrite length_copy_at; unfold capacity in Hroom; lia. }
  rewrite HT, E, Nat.add_1_r. cbn. unfold dtls_wire. f_equal.
  rewrite take_app_le by (rewrite length_data; done). apply take_ge. by rewrite length_data.
Qed.

Lemma dtls_out_control pl :
  pl_Type pl ≠ 0 → ∃ pl', dtls_out pl = Some pl' ∧ data pl' = dtls_wire (pl_Type pl) [].
Proof.
  intros HT. unfold dtls_out. rewrite (proj2 (Z.eqb_neq _ _) HT).
  eexists; split; [reflexivity|]. unfold append_at_start, data.
  case_decide as Hc; cbn -[copy_at]; [|reflexivity].
  destruct (pl_arr pl) as [|a0 tl] eqn:E; unfold capacity in Hc; rewrite E in Hc; cbn in Hc; [lia|]. reflexivity.
Qed.

Lemma dtls_out_panics pl :
  pl_Type pl = 0 → (capacity pl < pl_len pl + 1)%nat → dtls_out pl = None.
Proof. intros HT H. unfold dtls_out. by rewrite HT, reslice_None. Qed.

(** ** Reading *)

Lemma ReadFull_app a b e : ReadFull (length a) (mkReader (a ++ b) e) = (mkReader b e, a, None).
Proof.
  unfold ReadFull; cbn. rewrite decide_True by (rewrite length_app; lia).
  by rewrite drop_app_length, take_app_length.
Qed.

Lemma ReadFull_cases n r :
  (∃ a b, length a = n ∧ rd_bytes r = a ++ b ∧ ReadFull n r = (mkReader b (rd_err r), a, None)) ∨
  ((length (rd_bytes r) < n)%nat ∧ ∃ e, ReadFull n r = (mkReader [] (rd_err r), rd_bytes r, Some e)).
Proof.
  unfold ReadFull. case_decide.
  - left. exists (take n (rd_bytes r)), (drop n (rd_bytes r)). by rewrite take_drop, length_take_le.
  - right. split; [lia|eauto].
Qed.

Lemma be16_value n : 0 ≤ n < 65536 → uint16_be (n / 256 mod 256) (n mod 256) = n.
Proof.
  intros Hn. unfold uint16_be. rewrite (Z.mod_small (n / 256)).
  - pose proof (Z.div_mod n 256). lia.
  - split; [apply Z.div_pos; lia|apply Z.div_lt_upper_bound; lia].
Qed.

(** The buffer the reader leaves holds the packet and nothing of what was in
    it before. *)
Lemma readCSTPFrame_wire type packet rest e pl :
  Z.of_nat (length packet) < 65536 →
  ∃ pl', readCSTPFrame (mkReader (cstp_wire type packet ++ rest) e) (Some pl) =
           (mkReader rest e, Some pl', inr (type, Z.of_nat (length (cstp_wire type packet)))) ∧
         data pl' = packet ∧ pl_Type pl' = pl_Type pl ∧ slice_ok pl' ∧
         capacity pl' = max (capacity pl) (length packet).
Proof.
  intros Hlen. unfold readCSTPFrame, cstp_wire.
  set (n := Z.of_nat (length packet)).
  change (ReadFull 8 _) with
    (ReadFull (length ([0x53; 0x54; 0x46; 0x01] ++ be16 n ++ [type; 0]))
       (mkReader (([0x53; 0x54; 0x46; 0x01] ++ be16 n ++ [type; 0]) ++ (packet ++ rest)) e)).
  rewrite ReadFull_app. unfold be16.
  set (hi := n / 256 mod 256). set (lo := n mod 256). cbn -[uint16_be maxCSTPPayloadSize].
  rewrite (bool_decide_eq_true_2 _ eq_refl). cbn -[uint16_be maxCSTPPayloadSize].
  unfold hi, lo. rewrite be16_value by lia.
  rewrite (proj2 (Z.ltb_ge _ _)) by (unfold maxCSTPPayloadSize; lia).
  unfold n. rewrite Nat2Z.id, ReadFull_app.
  eexists; split; [repeat f_equal; cbn; lia|].
  case_decide; unfold data, capacity, slice_ok in *; cbn -[copy_at take] in *.
  - pose proof (copy_at_start (replicate (length packet) 0) [] packet ltac:(by rewrite length_replicate)) as E.
    rewrite !app_nil_r in E. rewrite E. split_and!; [by apply take_ge|done|unfold capacity; cbn; lia|lia].
  - rewrite <-(take_drop (length packet) (pl_arr pl)), copy_at_start by (rewrite length_take; lia).
    split_and!; [by apply take_app_length|done|unfold capacity; cbn; rewrite !length_app; lia|].
    rewrite !length_app, length_take, length_drop. lia.
Qed.

(** A read consumes the header or fails, and reallocates the buffer only for
    a larger packet. *)
Lemma readCSTPFrame_cases r pl :
  ∃ r' pl' res, readCSTPFrame r (Some pl) = (r', Some pl', res) ∧
    (capacity pl ≤ capacity pl')%nat ∧ Z.of_nat (capacity pl') ≤ Z.max (Z.of_nat (capacity pl)) 65535 ∧ pl_Type pl' = pl_Type pl ∧
    (length (rd_bytes r') ≤ length (rd_bytes r))%nat ∧ rd_err r' = rd_err r ∧
    match res with
    | inr _ => (length (rd_bytes r') + 8 ≤ length (rd_bytes r))%nat ∧ slice_ok pl'
    | inl _ => True
    end.
Proof.
  unfold readCSTPFrame.
  destruct (ReadFull_cases 8 r) as [(h & rest & Hh & Hr & ->)|(Hr & e & ->)].
  2:{ do 3 eexists. split_and!; [reflexivity|lia|lia|done| |done..]. cbn. lia. }
  case_match.
  { do 3 eexists. split_and!; [reflexivity|lia|lia|done| |done..]. cbn. rewrite Hr, length_app. lia. }
  case_match eqn:Hmax.
  { do 3 eexists. split_and!; [reflexivity|lia|lia|done| |done..]. cbn. rewrite Hr, length_app. lia. }
  apply Z.ltb_ge in Hmax. unfold maxCSTPPayloadSize in Hmax.
  set (n := Z.to_nat (uint16_be _ _)) in *. assert (Hn : Z.of_nat n ≤ 65535) by lia. clearbody n.
  set (pl1 := if decide _ then _ else _).
  assert (H1 : (capacity pl ≤ capacity pl1)%nat ∧ Z.of_nat (capacity pl1) ≤ Z.max (Z.of_nat (capacity pl)) 65535 ∧ pl_Type pl1 = pl_Type pl ∧
               (pl_len pl1 ≤ capacity pl1)%nat).
  { unfold pl1. destruct (decide (capacity pl < n)%nat); unfold capacity in *; cbn -[Z.max Z.of_nat]; rewrite ?length_replicate; lia. }
  clearbody pl1.
  destruct (ReadFull_cases n (mkReader rest (rd_err r))) as [(d & rest' & Hd & Hr' & ->)|(Hr' & e & ->)];
    do 3 eexists; (split; [reflexivity|]);
    unfold slice_ok, capacity in *; cbn -[Z.max Z.of_nat]; rewrite ?length_copy_at by lia; cbn -[Z.max Z.of_nat] in *;
    rewrite ?Hr, ?Hr', ?length_app; split_and!; try done; rewrite ?length_app; lia.
Qed.

(** ** The pools *)

(** Every waiting buffer lies under its own capacity, whole and blank, and no
    buffer outside the bounds of the two constants is kept. *)
Definition pools_ok (pools : Pools) : Prop :=
  map_Forall (λ size, Forall (λ pl, Z.of_nat (capacity pl) = size ∧ pl_len pl = capacity pl ∧ pl_Type pl = 0 ∧
    minimumPacketMTU + packetHeadroom ≤ size ≤ maximumPacketMTU + packetHeadroom)) pools.

Lemma payloadBufferSize_bounds mtu :
  minimumPacketMTU + packetHeadroom ≤ payloadBufferSize mtu ≤ maximumPacketMTU + packetHeadroom.
Proof.
  unfold payloadBufferSize, minimumPacketMTU, maximumPacketMTU, packetHeadroom.
  destruct (Z.ltb_spec mtu 576); [cbn; lia|]. destruct (Z.ltb_spec 9000 mtu); lia.
Qed.

Lemma payloadBufferSize_mtu mtu :
  minimumPacketMTU ≤ mtu ≤ maximumPacketMTU → payloadBufferSize mtu = mtu + packetHeadroom.
Proof.
  unfold payloadBufferSize. intros H.
  destruct (Z.ltb_spec mtu minimumPacketMTU); [lia|]. destruct (Z.ltb_spec maximumPacketMTU mtu); lia.
Qed.

Lemma getPayloadBuffer_ok mtu hit pools :
  pools_ok pools →
  ∃ pl pools', getPayloadBuffer mtu hit pools = Some (pl, pools') ∧ pools_ok pools' ∧
    Z.of_nat (capacity pl) = payloadBufferSize mtu ∧ pl_len pl = capacity pl ∧ pl_Type pl = 0.
Proof.
  intros Hok. unfold getPayloadBuffer.
  pose proof (payloadBufferSize_bounds mtu) as Hb. set (size := payloadBufferSize mtu) in *.
  assert (∃ pl pools', poolForSize size hit pools = (pl, pools') ∧ pools_ok pools' ∧
    Z.of_nat (capacity pl) = size ∧ pl_len pl = capacity pl ∧ pl_Type pl = 0) as (pl & pools' & -> & Hok' & Hc & Hl & HT).
  { unfold poolForSize. destruct (_ ≫= _) as [[pl l']|] eqn:E.
    - apply bind_Some in E as (i & _ & E). apply bind_Some in E as (pl0 & Hi & [= -> <-]).
      destruct (pools !! size) as [l|] eqn:El; cbn in Hi; [|done].
      pose proof (Hok _ _ El) as Hall. destruct (Forall_lookup_1 _ _ _ _ Hall Hi) as (? & ? & ? & ?).
      do 2 eexists. split_and!; [done| |done..]. apply map_Forall_insert_2; [|done].
      rewrite delete_take_drop. apply Forall_app; split; [by apply Forall_take|by apply Forall_drop].
    - do 2 eexists. split_and!; [done..| | |done]; unfold capacity; cbn; rewrite length_replicate; [|done].
      unfold minimumPacketMTU, packetHeadroom in Hb. lia. }
  rewrite reslice_Some by lia. cbn. do 2 eexists. split_and!; [done..| | |done];
    unfold capacity in *; cbn; rewrite drop_0; lia.
Qed.

Lemma putPayloadBuffer_ok pl pools : pools_ok pools → pools_ok (putPayloadBuffer pl pools).
Proof.
  intros Hok. unfold putPayloadBuffer.
  destruct (Z.ltb_spec (Z.of_nat (capacity pl)) (minimumPacketMTU + packetHeadroom)); [done|].
  destruct (Z.ltb_spec (maximumPacketMTU + packetHeadroom) (Z.of_nat (capacity pl))); [done|]. cbn.
  apply map_Forall_insert_2; [|done]. constructor; [done|].
  destruct (pools !! _) as [l|] eqn:El; [by apply (Hok _ _ El)|constructor].
Qed.

Lemma pools_ok_empty : pools_ok ∅.
Proof. apply map_Forall_empty. Qed.

(** A buffer for a packet always comes out of the pools, and a packet read
    into it from the TUN device at the platform's offset is framed for the
    CSTP channel exactly when eight bytes are left in the buffer, for the DTLS
    channel when one is; the frame is then the protocol's.  So every packet
    within a negotiated MTU goes through whatever buffer the pool hands out,
    while a read that fills the buffer, which the reader's own check accepts,
    takes the sender out of bounds. *)
Theorem packet_framing_room mtu hit pools :
  pools_ok pools →
  ∃ pl pools', getPayloadBuffer mtu hit pools = Some (pl, pools') ∧ pools_ok pools' ∧
    ∀ offset n arr, length arr = capacity pl → (offset + n ≤ pl_len pl)%nat →
    ∃ q, reslice offset (offset + n) (pl <| pl_arr := arr |>) = Some q ∧ data q = take n (drop offset arr) ∧
      (cstp_out q = None ↔ payloadBufferSize mtu < Z.of_nat (offset + n) + 8) ∧
      (∀ f, cstp_out q = Some f → data f = cstp_wire 0 (data q)) ∧
      (dtls_out q = None ↔ payloadBufferSize mtu < Z.of_nat (offset + n) + 1) ∧
      (∀ f, dtls_out q = Some f → data f = dtls_wire 0 (data q)) ∧
      (minimumPacketMTU ≤ mtu ≤ maximumPacketMTU → Z.of_nat n ≤ mtu → (offset ≤ 248)%nat →
       is_Some (cstp_out q) ∧ is_Some (dtls_out q)).
Proof.
  intros Hok. destruct (getPayloadBuffer_ok mtu hit pools Hok) as (pl & pools' & Hget & Hok' & Hc & Hl & HT).
  exists pl, pools'. split_and!; [done..|]. intros offset n arr Harr Hn.
  rewrite reslice_Some by (unfold capacity in *; cbn; lia). cbn.
  eexists; split; [reflexivity|]. rewrite HT, Nat.add_comm, Nat.add_sub.
  set (q := mkPayload 0 (drop offset arr) n).
  assert (Hq : slice_ok q ∧ (capacity q + offset = capacity pl)%nat).
  { unfold slice_ok, capacity, q in *. cbn. rewrite length_drop. lia. }
  destruct Hq as [Hq Hcap]. split; [done|]. pose proof (eq_refl : pl_len q = n) as Hqn.
  assert (H1 : (Z.of_nat (offset + n) + 8 ≤ payloadBufferSize mtu → ∃ f, cstp_out q = Some f ∧ data f = cstp_wire 0 (data q)) ∧
               (payloadBufferSize mtu < Z.of_nat (offset + n) + 8 → cstp_out q = None)).
  { split; intros H; [apply cstp_out_data|apply cstp_out_panics]; try done; lia. }
  assert (H2 : (Z.of_nat (offset + n) + 1 ≤ payloadBufferSize mtu → ∃ f, dtls_out q = Some f ∧ data f = dtls_wire 0 (data q)) ∧
               (payloadBufferSize mtu < Z.of_nat (offset + n) + 1 → dtls_out q = None)).
  { split; intros H; [apply dtls_out_data|apply dtls_out_panics]; try done; lia. }
  rewrite (Nat.add_comm n offset).
  destruct (Z.le_gt_cases (Z.of_nat (offset + n) + 8) (payloadBufferSize mtu)) as [Hr1|Hr1],
    (Z.le_gt_cases (Z.of_nat (offset + n) + 1) (payloadBufferSize mtu)) as [Hr2|Hr2]; try lia.
  - destruct (proj1 H1 Hr1) as (f & -> & Hf), (proj1 H2 Hr2) as (g & -> & Hg).
    split_and!; [split; [done|lia]|by intros ? [= <-]|split; [done|lia]|by intros ? [= <-]|eauto].
  - rewrite (proj2 H1 Hr1). destruct (proj1 H2 Hr2) as (g & -> & Hg).
    split_and!; [done|done|split; [done|lia]|by intros ? [= <-]|].
    intros Hm Hn' Ho. rewrite payloadBufferSize_mtu in Hr1 by done. unfold packetHeadroom in Hr1. lia.
  - rewrite (proj2 H1 Hr1), (proj2 H2 Hr2). split_and!; [done..|].
    intros Hm Hn' Ho. rewrite payloadBufferSize_mtu in Hr1 by done. unfold packetHeadroom in Hr1. lia.
Qed.

Definition demo_pools : Pools := {[ 832 := [new_payload 832] ]}.

Lemma packet_framing_room_witness :
  ∃ pl pools', getPayloadBuffer 576 (Some 0%nat) demo_pools = Some (pl, pools') ∧ pools' !! 832 = Some [] ∧
    (∃ q, reslice 0 576 pl = Some q ∧ is_Some (cstp_out q) ∧ is_Some (dtls_out q)) ∧
    (∃ q, reslice 0 832 pl = Some q ∧ cstp_out q = None).
Proof.
  assert (Hok : pools_ok demo_pools).
  { unfold pools_ok, demo_pools. apply map_Forall_singleton. constructor; [|constructor].
    apply (bool_decide_unpack _). vm_compute. exact I. }
  destruct (packet_framing_room 576 (Some 0%nat) demo_pools Hok) as (pl & pools' & Hget & _ & H).
  assert (Hpl : pl = new_payload 832 ∧ pools' !! 832 = Some []).
  { vm_compute in Hget. injection Hget as <- <-. split; reflexivity. }
  destruct Hpl as [-> Hp]. exists (new_payload 832), pools'. split_and!; [done|done| |].
  - destruct (H 0%nat 576%nat (pl_arr (new_payload 832)) eq_refl) as (q & Hq & _ & _ & _ & _ & _ & Hmtu).
    { apply (bool_decide_unpack _). vm_compute. exact I. }
    exists q. split; [exact Hq|]. apply Hmtu; unfold minimumPacketMTU, maximumPacketMTU; lia.
  - destruct (H 0%nat 832%nat (pl_arr (new_payload 832)) eq_refl) as (q & Hq & _ & [_ Hn] & _).
    { apply (bool_decide_unpack _). vm_compute. exact I. }
    exists q. split; [exact Hq|]. apply Hn. reflexivity.
Defined.
