(* ===== verification/Session.v ===== *)
(** * The connection session (src/internal/anyconnect/session/session.go)

    A [ConnSession] is what the workers of one connection share: the negotiated
    parameters, the packet queues, the counters, the cause of the close.  The
    code protects it by atomics, channels and two mutexes; here each operation
    that runs under one of them is one transition of the record.  A queue is a
    Go buffered channel: the list of what waits in it. *)

From S2P Require Import Prelude GoStrings NetIP OsNet Buffer.

Open Scope go_scope.
Open Scope Z_scope.

(** ** HTTP headers *)

Definition upper_byte (c : ascii) : ascii :=
  let n := nat_of_ascii c in
  if (97 <=? n)%nat && (n <=? 122)%nat then ascii_of_nat (n - 32) else c.

(** [textproto.CanonicalMIMEHeaderKey] on a key made of letters, digits and
    hyphens, as every key of this program is. *)
Fixpoint canonical_from (upper : bool) (s : string) : string :=
  match s with
  | EmptyString => EmptyString
  | String c s => String (if upper then upper_byte c else lower_byte c) (canonical_from (c =? "-")%char s)
  end.
Definition CanonicalHeaderKey : string → string := canonical_from true.

Definition Header : Type := gmap string (list string).
Definition header_Values (h : Header) (key : string) : list string := default [] (h !! CanonicalHeaderKey key).
Definition header_Get (h : Header) (key : string) : string := default "" (head (header_Values h key)).

(** ** Data *)

Record Stat := mkStat {
  BytesSent : Z; BytesReceived : Z; TUNReads : Z; TUNWrites : Z; TUNReadErrors : Z;
  TUNWriteErrors : Z; DPDSent : Z; DPDResponses : Z; QueueDrops : Z;
}.
#[export] Instance Stat_eta : Eta Stat := λ r,
  mkStat (BytesSent r) (BytesReceived r) (TUNReads r) (TUNWrites r) (TUNReadErrors r)
    (TUNWriteErrors r) (DPDSent r) (DPDResponses r) (QueueDrops r).

(** [atomic.Uint64.Add]. *)
Definition add_u64 (n : Z) (counter : Z) : Z := (counter + n) mod 2 ^ 64.

Record TransportFault := mkTransportFault {
  sf_Code : string; sf_Transport : string; sf_Error : string; sf_Time : string;
}.

Record CloseInfo := mkCloseInfo {
  ci_Code : string; ci_Transport : string; ci_Error : string; ci_Time : string;
  ci_TransportFaults : list TransportFault;
}.
#[export] Instance CloseInfo_eta : Eta CloseInfo := λ r,
  mkCloseInfo (ci_Code r) (ci_Transport r) (ci_Error r) (ci_Time r) (ci_TransportFaults r).

(** [dynamicRouteLease] of tun.go: the addresses a DNS answer allowed, and the
    time in nanoseconds at which they lapse. *)
Record dynamicRouteLease := mkLease { lease_Addresses : list string; lease_ExpiresAt : Z }.
#[export] Instance dynamicRouteLease_eq_dec : EqDecision dynamicRouteLease.
Proof. solve_decision. Defined.

Record ConnSession := mkConnSession {
  ConnectionID : string;
  ServerAddress : string; TLSServerName : string; LocalAddress : string;
  LocalSocketAddress : string; RemoteSocketAddress : string; Hostname : string;
  TunName : string; VPNAddress : string; VPNMask : string;
  DNS : list string; MTU : Z; SplitInclude : list string; SplitExclude : list string;
  UseDefaultRouteWhenEmpty : bool;
  DynamicSplitTunneling : bool;
  DynamicSplitIncludeDomains : list string;
  DynamicSplitIncludeResolved : gmap string dynamicRouteLease;
  DynamicSplitExcludeDomains : list string;
  DynamicSplitExcludeResolved : gmap string dynamicRouteLease;
  Underlay : UnderlaySnapshot;
  TLSCipherSuite : string; TLSDpdTime : Z; TLSKeepaliveTime : Z;
  DTLSPort : string; DTLSDpdTime : Z; DTLSKeepaliveTime : Z; DTLSId : string; DTLSCipherSuite : string;
  cs_Stat : Stat;
  CloseChan_closed : bool;
  PayloadIn : list Payload; PayloadOutTLS : list Payload; PayloadOutDTLS : list Payload;
  DynamicRoutePackets : list (list Z);
  NetworkErrors : list (option error);
  DtlsConnected : bool; DtlsSetupChan_closed : bool;
  DSess_closed : bool;
  ResetTLSReadDead : bool; ResetDTLSReadDead : bool;
  LifecycleState : string; TLSState : string; DTLSState : string;
  closeInfo : option CloseInfo;        (* closeInfo with closeInfoSet *)
  transportFaults : list TransportFault;
  closeHook : option nat;              (* the name of the registered function *)
  tunnelDone : bool;                   (* a controller registered its channel *)
  tunnelErr : option error;
}.
#[export] Instance ConnSession_eta : Eta ConnSession := λ r,
  mkConnSession (ConnectionID r) (ServerAddress r) (TLSServerName r) (LocalAddress r)
    (LocalSocketAddress r) (RemoteSocketAddress r) (Hostname r) (TunName r) (VPNAddress r) (VPNMask r)
    (DNS r) (MTU r) (SplitInclude r) (SplitExclude r) (UseDefaultRouteWhenEmpty r)
    (DynamicSplitTunneling r) (DynamicSplitIncludeDomains r) (DynamicSplitIncludeResolved r)
    (DynamicSplitExcludeDomains r) (DynamicSplitExcludeResolved r) (Underlay r)
    (TLSCipherSuite r) (TLSDpdTime r) (TLSKeepaliveTime r) (DTLSPort r) (DTLSDpdTime r)
    (DTLSKeepaliveTime r) (DTLSId r) (DTLSCipherSuite r) (cs_Stat r) (CloseChan_closed r)
    (PayloadIn r) (PayloadOutTLS r) (PayloadOutDTLS r) (DynamicRoutePackets r) (NetworkErrors r)
    (DtlsConnected r) (DtlsSetupChan_closed r) (DSess_closed r) (ResetTLSReadDead r)
    (ResetDTLSReadDead r) (LifecycleState r) (TLSState r) (DTLSState r) (closeInfo r)
    (transportFaults r) (closeHook r) (tunnelDone r) (tunnelErr r).

(** A [Session] outlives its connection: it points at the current one and has
    a channel of its own, closed when that one ends.  [ss_gen] counts the
    channels made. *)
Record Session := mkSession {
  SessionToken : string;
  PreMasterSecret : list Z;
  ActiveClose : bool;
  CSess : option nat;
  SessChan_closed : bool;
}.
#[export] Instance Session_eta : Eta Session := λ r,
  mkSession (SessionToken r) (PreMasterSecret r) (ActiveClose r) (CSess r) (SessChan_closed r).

(** The capacities of the channels. *)
Definition queue_capacity : nat := 64.
Definition network_errors_capacity : nat := 8.

(** [select { case ch <- x: default: }]. *)
Definition try_send {A} (cap : nat) (x : A) (queue : list A) : option (list A) :=
  if (length queue <? cap)%nat then Some (queue ++ [x]) else None.

Definition bump (f : Stat → Stat) (c : ConnSession) : ConnSession := c <| cs_Stat ::= f |>.

(** ** A new connection session

    [NoDTLS] is the client's configuration.  [post_auth] is what encoding/xml
    makes of the X-CSTP-Post-Auth-XML text: the two domain lists of the custom
    attributes, or nothing when it does not parse. *)
Definition NewConnSession (NoDTLS : bool) (post_auth : string → option (string * string)) (id : nat)
    (sess : Session) (header : Header) : Session * ConnSession :=
  let get := header_Get header in
  let include := header_Values header "X-CSTP-Split-Include" in
  let dtls_id := get "X-DTLS-Session-ID" in
  let c := mkConnSession "" "" "" "" "" "" "" "" (get "X-CSTP-Address") (get "X-CSTP-Netmask")
    (header_Values header "X-CSTP-DNS") (Atoi_value (get "X-CSTP-MTU"))
    include (header_Values header "X-CSTP-Split-Exclude") (bool_decide (length include = 0%nat))
    false [] ∅ [] ∅ zero_snapshot
    "" (Atoi_value (get "X-CSTP-DPD")) (Atoi_value (get "X-CSTP-Keepalive"))
    (get "X-DTLS-Port") (Atoi_value (get "X-DTLS-DPD")) (Atoi_value (get "X-DTLS-Keepalive"))
    (if dtls_id == "" then get "X-DTLS-App-ID" else dtls_id)
    (if NoDTLS then "Unknown" else get "X-DTLS12-CipherSuite")
    (mkStat 0 0 0 0 0 0 0 0 0) false [] [] [] [] [] false false false true true
    "Created" "Starting" "Disabled" None [] None false None in
  let postAuth := get "X-CSTP-Post-Auth-XML" in
  let c := match (if postAuth == "" then None else post_auth postAuth) with
           | None => c
           | Some (inc, exc) =>
             let c := if inc == "" then c
                      else c <| DynamicSplitIncludeDomains := split_byte inc "," |> <| DynamicSplitTunneling := true |> in
             if exc == "" then c
             else c <| DynamicSplitExcludeDomains := split_byte exc "," |> <| DynamicSplitTunneling := true |>
           end in
  (sess <| CSess := Some id |> <| ActiveClose := false |> <| SessChan_closed := false |>, c).

(** ** Dead peer detection *)

Definition defaultDPDSeconds : Z := 30.
Definition EffectiveDPD (advertised : Z) : Z := if advertised <=? 0 then defaultDPDSeconds else advertised.

(** [utils.Min] and [utils.Max]. *)
Definition utils_Min (init : Z) (other : list Z) : Z :=
  foldl (λ m v, if negb (v =? 0) && (v <? m) then v else m) init other.
Definition utils_Max (init : Z) (other : list Z) : Z :=
  foldl (λ m v, if m <? v then v else m) init other.

(** The probe interval in seconds. *)
Definition dpd_interval (tls dtls : Z) : Z :=
  let dpdTime := wrap64 (utils_Min tls [dtls] - 5) in
  if dpdTime <? 10 then 10 else dpdTime.

Definition second : Z := 1000000000.

(** [time.Duration(n) * time.Second], a 64-bit count of nanoseconds. *)
Definition seconds (n : Z) : Z := wrap64 (n * second).

(** The ticker [DPDTimer] starts, in nanoseconds; [time.NewTicker] panics on a
    period that is not positive. *)
Definition dpd_ticker (c : ConnSession) : option Z :=
  let period := seconds (dpd_interval (TLSDpdTime c) (DTLSDpdTime c)) in
  if 0 <? period then Some period else None.

(** The deadline [tlsChannel] and [dtlsChannel] give their reads. *)
Definition read_dead (advertised : Z) : Z := seconds (wrap64 (EffectiveDPD advertised + 5)).

Definition dpd_probe (cap : nat) : Payload := mkPayload 3 (replicate cap 0) 0.

(** What one tick of [DPDTimer] does. *)
Definition DPDTimer_tick (c : ConnSession) : ConnSession :=
  let c := match try_send queue_capacity (dpd_probe 8) (PayloadOutTLS c) with
           | Some q => bump (λ s, s <| DPDSent ::= add_u64 1 |>) (c <| PayloadOutTLS := q |>)
           | None => bump (λ s, s <| QueueDrops ::= add_u64 1 |>) c
           end in
  if DtlsConnected c then
    match try_send queue_capacity (dpd_probe 1) (PayloadOutDTLS c) with
    | Some q => bump (λ s, s <| DPDSent ::= add_u64 1 |>) (c <| PayloadOutDTLS := q |>)
    | None => bump (λ s, s <| QueueDrops ::= add_u64 1 |>) c
    end
  else c.

(** What one tick of [ReadDeadTimer] does; it ends with the session. *)
Definition ReadDeadTimer_tick (c : ConnSession) : ConnSession :=
  if CloseChan_closed c then c
  else c <| ResetTLSReadDead := true |> <| ResetDTLSReadDead := true |>.

(** ** Faults and the cause of the close *)

Definition diagnosticError (err : option error) : string :=
  match err with
  | None => ""
  | Some e => let message := error_msg e in
              if (512 <? len message)%nat then take_str 512 message else message
  end.

Definition max_faults : nat := 8.

Definition RecordTransportFault (now code transport : string) (err : option error) (c : ConnSession) : ConnSession :=
  if (max_faults <=? length (transportFaults c))%nat then c
  else c <| transportFaults ::= λ l, l ++ [mkTransportFault code transport (diagnosticError err) now] |>.

(** [active]: [cSess.Sess.ActiveClose] at the call. *)
Definition RecordClose (now : string) (active : bool) (code transport : string) (err : option error)
    (c : ConnSession) : ConnSession :=
  match closeInfo c with
  | Some _ => c
  | None =>
    let '(code, transport, err) := if active then ("local_requested", "local", None) else (code, transport, err) in
    let code := if code == "" then "unknown_close" else code in
    c <| closeInfo := Some (mkCloseInfo code transport (diagnosticError err) now (transportFaults c)) |>
  end.

Definition CloseInfo_ (now : string) (c : ConnSession) : CloseInfo :=
  match closeInfo c with
  | None => mkCloseInfo "unknown_close" "" "" now []
  | Some info => info <| ci_TransportFaults := transportFaults c |>
  end.

Definition SetTunnelError (err : option error) (c : ConnSession) : ConnSession := c <| tunnelErr := err |>.
Definition TunnelError (c : ConnSession) : option error := tunnelErr c.
Definition SetTunnelDone (c : ConnSession) : ConnSession := c <| tunnelDone := true |>.
Definition TunnelDone (c : ConnSession) : bool := tunnelDone c.
Definition SetLifecycleState (state : string) (c : ConnSession) : ConnSession :=
  if state == "" then c else c <| LifecycleState := state |>.
Definition SetTLSState (state : string) (c : ConnSession) : ConnSession :=
  if state == "" then c else c <| TLSState := state |>.
Definition SetDTLSState (state : string) (c : ConnSession) : ConnSession :=
  if state == "" then c else c <| DTLSState := state |>.
Definition SignalDTLSSetup (c : ConnSession) : ConnSession := c <| DtlsSetupChan_closed := true |>.
Definition RuntimeStats (c : ConnSession) : Stat := cs_Stat c.

(** [DtlsSession.Close]: its [sync.Once] makes later calls do nothing. *)
Definition DtlsSession_Close (c : ConnSession) : ConnSession :=
  if DSess_closed c then c
  else c <| DSess_closed := true |> <| DtlsConnected := false |> <| DTLSCipherSuite := "" |>.

(** ** Close, in steps

    [Close] may be called by every worker of the connection at once, and
    [SetCloseHook] by the tunnel controller at the same time.  [sync.Once]
    runs the body for the first caller and makes the others wait for its end;
    [close_pc] is where the body stands, one step per access to shared state. *)

Inductive close_pc :=
  | NotStarted | AtDraining | AtRecord | AtDTLS | AtCloseChan | AtGuard | AtClearCSess
  | AtCloseSess | AtClosed | AtReadHook | AtRunHook (hook : option nat) | BodyDone.

#[export] Instance close_pc_eq_dec : EqDecision close_pc.
Proof. solve_decision. Defined.

Record Shared := mkShared {
  sh_cs : ConnSession;
  sh_sess : Session;
  sh_ran : list nat;      (* the hooks that were run, in order *)
  sh_panic : bool;        (* a channel was closed twice *)
}.
#[export] Instance Shared_eta : Eta Shared := λ r,
  mkShared (sh_cs r) (sh_sess r) (sh_ran r) (sh_panic r).

Definition on_cs (f : ConnSession → ConnSession) (w : Shared) : Shared := w <| sh_cs ::= f |>.

Definition close_step (self : nat) (now : string) (pc : close_pc) (w : Shared) : Shared * close_pc :=
  match pc with
  | NotStarted => (w, AtDraining)
  | AtDraining => (on_cs (SetLifecycleState "Draining") w, AtRecord)
  | AtRecord => (on_cs (RecordClose now (ActiveClose (sh_sess w)) "" "" None) w, AtDTLS)
  | AtDTLS => (if DtlsConnected (sh_cs w) then on_cs DtlsSession_Close w else w, AtCloseChan)
  | AtCloseChan =>
    (if CloseChan_closed (sh_cs w) then w <| sh_panic := true |>
     else on_cs (λ c, c <| CloseChan_closed := true |>) w, AtGuard)
  | AtGuard => (w, if bool_decide (CSess (sh_sess w) = Some self) then AtClearCSess else AtClosed)
  | AtClearCSess => (w <| sh_sess ::= λ s, s <| CSess := None |> |>, AtCloseSess)
  | AtCloseSess =>
    (if SessChan_closed (sh_sess w) then w <| sh_panic := true |>
     else w <| sh_sess ::= λ s, s <| SessChan_closed := true |> |>, AtClosed)
  | AtClosed => (on_cs (SetLifecycleState "Closed") w, AtReadHook)
  | AtReadHook => (w, AtRunHook (closeHook (sh_cs w)))
  | AtRunHook hook => (w <| sh_ran ::= λ l, l ++ option_list hook |>, BodyDone)
  | BodyDone => (w, BodyDone)
  end.

(** The body from start to end, uninterrupted: [Close] of a caller that is
    alone. *)
Definition Close (self : nat) (now : string) (w : Shared) : Shared :=
  (Nat.iter 12 (λ '(w, pc), close_step self now pc w) (w, NotStarted)).1.

(** [SetCloseHook]: the test and the registration are under the mutex; a hook
    that comes too late is run by the registrant, after it let go of it. *)
Inductive hook_pc := HookStart | HookRun | HookDone.

Definition hook_step (hook : option nat) (pc : hook_pc) (w : Shared) : Shared * hook_pc :=
  match pc with
  | HookStart =>
    if CloseChan_closed (sh_cs w) then (w, HookRun)
    else (on_cs (λ c, c <| closeHook := hook |>) w, HookDone)
  | HookRun => (w <| sh_ran ::= λ l, l ++ option_list hook |>, HookDone)
  | HookDone => (w, HookDone)
  end.

(** Everything at once: [returned] says for each caller of [Close] whether it
    came back. *)
Record Closing := mkClosing {
  cl_w : Shared;
  cl_body : close_pc;
  cl_returned : list bool;
  cl_setter : hook_pc;
}.
#[export] Instance Closing_eta : Eta Closing := λ r,
  mkClosing (cl_w r) (cl_body r) (cl_returned r) (cl_setter r).

(** What the rest of the connection does meanwhile leaves these parts alone. *)
Definition elsewhere (w w' : Shared) : Prop :=
  CloseChan_closed (sh_cs w') = CloseChan_closed (sh_cs w) ∧ closeHook (sh_cs w') = closeHook (sh_cs w) ∧
  CSess (sh_sess w') = CSess (sh_sess w) ∧ SessChan_closed (sh_sess w') = SessChan_closed (sh_sess w) ∧
  sh_ran w' = sh_ran w ∧ sh_panic w' = sh_panic w.

Lemma RecordClose_frame now active code transport err c :
  CloseChan_closed (RecordClose now active code transport err c) = CloseChan_closed c ∧
  closeHook (RecordClose now active code transport err c) = closeHook c.
Proof. unfold RecordClose. destruct (closeInfo c); [done|]. by destruct active. Qed.

Lemma DtlsSession_Close_frame c :
  CloseChan_closed (DtlsSession_Close c) = CloseChan_closed c ∧ closeHook (DtlsSession_Close c) = closeHook c.
Proof. unfold DtlsSession_Close. by destruct (DSess_closed c). Qed.

(** The steps of [Close] for a caller that is alone, in two halves. *)
Definition close_first (now : string) (c : ConnSession) (sess : Session) : ConnSession :=
  let c := RecordClose now (ActiveClose sess) "" "" None (SetLifecycleState "Draining" c) in
  if DtlsConnected c then DtlsSession_Close c else c.

Lemma close_first_spec now c sess :
  let c' := close_first now c sess in
  CloseChan_closed c' = CloseChan_closed c ∧ closeHook c' = closeHook c ∧ tunnelDone c' = tunnelDone c ∧
  closeInfo c' ≠ None.
Proof.
  unfold close_first. set (c0 := SetLifecycleState "Draining" c).
  assert (H0 : CloseChan_closed c0 = CloseChan_closed c ∧ closeHook c0 = closeHook c ∧ tunnelDone c0 = tunnelDone c) by done.
  clearbody c0. destruct H0 as (E1 & E2 & E3).
  assert (H1 : let c1 := RecordClose now (ActiveClose sess) "" "" None c0 in
    CloseChan_closed c1 = CloseChan_closed c ∧ closeHook c1 = closeHook c ∧ tunnelDone c1 = tunnelDone c ∧ closeInfo c1 ≠ None).
  { unfold RecordClose. destruct (closeInfo c0) eqn:E; cbn zeta; [by rewrite E|]. destruct (ActiveClose sess); done. }
  set (c1 := RecordClose _ _ _ _ _ c0) in *. clearbody c1. cbn zeta in *.
  destruct (DtlsConnected c1); [|done]. unfold DtlsSession_Close. by destruct (DSess_closed c1).
Qed.

Lemma Close_alone self now c sess ran :
  CloseChan_closed c = false → CSess sess = Some self → SessChan_closed sess = false →
  let w := Close self now (mkShared c sess ran false) in
  sh_panic w = false ∧ sh_ran w = ran ++ option_list (closeHook c) ∧ CloseChan_closed (sh_cs w) = true ∧
  tunnelDone (sh_cs w) = tunnelDone c ∧ closeInfo (sh_cs w) ≠ None ∧ LifecycleState (sh_cs w) = "Closed" ∧
  sh_sess w = sess <| CSess := None |> <| SessChan_closed := true |>.
Proof.
  intros H1 H2 H3. destruct (close_first_spec now c sess) as (E1 & E2 & E3 & E4).
  set (step := λ '(w, pc), close_step self now pc w).
  assert (E : Close self now (mkShared c sess ran false) =
    (Nat.iter 8 step (mkShared (close_first now c sess) sess ran false, AtCloseChan)).1).
  { unfold Close. fold step. change 12%nat with (8 + 4)%nat. rewrite Nat.iter_add. do 2 f_equal.
    unfold close_first. cbn -[RecordClose DtlsSession_Close SetLifecycleState].
    by destruct (DtlsConnected _). }
  rewrite E. clear E. set (c1 := close_first now c sess) in *. clearbody c1.
  rewrite H1 in E1. unfold step. cbn [Nat.iter nat_rect close_step]. cbn [sh_cs sh_sess]. rewrite E1.
  cbn [on_cs sh_sess]. rewrite bool_decide_eq_true_2 by done.
  cbn [close_step]. destruct sess; cbn in H2, H3; subst. cbn. rewrite E2. by split_and!.
Qed.

Section closing.
Context (self hook : nat).

Inductive closing_step : Closing → Closing → Prop :=
  | close_called s i :
      cl_returned s !! i = Some false → cl_body s = NotStarted →
      closing_step s (s <| cl_body := AtDraining |>)
  | close_runs s now w' pc' :
      cl_body s ≠ NotStarted → cl_body s ≠ BodyDone → close_step self now (cl_body s) (cl_w s) = (w', pc') →
      closing_step s (s <| cl_w := w' |> <| cl_body := pc' |>)
  | close_returns s i :
      cl_returned s !! i = Some false → cl_body s = BodyDone →
      closing_step s (s <| cl_returned ::= <[i := true]> |>)
  | hook_runs s w' pc' :
      cl_setter s ≠ HookDone → hook_step (Some hook) (cl_setter s) (cl_w s) = (w', pc') →
      closing_step s (s <| cl_w := w' |> <| cl_setter := pc' |>)
  | others_run s w' :
      elsewhere (cl_w s) w' → closing_step s (s <| cl_w := w' |>).

Inductive closing_reachable (s0 : Closing) : Closing → Prop :=
  | closing_init : closing_reachable s0 s0
  | closing_next s s' : closing_reachable s0 s → closing_step s s' → closing_reachable s0 s'.

Definition closing_start (s : Closing) : Prop :=
  CloseChan_closed (sh_cs (cl_w s)) = false ∧ closeHook (sh_cs (cl_w s)) = None ∧
  CSess (sh_sess (cl_w s)) = Some self ∧ SessChan_closed (sh_sess (cl_w s)) = false ∧
  sh_ran (cl_w s) = [] ∧ sh_panic (cl_w s) = false ∧
  cl_body s = NotStarted ∧ Forall (eq false) (cl_returned s) ∧ cl_setter s = HookStart.

(** Where the body stands decides which channels are closed, ... *)
Definition chan_closed_at (pc : close_pc) : bool :=
  match pc with NotStarted | AtDraining | AtRecord | AtDTLS | AtCloseChan => false | _ => true end.
Definition owned_at (pc : close_pc) (sess : Session) : Prop :=
  match pc with
  | NotStarted | AtDraining | AtRecord | AtDTLS | AtCloseChan | AtGuard | AtClearCSess =>
    CSess sess = Some self ∧ SessChan_closed sess = false
  | AtCloseSess => CSess sess = None ∧ SessChan_closed sess = false
  | _ => CSess sess = None ∧ SessChan_closed sess = true
  end.
(** ... and, with the registrant, who is to run the hook. *)
Definition hook_at (pc : close_pc) (setter : hook_pc) (w : Shared) : Prop :=
  match setter with
  | HookStart => closeHook (sh_cs w) = None ∧ sh_ran w = [] ∧ (∀ h, pc = AtRunHook h → h = None)
  | HookRun => closeHook (sh_cs w) = None ∧ sh_ran w = [] ∧ chan_closed_at pc = true ∧ (∀ h, pc = AtRunHook h → h = None)
  | HookDone =>
    (closeHook (sh_cs w) = None ∧ sh_ran w = [hook] ∧ chan_closed_at pc = true ∧ (∀ h, pc = AtRunHook h → h = None)) ∨
    (closeHook (sh_cs w) = Some hook ∧ sh_ran w = match pc with BodyDone => [hook] | _ => [] end ∧
     (∀ h, pc = AtRunHook h → h = Some hook))
  end.

Definition closing_inv (s : Closing) : Prop :=
  sh_panic (cl_w s) = false ∧ CloseChan_closed (sh_cs (cl_w s)) = chan_closed_at (cl_body s) ∧
  owned_at (cl_body s) (sh_sess (cl_w s)) ∧ hook_at (cl_body s) (cl_setter s) (cl_w s) ∧
  (true ∈ cl_returned s → cl_body s = BodyDone).

Lemma closing_inv_start s : closing_start s → closing_inv s.
Proof.
  intros (H1 & H2 & H3 & H4 & H5 & H6 & H7 & H8 & H9). unfold closing_inv. rewrite H6, H7, H9, H1. cbn.
  split_and!; try done. intros Ht. rewrite Forall_forall in H8. by specialize (H8 _ Ht).
Qed.

Definition before_hook (pc : close_pc) : bool :=
  match pc with AtRunHook _ | BodyDone => false | _ => true end.

Lemma hook_at_same pc pc' setter w w' :
  before_hook pc = true → before_hook pc' = true → (chan_closed_at pc = true → chan_closed_at pc' = true) →
  closeHook (sh_cs w') = closeHook (sh_cs w) → sh_ran w' = sh_ran w →
  hook_at pc setter w → hook_at pc' setter w'.
Proof.
  intros H1 H2 H3 H4 H5. assert (H6 : ∀ h, pc' ≠ AtRunHook h) by by intros h ->.
  unfold hook_at. rewrite H4, H5. destruct setter.
  - intros (? & ? & _). split_and!; [done..|]. by intros h ?%H6.
  - intros (? & ? & ? & _). split_and!; [auto..|]. by intros h ?%H6.
  - intros [(? & ? & ? & _)|(? & Hr & _)]; [left|right]; split_and!; auto; try (by intros h ?%H6).
    destruct pc, pc'; done.
Qed.

Lemma close_step_ok now pc w w' pc' setter :
  pc ≠ NotStarted → pc ≠ BodyDone → close_step self now pc w = (w', pc') →
  sh_panic w = false → CloseChan_closed (sh_cs w) = chan_closed_at pc → owned_at pc (sh_sess w) →
  hook_at pc setter w →
  sh_panic w' = false ∧ CloseChan_closed (sh_cs w') = chan_closed_at pc' ∧ owned_at pc' (sh_sess w') ∧
  hook_at pc' setter w'.
Proof.
  intros H1 H2 Hst Hp Hc Ho Hh. destruct (before_hook pc) eqn:Hb.
  - destruct pc; cbn in Hst, Hc, Ho; try done.
    + injection Hst as <- <-. split_and!; try done. by eapply hook_at_same, Hh.
    + injection Hst as <- <-. destruct (RecordClose_frame now (ActiveClose (sh_sess w)) "" "" None (sh_cs w)) as [E1 E2].
      unfold on_cs; cbn -[RecordClose]. rewrite E1. refine (conj _ (conj _ (conj Ho _))); [done..|]. by eapply hook_at_same, Hh.
    + injection Hst as <- <-. destruct (DtlsSession_Close_frame (sh_cs w)) as [E1 E2].
      destruct (DtlsConnected _); unfold on_cs; cbn -[DtlsSession_Close]; rewrite ?E1;
        (refine (conj _ (conj _ (conj Ho _))); [done..|by eapply hook_at_same, Hh]).
    + rewrite Hc in Hst. injection Hst as <- <-. split_and!; try done. by eapply hook_at_same, Hh.
    + rewrite bool_decide_eq_true_2 in Hst by naive_solver. injection Hst as <- <-.
      split_and!; try done. by eapply hook_at_same, Hh.
    + injection Hst as <- <-. split_and!; try naive_solver. by eapply hook_at_same, Hh.
    + rewrite (proj2 Ho) in Hst. injection Hst as <- <-. split_and!; try naive_solver. by eapply hook_at_same, Hh.
    + injection Hst as <- <-. split_and!; try naive_solver. by eapply hook_at_same, Hh.
    + injection Hst as <- <-. split_and!; try done.
      destruct setter; cbn in Hh |- *.
      * destruct Hh as (-> & ? & _). split_and!; try done. by intros h [= ->].
      * destruct Hh as (-> & ? & ? & _). split_and!; try done. by intros h [= ->].
      * destruct Hh as [(-> & ? & ? & _)|(-> & ? & _)]; [left|right]; (split_and!; [done..|]); by intros h [= ->].
  - destruct pc; try done. cbn in Hst. injection Hst as <- <-. split_and!; try done.
    destruct setter; cbn in Hh |- *.
    + destruct Hh as (? & -> & H). by rewrite (H _ eq_refl).
    + destruct Hh as (? & -> & ? & H). by rewrite (H _ eq_refl).
    + destruct Hh as [(? & -> & ? & H)|(? & -> & H)]; [left|right]; by rewrite (H _ eq_refl).
Qed.

Lemma hook_step_ok pc setter w w' setter' :
  hook_step (Some hook) setter w = (w', setter') → CloseChan_closed (sh_cs w) = chan_closed_at pc →
  hook_at pc setter w →
  CloseChan_closed (sh_cs w') = chan_closed_at pc ∧ sh_sess w' = sh_sess w ∧ sh_panic w' = sh_panic w ∧
  hook_at pc setter' w'.
Proof.
  intros Hst Hc Hh. destruct setter; cbn in Hst, Hh.
  - rewrite Hc in Hst. destruct (chan_closed_at pc) eqn:E; injection Hst as <- <-; cbn.
    + naive_solver.
    + split_and!; [done..|]. right. destruct Hh as (? & -> & ?). destruct pc; done.
  - injection Hst as <- <-. split_and!; [done..|]. left. destruct Hh as (? & Hr & ? & ?). cbn. by rewrite Hr.
  - injection Hst as <- <-. done.
Qed.

Lemma closing_inv_step s s' : closing_inv s → closing_step s s' → closing_inv s'.
Proof.
  intros (Hp & Hc & Ho & Hh & Hr) Hs. destruct Hs as [s i Hi Hb|s now w' pc' Hb1 Hb2 Hst|s i Hi Hb|s w' pc' Hb Hst|s w' He];
    unfold closing_inv; cbn.
  - rewrite Hb in *. refine (conj _ (conj _ (conj Ho (conj _ _)))); [done..| |intros Ht; by specialize (Hr Ht)].
    by eapply hook_at_same, Hh.
  - destruct (close_step_ok _ _ _ _ _ _ Hb1 Hb2 Hst Hp Hc Ho Hh) as (? & ? & ? & ?).
    repeat (split; [done|]). intros Ht. by specialize (Hr Ht).
  - rewrite Hb in *. by repeat (split; [done|]).
  - destruct (hook_step_ok _ _ _ _ _ Hst Hc Hh) as (? & E & Ep & ?). rewrite E, Ep. by repeat (split; [done|]).
  - destruct He as (E1 & E2 & E3 & E4 & E5 & E6). rewrite E1, E6. do 2 (split; [done|]). split; [|split; [|done]].
    + destruct (cl_body s); cbn in *; rewrite E3, E4; done.
    + destruct (cl_setter s); cbn in *; rewrite E2, E5; done.
Qed.

Lemma closing_invariant s0 s : closing_start s0 → closing_reachable s0 s → closing_inv s.
Proof. intros H0. induction 1; [by apply closing_inv_start|]. by eapply closing_inv_step. Qed.

(** The steps the callers and the registrant still have to take. *)
Definition body_left (pc : close_pc) : nat :=
  match pc with
  | NotStarted => 11 | AtDraining => 10 | AtRecord => 9 | AtDTLS => 8 | AtCloseChan => 7 | AtGuard => 6
  | AtClearCSess => 5 | AtCloseSess => 4 | AtClosed => 3 | AtReadHook => 2 | AtRunHook _ => 1 | BodyDone => 0
  end.
Definition waiting (l : list bool) : nat := length (filter (eq false) l).
Definition setter_left (pc : hook_pc) : nat := match pc with HookStart => 2 | HookRun => 1 | HookDone => 0 end.
Definition work (s : Closing) : nat := body_left (cl_body s) + waiting (cl_returned s) + setter_left (cl_setter s).

Lemma waiting_insert i l : l !! i = Some false → (waiting (<[i := true]> l) < waiting l)%nat.
Proof.
  intros Hi. assert (i < length l)%nat by by apply lookup_lt_is_Some; eauto.
  assert (E : waiting l = waiting (take i l ++ false :: drop (S i) l)) by by rewrite take_drop_middle.
  rewrite E, insert_take_drop by done.
  unfold waiting. rewrite !filter_app, !filter_cons, !length_app.
  rewrite decide_False, decide_True by done. cbn. lia.
Qed.

Lemma close_step_work now pc w w' pc' :
  pc ≠ NotStarted → pc ≠ BodyDone → close_step self now pc w = (w', pc') → (body_left pc' < body_left pc)%nat.
Proof.
  intros H1 H2 Hst. destruct pc; try done; cbn in Hst; try (injection Hst as <- <-; cbn; lia).
  destruct (bool_decide _); injection Hst as <- <-; cbn; lia.
Qed.

Lemma hook_step_work pc w w' pc' :
  pc ≠ HookDone → hook_step (Some hook) pc w = (w', pc') → (setter_left pc' < setter_left pc)%nat.
Proof.
  intros H1 Hst. destruct pc; try done; cbn in Hst; [|injection Hst as <- <-; cbn; lia].
  destruct (CloseChan_closed _); injection Hst as <- <-; cbn; lia.
Qed.

Lemma closing_progress s :
  false ∈ cl_returned s ∨ cl_setter s ≠ HookDone → ∃ s', closing_step s s' ∧ (work s' < work s)%nat.
Proof.
  intros [[i Hi]%list_elem_of_lookup|Hset].
  - destruct (decide (cl_body s = NotStarted)) as [Hb|Hb]; [|destruct (decide (cl_body s = BodyDone)) as [Hd|Hd]].
    + eexists; split; [by eapply close_called|]. unfold work; cbn -[body_left waiting setter_left]. rewrite Hb. cbn [body_left]. lia.
    + eexists; split; [by eapply close_returns|]. unfold work; cbn -[body_left waiting setter_left]. pose proof (waiting_insert _ _ Hi). lia.
    + destruct (close_step self "" (cl_body s) (cl_w s)) as [w' pc'] eqn:E.
      eexists; split; [by eapply close_runs|]. unfold work; cbn -[body_left waiting setter_left]. pose proof (close_step_work _ _ _ _ _ Hb Hd E). lia.
  - destruct (hook_step (Some hook) (cl_setter s) (cl_w s)) as [w' pc'] eqn:E.
    eexists; split; [by eapply hook_runs|]. unfold work; cbn -[body_left waiting setter_left]. pose proof (hook_step_work _ _ _ _ Hset E). lia.
Qed.

(** C17: however the calls of [Close], the registration of the hook and the rest
    of the connection interleave, no channel is closed twice and the hook runs
    at most once; when a [Close] and the registration are both back it has run
    exactly once, the session's channels are closed and the session points at
    no connection.  Nobody waits for ever: while a caller or the registrant is
    not back, one of them can take a step, and their steps are bounded by
    [work]. *)
Theorem close_hook_once s0 s :
  closing_start s0 → closing_reachable s0 s →
  sh_panic (cl_w s) = false ∧ (length (sh_ran (cl_w s)) ≤ 1)%nat ∧
  (true ∈ cl_returned s → cl_setter s = HookDone →
   sh_ran (cl_w s) = [hook] ∧ CloseChan_closed (sh_cs (cl_w s)) = true ∧
   CSess (sh_sess (cl_w s)) = None ∧ SessChan_closed (sh_sess (cl_w s)) = true) ∧
  (false ∈ cl_returned s ∨ cl_setter s ≠ HookDone → ∃ s', closing_step s s' ∧ (work s' < work s)%nat).
Proof.
  intros H0 Hreach. destruct (closing_invariant _ _ H0 Hreach) as (Hp & Hc & Ho & Hh & Hr).
  split_and!; [done| | |by apply closing_progress].
  - destruct (cl_setter s); cbn in Hh.
    + destruct Hh as (_ & -> & _). cbn; lia.
    + destruct Hh as (_ & -> & _). cbn; lia.
    + destruct Hh as [(_ & -> & _)|(_ & -> & _)]; [cbn; lia|]. destruct (cl_body s); cbn; lia.
  - intros Ht Hset. rewrite (Hr Ht) in *. rewrite Hset in Hh. cbn in Hh, Ho, Hc.
    destruct Hh as [(_ & -> & _)|(_ & -> & _)]; naive_solver.
Qed.

(** A schedule, executed. *)
Inductive choice := Call (i : nat) | Body | Return (i : nat) | Hook.

Definition choose (c : choice) (s : Closing) : Closing :=
  match c with
  | Call i => match cl_returned s !! i, cl_body s with
              | Some false, NotStarted => s <| cl_body := AtDraining |> | _, _ => s end
  | Body => match cl_body s with
            | NotStarted | BodyDone => s
            | pc => let '(w', pc') := close_step self "" pc (cl_w s) in s <| cl_w := w' |> <| cl_body := pc' |>
            end
  | Return i => match cl_returned s !! i, cl_body s with
                | Some false, BodyDone => s <| cl_returned ::= <[i := true]> |> | _, _ => s end
  | Hook => match cl_setter s with
            | HookDone => s
            | pc => let '(w', pc') := hook_step (Some hook) pc (cl_w s) in s <| cl_w := w' |> <| cl_setter := pc' |>
            end
  end.

Lemma choose_reachable s0 cs : closing_reachable s0 (foldl (flip choose) s0 cs).
Proof.
  induction cs as [|c cs IH] using rev_ind; [constructor|]. rewrite foldl_snoc. set (s := foldl _ _ cs) in *. clearbody s.
  assert (flip choose s c = s ∨ closing_step s (flip choose s c)) as [->|H]; [|done|by eapply closing_next].
  destruct c as [i| |i|]; unfold flip, choose.
  - destruct (cl_returned s !! i) as [[]|] eqn:E; [by left| |by left].
    destruct (cl_body s) eqn:Eb; try by left. right. by eapply close_called.
  - destruct (cl_body s) eqn:Eb; try (by left); right;
      (destruct (close_step self "" _ (cl_w s)) as [w' pc'] eqn:Es;
       apply (close_runs s "" w' pc'); rewrite Eb; [done|done|exact Es]).
  - destruct (cl_returned s !! i) as [[]|] eqn:E; [by left| |by left].
    destruct (cl_body s) eqn:Eb; try by left. right. by eapply close_returns.
  - destruct (cl_setter s) eqn:Eb; try (by left); right;
      (destruct (hook_step (Some hook) _ (cl_w s)) as [w' pc'] eqn:Es;
       apply (hook_runs s w' pc'); rewrite Eb; [done|exact Es]).
Qed.
End closing.

(** The headers of a small server, and the session they give. *)
Definition demo_header : Header := list_to_map
  [("X-Cstp-Address", ["10.9.0.2"]); ("X-Cstp-Netmask", ["255.255.255.0"]); ("X-Cstp-Mtu", ["1400"]);
   ("X-Cstp-Dpd", ["90"]); ("X-Cstp-Split-Include", ["10.0.0.0/255.0.0.0"])].
Definition demo_session : Session := mkSession "token" [] false None false.
Definition demo_new : Session * ConnSession := NewConnSession false (λ _, None) 7 demo_session demo_header.
Definition demo_closing : Closing :=
  mkClosing (mkShared demo_new.2 demo_new.1 [] false) NotStarted [false; false] HookStart.

(** Two callers; the hook comes between the close of the channel and the step
    that reads it. *)
Definition demo_schedule : list choice :=
  [Call 1; Body; Body; Body; Body; Hook; Body; Hook; Body; Body; Body; Body; Body; Return 0].

Lemma close_hook_once_witness :
  let s := foldl (flip (choose 7 3)) demo_closing demo_schedule in
  closing_start 7 demo_closing ∧ cl_returned s = [true; false] ∧ sh_ran (cl_w s) = [3]%nat ∧
  ∃ s', closing_step 7 3 s s' ∧ (work s' < work s)%nat.
Proof.
  intros s. assert (H0 : closing_start 7 demo_closing).
  { unfold closing_start. split_and!; try reflexivity. repeat constructor. }
  destruct (close_hook_once 7 3 demo_closing s H0 (choose_reachable 7 3 _ _)) as (_ & _ & H1 & H2).
  split_and!; [done|vm_compute; reflexivity| |].
  - apply H1; [|vm_compute; reflexivity]. apply (bool_decide_unpack _). vm_compute. exact I.
  - apply H2. left. apply (bool_decide_unpack _). vm_compute. exact I.
Defined.

(** ** The recorded cause *)

(** What workers report over the life of a connection, in the order in which
    they take the mutex. *)
Inductive report :=
  | Fault (now code transport : string) (err : option error)
  | Ended (now code transport : string) (err : option error)
  | LocalClose.       (* Connection.Disconnect sets ActiveClose *)

Definition report_step (s : Session * ConnSession) (r : report) : Session * ConnSession :=
  match r with
  | Fault now code transport err => (s.1, RecordTransportFault now code transport err s.2)
  | Ended now code transport err => (s.1, RecordClose now (ActiveClose s.1) code transport err s.2)
  | LocalClose => (s.1 <| ActiveClose := true |>, s.2)
  end.

(** The reference: all faults, and the first end. *)
Fixpoint faults_of (rs : list report) : list TransportFault :=
  match rs with
  | [] => []
  | Fault now code transport err :: rs => mkTransportFault code transport (diagnosticError err) now :: faults_of rs
  | _ :: rs => faults_of rs
  end.

Fixpoint cause_of (active : bool) (rs : list report) : option (string * string * string * string) :=
  match rs with
  | [] => None
  | Fault _ _ _ _ :: rs => cause_of active rs
  | LocalClose :: rs => cause_of true rs
  | Ended now code transport err :: _ =>
    Some (if active then ("local_requested", "local", "", now)
          else (if code == "" then "unknown_close" else code, transport, diagnosticError err, now))
  end.

Lemma take_str_len n s : (len (take_str n s) ≤ n)%nat.
Proof. revert s; induction n as [|n IH]; intros [|c s]; cbn; try lia. specialize (IH s). unfold len in *. lia. Qed.

Lemma diagnosticError_short err : (len (diagnosticError err) ≤ 512)%nat.
Proof.
  unfold diagnosticError. destruct err as [e|]; [|cbn; lia].
  destruct (Nat.ltb_spec 512 (len (error_msg e))); [apply take_str_len|done].
Qed.

Definition is_local (r : report) : bool := match r with LocalClose => true | _ => false end.

Lemma cause_of_snoc active rs r :
  cause_of active (rs ++ [r]) =
  match cause_of active rs with
  | Some x => Some x
  | None => cause_of (active || existsb is_local rs) [r]
  end.
Proof.
  revert active; induction rs as [|r0 rs IH]; intros active; [by rewrite orb_false_r|].
  destruct r0; cbn -[orb]; [by rewrite IH| |rewrite IH; by rewrite orb_true_r]; done.
Qed.

Lemma faults_of_app rs rs' : faults_of (rs ++ rs') = faults_of rs ++ faults_of rs'.
Proof. induction rs as [|[] rs IH]; cbn; [done|by rewrite IH|done|done]. Qed.

Lemma fresh_session NoDTLS post id sess h :
  let '(s, c) := NewConnSession NoDTLS post id sess h in
  ActiveClose s = false ∧ closeInfo c = None ∧ transportFaults c = [].
Proof.
  unfold NewConnSession. cbn -[split_byte header_Get header_Values].
  destruct (if _ == _ then _ else _) as [[inc exc]|]; [|done].
  destruct (inc == ""), (exc == ""); done.
Qed.

Definition error_short (f : TransportFault) : Prop := (len (sf_Error f) ≤ 512)%nat.

Definition cause_matches (cause : option (string * string * string * string)) (info : option CloseInfo) : Prop :=
  match cause, info with
  | None, None => True
  | Some (code, transport, err, time), Some i =>
    ci_Code i = code ∧ ci_Transport i = transport ∧ ci_Error i = err ∧ ci_Time i = time ∧ (len err ≤ 512)%nat
  | _, _ => False
  end.

Lemma RecordTransportFault_faults now code transport err c l :
  transportFaults c = take 8 l →
  transportFaults (RecordTransportFault now code transport err c) =
    take 8 (l ++ [mkTransportFault code transport (diagnosticError err) now]).
Proof.
  intros H. unfold RecordTransportFault, max_faults. destruct (Nat.leb_spec 8 (length (transportFaults c))) as [Hl|Hl].
  - rewrite H. rewrite H, length_take in Hl. by rewrite take_app_le by lia.
  - cbn. rewrite H. rewrite H, length_take in Hl. rewrite (take_ge l) by lia. by rewrite take_ge by (rewrite length_app; cbn; lia).
Qed.

Lemma report_inv s0 c0 rs :
  ActiveClose s0 = false → closeInfo c0 = None → transportFaults c0 = [] →
  let s := foldl report_step (s0, c0) rs in
  ActiveClose s.1 = existsb is_local rs ∧ transportFaults s.2 = take 8 (faults_of rs) ∧
  Forall error_short (transportFaults s.2) ∧ cause_matches (cause_of false rs) (closeInfo s.2).
Proof.
  intros F0 F1 F2. induction rs as [|r rs IH] using rev_ind; cbn zeta.
  { cbn. rewrite F0, F1, F2. done. }
  rewrite foldl_snoc, existsb_app, faults_of_app, cause_of_snoc. cbn [existsb].
  destruct (foldl report_step (s0, c0) rs) as [s c]. cbn [fst snd] in IH. destruct IH as (IH1 & IH2 & IH3 & IH4).
  destruct r as [now code transport err|now code transport err|]; cbn -[take orb cause_of];
    rewrite ?app_nil_r, ?orb_false_r, ?IH1, ?orb_true_r; (split; [done|]).
  - split; [by apply RecordTransportFault_faults|]. unfold RecordTransportFault. destruct (_ <=? _)%nat.
    + split; [done|]. by destruct (cause_of false rs).
    + split; [|by destruct (cause_of false rs)]. cbn. apply Forall_app; split; [done|].
      apply Forall_singleton, diagnosticError_short.
  - unfold RecordClose. destruct (closeInfo c) as [i|] eqn:Ei.
    + rewrite Ei. split_and!; [done..|]. by destruct (cause_of false rs).
    + destruct (cause_of false rs) as [[[[? ?] ?] ?]|]; [done|]. cbn [cause_of orb].
      destruct (existsb is_local rs); cbn; (split_and!; try done); [cbn; lia|apply diagnosticError_short].
  - split_and!; [done..|]. by destruct (cause_of false rs).
Qed.

(** C18: the session reports the first cause recorded, as a local request when
    the client had asked for the disconnect by then, and the first eight
    transport faults in order, those after the close included; later causes
    and faults change neither.  No error text is longer than 512 bytes. *)
Theorem close_cause_first_wins NoDTLS post id sess h rs now :
  let '(sess', c) := foldl report_step (NewConnSession NoDTLS post id sess h) rs in
  CloseInfo_ now c =
    match cause_of false rs with
    | None => mkCloseInfo "unknown_close" "" "" now []
    | Some (code, transport, err, time) => mkCloseInfo code transport err time (take 8 (faults_of rs))
    end ∧
  transportFaults c = take 8 (faults_of rs) ∧
  Forall error_short (transportFaults c) ∧ (len (ci_Error (CloseInfo_ now c)) ≤ 512)%nat.
Proof.
  pose proof (fresh_session NoDTLS post id sess h) as F.
  destruct (NewConnSession NoDTLS post id sess h) as [s0 c0]. cbn beta iota in F. destruct F as (F0 & F1 & F2).
  pose proof (report_inv s0 c0 rs F0 F1 F2) as H. destruct (foldl report_step (s0, c0) rs) as [s c].
  cbn [fst snd] in H. destruct H as (_ & Hf & Hs & Hc). split_and!; [|done|done|].
  - unfold CloseInfo_. destruct (cause_of false rs) as [[[[code transport] err] time]|], (closeInfo c) as [i|]; try done.
    rewrite <-Hf. destruct Hc as (<- & <- & <- & <- & _). by destruct i.
  - unfold CloseInfo_. destruct (cause_of false rs) as [[[[code transport] err] time]|], (closeInfo c) as [i|]; try done; cbn; [|lia].
    by destruct Hc as (_ & _ & -> & _ & ?).
Qed.

(** ** Probes before deadlines *)

Lemma seconds_id n : 0 ≤ n < 2 ^ 33 → seconds n = n * second.
Proof. intros H. unfold seconds, second. apply wrap64_id. lia. Qed.

Lemma dpd_interval_eq tls dtls :
  0 ≤ tls < 2 ^ 32 → 0 ≤ dtls < 2 ^ 32 →
  dpd_interval tls dtls = Z.max 10 (if dtls =? 0 then tls - 5 else Z.min tls dtls - 5).
Proof.
  intros H1 H2. unfold dpd_interval, utils_Min. cbn [foldl].
  destruct (Z.eqb_spec dtls 0) as [->|Hd]; cbn [negb andb].
  - rewrite wrap64_id by lia. destruct (Z.ltb_spec (tls - 5) 10); lia.
  - destruct (Z.ltb_spec dtls tls); rewrite wrap64_id by lia;
      [destruct (Z.ltb_spec (dtls - 5) 10)|destruct (Z.ltb_spec (tls - 5) 10)]; lia.
Qed.

Lemma read_dead_eq adv : 0 ≤ adv < 2 ^ 32 → read_dead adv = (if adv =? 0 then 35 else adv + 5) * second.
Proof.
  intros H. unfold read_dead, EffectiveDPD, defaultDPDSeconds.
  destruct (Z.eqb_spec adv 0) as [->|Ha].
  - reflexivity.
  - rewrite (proj2 (Z.leb_gt _ _)) by lia. rewrite wrap64_id by lia. apply seconds_id. lia.
Qed.

(** For advertised intervals below 2^32 seconds the probe timer starts, with
    a period of at least ten seconds; a probe leaves before an idle read times
    out on the TLS channel exactly when the server advertised nothing or at
    least six seconds, and on the DTLS channel exactly when it advertised at
    least six seconds there, or nothing there and less than forty seconds for
    TLS. *)
Theorem dpd_probe_before_deadline c :
  0 ≤ TLSDpdTime c < 2 ^ 32 → 0 ≤ DTLSDpdTime c < 2 ^ 32 →
  ∃ period, dpd_ticker c = Some period ∧ 10 * second ≤ period ∧
    (period < read_dead (TLSDpdTime c) ↔ TLSDpdTime c = 0 ∨ 6 ≤ TLSDpdTime c) ∧
    (period < read_dead (DTLSDpdTime c) ↔ 6 ≤ DTLSDpdTime c ∨ (DTLSDpdTime c = 0 ∧ TLSDpdTime c < 40)).
Proof.
  intros H1 H2. set (tls := TLSDpdTime c) in *. set (dtls := DTLSDpdTime c) in *.
  unfold dpd_ticker. fold tls dtls. rewrite dpd_interval_eq, !read_dead_eq by done.
  set (d := Z.max 10 _). assert (Hd : 10 ≤ d < 2 ^ 32) by (unfold d; destruct (dtls =? 0); lia).
  rewrite seconds_id by lia. rewrite (proj2 (Z.ltb_lt _ _)) by (unfold second; lia).
  exists (d * second). split; [done|]. unfold second. split; [lia|]. unfold d.
  destruct (Z.eqb_spec dtls 0), (Z.eqb_spec tls 0); lia.
Qed.

Definition demo_dpd (tls : string) : ConnSession :=
  (NewConnSession false (λ _, None) 7 demo_session {["X-Cstp-Dpd" := [tls]]}).2.

(** A server that advertises 90 seconds for TLS and nothing for DTLS: the
    probes come every 85 seconds, the DTLS read gives up after 35. *)
Lemma dpd_probe_before_deadline_witness :
  ∃ period, dpd_ticker (demo_dpd "90") = Some period ∧ period < read_dead 90 ∧ ¬ period < read_dead 0.
Proof.
  destruct (dpd_probe_before_deadline (demo_dpd "90")) as (period & Hp & _ & H1 & H2);
    [vm_compute; split; congruence..|].
  exists period. split_and!; [exact Hp| |].
  - apply H1. right. vm_compute. congruence.
  - intros H. apply H2 in H. vm_compute in H. destruct H as [H|[_ H]]; congruence.
Defined.

(** A server that advertises a dead-peer interval of 9223372042 seconds
    makes the probe interval overflow to a negative period, for which the
    ticker panics: the goroutine takes the daemon down. *)
Lemma dpd_timer_overflow :
  TLSDpdTime (demo_dpd "9223372042") = 9223372042 ∧ dpd_ticker (demo_dpd "9223372042") = None.
Proof. split; vm_compute; reflexivity. Qed.
