(* ===== verification/DynRoutes.v ===== *)
(** * Dynamic split routes and the network configuration of a session
    (src/internal/anyconnect/tunnel/tun.go, utils/utils.go)

    With domain-based split tunneling every DNS answer that comes in is read:
    the addresses of a listed domain become host routes for as long as the
    answer lives.  Decoding the packet is the gopacket library's part; what it
    finds is an argument here.  A [sync.Map] is a finite map; the order in
    which its [Range] goes is unspecified, and that of [map_to_list] stands for
    one such order.  Times are in nanoseconds. *)

From S2P Require Import Prelude GoStrings NetIP OsNet Buffer Session.

Open Scope go_scope.
Open Scope Z_scope.

(** ** Names *)

(** [strings.ToLower] as far as ASCII results go: the Kelvin sign (E2 84 AA)
    and the dotted capital I (C4 B0) are the two characters outside ASCII whose
    lower case is in it. *)
Fixpoint fold_lower (s : string) : string :=
  match s with
  | EmptyString => EmptyString
  | String a r =>
    match r with
    | String b r' =>
      if bool_decide (nat_of_ascii a = 0xC4 ∧ nat_of_ascii b = 0xB0)%nat then String "i" (fold_lower r') else
      match r' with
      | String c r'' =>
        if bool_decide (nat_of_ascii a = 0xE2 ∧ nat_of_ascii b = 0x84 ∧ nat_of_ascii c = 0xAA)%nat
        then String "k" (fold_lower r'')
        else String (lower_byte a) (fold_lower r)
      | EmptyString => String (lower_byte a) (fold_lower r)
      end
    | EmptyString => String (lower_byte a) (fold_lower r)
    end
  end.

Definition canonical_name (s : string) : string := TrimSuffix (fold_lower (TrimSpace s)) ".".

(** [InArrayGeneric]: [str] is a listed domain or inside one. *)
Fixpoint in_domains (arr : list string) (str : string) : bool :=
  match arr with
  | [] => false
  | d :: arr =>
    let d := canonical_name d in
    if (d != "") && ((str == d) || HasSuffix str ("." +:+ d)) then true else in_domains arr str
  end.
Definition InArrayGeneric (arr : list string) (str : string) : bool := in_domains arr (canonical_name str).

(** The bytes of a name: past ASCII every rune is refused, and so is every
    byte of its encoding. *)
Definition dns_byte (c : ascii) : bool :=
  let n := nat_of_ascii c in
  ((97 <=? n)%nat && (n <=? 122)%nat) || ((48 <=? n)%nat && (n <=? 57)%nat) || (n =? 45)%nat || (n =? 95)%nat.

Definition label_ok (label : string) : bool :=
  (label != "") && negb (63 <? len label)%nat && negb (HasPrefix label "-") && negb (HasSuffix label "-") &&
  forallb dns_byte (String.list_ascii_of_string label).

Definition normalizeDNSName (raw : string) : option string :=
  let name := canonical_name raw in
  if (name == "") || (253 <? len name)%nat then None
  else if forallb label_ok (split_byte name ".") then Some name else None.

(** ** DNS answers *)

Record dnsQuestion := mkQuestion { q_Name : string; q_Type : Z; q_Class : Z }.
Record dnsAnswer := mkAnswer {
  a_Name : string; a_Type : Z; a_Class : Z; a_CNAME : string; a_IP : option (list Z); a_TTL : Z;
}.
Record dnsMessage := mkMessage { m_QR : bool; m_Questions : list dnsQuestion; m_Answers : list dnsAnswer }.

Definition DNSTypeA : Z := 1.
Definition DNSTypeCNAME : Z := 5.
Definition DNSClassIN : Z := 1.

Definition minimumDynamicRouteTTL : Z := 30 * second.
Definition maximumDynamicRouteTTL : Z := 3600 * second.
Definition maximumDynamicRoutes : nat := 4096.

(** [netip.AddrFromSlice]. *)
Definition AddrFromSlice (b : list Z) : option Addr :=
  match length b with
  | 4%nat => Some (Addr4 (foldl (λ acc x, acc * 256 + x) 0 b))
  | 16%nat => Some (Addr6 (foldl (λ acc x, acc * 256 + x) 0 b) "")
  | _ => None
  end.

(** The first loop over the answers: the names the question leads to. *)
Definition follow_cname (allowed : gset string) (answer : dnsAnswer) : gset string :=
  if negb (a_Class answer =? DNSClassIN) then allowed else
  match normalizeDNSName (a_Name answer) with
  | Some name =>
    if negb (bool_decide (name ∈ allowed)) || negb (a_Type answer =? DNSTypeCNAME) then allowed
    else match normalizeDNSName (a_CNAME answer) with
         | Some target => {[target]} ∪ allowed
         | None => allowed
         end
  | None => allowed
  end.

(** The second: one answer that gives an address, with its time to live. *)
Definition answer_address (allowed : gset string) (answer : dnsAnswer) : option (string * Z) :=
  if negb (a_Class answer =? DNSClassIN) || negb (a_Type answer =? DNSTypeA) then None else
  ip ← a_IP answer;
  name ← normalizeDNSName (a_Name answer);
  if negb (bool_decide (name ∈ allowed)) then None else
  addr ← AddrFromSlice ip;
  if negb (Is4 (Unmap addr)) then None else
  Some (addr_string (Unmap addr), a_TTL answer * second).

Definition gather_addresses (allowed : gset string) (answers : list dnsAnswer) : list string * Z :=
  foldl (λ '(addresses, ttl) answer,
    match answer_address allowed answer with
    | Some (a, answerTTL) => (addresses ++ [a], if answerTTL <? ttl then answerTTL else ttl)
    | None => (addresses, ttl)
    end) ([], maximumDynamicRouteTTL) answers.

(** ** The tables *)

Definition parseDynamicAddrs (lease : dynamicRouteLease) : list Addr :=
  match ParseAddrs (lease_Addresses lease) with inr addrs => addrs | inl _ => [] end.

Definition table_addrs (skip : option string) (table : gmap string dynamicRouteLease) : list string :=
  kv ← map_to_list (filter (λ kv, Some kv.1 ≠ skip) table); addr_string <$> parseDynamicAddrs kv.2.

Definition prospectiveDynamicRouteCount (c : ConnSession) (query : string) (addresses : list string) : nat :=
  size (list_to_set (table_addrs (Some query) (DynamicSplitIncludeResolved c) ++
                     table_addrs (Some query) (DynamicSplitExcludeResolved c) ++ addresses) : gset string).

(** [recordNetworkHealth]: the newest report always gets in; a full channel
    loses its oldest.  Each round of the loop removes one report, so as many
    rounds as the channel holds are enough ([health_rounds]). *)
Fixpoint health_rounds (fuel : nat) (err : option error) (queue : list (option error)) : option (list (option error)) :=
  match try_send network_errors_capacity err queue with
  | Some queue => Some queue
  | None => match fuel with
            | 0%nat => None
            | S fuel => health_rounds fuel err (tail queue)
            end
  end.

Definition recordNetworkHealth (err : option error) (c : ConnSession) : ConnSession :=
  match health_rounds (length (NetworkErrors c)) err (NetworkErrors c) with
  | Some queue => c <| NetworkErrors := queue |>
  | None => c
  end.

Definition limit_error : error := ErrText "dynamic route limit 4096 exceeded".

(** [dynamicSplitRoutes]: [dns] is the DNS layer of the packet, when it has
    one. *)
Definition dynamicSplitRoutes (now : Z) (stamp : string) (dns : option dnsMessage) (c : ConnSession) : ConnSession * bool :=
  match dns with
  | None => (c, false)
  | Some dns =>
    match m_Questions dns with
    | [question] =>
      if negb (m_QR dns) then (c, false)
      else if negb (q_Type question =? DNSTypeA) || negb (q_Class question =? DNSClassIN) then (c, false)
      else
        match normalizeDNSName (q_Name question) with
        | None => (RecordTransportFault stamp "dynamic_route_dns_invalid" "network"
                     (Some (ErrText "invalid DNS question name")) c, false)
        | Some query =>
          let include := InArrayGeneric (DynamicSplitIncludeDomains c) query in
          let exclude := negb include && InArrayGeneric (DynamicSplitExcludeDomains c) query in
          if negb include && negb exclude then (c, false)
          else
            let allowedNames := foldl follow_cname {[query]} (m_Answers dns) in
            let '(addresses, ttl) := gather_addresses allowedNames (m_Answers dns) in
            if (length addresses =? 0)%nat then (c, false)
            else
              let ttl := if ttl <? minimumDynamicRouteTTL then minimumDynamicRouteTTL else ttl in
              let ttl := if maximumDynamicRouteTTL <? ttl then maximumDynamicRouteTTL else ttl in
              if (maximumDynamicRoutes <? prospectiveDynamicRouteCount c query addresses)%nat
              then (recordNetworkHealth (Some limit_error)
                      (RecordTransportFault stamp "dynamic_route_limit" "network" (Some limit_error) c), false)
              else
                let lease := mkLease addresses (now + ttl) in
                (if exclude then c <| DynamicSplitExcludeResolved ::= <[query := lease]> |>
                 else c <| DynamicSplitIncludeResolved ::= <[query := lease]> |>, true)
        end
    | _ => (c, false)
    end
  end.

Definition expire_table (now : Z) (table : gmap string dynamicRouteLease) : gmap string dynamicRouteLease :=
  filter (λ kv, now < lease_ExpiresAt kv.2) table.

Definition expireDynamicRoutes (now : Z) (c : ConnSession) : ConnSession * bool :=
  let c' := c <| DynamicSplitIncludeResolved ::= expire_table now |>
              <| DynamicSplitExcludeResolved ::= expire_table now |> in
  (c', negb (bool_decide (DynamicSplitIncludeResolved c' = DynamicSplitIncludeResolved c ∧
                          DynamicSplitExcludeResolved c' = DynamicSplitExcludeResolved c))).

Definition collectDynamicRoutes (c : ConnSession) : DynamicRoutes :=
  let gather table := kv ← map_to_list table; parseDynamicAddrs kv.2 in
  mkDynamicRoutes (gather (DynamicSplitIncludeResolved c)) (gather (DynamicSplitExcludeResolved c)).

Definition dynamicRouteAddressCount (c : ConnSession) : nat :=
  let routes := collectDynamicRoutes c in (length (dyn_Include routes) + length (dyn_Exclude routes))%nat.

(** [reconcileDynamicRoutes]: [answer] is what the network manager, when there
    is one, returns for the routes it is given. *)
Definition reconcileDynamicRoutes (stamp : string) (manager : option (DynamicRoutes → option error)) (c : ConnSession) : ConnSession :=
  match manager with
  | None => c
  | Some set_dynamic =>
    match set_dynamic (collectDynamicRoutes c) with
    | Some err => recordNetworkHealth (Some err) (RecordTransportFault stamp "dynamic_route_reconcile" "network" (Some err) c)
    | None => recordNetworkHealth None c
    end
  end.

(** One turn of [dynamicRouteWorker] that is not its end. *)
Inductive dynamic_turn :=
  | DnsPacket (dns : option dnsMessage)
  | Tick.

Definition dynamic_worker_turn (now : Z) (stamp : string) (manager : option (DynamicRoutes → option error))
    (turn : dynamic_turn) (c : ConnSession) : ConnSession :=
  let '(c, changed) := match turn with
                       | DnsPacket dns => dynamicSplitRoutes now stamp dns c
                       | Tick => expireDynamicRoutes now c
                       end in
  if changed : bool then reconcileDynamicRoutes stamp manager c else c.

(** ** The network configuration of a session *)

Definition parseServerAddress (raw : string) : error + Addr :=
  let raw := TrimSpace raw in
  if raw == "" then inr AddrNone
  else match ParseAddr raw with
       | None => inl (ErrWrap ("invalid VPN server address " +:+ quote raw +:+ ": ") (ErrText "ParseAddr") "")
       | Some addr => inr (Unmap addr)
       end.

Definition appendUniquePrefix (prefixes : list Prefix) (prefix : Prefix) : list Prefix :=
  let prefix := Masked prefix in
  if existsb (λ p, bool_decide (Masked p = prefix)) prefixes then prefixes else prefixes ++ [prefix].

(** [local]: what the operating system answers for the physical interface. *)
Definition buildOSNetConfig (local : error + LocalInterface) (c : ConnSession) : error + Config :=
  match PrefixFromIPMask (VPNAddress c) (VPNMask c) with
  | inl err => inl err
  | inr vpnPrefix =>
  match parseServerAddress (ServerAddress c) with
  | inl err => inl err
  | inr serverAddress =>
  match ParsePrefixes (SplitInclude c) with
  | inl err => inl err
  | inr include =>
  match ParsePrefixes (SplitExclude c) with
  | inl err => inl err
  | inr exclude =>
  let include := if UseDefaultRouteWhenEmpty c && (length include =? 0)%nat
                 then include ++ [PrefixFrom IPv4Unspecified 0] else include in
  let exclude := if IsValid serverAddress
                 then appendUniquePrefix exclude (PrefixFrom serverAddress (BitLen serverAddress)) else exclude in
  match ParseAddrs (DNS c) with
  | inl err => inl err
  | inr dns =>
  let finish underlay gateway index :=
    inr (mkConfig (TunName c) 0 vpnPrefix (MTU c) underlay serverAddress gateway index include exclude dns) in
  if IsValid (us_LocalIPv4 (Underlay c))
  then finish (Underlay c) (us_Gateway (Underlay c)) (us_GatewayInterface (Underlay c))
  else match local with
       | inl err => inl (ErrWrap "resolve physical underlay: " err "")
       | inr info =>
         let gateway := if li_Gateway info == "" then AddrNone
                        else match ParseAddr (li_Gateway info) with Some a => Unmap a | None => AddrNone end in
         finish zero_snapshot gateway (li_InterfaceIndex info)
       end
  end end end end end.

(** ** IPv4 texts *)

(** No character that [TrimSpace] removes begins or ends with a digit. *)
Lemma digit_no_space c s : is_digit c = true → no_prefix white_space (String c s) ∧ no_prefix (rev_str <$> white_space) (String c s).
Proof.
  intros Hc.
  assert (H : Forall (λ w, match w with String d _ => is_digit d = false | "" => False end) (white_space ++ (rev_str <$> white_space))).
  { apply Forall_forall. intros w Hw.
    assert (Hall : forallb (λ w, match w with String d _ => negb (is_digit d) | "" => false end)
                     (white_space ++ (rev_str <$> white_space)) = true) by (vm_compute; reflexivity).
    rewrite forallb_forall in Hall. specialize (Hall w). rewrite <-list_elem_of_In in Hall.
    specialize (Hall Hw). destruct w; [done|]. by apply negb_true_iff. }
  apply Forall_app in H as [H1 H2].
  assert (Hgen : ∀ ws, Forall (λ w, match w with String d _ => is_digit d = false | "" => False end) ws →
                       no_prefix ws (String c s)).
  { intros ws Hws. eapply Forall_impl; [exact Hws|]. intros [|d w] Hd; [done|]. cbn beta iota in Hd |- *.
    rewrite HasPrefix_cons. destruct (Ascii.ascii_dec d c) as [->|]; congruence. }
  by split; apply Hgen.
Qed.

Definition octet_text (s : string) : Prop :=
  (∃ c r, s = String c r ∧ is_digit c = true) ∧ (∃ c r, rev_str s = String c r ∧ is_digit c = true).

Lemma octet_text_Itoa o : 0 ≤ o < 256 → octet_text (Itoa o).
Proof.
  intros Ho. unfold octet_text.
  assert (H : forallb (λ n, match Itoa (Z.of_nat n), rev_str (Itoa (Z.of_nat n)) with
                            | String c _, String d _ => is_digit c && is_digit d | _, _ => false end) (seq 0 256) = true)
    by (vm_compute; reflexivity).
  rewrite forallb_forall in H. specialize (H (Z.to_nat o)). rewrite in_seq, Z2Nat.id in H by lia.
  specialize (H ltac:(lia)). destruct (Itoa o) as [|c r]; [done|].
  destruct (rev_str (String c r)) as [|d r'] eqn:E; [done|]. apply andb_true_iff in H as [? ?]. split; eauto.
Qed.

Lemma v4_string_trimmed v : trimmed (v4_string v) ∧ v4_string v ≠ "".
Proof.
  unfold v4_string. destruct (octet_text_Itoa _ (octet_range v 0)) as [(c & r & E & Hc) _].
  destruct (octet_text_Itoa _ (octet_range v 3)) as [_ (d & r' & E' & Hd)].
  unfold trimmed. rewrite !rev_str_app, E, E', !str_app_cons.
  split; [|done]. split; apply digit_no_space; done.
Qed.

Definition v4_text (s : string) : Prop := ∃ v, 0 ≤ v < 2 ^ 32 ∧ s = v4_string v.

Lemma ParseAddrs_v4_texts l :
  Forall v4_text l → ∃ addrs, ParseAddrs l = inr addrs ∧ addr_string <$> addrs = l.
Proof.
  induction 1 as [|s l (v & Hv & ->) _ (addrs & IH & Hs)]; [by exists []|].
  destruct (v4_string_trimmed v) as [Ht Hne].
  exists (Addr4 v :: addrs). cbn. rewrite (TrimSpace_id _ Ht), (proj2 (eqb_false _ _) Hne), ParseAddr_v4_string, IH by done.
  split; [done|]. by rewrite Hs.
Qed.

Lemma parse_lease l e : Forall v4_text l → addr_string <$> parseDynamicAddrs (mkLease l e) = l.
Proof. intros H. unfold parseDynamicAddrs. cbn. by destruct (ParseAddrs_v4_texts l H) as (addrs & -> & ?). Qed.

(** ** What an answer may install *)

Definition is_byte (b : Z) : Prop := 0 ≤ b < 256.
Definition answer_bytes (a : dnsAnswer) : Prop := ∀ ip, a_IP a = Some ip → Forall is_byte ip.

(** The names a chain of CNAME records leads to from [query]. *)
Inductive leads_to (answers : list dnsAnswer) (query : string) : string → Prop :=
  | leads_here : leads_to answers query query
  | leads_on a name target :
      leads_to answers query name → a ∈ answers → a_Class a = DNSClassIN → a_Type a = DNSTypeCNAME →
      normalizeDNSName (a_Name a) = Some name → normalizeDNSName (a_CNAME a) = Some target →
      leads_to answers query target.

(** [s] is the text of an address record of such a name. *)
Definition address_of (answers : list dnsAnswer) (query s : string) : Prop :=
  ∃ a name ip addr, a ∈ answers ∧ a_Class a = DNSClassIN ∧ a_Type a = DNSTypeA ∧
    normalizeDNSName (a_Name a) = Some name ∧ leads_to answers query name ∧
    a_IP a = Some ip ∧ AddrFromSlice ip = Some addr ∧ Is4 (Unmap addr) = true ∧ s = addr_string (Unmap addr).

Lemma follow_cname_leads answers query a allowed :
  a ∈ answers → (∀ n, n ∈ allowed → leads_to answers query n) →
  ∀ n, n ∈ follow_cname allowed a → leads_to answers query n.
Proof.
  intros Ha H n. unfold follow_cname.
  destruct (Z.eqb_spec (a_Class a) DNSClassIN); cbn [negb]; [|apply H].
  destruct (normalizeDNSName (a_Name a)) as [name|] eqn:En; [|apply H].
  case_bool_decide as Hin; cbn [negb orb]; [|apply H].
  destruct (Z.eqb_spec (a_Type a) DNSTypeCNAME); cbn [negb]; [|apply H].
  destruct (normalizeDNSName (a_CNAME a)) as [target|] eqn:Et; [|apply H].
  intros [->%elem_of_singleton|Hn]%elem_of_union; [|by apply H]. eapply leads_on; eauto.
Qed.

Lemma allowed_names_lead answers query :
  ∀ n, n ∈ foldl follow_cname {[query]} answers → leads_to answers query n.
Proof.
  assert (Hgen : ∀ l allowed, l ⊆ answers → (∀ n, n ∈ allowed → leads_to answers query n) →
            ∀ n, n ∈ foldl follow_cname allowed l → leads_to answers query n).
  { induction l as [|a l IH]; intros allowed Hl H; [done|]. cbn.
    apply IH; [set_solver|]. apply follow_cname_leads; [set_solver|done]. }
  apply Hgen; [done|]. intros n ->%elem_of_singleton. constructor.
Qed.

Lemma fold_bytes_bound b acc :
  Forall is_byte b → 0 ≤ acc → 0 ≤ foldl (λ acc x, acc * 256 + x) acc b < (acc + 1) * 256 ^ Z.of_nat (length b).
Proof.
  intros Hb. revert acc. induction Hb as [|x b Hx _ IH]; intros acc Hacc; cbn [foldl length]; [cbn; lia|].
  destruct (IH (acc * 256 + x)) as [H1 H2]; [unfold is_byte in Hx; lia|]. split; [done|].
  rewrite Nat2Z.inj_succ, Z.pow_succ_r by lia. unfold is_byte in Hx.
  eapply Z.lt_le_trans; [exact H2|]. assert (0 < 256 ^ Z.of_nat (length b)) by lia. nia.
Qed.

Lemma unmapped_text ip addr :
  Forall is_byte ip → AddrFromSlice ip = Some addr → Is4 (Unmap addr) = true → v4_text (addr_string (Unmap addr)).
Proof.
  intros Hb Ha H4. unfold AddrFromSlice in Ha.
  destruct (length ip) as [|[|[|[|[|n]]]]] eqn:El; try done.
  - injection Ha as <-. pose proof (fold_bytes_bound ip 0 Hb ltac:(lia)) as H. rewrite El in H.
    eexists; split; [|reflexivity]. cbn in H |- *. lia.
  - do 12 (destruct n as [|n]; try done). injection Ha as <-. revert H4. unfold Unmap.
    destruct (Is4In6 _); [|done]. intros _. cbn.
    eexists; split; [|reflexivity]. change 4294967295 with (Z.ones 32). rewrite Z.land_ones by lia.
    apply Z.mod_pos_bound. lia.
Qed.

Lemma gather_addresses_spec allowed answers :
  let '(addresses, ttl) := gather_addresses allowed answers in
  (∀ s, s ∈ addresses → ∃ a t, a ∈ answers ∧ answer_address allowed a = Some (s, t)) ∧ ttl ≤ maximumDynamicRouteTTL.
Proof.
  unfold gather_addresses. induction answers as [|a answers IH] using rev_ind; [split; [set_solver|done]|].
  rewrite foldl_snoc. destruct (foldl _ _ answers) as [addresses ttl]. destruct IH as [IH1 IH2].
  destruct (answer_address allowed a) as [[s t]|] eqn:E.
  - split.
    + intros s' [Hs| ->%list_elem_of_singleton]%elem_of_app.
      * destruct (IH1 _ Hs) as (a' & t' & ? & ?). exists a', t'. split; [set_solver|done].
      * exists a, t. split; [set_solver|done].
    + destruct (Z.ltb_spec t ttl); lia.
  - split; [|done]. intros s Hs. destruct (IH1 _ Hs) as (a' & t' & ? & ?). exists a', t'. split; [set_solver|done].
Qed.

Lemma answer_address_sound answers query a s t :
  a ∈ answers → answer_address (foldl follow_cname {[query]} answers) a = Some (s, t) → address_of answers query s.
Proof.
  intros Ha. unfold answer_address.
  destruct (Z.eqb_spec (a_Class a) DNSClassIN); cbn [negb orb]; [|done].
  destruct (Z.eqb_spec (a_Type a) DNSTypeA); cbn [negb]; [|done].
  intros (ip & Hip & H)%bind_Some. apply bind_Some in H as (name & Hn & H).
  case_bool_decide as Hin; cbn [negb] in H; [|done]. apply bind_Some in H as (addr & Haddr & H).
  destruct (Is4 (Unmap addr)) eqn:H4; cbn [negb] in H; [|done]. injection H as <- _.
  exists a, name, ip, addr. split_and!; try done. by apply allowed_names_lead.
Qed.

Lemma address_of_text answers query s :
  Forall answer_bytes answers → address_of answers query s → v4_text s.
Proof.
  intros Hb (a & name & ip & addr & Ha & _ & _ & _ & _ & Hip & Haddr & H4 & ->).
  rewrite Forall_forall in Hb. by eapply unmapped_text; [apply (Hb a)| |].
Qed.

(** The two ways in which a packet leaves the tables: as they were, or with a
    lease for a listed name. *)
Definition tables (c : ConnSession) : gmap string dynamicRouteLease * gmap string dynamicRouteLease * list string * list string :=
  (DynamicSplitIncludeResolved c, DynamicSplitExcludeResolved c, DynamicSplitIncludeDomains c, DynamicSplitExcludeDomains c).

Lemma recordNetworkHealth_tables err c : tables (recordNetworkHealth err c) = tables c.
Proof. unfold recordNetworkHealth. by destruct (health_rounds _ _ _). Qed.

Lemma RecordTransportFault_tables now code transport err c : tables (RecordTransportFault now code transport err c) = tables c.
Proof. unfold RecordTransportFault. by destruct (_ <=? _)%nat. Qed.

Lemma clamped_ttl ttl :
  let t1 := if ttl <? minimumDynamicRouteTTL then minimumDynamicRouteTTL else ttl in
  let t2 := if maximumDynamicRouteTTL <? t1 then maximumDynamicRouteTTL else t1 in
  minimumDynamicRouteTTL ≤ t2 ≤ maximumDynamicRouteTTL.
Proof.
  assert (minimumDynamicRouteTTL < maximumDynamicRouteTTL) by (vm_compute; done). cbn zeta.
  destruct (Z.ltb_spec ttl minimumDynamicRouteTTL).
  - destruct (Z.ltb_spec maximumDynamicRouteTTL minimumDynamicRouteTTL); lia.
  - destruct (Z.ltb_spec maximumDynamicRouteTTL ttl); lia.
Qed.

Lemma dynamicSplitRoutes_cases now stamp dns c :
  let '(c', changed) := dynamicSplitRoutes now stamp dns c in
  (changed = false ∧ tables c' = tables c) ∨
  (changed = true ∧ ∃ m query addresses ttl, dns = Some m ∧
    (∀ s, s ∈ addresses → address_of (m_Answers m) query s) ∧ addresses ≠ [] ∧
    minimumDynamicRouteTTL ≤ ttl ≤ maximumDynamicRouteTTL ∧
    (prospectiveDynamicRouteCount c query addresses ≤ maximumDynamicRoutes)%nat ∧
    let lease := mkLease addresses (now + ttl) in
    (InArrayGeneric (DynamicSplitIncludeDomains c) query = true ∧ c' = c <| DynamicSplitIncludeResolved ::= <[query := lease]> |> ∨
     InArrayGeneric (DynamicSplitIncludeDomains c) query = false ∧ InArrayGeneric (DynamicSplitExcludeDomains c) query = true ∧
     c' = c <| DynamicSplitExcludeResolved ::= <[query := lease]> |>)).
Proof.
  unfold dynamicSplitRoutes. destruct dns as [m|]; [|by left].
  destruct (m_Questions m) as [|question [|]]; [by left| |by left].
  destruct (m_QR m); cbn [negb]; [|by left]. destruct (_ || _); [by left|].
  destruct (normalizeDNSName (q_Name question)) as [query|]; [|left; split; [done|apply RecordTransportFault_tables]].
  destruct (InArrayGeneric (DynamicSplitIncludeDomains c) query) eqn:Hi;
    destruct (InArrayGeneric (DynamicSplitExcludeDomains c) query) eqn:He; cbn [negb andb]; try (by left).
  all: pose proof (gather_addresses_spec (foldl follow_cname {[query]} (m_Answers m)) (m_Answers m)) as Hg;
    destruct (gather_addresses _ _) as [addresses ttl]; destruct Hg as [Hg1 Hg2];
    destruct (Nat.eqb_spec (length addresses) 0) as [|Hne]; [by left|];
    set (ttl1 := if ttl <? _ then _ else ttl); set (ttl2 := if maximumDynamicRouteTTL <? ttl1 then _ else ttl1);
    assert (Ht : minimumDynamicRouteTTL ≤ ttl2 ≤ maximumDynamicRouteTTL) by apply clamped_ttl;
    clearbody ttl2;
    (destruct (Nat.ltb_spec maximumDynamicRoutes (prospectiveDynamicRouteCount c query addresses)) as [|Hc];
     [left; split; [done|by rewrite recordNetworkHealth_tables, RecordTransportFault_tables]|]);
    right; split; [done|]; exists m, query, addresses, ttl2;
    (split_and!; [done| |by intros ->|lia|lia|done|]);
    [intros s Hs; destruct (Hg1 s Hs) as (a & t & ? & ?); by eapply answer_address_sound| ].
  - left. split; [done|]. done.
  - left. split; done.
  - right. split_and!; done.
Qed.

(** ** The tables stay small and sound *)

Lemma elem_of_table_addrs skip table s :
  s ∈ table_addrs skip table ↔
  ∃ k l, table !! k = Some l ∧ Some k ≠ skip ∧ s ∈ addr_string <$> parseDynamicAddrs l.
Proof.
  unfold table_addrs. rewrite list_elem_of_bind. split.
  - intros ([k l] & Hs & Hin). apply elem_of_map_to_list, map_lookup_filter_Some in Hin as [Hl Hk]. eauto.
  - intros (k & l & Hl & Hk & Hs). exists (k, l). split; [done|].
    apply elem_of_map_to_list, map_lookup_filter_Some. done.
Qed.

(** The addresses routed now, as texts. *)
Definition unique_routes (c : ConnSession) : gset string :=
  list_to_set (table_addrs None (DynamicSplitIncludeResolved c) ++ table_addrs None (DynamicSplitExcludeResolved c)).

Definition lease_ok (horizon : Z) (l : dynamicRouteLease) : Prop :=
  Forall v4_text (lease_Addresses l) ∧ lease_ExpiresAt l ≤ horizon + maximumDynamicRouteTTL.

Definition routes_ok (horizon : Z) (c : ConnSession) : Prop :=
  map_Forall (λ q l, InArrayGeneric (DynamicSplitIncludeDomains c) q = true ∧ lease_ok horizon l) (DynamicSplitIncludeResolved c) ∧
  map_Forall (λ q l, InArrayGeneric (DynamicSplitIncludeDomains c) q = false ∧
                     InArrayGeneric (DynamicSplitExcludeDomains c) q = true ∧ lease_ok horizon l) (DynamicSplitExcludeResolved c) ∧
  (size (unique_routes c) ≤ maximumDynamicRoutes)%nat.

Lemma lease_ok_mono h h' l : h ≤ h' → lease_ok h l → lease_ok h' l.
Proof. intros Hh [H1 H2]. split; [done|lia]. Qed.

Lemma routes_ok_mono h h' c : h ≤ h' → routes_ok h c → routes_ok h' c.
Proof.
  intros Hh (H1 & H2 & H3). split_and!; [| |done].
  - eapply map_Forall_impl; [exact H1|]. intros q l [? ?]. split; [done|]. by eapply lease_ok_mono.
  - eapply map_Forall_impl; [exact H2|]. intros q l (? & ? & ?). split_and!; [done..|]. by eapply lease_ok_mono.
Qed.

Lemma routes_ok_tables h c c' : tables c' = tables c → routes_ok h c → routes_ok h c'.
Proof. unfold tables, routes_ok, unique_routes. intros [= -> -> -> ->]. done. Qed.

Lemma routes_ok_shrink h c c' :
  DynamicSplitIncludeDomains c' = DynamicSplitIncludeDomains c → DynamicSplitExcludeDomains c' = DynamicSplitExcludeDomains c →
  DynamicSplitIncludeResolved c' ⊆ DynamicSplitIncludeResolved c → DynamicSplitExcludeResolved c' ⊆ DynamicSplitExcludeResolved c →
  routes_ok h c → routes_ok h c'.
Proof.
  intros E1 E2 S1 S2 (H1 & H2 & H3). unfold routes_ok. rewrite E1, E2.
  split_and!; [intros q l Hq; apply H1; by eapply lookup_weaken|intros q l Hq; apply H2; by eapply lookup_weaken|].
  etrans; [|exact H3]. apply subseteq_size. unfold unique_routes. intros s. rewrite !elem_of_list_to_set, !elem_of_app, !elem_of_table_addrs.
  intros [(k & l & Hk & Hr)|(k & l & Hk & Hr)]; [left|right]; exists k, l; (split; [by eapply lookup_weaken|done]).
Qed.

(** A new lease replaces the query's old one; what is kept of the other
    queries is what the prospective count was taken over. *)
Lemma new_lease_bound c query addresses inc exc :
  (∀ s, s ∈ table_addrs None inc → s ∈ addresses ∨ s ∈ table_addrs (Some query) (DynamicSplitIncludeResolved c)) →
  (∀ s, s ∈ table_addrs None exc → s ∈ addresses ∨ s ∈ table_addrs (Some query) (DynamicSplitExcludeResolved c)) →
  (prospectiveDynamicRouteCount c query addresses ≤ maximumDynamicRoutes)%nat →
  (size (list_to_set (table_addrs None inc ++ table_addrs None exc) : gset string) ≤ maximumDynamicRoutes)%nat.
Proof.
  intros Hi He Hc. etrans; [|exact Hc]. apply subseteq_size. intros s.
  rewrite !elem_of_list_to_set, !elem_of_app. intros [Hs|Hs]; [apply Hi in Hs|apply He in Hs]; tauto.
Qed.

Lemma table_addrs_insert query l table s :
  s ∈ table_addrs None (<[query := l]> table) →
  s ∈ addr_string <$> parseDynamicAddrs l ∨ s ∈ table_addrs (Some query) table.
Proof.
  rewrite !elem_of_table_addrs. intros (k & l' & [[<- <-]|[Hne Hk]]%lookup_insert_Some & _ & Hs); [by left|].
  right. exists k, l'. split_and!; [done|congruence|done].
Qed.

Lemma table_addrs_skip query table s :
  table !! query = None → s ∈ table_addrs None table → s ∈ table_addrs (Some query) table.
Proof.
  rewrite !elem_of_table_addrs. intros Hq (k & l & Hk & _ & Hs). exists k, l. split_and!; [done|congruence|done].
Qed.

Lemma dynamicSplitRoutes_ok now stamp dns c :
  (∀ m, dns = Some m → Forall answer_bytes (m_Answers m)) → routes_ok now c →
  routes_ok now (dynamicSplitRoutes now stamp dns c).1.
Proof.
  intros Hb Hok. pose proof (dynamicSplitRoutes_cases now stamp dns c) as H.
  destruct (dynamicSplitRoutes now stamp dns c) as [c' changed]. cbn.
  destruct H as [[_ Ht]|(_ & m & query & addresses & ttl & -> & Haddr & _ & Httl & Hcount & H)];
    [by eapply routes_ok_tables|].
  assert (Htext : Forall v4_text addresses).
  { apply Forall_forall. intros s Hs. eapply address_of_text; [by apply Hb|by apply Haddr]. }
  destruct Hok as (H1 & H2 & H3). set (lease := mkLease addresses (now + ttl)) in *. cbn zeta in H.
  assert (Hl : lease_ok now lease) by (split; cbn; [done|lia]).
  destruct H as [[Hi ->]|(Hi & He & ->)].
  - assert (Hx : DynamicSplitExcludeResolved c !! query = None).
    { destruct (DynamicSplitExcludeResolved c !! query) eqn:E; [|done]. destruct (H2 _ _ E). congruence. }
    split_and!; cbn; [by apply map_Forall_insert_2|done|]. unfold unique_routes; cbn.
    apply (new_lease_bound c query addresses); [| |exact Hcount].
    + intros s Hs%table_addrs_insert. unfold lease in Hs. by rewrite parse_lease in Hs.
    + intros s Hs. right. by apply table_addrs_skip.
  - assert (Hx : DynamicSplitIncludeResolved c !! query = None).
    { destruct (DynamicSplitIncludeResolved c !! query) eqn:E; [|done]. destruct (H1 _ _ E). congruence. }
    split_and!; cbn; [done|by apply map_Forall_insert_2|]. unfold unique_routes; cbn.
    apply (new_lease_bound c query addresses); [| |exact Hcount].
    + intros s Hs. right. by apply table_addrs_skip.
    + intros s Hs%table_addrs_insert. unfold lease in Hs. by rewrite parse_lease in Hs.
Qed.

Lemma expireDynamicRoutes_ok now c : routes_ok now c → routes_ok now (expireDynamicRoutes now c).1.
Proof. apply routes_ok_shrink; cbn; try done; apply map_filter_subseteq. Qed.

Lemma reconcile_tables stamp manager c : tables (reconcileDynamicRoutes stamp manager c) = tables c.
Proof.
  unfold reconcileDynamicRoutes. destruct manager as [f|]; [|done]. destruct (f _).
  - by rewrite recordNetworkHealth_tables, RecordTransportFault_tables.
  - apply recordNetworkHealth_tables.
Qed.

Lemma worker_turn_ok now stamp manager turn c :
  (∀ m, turn = DnsPacket (Some m) → Forall answer_bytes (m_Answers m)) → routes_ok now c →
  routes_ok now (dynamic_worker_turn now stamp manager turn c).
Proof.
  intros Hb Hok. unfold dynamic_worker_turn.
  assert (H : routes_ok now (match turn with DnsPacket dns => dynamicSplitRoutes now stamp dns c | Tick => expireDynamicRoutes now c end).1).
  { destruct turn as [dns|]; [|by apply expireDynamicRoutes_ok]. apply dynamicSplitRoutes_ok; [|done]. intros m ->. by apply Hb. }
  destruct (match turn with DnsPacket _ => _ | Tick => _ end) as [c' changed]. cbn in H.
  destruct changed; [|done]. eapply routes_ok_tables; [apply reconcile_tables|done].
Qed.

(** A run of the worker: the turns with their times and the manager's
    answers. *)
Definition run_worker (c : ConnSession) (turns : list (Z * option (DynamicRoutes → option error) * dynamic_turn)) : ConnSession :=
  foldl (λ c '(now, manager, turn), dynamic_worker_turn now "" manager turn c) c turns.

Fixpoint clock_from (now : Z) (turns : list (Z * option (DynamicRoutes → option error) * dynamic_turn)) : Prop :=
  match turns with
  | [] => True
  | (t, _, _) :: turns => now ≤ t ∧ clock_from t turns
  end.

Definition turn_bytes (x : Z * option (DynamicRoutes → option error) * dynamic_turn) : Prop :=
  ∀ m, x.2 = DnsPacket (Some m) → Forall answer_bytes (m_Answers m).

Definition last_time (now : Z) (turns : list (Z * option (DynamicRoutes → option error) * dynamic_turn)) : Z :=
  foldl (λ _ x, x.1.1) now turns.

(** C20: whatever DNS answers come in, the worker of a new session never routes
    more than 4096 distinct addresses at a time, all of them IPv4, on behalf of
    listed domains only, an address of an included domain never counting as
    excluded, and no lease runs more than an hour past the last turn. *)
Theorem dynamic_routes_bounded now c turns :
  DynamicSplitIncludeResolved c = ∅ → DynamicSplitExcludeResolved c = ∅ →
  clock_from now turns → Forall turn_bytes turns →
  routes_ok (last_time now turns) (run_worker c turns).
Proof.
  intros E1 E2 Hclock Hb.
  assert (H0 : routes_ok now c).
  { unfold routes_ok, unique_routes. rewrite E1, E2. split_and!; [apply map_Forall_empty..|].
    unfold table_addrs. rewrite map_filter_empty, map_to_list_empty. cbn. rewrite size_empty. unfold maximumDynamicRoutes. lia. }
  clear E1 E2. revert now c Hclock H0. induction Hb as [|[[t manager] turn] turns Ht _ IH]; intros now c Hclock H0; [done|].
  destruct Hclock as [Hle Hclock]. apply (IH t); [done|]. apply worker_turn_ok; [exact Ht|].
  by eapply routes_ok_mono.
Qed.


(** An answer for www.corp.example through a CNAME, with an address for an
    unrelated name added. *)
Definition demo_dns : dnsMessage :=
  mkMessage true [mkQuestion "WWW.corp.example." 1 1]
    [mkAnswer "www.corp.example" 5 1 "edge.cdn.example" None 300;
     mkAnswer "edge.cdn.example" 1 1 "" (Some [10; 0; 0; 7]) 20;
     mkAnswer "evil.example" 1 1 "" (Some [8; 8; 8; 8]) 300].
Definition demo_split : ConnSession :=
  demo_new.2 <| DynamicSplitTunneling := true |> <| DynamicSplitIncludeDomains := ["corp.example"] |>.


Lemma dynamic_routes_bounded_witness :
  routes_ok (5000 + 40 * second)
    (run_worker demo_split [(5000, Some (λ _, None), DnsPacket (Some demo_dns)); (5000 + 40 * second, None, Tick)]).
Proof.
  apply (dynamic_routes_bounded 0 demo_split
    [(5000, Some (λ _, None), DnsPacket (Some demo_dns)); (5000 + 40 * second, None, Tick)]).
  - vm_compute. reflexivity.
  - vm_compute. reflexivity.
  - cbn [clock_from]. unfold second. lia.
  - constructor; [|constructor; [|constructor]]; intros m Hm; [|discriminate Hm].
    injection Hm as <-. constructor; [|constructor; [|constructor; [|constructor]]];
      intros ip Hip; [discriminate Hip|..]; injection Hip as <-; repeat constructor; vm_compute; congruence.
Defined.

(** Reporting the health of the routes never blocks and never loses the
    newest report: the loop ends, and the channel then holds the last eight
    reports in order. *)
Theorem recordNetworkHealth_newest err c :
  (length (NetworkErrors c) ≤ network_errors_capacity)%nat →
  is_Some (health_rounds (length (NetworkErrors c)) err (NetworkErrors c)) ∧
  NetworkErrors (recordNetworkHealth err c) = last_n network_errors_capacity (NetworkErrors c ++ [err]) ∧
  tables (recordNetworkHealth err c) = tables c.
Proof.
  intros Hlen. set (q := NetworkErrors c) in *.
  assert (H : health_rounds (length q) err q = Some (last_n network_errors_capacity (q ++ [err]))).
  { unfold network_errors_capacity in *.
    destruct (decide (length q < 8)%nat) as [Hlt|Hge].
    - assert (E : try_send network_errors_capacity err q = Some (q ++ [err])).
      { unfold try_send, network_errors_capacity. by rewrite (proj2 (Nat.ltb_lt _ _)). }
      rewrite last_n_all by (rewrite length_app; cbn; lia). destruct (length q); cbn [health_rounds]; by rewrite E.
    - destruct q as [|x q]; cbn in Hlen, Hge; [lia|]. assert (Hq : length q = 7%nat) by lia.
      cbn [length health_rounds]. unfold try_send at 1, network_errors_capacity. cbn [length]. rewrite Hq. cbn [Nat.ltb Nat.leb tail].
      cbn [health_rounds]. unfold try_send at 1, network_errors_capacity. rewrite Hq. cbn [Nat.ltb Nat.leb].
      f_equal. unfold last_n. rewrite length_app. cbn [length]. rewrite Hq. reflexivity. }
  split_and!; [rewrite H; eauto| |apply recordNetworkHealth_tables].
  unfold recordNetworkHealth. fold q. by rewrite H.
Qed.

Lemma recordNetworkHealth_newest_witness :
  let c := demo_split <| NetworkErrors := replicate 8 None |> in
  NetworkErrors (recordNetworkHealth (Some limit_error) c) = replicate 7 None ++ [Some limit_error].
Proof.
  intros c. destruct (recordNetworkHealth_newest (Some limit_error) c) as (_ & H & _); [vm_compute; lia|].
  rewrite H. reflexivity.
Defined.

(** ** The configuration protects the way to the server *)

Lemma appendUniquePrefix_spec prefixes p :
  Masked (Masked p) = Masked p →
  prefixes ⊆ appendUniquePrefix prefixes p ∧ ∃ q, q ∈ appendUniquePrefix prefixes p ∧ Masked q = Masked p.
Proof.
  intros Hp. unfold appendUniquePrefix. destruct (existsb _ prefixes) eqn:E.
  - split; [done|]. apply existsb_exists in E as (q & Hq & Hm). apply bool_decide_eq_true in Hm.
    exists q. split; [by apply list_elem_of_In|done].
  - split; [set_solver|]. exists (Masked p). split; [set_solver|done].
Qed.

Lemma host_prefix_Masked a : Masked (Masked (PrefixFrom a (BitLen a))) = Masked (PrefixFrom a (BitLen a)).
Proof. apply Masked_idem. destruct a; cbn; lia. Qed.

(** C22: a configuration that is built routes the server's own address outside
    the tunnel, keeps every excluded route, and sends everything into the
    tunnel exactly when the session says so and no include route is left. *)
Theorem config_protects_server local c cfg :
  buildOSNetConfig local c = inr cfg →
  ∃ include exclude, ParsePrefixes (SplitInclude c) = inr include ∧ ParsePrefixes (SplitExclude c) = inr exclude ∧
    exclude ⊆ cfg_ExcludeRoutes cfg ∧
    (IsValid (cfg_ServerAddress cfg) = true →
     ∃ q, q ∈ cfg_ExcludeRoutes cfg ∧ Masked q = Masked (PrefixFrom (cfg_ServerAddress cfg) (BitLen (cfg_ServerAddress cfg)))) ∧
    cfg_IncludeRoutes cfg = (if UseDefaultRouteWhenEmpty c && (length include =? 0)%nat
                             then [PrefixFrom IPv4Unspecified 0] else include) ∧
    cfg_MTU cfg = MTU c.
Proof.
  unfold buildOSNetConfig. intros H.
  destruct (PrefixFromIPMask _ _) as [|vpn]; [done|]. destruct (parseServerAddress _) as [|server]; [done|].
  destruct (ParsePrefixes (SplitInclude c)) as [|include]; [done|].
  destruct (ParsePrefixes (SplitExclude c)) as [|exclude]; [done|].
  destruct (ParseAddrs (DNS c)) as [|dns]; [done|].
  exists include, exclude. split; [done|]. split; [done|].
  assert (Hcfg : cfg_ServerAddress cfg = server ∧ cfg_MTU cfg = MTU c ∧
    cfg_IncludeRoutes cfg = (if UseDefaultRouteWhenEmpty c && (length include =? 0)%nat then include ++ [PrefixFrom IPv4Unspecified 0] else include) ∧
    cfg_ExcludeRoutes cfg = (if IsValid server then appendUniquePrefix exclude (PrefixFrom server (BitLen server)) else exclude)).
  { destruct (IsValid (us_LocalIPv4 _)); [|destruct local as [|info]; [done|]]; by injection H as <-. }
  destruct Hcfg as (-> & HM & -> & ->).
  destruct (appendUniquePrefix_spec exclude _ (host_prefix_Masked server)) as [H1 H2].
  split_and!.
  - by destruct (IsValid server).
  - intros ->. exact H2.
  - destruct (UseDefaultRouteWhenEmpty c); cbn [andb]; [|done].
    destruct include; cbn [length Nat.eqb]; done.
  - done.
Qed.

Definition demo_connected : ConnSession :=
  demo_new.2 <| ServerAddress := "203.0.113.9" |> <| SplitInclude := [] |> <| UseDefaultRouteWhenEmpty := true |>
    <| SplitExclude := ["192.168.0.0/16"; "203.0.113.9"] |>
    <| Underlay := zero_snapshot <| us_LocalIPv4 := Addr4 0xc0a80105 |> |>.

Lemma config_protects_server_witness :
  ∃ cfg, buildOSNetConfig (inl (ErrText "unused")) demo_connected = inr cfg ∧
    cfg_IncludeRoutes cfg = [PrefixFrom IPv4Unspecified 0] ∧
    ∃ q, q ∈ cfg_ExcludeRoutes cfg ∧ Masked q = prefix4 0xcb007109 32.
Proof.
  destruct (buildOSNetConfig (inl (ErrText "unused")) demo_connected) as [e|cfg] eqn:E.
  { exfalso. revert E. vm_compute. discriminate. }
  destruct (config_protects_server _ _ _ E) as (include & exclude & Hi & _ & _ & Hs & Hd & _).
  exists cfg. split; [done|].
  assert (Hserver : cfg_ServerAddress cfg = Addr4 0xcb007109).
  { vm_compute in E. injection E as <-. reflexivity. }
  assert (Hinc : include = []).
  { vm_compute in Hi. by injection Hi as <-. }
  rewrite Hinc in Hd. split; [exact Hd|]. rewrite Hserver in Hs. apply Hs. reflexivity.
Defined.
