(* ===== verification/UserNet.v ===== *)
(** * The user-space tunnel and its flow table
    (src/internal/anyconnect/tunnel/usernet.go, utils/waterutil/utils_ipv4.go)

    Programs on this machine that dial through the SOCKS proxy share the VPN
    address with the operating system's own traffic.  The flow table remembers
    which answers belong to them: a packet that leaves through the user-space
    stack registers the reverse flow for five minutes, and an inbound packet of
    a registered flow goes to that stack instead of the TUN device.

    A packet is its bytes; [None] is an index or slice bound out of range. *)

From S2P Require Import Prelude GoStrings NetIP OsNet Buffer Session.

Open Scope go_scope.
Open Scope Z_scope.

(** ** Reading fields of a packet *)

Definition byte_at (packet : list Z) (i : nat) : option Z := packet !! i.

(** [packet[lo:hi]] of a packet whose capacity is its length. *)
Definition bytes_at (packet : list Z) (lo hi : nat) : option (list Z) :=
  if decide (lo ≤ hi ∧ hi ≤ length packet)%nat then Some (take (hi - lo) (drop lo packet)) else None.

Definition Uint16 (b : list Z) : option Z :=
  hi ← b !! 0%nat; lo ← b !! 1%nat; Some (uint16_be hi lo).

Definition IPv4Source (packet : list Z) : option Addr :=
  a ← byte_at packet 12; b ← byte_at packet 13; c ← byte_at packet 14; d ← byte_at packet 15;
  Some (Addr4 (v4_value a b c d)).
Definition IPv4Destination (packet : list Z) : option Addr :=
  a ← byte_at packet 16; b ← byte_at packet 17; c ← byte_at packet 18; d ← byte_at packet 19;
  Some (Addr4 (v4_value a b c d)).
Definition IPv4Payload (packet : list Z) : option (list Z) :=
  v ← byte_at packet 0; bytes_at packet (Z.to_nat (Z.land v 15 * 4)) (length packet).
Definition IPv4SourcePort (packet : list Z) : option Z :=
  payload ← IPv4Payload packet; a ← payload !! 0%nat; b ← payload !! 1%nat; Some (Z.lor (Z.shiftl a 8) b).
Definition IPv4DestinationPort (packet : list Z) : option Z :=
  payload ← IPv4Payload packet; a ← payload !! 2%nat; b ← payload !! 3%nat; Some (Z.lor (Z.shiftl a 8) b).

Definition ResolvePacket (packet : list Z) : option (string * Z * string * Z) :=
  src ← IPv4Source packet; srcPort ← IPv4SourcePort packet;
  dst ← IPv4Destination packet; dstPort ← IPv4DestinationPort packet;
  Some (addr_string src, srcPort, addr_string dst, dstPort).

(** ** Flows *)

Record flowKey := mkFlowKey {
  fk_proto : Z; fk_src : list Z; fk_dst : list Z; fk_srcPort : Z; fk_dstPort : Z;
}.
#[export] Instance flowKey_eq_dec : EqDecision flowKey.
Proof. solve_decision. Defined.
#[export] Instance flowKey_countable : Countable flowKey.
Proof.
  apply (inj_countable' (λ k, (fk_proto k, fk_src k, fk_dst k, fk_srcPort k, fk_dstPort k))
    (λ '(a, b, c, d, e), mkFlowKey a b c d e)). by intros [].
Defined.

(** The outer option is a panic, the inner one the code's [false]. *)
Definition packetFlowKey (packet : list Z) : option (option flowKey) :=
  if bool_decide (length packet < 24)%nat then Some None else
  version ← byte_at packet 0;
  if negb (Z.shiftr version 4 =? 4) then Some None else
  let ihl := (Z.to_nat (Z.land version 15) * 4)%nat in
  if bool_decide (ihl < 20)%nat || bool_decide (length packet < ihl + 4)%nat then Some None else
  proto ← byte_at packet 9;
  if negb (proto =? 6) && negb (proto =? 17) then Some None else
  src ← bytes_at packet 12 16;
  dst ← bytes_at packet 16 20;
  srcPort ← (b ← bytes_at packet ihl (ihl + 2); Uint16 b);
  dstPort ← (b ← bytes_at packet (ihl + 2) (ihl + 4); Uint16 b);
  Some (Some (mkFlowKey proto src dst srcPort dstPort)).

Definition reverse (k : flowKey) : flowKey :=
  mkFlowKey (fk_proto k) (fk_dst k) (fk_src k) (fk_dstPort k) (fk_srcPort k).

Definition userFlowTTL : Z := 5 * 60 * second.

(** [userFlowRouter]: the flows and when each lapses, in nanoseconds. *)
Notation Flows := (gmap flowKey Z).

Definition pruneLocked (now : Z) (flows : Flows) : Flows :=
  filter (λ kv, ¬ kv.2 < now) flows.

Definition recordOutbound (now : Z) (packet : list Z) (flows : Flows) : option (Flows * bool) :=
  key ← packetFlowKey packet;
  match key with
  | None => Some (flows, false)
  | Some key => Some (<[reverse key := now + userFlowTTL]> (pruneLocked now flows), true)
  end.

Definition matchesInbound (now : Z) (packet : list Z) (flows : Flows) : option (Flows * bool) :=
  key ← packetFlowKey packet;
  match key with
  | None => Some (flows, false)
  | Some key => let flows := pruneLocked now flows in Some (flows, bool_decide (is_Some (flows !! key)))
  end.

(** ** The tunnel *)

(** [userTunnel]: it belongs to a session, by name, and its device is gone once
    it is closed; [ut_local], [ut_dns] and [ut_mtu] are what the network stack
    was created with. *)
Record userTunnel := mkUserTunnel {
  ut_cSess : nat;
  ut_dev : bool;
  ut_flows : Flows;
  ut_local : Addr;
  ut_dns : list Addr;
  ut_mtu : Z;
}.
#[export] Instance userTunnel_eta : Eta userTunnel := λ r,
  mkUserTunnel (ut_cSess r) (ut_dev r) (ut_flows r) (ut_local r) (ut_dns r) (ut_mtu r).

Fixpoint parseIPv4Addrs (raw : list string) : error + list Addr :=
  match raw with
  | [] => inr []
  | value :: raw =>
    match ParseAddr value with
    | None => inl (ErrWrap ("invalid VPN DNS address " +:+ quote value +:+ ": ") (ErrText "ParseAddr") "")
    | Some addr =>
      let addr := Unmap addr in
      match parseIPv4Addrs raw with
      | inl err => inl err
      | inr out => inr (if Is4 addr then addr :: out else out)
      end
    end
  end.

(** [stack_err]: what the network stack library answers. *)
Definition newUserTunnel (stack_err : option error) (id : nat) (c : ConnSession) : error + userTunnel :=
  let bad := inl (ErrText ("invalid IPv4 VPN address " +:+ quote (VPNAddress c))) in
  match ParseAddr (VPNAddress c) with
  | None => bad
  | Some local =>
    if negb (Is4 local) then bad else
    match parseIPv4Addrs (DNS c) with
    | inl err => inl err
    | inr dns =>
      let mtu := if MTU c <=? 0 then 1399 else MTU c in
      match stack_err with
      | Some err => inl err
      | None => inr (mkUserTunnel id true ∅ local dns mtu)
      end
    end
  end.

(** The tunnels that were made, by name, and [userTunnels], which names the one
    in use for each session. *)
Record Tunnels := mkTunnels { tn_all : list userTunnel; userTunnels : gmap nat nat }.
#[export] Instance Tunnels_eta : Eta Tunnels := λ r, mkTunnels (tn_all r) (userTunnels r).

(** [userTunnel.Close]: the first call forgets whatever tunnel the session has,
    then lets go of the device. *)
Definition userTunnel_Close (name : nat) (ts : Tunnels) : Tunnels :=
  match tn_all ts !! name with
  | None => ts
  | Some t =>
    if negb (ut_dev t) then ts
    else ts <| userTunnels ::= delete (ut_cSess t) |> <| tn_all ::= <[name := t <| ut_dev := false |>]> |>
  end.

Definition closeUserTunnel (id : nat) (ts : Tunnels) : Tunnels :=
  match userTunnels ts !! id with
  | Some name => userTunnel_Close name ts
  | None => ts
  end.

(** [SessionTunnelDialer] looks for the session's tunnel, makes one when there
    is none, and stores it unless another caller stored one in between; these
    are its three accesses to the map. *)
Definition dialer_load (id : nat) (ts : Tunnels) : option nat := userTunnels ts !! id.
Definition dialer_new (stack_err : option error) (id : nat) (c : ConnSession) (ts : Tunnels) : Tunnels * (error + nat) :=
  match newUserTunnel stack_err id c with
  | inl err => (ts, inl err)
  | inr t => (ts <| tn_all ::= λ l, l ++ [t] |>, inr (length (tn_all ts)))
  end.
Definition dialer_store (id tunnel : nat) (ts : Tunnels) : Tunnels * nat :=
  match userTunnels ts !! id with
  | Some actual => (userTunnel_Close tunnel ts, actual)
  | None => (ts <| userTunnels ::= <[id := tunnel]> |>, tunnel)
  end.

Definition SessionTunnelDialer (stack_err : option error) (cSess : option (nat * ConnSession)) (ts : Tunnels) :
    Tunnels * (error + nat) :=
  match cSess with
  | None => (ts, inl (ErrText "no active VPN session"))
  | Some (id, c) =>
    match dialer_load id ts with
    | Some existing => (ts, inr existing)
    | None =>
      match dialer_new stack_err id c ts with
      | (ts, inl err) => (ts, inl err)
      | (ts, inr tunnel) => let '(ts, actual) := dialer_store id tunnel ts in (ts, inr actual)
      end
    end
  end.

Definition closed_dialer : error := ErrText "VPN tunnel dialer is closed".

(** [DialContext] up to the library call. *)
Definition DialContext (t : option userTunnel) : error + () :=
  match t with
  | None => inl closed_dialer
  | Some t => if ut_dev t then inr () else inl closed_dialer
  end.

(** [routeUserInbound]: whether the user-space stack took the packet;
    [write_err] is what its device answers. *)
Definition routeUserInbound (now : Z) (write_err : option error) (id : nat) (packet : list Z) (ts : Tunnels) :
    option (Tunnels * bool) :=
  match userTunnels ts !! id with
  | None => Some (ts, false)
  | Some name =>
    tunnel ← tn_all ts !! name;
    '(flows, matched) ← matchesInbound now packet (ut_flows tunnel);
    let ts := ts <| tn_all ::= <[name := tunnel <| ut_flows := flows |>]> |> in
    if negb matched then Some (ts, false) else
    if negb (ut_dev tunnel) then Some (ts, false) else
    match write_err with
    | Some _ => Some (userTunnel_Close name ts, false)
    | None => Some (ts, true)
    end
  end.

(** What [userTunToPayloadOut] does with one read of [n] bytes: it notes the
    flow and passes the packet on. *)
Definition outbound_packet (now : Z) (name : nat) (n : nat) (pl : Payload) (ts : Tunnels) : option (Tunnels * Payload) :=
  tunnel ← tn_all ts !! name;
  pl ← reslice 0 n pl;
  '(flows, _) ← recordOutbound now (data pl) (ut_flows tunnel);
  Some (ts <| tn_all ::= <[name := tunnel <| ut_flows := flows |>]> |>, pl).

(** ** Sending to the server *)

(** Which ready case the two selects of [sendPayloadToServer] pick. *)
Inductive dtls_pick := DtlsSent | DtlsGone | SessionGone.

Definition sendPayloadToServer (dtls : dtls_pick) (tls_sent : bool) (pl : Payload) (c : ConnSession) :
    ConnSession * bool :=
  let over_tls := if tls_sent then (c <| PayloadOutTLS ::= λ q, q ++ [pl] |>, true) else (c, false) in
  if DtlsConnected c then
    match dtls with
    | DtlsSent => (c <| PayloadOutDTLS ::= λ q, q ++ [pl] |>, true)
    | DtlsGone => over_tls
    | SessionGone => (c, false)
    end
  else over_tls.

(** ** Properties *)

Lemma bytes_at_Some packet lo hi :
  (lo ≤ hi ∧ hi ≤ length packet)%nat → bytes_at packet lo hi = Some (take (hi - lo) (drop lo packet)).
Proof. intros H. unfold bytes_at. by rewrite decide_True. Qed.

Lemma Uint16_two b : (2 ≤ length b)%nat → is_Some (Uint16 b).
Proof. destruct b as [|x [|y b]]; cbn; try lia. unfold Uint16. cbn. eauto. Qed.

(** Whatever the bytes, the guards keep every access in range. *)
Lemma packetFlowKey_total packet : is_Some (packetFlowKey packet).
Proof.
  unfold packetFlowKey. case_bool_decide as H1; [eauto|]. unfold byte_at.
  destruct (lookup_lt_is_Some_2 packet 0) as [v ->]; [lia|]. cbn [mbind option_bind].
  destruct (negb _); [eauto|]. set (ihl := (_ * 4)%nat). 
  destruct (bool_decide (ihl < 20)%nat || bool_decide (length packet < ihl + 4)%nat) eqn:H2; [eauto|].
  apply orb_false_iff in H2 as [H2%bool_decide_eq_false H3%bool_decide_eq_false].
  destruct (lookup_lt_is_Some_2 packet 9) as [p ->]; [lia|]. cbn [mbind option_bind].
  destruct (_ && _); [eauto|].
  rewrite !bytes_at_Some by lia. cbn [mbind option_bind].
  destruct (Uint16_two (take (ihl + 2 - ihl) (drop ihl packet))) as [sp ->]; [rewrite length_take, length_drop; lia|].
  destruct (Uint16_two (take (ihl + 4 - (ihl + 2)) (drop (ihl + 2) packet))) as [dp ->]; [rewrite length_take, length_drop; lia|].
  cbn. eauto.
Qed.

Definition key_of (packet : list Z) : option flowKey := default None (packetFlowKey packet).

Lemma packetFlowKey_eq packet : packetFlowKey packet = Some (key_of packet).
Proof. unfold key_of. by destruct (packetFlowKey_total packet) as [? ->]. Qed.

Lemma reverse_involutive k : reverse (reverse k) = k.
Proof. by destruct k. Qed.

(** *** The flow table against its history *)

Inductive flow_event :=
  | FlowOut (now : Z) (packet : list Z)
  | FlowIn (now : Z) (packet : list Z).

Definition flow_time (e : flow_event) : Z := match e with FlowOut t _ | FlowIn t _ => t end.

Definition flow_step (flows : option Flows) (e : flow_event) : option Flows :=
  flows ← flows;
  match e with
  | FlowOut t p => fst <$> recordOutbound t p flows
  | FlowIn t p => fst <$> matchesInbound t p flows
  end.

Definition run_flows (evs : list flow_event) : option Flows := foldl flow_step (Some ∅) evs.

(** A packet left at [t0] whose answer has key [k]. *)
Definition sent (evs : list flow_event) (k : flowKey) (t0 : Z) : Prop :=
  ∃ p k0, FlowOut t0 p ∈ evs ∧ key_of p = Some k0 ∧ k = reverse k0.

Definition table_ok (evs : list flow_event) (flows : Flows) : Prop :=
  (∀ k e, flows !! k = Some e → ∃ t0, sent evs k t0 ∧ e = t0 + userFlowTTL) ∧
  (∀ k t0, sent evs k t0 → (∃ e, flows !! k = Some e ∧ t0 + userFlowTTL ≤ e) ∨
                           ∃ e, e ∈ evs ∧ t0 + userFlowTTL < flow_time e).

Lemma pruneLocked_lookup now flows k :
  pruneLocked now flows !! k = match flows !! k with Some e => if e <? now then None else Some e | None => None end.
Proof.
  unfold pruneLocked. destruct (flows !! k) as [e|] eqn:E.
  - destruct (Z.ltb_spec e now).
    + apply map_lookup_filter_None_2. right. intros x Hx Hf.
      assert (Some e = Some x) as [= <-] by (etransitivity; [symmetry; exact E|exact Hx]). done.
    + apply map_lookup_filter_Some_2; [exact E|cbn; lia].
  - apply map_lookup_filter_None_2. left. exact E.
Qed.

Lemma sent_snoc evs e k t0 :
  sent (evs ++ [e]) k t0 ↔
  sent evs k t0 ∨ ∃ p k0, e = FlowOut t0 p ∧ key_of p = Some k0 ∧ k = reverse k0.
Proof.
  unfold sent. setoid_rewrite elem_of_app. setoid_rewrite list_elem_of_singleton. naive_solver.
Qed.

(** Pruning forgets lapsed flows only. *)
Lemma table_ok_prune evs flows e :
  table_ok evs flows → (∀ p k, e = FlowOut (flow_time e) p → key_of p = Some k → False) →
  table_ok (evs ++ [e]) (pruneLocked (flow_time e) flows).
Proof.
  intros [H1 H2] He. split.
  - intros k x. rewrite pruneLocked_lookup. destruct (flows !! k) as [y|] eqn:Ek; [|done].
    destruct (y <? flow_time e); [done|]. intros [= <-]. destruct (H1 _ _ Ek) as (t0 & ? & ?).
    exists t0. split; [|done]. apply sent_snoc. by left.
  - intros k t0 [Hs|(p & k0 & -> & Hk & ->)]%sent_snoc; [|by destruct (He p k0)].
    setoid_rewrite elem_of_app. setoid_rewrite list_elem_of_singleton. rewrite pruneLocked_lookup.
    destruct (H2 _ _ Hs) as [(x & Hx & Hle)|(x & Hx & Hlt)]; [|right; eauto]. rewrite Hx.
    destruct (Z.ltb_spec x (flow_time e)); [right; exists e; split; [by right|lia]|left; eauto].
Qed.

Lemma table_ok_insert evs flows t p k :
  table_ok evs flows → key_of p = Some k → (∀ e, e ∈ evs → flow_time e ≤ t) →
  table_ok (evs ++ [FlowOut t p]) (<[reverse k := t + userFlowTTL]> (pruneLocked t flows)).
Proof.
  intros [H1 H2] Hp Hle. split.
  - intros k' x [[<- <-]|[Hne Hk]]%lookup_insert_Some.
    + exists t. split; [|done]. apply sent_snoc. right. eauto 6.
    + rewrite pruneLocked_lookup in Hk. destruct (flows !! k') as [y|] eqn:Ek; [|done].
      destruct (y <? t); [done|]. injection Hk as <-. destruct (H1 _ _ Ek) as (t0 & ? & ?).
      exists t0. split; [|done]. apply sent_snoc. by left.
  - intros k' t0 Hs. setoid_rewrite elem_of_app. setoid_rewrite list_elem_of_singleton.
    destruct (decide (reverse k = k')) as [<-|Hne].
    + left. exists (t + userFlowTTL). rewrite lookup_insert_eq. split; [done|].
      apply sent_snoc in Hs as [(q & k0 & Hin & _)|(q & k0 & [= <- <-] & _)]; [|lia].
      specialize (Hle _ Hin). cbn in Hle. lia.
    + rewrite lookup_insert_ne, pruneLocked_lookup by done.
      apply sent_snoc in Hs as [Hs|(q & k0 & [= -> ->] & Hk0 & ->)]; [|congruence].
      destruct (H2 _ _ Hs) as [(x & Hx & Hx')|(x & Hx & Hlt)]; [|right; eauto]. rewrite Hx.
      destruct (Z.ltb_spec x t); [right; exists (FlowOut t p); split; [by right|cbn; lia]|left; eauto].
Qed.

(** Nothing is known of the time of an event the table ignores. *)
Lemma table_ok_ignored evs flows e :
  table_ok evs flows → (∀ p k, e = FlowOut (flow_time e) p → key_of p = Some k → False) →
  table_ok (evs ++ [e]) flows.
Proof.
  intros [H1 H2] He. split.
  - intros k x Hk. destruct (H1 _ _ Hk) as (t0 & ? & ?). exists t0. split; [|done]. apply sent_snoc. by left.
  - intros k t0 [Hs|(p & k0 & -> & Hk & ->)]%sent_snoc; [|by destruct (He p k0)].
    setoid_rewrite elem_of_app. destruct (H2 _ _ Hs) as [?|(x & Hx & Hlt)]; [by left|right; eauto].
Qed.

Definition clock_monotone (evs : list flow_event) : Prop :=
  ∀ i j a b, (i ≤ j)%nat → evs !! i = Some a → evs !! j = Some b → flow_time a ≤ flow_time b.

Lemma clock_monotone_snoc evs e :
  clock_monotone (evs ++ [e]) → clock_monotone evs ∧ ∀ a, a ∈ evs → flow_time a ≤ flow_time e.
Proof.
  intros H. split.
  - intros i j a b Hij Ha Hb. apply (H i j); [done|by apply lookup_app_l_Some..].
  - intros a [i Hi]%list_elem_of_lookup. apply (H i (length evs)).
    + apply lookup_lt_Some in Hi. lia.
    + by apply lookup_app_l_Some.
    + by rewrite list_lookup_middle.
Qed.

Lemma run_flows_ok evs : clock_monotone evs → ∃ flows, run_flows evs = Some flows ∧ table_ok evs flows.
Proof.
  induction evs as [|e evs IH] using rev_ind; intros Hm.
  - exists ∅. split; [done|]. split; [done|]. intros k t0 (p & k0 & Hin & _). by apply not_elem_of_nil in Hin.
  - apply clock_monotone_snoc in Hm as [Hm Hle]. destruct (IH Hm) as (flows & Hr & Hok).
    unfold run_flows. rewrite foldl_snoc. fold (run_flows evs). rewrite Hr. cbn [flow_step mbind option_bind].
    destruct e as [t p|t p]; [unfold recordOutbound|unfold matchesInbound]; rewrite packetFlowKey_eq; cbn [mbind option_bind].
    + destruct (key_of p) as [k|] eqn:Hk; (eexists; split; [reflexivity|]).
      * by apply table_ok_insert.
      * apply table_ok_ignored; [done|]. intros q k [= ->]. congruence.
    + destruct (key_of p) as [k|] eqn:Hk; (eexists; split; [reflexivity|]).
      * by apply (table_ok_prune evs flows (FlowIn t p)).
      * by apply table_ok_ignored.
Qed.

(** C19: over any traffic with a clock that does not run backwards, and whatever
    the bytes of the packets, the flow table never indexes out of range and
    sends an inbound packet to the user-space stack exactly when a packet of
    the opposite flow left through it no more than five minutes before. *)
Theorem inbound_matches_history evs now packet :
  clock_monotone (evs ++ [FlowIn now packet]) →
  ∃ flows flows' matched, run_flows evs = Some flows ∧ matchesInbound now packet flows = Some (flows', matched) ∧
    (matched = true ↔ ∃ k t0, key_of packet = Some k ∧ sent evs k t0 ∧ now ≤ t0 + userFlowTTL).
Proof.
  intros Hm. apply clock_monotone_snoc in Hm as [Hm Hle].
  destruct (run_flows_ok evs Hm) as (flows & Hr & [H1 H2]).
  unfold matchesInbound. rewrite packetFlowKey_eq. cbn [mbind option_bind].
  destruct (key_of packet) as [k|]; do 3 eexists; (split; [done|split; [done|]]); [|naive_solver].
  rewrite bool_decide_eq_true, pruneLocked_lookup. split.
  - intros [x Hx]. destruct (flows !! k) as [y|] eqn:Ek; [|done]. destruct (Z.ltb_spec y now); [done|].
    destruct (H1 _ _ Ek) as (t0 & Hs & ->). eauto.
  - intros (k' & t0 & [= <-] & Hs & Ht).
    destruct (H2 _ _ Hs) as [(x & Hx & Hx')|(e & He & Hlt)].
    + rewrite Hx. destruct (Z.ltb_spec x now); [lia|eauto].
    + specialize (Hle _ He). cbn in Hle. lia.
Qed.

(** A TCP segment from 10.9.0.2:40000 to 10.0.0.5:443, and its answer. *)
Definition demo_out : list Z :=
  [0x45; 0; 0; 40; 0; 0; 0; 0; 64; 6; 0; 0; 10; 9; 0; 2; 10; 0; 0; 5; 0x9c; 0x40; 1; 0xbb].
Definition demo_in : list Z :=
  [0x45; 0; 0; 40; 0; 0; 0; 0; 64; 6; 0; 0; 10; 0; 0; 5; 10; 9; 0; 2; 1; 0xbb; 0x9c; 0x40].

Lemma inbound_matches_history_witness :
  ∃ flows flows', run_flows [FlowIn 3 demo_in; FlowOut 5 demo_out; FlowIn 6 [1; 2]] = Some flows ∧
    matchesInbound (5 + userFlowTTL) demo_in flows = Some (flows', true).
Proof.
  destruct (inbound_matches_history [FlowIn 3 demo_in; FlowOut 5 demo_out; FlowIn 6 [1; 2]]
    (5 + userFlowTTL) demo_in) as (flows & flows' & matched & Hr & Hm & [_ H]).
  - intros i j a b Hij Ha Hb.
    destruct i as [|[|[|[|i]]]], j as [|[|[|[|j]]]]; try lia; try discriminate Ha; try discriminate Hb;
      injection Ha as <-; injection Hb as <-; vm_compute; congruence.
  - exists flows, flows'. split; [exact Hr|]. rewrite H in Hm; [exact Hm|].
    exists (mkFlowKey 6 [10; 0; 0; 5] [10; 9; 0; 2] 443 40000), 5. split_and!; [vm_compute; reflexivity| |lia].
    exists demo_out, (mkFlowKey 6 [10; 9; 0; 2] [10; 0; 0; 5] 40000 443).
    split_and!; [right; left|vm_compute; reflexivity..].
Defined.

(** Two callers that both find the session without a tunnel get the same
    one, but the loser, in closing its own, takes the winner's out of
    [userTunnels]: the tunnel both hold is open and no longer receives what
    comes in for it, nor is it closed with the session. *)
Lemma dialer_race_unregisters :
  let ts := mkTunnels [] ∅ in
  ∃ ts1 t1 ts2 t2 ts3 ts4 actual,
    dialer_load 7 ts = None ∧
    dialer_new None 7 demo_new.2 ts = (ts1, inr t1) ∧ dialer_new None 7 demo_new.2 ts1 = (ts2, inr t2) ∧
    dialer_store 7 t1 ts2 = (ts3, t1) ∧ dialer_store 7 t2 ts3 = (ts4, actual) ∧
    actual = t1 ∧ (ut_dev <$> tn_all ts4 !! t1) = Some true ∧ userTunnels ts4 !! 7%nat = None ∧
    closeUserTunnel 7 ts4 = ts4 ∧
    (∀ now write_err packet, routeUserInbound now write_err 7 packet ts4 = Some (ts4, false)).
Proof.
  cbn zeta. do 7 eexists. split; [vm_compute; reflexivity|].
  split; [unfold dialer_new; vm_compute; reflexivity|]. split; [unfold dialer_new; vm_compute; reflexivity|].
  split; [vm_compute; reflexivity|]. split; [vm_compute; reflexivity|].
  split; [reflexivity|]. split; [vm_compute; reflexivity|]. split; [vm_compute; reflexivity|].
  split; [vm_compute; reflexivity|]. intros now write_err packet. reflexivity.
Qed.
