(* ===== verification/Auth.v ===== *)
(** * Authentication (src/internal/anyconnect/auth/auth.go)

    One [Client] carries one authentication over one TLS connection: an
    initial request, then a reply with the user's credentials, sent a second
    time when the server asks again.  What the server and the network do is
    the script [aw_net]: the answer to each request, in order.  The XML
    decoder ([unmarshal]) and [fmt.Sprintf] with one text ([sprintf]) are the
    standard library's. *)

From S2P Require Import Prelude GoStrings NetIP NetURL Session.

Open Scope go_scope.
Open Scope Z_scope.

(** ** Data *)

Record Interface := mkInterface { if_Name : string; if_Ip4 : string; if_Mac : string; if_Gateway : string }.

Record AuthProfile := mkAuthProfile {
  ap_Host : string; ap_Username : string; ap_Password : string; ap_Group : string; ap_SecretKey : string;
  ap_AcceptServerRoutes : bool; ap_ApplyDNS : bool;
  ap_CustomInclude : list string; ap_CustomExclude : list string; ap_DNSOverrides : list string; ap_MTU : Z;
  ap_Initialized : bool; ap_AppVersion : string; ap_GroupAccess : string;
  ap_HostWithPort : string; ap_Scheme : string; ap_AuthPath : string;
  ap_MacAddress : string; ap_TunnelGroup : string; ap_GroupAlias : string; ap_ConfigHash : string;
  ap_ComputerName : string; ap_DeviceType : string; ap_PlatformVersion : string; ap_UniqueId : string;
}.
#[export] Instance AuthProfile_eta : Eta AuthProfile := λ r,
  mkAuthProfile (ap_Host r) (ap_Username r) (ap_Password r) (ap_Group r) (ap_SecretKey r)
    (ap_AcceptServerRoutes r) (ap_ApplyDNS r) (ap_CustomInclude r) (ap_CustomExclude r) (ap_DNSOverrides r) (ap_MTU r)
    (ap_Initialized r) (ap_AppVersion r) (ap_GroupAccess r) (ap_HostWithPort r) (ap_Scheme r) (ap_AuthPath r)
    (ap_MacAddress r) (ap_TunnelGroup r) (ap_GroupAlias r) (ap_ConfigHash r)
    (ap_ComputerName r) (ap_DeviceType r) (ap_PlatformVersion r) (ap_UniqueId r).

(** [Conn] and [BufR] come and go together: whether they are set. *)
Record Client := mkClient {
  Prof : AuthProfile;
  Conn : bool;
  WebVpnCookie : string;
  LocalInterface : Interface;
  serverGroups : list string;
}.
#[export] Instance Client_eta : Eta Client := λ r,
  mkClient (Prof r) (Conn r) (WebVpnCookie r) (LocalInterface r) (serverGroups r).

(** The parts of [proto.DTD] the client reads. *)
Record AuthError := mkAuthError { ae_Param1 : string; ae_Value : string }.
Record DTD := mkDTD {
  dtd_Type : string; dtd_SessionToken : string; dtd_Error : AuthError;
  dtd_Message : string; dtd_AuthError : AuthError; dtd_Action : string; dtd_Groups : list string;
  dtd_TunnelGroup : string; dtd_GroupAlias : string; dtd_ConfigHash : string;
}.

(** What becomes of one request.  A body is its bytes and the error, if any,
    that follows them. *)
Inductive exchange :=
  | WriteFails (err : error)
  | ReadFails (err : error)
  | Answer (code : Z) (status : string) (body : string) (body_err : option error) (cookies : list (string * string)).

Record AuthWorld := mkAuthWorld {
  aw_client : Client;
  aw_net : list exchange;
  aw_sent : list (string * string);    (* URL and body of each request written *)
}.
#[export] Instance AuthWorld_eta : Eta AuthWorld := λ r, mkAuthWorld (aw_client r) (aw_net r) (aw_sent r).

Definition AuthM := M AuthWorld.
Definition on_client (f : Client → Client) : AuthM () := modify (λ w, w <| aw_client ::= f |>).
Definition on_prof (f : AuthProfile → AuthProfile) : AuthM () := on_client (λ c, c <| Prof ::= f |>).

(** ** Requests *)

Definition nl : string := String "010" "".

(** The two templates of text/template, executed. *)
Definition templateInit (p : AuthProfile) : string :=
  "<?xml version=" +:+ quote "1.0" +:+ " encoding=" +:+ quote "UTF-8" +:+ "?>" +:+ nl +:+
  "<config-auth client=" +:+ quote "vpn" +:+ " type=" +:+ quote "init" +:+ ">" +:+ nl +:+
  "    <version who=" +:+ quote "vpn" +:+ ">" +:+ ap_AppVersion p +:+ "</version>" +:+ nl +:+
  "    <device-id>" +:+ ap_DeviceType p +:+ "</device-id>" +:+ nl +:+
  "    <group-access>" +:+ ap_GroupAccess p +:+ "</group-access>" +:+
  (if ap_Group p == "" then "" else nl +:+ "    <group-select>" +:+ ap_Group p +:+ "</group-select>") +:+ nl +:+
  "</config-auth>".

Definition templateAuthReply (p : AuthProfile) : string :=
  "<?xml version=" +:+ quote "1.0" +:+ " encoding=" +:+ quote "UTF-8" +:+ "?>" +:+ nl +:+
  "<config-auth client=" +:+ quote "vpn" +:+ " type=" +:+ quote "auth-reply" +:+ ">" +:+ nl +:+
  "    <version who=" +:+ quote "vpn" +:+ ">" +:+ ap_AppVersion p +:+ "</version>" +:+ nl +:+
  "    <device-id>" +:+ ap_DeviceType p +:+ "</device-id>" +:+ nl +:+
  "    <opaque is-for=" +:+ quote "sg" +:+ ">" +:+ nl +:+
  "        <tunnel-group>" +:+ ap_TunnelGroup p +:+ "</tunnel-group>" +:+ nl +:+
  "        <group-alias>" +:+ ap_GroupAlias p +:+ "</group-alias>" +:+ nl +:+
  "        <config-hash>" +:+ ap_ConfigHash p +:+ "</config-hash>" +:+ nl +:+
  "    </opaque>" +:+ nl +:+
  "    <mac-address-list>" +:+ nl +:+
  "        <mac-address public-interface=" +:+ quote "true" +:+ ">" +:+ ap_MacAddress p +:+ "</mac-address>" +:+ nl +:+
  "    </mac-address-list>" +:+ nl +:+
  "    <auth>" +:+ nl +:+
  "        <username>" +:+ ap_Username p +:+ "</username>" +:+ nl +:+
  "        <password>" +:+ ap_Password p +:+ "</password>" +:+ nl +:+
  "    </auth>" +:+ nl +:+
  "    <group-select>" +:+ ap_Group p +:+ "</group-select>" +:+ nl +:+
  "</config-auth>".

Inductive request_kind := tplInit | tplAuthReply.
Definition maxAuthResponseBytes : Z := 4 * 2 ^ 20.

Definition readAuthResponse (body : string) (body_err : option error) : error + string :=
  if maxAuthResponseBytes <? Z.of_nat (len body)
  then inl (ErrText ("authentication response exceeds " +:+ Itoa maxAuthResponseBytes +:+ " bytes"))
  else match body_err with
       | Some err => inl (ErrWrap "read authentication response: " err "")
       | None => inr body
       end.

(** [Client.Close]. *)
Definition Client_Close : AuthM () := on_client (λ c, c <| Conn := false |>).

Section auth.
Context (sprintf : string → string → string) (unmarshal : string → error + DTD).

Definition formatAuthError (err : AuthError) : string :=
  let message := TrimSpace (ae_Value err) in
  let message := if message == "" then "authentication failed" else message in
  if (ae_Param1 err != "") && contains_byte message "%" then sprintf message (ae_Param1 err)
  else if ae_Param1 err != "" then message +:+ " " +:+ ae_Param1 err
  else message.

(** The next answer of the network; a script that ends is a connection that
    was closed. *)
Definition next_exchange (url body : string) : AuthM exchange := λ w,
  let w := w <| aw_sent ::= λ l, l ++ [(url, body)] |> in
  match aw_net w with
  | [] => (w, Done (ReadFails (ErrSentinel IoUnexpectedEOF "unexpected EOF")))
  | x :: net => (w <| aw_net := net |>, Done x)
  end.

Definition tplPost (typ : request_kind) (path : string) : AuthM DTD :=
  conn ← read (λ w, Conn (aw_client w));
  _ ← fail_if (negb conn) (ErrText "authentication connection is not initialized");
  p ← read (λ w, Prof (aw_client w));
  let body := match typ with tplInit => templateInit p | tplAuthReply => templateAuthReply p end in
  let url := ap_Scheme p +:+ ap_HostWithPort p +:+ path in
  let url := if ap_SecretKey p == "" then url else url +:+ "?" +:+ ap_SecretKey p in
  _ ← fail_if (bool_decide (url_Parse url = None)) (ErrText "NewRequest");
  x ← next_exchange url body;
  match x with
  | WriteFails err => _ ← Client_Close; fail err
  | ReadFails err => _ ← Client_Close; fail err
  | Answer code status body body_err cookies =>
    match readAuthResponse body body_err with
    | inl err => _ ← Client_Close; fail err
    | inr body =>
      if negb (code =? 200) then _ ← Client_Close; fail (ErrText ("auth error " +:+ status))
      else
        match unmarshal body with
        | inl err => fail err
        | inr dtd =>
          _ ← fail_if (ae_Value (dtd_Error dtd) != "") (ErrText ("vpn server error: " +:+ formatAuthError (dtd_Error dtd)));
          _ ← fail_if (ae_Value (dtd_AuthError dtd) != "") (ErrText ("vpn auth error: " +:+ formatAuthError (dtd_AuthError dtd)));
          _ ← when ((dtd_Type dtd == "complete") && (dtd_SessionToken dtd == ""))
                (match List.find (λ c, c.1 == "webvpn") cookies with
                 | Some c => on_client (λ cl, cl <| WebVpnCookie := c.2 |>)
                 | None => mret ()
                 end);
          mret dtd
        end
    end
  end.

Definition tlsServerName (hostPort : string) : error + string :=
  match SplitHostPort (TrimSpace hostPort) with
  | inl err => inl (ErrWrap ("invalid VPN server address " +:+ quote hostPort +:+ ": ") err "")
  | inr (host, _) =>
    let host := TrimSpace host in
    if host == "" then inl (ErrText "VPN server hostname is empty") else inr host
  end.

Definition configuredLocalAddr (c : Client) : option Z := ParseIP4 (TrimSpace (if_Ip4 (LocalInterface c))).

(** [dial]: what the TLS dialer answers for the server name; [agent]: the
    configured client version. *)
Definition InitAuth (dial : string → option error) (agent : string) : AuthM () :=
  _ ← on_client (λ c, c <| WebVpnCookie := "" |>);
  hp ← read (λ w, ap_HostWithPort (Prof (aw_client w)));
  match tlsServerName hp with
  | inl err => fail err
  | inr serverName =>
    match dial serverName with
    | Some err => fail err
    | None =>
      _ ← on_client (λ c, c <| Conn := true |>);
      _ ← on_prof (λ p, p <| ap_AppVersion := agent |>);
      _ ← on_client (λ c, c <| Prof ::= λ p, p <| ap_MacAddress := if_Mac (LocalInterface c) |> |>);
      dtd ← tplPost tplInit "";
      _ ← fail_if (dtd_Type dtd == "") (ErrText "vpn server returned an unrecognized authentication response");
      _ ← on_prof (λ p, p <| ap_AuthPath := if dtd_Action dtd == "" then "/" else dtd_Action dtd |>
                          <| ap_TunnelGroup := dtd_TunnelGroup dtd |> <| ap_GroupAlias := dtd_GroupAlias dtd |>
                          <| ap_ConfigHash := dtd_ConfigHash dtd |>);
      _ ← on_client (λ c, c <| serverGroups := dtd_Groups dtd |>);
      group ← read (λ w, ap_Group (Prof (aw_client w)));
      _ ← fail_if (negb (length (dtd_Groups dtd) =? 0)%nat && negb (bool_decide (group ∈ dtd_Groups dtd)))
            (ErrText ("available user groups are: " +:+ Join (dtd_Groups dtd) " "));
      on_prof (λ p, p <| ap_Initialized := true |>)
    end
  end.

(** The token [PasswordAuth] stores in the session. *)
Definition PasswordAuth : AuthM string :=
  path ← read (λ w, ap_AuthPath (Prof (aw_client w)));
  dtd ← tplPost tplAuthReply path;
  dtd ← (if (dtd_Type dtd == "auth-request") && (ae_Value (dtd_AuthError dtd) == "")
         then tplPost tplAuthReply path else mret dtd);
  if dtd_Type dtd == "auth-request" then
    if ae_Value (dtd_AuthError dtd) != "" then fail (ErrText (formatAuthError (dtd_AuthError dtd)))
    else fail (ErrText (dtd_Message dtd))
  else
    cookie ← read (λ w, WebVpnCookie (aw_client w));
    mret (if cookie == "" then dtd_SessionToken dtd else cookie).

(** ** What a transaction does *)

Definition request_url (p : AuthProfile) (path : string) : string :=
  let url := ap_Scheme p +:+ ap_HostWithPort p +:+ path in
  if ap_SecretKey p == "" then url else url +:+ "?" +:+ ap_SecretKey p.
Definition request_body (typ : request_kind) (p : AuthProfile) : string :=
  match typ with tplInit => templateInit p | tplAuthReply => templateAuthReply p end.

(** An answer without errors. *)
Definition accepted (dtd : DTD) : Prop := ae_Value (dtd_Error dtd) = "" ∧ ae_Value (dtd_AuthError dtd) = "".

(** What a request does to the client, whatever becomes of it. *)
Definition post_ok (typ : request_kind) (path : string) (w : AuthWorld) (o : Outcome DTD) (w' : AuthWorld) : Prop :=
  Prof (aw_client w') = Prof (aw_client w) ∧
  match o with
  | Done dtd =>
    Conn (aw_client w) = true ∧ Conn (aw_client w') = true ∧
    aw_sent w' = aw_sent w ++ [(request_url (Prof (aw_client w)) path, request_body typ (Prof (aw_client w)))] ∧
    accepted dtd ∧ (∃ body, unmarshal body = inr dtd) ∧
    (WebVpnCookie (aw_client w') = WebVpnCookie (aw_client w) ∨ dtd_Type dtd = "complete" ∧ dtd_SessionToken dtd = "")
  | Failed _ =>
    (Conn (aw_client w) = false → w' = w) ∧
    (aw_sent w' = aw_sent w ∨
     aw_sent w' = aw_sent w ++ [(request_url (Prof (aw_client w)) path, request_body typ (Prof (aw_client w)))])
  | Crashed => False
  end.

Lemma wp_tplPost typ path w : wp (tplPost typ path) (post_ok typ path w) w.
Proof.
  unfold tplPost. wp_steps.
  { split; [done|]. split; [done|by left]. }
  all: assert (Hc : Conn (aw_client w) = true) by by destruct (Conn (aw_client w)).
  { split; [done|]. split; [congruence|by left]. }
  apply wp_intro. intros w1 o1 Hx. unfold next_exchange in Hx.
  fold (request_url (Prof (aw_client w)) path) in Hx. fold (request_body typ (Prof (aw_client w))) in Hx.
  set (sent := (request_url (Prof (aw_client w)) path, request_body typ (Prof (aw_client w)))) in *.
  assert (Hx' : ∃ x, o1 = Done x ∧ aw_client w1 = aw_client w ∧ aw_sent w1 = aw_sent w ++ [sent]).
  { cbn in Hx. destruct (aw_net w); injection Hx as <- <-; eexists; (split; [done|]); done. }
  clear Hx. destruct Hx' as (x & -> & Hcl & Hs).
  assert (Hf : ∀ e, wp (_ ← Client_Close; fail (A:=DTD) e) (post_ok typ path w) w1).
  { intros e. unfold Client_Close, on_client. wp_steps. unfold post_ok; cbn. rewrite Hcl, Hc. split_and!; [done..|by right]. }
  assert (Hf' : ∀ e, post_ok typ path w (Failed e) w1) by (intros e; unfold post_ok; rewrite Hcl, Hc; split_and!; [done..|by right]).
  destruct x as [e|e|code status body body_err cookies]; [apply Hf|apply Hf|].
  destruct (readAuthResponse body body_err) as [e|body'] ; [apply Hf|].
  destruct (code =? 200); cbn [negb]; [|apply Hf].
  destruct (unmarshal body') as [e|dtd] eqn:Eu; [apply wp_fail, Hf'|].
  wp_steps; [apply Hf'|apply Hf'|..].
  all: assert (Ha : accepted dtd) by (split; apply eqb_true, negb_false_iff; assumption).
  - match goal with H : _ && _ = true |- _ => apply andb_true_iff in H as [Ht%eqb_true Hk%eqb_true] end. destruct (List.find _ cookies) as [[k v]|].
    + unfold on_client. wp_steps. unfold post_ok; cbn. rewrite Hcl. split_and!; eauto.
    + wp_steps. unfold post_ok. rewrite Hcl. split_and!; eauto.
  - unfold post_ok. rewrite Hcl. split_and!; eauto.
Qed.

(** The reply [PasswordAuth] sends, and what it may end in. *)
Definition auth_request (w : AuthWorld) : string * string :=
  (request_url (Prof (aw_client w)) (ap_AuthPath (Prof (aw_client w))), templateAuthReply (Prof (aw_client w))).

Definition auth_ok (w : AuthWorld) (o : Outcome string) (w' : AuthWorld) : Prop :=
  Prof (aw_client w') = Prof (aw_client w) ∧
  (∃ n, (n ≤ 2)%nat ∧ aw_sent w' = aw_sent w ++ replicate n (auth_request w) ∧
    (Conn (aw_client w) = false → n = 0%nat) ∧ (∀ token, o = Done token → n ≠ 0%nat)) ∧
  o ≠ Crashed ∧
  (∀ token, o = Done token → Conn (aw_client w') = true ∧
    ∃ dtd body, unmarshal body = inr dtd ∧ accepted dtd ∧ dtd_Type dtd ≠ "auth-request" ∧
      token = (if WebVpnCookie (aw_client w') == "" then dtd_SessionToken dtd else WebVpnCookie (aw_client w'))).

Lemma auth_failed w e w1 n :
  Prof (aw_client w1) = Prof (aw_client w) → (n ≤ 2)%nat → aw_sent w1 = aw_sent w ++ replicate n (auth_request w) →
  (Conn (aw_client w) = false → n = 0%nat) → auth_ok w (Failed e) w1.
Proof. intros H1 H2 H3 H4. split; [done|]. split; [|done]. by exists n. Qed.

(** The end of [PasswordAuth], after its last answer. *)
Lemma auth_finished w dtd w1 n :
  Prof (aw_client w1) = Prof (aw_client w) → (n ≤ 2)%nat → n ≠ 0%nat → aw_sent w1 = aw_sent w ++ replicate n (auth_request w) →
  Conn (aw_client w) = true → Conn (aw_client w1) = true → accepted dtd → (∃ body, unmarshal body = inr dtd) →
  wp (if dtd_Type dtd == "auth-request" then
        if ae_Value (dtd_AuthError dtd) != "" then fail (ErrText (formatAuthError (dtd_AuthError dtd)))
        else fail (ErrText (dtd_Message dtd))
      else
        cookie ← read (λ w, WebVpnCookie (aw_client w));
        mret (if cookie == "" then dtd_SessionToken dtd else cookie)) (auth_ok w) w1.
Proof.
  intros HP Hn Hn0 Hs Hc Hc1 Ha [body Hb]. destruct (dtd_Type dtd == "auth-request") eqn:Et.
  - destruct (ae_Value (dtd_AuthError dtd) != ""); apply wp_fail, (auth_failed w _ _ n); congruence.
  - wp_steps. split; [done|]. split; [|split; [done|]].
    + exists n. split_and!; [done..|congruence|done].
    + intros token [= <-]. split; [done|]. exists dtd, body. split_and!; [done..|by apply eqb_false|done].
Qed.

Lemma wp_PasswordAuth w : wp PasswordAuth (auth_ok w) w.
Proof.
  unfold PasswordAuth. wp_steps.
  eapply wp_mono; [apply wp_tplPost|]. intros o1 w1 [HP1 H1].
  change (request_url _ _, request_body tplAuthReply _) with (auth_request w) in H1.
  destruct o1 as [dtd|e|]; [| |done].
  2:{ destruct H1 as [Hc [Hs|Hs]].
      - apply (auth_failed w e w1 0); [done|lia|by rewrite app_nil_r|done].
      - apply (auth_failed w e w1 1); [done|lia|done|]. intros H0. exfalso. rewrite (Hc H0) in Hs.
        apply (f_equal length) in Hs. rewrite length_app in Hs. cbn in Hs. lia. }
  destruct H1 as (Hc & Hc1 & Hs & Ha & Hu & _).
  destruct ((dtd_Type dtd == "auth-request") && (ae_Value (dtd_AuthError dtd) == "")).
  2:{ wp_steps. apply (auth_finished w dtd w1 1); try done; lia. }
  eapply wp_bind, wp_mono; [apply wp_tplPost|]. intros o2 w2 [HP2 H2].
  rewrite HP1 in H2, HP2. change (request_url _ _, request_body tplAuthReply _) with (auth_request w) in H2.
  destruct o2 as [dtd2|e|]; [| |done].
  - destruct H2 as (_ & Hc2 & Hs2 & Ha2 & Hu2 & _). apply (auth_finished w dtd2 w2 2); try done; try lia.
    by rewrite Hs2, Hs, <-(assoc_L (++)).
  - destruct H2 as [_ [Hs2|Hs2]]; [apply (auth_failed w e w2 1)|apply (auth_failed w e w2 2)]; try done; try congruence; try lia.
    all: by rewrite Hs2, Hs, <-?(assoc_L (++)).
Qed.

End auth.

(** ** Special characters in credentials *)

Definition demo_auth_profile : AuthProfile :=
  mkAuthProfile "vpn.example.com" "alice" "secret" "staff" "" true true [] [] [] 0 false "4.10.07062" "https://vpn.example.com"
    "vpn.example.com:443" "https://" "/" "" "" "" "" "host" "linux-64" "" "".
Definition with_credentials (user password : string) : AuthProfile :=
  demo_auth_profile <| ap_Username := user |> <| ap_Password := password |>.

(** The text between the two fields of the reply. *)
Definition between_fields : string := "</username>" +:+ nl +:+ "        <password>".

(** The credentials go into the XML request unescaped: for any texts, the
    user [a] with the password [b</password>...] and the user that contains
    the rest send the same request, so the server cannot tell which fields it
    was given, and a password with a markup character is not sent as it is. *)
Lemma credentials_not_escaped a b c :
  templateAuthReply (with_credentials a (b +:+ between_fields +:+ c)) =
  templateAuthReply (with_credentials (a +:+ between_fields +:+ b) c).
Proof. unfold templateAuthReply, between_fields. cbn -[String.append]. rewrite !str_app_assoc. reflexivity. Qed.

(** A server that asks twice, then completes with a cookie. *)
Definition demo_dtd (type : string) : DTD :=
  mkDTD type "" (mkAuthError "" "") "again" (mkAuthError "" "") "" [] "" "" "".
Definition demo_unmarshal (body : string) : error + DTD := inr (demo_dtd body).
Definition demo_auth : AuthWorld :=
  mkAuthWorld (mkClient demo_auth_profile true "" (mkInterface "" "" "" "") [])
    [Answer 200 "200 OK" "auth-request" None []; Answer 200 "200 OK" "complete" None [("webvpn", "T0")]] [].

