(* ===== verification/Tunnel.v ===== *)
(** * Setting a tunnel up and taking it down
    (src/internal/anyconnect/tunnel/tunnel.go, the life of a device in tun.go,
    src/internal/anyconnect/rpc/connect.go)

    The world [Link] is one connection attempt: the authentication client, the
    session, the TUN device, the network manager and the controller that owns
    the last two once packets flow.  What the server, the kernel and the
    libraries answer is the environment [Env].

    The client is shared by the goroutine that connects and the one that
    cancels: [gap] is what the other one may do while this one waits, and a
    method call on the connection after the other one took it away is a nil
    dereference, which kills the process ([Crashed]). *)

From S2P Require Import Prelude GoStrings NetIP NetURL OsNet Buffer Session DynRoutes Auth Types Router Vpn.

Open Scope go_scope.
Open Scope Z_scope.

(** ** Parameters of the tunnel *)

Definition defaultMTU : Z := 1399.

Definition effectiveMTU (serverMTU profileMTU : Z) : error + Z :=
  let profileMTU := if profileMTU <=? 0 then defaultMTU else profileMTU in
  if (profileMTU <? 576) || (9000 <? profileMTU) then inl (ErrText ("invalid profile MTU " +:+ Itoa profileMTU))
  else if serverMTU <=? 0 then inr profileMTU
  else if (serverMTU <? 576) || (9000 <? serverMTU) then inl (ErrText ("invalid server MTU " +:+ Itoa serverMTU))
  else if serverMTU <? profileMTU then inr serverMTU
  else inr profileMTU.

Definition tunnel_serverName (hostPort : string) : error + string :=
  match SplitHostPort (TrimSpace hostPort) with
  | inl err => inl (ErrWrap ("invalid VPN server address " +:+ quote hostPort +:+ ": ") err "")
  | inr (host, _) => if host == "" then inl (ErrText "VPN server hostname is empty") else inr host
  end.

(** [applyProfileOverridesWithProfile] for a profile that is not nil. *)
Definition applyProfileOverrides (profile : AuthProfile) (c : ConnSession) : ConnSession :=
  let '(serverInclude, serverExclude, c) :=
    if negb (ap_AcceptServerRoutes profile)
    then ([], [], c <| DynamicSplitTunneling := false |> <| DynamicSplitIncludeDomains := [] |>
                    <| DynamicSplitExcludeDomains := [] |> <| UseDefaultRouteWhenEmpty := false |>)
    else (SplitInclude c, SplitExclude c, c) in
  let merged := MergeRouteLists serverInclude serverExclude (ap_CustomInclude profile) (ap_CustomExclude profile) in
  let c := c <| SplitInclude := rl_Include merged |> <| SplitExclude := rl_Exclude merged |> in
  if negb (ap_ApplyDNS profile) then c <| DNS := [] |>
  else
    let c := if (0 <? length (ap_DNSOverrides profile))%nat then c <| DNS := ap_DNSOverrides profile |> else c in
    if (length (SplitInclude c) =? 0)%nat then c <| UseDefaultRouteWhenEmpty := ap_AcceptServerRoutes profile |>
    else c <| UseDefaultRouteWhenEmpty := false |>.

(** ** The environment of an attempt *)

Inductive dtls_end := DtlsSignalled (connected : bool) | DtlsSessionClosed | DtlsTimedOut.

Record Env := mkEnv {
  e_dtls_version : Z * Z;                         (* pion's DTLS 1.2 version bytes *)
  e_random : error + list Z;                      (* 46 random bytes *)
  e_write : option error;
  e_response : error + (Z * string * Header);     (* code, status, headers *)
  e_NoDTLS : bool;
  e_post_auth : string → option (string * string);
  e_local : string; e_remote : string; e_cipher : string;
  e_tun : error + string;                         (* the interface's name *)
  e_underlay : error + UnderlaySnapshot;
  e_interface : error + OsNet.LocalInterface;
  e_set : Config → option error;                  (* the network manager's Set *)
  e_dtls : dtls_end;
  e_manager_close : option error; e_dev_close : option error; e_conn_close : option error;
  e_now : string;
}.

Inductive resource := Absent | Opened | Released.
#[export] Instance resource_eq_dec : EqDecision resource.
Proof. solve_decision. Defined.

Record Link := mkLink {
  ln_client : Client;
  ln_sess : Session;
  ln_cs : option ConnSession;
  ln_dev : resource;
  ln_manager : resource;
  ln_controller : string;          (* "" before there is one *)
  ln_workers : bool;               (* the TLS channel runs *)
  ln_net : list exchange;          (* what is to come of the next requests *)
}.
#[export] Instance Link_eta : Eta Link := λ r,
  mkLink (ln_client r) (ln_sess r) (ln_cs r) (ln_dev r) (ln_manager r) (ln_controller r) (ln_workers r) (ln_net r).

Definition LinkM := M Link.

Section link.
Context (env : Env).

(** [client.Close]; the error of closing the connection is reported once. *)
Definition auth_Close : LinkM (option error) :=
  conn ← read (λ w, Conn (ln_client w));
  _ ← modify (λ w, w <| ln_client ::= λ c, c <| Conn := false |> |>);
  mret (if conn : bool then e_conn_close env else None).

(** A method call on [client.Conn]. *)
Definition deref_conn : LinkM () := λ w,
  if Conn (ln_client w) then (w, Done ()) else (w, Crashed).

Definition on_session (f : ConnSession → ConnSession) : LinkM () :=
  modify (λ w, w <| ln_cs ::= fmap f |>).
Definition with_session {A} (none : A) (f : ConnSession → A) : LinkM A :=
  read (λ w, match ln_cs w with Some c => f c | None => none end).

Definition record_close (code transport : string) (err : option error) : LinkM () :=
  modify (λ w, w <| ln_cs ::= fmap (RecordClose (e_now env) (ActiveClose (ln_sess w)) code transport err) |>).

(** [manager.Close] and [dev.Close]: the handle is gone whatever they say. *)
Definition close_manager : LinkM (option error) :=
  _ ← modify (λ w, w <| ln_manager ::= λ r, match r with Absent => Absent | _ => Released end |>);
  mret (e_manager_close env).
Definition close_dev : LinkM (option error) :=
  _ ← modify (λ w, w <| ln_dev ::= λ r, match r with Absent => Absent | _ => Released end |>);
  mret (e_dev_close env).

(** [TunnelController.Close] from the close hook, where it has nothing to wait
    for but its workers; its [sync.Once] is the state it leaves. *)
Definition controller_Close : LinkM () :=
  state ← read ln_controller;
  if (state == "") || (state == "Closed") then mret () else
  _ ← on_session (SetLifecycleState "Draining");
  e1 ← close_manager;
  e2 ← close_dev;
  _ ← modify (λ w, w <| ln_controller := "Closed" |> <| ln_workers := false |>);
  _ ← on_session (SetLifecycleState "Closed");
  on_session (SetTunnelError (match e1 with Some e => Some e | None => e2 end)).

(** [cSess.Close]: the body of session.go, then the hook. *)
Definition session_Close : LinkM () := λ w,
  match ln_cs w with
  | None => (w, Done ())
  | Some c =>
    if CloseChan_closed c then (w, Done ()) else
    let sh := Close 0 (e_now env) (mkShared c (ln_sess w) [] false) in
    let w := w <| ln_cs := Some (sh_cs sh) |> <| ln_sess := sh_sess sh |> in
    if sh_panic sh then (w, Crashed)
    else match sh_ran sh with [] => (w, Done ()) | _ => controller_Close w end
  end.

(** [Close] inside [SetCloseHook]: it waits for a worker that [Start] begins
    only afterwards, so [Start] does not come back (Controller.v).  [Crashed]
    stands for the call that never returns. *)
Definition start_hangs : LinkM () := λ w, (w <| ln_controller := "Draining" |>, Crashed).

(** [newTunnelController] and [Start]. *)
Definition startTun : LinkM () :=
  _ ← modify (λ w, w <| ln_controller := "Running" |>);
  closed ← with_session false CloseChan_closed;
  _ ← (if closed : bool then start_hangs else on_session (λ c, c <| closeHook := Some 1%nat |>));
  _ ← on_session SetTunnelDone;
  on_session (SetLifecycleState "Running").

Definition makeMasterSecret : error + list Z :=
  match e_random env with
  | inl err => inl err
  | inr bytes => inr ((e_dtls_version env).1 :: (e_dtls_version env).2 :: bytes)
  end.

(** The request headers, as a list; [initTunnel] stores the secret. *)
Definition initTunnel : LinkM (list (string * string)) :=
  p ← read (λ w, Prof (ln_client w));
  token ← read (λ w, SessionToken (ln_sess w));
  ip4 ← read (λ w, if_Ip4 (LocalInterface (ln_client w)));
  let requestedMTU := if ap_MTU p <=? 0 then defaultMTU else ap_MTU p in
  match makeMasterSecret with
  | inl err => fail (ErrWrap "generate DTLS master secret: " err "")
  | inr secret =>
    _ ← modify (λ w, w <| ln_sess ::= λ s, s <| PreMasterSecret := secret |> |>);
    mret [("X-CSTP-VPNAddress-Type", "IPv4"); ("X-CSTP-MTU", Itoa requestedMTU); ("X-CSTP-Base-MTU", Itoa requestedMTU);
          ("Cookie", "webvpn=" +:+ token); ("X-CSTP-Local-VPNAddress-IP4", ip4);
          ("X-DTLS-Master-Secret", hex_bytes secret);
          ("X-DTLS12-CipherSuite", "ECDHE-ECDSA-AES256-GCM-SHA384:ECDHE-RSA-AES256-GCM-SHA384:ECDHE-ECDSA-AES128-GCM-SHA256:ECDHE-RSA-AES128-GCM-SHA256:AES128-GCM-SHA256")]
  end.

(** [setupTun]: the device, then the manager it is given up without. *)
Definition setupTun : LinkM () :=
  match e_tun env with
  | inl err => fail err
  | inr name =>
    _ ← modify (λ w, w <| ln_dev := Opened |> <| ln_manager := Opened |>);
    on_session (λ c, c <| TunName := name |>)
  end.

(** The failures after the device exists give everything back. *)
Definition release_all (code transport : string) {A} (err : error) : LinkM A :=
  _ ← auth_Close; _ ← close_manager; _ ← close_dev;
  _ ← record_close code transport (Some err); _ ← session_Close; fail err.

Section setup.
Context (gap : LinkM ()).

(** The exchange with the server, up to its headers. *)
Definition negotiate : LinkM Header :=
  conn ← read (λ w, Conn (ln_client w));
  _ ← fail_if (negb conn) (ErrText "authentication client is not connected");
  headers ← initTunnel;
  p ← read (λ w, Prof (ln_client w));
  _ ← fail_if (bool_decide (url_Parse (ap_Scheme p +:+ ap_HostWithPort p +:+ "/CSCOSSLC/tunnel") = None)) (ErrText "NewRequest");
  _ ← deref_conn;
  match e_write env with
  | Some err => _ ← auth_Close; fail err
  | None =>
    match e_response env with
    | inl err => _ ← auth_Close; fail err
    | inr (code, status, header) =>
      _ ← gap;
      if negb (code =? 200) then _ ← auth_Close; fail (ErrText ("tunnel negotiation failed " +:+ status))
      else mret header
    end
  end.

(** The session the headers make. *)
Definition open_session (header : Header) : LinkM () :=
  _ ← modify (λ w, let '(sess, c) := NewConnSession (e_NoDTLS env) (e_post_auth env) 0 (ln_sess w) header in
                   w <| ln_sess := sess |> <| ln_cs := Some c |>);
  p ← read (λ w, Prof (ln_client w));
  match tunnel_serverName (ap_HostWithPort p) with
  | inl err => _ ← auth_Close; fail err
  | inr name =>
    _ ← on_session (λ c, c <| TLSServerName := name |>);
    serverMTU ← with_session 0 MTU;
    match effectiveMTU serverMTU (ap_MTU p) with
    | inl err => _ ← auth_Close; _ ← record_close "invalid_mtu" "tls" (Some err); _ ← session_Close; fail err
    | inr mtu =>
      _ ← on_session (λ c, c <| MTU := mtu |>);
      _ ← deref_conn;
      match SplitHostPort (e_remote env) with
      | inl err => _ ← auth_Close; _ ← session_Close; fail (ErrWrap "parse VPN server socket: " err "")
      | inr (serverAddress, _) =>
        _ ← deref_conn;
        on_session (λ c, applyProfileOverrides p
          (c <| ServerAddress := serverAddress |> <| LocalSocketAddress := e_local env |>
             <| RemoteSocketAddress := e_remote env |> <| Hostname := ap_Host p |> <| TLSCipherSuite := e_cipher env |>))
      end
    end
  end.

(** The device and its configuration. *)
Definition configure : LinkM () :=
  r ← try setupTun;
  match r with
  | inl err => _ ← auth_Close; _ ← session_Close; fail err
  | inr _ =>
    _ ← gap;
    match e_underlay env with
    | inl err => release_all "underlay_snapshot_failed" "network" err
    | inr underlay =>
      _ ← on_session (λ c, c <| Underlay := underlay |> <| LocalAddress := addr_string (us_LocalIPv4 underlay) |>);
      built ← with_session (inl (ErrText "")) (buildOSNetConfig (e_interface env));
      match built with
      | inl err => release_all "net_config_build_failed" "network" err
      | inr netCfg =>
        match e_set env netCfg with
        | Some err => release_all "net_config_apply_failed" "network" err
        | None => mret ()
        end
      end
    end
  end.

(** The packet workers, the TLS channel, which begins by asking its connection
    for the peer, and the wait for the DTLS channel. *)
Definition run_channels : LinkM () :=
  _ ← startTun;
  _ ← deref_conn;
  _ ← modify (λ w, w <| ln_workers := true |>);
  port ← with_session "" DTLSPort;
  if negb (e_NoDTLS env) && (port != "") then
    _ ← gap;
    match e_dtls env with
    | DtlsSignalled true => mret ()
    | DtlsSignalled false => fail (ErrText "DTLS was offered but negotiation failed")
    | DtlsSessionClosed => fail (ErrText "VPN session closed during DTLS negotiation")
    | DtlsTimedOut => fail (ErrText "DTLS negotiation exceeded 25 seconds")
    end
  else mret ().

Definition SetupTunnelWithClient : LinkM () :=
  header ← negotiate;
  _ ← open_session header;
  _ ← configure;
  run_channels.
End setup.
End link.

(** ** The connection object: rpc/connect.go *)

Section connection.
Context (env : Env) (sprintf : string → string → string) (unmarshal : string → error + DTD).
Context (dial : string → option error) (agent : string).
Context (gap : LinkM ()).

(** A computation of the authentication client, on the client of the link. *)
Definition with_auth {A} (m : AuthM A) : LinkM A := λ w,
  let '(aw, o) := m (mkAuthWorld (ln_client w) (ln_net w) []) in
  (w <| ln_client := aw_client aw |> <| ln_net := aw_net aw |>, o).

(** [errors.As] on the errors of crypto/tls, net and context: a certificate
    failure is final, a deadline, a DNS failure or another network error is
    not. *)
Definition isTransientNetworkError (err : error) : bool :=
  if errors_is err TlsVerification then false
  else errors_is err CtxDeadlineExceeded || errors_is err DnsError || errors_is err NetTimeout || errors_is err NetErrClosed.

Definition wrap_stage (stage : string) (retryable : error → bool) {A} (m : LinkM A) : LinkM A :=
  wrap (λ err, ErrConnect stage (retryable err) err) m.

Definition refreshConnectionInterface : LinkM () :=
  match e_interface env with
  | inl err => fail err
  | inr info => modify (λ w, w <| ln_client ::= λ c,
      c <| LocalInterface := mkInterface (li_Name info) (li_IP4 info) (li_MAC info) (li_Gateway info) |> |>)
  end.

Definition host_with_port (host : string) : string := if contains_byte host ":" then host else host +:+ ":443".

Definition Connection_Connect : LinkM () :=
  _ ← wrap_stage "underlay" (λ _, true) refreshConnectionInterface;
  _ ← modify (λ w, w <| ln_client ::= λ c, c <| Prof ::= λ p, p <| ap_HostWithPort := host_with_port (ap_Host p) |> |> |>);
  _ ← wrap_stage "tls" isTransientNetworkError (with_auth (InitAuth sprintf unmarshal dial agent));
  r ← try (token ← with_auth (PasswordAuth sprintf unmarshal);
           modify (λ w, w <| ln_sess ::= λ s, s <| SessionToken := token |> |>));
  match r with
  | inl err => _ ← auth_Close env; fail (ErrConnect "authentication" false err)
  | inr _ =>
    r ← try (SetupTunnelWithClient env gap);
    match r with
    | inl err => _ ← auth_Close env; fail (ErrConnect "tunnel" (isTransientNetworkError err) err)
    | inr _ => mret ()
    end
  end.

(** What the wait for the controller's end comes to. *)
Inductive drain := Drained | DrainCanceled (err : error) | DrainTimedOut.

(** [Connection.Disconnect]: the first error of the teardown, if any. *)
Definition Connection_Disconnect (wait : drain) : LinkM (option error) :=
  _ ← modify (λ w, w <| ln_sess ::= λ s, s <| ActiveClose := true |> |>);
  first ← auth_Close env;
  current ← read (λ w, CSess (ln_sess w));
  match current with
  | None => mret first
  | Some _ =>
    _ ← record_close env "local_requested" "local" None;
    _ ← session_Close env;
    let or_else e := match first with Some f => Some f | None => e end in
    owned ← with_session false TunnelDone;
    manager ← read (λ w, bool_decide (ln_manager w ≠ Absent));
    if owned : bool then
      match wait with
      | Drained => e ← with_session None TunnelError; mret (or_else e)
      | DrainCanceled err => mret (or_else (Some err))
      | DrainTimedOut => if manager : bool then e ← close_manager env; mret (or_else e) else mret first
      end
    else if manager : bool then e ← close_manager env; mret (or_else e)
    else mret first
  end.
End connection.

(** ** The maximum packet size *)

(** The packet size of a tunnel is the smaller of what the profile and the
    server want, within the bounds 576 and 9000 the buffers are made for;
    anything else is refused, and what is not given is 1399 for the profile
    and no limit for the server. *)
Theorem effectiveMTU_bounds serverMTU profileMTU :
  let want := if profileMTU <=? 0 then defaultMTU else profileMTU in
  match effectiveMTU serverMTU profileMTU with
  | inr mtu => minimumPacketMTU ≤ mtu ≤ maximumPacketMTU ∧ minimumPacketMTU ≤ want ≤ maximumPacketMTU ∧
      mtu = (if serverMTU <=? 0 then want else Z.min serverMTU want) ∧
      payloadBufferSize mtu = mtu + packetHeadroom
  | inl _ => ¬ minimumPacketMTU ≤ want ≤ maximumPacketMTU ∨
      (0 < serverMTU ∧ ¬ minimumPacketMTU ≤ serverMTU ≤ maximumPacketMTU)
  end.
Proof.
  cbn zeta. unfold effectiveMTU. set (want := if profileMTU <=? 0 then defaultMTU else profileMTU). clearbody want.
  assert (Hsize : ∀ m, 576 ≤ m ≤ 9000 → payloadBufferSize m = m + packetHeadroom) by apply payloadBufferSize_mtu.
  unfold minimumPacketMTU, maximumPacketMTU.
  destruct (Z.ltb_spec want 576); cbn [orb]; [left; lia|].
  destruct (Z.ltb_spec 9000 want); [left; lia|].
  destruct (Z.leb_spec serverMTU 0); [split_and!; try lia; apply Hsize; lia|].
  destruct (Z.ltb_spec serverMTU 576); cbn [orb]; [right; lia|].
  destruct (Z.ltb_spec 9000 serverMTU); [right; lia|].
  destruct (Z.ltb_spec serverMTU want); split_and!; try lia; apply Hsize; lia.
Qed.

(** ** Nothing is left behind *)

(** The parts of a session that decide how it closes. *)
Definition handles (c : ConnSession) : bool * option nat * bool := (CloseChan_closed c, closeHook c, tunnelDone c).
Definition calm (f : ConnSession → ConnSession) : Prop := ∀ c, handles (f c) = handles c.

Lemma calm_RecordClose now active code transport err : calm (RecordClose now active code transport err).
Proof. intros c. unfold RecordClose. destruct (closeInfo c); [done|]. by destruct active. Qed.

Lemma calm_SetLifecycleState s : calm (SetLifecycleState s).
Proof. intros c. unfold SetLifecycleState. by destruct (s == ""). Qed.

Lemma calm_applyProfileOverrides p : calm (applyProfileOverrides p).
Proof.
  intros c. unfold applyProfileOverrides. destruct (ap_AcceptServerRoutes p); cbn [negb];
    (destruct (ap_ApplyDNS p); cbn [negb]; [|done]);
    (destruct (0 <? length (ap_DNSOverrides p))%nat); cbn [SplitInclude]; by destruct (_ =? 0)%nat.
Qed.

Lemma NewConnSession_open NoDTLS post id sess h :
  let '(s, c) := NewConnSession NoDTLS post id sess h in
  handles c = (false, None, false) ∧ CSess s = Some id ∧ SessChan_closed s = false.
Proof.
  unfold NewConnSession. cbn -[split_byte header_Get header_Values].
  destruct (if _ == _ then _ else _) as [[inc exc]|]; [|done]. by destruct (inc == ""), (exc == "").
Qed.

(** A session that is open and not yet owned by a controller; the device and
    its manager are in state [r]. *)
Definition open_link (r : resource) (w : Link) : Prop :=
  (∃ c, ln_cs w = Some c ∧ handles c = (false, None, false)) ∧
  CSess (ln_sess w) = Some 0%nat ∧ SessChan_closed (ln_sess w) = false ∧
  ln_controller w = "" ∧ ln_workers w = false ∧ ln_dev w = r ∧ ln_manager w = r.

(** A session that carries packets. *)
Definition running (w : Link) : Prop :=
  (∃ c, ln_cs w = Some c ∧ handles c = (false, Some 1%nat, true)) ∧
  CSess (ln_sess w) = Some 0%nat ∧ SessChan_closed (ln_sess w) = false ∧
  ln_controller w = "Running" ∧ ln_dev w = Opened ∧ ln_manager w = Opened.

(** No session is open. *)
Definition ended (w : Link) : Prop :=
  CSess (ln_sess w) = None ∧ (∀ c, ln_cs w = Some c → CloseChan_closed c = true) ∧
  ln_workers w = false ∧ ln_dev w ≠ Opened ∧ ln_manager w ≠ Opened.

Section teardown.
Context (env : Env).
Implicit Types w : Link.

Lemma wp_on_session_open f r (Q : Outcome () → Link → Prop) w :
  calm f → open_link r w → (∀ w', open_link r w' → ln_client w' = ln_client w → Q (Done ()) w') → wp (on_session f) Q w.
Proof.
  intros Hf ((c & Hc & Hh) & H) HQ. unfold on_session. apply wp_modify, HQ; [|done].
  split; [|exact H]. exists (f c). cbn. rewrite Hc. split; [done|]. by rewrite Hf.
Qed.

Lemma wp_auth_Close (Q : Outcome (option error) → Link → Prop) w :
  (∀ e, Q (Done e) (w <| ln_client ::= λ c, c <| Conn := false |> |>)) → wp (auth_Close env) Q w.
Proof. intros H. unfold auth_Close. wp_steps. apply H. Qed.

Lemma wp_record_close_open code transport err r (Q : Outcome () → Link → Prop) w :
  open_link r w → (∀ w', open_link r w' → ln_client w' = ln_client w → Q (Done ()) w') →
  wp (record_close env code transport err) Q w.
Proof.
  intros H HQ. unfold record_close.
  apply (wp_on_session_open (RecordClose (e_now env) (ActiveClose (ln_sess w)) code transport err) r); [|done|exact HQ].
  apply calm_RecordClose.
Qed.

(** Closing a session without a controller only ends the session. *)
Lemma wp_session_Close_open r (Q : Outcome () → Link → Prop) w :
  open_link r w → r ≠ Opened →
  (∀ w', ended w' → ln_client w' = ln_client w → ln_dev w' = r → Q (Done ()) w') → wp (session_Close env) Q w.
Proof.
  intros ((c & Hc & [= Hh1 Hh2 Hh3]) & Hs & Ho & Hk & Hw & Hd & Hm) Hr HQ. unfold wp, session_Close.
  rewrite Hc, Hh1. destruct (Close_alone 0 (e_now env) c (ln_sess w) [] Hh1 Hs Ho) as (P1 & P2 & P3 & _ & _ & _ & P7).
  set (sh := Close _ _ _) in *. clearbody sh. rewrite P1, P2, Hh2. cbn. apply HQ; [|done|done].
  unfold ended; cbn. rewrite P7. split_and!; [done| |done|congruence|congruence]. intros c' [= <-]. done.
Qed.

(** Closing one with a controller closes what the controller owns. *)
Lemma wp_session_Close_running (Q : Outcome () → Link → Prop) w :
  running w → (∀ w', ended w' → ln_client w' = ln_client w → (∃ c, ln_cs w' = Some c ∧ tunnelDone c = true) → Q (Done ()) w') →
  wp (session_Close env) Q w.
Proof.
  intros ((c & Hc & [= Hh1 Hh2 Hh3]) & Hs & Ho & Hk & Hd & Hm) HQ. unfold wp, session_Close.
  rewrite Hc, Hh1. destruct (Close_alone 0 (e_now env) c (ln_sess w) [] Hh1 Hs Ho) as (P1 & P2 & P3 & P4 & _ & _ & P7).
  set (sh := Close _ _ _) in *. clearbody sh. rewrite P1, P2, Hh2. cbn [app option_list].
  set (w1 := w <| ln_cs := Some (sh_cs sh) |> <| ln_sess := sh_sess sh |>).
  assert (Hw : wp (controller_Close env) Q w1); [|exact Hw].
  unfold controller_Close. wp_steps. rewrite (Hk : ln_controller w1 = "Running"). cbn [String.eqb orb Ascii.eqb Bool.eqb].
  change (("Running" == "") || ("Running" == "Closed")) with false. cbn iota.
  unfold on_session, close_manager, close_dev. wp_steps. apply HQ.
  - unfold ended; cbn. rewrite Hd, Hm, P7. split_and!; try done. by intros c' [= <-].
  - done.
  - eexists; split; [reflexivity|]. cbn. rewrite P4. exact Hh3.
Qed.
End teardown.

(** How a setup that nobody interrupts ends. *)
Definition settled (w : Link) : Prop := ended w ∨ open_link Absent w ∨ open_link Released w ∨ running w.

Section setup_spec.
Context (env : Env).
Implicit Types w : Link.

Lemma wp_release_all code transport err (Q : Outcome () → Link → Prop) w :
  open_link Opened w → (∀ w', ended w' → Q (Failed err) w') → wp (release_all env code transport (A:=()) err) Q w.
Proof.
  intros H HQ. unfold release_all. wp_steps. apply wp_auth_Close. intros _.
  unfold close_manager, close_dev. wp_steps.
  eapply (wp_record_close_open _ _ _ _ Released).
  - destruct H as (? & ? & ? & ? & ? & Hd & Hm). unfold open_link; cbn. rewrite Hd, Hm. done.
  - intros w' H' _. wp_steps. eapply wp_session_Close_open; [exact H'|done|]. intros w2 H2 _ _. wp_steps. by apply HQ.
Qed.

Lemma wp_initTunnel (Q : Outcome (list (string * string)) → Link → Prop) w :
  (∀ o w', ln_cs w' = ln_cs w → ln_client w' = ln_client w → CSess (ln_sess w') = CSess (ln_sess w) →
     ln_dev w' = ln_dev w → ln_manager w' = ln_manager w → ln_controller w' = ln_controller w → ln_workers w' = ln_workers w →
     o ≠ Crashed → Q o w') → wp (initTunnel env) Q w.
Proof.
  intros HQ. unfold initTunnel. wp_steps. destruct (makeMasterSecret env); wp_steps; by apply HQ.
Qed.

(** A link before the tunnel is negotiated. *)
Definition fresh_link (w : Link) : Prop :=
  ln_cs w = None ∧ CSess (ln_sess w) = None ∧ ln_controller w = "" ∧ ln_workers w = false ∧
  ln_dev w = Absent ∧ ln_manager w = Absent.

Lemma fresh_ended w : fresh_link w → ended w.
Proof. intros (H1 & H2 & _ & H4 & H5 & H6). unfold ended. rewrite H1, H2, H4, H5, H6. done. Qed.

Lemma wp_negotiate (Q : Outcome Header → Link → Prop) w :
  fresh_link w →
  (∀ h w', fresh_link w' → Conn (ln_client w') = true → Prof (ln_client w') = Prof (ln_client w) → Q (Done h) w') →
  (∀ e w', fresh_link w' → Q (Failed e) w') → wp (negotiate env (mret ())) Q w.
Proof.
  intros H HD HF. unfold negotiate. wp_steps; [by apply HF|].
  assert (Hc : Conn (ln_client w) = true) by by destruct (Conn (ln_client w)).
  apply wp_initTunnel. intros o w1 E1 E2 E3 E4 E5 E6 E7 Ho.
  assert (H1 : fresh_link w1) by (unfold fresh_link in *; rewrite E1, E3, E4, E5, E6, E7; done).
  destruct o as [headers|e|]; [|by apply HF|done]. wp_steps; [by apply HF|].
  unfold deref_conn, wp at 1. rewrite E2, Hc. cbn [fst snd].
  assert (Hf : ∀ e, wp (_ ← auth_Close env; fail (A:=Header) e) Q w1).
  { intros e. wp_steps. apply wp_auth_Close. intros _. wp_steps. by apply HF. }
  destruct (e_write env) as [e|]; [apply Hf|].
  destruct (e_response env) as [e|[[code status] header]]; [apply Hf|]. wp_steps.
  destruct (code =? 200); cbn [negb]; [|apply Hf]. wp_steps. apply HD; [done|congruence|congruence].
Qed.

Lemma wp_open_session header (Q : Outcome () → Link → Prop) w :
  fresh_link w → Conn (ln_client w) = true →
  (∀ w', open_link Absent w' → Conn (ln_client w') = true → Q (Done ()) w') →
  (∀ e w', ended w' ∨ open_link Absent w' → Q (Failed e) w') → wp (open_session env header) Q w.
Proof.
  intros (H1 & H2 & H3 & H4 & H5 & H6) Hc HD HF. unfold open_session. wp_steps.
  pose proof (NewConnSession_open (e_NoDTLS env) (e_post_auth env) 0 (ln_sess w) header) as Hn.
  destruct (NewConnSession _ _ _ _ _) as [s c]. destruct Hn as (Hh & Hs & Ho).
  set (w1 := w <| ln_sess := s |> <| ln_cs := Some c |>).
  assert (Hw1 : open_link Absent w1) by (unfold open_link; cbn; split_and!; eauto).
  assert (Hc1 : Conn (ln_client w1) = true) by exact Hc. clearbody w1.
  assert (Hopen : ∀ e w', open_link Absent w' → wp (_ ← session_Close env; fail (A:=()) e) Q w').
  { intros e w' H'. wp_steps. eapply wp_session_Close_open; [exact H'|done|]. intros w2 E2 _ _. wp_steps. apply HF. by left. }
  destruct (tunnel_serverName _) as [e|name].
  { wp_steps. apply wp_auth_Close. intros _. wp_steps. apply HF. right. exact Hw1. }
  wp_steps. eapply (wp_on_session_open (λ c, c <| TLSServerName := name |>)); [done|exact Hw1|]. intros w2 Hw2 E2.
  unfold with_session. wp_steps. destruct (effectiveMTU _ _) as [e|mtu].
  { wp_steps. apply wp_auth_Close. intros _. wp_steps. eapply wp_record_close_open; [exact Hw2|]. intros w3 Hw3 _. apply Hopen, Hw3. }
  wp_steps. eapply (wp_on_session_open (λ c, c <| MTU := mtu |>)); [done|exact Hw2|]. intros w3 Hw3 E3.
  wp_steps. unfold deref_conn at 1, wp at 1. rewrite E3, E2, Hc1. cbn [fst snd].
  destruct (SplitHostPort _) as [e|[host port]].
  { wp_steps. apply wp_auth_Close. intros _. apply Hopen, Hw3. }
  wp_steps. unfold deref_conn, wp at 1. rewrite E3, E2, Hc1. cbn [fst snd].
  eapply wp_on_session_open; [|exact Hw3|]; [intros c'; rewrite calm_applyProfileOverrides; done|].
  intros w4 Hw4 E4. apply HD; [done|congruence].
Qed.

Lemma wp_configure (Q : Outcome () → Link → Prop) w :
  open_link Absent w → Conn (ln_client w) = true →
  (∀ w', open_link Opened w' → Conn (ln_client w') = true → Q (Done ()) w') →
  (∀ e w', ended w' → Q (Failed e) w') → wp (configure env (mret ())) Q w.
Proof.
  intros H Hc HD HF. unfold configure, setupTun. wp_steps. destruct (e_tun env) as [e|name].
  { wp_steps. apply wp_auth_Close. intros _. wp_steps. eapply (wp_session_Close_open _ Absent); [exact H|done|].
    intros w1 H1 _ _. wp_steps. by apply HF. }
  wp_steps. set (w1 := w <| ln_dev := Opened |> <| ln_manager := Opened |>).
  assert (Hw1 : open_link Opened w1) by (destruct H as (? & ? & ? & ? & ? & ? & ?); unfold open_link; cbn; done).
  assert (Hc1 : Conn (ln_client w1) = true) by exact Hc. clearbody w1.
  eapply (wp_on_session_open (λ c, c <| TunName := name |>)); [done|exact Hw1|]. intros w2 Hw2 E2. wp_steps.
  assert (Hg : ∀ code transport e w', open_link Opened w' → wp (release_all env code transport (A:=()) e) Q w').
  { intros code transport e w' H'. apply wp_release_all; [done|]. intros w3 H3. by apply HF. }
  destruct (e_underlay env) as [e|underlay]; [by apply Hg|]. wp_steps.
  eapply wp_on_session_open; [|exact Hw2|]; [done|]. intros w3 Hw3 E3. wp_steps. unfold with_session. wp_steps.
  destruct (match ln_cs w3 with Some _ => _ | None => _ end) as [e|cfg]; [by apply Hg|].
  destruct (e_set env cfg); [by apply Hg|]. wp_steps. apply HD; [done|congruence].
Qed.

Lemma wp_startTun (Q : Outcome () → Link → Prop) w :
  open_link Opened w → (∀ w', running w' → ln_client w' = ln_client w → Q (Done ()) w') → wp startTun Q w.
Proof.
  intros ((c & Hc & [= E1 E2 E3]) & Hs & Ho & Hk & Hw & Hd & Hm) HQ. unfold startTun, with_session. wp_steps.
  cbn. rewrite Hc, E1. unfold on_session. wp_steps. apply HQ; [|done].
  unfold running; cbn. rewrite Hc. split_and!; try done. eexists; split; [reflexivity|]. unfold handles; cbn. by rewrite E1.
Qed.

Lemma wp_SetupTunnel (Q : Outcome () → Link → Prop) w :
  fresh_link w → (∀ w', running w' → Q (Done ()) w') → (∀ e w', settled w' → Q (Failed e) w') →
  wp (SetupTunnelWithClient env (mret ())) Q w.
Proof.
  intros H HD HF. unfold SetupTunnelWithClient. wp_steps. apply wp_negotiate; [done| |].
  2:{ intros e w' H'. apply HF. left. by apply fresh_ended. }
  intros h w1 H1 Hc1 _. wp_steps. apply wp_open_session; [done|done| |].
  2:{ intros e w' [H'|H']; apply HF; [by left|by right; left]. }
  intros w2 H2 Hc2. wp_steps. apply wp_configure; [done|done| |intros e w' H'; apply HF; by left].
  intros w3 H3 Hc3. unfold run_channels. wp_steps. apply wp_startTun; [done|]. intros w4 H4 E4. wp_steps.
  unfold deref_conn, wp at 1. rewrite E4, Hc3. cbn [fst snd]. wp_steps. unfold with_session. wp_steps.
  set (w5 := w4 <| ln_workers := true |>). assert (H5 : running w5) by exact H4. clearbody w5.
  destruct (_ && _); wp_steps; [|by apply HD].
  destruct (e_dtls env) as [[]| |]; wp_steps; [by apply HD|apply HF; by do 3 right..].
Qed.
End setup_spec.

Section connection_spec.
Context (env : Env) (sprintf : string → string → string) (unmarshal : string → error + DTD).
Context (dial : string → option error) (agent : string).
Implicit Types w : Link.

Lemma InitAuth_no_crash aw : (InitAuth sprintf unmarshal dial agent aw).2 ≠ Crashed.
Proof.
  change (wp (InitAuth sprintf unmarshal dial agent) (λ o _, o ≠ Crashed) aw). unfold InitAuth, on_client, on_prof. wp_steps.
  destruct (tlsServerName _); [by wp_steps|]. destruct (dial _); [by wp_steps|]. clear.
  repeat first [progress wp_steps | progress unfold on_client].
  eapply wp_mono; [apply wp_tplPost|]. intros o w' [_ H]. destruct o as [dtd|e|]; [|done|done]. clear.
  repeat first [progress wp_steps | progress unfold on_client]; done.
Qed.

Lemma wp_with_auth {A} (m : AuthM A) (Q : Outcome A → Link → Prop) w :
  fresh_link w → (m (mkAuthWorld (ln_client w) (ln_net w) [])).2 ≠ Crashed →
  (∀ o w', fresh_link w' → o ≠ Crashed → Q o w') → wp (with_auth m) Q w.
Proof.
  intros H Hm HQ. unfold wp, with_auth. destruct (m _) as [aw o]. cbn in *. by apply HQ.
Qed.

(** What a disconnect leaves. *)
Definition torn_down (o : Outcome (option error)) (w : Link) : Prop :=
  (∃ e, o = Done e) ∧ ended w ∧ Conn (ln_client w) = false.

Lemma torn_down_ret e w : ended w → Conn (ln_client w) = false → wp (mret (M:=LinkM) e) torn_down w.
Proof. intros He Hc. apply wp_ret. split; [by exists e|done]. Qed.

Lemma torn_down_manager (g : option error → option error) w :
  ended w → Conn (ln_client w) = false → wp (e ← close_manager env; mret (g e)) torn_down w.
Proof.
  intros (E1 & E2 & E3 & E4 & E5) Hc. unfold close_manager. wp_steps. split; [by eexists|]. split; [|done].
  unfold ended; cbn. split_and!; try done. by destruct (ln_manager w).
Qed.

(** The session's part of a disconnect. *)
Lemma wp_close_recorded (Q : Outcome () → Link → Prop) w :
  open_link Absent w ∨ open_link Released w ∨ running w →
  (∀ w', ended w' → ln_client w' = ln_client w → Q (Done ()) w') →
  wp (_ ← record_close env "local_requested" "local" None; session_Close env) Q w.
Proof.
  intros H HQ. wp_steps.
  assert (Hopen : ∀ r, open_link r w → r ≠ Opened → wp (record_close env "local_requested" "local" None)
    (λ o w', match o with Done _ => wp (session_Close env) Q w' | Failed e => Q (Failed e) w' | Crashed => Q Crashed w' end) w).
  { intros r Hr Hne. eapply wp_record_close_open; [exact Hr|]. intros w2 H2 E2. eapply wp_session_Close_open; [exact H2|done|].
    intros w3 H3 E3 _. apply HQ; [done|congruence]. }
  destruct H as [H|[H|H]]; [by eapply Hopen|by eapply Hopen|].
  unfold record_close. apply wp_modify. apply wp_session_Close_running.
  - destruct H as ((c & Hcs & Hh) & H). split; [|exact H]. cbn. rewrite Hcs. eexists; split; [reflexivity|].
    by rewrite calm_RecordClose.
  - intros w' H' E' _. by apply HQ.
Qed.

Lemma wp_Connection_Disconnect wait w : settled w → wp (Connection_Disconnect env wait) torn_down w.
Proof.
  intros H. unfold Connection_Disconnect. wp_steps. apply wp_auth_Close. intros first. wp_steps.
  set (w1 := _ <| ln_client ::= _ |>).
  assert (H1 : settled w1) by exact H. assert (Hc : Conn (ln_client w1) = false) by done. clearbody w1. clear H.
  destruct H1 as [He|H1]; [rewrite (proj1 He); by apply torn_down_ret|].
  assert (HC : CSess (ln_sess w1) = Some 0%nat) by (destruct H1 as [H|[H|H]]; apply H). rewrite HC.
  pose proof (wp_close_recorded (λ o w2, o = Done () ∧ ended w2 ∧ Conn (ln_client w2) = false) w1 H1) as Hcr.
  specialize (Hcr (λ w' H' E', conj eq_refl (conj H' (eq_trans (f_equal Conn E') Hc)))). unfold wp, mbind, M_bind in Hcr. wp_steps.
  apply wp_intro. intros w2 o2 E2. rewrite E2 in Hcr. destruct o2 as [[]|e|]; [|by destruct Hcr|by destruct Hcr].
  wp_steps. apply wp_intro. intros w3 o3 E3. rewrite E3 in Hcr. cbn in Hcr. destruct Hcr as (-> & H3 & Hc3).
  unfold with_session. wp_steps. destruct (match ln_cs w3 with Some c => TunnelDone c | None => false end).
  - destruct wait; [wp_steps; by apply torn_down_ret|by apply torn_down_ret|].
    destruct (bool_decide _); [by apply torn_down_manager|by apply torn_down_ret].
  - destruct (bool_decide _); [by apply torn_down_manager|by apply torn_down_ret].
Qed.

End connection_spec.

(** ** Concrete attempts *)

Definition demo_env : Env :=
  mkEnv (254, 253) (inr (replicate 46 7)) None (inr (200, "200 OK", demo_header)) false (λ _, None)
    "192.168.1.5:50000" "203.0.113.9:443" "TLS_ECDHE" (inr "flexconnect")
    (inr (zero_snapshot <| us_LocalIPv4 := Addr4 0xc0a80105 |>)) (inr (mkLocalInterface "eth0" "192.168.1.5" "aa" "192.168.1.1" 2))
    (λ _, None) (DtlsSignalled true) None None None "now".

(** The server of Auth.v's example, behind an initial request. *)
Definition demo_link : Link :=
  mkLink (mkClient demo_auth_profile false "" (mkInterface "" "" "" "") []) (mkSession "" [] false None false) None
    Absent Absent "" false
    [Answer 200 "200 OK" "init" None []; Answer 200 "200 OK" "complete" None [("webvpn", "T0")]].

Definition demo_connect (gap : LinkM ()) : Link * Outcome () :=
  Connection_Connect demo_env (λ m _, m) demo_unmarshal (λ _, None) "4.10.07062" gap demo_link.

Lemma demo_link_fresh : fresh_link demo_link.
Proof. by split_and!. Qed.

Lemma demo_connects :
  ∃ w1, Connection_Connect demo_env (λ m _, m) demo_unmarshal (λ _, None) "4.10.07062" (mret ()) demo_link = (w1, Done ()) ∧
    MTU <$> ln_cs w1 = Some 1399.
Proof. eexists. split; [vm_compute; reflexivity|vm_compute; reflexivity]. Qed.


(** A disconnect that comes while the connecting goroutine reads the answer
    of the server takes the connection away from it; the next method call on
    it is a nil dereference and the process dies. *)
Theorem cancel_during_setup_crashes :
  (demo_connect (_ ← Connection_Disconnect demo_env Drained; mret ())).2 = Crashed.
Proof. vm_compute. reflexivity. Qed.

(** Whether everything goes through the tunnel depends on the DNS setting:
    for a server whose only split route the profile excludes, a profile that
    applies DNS gets the default route and one that does not gets none, all
    else being equal. *)
Lemma default_route_depends_on_dns :
  let c := demo_connected <| SplitInclude := ["10.0.0.0/8"] |> <| SplitExclude := [] |> <| UseDefaultRouteWhenEmpty := false |> in
  let profile apply_dns := demo_auth_profile <| ap_CustomExclude := ["10.0.0.0/8"] |> <| ap_ApplyDNS := apply_dns |> in
  let routes apply_dns :=
    match buildOSNetConfig (inl (ErrText "")) (applyProfileOverrides (profile apply_dns) c) with
    | inr cfg => Some (cfg_IncludeRoutes cfg) | inl _ => None end in
  routes true = Some [PrefixFrom IPv4Unspecified 0] ∧ routes false = Some [].
Proof. split; vm_compute; reflexivity. Qed.
