(* ===== verification/Backend.v ===== *)
(** * The VPN backend (src/internal/vpn/anyconnect/backend.go)

    [Backend] owns the connection that is being made, the active one and the
    monitor of the physical network.  Its calls and the goroutines they start
    interleave; each is a thread here, whose program counter says where it
    stands, one step per critical section or channel operation.  The
    connection object of rpc/connect.go is what Tunnel.v shows it to be: an
    attempt that makes a session at some moment and then succeeds or fails,
    and a [Disconnect] that closes the session there is. *)

From S2P Require Import Prelude GoStrings NetIP OsNet NetURL Types Vpn Session.

Open Scope go_scope.
Open Scope Z_scope.

(** ** What the backend tells the daemon *)

Definition underlay_info (u : UnderlaySnapshot) : UnderlayInfo :=
  mkUnderlayInfo (us_InterfaceName u) (us_InterfaceIndex u) (addr_string (us_LocalIPv4 u)) (addr_string (us_Gateway u))
    (us_GatewayInterface u) (us_RouteMetric u) (us_Generation u).

Definition sessionInfo (c : ConnSession) : SessionInfo :=
  mkSessionInfo (ConnectionID c) (ServerAddress c) (LocalSocketAddress c) (RemoteSocketAddress c) (Hostname c)
    (TunName c) (VPNAddress c) (VPNMask c) (DNS c) (MTU c) (SplitInclude c) (SplitExclude c)
    (TLSCipherSuite c) (DTLSCipherSuite c)
    (if IsValid (us_LocalIPv4 (Underlay c)) then Some (underlay_info (Underlay c)) else None).

Definition runtimeDiagnostics (c : ConnSession) : RuntimeDiagnostics :=
  let stats := RuntimeStats c in
  mkRuntimeDiagnostics (si_Underlay (sessionInfo c))
    (Some (mkTunnelRuntime (LifecycleState c) (TLSState c) (DTLSState c) (TUNReads stats) (TUNWrites stats)
             (TUNReadErrors stats) (TUNWriteErrors stats) (DPDSent stats) (DPDResponses stats) (QueueDrops stats) "" "")).

Definition diagnosticNetworkError (err : option error) : string :=
  match err with
  | None => ""
  | Some e => let message := error_msg e in if (512 <? len message)%nat then take_str 512 message else message
  end.

Definition convertNetworkSnapshot (s : UnderlaySnapshot) : NetworkSnapshot :=
  mkNetworkSnapshot (us_InterfaceName s) (us_InterfaceIndex s) (addr_string (us_LocalIPv4 s)) (addr_string (us_Gateway s))
    (us_GatewayInterface s) (us_RouteMetric s) (us_Generation s).

Definition convertNetworkChange (change : UnderlayChange) : BackendChange :=
  mkBackendChange (convertNetworkSnapshot (uc_Before change)) (convertNetworkSnapshot (uc_After change))
    (uc_Reasons change) (uc_RebindRequired change) (diagnosticNetworkError (uc_Err change)).

(** The events; every one names the connection, the attempt, the profile and
    its owner. *)
Definition event_of (type : string) (req : ConnectRequest) : Event :=
  zero_vpn_event <| ev_Type := type |> <| ev_ConnectionID := cq_ConnectionID req |> <| ev_AttemptID := cq_AttemptID req |>
    <| ev_ProfileID := pr_ID (cq_Profile req) |> <| ev_OwnerID := cq_OwnerID req |>.

Definition connected_event (req : ConnectRequest) (session : SessionInfo) : Event :=
  (event_of "connected" req) <| ev_Session := Some session |>.
Definition route_health_event (req : ConnectRequest) (err : option error) : Event :=
  (event_of "health" req) <| ev_Component := "route" |> <| ev_Err := err |>.
Definition network_event (req : ConnectRequest) (change : UnderlayChange) : Event :=
  (event_of "network_change" req) <| ev_Network := Some (convertNetworkChange change) |>.

Definition convert_fault (f : Session.TransportFault) : Vpn.TransportFault :=
  Vpn.mkTransportFault (sf_Code f) (sf_Transport f) (sf_Error f) (sf_Time f).
Definition disconnected_event (req : ConnectRequest) (info : CloseInfo) : Event :=
  (event_of "disconnected" req) <| ev_Close := Some (mkDisconnectInfo (ci_Code info) (ci_Transport info) (ci_Error info)
    (ci_Time info) (convert_fault <$> ci_TransportFaults info)) |>.

(** The host of [buildAuthProfile]: that of the URL, or the text without its
    scheme. *)
Definition auth_host (serverURL : string) : string :=
  let host := match url_Parse serverURL with
              | Some parsed => if url_Host parsed != "" then url_Host parsed else serverURL
              | None => serverURL
              end in
  TrimPrefix (TrimPrefix host "https://") "http://".

(** ** State *)

(** The goroutine that runs [connection.Connect], and what it left in [done]. *)
Inductive dial := NotStarted | Dialing | Dialed (r : option error).

Record Connection := mkConnection {
  co_req : ConnectRequest;
  co_dial : dial;
  co_sess : Session;
  co_cSess : option ConnSession;     (* the session the attempt made, open or closed *)
  co_abandoned : bool;               (* given up while there was nothing to close yet *)
}.
#[export] Instance Connection_eta : Eta Connection := λ r,
  mkConnection (co_req r) (co_dial r) (co_sess r) (co_cSess r) (co_abandoned r).

(** A monitor that is closed also has its context canceled. *)
Record Watch := mkWatch { mo_conn : nat; mo_open : bool }.
#[export] Instance Watch_eta : Eta Watch := λ r, mkWatch (mo_conn r) (mo_open r).

Record Backend := mkBackend {
  be_conns : list Connection;
  be_active : option nat;
  be_connecting : option nat;
  be_monitors : list Watch;
  be_monitor : option nat;           (* with its cancel function *)
  be_monitorID : string;
  be_events : list (nat * Event);    (* all that was sent, with its connection *)
  be_received : nat;                 (* how many of them the daemon took *)
}.
#[export] Instance Backend_eta : Eta Backend := λ r,
  mkBackend (be_conns r) (be_active r) (be_connecting r) (be_monitors r) (be_monitor r) (be_monitorID r)
    (be_events r) (be_received r).

Definition New : Backend := mkBackend [] None None [] None "" [] 0.
Definition fresh_session : Session := mkSession "" [] false None false.

Definition on_conn (c : nat) (f : Connection → Connection) (b : Backend) : Backend := b <| be_conns ::= alter f c |>.

Definition session_open (co : Connection) : bool :=
  match co_cSess co with Some cs => negb (CloseChan_closed cs) | None => false end.

(** The session ends: the cause, then the body of [Close]. *)
Definition end_session (now : string) (cs : ConnSession) (sess : Session) : Session * ConnSession :=
  let sh := Close 0 now (mkShared cs sess [] false) in (sh_sess sh, sh_cs sh).

(** [Connection.Disconnect] on the session there is; without one it only marks
    the close as wanted. *)
Definition rpc_Disconnect (now : string) (co : Connection) : Connection :=
  let sess := (co_sess co) <| ActiveClose := true |> in
  match CSess sess, co_cSess co with
  | Some _, Some cs =>
    let '(sess, cs) := end_session now (RecordClose now (ActiveClose sess) "local_requested" "local" None cs) sess in
    co <| co_sess := sess |> <| co_cSess := Some cs |>
  | _, _ => co <| co_sess := sess |>
  end.

(** [b.events <- event]: a channel of 32. *)
Definition events_capacity : nat := 32.
Definition send (c : nat) (event : Event) (b : Backend) : option Backend :=
  if (length (be_events b) - be_received b <? events_capacity)%nat
  then Some (b <| be_events ::= λ l, l ++ [(c, event)] |>) else None.

(** ** Critical sections *)

(** The first one of [Connect]: the new connection and the one it replaces. *)
Definition begin_connect (req : ConnectRequest) (b : Backend) : option (Backend * nat * option nat) :=
  match be_connecting b with
  | Some _ => None
  | None =>
    let c := length (be_conns b) in
    Some (b <| be_conns ::= λ l, l ++ [mkConnection req NotStarted fresh_session None false] |>
            <| be_active := None |> <| be_connecting := Some c |>, c, be_active b)
  end.

Definition clearConnecting (c : nat) (b : Backend) : Backend :=
  if bool_decide (be_connecting b = Some c) then b <| be_connecting := None |> else b.

Definition stopUnderlayMonitorLocked (b : Backend) : Backend :=
  let b := match be_monitor b with Some m => b <| be_monitors ::= alter (λ w, w <| mo_open := false |>) m |> | None => b end in
  b <| be_monitor := None |> <| be_monitorID := "" |>.
Definition stopUnderlayMonitor (b : Backend) : Backend := stopUnderlayMonitorLocked b.
Definition stopMonitorFor (connectionID : string) (b : Backend) : Backend :=
  if (connectionID != "") && (be_monitorID b != connectionID) then b else stopUnderlayMonitorLocked b.

(** A monitor that is there is replaced; [err] is what making the new one says. *)
Definition startUnderlayMonitor (err : option error) (c : nat) (connectionID : string) (b : Backend) : Backend * (error + nat) :=
  let b := match be_monitor b with Some _ => stopUnderlayMonitorLocked b | None => b end in
  match err with
  | Some e => (b, inl e)
  | None =>
    let m := length (be_monitors b) in
    (b <| be_monitors ::= λ l, l ++ [mkWatch c true] |> <| be_monitor := Some m |> <| be_monitorID := connectionID |>, inr m)
  end.

(** ** Threads *)

Inductive thread :=
  (* Connect *)
  | C_start (req : ConnectRequest)
  | C_stale (c : nat) (stale : option nat)
  | C_launch (c : nat)
  | C_select (c : nat)
  | C_cancel (c : nat) (err : error)
  | C_drain (c : nat) (err : error)
  | C_failed (c : nat) (err : error)
  | C_clear (c : nat) (err : error)
  | C_session (c : nat)
  | C_check (c : nat)
  | C_monitor (c : nat) (session : SessionInfo)
  | C_unwatched (c : nat) (err : error)
  | C_activate (c : nat) (session : SessionInfo)
  | C_unwatch (c : nat)
  | C_lost (c : nat)
  | C_announce (c : nat) (session : SessionInfo)
  | ConnectReturned (r : error + SessionInfo)
  (* monitorNetworkHealth *)
  | H_wait (c : nat)
  | H_send (c : nat) (err : option error)
  (* monitorClose *)
  | M_wait (c : nat)
  | M_stop (c : nat)
  | M_send (c : nat)
  (* watchUnderlay *)
  | W_wait (m c : nat)
  | W_send (m c : nat) (change : UnderlayChange)
  | W_stop
  (* Disconnect *)
  | D_start
  | D_stop (connection connecting : option nat)
  | D_connecting (connection connecting : option nat)
  | D_active (connection : option nat) (first : option error)
  | DisconnectReturned (r : option error)
  | Exited.

(** What a step learns from outside: that it may go on, the error of a call,
    which branch of a [select] is taken. *)
Inductive answer :=
  | Proceed
  | Fails (e : error)
  | CtxDone (e : error)
  | TimedOut
  | Reports
  | Changed (change : UnderlayChange).

Definition context_canceled : error := ErrSentinel CtxCanceled "context canceled".

Definition call_error (a : answer) : option error := match a with Fails e => Some e | _ => None end.

Section step.
Context (now : string).

Definition teardown (c : nat) (b : Backend) : Backend := on_conn c (rpc_Disconnect now) b.

(** [disconnectConnection] when the attempt is to be canceled: from here on
    nobody but the attempt itself could close a session it makes later. *)
Definition cancel_attempt (c : nat) (b : Backend) : Backend :=
  on_conn c (λ co, co <| co_abandoned := match co_cSess co, co_dial co with None, Dialing => true | _, _ => co_abandoned co end |>)
    (teardown c b).

Definition current_session (c : nat) (b : Backend) : option ConnSession :=
  co ← be_conns b !! c; if session_open co then co_cSess co else None.
Definition request (c : nat) (b : Backend) : option ConnectRequest := co_req <$> be_conns b !! c.
Definition connection_id (c : nat) (b : Backend) : string := from_option cq_ConnectionID "" (request c b).

(** What the daemon asks for: always of the active connection. *)
Definition activeSession (b : Backend) : option ConnSession := c ← be_active b; current_session c b.
Definition backend_SessionInfo (b : Backend) : option SessionInfo := sessionInfo <$> activeSession b.
Definition backend_Traffic (b : Backend) : option TrafficStats :=
  (λ c, mkTrafficStats (BytesSent (cs_Stat c)) (BytesReceived (cs_Stat c))) <$> activeSession b.
Definition backend_RuntimeDiagnostics (b : Backend) : option RuntimeDiagnostics := runtimeDiagnostics <$> activeSession b.

Definition set_ConnectionID (co : Connection) : Connection :=
  co <| co_cSess ::= fmap (λ cs, cs <| ConnectionID := cq_ConnectionID (co_req co) |>) |>.

Definition is_connecting (c : nat) (b : Backend) : bool := bool_decide (be_connecting b = Some c).

Definition connect_step (a : answer) (t : thread) (b : Backend) : option (Backend * thread * list thread) :=
  match t with
  | C_start req =>
    match begin_connect req b with
    | None => Some (b, ConnectReturned (inl (ErrText "VPN connection attempt already in progress")), [])
    | Some (b, c, stale) => Some (b, C_stale c stale, [])
    end
  | C_stale c None => Some (b, C_launch c, [])
  | C_stale c (Some stale) =>
    Some (teardown stale b,
          match call_error a with
          | Some err => C_clear c (ErrWrap "disconnect lingering VPN connection: " err "")
          | None => C_launch c
          end, [])
  | C_launch c => Some (on_conn c (λ co, co <| co_dial := Dialing |>) b, C_select c, [])
  | C_select c =>
    match a, co_dial <$> be_conns b !! c with
    | CtxDone err, _ => Some (b, C_cancel c err, [])
    | Proceed, Some (Dialed (Some err)) => Some (b, C_failed c err, [])
    | Proceed, Some (Dialed None) => Some (b, C_session c, [])
    | _, _ => None
    end
  | C_cancel c err => Some (cancel_attempt c b, C_drain c err, [])
  | C_drain c err =>
    match a, co_dial <$> be_conns b !! c with
    | TimedOut, _ | Proceed, Some (Dialed _) => Some (b, C_clear c err, [])
    | _, _ => None
    end
  | C_failed c err => Some (teardown c b, C_clear c err, [])
  | C_clear c err => Some (clearConnecting c b, ConnectReturned (inl err), [])
  | C_session c =>
    Some (b, match current_session c b with
             | None => C_clear c (ErrText "vpn connect completed without a connection session")
             | Some _ => C_check c
             end, [])
  | C_check c =>
    if is_connecting c b then
      let b := on_conn c set_ConnectionID b in
      Some (b, C_monitor c (from_option sessionInfo zero_session (co ← be_conns b !! c; co_cSess co)), [])
    else Some (b, C_lost c, [])
  | C_monitor c session =>
    match startUnderlayMonitor (call_error a) c (connection_id c b) b with
    | (b, inl err) => Some (b, C_unwatched c err, [])
    | (b, inr m) => Some (b, C_activate c session, [W_wait m c])
    end
  | C_unwatched c err => Some (teardown c b, C_clear c (ErrWrap "start underlay monitor: " err ""), [])
  | C_activate c session =>
    if is_connecting c b then Some (b <| be_connecting := None |> <| be_active := Some c |>, C_announce c session, [])
    else Some (b, C_unwatch c, [])
  | C_unwatch c => Some (stopMonitorFor (connection_id c b) b, C_lost c, [])
  | C_lost c => Some (teardown c b, ConnectReturned (inl context_canceled), [])
  | C_announce c session =>
    req ← request c b;
    b ← send c (connected_event req session) b;
    Some (b, ConnectReturned (inr session), [H_wait c; M_wait c])
  | _ => None
  end.

(** The goroutines of an established connection: [monitorNetworkHealth], *)
Definition health_step (a : answer) (t : thread) (b : Backend) : option (Backend * thread * list thread) :=
  match t with
  | H_wait c =>
    co ← be_conns b !! c; cs ← co_cSess co;
    match a, NetworkErrors cs with
    | Reports, err :: rest =>
      Some (on_conn c (λ co, co <| co_cSess := Some (cs <| NetworkErrors := rest |>) |>) b, H_send c err, [])
    | Proceed, _ => if CloseChan_closed cs then Some (b, Exited, []) else None
    | _, _ => None
    end
  | H_send c err => req ← request c b; b ← send c (route_health_event req err) b; Some (b, H_wait c, [])
  | _ => None
  end.

(** [monitorClose], *)
Definition monitor_close_step (t : thread) (b : Backend) : option (Backend * thread * list thread) :=
  match t with
  | M_wait c =>
    co ← be_conns b !! c; cs ← co_cSess co;
    if CloseChan_closed cs then Some (b, M_stop c, []) else None
  | M_stop c => Some (stopMonitorFor (connection_id c b) b, M_send c, [])
  | M_send c =>
    co ← be_conns b !! c; cs ← co_cSess co;
    b ← send c (disconnected_event (co_req co) (CloseInfo_ now cs)) b;
    Some (b, Exited, [])
  | _ => None
  end.

(** and [watchUnderlay], which ends after one event. *)
Definition watch_step (a : answer) (t : thread) (b : Backend) : option (Backend * thread * list thread) :=
  match t with
  | W_wait m c =>
    match a with
    | Changed change => Some (b, W_send m c change, [])
    | Proceed => w ← be_monitors b !! m; if mo_open w then None else Some (b, Exited, [])
    | _ => None
    end
  | W_send m c change =>
    match a with
    | Proceed => req ← request c b; b ← send c (network_event req change) b; Some (b, W_stop, [])
    | CtxDone _ => w ← be_monitors b !! m; if mo_open w then None else Some (b, Exited, [])
    | _ => None
    end
  | W_stop => Some (stopUnderlayMonitor b, Exited, [])
  | _ => None
  end.

Definition disconnect_step (a : answer) (t : thread) (b : Backend) : option (Backend * thread * list thread) :=
  match t with
  | D_start => Some (b <| be_active := None |> <| be_connecting := None |>, D_stop (be_active b) (be_connecting b), [])
  | D_stop connection connecting => Some (stopUnderlayMonitor b, D_connecting connection connecting, [])
  | D_connecting connection connecting =>
    match connecting with
    | Some c =>
      if bool_decide (Some c = connection) then Some (b, D_active connection None, [])
      else Some (teardown c b, D_active connection (call_error a), [])
    | None => Some (b, D_active connection None, [])
    end
  | D_active connection first =>
    match connection with
    | Some c => Some (teardown c b, DisconnectReturned (match first with Some e => Some e | None => call_error a end), [])
    | None => Some (b, DisconnectReturned first, [])
    end
  | _ => None
  end.

Definition thread_step (a : answer) (t : thread) (b : Backend) : option (Backend * thread * list thread) :=
  match t with
  | ConnectReturned _ | DisconnectReturned _ | Exited => None
  | C_start _ | C_stale _ _ | C_launch _ | C_select _ | C_cancel _ _ | C_drain _ _ | C_failed _ _ | C_clear _ _
  | C_session _ | C_check _ | C_monitor _ _ | C_unwatched _ _ | C_activate _ _ | C_unwatch _ | C_lost _
  | C_announce _ _ => connect_step a t b
  | D_start | D_stop _ _ | D_connecting _ _ | D_active _ _ => disconnect_step a t b
  | H_wait _ | H_send _ _ => health_step a t b
  | M_wait _ | M_stop _ | M_send _ => monitor_close_step t b
  | W_wait _ _ | W_send _ _ _ | W_stop => watch_step a t b
  end.
End step.

(** ** The backend among its callers, attempts and sessions *)

Record World := mkWorld { wd_b : Backend; wd_threads : list thread }.
#[export] Instance World_eta : Eta World := λ r, mkWorld (wd_b r) (wd_threads r).

Inductive action :=
  | CallConnect (req : ConnectRequest)
  | CallDisconnect                             (* and [Close], which is the same *)
  | Run (i : nat) (now : string) (a : answer)
  | SessionMade (c : nat) (header : Header)    (* the attempt reaches NewConnSession *)
  | SessionWorks (c : nat) (cs : ConnSession)  (* the tunnel changes its session *)
  | DialEnds (c : nat) (r : option error)
  | SessionEnds (c : nat) (now code transport : string) (err : option error)
  | Receive.                                   (* the daemon takes an event *)

Definition act (x : action) (w : World) : option World :=
  match x with
  | CallConnect req => Some (w <| wd_threads ::= λ l, l ++ [C_start req] |>)
  | CallDisconnect => Some (w <| wd_threads ::= λ l, l ++ [D_start] |>)
  | Run i now a =>
    t ← wd_threads w !! i;
    '(b, t, new) ← thread_step now a t (wd_b w);
    Some (mkWorld b (<[i := t]> (wd_threads w) ++ new))
  | SessionMade c header =>
    co ← be_conns (wd_b w) !! c;
    match co_dial co, co_cSess co with
    | Dialing, None =>
      let '(sess, cs) := NewConnSession false (λ _, None) 0 (co_sess co) header in
      Some (w <| wd_b ::= on_conn c (λ co, co <| co_sess := sess |> <| co_cSess := Some cs |>) |>)
    | _, _ => None
    end
  | SessionWorks c cs' =>
    co ← be_conns (wd_b w) !! c; cs ← co_cSess co;
    if bool_decide (CloseChan_closed cs' = CloseChan_closed cs)
    then Some (w <| wd_b ::= on_conn c (λ co, co <| co_cSess := Some cs' |>) |>) else None
  | DialEnds c r =>
    co ← be_conns (wd_b w) !! c;
    match co_dial co, r, co_cSess co with
    | Dialing, None, None => None              (* an attempt succeeds with a session *)
    | Dialing, _, _ => Some (w <| wd_b ::= on_conn c (λ co, co <| co_dial := Dialed r |>) |>)
    | _, _, _ => None
    end
  | SessionEnds c now code transport err =>
    co ← be_conns (wd_b w) !! c; cs ← co_cSess co;
    if CloseChan_closed cs then None else
    let '(sess, cs) := end_session now (RecordClose now (ActiveClose (co_sess co)) code transport err cs) (co_sess co) in
    Some (w <| wd_b ::= on_conn c (λ co, co <| co_sess := sess |> <| co_cSess := Some cs |>) |>)
  | Receive =>
    if (be_received (wd_b w) <? length (be_events (wd_b w)))%nat
    then Some (w <| wd_b ::= λ b, b <| be_received ::= S |> |>) else None
  end.

(** An action that is not possible does nothing. *)
Definition run (xs : list action) : World :=
  foldl (λ w x, default w (act x w)) (mkWorld New []) xs.
