(* ===== verification/BackendInv.v ===== *)
(** * What the backend owns

    The invariant of Backend.v: which thread answers for which connection and
    which monitor, and what the daemon has been told of each connection. *)

From S2P Require Import Prelude GoStrings NetIP OsNet Types Vpn Session Backend.

Open Scope go_scope.
Open Scope nat_scope.

(** ** Connections *)

Definition is_dialed (co : Connection) : bool := match co_dial co with Dialed _ => true | _ => false end.

(** A tunnel that exists, or may come to exist. *)
Definition live (co : Connection) : bool :=
  match co_cSess co with
  | Some cs => negb (CloseChan_closed cs)
  | None => match co_dial co with Dialing => true | _ => false end
  end.

(** The session pointer is set while the session is open. *)
Definition conn_ok (co : Connection) : Prop :=
  match co_cSess co with
  | None => CSess (co_sess co) = None
  | Some cs =>
    co_dial co ≠ NotStarted ∧
    if CloseChan_closed cs then CSess (co_sess co) = None
    else CSess (co_sess co) = Some 0 ∧ SessChan_closed (co_sess co) = false
  end.

(** What every change of a connection but its launch respects. *)
Record mild (co co' : Connection) : Prop := {
  mild_req : co_req co' = co_req co;
  mild_dialed : is_dialed co = true → is_dialed co' = true;
  mild_fresh : co_dial co = NotStarted → co_dial co' = NotStarted;
  mild_live : conn_ok co → live co' = true → live co = true;
  mild_abandoned : co_abandoned co = true → co_abandoned co' = true;
  mild_ok : conn_ok co → conn_ok co';
}.

#[export] Instance mild_reflexive : Reflexive mild.
Proof. by intros co; split. Qed.
#[export] Instance mild_transitive : Transitive mild.
Proof.
  intros co1 co2 co3 [E1 D1 F1 L1 A1 O1] [E2 D2 F2 L2 A2 O2]. split; auto; by rewrite E2.
Qed.

Lemma end_session_spec now cs sess :
  CloseChan_closed cs = false → CSess sess = Some 0 → SessChan_closed sess = false →
  CloseChan_closed (end_session now cs sess).2 = true ∧ CSess (end_session now cs sess).1 = None.
Proof.
  intros H1 H2 H3. unfold end_session. destruct (Close_alone 0 now cs sess [] H1 H2 H3) as (_ & _ & Hc & _ & _ & _ & Es).
  cbn [fst snd]. by rewrite Es.
Qed.

Lemma conn_ok_open co cs :
  conn_ok co → co_cSess co = Some cs → CloseChan_closed cs = false →
  CSess (co_sess co) = Some 0 ∧ SessChan_closed (co_sess co) = false ∧ co_dial co ≠ NotStarted.
Proof. unfold conn_ok. intros H E Ec. rewrite E in H. rewrite Ec in H. tauto. Qed.

Lemma rpc_Disconnect_cases now co :
  conn_ok co →
  (∃ cs sess cs', co_cSess co = Some cs ∧ CloseChan_closed cs = false ∧ CloseChan_closed cs' = true ∧ CSess sess = None ∧
     co_dial co ≠ NotStarted ∧ rpc_Disconnect now co = co <| co_sess := sess |> <| co_cSess := Some cs' |>) ∨
  (CSess (co_sess co) = None ∧ rpc_Disconnect now co = co <| co_sess := (co_sess co) <| ActiveClose := true |> |>).
Proof.
  intros Hok. unfold rpc_Disconnect. cbn [CSess set_field]. destruct (co_cSess co) as [cs|] eqn:E.
  - destruct (CloseChan_closed cs) eqn:Ec.
    + right. unfold conn_ok in Hok. rewrite E, Ec in Hok. destruct Hok as [_ Hok]. cbn. by rewrite Hok.
    + left. destruct (conn_ok_open co cs Hok E Ec) as (H1 & H2 & H3).
      set (cs1 := RecordClose _ _ _ _ _ cs). set (sess1 := (co_sess co) <| ActiveClose := true |>).
      assert (Hc1 : CloseChan_closed cs1 = false) by (etransitivity; [apply RecordClose_frame|done]).
      assert (Hs1 : CSess sess1 = Some 0) by done.
      destruct (end_session_spec now cs1 sess1 Hc1 Hs1 H2) as [E1 E2].
      destruct (end_session now cs1 sess1) as [sess2 cs2].
      rewrite H1. exists cs, sess2, cs2. by split_and!.
  - right. unfold conn_ok in Hok. rewrite E in Hok. cbn. by rewrite Hok.
Qed.

Lemma rpc_Disconnect_mild now co : conn_ok co → mild co (rpc_Disconnect now co).
Proof.
  intros Hok. destruct (rpc_Disconnect_cases now co Hok) as [(cs & sess & cs' & E & Ec & Ec' & Es & Hd & ->)|[Es ->]].
  - split; try done; unfold live, conn_ok; cbn; by rewrite Ec'.
  - by split.
Qed.

(** After a [Disconnect] nothing is left, unless the attempt still runs and has
    made no session. *)
Lemma rpc_Disconnect_leaves now co :
  conn_ok co → live (rpc_Disconnect now co) = true → co_cSess (rpc_Disconnect now co) = None ∧ co_dial co = Dialing.
Proof.
  intros Hok. destruct (rpc_Disconnect_cases now co Hok) as [(cs & sess & cs' & E & Ec & Ec' & Es & Hd & ->)|[Es ->]].
  - unfold live. cbn. by rewrite Ec'.
  - unfold live, conn_ok in *. cbn. destruct (co_cSess co) as [cs|].
    + destruct (CloseChan_closed cs); [done|]. by destruct Hok as (_ & ? & _); simplify_eq.
    + destruct (co_dial co); done.
Qed.

Lemma rpc_Disconnect_closes now co :
  conn_ok co → is_dialed co = true → live (rpc_Disconnect now co) = false.
Proof.
  intros Hok Hd. apply not_true_iff_false. intros Hl. apply rpc_Disconnect_leaves in Hl as [_ E]; [|done].
  unfold is_dialed in Hd. by rewrite E in Hd.
Qed.

Definition flag_abandoned (co : Connection) : Connection :=
  co <| co_abandoned := match co_cSess co, co_dial co with None, Dialing => true | _, _ => co_abandoned co end |>.

Lemma flag_abandoned_mild co : mild co (flag_abandoned co).
Proof.
  split; try done. intros H. unfold flag_abandoned. cbn. destruct (co_cSess co); [done|]. by destruct (co_dial co).
Qed.

Lemma canceled_abandoned now co :
  conn_ok co → live (flag_abandoned (rpc_Disconnect now co)) = true → co_abandoned (flag_abandoned (rpc_Disconnect now co)) = true.
Proof.
  intros Hok Hl. destruct (rpc_Disconnect_leaves now co Hok Hl) as [E Ed].
  unfold flag_abandoned. cbn. rewrite E. unfold live, flag_abandoned in Hl. cbn in Hl. rewrite E in Hl.
  by destruct (co_dial (rpc_Disconnect now co)).
Qed.

(** A change of the session's record that does not touch its end. *)
Lemma session_change_mild co cs cs' :
  co_cSess co = Some cs → CloseChan_closed cs' = CloseChan_closed cs → mild co (co <| co_cSess := Some cs' |>).
Proof.
  intros E Ec. split; try done; unfold live, conn_ok; cbn; rewrite E, Ec; done.
Qed.

Lemma set_ConnectionID_mild co : mild co (set_ConnectionID co).
Proof.
  unfold set_ConnectionID. destruct (co_cSess co) as [cs|] eqn:E.
  - assert (X : co <| co_cSess ::= fmap (λ cs, cs <| ConnectionID := cq_ConnectionID (co_req co) |>) |> =
                co <| co_cSess := Some (cs <| ConnectionID := cq_ConnectionID (co_req co) |>) |>) by (unfold set_field; cbn; by rewrite E).
    rewrite X. by eapply session_change_mild.
  - split; try done; unfold live, conn_ok; cbn; by rewrite E.
Qed.

Lemma session_ends_mild now code transport err co cs :
  conn_ok co → co_cSess co = Some cs → CloseChan_closed cs = false →
  let r := end_session now (RecordClose now (ActiveClose (co_sess co)) code transport err cs) (co_sess co) in
  mild co (co <| co_sess := r.1 |> <| co_cSess := Some r.2 |>).
Proof.
  intros Hok E Ec. destruct (conn_ok_open _ _ Hok E Ec) as (H1 & H2 & H3).
  set (cs1 := RecordClose _ _ _ _ _ cs).
  assert (Hc1 : CloseChan_closed cs1 = false) by (etransitivity; [apply RecordClose_frame|done]).
  destruct (end_session_spec now cs1 (co_sess co) Hc1 H1 H2) as [E1 E2]. cbn zeta.
  destruct (end_session now cs1 (co_sess co)) as [sess' cs']. cbn in E1, E2 |- *.
  split; try done; unfold live, conn_ok; cbn; by rewrite E1.
Qed.

Lemma session_made_mild co header :
  co_dial co = Dialing → co_cSess co = None →
  let r := NewConnSession false (λ _, None) 0 (co_sess co) header in
  mild co (co <| co_sess := r.1 |> <| co_cSess := Some r.2 |>).
Proof.
  intros Ed E. cbn zeta. assert (Hc : CloseChan_closed (NewConnSession false (λ _, None) 0 (co_sess co) header).2 = false).
  { unfold NewConnSession. by destruct (_ == "")%go. }
  split; try done; unfold live, conn_ok; cbn [co_cSess co_dial set_field]; cbn.
  - intros _ _. by rewrite E, Ed.
  - intros _. rewrite Ed. split; [done|]. unfold NewConnSession in *. by destruct (_ == "")%go.
Qed.

Lemma dial_ends_mild co r :
  co_dial co = Dialing → mild co (co <| co_dial := Dialed r |>).
Proof.
  intros Ed. split; try done; unfold live, conn_ok, is_dialed; cbn.
  - by rewrite Ed.
  - intros _. rewrite Ed. by destruct (co_cSess co).
  - destruct (co_cSess co); [|done]. by intros [_ ?].
Qed.

Lemma Forall2_alter {A} (R : A → A → Prop) `{!Reflexive R} (f : A → A) i (l : list A) :
  (∀ x, l !! i = Some x → R x (f x)) → Forall2 R l (alter f i l).
Proof.
  intros H. apply Forall2_lookup. intros j. destruct (decide (i = j)) as [->|Hne].
  - rewrite list_lookup_alter_eq. destruct (l !! j) eqn:E; constructor. by apply H.
  - rewrite list_lookup_alter_ne by done. destruct (l !! j); by constructor.
Qed.

(** ** Threads *)

(** The connection a thread is the only one to speak for: the call of
    [Connect] that made it, and then [monitorClose]. *)
Definition voice (t : thread) : option nat :=
  match t with
  | C_stale c _ | C_launch c | C_select c | C_cancel c _ | C_drain c _ | C_failed c _ | C_clear c _ | C_session c
  | C_check c | C_monitor c _ | C_unwatched c _ | C_activate c _ | C_unwatch c | C_lost c | C_announce c _
  | M_wait c | M_stop c | M_send c => Some c
  | _ => None
  end.

(** What it has told the daemon so far. *)
Definition said (t : thread) : list string :=
  match t with M_wait _ | M_stop _ | M_send _ => ["connected"%string] | _ => [] end.

(** The thread will disconnect the connection. *)
Definition owns (t : thread) (c : nat) : bool :=
  match t with
  | C_stale _ o | D_stop o _ | D_connecting o _ | D_active o _ => bool_decide (o = Some c)
  | C_select c' | C_cancel c' _ | C_failed c' _ | C_session c' | C_check c' | C_monitor c' _ | C_unwatched c' _
  | C_activate c' _ | C_unwatch c' | C_lost c' => bool_decide (c' = c)
  | _ => false
  end.

(** The thread will stop the monitor of the connection. *)
Definition guards (t : thread) (c : nat) : bool :=
  match t with
  | C_activate c' _ | C_unwatch c' | C_announce c' _ | M_wait c' | M_stop c' => bool_decide (c' = c)
  | _ => false
  end.

(** The connections whose attempt a thread has seen come back. *)
Definition came_back (t : thread) : option nat :=
  match t with
  | C_stale _ o | D_stop o _ | D_connecting o _ | D_active o _ => o
  | C_failed c _ | C_session c | C_check c | C_monitor c _ | C_unwatched c _ | C_activate c _ | C_unwatch c | C_lost c
  | C_announce c _ => Some c
  | _ => None
  end.
Definition unlaunched (t : thread) : option nat :=
  match t with C_stale c _ | C_launch c => Some c | _ => None end.

Lemma guards_voice t c : guards t c = true → voice t = Some c.
Proof. destruct t; cbn; try done; intros H; apply bool_decide_eq_true in H; congruence. Qed.

Lemma unlaunched_voice t c : unlaunched t = Some c → voice t = Some c.
Proof. by destruct t. Qed.

(** What the daemon was told of a connection, leaving aside reports on the
    network. *)
Definition main_event (type : string) : bool := (type == "connected")%go || (type == "disconnected")%go.
Definition story (b : Backend) (c : nat) : list string :=
  List.filter main_event (ev_Type ∘ snd <$> List.filter (λ e, e.1 =? c) (be_events b)).
Definition whole_story : list string := ["connected"%string; "disconnected"%string].

Definition dialed (b : Backend) (c : nat) : Prop := ∃ co, be_conns b !! c = Some co ∧ is_dialed co = true.

Record thread_ok (b : Backend) (t : thread) : Prop := {
  ok_voice : ∀ c, voice t = Some c → c < length (be_conns b);
  ok_back : ∀ c, came_back t = Some c → dialed b c;
  ok_unlaunched : ∀ c, unlaunched t = Some c → ∃ co, be_conns b !! c = Some co ∧ co_dial co = NotStarted;
}.

(** ** The invariant *)

Definition covered (b : Backend) (ts : list thread) (c : nat) (co : Connection) : Prop :=
  live co = true → co_abandoned co = false → be_active b = Some c ∨ ∃ t, t ∈ ts ∧ owns t c = true.

Definition guarded (b : Backend) (ts : list thread) : Prop :=
  ∀ m, be_monitor b = Some m → ∃ w, be_monitors b !! m = Some w ∧ be_monitorID b = connection_id (mo_conn w) b ∧
    ∃ t, t ∈ ts ∧ guards t (mo_conn w) = true.

Record backend_inv (b : Backend) (ts : list thread) : Prop := {
  inv_conns : Forall conn_ok (be_conns b);
  inv_threads : ∀ t, t ∈ ts → thread_ok b t;
  inv_active : ∀ c, be_active b = Some c → dialed b c ∧ be_connecting b = None;
  inv_covered : ∀ c co, be_conns b !! c = Some co → covered b ts c co;
  inv_open : ∀ m w, be_monitors b !! m = Some w → mo_open w = true → be_monitor b = Some m;
  inv_guarded : guarded b ts;
  inv_voices : NoDup (omap voice ts);
  inv_said : ∀ t c, t ∈ ts → voice t = Some c → story b c = said t;
  inv_silent : ∀ c, (∀ t, t ∈ ts → voice t ≠ Some c) → story b c = [] ∨ story b c = whole_story;
  inv_events : ∀ e, e ∈ be_events b → e.1 < length (be_conns b);
}.

Lemma backend_inv_perm b ts ts' : ts ≡ₚ ts' → backend_inv b ts → backend_inv b ts'.
Proof.
  intros E [H1 H2 H3 H4 H5 H6 H7 H8 H9 H10]. assert (Hin : ∀ t, t ∈ ts' ↔ t ∈ ts) by (intros t; by rewrite E).
  split; try done.
  - intros t ?%Hin. by apply H2.
  - intros c co Hc Hl Ha. destruct (H4 c co Hc Hl Ha) as [?|(t & Ht & Ho)]; [by left|]. right. exists t. by rewrite Hin.
  - intros m Hm. destruct (H6 m Hm) as (w & Hw & Hid & t & Ht & Hg). exists w. split_and!; [done..|]. exists t. by rewrite Hin.
  - by rewrite <- E.
  - intros t c ?%Hin. by apply H8.
  - intros c Hc. apply H9. intros t Ht. apply Hc. by apply Hin.
Qed.

(** Connections change mildly, the rest of the backend does not. *)
Definition mild_state (b b' : Backend) : Prop :=
  Forall2 mild (be_conns b) (be_conns b') ∧ be_active b' = be_active b ∧ (be_connecting b = None → be_connecting b' = None) ∧
  be_monitors b' = be_monitors b ∧ be_monitor b' = be_monitor b ∧ be_monitorID b' = be_monitorID b ∧
  be_events b' = be_events b.

#[export] Instance mild_state_reflexive : Reflexive mild_state.
Proof. intros b. by split_and!. Qed.

Section mild.
Context (b b' : Backend) (Hm : mild_state b b').
#[local] Set Default Proof Using "Hm".

Lemma mild_length : length (be_conns b') = length (be_conns b).
Proof. symmetry. by eapply Forall2_length, Hm. Qed.

Lemma mild_lookup c co : be_conns b !! c = Some co → ∃ co', be_conns b' !! c = Some co' ∧ mild co co'.
Proof. intros H. by eapply Forall2_lookup_l; [apply Hm|]. Qed.

Lemma mild_lookup_r c co' : be_conns b' !! c = Some co' → ∃ co, be_conns b !! c = Some co ∧ mild co co'.
Proof. intros H. by eapply Forall2_lookup_r; [apply Hm|]. Qed.

Lemma dialed_mild c : dialed b c → dialed b' c.
Proof.
  intros (co & Hc & Hd). destruct (mild_lookup _ _ Hc) as (co' & Hc' & Hco). exists co'. split; [done|].
  by apply (mild_dialed _ _ Hco).
Qed.

Lemma connection_id_mild c : connection_id c b' = connection_id c b.
Proof.
  unfold connection_id, request. destruct (be_conns b !! c) as [co|] eqn:E.
  - destruct (mild_lookup _ _ E) as (co' & -> & Hco). cbn. by rewrite (mild_req _ _ Hco).
  - destruct (be_conns b' !! c) as [co'|] eqn:E'; [|done]. destruct (mild_lookup_r _ _ E') as (co & ? & _). congruence.
Qed.

Lemma thread_ok_mild t : thread_ok b t → thread_ok b' t.
Proof.
  intros [H1 H2 H3]. split.
  - rewrite mild_length. exact H1.
  - intros c Hc. by apply dialed_mild, H2.
  - intros c Hc. destruct (H3 c Hc) as (co & E & Hf). destruct (mild_lookup _ _ E) as (co' & E' & Hco).
    exists co'. split; [done|]. by apply (mild_fresh _ _ Hco).
Qed.

Lemma story_mild c : story b' c = story b c.
Proof. unfold story. by destruct Hm as (_ & _ & _ & _ & _ & _ & ->). Qed.
End mild.

(** A thread moves on in its own business: it gives up no connection that is
    still live, keeps its monitor, and falls silent only when it has said
    nothing. *)
Lemma quiet_move b b' t t' rest :
  backend_inv b (t :: rest) → mild_state b b' → thread_ok b' t' →
  (voice t' = voice t ∧ said t' = said t ∨ voice t' = None ∧ said t = []) →
  (∀ m w, be_monitor b = Some m → be_monitors b !! m = Some w → guards t (mo_conn w) = true → guards t' (mo_conn w) = true) →
  (∀ c co, be_conns b' !! c = Some co → owns t c = true → live co = true → co_abandoned co = false → owns t' c = true) →
  backend_inv b' (t' :: rest).
Proof.
  intros [H1 H2 H3 H4 H5 H6 H7 H8 H9 H10] Hm Hok Hv Hg Ho.
  pose proof Hm as (_ & Ea & Ec & Ems & Em & Ei & Ee).
  split.
  - apply Forall_lookup. intros c co' (co & Hc & Hco)%(mild_lookup_r _ _ Hm). apply (mild_ok _ _ Hco).
    by eapply Forall_lookup_1.
  - intros t0 [->|Ht]%elem_of_cons; [done|]. apply (thread_ok_mild _ _ Hm), H2. by right.
  - intros c. rewrite Ea. intros Hact. destruct (H3 c Hact) as [Hd Hn]. split; [by apply (dialed_mild _ _ Hm)|].
    by apply Ec.
  - intros c co' Hc Hl Ha. rewrite Ea. pose proof Hc as (co & Hco & Hmi)%(mild_lookup_r _ _ Hm).
    destruct (H4 c co Hco) as [?|(t0 & [->|Ht]%elem_of_cons & Ho0)]; [| |by left|right|right].
    + apply (mild_live _ _ Hmi); [|done]. by eapply Forall_lookup_1.
    + apply not_true_iff_false. intros E%(mild_abandoned _ _ Hmi). congruence.
    + exists t'. split; [by left|]. by eapply Ho.
    + exists t0. split; [by right|done].
  - intros m w. rewrite Ems, Em. apply H5.
  - intros m. rewrite Em, Ems, Ei. intros Hmon. destruct (H6 m Hmon) as (w & Hw & Hid & t0 & Ht & Hgt).
    exists w. split; [done|].
    rewrite (connection_id_mild _ _ Hm). split; [done|].
    apply elem_of_cons in Ht as [->|Ht]; [exists t'|exists t0]; (split; [|by eauto]); [by left|by right].
  - cbn [omap list_omap] in H7 |- *. destruct Hv as [[-> _]|[-> _]]; [done|]. destruct (voice t); [|done]. by apply NoDup_cons in H7 as [_ ?].
  - intros t0 c [->|Ht]%elem_of_cons Hc; rewrite (story_mild _ _ Hm).
    + destruct Hv as [[E ->]|[E _]]; [|congruence]. apply H8; [by left|congruence].
    + apply H8; [by right|done].
  - intros c Hc. rewrite (story_mild _ _ Hm). destruct (decide (voice t = Some c)) as [E|E].
    + destruct Hv as [[E' _]|[E' E2]]; [destruct (Hc t'); [by left|congruence]|].
      left. rewrite <- E2. apply H8; [by left|done].
    + apply H9. intros t0 [->|Ht]%elem_of_cons; [done|]. apply Hc. by right.
  - rewrite Ee, (mild_length _ _ Hm). exact H10.
Qed.

(** Threads that have nothing come and go. *)
Definition idle_thread (t : thread) : Prop :=
  voice t = None ∧ came_back t = None ∧ unlaunched t = None ∧ ∀ c, owns t c = false.

Lemma inv_spawn b t ts : idle_thread t → backend_inv b ts → backend_inv b (t :: ts).
Proof.
  intros (Ev & Eb & Eu & Eo) [H1 H2 H3 H4 H5 H6 H7 H8 H9 H10].
  split; try done.
  - intros t0 [->|Ht]%elem_of_cons; [|by apply H2]. split; [by rewrite Ev|by rewrite Eb|by rewrite Eu].
  - intros c co Hc Hl Ha. destruct (H4 c co Hc Hl Ha) as [?|(t0 & Ht & Ho)]; [by left|]. right. exists t0. by split; [right|].
  - intros m Hm. destruct (H6 m Hm) as (w & Hw & Hid & t0 & Ht & Hg). exists w. split_and!; [done..|]. exists t0. by split; [right|].
  - cbn. by rewrite Ev.
  - intros t0 c [->|Ht]%elem_of_cons Hc; [congruence|]. by apply H8.
  - intros c Hc. apply H9. intros t0 Ht. apply Hc. by right.
Qed.

Lemma inv_drop b t ts : idle_thread t → backend_inv b (t :: ts) → backend_inv b ts.
Proof.
  intros (Ev & Eb & Eu & Eo) [H1 H2 H3 H4 H5 H6 H7 H8 H9 H10].
  split; try done.
  - intros t0 Ht. apply H2. by right.
  - intros c co Hc Hl Ha. destruct (H4 c co Hc Hl Ha) as [?|(t0 & [->|Ht]%elem_of_cons & Ho)]; [by left|congruence|].
    right. by exists t0.
  - intros m Hm. destruct (H6 m Hm) as (w & Hw & Hid & t0 & [->|Ht]%elem_of_cons & Hg).
    + apply guards_voice in Hg. congruence.
    + exists w. split_and!; [done..|]. by exists t0.
  - cbn in H7. by rewrite Ev in H7.
  - intros t0 c Ht. apply H8. by right.
  - intros c Hc. apply H9. intros t0 [->|Ht]%elem_of_cons; [congruence|]. by apply Hc.
Qed.

Lemma inv_mild b b' ts : mild_state b b' → backend_inv b ts → backend_inv b' ts.
Proof.
  intros Hm Hi. assert (Hex : idle_thread Exited) by done.
  apply (inv_drop _ Exited); [done|]. apply (quiet_move b _ Exited); try done; [by apply inv_spawn|by left].
Qed.

Lemma inv_stop b ts : backend_inv b ts → backend_inv (stopUnderlayMonitorLocked b) ts.
Proof.
  intros [H1 H2 H3 H4 H5 H6 H7 H8 H9 H10].
  assert (E : ∀ x, stopUnderlayMonitorLocked b = x →
    be_conns x = be_conns b ∧ be_active x = be_active b ∧ be_connecting x = be_connecting b ∧ be_monitor x = None ∧
    be_events x = be_events b ∧
    (∀ m w, be_monitors x !! m = Some w → mo_open w = true → be_monitors b !! m = Some w ∧ be_monitor b ≠ Some m)).
  { intros x <-. unfold stopUnderlayMonitorLocked. destruct (be_monitor b) as [m|]; cbn; split_and!; try done.
    intros m' w. destruct (decide (m = m')) as [->|Hne].
    - rewrite list_lookup_alter_eq. destruct (be_monitors b !! m') as [w0|]; cbn; [|done]. by intros [= <-].
    - rewrite list_lookup_alter_ne by done. split; congruence. }
  destruct (E _ eq_refl) as (E1 & E2 & E3 & E4 & E5 & E6). clear E.
  generalize dependent (stopUnderlayMonitorLocked b). intros x E1 E2 E3 E4 E5 E6.
  assert (Hd : ∀ c, dialed x c ↔ dialed b c) by (intros c; unfold dialed; by rewrite E1).
  assert (Hs : ∀ c, story x c = story b c) by (intros c; unfold story; by rewrite E5).
  split.
  - by rewrite E1.
  - intros t Ht. destruct (H2 t Ht) as [K1 K2 K3]. split; [by rewrite E1| |by rewrite E1]. intros c Hc. by apply Hd, K2.
  - intros c. rewrite E2, E3, Hd. apply H3.
  - intros c co. rewrite E1. unfold covered. rewrite E2. apply H4.
  - intros m w Hw Ho. destruct (E6 m w Hw Ho) as [Hw' Hne]. destruct (Hne (H5 m w Hw' Ho)).
  - intros m. by rewrite E4.
  - done.
  - intros t c. rewrite Hs. apply H8.
  - intros c. rewrite Hs. apply H9.
  - rewrite E5, E1. apply H10.
Qed.

(** Nothing but the threads, where no connection loses its owner. *)
Lemma quiet_step b t t' rest :
  backend_inv b (t :: rest) → thread_ok b t' →
  (voice t' = voice t ∧ said t' = said t ∨ voice t' = None ∧ said t = []) →
  (∀ m w, be_monitor b = Some m → be_monitors b !! m = Some w → guards t (mo_conn w) = true → guards t' (mo_conn w) = true) →
  (∀ c co, be_conns b !! c = Some co → owns t c = true → live co = true → co_abandoned co = false → owns t' c = true) →
  backend_inv b (t' :: rest).
Proof. intros H. by apply quiet_move. Qed.

Lemma head_ok b t rest : backend_inv b (t :: rest) → thread_ok b t.
Proof. intros H. apply (inv_threads _ _ H). by left. Qed.

Lemma stop_conns b : be_conns (stopUnderlayMonitorLocked b) = be_conns b.
Proof. unfold stopUnderlayMonitorLocked. by destruct (be_monitor b). Qed.

Lemma stop_monitor b : be_monitor (stopUnderlayMonitorLocked b) = None.
Proof. unfold stopUnderlayMonitorLocked. by destruct (be_monitor b). Qed.

Lemma thread_ok_conns b b' t : be_conns b' = be_conns b → thread_ok b t → thread_ok b' t.
Proof. intros E [K1 K2 K3]. split; unfold dialed in *; by rewrite E. Qed.

(** The monitor of the connection of [t] is stopped, or there is none. *)
Lemma stop_for_move b t t' c rest :
  backend_inv b (t :: rest) → voice t = Some c → thread_ok b t' →
  (voice t' = voice t ∧ said t' = said t ∨ voice t' = None ∧ said t = []) →
  (∀ c, owns t c = true → owns t' c = true) →
  backend_inv (stopMonitorFor (connection_id c b) b) (t' :: rest).
Proof.
  intros Hi Hv Hok Hs Ho. unfold stopMonitorFor.
  destruct ((connection_id c b != "") && (be_monitorID b != connection_id c b))%go eqn:E.
  - apply (quiet_step b t); try done; [|by eauto]. intros m w Hm Hw Hgt%guards_voice.
    destruct (inv_guarded _ _ Hi m Hm) as (w' & Hw' & Hid & _). simplify_eq.
    apply andb_true_iff in E as [_ E]. rewrite Hid, Hv in *. simplify_eq. by rewrite Prelude.eqb_refl in E.
  - apply (quiet_step _ t); [by apply inv_stop| |done| |by eauto].
    + by apply (thread_ok_conns b), Hok; apply stop_conns.
    + intros m w Hm. by rewrite stop_monitor in Hm.
Qed.

(** A monitor is made where there is none. *)
Lemma start_move b c session rest :
  backend_inv b (C_monitor c session :: rest) → be_monitor b = None →
  let m := length (be_monitors b) in
  backend_inv (b <| be_monitors ::= λ l, l ++ [mkWatch c true] |> <| be_monitor := Some m |> <| be_monitorID := connection_id c b |>)
    (C_activate c session :: W_wait m c :: rest).
Proof.
  intros Hi Hn m. pose proof (head_ok _ _ _ Hi) as Hok.
  assert (Hi' : backend_inv b (C_activate c session :: rest)).
  { apply (quiet_step b (C_monitor c session)); try done; [by destruct Hok|by left]. }
  apply (inv_spawn _ (W_wait m c)) in Hi'; [|done].
  apply (backend_inv_perm _ _ (C_activate c session :: W_wait m c :: rest)) in Hi'; [|by constructor].
  destruct Hi' as [H1 H2 H3 H4 H5 H6 H7 H8 H9 H10]. split; try done.
  - intros t Ht. by apply (thread_ok_conns b), H2.
  - intros m' w. cbn. intros [Hlt|[Hge Hw]]%lookup_app_Some Ho.
    + specialize (H5 _ _ Hlt Ho). congruence.
    + apply list_lookup_singleton_Some in Hw as [? _]. f_equal. unfold m. lia.
  - intros m' [= <-]. exists (mkWatch c true). cbn. split; [by apply list_lookup_middle|]. split; [done|].
    exists (C_activate c session). split; [by left|]. cbn. by apply bool_decide_eq_true.
Qed.

Lemma launch_move b c rest :
  backend_inv b (C_launch c :: rest) →
  backend_inv (on_conn c (λ co, co <| co_dial := Dialing |>) b) (C_select c :: rest).
Proof.
  intros Hi. pose proof (head_ok _ _ _ Hi) as Hok. pose proof Hi as [H1 H2 H3 H4 H5 H6 H7 H8 H9 H10].
  destruct (ok_unlaunched _ _ Hok c eq_refl) as (co & Hco & Hf).
  set (b' := on_conn c _ b).
  assert (Hlen : length (be_conns b') = length (be_conns b)) by apply length_alter.
  assert (Hsame : ∀ c', c' ≠ c → be_conns b' !! c' = be_conns b !! c') by (intros c' ?; by apply list_lookup_alter_ne).
  assert (Hc : be_conns b' !! c = Some (co <| co_dial := Dialing |>)) by (cbn; by rewrite list_lookup_alter_eq, Hco).
  assert (Hd : ∀ c', dialed b c' → dialed b' c').
  { intros c' (co' & E & Ed). destruct (decide (c' = c)) as [->|Hne].
    - simplify_eq. unfold is_dialed in Ed. by rewrite Hf in Ed.
    - exists co'. by rewrite Hsame. }
  assert (Hid : ∀ c', connection_id c' b' = connection_id c' b).
  { intros c'. unfold connection_id, request. destruct (decide (c' = c)) as [->|Hne]; [by rewrite Hc, Hco|by rewrite Hsame]. }
  assert (Hok1 : conn_ok co) by by eapply Forall_lookup_1. unfold conn_ok in Hok1.
  assert (Hno : co_cSess co = None) by (destruct (co_cSess co); [by destruct Hok1|done]).
  split; try done.
  - apply Forall_lookup. intros c' co'. destruct (decide (c' = c)) as [->|Hne].
    + rewrite Hc. intros [= <-]. unfold conn_ok. cbn. by rewrite Hno in *.
    + rewrite Hsame by done. by apply Forall_lookup_1.
  - intros t [->|Ht]%elem_of_cons.
    + split; [|done..]. intros c' [= <-]. rewrite Hlen. by apply (ok_voice _ _ Hok).
    + destruct (H2 t (list_elem_of_further _ _ _ Ht)) as [K1 K2 K3]. split; [by rewrite Hlen|by auto|].
      intros c' Hu. destruct (K3 c' Hu) as (co' & E & Ef). exists co'. rewrite Hsame; [done|]. intros ->.
      cbn in H7. apply NoDup_cons in H7 as [Hnot _]. apply Hnot, list_elem_of_omap. exists t. split; [done|]. by apply unlaunched_voice.
  - intros c' Hact. destruct (H3 c' Hact) as [? ?]. split; [by apply Hd|done].
  - intros c' co' Hc' Hl Ha. destruct (decide (c' = c)) as [->|Hne].
    + right. exists (C_select c). split; [by left|]. by apply bool_decide_eq_true.
    + rewrite Hsame in Hc' by done. destruct (H4 c' co' Hc' Hl Ha) as [?|(t & [->|Ht]%elem_of_cons & Ho)]; [by left|done|].
      right. exists t. by split; [right|].
  - intros m Hm. destruct (H6 m Hm) as (w & Hw & Hi' & t & [->|Ht]%elem_of_cons & Hg); [done|]. exists w.
    split; [done|]. rewrite Hid. split; [done|]. exists t. by split; [right|].
  - intros t c' [->|Ht]%elem_of_cons Hv; [|by apply H8; [right|]]. apply (H8 (C_launch c)); [by left|done].
  - intros c' Hv. apply H9. intros t [->|Ht]%elem_of_cons; [apply (Hv (C_select c)); by left|]. apply Hv. by right.
  - intros e He. rewrite Hlen. by apply H10.
Qed.

Lemma activate_move b c session rest :
  backend_inv b (C_activate c session :: rest) → be_connecting b = Some c →
  backend_inv (b <| be_connecting := None |> <| be_active := Some c |>) (C_announce c session :: rest).
Proof.
  intros Hi Hc. pose proof (head_ok _ _ _ Hi) as Hok. pose proof Hi as [H1 H2 H3 H4 H5 H6 H7 H8 H9 H10].
  assert (Hna : be_active b = None).
  { destruct (be_active b) as [a|] eqn:Ea; [|done]. destruct (H3 a eq_refl) as [_ ?]. congruence. }
  split; try done.
  - intros t Ht. apply (thread_ok_conns b); [done|]. apply elem_of_cons in Ht as [->|Ht]; [by destruct Hok|]. apply H2. by right.
  - intros c' [= <-]. split; [by apply (ok_back _ _ Hok)|done].
  - intros c' co Hc' Hl Ha. cbn. destruct (H4 c' co Hc' Hl Ha) as [?|(t & [->|Ht]%elem_of_cons & Ho)]; [congruence| |].
    + apply bool_decide_eq_true in Ho as ->. by left.
    + right. exists t. by split; [right|].
  - intros m Hm. destruct (H6 m Hm) as (w & Hw & Hid & t & [->|Ht]%elem_of_cons & Hg); exists w; (split; [done|split; [done|]]).
    + exists (C_announce c session). split; [by left|done].
    + exists t. by split; [right|].
  - intros t c' [->|Ht]%elem_of_cons Hv; [|by apply H8; [right|]]. by apply (H8 (C_activate c session)); [left|].
  - intros c' Hv. apply H9. intros t [->|Ht]%elem_of_cons; [apply (Hv (C_announce c session)); by left|]. apply Hv. by right.
Qed.

Lemma story_app b es c :
  story (b <| be_events ::= λ l, l ++ es |>) c =
  story b c ++ List.filter main_event (ev_Type ∘ snd <$> List.filter (λ e, e.1 =? c) es).
Proof. unfold story. cbn. by rewrite List.filter_app, fmap_app, List.filter_app. Qed.

Lemma send_Some c ev b b' : send c ev b = Some b' → b' = b <| be_events ::= λ l, l ++ [(c, ev)] |>.
Proof. unfold send. destruct (_ <? _); [|done]. by intros [= <-]. Qed.

(** Reports on the network are not part of the story. *)
Lemma inv_report b b' c ev ts :
  backend_inv b ts → c < length (be_conns b) → main_event (ev_Type ev) = false → send c ev b = Some b' → backend_inv b' ts.
Proof.
  intros [H1 H2 H3 H4 H5 H6 H7 H8 H9 H10] Hc He ->%send_Some.
  assert (Hs : ∀ c', story (b <| be_events ::= λ l, l ++ [(c, ev)] |>) c' = story b c').
  { intros c'. rewrite story_app. cbn. destruct (c =? c'); cbn; [rewrite He|]; by rewrite app_nil_r. }
  split; try done.
  - intros t Ht. by apply (thread_ok_conns b), H2.
  - intros t c' Ht Hv. rewrite Hs. by apply H8.
  - intros c' Hv. rewrite Hs. by apply H9.
  - intros e [He'|He']%elem_of_app; [by apply H10|]. by apply list_elem_of_singleton in He' as ->.
Qed.

(** The two events of the story, each by the thread that speaks for the
    connection. *)
Lemma tell_move b b' c ev t t' new rest :
  backend_inv b (t :: rest) → voice t = Some c → c < length (be_conns b) → main_event (ev_Type ev) = true →
  send c ev b = Some b' →
  (∀ t0, t0 ∈ t' :: new → thread_ok b t0) → (∀ t0, t0 ∈ t' :: new → ∀ c', voice t0 = Some c' → c' = c ∧ said t0 = said t ++ [ev_Type ev]) →
  (omap voice (t' :: new) = [c] ∨ omap voice (t' :: new) = [] ∧ said t ++ [ev_Type ev] = whole_story) →
  (∀ c', guards t c' = true → ∃ t0, t0 ∈ t' :: new ∧ guards t0 c' = true) → (∀ c', owns t c' = false) →
  backend_inv b' (t' :: new ++ rest).
Proof.
  intros [H1 H2 H3 H4 H5 H6 H7 H8 H9 H10] Hv Hc He ->%send_Some Hok Hsaid Hvoices Hg Ho.
  assert (Hs : ∀ c', story (b <| be_events ::= λ l, l ++ [(c, ev)] |>) c' =
    if decide (c' = c) then said t ++ [ev_Type ev] else story b c').
  { intros c'. rewrite story_app. cbn. destruct (decide (c' = c)) as [->|Hne].
    - rewrite Nat.eqb_refl. cbn. rewrite He. f_equal. by apply H8; [left|].
    - rewrite (proj2 (Nat.eqb_neq c c')) by done. by rewrite app_nil_r. }
  assert (Hnot : ∀ t0, t0 ∈ rest → voice t0 ≠ Some c).
  { cbn in H7. rewrite Hv in H7. apply NoDup_cons in H7 as [Hnot _]. intros t0 Ht E. apply Hnot, list_elem_of_omap. by exists t0. }
  assert (Hin : ∀ t0, t0 ∈ t' :: new ++ rest ↔ t0 ∈ t' :: new ∨ t0 ∈ rest).
  { intros t0. by rewrite app_comm_cons, elem_of_app. }
  split; try done.
  - intros t0 [Ht|Ht]%Hin; apply (thread_ok_conns b); try done; [by apply Hok|]. apply H2. by right.
  - intros c' co Hc' Hl Ha. destruct (H4 c' co Hc' Hl Ha) as [?|(t0 & [->|Ht]%elem_of_cons & Ho0)]; [by left|congruence|].
    right. exists t0. rewrite Hin. auto.
  - intros m Hm. destruct (H6 m Hm) as (w & Hw & Hid & t0 & [->|Ht]%elem_of_cons & Hg0); exists w; (split; [done|split; [done|]]).
    + destruct (Hg _ Hg0) as (t1 & Ht1 & Hg1). exists t1. rewrite Hin. auto.
    + exists t0. rewrite Hin. auto.
  - assert (E : omap voice (t' :: new ++ rest) = omap voice (t' :: new) ++ omap voice rest).
    { rewrite app_comm_cons. apply omap_app. }
    rewrite E. cbn in H7. rewrite Hv in H7. destruct Hvoices as [->|[-> _]]; [done|]. by apply NoDup_cons in H7 as [_ ?].
  - intros t0 c' [Ht|Ht]%Hin Hv0; rewrite Hs.
    + destruct (Hsaid _ Ht _ Hv0) as [-> ->]. by rewrite decide_True.
    + rewrite decide_False by (intros ->; by eapply Hnot). apply H8; [by right|done].
  - intros c' Hc'. rewrite Hs. destruct (decide (c' = c)) as [->|Hne].
    + destruct Hvoices as [E|[_ E]]; [|by right]. exfalso.
      assert (Hx : c ∈ omap voice (t' :: new)) by (rewrite E; by left).
      apply list_elem_of_omap in Hx as (t0 & Ht & Hv0). apply (Hc' t0); [|done]. apply Hin. by left.
    + apply H9. intros t0 [->|Ht]%elem_of_cons; [congruence|]. apply Hc'. apply Hin. by right.
  - intros e [He'|He']%elem_of_app; [by apply H10|]. by apply list_elem_of_singleton in He' as ->.
Qed.

Lemma drop_move b rest :
  backend_inv b (D_start :: rest) →
  backend_inv (b <| be_active := None |> <| be_connecting := None |>) (D_stop (be_active b) (be_connecting b) :: rest).
Proof.
  intros [H1 H2 H3 H4 H5 H6 H7 H8 H9 H10]. split; try done.
  - intros t Ht. apply (thread_ok_conns b); [done|]. apply elem_of_cons in Ht as [->|Ht]; [|apply H2; by right].
    split; [done| |done]. intros c Hc. by apply H3.
  - intros c co Hc Hl Ha. right. destruct (H4 c co Hc Hl Ha) as [E|(t & [->|Ht]%elem_of_cons & Ho)]; [|done|].
    + exists (D_stop (be_active b) (be_connecting b)). split; [by left|]. by apply bool_decide_eq_true.
    + exists t. by split; [right|].
  - intros m Hm. destruct (H6 m Hm) as (w & Hw & Hid & t & [->|Ht]%elem_of_cons & Hg); [done|].
    exists w. split; [done|split; [done|]]. exists t. by split; [right|].
  - intros t c [->|Ht]%elem_of_cons Hv; [done|]. apply H8; [by right|done].
  - intros c Hv. apply H9. intros t [->|Ht]%elem_of_cons; [done|]. apply Hv. by right.
Qed.

Lemma begin_move req b rest :
  backend_inv b (C_start req :: rest) → be_connecting b = None →
  let c := length (be_conns b) in
  backend_inv (b <| be_conns ::= λ l, l ++ [mkConnection req NotStarted fresh_session None false] |>
                 <| be_active := None |> <| be_connecting := Some c |>) (C_stale c (be_active b) :: rest).
Proof.
  intros [H1 H2 H3 H4 H5 H6 H7 H8 H9 H10] Hn c. set (b' := b <| be_conns ::= _ |> <| be_active := None |> <| be_connecting := Some c |>).
  assert (Hlook : ∀ c' co, be_conns b !! c' = Some co → be_conns b' !! c' = Some co) by (intros; by apply lookup_app_l_Some).
  assert (Hnew : be_conns b' !! c = Some (mkConnection req NotStarted fresh_session None false)) by by apply list_lookup_middle.
  assert (Hlen : length (be_conns b') = S c) by (cbn; rewrite length_app; cbn; unfold c; lia).
  assert (Hd : ∀ c', dialed b c' → dialed b' c') by (intros c' (co & E & ?); exists co; auto).
  assert (Hlt : ∀ t c', t ∈ rest → voice t = Some c' → c' < c) by (intros t c' Ht; apply (ok_voice b); apply H2; by right).
  split; try done.
  - apply Forall_app. split; [done|]. by apply Forall_singleton.
  - intros t [->|Ht]%elem_of_cons.
    + split; [intros c' [= <-]; rewrite Hlen; lia| |].
      * intros c' Hc. by apply Hd, H3.
      * intros c' [= <-]. by exists (mkConnection req NotStarted fresh_session None false).
    + destruct (H2 t (list_elem_of_further _ _ _ Ht)) as [K1 K2 K3]. split.
      * intros c' Hv. rewrite Hlen. specialize (K1 c' Hv). unfold c. lia.
      * intros c' Hv. by apply Hd, K2.
      * intros c' Hv. destruct (K3 c' Hv) as (co & E & ?). exists co. auto.
  - intros c' co Hc' Hl Ha. right. cbn in Hc'. apply lookup_app_Some in Hc' as [Hc'|[Hge Hc']].
    + destruct (H4 c' co Hc' Hl Ha) as [E|(t & [->|Ht]%elem_of_cons & Ho)]; [|done|].
      * exists (C_stale c (be_active b)). split; [by left|]. by apply bool_decide_eq_true.
      * exists t. by split; [right|].
    + apply list_lookup_singleton_Some in Hc' as [_ <-]. done.
  - intros m Hm. destruct (H6 m Hm) as (w & Hw & Hid & t & [->|Ht]%elem_of_cons & Hg); [done|].
    exists w. split; [done|]. split; [|exists t; by split; [right|]].
    etransitivity; [exact Hid|]. unfold connection_id, request.
    pose proof (Hlt t _ Ht (guards_voice _ _ Hg)) as Hl. apply lookup_lt_is_Some in Hl as [co E]. by rewrite E, (Hlook _ _ E).
  - cbn. apply NoDup_cons. split; [|done]. intros (t & Ht & Hv)%list_elem_of_omap. specialize (Hlt t c Ht Hv). lia.
  - intros t c' [->|Ht]%elem_of_cons Hv; [|by apply H8; [right|]]. injection Hv as <-.
    unfold story. change (be_events b') with (be_events b).
    replace (List.filter (λ e, e.1 =? c) (be_events b)) with (@nil (nat * Event)); [done|].
    symmetry. clear -H10 c. induction (be_events b) as [|e l IH]; [done|]. cbn [List.filter].
    rewrite (proj2 (Nat.eqb_neq e.1 c)) by (specialize (H10 e (list_elem_of_here _ _)); unfold c; lia).
    apply IH. intros e' He. apply H10. by right.
  - intros c' Hv. apply H9. intros t [->|Ht]%elem_of_cons; [done|]. apply Hv. by right.
  - intros e He. rewrite Hlen. specialize (H10 e He). unfold c. lia.
Qed.

(** ** Every step keeps the invariant *)

Lemma mild_on_conn c f b : (∀ co, be_conns b !! c = Some co → mild co (f co)) → mild_state b (on_conn c f b).
Proof. intros H. split_and!; try done. by apply Forall2_alter; [apply _|]. Qed.

Section moves.
Context (now : string) (b : Backend).

Lemma teardown_mild c ts : backend_inv b ts → mild_state b (teardown now c b).
Proof.
  intros Hi. apply mild_on_conn. intros co Hc. apply rpc_Disconnect_mild. by eapply Forall_lookup_1; [apply (inv_conns _ _ Hi)|].
Qed.

Lemma teardown_dead c co ts :
  backend_inv b ts → dialed b c → be_conns (teardown now c b) !! c = Some co → live co = false.
Proof.
  intros Hi (co0 & Hc & Hd). unfold teardown, on_conn. cbn. rewrite list_lookup_alter_eq, Hc. intros [= <-].
  apply rpc_Disconnect_closes; [|done]. by eapply Forall_lookup_1; [apply (inv_conns _ _ Hi)|].
Qed.

(** The thread disconnects the one connection it owns and goes on without. *)
Lemma teardown_move c t t' rest :
  backend_inv b (t :: rest) → (∀ c', owns t c' = true → c' = c) → came_back t = Some c →
  (∀ c', came_back t' = Some c' → c' = c) → (unlaunched t' = unlaunched t ∨ unlaunched t' = None) →
  (voice t' = voice t ∧ said t' = said t ∨ voice t' = None ∧ said t = []) → (∀ c', guards t c' = false) →
  backend_inv (teardown now c b) (t' :: rest).
Proof.
  intros Hi Ho Hb Hb' Hu Hv Hg. pose proof (head_ok _ _ _ Hi) as Hok.
  pose proof (teardown_mild c _ Hi) as Hm.
  apply (quiet_move b _ t); try done.
  - destruct (thread_ok_mild _ _ Hm _ Hok) as [K1 K2 K3]. split.
    + intros c' Hc'. apply K1. destruct Hv as [[<- _]|[? _]]; congruence.
    + intros c' ->%Hb'. by apply K2.
    + intros c' Hc'. apply K3. destruct Hu as [<-|?]; congruence.
  - intros m w _ _. by rewrite Hg.
  - intros c' co Hc' Hown Hl _. apply Ho in Hown as ->.
    assert (Hd : dialed b c) by by apply (ok_back _ _ Hok).
    pose proof (teardown_dead c co _ Hi Hd Hc'). congruence.
Qed.

(** A connection changes mildly, the thread still owns what it owned. *)
Lemma change_move c f t t' rest :
  backend_inv b (t :: rest) → (∀ co, conn_ok co → be_conns b !! c = Some co → mild co (f co)) →
  thread_ok (on_conn c f b) t' → voice t' = voice t → said t' = said t →
  (∀ c, guards t c = true → guards t' c = true) →
  (∀ c' co, be_conns (on_conn c f b) !! c' = Some co → owns t c' = true → live co = true → co_abandoned co = false → owns t' c' = true) →
  backend_inv (on_conn c f b) (t' :: rest).
Proof.
  intros Hi Hf Hok Hv Hs Hg Ho. apply (quiet_move b _ t); try done; [|by left|by eauto].
  apply mild_on_conn. intros co Hc. apply Hf; [|done]. by eapply Forall_lookup_1; [apply (inv_conns _ _ Hi)|].
Qed.

(** [come_back c]: the goroutine's result was there. *)
Lemma came_dialed c r : co_dial <$> be_conns b !! c = Some (Dialed r) → dialed b c.
Proof. intros (co & Hc & E)%fmap_Some. exists co. split; [done|]. unfold is_dialed. by rewrite <- E. Qed.

Ltac owned_only := intros ?; cbn; try done; intros ?%bool_decide_eq_true; congruence.
Ltac quiet Hi :=
  eapply quiet_step; [exact Hi|split; cbn; try done; eauto|cbn; auto|cbn; auto|cbn; auto].

Lemma live_dialed co : live co = true → is_dialed co = true → session_open co = true.
Proof. unfold live, is_dialed, session_open. destruct (co_cSess co); [done|]. by destruct (co_dial co). Qed.

Lemma cancel_move c err rest :
  backend_inv b (C_cancel c err :: rest) → backend_inv (cancel_attempt now c b) (C_drain c err :: rest).
Proof.
  intros Hi. pose proof (head_ok _ _ _ Hi) as Hok.
  assert (Hm : mild_state b (cancel_attempt now c b)).
  { pose proof (teardown_mild c _ Hi) as H1.
    assert (H2 : mild_state (teardown now c b) (cancel_attempt now c b)) by (apply mild_on_conn; intros; apply flag_abandoned_mild).
    destruct H1 as (? & E1), H2 as (? & E2). split; [by etransitivity|]. naive_solver congruence. }
  apply (quiet_move b _ (C_cancel c err)); try done; [|by left|].
  - apply (thread_ok_mild _ _ Hm). by destruct Hok.
  - intros c' co Hc' Ho Hl Ha. apply bool_decide_eq_true in Ho as ->.
    unfold cancel_attempt, teardown, on_conn in Hc'. cbn in Hc'. rewrite !list_lookup_alter_eq in Hc'.
    destruct (be_conns b !! c') as [co0|] eqn:E; [|done]. injection Hc' as <-.
    assert (Hco : conn_ok co0) by (eapply Forall_lookup_1; [apply (inv_conns _ _ Hi)|done]).
    pose proof (canceled_abandoned now co0 Hco Hl). unfold flag_abandoned in *. congruence.
Qed.

Lemma monitor_move err c session b' t' new rest :
  backend_inv b (C_monitor c session :: rest) →
  match startUnderlayMonitor err c (connection_id c b) b with
  | (b, inl err) => Some (b, C_unwatched c err, [])
  | (b, inr m) => Some (b, C_activate c session, [W_wait m c])
  end = Some (b', t', new) → backend_inv b' (t' :: new ++ rest).
Proof.
  intros Hi. unfold startUnderlayMonitor.
  set (b1 := match be_monitor b with Some _ => _ | None => b end).
  assert (H1 : backend_inv b1 (C_monitor c session :: rest) ∧ be_monitor b1 = None ∧ connection_id c b = connection_id c b1).
  { unfold b1. destruct (be_monitor b) eqn:E; [|done]. split; [by apply inv_stop|]. split; [apply stop_monitor|].
    unfold connection_id, request. by rewrite stop_conns. }
  destruct H1 as (H1 & Hn & ->). clearbody b1. pose proof (head_ok _ _ _ H1) as Hok. destruct err; intros [= <- <- <-].
  - apply (quiet_step b1 (C_monitor c session)); try done; [by destruct Hok|by left].
  - by apply start_move.
Qed.

Lemma announce_move c session b' t' new rest :
  backend_inv b (C_announce c session :: rest) →
  (req ← request c b; b ← send c (connected_event req session) b; Some (b, ConnectReturned (inr session), [H_wait c; M_wait c]))
    = Some (b', t', new) → backend_inv b' (t' :: new ++ rest).
Proof.
  intros Hi. pose proof (ok_voice _ _ (head_ok _ _ _ Hi) c eq_refl) as Hc.
  destruct (request c b) as [req|]; [|done]. cbn [mbind option_bind].
  destruct (send c (connected_event req session) b) as [b1|] eqn:E; [|done]. intros [= <- <- <-].
  apply (tell_move b b1 c (connected_event req session) (C_announce c session)); try done.
  - intros t0. rewrite !elem_of_cons. intros [->|[->|[->|[]%not_elem_of_nil]]]; split; try done. intros ? [= <-]. done.
  - intros t0. rewrite !elem_of_cons. intros [->|[->|[->|[]%not_elem_of_nil]]] c'; try done. by intros [= <-].
  - by left.
  - intros c' Hg. exists (M_wait c). split; [by right; right; left|done].
Qed.

Lemma connect_move a t t' b' new rest :
  backend_inv b (t :: rest) → connect_step now a t b = Some (b', t', new) → backend_inv b' (t' :: new ++ rest).
Proof.
  intros Hi Hstep. pose proof (head_ok _ _ _ Hi) as Hok. pose proof Hok as [K1 K2 K3].
  destruct t; try done; cbn [connect_step] in Hstep; cbn [voice came_back unlaunched] in K1, K2, K3.
  - (* C_start *) unfold begin_connect in Hstep. destruct (be_connecting b) eqn:E; injection Hstep as <- <- <-.
    + quiet Hi.
    + by apply begin_move.
  - (* C_stale *) destruct stale as [s|]; injection Hstep as <- <- <-; [|quiet Hi].
    apply (teardown_move s (C_stale c (Some s))); try done; [owned_only|..];
      destruct (call_error a); cbn; auto; owned_only.
  - (* C_launch *) injection Hstep as <- <- <-. by apply launch_move.
  - (* C_select *) destruct a, (co_dial <$> be_conns b !! c) as [[| |[]]|] eqn:Ed; try done; injection Hstep as <- <- <-; quiet Hi;
      intros ? [= <-]; by eapply came_dialed.
  - (* C_cancel *) injection Hstep as <- <- <-. by apply cancel_move.
  - (* C_drain *)
    assert (Hq : backend_inv b (C_clear c err :: rest)) by quiet Hi.
    by destruct a, (co_dial <$> be_conns b !! c) as [[| |[]]|] eqn:Ed; try done; injection Hstep as <- <- <-.
  - (* C_failed *) injection Hstep as <- <- <-. apply (teardown_move c (C_failed c err)); auto; owned_only.
  - (* C_clear *) injection Hstep as <- <- <-. apply (quiet_move b _ (C_clear c err)); auto.
    + unfold clearConnecting. destruct (bool_decide _); by split_and!.
    + by split.
  - (* C_session *) injection Hstep as <- <- <-. destruct (current_session c b) eqn:E; [quiet Hi|].
    apply (quiet_step b (C_session c)); try done; [by left|]. intros c' co Hc' Ho Hl _. apply bool_decide_eq_true in Ho as ->.
    destruct (K2 c' eq_refl) as (co' & Hco' & Hd). assert (co' = co) as -> by congruence.
    unfold current_session in E. rewrite Hc' in E. cbn in E. rewrite live_dialed in E by done.
    unfold live, is_dialed in *. rewrite E in Hl. by destruct (co_dial co).
  - (* C_check *) destruct (is_connecting c b) eqn:E; injection Hstep as <- <- <-; [|quiet Hi].
    pose proof set_ConnectionID_mild as Hm. apply (change_move c _ (C_check c)); auto.
    apply (thread_ok_mild b); [apply mild_on_conn; auto|]. by split.
  - (* C_monitor *) by eapply monitor_move.
  - (* C_unwatched *) injection Hstep as <- <- <-. apply (teardown_move c (C_unwatched c err)); auto; owned_only.
  - (* C_activate *) destruct (is_connecting c b) eqn:E; injection Hstep as <- <- <-; [|quiet Hi].
    apply bool_decide_eq_true in E. by apply activate_move.
  - (* C_unwatch *) injection Hstep as <- <- <-. apply (stop_for_move b (C_unwatch c)); auto.
    by split.
  - (* C_lost *) injection Hstep as <- <- <-. apply (teardown_move c (C_lost c)); auto; owned_only.
  - (* C_announce *) by eapply announce_move.
Qed.

(** A report is sent, then the thread goes on; it owns and guards nothing. *)
Lemma report_move c req ev t t' b' new rest :
  backend_inv b (t :: rest) → idle_thread t → idle_thread t' → (∀ c', guards t c' = false) →
  ((ev_Type (ev req) == "health") || (ev_Type (ev req) == "network_change"))%go = true → request c b = Some req →
  (b ← send c (ev req) b; Some (b, t', @nil thread)) = Some (b', t', new) → backend_inv b' (t' :: new ++ rest).
Proof.
  intros Hi Ht Ht' Hg He Hreq. destruct (send c (ev req) b) as [b1|] eqn:E; [|done]. intros [= <- <-].
  unfold request in Hreq. apply fmap_Some in Hreq as (co & Hc & _).
  apply inv_spawn; [done|]. apply (inv_report b b1 c (ev req)); [by refine (inv_drop _ _ _ _ Hi)| |..|done].
  - by eapply lookup_lt_Some.
  - unfold main_event. destruct (ev_Type (ev req) == "connected")%go eqn:E1.
    { apply eqb_true in E1. by rewrite E1 in He. }
    destruct (ev_Type (ev req) == "disconnected")%go eqn:E2; [|done]. apply eqb_true in E2. by rewrite E2 in He.
Qed.

Lemma health_move a t t' b' new rest :
  backend_inv b (t :: rest) → health_step a t b = Some (b', t', new) → backend_inv b' (t' :: new ++ rest).
Proof.
  intros Hi Hstep. pose proof (head_ok _ _ _ Hi) as Hok. pose proof Hok as [K1 K2 K3].
  destruct t; try done; cbn [health_step] in Hstep; cbn [voice came_back unlaunched] in K1, K2, K3.
  - (* H_wait *) destruct (be_conns b !! c) as [co|] eqn:Ec; [|done]. cbn [mbind option_bind] in Hstep.
    destruct (co_cSess co) as [cs|] eqn:Es; [|done]. cbn [mbind option_bind] in Hstep.
    assert (Hq : backend_inv b (Exited :: rest)) by (apply inv_spawn; [done|]; by refine (inv_drop _ _ _ _ Hi)).
    destruct a; try done; [destruct (CloseChan_closed cs); [|done]; by injection Hstep as <- <- <-|].
    destruct (NetworkErrors cs) as [|err es]; [done|]. injection Hstep as <- <- <-.
    apply inv_spawn; [done|]. apply (inv_mild b); [|by refine (inv_drop _ _ _ _ Hi)].
    apply mild_on_conn. intros co' Hco'. assert (co' = co) as -> by congruence. by apply (session_change_mild _ cs).
  - (* H_send *) destruct (request c b) as [req|] eqn:E; [|done]. cbn [mbind option_bind] in Hstep.
    destruct (send c (route_health_event req err) b) as [b1|] eqn:E1; [|done].
    apply (report_move c req (λ req, route_health_event req err) (H_send c err) t' b'); try done.
    + by injection Hstep as _ <- _.
    + rewrite E1. by injection Hstep as <- <- <-.
Qed.

Lemma monitor_close_move t t' b' new rest :
  backend_inv b (t :: rest) → monitor_close_step now t b = Some (b', t', new) → backend_inv b' (t' :: new ++ rest).
Proof.
  intros Hi Hstep. pose proof (head_ok _ _ _ Hi) as Hok. pose proof Hok as [K1 K2 K3].
  destruct t; try done; cbn [monitor_close_step] in Hstep; cbn [voice came_back unlaunched] in K1, K2, K3.
  - (* M_wait *) destruct (be_conns b !! c) as [co|] eqn:Ec; [|done]. cbn [mbind option_bind] in Hstep.
    destruct (co_cSess co) as [cs|] eqn:Es; [|done]. cbn [mbind option_bind] in Hstep.
    destruct (CloseChan_closed cs); [|done]. injection Hstep as <- <- <-. quiet Hi.
  - (* M_stop *) injection Hstep as <- <- <-. apply (stop_for_move b (M_stop c)); auto.
    by split.
  - (* M_send *) destruct (be_conns b !! c) as [co|] eqn:Ec; [|done]. cbn [mbind option_bind] in Hstep.
    destruct (co_cSess co) as [cs|] eqn:Es; [|done]. cbn [mbind option_bind] in Hstep.
    set (ev := disconnected_event _ _) in Hstep. destruct (send c ev b) as [b1|] eqn:E; [|done]. injection Hstep as <- <- <-.
    apply (tell_move b b1 c ev (M_send c) Exited []); try done.
    + by eapply lookup_lt_Some.
    + by intros t0 ->%list_elem_of_singleton.
    + by intros t0 ->%list_elem_of_singleton.
    + by right.
Qed.

Lemma watch_move a t t' b' new rest :
  backend_inv b (t :: rest) → watch_step a t b = Some (b', t', new) → backend_inv b' (t' :: new ++ rest).
Proof.
  intros Hi Hstep. pose proof (head_ok _ _ _ Hi) as Hok. pose proof Hok as [K1 K2 K3].
  destruct t; try done; cbn [watch_step] in Hstep; cbn [voice came_back unlaunched] in K1, K2, K3.
  - (* W_wait *) assert (Hq : ∀ t0, idle_thread t0 → backend_inv b (t0 :: rest)) by (intros; apply inv_spawn; [done|]; by refine (inv_drop _ _ _ _ Hi)).
    destruct a; try done; [|injection Hstep as <- <- <-; by apply Hq].
    destruct (be_monitors b !! m) as [w|]; [|done]. cbn [mbind option_bind] in Hstep. destruct (mo_open w); [done|].
    injection Hstep as <- <- <-. by apply Hq.
  - (* W_send *) assert (Hq : ∀ t0, idle_thread t0 → backend_inv b (t0 :: rest)) by (intros; apply inv_spawn; [done|]; by refine (inv_drop _ _ _ _ Hi)).
    destruct a; try done.
    + destruct (request c b) as [req|] eqn:E; [|done]. cbn [mbind option_bind] in Hstep.
      destruct (send c (network_event req change) b) as [b1|] eqn:E1; [|done].
      apply (report_move c req (λ req, network_event req change) (W_send m c change) t' b'); try done.
      * by injection Hstep as _ <- _.
      * rewrite E1. by injection Hstep as <- <- <-.
    + destruct (be_monitors b !! m) as [w|]; [|done]. cbn [mbind option_bind] in Hstep. destruct (mo_open w); [done|].
      injection Hstep as <- <- <-. by apply Hq.
  - (* W_stop *) injection Hstep as <- <- <-. apply inv_spawn; [done|]. apply inv_stop. by refine (inv_drop _ _ _ _ Hi).
Qed.

Lemma disconnect_move a t t' b' new rest :
  backend_inv b (t :: rest) → disconnect_step now a t b = Some (b', t', new) → backend_inv b' (t' :: new ++ rest).
Proof.
  intros Hi Hstep. pose proof (head_ok _ _ _ Hi) as Hok. pose proof Hok as [K1 K2 K3].
  destruct t; try done; cbn [disconnect_step] in Hstep; cbn [voice came_back unlaunched] in K1, K2, K3.
  - (* D_start *) injection Hstep as <- <- <-. by apply drop_move.
  - (* D_stop *) injection Hstep as <- <- <-. pose proof (inv_stop _ _ Hi) as Hs.
    eapply quiet_step; [exact Hs| |by left|by auto|by auto]. apply (thread_ok_conns b); [apply stop_conns|]. by split.
  - (* D_connecting *) assert (Hq : ∀ e, backend_inv b (D_active connection e :: rest)) by (intros e; quiet Hi).
    destruct connecting as [c|]; [|injection Hstep as <- <- <-; apply Hq].
    destruct (bool_decide _); injection Hstep as <- <- <-; [apply Hq|].
    apply (inv_mild b); [by eapply teardown_mild|apply Hq].
  - (* D_active *) destruct connection as [c|]; injection Hstep as <- <- <-; [|quiet Hi].
    + apply (teardown_move c (D_active (Some c) first)); auto; try done; owned_only.
Qed.

Lemma thread_move a t t' b' new rest :
  backend_inv b (t :: rest) → thread_step now a t b = Some (b', t', new) → backend_inv b' (t' :: new ++ rest).
Proof.
  intros Hi Hstep. destruct t; try done; cbn [thread_step] in Hstep;
    first [exact (connect_move _ _ _ _ _ _ Hi Hstep)|exact (health_move _ _ _ _ _ _ Hi Hstep)|exact (monitor_close_move _ _ _ _ _ Hi Hstep)|exact (watch_move _ _ _ _ _ _ Hi Hstep)|exact (disconnect_move _ _ _ _ _ _ Hi Hstep)].
Qed.
End moves.

Definition world_inv (w : World) : Prop := backend_inv (wd_b w) (wd_threads w).

Lemma act_inv x w w' : world_inv w → act x w = Some w' → world_inv w'.
Proof.
  unfold world_inv. intros Hi Hact. destruct w as [b ts]. cbn in Hi. destruct x; cbn [act wd_b wd_threads] in Hact.
  - injection Hact as <-. eapply backend_inv_perm; [apply Permutation_cons_append|]. by apply inv_spawn.
  - injection Hact as <-. eapply backend_inv_perm; [apply Permutation_cons_append|]. by apply inv_spawn.
  - destruct (ts !! i) as [t|] eqn:Ei; [|done]. cbn [mbind option_bind] in Hact.
    destruct (thread_step now a t b) as [[[b1 t1] new]|] eqn:Es; [|done]. injection Hact as <-. cbn [wd_b wd_threads].
    pose proof (take_drop_middle _ _ _ Ei) as E. pose proof (lookup_lt_Some _ _ _ Ei).
    rewrite insert_take_drop by done. rewrite <- E in Hi.
    eapply backend_inv_perm; [|eapply (thread_move now b a t t1 b1 new (take i ts ++ drop (S i) ts)); [|exact Es]].
    + rewrite <- app_assoc, <- app_comm_cons. rewrite <- Permutation_middle. constructor.
      rewrite Permutation_app_comm. by rewrite app_assoc.
    + eapply backend_inv_perm; [|exact Hi]. by rewrite Permutation_middle.
  - destruct (be_conns b !! c) as [co|] eqn:Ec; [|done]. cbn [mbind option_bind] in Hact.
    destruct (co_dial co) eqn:Ed, (co_cSess co) eqn:Es; try done.
    pose proof (session_made_mild co header Ed Es) as Hm. cbn zeta in Hm.
    destruct (NewConnSession false (λ _, None) 0 (co_sess co) header) as [sess cs]. injection Hact as <-.
    apply (inv_mild b); [|done]. apply mild_on_conn. intros co' Hco'. cbn [wd_b] in Hco'. by assert (co' = co) as -> by congruence.
  - destruct (be_conns b !! c) as [co|] eqn:Ec; [|done]. cbn [mbind option_bind] in Hact.
    destruct (co_cSess co) as [cs0|] eqn:Es; [|done]. cbn [mbind option_bind] in Hact.
    case_bool_decide as Hc; [|done]. injection Hact as <-.
    apply (inv_mild b); [|done]. apply mild_on_conn. intros co' Hco'. cbn [wd_b] in Hco'. assert (co' = co) as -> by congruence.
    by apply (session_change_mild _ cs0).
  - destruct (be_conns b !! c) as [co|] eqn:Ec; [|done]. cbn [mbind option_bind] in Hact.
    assert (Hw : w' = mkWorld (on_conn c (λ co, co <| co_dial := Dialed r |>) b) ts ∧ co_dial co = Dialing).
    { destruct (co_dial co), r, (co_cSess co); try done; by injection Hact as <-. }
    destruct Hw as [-> Hd]. apply (inv_mild b); [|done]. apply mild_on_conn. intros co' Hco'. cbn [wd_b] in Hco'.
    assert (co' = co) as -> by congruence. by apply dial_ends_mild.
  - destruct (be_conns b !! c) as [co|] eqn:Ec; [|done]. cbn [mbind option_bind] in Hact.
    destruct (co_cSess co) as [cs0|] eqn:Es; [|done]. cbn [mbind option_bind] in Hact.
    destruct (CloseChan_closed cs0) eqn:Ecl; [done|].
    assert (Hco : conn_ok co) by (eapply Forall_lookup_1; [apply (inv_conns _ _ Hi)|done]).
    pose proof (session_ends_mild now code transport err co cs0 Hco Es Ecl) as Hm. cbn zeta in Hm.
    destruct (end_session now _ (co_sess co)) as [sess cs]. injection Hact as <-.
    apply (inv_mild b); [|done]. apply mild_on_conn. intros co' Hco'. cbn [wd_b] in Hco'. by assert (co' = co) as -> by congruence.
  - destruct (_ <? _); [|done]. injection Hact as <-. by apply (inv_mild b).
Qed.

Lemma New_inv : world_inv (mkWorld New []).
Proof.
  split; cbn; try done; try (by intros ? ?%elem_of_nil).
  - by apply NoDup_nil.
  - by intros t c ?%elem_of_nil.
  - by left.
Qed.

Lemma run_inv xs : world_inv (run xs).
Proof.
  unfold run. generalize New_inv. generalize (mkWorld New []). induction xs as [|x xs IH]; intros w Hw; [done|].
  cbn [foldl]. apply IH. destruct (act x w) as [w'|] eqn:E; cbn; [by eapply act_inv|done].
Qed.

(** ** What the invariant means when nobody moves *)

(** A thread that waits for the network, the session or the daemon, or is
    back. *)
Definition resting (b : Backend) (t : thread) : bool :=
  match t with
  | ConnectReturned _ | DisconnectReturned _ | Exited | H_wait _ | W_wait _ _ => true
  | M_wait c => match current_session c b with Some _ => true | None => false end
  | _ => false
  end.

Definition at_rest (w : World) : Prop := ∀ t, t ∈ wd_threads w → resting (wd_b w) t = true.
Definition tunnel_open (w : World) (c : nat) : Prop := is_Some (current_session c (wd_b w)).
Definition abandoned (w : World) (c : nat) : Prop := ∃ co, be_conns (wd_b w) !! c = Some co ∧ co_abandoned co = true.
Definition monitor_open (w : World) (m c : nat) : Prop := be_monitors (wd_b w) !! m = Some (mkWatch c true).

Lemma resting_owns b t c : resting b t = true → owns t c = false.
Proof. by destruct t. Qed.

Lemma resting_guards b t c : resting b t = true → guards t c = true → t = M_wait c.
Proof. destruct t; cbn; try done. intros _ ?%bool_decide_eq_true. congruence. Qed.

(** C4: however calls of [Connect] and [Disconnect], attempts, sessions, network
    changes and the daemon interleave, and whatever fails: once every call is
    back and every goroutine waits, the only tunnel that is open is the active
    connection's, an abandoned attempt apart; the only monitor that is open is
    the registered one and watches an open tunnel; and the daemon has been told
    of each connection either nothing, or that it is connected, and then it is
    open, or that it was connected and, once and afterwards, that it is
    disconnected. *)
Theorem backend_owns_everything xs :
  let w := run xs in
  at_rest w →
  (∀ c, tunnel_open w c → be_active (wd_b w) = Some c ∨ abandoned w c) ∧
  (∀ m c, monitor_open w m c → be_monitor (wd_b w) = Some m ∧ tunnel_open w c) ∧
  (∀ c, story (wd_b w) c = [] ∨ story (wd_b w) c = whole_story ∨
        story (wd_b w) c = ["connected"%string] ∧ tunnel_open w c).
Proof.
  intros w Hrest. pose proof (run_inv xs) as Hi. fold w in Hi. unfold world_inv in Hi. clearbody w.
  unfold tunnel_open, abandoned, monitor_open, at_rest in *. destruct w as [b ts]. cbn [wd_b wd_threads] in *. split_and!.
  - intros c [cs Hc]. unfold current_session in Hc. destruct (be_conns b !! c) as [co|] eqn:E; [|done]. cbn in Hc.
    destruct (session_open co) eqn:Ho; [|done].
    assert (Hl : live co = true) by (unfold live, session_open in *; by destruct (co_cSess co)).
    destruct (co_abandoned co) eqn:Ha; [right; by exists co|left].
    destruct (inv_covered _ _ Hi c co E Hl Ha) as [?|(t & Ht & Hown)]; [done|].
    pose proof (resting_owns _ _ c (Hrest t Ht)). congruence.
  - intros m c Hw. pose proof (inv_open _ _ Hi m _ Hw eq_refl) as Hm. split; [done|].
    destruct (inv_guarded _ _ Hi m Hm) as (w & Hw' & _ & t & Ht & Hg). simplify_eq. cbn in Hg.
    specialize (Hrest t Ht). apply (resting_guards b) in Hg as ->; [|done]. cbn in Hrest.
    by destruct (current_session c b).
  - intros c. destruct (decide (Exists (λ t, voice t = Some c) ts)) as [(t & Ht & Hv)%Exists_exists|Hno].
    + pose proof (inv_said _ _ Hi t c Ht Hv) as ->. specialize (Hrest t Ht).
      destruct t; try done; try (by left). injection Hv as ->. right. right. cbn in Hrest. split; [done|].
      by destruct (current_session c b).
    + destruct (inv_silent _ _ Hi c) as [?|?]; [|by left|by right; left].
      intros t Ht Hv. apply Hno, Exists_exists. by exists t.
Qed.

(** ** Runs *)

Definition demo_request (id : string) : ConnectRequest :=
  mkConnectRequest zero_profile "password" "attempt" id "owner".
Definition dropped : UnderlaySnapshot := zero_snapshot.
Definition demo_change : UnderlayChange := mkUnderlayChange dropped dropped ["gateway_changed"] true None.

Definition steps (i : nat) (answers : list answer) : list action := (λ a, Run i "now" a) <$> answers.

(** A connection that is made, watched and announced by thread [i]. *)
Definition connects (i c : nat) (id : string) : list action :=
  CallConnect (demo_request id) :: steps i [Proceed; Proceed; Proceed] ++ [SessionMade c ∅; DialEnds c None] ++
  steps i [Proceed; Proceed; Proceed; Proceed; Proceed; Proceed] ++ [Receive].

(** Canceled while the TLS connection is being dialed, before there is anything
    to close; the attempt then succeeds. *)
Definition late_cancel : list action :=
  CallConnect (demo_request "vpn-1") :: steps 0 [Proceed; Proceed; Proceed; CtxDone context_canceled; Proceed] ++
  [SessionMade 0 ∅; DialEnds 0 None] ++ steps 0 [Proceed; Proceed].

(** The watcher of the first connection has delivered its change; the daemon
    disconnects and connects again before the watcher goes on. *)
Definition late_watcher : list action :=
  connects 0 0 "vpn-1" ++ steps 1 [Changed demo_change; Proceed] ++ [Receive; CallDisconnect] ++
  steps 4 [Proceed; Proceed; Proceed; Proceed] ++ steps 3 [Proceed; Proceed; Proceed] ++ steps 2 [Proceed] ++ [Receive] ++
  connects 5 1 "vpn-2" ++ steps 1 [Proceed].

Lemma at_rest_forallb w : forallb (resting (wd_b w)) (wd_threads w) = true → at_rest w.
Proof. intros H t Ht. rewrite forallb_forall in H. apply H. by apply list_elem_of_In. Qed.

Lemma backend_owns_everything_witness :
  let w := run (connects 0 0 "vpn-1") in
  at_rest w ∧ (∃ m, monitor_open w m 0) ∧ (∀ c, tunnel_open w c → be_active (wd_b w) = Some c ∨ abandoned w c) ∧
  story (wd_b w) 0 = ["connected"%string].
Proof.
  assert (Hr : at_rest (run (connects 0 0 "vpn-1"))) by (apply at_rest_forallb; vm_compute; reflexivity).
  assert (Hm : monitor_open (run (connects 0 0 "vpn-1")) 0 0) by (vm_compute; reflexivity).
  assert (Hs : story (wd_b (run (connects 0 0 "vpn-1"))) 0 = ["connected"%string]) by (vm_compute; reflexivity).
  destruct (backend_owns_everything (connects 0 0 "vpn-1") Hr) as (H1 & _ & _).
  split; [exact Hr|]. split; [by exists 0|]. split; [exact H1|exact Hs].
Defined.

(** The exception is real.  A connection that is canceled while it is being
    dialed comes back as canceled and a later [Disconnect] finds nothing to do,
    but the attempt goes on and leaves a tunnel with its routes and its DNS
    that nobody owns. *)
Theorem canceled_attempt_stays_open :
  let w := run (late_cancel ++ CallDisconnect :: steps 1 [Proceed; Proceed; Proceed; Proceed]) in
  wd_threads w = [ConnectReturned (inl context_canceled); DisconnectReturned None] ∧
  be_active (wd_b w) = None ∧ be_connecting (wd_b w) = None ∧ tunnel_open w 0.
Proof. cbv zeta. split_and!; try (vm_compute; reflexivity). eexists. vm_compute. reflexivity. Qed.

(** The watcher of a connection stops whatever monitor is registered when it
    gets there, also that of the connection that replaced its own: the new
    tunnel is up, every call is back, and no monitor watches its network. *)
Theorem late_watcher_stops_replacement :
  let w := run late_watcher in
  at_rest w ∧ be_active (wd_b w) = Some 1 ∧ tunnel_open w 1 ∧ be_monitor (wd_b w) = None ∧
  story (wd_b w) 0 = whole_story ∧ story (wd_b w) 1 = ["connected"%string] ∧
  (ev_Type ∘ snd <$> List.filter (λ e, e.1 =? 1) (be_events (wd_b w))) = ["connected"%string].
Proof.
  cbv zeta. split; [apply at_rest_forallb; vm_compute; reflexivity|].
  split; [vm_compute; reflexivity|]. split; [eexists; vm_compute; reflexivity|]. split_and!; vm_compute; reflexivity.
Qed.
