(* ===== verification/Channel.v ===== *)
(** * The channels to the server (src/internal/anyconnect/tunnel/tls.go and
    dtls.go) and the packet workers of the TUN device (tun.go)

    Each worker is a loop; one turn of it is one definition here.  What a turn
    learns from outside (which buffer the pool hands out, whether a queue has
    room before the session closes, what a deadline, a write or the device
    answers) is an argument, and a run is a turn for each element of a list of
    such arguments.  [None] is a run-time panic. *)

From S2P Require Import Prelude GoStrings NetIP OsNet Buffer Session DynRoutes UserNet.

Open Scope go_scope.
Open Scope Z_scope.

Definition timeout_code (base : string) (err : error) : string :=
  base +:+ (if errors_is err NetTimeout then "_timeout" else "_error").

Section channel.
Context (now : string) (active : bool).   (* the clock; [Sess.ActiveClose] *)

(** ** TLS, from the server *)

Record tls_env := mkTlsEnv {
  te_deadline : option error;   (* SetReadDeadline *)
  te_hit : option nat;          (* the pool's choice *)
  te_sent : bool;               (* the select takes the queue, not CloseChan *)
}.

Record Tls := mkTls { tl_c : ConnSession; tl_rd : Reader; tl_pools : Pools }.

Definition count_received (n : Z) (c : ConnSession) : ConnSession := bump (λ s, s <| BytesReceived ::= add_u64 n |>) c.
Definition count_dpd_response (c : ConnSession) : ConnSession := bump (λ s, s <| DPDResponses ::= add_u64 1 |>) c.

(** What a frame does, once read into [pl]: the session, the pool, and whether
    the loop goes on. *)
Definition tls_dispatch (env : tls_env) (frameType wireBytes : Z) (pl : Payload) (c : ConnSession) (pools : Pools) :
    ConnSession * Pools * bool :=
  if frameType =? 0 then
    if te_sent env then (count_received wireBytes (c <| PayloadIn ::= λ q, q ++ [pl] |>), pools, true)
    else (c, putPayloadBuffer pl pools, false)
  else if (frameType =? 4) || (frameType =? 7) then
    (count_received wireBytes (if frameType =? 4 then count_dpd_response c else c), putPayloadBuffer pl pools, true)
  else if frameType =? 3 then
    let pl := pl <| pl_Type := 4 |> <| pl_len := 0%nat |> in
    if te_sent env then (count_received wireBytes (c <| PayloadOutTLS ::= λ q, q ++ [pl] |>), pools, true)
    else (c, putPayloadBuffer pl pools, false)
  else
    let c := if frameType =? 5 then RecordClose now active "server_disconnect" "tls" None c
             else if frameType =? 9 then RecordClose now active "server_terminate" "tls" None c
             else RecordClose now active "tls_protocol_error" "tls"
                    (Some (ErrText ("unsupported CSTP frame type 0x" +:+ hex_bytes [frameType]))) c in
    (c, putPayloadBuffer pl pools, false).

Definition tls_turn (env : tls_env) (s : Tls) : option (Tls * bool) :=
  match (if ResetTLSReadDead (tl_c s) then te_deadline env else None) with
  | Some err => Some (mkTls (RecordClose now active "tls_deadline_error" "tls" (Some err) (tl_c s)) (tl_rd s) (tl_pools s), false)
  | None =>
    let c := if ResetTLSReadDead (tl_c s) then (tl_c s) <| ResetTLSReadDead := false |> else tl_c s in
    '(pl, pools) ← getPayloadBuffer (MTU c) (te_hit env) (tl_pools s);
    match readCSTPFrame (tl_rd s) (Some pl) with
    | (_, None, _) => None
    | (rd, Some pl, inl err) =>
      Some (mkTls (RecordClose now active (timeout_code "tls_read" err) "tls" (Some err) c) rd (putPayloadBuffer pl pools), false)
    | (rd, Some pl, inr (frameType, wireBytes)) =>
      let '(c, pools, go) := tls_dispatch env frameType wireBytes (pl <| pl_Type := frameType |>) c pools in
      Some (mkTls c rd pools, go)
    end
  end.

(** The loop, and how it is left. *)
Fixpoint tls_loop (envs : list tls_env) (s : Tls) : option (Tls * bool) :=
  match envs with
  | [] => Some (s, true)
  | env :: envs => '(s, go) ← tls_turn env s; if go : bool then tls_loop envs s else Some (s, false)
  end.

Definition tlsChannel (envs : list tls_env) (s : Tls) : option (Tls * bool) :=
  '(s, go) ← tls_loop envs (mkTls (SetTLSState "Ready" (tl_c s)) (tl_rd s) (tl_pools s));
  Some (if go : bool then s else mkTls (SetTLSState "Closed" (tl_c s)) (tl_rd s) (tl_pools s), go).

(** ** TLS, to the server *)

Record Out := mkOut { ou_c : ConnSession; ou_wire : list Z; ou_pools : Pools }.

(** A write takes [n] bytes, all of them when it does not fail. *)
Definition out_turn (channel : string) (frame : Payload → option Payload) (record : string → option error → ConnSession → ConnSession)
    (write : nat * option error) (pl : option Payload) (o : Out) : option (Out * bool) :=
  match pl with
  | None =>
    Some (mkOut (record (channel +:+ "_payload_invalid") (Some (ErrText ("nil " +:+ channel +:+ " payload"))) (ou_c o)) (ou_wire o) (ou_pools o), false)
  | Some pl =>
    pl ← frame pl;
    match write with
    | (n, Some err) =>
      Some (mkOut (record (timeout_code (channel +:+ "_write") err) (Some err) (ou_c o)) (ou_wire o ++ take n (data pl))
              (putPayloadBuffer pl (ou_pools o)), false)
    | (_, None) =>
      Some (mkOut (bump (λ s, s <| BytesSent ::= add_u64 (Z.of_nat (length (data pl))) |>) (ou_c o)) (ou_wire o ++ data pl)
              (putPayloadBuffer pl (ou_pools o)), true)
    end
  end.

Definition payloadOutTLS_turn : nat * option error → option Payload → Out → option (Out * bool) :=
  out_turn "tls" cstp_out (λ code err, RecordClose now active code "tls" err).
Definition payloadOutDTLS_turn : nat * option error → option Payload → Out → option (Out * bool) :=
  out_turn "dtls" dtls_out (λ code err, RecordTransportFault now code "dtls" err).

(** [payloadOutTLSToServer] on what comes out of its queue. *)
Fixpoint payloadOutTLSToServer (queue : list (nat * option error * option Payload)) (o : Out) : option (Out * bool) :=
  match queue with
  | [] => Some (o, true)
  | (write, pl) :: queue =>
    '(o, go) ← payloadOutTLS_turn write pl o; if go : bool then payloadOutTLSToServer queue o else Some (o, false)
  end.

(** ** DTLS, from the server: a datagram at a time *)

Inductive datagram := Received (bytes : list Z) (n : Z) | ReadFails (err : error).

Definition dtls_turn (deadline_hit : option nat) (sent : bool) (read : datagram) (c : ConnSession) (pools : Pools) :
    option (ConnSession * Pools * bool) :=
  let c := if ResetDTLSReadDead c then c <| ResetDTLSReadDead := false |> else c in
  '(pl, pools) ← getPayloadBuffer (MTU c) deadline_hit pools;
  match read with
  | ReadFails err => Some (RecordTransportFault now (timeout_code "dtls_read" err) "dtls" (Some err) c, putPayloadBuffer pl pools, false)
  | Received bytes n =>
    let pl := pl <| pl_arr ::= copy_at 0 bytes |> in
    if (n <=? 0) || (Z.of_nat (pl_len pl) <? n) then
      Some (RecordTransportFault now "dtls_read_invalid" "dtls" (Some (ErrText "DTLS returned an invalid packet length")) c,
            putPayloadBuffer pl pools, false)
    else
      type ← data pl !! 0%nat;
      if type =? 7 then Some (count_received n c, putPayloadBuffer pl pools, true)
      else if type =? 5 then Some (RecordTransportFault now "server_disconnect" "dtls" None c, pools, false)
      else if type =? 3 then
        let pl := pl <| pl_Type := 4 |> in
        if sent then Some (count_received n (c <| PayloadOutDTLS ::= λ q, q ++ [pl] |>), pools, true)
        else Some (c, putPayloadBuffer pl pools, false)
      else if type =? 4 then Some (count_received n (count_dpd_response c), putPayloadBuffer pl pools, true)
      else if type =? 0 then
        let pl := append_at_start (drop 1 (take (Z.to_nat n) (data pl))) pl in
        if sent then Some (count_received n (c <| PayloadIn ::= λ q, q ++ [pl] |>), pools, true)
        else Some (c, putPayloadBuffer pl pools, false)
      else Some (RecordTransportFault now "dtls_protocol_error" "dtls" (Some (ErrText "unsupported DTLS frame type")) c,
                 putPayloadBuffer pl pools, false)
  end.

(** ** The TUN device *)

(** What [dev.Read] answers: how many packets, the size of the first, and its
    bytes, which it put at the platform's offset. *)
Inductive tun_read := TunReadFails (err : error) | TunRead (readCount : Z) (size : Z) (bytes : list Z).

(** A turn of [tunToPayloadOut]; the two booleans of the result are the
    session's close and whether the loop goes on. *)
Definition tun_out_turn (offset : nat) (hit : option nat) (read : tun_read) (dtls : dtls_pick) (tls_sent : bool)
    (c : ConnSession) (pools : Pools) : option (ConnSession * Pools * bool * bool) :=
  '(pl, pools) ← getPayloadBuffer (MTU c) hit pools;
  match read with
  | TunReadFails err =>
    Some (RecordClose now active "tun_read_error" "tun" (Some err) (bump (λ s, s <| TUNReadErrors ::= add_u64 1 |>) c),
          putPayloadBuffer pl pools, true, false)
  | TunRead readCount size bytes =>
    let pl := pl <| pl_arr ::= copy_at offset bytes |> in
    if readCount =? 0 then Some (c, putPayloadBuffer pl pools, false, true)
    else
      let c := bump (λ s, s <| TUNReads ::= add_u64 1 |>) c in
      if negb (readCount =? 1) || (size <=? 0) || (Z.of_nat (pl_len pl) - Z.of_nat offset <? size) then
        Some (RecordClose now active "tun_read_invalid" "tun"
                (Some (ErrText ("TUN read returned count=" +:+ Itoa readCount +:+ " size=" +:+ Itoa size))) c,
              putPayloadBuffer pl pools, true, false)
      else
        pl ← reslice offset (offset + Z.to_nat size) pl;
        let '(c, sent) := sendPayloadToServer dtls tls_sent pl c in
        if sent : bool then Some (c, pools, false, true) else Some (c, putPayloadBuffer pl pools, false, false)
  end.

(** A turn of [payloadInToTun].  [route] is what the user-space tunnel does
    with the packet, [forward] whether the queue of the dynamic-route worker
    takes it before the session closes, [write] what [dev.Write] answers.  The
    result says what was written to the device and whether the loop goes on;
    every exit closes the session. *)
Definition tun_in_turn (offset : nat) (routed : bool) (forward : bool) (write : Z * option error)
    (pl : option Payload) (c : ConnSession) (pools : Pools) : option (ConnSession * Pools * option (list Z) * bool) :=
  match pl with
  | None =>
    Some (RecordClose now active "payload_in_invalid" "tun" (Some (ErrText "nil payload received from CSTP worker")) c, pools, None, false)
  | Some pl =>
    if routed then Some (c, putPayloadBuffer pl pools, None, true) else
    dns ← (if DynamicSplitTunneling c then '(_, srcPort, _, _) ← ResolvePacket (data pl); Some (srcPort =? 53) else Some false);
    if dns && negb forward then Some (c, putPayloadBuffer pl pools, None, false) else
    let c := if dns : bool then c <| DynamicRoutePackets ::= λ q, q ++ [data pl] |> else c in
    let written := if (0 <? offset)%nat then copy_at offset (data pl) (replicate (offset + length (data pl)) 0) else data pl in
    let err := match write with
               | (_, Some err) => Some err
               | (writeCount, None) =>
                 if negb (writeCount =? 1) then Some (ErrText ("TUN write returned count=" +:+ Itoa writeCount)) else None
               end in
    let pools := putPayloadBuffer pl pools in
    match err with
    | Some err =>
      Some (RecordClose now active "tun_write_error" "tun" (Some err) (bump (λ s, s <| TUNWriteErrors ::= add_u64 1 |>) c), pools,
            Some written, false)
    | None => Some (bump (λ s, s <| TUNWrites ::= add_u64 1 |>) c, pools, Some written, true)
    end
  end.

(** [watchTunEvents]: what one event of the device does; the boolean says that
    the session is closed and the loop ends. *)
Inductive tun_event := EventsClosed | EventDown | EventOther.
Definition watchTunEvents (event : tun_event) (c : ConnSession) : ConnSession * bool :=
  match event with
  | EventsClosed =>
    if CloseChan_closed c then (c, true) else (RecordClose now active "tun_events_closed" "tun" (Some io_EOF) c, true)
  | EventDown => (RecordClose now active "tun_down" "tun" (Some (ErrText "TUN interface reported down")) c, true)
  | EventOther => (c, false)
  end.
End channel.

(** [waitManagerUp]: the answers of [manager.Up], a tick apart, until one is
    good or the deadline comes. *)
Fixpoint waitManagerUp (attempt : option error) (later : list (option error)) : option error :=
  match attempt, later with
  | None, _ => None
  | Some err, [] => Some err
  | Some _, attempt :: later => waitManagerUp attempt later
  end.

(** ** A turn of the TLS loop *)

Definition closes_with (code : string) (c : ConnSession) : Prop := ∃ info, closeInfo c = Some info ∧ ci_Code info = code.

Definition is_final (type : Z) : bool := negb ((type =? 0) || (type =? 3) || (type =? 4) || (type =? 7)).

(** What the peer sees of a queue. *)
Definition shown (pl : Payload) : Z * list Z := (pl_Type pl, data pl).

Definition frame_wire (f : Z * list Z) : list Z := cstp_wire f.1 f.2.
Definition frames_wire (fs : list (Z * list Z)) : list Z := concat (frame_wire <$> fs).
Definition fits (f : Z * list Z) : Prop := Z.of_nat (length f.2) < 65536.

Definition dpd_replies (t : Z) : list (Z * list Z) := if t =? 3 then [(4, [])] else [].

Lemma closeInfo_RecordClose now active code transport err c :
  closeInfo c = None → code ≠ "" → active = false → closes_with code (RecordClose now active code transport err c).
Proof.
  intros H Hc ->. unfold closes_with, RecordClose. rewrite H. apply eqb_false in Hc. rewrite Hc. eexists. split; reflexivity.
Qed.

Lemma RecordClose_recorded now active code transport err c : closeInfo (RecordClose now active code transport err c) ≠ None.
Proof. unfold RecordClose. destruct (closeInfo c) eqn:E; [congruence|]. by destruct active. Qed.

(** What a record of the close leaves alone. *)
Lemma RecordClose_queues now active code transport err c :
  let c' := RecordClose now active code transport err c in
  PayloadIn c' = PayloadIn c ∧ PayloadOutTLS c' = PayloadOutTLS c ∧ cs_Stat c' = cs_Stat c ∧ MTU c' = MTU c.
Proof. unfold RecordClose. destruct (closeInfo c); [done|]. by destruct active. Qed.

(** The session after a frame that fits, and whether the loop goes on. *)
Record received (c c' : ConnSession) (t : Z) (packet : list Z) : Prop := {
  rc_in : data <$> PayloadIn c' = (data <$> PayloadIn c) ++ (if t =? 0 then [packet] else []);
  rc_out : shown <$> PayloadOutTLS c' = (shown <$> PayloadOutTLS c) ++ dpd_replies t;
  rc_bytes : BytesReceived (cs_Stat c') =
    if is_final t then BytesReceived (cs_Stat c) else add_u64 (Z.of_nat (length (frame_wire (t, packet)))) (BytesReceived (cs_Stat c));
  rc_dpd : DPDResponses (cs_Stat c') = if t =? 4 then add_u64 1 (DPDResponses (cs_Stat c)) else DPDResponses (cs_Stat c);
  rc_mtu : MTU c' = MTU c;
  rc_close : is_final t = false → closeInfo c' = closeInfo c;
}.

Section turn.
Context (now : string).

Definition final_code (t : Z) : string :=
  if t =? 5 then "server_disconnect" else if t =? 9 then "server_terminate" else "tls_protocol_error".

Lemma is_final_cases t :
  is_final t = true ∧ t ≠ 0 ∧ t ≠ 3 ∧ t ≠ 4 ∧ t ≠ 7 ∨ is_final t = false ∧ (t = 0 ∨ t = 3 ∨ t = 4 ∨ t = 7).
Proof.
  unfold is_final. destruct (Z.eqb_spec t 0), (Z.eqb_spec t 3), (Z.eqb_spec t 4), (Z.eqb_spec t 7); cbn; auto 10.
Qed.

Lemma received_same c c' t packet :
  is_final t = true → (∃ code err, c' = RecordClose now false code "tls" err c) → received c c' t packet.
Proof.
  intros Hf (code & err & ->). destruct (is_final_cases t) as [(_ & ? & ? & ? & ?)|[? _]]; [|congruence].
  destruct (RecordClose_queues now false code "tls" err c) as (E1 & E2 & E3 & E4).
  split; rewrite ?E1, ?E2, ?E3, ?E4, ?Hf; try done; unfold dpd_replies;
    rewrite ?(proj2 (Z.eqb_neq t _)) by done; by rewrite ?app_nil_r.
Qed.

Lemma tls_dispatch_received env t packet pl c pools :
  pools_ok pools → te_sent env = true → pl_Type pl = t → data pl = packet →
  ∃ c' pools', tls_dispatch now false env t (Z.of_nat (length (frame_wire (t, packet)))) pl c pools = (c', pools', negb (is_final t)) ∧
    pools_ok pools' ∧ received c c' t packet ∧
    (is_final t = true → closeInfo c = None → closes_with (final_code t) c').
Proof.
  intros Hok Hs HT Hp. pose proof (putPayloadBuffer_ok pl _ Hok) as Hput.
  set (n := Z.of_nat (length (frame_wire (t, packet)))).
  unfold tls_dispatch. rewrite Hs. destruct (is_final_cases t) as [(Hf & H0 & H3 & H4 & H7)|[Hf Ht]].
  - rewrite Hf, (proj2 (Z.eqb_neq t 0)), (proj2 (Z.eqb_neq t 3)), (proj2 (Z.eqb_neq t 4)), (proj2 (Z.eqb_neq t 7)) by done.
    cbn [orb negb]. eexists _, _. split; [reflexivity|]. split; [done|]. split.
    + apply received_same; [done|]. destruct (t =? 5); [eauto|]. destruct (t =? 9); eauto.
    + intros _ Hc. unfold final_code. destruct (t =? 5); [by apply closeInfo_RecordClose|].
      destruct (t =? 9); by apply closeInfo_RecordClose.
  - rewrite Hf. destruct Ht as [->|[->|[->| ->]]]; cbn [Z.eqb Pos.eqb orb negb];
      (eexists _, _; split; [reflexivity|]; split; [done|]; split; [|done]); split; rewrite ?Hf; cbn -[frame_wire add_u64 data];
      unfold dpd_replies; cbn -[frame_wire add_u64 data]; rewrite ?fmap_app, ?app_nil_r; cbn -[data]; by rewrite ?Hp.
Qed.

Lemma tls_turn_wire env c t packet rest e pools :
  pools_ok pools → te_deadline env = None → te_sent env = true → fits (t, packet) →
  ∃ c' pools', tls_turn now false env (mkTls c (mkReader (frame_wire (t, packet) ++ rest) e) pools) =
      Some (mkTls c' (mkReader rest e) pools', negb (is_final t)) ∧
    pools_ok pools' ∧ received c c' t packet ∧
    (is_final t = true → closeInfo c = None → closes_with (final_code t) c').
Proof.
  intros Hok Hd Hs Hf. unfold tls_turn. cbn [tl_c tl_rd tl_pools]. rewrite Hd.
  replace (if ResetTLSReadDead c then None else None) with (@None error) by by destruct (ResetTLSReadDead c).
  set (c0 := if ResetTLSReadDead c then _ else c).
  assert (E0 : PayloadIn c0 = PayloadIn c ∧ PayloadOutTLS c0 = PayloadOutTLS c ∧ cs_Stat c0 = cs_Stat c ∧ MTU c0 = MTU c ∧
    closeInfo c0 = closeInfo c) by (unfold c0; by destruct (ResetTLSReadDead c)).
  clearbody c0. destruct E0 as (E1 & E2 & E3 & E4 & E5).
  destruct (getPayloadBuffer_ok (MTU c0) (te_hit env) pools Hok) as (pl & pools1 & -> & Hok1 & _ & _ & _).
  cbn [mbind option_bind].
  destruct (readCSTPFrame_wire t packet rest e pl Hf) as (pl1 & Er & Hdata & _).
  unfold frame_wire at 1. cbn [fst snd]. rewrite Er.
  set (pl2 := pl1 <| pl_Type := t |>).
  destruct (tls_dispatch_received env t packet pl2 c0 pools1 Hok1 Hs) as (c' & pools' & E & Hok' & Hr & Hfin); [done|done|].
  unfold frame_wire in E. cbn [fst snd] in E. rewrite E. exists c', pools'. split; [done|]. split; [done|]. split.
  - destruct Hr as [R1 R2 R3 R4 R5 R6]. rewrite E1, E2, E3, E4, E5 in *. by split.
  - by rewrite <- E5.
Qed.
End turn.

(** ** A stream of frames *)

(** The frames before the first that ends the channel. *)
Fixpoint accepted (fs : list (Z * list Z)) : list (Z * list Z) :=
  match fs with [] => [] | f :: fs => if is_final f.1 then [] else f :: accepted fs end.
Fixpoint stop_code (fs : list (Z * list Z)) (err : error) : string :=
  match fs with
  | [] => timeout_code "tls_read" err
  | f :: fs => if is_final f.1 then final_code f.1 else stop_code fs err
  end.

Definition packets (fs : list (Z * list Z)) : list (list Z) := snd <$> List.filter (λ f, f.1 =? 0) fs.
Definition replies (fs : list (Z * list Z)) : list (Z * list Z) := concat ((λ f, dpd_replies f.1) <$> fs).
Definition responses (fs : list (Z * list Z)) : Z := Z.of_nat (length (List.filter (λ f, f.1 =? 4) fs)).

Definition quiet_env (env : tls_env) : Prop := te_deadline env = None ∧ te_sent env = true.

(** What a run of the loop has done with the frames [fs], of which the last
    may have ended it. *)
Record delivered (c c' : ConnSession) (fs : list (Z * list Z)) : Prop := {
  dl_in : data <$> PayloadIn c' = (data <$> PayloadIn c) ++ packets fs;
  dl_out : shown <$> PayloadOutTLS c' = (shown <$> PayloadOutTLS c) ++ replies fs;
  dl_bytes : BytesReceived (cs_Stat c') = (BytesReceived (cs_Stat c) + Z.of_nat (length (frames_wire fs))) mod 2 ^ 64;
  dl_dpd : DPDResponses (cs_Stat c') = (DPDResponses (cs_Stat c) + responses fs) mod 2 ^ 64;
}.

Definition counters_ok (c : ConnSession) : Prop :=
  0 ≤ BytesReceived (cs_Stat c) < 2 ^ 64 ∧ 0 ≤ DPDResponses (cs_Stat c) < 2 ^ 64.

Lemma delivered_nil c c' :
  counters_ok c → data <$> PayloadIn c' = data <$> PayloadIn c → shown <$> PayloadOutTLS c' = shown <$> PayloadOutTLS c →
  BytesReceived (cs_Stat c') = BytesReceived (cs_Stat c) → DPDResponses (cs_Stat c') = DPDResponses (cs_Stat c) →
  delivered c c' [].
Proof.
  intros [H1 H2] E1 E2 E3 E4. split; rewrite ?E1, ?E2, ?E3, ?E4; cbn -[Z.modulo Z.pow]; rewrite ?app_nil_r; try done;
    rewrite Z.add_0_r, Z.mod_small; done.
Qed.

Lemma counters_received c c' t packet : counters_ok c → received c c' t packet → counters_ok c'.
Proof.
  intros [H1 H2] [_ _ E3 E4 _ _]. unfold counters_ok. rewrite E3, E4. unfold add_u64.
  split; [destruct (is_final t)|destruct (t =? 4)]; try done; apply Z.mod_pos_bound; done.
Qed.

Lemma delivered_cons c c1 c' f fs :
  is_final f.1 = false → received c c1 f.1 f.2 → delivered c1 c' fs → delivered c c' (f :: fs).
Proof.
  destruct f as [t packet]. cbn [fst snd]. intros Hf [R1 R2 R3 R4 _ _] [D1 D2 D3 D4]. rewrite Hf in R3. split.
  - rewrite D1, R1. unfold packets. cbn [List.filter fst]. rewrite <- (assoc_L (++)). by destruct (t =? 0).
  - rewrite D2, R2. unfold replies. cbn [fmap list_fmap concat fst]. by rewrite (assoc_L (++)).
  - rewrite D3, R3. unfold add_u64, frames_wire. cbn [fmap list_fmap concat]. rewrite length_app, Nat2Z.inj_add.
    rewrite Zplus_mod_idemp_l. f_equal. lia.
  - rewrite D4, R4. unfold add_u64, responses. cbn [List.filter fst]. destruct (t =? 4); [|done].
    rewrite Zplus_mod_idemp_l. cbn [length]. f_equal. lia.
Qed.

Section stream.
Context (now : string).

Lemma tls_turn_end env c e pools :
  pools_ok pools → quiet_env env →
  ∃ pools' c', tls_turn now false env (mkTls c (mkReader [] e) pools) = Some (mkTls c' (mkReader [] e) pools', false) ∧
    (counters_ok c → delivered c c' []) ∧ (closeInfo c = None → closes_with (timeout_code "tls_read" e) c').
Proof.
  intros Hok [Hd _]. unfold tls_turn. cbn [tl_c tl_rd tl_pools]. rewrite Hd.
  replace (if ResetTLSReadDead c then None else None) with (@None error) by by destruct (ResetTLSReadDead c).
  set (c0 := if ResetTLSReadDead c then _ else c).
  assert (E0 : PayloadIn c0 = PayloadIn c ∧ PayloadOutTLS c0 = PayloadOutTLS c ∧ cs_Stat c0 = cs_Stat c ∧
    closeInfo c0 = closeInfo c) by (unfold c0; by destruct (ResetTLSReadDead c)).
  clearbody c0. destruct E0 as (E1 & E2 & E3 & E5).
  destruct (getPayloadBuffer_ok (MTU c0) (te_hit env) pools Hok) as (pl & pools1 & -> & Hok1 & _ & _ & _).
  cbn [mbind option_bind]. 
  assert (Er : readCSTPFrame (mkReader [] e) (Some pl) = (mkReader [] e, Some pl, inl e)) by by destruct e.
  rewrite Er. eexists _, _. split; [reflexivity|].
  destruct (RecordClose_queues now false (timeout_code "tls_read" e) "tls" (Some e) c0) as (Q1 & Q2 & Q3 & _). split.
  - intros Hc. apply delivered_nil; try done; rewrite ?Q1, ?Q2, ?Q3, ?E1, ?E2, ?E3; done.
  - intros Hc. apply closeInfo_RecordClose; [congruence| |done]. unfold timeout_code. by destruct (errors_is e NetTimeout).
Qed.

Lemma tls_loop_frames e fs : ∀ envs c pools,
  pools_ok pools → Forall quiet_env envs → (length fs < length envs)%nat → Forall fits fs → counters_ok c → closeInfo c = None →
  ∃ s, tls_loop now false envs (mkTls c (mkReader (frames_wire fs) e) pools) = Some (s, false) ∧
    delivered c (tl_c s) (accepted fs) ∧ closes_with (stop_code fs e) (tl_c s).
Proof.
  induction fs as [|f fs IH]; intros [|env envs] c pools Hok Hq Hlen Hfit Hc Hn; try (cbn in Hlen; lia);
    apply Forall_cons in Hq as [Hq Hqs]; cbn [tls_loop].
  - destruct (tls_turn_end env c e pools Hok Hq) as (pools' & c' & E & Hdel & Hclose).
    change (frames_wire []) with (@nil Z). rewrite E. cbn [mbind option_bind]. eexists. split; [reflexivity|].
    split; [by apply Hdel|by apply Hclose].
  - apply Forall_cons in Hfit as [Hf Hfs]. destruct f as [t packet]. destruct Hq as [Hd Hs].
    destruct (tls_turn_wire now env c t packet (frames_wire fs) e pools Hok Hd Hs Hf) as (c1 & pools1 & E & Hok1 & Hr & Hfin).
    change (frames_wire ((t, packet) :: fs)) with (frame_wire (t, packet) ++ frames_wire fs). rewrite E.
    cbn [mbind option_bind accepted stop_code fst]. destruct (is_final t) eqn:Ht; cbn [negb].
    + eexists. split; [reflexivity|]. split; [|by apply Hfin].
      destruct Hr as [R1 R2 R3 R4 _ _]. rewrite Ht in R3. destruct (is_final_cases t) as [(_ & ? & ? & ? & ?)|[? _]]; [|congruence].
      unfold dpd_replies in R2. rewrite (proj2 (Z.eqb_neq t 3)), app_nil_r in R2 by done.
      rewrite (proj2 (Z.eqb_neq t 0)), app_nil_r in R1 by done. rewrite (proj2 (Z.eqb_neq t 4)) in R4 by done.
      by apply delivered_nil.
    + destruct (IH envs c1 pools1) as (s & Es & Hdel & Hcl); try done; [cbn in Hlen; lia|by eapply counters_received| |].
      { by rewrite (rc_close _ _ _ _ Hr). }
      exists s. split; [done|]. split; [|done]. by eapply delivered_cons.
Qed.
End stream.

(** ** The sender *)

(** A payload the sender can frame: a packet with eight bytes of room, or a
    control frame of a type the channel knows. *)
Definition sendable (pl : Payload) : Prop :=
  is_final (pl_Type pl) = false ∧ slice_ok pl ∧ fits (shown pl) ∧ (pl_Type pl = 0 → (pl_len pl + 8 ≤ capacity pl)%nat).

(** The frame of a payload: control frames carry nothing. *)
Definition sent_frame (pl : Payload) : Z * list Z := if pl_Type pl =? 0 then shown pl else (pl_Type pl, []).

Lemma cstp_out_sendable pl :
  sendable pl → ∃ pl', cstp_out pl = Some pl' ∧ data pl' = frame_wire (sent_frame pl) ∧ fits (sent_frame pl) ∧ is_final (sent_frame pl).1 = false.
Proof.
  intros (Hf & Hok & Hfit & Hroom). unfold sent_frame. destruct (Z.eqb_spec (pl_Type pl) 0) as [H0|H0].
  - destruct (cstp_out_data pl H0 Hok (Hroom H0)) as (pl' & E & Hd). exists pl'. split; [done|].
    unfold frame_wire, shown. cbn [fst snd]. by rewrite H0.
  - destruct (cstp_out_control pl H0) as (pl' & E & Hd). exists pl'. by split_and!.
Qed.

Lemma payloadOut_frames now active queue : ∀ o,
  Forall sendable queue → 0 ≤ BytesSent (cs_Stat (ou_c o)) < 2 ^ 64 →
  ∃ c' pools', payloadOutTLSToServer now active ((λ pl, ((0%nat, None), Some pl)) <$> queue) o =
      Some (mkOut c' (ou_wire o ++ frames_wire (sent_frame <$> queue)) pools', true) ∧
    BytesSent (cs_Stat c') = (BytesSent (cs_Stat (ou_c o)) + Z.of_nat (length (frames_wire (sent_frame <$> queue)))) mod 2 ^ 64.
Proof.
  induction queue as [|pl queue IH]; intros [c wire pools] Hq Hb; cbn [fmap list_fmap payloadOutTLSToServer].
  - exists c, pools. cbn in *. rewrite app_nil_r, Z.add_0_r, Z.mod_small; done.
  - apply Forall_cons in Hq as [Hpl Hq]. destruct (cstp_out_sendable pl Hpl) as (pl' & E & Hd & _).
    unfold payloadOutTLS_turn, out_turn. rewrite E. cbn [mbind option_bind ou_c ou_wire ou_pools].
    set (o := mkOut _ _ _). cbn [ou_c] in Hb.
    assert (Hb' : BytesSent (cs_Stat (ou_c o)) = add_u64 (Z.of_nat (length (data pl'))) (BytesSent (cs_Stat c))) by done.
    destruct (IH o Hq) as (c' & pools' & E' & Hsum); [rewrite Hb'; by apply Z.mod_pos_bound|].
    exists c', pools'. rewrite E'. unfold o. cbn [ou_wire]. unfold frames_wire. cbn [fmap list_fmap concat]. rewrite <- Hd.
    rewrite (assoc_L (++)). split; [done|]. rewrite Hsum, Hb'. unfold add_u64, frames_wire. rewrite Zplus_mod_idemp_l.
    f_equal. rewrite length_app. lia.
Qed.

Lemma accepted_app fs tail :
  Forall (λ f, is_final f.1 = false) fs →
  accepted (fs ++ tail) = fs ++ accepted tail ∧ ∀ e, stop_code (fs ++ tail) e = stop_code tail e.
Proof.
  induction 1 as [|f fs Hf _ [IH1 IH2]]; [done|]. cbn. rewrite Hf. split; [by rewrite IH1|done].
Qed.

Lemma sendable_frames queue :
  Forall sendable queue → Forall fits (sent_frame <$> queue) ∧ Forall (λ f, is_final f.1 = false) (sent_frame <$> queue).
Proof.
  intros H. rewrite !Forall_fmap. split; (eapply Forall_impl; [exact H|]); intros pl Hpl;
    by destruct (cstp_out_sendable pl Hpl) as (_ & _ & _ & ? & ?).
Qed.

(** C25: the stream between the two ends of the TLS channel.  Whatever payloads one
    end's sender takes out of its queue, and whatever frames the server writes
    after them, the other end's reader puts exactly the packets into its queue,
    in order and byte for byte, answers every probe, counts every response and
    every byte, whatever old buffers the pools hand out; it stops at the first
    frame that ends the channel or at the end of the stream, and the session
    then knows why. *)
Theorem tls_stream_roundtrip now active queue oc opools tail envs c pools :
  Forall sendable queue → 0 ≤ BytesSent (cs_Stat oc) < 2 ^ 64 → Forall fits tail →
  pools_ok pools → Forall quiet_env envs → (length queue + length tail < length envs)%nat →
  counters_ok c → closeInfo c = None →
  ∃ o, payloadOutTLSToServer now active ((λ pl, ((0%nat, None), Some pl)) <$> queue) (mkOut oc [] opools) = Some (o, true) ∧
    BytesSent (cs_Stat (ou_c o)) = (BytesSent (cs_Stat oc) + Z.of_nat (length (ou_wire o))) mod 2 ^ 64 ∧
  ∃ s, tlsChannel now false envs (mkTls c (mkReader (ou_wire o ++ frames_wire tail) io_EOF) pools) = Some (s, false) ∧
    delivered c (tl_c s) ((sent_frame <$> queue) ++ accepted tail) ∧ closes_with (stop_code tail io_EOF) (tl_c s) ∧
    TLSState (tl_c s) = "Closed".
Proof.
  intros Hq Hb Htail Hok Henvs Hlen Hc Hn.
  destruct (payloadOut_frames now active queue (mkOut oc [] opools) Hq Hb) as (c1 & pools1 & E & Hsum).
  eexists. split; [exact E|]. cbn [ou_c ou_wire app] in *. split; [exact Hsum|].
  destruct (sendable_frames queue Hq) as [Hfit Hnf].
  assert (Ew : frames_wire (sent_frame <$> queue) ++ frames_wire tail = frames_wire ((sent_frame <$> queue) ++ tail)).
  { unfold frames_wire. by rewrite fmap_app, concat_app. }
  rewrite Ew. unfold tlsChannel. cbn [tl_c tl_rd tl_pools].
  destruct (tls_loop_frames now io_EOF ((sent_frame <$> queue) ++ tail) envs (SetTLSState "Ready" c) pools) as (s & Es & Hd & Hcl);
    try done.
  { rewrite length_app, length_fmap. lia. }
  { by apply Forall_app. }
  rewrite Es. cbn [mbind option_bind]. eexists. split; [reflexivity|].
  destruct (accepted_app _ tail Hnf) as [-> Hstop] in Hd, Hcl. rewrite Hstop in Hcl.
  split_and!; [|done|done]. destruct Hd as [D1 D2 D3 D4]. by split.
Qed.

(** ** Any server *)

(** A queue has grown by buffers that are sound and hold at most a frame. *)
Definition grown (q q' : list Payload) : Prop :=
  ∃ l, q' = q ++ l ∧ Forall (λ pl, slice_ok pl ∧ Z.of_nat (length (data pl)) ≤ 65535) l.

#[export] Instance grown_preorder : PreOrder grown.
Proof.
  split.
  - intros q. exists []. by rewrite app_nil_r.
  - intros q1 q2 q3 (l1 & -> & H1) (l2 & -> & H2). exists (l1 ++ l2). by rewrite (assoc_L (++)), Forall_app.
Qed.

Definition sound_step (c c' : ConnSession) : Prop :=
  grown (PayloadIn c) (PayloadIn c') ∧ grown (PayloadOutTLS c) (PayloadOutTLS c') ∧ MTU c' = MTU c.

#[export] Instance sound_step_preorder : PreOrder sound_step.
Proof.
  split; [by intros c|]. intros c1 c2 c3 (H1 & H2 & H3) (H4 & H5 & H6). split_and!; by etransitivity.
Qed.

Lemma sound_same c c' :
  PayloadIn c' = PayloadIn c → PayloadOutTLS c' = PayloadOutTLS c → MTU c' = MTU c → sound_step c c'.
Proof. intros E1 E2 E3. unfold sound_step. by rewrite E1, E2, E3. Qed.

Lemma sound_RecordClose now active code transport err c : sound_step c (RecordClose now active code transport err c).
Proof. by apply sound_same; apply RecordClose_queues. Qed.

Lemma grown_one q pl : slice_ok pl → Z.of_nat (length (data pl)) ≤ 65535 → grown q (q ++ [pl]).
Proof. intros H1 H2. exists [pl]. split; [done|]. by apply Forall_singleton. Qed.

Section any.
Context (now : string) (active : bool).

Lemma tls_dispatch_sound env t n pl c pools :
  pools_ok pools → slice_ok pl → Z.of_nat (capacity pl) ≤ 65535 →
  ∃ c' pools' go, tls_dispatch now active env t n pl c pools = (c', pools', go) ∧ pools_ok pools' ∧ sound_step c c' ∧
    (te_sent env = true → go = false → closeInfo c' ≠ None).
Proof.
  intros Hok Hsl Hcap. pose proof (putPayloadBuffer_ok pl _ Hok) as Hput. unfold tls_dispatch.
  assert (Hlen : Z.of_nat (length (data pl)) ≤ 65535) by (rewrite length_data by done; unfold slice_ok in Hsl; lia).
  destruct (t =? 0).
  { destruct (te_sent env); eexists _, _, _; (split; [reflexivity|]); split_and!; try done. split; [by apply grown_one|done]. }
  destruct ((t =? 4) || (t =? 7)).
  { eexists _, _, _. split; [reflexivity|]. split_and!; try done; by destruct (t =? 4). }
  destruct (t =? 3).
  { destruct (te_sent env); eexists _, _, _; (split; [reflexivity|]); split_and!; try done; try by apply putPayloadBuffer_ok.
    split; [done|]. split; [|done]. apply grown_one; [unfold slice_ok; cbn; lia|done]. }
  eexists _, _, _. split; [reflexivity|]. split; [done|]. split.
  - destruct (t =? 5); [apply sound_RecordClose|]. destruct (t =? 9); apply sound_RecordClose.
  - intros _ _. destruct (t =? 5); [apply RecordClose_recorded|]. destruct (t =? 9); apply RecordClose_recorded.
Qed.

Lemma tls_turn_any env s :
  pools_ok (tl_pools s) →
  ∃ s' go, tls_turn now active env s = Some (s', go) ∧ pools_ok (tl_pools s') ∧ sound_step (tl_c s) (tl_c s') ∧
    (go = true → (length (rd_bytes (tl_rd s')) + 8 ≤ length (rd_bytes (tl_rd s)))%nat) ∧
    (te_sent env = true → go = false → closeInfo (tl_c s') ≠ None).
Proof.
  intros Hok. unfold tls_turn. destruct (if ResetTLSReadDead (tl_c s) then te_deadline env else None) as [err|].
  { eexists _, _. split; [reflexivity|]. cbn. split_and!; try done; [apply sound_RecordClose|intros _ _; apply RecordClose_recorded]. }
  set (c := if ResetTLSReadDead (tl_c s) then _ else tl_c s).
  assert (Hc : sound_step (tl_c s) c) by (unfold c; destruct (ResetTLSReadDead (tl_c s)); by apply sound_same).
  clearbody c.
  destruct (getPayloadBuffer_ok (MTU c) (te_hit env) (tl_pools s) Hok) as (pl & pools1 & -> & Hok1 & Hcap & _ & _).
  cbn [mbind option_bind].
  destruct (readCSTPFrame_cases (tl_rd s) pl) as (rd' & pl' & res & -> & _ & Hmax & _ & _ & _ & Hres).
  pose proof (payloadBufferSize_bounds (MTU c)) as Hb. unfold maximumPacketMTU, packetHeadroom in Hb.
  destruct res as [err|[t n]].
  - eexists _, _. split; [reflexivity|]. cbn. split_and!; try done.
    + by apply putPayloadBuffer_ok.
    + etransitivity; [exact Hc|apply sound_RecordClose].
    + intros _ _. apply RecordClose_recorded.
  - destruct Hres as [Hlt Hsl].
    destruct (tls_dispatch_sound env t n (pl' <| pl_Type := t |>) c pools1 Hok1) as (c' & pools' & go & -> & Hok' & Hs & Hcl).
    { exact Hsl. } { unfold capacity in *. cbn. lia. }
    eexists _, _. split; [reflexivity|]. cbn. split_and!; try done. by etransitivity.
Qed.

Lemma tls_loop_any envs : ∀ s,
  pools_ok (tl_pools s) → (length (rd_bytes (tl_rd s)) < 8 * length envs)%nat →
  ∃ s', tls_loop now active envs s = Some (s', false) ∧ pools_ok (tl_pools s') ∧ sound_step (tl_c s) (tl_c s') ∧
    (Forall (λ env, te_sent env = true) envs → closeInfo (tl_c s') ≠ None).
Proof.
  induction envs as [|env envs IH]; intros s Hok Hlen; [cbn in Hlen; lia|]. cbn [tls_loop].
  destruct (tls_turn_any env s Hok) as (s1 & go & -> & Hok1 & Hs & Hgo & Hcl). cbn [mbind option_bind]. destruct go.
  - destruct (IH s1 Hok1) as (s' & -> & Hok' & Hs' & Hcl').
    { specialize (Hgo eq_refl). cbn [length] in Hlen. lia. }
    exists s'. split_and!; try done; [by etransitivity|]. by intros [_ ?]%Forall_cons; apply Hcl'.
  - exists s1. split_and!; try done. intros [? _]%Forall_cons. by apply Hcl.
Qed.

(** C26: whatever bytes the server sends, in whatever pieces, and whatever else
    goes on, the reader of the TLS channel never panics and takes at most one
    turn for every eight bytes before it leaves; the pools keep their sizes,
    the queues gain only whole buffers of at most 65535 bytes, and unless the
    session is closed under it the channel leaves with the cause on record. *)
Theorem tls_channel_any_server envs s :
  pools_ok (tl_pools s) → (length (rd_bytes (tl_rd s)) < 8 * length envs)%nat →
  ∃ s', tlsChannel now active envs s = Some (s', false) ∧ pools_ok (tl_pools s') ∧ sound_step (tl_c s) (tl_c s') ∧
    (Forall (λ env, te_sent env = true) envs → closeInfo (tl_c s') ≠ None) ∧ TLSState (tl_c s') = "Closed".
Proof.
  intros Hok Hlen. unfold tlsChannel.
  destruct (tls_loop_any envs (mkTls (SetTLSState "Ready" (tl_c s)) (tl_rd s) (tl_pools s)) Hok Hlen) as (s' & -> & Hok' & Hs & Hcl).
  cbn [mbind option_bind]. eexists. split; [reflexivity|]. by split_and!.
Qed.
End any.

(** ** A datagram *)

(** A datagram that fits the reader's buffer is taken off as it was framed. *)
Lemma dtls_turn_data now hit packet c pools :
  pools_ok pools → Z.of_nat (S (length packet)) ≤ payloadBufferSize (MTU c) →
  ∃ c' pools', dtls_turn now hit true (Received (dtls_wire 0 packet) (Z.of_nat (S (length packet)))) c pools = Some (c', pools', true) ∧
    data <$> PayloadIn c' = (data <$> PayloadIn c) ++ [packet] ∧
    BytesReceived (cs_Stat c') = add_u64 (Z.of_nat (S (length packet))) (BytesReceived (cs_Stat c)).
Proof.
  intros Hok Hsize. unfold dtls_turn.
  set (c0 := if ResetDTLSReadDead c then _ else c).
  assert (E0 : PayloadIn c0 = PayloadIn c ∧ cs_Stat c0 = cs_Stat c ∧ MTU c0 = MTU c) by (unfold c0; by destruct (ResetDTLSReadDead c)).
  clearbody c0. destruct E0 as (E1 & E2 & E3).
  destruct (getPayloadBuffer_ok (MTU c0) hit pools Hok) as (pl & pools1 & -> & Hok1 & Hcap & Hlen & HT).
  cbn [mbind option_bind]. rewrite E3 in Hcap.
  assert (Hl : (S (length packet) ≤ length (pl_arr pl))%nat) by (unfold capacity in Hcap; lia).
  assert (Earr : copy_at 0 (dtls_wire 0 packet) (pl_arr pl) = 0 :: packet ++ drop (S (length packet)) (pl_arr pl)).
  { rewrite <- (take_drop (S (length packet)) (pl_arr pl)) at 1.
    rewrite copy_at_start; [done|]. rewrite length_take. unfold dtls_wire. cbn [length]. lia. }
  set (pl1 := pl <| pl_arr ::= copy_at 0 (dtls_wire 0 packet) |>).
  assert (Ed : data pl1 = 0 :: packet ++ drop (S (length packet)) (pl_arr pl)).
  { unfold data, pl1. cbn -[copy_at take]. rewrite Earr, Hlen. apply take_ge. unfold capacity. cbn [length].
    rewrite length_app, length_drop. cbn [length] in *. lia. }
  assert (El : pl_len pl1 = capacity pl) by (unfold pl1; cbn; by rewrite Hlen).
  rewrite (proj2 (Z.leb_gt (Z.of_nat (S (length packet))) 0)) by lia.
  rewrite (proj2 (Z.ltb_ge _ _)) by (rewrite El; unfold capacity; lia). cbn [orb].
  rewrite Ed. cbn [lookup list_lookup mbind option_bind Z.eqb].
  eexists _, _. split; [reflexivity|]. rewrite Nat2Z.id. cbn [take drop].
  rewrite take_app_length. split; [|unfold count_received, bump; cbn; by rewrite E2].
  unfold count_received, bump. cbn -[data append_at_start]. rewrite E1, fmap_app. cbn -[data append_at_start]. do 2 f_equal.
  rewrite drop_0. unfold append_at_start. rewrite decide_True; [|unfold capacity, pl1; cbn -[copy_at]; rewrite length_copy_at; lia].
  unfold data. cbn -[copy_at take]. rewrite Earr.
  rewrite <- (take_drop (length packet) (0 :: packet ++ _)) at 1.
  rewrite copy_at_start by (rewrite length_take; cbn [length]; rewrite length_app; lia). by rewrite take_app_length.
Qed.

Lemma dtls_roundtrip now hit pl c pools :
  pl_Type pl = 0 → slice_ok pl → (pl_len pl + 1 ≤ capacity pl)%nat → pools_ok pools →
  Z.of_nat (S (pl_len pl)) ≤ payloadBufferSize (MTU c) →
  ∃ f, dtls_out pl = Some f ∧ ∃ c' pools',
    dtls_turn now hit true (Received (data f) (Z.of_nat (length (data f)))) c pools = Some (c', pools', true) ∧
    data <$> PayloadIn c' = (data <$> PayloadIn c) ++ [data pl].
Proof.
  intros HT Hsl Hroom Hok Hsize. destruct (dtls_out_data pl HT Hsl Hroom) as (f & E & Hf). exists f. split; [done|].
  rewrite Hf. destruct (dtls_turn_data now hit (data pl) c pools Hok) as (c' & pools' & Et & Hin & _).
  { by rewrite length_data. }
  exists c', pools'. by split.
Qed.

(** ** Runs *)

Definition demo_env_turn : tls_env := mkTlsEnv None None true.
Definition demo_conn : ConnSession := (NewConnSession false (λ _, Some ("corp.example", "")) 0
  (mkSession "token" [] false None false) (<["X-Cstp-Post-Auth-Xml" := ["<config-auth/>"]]> ∅)).2.

Definition demo_queue : list Payload :=
  [mkPayload 0 ([69; 1; 2; 3] ++ replicate 16 0) 4; mkPayload 3 [0] 0; mkPayload 0 ([69; 9] ++ replicate 16 0) 2].

Lemma demo_queue_sendable : Forall sendable demo_queue.
Proof.
  unfold demo_queue. rewrite !Forall_cons, Forall_nil. unfold sendable, slice_ok, fits, shown, capacity, data. cbn.
  repeat split; try lia; try done.
Qed.

Lemma tls_stream_roundtrip_witness :
  ∃ o, payloadOutTLSToServer "now" false ((λ pl, ((0%nat, None), Some pl)) <$> demo_queue) (mkOut demo_conn [] ∅) = Some (o, true) ∧
  ∃ s, tlsChannel "now" false (replicate 6 demo_env_turn) (mkTls demo_conn (mkReader (ou_wire o ++ frames_wire [(5, []); (0, [1])]) io_EOF) ∅) = Some (s, false) ∧
    data <$> PayloadIn (tl_c s) = [[69; 1; 2; 3]; [69; 9]] ∧ shown <$> PayloadOutTLS (tl_c s) = [(4, [])] ∧
    closes_with "server_disconnect" (tl_c s).
Proof.
  destruct (tls_stream_roundtrip "now" false demo_queue demo_conn ∅ [(5, []); (0, [1])] (replicate 6 demo_env_turn) demo_conn ∅)
    as (o & Eo & _ & s & Es & [D1 D2 _ _] & Hcl & _).
  - exact demo_queue_sendable.
  - vm_compute. split; congruence.
  - repeat constructor.
  - apply pools_ok_empty.
  - by apply Forall_replicate.
  - cbn. lia.
  - vm_compute. repeat split; congruence.
  - reflexivity.
  - exists o. split; [exact Eo|]. exists s. split; [exact Es|]. split; [exact D1|]. split; [exact D2|exact Hcl].
Defined.

Lemma tls_channel_any_server_witness :
  ∃ s', tlsChannel "now" false (replicate 2 demo_env_turn) (mkTls demo_conn (mkReader (replicate 15 83) io_EOF) ∅) = Some (s', false) ∧
    closeInfo (tl_c s') ≠ None.
Proof.
  destruct (tls_channel_any_server "now" false (replicate 2 demo_env_turn) (mkTls demo_conn (mkReader (replicate 15 83) io_EOF) ∅)
    pools_ok_empty) as (s' & E & _ & _ & Hcl & _); [cbn; lia|].
  exists s'. split; [exact E|]. apply Hcl. by apply Forall_replicate.
Defined.

(** A server that names domains for split tunneling and then sends a packet
    of three bytes ends the process: the reader delivers it, and the worker
    that writes to the TUN device looks for a source port in it. *)
Theorem short_packet_crashes :
  DynamicSplitTunneling demo_conn = true ∧
  ∃ s pl, tlsChannel "now" false (replicate 2 demo_env_turn) (mkTls demo_conn (mkReader (frames_wire [(0, [69; 0; 0])]) io_EOF) ∅) = Some (s, false) ∧
    PayloadIn (tl_c s) = [pl] ∧ data pl = [69; 0; 0] ∧
    tun_in_turn "now" false 0 false true (1, None) (Some pl) (tl_c s) (tl_pools s) = None.
Proof.
  split; [vm_compute; reflexivity|]. eexists _, _. split; [vm_compute; reflexivity|].
  split; [reflexivity|]. split; vm_compute; reflexivity.
Qed.
