(* ===== verification/Controller.v ===== *)
(** * The tunnel controller (src/internal/anyconnect/tunnel/controller.go)

    The controller owns the TUN device and the network manager.  [Start] and
    [Close], the four workers, the goroutine that waits for them and the close
    of the session run at the same time; [sync.Once] runs the body of [Close]
    for the first caller and makes the others wait for its end.  A state says
    where each of them stands; one step is one statement on shared state. *)

From S2P Require Import Prelude GoStrings.

Open Scope go_scope.

(** ** State *)

(** Where the body of [close.Do] stands, with its [firstErr]. *)
Inductive close_at :=
  | NotCalled | AtStop | AtWait | AtManager | AtDevice (err : option error) | AtFinish (err : option error)
  | AtRecord (err : option error) | Finished (err : option error).

Inductive start_at := AtState | AtHook | InHook | AtWorkers | Started | Refused.

(** A packet worker that fails closes the session itself and waits for that. *)
Inductive worker := Unborn | Working | Leaving | Ended.

(** The close of the session: the channel, then the hook, then the end. *)
Inductive session_at := Open | Closing | Hooked | Closed.

#[export] Instance start_at_eq_dec : EqDecision start_at.
Proof. solve_decision. Defined.
#[export] Instance worker_eq_dec : EqDecision worker.
Proof. solve_decision. Defined.
#[export] Instance session_at_eq_dec : EqDecision session_at.
Proof. solve_decision. Defined.

(** The calls on what the controller owns, in order, with their results. *)
Inductive call := SetsDynamicRoutes | ManagerClose (err : option error) | DeviceClose (err : option error).

Record Controller := mkController {
  tc_state : string;
  tc_close : close_at;
  tc_start : start_at;
  tc_dynamicStop : bool; tc_dynamicDone : bool; tc_done : bool;      (* closed channels *)
  tc_dynamic : worker; tc_events : worker; tc_out : worker; tc_in : worker;
  tc_watching : bool;        (* the goroutine that waits for CloseChan *)
  tc_finishing : bool;       (* the goroutine that waits for the workers *)
  tc_session : session_at;
  tc_hook : bool;            (* the session will call [Close] *)
  tc_tunnelDone : bool;      (* the session knows the channel [done] *)
  tc_tunnelErr : option error;
  tc_calls : list call;
}.
#[export] Instance Controller_eta : Eta Controller := λ r,
  mkController (tc_state r) (tc_close r) (tc_start r) (tc_dynamicStop r) (tc_dynamicDone r) (tc_done r)
    (tc_dynamic r) (tc_events r) (tc_out r) (tc_in r) (tc_watching r) (tc_finishing r) (tc_session r) (tc_hook r)
    (tc_tunnelDone r) (tc_tunnelErr r) (tc_calls r).

Definition newTunnelController (session : session_at) : Controller :=
  mkController "Configuring" NotCalled AtState false false false Unborn Unborn Unborn Unborn false false session false false None [].

(** ** Steps *)

Definition CloseChan_closed (s : Controller) : bool := negb (bool_decide (tc_session s = Open)).
Definition device_closed (s : Controller) : bool := existsb (λ c, match c with DeviceClose _ => true | _ => false end) (tc_calls s).

(** A caller comes to [close.Do]. *)
Definition call_Close (s : Controller) : Controller :=
  match tc_close s with NotCalled => s <| tc_close := AtStop |> | _ => s end.
Definition Close_returned (s : Controller) : bool := match tc_close s with Finished _ => true | _ => false end.

(** [Start]; [None] while it has to wait. *)
Definition start_step (s : Controller) : option Controller :=
  match tc_start s with
  | AtState =>
    if tc_state s == "Configuring" then Some (s <| tc_state := "Running" |> <| tc_start := AtHook |>)
    else Some (s <| tc_start := Refused |>)
  | AtHook =>
    if CloseChan_closed s then Some ((call_Close s) <| tc_start := InHook |>)
    else Some (s <| tc_hook := true |> <| tc_start := AtWorkers |>)
  | InHook => if Close_returned s then Some (s <| tc_start := AtWorkers |>) else None
  | AtWorkers =>
    Some (s <| tc_tunnelDone := true |> <| tc_dynamic := Working |> <| tc_events := Working |> <| tc_out := Working |>
            <| tc_in := Working |> <| tc_watching := true |> <| tc_start := Started |>)
  | Started | Refused => None
  end.

(** The body of [Close] with the background context; [err] is what the manager
    or the device answers. *)
Definition close_body_step (err : option error) (s : Controller) : option Controller :=
  match tc_close s with
  | AtStop => Some (s <| tc_state := "Draining" |> <| tc_dynamicStop := true |> <| tc_close := AtWait |>)
  | AtWait => if tc_dynamicDone s then Some (s <| tc_close := AtManager |>) else None
  | AtManager => Some (s <| tc_calls ::= λ l, l ++ [ManagerClose err] |> <| tc_close := AtDevice err |>)
  | AtDevice first =>
    Some (s <| tc_calls ::= λ l, l ++ [DeviceClose err] |>
            <| tc_close := AtFinish (match first with Some e => Some e | None => err end) |>)
  | AtFinish first => Some (s <| tc_finishing := true |> <| tc_close := AtRecord first |>)
  | AtRecord first => Some (s <| tc_tunnelErr := first |> <| tc_close := Finished first |>)
  | NotCalled | Finished _ => None
  end.

(** The goroutine that waits for the workers. *)
Definition finish_step (s : Controller) : option Controller :=
  if tc_finishing s && negb (tc_done s) && bool_decide (tc_dynamic s = Ended) && bool_decide (tc_events s = Ended)
     && bool_decide (tc_out s = Ended) && bool_decide (tc_in s = Ended)
  then Some (s <| tc_state := "Closed" |> <| tc_done := true |>) else None.

(** The goroutine that waits for [CloseChan] and calls [Close]. *)
Definition watcher_step (s : Controller) : option Controller :=
  if tc_watching s && CloseChan_closed s then Some ((call_Close s) <| tc_watching := false |>) else None.

(** The close of the session. *)
Definition close_session (s : Controller) : Controller :=
  match tc_session s with Open => s <| tc_session := Closing |> | _ => s end.
Definition session_step (s : Controller) : option Controller :=
  match tc_session s with
  | Closing => if tc_hook s then Some ((call_Close s) <| tc_session := Hooked |>) else Some (s <| tc_session := Closed |>)
  | Hooked => if Close_returned s then Some (s <| tc_session := Closed |>) else None
  | Open | Closed => None
  end.

(** The dynamic-route worker: a reconciliation, or its end. *)
Definition dynamic_works (s : Controller) : option Controller :=
  match tc_dynamic s with Working => Some (s <| tc_calls ::= λ l, l ++ [SetsDynamicRoutes] |>) | _ => None end.
Definition dynamic_ends (s : Controller) : option Controller :=
  match tc_dynamic s with
  | Working => if tc_dynamicStop s || CloseChan_closed s then Some (s <| tc_dynamic := Ended |> <| tc_dynamicDone := true |>) else None
  | _ => None
  end.

(** The workers on the device.  [fails] is their own error, which closes the
    session; [payloadInToTun] closes it however it ends. *)
Definition events_step (fails : bool) (s : Controller) : option Controller :=
  match tc_events s with
  | Working =>
    if fails then Some ((close_session s) <| tc_events := Leaving |>)
    else if CloseChan_closed s then Some (s <| tc_events := Ended |>) else None
  | Leaving => if bool_decide (tc_session s = Closed) then Some (s <| tc_events := Ended |>) else None
  | _ => None
  end.
Definition in_step (fails : bool) (s : Controller) : option Controller :=
  match tc_in s with
  | Working => if fails || CloseChan_closed s then Some ((close_session s) <| tc_in := Leaving |>) else None
  | Leaving => if bool_decide (tc_session s = Closed) then Some (s <| tc_in := Ended |>) else None
  | _ => None
  end.

(** A read from a closed device fails; a packet that cannot be passed on
    because the session is closed ends the worker too. *)
Definition out_step (fails sends : bool) (s : Controller) : option Controller :=
  match tc_out s with
  | Working =>
    if fails || device_closed s then Some ((close_session s) <| tc_out := Leaving |>)
    else if sends && CloseChan_closed s then Some (s <| tc_out := Ended |>) else None
  | Leaving => if bool_decide (tc_session s = Closed) then Some (s <| tc_out := Ended |>) else None
  | _ => None
  end.

Inductive event :=
  | Start_moves | Close_moves (err : option error) | Finish_moves | Watch_moves | Session_moves
  | Dynamic_works | Dynamic_ends | Events_move (fails : bool) | In_moves (fails : bool) | Out_moves (fails sends : bool)
  | Session_closes            (* by a channel, a timer or a disconnect *)
  | Close_called.             (* by anybody else *)

Definition step (e : event) (s : Controller) : option Controller :=
  match e with
  | Start_moves => start_step s
  | Close_moves err => close_body_step err s
  | Finish_moves => finish_step s
  | Watch_moves => watcher_step s
  | Session_moves => session_step s
  | Dynamic_works => dynamic_works s
  | Dynamic_ends => dynamic_ends s
  | Events_move fails => events_step fails s
  | In_moves fails => in_step fails s
  | Out_moves fails sends => out_step fails sends s
  | Session_closes => if CloseChan_closed s then None else Some (close_session s)
  | Close_called => match tc_close s, tc_start s with NotCalled, Started => Some (call_Close s) | _, _ => None end
  end.

Inductive reachable (s0 : Controller) : Controller → Prop :=
  | reachable_start : reachable s0 s0
  | reachable_step s s' e : reachable s0 s → step e s = Some s' → reachable s0 s'.

(** ** The invariant *)

Definition only_routes (l : list call) : Prop := Forall (λ c, c = SetsDynamicRoutes) l.
Definition first_of (e1 e2 : option error) : option error := match e1 with Some e => Some e | None => e2 end.

(** The calls that fit where the body stands. *)
Definition calls_ok (at_ : close_at) (calls : list call) : Prop :=
  match at_ with
  | NotCalled | AtStop | AtWait | AtManager => only_routes calls
  | AtDevice e => ∃ l, calls = l ++ [ManagerClose e] ∧ only_routes l
  | AtFinish f | AtRecord f | Finished f =>
    ∃ l e1 e2, calls = l ++ [ManagerClose e1; DeviceClose e2] ∧ only_routes l ∧ f = first_of e1 e2
  end.

Definition past_wait (at_ : close_at) : bool :=
  match at_ with NotCalled | AtStop | AtWait => false | _ => true end.
Definition past_finish (at_ : close_at) : bool :=
  match at_ with AtRecord _ | Finished _ => true | _ => false end.
Definition is_finished (at_ : close_at) : bool := match at_ with Finished _ => true | _ => false end.

Record controller_inv (s : Controller) : Prop := {
  ci_calls : calls_ok (tc_close s) (tc_calls s);
  ci_dynamic : tc_dynamicDone s = true ↔ tc_dynamic s = Ended;
  ci_waited : past_wait (tc_close s) = true → tc_dynamicDone s = true;
  ci_before : tc_start s = AtState ∨ tc_start s = AtHook → tc_close s = NotCalled;
  ci_configuring : tc_start s = AtState → tc_state s = "Configuring";
  ci_refused : tc_start s ≠ Refused;
  ci_inhook : tc_start s = InHook → (tc_close s = AtStop ∨ tc_close s = AtWait) ∧ tc_session s ≠ Open;
  ci_unborn : tc_start s ≠ Started →
    tc_dynamic s = Unborn ∧ tc_events s = Unborn ∧ tc_out s = Unborn ∧ tc_in s = Unborn ∧ tc_watching s = false;
  ci_born : tc_start s = Started →
    tc_dynamic s ≠ Unborn ∧ tc_events s ≠ Unborn ∧ tc_out s ≠ Unborn ∧ tc_in s ≠ Unborn ∧ tc_tunnelDone s = true;
  ci_hook : tc_hook s = true ↔ tc_start s = AtWorkers ∨ tc_start s = Started;
  ci_hooked : tc_session s = Hooked → tc_close s ≠ NotCalled ∧ tc_hook s = true;
  ci_closed : tc_session s = Closed → tc_hook s = true → is_finished (tc_close s) = true;
  ci_in : (tc_in s = Leaving → tc_session s ≠ Open) ∧ (tc_in s = Ended → tc_session s = Closed);
  ci_leaving : (tc_events s = Leaving ∨ tc_out s = Leaving → tc_session s ≠ Open);
  ci_dynamic_here : tc_dynamic s ≠ Leaving;
  ci_finishing : tc_finishing s = past_finish (tc_close s);
  ci_err : ∀ f, tc_close s = Finished f → tc_tunnelErr s = f;
  ci_done : tc_done s = true → tc_finishing s = true ∧ tc_state s = "Closed" ∧ tc_dynamic s = Ended ∧
    tc_events s = Ended ∧ tc_out s = Ended ∧ tc_in s = Ended;
}.

Lemma calls_ok_routes at_ calls :
  past_wait at_ = false → calls_ok at_ calls → calls_ok at_ (calls ++ [SetsDynamicRoutes]).
Proof.
  destruct at_; try done; intros _ H; apply Forall_app; (split; [done|]); by apply Forall_singleton.
Qed.

Ltac open_inv H := destruct H as [A1 A2 A3 A4 A5 A6 A7 A8 A9 A10 A11 A12 A13 A14 A15 A16 A17 A18].
Ltac ctl := first [tauto | congruence | by intuition congruence | by (intros; destruct_and?; destruct_or?; intuition congruence)].
Ltac close_inv :=
  split; cbn; repeat match goal with E : ?f ?x = _ |- context [?f ?x] => is_var x; rewrite E end; try assumption; try done; try ctl.

Lemma call_Close_facts s :
  tc_close (call_Close s) ≠ NotCalled ∧ tc_session (call_Close s) = tc_session s ∧
  tc_hook (call_Close s) = tc_hook s ∧ tc_start (call_Close s) = tc_start s.
Proof. unfold call_Close. destruct (tc_close s) eqn:E; cbn; rewrite ?E; done. Qed.

Lemma close_session_facts s :
  tc_session (close_session s) ≠ Open ∧ tc_events (close_session s) = tc_events s ∧ tc_in (close_session s) = tc_in s ∧
  tc_out (close_session s) = tc_out s ∧ tc_start (close_session s) = tc_start s.
Proof. unfold close_session. destruct (tc_session s) eqn:E; cbn; rewrite ?E; done. Qed.

Lemma call_Close_inv s :
  controller_inv s → tc_start s ≠ AtState → tc_start s ≠ AtHook → tc_start s ≠ InHook → controller_inv (call_Close s).
Proof.
  intros Hs H1 H2 H3. unfold call_Close. destruct (tc_close s) eqn:E; try done. open_inv Hs. rewrite E in *. cbn in *.
  close_inv.
Qed.

Lemma close_session_inv s : controller_inv s → controller_inv (close_session s).
Proof.
  intros Hs. unfold close_session. destruct (tc_session s) eqn:E; try done. open_inv Hs. rewrite E in *. cbn in *. close_inv.
Qed.

Lemma start_inv s s' : controller_inv s → start_step s = Some s' → controller_inv s'.
Proof.
  intros Hs H. unfold start_step in H. open_inv Hs. destruct (tc_start s) eqn:E; rewrite ?E in *.
  - rewrite A5 in H by done. cbn in H. injection H as <-. close_inv.
  - pose proof (A4 (or_intror eq_refl)) as E1. clear A4. rewrite E1 in *. unfold CloseChan_closed, call_Close in H. rewrite E1 in H. case_bool_decide; cbn in H; injection H as <-; close_inv.
  - unfold Close_returned in H. destruct (tc_close s) eqn:E1; try done; injection H as <-. destruct A7 as [[? | ?] _]; done.
  - injection H as <-. close_inv.
  - done.
  - done.
Qed.

Lemma close_step_inv err s s' : controller_inv s → close_body_step err s = Some s' → controller_inv s'.
Proof.
  intros Hs H. unfold close_body_step in H. open_inv Hs. destruct (tc_close s) eqn:E; rewrite ?E in *; cbn in *; try done.
  - injection H as <-. close_inv.
  - destruct (tc_dynamicDone s) eqn:E2; [injection H as <-|done]; close_inv.
  - injection H as <-. close_inv. cbn in *. eauto.
  - injection H as <-. close_inv. destruct A1 as (l & -> & Hl). exists l, err0, err. by rewrite <- app_assoc.
  - injection H as <-. close_inv.
  - injection H as <-. close_inv.
Qed.

Lemma finish_inv s s' : controller_inv s → finish_step s = Some s' → controller_inv s'.
Proof.
  intros Hs H. unfold finish_step in H. destruct (_ && _) eqn:E; [|done]. injection H as <-. repeat case_bool_decide; rewrite ?andb_false_r in E; try done.
  apply andb_prop in E as [E _]; rewrite ?andb_true_r in E; apply andb_prop in E as [E1 _]. open_inv Hs. close_inv. 
Qed.

Lemma watching_started s : controller_inv s → tc_watching s = true → tc_start s = Started ∧ tc_hook s = true.
Proof.
  intros Hs E. assert (tc_start s = Started) as H.
  { open_inv Hs. destruct (tc_start s); try done; destruct A8 as (_ & _ & _ & _ & ?); done || congruence. }
  split; [done|]. apply (ci_hook s Hs). by right.
Qed.

Lemma watch_inv s s' : controller_inv s → watcher_step s = Some s' → controller_inv s'.
Proof.
  intros Hs H. unfold watcher_step in H. destruct (_ && _) eqn:E; [|done]. injection H as <-. 
  apply andb_prop in E as [E _]. destruct (watching_started s Hs E) as [H1 H2].
  apply call_Close_inv in Hs; try congruence. open_inv Hs. close_inv.
Qed.

Lemma session_inv s s' : controller_inv s → session_step s = Some s' → controller_inv s'.
Proof.
  intros Hs H. unfold session_step in H. destruct (tc_session s) eqn:E; try done; [destruct (tc_hook s) eqn:E1|destruct (Close_returned s) eqn:E1]; try done; injection H as <-.
  - assert (tc_start s = AtWorkers ∨ tc_start s = Started) as H by by apply (ci_hook s Hs).
    assert (controller_inv (call_Close s)) as Hc by (apply call_Close_inv; [done|destruct H; congruence..]).
    revert Hc. destruct (call_Close_facts s) as (H0 & H1 & H2 & H3). rewrite E1 in H2. rewrite E in H1. revert H0 H1 H2 H3.
    generalize (call_Close s). intros s' H0 H1 H2 H3 Hc. clear Hs. rewrite <- H3 in H. open_inv Hc. close_inv.
  - open_inv Hs. close_inv.
  - unfold Close_returned in E1. open_inv Hs. destruct (tc_close s) eqn:E2; try done. close_inv.
Qed.

Lemma dynamic_inv s s' : controller_inv s → dynamic_works s = Some s' ∨ dynamic_ends s = Some s' → controller_inv s'.
Proof.
  intros Hs [H|H]; [unfold dynamic_works in H|unfold dynamic_ends in H]; destruct (tc_dynamic s) eqn:E; try done.
  - injection H as <-. assert (past_wait (tc_close s) = false) as Hp.
    { destruct (past_wait _) eqn:E1; [|done]. apply (ci_waited s Hs), (ci_dynamic s Hs) in E1. congruence. }
    pose proof (calls_ok_routes _ _ Hp (ci_calls s Hs)). open_inv Hs. close_inv.
  - destruct (_ || _); [injection H as <-|done]. open_inv Hs. close_inv.
Qed.

Lemma leave_inv s :
  controller_inv s → tc_session s ≠ Open →
  (tc_events s = Working → controller_inv (s <| tc_events := Leaving |>)) ∧
  (tc_in s = Working → controller_inv (s <| tc_in := Leaving |>)) ∧
  (tc_out s = Working → controller_inv (s <| tc_out := Leaving |>)).
Proof. intros Hs Hn. open_inv Hs. split_and!; intros Hw; rewrite Hw in *; close_inv. Qed.

Lemma end_inv s :
  controller_inv s →
  (tc_events s = Working ∨ tc_events s = Leaving → controller_inv (s <| tc_events := Ended |>)) ∧
  (tc_in s = Leaving → tc_session s = Closed → controller_inv (s <| tc_in := Ended |>)) ∧
  (tc_out s = Working ∨ tc_out s = Leaving → controller_inv (s <| tc_out := Ended |>)).
Proof.
  intros Hs. open_inv Hs. split_and!; [intros Hw|intros Hw Hn|intros Hw]; try destruct Hw as [Hw|Hw]; rewrite Hw in *; close_inv.
Qed.

Lemma device_worker_inv fails sends s s' :
  controller_inv s → events_step fails s = Some s' ∨ in_step fails s = Some s' ∨ out_step fails sends s = Some s' →
  controller_inv s'.
Proof.
  intros Hs H. destruct (close_session_facts s) as (F1 & F2 & F3 & F4 & _).
  destruct (leave_inv _ (close_session_inv s Hs) F1) as (L1 & L2 & L3). destruct (end_inv s Hs) as (E1 & E2 & E3).
  unfold events_step, in_step, out_step in H.
  destruct H as [H|[H|H]]; [destruct (tc_events s) eqn:E|destruct (tc_in s) eqn:E|destruct (tc_out s) eqn:E]; try done;
    repeat case_match; try done; injection H as <-; repeat case_bool_decide; try done;
    first [apply L1 | apply L2 | apply L3 | apply E1 | apply E2 | apply E3]; first [tauto | congruence].
Qed.

Lemma step_inv e s s' : controller_inv s → step e s = Some s' → controller_inv s'.
Proof.
  intros Hs H. destruct e; cbn [step] in H.
  - by eapply start_inv.
  - by eapply close_step_inv.
  - by eapply finish_inv.
  - by eapply watch_inv.
  - by eapply session_inv.
  - eapply dynamic_inv; [done|by left].
  - eapply dynamic_inv; [done|by right].
  - eapply (device_worker_inv fails false); eauto.
  - eapply (device_worker_inv fails false); eauto.
  - eapply device_worker_inv; eauto.
  - destruct (CloseChan_closed s); [done|]. injection H as <-. by apply close_session_inv.
  - destruct (tc_close s) eqn:E1, (tc_start s) eqn:E2; try done. injection H as <-. apply call_Close_inv; [done|congruence..].
Qed.

Lemma newTunnelController_inv sess : sess ≠ Hooked → controller_inv (newTunnelController sess).
Proof. intros Hs. split; cbn; try done; try ctl. apply Forall_nil_2. Qed.

Lemma reachable_inv sess s : sess ≠ Hooked → reachable (newTunnelController sess) s → controller_inv s.
Proof. intros Hn. induction 1; [by apply newTunnelController_inv|by eapply step_inv]. Qed.

(** ** The work left *)

Definition start_weight (a : start_at) : nat :=
  match a with AtState => 4 | AtHook => 3 | InHook => 2 | AtWorkers => 1 | Started | Refused => 0 end.
Definition close_weight (a : close_at) : nat :=
  match a with
  | NotCalled => 7 | AtStop => 6 | AtWait => 5 | AtManager => 4 | AtDevice _ => 3 | AtFinish _ => 2 | AtRecord _ => 1 | Finished _ => 0
  end.
Definition worker_weight (a : worker) : nat := match a with Unborn => 3 | Working => 2 | Leaving => 1 | Ended => 0 end.
Definition session_weight (a : session_at) : nat := match a with Open => 3 | Closing => 2 | Hooked => 1 | Closed => 0 end.

Definition work (s : Controller) : nat :=
  6 * start_weight (tc_start s) + close_weight (tc_close s) + session_weight (tc_session s) +
  worker_weight (tc_dynamic s) + worker_weight (tc_events s) + worker_weight (tc_out s) + worker_weight (tc_in s) +
  (if tc_watching s then 1 else 0) + (if tc_done s then 0 else 1).

Lemma call_Close_work s : work (call_Close s) ≤ work s ∧ (tc_close s = NotCalled → work (call_Close s) < work s).
Proof. unfold call_Close, work. destruct (tc_close s) eqn:E; cbn; rewrite ?E; cbn; split; try done; lia. Qed.
Lemma close_session_work s :
  work (close_session s) ≤ work s ∧ (CloseChan_closed s = false → work (close_session s) < work s).
Proof.
  unfold close_session, CloseChan_closed, work. destruct (tc_session s) eqn:E; cbn; rewrite ?E; cbn; split; try done; lia.
Qed.

Lemma start_work s s' : controller_inv s → start_step s = Some s' → work s' < work s.
Proof.
  intros Hs H. open_inv Hs. unfold start_step in H. destruct (tc_start s) eqn:E; try done.
  - destruct (_ == _); injection H as <-; unfold work; cbn; rewrite E; cbn; lia.
  - destruct (CloseChan_closed s); injection H as <-.
    + destruct (call_Close_work s) as [K _], (call_Close_facts s) as (_ & _ & _ & C). unfold work in *. cbn. rewrite C in K.
      rewrite E in *. cbn in *. lia.
    + unfold work; cbn; rewrite E; cbn; lia.
  - destruct (Close_returned s); [injection H as <-|done]. unfold work; cbn; rewrite E; cbn; lia.
  - injection H as <-. unfold work; cbn. rewrite E. destruct A8 as (-> & -> & -> & -> & ->); [done|]. cbn. lia.
Qed.

Lemma close_work err s s' : close_body_step err s = Some s' → work s' < work s.
Proof.
  intros H. unfold close_body_step in H. destruct (tc_close s) eqn:E; try done; [|destruct (tc_dynamicDone s); [|done]|..].
  all: injection H as <-; unfold work; cbn; rewrite E; cbn; lia.
Qed.

Lemma session_work s s' : session_step s = Some s' → work s' < work s.
Proof.
  unfold session_step. destruct (tc_session s) eqn:E; try done; [destruct (tc_hook s)|destruct (Close_returned s)]; try done; intros [= <-].
  - destruct (call_Close_work s) as [K _], (call_Close_facts s) as (_ & C & _). unfold work in *. cbn. rewrite C in K. rewrite E in *. cbn in *. lia.
  - unfold work; cbn; rewrite E; cbn; lia.
  - unfold work; cbn; rewrite E; cbn; lia.
Qed.

Lemma leave_work s :
  (tc_events s = Working → work ((close_session s) <| tc_events := Leaving |>) < work s) ∧
  (tc_in s = Working → work ((close_session s) <| tc_in := Leaving |>) < work s) ∧
  (tc_out s = Working → work ((close_session s) <| tc_out := Leaving |>) < work s).
Proof.
  destruct (close_session_work s) as [K _]. destruct (close_session_facts s) as (_ & F2 & F3 & F4 & F5). unfold work in *.
  rewrite F2, F3, F4 in K. split_and!; intros E; cbn; rewrite E, ?F2, ?F3, ?F4 in *; cbn in *; lia.
Qed.

Lemma end_work s :
  (tc_events s = Working ∨ tc_events s = Leaving → work (s <| tc_events := Ended |>) < work s) ∧
  (tc_in s = Leaving → work (s <| tc_in := Ended |>) < work s) ∧
  (tc_out s = Working ∨ tc_out s = Leaving → work (s <| tc_out := Ended |>) < work s).
Proof. unfold work; cbn. split_and!; [intros [-> | ->]|intros ->|intros [-> | ->]]; cbn; lia. Qed.

Lemma device_worker_work fails sends s s' :
  events_step fails s = Some s' ∨ in_step fails s = Some s' ∨ out_step fails sends s = Some s' → work s' < work s.
Proof.
  destruct (leave_work s) as (L1 & L2 & L3). destruct (end_work s) as (E1 & E2 & E3). unfold events_step, in_step, out_step. intros H.
  destruct H as [H|[H|H]]; [destruct (tc_events s) eqn:E|destruct (tc_in s) eqn:E|destruct (tc_out s) eqn:E]; try done;
    repeat case_match; try done; injection H as <-;
    first [apply L1 | apply L2 | apply L3 | apply E1 | apply E2 | apply E3]; tauto.
Qed.

Lemma step_work e s s' : controller_inv s → e ≠ Dynamic_works → step e s = Some s' → work s' < work s.
Proof.
  intros Hs He H. destruct e; cbn [step] in H; try done.
  - by apply start_work.
  - by eapply close_work.
  - unfold finish_step in H. destruct (_ && _) eqn:E; [|done]. injection H as <-. unfold work; cbn.
    destruct (tc_done s); [by rewrite !andb_false_r in E|]. lia.
  - unfold watcher_step in H. destruct (_ && _) eqn:E; [|done]. injection H as <-. apply andb_prop in E as [E _].
    destruct (call_Close_work s) as [K _]. revert K. unfold work; cbn. unfold call_Close. rewrite E. destruct (tc_close s) eqn:E2; cbn; rewrite ?E, ?E2; cbn; lia.
  - by apply session_work.
  - unfold dynamic_ends in H. destruct (tc_dynamic s) eqn:E; try done. destruct (_ || _); [injection H as <-|done].
    unfold work; cbn. rewrite E. cbn. lia.
  - eapply (device_worker_work fails false); eauto.
  - eapply (device_worker_work fails false); eauto.
  - eapply device_worker_work; eauto.
  - destruct (close_session_work s) as [_ K]. destruct (CloseChan_closed s); [done|]. injection H as <-. by apply K.
  - destruct (call_Close_work s) as [_ K]. destruct (tc_close s) eqn:E1, (tc_start s) eqn:E2; try done. injection H as <-. by apply K.
Qed.

(** ** Who can move *)

(** The steps the program takes on its own towards its end: not a packet
    worker's own failure, another caller, or one more reconciliation. *)
Definition draining (e : event) : bool :=
  match e with
  | Session_closes | Close_called | Dynamic_works => false
  | Events_move fails | In_moves fails | Out_moves fails _ => negb fails
  | _ => true
  end.
Definition program_step (s s' : Controller) : Prop := ∃ e, draining e = true ∧ step e s = Some s'.

Lemma can_move e s : draining e = true → step e s ≠ None → ∃ s', program_step s s'.
Proof. intros He H. destruct (step e s) as [s'|] eqn:E; [|done]. exists s'. by exists e. Qed.

Lemma device_closed_finish l e1 e2 s :
  tc_calls s = l ++ [ManagerClose e1; DeviceClose e2] → device_closed s = true.
Proof. intros E. unfold device_closed. by rewrite E, existsb_app, orb_true_r. Qed.

Lemma finished_drains s f :
  controller_inv s → tc_start s = Started → tc_session s = Closed → tc_close s = Finished f → tc_done s = false →
  ∃ s', program_step s s'.
Proof.
  intros Hs Hst Hse Hc Hd. open_inv Hs. rewrite Hc in *. cbn in A1, A3, A16. destruct A1 as (l & e1 & e2 & Hl & _).
  pose proof (device_closed_finish _ _ _ _ Hl) as Hdev. destruct (A9 Hst) as (D0 & D1 & D2 & D3 & _). 
  assert (Hcl : CloseChan_closed s = true) by (unfold CloseChan_closed; rewrite Hse; done).
  destruct (tc_events s) eqn:E1; [done| | |].
  1:{ apply (can_move (Events_move false)); [done|]; cbn; unfold events_step. rewrite E1, Hcl. done. }
  1:{ apply (can_move (Events_move false)); [done|]; cbn; unfold events_step. rewrite E1, Hse. done. }
  destruct (tc_in s) eqn:E2; [done| | |].
  1:{ apply (can_move (In_moves false)); [done|]; cbn; unfold in_step. rewrite E2, Hcl. done. }
  1:{ apply (can_move (In_moves false)); [done|]; cbn; unfold in_step. rewrite E2, Hse. done. }
  destruct (tc_out s) eqn:E3; [done| | |].
  1:{ apply (can_move (Out_moves false false)); [done|]; cbn; unfold out_step. rewrite E3, Hdev. done. }
  1:{ apply (can_move (Out_moves false false)); [done|]; cbn; unfold out_step. rewrite E3, Hse. done. }
  apply (can_move Finish_moves); [done|]; cbn; unfold finish_step.
  rewrite A16, Hd, E1, E2, E3. apply A2 in A3; [|done]. rewrite A3. cbn. done.
Qed.

Lemma close_moves s :
  controller_inv s → tc_start s = Started → tc_session s ≠ Open → tc_close s ≠ NotCalled → is_finished (tc_close s) = false →
  ∃ s', program_step s s'.
Proof.
  intros Hs Hst Hse Hn Hf. assert (Ho : CloseChan_closed s = true) by (unfold CloseChan_closed; by rewrite bool_decide_eq_false_2).
  assert (Hm : close_body_step None s ≠ None → ∃ s', program_step s s') by by apply (can_move (Close_moves None)).
  destruct (tc_close s) eqn:E; try done; try (apply Hm; unfold close_body_step; by rewrite E).
  destruct (tc_dynamicDone s) eqn:Hd; [apply Hm; unfold close_body_step; by rewrite E, Hd|].
  destruct (ci_born s Hs Hst) as [Hb _]. pose proof (ci_dynamic s Hs) as Hy. pose proof (ci_dynamic_here s Hs).
  exists (s <| tc_dynamic := Ended |> <| tc_dynamicDone := true |>), Dynamic_ends. split; [done|].
  cbn. unfold dynamic_ends. rewrite Ho, orb_true_r. destruct (tc_dynamic s); try done. rewrite Hd in Hy. destruct Hy as [_ Hy]. by specialize (Hy eq_refl).
Qed.

Lemma controller_moves s :
  controller_inv s → tc_session s ≠ Open → tc_start s ≠ InHook → tc_done s = false → ∃ s', program_step s s'.
Proof.
  intros Hs Hse Hi Hd. destruct (decide (tc_start s = Started)) as [Hst|Hst].
  - destruct (is_finished (tc_close s)) eqn:Hf; [|assert (tc_close s = NotCalled ∨ tc_close s ≠ NotCalled) as [Hn|Hn] by (destruct (tc_close s); by auto)].
    + destruct (tc_close s) eqn:E; try done. destruct (tc_session s) eqn:E2; try done; [| |by eapply finished_drains].
      * apply (can_move Session_moves); [done|]; cbn; unfold session_step. rewrite E2. by destruct (tc_hook s).
      * apply (can_move Session_moves); [done|]; cbn; unfold session_step, Close_returned. by rewrite E2, E.
    + assert (E2 : tc_session s = Closing).
      { assert (tc_hook s = true) as Hh by (apply (ci_hook s Hs); by right).
        destruct (tc_session s) eqn:E2; try done; [by apply (ci_hooked s Hs) in E2 as [? _]|].
        pose proof (ci_closed s Hs E2 Hh). congruence. }
      apply (can_move Session_moves); [done|]; cbn; unfold session_step. rewrite E2. by destruct (tc_hook s).
    + by apply close_moves.
  - pose proof (ci_refused s Hs). destruct (tc_start s) eqn:E; try done.
    all: apply (can_move Start_moves); [done|]; cbn; unfold start_step; rewrite E; by first [done | destruct (_ == _) | destruct (CloseChan_closed s)].
Qed.

(** ** What closing promises *)

Lemma calls_ok_shape at_ calls :
  calls_ok at_ calls →
  ∃ l closes, calls = l ++ closes ∧ only_routes l ∧
    (closes = [] ∨ (∃ e, closes = [ManagerClose e]) ∨ (∃ e1 e2, closes = [ManagerClose e1; DeviceClose e2])).
Proof.
  destruct at_; cbn.
  1-4: intros H; exists calls, []; rewrite app_nil_r; by auto.
  1: intros (l & -> & H); exists l; eauto 10.
  all: intros (l & e1 & e2 & -> & H & _); exists l; eauto 10.
Qed.


(** ** A session that is closed before [Start] *)

Definition stuck_start (s : Controller) : Prop :=
  tc_session s = Closed ∧ tc_calls s = [] ∧ (tc_start s = AtState ∨ tc_start s = AtHook ∨ tc_start s = InHook).

Lemma stuck_step e s s' : controller_inv s → stuck_start s → step e s = Some s' → stuck_start s'.
Proof.
  intros Hs (H1 & H2 & H3) H. unfold stuck_start.
  assert (Hu : tc_start s ≠ Started) by (destruct H3 as [H3|[H3|H3]]; congruence).
  destruct (ci_unborn s Hs Hu) as (U1 & U2 & U3 & U4 & U5). pose proof (ci_dynamic s Hs) as Hd. rewrite U1 in Hd.
  destruct (call_Close_facts s) as (_ & C2 & _ & C4).
  assert (Hp : past_wait (tc_close s) = false).
  { destruct (past_wait _) eqn:E; [|done]. apply (ci_waited s Hs) in E. by apply Hd in E. }
  destruct e; cbn [step] in H;
    unfold finish_step, watcher_step, session_step, dynamic_works, dynamic_ends, events_step, in_step, out_step in H;
    rewrite ?U1, ?U2, ?U3, ?U4, ?U5, ?H1, ?andb_false_r in H; try done.
  - unfold start_step in H. destruct H3 as [H3|[H3|H3]]; rewrite H3 in H.
    + rewrite (ci_configuring s Hs H3) in H. cbn in H. injection H as <-. cbn. by auto.
    + unfold CloseChan_closed in H. rewrite H1 in H. cbn in H. injection H as <-. cbn. rewrite C2. split_and!; [done| |by auto].
      unfold call_Close. by destruct (tc_close s).
    + unfold Close_returned in H. by destruct (tc_close s).
  - unfold close_body_step in H. destruct (tc_close s) eqn:E; try done; [|destruct (tc_dynamicDone s); [|done]]; injection H as <-; cbn; by auto.
  - unfold CloseChan_closed in H. by rewrite H1 in H.
  - destruct (tc_close s), (tc_start s); by try destruct Hu.
Qed.

(** The close before the start.  When the session is already closed when
    [Start] comes to [SetCloseHook], the hook runs right there: [Close] waits
    for the dynamic-route worker that [Start] has not begun.  In every state
    that can be reached [Start] has not returned and neither the manager nor
    the device has been closed, and when [Close] has come to its wait no step
    of anything is left. *)
Theorem start_on_closed_session_hangs s :
  reachable (newTunnelController Closed) s →
  tc_start s ≠ Started ∧ tc_calls s = [] ∧ tc_done s = false ∧
  (tc_close s = AtWait → ∀ e, step e s = None).
Proof.
  intros Hr. assert (controller_inv s ∧ stuck_start s) as [Hs (H1 & H2 & H3)].
  { induction Hr as [|s s' e Hr [IH1 IH2] He].
    - split; [by apply newTunnelController_inv|]. split_and!; try done. by left.
    - split; [by eapply step_inv|by eapply stuck_step]. }
  assert (Hu : tc_start s ≠ Started) by (destruct H3 as [H3|[H3|H3]]; congruence).
  destruct (ci_unborn s Hs Hu) as (U1 & U2 & U3 & U4 & U5). pose proof (ci_dynamic s Hs) as Hd. rewrite U1 in Hd.
  split_and!; [done|done| |].
  - destruct (tc_done s) eqn:E; [|done]. destruct (ci_done s Hs E) as (_ & _ & ? & _). congruence.
  - intros Hw e. assert (Hi : tc_start s = InHook).
    { destruct H3 as [H3|[H3|H3]]; [..|done]; pose proof (ci_before s Hs); rewrite H3 in *; rewrite Hw in *; naive_solver. }
    pose proof (ci_finishing s Hs) as Hf. rewrite Hw in Hf. destruct (tc_dynamicDone s) eqn:E; [by destruct Hd as [Hd _]; specialize (Hd eq_refl)|].
    destruct e; cbn [step]; unfold start_step, close_body_step, finish_step, watcher_step, session_step, dynamic_works, dynamic_ends,
      events_step, in_step, out_step, Close_returned, CloseChan_closed; by rewrite ?U1, ?U2, ?U3, ?U4, ?U5, ?H1, ?Hi, ?Hw, ?E, ?Hf.
Qed.

(** ** Runs *)

Fixpoint steps (l : list event) (s : Controller) : option Controller :=
  match l with [] => Some s | e :: l => match step e s with Some s' => steps l s' | None => None end end.

Lemma steps_reachable s0 l s s' : reachable s0 s → steps l s = Some s' → reachable s0 s'.
Proof.
  revert s. induction l as [|e l IH]; cbn; intros s Hr H; [by injection H as <-|].
  destruct (step e s) as [s1|] eqn:E; [|done]. apply (IH s1); [by eapply reachable_step|done].
Qed.

Definition started_then_closed : list event :=
  [Start_moves; Start_moves; Start_moves; Dynamic_works; Session_closes; Session_moves; Watch_moves; In_moves false;
   Close_moves None; Events_move false; Dynamic_ends; Close_moves None; Close_moves None; Close_moves None; Close_moves None;
   Close_moves None; Session_moves; Out_moves false false; Out_moves false false; In_moves false].


Lemma start_on_closed_session_hangs_witness :
  ∃ s, steps [Start_moves; Start_moves; Close_moves None] (newTunnelController Closed) = Some s ∧ ∀ e, step e s = None.
Proof.
  destruct (steps [Start_moves; Start_moves; Close_moves None] (newTunnelController Closed)) as [s|] eqn:E; [|by vm_compute in E].
  exists s. split; [done|]. apply (start_on_closed_session_hangs s).
  - exact (steps_reachable _ _ _ _ (reachable_start _) E).
  - vm_compute in E. by injection E as <-.
Defined.
