(* ===== verification/Wire.v ===== *)
(** * Local API messages (the request types of src/internal/types/types.go)

    The request bodies of the Local API as JSON: how a client marshals them
    ([omitempty] leaves a nil pointer, an empty text, an empty slice or a zero
    out) and how the server decodes them.  A class ties the two together, so
    that server and client are written against the message, not its fields. *)

From S2P Require Import Prelude GoStrings Types Json.

Open Scope go_scope.
Open Scope Z_scope.

Record ConnectionRequest := mkConnectionRequest { cq_ProfileID : string }.
#[export] Instance ConnectionRequest_eta : Eta ConnectionRequest := λ r, mkConnectionRequest (cq_ProfileID r).

(** A message type; [sent a] is what arrives when [a] is sent. *)
Class Message (A : Type) := {
  marshal : A → json;
  unmarshal : json → error + A;
  sent : A → A;
  sendable : A → Prop;
  unmarshal_marshal a : sendable a → unmarshal (marshal a) = inr (sent a);
}.

(** ** Optional fields *)

Definition enc_opt {A} (enc : A → json) (k : string) (v : option A) : list (string * json) :=
  match v with None => [] | Some a => [(k, enc a)] end.
Definition enc_slice (k : string) (v : option (list string)) : list (string * json) :=
  match v with None | Some [] => [] | Some l => [(k, enc_strings l)] end.
Definition dec_slice (j : json) : error + option (list string) :=
  match j with JNull => inr None | _ => Some <$?> dec_strings j end.
Definition dec_pstring : json → error + option string := dec_ptr (dec_string "").
Definition dec_pint : json → error + option Z := dec_ptr (dec_int 0).

(** An empty slice is not sent. *)
Definition nonempty (v : option (list string)) : option (list string) :=
  match v with Some [] => None | _ => v end.

Section optional.
Context {R : Type} (names : list string) (set : string → json → R → error + R).

Lemma Decodes_opt {A} (enc : A → json) k (upd : option A → R → R) (v : option A) l r r' :
  existsb (String.eqb k) names = true → upd None r = r → (∀ a, v = Some a → set k (enc a) r = inr (upd (Some a) r)) →
  Decodes names set l (upd v r) r' → Decodes names set (enc_opt enc k v ++ l) r r'.
Proof.
  intros Hk Hn Hs Hl. destruct v as [a|]; cbn; [|by rewrite <- Hn]. eapply Decodes_cons; [done|by apply Hs|done].
Qed.

Lemma Decodes_slice k (upd : option (list string) → R → R) v l r r' :
  existsb (String.eqb k) names = true → upd None r = r → (∀ a, set k (enc_strings a) r = inr (upd (Some a) r)) →
  Decodes names set l (upd (nonempty v) r) r' → Decodes names set (enc_slice k v ++ l) r r'.
Proof.
  intros Hk Hn Hs Hl. destruct v as [[|x v]|]; cbn in *; [by rewrite <- Hn| |by rewrite <- Hn].
  eapply Decodes_cons; [done|by apply Hs|done].
Qed.

Lemma Decodes_default {A} (enc : A → json) (zero v : A) (b : bool) k (upd : A → R → R) l r r' :
  existsb (String.eqb k) names = true → (b = true → v = zero) → upd zero r = r → set k (enc v) r = inr (upd v r) →
  Decodes names set l (upd v r) r' → Decodes names set (omit b k (enc v) ++ l) r r'.
Proof.
  intros Hk Hz Hn Hs Hl. destruct b; cbn.
  - rewrite Hz, Hn in Hl by done. done.
  - eapply Decodes_cons; [done|by apply Hs|done].
Qed.
End optional.

Lemma dec_slice_enc l : dec_slice (enc_strings l) = inr (Some l).
Proof.
  change (Some <$?> dec_strings (enc_strings l) = inr (Some l)). by rewrite dec_strings_enc.
Qed.

(** ** The update of a profile *)

Definition zero_update : ProfileUpdateRequest :=
  mkProfileUpdateRequest None None None None None None None None None None None None None None.

Definition update_names : list string :=
  ["name"; "server_url"; "username"; "group"; "accept_server_routes"; "auto_reconnect"; "apply_dns";
   "custom_include_routes"; "custom_exclude_routes"; "dns_overrides"; "socks5_enabled"; "socks5_listen"; "mtu"; "password"].

Definition set_update (f : string) (j : json) (r : ProfileUpdateRequest) : error + ProfileUpdateRequest :=
  if f == "name" then (λ v, r <| ur_Name := v |>) <$?> dec_pstring j else
  if f == "server_url" then (λ v, r <| ur_ServerURL := v |>) <$?> dec_pstring j else
  if f == "username" then (λ v, r <| ur_Username := v |>) <$?> dec_pstring j else
  if f == "group" then (λ v, r <| ur_Group := v |>) <$?> dec_pstring j else
  if f == "accept_server_routes" then (λ v, r <| ur_AcceptServerRoutes := v |>) <$?> dec_pbool j else
  if f == "auto_reconnect" then (λ v, r <| ur_AutoReconnect := v |>) <$?> dec_pbool j else
  if f == "apply_dns" then (λ v, r <| ur_ApplyDNS := v |>) <$?> dec_pbool j else
  if f == "custom_include_routes" then (λ v, r <| ur_CustomInclude := v |>) <$?> dec_slice j else
  if f == "custom_exclude_routes" then (λ v, r <| ur_CustomExclude := v |>) <$?> dec_slice j else
  if f == "dns_overrides" then (λ v, r <| ur_DNSOverrides := v |>) <$?> dec_slice j else
  if f == "socks5_enabled" then (λ v, r <| ur_SOCKS5Enabled := v |>) <$?> dec_pbool j else
  if f == "socks5_listen" then (λ v, r <| ur_SOCKS5Listen := v |>) <$?> dec_pstring j else
  if f == "mtu" then (λ v, r <| ur_MTU := v |>) <$?> dec_pint j else
  if f == "password" then (λ v, r <| ur_Password := v |>) <$?> dec_pstring j else
  inl (unknown_field f).

Definition enc_ProfileUpdateRequest (r : ProfileUpdateRequest) : json :=
  JObj (enc_opt JStr "name" (ur_Name r) ++ enc_opt JStr "server_url" (ur_ServerURL r) ++
        enc_opt JStr "username" (ur_Username r) ++ enc_opt JStr "group" (ur_Group r) ++
        enc_opt JBool "accept_server_routes" (ur_AcceptServerRoutes r) ++
        enc_opt JBool "auto_reconnect" (ur_AutoReconnect r) ++ enc_opt JBool "apply_dns" (ur_ApplyDNS r) ++
        enc_slice "custom_include_routes" (ur_CustomInclude r) ++ enc_slice "custom_exclude_routes" (ur_CustomExclude r) ++
        enc_slice "dns_overrides" (ur_DNSOverrides r) ++ enc_opt JBool "socks5_enabled" (ur_SOCKS5Enabled r) ++
        enc_opt JStr "socks5_listen" (ur_SOCKS5Listen r) ++ enc_opt JNum "mtu" (ur_MTU r) ++
        enc_opt JStr "password" (ur_Password r) ++ []).

Definition dec_ProfileUpdateRequest : json → error + ProfileUpdateRequest :=
  decode_struct update_names set_update zero_update.

Definition sent_update (r : ProfileUpdateRequest) : ProfileUpdateRequest :=
  r <| ur_CustomInclude ::= nonempty |> <| ur_CustomExclude ::= nonempty |> <| ur_DNSOverrides ::= nonempty |>.

Definition int_field (v : option Z) : Prop := match v with Some z => int64 z | None => True end.

Ltac compute_record :=
  lazymatch goal with |- Decodes ?n ?s ?l ?r ?r' =>
    let x := eval lazy beta iota zeta delta -[nonempty] in r in change (Decodes n s l x r') end.
Ltac field upd :=
  first [eapply (Decodes_opt _ _ _ _ upd) | eapply (Decodes_slice _ _ _ upd)];
  [reflexivity|reflexivity|let a := fresh in intros a; cbn -[dec_slice enc_strings]; try (intros _); by rewrite ?dec_slice_enc|compute_record].

Lemma update_roundtrip r :
  int_field (ur_MTU r) → dec_ProfileUpdateRequest (enc_ProfileUpdateRequest r) = inr (sent_update r).
Proof.
  intros Hm. destruct r as [n u us g ar rc dn ci ce d se sl m p]. cbn in Hm.
  unfold dec_ProfileUpdateRequest, enc_ProfileUpdateRequest, sent_update.
  cbn -[decode_struct enc_opt enc_slice nonempty]. apply Decodes_struct.
  field (λ v r, r <| ur_Name := v |>). field (λ v r, r <| ur_ServerURL := v |>). field (λ v r, r <| ur_Username := v |>).
  field (λ v r, r <| ur_Group := v |>). field (λ v r, r <| ur_AcceptServerRoutes := v |>).
  field (λ v r, r <| ur_AutoReconnect := v |>). field (λ v r, r <| ur_ApplyDNS := v |>).
  field (λ v r, r <| ur_CustomInclude := v |>). field (λ v r, r <| ur_CustomExclude := v |>).
  field (λ v r, r <| ur_DNSOverrides := v |>). field (λ v r, r <| ur_SOCKS5Enabled := v |>).
  field (λ v r, r <| ur_SOCKS5Listen := v |>).
  eapply (Decodes_opt _ _ _ _ (λ v r, r <| ur_MTU := v |>)); [reflexivity|reflexivity| |].
  { intros z ->. unfold set_update. cbn -[dec_int]. by rewrite (dec_int_in_range 0 z Hm). }
  compute_record.
  field (λ v r, r <| ur_Password := v |>). apply Decodes_nil.
Qed.

#[export] Program Instance update_message : Message ProfileUpdateRequest := {|
  marshal := enc_ProfileUpdateRequest; unmarshal := dec_ProfileUpdateRequest; sent := sent_update;
  sendable r := int_field (ur_MTU r);
|}.
Next Obligation. exact update_roundtrip. Qed.

(** ** The creation of a profile *)

Definition zero_create : ProfileCreateRequest :=
  mkProfileCreateRequest "" "" "" "" "" "" None None None [] [] [] false "" 0.

Definition create_names : list string :=
  ["name"; "server_url"; "username"; "password"; "group"; "scope"; "accept_server_routes"; "auto_reconnect"; "apply_dns";
   "custom_include_routes"; "custom_exclude_routes"; "dns_overrides"; "socks5_enabled"; "socks5_listen"; "mtu"].

Definition set_create (f : string) (j : json) (r : ProfileCreateRequest) : error + ProfileCreateRequest :=
  if f == "name" then (λ v, r <| cr_Name := v |>) <$?> dec_string (cr_Name r) j else
  if f == "server_url" then (λ v, r <| cr_ServerURL := v |>) <$?> dec_string (cr_ServerURL r) j else
  if f == "username" then (λ v, r <| cr_Username := v |>) <$?> dec_string (cr_Username r) j else
  if f == "password" then (λ v, r <| cr_Password := v |>) <$?> dec_string (cr_Password r) j else
  if f == "group" then (λ v, r <| cr_Group := v |>) <$?> dec_string (cr_Group r) j else
  if f == "scope" then (λ v, r <| cr_Scope := v |>) <$?> dec_string (cr_Scope r) j else
  if f == "accept_server_routes" then (λ v, r <| cr_AcceptServerRoutes := v |>) <$?> dec_pbool j else
  if f == "auto_reconnect" then (λ v, r <| cr_AutoReconnect := v |>) <$?> dec_pbool j else
  if f == "apply_dns" then (λ v, r <| cr_ApplyDNS := v |>) <$?> dec_pbool j else
  if f == "custom_include_routes" then (λ v, r <| cr_CustomInclude := v |>) <$?> dec_strings j else
  if f == "custom_exclude_routes" then (λ v, r <| cr_CustomExclude := v |>) <$?> dec_strings j else
  if f == "dns_overrides" then (λ v, r <| cr_DNSOverrides := v |>) <$?> dec_strings j else
  if f == "socks5_enabled" then (λ v, r <| cr_SOCKS5Enabled := v |>) <$?> dec_bool (cr_SOCKS5Enabled r) j else
  if f == "socks5_listen" then (λ v, r <| cr_SOCKS5Listen := v |>) <$?> dec_string (cr_SOCKS5Listen r) j else
  if f == "mtu" then (λ v, r <| cr_MTU := v |>) <$?> dec_int (cr_MTU r) j else
  inl (unknown_field f).

Definition no_items (l : list string) : bool := match l with [] => true | _ => false end.

Definition enc_ProfileCreateRequest (r : ProfileCreateRequest) : json :=
  JObj (omit false "name" (JStr (cr_Name r)) ++ omit false "server_url" (JStr (cr_ServerURL r)) ++
        omit false "username" (JStr (cr_Username r)) ++ omit (cr_Password r == "") "password" (JStr (cr_Password r)) ++
        omit (cr_Group r == "") "group" (JStr (cr_Group r)) ++ omit false "scope" (JStr (cr_Scope r)) ++
        enc_opt JBool "accept_server_routes" (cr_AcceptServerRoutes r) ++
        enc_opt JBool "auto_reconnect" (cr_AutoReconnect r) ++ enc_opt JBool "apply_dns" (cr_ApplyDNS r) ++
        omit (no_items (cr_CustomInclude r)) "custom_include_routes" (enc_strings (cr_CustomInclude r)) ++
        omit (no_items (cr_CustomExclude r)) "custom_exclude_routes" (enc_strings (cr_CustomExclude r)) ++
        omit (no_items (cr_DNSOverrides r)) "dns_overrides" (enc_strings (cr_DNSOverrides r)) ++
        omit (negb (cr_SOCKS5Enabled r)) "socks5_enabled" (JBool (cr_SOCKS5Enabled r)) ++
        omit (cr_SOCKS5Listen r == "") "socks5_listen" (JStr (cr_SOCKS5Listen r)) ++
        omit (cr_MTU r =? 0) "mtu" (JNum (cr_MTU r)) ++ []).

Definition dec_ProfileCreateRequest : json → error + ProfileCreateRequest :=
  decode_struct create_names set_create zero_create.

Ltac text_field upd :=
  eapply (Decodes_default _ _ JStr "" _ _ _ upd); [reflexivity|first [done|apply eqb_true]|reflexivity|reflexivity|compute_record].
Ltac list_field upd :=
  eapply (Decodes_default _ _ enc_strings [] _ _ _ upd);
  [reflexivity|match goal with |- no_items ?l = _ → _ => by destruct l end|reflexivity
  |unfold set_create; cbn -[dec_strings enc_strings]; by rewrite dec_strings_enc|compute_record].

Lemma create_roundtrip r :
  int64 (cr_MTU r) → dec_ProfileCreateRequest (enc_ProfileCreateRequest r) = inr r.
Proof.
  intros Hm. destruct r as [n u us p g sc ar rc dn ci ce d se sl m]. cbn in Hm.
  unfold dec_ProfileCreateRequest, enc_ProfileCreateRequest.
  cbn -[decode_struct enc_opt omit enc_strings no_items]. apply Decodes_struct.
  text_field (λ v r, r <| cr_Name := v |>). text_field (λ v r, r <| cr_ServerURL := v |>).
  text_field (λ v r, r <| cr_Username := v |>). text_field (λ v r, r <| cr_Password := v |>).
  text_field (λ v r, r <| cr_Group := v |>). text_field (λ v r, r <| cr_Scope := v |>).
  field (λ v r, r <| cr_AcceptServerRoutes := v |>). field (λ v r, r <| cr_AutoReconnect := v |>).
  field (λ v r, r <| cr_ApplyDNS := v |>).
  list_field (λ v r, r <| cr_CustomInclude := v |>). list_field (λ v r, r <| cr_CustomExclude := v |>).
  list_field (λ v r, r <| cr_DNSOverrides := v |>).
  eapply (Decodes_default _ _ JBool false _ _ _ (λ v r, r <| cr_SOCKS5Enabled := v |>));
    [reflexivity|by destruct se|reflexivity|reflexivity|compute_record].
  text_field (λ v r, r <| cr_SOCKS5Listen := v |>).
  eapply (Decodes_default _ _ JNum 0 _ _ _ (λ v r, r <| cr_MTU := v |>)); [reflexivity|apply Z.eqb_eq|reflexivity| |apply Decodes_nil].
  unfold set_create. cbn -[dec_int]. by rewrite (dec_int_in_range 0 m Hm).
Qed.

#[export] Program Instance create_message : Message ProfileCreateRequest := {|
  marshal := enc_ProfileCreateRequest; unmarshal := dec_ProfileCreateRequest; sent r := r; sendable r := int64 (cr_MTU r);
|}.
Next Obligation. exact create_roundtrip. Qed.

(** ** Connection and control mode *)

Definition set_connection (f : string) (j : json) (r : ConnectionRequest) : error + ConnectionRequest :=
  if f == "profile_id" then (λ v, r <| cq_ProfileID := v |>) <$?> dec_string (cq_ProfileID r) j else inl (unknown_field f).
Definition dec_ConnectionRequest : json → error + ConnectionRequest :=
  decode_struct ["profile_id"] set_connection (mkConnectionRequest "").
Definition enc_ConnectionRequest (r : ConnectionRequest) : json := JObj [("profile_id", JStr (cq_ProfileID r))].

Lemma connection_roundtrip r : dec_ConnectionRequest (enc_ConnectionRequest r) = inr r.
Proof. by destruct r. Qed.

#[export] Program Instance connection_message : Message ConnectionRequest := {|
  marshal := enc_ConnectionRequest; unmarshal := dec_ConnectionRequest; sent r := r; sendable _ := True;
|}.
Next Obligation. intros a _. apply connection_roundtrip. Qed.

Definition set_mode (f : string) (j : json) (r : ControlModeRequest) : error + ControlModeRequest :=
  if f == "mode" then (λ v, r <| cm_Mode := v |>) <$?> dec_string (cm_Mode r) j else
  if f == "profile_id" then (λ v, r <| cm_ProfileID := v |>) <$?> dec_string (cm_ProfileID r) j else inl (unknown_field f).
Definition dec_ControlModeRequest : json → error + ControlModeRequest :=
  decode_struct ["mode"; "profile_id"] set_mode (mkControlModeRequest "" "").
Definition enc_ControlModeRequest (r : ControlModeRequest) : json :=
  JObj ([("mode", JStr (cm_Mode r))] ++ omit (cm_ProfileID r == "") "profile_id" (JStr (cm_ProfileID r)) ++ []).

Lemma mode_roundtrip r : dec_ControlModeRequest (enc_ControlModeRequest r) = inr r.
Proof.
  destruct r as [m p]. unfold enc_ControlModeRequest. cbn. destruct (p == "") eqn:E; [|done]. by apply eqb_true in E as ->.
Qed.

#[export] Program Instance mode_message : Message ControlModeRequest := {|
  marshal := enc_ControlModeRequest; unmarshal := dec_ControlModeRequest; sent r := r; sendable _ := True;
|}.
Next Obligation. intros a _. apply mode_roundtrip. Qed.
