(* ===== verification/Service.v ===== *)
(** * The daemon's state (internal/appd: Service)

    The record the daemon's mutex protects, and the methods that only read or
    write it (the ones whose name ends in [Locked], and the access rules of
    v2.go).  Each takes the clock as an argument where the code calls [now()].
    A timer is the flag that it is armed; a watch channel is its queue. *)

From S2P Require Import Prelude GoStrings Types Store LogBuf Vpn ProfileIO Router.
From stdpp Require Import sorting.

Open Scope go_scope.
Open Scope Z_scope.

Definition autoReconnectMinDelay : Z := 2 * Second.
Definition autoReconnectMaxDelay : Z := 1 * Minute.
Definition autoReconnectMaxTries : Z := 3.

Definition errNoCurrentProfile : error := ErrSentinel NoCurrentProfile "no current profile selected".
Definition errConnectInProgress : error := ErrSentinel ConnectInProgress "connection already in progress".
Definition context_Canceled : error := ErrSentinel CtxCanceled "context canceled".

(** buildinfo.Version, unless the linker sets another. *)
Definition build_Version : string := "1.3.1".

Definition component_names : list string :=
  ["store"; "secret"; "supervisor"; "backend"; "route"; "dns"; "proxy"; "watch"; "cleanup"].

(** The size of a watch channel and of the event ring. *)
Definition watch_capacity : nat := 32.
Definition ring_capacity : nat := 1024.
Definition history_capacity : nat := 64.

Record Service := mkService {
  sv_profiles : list Profile;
  sv_currentID : string;
  sv_connectedID : string;
  sv_status : Status;
  sv_logs : Buffer;
  sv_watchers : gmap nat (list Notify);
  sv_nextWatcherID : nat;
  sv_proxyServer : option nat;
  sv_disconnectSeq : Z;
  sv_manualDisconnectSeq : Z;
  sv_manualProfileID : string;
  sv_reconnectTimer : bool;
  sv_reconnectProfileID : string;
  sv_reconnectAttempt : Z;
  sv_reconnectSeq : Z;
  sv_reconnectID : Z;
  sv_reconnectNextAt : option Z;
  sv_traffic : TrafficSnapshot;
  sv_lastTraffic : option TrafficStats;
  sv_lastTrafficAt : option Z;
  sv_connectionSeq : Z;
  sv_activeConnectionID : string;
  sv_activeConnectionStarted : option Z;
  sv_connectionHistory : list ConnectionEvent;
  sv_reconnectLifecycleID : string;
  sv_networkReconnectActive : bool;
  sv_networkReconnectID : Z;
  sv_networkReconnectConnID : string;
  sv_networkReconnectProfile : string;
  sv_lastNetworkChange : option NetworkChange;
  sv_updater : bool;
  sv_updateCache : UpdateInfo;
  sv_updateCacheAt : option Z;
  sv_updateInterval : Z;
  sv_updateNotified : bool;
  sv_selectedProfiles : gmap string string;
  sv_controlMode : string;
  sv_machineProfileID : string;
  sv_activeOwnerID : string;
  sv_operations : gmap string Operation;
  sv_epoch : string;
  sv_revision : Z;
  sv_eventRing : list Notify;
  sv_attemptID : string;
  sv_attemptCancel : option nat;
  sv_closed : bool;
  sv_intent : option Intent;
  sv_health : gmap string ComponentStatus;
  sv_fatalErr : option error;
}.
#[export] Instance Service_eta : Eta Service := λ r,
  mkService (sv_profiles r) (sv_currentID r) (sv_connectedID r) (sv_status r) (sv_logs r)
    (sv_watchers r) (sv_nextWatcherID r) (sv_proxyServer r) (sv_disconnectSeq r)
    (sv_manualDisconnectSeq r) (sv_manualProfileID r) (sv_reconnectTimer r)
    (sv_reconnectProfileID r) (sv_reconnectAttempt r) (sv_reconnectSeq r) (sv_reconnectID r)
    (sv_reconnectNextAt r) (sv_traffic r) (sv_lastTraffic r) (sv_lastTrafficAt r)
    (sv_connectionSeq r) (sv_activeConnectionID r) (sv_activeConnectionStarted r)
    (sv_connectionHistory r) (sv_reconnectLifecycleID r) (sv_networkReconnectActive r)
    (sv_networkReconnectID r) (sv_networkReconnectConnID r) (sv_networkReconnectProfile r)
    (sv_lastNetworkChange r) (sv_updater r) (sv_updateCache r) (sv_updateCacheAt r)
    (sv_updateInterval r) (sv_updateNotified r) (sv_selectedProfiles r) (sv_controlMode r)
    (sv_machineProfileID r) (sv_activeOwnerID r) (sv_operations r) (sv_epoch r) (sv_revision r)
    (sv_eventRing r) (sv_attemptID r) (sv_attemptCancel r) (sv_closed r) (sv_intent r)
    (sv_health r) (sv_fatalErr r).


Definition ready (name : string) : ComponentStatus := mkComponentStatus name true "".
Definition not_ready (name message : string) : ComponentStatus := mkComponentStatus name false message.

(** The value [New] starts from, before [load]. *)
Definition new_service (epoch now : string) : Service :=
  mkService [] "" "" (zero_status <| st_State := StateDisconnected |> <| st_UpdatedAt := now |>) (LogBuf.New 500) ∅ 0 None 0 0 "" false ""
    0 0 0 None zero_traffic None None 0 "" None [] "" false 0 "" "" None false zero_update_info None 0
    false ∅ "" "" "" ∅ epoch 0 [] "" None false None
    (list_to_map ((λ name, (name, ready name)) <$> component_names)) None.

(** ** Small helpers *)

Definition sanitizeDiagnostic (value : string) : string :=
  let value := TrimSpace (replace_byte (replace_byte value "013" " ") "010" " ") in
  if (512 <? len value)%nat then take_str 512 value else value.

Definition set_health (name : string) (c : ComponentStatus) (s : Service) : Service :=
  s <| sv_health ::= <[name := c]> |>.
Definition health_ok (name : string) : Service → Service := set_health name (ready name).
Definition health_bad (name : string) (err : error) : Service → Service :=
  set_health name (not_ready name (sanitizeDiagnostic (error_msg err))).

Definition health_of (s : Service) (name : string) : ComponentStatus :=
  default (mkComponentStatus "" false "") (sv_health s !! name).

Definition logs_Add (now level message : string) (s : Service) : Service :=
  s <| sv_logs ::= LogBuf.Add now level message |>.

Definition set_status (f : Status → Status) (s : Service) : Service := s <| sv_status ::= f |>.

Definition not_found (id : string) : error := ErrText ("profile not found: " +:+ id).

Definition findProfileLocked (s : Service) (id : string) : error + Profile :=
  match List.find (λ p, pr_ID p == id) (sv_profiles s) with
  | Some p => inr p
  | None => inl (not_found id)
  end.

(** [for i, p := range s.profiles { if p.ID == id { index = i; break } }]. *)
Definition index_of (s : Service) (id : string) : option nat :=
  find_index (λ p, pr_ID p == id) (sv_profiles s).

(** ** Events *)

(** A watcher whose queue is full is closed and forgotten. *)
Definition deliver (n : Notify) (queue : list Notify) : option (list Notify) :=
  if (length queue <? watch_capacity)%nat then Some (queue ++ [n]) else None.

Definition emitLocked (now : string) (notify : Notify) (s : Service) : Service :=
  let revision := sv_revision s + 1 in
  let notify := notify <| nt_Version := build_Version |> <| nt_Time := now |>
                       <| nt_Epoch := sv_epoch s |> <| nt_Revision := revision |> in
  let ring := sv_eventRing s ++ [notify] in
  s <| sv_revision := revision |>
    <| sv_eventRing := if (ring_capacity <? length ring)%nat then last_n ring_capacity ring else ring |>
    <| sv_watchers ::= omap (deliver notify) |>.

Definition notify_event (event : string) : Notify := zero_notify <| nt_Event := event |>.
Definition notify_status (s : Service) (message err : string) : Notify :=
  (notify_event "status") <| nt_Status := Some (sv_status s) |> <| nt_Message := message |> <| nt_Error := err |>.
Definition notify_traffic (s : Service) : Notify :=
  (notify_event "traffic") <| nt_Traffic := Some (sv_traffic s) |>.
Definition notify_profiles (s : Service) : Notify :=
  (notify_event "profiles") <| nt_Profiles := sv_profiles s |>.

(** [s.emitLocked(types.Notify{Event: "status", Status: ptrStatus(s.status), ...})]. *)
Definition emit_status (now message err : string) (s : Service) : Service :=
  emitLocked now (notify_status s message err) s.
Definition emit_traffic (now : string) (s : Service) : Service := emitLocked now (notify_traffic s) s.
Definition emit_profiles (now : string) (s : Service) : Service := emitLocked now (notify_profiles s) s.

Definition stamp_event (now : string) (seq : Z) (event : ConnectionEvent) : ConnectionEvent :=
  let event := event <| ce_ID := "connection-event-" +:+ Itoa seq |> in
  let event := if ce_Time event == "" then event <| ce_Time := now |> else event in
  event <| ce_Error ::= sanitizeDiagnostic |>.

(** At most 63 old events are kept, then the new one. *)
Definition push_history (history : list ConnectionEvent) (event : ConnectionEvent) : list ConnectionEvent :=
  (if (history_capacity <=? length history)%nat then last_n (history_capacity - 1) history else history)
  ++ [event].

Definition recordConnectionLocked (now : string) (event : ConnectionEvent) (s : Service) : Service :=
  let seq := sv_connectionSeq s + 1 in
  let event := stamp_event now seq event in
  let s := s <| sv_connectionSeq := seq |>
             <| sv_connectionHistory := push_history (sv_connectionHistory s) event |> in
  let s := logs_Add now "info"
             ("appd: connection event kind=" +:+ ce_Kind event +:+ " profile=" +:+ ce_ProfileID event +:+
              " reason=" +:+ ce_ReasonCode event +:+ " attempt=" +:+ Itoa (ce_Attempt event)) s in
  emitLocked now ((notify_event "connection") <| nt_Connection := Some event |> <| nt_Message := ce_Kind event |>) s.

Lemma length_push_history h e : (length (push_history h e) ≤ history_capacity)%nat.
Proof.
  unfold push_history. rewrite length_app. cbn [length].
  assert (1 ≤ history_capacity)%nat by (vm_compute; lia).
  destruct (Nat.leb_spec history_capacity (length h)); rewrite ?length_last_n; lia.
Qed.

Definition reconnectSnapshotLocked (s : Service) : ReconnectSnapshot :=
  if negb (sv_reconnectTimer s) then mkReconnectSnapshot false "" 0 "" ""
  else mkReconnectSnapshot true (sv_reconnectProfileID s) (sv_reconnectAttempt s)
         (match sv_reconnectNextAt s with Some t => rfc3339_nano t | None => "0001-01-01T00:00:00Z" end)
         (sv_reconnectLifecycleID s).

Definition healthSnapshotLocked (s : Service) : list ComponentStatus := health_of s <$> component_names.

(** ** Traffic *)

Definition clearTrafficLocked (s : Service) : Service * bool :=
  let t := sv_traffic s in
  let changed := tn_Connected t || negb (tn_BytesSent t =? 0) || negb (tn_BytesReceived t =? 0)
                 || bool_decide (is_Some (tn_BytesSentPerSecond t))
                 || bool_decide (is_Some (tn_BytesReceivedPerSecond t)) in
  (s <| sv_traffic := zero_traffic |> <| sv_lastTraffic := None |> <| sv_lastTrafficAt := None |>, changed).
Definition clear_traffic (s : Service) : Service := fst (clearTrafficLocked s).

(** A rate is the pair (bytes, nanoseconds); the rate 0 is [None]. *)
Definition rate (current last elapsed : Z) : option (Z * Z) :=
  if (last <=? current) && negb (current - last =? 0) then Some (current - last, elapsed) else None.

Definition sampleTrafficLocked (totals : option TrafficStats) (t : Z) (s : Service) : Service * bool :=
  if negb (bool_decide (st_State (sv_status s) = StateConnected)) then clearTrafficLocked s else
  match totals with
  | None => clearTrafficLocked s
  | Some totals =>
      let next := mkTrafficSnapshot true (ts_BytesSent totals) (ts_BytesReceived totals) None None (rfc3339 t) in
      let next :=
        match sv_lastTraffic s, sv_lastTrafficAt s with
        | Some last, Some at_ =>
            let elapsed := t - at_ in
            if 0 <? elapsed then
              next <| tn_BytesSentPerSecond := rate (ts_BytesSent totals) (ts_BytesSent last) elapsed |>
                   <| tn_BytesReceivedPerSecond := rate (ts_BytesReceived totals) (ts_BytesReceived last) elapsed |>
            else next
        | _, _ => next
        end in
      (s <| sv_lastTraffic := Some totals |> <| sv_lastTrafficAt := Some t |> <| sv_traffic := next |>, true)
  end.

Definition sampleTrafficAt (totals : option TrafficStats) (t : Z) (s : Service) : Service :=
  let '(s, emit) := sampleTrafficLocked totals t s in
  if emit then emit_traffic (rfc3339 t) s else s.

Definition refreshConnectedStatusLocked (session : option SessionInfo) (s : Service) : Service :=
  match session with
  | Some session => set_status (λ st, st <| st_Session := Some session |>) s
  | None => s
  end.

(** ** Profiles *)

(** [slices.SortFunc] by name; Go leaves the order of equal names open, this is
    one of the orders it allows. *)
Definition profile_le (a b : Profile) : Prop := String.leb (pr_Name a) (pr_Name b) = true.
#[export] Instance profile_le_dec : RelDecision profile_le.
Proof. intros a b. unfold profile_le. apply _. Defined.
Definition ListProfiles (s : Service) : list Profile := merge_sort profile_le (sv_profiles s).

Definition CurrentProfile (s : Service) : error + Profile :=
  if sv_currentID s == "" then inl errNoCurrentProfile else findProfileLocked s (sv_currentID s).

(** [if req.X != nil { profile.X = *req.X }]. *)
Definition assign {A} (v : option A) (set : A → Profile → Profile) (p : Profile) : Profile :=
  match v with Some x => set x p | None => p end.

Definition apply_update (req : ProfileUpdateRequest) (profile : Profile) : Profile :=
  let profile := assign (ur_Name req) (λ x p, p <| pr_Name := x |>) profile in
  let profile := assign (ur_ServerURL req) (λ x p, p <| pr_ServerURL := x |>) profile in
  let profile := assign (ur_Username req) (λ x p, p <| pr_Username := x |>) profile in
  let profile := assign (ur_Group req) (λ x p, p <| pr_Group := x |>) profile in
  let profile := assign (ur_AcceptServerRoutes req) (λ x p, p <| pr_AcceptServerRoutes := x |>) profile in
  let profile := assign (ur_AutoReconnect req) (λ x p, p <| pr_AutoReconnect := Some x |>) profile in
  let profile := assign (ur_ApplyDNS req) (λ x p, p <| pr_ApplyDNS := Some x |>) profile in
  let profile := assign (ur_CustomInclude req) (λ x p, p <| pr_CustomInclude := x |>) profile in
  let profile := assign (ur_CustomExclude req) (λ x p, p <| pr_CustomExclude := x |>) profile in
  let profile := assign (ur_DNSOverrides req) (λ x p, p <| pr_DNSOverrides := x |>) profile in
  let profile := assign (ur_SOCKS5Enabled req) (λ x p, p <| pr_SOCKS5Enabled := x |>) profile in
  let profile := assign (ur_SOCKS5Listen req) (λ x p, p <| pr_SOCKS5Listen := x |>) profile in
  assign (ur_MTU req) (λ x p, p <| pr_MTU := x |>) profile.

Definition needsReconnectForProfileUpdate (before after : Profile) : bool :=
  (pr_ServerURL before != pr_ServerURL after) || (pr_Username before != pr_Username after)
  || (pr_Group before != pr_Group after)
  || negb (Bool.eqb (pr_AcceptServerRoutes before) (pr_AcceptServerRoutes after))
  || negb (Bool.eqb (BoolValue (pr_AutoReconnect before) false) (BoolValue (pr_AutoReconnect after) false))
  || negb (Bool.eqb (BoolValue (pr_ApplyDNS before) true) (BoolValue (pr_ApplyDNS after) true))
  || negb (pr_MTU before =? pr_MTU after)
  || negb (bool_decide (pr_CustomInclude before = pr_CustomInclude after))
  || negb (bool_decide (pr_CustomExclude before = pr_CustomExclude after))
  || negb (bool_decide (pr_DNSOverrides before = pr_DNSOverrides after)).

(** ** Reconnection *)

Definition profileAutoReconnect (s : Service) (profileID : string) : option Profile :=
  if profileID == "" then None else List.find (λ p, pr_ID p == profileID) (sv_profiles s).

Definition autoReconnectEnabledLocked (s : Service) (profile : Profile) : bool :=
  ((sv_controlMode s == "machine") && (sv_machineProfileID s == pr_ID profile))
  || BoolValue (pr_AutoReconnect profile) false.

Definition stopReconnectLocked (s : Service) : Service :=
  s <| sv_reconnectTimer := false |> <| sv_reconnectProfileID := "" |> <| sv_reconnectAttempt := 0 |>
    <| sv_reconnectSeq := 0 |> <| sv_reconnectNextAt := None |> <| sv_reconnectLifecycleID := "" |>
    <| sv_reconnectID ::= Z.succ |>.

Definition cancelNetworkReconnectLocked (s : Service) : Service :=
  s <| sv_networkReconnectActive := false |> <| sv_networkReconnectID ::= Z.succ |>
    <| sv_networkReconnectConnID := "" |> <| sv_networkReconnectProfile := "" |>.

(** The doubling loop, [n] rounds left. *)
Fixpoint reconnectDelay_loop (n : nat) (delay : Z) : Z :=
  match n with
  | O => if autoReconnectMaxDelay <? delay then autoReconnectMaxDelay else delay
  | S n => let delay := delay * 2 in
           if autoReconnectMaxDelay <=? delay then autoReconnectMaxDelay else reconnectDelay_loop n delay
  end.
Definition reconnectDelay (attempt : Z) : Z :=
  let attempt := if attempt <? 1 then 1 else attempt in
  reconnectDelay_loop (Z.to_nat (attempt - 1)) autoReconnectMinDelay.

Definition reconnectFailureCode (err : error) : string :=
  if IsRetryable err then "retry_limit_reached" else "non_retryable_error".

Definition retryableDisconnectEvent (event : Event) : bool :=
  match ev_Err event with
  | Some err => IsRetryable err
  | None =>
      match ev_Close event with
      | None => false
      | Some c => bool_decide (di_Code c ∈ ["tls_read_error"; "tls_read_timeout"; "tls_write_error";
                    "tls_write_timeout"; "tls_deadline_error"; "underlay_snapshot_failed"])
      end
  end.

Definition networkSnapshotInfo (snapshot : NetworkSnapshot) : option UnderlayInfo :=
  if (ns_InterfaceName snapshot == "") && (ns_LocalIPv4 snapshot == "") && (ns_Gateway snapshot == "")
  then None
  else Some (mkUnderlayInfo (ns_InterfaceName snapshot) (ns_InterfaceIndex snapshot)
               (ns_LocalIPv4 snapshot) (ns_Gateway snapshot) (ns_GatewayInterface snapshot)
               (ns_RouteMetric snapshot) (ns_Generation snapshot)).

Definition networkChangeFromBackend (now : string) (change : BackendChange) : NetworkChange :=
  mkNetworkChange (networkSnapshotInfo (bc_Before change)) (networkSnapshotInfo (bc_After change))
    (bc_Reasons change) (bc_RebindRequired change) (sanitizeDiagnostic (bc_Error change)) now.

Definition connectAllowedFromStateLocked (s : Service) (profileID : string) (allowReconnectState : bool) : bool :=
  allowReconnectState && bool_decide (st_State (sv_status s) = StateReconnecting)
  && (st_CurrentProfileID (sv_status s) == profileID).

Definition validateProfileForConnect (profile : Profile) : option error :=
  ValidateProfile profile ;?
  reject_if (pr_Username profile == "") (ErrText "profile username is required").
