(* ===== verification/Access.v ===== *)
(** * Who may see and change what (internal/appd/v2.go)

    Local clients are actors: an identity, perhaps an administrator, perhaps
    the system itself.  This file models the authorization of reads and writes
    and the views of profiles, status and events an actor is given. *)

From S2P Require Import Prelude GoStrings Types Store Service.

Open Scope go_scope.
Open Scope Z_scope.

Record Actor := mkActor {
  ac_ID : string;
  ac_System : bool;
  ac_Admin : bool;
}.
#[export] Instance Actor_eta : Eta Actor := λ r,
  mkActor (ac_ID r) (ac_System r) (ac_Admin r).

Definition SystemActor : Actor := mkActor "system" true true.

Definition coded (code message : string) (cause : option error) : error :=
  ErrCoded code message false cause.

(** [!actor.System && !actor.Admin]. *)
Definition ordinary (actor : Actor) : bool := negb (ac_System actor) && negb (ac_Admin actor).

Definition required_components : list string := ["store"; "secret"; "supervisor"; "cleanup"].

(** The first required component that is not ready. *)
Definition unavailable (s : Service) : option string :=
  List.find (λ component, negb (cs_Ready (health_of s component))) required_components.

Definition component_unavailable (component : string) : error :=
  coded "component_unavailable" (component +:+ " is not ready; daemon restart recovery is required") None.
Definition service_closing : error := coded "service_closing" "daemon is shutting down" None.
Definition transaction_pending : error :=
  coded "profile_transaction_pending" "a profile transaction requires daemon restart recovery" None.
Definition cleanup_failed (cause : error) : error :=
  coded "cleanup_failed" "network cleanup failed; daemon restart recovery is required" (Some cause).
Definition daemon_in_use : error :=
  coded "daemon_in_use" "FlexConnect is already in use by another local user" None.

(** The checks shared by the two authorizations, in their order: closing,
    failed cleanup, pending transaction, components. *)
Definition write_blocked (s : Service) : option error :=
  if sv_closed s then Some service_closing else
  match sv_fatalErr s with
  | Some fatal => Some (cleanup_failed fatal)
  | None =>
      match sv_intent s with
      | Some _ => Some transaction_pending
      | None => component_unavailable <$> unavailable s
      end
  end.

Definition authorize (actor : Actor) (write : bool) (s : Service) : option error :=
  if ac_ID actor == "" then Some (coded "identity_unavailable" "local client identity is unavailable" None) else
  if ac_System actor then None else
  if negb write then None else
  match write_blocked s with
  | Some err => Some err
  | None =>
      if (sv_controlMode s == "machine") && negb (ac_Admin actor)
      then Some (coded "machine_mode_locked" "machine mode can only be changed by an elevated administrator" None)
      else if negb ((sv_controlMode s == "machine") && ac_Admin actor)
              && (sv_activeOwnerID s != "") && (sv_activeOwnerID s != ac_ID actor)
      then Some daemon_in_use else None
  end.

Definition authorizeAdministrativeWrite (actor : Actor) (s : Service) : option error :=
  if ordinary actor then Some (coded "admin_required" "operation requires an elevated administrator" None)
  else write_blocked s.

Definition actorCanAccessProfile (actor : Actor) (profile : Profile) : bool :=
  ac_System actor || ac_Admin actor
  || ((pr_Scope profile == ProfileScopeUser) && (pr_OwnerID profile == ac_ID actor)).

Definition actorCanMutateProfile (actor : Actor) (profile : Profile) : bool :=
  if ac_System actor then true
  else if pr_Scope profile == ProfileScopeMachine then ac_Admin actor
  else (pr_Scope profile == ProfileScopeUser) && (pr_OwnerID profile == ac_ID actor).

Definition publicProfile (profile : Profile) : Profile :=
  let profile := profile <| pr_SecretRef := "" |> in
  profile <| pr_OwnerID := "" |>.

(** The loop of ListProfilesFor, WatchSince and notifyForActorLocked. *)
Definition visible_profiles (actor : Actor) (profiles : list Profile) : list Profile :=
  publicProfile <$> List.filter (actorCanAccessProfile actor) profiles.

Definition ListProfilesFor (actor : Actor) (s : Service) : error + list Profile :=
  match authorize actor false s with
  | Some err => inl err
  | None => inr (visible_profiles actor (sv_profiles s))
  end.

Definition statusForActorLocked (actor : Actor) (s : Service) : Status :=
  let status := sv_status s in
  let status :=
    if sv_controlMode s == "machine"
    then status <| st_SelectedProfileID := sv_machineProfileID s |>
    else
      let status := status <| st_SelectedProfileID := default "" (sv_selectedProfiles s !! ac_ID actor) |> in
      if ac_System actor || ac_Admin actor
      then status <| st_SelectedProfileID := sv_currentID s |> else status in
  if ordinary actor then
    let status :=
      match st_Operation status with
      | Some op => if op_OwnerID op != ac_ID actor then status <| st_Operation := None |> else status
      | None => status
      end in
    let hidden :=
      match findProfileLocked s (st_ConnectedProfileID status) with
      | inl _ => true
      | inr profile => negb (actorCanAccessProfile actor profile)
      end in
    if hidden then
      status <| st_ConnectedProfileID := "" |> <| st_Session := None |> <| st_EffectiveRoutes := [] |>
             <| st_SOCKS5Listen := "" |>
    else status
  else status.

Definition StatusFor (actor : Actor) (s : Service) : error + Status :=
  match authorize actor false s with
  | Some err => inl err
  | None => inr (statusForActorLocked actor s)
  end.

Definition TrafficFor (actor : Actor) (s : Service) : error + TrafficSnapshot :=
  match StatusFor actor s with
  | inl err => inl err
  | inr status =>
      if (st_ConnectedProfileID status == "") && ordinary actor then inr zero_traffic
      else inr (sv_traffic s)
  end.

Definition LogsFor (actor : Actor) (s : Service) : error + list LogEntry :=
  match authorize actor false s with
  | Some err => inl err
  | None => if ordinary actor then inr [] else inr (LogBuf.Snapshot (sv_logs s))
  end.

(** The connection history an actor sees in DiagnosticsFor. *)
Definition history_for (actor : Actor) (s : Service) : list ConnectionEvent :=
  if ordinary actor then
    List.filter (λ event, existsb (λ p, ce_ProfileID event == pr_ID p)
                            (visible_profiles actor (sv_profiles s)))
      (sv_connectionHistory s)
  else sv_connectionHistory s.

Definition ProfileIsActive (id : string) (s : Service) : bool :=
  (sv_connectedID s == id)
  || ((st_CurrentProfileID (sv_status s) == id) && bool_decide (is_Some (sv_attemptCancel s))).

Definition ConnectionActive (s : Service) : bool :=
  (sv_connectedID s != "") || bool_decide (is_Some (sv_attemptCancel s)).

Definition releaseIdleOwner (actor : Actor) (s : Service) : Service :=
  if ac_System actor then s else
  if (sv_controlMode s == "user") && (sv_activeOwnerID s == ac_ID actor)
     && (sv_connectedID s == "") && negb (bool_decide (is_Some (sv_attemptCancel s)))
  then s <| sv_activeOwnerID := "" |> else s.

Definition profileForActor (actor : Actor) (id : string) (s : Service) : error + Profile :=
  match findProfileLocked s id with
  | inl err => inl (coded "profile_not_found" "profile not found" (Some err))
  | inr profile =>
      if actorCanMutateProfile actor profile then inr profile
      else inl (coded "profile_not_found" "profile not found" None)
  end.

Definition OperationFor (actor : Actor) (id : string) (s : Service) : error + Operation :=
  match authorize actor false s with
  | Some err => inl err
  | None =>
      match sv_operations s !! id with
      | None => inl (coded "operation_not_found" "operation not found" None)
      | Some op =>
          if ordinary actor && (op_OwnerID op != ac_ID actor)
          then inl (coded "operation_not_found" "operation not found" None)
          else inr op
      end
  end.

(** [errors.As(err, &codedErr)]: the first CodedError in depth-first order. *)
Fixpoint as_coded (e : error) : option string :=
  match e with
  | ErrText _ | ErrSentinel _ _ => None
  | ErrWrap _ i _ => as_coded i
  | ErrCoded code _ _ _ => Some code
  | ErrConnect _ _ i => as_coded i
  | ErrValidation i => as_coded i
  | ErrJoin a b => match as_coded a with Some c => Some c | None => as_coded b end
  end.

Definition errorCode (err : error) : string :=
  match as_coded err with
  | Some code => code
  | None =>
      if errors_is err CtxCanceled then "operation_canceled"
      else if errors_is err CtxDeadlineExceeded then "operation_timeout"
      else "operation_failed"
  end.

Definition Ready (s : Service) : ReadyStatus :=
  let component name :=
    let c := health_of s name in
    if (name == "supervisor") && sv_closed s
    then c <| cs_Ready := false |> <| cs_Message := "daemon is shutting down" |> else c in
  let components := component <$> component_names in
  let ready := negb (sv_closed s) && negb (bool_decide (is_Some (sv_intent s)))
               && forallb cs_Ready components in
  let components :=
    if bool_decide (is_Some (sv_intent s))
    then components ++ [not_ready "profile-transaction" "restart recovery required"] else components in
  if (sv_controlMode s == "machine") && bool_decide (st_State (sv_status s) = StateError)
  then mkReadyStatus false
         (components ++ [not_ready "machine-connection" (sanitizeDiagnostic (st_LastError (sv_status s)))])
  else mkReadyStatus ready components.

(** ** Watching *)

Definition notifyForActorLocked (actor : Actor) (event : Notify) (s : Service) : Notify :=
  let copy := event in
  let copy :=
    match nt_Status copy with
    | Some _ => copy <| nt_Status := Some (statusForActorLocked actor s) |>
    | None => copy
    end in
  let copy :=
    match nt_Profile copy with
    | Some profile =>
        if negb (actorCanAccessProfile actor profile) then copy <| nt_Profile := None |>
        else copy <| nt_Profile := Some (publicProfile profile) |>
    | None => copy
    end in
  let copy := copy <| nt_Profiles ::= visible_profiles actor |> in
  if ordinary actor then
    let copy := copy <| nt_Logs := [] |> in
    match nt_Connection copy with
    | Some connection =>
        let hidden :=
          match findProfileLocked s (ce_ProfileID connection) with
          | inl _ => true
          | inr profile => negb (actorCanAccessProfile actor profile)
          end in
        if hidden then copy <| nt_Connection := None |> else copy
    | None => copy
    end
  else copy.

(** What WatchSince sends first: nothing (refused), one snapshot (stamped when
    it is sent), or a replay of the ring. *)
Inductive WatchStart :=
  | WatchRefused
  | WatchSnapshot (n : Notify)
  | WatchReplay (events : list Notify).

Definition watch_start (actor : Actor) (epoch : string) (since : Z) (s : Service) : WatchStart :=
  let needSnapshot := (epoch != sv_epoch s) || (since =? 0) in
  let needSnapshot :=
    needSnapshot ||
    match sv_eventRing s with
    | [] => false
    | first :: _ => (since + 1) mod 2 ^ 64 <? nt_Revision first
    end in
  let replay :=
    if needSnapshot then []
    else (λ event, notifyForActorLocked actor event s) <$>
           List.filter (λ event, since <? nt_Revision event) (sv_eventRing s) in
  let needSnapshot :=
    needSnapshot || (bool_decide (replay = []) && (since <? sv_revision s)) in
  if needSnapshot then
    WatchSnapshot (mkNotify (sv_epoch s) (sv_revision s) "" "snapshot"
      (Some (statusForActorLocked actor s)) None None (visible_profiles actor (sv_profiles s)) []
      "" "" None None None "")
  else WatchReplay replay.

(** The watcher is registered with an empty queue; the number names it. *)
Definition WatchSince (actor : Actor) (epoch : string) (since : Z) (s : Service) : Service * WatchStart :=
  match authorize actor false s with
  | Some _ => (s, WatchRefused)
  | None =>
      (s <| sv_watchers ::= <[sv_nextWatcherID s := []]> |> <| sv_nextWatcherID ::= S |>,
       watch_start actor epoch since s)
  end.

(** [ctx.Done] of a watch, and the forwarding goroutine taking one event. *)
Definition cancel_watch (id : nat) (s : Service) : Service := s <| sv_watchers ::= delete id |>.
Definition forward_watch (actor : Actor) (id : nat) (s : Service) : Service * option Notify :=
  match sv_watchers s !! id with
  | Some (event :: queue) =>
      (s <| sv_watchers ::= <[id := queue]> |>, Some (notifyForActorLocked actor event s))
  | _ => (s, None)
  end.
