(* ===== verification/Feed.v ===== *)
(** * The event feed

    Every event gets the next revision; the ring keeps the last 1024 and every
    watcher has a queue of at most 32.  The invariant says that the ring and
    every live queue are contiguous and end at the current revision, which is
    what makes a resumed watch complete. *)

From S2P Require Import Prelude GoStrings Types LogBuf Store Service Access.
From stdpp Require Import list_numbers.

Open Scope go_scope.
Open Scope Z_scope.

#[global] Strategy 1000 [ring_capacity watch_capacity history_capacity].

(** The events of [l] carry consecutive revisions, the last one being [r]. *)
Definition contiguous (l : list Notify) (r : Z) : Prop :=
  ∀ i n, l !! i = Some n → nt_Revision n = r - Z.of_nat (length l) + 1 + Z.of_nat i.

Lemma contiguous_nil r : contiguous [] r.
Proof. intros i n. by rewrite lookup_nil. Qed.

Lemma contiguous_snoc l r n :
  contiguous l r → nt_Revision n = r + 1 → contiguous (l ++ [n]) (r + 1).
Proof.
  intros H Hn i m. rewrite length_app. cbn. intros [Hi|[Hlt Hi]]%lookup_app_Some.
  - rewrite (H _ _ Hi). lia.
  - apply list_lookup_singleton_Some in Hi as [Hi <-]. lia.
Qed.

Lemma contiguous_drop l r k : contiguous l r → contiguous (drop k l) r.
Proof.
  intros H i n. rewrite lookup_drop. intros Hi. rewrite (H _ _ Hi), length_drop.
  apply lookup_lt_Some in Hi. lia.
Qed.

Lemma contiguous_revisions l r :
  contiguous l r → nt_Revision <$> l = seqZ (r - Z.of_nat (length l) + 1) (Z.of_nat (length l)).
Proof.
  intros H. apply list_eq. intros i. rewrite list_lookup_fmap.
  destruct (l !! i) as [n|] eqn:Hi; cbn.
  - symmetry. apply lookup_seqZ. rewrite (H _ _ Hi). apply lookup_lt_Some in Hi. lia.
  - symmetry. apply lookup_seqZ_ge. apply lookup_ge_None in Hi. lia.
Qed.

(** The events newer than [since] are the tail of a contiguous list. *)
Lemma contiguous_newer l r since :
  contiguous l r →
  List.filter (λ e, since <? nt_Revision e) l =
    drop (Z.to_nat (since - (r - Z.of_nat (length l)))) l.
Proof.
  revert r. induction l as [|e l IH]; intros r H.
  - by rewrite drop_nil.
  - pose proof (H 0%nat e eq_refl) as He. cbn [length] in *.
    assert (Hl : contiguous l r) by (apply (contiguous_drop _ _ 1) in H; exact H).
    cbn [List.filter]. destruct (Z.ltb_spec since (nt_Revision e)) as [Hlt|Hge].
    + replace (Z.to_nat _) with 0%nat by lia. rewrite (IH r) by done.
      by replace (Z.to_nat (since - (r - Z.of_nat (length l)))) with 0%nat by lia.
    + rewrite (IH r) by done.
      replace (Z.to_nat (since - (r - Z.of_nat (S (length l)))))
        with (S (Z.to_nat (since - (r - Z.of_nat (length l))))) by lia. done.
Qed.

(** ** The invariant *)

Definition queue_ok (r : Z) (q : list Notify) : Prop :=
  (length q ≤ watch_capacity)%nat ∧ contiguous q r.

Definition feed_ok (s : Service) : Prop :=
  0 ≤ sv_revision s ∧ contiguous (sv_eventRing s) (sv_revision s) ∧
  Z.of_nat (length (sv_eventRing s)) = Z.min (Z.of_nat ring_capacity) (sv_revision s) ∧
  Forall (λ n, nt_Epoch n = sv_epoch s) (sv_eventRing s) ∧
  (∀ id q, sv_watchers s !! id = Some q → (id < sv_nextWatcherID s)%nat ∧ queue_ok (sv_revision s) q).

Lemma deliver_Some n q q' :
  deliver n q = Some q' → (length q < watch_capacity)%nat ∧ q' = q ++ [n].
Proof.
  unfold deliver. destruct (Nat.ltb_spec (length q) watch_capacity); [|done]. by intros [= <-].
Qed.

Definition ring_push (ring : list Notify) (n : Notify) : list Notify :=
  if (ring_capacity <? length (ring ++ [n]))%nat then last_n ring_capacity (ring ++ [n]) else ring ++ [n].

Lemma ring_push_ok (ring : list Notify) r n epoch :
  contiguous ring r → Z.of_nat (length ring) = Z.min (Z.of_nat ring_capacity) r → 0 ≤ r →
  nt_Revision n = r + 1 → Forall (λ n, nt_Epoch n = epoch) ring → nt_Epoch n = epoch →
  contiguous (ring_push ring n) (r + 1) ∧
  Z.of_nat (length (ring_push ring n)) = Z.min (Z.of_nat ring_capacity) (r + 1) ∧
  Forall (λ n, nt_Epoch n = epoch) (ring_push ring n).
Proof.
  intros Hc Hl Hr Hn He Hne. assert (Hc' : contiguous (ring ++ [n]) (r + 1)) by by apply contiguous_snoc.
  assert (Hlen : length (ring ++ [n]) = S (length ring)) by (rewrite length_app; cbn; lia).
  assert (Hall : Forall (λ n, nt_Epoch n = epoch) (ring ++ [n])).
  { apply Forall_app. split; [done|]. by constructor. }
  unfold ring_push. destruct (Nat.ltb_spec ring_capacity (length (ring ++ [n]))) as [Hlt|Hge].
  - split_and!; [by apply contiguous_drop| |by apply last_n_Forall]. rewrite length_last_n. lia.
  - split_and!; [done| |done]. lia.
Qed.

Lemma feed_emitLocked now n s : feed_ok s → feed_ok (emitLocked now n s).
Proof.
  intros (Hr & Hc & Hl & He & Hw).
  set (n' := n <| nt_Version := build_Version |> <| nt_Time := now |>
               <| nt_Epoch := sv_epoch s |> <| nt_Revision := sv_revision s + 1 |>).
  destruct (ring_push_ok (sv_eventRing s) (sv_revision s) n' (sv_epoch s)) as (Hc' & Hl' & He'); [done..|].
  split_and!.
  - change (0 ≤ sv_revision s + 1). lia.
  - exact Hc'.
  - exact Hl'.
  - exact He'.
  - change (∀ id q, omap (deliver n') (sv_watchers s) !! id = Some q →
      (id < sv_nextWatcherID s)%nat ∧ queue_ok (sv_revision s + 1) q).
    intros id q (q' & [Hlt ->]%deliver_Some & Hq')%lookup_omap_Some.
    destruct (Hw _ _ Hq') as (Hid & Hlen & Hcq). split; [done|]. split.
    + rewrite length_app. cbn. lia.
    + by apply contiguous_snoc.
Qed.

Lemma feed_watch actor epoch since s : feed_ok s → feed_ok (fst (WatchSince actor epoch since s)).
Proof.
  intros H. unfold WatchSince. destruct (authorize actor false s); [done|].
  destruct H as (Hr & Hc & Hl & He & Hw). split_and!; try done. cbn.
  intros id q [[<- <-]|[Hne Hq]]%lookup_insert_Some.
  - split; [lia|]. split; [cbn; lia|]. apply contiguous_nil.
  - destruct (Hw _ _ Hq) as [Hid Hok]. split; [lia|done].
Qed.

Lemma feed_cancel_watch id s : feed_ok s → feed_ok (cancel_watch id s).
Proof.
  intros (Hr & Hc & Hl & He & Hw). split_and!; try done. cbn.
  intros id' q [_ Hq]%lookup_delete_Some. by apply Hw.
Qed.

Lemma feed_forward_watch actor id s : feed_ok s → feed_ok (fst (forward_watch actor id s)).
Proof.
  intros (Hr & Hc & Hl & He & Hw). unfold forward_watch.
  destruct (sv_watchers s !! id) as [[|e q]|] eqn:Hid; try by split_and!.
  split_and!; try done. cbn. intros id' q' [[<- <-]|[Hne Hq]]%lookup_insert_Some; [|by apply Hw].
  destruct (Hw _ _ Hid) as (Hlt & Hlen & Hcq). split; [done|]. split.
  - cbn in Hlen. lia.
  - by apply (contiguous_drop _ _ 1) in Hcq.
Qed.

(** ** Resuming a watch *)

Lemma notifyForActor_revision actor e s : nt_Revision (notifyForActorLocked actor e s) = nt_Revision e.
Proof.
  unfold notifyForActorLocked. destruct (nt_Status e), (nt_Profile e); cbn;
    repeat (case_match; cbn; try done).
Qed.

(** C13: a client that resumes with the current epoch and the last revision it
    saw is sent either one snapshot of the current revision or exactly the
    events it missed, each once and in order: there is no gap and nothing is
    repeated, whatever has been dropped from the ring. *)
Theorem WatchSince_no_gap actor since s :
  feed_ok s → 0 ≤ since ≤ sv_revision s → sv_revision s < 2 ^ 64 - 1 →
  match watch_start actor (sv_epoch s) since s with
  | WatchRefused => False
  | WatchSnapshot n => nt_Revision n = sv_revision s ∧ nt_Epoch n = sv_epoch s
  | WatchReplay events => nt_Revision <$> events = seqZ (since + 1) (sv_revision s - since)
  end.
Proof.
  intros (Hr & Hc & Hl & He & Hw) Hs Hmax. unfold watch_start.
  destruct (decide (since = 0)) as [->|Hne].
  { rewrite (Prelude.eqb_refl (sv_epoch s)). cbn [negb orb Z.eqb]. by split. }
  rewrite Prelude.eqb_refl, (proj2 (Z.eqb_neq since 0) Hne). cbn [negb orb].
  rewrite Z.mod_small by lia.
  destruct (match sv_eventRing s with [] => false | first :: _ => since + 1 <? nt_Revision first end) eqn:Hold;
    [done|]. cbn [orb].
  set (ring := sv_eventRing s) in *. set (r := sv_revision s) in *.
  rewrite (contiguous_newer _ _ since Hc). set (k := Z.to_nat (since - (r - Z.of_nat (length ring)))).
  destruct (bool_decide_reflect ((λ e, notifyForActorLocked actor e s) <$> drop k ring = [])) as [Hnil|Hnn];
    cbn [andb].
  - destruct (Z.ltb_spec since r) as [Hlt|Hge]; [done|].
    rewrite Hnil. replace (r - since) with 0 by lia. done.
  - rewrite <- list_fmap_compose.
    rewrite (list_fmap_ext _ nt_Revision) by (intros; apply notifyForActor_revision).
    rewrite (contiguous_revisions _ r) by by apply contiguous_drop.
    assert (Hk : (k < length ring)%nat).
    { destruct (Nat.lt_ge_cases k (length ring)) as [|Hge]; [done|].
      contradict Hnn. by rewrite drop_ge. }
    assert (Hlow : r - Z.of_nat (length ring) ≤ since).
    { destruct ring as [|first rest] eqn:Ering; [cbn in Hk; lia|].
      apply Z.ltb_ge in Hold. rewrite (Hc 0%nat first eq_refl) in Hold. cbn [length] in *. lia. }
    rewrite length_drop. f_equal; lia.
Qed.

Definition witness_service : Service :=
  emit_status "t" "b" "" (emit_status "t" "a" "" (new_service "e" "t")).

Lemma feed_new epoch now : feed_ok (new_service epoch now).
Proof.
  split_and!; cbn; done.
Qed.

Lemma WatchSince_no_gap_witness :
  feed_ok witness_service ∧
  match watch_start SystemActor (sv_epoch witness_service) 1 witness_service with
  | WatchRefused => False
  | WatchSnapshot n => nt_Revision n = sv_revision witness_service ∧ nt_Epoch n = sv_epoch witness_service
  | WatchReplay events => nt_Revision <$> events = seqZ 2 1
  end.
Proof.
  assert (H : feed_ok witness_service) by (do 2 apply feed_emitLocked; apply feed_new).
  split; [exact H|]. apply (WatchSince_no_gap SystemActor 1 witness_service H); split; done.
Defined.
