(* ===== verification/Appd.v ===== *)
(** * The daemon (internal/appd: daemon.go and v2.go)

    The operations of the service: state passing over a [World] that holds the
    service, its two stores, the clock, the random source, the answers the VPN
    backend and the SOCKS5 listener will give, the contexts that are cancelled,
    and the goroutines and timers that were started.

    The mutex is released inside most operations.  [gap] is what the other
    goroutines do while it is free: every [s.mu.Unlock() ... s.mu.Lock()] of
    the code is one [gap].  It is a parameter here; Concurrency.v gives it the
    other goroutines' steps. *)

From S2P Require Import Prelude GoStrings Types Store Stores LogBuf Vpn ProfileIO Router Service Access.

Open Scope go_scope.
Open Scope Z_scope.

(** ** The world *)

(** The answers of the backend and the listener, in order; a list that is used
    up answers with success (an error for Connect, TunnelDialer and Listen). *)
Record Script := mkScript {
  sc_connect : list (error + option SessionInfo);
  sc_disconnect : list (option error);
  sc_close : list (option error);
  sc_dialer : list (error + bool);
  sc_listen : list (error + nat * string);
  sc_proxyClose : list (option error);
  sc_session : option SessionInfo;
  sc_traffic : option TrafficStats;
  sc_updates : list UpdateInfo;
}.
#[export] Instance Script_eta : Eta Script := λ r,
  mkScript (sc_connect r) (sc_disconnect r) (sc_close r) (sc_dialer r) (sc_listen r)
    (sc_proxyClose r) (sc_session r) (sc_traffic r) (sc_updates r).

(** The functions an operation runs in the background (internal/apiserver and
    UpdateActiveProfileFor pass them). *)
Inductive Command :=
  | CmdConnect (actor : Actor) (profileID : string)
  | CmdDisconnect (actor : Actor)
  | CmdDeleteProfile (actor : Actor) (profileID : string)
  | CmdControlMode (actor : Actor) (req : ControlModeRequest)
  | CmdReconnect (profileID : string).

(** Goroutines and timers that wait for the command lock. *)
Inductive Task :=
  | RunOperation (op : Operation) (command : Command)
  | NetworkReconnect (repairID : Z) (connectionID : string)
  | ScheduledReconnect (profileID : string) (manualSeq : Z) (attempt : Z) (reconnectID : Z)
  | MonitorProxy (server : nat) (profileID : string).

Inductive World (St Sec : Type) := mkWorld {
  w_svc : Service;
  w_store : St;
  w_secrets : Sec;
  w_now : Z;
  w_random : list nat;
  w_script : Script;
  w_contexts : gmap nat error;      (* the contexts that are done, and why *)
  w_nextContext : nat;
  w_tasks : list Task;
  w_fatal : option error;           (* FatalErrors: one value, sent once *)
  (* for Concurrency.v only: what the mutex is taken back to after each
     release, and that a release had no such world left *)
  w_resume : list (World St Sec);
  w_suspended : bool;
}.
Arguments mkWorld {St Sec} _ _ _ _ _ _ _ _ _ _ _ _.
Arguments w_svc {St Sec} _.
Arguments w_store {St Sec} _.
Arguments w_secrets {St Sec} _.
Arguments w_now {St Sec} _.
Arguments w_random {St Sec} _.
Arguments w_script {St Sec} _.
Arguments w_contexts {St Sec} _.
Arguments w_nextContext {St Sec} _.
Arguments w_tasks {St Sec} _.
Arguments w_fatal {St Sec} _.
Arguments w_resume {St Sec} _.
Arguments w_suspended {St Sec} _.
#[export] Instance World_eta St Sec : Eta (World St Sec) := λ r,
  mkWorld (w_svc r) (w_store r) (w_secrets r) (w_now r) (w_random r) (w_script r) (w_contexts r) (w_nextContext r) (w_tasks r)
    (w_fatal r) (w_resume r) (w_suspended r).

Section appd.
Context {St Sec : Type} `{!StateStore St} `{!SecretStore Sec}.
Notation World := (World St Sec).
Notation D := (M World).
Context (gap : D ()).

(** ** Access to the world *)

Definition get {A} (f : Service → A) : D A := read (λ w, f (w_svc w)).
Definition upd (f : Service → Service) : D () := modify (λ w, w <| w_svc ::= f |>).
Definition stamp (w : World) : string := rfc3339 (w_now w).
(** An update that reads the clock. *)
Definition upd_now (f : string → Service → Service) : D () :=
  modify (λ w, w <| w_svc ::= f (stamp w) |>).
Definition log (level message : string) : D () := upd_now (λ now, logs_Add now level message).
Definition set_status_now (f : Status → Status) : D () :=
  upd_now (λ now, set_status (λ st, (f st) <| st_UpdatedAt := now |>)).

(** Calls into the stores change only the stores. *)
Definition with_store {A} (m : M St A) : D A := λ w,
  let '(st, o) := m (w_store w) in (w <| w_store := st |>, o).
Definition with_secrets {A} (m : M Sec A) : D A := λ w,
  let '(se, o) := m (w_secrets w) in (w <| w_secrets := se |>, o).

Definition of_result {A} (r : error + A) : D A := match r with inl e => fail e | inr a => mret a end.
Definition of_error (e : option error) : D () := match e with Some e => fail e | None => mret () end.

(** [newID]. *)
Definition newID : D string := λ w,
  match newIDFrom (w_random w) with
  | inl e => (w, Failed e)
  | inr (id, rest) => (w <| w_random := rest |>, Done id)
  end.

(** The next answer of a script. *)
Definition ask {A} (field : Script → list A) (set : list A → Script → Script) (default : A) : D A := λ w,
  match field (w_script w) with
  | [] => (w, Done default)
  | a :: rest => (w <| w_script ::= set rest |>, Done a)
  end.

Definition backend_Connect (req : ConnectRequest) : D (option SessionInfo) :=
  r ← ask sc_connect (λ l s, s <| sc_connect := l |>) (inl (ErrText "backend is closed"));
  of_result r.
Definition backend_Disconnect : D () :=
  r ← ask sc_disconnect (λ l s, s <| sc_disconnect := l |>) None; of_error r.
Definition backend_Close : D () :=
  r ← ask sc_close (λ l s, s <| sc_close := l |>) None; of_error r.
Definition backend_TunnelDialer : D bool :=
  r ← ask sc_dialer (λ l s, s <| sc_dialer := l |>) (inl (ErrText "VPN is not connected"));
  of_result r.
Definition socks5_Listen (listenAddr : string) : D (nat * string) :=
  r ← ask sc_listen (λ l s, s <| sc_listen := l |>) (inl (ErrText "listen failed"));
  of_result r.
Definition proxy_Close (server : nat) : D () :=
  r ← ask sc_proxyClose (λ l s, s <| sc_proxyClose := l |>) None; of_error r.

(** Contexts: [ctx_err ctx parent] is [ctx.Err()] of a context derived from
    [parent]. *)
Definition new_context : D nat := λ w,
  (w <| w_nextContext ::= S |>, Done (w_nextContext w)).
Definition cancel_context (c : nat) : D () :=
  modify (λ w, match w_contexts w !! c with
               | Some _ => w
               | None => w <| w_contexts ::= <[c := context_Canceled]> |>
               end).
Definition cancel_opt (c : option nat) : D () :=
  match c with Some c => cancel_context c | None => mret () end.
Definition ctx_err (c parent : nat) : D (option error) :=
  read (λ w, match w_contexts w !! c with Some e => Some e | None => w_contexts w !! parent end).

Definition spawn (t : Task) : D () := modify (λ w, w <| w_tasks ::= (λ l, l ++ [t]) |>).

(** ** State file and secrets *)

Definition stored_state (s : Service) : Data :=
  mkData CurrentSchemaVersion (sv_profiles s) (sv_currentID s) (sv_selectedProfiles s)
    (sv_controlMode s) (sv_machineProfileID s) (sv_intent s).

Definition persist : D () :=
  data ← get stored_state;
  r ← try (with_store (st_Save data));
  match r with
  | inl err => upd (health_bad "store" err);; fail err
  | inr _ => upd (health_ok "store")
  end.

Definition wrapf (pre : string) : error → error := λ e, ErrWrap pre e "".

Definition secrets_Put (ref value pre : string) : D () :=
  r ← try (with_secrets (ss_Put ref value));
  match r with
  | inl err => upd (health_bad "secret" err);; fail (wrapf pre err)
  | inr _ => upd (health_ok "secret")
  end.
Definition secrets_Delete (ref pre : string) : D () :=
  r ← try (with_secrets (ss_Delete ref));
  match r with
  | inl err => upd (health_bad "secret" err);; fail (wrapf pre err)
  | inr _ => upd (health_ok "secret")
  end.

(** The intent is written before anything else; when that fails it is dropped. *)
Definition write_intent (intent : Intent) (g : error → error) : D () :=
  upd (λ s, s <| sv_intent := Some intent |>);;
  r ← try persist;
  match r with
  | inl err => upd (λ s, s <| sv_intent := None |>);; fail (g err)
  | inr _ => mret ()
  end.

(** The intent is cleared after everything else; when that fails it stays. *)
Definition clear_intent (g : error → error) : D () :=
  completedIntent ← get sv_intent;
  upd (λ s, s <| sv_intent := None |>);;
  r ← try persist;
  match r with
  | inl err => upd (λ s, s <| sv_intent := completedIntent |>);; fail (g err)
  | inr _ => mret ()
  end.

(** The steps of a commit once [profile] has its secret reference: intent,
    secret, profile, old secret, and the intent again.  [index] is the position
    to replace, [None] to append. *)
Definition commit_steps (index : option nat) (profile : Profile) (password oldSecretRef : string) : D () :=
  let newSecretRef := pr_SecretRef profile in
  write_intent (mkIntent 1 "upsert" (pr_ID profile) (Some profile) oldSecretRef newSecretRef)
    (wrapf "write profile intent: ");;
  when (password != "") (secrets_Put newSecretRef password "write new profile secret: ");;
  upd (λ s, match index with
            | None => s <| sv_profiles ::= (λ l, l ++ [profile]) |>
            | Some i => s <| sv_profiles ::= <[i := profile]> |>
            end);;
  wrap (wrapf "commit profile state: ") persist;;
  when ((oldSecretRef != "") && (oldSecretRef != newSecretRef))
    (secrets_Delete oldSecretRef "delete previous profile secret: ");;
  clear_intent (wrapf "clear profile intent: ").

(** [commitProfileLocked]: the profile with its secret reference is returned. *)
Definition commitProfileLocked (index : option nat) (profile : Profile) (password oldSecretRef : string)
    : D Profile :=
  pending ← get sv_intent;
  fail_if (bool_decide (is_Some pending)) (ErrText "another profile transaction is pending recovery");;
  newSecretRef ←
    (if password != "" then
       id ← wrap (wrapf "generate secret reference: ") newID;
       mret ("profile/" +:+ pr_ID profile +:+ "/" +:+ id)
     else mret oldSecretRef);
  fail_if (newSecretRef == "") (ErrText "profile transaction has no secret reference");;
  let profile := profile <| pr_SecretRef := newSecretRef |> in
  commit_steps index profile password oldSecretRef;;
  mret profile.

(** The profile list with one profile inserted or replaced by its ID. *)
Definition upsert (profile : Profile) (id : string) (l : list Profile) : list Profile :=
  match find_index (λ p, pr_ID p == id) l with
  | None => l ++ [profile]
  | Some i => <[i := profile]> l
  end.

(** [append(l[:i], l[i+1:]...)] at the first profile with the ID. *)
Definition remove_profile (id : string) (l : list Profile) : list Profile :=
  match find_index (λ p, pr_ID p == id) l with
  | None => l
  | Some i => take i l ++ drop (S i) l
  end.

Definition recover_upsert (intent : Intent) (profile : Profile) : D bool :=
  r ← try (with_secrets (ss_Get (in_NewSecretRef intent)));
  match r with
  | inl err =>
      if errors_is err SecretNotFound
      then upd (λ s, s <| sv_intent := None |>);; persist;; mret false
      else fail (wrapf "read new secret: " err)
  | inr _ =>
      upd (health_ok "secret");;
      upd (λ s, s <| sv_profiles ::= upsert profile (in_ProfileID intent) |>);;
      wrap (wrapf "recover profile state: ") persist;;
      when ((in_OldSecretRef intent != "") && (in_OldSecretRef intent != in_NewSecretRef intent))
        (secrets_Delete (in_OldSecretRef intent) "recover old secret deletion: ");;
      mret true
  end.

Definition recover_delete (intent : Intent) : D bool :=
  upd (λ s, s <| sv_profiles ::= remove_profile (in_ProfileID intent) |>);;
  wrap (wrapf "recover profile deletion: ") persist;;
  when (in_OldSecretRef intent != "")
    (secrets_Delete (in_OldSecretRef intent) "recover deleted profile secret: ");;
  mret true.

Definition recoverIntentLocked : D () :=
  pending ← get sv_intent;
  match pending with
  | None => mret ()
  | Some intent =>
      fail_if (negb (in_Version intent =? 1))
        (ErrText ("unsupported intent version " +:+ Itoa (in_Version intent)));;
      continue ←
        (if in_Kind intent == "upsert" then
           match in_NewProfile intent with
           | None => fail (ErrText "invalid upsert intent")
           | Some profile =>
               fail_if (in_NewSecretRef intent == "") (ErrText "invalid upsert intent");;
               recover_upsert intent profile
           end
         else if in_Kind intent == "delete" then recover_delete intent
         else fail (ErrText ("unsupported intent kind " +:+ quote (in_Kind intent))));
      when continue (clear_intent (wrapf "clear recovered intent: "))
  end.

(** ** Start *)

(** The profiles of the file, normalized and validated one by one. *)
Fixpoint load_profiles (todo : list Profile) : error + list Profile :=
  match todo with
  | [] => inr []
  | p :: rest =>
      if pr_SecretRef p == "" then inl (ErrText ("profile " +:+ quote (pr_ID p) +:+ " has no secret reference"))
      else
        let p := NormalizeProfile p in
        match ValidateProfile p with
        | Some err => inl (wrapf ("invalid profile " +:+ quote (pr_ID p) +:+ ": ") err)
        | None => match load_profiles rest with inl e => inl e | inr ps => inr (p :: ps) end
        end
  end.

(** One entry of [selectedProfiles]. *)
Definition check_selection (s : Service) (entry : string * string) : option error :=
  let '(owner, profileID) := entry in
  if TrimSpace owner == "" then Some (ErrText "state selected_profiles contains an empty owner") else
  match findProfileLocked s profileID with
  | inl _ => Some (ErrText ("selected profile " +:+ quote profileID +:+ " for owner " +:+ quote owner +:+ " does not exist"))
  | inr profile =>
      if (pr_Scope profile != ProfileScopeUser) || (pr_OwnerID profile != owner)
      then Some (ErrText ("selected profile " +:+ quote profileID +:+ " is not owned by " +:+ quote owner))
      else None
  end.

Fixpoint first_error {A} (f : A → option error) (l : list A) : option error :=
  match l with [] => None | a :: l => match f a with Some e => Some e | None => first_error f l end end.

Definition check_loaded (s : Service) : option error :=
  reject_if (match findProfileLocked s (sv_currentID s) with
             | inl _ => sv_currentID s != ""
             | inr _ => false
             end)
    (ErrText ("state current_profile_id " +:+ quote (sv_currentID s) +:+ " does not reference a profile")) ;?
  first_error (check_selection s) (map_to_list (sv_selectedProfiles s)) ;?
  (if sv_controlMode s == "machine" then
     reject_if (match findProfileLocked s (sv_machineProfileID s) with
                | inl _ => true
                | inr profile => pr_Scope profile != ProfileScopeMachine
                end)
       (ErrText "machine mode requires a valid machine_profile_id")
   else reject_if (sv_machineProfileID s != "") (ErrText "machine_profile_id must be empty in user mode")).

(** [load], with what [s.store.Load()] returned. *)
Definition load (loaded : error + Data) : D () :=
  match loaded with
  | inl err => upd (health_bad "store" err);; fail err
  | inr data =>
      upd (health_ok "store");;
      fail_if (negb (da_SchemaVersion data =? CurrentSchemaVersion))
        (ErrText ("unsupported state schema version " +:+ Itoa (da_SchemaVersion data)));;
      upd (λ s, s <| sv_profiles := da_Profiles data |> <| sv_selectedProfiles := da_SelectedProfiles data |>
                  <| sv_controlMode := da_ControlMode data |>);;
      fail_if (da_ControlMode data == "") (ErrText "state control_mode is required");;
      fail_if ((da_ControlMode data != "user") && (da_ControlMode data != "machine"))
        (ErrText ("invalid state control_mode " +:+ quote (da_ControlMode data)));;
      upd (λ s, s <| sv_machineProfileID := da_MachineProfileID data |> <| sv_intent := da_Intent data |>
                  <| sv_currentID := da_CurrentProfileID data |>);;
      profiles ← of_result (load_profiles (da_Profiles data));
      upd (λ s, s <| sv_profiles := profiles |>);;
      check ← get check_loaded;
      of_error check;;
      upd (λ s, set_status (λ st, st <| st_CurrentProfileID := sv_currentID s |>
                                     <| st_SelectedProfileID := sv_currentID s |>
                                     <| st_ControlMode := sv_controlMode s |>) s);;
      wrap (wrapf "recover profile transaction: ") recoverIntentLocked
  end.

(** ** Reads that refresh the state *)

Definition Status_ : D Status :=
  w ← read (λ w : World, w);
  upd (refreshConnectedStatusLocked (sc_session (w_script w)));;
  get sv_status.

Definition sampleTraffic (t : Z) : D () :=
  totals ← read (λ w : World, sc_traffic (w_script w));
  upd (sampleTrafficAt totals t).

(** ** The SOCKS5 proxy *)

Definition stopProxy : D () :=
  s ← get id;
  let server := sv_proxyServer s in
  if bool_decide (server = None) && negb (st_SOCKS5Enabled (sv_status s)) && (st_SOCKS5Listen (sv_status s) == "")
  then mret ()
  else
    let wasEnabled := st_SOCKS5Enabled (sv_status s) in
    upd (λ s, s <| sv_proxyServer := None |>);;
    set_status_now (λ st, st <| st_SOCKS5Enabled := false |> <| st_SOCKS5Listen := "" |>);;
    when wasEnabled
      (log "info" ("appd: socks5 proxy stopped addr=" +:+ st_SOCKS5Listen (sv_status s));;
       upd_now (λ now, emit_status now "SOCKS5 proxy stopped" ""));;
    match server with
    | None => mret ()
    | Some server => gap;; proxy_Close server
    end;;
    gap;;
    upd (health_ok "proxy").

Definition recordProxyError (err : error) : D () :=
  upd (health_bad "proxy" err);;
  set_status_now (λ st, st <| st_LastError := error_msg err |>);;
  log "error" ("appd: socks5 proxy unavailable err=" +:+ quote (error_msg err));;
  upd_now (λ now, emit_status now "" (error_msg err)).

(** [dialer] tells whether the tunnel dialer is not nil. *)
Definition startProxy (profileID listenAddr : string) (dialer : bool) : D () :=
  fail_if (negb dialer) (ErrText "SOCKS5 requires a VPN tunnel dialer");;
  let listenAddr := if listenAddr == "" then "127.0.0.1:1080" else listenAddr in
  s ← get id;
  if bool_decide (is_Some (sv_proxyServer s)) && st_SOCKS5Enabled (sv_status s)
     && (st_SOCKS5Listen (sv_status s) == listenAddr)
  then mret ()
  else
    upd (λ s, s <| sv_proxyServer := None |>);;
    upd (set_status (λ st, st <| st_SOCKS5Enabled := false |> <| st_SOCKS5Listen := "" |>));;
    gap;;
    match sv_proxyServer s with
    | None => mret ()
    | Some old => wrap (wrapf "replace SOCKS5 listener: ") (proxy_Close old)
    end;;
    r ← try (socks5_Listen listenAddr);
    gap;;
    match r with
    | inl err =>
        upd (health_bad "proxy" err);;
        log "error" ("appd: start socks5 proxy failed err=" +:+ quote (error_msg err));;
        set_status_now (λ st, st <| st_LastError := error_msg err |>);;
        upd_now (λ now, emit_status now "" (error_msg err));;
        fail err
    | inr (server, addr) =>
        upd (λ s, s <| sv_proxyServer := Some server |>);;
        upd (health_ok "proxy");;
        set_status_now (λ st, st <| st_SOCKS5Enabled := true |> <| st_SOCKS5Listen := addr |>);;
        log "info" ("appd: socks5 proxy started addr=" +:+ addr);;
        upd_now (λ now, emit_status now "SOCKS5 proxy started" "");;
        spawn (MonitorProxy server profileID)
    end.

Definition applyProxyProfile (profile : Profile) : D () :=
  connected ← get (λ s, (sv_connectedID s == pr_ID profile) &&
                        bool_decide (st_State (sv_status s) = StateConnected));
  gap;;
  if negb connected || negb (pr_SOCKS5Enabled profile) then stopProxy
  else
    r ← try backend_TunnelDialer;
    match r with
    | inl err =>
        _ ← try stopProxy;
        gap;;
        recordProxyError (wrapf "SOCKS5 VPN dialer unavailable: " err);;
        fail err
    | inr dialer => startProxy (pr_ID profile) (pr_SOCKS5Listen profile) dialer
    end.

(** ** Failed cleanup and disconnection *)

Definition failCleanup (err : error) : D () :=
  upd (λ s, s <| sv_fatalErr := Some err |>);;
  upd (health_bad "cleanup" err);;
  set_status_now (λ st, st <| st_LastError := sanitizeDiagnostic (error_msg err) |>
                           <| st_State := StateError |>);;
  upd_now (λ now s, emitLocked now
    ((notify_event "cleanup_failed") <| nt_Status := Some (sv_status s) |>
       <| nt_Error := st_LastError (sv_status s) |>) s);;
  modify (λ w, match w_fatal w with Some _ => w | None => w <| w_fatal := Some err |> end).

(** The end of a connection: the fields every disconnect clears. *)
Definition clear_connection (st : Status) : Status :=
  st <| st_ConnectedProfileID := "" |> <| st_Session := None |> <| st_EffectiveRoutes := [] |>.

Definition is_active (s : Service) : bool :=
  (sv_connectedID s != "") || bool_decide (is_Some (sv_attemptCancel s))
  || bool_decide (st_State (sv_status s) = StateConnecting)
  || bool_decide (st_State (sv_status s) = StateReconnecting).

Definition disconnect (manual : bool) : D () :=
  active ← get is_active;
  cancelAttempt ← get sv_attemptCancel;
  when manual (upd stopReconnectLocked;; upd cancelNetworkReconnectLocked);;
  connectedID ← get sv_connectedID;
  when (manual && (connectedID != ""))
    (upd (λ s, s <| sv_disconnectSeq ::= Z.succ |>);;
     upd (λ s, s <| sv_manualDisconnectSeq := sv_disconnectSeq s |> <| sv_manualProfileID := sv_connectedID s |>));;
  cancel_opt cancelAttempt;;
  gap;;
  r ← try stopProxy;
  match r with
  | inl err => gap;; failCleanup (wrapf "SOCKS5 cleanup failed: " err);; fail err
  | inr _ => mret ()
  end;;
  if negb active then mret ()
  else
    r ← try backend_Disconnect;
    gap;;
    match r with
    | inl err => failCleanup (wrapf "disconnect cleanup failed: " err);; fail err
    | inr _ =>
        upd (λ s, set_status (λ st, (clear_connection st) <| st_AttemptID := "" |>
                                      <| st_State := StateDisconnected |> <| st_LastError := "" |>)
                    (s <| sv_attemptID := "" |> <| sv_attemptCancel := None |> <| sv_connectedID := "" |>));;
        upd (λ s, if sv_controlMode s == "user" then s <| sv_activeOwnerID := "" |> else s);;
        upd clear_traffic;;
        set_status_now id;;
        current ← get (λ s, st_CurrentProfileID (sv_status s));
        log "info" ("appd: profile disconnected id=" +:+ current);;
        upd_now (λ now, emit_status now "Disconnected." "");;
        upd_now emit_traffic
    end.

Definition Disconnect : D () := disconnect true.

Definition Close : D () :=
  closed ← get sv_closed;
  if closed : bool then mret () else
  upd (λ s, s <| sv_closed := true |>);;
  upd stopReconnectLocked;;
  upd cancelNetworkReconnectLocked;;
  cancel ← get sv_attemptCancel;
  cancel_opt cancel;;
  gap;;
  r1 ← try stopProxy;
  r2 ← try backend_Close;
  gap;;
  let e1 := match r1 with inl e => Some (wrapf "close SOCKS5 proxy: " e) | inr _ => None end in
  let e2 := match r2 with inl e => Some (wrapf "close VPN backend: " e) | inr _ => None end in
  let closeErr := match e1, e2 with
                  | Some a, Some b => Some (ErrJoin a b)
                  | Some a, None => Some a
                  | None, o => o
                  end in
  upd (λ s, set_status (λ st, (clear_connection st) <| st_AttemptID := "" |> <| st_State := StateDisconnected |>)
              (s <| sv_attemptID := "" |> <| sv_attemptCancel := None |> <| sv_connectedID := "" |>));;
  set_status_now id;;
  upd (match closeErr with Some e => health_bad "cleanup" e | None => health_ok "cleanup" end);;
  upd (λ s, s <| sv_watchers := ∅ |>);;
  of_error closeErr.

(** ** Connecting *)

Definition loadProfileSecret (profile : Profile) : D string :=
  fail_if (pr_SecretRef profile == "")
    (ErrText ("profile " +:+ pr_ID profile +:+ " has no secret reference"));;
  password ← wrap (wrapf ("load secret for profile " +:+ pr_ID profile +:+ ": "))
               (with_secrets (ss_Get (pr_SecretRef profile)));
  fail_if (password == "") (ErrText ("secret for profile " +:+ pr_ID profile +:+ " is empty"));;
  mret password.

(** The checks made before and again after a previous connection is dropped:
    [Some (Some err)] refuses, [Some None] returns nil, [None] goes on. *)
Definition connect_guard (s : Service) (profile : Profile) (allowReconnectState : bool) : option (option error) :=
  let connecting := bool_decide (st_State (sv_status s) = StateConnecting)
                    || bool_decide (st_State (sv_status s) = StateReconnecting) in
  let allowed := connectAllowedFromStateLocked s (pr_ID profile) allowReconnectState in
  if connecting && negb allowed && (st_CurrentProfileID (sv_status s) == pr_ID profile) then Some None
  else if connecting && negb allowed then Some (Some errConnectInProgress)
  else if bool_decide (st_State (sv_status s) = StateConnected) && (sv_connectedID s == pr_ID profile)
  then Some None
  else None.

(** The section that starts an attempt. *)
Definition begin_attempt (profile : Profile) (allowReconnectState : bool) (attemptID : string) (attemptCtx : nat) : D () :=
  upd (λ s, set_status (λ st,
    st <| st_State := if allowReconnectState then StateReconnecting else StateConnecting |>
       <| st_CurrentProfileID := pr_ID profile |> <| st_ConnectedProfileID := "" |>
       <| st_AttemptID := attemptID |> <| st_LastError := "" |>)
    (s <| sv_currentID := pr_ID profile |> <| sv_attemptID := attemptID |>
       <| sv_attemptCancel := Some attemptCtx |>));;
  upd clear_traffic;;
  set_status_now id;;
  log "info" ("appd: connecting id=" +:+ pr_ID profile);;
  upd_now (λ now, emit_status now ("Connecting to profile " +:+ pr_ID profile) "").

Definition clear_attempt (s : Service) : Service :=
  set_status (λ st, st <| st_AttemptID := "" |>)
    (s <| sv_attemptID := "" |> <| sv_attemptCancel := None |>).

(** The backend refused the connection. *)
Definition attempt_refused (profile : Profile) (err : error) (attemptCtx ctx : nat) : D () :=
  upd clear_attempt;;
  done_ ← ctx_err attemptCtx ctx;
  let canceled := errors_is err CtxCanceled
                  || match done_ with Some e => errors_is e CtxCanceled | None => false end in
  set_status_now (λ st,
    if canceled then st <| st_State := StateDisconnected |> <| st_LastError := "" |>
    else st <| st_State := StateError |> <| st_LastError := sanitizeDiagnostic (error_msg err) |>);;
  log "error" ("appd: connect failed id=" +:+ pr_ID profile +:+ " err=" +:+ quote (error_msg err));;
  upd_now (λ now, recordConnectionLocked now
    (zero_event <| ce_ProfileID := pr_ID profile |> <| ce_Kind := "connect_failed" |>
       <| ce_ReasonCode := "connect_error" |> <| ce_Error := error_msg err |>));;
  upd_now (λ now, emit_status now
    ("Failed to connect profile " +:+ pr_ID profile +:+ ": " +:+ error_msg err) (error_msg err)).

(** A required component failed: the connection is taken down again. *)
Definition attempt_rolled_back (profile : Profile) (err : error) (attemptID : string) (attemptCtx : nat) : D () :=
  r ← try backend_Disconnect;
  gap;;
  let cleanupErr := match r with inl e => Some e | inr _ => None end in
  mine ← get (λ s, sv_attemptID s == attemptID);
  when mine
    (upd clear_attempt;;
     set_status_now (λ st, st <| st_State := StateError |>
       <| st_LastError := sanitizeDiagnostic
            (match cleanupErr with
             | Some e => error_msg err +:+ "; cleanup failed: " +:+ error_msg e
             | None => error_msg err
             end) |>);;
     lastError ← get (λ s, st_LastError (sv_status s));
     upd_now (λ now, recordConnectionLocked now
       (zero_event <| ce_ProfileID := pr_ID profile |> <| ce_Kind := "connect_failed" |>
          <| ce_ReasonCode := "required_component_failed" |> <| ce_Error := lastError |>));;
     upd_now (λ now, emit_status now "Connection setup failed." lastError));;
  cancel_context attemptCtx;;
  match cleanupErr with
  | Some e =>
      gap;;
      failCleanup (wrapf "connection rollback cleanup failed: " e);;
      fail (ErrWrap "connection setup failed: " err ("; cleanup failed: " +:+ error_msg e))
  | None => fail err
  end.

(** The section that commits an attempt. *)
Definition commit_attempt (profile : Profile) (session : SessionInfo) (allowReconnectState : bool) : D () :=
  upd (λ s, set_status (λ st, st <| st_State := StateConnected |> <| st_ConnectedProfileID := pr_ID profile |>
                                 <| st_Session := Some session |>)
              ((clear_attempt s) <| sv_connectedID := pr_ID profile |>));;
  upd (λ s, s <| sv_activeConnectionID :=
    if si_ConnectionID session == "" then "connection-" +:+ Itoa (sv_connectionSeq s + 1)
    else si_ConnectionID session |>);;
  modify (λ w, w <| w_svc ::= (λ s, s <| sv_activeConnectionStarted := Some (w_now w) |>) |>);;
  set_status_now (λ st, st <| st_EffectiveRoutes :=
    Plan (si_SplitInclude session) (si_SplitExclude session) profile |>);;
  modify (λ w, w <| w_svc ::= (λ s, fst (sampleTrafficLocked (sc_traffic (w_script w)) (w_now w) s)) |>);;
  log "info" ("appd: connected profile=" +:+ pr_ID profile);;
  upd_now (λ now s, recordConnectionLocked now
    (zero_event <| ce_ConnectionID := sv_activeConnectionID s |> <| ce_ProfileID := pr_ID profile |>
       <| ce_Kind := if allowReconnectState then "reconnected" else "connected" |>
       <| ce_Attempt := sv_reconnectAttempt s |>) s);;
  upd_now (λ now, emit_status now ("Connected to profile " +:+ pr_ID profile) "");;
  upd_now emit_traffic.

(** What a connection needs besides the session: the SOCKS5 listener when it is
    enabled, and no listener when it is not. *)
Definition connect_components (profile : Profile) (session : option SessionInfo) : D () :=
  match session with
  | None => fail (ErrText "VPN backend returned an empty session")
  | Some _ =>
      if pr_SOCKS5Enabled profile then
        dialer ← backend_TunnelDialer;
        startProxy (pr_ID profile) (pr_SOCKS5Listen profile) dialer
      else stopProxy
  end.

(** After the guards: one attempt, from the section that starts it. *)
Definition run_attempt (ctx : nat) (profile : Profile) (password : string) (allowReconnectState : bool) : D () :=
  attemptID ← wrap (wrapf "generate connection attempt ID: ") newID;
  connectionID ← wrap (wrapf "generate connection ID: ") newID;
  attemptCtx ← new_context;
  begin_attempt profile allowReconnectState attemptID attemptCtx;;
  gap;;
  r ← try (backend_Connect (mkConnectRequest profile password attemptID connectionID (pr_OwnerID profile)));
  match r with
  | inl err =>
      gap;;
      mine ← get (λ s, sv_attemptID s == attemptID);
      if (mine : bool) then
        attempt_refused profile err attemptCtx ctx;;
        cancel_context attemptCtx;;
        fail err
      else cancel_context attemptCtx;; fail context_Canceled
  | inr session =>
      c ← try (connect_components profile session);
      match c, session with
      | inl err, _ => attempt_rolled_back profile err attemptID attemptCtx
      | inr _, None => fail (ErrText "VPN backend returned an empty session")
      | inr _, Some session =>
          gap;;
          mine ← get (λ s, sv_attemptID s == attemptID);
          done_ ← ctx_err attemptCtx ctx;
          if negb mine || bool_decide (is_Some done_) then
            cancel_context attemptCtx;; fail context_Canceled
          else
            commit_attempt profile session allowReconnectState;;
            cancel_context attemptCtx
      end
  end.

Definition connectPreparedProfile (ctx : nat) (profile : Profile) (password : string)
    (allowReconnectState : bool) : D () :=
  of_error (validateProfileForConnect profile);;
  password ← (if (pr_SecretRef profile != "") && (password == "") then loadProfileSecret profile
              else mret password);
  g1 ← get (λ s, connect_guard s profile allowReconnectState);
  match g1 with
  | Some r => of_error r
  | None =>
      alreadyConnected ← get sv_connectedID;
      gap;;
      when ((alreadyConnected != "") && (alreadyConnected != pr_ID profile)) (disconnect false;; gap);;
      g2 ← get (λ s, connect_guard s profile allowReconnectState);
      match g2 with
      | Some r => of_error r
      | None => run_attempt ctx profile password allowReconnectState
      end
  end.

Definition Connect (ctx : nat) (id : string) : D () :=
  upd stopReconnectLocked;;
  upd cancelNetworkReconnectLocked;;
  found ← get (λ s, findProfileLocked s id);
  profile ← of_result found;
  password ← loadProfileSecret profile;
  gap;;
  connectPreparedProfile ctx profile password false;;
  gap.

Definition ConnectCurrent (ctx : nat) : D () :=
  currentID ← get sv_currentID;
  gap;;
  if currentID == "" then fail errNoCurrentProfile else Connect ctx currentID.

Definition reconnectProfile (ctx : nat) (id reason : string) : D () :=
  log "info" ("appd: reconnect reason=" +:+ quote reason);;
  disconnect false;;
  gap;;
  Connect ctx id.

(** ** Profiles *)

Definition CreateProfile (profile : Profile) (password : string) : D Profile :=
  profile ← (if pr_ID profile == "" then
               id ← wrap (wrapf "generate profile ID: ") newID;
               now ← read w_now;
               mret (NewProfile (pr_Name profile) id now)
             else mret profile);
  let profile := NormalizeProfile profile in
  of_error (ValidateProfile profile);;
  existing ← get (λ s, index_of s (pr_ID profile));
  fail_if (bool_decide (is_Some existing)) (ErrText ("profile ID already exists: " +:+ pr_ID profile));;
  now ← read stamp;
  let profile := profile <| pr_UpdatedAt := now |> in
  let profile := if pr_CreatedAt profile == "" then profile <| pr_CreatedAt := now |> else profile in
  let profile := if pr_SecretRef profile == "" then profile <| pr_SecretRef := "profile/" +:+ pr_ID profile |> else profile in
  fail_if (password == "") (ErrText "profile password is required");;
  profile ← commitProfileLocked None profile password "";
  upd (λ s, if sv_currentID s == "" then
              set_status (λ st, st <| st_CurrentProfileID := pr_ID profile |>)
                (s <| sv_currentID := pr_ID profile |>)
            else s);;
  persist;;
  log "info" ("appd: profile created id=" +:+ pr_ID profile +:+ " name=" +:+ quote (pr_Name profile));;
  upd_now emit_profiles;;
  mret profile.

(** The routes of a connected profile are planned again. *)
Definition replan (id : string) (profile : Profile) : D () :=
  s ← get (λ s, s);
  match st_Session (sv_status s) with
  | Some session =>
      when (sv_connectedID s == id)
        (set_status_now (λ st, st <| st_EffectiveRoutes :=
           Plan (si_SplitInclude session) (si_SplitExclude session) profile |>);;
         upd_now (λ now, emit_status now "" ""))
  | None => mret ()
  end.

Definition updateProfile (id : string) (req : ProfileUpdateRequest) (applyRuntime : bool) : D (Profile * bool) :=
  found ← get (λ s, index_of s id);
  match found with
  | None => fail (not_found id)
  | Some index =>
      before ← get (λ s, default zero_profile (sv_profiles s !! index));
      let profile := NormalizeProfile (apply_update req before) in
      of_error (ValidateProfile profile);;
      now ← read stamp;
      let profile := profile <| pr_UpdatedAt := now |> in
      let password := default "" (ur_Password req) in
      fail_if (bool_decide (is_Some (ur_Password req)) && (password == ""))
        (ErrText "profile password cannot be empty");;
      profile ← commitProfileLocked (Some index) profile password (pr_SecretRef before);
      shouldReconnect ← get (λ s, (sv_connectedID s == id) && needsReconnectForProfileUpdate before profile);
      replan id profile;;
      log "info" ("appd: profile updated id=" +:+ pr_ID profile +:+ " name=" +:+ quote (pr_Name profile));;
      upd_now (λ now, emitLocked now ((notify_event "profile") <| nt_Profile := Some profile |>));;
      upd_now emit_profiles;;
      if negb applyRuntime then mret (profile, shouldReconnect)
      else
        gap;;
        applyProxyProfile profile;;
        when shouldReconnect (gap;; reconnectProfile 0 id ("reapplying updated profile " +:+ id));;
        mret (profile, shouldReconnect)
  end.

Definition UpdateProfile (id : string) (req : ProfileUpdateRequest) : D Profile :=
  r ← updateProfile id req true; mret (fst r).

(** The deleted profile was the current one: the last profile left takes its
    place, when there is exactly one. *)
Definition forget_current (id : string) (s : Service) : Service :=
  if sv_currentID s == id then
    let current := match sv_profiles s with [p] => pr_ID p | _ => "" end in
    set_status (λ st, st <| st_CurrentProfileID := current |> <| st_SelectedProfileID := current |>)
      (s <| sv_currentID := current |>)
  else s.

Definition DeleteProfile (id : string) : D () :=
  found ← get (λ s, index_of s id);
  fail_if (bool_decide (found = None)) (not_found id);;
  wasActive ← get (ProfileIsActive id);
  gap;;
  when wasActive
    (wrap (wrapf "disconnect active profile before delete: ") (disconnect false);; gap);;
  found ← get (λ s, index_of s id);
  match found with
  | None => fail (not_found id)
  | Some index =>
      upd (λ s, if sv_reconnectProfileID s == id then stopReconnectLocked s else s);;
      oldSecretRef ← get (λ s, pr_SecretRef (default zero_profile (sv_profiles s !! index)));
      write_intent (mkIntent 1 "delete" id None oldSecretRef "") (λ err, err);;
      upd (λ s, s <| sv_profiles ::= (λ l, take index l ++ drop (S index) l) |>
                  <| sv_selectedProfiles ::= filter (λ kv, kv.2 ≠ id) |>);;
      upd (forget_current id);;
      persist;;
      secrets_Delete oldSecretRef ("delete secret for profile " +:+ id +:+ ": ");;
      clear_intent (λ err, err);;
      log "info" ("appd: profile deleted id=" +:+ id);;
      when wasActive (upd_now (λ now, emit_status now "" "");; upd_now emit_traffic);;
      upd_now emit_profiles
  end.

Definition SwitchProfile (id : string) : D () :=
  found ← get (λ s, findProfileLocked s id);
  _ ← of_result found;
  upd (λ s, if sv_currentID s != id then stopReconnectLocked s else s);;
  upd (λ s, set_status (λ st, st <| st_CurrentProfileID := id |>) (s <| sv_currentID := id |>));;
  persist;;
  log "info" ("appd: switched current profile id=" +:+ id);;
  upd_now (λ now, emit_status now "" "").

(** The routes are stored as given: neither normalized nor validated. *)
Definition UpdateRoutes (id : string) (req : RouteUpdateRequest) : D Profile :=
  found ← get (λ s, index_of s id);
  match found with
  | None => fail (not_found id)
  | Some index =>
      now ← read stamp;
      let change p :=
        (assign (ru_CustomExclude req) (λ x p, p <| pr_CustomExclude := x |>)
          (assign (ru_CustomInclude req) (λ x p, p <| pr_CustomInclude := x |>)
            (assign (ru_AcceptServerRoutes req) (λ x p, p <| pr_AcceptServerRoutes := x |>) p)))
        <| pr_UpdatedAt := now |> in
      upd (λ s, s <| sv_profiles ::= alter change index |>);;
      persist;;
      profile ← get (λ s, default zero_profile (sv_profiles s !! index));
      shouldReconnect ← get (λ s, sv_connectedID s == id);
      replan id profile;;
      log "info" ("appd: routes updated profile=" +:+ id +:+ " include_count=" +:+
                  Itoa (Z.of_nat (length (default [] (ru_CustomInclude req)))) +:+ " exclude_count=" +:+
                  Itoa (Z.of_nat (length (default [] (ru_CustomExclude req)))));;
      upd_now (λ now, emitLocked now ((notify_event "profile") <| nt_Profile := Some profile |>));;
      when shouldReconnect (gap;; reconnectProfile 0 id ("reapplying route changes for profile " +:+ id));;
      mret profile
  end.

(** ** Automatic reconnection *)

Definition startReconnectLocked (profileID : string) (manualSeq attempt : Z) : D () :=
  s ← get (λ s, s);
  match profileAutoReconnect s profileID with
  | None => mret ()
  | Some profile =>
      if (sv_currentID s != profileID) || (sv_connectedID s != "") || negb (sv_disconnectSeq s =? manualSeq)
         || negb (autoReconnectEnabledLocked s profile)
      then mret ()
      else
        let attempt := if attempt <? 1 then 1 else attempt in
        let delay := reconnectDelay attempt in
        now ← read w_now;
        let reconnectID := sv_reconnectID s + 1 in
        let nextAt := now + delay in
        let lifecycle := if sv_reconnectLifecycleID s == ""
                         then "reconnect-" +:+ Itoa (sv_connectionSeq s + 1) else sv_reconnectLifecycleID s in
        upd (λ s, s <| sv_reconnectID := reconnectID |> <| sv_reconnectTimer := true |>
                    <| sv_reconnectProfileID := profileID |> <| sv_reconnectAttempt := attempt |>
                    <| sv_reconnectSeq := manualSeq |> <| sv_reconnectNextAt := Some nextAt |>
                    <| sv_reconnectLifecycleID := lifecycle |>);;
        spawn (ScheduledReconnect profileID manualSeq attempt reconnectID);;
        upd_now (λ now, recordConnectionLocked now
          (zero_event <| ce_ConnectionID := lifecycle |> <| ce_ProfileID := profileID |>
             <| ce_Kind := "reconnect_scheduled" |> <| ce_Attempt := attempt |>
             <| ce_NextRetryAt := rfc3339_nano nextAt |>));;
        log "info" ("appd: auto reconnect scheduled id=" +:+ quote profileID +:+ " attempt=" +:+ Itoa attempt)
  end.

Definition release_owner (s : Service) : Service :=
  if sv_controlMode s == "user" then s <| sv_activeOwnerID := "" |> else s.

Definition record_reconnect (profileID kind reason err : string) (attempt : Z) : D () :=
  upd_now (λ now s, recordConnectionLocked now
    (zero_event <| ce_ConnectionID := sv_reconnectLifecycleID s |> <| ce_ProfileID := profileID |>
       <| ce_Kind := kind |> <| ce_ReasonCode := reason |> <| ce_Error := err |> <| ce_Attempt := attempt |>) s).

Definition retryReconnectLocked (profileID : string) (manualSeq attempt : Z) (err : error) : D () :=
  if IsRetryable err && (attempt <? autoReconnectMaxTries)
  then startReconnectLocked profileID manualSeq (attempt + 1)
  else
    let errorMessage := sanitizeDiagnostic (error_msg err) in
    set_status_now (λ st, st <| st_State := StateError |> <| st_LastError := errorMessage |>);;
    record_reconnect profileID "reconnect_exhausted" (reconnectFailureCode err) errorMessage attempt;;
    log "error" ("appd: auto reconnect exhausted id=" +:+ quote profileID +:+ " attempts=" +:+ Itoa attempt
                 +:+ " err=" +:+ quote errorMessage);;
    upd release_owner;;
    upd stopReconnectLocked;;
    upd_now (λ now, emit_status now
      ("Automatic reconnect stopped after " +:+ Itoa attempt +:+ " failed attempts: " +:+ errorMessage) errorMessage).

Definition reconnect_failed (profileID : string) (manualSeq attempt : Z) (code : string) (err : error) : D () :=
  log "error" ("appd: auto reconnect failed id=" +:+ quote profileID +:+ " err=" +:+ quote (error_msg err));;
  record_reconnect profileID "reconnect_failed" code (error_msg err) attempt;;
  retryReconnectLocked profileID manualSeq attempt err.

Definition runScheduledReconnect (profileID : string) (manualSeq attempt reconnectID : Z) : D () :=
  s ← get (λ s, s);
  if negb (sv_reconnectID s =? reconnectID) || (sv_reconnectProfileID s != profileID)
     || negb (sv_reconnectSeq s =? manualSeq)
  then mret ()
  else
    upd (λ s, s <| sv_reconnectTimer := false |> <| sv_reconnectNextAt := None |>);;
    s ← get (λ s, s);
    let usable :=
      match profileAutoReconnect s profileID with
      | None => None
      | Some profile =>
          if (sv_currentID s != profileID) || (sv_connectedID s != "") || negb (sv_disconnectSeq s =? manualSeq)
             || negb (autoReconnectEnabledLocked s profile)
          then None else Some profile
      end in
    match usable with
    | None => upd stopReconnectLocked
    | Some profile =>
        set_status_now (λ st, st <| st_State := StateReconnecting |> <| st_LastError := "" |>);;
        log "info" ("appd: auto reconnect attempt=" +:+ Itoa attempt +:+ " id=" +:+ quote profileID);;
        upd_now (λ now, emit_status now ("Reconnecting profile " +:+ profileID) "");;
        record_reconnect profileID "reconnect_attempt" "" "" attempt;;
        gap;;
        log "info" ("appd: reconnect reason=" +:+
          quote ("auto reconnect attempt " +:+ Itoa attempt +:+ " for profile " +:+ profileID));;
        d ← try (disconnect false);
        match d with
        | inl err => gap;; reconnect_failed profileID manualSeq attempt "disconnect_failed" err
        | inr _ =>
            gap;;
            c ← try (password ← loadProfileSecret profile; connectPreparedProfile 0 profile password true);
            gap;;
            match c with
            | inl err => reconnect_failed profileID manualSeq attempt "connect_failed" err
            | inr _ => upd stopReconnectLocked
            end
        end
    end.

(** ** Network changes *)

Definition stop_repair (s : Service) : Service :=
  s <| sv_networkReconnectActive := false |> <| sv_networkReconnectConnID := "" |>
    <| sv_networkReconnectProfile := "" |>.

(** The last section of a repair. *)
Definition finish_repair (repairID : Z) (connectionID profileID : string) (profile : Profile)
    (result : error + ()) : D () :=
  current ← get sv_networkReconnectID;
  if negb (current =? repairID) then mret ()
  else
    upd stop_repair;;
    match result with
    | inr _ =>
        upd_now (λ now s, recordConnectionLocked now
          (zero_event <| ce_ConnectionID := sv_activeConnectionID s |> <| ce_ProfileID := profileID |>
             <| ce_Kind := "network_reconnected" |> <| ce_ReasonCode := "underlay_changed" |>
             <| ce_Transport := "network" |>) s);;
        log "info" ("appd: network reconnect succeeded profile=" +:+ profileID)
    | inl err =>
        let message := sanitizeDiagnostic (error_msg err) in
        set_status_now (λ st, st <| st_State := StateError |> <| st_LastError := message |>);;
        upd_now (λ now, recordConnectionLocked now
          (zero_event <| ce_ConnectionID := connectionID |> <| ce_ProfileID := profileID |>
             <| ce_Kind := "network_reconnect_failed" |> <| ce_ReasonCode := "reconnect_failed" |>
             <| ce_Transport := "network" |> <| ce_Error := message |>));;
        log "error" ("appd: network reconnect failed profile=" +:+ profileID +:+ " err=" +:+ quote (error_msg err));;
        upd_now (λ now, emit_status now ("Network reconnect failed: " +:+ message) message);;
        enabled ← get (λ s, autoReconnectEnabledLocked s profile);
        if (enabled : bool) then
          manualSeq ← get sv_disconnectSeq;
          startReconnectLocked profileID manualSeq 1
        else upd release_owner
    end.

(** The connection of a repair runs under a deadline of 90 seconds: [ctx]. *)
Definition runNetworkReconnect (ctx : nat) (repairID : Z) (connectionID : string) : D () :=
  s ← get (λ s, s);
  if negb (sv_networkReconnectActive s) || negb (sv_networkReconnectID s =? repairID)
     || (sv_networkReconnectConnID s != connectionID)
  then mret ()
  else
    let profileID := sv_networkReconnectProfile s in
    gap;;
    match findProfileLocked s profileID with
    | inl err => finish_repair repairID connectionID profileID zero_profile (inl err)
    | inr profile =>
        d ← try (disconnect false);
        gap;;
        match d with
        | inl err => finish_repair repairID connectionID profileID profile (inl err)
        | inr _ =>
            stillActive ← get (λ s, sv_networkReconnectActive s && (sv_networkReconnectID s =? repairID)
                                    && (sv_currentID s == profileID));
            if negb stillActive then mret ()
            else
              gap;;
              c ← try (password ← loadProfileSecret profile; connectPreparedProfile ctx profile password true);
              gap;;
              finish_repair repairID connectionID profileID profile c
        end
    end.

Definition monitorProxy (server : nat) (profileID : string) (err : error) : D () :=
  active ← get (λ s, bool_decide (sv_proxyServer s = Some server) && (sv_currentID s == profileID)
                     && (profileID != "")
                     && ((sv_connectedID s == profileID) || bool_decide (is_Some (sv_attemptCancel s))));
  gap;;
  if negb active then mret ()
  else
    recordProxyError err;;
    gap;;
    r ← try (disconnect false);
    match r with
    | inl closeErr => gap;; recordProxyError (wrapf "SOCKS5 failure cleanup: " closeErr)
    | inr _ => mret ()
    end.

(** ** Backend events: one round of consumeBackendEvents *)

(** [event.ConnectionID] names another connection than the active one. *)
Definition stale_event (s : Service) (event : Event) : bool :=
  (ev_ConnectionID event != "") && (sv_activeConnectionID s != "")
  && (ev_ConnectionID event != sv_activeConnectionID s).

Definition health_event (event : Event) : D () :=
  let component := if ev_Component event == "" then "backend" else ev_Component event in
  match ev_Err event with
  | None =>
      upd (health_ok component);;
      upd_now (λ now, emitLocked now ((notify_event "health") <| nt_Message := component +:+ " recovered" |>))
  | Some err =>
      let message := sanitizeDiagnostic (error_msg err) in
      upd (set_health component (not_ready component message));;
      log "error" ("appd: component unhealthy component=" +:+ component +:+ " err=" +:+ quote message);;
      upd_now (λ now, emitLocked now
        ((notify_event "health") <| nt_Error := message |> <| nt_Message := component +:+ " is unhealthy" |>))
  end.

Definition network_change_event (event : Event) : D () :=
  s ← get (λ s, s);
  if stale_event s event then mret () else
  match ev_Network event with
  | None => mret ()
  | Some network =>
      if (sv_connectedID s == "") || sv_networkReconnectActive s then mret ()
      else
        now ← read stamp;
        let repairID := sv_networkReconnectID s + 1 in
        let change := networkChangeFromBackend now network in
        upd (λ s, s <| sv_networkReconnectActive := true |> <| sv_networkReconnectID := repairID |>
                    <| sv_networkReconnectConnID := ev_ConnectionID event |>
                    <| sv_networkReconnectProfile := sv_connectedID s |>
                    <| sv_lastNetworkChange := Some change |>);;
        set_status_now (λ st, st <| st_State := StateReconnecting |> <| st_LastError := "" |>);;
        upd_now (λ now, recordConnectionLocked now
          (zero_event <| ce_ConnectionID := ev_ConnectionID event |> <| ce_ProfileID := sv_connectedID s |>
             <| ce_Kind := "network_change" |> <| ce_ReasonCode := "underlay_changed" |>
             <| ce_Transport := "network" |> <| ce_Error := nc_Error change |>));;
        log "info" ("appd: underlay changed profile=" +:+ sv_connectedID s +:+ " reasons=" +:+ Join (nc_Reasons change) ",");;
        upd_now (λ now s, emitLocked now
          ((notify_event "network") <| nt_Network := Some change |> <| nt_Status := Some (sv_status s) |>
             <| nt_Message := "Network path changed; reconnecting." |>) s);;
        spawn (NetworkReconnect repairID (ev_ConnectionID event))
  end.

(** The locals of the "disconnected" case. *)
Record Lost := mkLost {
  lo_profileID : string;
  lo_intentional : bool;
  lo_repair : bool;
  lo_schedule : bool;
  lo_manualSeq : Z;
}.

(** The message of an event that lost nothing. *)
Definition nothing_lost : Lost := mkLost "" false false false 0.

Definition classify_loss (s : Service) (event : Event) : Lost * bool :=
  let profileID := if (sv_connectedID s == "") && (sv_manualProfileID s != "")
                   then sv_manualProfileID s else sv_connectedID s in
  let repair := sv_networkReconnectActive s && (ev_ConnectionID event == sv_networkReconnectConnID s) in
  let manual := (profileID != "") && (profileID == sv_manualProfileID s)
                && (sv_manualDisconnectSeq s =? sv_disconnectSeq s) in
  let localRequested := match ev_Close event with Some c => di_Code c == "local_requested" | None => false end in
  let intentional := manual || localRequested in
  let schedule :=
    negb intentional && negb repair && (sv_currentID s == profileID)
    && match profileAutoReconnect s profileID with
       | Some profile => autoReconnectEnabledLocked s profile
       | None => false
       end
    && negb (sv_reconnectTimer s) && retryableDisconnectEvent event in
  (mkLost profileID intentional repair schedule (if schedule then sv_disconnectSeq s else 0), manual).

(** Reason, transport and error of the recorded event. *)
Definition loss_reason (event : Event) (l : Lost) : string * string * string :=
  let r := match ev_Close event with
           | Some c => (di_Code c, di_Transport c, di_Error c)
           | None => ("unknown_close", "", "")
           end in
  let '(reasonCode, transport, closeError) := r in
  let '(reasonCode, closeError) :=
    match ev_Err event with
    | Some err => if closeError == "" then ("backend_error", error_msg err) else (reasonCode, closeError)
    | None => (reasonCode, closeError)
    end in
  let '(reasonCode, transport, closeError) :=
    if lo_intentional l then ("local_requested", "local", "") else (reasonCode, transport, closeError) in
  if lo_repair l then ("underlay_changed", "network", "") else (reasonCode, transport, closeError).

Definition loss_record (s : Service) (event : Event) (l : Lost) (ended : Z) : ConnectionEvent :=
  let '(reasonCode, transport, closeError) := loss_reason event l in
  let faults := match ev_Close event with
                | Some c => (λ f, mkConnectionFault (tf_Code f) (tf_Transport f) (tf_Error f) (tf_Time f))
                              <$> di_TransportFaults c
                | None => []
                end in
  let record := zero_event <| ce_ConnectionID := sv_activeConnectionID s |> <| ce_ProfileID := lo_profileID l |>
    <| ce_Kind := if lo_repair l then "network_reconnect"
                  else if lo_intentional l then "disconnected" else "connection_lost" |>
    <| ce_ReasonCode := reasonCode |> <| ce_Transport := transport |> <| ce_Error := closeError |>
    <| ce_SessionEnded := rfc3339_nano ended |> <| ce_TransportFaults := faults |> in
  match sv_activeConnectionStarted s with
  | Some started => record <| ce_SessionStarted := rfc3339_nano started |>
                           <| ce_DurationMS := Z.quot (ended - started) Millisecond |>
  | None => record
  end.

Definition disconnected_section (event : Event) : D Lost :=
  s ← get (λ s, s);
  let '(l, manual) := classify_loss s event in
  upd (λ s, if manual then s <| sv_manualProfileID := "" |> <| sv_manualDisconnectSeq := 0 |> else s);;
  upd (λ s, set_status (λ st, (clear_connection st)
    <| st_State := if lo_repair l then StateReconnecting else StateDisconnected |>
    <| st_SOCKS5Enabled := false |> <| st_SOCKS5Listen := "" |>) (s <| sv_connectedID := "" |>));;
  upd clear_traffic;;
  log "info" "appd: backend event=disconnected";;
  ended ← read w_now;
  upd_now (λ now s, recordConnectionLocked now (loss_record s event l ended) s);;
  upd (λ s, s <| sv_activeConnectionID := "" |> <| sv_activeConnectionStarted := None |>);;
  mret l.

(** The status message and error every remaining event ends with. *)
Definition event_report (event : Event) (l : Lost) : D () :=
  let disconnected := ev_Type event == "disconnected" in
  let plain := negb (lo_intentional l) && negb (lo_repair l) in
  let message :=
    if ev_Type event == "connected" then "Backend connection established."
    else if disconnected then
      (if lo_repair l then "Network path changed; reconnecting." else "Backend disconnected.")
    else "" in
  message ←
    match ev_Err event with
    | Some err =>
        upd (set_status (λ st, st <| st_State := StateError |> <| st_LastError := error_msg err |>));;
        log "error" ("appd: backend error err=" +:+ quote (error_msg err));;
        mret ("Backend error: " +:+ error_msg err)
    | None => mret message
    end;
  message ←
    match ev_Close event with
    | Some c =>
        if disconnected && plain && (di_Error c != "") && bool_decide (ev_Err event = None) then
          upd (set_status (λ st, st <| st_State := StateError |>
                                    <| st_LastError := sanitizeDiagnostic (di_Error c) |>));;
          mret ("VPN connection lost: " +:+ sanitizeDiagnostic (di_Error c))
        else if disconnected && plain && (di_Code c != "") && (di_Error c == "") then
          mret ("VPN connection lost (" +:+ di_Code c +:+ ").")
        else mret message
    | None => mret message
    end;
  set_status_now id;;
  lastError ← get (λ s, st_LastError (sv_status s));
  upd_now (λ now, emit_status now message lastError);;
  when ((ev_Type event == "connected") || disconnected) (upd_now emit_traffic);;
  when (disconnected && negb (lo_schedule l) && negb (lo_repair l)) (upd release_owner).

Definition consume_event (event : Event) : D () :=
  if ev_Type event == "health" then health_event event
  else if ev_Type event == "network_change" then network_change_event event
  else if ev_Type event == "disconnected" then
    s ← get (λ s, s);
    if stale_event s event then mret ()
    else
      l ← disconnected_section event;
      event_report event l;;
      when (lo_schedule l) (gap;; startReconnectLocked (lo_profileID l) (lo_manualSeq l) 1)
  else
    when (ev_Type event == "connected") (log "info" "appd: backend transport established");;
    event_report event nothing_lost.

(** ** Updates *)

(** [UpdateCheck]: [info] is the answer of the checker, already converted. *)
Definition UpdateCheck : D UpdateInfo :=
  s ← get (λ s, s);
  now ← read w_now;
  gap;;
  if negb (sv_updater s) then mret (zero_update_info <| uin_CurrentVersion := build_Version |> <| uin_Disabled := true |>)
  else
    let fresh := match sv_updateCacheAt s with
                 | Some cacheAt => (0 <? sv_updateInterval s) && (uin_CheckedAt (sv_updateCache s) != "")
                                   && (now - cacheAt <? sv_updateInterval s)
                 | None => false
                 end in
    if fresh then mret (sv_updateCache s)
    else
      result ← ask sc_updates (λ l s, s <| sc_updates := l |>) (zero_update_info <| uin_Error := "offline" |>);
      (if uin_Error result == "" then
         gap;;
         now ← read w_now;
         upd (λ s, s <| sv_updateCache := result |> <| sv_updateCacheAt := Some now |> <| sv_updateNotified := false |>)
       else mret ());;
      mret result.

Definition SetUpdater (present : bool) (interval : Z) : D () :=
  upd (λ s, s <| sv_updater := present |> <| sv_updateInterval := interval |>).

(** ** The operations of the local clients *)

Definition allowed (check : Service → option error) : D () := r ← get check; of_error r.

Definition ConnectFor (ctx : nat) (actor : Actor) (id : string) : D () :=
  allowed (authorize actor true);;
  gap;;
  found ← get (profileForActor actor id);
  profile ← of_result found;
  gap;;
  s ← get (λ s, s);
  fail_if (negb (ac_System actor) && (sv_activeOwnerID s != "") && (sv_activeOwnerID s != ac_ID actor))
    daemon_in_use;;
  fail_if ((pr_Scope profile == ProfileScopeMachine) &&
           ((sv_controlMode s != "machine") || (sv_machineProfileID s != pr_ID profile)))
    (coded "machine_mode_required" "machine profiles can only connect through machine mode" None);;
  upd (λ s, if negb (ac_System actor) && (sv_controlMode s == "user")
            then s <| sv_activeOwnerID := ac_ID actor |> else s);;
  upd (λ s, if (pr_Scope profile == ProfileScopeUser) && (pr_OwnerID profile == ac_ID actor)
            then s <| sv_selectedProfiles ::= <[ac_ID actor := pr_ID profile]> |> else s);;
  upd (λ s, set_status (λ st, st <| st_SelectedProfileID := pr_ID profile |>)
              (s <| sv_currentID := pr_ID profile |>));;
  r ← try persist;
  gap;;
  match r with
  | inl err => upd (releaseIdleOwner actor);; fail err
  | inr _ =>
      r ← try (Connect ctx (pr_ID profile));
      match r with
      | inl err => gap;; upd (releaseIdleOwner actor);; fail err
      | inr _ => mret ()
      end
  end.

Definition DisconnectFor (actor : Actor) : D () :=
  allowed (authorize actor true);;
  gap;;
  Disconnect.

Definition requested_profile (actor : Actor) (req : ProfileCreateRequest) (scope : string) (profile : Profile) : Profile :=
  let profile := profile <| pr_ServerURL := cr_ServerURL req |> <| pr_Username := cr_Username req |>
    <| pr_Group := cr_Group req |> <| pr_Scope := scope |>
    <| pr_OwnerID := if scope == ProfileScopeMachine then "system" else ac_ID actor |> in
  let profile := assign (cr_AcceptServerRoutes req) (λ x p, p <| pr_AcceptServerRoutes := x |>) profile in
  let profile := profile
    <| pr_AutoReconnect := Some (BoolValue (cr_AutoReconnect req) false) |>
    <| pr_ApplyDNS := Some (BoolValue (cr_ApplyDNS req) true) |>
    <| pr_CustomInclude := cr_CustomInclude req |> <| pr_CustomExclude := cr_CustomExclude req |>
    <| pr_DNSOverrides := cr_DNSOverrides req |> <| pr_SOCKS5Enabled := cr_SOCKS5Enabled req |>
    <| pr_SOCKS5Listen := if cr_SOCKS5Listen req == "" then "127.0.0.1:1080" else cr_SOCKS5Listen req |> in
  if cr_MTU req =? 0 then profile else profile <| pr_MTU := cr_MTU req |>.

Definition CreateProfileFor (actor : Actor) (req : ProfileCreateRequest) : D Profile :=
  allowed (authorize actor true);;
  fail_if (cr_Password req == "") (coded "invalid_profile_secret" "profile password is required" None);;
  let scope := if cr_Scope req == "" then ProfileScopeUser else cr_Scope req in
  fail_if ((scope == ProfileScopeMachine) && ordinary actor)
    (coded "admin_required" "machine profiles require an elevated administrator" None);;
  id ← wrap (λ e, coded "random_source_failed" "generate profile ID failed" (Some e)) newID;
  now ← read w_now;
  let profile := requested_profile actor req scope (NewProfile (cr_Name req) id now) in
  gap;;
  created ← CreateProfile (NormalizeProfile profile) (cr_Password req);
  gap;;
  upd (λ s, if pr_Scope created == ProfileScopeUser
            then s <| sv_selectedProfiles ::= <[ac_ID actor := pr_ID created]> |> else s);;
  upd (λ s, if ac_System actor || ac_Admin actor then s <| sv_currentID := pr_ID created |> else s);;
  persist;;
  mret (publicProfile created).

Definition empty_password (req : ProfileUpdateRequest) : bool :=
  match ur_Password req with Some p => p == "" | None => false end.

Definition UpdateProfileFor (actor : Actor) (id : string) (req : ProfileUpdateRequest) : D Profile :=
  allowed (authorize actor true);;
  gap;;
  found ← get (profileForActor actor id);
  _ ← of_result found;
  fail_if (empty_password req) (coded "invalid_profile_secret" "profile password cannot be empty" None);;
  gap;;
  r ← updateProfile id req false;
  mret (publicProfile (fst r)).

Definition DeleteProfileFor (actor : Actor) (id : string) : D () :=
  allowed (authorize actor true);;
  gap;;
  found ← get (profileForActor actor id);
  _ ← of_result found;
  gap;;
  locked ← get (λ s, (sv_controlMode s == "machine") && (sv_machineProfileID s == id));
  fail_if locked (coded "machine_mode_locked" "exit machine mode before deleting its profile" None);;
  gap;;
  DeleteProfile id.

Definition SetControlMode (ctx : nat) (actor : Actor) (req : ControlModeRequest) : D () :=
  fail_if (ordinary actor)
    (coded "admin_required" "control mode changes require an elevated administrator" None);;
  let mode := ToLower (TrimSpace (cm_Mode req)) in
  fail_if ((mode != "user") && (mode != "machine"))
    (coded "invalid_control_mode" "control mode must be user or machine" None);;
  machineProfile ←
    (if mode == "machine" then
       found ← get (profileForActor actor (cm_ProfileID req));
       profile ← of_result found;
       fail_if (pr_Scope profile != ProfileScopeMachine)
         (coded "invalid_profile_scope" "machine mode requires a machine profile" None);;
       gap;;
       active ← get ConnectionActive;
       gap;;
       when active (wrap (wrapf "disconnect user connection before machine mode: ") (disconnect false));;
       mret profile
     else
       wrap (wrapf "disconnect machine connection: ") (disconnect false);;
       mret zero_profile);
  gap;;
  upd (λ s, s <| sv_controlMode := mode |> <| sv_machineProfileID := cm_ProfileID req |>);;
  upd (λ s, if mode == "user" then s <| sv_machineProfileID := "" |> <| sv_activeOwnerID := "" |> else s);;
  upd (set_status (λ st, st <| st_ControlMode := mode |>));;
  upd (λ s, if mode == "machine" then
              set_status (λ st, st <| st_CurrentProfileID := pr_ID machineProfile |>
                                   <| st_SelectedProfileID := pr_ID machineProfile |>)
                (s <| sv_currentID := pr_ID machineProfile |> <| sv_activeOwnerID := "system" |>)
            else s);;
  persist;;
  gap;;
  if mode == "user" then mret ()
  else
    r ← try (Connect ctx (pr_ID machineProfile));
    match r with
    | inl err =>
        when (IsRetryable err)
          (gap;;
           manualSeq ← get sv_disconnectSeq;
           startReconnectLocked (pr_ID machineProfile) manualSeq 1);;
        fail err
    | inr _ => mret ()
    end.

(** ** Operations: a command that runs in the background *)

Definition newOperation (actor : Actor) (kind profileID : string) : D Operation :=
  id ← wrap (λ e, coded "random_source_failed" "generate operation ID failed" (Some e)) newID;
  attemptID ← wrap (λ e, coded "random_source_failed" "generate attempt ID failed" (Some e)) newID;
  now ← read stamp;
  mret (mkOperation id kind profileID attemptID OperationRunning "" "" now "" (ac_ID actor)).

(** The registration; the caller returns while the command waits to run. *)
Definition registerAndRunOperation (op : Operation) (command : Command) : D () :=
  closed ← get sv_closed;
  fail_if closed service_closing;;
  upd (λ s, set_status (λ st, st <| st_Operation := Some op |>) (s <| sv_operations ::= <[op_ID op := op]> |>));;
  upd_now (λ now, emitLocked now ((notify_event "operation") <| nt_Operation := Some op |>));;
  spawn (RunOperation op command).

(** The end of the operation, with what the command returned. *)
Definition finish_operation (op : Operation) (result : error + ()) : D () :=
  now ← read stamp;
  let terminal :=
    match result with
    | inr _ => op <| op_EndedAt := now |> <| op_State := OperationSucceeded |>
    | inl err => op <| op_EndedAt := now |> <| op_State := OperationFailed |>
                    <| op_Error := sanitizeDiagnostic (error_msg err) |> <| op_ErrorCode := errorCode err |>
    end in
  upd_now (λ now, emitLocked now
    ((notify_event "operation") <| nt_Operation := Some terminal |> <| nt_Error := op_Error terminal |>));;
  upd (λ s, s <| sv_operations ::= delete (op_ID op) |>);;
  upd (set_status (λ st, match st_Operation st with
                         | Some current => if op_ID current == op_ID op then st <| st_Operation := None |> else st
                         | None => st
                         end)).

Definition run_operation (op : Operation) (run : D ()) : D () :=
  r ← try run; gap;; finish_operation op r.

Definition StartOperation (actor : Actor) (kind profileID : string) (command : Command) : D Operation :=
  allowed (if kind == "control-mode" then authorizeAdministrativeWrite actor else authorize actor true);;
  op ← newOperation actor kind profileID;
  gap;;
  registerAndRunOperation op command;;
  mret op.

(** The update of the connected profile: stored at once, applied by the
    operation it returns, whose command is [reconnectProfile]. *)
Definition UpdateActiveProfileFor (actor : Actor) (id : string) (req : ProfileUpdateRequest) : D Operation :=
  allowed (authorize actor true);;
  gap;;
  found ← get (profileForActor actor id);
  _ ← of_result found;
  fail_if (empty_password req) (coded "invalid_profile_secret" "profile password cannot be empty" None);;
  op ← newOperation actor "profile-update" id;
  gap;;
  _ ← updateProfile id req false;
  gap;;
  registerAndRunOperation op (CmdReconnect id);;
  mret op.

(** ** Commands *)

Definition run_command (ctx : nat) (command : Command) : D () :=
  match command with
  | CmdConnect actor id => ConnectFor ctx actor id
  | CmdDisconnect actor => DisconnectFor actor
  | CmdDeleteProfile actor id => DeleteProfileFor actor id
  | CmdControlMode actor req => SetControlMode ctx actor req
  | CmdReconnect id => reconnectProfile ctx id ("reapplying updated profile " +:+ id)
  end.

(** A goroutine or timer that got the command lock. [err] is what the proxy
    reported; [ctx] the deadline of a repair. *)
Definition run_task (t : Task) (ctx : nat) (err : error) : D () :=
  match t with
  | RunOperation op command =>
      operationCtx ← new_context;
      run_operation op (run_command operationCtx command)
  | NetworkReconnect repairID connectionID => runNetworkReconnect ctx repairID connectionID
  | ScheduledReconnect profileID manualSeq attempt reconnectID =>
      runScheduledReconnect profileID manualSeq attempt reconnectID
  | MonitorProxy server profileID => monitorProxy server profileID err
  end.

End appd.
