(* ===== verification/AppdInv.v ===== *)
(** * What holds between any two steps of the daemon

    The invariant of the service and of the tasks it has started, kept by every
    operation whatever the other goroutines do while the mutex is free, and
    whether the operation completes, fails or the process dies in it. *)

From S2P Require Import Prelude GoStrings Types Store Stores LogBuf Vpn ProfileIO Router Service Access Feed Appd.

Open Scope go_scope.
Open Scope Z_scope.

(** A published connection is complete: the connected profile is the one the
    status names, there is a session, and no attempt is in flight. *)
Definition conn_ok (s : Service) : Prop :=
  st_State (sv_status s) = StateConnected →
  st_ConnectedProfileID (sv_status s) = sv_connectedID s ∧
  is_Some (st_Session (sv_status s)) ∧ sv_attemptCancel s = None.

Definition hist_ok (s : Service) : Prop := (length (sv_connectionHistory s) ≤ history_capacity)%nat.
Definition logs_ok (s : Service) : Prop :=
  (length (lb_entries (sv_logs s)) ≤ 500)%nat ∧ lb_limit (sv_logs s) = 500%nat.

(** An armed timer is one of at most three attempts. *)
Definition retry_ok (s : Service) : Prop :=
  sv_reconnectTimer s = true → 1 ≤ sv_reconnectAttempt s ≤ autoReconnectMaxTries.

Definition service_ok (s : Service) : Prop :=
  conn_ok s ∧ hist_ok s ∧ logs_ok s ∧ retry_ok s ∧ feed_ok s.

(** A started task carries a ticket the service has issued. *)
Definition task_ok (s : Service) (t : Task) : Prop :=
  match t with
  | NetworkReconnect repairID _ => repairID ≤ sv_networkReconnectID s
  | ScheduledReconnect _ _ attempt reconnectID =>
      1 ≤ attempt ≤ autoReconnectMaxTries ∧ reconnectID ≤ sv_reconnectID s
  | MonitorProxy _ _ | RunOperation _ _ => True
  end.

(** The tickets only grow. *)
Definition tickets_le (s s' : Service) : Prop :=
  sv_reconnectID s ≤ sv_reconnectID s' ∧ sv_networkReconnectID s ≤ sv_networkReconnectID s'.

Definition step_ok (s s' : Service) : Prop := service_ok s → service_ok s' ∧ tickets_le s s'.
Definition good (f : Service → Service) : Prop := ∀ s, step_ok s (f s).

Lemma tickets_le_refl s : tickets_le s s.
Proof. split; lia. Qed.

Lemma step_ok_refl s : step_ok s s.
Proof. intros H. split; [done|apply tickets_le_refl]. Qed.

Lemma step_ok_trans s1 s2 s3 : step_ok s1 s2 → step_ok s2 s3 → step_ok s1 s3.
Proof.
  intros H12 H23 H1. destruct (H12 H1) as [H2 [A B]]. destruct (H23 H2) as [H3 [C D]].
  split; [done|]. split; lia.
Qed.

Lemma task_ok_mono s s' t : tickets_le s s' → task_ok s t → task_ok s' t.
Proof. intros [A B]. destruct t; cbn; lia. Qed.

(** An update that touches none of the fields above. *)
Ltac untouched := let H := fresh in intros H; split; [exact H|split; apply Z.le_refl].

(** ** The pure steps *)

Lemma good_emitLocked now n s : step_ok s (emitLocked now n s).
Proof.
  intros (Hc & Hh & Hl & Hr & Hf). split; [|split; apply Z.le_refl].
  do 4 (split; [assumption|]). by apply feed_emitLocked.
Qed.

Lemma good_logs_Add now level m s : step_ok s (logs_Add now level m s).
Proof.
  intros (Hc & Hh & [Hl Hlim] & Hr & Hf). split; [|split; apply Z.le_refl].
  split; [exact Hc|]. split; [exact Hh|]. split; [|split; [exact Hr|exact Hf]]. split; [|exact Hlim].
  unfold logs_Add. cbn -[LogBuf.Add]. rewrite <- Hlim. apply Add_bounded. unfold bounded. by rewrite Hlim.
Qed.

Lemma good_recordConnectionLocked now e s : step_ok s (recordConnectionLocked now e s).
Proof.
  unfold recordConnectionLocked. cbv zeta.
  eapply step_ok_trans; [|eapply step_ok_trans; [apply good_logs_Add|apply good_emitLocked]].
  intros (Hc & Hh & Hl & Hr & Hf). split; [|split; apply Z.le_refl].
  split; [exact Hc|]. split; [apply length_push_history|]. do 2 (split; [assumption|]). exact Hf.
Qed.

(** *** Leaves *)

Lemma good_set_health name c : good (set_health name c).
Proof. intros s. untouched. Qed.

Lemma good_stopReconnect : good stopReconnectLocked.
Proof.
  intros s (Hc & Hh & Hl & Hr & Hf). split; [|split; cbn; lia].
  do 3 (split; [assumption|]). split; [by intros ?|exact Hf].
Qed.

Lemma good_cancelNetworkReconnect : good cancelNetworkReconnectLocked.
Proof. intros s H. split; [exact H|split; cbn; lia]. Qed.

Lemma good_clear_traffic : good clear_traffic.
Proof. intros s. untouched. Qed.

Lemma good_sample totals t s : step_ok s (fst (sampleTrafficLocked totals t s)).
Proof.
  unfold sampleTrafficLocked. destruct (negb _); [apply good_clear_traffic|].
  destruct totals; [|apply good_clear_traffic]. untouched.
Qed.

(** A status update that keeps the connection, or leaves the Connected state. *)
Lemma good_set_status f :
  (∀ st, st_State (f st) = StateConnected →
     st_State st = StateConnected ∧ st_ConnectedProfileID (f st) = st_ConnectedProfileID st ∧
     (is_Some (st_Session st) → is_Some (st_Session (f st)))) → good (set_status f).
Proof.
  intros Hf s (Hc & H). split; [|split; apply Z.le_refl]. split; [|exact H].
  intros Hs. destruct (Hf (sv_status s) Hs) as (H1 & H2 & H3).
  destruct (Hc H1) as (A & B & C). split; [|split; [by apply H3|exact C]].
  change (st_ConnectedProfileID (f (sv_status s)) = sv_connectedID s). by rewrite H2.
Qed.

Lemma good_refresh session : good (refreshConnectedStatusLocked session).
Proof.
  intros s. destruct session; [|apply step_ok_refl]. apply good_set_status. intros st Hst. by cbn in *.
Qed.

Lemma good_clear_attempt : good clear_attempt.
Proof.
  intros s (Hc & H). split; [|split; apply Z.le_refl]. split; [|exact H].
  intros Hs. destruct (Hc Hs) as (A & B & C). by split_and!.
Qed.

Lemma good_compose f g : good f → good g → good (λ s, g (f s)).
Proof. intros Hf Hg s. eapply step_ok_trans; [apply Hf|apply Hg]. Qed.

Lemma service_ok_new epoch now : service_ok (new_service epoch now).
Proof.
  split; [by intros [=]|]. split; [apply Nat.le_0_l|]. split; [by split; [apply Nat.le_0_l|]|].
  split; [by intros [=]|apply feed_new].
Qed.

(** ** The operations *)

Create HintDb inv discriminated.
#[export] Hint Constants Opaque : inv.

Section operations.
Context {St Sec : Type} `{!StateStore St} `{!SecretStore Sec}.
Notation World := (World St Sec).
Notation D := (M World).
Implicit Types (w : World).

Definition world_ok (w : World) : Prop :=
  service_ok (w_svc w) ∧ Forall (task_ok (w_svc w)) (w_tasks w).

(** The tickets are past those of an earlier service. *)
Context (low : Service).
Definition later_ok (w : World) : Prop := world_ok w ∧ tickets_le low (w_svc w).

(** So are the worlds in which the mutex will be taken back. *)
Definition ok (w : World) : Prop := later_ok w ∧ Forall later_ok (w_resume w).

Lemma ok_step w w' :
  w_tasks w' = w_tasks w → w_resume w' = w_resume w → step_ok (w_svc w) (w_svc w') → ok w → ok w'.
Proof.
  intros Ht Hr Hs [[[H1 H2] H4] H3]. destruct (Hs H1) as [H1' Hle]. split; [|by rewrite Hr].
  split; [|destruct Hle, H4; split; lia]. split; [done|]. rewrite Ht. eapply Forall_impl; [exact H2|]. intros t. by apply task_ok_mono.
Qed.

Lemma preserves_upd (f : Service → Service) : good f → preserves ok (upd f : D ()).
Proof. intros Hf. apply preserves_modify. intros w. apply ok_step; [done..|apply Hf]. Qed.

Lemma preserves_upd_now f : (∀ now, good (f now)) → preserves ok (upd_now f : D ()).
Proof. intros Hf. apply preserves_modify. intros w. apply ok_step; [done..|apply Hf]. Qed.

Lemma preserves_get {A} (f : Service → A) : preserves ok (get f : D A).
Proof. apply preserves_read. Qed.

(** Computations that leave the service and its tasks alone. *)
Definition outside {A} (m : D A) : Prop :=
  ∀ w, w_svc (fst (m w)) = w_svc w ∧ w_tasks (fst (m w)) = w_tasks w ∧ w_resume (fst (m w)) = w_resume w.

Lemma preserves_outside {A} (m : D A) : outside m → preserves ok m.
Proof.
  intros Hm w H. unfold wp. destruct (Hm w) as (H1 & H2 & H3).
  apply (ok_step w); [exact H2|exact H3|rewrite H1; apply step_ok_refl|exact H].
Qed.

Lemma outside_with_store {A} (m : M St A) : outside (with_store m).
Proof. intros w. unfold with_store. by destruct (m (w_store w)). Qed.
Lemma outside_with_secrets {A} (m : M Sec A) : outside (with_secrets m).
Proof. intros w. unfold with_secrets. by destruct (m (w_secrets w)). Qed.
Lemma outside_ask {A} field set (d : A) : outside (ask field set d).
Proof. intros w. unfold ask. by destruct (field (w_script w)). Qed.
Lemma outside_newID : outside newID.
Proof. intros w. unfold newID. by destruct (newIDFrom (w_random w)) as [|[]]. Qed.
Lemma outside_new_context : outside new_context.
Proof. done. Qed.
Lemma outside_cancel_context c : outside (cancel_context c).
Proof. intros w. unfold cancel_context, modify. cbn. by destruct (w_contexts w !! c). Qed.

Lemma preserves_of_result {A} (r : error + A) : preserves ok (of_result r : D A).
Proof. destruct r; [apply preserves_fail|apply preserves_ret]. Qed.
Lemma preserves_of_error r : preserves ok (of_error r : D ()).
Proof. destruct r; [apply preserves_fail|apply preserves_ret]. Qed.

Lemma preserves_log level m : preserves ok (log level m : D ()).
Proof. apply preserves_upd_now. intros now s. apply good_logs_Add. Qed.

Lemma preserves_set_status_now f :
  (∀ st, st_State (f st) = StateConnected →
     st_State st = StateConnected ∧ st_ConnectedProfileID (f st) = st_ConnectedProfileID st ∧
     (is_Some (st_Session st) → is_Some (st_Session (f st)))) →
  preserves ok (set_status_now f : D ()).
Proof.
  intros Hf. apply preserves_upd_now. intros now. apply good_set_status. intros st. apply (Hf st).
Qed.

#[local] Hint Resolve preserves_get preserves_of_result preserves_of_error preserves_log
  preserves_upd preserves_upd_now preserves_outside outside_with_store outside_with_secrets
  outside_ask outside_newID outside_new_context outside_cancel_context good_set_health
  good_stopReconnect good_cancelNetworkReconnect good_clear_traffic good_refresh good_clear_attempt
  good_emitLocked good_recordConnectionLocked : inv.

(** The pure leaf of a step. *)
Ltac pure_step :=
  let s := fresh "s" in
  intros; try (intros s); cbv beta; repeat case_match;
  lazymatch goal with
  | |- step_ok ?s ?s => apply step_ok_refl
  | |- step_ok ?s (emitLocked _ _ ?s) => apply good_emitLocked
  | |- step_ok ?s (emit_status _ _ _ ?s) => apply good_emitLocked
  | |- step_ok ?s (emit_traffic _ ?s) => apply good_emitLocked
  | |- step_ok ?s (emit_profiles _ ?s) => apply good_emitLocked
  | |- step_ok ?s (recordConnectionLocked _ _ ?s) => apply good_recordConnectionLocked
  | |- step_ok ?s (logs_Add _ _ _ ?s) => apply good_logs_Add
  | |- step_ok ?s (stopReconnectLocked ?s) => apply good_stopReconnect
  | |- _ => first [ untouched
        | apply good_set_status; intros ? ?; repeat case_match; cbn in *; (congruence || by split_and!) ]
  end.

Ltac status_step := intros ? ?; repeat case_match; cbn in *; first [congruence|by split_and!].

Ltac step :=
  cbv beta zeta;
  lazymatch goal with
  | |- preserves _ (mret _) => apply preserves_ret
  | |- preserves _ (fail _) => apply preserves_fail
  | |- preserves _ (read _) => apply preserves_read
  | |- preserves _ (get _) => apply preserves_get
  | |- preserves _ (fail_if _ _) => apply preserves_fail_if
  | |- preserves _ (when _ _) => apply preserves_when
  | |- preserves _ (try _) => apply preserves_try
  | |- preserves _ (wrap _ _) => apply preserves_wrap
  | |- preserves _ (log _ _) => apply preserves_log
  | |- preserves _ (of_result _) => apply preserves_of_result
  | |- preserves _ (of_error _) => apply preserves_of_error
  | |- preserves _ (mbind _ _) => apply preserves_bind
  | |- preserves _ (upd _) => apply preserves_upd; solve [eauto 2 with inv nocore|pure_step]
  | |- preserves _ (upd_now _) => apply preserves_upd_now; solve [pure_step]
  | |- preserves _ (set_status_now _) => apply preserves_set_status_now; solve [status_step]
  | |- preserves _ (match ?x with _ => _ end) => destruct x eqn:?
  | |- preserves _ _ => solve [eauto 3 with inv nocore]
  | |- ∀ _, _ => intros ?
  end.
Ltac steps := repeat step.

Lemma ok_persist : preserves ok (persist : D ()).
Proof. unfold persist. steps. Qed.
#[local] Hint Resolve ok_persist : inv.

Lemma ok_secrets_Put r v p : preserves ok (secrets_Put r v p : D ()).
Proof. unfold secrets_Put, health_bad, health_ok. steps. Qed.
Lemma ok_secrets_Delete r p : preserves ok (secrets_Delete r p : D ()).
Proof. unfold secrets_Delete, health_bad, health_ok. steps. Qed.
#[local] Hint Resolve ok_secrets_Put ok_secrets_Delete : inv.

Lemma ok_write_intent i g : preserves ok (write_intent i g : D ()).
Proof. unfold write_intent. steps. Qed.
Lemma ok_clear_intent g : preserves ok (clear_intent g : D ()).
Proof. unfold clear_intent. steps. Qed.
#[local] Hint Resolve ok_write_intent ok_clear_intent : inv.

Lemma ok_commit_steps i p pw r : preserves ok (commit_steps i p pw r : D ()).
Proof. unfold commit_steps. steps. Qed.
#[local] Hint Resolve ok_commit_steps : inv.

Lemma ok_commitProfileLocked i p pw r : preserves ok (commitProfileLocked i p pw r : D Profile).
Proof. unfold commitProfileLocked. steps. Qed.
#[local] Hint Resolve ok_commitProfileLocked : inv.

Lemma ok_recoverIntentLocked : preserves ok (recoverIntentLocked : D ()).
Proof. unfold recoverIntentLocked, recover_upsert, recover_delete. steps. Qed.
#[local] Hint Resolve ok_recoverIntentLocked : inv.

Context (gap : D ()) (Hgap : preserves ok gap).
#[local] Hint Resolve Hgap : inv.
#[local] Set Default Proof Using "Type*".

Lemma ok_spawn_operation op c : preserves ok (spawn (RunOperation op c) : D ()).
Proof.
  apply preserves_modify. intros w [[[H1 H2] H4] H3]. split; [|exact H3]. split; [|exact H4]. split; [done|].
  apply Forall_app. split; [done|]. by constructor.
Qed.
#[local] Hint Resolve ok_spawn_operation : inv.

Lemma ok_spawn_monitor server id : preserves ok (spawn (MonitorProxy server id) : D ()).
Proof.
  apply preserves_modify. intros w [[[H1 H2] H4] H3]. split; [|exact H3]. split; [|exact H4]. split; [done|].
  apply Forall_app. split; [done|]. by constructor.
Qed.
#[local] Hint Resolve ok_spawn_monitor : inv.

Lemma ok_load loaded : preserves ok (load loaded : D ()).
Proof. unfold load, health_bad, health_ok. steps. Qed.

Lemma ok_stopProxy : preserves ok (stopProxy gap).
Proof. unfold stopProxy, proxy_Close, health_ok, emit_status. steps. Qed.

Lemma ok_recordProxyError e : preserves ok (recordProxyError e : D ()).
Proof. unfold recordProxyError, health_bad, emit_status. steps. Qed.
#[local] Hint Resolve ok_stopProxy ok_recordProxyError : inv.

Lemma ok_startProxy id addr d : preserves ok (startProxy gap id addr d).
Proof. unfold startProxy, proxy_Close, socks5_Listen, health_bad, health_ok, emit_status. steps. Qed.
#[local] Hint Resolve ok_startProxy : inv.

Lemma ok_backend_TunnelDialer : preserves ok (backend_TunnelDialer : D bool).
Proof. unfold backend_TunnelDialer. steps. Qed.
Lemma ok_backend_Connect r : preserves ok (backend_Connect r : D (option SessionInfo)).
Proof. unfold backend_Connect. steps. Qed.
Lemma ok_backend_Disconnect : preserves ok (backend_Disconnect : D ()).
Proof. unfold backend_Disconnect. steps. Qed.
#[local] Hint Resolve ok_backend_TunnelDialer ok_backend_Connect ok_backend_Disconnect : inv.

Lemma ok_applyProxyProfile p : preserves ok (applyProxyProfile gap p).
Proof. unfold applyProxyProfile. steps. Qed.

Lemma ok_fatal e : preserves ok (modify (λ w : World,
  match w_fatal w with Some _ => w | None => w <| w_fatal := Some e |> end)).
Proof. apply preserves_modify. intros w H. by destruct (w_fatal w). Qed.
#[local] Hint Resolve ok_applyProxyProfile ok_fatal : inv.

Lemma ok_failCleanup e : preserves ok (failCleanup e : D ()).
Proof. unfold failCleanup, health_bad. steps. Qed.
#[local] Hint Resolve ok_failCleanup : inv.

Lemma ok_cancel_opt c : preserves ok (cancel_opt c : D ()).
Proof. unfold cancel_opt. steps. Qed.
#[local] Hint Resolve ok_cancel_opt : inv.

(** Ending a connection leaves the Connected state. *)
Lemma good_end_connection f g :
  (∀ st, st_State (f st) ≠ StateConnected) → (∀ s, service_ok s → hist_ok (g s) ∧ logs_ok (g s) ∧ retry_ok (g s) ∧ feed_ok (g s)) →
  (∀ s, tickets_le s (g s)) → good (λ s, set_status f (g s)).
Proof.
  intros Hf Hg Ht s H. split; [|apply Ht]. split; [|by apply Hg].
  intros Hs. by destruct (Hf _ Hs).
Qed.

Ltac ends := apply preserves_upd; apply good_end_connection;
  [intros ?; repeat case_match; cbn; congruence
  |let H := fresh in intros ? H; exact (proj2 H)
  |intros ?; split; apply Z.le_refl].

Lemma ok_disconnect manual : preserves ok (disconnect gap manual).
Proof.
  unfold disconnect, emit_status, emit_traffic. steps. ends.
Qed.
#[local] Hint Resolve ok_disconnect : inv.

(** A manual disconnection takes new tickets before anything else. *)
Lemma wp_Disconnect w :
  world_ok w → w_resume w = [] → low = cancelNetworkReconnectLocked (stopReconnectLocked (w_svc w)) →
  wp (Disconnect gap) (λ _, ok) w.
Proof.
  intros Hw Hr Hlow. unfold Disconnect, disconnect. do 2 apply wp_bind, wp_read.
  apply (wp_bind (when true _)), wp_bind, wp_modify, wp_modify. cbv beta iota.
  match goal with |- wp _ _ ?w1 => assert (Hok : ok w1) end.
  { split; [|cbn; by rewrite Hr]. split; [|rewrite Hlow; apply tickets_le_refl].
    destruct Hw as [H1 H2]. destruct (good_stopReconnect _ H1) as [H3 H4].
    destruct (good_cancelNetworkReconnect _ H3) as [H5 H6]. split; [exact H5|].
    eapply Forall_impl; [exact H2|]. intros t Ht. eapply task_ok_mono; [exact H6|]. by eapply task_ok_mono. }
  revert Hok. match goal with |- ok ?w1 → _ => generalize w1 end.
  match goal with |- ∀ w1, ok w1 → wp ?m _ w1 => change (preserves ok m) end.
  unfold emit_status, emit_traffic. steps. ends.
Qed.

Lemma ok_backend_Close : preserves ok (backend_Close : D ()).
Proof. unfold backend_Close. steps. Qed.
#[local] Hint Resolve ok_backend_Close : inv.

(** Closing forgets the watchers. *)
Lemma good_forget_watchers : good (λ s, s <| sv_watchers := ∅ |>).
Proof.
  intros s (Hc & Hh & Hl & Hr & Hf). split; [|split; apply Z.le_refl].
  do 4 (split; [assumption|]). destruct Hf as (H1 & H2 & H3 & H4 & _). split_and!; try done.
Qed.
#[local] Hint Resolve good_forget_watchers : inv.

Lemma ok_Close : preserves ok (Close gap).
Proof. unfold Close, health_bad, health_ok. steps. all: ends. Qed.

Lemma ok_loadProfileSecret p : preserves ok (loadProfileSecret p : D string).
Proof. unfold loadProfileSecret. steps. Qed.
#[local] Hint Resolve ok_loadProfileSecret : inv.

Lemma ok_begin_attempt p r a c : preserves ok (begin_attempt p r a c : D ()).
Proof. unfold begin_attempt, emit_status. steps. ends. Qed.

(** The commit publishes a complete connection. *)
Lemma good_commit id session :
  good (λ s, set_status (λ st, st <| st_State := StateConnected |> <| st_ConnectedProfileID := id |>
                                 <| st_Session := Some session |>)
               ((clear_attempt s) <| sv_connectedID := id |>)).
Proof.
  intros s (Hc & H). split; [|split; apply Z.le_refl]. split; [|exact H].
  intros _. split_and!; done.
Qed.
#[local] Hint Resolve good_commit : inv.

Lemma preserves_modify_svc (f : World → Service → Service) :
  (∀ w, good (f w)) → preserves ok (modify (λ w, w <| w_svc ::= f w |>)).
Proof. intros Hf. apply preserves_modify. intros w. apply ok_step; [done..|apply Hf]. Qed.

Lemma ok_commit_attempt p session r : preserves ok (commit_attempt p session r : D ()).
Proof.
  unfold commit_attempt, emit_status, emit_traffic. steps.
  - apply (preserves_modify_svc (λ w s, s <| sv_activeConnectionStarted := Some (w_now w) |>)).
    intros w. pure_step.
  - apply (preserves_modify_svc (λ w s, fst (sampleTrafficLocked (sc_traffic (w_script w)) (w_now w) s))).
    intros w s. apply good_sample.
Qed.
#[local] Hint Resolve ok_begin_attempt ok_commit_attempt : inv.

Lemma ok_attempt_refused p e c ctx : preserves ok (attempt_refused p e c ctx : D ()).
Proof. unfold attempt_refused, ctx_err, emit_status. steps. Qed.

Lemma ok_attempt_rolled_back p e a c : preserves ok (attempt_rolled_back gap p e a c).
Proof. unfold attempt_rolled_back, emit_status. steps. Qed.

Lemma ok_connect_components p session : preserves ok (connect_components gap p session).
Proof. unfold connect_components. steps. Qed.
#[local] Hint Resolve ok_attempt_refused ok_attempt_rolled_back ok_connect_components : inv.

Lemma ok_run_attempt ctx p pw r : preserves ok (run_attempt gap ctx p pw r).
Proof. unfold run_attempt, ctx_err. steps. Qed.
#[local] Hint Resolve ok_run_attempt : inv.

Lemma ok_connectPreparedProfile ctx p pw r : preserves ok (connectPreparedProfile gap ctx p pw r).
Proof. unfold connectPreparedProfile. steps. Qed.
#[local] Hint Resolve ok_connectPreparedProfile : inv.

Lemma ok_Connect ctx id : preserves ok (Connect gap ctx id).
Proof. unfold Connect. steps. Qed.
#[local] Hint Resolve ok_Connect : inv.

Lemma ok_reconnectProfile ctx id r : preserves ok (reconnectProfile gap ctx id r).
Proof. unfold reconnectProfile. steps. Qed.

Lemma ok_CreateProfile p pw : preserves ok (CreateProfile p pw : D Profile).
Proof. unfold CreateProfile, emit_profiles. steps. Qed.

Lemma ok_replan id p : preserves ok (replan id p : D ()).
Proof. unfold replan, emit_status. steps. Qed.
#[local] Hint Resolve ok_reconnectProfile ok_CreateProfile ok_replan : inv.

Lemma ok_updateProfile id req b : preserves ok (updateProfile gap id req b).
Proof. unfold updateProfile, emit_profiles. steps. Qed.

Lemma good_forget_current id : good (forget_current id).
Proof.
  intros s. unfold forget_current. destruct (sv_currentID s == id); [|apply step_ok_refl].
  cbv zeta. generalize (match sv_profiles s with [p] => pr_ID p | _ => "" end). intros ?. untouched.
Qed.

Lemma good_remove_profile index id :
  good (λ s, s <| sv_profiles ::= (λ l, take index l ++ drop (S index) l) |>
               <| sv_selectedProfiles ::= filter (λ kv, kv.2 ≠ id) |>).
Proof. intros s. untouched. Qed.
#[local] Hint Resolve good_forget_current good_remove_profile : inv.

Lemma ok_DeleteProfile id : preserves ok (DeleteProfile gap id).
Proof. unfold DeleteProfile, emit_status, emit_traffic, emit_profiles. steps. Qed.

Lemma ok_SwitchProfile id : preserves ok (SwitchProfile id : D ()).
Proof. unfold SwitchProfile, emit_status. steps. Qed.

Lemma ok_UpdateRoutes id req : preserves ok (UpdateRoutes gap id req).
Proof. unfold UpdateRoutes. steps. Qed.
#[local] Hint Resolve ok_updateProfile ok_DeleteProfile : inv.

(** *** Reconnection *)

(** A task about to be started. *)
Definition ok_with (t : Task) (w : World) : Prop := ok w ∧ task_ok (w_svc w) t.

Lemma ok_with_upd_now t f : (∀ now, good (f now)) → preserves (ok_with t) (upd_now f : D ()).
Proof.
  intros Hf. apply preserves_modify. intros w [H Ht]. split.
  - apply (ok_step w); [done..|exact (Hf (stamp w) (w_svc w))|exact H].
  - eapply task_ok_mono; [|exact Ht]. exact (proj2 (Hf (stamp w) (w_svc w) (proj1 (proj1 (proj1 H))))).
Qed.

Lemma wp_upd_with t f w :
  ok w → step_ok (w_svc w) (f (w_svc w)) → task_ok (f (w_svc w)) t →
  wp (upd f : D ()) (λ _, ok_with t) w.
Proof. intros H Hf Ht. apply wp_modify. split; [|exact Ht]. by apply (ok_step w). Qed.

Lemma wp_spawn_with t w : ok_with t w → wp (spawn t : D ()) (λ _, ok) w.
Proof.
  intros [[[[H1 H2] H4] H3] Ht]. apply wp_modify. split; [|exact H3]. split; [|exact H4]. split; [done|]. apply Forall_app. split; [done|]. by constructor.
Qed.

(** A section that ends in starting a task, and what follows it. *)
Lemma wp_issue {A} (I : World → Prop) (m : D ()) (k : () → D A) w :
  wp m (λ _, I) w → (∀ w, I w → wp (k ()) (λ _, ok) w) → (∀ w, I w → ok w) →
  wp (m ≫= k) (λ _, ok) w.
Proof.
  intros Hm Hk HI. apply wp_bind. eapply wp_mono; [exact Hm|]. intros [[]|e|] w' H'; auto.
Qed.

Lemma wp_then {A B} (m : D A) (k : A → D B) w :
  wp m (λ _, ok) w → (∀ a, preserves ok (k a)) → wp (m ≫= k) (λ _, ok) w.
Proof.
  intros Hm Hk. apply wp_bind. eapply wp_mono; [exact Hm|]. intros [a|e|] w' H'; [by apply Hk|done..].
Qed.

Lemma ok_startReconnectLocked id seq attempt :
  attempt ≤ autoReconnectMaxTries → preserves ok (startReconnectLocked id seq attempt : D ()).
Proof.
  intros Ha w Hw. unfold startReconnectLocked. apply wp_bind, wp_read.
  destruct (profileAutoReconnect _ _); [|by apply wp_ret]. destruct (_ || _); [by apply wp_ret|].
  cbv zeta. apply wp_bind, wp_read. cbv zeta.
  assert (Hclamp : 1 ≤ (if attempt <? 1 then 1 else attempt) ≤ autoReconnectMaxTries).
  { destruct (Z.ltb_spec attempt 1); unfold autoReconnectMaxTries in *; lia. }
  revert Hclamp. generalize (if attempt <? 1 then 1 else attempt). intros n Hn.
  eapply (wp_issue (ok_with (ScheduledReconnect id seq n (sv_reconnectID (w_svc w) + 1)))); [eapply wp_upd_with; [exact Hw| |]| |by intros ? []].
  - intros (Hc & Hh & Hl & Hr & Hf). split; [|split; cbn; lia].
    do 3 (split; [assumption|]). split; [intros _; exact Hn|exact Hf].
  - split; [exact Hn|]. cbn. lia.
  - intros w1 H1. apply wp_then; [apply wp_spawn_with, H1|]. steps.
Qed.

Lemma good_release_owner : good release_owner.
Proof. intros s. unfold release_owner. destruct (_ == _); [untouched|apply step_ok_refl]. Qed.
Lemma good_stop_repair : good stop_repair.
Proof. intros s. untouched. Qed.
Lemma good_disarm : good (λ s, s <| sv_reconnectTimer := false |> <| sv_reconnectNextAt := None |>).
Proof.
  intros s (Hc & Hh & Hl & Hr & Hf). split; [|split; apply Z.le_refl].
  do 3 (split; [assumption|]). split; [by intros ?|exact Hf].
Qed.
#[local] Hint Resolve good_release_owner good_stop_repair good_disarm : inv.

Lemma ok_retryReconnectLocked id seq attempt err :
  attempt ≤ autoReconnectMaxTries → preserves ok (retryReconnectLocked id seq attempt err : D ()).
Proof.
  intros Ha. unfold retryReconnectLocked, record_reconnect, emit_status. step; [|steps].
  apply ok_startReconnectLocked. apply andb_true_iff in Heqb as [_ ?%Z.ltb_lt]. lia.
Qed.
#[local] Hint Resolve ok_startReconnectLocked ok_retryReconnectLocked : inv.

Lemma ok_runScheduledReconnect id seq attempt ticket :
  attempt ≤ autoReconnectMaxTries → preserves ok (runScheduledReconnect gap id seq attempt ticket).
Proof.
  intros Ha. unfold runScheduledReconnect, reconnect_failed, record_reconnect, emit_status. steps.
Qed.

(** *** Network changes *)

Lemma ok_finish_repair ticket conn id p r : preserves ok (finish_repair ticket conn id p r : D ()).
Proof.
  unfold finish_repair, emit_status. steps. apply ok_startReconnectLocked. done.
Qed.
#[local] Hint Resolve ok_finish_repair : inv.

Lemma ok_runNetworkReconnect ctx ticket conn : preserves ok (runNetworkReconnect gap ctx ticket conn).
Proof. unfold runNetworkReconnect. steps. Qed.

Lemma ok_monitorProxy server id err : preserves ok (monitorProxy gap server id err).
Proof. unfold monitorProxy. steps. Qed.

Lemma ok_network_change_event event : preserves ok (network_change_event event : D ()).
Proof.
  intros w Hw. unfold network_change_event. apply wp_bind, wp_read.
  destruct (stale_event _ _); [by apply wp_ret|].
  destruct (ev_Network event) as [network|]; [|by apply wp_ret].
  destruct (_ || _); [by apply wp_ret|]. apply wp_bind, wp_read. cbv zeta.
  set (t := NetworkReconnect (sv_networkReconnectID (w_svc w) + 1) (ev_ConnectionID event)).
  eapply (wp_issue (ok_with t)); [apply wp_upd_with; [exact Hw| |]| |by intros ? []].
  - intros H. split; [exact H|split; cbn; lia].
  - cbn. lia.
  - assert (Hmid : ∀ f (k : () → D ()), (∀ now, good (f now)) →
      (∀ u w1, ok_with t w1 → wp (k u) (λ _, ok) w1) →
      ∀ w1, ok_with t w1 → wp (upd_now f ≫= k) (λ _, ok) w1).
    { intros f k Hf Hk w1 H1. apply (wp_issue (ok_with t)); [by apply ok_with_upd_now|auto|by intros ? []]. }
    unfold set_status_now, log. intros w1 H1.
    apply Hmid; [intros ?; apply good_set_status; intros ? ?; cbn in *; congruence|clear w1 H1; intros [] w1 H1|exact H1].
    do 3 (apply Hmid; [intros ?; pure_step|clear w1 H1; intros [] w1 H1|exact H1]).
    by apply wp_spawn_with.
Qed.
#[local] Hint Resolve ok_runScheduledReconnect ok_runNetworkReconnect ok_monitorProxy
  ok_network_change_event : inv.

(** *** Backend events *)

Lemma ok_health_event event : preserves ok (health_event event : D ()).
Proof. unfold health_event, health_ok. steps. Qed.

Lemma ok_disconnected_section event : preserves ok (disconnected_section event : D Lost).
Proof. unfold disconnected_section. steps. ends. Qed.

Lemma ok_event_report event l : preserves ok (event_report event l : D ()).
Proof. unfold event_report, emit_status, emit_traffic. steps. Qed.
#[local] Hint Resolve ok_health_event ok_disconnected_section ok_event_report : inv.

Lemma ok_consume_event event : preserves ok (consume_event gap event).
Proof. unfold consume_event. steps. apply ok_startReconnectLocked. done. Qed.

(** *** The operations of the local clients *)

Lemma ok_UpdateCheck : preserves ok (UpdateCheck gap).
Proof. unfold UpdateCheck. steps. Qed.

Lemma good_releaseIdleOwner actor : good (releaseIdleOwner actor).
Proof.
  intros s. unfold releaseIdleOwner. destruct (ac_System actor); [apply step_ok_refl|].
  destruct (_ && _); [untouched|apply step_ok_refl].
Qed.
#[local] Hint Resolve good_releaseIdleOwner : inv.

Lemma ok_allowed check : preserves ok (allowed check : D ()).
Proof. unfold allowed. steps. Qed.
#[local] Hint Resolve ok_allowed : inv.

Lemma ok_ConnectFor ctx actor id : preserves ok (ConnectFor gap ctx actor id).
Proof. unfold ConnectFor. steps. Qed.

Lemma ok_DisconnectFor actor : preserves ok (DisconnectFor gap actor).
Proof. unfold DisconnectFor, Disconnect. steps. Qed.

Lemma ok_CreateProfileFor actor req : preserves ok (CreateProfileFor gap actor req).
Proof. unfold CreateProfileFor. steps. Qed.

Lemma ok_UpdateProfileFor actor id req : preserves ok (UpdateProfileFor gap actor id req).
Proof. unfold UpdateProfileFor. steps. Qed.

Lemma ok_DeleteProfileFor actor id : preserves ok (DeleteProfileFor gap actor id).
Proof. unfold DeleteProfileFor. steps. Qed.

Lemma ok_SetControlMode ctx actor req : preserves ok (SetControlMode gap ctx actor req).
Proof. unfold SetControlMode. steps. all: apply ok_startReconnectLocked; done. Qed.

(** *** Operations *)

Lemma ok_newOperation actor kind id : preserves ok (newOperation actor kind id : D Operation).
Proof. unfold newOperation. steps. Qed.

Lemma ok_registerAndRunOperation op c : preserves ok (registerAndRunOperation op c : D ()).
Proof. unfold registerAndRunOperation. steps. Qed.

Lemma ok_finish_operation op r : preserves ok (finish_operation op r : D ()).
Proof. unfold finish_operation. steps. Qed.
#[local] Hint Resolve ok_newOperation ok_registerAndRunOperation ok_finish_operation : inv.

Lemma ok_run_operation op run : preserves ok run → preserves ok (run_operation gap op run).
Proof. intros H. unfold run_operation. steps. Qed.

Lemma ok_StartOperation actor kind id c : preserves ok (StartOperation gap actor kind id c).
Proof. unfold StartOperation. steps. Qed.

Lemma ok_UpdateActiveProfileFor actor id req : preserves ok (UpdateActiveProfileFor gap actor id req).
Proof. unfold UpdateActiveProfileFor. steps. Qed.

#[local] Hint Resolve ok_run_operation ok_ConnectFor ok_DisconnectFor ok_DeleteProfileFor ok_SetControlMode : inv.

Lemma ok_run_command ctx c : preserves ok (run_command gap ctx c).
Proof. unfold run_command. steps. Qed.
#[local] Hint Resolve ok_run_command : inv.

Lemma ok_run_task t ctx err :
  match t with ScheduledReconnect _ _ attempt _ => attempt ≤ autoReconnectMaxTries | _ => True end →
  preserves ok (run_task gap t ctx err).
Proof. intros Ht. unfold run_task. steps. Qed.

End operations.
