(* ===== verification/Guarantees.v ===== *)
(** * What the daemon promises its clients

    A manual disconnection is final; the retry delays; what an ordinary client
    is shown; what an ordinary client can change. *)

From S2P Require Import Prelude GoStrings Types Store Stores LogBuf Vpn ProfileIO Router Service Access Feed Appd AppdInv.

Open Scope go_scope.
Open Scope Z_scope.

(** ** A manual disconnection is final *)

Section disconnect.
Context {St Sec : Type} `{!StateStore St} `{!SecretStore Sec}.
Notation World := (World St Sec).
Notation D := (M World).
Implicit Types (w : World).

Definition is_reconnect (t : Task) : bool :=
  match t with NetworkReconnect _ _ | ScheduledReconnect _ _ _ _ => true | _ => false end.

(** The task returns without any effect. *)
Definition inert (gap : D ()) (t : Task) w : Prop := ∀ ctx err, run_task gap t ctx err w = (w, Done ()).

Lemma old_ticket_inert gap t s w :
  task_ok s t → is_reconnect t = true →
  tickets_le (cancelNetworkReconnectLocked (stopReconnectLocked s)) (w_svc w) → inert gap t w.
Proof.
  intros Ht Hr [H1 H2] ctx err. cbn in H1, H2. destruct t as [|repairID conn|id seq n ticket|]; try done; cbn in Ht.
  - unfold run_task, runNetworkReconnect, mbind, M_bind, get, read.
    rewrite (proj2 (Z.eqb_neq (sv_networkReconnectID (w_svc w)) repairID)) by lia. by rewrite orb_true_r.
  - unfold run_task, runScheduledReconnect, mbind, M_bind, get, read.
    rewrite (proj2 (Z.eqb_neq (sv_reconnectID (w_svc w)) ticket)) by lia. done.
Qed.

(** C10: once a client disconnects, every reconnection that was armed or waiting
    for its turn when the disconnection began does nothing when it gets to run,
    whatever the other goroutines did in between, and whether the disconnection
    itself succeeds or not: the daemon does not come back on its own. *)
Theorem Disconnect_is_final gap w :
  (∀ low, preserves (ok low) gap) → world_ok w → w_resume w = [] →
  wp (Disconnect gap) (λ _ w', ∀ t, t ∈ w_tasks w → is_reconnect t = true → inert gap t w') w.
Proof.
  intros Hgap Hw Hr.
  eapply wp_mono; [by apply (wp_Disconnect (cancelNetworkReconnectLocked (stopReconnectLocked (w_svc w))) gap)|].
  intros o w' [[_ Hlow] _] t Ht Hk. eapply old_ticket_inert; [|exact Hk|exact Hlow].
  destruct Hw as [_ Hw]. rewrite Forall_forall in Hw. by apply Hw.
Qed.
End disconnect.

Definition armed_world : World Data (gmap string string) :=
  mkWorld ((new_service "e" "t") <| sv_reconnectID := 1 |> <| sv_networkReconnectID := 4 |>) fresh_data ∅ 0 []
    (mkScript [] [] [] [] [] [] None None []) ∅ 1
    [ScheduledReconnect "p1" 0 1 1; NetworkReconnect 4 "c"] None [] false.

Lemma Disconnect_is_final_witness :
  world_ok armed_world ∧
  ∀ t, t ∈ w_tasks armed_world → is_reconnect t = true →
    inert (mret ()) t (fst (Disconnect (mret ()) armed_world)).
Proof.
  assert (H : world_ok armed_world).
  { split; [exact (service_ok_new "e" "t")|]. repeat constructor; vm_compute; done. }
  split; [exact H|].
  apply (Disconnect_is_final (mret ()) armed_world); [|exact H|reflexivity].
  intros low. apply preserves_ret.
Defined.

(** ** Retry delays *)

Lemma reconnectDelay_loop_min n delay :
  0 ≤ delay ≤ autoReconnectMaxDelay →
  reconnectDelay_loop n delay = Z.min autoReconnectMaxDelay (delay * 2 ^ Z.of_nat n).
Proof.
  revert delay. induction n as [|n IH]; intros delay Hd; cbn [reconnectDelay_loop].
  - destruct (Z.ltb_spec autoReconnectMaxDelay delay); cbn; lia.
  - rewrite Nat2Z.inj_succ, Z.pow_succ_r by lia.
    assert (1 ≤ 2 ^ Z.of_nat n) by (apply (Z.pow_le_mono_r 2 0); lia).
    destruct (Z.leb_spec autoReconnectMaxDelay (delay * 2)).
    + nia.
    + rewrite IH by lia. f_equal. lia.
Qed.

(** The delay before the n-th attempt is two seconds, doubled for every
    attempt before it, and at most one minute; it never overflows however large
    the attempt number is. *)
Theorem reconnectDelay_closed attempt :
  reconnectDelay attempt =
    Z.min (60 * Second) (2 * Second * 2 ^ (Z.max 1 attempt - 1)) ∧
  2 * Second ≤ reconnectDelay attempt ≤ 60 * Second.
Proof.
  assert (E : reconnectDelay attempt = Z.min (60 * Second) (2 * Second * 2 ^ (Z.max 1 attempt - 1))).
  { unfold reconnectDelay. rewrite reconnectDelay_loop_min by (vm_compute; done).
    f_equal. f_equal. f_equal. destruct (Z.ltb_spec attempt 1); lia. }
  split; [exact E|]. rewrite E.
  assert (1 ≤ 2 ^ (Z.max 1 attempt - 1)) by (apply (Z.pow_le_mono_r 2 0); lia).
  assert (0 < Second) by (vm_compute; done). nia.
Qed.

(** ** What an ordinary client is shown *)

Section views.
Context (actor : Actor) (s : Service) (Hactor : ordinary actor = true).

Definition owned (q : Profile) : Prop := pr_Scope q = ProfileScopeUser ∧ pr_OwnerID q = ac_ID actor.

(** A profile as it may be shown: one of the client's own, without its secret
    reference. *)
Definition shown_profile (p : Profile) : Prop :=
  pr_SecretRef p = "" ∧ pr_OwnerID p = "" ∧ ∃ q, owned q ∧ p = publicProfile q.

Definition shown_id (id : string) : Prop := ∃ q, findProfileLocked s id = inr q ∧ owned q.

Definition shown_status (st : Status) : Prop :=
  (st_ConnectedProfileID st ≠ "" ∨ st_Session st ≠ None ∨ st_EffectiveRoutes st ≠ [] ∨ st_SOCKS5Listen st ≠ "" →
   shown_id (st_ConnectedProfileID st)) ∧
  (∀ op, st_Operation st = Some op → op_OwnerID op = ac_ID actor).

Lemma can_access_owned q : actorCanAccessProfile actor q = true → owned q.
Proof using Hactor.
  unfold actorCanAccessProfile, ordinary in *. apply andb_true_iff in Hactor as [H1 H2].
  apply negb_true_iff in H1, H2. rewrite H1, H2. cbn. by intros [?%eqb_true ?%eqb_true]%andb_true_iff.
Qed.

Lemma visible_profiles_shown l : Forall shown_profile (visible_profiles actor l).
Proof using Hactor.
  unfold visible_profiles. apply Forall_fmap, List.Forall_forall. intros q [_ Hq]%filter_In.
  split_and!; [done..|]. exists q. split; [by apply can_access_owned|done].
Qed.

Lemma hidden_or_shown id :
  match findProfileLocked s id with inl _ => true | inr q => negb (actorCanAccessProfile actor q) end = false →
  shown_id id.
Proof using Hactor.
  destruct (findProfileLocked s id) as [|q] eqn:E; [done|]. intros Hq%negb_false_iff.
  exists q. split; [done|by apply can_access_owned].
Qed.

Lemma status_shown : shown_status (statusForActorLocked actor s).
Proof using Hactor.
  unfold statusForActorLocked. rewrite Hactor. cbv beta iota zeta.
  match goal with |- context [st_Operation ?x] => set (st0 := x) end.
  set (st1 := match st_Operation st0 with Some op => _ | None => st0 end).
  assert (Hop : ∀ op, st_Operation st1 = Some op → op_OwnerID op = ac_ID actor).
  { unfold st1. destruct (st_Operation st0) as [op0|] eqn:E; [|by rewrite E].
    destruct (op_OwnerID op0 != ac_ID actor) eqn:Hne; [done|]. rewrite E. intros op [= <-].
    by apply negb_false_iff, eqb_true in Hne. }
  clearbody st1. 
  destruct (match findProfileLocked s (st_ConnectedProfileID st1) with
            | inl _ => true | inr profile => negb (actorCanAccessProfile actor profile) end) eqn:Hh.
  - split; [|exact Hop]. cbn. naive_solver.
  - split; [|exact Hop]. intros _. by apply hidden_or_shown.
Qed.
Definition shown_event (n : Notify) : Prop :=
  (∀ st, nt_Status n = Some st → shown_status st) ∧
  (∀ p, nt_Profile n = Some p → shown_profile p) ∧ Forall shown_profile (nt_Profiles n) ∧
  (∀ c, nt_Connection n = Some c → shown_id (ce_ProfileID c)) ∧ nt_Logs n = [].

Lemma event_shown event : shown_event (notifyForActorLocked actor event s).
Proof using Hactor.
  unfold notifyForActorLocked. rewrite Hactor. cbv zeta.
  set (n1 := match nt_Status event with Some _ => _ | None => event end).
  assert (H1 : ∀ st, nt_Status n1 = Some st → shown_status st).
  { unfold n1. destruct (nt_Status event) eqn:E; [|by rewrite E]. intros st [= <-]. apply status_shown. }
  clearbody n1.
  set (n2 := match nt_Profile n1 with Some _ => _ | None => n1 end).
  assert (H2 : (∀ st, nt_Status n2 = Some st → shown_status st) ∧ ∀ p, nt_Profile n2 = Some p → shown_profile p).
  { unfold n2. destruct (nt_Profile n1) as [q|] eqn:E; [|by rewrite E].
    destruct (actorCanAccessProfile actor q) eqn:Hq; [|by split]. split; [exact H1|]. intros p [= <-].
    split_and!; [done..|]. exists q. split; [by apply can_access_owned|done]. }
  clearbody n2. destruct H2 as [H2 H3].
  set (n3 := (n2 <| nt_Profiles ::= visible_profiles actor |>) <| nt_Logs := [] |>).
  assert (H : ∀ c, shown_event (n3 <| nt_Connection := c |>) ↔ ∀ x, c = Some x → shown_id (ce_ProfileID x)).
  { intros c. split; [by intros (_ & _ & _ & H & _)|]. intros Hc. split_and!; [exact H2|exact H3| |exact Hc|done].
    apply visible_profiles_shown. }
  change (nt_Connection n3) with (nt_Connection n2).
  destruct (nt_Connection n2) as [c|] eqn:Ec.
  - destruct (match findProfileLocked s (ce_ProfileID c) with
              | inl _ => true | inr profile => negb (actorCanAccessProfile actor profile) end) eqn:Hh.
    + by apply H.
    + assert (E3 : n3 <| nt_Connection := Some c |> = n3) by (unfold n3; destruct n2; cbn in *; by subst).
      rewrite <- E3. apply H. intros x [= <-]. by apply hidden_or_shown.
  - assert (E3 : n3 <| nt_Connection := None |> = n3) by (unfold n3; destruct n2; cbn in *; by subst).
    rewrite <- E3. by apply H.
Qed.

End views.


