(* ===== verification/Isolation.v ===== *)
(** * Users do not change each other's profiles

    Every operation that changes the profile list, run by an actor that may not
    change the profile [p], leaves [p] in the list, whatever happens at the
    places where the mutex is free. *)

From S2P Require Import Prelude GoStrings Types Store Stores LogBuf Vpn ProfileIO Router Service Access Appd.

Open Scope go_scope.
Open Scope Z_scope.

Section isolation.
Context {St Sec : Type} `{!StateStore St} `{!SecretStore Sec}.
Notation World := (World St Sec).
Notation D := (M World).
Implicit Types (w : World) (P : list Profile → Prop).

Definition kept P w : Prop := P (sv_profiles (w_svc w)).

(** ** Computations that leave the profile list alone *)

(** The helpers of Service.v do not touch the list. *)
Lemma profiles_set_status f s : sv_profiles (set_status f s) = sv_profiles s.
Proof. done. Qed.
Lemma profiles_emitLocked now n s : sv_profiles (emitLocked now n s) = sv_profiles s.
Proof. done. Qed.
Lemma profiles_logs_Add now l m s : sv_profiles (logs_Add now l m s) = sv_profiles s.
Proof. done. Qed.
Lemma profiles_set_health n c s : sv_profiles (set_health n c s) = sv_profiles s.
Proof. done. Qed.
Lemma profiles_stopReconnect s : sv_profiles (stopReconnectLocked s) = sv_profiles s.
Proof. done. Qed.
Lemma profiles_clear_traffic s : sv_profiles (clear_traffic s) = sv_profiles s.
Proof. done. Qed.
Lemma profiles_forget_current id s : sv_profiles (forget_current id s) = sv_profiles s.
Proof. unfold forget_current. by destruct (_ == _). Qed.


Lemma kept_modify P (f : World → World) :
  (∀ w, sv_profiles (w_svc (f w)) = sv_profiles (w_svc w)) → preserves (kept P) (modify f).
Proof. intros H. apply preserves_modify. intros w. unfold kept. by rewrite H. Qed.

Lemma kept_upd P f : (∀ s, sv_profiles (f s) = sv_profiles s) → preserves (kept P) (upd f : D ()).
Proof. intros H. apply kept_modify. intros w. apply H. Qed.

Lemma kept_upd_now P f : (∀ now s, sv_profiles (f now s) = sv_profiles s) → preserves (kept P) (upd_now f : D ()).
Proof. intros H. apply kept_modify. intros w. apply H. Qed.

Lemma kept_outside {A} P (m : D A) : (∀ w, w_svc (fst (m w)) = w_svc w) → preserves (kept P) m.
Proof. intros H w Hw. unfold wp, kept. by rewrite H. Qed.

Lemma kept_with_store {A} P (m : M St A) : preserves (kept P) (with_store m : D A).
Proof. apply kept_outside. intros w. unfold with_store. by destruct (m (w_store w)). Qed.
Lemma kept_with_secrets {A} P (m : M Sec A) : preserves (kept P) (with_secrets m : D A).
Proof. apply kept_outside. intros w. unfold with_secrets. by destruct (m (w_secrets w)). Qed.
Lemma kept_ask {A} P field set (d : A) : preserves (kept P) (ask field set d : D A).
Proof. apply kept_outside. intros w. unfold ask. by destruct (field (w_script w)). Qed.
Lemma kept_newID P : preserves (kept P) (newID : D string).
Proof. apply kept_outside. intros w. unfold newID. by destruct (newIDFrom (w_random w)) as [|[]]. Qed.
Lemma kept_cancel_context P c : preserves (kept P) (cancel_context c : D ()).
Proof. apply kept_modify. intros w. by destruct (w_contexts w !! c). Qed.

Lemma kept_of_result {A} P (r : error + A) : preserves (kept P) (of_result r : D A).
Proof. destruct r; [apply preserves_fail|apply preserves_ret]. Qed.
Lemma kept_of_error P r : preserves (kept P) (of_error r : D ()).
Proof. destruct r; [apply preserves_fail|apply preserves_ret]. Qed.

Create HintDb kept discriminated.
#[export] Hint Constants Opaque : kept.
#[local] Hint Resolve kept_with_store kept_with_secrets kept_ask kept_newID kept_cancel_context : kept.

Ltac same :=
  intros; cbv beta; unfold emit_status, emit_traffic, emit_profiles, health_ok, health_bad;
  repeat case_match;
  rewrite ?profiles_emitLocked, ?profiles_set_status, ?profiles_logs_Add, ?profiles_set_health,
    ?profiles_stopReconnect, ?profiles_clear_traffic, ?profiles_forget_current;
  first [lazymatch goal with |- ?x = ?x => reflexivity end | cbn; reflexivity].

Ltac kstep :=
  cbv beta zeta;
  lazymatch goal with
  | |- preserves _ (mret _) => apply preserves_ret
  | |- preserves _ (fail _) => apply preserves_fail
  | |- preserves _ (read _) => apply preserves_read
  | |- preserves _ (get _) => apply preserves_read
  | |- preserves _ (fail_if _ _) => apply preserves_fail_if
  | |- preserves _ (when _ _) => apply preserves_when
  | |- preserves _ (try _) => apply preserves_try
  | |- preserves _ (wrap _ _) => apply preserves_wrap
  | |- preserves _ (mbind _ _) => apply preserves_bind
  | |- preserves _ (modify _) => apply kept_modify; intros ?; cbv beta; case_match; reflexivity
  | |- preserves _ (upd _) => apply kept_upd; solve [same]
  | |- preserves _ (upd_now _) => apply kept_upd_now; solve [same]
  | |- preserves _ (log _ _) => apply kept_upd_now; solve [same]
  | |- preserves _ (set_status_now _) => apply kept_upd_now; solve [same]
  | |- preserves _ (of_result _) => apply kept_of_result
  | |- preserves _ (of_error _) => apply kept_of_error
  | |- preserves _ (match ?x with _ => _ end) => destruct x eqn:?
  | |- preserves _ _ => solve [eauto 3 with kept nocore]
  | |- ∀ _, _ => intros ?
  end.
Ltac ksteps := repeat kstep.

Lemma kept_persist P : preserves (kept P) (persist : D ()).
Proof. unfold persist. ksteps. Qed.
#[local] Hint Resolve kept_persist : kept.

Lemma kept_secrets_Put P r v p : preserves (kept P) (secrets_Put r v p : D ()).
Proof. unfold secrets_Put. ksteps. Qed.
Lemma kept_secrets_Delete P r p : preserves (kept P) (secrets_Delete r p : D ()).
Proof. unfold secrets_Delete. ksteps. Qed.
Lemma kept_write_intent P i g : preserves (kept P) (write_intent i g : D ()).
Proof. unfold write_intent. ksteps. Qed.
Lemma kept_clear_intent P g : preserves (kept P) (clear_intent g : D ()).
Proof. unfold clear_intent. ksteps. Qed.
#[local] Hint Resolve kept_secrets_Put kept_secrets_Delete kept_write_intent kept_clear_intent : kept.

Lemma kept_failCleanup P e : preserves (kept P) (failCleanup e : D ()).
Proof. unfold failCleanup. ksteps. Qed.
#[local] Hint Resolve kept_failCleanup : kept.

Section gap.
Context (P : list Profile → Prop) (gap : D ()) (Hgap : preserves (kept P) gap).
#[local] Hint Resolve Hgap : kept.
#[local] Set Default Proof Using "Type*".

Lemma kept_stopProxy : preserves (kept P) (stopProxy gap).
Proof. unfold stopProxy, proxy_Close. ksteps. Qed.
#[local] Hint Resolve kept_stopProxy : kept.

Lemma kept_disconnect manual : preserves (kept P) (disconnect gap manual).
Proof. unfold disconnect, cancel_opt, backend_Disconnect. ksteps. Qed.
End gap.
#[local] Hint Resolve kept_disconnect : kept.

(** ** The two writes of the list *)

(** A computation that keeps the list as it is, then one that may change it. *)
Lemma wp_then_kept {A B} l P (m : D A) (k : A → D B) w :
  preserves (kept (eq l)) m → kept (eq l) w → P l → (∀ a w', kept (eq l) w' → wp (k a) (λ _, kept P) w') →
  wp (m ≫= k) (λ _, kept P) w.
Proof.
  intros Hm Hw Hl Hk. apply wp_bind. eapply wp_mono; [by apply Hm|].
  intros [a|e|] w' Hw'; [by apply Hk|unfold kept in *; by rewrite <- Hw'..].
Qed.

Lemma wp_preserves {A} P (m : D A) w : preserves (kept P) m → kept P w → wp m (λ _, kept P) w.
Proof. intros Hm. apply Hm. Qed.

Definition replaced (index : option nat) (p : Profile) (l : list Profile) : list Profile :=
  match index with None => l ++ [p] | Some i => <[i := p]> l end.

Lemma wp_kept_commit l P index p password oldRef w :
  kept (eq l) w → P l → (∀ r, P (replaced index (p <| pr_SecretRef := r |>) l)) →
  wp (commitProfileLocked index p password oldRef : D Profile) (λ _, kept P) w.
Proof.
  intros Hw Hl Hnew. unfold commitProfileLocked.
  apply (wp_then_kept l); [ksteps|done..|]. intros ? w1 H1. apply (wp_then_kept l); [ksteps|done..|].
  intros _ w2 H2. apply (wp_then_kept l); [ksteps|done..|]. intros r w3 H3.
  apply (wp_then_kept l); [ksteps|done..|]. intros _ w4 H4. cbv zeta. apply wp_bind.
  unfold commit_steps. cbv zeta. set (p' := p <| pr_SecretRef := r |>).
  apply (wp_mono _ (λ _, kept P)); [|by intros [[]|e|] w' H'; [apply wp_ret| |]].
  apply (wp_then_kept l); [ksteps|done..|]. intros _ w5 H5. apply (wp_then_kept l); [ksteps|done..|].
  intros _ w6 H6. apply wp_bind, wp_modify.
  apply wp_preserves; [ksteps|]. unfold kept in *. specialize (Hnew r). rewrite H6 in Hnew.
  by destruct index.
Qed.

(** ** Another user's profile *)

Section others.
Context (p : Profile) (actor : Actor) (Hp : actorCanMutateProfile actor p = false).

(** Identifiers are unique and [p] is in the list. *)
Definition has_profile (l : list Profile) : Prop := NoDup (pr_ID <$> l) ∧ p ∈ l.

Lemma find_profile s id q : findProfileLocked s id = inr q → q ∈ sv_profiles s ∧ pr_ID q = id.
Proof.
  unfold findProfileLocked. destruct (List.find _ _) eqn:E; [|done]. intros [= <-].
  apply find_some in E as [Hin Hid%eqb_true]. split; [by apply list_elem_of_In|done].
Qed.

(** The identifier of a profile the actor may change is not that of [p]. *)
Lemma other_id s id q :
  has_profile (sv_profiles s) → profileForActor actor id s = inr q → id ≠ pr_ID p.
Proof using Hp.
  intros [Hnd Hin]. unfold profileForActor. destruct (findProfileLocked s id) as [|q'] eqn:E; [done|].
  destruct (actorCanMutateProfile actor q') eqn:Hq; [|done]. intros _ ->.
  apply find_profile in E as [Hin' Hid].
  apply list_elem_of_lookup in Hin as [i Hi], Hin' as [j Hj].
  assert (i = j) as <-.
  { eapply (NoDup_lookup _ i j); [exact Hnd|by rewrite list_lookup_fmap, Hi|by rewrite list_lookup_fmap, Hj; cbn; f_equal]. }
  congruence.
Qed.

Lemma find_index_lookup id l i : find_index (λ q, pr_ID q == id) l = Some i → ∃ q, l !! i = Some q ∧ pr_ID q = id.
Proof. intros (q & Hq & Hid%eqb_true & _)%find_index_Some. by exists q. Qed.

Lemma has_replaced l i id q :
  has_profile l → find_index (λ q, pr_ID q == id) l = Some i → id ≠ pr_ID p → pr_ID q = id →
  has_profile (replaced (Some i) q l).
Proof.
  intros [Hnd Hin] (q0 & Hq0 & Hid0)%find_index_lookup Hne Hid. split; cbn.
  - rewrite list_fmap_insert. rewrite list_insert_id; [done|]. rewrite list_lookup_fmap, Hq0. cbn. congruence.
  - apply list_elem_of_lookup in Hin as [j Hj]. apply list_elem_of_lookup. exists j.
    rewrite list_lookup_insert_ne; [done|]. intros <-. congruence.
Qed.

Lemma has_appended l q :
  has_profile l → find_index (λ x, pr_ID x == pr_ID q) l = None → has_profile (replaced None q l).
Proof.
  intros [Hnd Hin] Hnone. rewrite find_index_None in Hnone. split; cbn.
  - rewrite fmap_app. apply NoDup_app. split; [done|]. split; [|by apply NoDup_singleton].
    intros x Hx ->%list_elem_of_singleton. apply list_elem_of_fmap in Hx as (y & Hxy & Hy).
    rewrite Forall_forall in Hnone. specialize (Hnone _ Hy). cbn in Hnone. apply eqb_false in Hnone. congruence.
  - by apply elem_of_app; left.
Qed.

Lemma has_removed l i id :
  has_profile l → find_index (λ q, pr_ID q == id) l = Some i → id ≠ pr_ID p →
  has_profile (take i l ++ drop (S i) l).
Proof.
  intros [Hnd Hin] (q0 & Hq0 & Hid0)%find_index_lookup Hne.
  rewrite <- delete_take_drop. split.
  - rewrite list_fmap_delete. eapply sublist_NoDup; [exact Hnd|apply sublist_delete].
  - apply list_elem_of_lookup in Hin as [j Hj]. apply list_elem_of_lookup.
    destruct (Nat.lt_ge_cases j i) as [Hlt|Hge]; [exists j; by rewrite list_lookup_delete_lt by lia|].
    destruct (decide (j = i)) as [->|Hji]; [congruence|].
    exists (j - 1)%nat. rewrite list_lookup_delete_ge by lia. by replace (S (j - 1)) with j by lia.
Qed.

Context (gap : D ()) (Hgap : preserves (kept has_profile) gap).
#[local] Hint Resolve Hgap kept_disconnect : kept.
#[local] Set Default Proof Using "Type*".

Lemma NormalizeProfile_ID q : pr_ID (NormalizeProfile q) = pr_ID q.
Proof. by rewrite NormalizeProfile_eq. Qed.

Lemma assign_ID {A} (v : option A) set q : (∀ x q, pr_ID (set x q) = pr_ID q) → pr_ID (assign v set q) = pr_ID q.
Proof. intros H. destruct v; [apply H|done]. Qed.

Lemma apply_update_ID req q : pr_ID (apply_update req q) = pr_ID q.
Proof. unfold apply_update. cbv zeta. rewrite !assign_ID by done. done. Qed.

(** A read of the list followed by a commit. *)
Lemma wp_commit_then {A} index q pw r (k : Profile → D A) w :
  has_profile (sv_profiles (w_svc w)) →
  (∀ x, has_profile (replaced index (q <| pr_SecretRef := x |>) (sv_profiles (w_svc w)))) →
  (∀ q', preserves (kept has_profile) (k q')) →
  wp (commitProfileLocked index q pw r ≫= k) (λ _, kept has_profile) w.
Proof.
  intros Hw Hnew Hk. apply wp_bind.
  eapply wp_mono; [apply (wp_kept_commit (sv_profiles (w_svc w)) has_profile); [done|exact Hw|exact Hnew]|].
  intros [q'|e|] w' H'; [by apply Hk|done..].
Qed.

Lemma kept_CreateProfile q pw : preserves (kept has_profile) (CreateProfile q pw : D Profile).
Proof.
  unfold CreateProfile. apply preserves_bind; [ksteps|]. intros q1. cbv zeta.
  apply preserves_bind; [ksteps|]. intros _ w Hw. apply wp_bind, wp_read, wp_bind, wp_fail_if; [done|intros Hnone].
  apply wp_bind, wp_read, wp_bind, wp_fail_if; [done|intros _]. apply wp_commit_then; [exact Hw| |intros; ksteps].
  intros x. apply bool_decide_eq_false in Hnone. rewrite <- eq_None_not_Some in Hnone.
  apply has_appended; [exact Hw|]. rewrite <- Hnone. unfold index_of. generalize (NormalizeProfile q1). intros n.
  destruct (pr_CreatedAt _ == ""), (pr_SecretRef _ == ""); reflexivity.
Qed.

Lemma kept_updateProfile id req : id ≠ pr_ID p → preserves (kept has_profile) (updateProfile gap id req false).
Proof.
  intros Hne w Hw. unfold updateProfile. apply wp_bind, wp_read.
  destruct (index_of (w_svc w) id) as [index|] eqn:Hi; [|by apply wp_fail].
  apply wp_bind, wp_read. cbv zeta. destruct (find_index_lookup _ _ _ Hi) as (q & Hq & Hid). rewrite Hq.
  change (default zero_profile (Some q)) with q.
  set (new := NormalizeProfile (apply_update req q)).
  assert (Hnew : pr_ID new = id) by (unfold new; by rewrite NormalizeProfile_ID, apply_update_ID). clearbody new.
  apply wp_bind. destruct (ValidateProfile new); [by apply wp_fail|]. apply wp_ret.
  apply wp_bind, wp_read, wp_bind, wp_fail_if; [done|intros _].
  apply wp_commit_then; [exact Hw| |intros q'; unfold replan; cbn [negb]; ksteps].
  intros x. by apply (has_replaced _ _ id).
Qed.

Lemma kept_DeleteProfile id : id ≠ pr_ID p → preserves (kept has_profile) (DeleteProfile gap id).
Proof.
  intros Hne. unfold DeleteProfile. do 4 (apply preserves_bind; [ksteps|intros ?]).
  apply preserves_bind; [ksteps|]. intros _ w Hw. apply wp_bind, wp_read.
  destruct (index_of (w_svc w) id) as [index|] eqn:Hi; [|by apply wp_fail].
  set (l := sv_profiles (w_svc w)) in *.
  apply (wp_then_kept l); [ksteps|done|exact Hw|]. intros _ w1 H1.
  apply (wp_then_kept l); [ksteps|done|exact Hw|]. intros r w2 H2.
  apply (wp_then_kept l); [ksteps|done|exact Hw|]. intros _ w3 H3. apply wp_bind, wp_modify.
  apply wp_preserves; [ksteps|]. unfold kept in *. cbn. rewrite <- H3. by apply (has_removed _ _ id).
Qed.
#[local] Hint Resolve kept_CreateProfile : kept.

Lemma kept_CreateProfileFor req : preserves (kept has_profile) (CreateProfileFor gap actor req).
Proof. unfold CreateProfileFor, allowed. ksteps. Qed.

(** A command that first looks up the profile it is for. *)
Lemma kept_lookup {A} id (k : Profile → D A) :
  (id ≠ pr_ID p → ∀ q, preserves (kept has_profile) (k q)) →
  preserves (kept has_profile) (found ← get (profileForActor actor id); q ← of_result found; k q).
Proof.
  intros Hk w Hw. apply wp_bind, wp_read, wp_bind.
  destruct (profileForActor actor id (w_svc w)) as [e|q] eqn:E; [by apply wp_fail|].
  apply wp_ret, Hk; [|exact Hw]. by eapply other_id.
Qed.

Lemma kept_UpdateProfileFor id req : preserves (kept has_profile) (UpdateProfileFor gap actor id req).
Proof.
  unfold UpdateProfileFor, allowed. do 2 (apply preserves_bind; [ksteps|intros _]).
  apply kept_lookup. intros Hne q. do 2 (apply preserves_bind; [ksteps|intros ?]).
  apply preserves_bind; [by apply kept_updateProfile|]. intros ?. ksteps.
Qed.

Lemma kept_DeleteProfileFor id : preserves (kept has_profile) (DeleteProfileFor gap actor id).
Proof.
  unfold DeleteProfileFor, allowed. do 2 (apply preserves_bind; [ksteps|intros _]).
  apply kept_lookup. intros Hne q. do 4 (apply preserves_bind; [ksteps|intros ?]).
  by apply kept_DeleteProfile.
Qed.

(** The rest of what a request can start. *)
Lemma kept_newOperation kind id : preserves (kept has_profile) (newOperation actor kind id : D Operation).
Proof. unfold newOperation. ksteps. Qed.
Lemma kept_spawn t : preserves (kept has_profile) (spawn t : D ()).
Proof. by apply kept_modify. Qed.
#[local] Hint Resolve kept_spawn : kept.
Lemma kept_register op command : preserves (kept has_profile) (registerAndRunOperation op command : D ()).
Proof. unfold registerAndRunOperation. ksteps. Qed.
#[local] Hint Resolve kept_newOperation kept_register : kept.

Lemma kept_StartOperation kind id command : preserves (kept has_profile) (StartOperation gap actor kind id command).
Proof. unfold StartOperation, allowed. ksteps. Qed.

Lemma kept_UpdateActiveProfileFor id req : preserves (kept has_profile) (UpdateActiveProfileFor gap actor id req).
Proof.
  unfold UpdateActiveProfileFor, allowed. do 2 (apply preserves_bind; [ksteps|intros _]).
  apply kept_lookup. intros Hne q. do 3 (apply preserves_bind; [ksteps|intros ?]).
  apply preserves_bind; [by apply kept_updateProfile|]. intros ?. ksteps.
Qed.

Lemma kept_UpdateCheck : preserves (kept has_profile) (UpdateCheck gap).
Proof using Hgap. unfold UpdateCheck. ksteps. Qed.
End others.


(** ** The list after a command, exactly *)

(** What a commit leaves: the old list, or the one with the profile in it; the
    latter when it succeeds. *)
Definition committed (l : list Profile) (index : option nat) (q : Profile) (o : Outcome Profile) (w' : World) : Prop :=
  match o with
  | Done q' => (∃ r, q' = q <| pr_SecretRef := r |>) ∧ sv_profiles (w_svc w') = replaced index q' l
  | _ => sv_profiles (w_svc w') = l ∨ ∃ r, sv_profiles (w_svc w') = replaced index (q <| pr_SecretRef := r |>) l
  end.

Lemma wp_committed {A} l (m : D A) (Q : Outcome A → World → Prop) w :
  preserves (kept (eq l)) m → sv_profiles (w_svc w) = l →
  (∀ o w', sv_profiles (w_svc w') = l → Q o w') → wp m Q w.
Proof. intros Hm Hw HQ. eapply wp_mono; [by apply Hm|]. intros o w' H. by apply HQ. Qed.

Lemma wp_commit_exact l index q password oldRef w :
  sv_profiles (w_svc w) = l → wp (commitProfileLocked index q password oldRef : D Profile) (committed l index q) w.
Proof.
  intros Hw. unfold commitProfileLocked.
  apply wp_bind, (wp_committed l); [ksteps|done|]. intros [o1|e|] w1 H1; [|by left..].
  apply wp_bind, (wp_committed l); [ksteps|done|]. intros [o2|e|] w2 H2; [|by left..].
  apply wp_bind, (wp_committed l); [ksteps|done|]. intros [r|e|] w3 H3; [|by left..].
  apply wp_bind, (wp_committed l); [ksteps|done|]. intros [o4|e|] w4 H4; [|by left..].
  cbv zeta. set (q' := q <| pr_SecretRef := r |>). unfold commit_steps. cbv zeta. apply wp_bind.
  apply wp_bind, (wp_committed l); [ksteps|done|]. intros [o5|e|] w5 H5; [|by left..].
  apply wp_bind, (wp_committed l); [ksteps|done|]. intros [o6|e|] w6 H6; [|by left..].
  apply wp_bind, wp_modify. apply (wp_committed (replaced index q' l)); [ksteps|by destruct index; cbn; rewrite H6|].
  intros [o7|e|] w7 H7; [|right; by exists r..]. apply wp_ret. split; [by exists r|done].
Qed.

Section exact.
Context (gap : D ()) (Hgap : ∀ P, preserves (kept P) gap).
#[local] Hint Resolve Hgap kept_disconnect kept_stopProxy : kept.
#[local] Set Default Proof Using "Type*".

(** The profile as a command stores it. *)
Definition blank_times (q : Profile) : Profile :=
  q <| pr_SecretRef := "" |> <| pr_CreatedAt := "" |> <| pr_UpdatedAt := "" |>.
Lemma blank_SecretRef q r : blank_times (q <| pr_SecretRef := r |>) = blank_times q.
Proof. done. Qed.
Lemma blank_CreatedAt q t : blank_times (q <| pr_CreatedAt := t |>) = blank_times q.
Proof. done. Qed.
Lemma blank_UpdatedAt q t : blank_times (q <| pr_UpdatedAt := t |>) = blank_times q.
Proof. done. Qed.
Lemma blank_if (b : bool) q1 q2 : blank_times (if b then q1 else q2) = if b then blank_times q1 else blank_times q2.
Proof. by destruct b. Qed.
Definition stored (q q' : Profile) : Prop := blank_times q' = blank_times (NormalizeProfile q).

(** The list after a command that stores [q] at [index]. *)
Definition changed {A} (l : list Profile) (index : option nat) (q : Profile) (answer : Profile → A → Prop)
    (o : Outcome A) (w' : World) : Prop :=
  (sv_profiles (w_svc w') = l ∧ (∀ a, o ≠ Done a)) ∨
  ∃ q', stored q q' ∧ sv_profiles (w_svc w') = replaced index q' l ∧ (∀ a, o = Done a → answer q' a).

Lemma wp_untouched {A B} l index q (answer : Profile → B → Prop) (m : D A) (k : A → D B) w :
  preserves (kept (eq l)) m → sv_profiles (w_svc w) = l →
  (∀ a w', sv_profiles (w_svc w') = l → wp (k a) (changed l index q answer) w') →
  wp (m ≫= k) (changed l index q answer) w.
Proof.
  intros Hm Hw Hk. apply wp_bind, (wp_committed l); [done|done|]. intros [a|e|] w' H'; [by apply Hk|by left..].
Qed.

(** After the commit the list stays. *)
Definition still {A} (l : list Profile) (P : A → Prop) (o : Outcome A) (w' : World) : Prop :=
  sv_profiles (w_svc w') = l ∧ ∀ a, o = Done a → P a.
Lemma wp_still {A B} l (v : B → Prop) (m : D A) (k : A → D B) w :
  preserves (kept (eq l)) m → sv_profiles (w_svc w) = l →
  (∀ a w', sv_profiles (w_svc w') = l → wp (k a) (still l v) w') → wp (m ≫= k) (still l v) w.
Proof. intros Hm Hw Hk. apply wp_bind, (wp_committed l); [done|done|]. by intros [a|e|] w' H'; [apply Hk|split..]. Qed.
Lemma wp_still_ret {A} l (P : A → Prop) v w : sv_profiles (w_svc w) = l → P v → wp (mret v : D A) (still l P) w.
Proof. intros Hw Hv. apply wp_ret. split; [done|by intros a [= ->]]. Qed.

Lemma wp_stored {A} l index q q0 (answer : Profile → A → Prop) (k : Profile → D A) w :
  blank_times q0 = blank_times (NormalizeProfile q) → sv_profiles (w_svc w) = l →
  (∀ q' w', stored q q' → sv_profiles (w_svc w') = replaced index q' l →
     wp (k q') (still (replaced index q' l) (answer q')) w') →
  ∀ password oldRef, wp (commitProfileLocked index q0 password oldRef ≫= k) (changed l index q answer) w.
Proof.
  intros Hq Hw Hk password oldRef. apply wp_bind.
  assert (Hr : ∀ r, stored q (q0 <| pr_SecretRef := r |>)) by (intros r; unfold stored; by rewrite blank_SecretRef).
  eapply wp_mono; [by apply wp_commit_exact|]. intros [q'|e|] w' H; cbn in H.
  - destruct H as [(r & ->) Hl]. eapply wp_mono; [by apply Hk|]. intros o w'' [H1 H2]. right. eexists. split; [apply Hr|done].
  - destruct H as [H|(r & H)]; [by left|]. right. eexists. split; [apply Hr|]. split; [done|]. done.
  - destruct H as [H|(r & H)]; [by left|]. right. eexists. split; [apply Hr|]. split; [done|]. done.
Qed.

Lemma wp_CreateProfile_exact l q password w :
  sv_profiles (w_svc w) = l → pr_ID q ≠ "" →
  wp (CreateProfile q password : D Profile) (changed l None q (λ q' a, a = q')) w.
Proof.
  intros Hw Hid. unfold CreateProfile. rewrite (proj2 (eqb_false _ _) Hid). apply wp_bind, wp_ret. cbv zeta.
  apply wp_untouched; [ksteps|done|]. intros _ w1 H1. apply wp_untouched; [ksteps|done|]. intros existing w2 H2.
  apply wp_untouched; [ksteps|done|]. intros _ w3 H3. apply wp_untouched; [ksteps|done|]. intros now w4 H4.
  apply wp_untouched; [ksteps|done|]. intros _ w5 H5.
  eapply wp_stored; [|done|].
  { rewrite !blank_if, !blank_SecretRef, !blank_if, !blank_CreatedAt, !blank_UpdatedAt. by repeat case_match. }
  intros q' w6 Hq' H6.
  do 4 (apply wp_still; [ksteps|done|]; intros ? ? ?). by apply wp_still_ret.
Qed.

Lemma blank_ID q q' : blank_times q' = blank_times q → pr_ID q' = pr_ID q.
Proof. intros H. by apply (f_equal pr_ID) in H. Qed.

Lemma newIDFrom_nonempty reader id rest : newIDFrom reader = inr (id, rest) → id ≠ "".
Proof.
  unfold newIDFrom. case_match; [done|]. destruct (Nat.ltb_spec (length reader) 16); [done|]. intros [= <- _] E.
  apply (f_equal len) in E. rewrite len_hex_encode, length_take in E. change (len "") with 0%nat in E. lia.
Qed.

Lemma requested_ID actor req scope p : pr_ID (requested_profile actor req scope p) = pr_ID p.
Proof. unfold requested_profile, assign. destruct (cr_AcceptServerRoutes req), (cr_MTU req =? 0); reflexivity. Qed.

(** The profile a creation asks for. *)
Definition asked_profile (actor : Actor) (req : ProfileCreateRequest) (id : string) (now : Z) : Profile :=
  requested_profile actor req (if cr_Scope req == "" then ProfileScopeUser else cr_Scope req) (NewProfile (cr_Name req) id now).

Lemma wp_CreateProfileFor_exact l actor req w :
  sv_profiles (w_svc w) = l →
  wp (CreateProfileFor gap actor req) (λ o w',
    (sv_profiles (w_svc w') = l ∧ (∀ a, o ≠ Done a)) ∨
    ∃ id now q', stored (asked_profile actor req id now) q' ∧
      sv_profiles (w_svc w') = l ++ [q'] ∧ (∀ a, o = Done a → a = publicProfile q')) w.
Proof.
  intros Hw. unfold CreateProfileFor, allowed. cbv zeta.
  assert (Hskip : ∀ {A} (m : D A) (k : A → D Profile) Q w, preserves (kept (eq l)) m → sv_profiles (w_svc w) = l →
    (∀ o w', sv_profiles (w_svc w') = l → (∀ a, o ≠ Done a) → Q o w') →
    (∀ a w', sv_profiles (w_svc w') = l → wp (k a) Q w') → wp (m ≫= k) Q w).
  { intros A m k Q w0 Hm H0 Hf Hk. apply wp_bind, (wp_committed l); [done|done|]. intros [a|e|] w' H'; [by apply Hk|by apply Hf..]. }
  apply Hskip; [ksteps|done|by left|]. intros _ w1 H1. apply Hskip; [ksteps|done|by left|]. intros _ w2 H2.
  apply Hskip; [ksteps|done|by left|]. intros _ w3 H3. apply wp_bind, wp_wrap.
  unfold wp at 1, newID. destruct (newIDFrom (w_random w3)) as [e|[id rest]] eqn:Eid; [by left|].
  cbn [fst snd]. apply newIDFrom_nonempty in Eid. apply wp_bind, wp_read.
  apply Hskip; [ksteps|done|by left|]. intros _ w4 H4. apply wp_bind.
  eapply wp_mono; [apply (wp_CreateProfile_exact l); [done|]|].
  { rewrite NormalizeProfile_ID, requested_ID. exact Eid. }
  set (q := asked_profile actor req id (w_now w3)).
  intros o w5 [[H5 Ho]|(q' & Hq' & H5 & Ho)].
  - destruct o as [a|e|]; [by destruct (Ho a)|by left..].
  - unfold stored in Hq'. rewrite NormalizeProfile_idempotent in Hq'.
    destruct o as [a|e|]; [|right; exists id, (w_now w3), q'; done..]. rewrite (Ho a eq_refl). clear a Ho.
    apply (wp_mono _ (still (l ++ [q']) (λ a, a = publicProfile q'))).
    { do 4 (apply wp_still; [ksteps|done|]; intros ? ? ?). by apply wp_still_ret. }
    intros o w6 [H6 Ho]. right. by exists id, (w_now w3), q'.
Qed.

(** [UpdateProfileFor]: the profile with the identifier is replaced. *)
Lemma wp_updateProfile_exact l id req w i before :
  sv_profiles (w_svc w) = l → find_index (λ p, pr_ID p == id) l = Some i → l !! i = Some before →
  wp (updateProfile gap id req false) (changed l (Some i) (apply_update req before) (λ q' a, fst a = q')) w.
Proof.
  intros Hw Ei Hb. unfold updateProfile. apply wp_bind, wp_read. unfold index_of. rewrite Hw, Ei.
  apply wp_bind, wp_read. rewrite Hw, Hb. cbn [default negb]. cbv zeta.
  apply wp_untouched; [ksteps|done|]. intros _ w1 H1. apply wp_untouched; [ksteps|done|]. intros now w2 H2.
  apply wp_untouched; [ksteps|done|]. intros _ w3 H3.
  eapply wp_stored; [by rewrite blank_UpdatedAt|done|]. intros q' w6 Hq' H6.
  do 5 (apply wp_still; [unfold replan; ksteps|done|]; intros ? ? ?). by apply wp_still_ret.
Qed.

Lemma wp_UpdateProfileFor_exact l actor id req w i before :
  sv_profiles (w_svc w) = l → find_index (λ p, pr_ID p == id) l = Some i → l !! i = Some before →
  wp (UpdateProfileFor gap actor id req) (changed l (Some i) (apply_update req before) (λ q' a, a = publicProfile q')) w.
Proof.
  intros Hw Ei Hb. unfold UpdateProfileFor, allowed. apply wp_untouched; [ksteps|done|]. intros _ w1 H1.
  apply wp_untouched; [ksteps|done|]. intros _ w2 H2. apply wp_untouched; [ksteps|done|]. intros found w3 H3.
  apply wp_untouched; [ksteps|done|]. intros _ w4 H4. apply wp_untouched; [ksteps|done|]. intros _ w5 H5.
  apply wp_untouched; [ksteps|done|]. intros _ w6 H6. apply wp_bind.
  eapply wp_mono; [by apply wp_updateProfile_exact|]. intros [a|e|] w' [[H Ho]|(q' & Hq & H & Ho)].
  - by destruct (Ho a).
  - apply wp_ret. right. exists q'. split; [done|]. split; [done|]. intros b Hb2. injection Hb2 as <-. by rewrite (Ho _ eq_refl).
  - by left.
  - right. by exists q'.
  - by left.
  - right. by exists q'.
Qed.

(** ** Commands that leave the list alone *)

Lemma kept_spawn_any P t : preserves (kept P) (spawn t : D ()).
Proof. by apply kept_modify. Qed.
#[local] Hint Resolve kept_spawn_any : kept.

Lemma kept_startProxy P id addr dialer : preserves (kept P) (startProxy gap id addr dialer).
Proof. unfold startProxy, proxy_Close, socks5_Listen. ksteps. Qed.
#[local] Hint Resolve kept_startProxy : kept.

Lemma kept_new_context P : preserves (kept P) (new_context : D nat).
Proof. by apply kept_outside. Qed.
Lemma kept_ctx_err P c parent : preserves (kept P) (ctx_err c parent : D (option error)).
Proof. apply preserves_read. Qed.
#[local] Hint Resolve kept_new_context kept_ctx_err : kept.

Lemma profiles_sampleTraffic totals now s : sv_profiles (fst (sampleTrafficLocked totals now s)) = sv_profiles s.
Proof. unfold sampleTrafficLocked. by repeat case_match. Qed.

Lemma kept_commit_attempt P q session allow : preserves (kept P) (commit_attempt q session allow : D ()).
Proof.
  unfold commit_attempt. do 3 (apply preserves_bind; [first [by apply kept_modify|ksteps]|intros _]).
  apply preserves_bind; [ksteps|intros _]. apply preserves_bind; [|intros _; ksteps].
  apply kept_modify. intros w. apply profiles_sampleTraffic.
Qed.
#[local] Hint Resolve kept_commit_attempt : kept.

Lemma kept_run_attempt P ctx q pw allow : preserves (kept P) (run_attempt gap ctx q pw allow).
Proof.
  unfold run_attempt, begin_attempt, backend_Connect, attempt_refused, attempt_rolled_back, connect_components,
    backend_Disconnect, backend_TunnelDialer. ksteps.
Qed.
#[local] Hint Resolve kept_run_attempt : kept.

Lemma kept_Connect P ctx id : preserves (kept P) (Connect gap ctx id).
Proof. unfold Connect, connectPreparedProfile, loadProfileSecret. ksteps. Qed.
#[local] Hint Resolve kept_Connect : kept.

Lemma kept_startReconnect P id seq attempt : preserves (kept P) (startReconnectLocked id seq attempt : D ()).
Proof. unfold startReconnectLocked. ksteps. Qed.
#[local] Hint Resolve kept_startReconnect : kept.

Lemma kept_SetControlMode P ctx actor req : preserves (kept P) (SetControlMode gap ctx actor req).
Proof. unfold SetControlMode. ksteps. Qed.
End exact.
End isolation.

(** Bob tries to update and to delete a profile of Alice's. *)
Definition bob : Actor := mkActor "S-2" false false.
Definition shared_world : World Data (gmap string string) :=
  mkWorld ((new_service "e" "t") <| sv_profiles := [sample_profile] |> <| sv_controlMode := "user" |>)
    fresh_data ∅ 0 (seq 1 64) (mkScript [] [] [] [] [] [] None None []) ∅ 1 [] None [] false.

