(* ===== verification/Recovery.v ===== *)
(** * Profile transactions survive crashes

    [commitProfileLocked] writes the secret of a profile and the state file in
    five steps, with an intent in the state file between them, and
    [recoverIntentLocked] finishes or undoes what a crash left.  Against the
    store interfaces of Stores.v: wherever the process dies, and however often
    the recovery dies again, a start that succeeds finds the old profiles with
    the old secret or the new profiles with the new secret. *)

From S2P Require Import Prelude GoStrings Types Fs Json Store Stores ProfileIO Router Service Access Appd.

Open Scope go_scope.
Open Scope Z_scope.

Section recovery.
Context {St Sec : Type} `{!StateStore St} `{!SecretStore Sec}.
Notation World := (World St Sec).
Notation D := (M World).
Implicit Types (w : World) (se : Sec).

(** ** What the calls into the stores do to a world *)

(** What [persist] writes. *)
Definition view w : Data := stored_state (w_svc w).

Lemma wp_persist w (Q : Outcome () → World → Prop) :
  st_ok (w_store w) → data_int64 (view w) →
  (∀ o w', st_ok (w_store w') → view w' = view w → w_secrets w' = w_secrets w →
     (∀ d, st_may (w_store w') d → st_may (w_store w) d ∨ d = view w) →
     (o = Done () → ∀ d, st_may (w_store w') d → d = view w) → Q o w') →
  wp persist Q w.
Proof.
  intros Hok Hd HQ. unfold persist. apply wp_bind, wp_read. apply wp_bind, wp_try.
  apply wp_intro. intros w1 o. unfold with_store.
  pose proof (st_Save_spec (view w) (w_store w) Hok Hd) as Hs. unfold wp in Hs. fold (view w).
  destruct (st_Save (view w) (w_store w)) as [st' o']. cbn in Hs. destruct Hs as (Hok' & Hold & Hdone).
  intros [= <- <-]. destruct o' as [[]|e|].
  - apply HQ; cbn; auto; done.
  - apply HQ; cbn; auto; done.
  - apply HQ; cbn; auto; done.
Qed.

Lemma wp_secrets_Put ref value pre w (Q : Outcome () → World → Prop) :
  ss_ok (w_secrets w) →
  (∀ o w', ss_ok (w_secrets w') → view w' = view w → w_store w' = w_store w →
     (∀ r x, ss_may (w_secrets w') r x → ss_may (w_secrets w) r x ∨ (r = ref ∧ x = Some value)) →
     (o = Done () → ∀ x, ss_may (w_secrets w') ref x → x = Some value) → Q o w') →
  wp (secrets_Put ref value pre) Q w.
Proof.
  intros Hok HQ. unfold secrets_Put. apply wp_bind, wp_try. apply wp_intro. intros w1 o. unfold with_secrets.
  pose proof (ss_Put_spec ref value (w_secrets w) Hok) as Hs. unfold wp in Hs.
  destruct (ss_Put ref value (w_secrets w)) as [se' o']. cbn in Hs. destruct Hs as (Hok' & Hold & Hdone).
  intros [= <- <-]. destruct o' as [[]|e|].
  - apply HQ; cbn; auto; done.
  - apply HQ; cbn; auto; done.
  - apply HQ; cbn; auto; done.
Qed.

Lemma wp_secrets_Delete ref pre w (Q : Outcome () → World → Prop) :
  ss_ok (w_secrets w) →
  (∀ o w', ss_ok (w_secrets w') → view w' = view w → w_store w' = w_store w →
     (∀ r x, ss_may (w_secrets w') r x → ss_may (w_secrets w) r x ∨ (r = ref ∧ x = None)) → Q o w') →
  wp (secrets_Delete ref pre) Q w.
Proof.
  intros Hok HQ. unfold secrets_Delete. apply wp_bind, wp_try. apply wp_intro. intros w1 o. unfold with_secrets.
  pose proof (ss_Delete_spec ref (w_secrets w) Hok) as Hs. unfold wp in Hs.
  destruct (ss_Delete ref (w_secrets w)) as [se' o']. cbn in Hs. destruct Hs as (Hok' & Hold & Hdone).
  intros [= <- <-]. destruct o' as [[]|e|]; apply HQ; cbn; auto.
Qed.

Lemma wp_ss_Get ref w (Q : Outcome string → World → Prop) :
  ss_ok (w_secrets w) →
  (∀ o w', ss_ok (w_secrets w') → w_svc w' = w_svc w → w_store w' = w_store w →
     (∀ r x, ss_may (w_secrets w') r x → ss_may (w_secrets w) r x) →
     match o with
     | Done v => ss_may (w_secrets w) ref (Some v)
     | Failed e => errors_is e SecretNotFound = true → ss_may (w_secrets w) ref None
     | Crashed => True
     end → Q o w') →
  wp (with_secrets (ss_Get ref)) Q w.
Proof.
  intros Hok HQ. apply wp_intro. intros w1 o. unfold with_secrets.
  pose proof (ss_Get_spec ref (w_secrets w) Hok) as Hs. unfold wp in Hs.
  destruct (ss_Get ref (w_secrets w)) as [se' o']. cbn in Hs. destruct Hs as (Hok' & Hold & Hdone).
  intros [= <- <-]. apply HQ; cbn; auto.
Qed.

(** ** One transaction *)

Definition holds (ref value : string) se : Prop := ∀ x, ss_may se ref x → x = Some value.

Section transaction.
Context (base : Data) (old new : list Profile) (profile : Profile) (oldRef newRef oldPassword newPassword : string).
Context (secrets0 : Sec).

Definition intent : Intent := mkIntent 1 "upsert" (pr_ID profile) (Some profile) oldRef newRef.
Definition state_of (l : list Profile) (i : option Intent) : Data :=
  base <| da_Profiles := l |> <| da_Intent := i |>.

(** The old state goes with the old secret, the new state with the new one. *)
Definition phase (d : Data) se : Prop :=
  ((d = state_of old None ∨ d = state_of old (Some intent)) ∧ (oldRef = "" ∨ holds oldRef oldPassword se)) ∨
  ((d = state_of new (Some intent) ∨ d = state_of new None) ∧ holds newRef newPassword se).

(** Whatever a restart finds. *)
Definition recoverable w : Prop :=
  st_ok (w_store w) ∧ ss_ok (w_secrets w) ∧
  (∀ d, st_may (w_store w) d → phase d (w_secrets w)) ∧
  (∀ x, ss_may (w_secrets w) newRef x → x = None ∨ x = Some newPassword) ∧
  (∀ r x, r ≠ oldRef → r ≠ newRef → ss_may (w_secrets w) r x → ss_may secrets0 r x).

Context (Hint64 : int64 (da_SchemaVersion base) ∧ Forall profile_int64 old ∧ Forall profile_int64 new ∧
  profile_int64 profile).
Context (Hdistinct : newRef = oldRef ∧ newPassword = oldPassword ∨ oldRef ≠ newRef).
#[local] Set Default Proof Using "Type*".

Lemma state_of_int64 l i : (l = old ∨ l = new) → (i = None ∨ i = Some intent) → data_int64 (state_of l i).
Proof.
  destruct Hint64 as (H1 & H2 & H3 & H4). intros Hl Hi. split_and!; [exact H1|by destruct Hl as [-> | ->]|].
  destruct Hi as [-> | ->]; [done|]. split; [by split|exact H4].
Qed.

(** A save of [d] in progress or done. *)
Lemma wp_persist_recoverable w d (Q : Outcome () → World → Prop) :
  recoverable w → view w = d → data_int64 d → phase d (w_secrets w) →
  (∀ o w', recoverable w' → view w' = d → w_secrets w' = w_secrets w →
     (o = Done () → ∀ d', st_may (w_store w') d' → d' = d) → Q o w') →
  wp persist Q w.
Proof.
  intros (H1 & H2 & H3 & H4 & H5) <- Hd Hp HQ. apply wp_persist; [done..|].
  intros o w' Hok Hv Hse Hmay Hdone. apply HQ; [|done..]. split_and!; [done|by rewrite Hse| |by rewrite Hse..].
  intros d [H | ->]%Hmay; rewrite Hse; [by apply H3|done].
Qed.

Lemma recoverable_view w w' :
  recoverable w → w_store w' = w_store w → w_secrets w' = w_secrets w → recoverable w'.
Proof. intros (H1 & H2 & H3 & H4 & H5) E1 E2. unfold recoverable. by rewrite E1, E2. Qed.

(** *** The commit, from its intent on *)

Lemma wp_put_new w (b : bool) value pre (Q : Outcome () → World → Prop) :
  recoverable w → (∀ d, st_may (w_store w) d → d = state_of old (Some intent)) →
  (oldRef = "" ∨ holds oldRef oldPassword (w_secrets w)) →
  (b = true → oldRef ≠ newRef ∧ value = newPassword) →
  (b = false → holds newRef newPassword (w_secrets w)) →
  (∀ o w', recoverable w' → view w' = view w → w_store w' = w_store w →
     (oldRef = "" ∨ holds oldRef oldPassword (w_secrets w')) →
     (o = Done () → holds newRef newPassword (w_secrets w')) → Q o w') →
  wp (when b (secrets_Put newRef value pre)) Q w.
Proof.
  intros Hr Hd Hold Hb Hnb HQ. apply wp_when; intros ->.
  2:{ apply HQ; auto. }
  destruct (Hb eq_refl) as [Hne ->]. destruct Hr as (H1 & H2 & H3 & H4 & H5).
  apply wp_secrets_Put; [done|]. intros o w' Hok Hv Hst Hmay Hdone.
  assert (Hold' : oldRef = "" ∨ holds oldRef oldPassword (w_secrets w')).
  { destruct Hold as [?|Hold]; [by left|right]. intros x [Hx|[? _]]%Hmay; [by apply Hold|done]. }
  apply HQ; [|done..]. split_and!; [by rewrite Hst|done| | |].
  - intros d Hd'. rewrite Hst in Hd'. left. split; [|done]. right. by apply Hd.
  - intros x [Hx|[_ ->]]%Hmay; [by apply H4|by right].
  - intros r x Hr1 Hr2 [Hx|[? _]]%Hmay; [by apply H5|done].
Qed.

Lemma wp_delete_old w (b : bool) pre (Q : Outcome () → World → Prop) :
  recoverable w → (∀ d, st_may (w_store w) d → d = state_of new (Some intent)) →
  holds newRef newPassword (w_secrets w) → (b = true → oldRef ≠ newRef) →
  (∀ o w', recoverable w' → view w' = view w → w_store w' = w_store w →
     holds newRef newPassword (w_secrets w') → Q o w') →
  wp (when b (secrets_Delete oldRef pre)) Q w.
Proof.
  intros Hr Hd Hnew Hb HQ. apply wp_when; intros ->; [|by apply HQ].
  specialize (Hb eq_refl). destruct Hr as (H1 & H2 & H3 & H4 & H5).
  apply wp_secrets_Delete; [done|]. intros o w' Hok Hv Hst Hmay.
  assert (Hnew' : holds newRef newPassword (w_secrets w')).
  { intros x [Hx|[? _]]%Hmay; [by apply Hnew|congruence]. }
  apply HQ; [|done..]. split_and!; [by rewrite Hst|done| | |].
  - intros d Hd'. rewrite Hst in Hd'. right. split; [|done]. left. by apply Hd.
  - intros x [Hx|[_ ->]]%Hmay; [by apply H4|by left].
  - intros r x Hr1 Hr2 [Hx|[? _]]%Hmay; [by apply H5|done].
Qed.

(** The state file surely holds [d], and memory agrees with it. *)
Definition settled (d : Data) w : Prop := (∀ d', st_may (w_store w) d' → d' = d) ∧ view w = d.

Lemma view_intent w i : view (w <| w_svc ::= (λ s, s <| sv_intent := i |>) |>) = (view w) <| da_Intent := i |>.
Proof. done. Qed.

Lemma wp_write_intent w g (Q : Outcome () → World → Prop) :
  recoverable w → settled (state_of old None) w → (oldRef = "" ∨ holds oldRef oldPassword (w_secrets w)) →
  (∀ o w', recoverable w' → w_secrets w' = w_secrets w →
     (o = Done () → settled (state_of old (Some intent)) w') → Q o w') →
  wp (write_intent intent g) Q w.
Proof.
  intros Hr [_ Hv] Hold HQ. unfold write_intent. apply wp_bind, wp_modify, wp_bind, wp_try.
  apply (wp_persist_recoverable _ (state_of old (Some intent))).
  - by apply (recoverable_view w).
  - by rewrite view_intent, Hv.
  - apply state_of_int64; auto.
  - left. auto.
  - intros o w1 Hr1 Hv1 Hse1 Hdone. destruct o as [[]|e|].
    + apply wp_ret, HQ; [done..|]. intros _. split; [by apply Hdone|done].
    + apply wp_bind, wp_modify, wp_fail, HQ; [by apply (recoverable_view w1)|done|done].
    + by apply HQ.
Qed.

Lemma wp_clear_intent l w g (Q : Outcome () → World → Prop) :
  (l = old ∨ l = new) → recoverable w → view w = state_of l (Some intent) →
  phase (state_of l None) (w_secrets w) →
  (∀ o w', recoverable w' → w_secrets w' = w_secrets w →
     (o = Done () → settled (state_of l None) w') → Q o w') →
  wp (clear_intent g) Q w.
Proof.
  intros Hl Hr Hv Hp HQ. unfold clear_intent. apply wp_bind, wp_read, wp_bind, wp_modify, wp_bind, wp_try.
  apply (wp_persist_recoverable _ (state_of l None)).
  - by apply (recoverable_view w).
  - by rewrite view_intent, Hv.
  - apply state_of_int64; auto.
  - exact Hp.
  - intros o w1 Hr1 Hv1 Hse1 Hdone. destruct o as [[]|e|].
    + apply wp_ret, HQ; [done..|]. intros _. split; [by apply Hdone|done].
    + apply wp_bind, wp_modify, wp_fail, HQ; [by apply (recoverable_view w1)|done|done].
    + by apply HQ.
Qed.

(** Putting the new profiles in the state file. *)
Lemma wp_save_new {A} w (f : list Profile → list Profile) g (k : D A) (Q : Outcome A → World → Prop) :
  recoverable w → view w = state_of old (Some intent) ∨ view w = state_of new (Some intent) →
  f (da_Profiles (view w)) = new → holds newRef newPassword (w_secrets w) →
  (∀ w', recoverable w' → settled (state_of new (Some intent)) w' →
     holds newRef newPassword (w_secrets w') → wp k Q w') →
  (∀ e w', recoverable w' → Q (Failed e) w') → (∀ w', recoverable w' → Q Crashed w') →
  wp (upd (λ s, s <| sv_profiles ::= f |>);; wrap g persist;; k) Q w.
Proof.
  intros Hr Hv Hf Hnew Hk Hfail Hcrash. apply wp_bind, wp_modify, wp_bind, wp_wrap.
  apply (wp_persist_recoverable _ (state_of new (Some intent))).
  - by apply (recoverable_view w).
  - transitivity ((view w) <| da_Profiles ::= f |>); [done|].
    destruct Hv as [E | E]; rewrite E in *; cbn in Hf; unfold state_of, set_field; cbn; by rewrite Hf.
  - apply state_of_int64; auto.
  - right. auto.
  - intros o w1 Hr1 Hv1 Hse1 Hdone. destruct o as [[]|e|]; [|by auto..].
    apply Hk; [done| |by rewrite Hse1]. split; [by apply Hdone|done].
Qed.

(** The commit, once its secret reference is chosen. *)
Lemma wp_commit_steps index password w (Q : Outcome () → World → Prop) :
  pr_SecretRef profile = newRef →
  match index with None => old ++ [profile] | Some i => <[i := profile]> old end = new →
  recoverable w → settled (state_of old None) w → (oldRef = "" ∨ holds oldRef oldPassword (w_secrets w)) →
  (if password != "" then oldRef ≠ newRef ∧ password = newPassword
   else newRef = oldRef ∧ newPassword = oldPassword ∧ oldRef ≠ "") →
  (∀ o w', recoverable w' →
     (o = Done () → settled (state_of new None) w' ∧ holds newRef newPassword (w_secrets w')) → Q o w') →
  wp (commit_steps index profile password oldRef) Q w.
Proof.
  intros Href Hnew Hr Hset Hold Hpw HQ. unfold commit_steps. rewrite Href.
  apply wp_bind. apply wp_write_intent; [done..|]. intros o w1 Hr1 Hse1 Hdone.
  destruct o as [[]|e|]; [|by apply HQ..]. destruct (Hdone eq_refl) as [Hd1 Hv1].
  apply wp_bind. apply wp_put_new; [done|done|by rewrite Hse1|..].
  { intros Hb. by rewrite Hb in Hpw. }
  { intros Hb. rewrite Hb in Hpw. destruct Hpw as (-> & -> & Hne). rewrite Hse1. by destruct Hold. }
  intros o w2 Hr2 Hv2 Hst2 Hold2 Hnew2. destruct o as [[]|e|]; [|by apply HQ..]. specialize (Hnew2 eq_refl).
  assert (Hfail : ∀ (o : Outcome ()) w', o ≠ Done () → recoverable w' → Q o w') by (intros; by apply HQ).
  enough (H : wp (upd (λ s, s <| sv_profiles ::= (λ l, match index with
      | None => l ++ [profile] | Some i => <[i := profile]> l end) |>);;
      wrap (wrapf "commit profile state: ") persist;;
      when ((oldRef != "") && (oldRef != newRef)) (secrets_Delete oldRef "delete previous profile secret: ");;
      clear_intent (wrapf "clear profile intent: ")) Q w2) by by destruct index.
  apply wp_save_new; [done|left; by rewrite Hv2|by rewrite Hv2, Hv1|done| |by auto..].
  intros w3 Hr3 [Hd3 Hv3] Hnew3. apply wp_bind, wp_delete_old; [done..| |].
  { intros [_ Hne]%andb_true_iff. by apply negb_true_iff, eqb_false in Hne. }
  intros o w4 Hr4 Hv4 Hst4 Hnew4. destruct o as [[]|e|]; [|by apply Hfail..].
  apply (wp_clear_intent new); [auto|done|by rewrite Hv4|right; auto|].
  intros o w5 Hr5 Hse5 Hdone5. apply HQ; [done|]. intros Ho. split; [by apply Hdone5|by rewrite Hse5].
Qed.

(** *** The recovery *)

(** Secrets that can only be fewer. *)
Lemma holds_less r v se se' : (∀ x, ss_may se' r x → ss_may se r x) → holds r v se → holds r v se'.
Proof using . intros Hmay H x Hx. by apply H, Hmay. Qed.

Lemma phase_less d se se' : (∀ r x, ss_may se' r x → ss_may se r x) → phase d se → phase d se'.
Proof using .
  intros Hmay [[Hd [H|H]]|[Hd H]].
  - left. auto.
  - left. split; [done|]. right. (eapply holds_less; [intros ?; apply Hmay|done]).
  - right. split; [done|]. (eapply holds_less; [intros ?; apply Hmay|done]).
Qed.

Lemma recoverable_less w w' :
  recoverable w → ss_ok (w_secrets w') → w_store w' = w_store w →
  (∀ r x, ss_may (w_secrets w') r x → ss_may (w_secrets w) r x) → recoverable w'.
Proof.
  intros (H1 & H2 & H3 & H4 & H5) Hok Hst Hmay. split_and!; [by rewrite Hst|done| |intros x Hx; by apply H4, Hmay|intros r x ?? Hx; by apply H5, Hmay].
  intros d Hd. rewrite Hst in Hd. eapply phase_less; [exact Hmay|by apply H3].
Qed.

Lemma phase_intent_old l se :
  phase (state_of l (Some intent)) se → ¬ holds newRef newPassword se →
  state_of l (Some intent) = state_of old (Some intent) ∧ (oldRef = "" ∨ holds oldRef oldPassword se).
Proof.
  intros [[[H|H] Ho]|[_ H]] Hn; [|by split|done]. by apply (f_equal da_Intent) in H.
Qed.

(** What a start that succeeds leaves. *)
Definition recovered w : Prop :=
  (settled (state_of old None) w ∧ (oldRef = "" ∨ holds oldRef oldPassword (w_secrets w))) ∨
  (settled (state_of new None) w ∧ holds newRef newPassword (w_secrets w)).

Context (Hup : upsert profile (pr_ID profile) old = new) (Hup' : upsert profile (pr_ID profile) new = new).
Context (Href : newRef ≠ "").

(** A pending intent: both states it can be found in. *)
Lemma wp_recover_upsert l w (Q : Outcome bool → World → Prop) :
  (l = old ∨ l = new) → recoverable w → settled (state_of l (Some intent)) w →
  phase (state_of l (Some intent)) (w_secrets w) →
  (∀ x y, ss_may (w_secrets w) newRef x → ss_may (w_secrets w) newRef y → x = y) →
  (∀ o w', recoverable w' →
     match o with
     | Done true => settled (state_of new (Some intent)) w' ∧ holds newRef newPassword (w_secrets w')
     | Done false => recovered w'
     | _ => True
     end → Q o w') →
  wp (recover_upsert intent profile) Q w.
Proof.
  intros Hl Hr [Hd Hv] Hp Hdet HQ. unfold recover_upsert. apply wp_bind, wp_try.
  change (in_NewSecretRef intent) with newRef. change (in_OldSecretRef intent) with oldRef.
  apply wp_ss_Get; [apply Hr|]. intros o w1 Hok1 Hsvc Hst1 Hmay Hget.
  assert (Hr1 : recoverable w1) by by eapply recoverable_less.
  assert (Hv1 : view w1 = state_of l (Some intent)) by (unfold view in *; by rewrite Hsvc).
  destruct o as [v|e|]; [| |by apply HQ].
  - assert (Hnew : holds newRef newPassword (w_secrets w1)).
    { intros x Hx%Hmay. rewrite (Hdet _ _ Hx Hget). destruct Hr as (_ & _ & _ & H4 & _).
      by destruct (H4 _ Hget). }
    apply wp_bind, wp_modify.
    apply (wp_save_new _ (upsert profile (pr_ID profile))); [by apply (recoverable_view w1)| | |done| |by auto..].
    { change (view w1 = state_of old (Some intent) ∨ view w1 = state_of new (Some intent)).
      rewrite Hv1. destruct Hl as [-> | ->]; auto. }
    { change (upsert profile (pr_ID profile) (da_Profiles (view w1)) = new). rewrite Hv1. by destruct Hl as [-> | ->]. }
    intros w2 Hr2 [Hd2 Hv2] Hnew2. apply wp_bind, wp_delete_old; [done..| |].
    { intros [_ Hne]%andb_true_iff. by apply negb_true_iff, eqb_false in Hne. }
    intros o w3 Hr3 Hv3 Hst3 Hnew3. destruct o as [[]|e|]; [|by apply HQ..].
    apply wp_ret, HQ; [done|]. split; [|done]. split; [by rewrite Hst3|by rewrite Hv3].
  - destruct (errors_is e SecretNotFound) eqn:He; [|by apply wp_fail, HQ].
    destruct (phase_intent_old l (w_secrets w) Hp) as [El Hold].
    { intros H. by apply H in Hget. }
    assert (Hold1 : oldRef = "" ∨ holds oldRef oldPassword (w_secrets w1)).
    { destruct Hold as [?|Hold]; [by left|right]. (eapply holds_less; [intros ?; apply Hmay|done]). }
    apply wp_bind, wp_modify, wp_bind.
    apply (wp_persist_recoverable _ (state_of old None)).
    + by apply (recoverable_view w1).
    + rewrite view_intent, Hv1, El. done.
    + apply state_of_int64; auto.
    + left. auto.
    + intros o w2 Hr2 Hv2 Hse2 Hdone. destruct o as [[]|e2|]; [|by apply HQ..].
      apply wp_ret, HQ; [done|]. left. split; [split; [by apply Hdone|done]|]. by rewrite Hse2.
Qed.

Lemma wp_recoverIntentLocked w (Q : Outcome () → World → Prop) :
  recoverable w → settled (view w) w → phase (view w) (w_secrets w) →
  (∀ x y, ss_may (w_secrets w) newRef x → ss_may (w_secrets w) newRef y → x = y) →
  (∀ o w', recoverable w' → (o = Done () → recovered w') → Q o w') →
  wp recoverIntentLocked Q w.
Proof.
  intros Hr Hset Hp Hdet HQ. unfold recoverIntentLocked. apply wp_bind, wp_read.
  assert (Hpend : ∀ l, (l = old ∨ l = new) → view w = state_of l (Some intent) →
    wp (recoverIntentLocked) Q w).
  { intros l Hl Hv. unfold recoverIntentLocked. apply wp_bind, wp_read.
    change (sv_intent (w_svc w)) with (da_Intent (view w)). rewrite Hv in *.
    change (da_Intent (state_of l (Some intent))) with (Some intent). cbv beta iota.
    apply wp_bind, wp_fail_if; [done|intros _]. apply wp_bind.
    change (in_Kind intent == "upsert") with true. change (in_NewProfile intent) with (Some profile). cbv beta iota.
    change (in_NewSecretRef intent) with newRef. rewrite (proj2 (eqb_false _ _) Href). apply wp_bind, wp_ret.
    apply (wp_recover_upsert l); [done..|]. intros o w1 Hr1 Ho. destruct o as [[]|e|]; [| |by apply HQ..].
    - destruct Ho as [[Hd1 Hv1] Hnew1]. cbn [when].
      apply (wp_clear_intent new); [auto|done|done|right; auto|]. intros o w2 Hr2 Hse2 Hdone. apply HQ; [done|].
      intros Ho. right. split; [by apply Hdone|by rewrite Hse2].
    - by apply wp_ret, HQ. }
  change (sv_intent (w_svc w)) with (da_Intent (view w)).
  destruct Hp as [[[Hv|Hv] Hs]|[[Hv|Hv] Hs]]; [|by eapply Hpend; [|exact Hv]; auto..|];
    rewrite Hv in *; apply wp_ret, HQ; [done| |done|]; intros _; [left|right]; by split.
Qed.


(** *** A start *)

Definition normal (p : Profile) : Prop := NormalizeProfile p = p.

Lemma load_profiles_normal ps qs : Forall normal ps → load_profiles ps = inr qs → qs = ps.
Proof.
  intros H. revert qs. induction H as [|p ps Hp _ IH]; intros qs; cbn; [by intros [= <-]|].
  destruct (_ == _); [done|]. rewrite Hp. destruct (ValidateProfile p); [done|].
  destruct (load_profiles ps) as [|rest]; [done|]. intros [= <-]. by rewrite (IH rest).
Qed.

Lemma wp_load d w (Q : Outcome () → World → Prop) :
  recoverable w → (∀ d', st_may (w_store w) d' → d' = d) → phase d (w_secrets w) → Forall normal (da_Profiles d) →
  (∀ x y, ss_may (w_secrets w) newRef x → ss_may (w_secrets w) newRef y → x = y) →
  (∀ o w', recoverable w' → (o = Done () → recovered w') → Q o w') →
  wp (load (inr d)) Q w.
Proof.
  intros Hr Hd Hp Hnormal Hdet HQ. unfold load.
  assert (Hany : ∀ w', w_store w' = w_store w → w_secrets w' = w_secrets w → ∀ e, Q (Failed e) w').
  { intros w' E1 E2 e. apply HQ; [by apply (recoverable_view w)|done]. }
  apply wp_bind, wp_modify, wp_bind, wp_fail_if; [by auto|intros Hschema%negb_false_iff%Z.eqb_eq].
  apply wp_bind, wp_modify, wp_bind, wp_fail_if; [by auto|intros _]. apply wp_bind, wp_fail_if; [by auto|intros _].
  apply wp_bind, wp_modify, wp_bind. destruct (load_profiles (da_Profiles d)) as [e|ps] eqn:Hps; [by apply wp_fail, Hany|].
  apply load_profiles_normal in Hps as ->; [|done].
  apply wp_ret, wp_bind, wp_modify, wp_bind, wp_read, wp_bind.
  match goal with |- wp (of_error ?c) _ _ => destruct c end; [by apply wp_fail, Hany|].
  apply wp_ret, wp_bind, wp_modify, wp_wrap.
  match goal with |- wp _ _ ?w0 => assert (Hv : view w0 = d) by
    (transitivity (d <| da_SchemaVersion := CurrentSchemaVersion |>); [done|rewrite <- Hschema; by destruct d]) end.
  apply wp_recoverIntentLocked; rewrite ?Hv; [by apply (recoverable_view w)|by split|done|done|].
  intros o w' Hr' Ho. destruct o; by apply HQ.
Qed.

End transaction.

(** ** Crashes and starts *)

(** The process died in [w]; it is started again in [w'], and its state file
    holds [d]. What was not yet durable has been settled one way or the other. *)
Definition restarted (d : Data) w w' : Prop :=
  st_ok (w_store w') ∧ st_may (w_store w) d ∧ (∀ d', st_may (w_store w') d' → d' = d) ∧
  ss_ok (w_secrets w') ∧ (∀ r x, ss_may (w_secrets w') r x → ss_may (w_secrets w) r x) ∧
  (∀ r x y, ss_may (w_secrets w') r x → ss_may (w_secrets w') r y → x = y).

(** Any number of starts, each of which may fail or die. *)
Inductive starts : World → World → Prop :=
  | starts_none w : starts w w
  | starts_again w w1 d w2 : starts w w1 → restarted d w1 w2 → starts w (fst (load (inr d) w2)).

Lemma NormalizeProfile_SecretRef p r :
  NormalizeProfile (p <| pr_SecretRef := r |>) = (NormalizeProfile p) <| pr_SecretRef := r |>.
Proof. by rewrite !NormalizeProfile_eq. Qed.

Lemma normal_SecretRef p r : normal p → normal (p <| pr_SecretRef := r |>).
Proof. intros H. unfold normal. by rewrite NormalizeProfile_SecretRef, H. Qed.

Lemma upsert_Forall (R : Profile → Prop) p id l : Forall R l → R p → Forall R (upsert p id l).
Proof.
  intros Hl Hp. unfold upsert. destruct (find_index _ l); [by apply Forall_insert|].
  apply Forall_app. split; [done|]. by constructor.
Qed.

Lemma find_index_at (f : Profile → bool) l i x :
  l !! i = Some x → f x = true → (∀ j y, (j < i)%nat → l !! j = Some y → f y = false) → find_index f l = Some i.
Proof.
  revert i. induction l as [|a l IH]; intros [|i]; cbn; [done|done| |].
  - intros [= ->] -> _. done.
  - intros Hi Hx Hmin. rewrite (Hmin 0%nat a); [|lia|done].
    rewrite (IH i); [done|done|done|]. intros j y Hj. apply (Hmin (S j)). lia.
Qed.

Lemma upsert_idempotent p l : upsert p (pr_ID p) (upsert p (pr_ID p) l) = upsert p (pr_ID p) l.
Proof.
  unfold upsert at 2 3. destruct (find_index (λ q, pr_ID q == pr_ID p) l) as [i|] eqn:E; unfold upsert.
  - apply find_index_Some in E as (x & Hx & Hf & Hmin).
    rewrite (find_index_at _ _ i p); [by rewrite list_insert_insert_eq| |apply Prelude.eqb_refl|].
    + apply list_lookup_insert_eq. by eapply lookup_lt_Some.
    + intros j y Hj. rewrite list_lookup_insert_ne by lia. by apply Hmin.
  - rewrite find_index_None in E. rewrite (find_index_at _ _ (length l) p).
    + by rewrite insert_app_r_alt, Nat.sub_diag by done.
    + by rewrite lookup_app_r, Nat.sub_diag by done.
    + apply Prelude.eqb_refl.
    + intros j y Hj. rewrite lookup_app_l by done. intros Hy. rewrite Forall_lookup in E. by eapply E.
Qed.

Section starts.
Context (base : Data) (old : list Profile) (profile : Profile) (oldRef newRef oldPassword newPassword : string).
Context (secrets0 : Sec).
Let new := upsert profile (pr_ID profile) old.
Context (Hint64 : data_int64 (state_of base old None)) (Hint64p : profile_int64 profile).
Context (Hnormal : Forall normal old) (Hnormalp : normal profile).
Context (Hdistinct : newRef = oldRef ∧ newPassword = oldPassword ∨ oldRef ≠ newRef) (Href : newRef ≠ "").
Notation recoverable := (recoverable base old new profile oldRef newRef oldPassword newPassword secrets0).
Notation recovered := (recovered base old new oldRef newRef oldPassword newPassword).

Lemma wp_start d w w' (Q : Outcome () → World → Prop) :
  recoverable w → restarted d w w' → (∀ o w', recoverable w' → (o = Done () → recovered w') → Q o w') →
  wp (load (inr d)) Q w'.
Proof using Hint64 Hint64p Hnormal Hnormalp Hdistinct Href.
  intros Hr (Hok & Hd & Hone & Hsok & Hmay & Hdet) HQ. destruct Hint64 as (I1 & I2 & _).
  assert (Hp : phase base old new profile oldRef newRef oldPassword newPassword d (w_secrets w')).
  { eapply phase_less; [exact Hmay|]. by apply Hr. }
  apply (wp_load base old new profile oldRef newRef oldPassword newPassword secrets0); try done.
  - split_and!; try done. by apply upsert_Forall.
  - apply upsert_idempotent.
  - destruct Hr as (H1 & H2 & H3 & H4 & H5). split_and!; [done|done| | |].
    + by intros d' ->%Hone.
    + intros x Hx. by apply H4, Hmay.
    + intros r x ?? Hx. by apply H5, Hmay.
  - assert (Forall normal new) by by apply upsert_Forall.
    by destruct Hp as [[[-> | ->] _]|[[-> | ->] _]].
  - by apply Hdet.
Qed.

Lemma run_start d w w' w4 o :
  recoverable w → restarted d w w' → load (inr d) w' = (w4, o) → recoverable w4 ∧ (o = Done () → recovered w4).
Proof using Hint64 Hint64p Hnormal Hnormalp Hdistinct Href.
  intros Hr Hd Hl. refine (wp_run _ (λ o w4, recoverable w4 ∧ (o = Done () → recovered w4)) _ _ _ _ Hl).
  eapply wp_start; [exact Hr|exact Hd|by split].
Qed.

Lemma starts_recoverable w w' : starts w w' → recoverable w → recoverable w'.
Proof using Hint64 Hint64p Hnormal Hnormalp Hdistinct Href.
  induction 1 as [|w w1 d w2 _ IH Hd]; [done|]. intros Hr.
  by apply (wp_start d w1 w2 (λ _, recoverable) (IH Hr) Hd).
Qed.
End starts.

(** ** The transaction and its crashes *)

Lemma state_of_self (d : Data) l i : da_Profiles d = l → da_Intent d = i → state_of d l i = d.
Proof. intros <- <-. by destruct d. Qed.

Lemma upsert_at index p id (l : list Profile) :
  index = find_index (λ p, pr_ID p == id) l →
  match index with None => l ++ [p] | Some i => <[i:=p]> l end = upsert p id l.
Proof. by intros ->. Qed.

Section commit.
Context (w : World) (p : Profile) (password oldRef oldPassword id : string) (rest : list nat).
Definition new_ref : string := if password == "" then oldRef else "profile/" +:+ pr_ID p +:+ "/" +:+ id.
Definition new_password : string := if password == "" then oldPassword else password.
Definition new_profile : Profile := p <| pr_SecretRef := new_ref |>.
Definition new_profiles : list Profile := upsert new_profile (pr_ID p) (sv_profiles (w_svc w)).
Notation txr := (recoverable (view w) (sv_profiles (w_svc w)) new_profiles new_profile oldRef new_ref
  oldPassword new_password (w_secrets w)).

(** The stores are in order, the state file holds what is in memory, no
    transaction is pending, and the profiles are normalized. *)
Record ready_to_commit (index : option nat) : Prop := mkReady {
  rc_stores : st_ok (w_store w) ∧ ss_ok (w_secrets w);
  rc_settled : settled (view w) w;
  rc_intent : sv_intent (w_svc w) = None;
  rc_int64 : data_int64 (view w) ∧ profile_int64 p;
  rc_normal : Forall normal (sv_profiles (w_svc w)) ∧ normal p;
  rc_index : index = index_of (w_svc w) (pr_ID p);
  rc_random : newIDFrom (w_random w) = inr (id, rest);
  rc_fresh : if password == "" then oldRef ≠ ""
             else oldRef ≠ new_ref ∧ ∀ x, ss_may (w_secrets w) new_ref x → x = None;
  rc_old : oldRef = "" ∨ holds oldRef oldPassword (w_secrets w);
}.

Lemma commit_base index : ready_to_commit index → state_of (view w) (sv_profiles (w_svc w)) None = view w.
Proof. intros H. apply state_of_self; [done|]. apply (rc_intent _ H). Qed.

Lemma new_ref_nonempty index : ready_to_commit index → new_ref ≠ "".
Proof. intros H. pose proof (rc_fresh _ H) as Hf. unfold new_ref. by destruct (password == ""). Qed.

Lemma new_ref_distinct index :
  ready_to_commit index → new_ref = oldRef ∧ new_password = oldPassword ∨ oldRef ≠ new_ref.
Proof.
  intros H. pose proof (rc_fresh _ H) as Hf. unfold new_ref, new_password in *.
  destruct (password == ""); [by left|right; apply Hf].
Qed.

Lemma recoverable_before index w' :
  ready_to_commit index → w_store w' = w_store w → w_secrets w' = w_secrets w → txr w'.
Proof.
  intros H E1 E2. unfold recoverable. rewrite E1, E2. split_and!; [apply H|apply H| | |done].
  - intros d Hd. apply (rc_settled _ H) in Hd as ->. rewrite <- (commit_base _ H) at 2. left.
    split; [by left|apply H].
  - intros x Hx. pose proof (rc_fresh _ H) as Hf. pose proof (rc_old _ H) as Ho.
    unfold new_ref, new_password in *. destruct (password == "").
    + right. destruct Ho as [?|Ho]; [done|]. by apply Ho.
    + left. by apply Hf.
Qed.

Definition commit_result (o : Outcome Profile) (w' : World) : Prop :=
  match o with
  | Done P => P = new_profile ∧ settled (state_of (view w) new_profiles None) w' ∧
              holds new_ref new_password (w_secrets w')
  | _ => True
  end.

Lemma wp_commitProfileLocked index (Q : Outcome Profile → World → Prop) :
  ready_to_commit index →
  (∀ o w', txr w' → commit_result o w' → Q o w') →
  wp (commitProfileLocked index p password oldRef) Q w.
Proof.
  intros H HQ. unfold commitProfileLocked. apply wp_bind, wp_read, wp_bind. rewrite (rc_intent _ H).
  apply wp_ret, wp_bind.
  enough (Hsteps : ∀ w1, view w1 = view w → w_store w1 = w_store w → w_secrets w1 = w_secrets w →
    wp (fail_if (new_ref == "") (ErrText "profile transaction has no secret reference");;
        commit_steps index new_profile password oldRef;; mret new_profile) Q w1).
  { unfold new_profile, new_ref in Hsteps. destruct (password == "") eqn:Ep; cbn [negb].
    - by apply wp_ret, Hsteps.
    - apply wp_bind, wp_wrap. unfold wp at 1, newID. rewrite (rc_random _ H). apply wp_ret. by apply Hsteps. }
  intros w1 Ev Est Ese. rewrite (proj2 (eqb_false _ _) (new_ref_nonempty _ H)). apply wp_bind, wp_ret, wp_bind.
  apply (wp_commit_steps (view w) (sv_profiles (w_svc w)) new_profiles new_profile oldRef new_ref oldPassword
    new_password (w_secrets w)).
  - destruct (rc_int64 _ H) as [(I1 & I2 & _) Ip]. split_and!; [done..| |exact Ip].
    apply upsert_Forall; [exact I2|exact Ip].
  - by eapply new_ref_distinct.
  - done.
  - apply upsert_at. apply (rc_index _ H).
  - by apply (recoverable_before index).
  - rewrite (commit_base _ H). split; [|done]. intros d Hd. rewrite Est in Hd. by apply (rc_settled _ H).
  - rewrite Ese. apply H.
  - pose proof (rc_fresh _ H) as Hf. unfold new_ref, new_password in *.
    destruct (password == ""); cbn; [done|by split; [apply Hf|]].
  - intros o w' Hr Ho. destruct o as [[]|e|]; [|by apply HQ..].
    apply wp_ret, HQ; [done|]. split; [done|]. by apply Ho.
Qed.

Lemma run_commit index w1 o :
  ready_to_commit index → commitProfileLocked index p password oldRef w = (w1, o) →
  txr w1 ∧ commit_result o w1.
Proof.
  intros H Hc. refine (wp_run _ (λ o w1, txr w1 ∧ commit_result o w1) _ _ _ _ Hc). by apply (wp_commitProfileLocked index).
Qed.

(** What a start finds after the commit, complete or not. *)
Definition old_or_new w4 : Prop :=
  (sv_profiles (w_svc w4) = new_profiles ∧ holds new_ref new_password (w_secrets w4)) ∨
  (sv_profiles (w_svc w4) = sv_profiles (w_svc w) ∧ (oldRef = "" ∨ holds oldRef oldPassword (w_secrets w4))).

Lemma recovered_old_or_new index w4 :
  ready_to_commit index →
  recovered (view w) (sv_profiles (w_svc w)) new_profiles oldRef new_ref oldPassword new_password w4 →
  settled (view w4) w4 ∧ sv_intent (w_svc w4) = None ∧ old_or_new w4.
Proof.
  intros H [[[Hd Hv] Hs]|[[Hd Hv] Hs]]; rewrite <- Hv in Hd; (split; [by split|]);
    (split; [by apply (f_equal da_Intent) in Hv|]); apply (f_equal da_Profiles) in Hv; [right|left]; by split.
Qed.
End commit.

(** A completed transaction is the old side of a trivial one. *)
Lemma committed_recoverable base l p ref password w :
  st_ok (w_store w) → ss_ok (w_secrets w) → settled (state_of base l None) w → holds ref password (w_secrets w) →
  recoverable base l (upsert p (pr_ID p) l) p ref ref password password (w_secrets w) w.
Proof.
  intros H1 H2 [Hd _] Hs. split_and!; [done|done| |intros x Hx; right; by apply Hs|done].
  intros d ->%Hd. left. split; [by left|by right].
Qed.

(** C1: a profile is created or updated while the process may die at any point
    and its starts may fail or die again, any number of times.  The first start
    that succeeds has no transaction left, its state file surely holds what is
    in memory, every other secret is untouched, and it has either all of the
    new profile list with the new secret or all of the old list with the old
    secret; after a commit that returned success, it is the new one. *)
Theorem commit_crash_safe w index p password oldRef oldPassword id rest :
  ready_to_commit w p password oldRef oldPassword id rest index →
  let '(w1, o) := commitProfileLocked index p password oldRef w in
  ∀ w2 d w3 w4, starts w1 w2 → restarted d w2 w3 → load (inr d) w3 = (w4, Done ()) →
    settled (view w4) w4 ∧ sv_intent (w_svc w4) = None ∧
    (∀ r x, r ≠ oldRef → r ≠ new_ref p password oldRef id →
       ss_may (w_secrets w4) r x → ss_may (w_secrets w) r x) ∧
    old_or_new w p password oldRef oldPassword id w4 ∧
    (∀ P, o = Done P → P = new_profile p password oldRef id ∧
       sv_profiles (w_svc w4) = new_profiles w p password oldRef id ∧
       holds (new_ref p password oldRef id) (new_password password oldPassword) (w_secrets w4)).
Proof.
  intros H. destruct (commitProfileLocked index p password oldRef w) as [w1 o] eqn:Ec.
  destruct (run_commit _ _ _ _ _ _ _ _ _ _ H Ec) as [Hr Ho]. intros w2 d w3 w4 Hst Hre Hload.
  destruct (rc_normal _ _ _ _ _ _ _ _ H) as [Hn Hnp], (rc_int64 _ _ _ _ _ _ _ _ H) as [Hi Hip].
  assert (Hnp' : normal (new_profile p password oldRef id)) by by apply normal_SecretRef.
  assert (Hip' : profile_int64 (new_profile p password oldRef id)) by exact Hip.
  assert (Hi' : data_int64 (state_of (view w) (sv_profiles (w_svc w)) None)) by by rewrite (commit_base _ _ _ _ _ _ _ _ H).
  pose proof (new_ref_nonempty _ _ _ _ _ _ _ _ H) as Href.
  pose proof (new_ref_distinct _ _ _ _ _ _ _ _ H) as Hdis.
  pose proof (starts_recoverable _ _ _ _ _ _ _ _ Hi' Hip' Hn Hnp' Hdis Href _ _ Hst Hr) as Hr2.
  destruct (run_start _ _ _ _ _ _ _ _ Hi' Hip' Hn Hnp' Hdis Href _ _ _ _ _ Hr2 Hre Hload) as [Hr4 H4].
  specialize (H4 eq_refl).
  destruct (recovered_old_or_new _ _ _ _ _ _ _ _ _ H H4) as (A1 & A2 & A3).
  split; [exact A1|]. split; [exact A2|]. split; [apply Hr4|]. split; [exact A3|].
  intros P ->. destruct Ho as (-> & Hset & Hh). split; [done|].
  destruct Hr as (S1 & S2 & _).
  pose proof (committed_recoverable _ _ (new_profile p password oldRef id) _ _ _ S1 S2 Hset Hh) as Hc.
  assert (Hn' : Forall normal (new_profiles w p password oldRef id)) by by apply upsert_Forall.
  assert (Hi2 : data_int64 (state_of (view w) (new_profiles w p password oldRef id) None)).
  { destruct Hi as (I1 & I2 & _). split_and!; [exact I1|by apply upsert_Forall|done]. }
  pose proof (starts_recoverable _ _ _ _ _ _ _ _ Hi2 Hip' Hn' Hnp' (or_introl (conj eq_refl eq_refl)) Href _ _ Hst Hc) as Hc2.
  destruct (run_start _ _ _ _ _ _ _ _ Hi2 Hip' Hn' Hnp' (or_introl (conj eq_refl eq_refl)) Href _ _ _ _ _ Hc2 Hre Hload)
    as [_ H5].
  destruct (H5 eq_refl) as [[[_ Hv] [?|Hs]]|[[_ Hv] Hs]]; apply (f_equal da_Profiles) in Hv; [done|by split|].
  split; [|done]. etransitivity; [exact Hv|]. apply (upsert_idempotent (new_profile p password oldRef id)).
Qed.

End recovery.

(** *** The file stores start as the interface says *)

Section file_restart.
Context (statePath secretPath : string) (torn torn' : Text) (Hpath : HasPrefix statePath ".flexconnect-state-" = false).
#[local] Existing Instance file_state_store.
#[local] Existing Instance FileStoreSpec.file_secret_store.

Lemma file_restarted d (w w' : World (FS Text) (FS Text)) :
  may_hold statePath (may_read (w_store w) statePath) (w_store w) → FileStoreSpec.ok secretPath (w_secrets w) →
  restart (w_store w) (w_store w') → restart (w_secrets w) (w_secrets w') →
  load_of statePath (contents (w_store w') statePath) = inr d →
  @restarted _ _ (file_state_store statePath torn Hpath) (FileStoreSpec.file_secret_store secretPath torn') d w w'.
Proof.
  intros Hok Hsok Hr Hsr Hd.
  destruct (may_hold_restart _ _ _ _ Hok Hr) as [Hv Hh], (may_hold_restart _ _ _ _ Hsok Hsr) as [Hsv Hsh].
  assert (Hone : ∀ c, may_read (w_store w') statePath c → c = contents (w_store w') statePath).
  { intros c Hc. by apply (may_hold_read _ _ _ _ Hh). }
  assert (Hsone : ∀ c, may_read (w_secrets w') secretPath c → c = contents (w_secrets w') secretPath).
  { intros c Hc. by apply (may_hold_read _ _ _ _ Hsh). }
  split_and!.
  - by eapply may_hold_self.
  - eexists. by split; [exact Hv|].
  - intros d' (c & ->%Hone & Hc). congruence.
  - by eapply may_hold_self.
  - intros r x (c & m & ->%Hsone & Hm & Hx). by exists (contents (w_secrets w') secretPath), m.
  - intros r x y (c & m & ->%Hsone & Hm & <-) (c' & m' & ->%Hsone & Hm' & <-). congruence.
Qed.
End file_restart.

(** ** A concrete crash

    The first profile is created on a fresh installation and the process dies
    while the secret file is being replaced; the next start finds the secret
    and finishes the transaction. *)

Module Example.
#[local] Instance state_file : StateStore (FS Text) := file_state_store "state.json" blank eq_refl.
#[local] Instance secret_file : SecretStore (FS Text) := FileStoreSpec.file_secret_store "secrets.json" blank.

Definition fresh_disk : FS Text := mkFS ∅ [∅] ∅ 0 448 [].
Definition new_one : Profile := sample_profile <| pr_SecretRef := "profile/p1" |>.

Definition blank_service : Service := (new_service "e" "t") <| sv_controlMode := "user" |>.
Definition world_of (s : Service) (store secrets : FS Text) : World (FS Text) (FS Text) :=
  mkWorld s store secrets 0 (seq 1 16) (mkScript [] [] [] [] [] [] None None []) ∅ 1 [] None [] false.

(** The power fails at the twenty-first system call on the state file. *)
Definition fresh_world : World (FS Text) (FS Text) :=
  world_of blank_service (fresh_disk <| fs_sched := replicate 20 Pass ++ [Dies] |>) fresh_disk.
Definition crashed : World (FS Text) (FS Text) := fst (commitProfileLocked None new_one "pw" "" fresh_world).

(** The directory of the state file goes back to an older version. *)
Definition boot (names : gmap string nat) (disk : FS Text) : FS Text :=
  disk <| fs_names := names |> <| fs_hist := [names] |> <| fs_sched := [] |>.
Lemma boot_restart names disk : names ∈ fs_hist disk → restart disk (boot names disk).
Proof. intros H. by split_and!. Qed.

Definition revived : World (FS Text) (FS Text) :=
  world_of (new_service "e2" "t") (boot (default ∅ (fs_hist (w_store crashed) !! 1%nat)) (w_store crashed))
    (boot (fs_names (w_secrets crashed)) (w_secrets crashed)).

Definition found : Data := match load_of "state.json" (contents (w_store revived) "state.json") with inr d => d | inl _ => fresh_data end.

Lemma empty_disk_holds name sched :
  may_hold name (may_read (fresh_disk <| fs_sched := sched |>) name) (fresh_disk <| fs_sched := sched |>).
Proof.
  split; [by left|]. intros names ->%list_elem_of_singleton. exists None. split; [|done].
  exists ∅. split; [by left|]. done.
Qed.

Lemma empty_disk_reads name sched c : may_read (fresh_disk <| fs_sched := sched |>) name c → c = None.
Proof. by intros (names & ->%list_elem_of_singleton & H). Qed.

Lemma fresh_ready : ready_to_commit fresh_world new_one "pw" "" "" "0102030405060708090a0b0c0d0e0f10" [] None.
Proof.
  constructor.
  - split; [apply empty_disk_holds|]. apply (empty_disk_holds _ []).
  - split; [|reflexivity]. intros d (c & ->%empty_disk_reads & Hd). cbn in Hd. by injection Hd as <-.
  - reflexivity.
  - split_and!; [done..|]. vm_compute. done.
  - split; [by constructor|]. unfold normal. vm_compute. reflexivity.
  - reflexivity.
  - reflexivity.
  - split; [done|]. intros x (c & m & Hc & Hm & Hx). apply (empty_disk_reads _ []) in Hc as ->.
    cbn in Hm. injection Hm as <-. by rewrite lookup_empty in Hx.
  - by left.
Qed.

Lemma fresh_crashed : restarted found crashed revived.
Proof.
  destruct (commitProfileLocked None new_one "pw" "" fresh_world) as [w1 o] eqn:Ec.
  destruct (run_commit _ _ _ _ _ _ _ _ _ _ fresh_ready Ec) as [(H1 & H2 & _) _].
  assert (E1 : crashed = w1) by (unfold crashed; by rewrite Ec). rewrite <- E1 in H1, H2.
  apply (file_restarted "state.json" "secrets.json" blank blank eq_refl); [exact H1|exact H2| | |].
  - apply boot_restart.
    assert (E : bool_decide (is_Some (fs_hist (w_store crashed) !! 1%nat)) = true) by (vm_compute; reflexivity).
    apply bool_decide_eq_true in E as [names E]. rewrite E. by eapply list_elem_of_lookup_2.
  - apply boot_restart, H2.
  - vm_compute. reflexivity.
Qed.

Lemma commit_crash_safe_witness :
  snd (commitProfileLocked None new_one "pw" "" fresh_world) = Crashed ∧
  ∃ w4, load (inr found) revived = (w4, Done ()) ∧
    pr_ID <$> sv_profiles (w_svc w4) = ["p1"] ∧
    settled (view w4) w4 ∧
    old_or_new fresh_world new_one "pw" "" "" "0102030405060708090a0b0c0d0e0f10" w4.
Proof.
  split; [vm_compute; reflexivity|].
  destruct (load (inr found) revived) as [w4 o] eqn:El. exists w4.
  assert (Ho : o = Done ()) by (apply (f_equal snd) in El; rewrite <- (El : _ = o); vm_compute; reflexivity).
  subst o. split; [reflexivity|]. split.
  { transitivity (pr_ID <$> sv_profiles (w_svc (fst (load (inr found) revived)))); [by rewrite El|].
    vm_compute. reflexivity. }
  pose proof (commit_crash_safe _ _ _ _ _ _ _ _ fresh_ready) as H.
  pose proof fresh_crashed as Hre. unfold crashed in Hre.
  destruct (commitProfileLocked None new_one "pw" "" fresh_world) as [w1 o].
  destruct (H _ _ _ _ (starts_none w1) Hre El) as (A & _ & _ & B & _).
  split; [exact A|exact B].
Defined.

(** *** A deletion that is cut short *)

Definition installed_data : Data := mkData CurrentSchemaVersion [sample_profile] "p1" ∅ "user" "" None.
Definition installed_state : FS Text := fst (Store.Save "state.json" blank installed_data fresh_disk).
Definition installed_secrets : FS Text := fst (FileStore.Put "secrets.json" blank "profile/p1/s" "pw" fresh_disk).

Definition running : World (FS Text) (FS Text) :=
  fst (load (inr installed_data) (world_of (new_service "e" "t") installed_state installed_secrets)).
(** The power fails after the intent has been written. *)
Definition deleting : World (FS Text) (FS Text) := running <| w_store ::= (λ d, d <| fs_sched := replicate 11 Pass ++ [Dies] |>) |>.
Definition reboot (w : World (FS Text) (FS Text)) : World (FS Text) (FS Text) :=
  world_of (new_service "e" "t") (boot (fs_names (w_store w)) (w_store w)) (boot (fs_names (w_secrets w)) (w_secrets w)).
Definition start_again (w : World (FS Text) (FS Text)) : World (FS Text) (FS Text) * Outcome () :=
  load (load_of "state.json" (contents (w_store w) "state.json")) w.
Definition after_crash := start_again (reboot (fst (DeleteProfile (mret ()) "p1" deleting))).

(** The only profile is current and its deletion is cut short by a power
    failure after the intent was written.  The next start succeeds and finishes
    the deletion, but leaves the deleted profile current: every later start
    fails, until the state file is repaired by hand. *)
Theorem delete_recovery_breaks_next_start :
  snd (load (inr installed_data) (world_of (new_service "e" "t") installed_state installed_secrets)) = Done () ∧
  snd (DeleteProfile (mret ()) "p1" deleting) = Crashed ∧
  snd after_crash = Done () ∧ sv_profiles (w_svc (fst after_crash)) = [] ∧
  sv_currentID (w_svc (fst after_crash)) = "p1" ∧
  snd (start_again (reboot (fst after_crash))) =
    Failed (ErrText ("state current_profile_id " +:+ quote "p1" +:+ " does not reference a profile")).
Proof. vm_compute. done. Qed.
End Example.
