(* ===== verification/Concurrency.v ===== *)
(** * The daemon's goroutines

    The closed system: any number of goroutines, each running one operation of
    the daemon, interleaved at every place where the operation releases the
    mutex.  A goroutine that waits for the mutex is kept as the world it
    started in and the worlds in which it got the mutex back; running the
    operation again over them reaches the place where it waits
    ([run_thread]), so the operations need no second, resumable version. *)

From S2P Require Import Prelude GoStrings Types Store Stores LogBuf Vpn ProfileIO Router Service Access Feed Appd AppdInv.

Open Scope go_scope.
Open Scope Z_scope.

Section concurrency.
Context {St Sec : Type} `{!StateStore St} `{!SecretStore Sec}.
Notation World := (World St Sec).
Notation D := (M World).
Implicit Types (w : World).

(** Releasing the mutex and taking it back. *)
Definition yield : D () := λ w,
  match w_resume w with
  | [] => (w <| w_suspended := true |>, Crashed)
  | later :: rest => (later <| w_resume := rest |> <| w_suspended := false |>, Done ())
  end.

(** What a goroutine of the daemon runs. [err] is what a proxy reported,
    [ctx] the deadline of a repair. *)
Inductive Request :=
  | RTask (t : Task) (ctx : nat) (err : error)
  | RBackendEvent (event : Event)
  | RSampleTraffic
  | RCreateProfile (actor : Actor) (req : ProfileCreateRequest)
  | RUpdateProfile (actor : Actor) (id : string) (req : ProfileUpdateRequest)
  | RUpdateActiveProfile (actor : Actor) (id : string) (req : ProfileUpdateRequest)
  | RDeleteProfile (actor : Actor) (id : string)
  | RStartOperation (actor : Actor) (kind profileID : string) (command : Command)
  | RUpdateCheck
  | RWatch (actor : Actor) (epoch : string) (since : Z)
  | RCancelWatch (id : nat)
  | RForwardWatch (actor : Actor) (id : nat)
  | RClose.

Definition ignore {A} (m : D A) : D () := _ ← m; mret ().

Definition run_request (r : Request) : D () :=
  match r with
  | RTask t ctx err => run_task yield t ctx err
  | RBackendEvent event => consume_event yield event
  | RSampleTraffic => t ← read w_now; sampleTraffic t
  | RCreateProfile actor req => ignore (CreateProfileFor yield actor req)
  | RUpdateProfile actor id req => ignore (UpdateProfileFor yield actor id req)
  | RUpdateActiveProfile actor id req => ignore (UpdateActiveProfileFor yield actor id req)
  | RDeleteProfile actor id => DeleteProfileFor yield actor id
  | RStartOperation actor kind id command => ignore (StartOperation yield actor kind id command)
  | RUpdateCheck => ignore (UpdateCheck yield)
  | RWatch actor epoch since => upd (λ s, fst (WatchSince actor epoch since s))
  | RCancelWatch id => upd (cancel_watch id)
  | RForwardWatch actor id => upd (λ s, fst (forward_watch actor id s))
  | RClose => Close yield
  end.

Record Thread := mkThread {
  th_request : Request;
  th_start : World;
  th_resumed : list World;      (* the worlds it got the mutex back in *)
}.

Record System := mkSystem {
  sy_world : World;
  sy_threads : list Thread;     (* the goroutines that wait for the mutex *)
}.

Definition run_thread (t : Thread) : World * Outcome () :=
  run_request (th_request t) ((th_start t) <| w_resume := th_resumed t |> <| w_suspended := false |>).

(** A task holds the command lock from its start to its end. *)
Definition holds_command (t : Thread) : bool := match th_request t with RTask _ _ _ => true | _ => false end.

(** The goroutine ran to a place where it waits again, or to its end. *)
Definition settle (t : Thread) (rest : list Thread) : option System :=
  let '(w, o) := run_thread t in
  if w_suspended w then Some (mkSystem (w <| w_suspended := false |>) (t :: rest))
  else match o with Crashed => None | _ => Some (mkSystem w rest) end.

(** What the surroundings change: the clock, the answers of the backend and
    the listener, the random source, contexts that end. *)
Definition surroundings w w' : Prop :=
  w_svc w' = w_svc w ∧ w_tasks w' = w_tasks w ∧ w_resume w' = w_resume w ∧
  w_store w' = w_store w ∧ w_secrets w' = w_secrets w.

Inductive sys_step : System → System → Prop :=
  | step_start r w threads sy' :
      match r with RTask _ _ _ => False | _ => True end →
      settle (mkThread r w []) threads = Some sy' → sys_step (mkSystem w threads) sy'
  | step_task i t ctx err w threads sy' :
      w_tasks w !! i = Some t → Forall (λ t, holds_command t = false) threads →
      settle (mkThread (RTask t ctx err) (w <| w_tasks ::= delete i |>) []) threads = Some sy' →
      sys_step (mkSystem w threads) sy'
  | step_resume i t w threads sy' :
      threads !! i = Some t →
      settle (mkThread (th_request t) (th_start t) (th_resumed t ++ [w])) (delete i threads) = Some sy' →
      sys_step (mkSystem w threads) sy'
  | step_surroundings w w' threads :
      surroundings w w' → sys_step (mkSystem w threads) (mkSystem w' threads).

(** [New]: the loaded service, nothing running yet. *)
Definition started w : Prop :=
  ∃ (w0 : World) loaded, w_svc w0 = new_service (sv_epoch (w_svc w0)) (stamp w0) ∧
    w_tasks w0 = [] ∧ w_resume w0 = [] ∧ load loaded w0 = (w, Done ()).

Inductive reachable : System → Prop :=
  | reach_start w : started w → reachable (mkSystem w [])
  | reach_step sy sy' : reachable sy → sys_step sy sy' → reachable sy'.

(** *** Runs of one goroutine *)

Definition start (r : Request) (sy : System) : option System :=
  settle (mkThread r (sy_world sy) []) (sy_threads sy).

Definition start_task (i ctx : nat) (err : error) (sy : System) : option System :=
  match w_tasks (sy_world sy) !! i with
  | Some t => if forallb (λ t, negb (holds_command t)) (sy_threads sy)
              then settle (mkThread (RTask t ctx err) ((sy_world sy) <| w_tasks ::= delete i |>) []) (sy_threads sy)
              else None
  | None => None
  end.

Definition resume (i : nat) (sy : System) : option System :=
  match sy_threads sy !! i with
  | Some t => settle (mkThread (th_request t) (th_start t) (th_resumed t ++ [sy_world sy]))
                (delete i (sy_threads sy))
  | None => None
  end.

(** The goroutine that ran last goes on, at most [n] times. *)
Fixpoint finish (n : nat) (sy : System) : System :=
  match n with
  | O => sy
  | S n => match resume 0 sy with Some sy' => finish n sy' | None => sy end
  end.

Lemma reachable_start r sy sy' :
  match r with RTask _ _ _ => False | _ => True end →
  reachable sy → start r sy = Some sy' → reachable sy'.
Proof. intros Hr H Hs. destruct sy. eapply reach_step; [exact H|]. by eapply step_start. Qed.

Lemma reachable_start_task i ctx err sy sy' :
  reachable sy → start_task i ctx err sy = Some sy' → reachable sy'.
Proof.
  intros H. unfold start_task. destruct (w_tasks _ !! i) eqn:Ht; [|done].
  destruct (forallb _ _) eqn:Hc; [|done]. intros Hs. destruct sy. eapply reach_step; [exact H|].
  eapply step_task; [exact Ht| |exact Hs]. apply Forall_forall. intros t' Hin.
  rewrite forallb_forall in Hc. apply negb_true_iff, Hc. by apply list_elem_of_In.
Qed.

Lemma reachable_resume i sy sy' : reachable sy → resume i sy = Some sy' → reachable sy'.
Proof.
  intros H. unfold resume. destruct (sy_threads sy !! i) eqn:Ht; [|done]. intros Hs.
  destruct sy. eapply reach_step; [exact H|]. by eapply step_resume.
Qed.

Lemma reachable_finish n sy : reachable sy → reachable (finish n sy).
Proof.
  revert sy. induction n as [|n IH]; intros sy H; [done|]. cbn.
  destruct (resume 0 sy) eqn:E; [|done]. by eapply IH, reachable_resume.
Qed.

(** ** The invariant of the closed system *)

(** The tickets start from zero. *)
Definition first : Service := new_service "" "".
Notation ok := (ok first).
Notation later_ok := (later_ok first).

Lemma ok_yield : preserves ok (yield : D ()).
Proof.
  intros w [H Hr]. unfold wp, yield. destruct (w_resume w) as [|later rest] eqn:E; cbn.
  - split; [exact H|]. cbn. by rewrite E.
  - apply Forall_cons in Hr as [Hl Hr]. by split.
Qed.

Lemma good_sampleTrafficAt totals t : good (sampleTrafficAt totals t).
Proof.
  intros s. unfold sampleTrafficAt. pose proof (good_sample totals t s) as H.
  destruct (sampleTrafficLocked totals t s) as [s' emit]. cbn in H.
  destruct emit; [|done]. exact (step_ok_trans _ _ _ H (good_emitLocked (rfc3339 t) (notify_traffic s') s')).
Qed.

Lemma good_WatchSince actor epoch since : good (λ s, fst (WatchSince actor epoch since s)).
Proof.
  intros s (Hc & Hh & Hl & Hr & Hf). pose proof (feed_watch actor epoch since s Hf) as Hw.
  unfold WatchSince in *. destruct (authorize actor false s); by (split; [split_and!|split; apply Z.le_refl]).
Qed.

Lemma good_cancel_watch id : good (cancel_watch id).
Proof.
  intros s (Hc & Hh & Hl & Hr & Hf). split; [|split; apply Z.le_refl].
  do 4 (split; [assumption|]). by apply feed_cancel_watch.
Qed.

Lemma good_forward_watch actor id : good (λ s, fst (forward_watch actor id s)).
Proof.
  intros s (Hc & Hh & Hl & Hr & Hf). pose proof (feed_forward_watch actor id s Hf) as Hw.
  unfold forward_watch in *. destruct (sv_watchers s !! id) as [[|e q]|]; by (split; [split_and!|split; apply Z.le_refl]).
Qed.

Lemma ok_ignore {A} (m : D A) : preserves ok m → preserves ok (ignore m).
Proof. intros H. apply preserves_bind; [done|]. intros. apply preserves_ret. Qed.

Definition request_ok (r : Request) : Prop :=
  match r with
  | RTask (ScheduledReconnect _ _ attempt _) _ _ => attempt ≤ autoReconnectMaxTries
  | _ => True
  end.

Lemma ok_run_request r : request_ok r → preserves ok (run_request r : D ()).
Proof.
  intros Hr. destruct r; cbn [run_request]; repeat apply ok_ignore.
  - apply ok_run_task; [apply ok_yield|]. by destruct t.
  - apply ok_consume_event, ok_yield.
  - unfold sampleTraffic. repeat (apply preserves_bind; [apply preserves_read|intros]).
    apply preserves_upd. intros s. apply good_sampleTrafficAt.
  - apply ok_CreateProfileFor, ok_yield.
  - apply ok_UpdateProfileFor, ok_yield.
  - apply ok_UpdateActiveProfileFor, ok_yield.
  - apply ok_DeleteProfileFor, ok_yield.
  - apply ok_StartOperation, ok_yield.
  - apply ok_UpdateCheck, ok_yield.
  - apply preserves_upd, good_WatchSince.
  - apply preserves_upd, good_cancel_watch.
  - apply preserves_upd, good_forward_watch.
  - apply ok_Close, ok_yield.
Qed.

Definition thread_ok (t : Thread) : Prop :=
  request_ok (th_request t) ∧ later_ok (th_start t) ∧ Forall later_ok (th_resumed t).

Definition system_ok (sy : System) : Prop := later_ok (sy_world sy) ∧ Forall thread_ok (sy_threads sy).

Lemma settle_ok t rest sy : thread_ok t → Forall thread_ok rest → settle t rest = Some sy → system_ok sy.
Proof.
  intros (Hr & Hs & Hj) Hrest. unfold settle, run_thread.
  set (w0 := (th_start t) <| w_resume := th_resumed t |> <| w_suspended := false |>).
  assert (H0 : ok w0) by by split.
  pose proof (ok_run_request _ Hr w0 H0) as [Hw _]. revert Hw. unfold wp.
  destruct (run_request (th_request t) w0) as [w o]. cbn. intros Hw.
  assert (∀ rest', Forall thread_ok rest' → system_ok (mkSystem w rest')) by by split.
  destruct (w_suspended w); [|destruct o]; intros [= <-]; [split; [exact Hw|]|auto..].
  by apply Forall_cons.
Qed.

Lemma later_ok_delete i w : later_ok w → later_ok (w <| w_tasks ::= delete i |>).
Proof. intros [[H1 H2] H3]. split; [|exact H3]. split; [done|]. by apply Forall_delete. Qed.

Lemma sys_step_ok sy sy' : sys_step sy sy' → system_ok sy → system_ok sy'.
Proof.
  intros [r w threads sy2 Hr Hs|i t ctx err w threads sy2 Ht _ Hs|i t w threads sy2 Ht Hs|w w' threads Hsur] [Hw Hth].
  - eapply settle_ok; [|exact Hth|exact Hs]. split_and!; [by destruct r|done|by constructor].
  - eapply settle_ok; [|exact Hth|exact Hs]. split_and!; [|by apply later_ok_delete|by constructor].
    destruct Hw as [[_ Hw] _]. pose proof (Forall_lookup_1 _ _ _ _ Hw Ht) as H. destruct t; cbn in *; lia || done.
  - pose proof (Forall_lookup_1 _ _ _ _ Hth Ht) as (Hr & H1 & H2).
    eapply settle_ok; [|by apply Forall_delete|exact Hs]. split_and!; [done..|].
    apply Forall_app. split; [done|]. by constructor.
  - destruct Hsur as (E1 & E2 & _). split; [|done]. destruct Hw as [[H1 H2] H3].
    split; [|cbn; by rewrite E1]. split; cbn; rewrite E1; [done|by rewrite E2].
Qed.

Lemma reachable_system_ok sy : reachable sy → system_ok sy.
Proof.
  induction 1 as [w (w0 & loaded & Hs & Ht & Hr & Hl)|sy sy' _ IH Hstep]; [|by eapply sys_step_ok].
  assert (H0 : ok w0).
  { split; [|by rewrite Hr]. split; [|rewrite Hs; split; cbn; lia].
    split; [rewrite Hs; apply service_ok_new|by rewrite Ht]. }
  pose proof (ok_load first yield ok_yield loaded w0 H0) as H. unfold wp in H. rewrite Hl in H. split; [apply H|done].
Qed.

(** C2: whatever the goroutines of the daemon do, in whatever order, and
    whatever the backend, the stores and the network answer: a connection that
    is reported as connected is complete (the reported profile is the connected
    one, there is a session, no attempt is in flight), the history keeps at
    most 64 events and the log at most 500 lines, an armed reconnect timer is
    one of at most three attempts, and every watcher's queue and the event ring
    are contiguous and bounded. *)
Theorem daemon_invariant sy :
  reachable sy →
  let s := w_svc (sy_world sy) in
  (st_State (sv_status s) = StateConnected →
     st_ConnectedProfileID (sv_status s) = sv_connectedID s ∧
     is_Some (st_Session (sv_status s)) ∧ sv_attemptCancel s = None) ∧
  (length (sv_connectionHistory s) ≤ 64)%nat ∧ (length (LogBuf.Snapshot (sv_logs s)) ≤ 500)%nat ∧
  (sv_reconnectTimer s = true → 1 ≤ sv_reconnectAttempt s ≤ 3) ∧
  feed_ok s.
Proof.
  intros H. destruct (reachable_system_ok _ H) as [[[(Hc & Hh & [Hl _] & Hr & Hf) _] _] _].
  exact (conj Hc (conj Hh (conj Hl (conj Hr Hf)))).
Qed.

End concurrency.

Arguments System : clear implicits.

(** ** A concrete run *)

Definition sample_data : Data :=
  mkData CurrentSchemaVersion [sample_profile] "p1" ∅ "user" "" None.

Definition sample_session : SessionInfo :=
  zero_session <| si_SplitInclude := ["172.16.0.0/12"] |> <| si_MTU := 1399 |>.

Definition sample_world : World Data (gmap string string) :=
  mkWorld (new_service "e" (rfc3339 0)) sample_data {[ "profile/p1/s" := "secret" ]} 0 (seq 1 160)
    (mkScript [inr (Some sample_session)] [] [] [inr true] [inr (7%nat, "127.0.0.1:4000")] [] None None [])
    ∅ 1 [] None [] false.

Definition alice : Actor := mkActor "S-1" false false.

(** Alice asks for a connection; while it is being made the traffic sampler
    runs and she starts to watch. *)
Definition sample_start : System Data (gmap string string) := mkSystem (fst (load (inr sample_data) sample_world)) [].
Definition sample_run : option (System Data (gmap string string)) :=
  sy ← start (RStartOperation alice "connect" "p1" (CmdConnect alice "p1")) sample_start;
  sy ← start_task 0 0 (ErrText "") (finish 5 sy);
  sy ← start RSampleTraffic sy;
  sy ← resume 0 sy;
  sy ← start (RWatch alice "" 0) sy;
  Some (finish 20 sy).

Lemma sample_reachable sy : sample_run = Some sy → reachable sy.
Proof.
  unfold sample_run. intros (s1 & H1 & (s2 & H2 & (s3 & H3 & (s4 & H4 & (s5 & H5 & [= <-]
    )%bind_Some)%bind_Some)%bind_Some)%bind_Some)%bind_Some.
  assert (H0 : reachable sample_start).
  { constructor. exists sample_world, (inr sample_data).
    split; [reflexivity|]. split; [reflexivity|]. split; [reflexivity|].
    assert (Hd : snd (load (inr sample_data) sample_world) = Done ()) by (vm_compute; reflexivity).
    rewrite <- Hd. apply surjective_pairing. }
  apply (reachable_finish 20). eapply (reachable_start (RWatch _ _ _)); [done| |exact H5].
  eapply reachable_resume; [|exact H4]. eapply (reachable_start RSampleTraffic); [done| |exact H3].
  eapply reachable_start_task; [|exact H2]. apply (reachable_finish 5).
  eapply (reachable_start (RStartOperation _ _ _ _)); [done|exact H0|exact H1].
Qed.

Lemma daemon_invariant_witness :
  ∃ sy, sample_run = Some sy ∧
    let s := w_svc (sy_world sy) in
    st_State (sv_status s) = StateConnected ∧ sv_connectedID s = "p1" ∧
    (st_State (sv_status s) = StateConnected →
       st_ConnectedProfileID (sv_status s) = sv_connectedID s ∧
       is_Some (st_Session (sv_status s)) ∧ sv_attemptCancel s = None) ∧
    (length (sv_connectionHistory s) ≤ 64)%nat ∧ (length (LogBuf.Snapshot (sv_logs s)) ≤ 500)%nat ∧
    (sv_reconnectTimer s = true → 1 ≤ sv_reconnectAttempt s ≤ 3) ∧
    feed_ok s.
Proof.
  destruct sample_run as [sy|] eqn:E; [|vm_compute in E; discriminate E].
  assert (Hst : (λ sy, (st_State (sv_status (w_svc (sy_world sy))), sv_connectedID (w_svc (sy_world sy))))
                  <$> sample_run = Some (StateConnected, "p1")) by (vm_compute; reflexivity).
  rewrite E in Hst. injection Hst as H1 H2.
  exists sy. split; [reflexivity|]. split; [exact H1|]. split; [exact H2|].
  exact (daemon_invariant sy (sample_reachable sy E)).
Defined.
