(* ===== verification/ApiServer.v ===== *)
(** * The Local API server (src/internal/apiserver/server.go)

    Requests of local programs and what is answered.  [Handler] is the gate in
    front of everything, [mux] the routing, and there is one definition per
    endpoint.  The daemon is a class: the handlers are written, and their
    theorems proved, for anything that offers its operations. *)

From S2P Require Import Prelude GoStrings Types Json NetURL Escape Wire Service Access Appd.

Open Scope go_scope.
Open Scope Z_scope.

(** ** Messages *)

Definition LocalAPIHost : string := "local-flexconnectd.sock".
Definition maxRequestBodyBytes : Z := 1048576.

(** A request body: the values its decoder finds and whether the reader's
    limit comes before the end. *)
Record Body := mkBody { bd_text : Text; bd_tooLarge : bool }.
Definition no_body : Body := mkBody blank false.

Record Request := mkRequest {
  rq_Method : string;
  rq_Host : string;
  rq_Origin : string;
  rq_Referer : string;
  rq_ContentLength : Z;
  rq_Path : string;          (* escaped *)
  rq_RawQuery : string;
  rq_Body : Body;
  rq_Actor : option Actor;   (* what the listener put into the context *)
}.

#[export] Instance Request_eta : Eta Request := λ r,
  mkRequest (rq_Method r) (rq_Host r) (rq_Origin r) (rq_Referer r) (rq_ContentLength r) (rq_Path r) (rq_RawQuery r)
    (rq_Body r) (rq_Actor r).

Record LiveStatus := mkLiveStatus { lv_Status : string; lv_Version : string; lv_APIMajor : Z; lv_Capabilities : list string }.

Record Diagnostics := mkDiagnostics {
  dg_Version : string;
  dg_Status : Status;
  dg_CurrentProfile : option Profile;
  dg_Profiles : list Profile;
  dg_ServerConfig : option (list (string * json));
  dg_Traffic : TrafficSnapshot;
  dg_Logs : list LogEntry;
  dg_GeneratedAt : string;
  dg_ConnectionHistory : list ConnectionEvent;
  dg_Reconnect : ReconnectSnapshot;
  dg_Runtime : option RuntimeDiagnostics;
  dg_Health : list ComponentStatus;
}.
#[export] Instance Diagnostics_eta : Eta Diagnostics := λ r,
  mkDiagnostics (dg_Version r) (dg_Status r) (dg_CurrentProfile r) (dg_Profiles r) (dg_ServerConfig r) (dg_Traffic r)
    (dg_Logs r) (dg_GeneratedAt r) (dg_ConnectionHistory r) (dg_Reconnect r) (dg_Runtime r) (dg_Health r).

Inductive Payload :=
  | NoContent
  | MovedTo (path : string)     (* the path of the URL, before it is escaped *)
  | ErrorBody (code message requestID : string) (retryable : bool)
  | LiveBody (v : LiveStatus)
  | ReadyBody (v : ReadyStatus)
  | StatusBody (v : Status)
  | ProfilesBody (v : list Profile)
  | ProfileBody (v : Profile)
  | OperationBody (v : Operation)
  | LogsBody (v : list LogEntry)
  | TrafficBody (v : TrafficSnapshot)
  | DiagnosticsBody (v : Diagnostics)
  | UpdateBody (v : UpdateInfo)
  | WatchBody (v : WatchStart). (* then what [forward_watch] delivers *)

Record Response := mkResponse { rs_Status : Z; rs_Headers : list (string * string); rs_Body : Payload }.
#[export] Instance Response_eta : Eta Response := λ r, mkResponse (rs_Status r) (rs_Headers r) (rs_Body r).

Definition StatusOK : Z := 200.
Definition StatusCreated : Z := 201.
Definition StatusAccepted : Z := 202.
Definition StatusNoContent : Z := 204.
Definition StatusMovedPermanently : Z := 301.
Definition StatusBadRequest : Z := 400.
Definition StatusUnauthorized : Z := 401.
Definition StatusForbidden : Z := 403.
Definition StatusNotFound : Z := 404.
Definition StatusConflict : Z := 409.
Definition StatusRequestEntityTooLarge : Z := 413.
Definition StatusUnprocessableEntity : Z := 422.
Definition StatusInternalServerError : Z := 500.
Definition StatusServiceUnavailable : Z := 503.
Definition StatusGatewayTimeout : Z := 504.

(** ** The daemon *)

Class Daemon (W : Type) := {
  d_StatusFor : Actor → M W Status;
  d_TrafficFor : Actor → M W TrafficSnapshot;
  d_LogsFor : Actor → M W (list LogEntry);
  d_DiagnosticsFor : Actor → M W Diagnostics;
  d_ListProfilesFor : Actor → M W (list Profile);
  d_CreateProfileFor : Actor → ProfileCreateRequest → M W Profile;
  d_UpdateProfileFor : Actor → string → ProfileUpdateRequest → M W Profile;
  d_UpdateActiveProfileFor : Actor → string → ProfileUpdateRequest → M W Operation;
  d_DeleteProfileFor : Actor → string → M W ();
  d_ProfileIsActive : string → M W bool;
  d_ConnectionActive : M W bool;
  d_StartOperation : Actor → string → string → Command → M W Operation;
  d_OperationFor : Actor → string → M W Operation;
  d_Ready : M W ReadyStatus;
  d_WatchSince : Actor → string → Z → M W WatchStart;
  d_UpdateCheck : M W UpdateInfo;
  (* the operations that have no error *)
  d_ProfileIsActive_ok id w : ∃ w' v, d_ProfileIsActive id w = (w', Done v);
  d_ConnectionActive_ok w : ∃ w' v, d_ConnectionActive w = (w', Done v);
  d_Ready_ok w : ∃ w' v, d_Ready w = (w', Done v);
  d_WatchSince_ok actor epoch since w : ∃ w' v, d_WatchSince actor epoch since w = (w', Done v);
}.

(** ** Answers *)

Definition writeJSON (status : Z) (value : Payload) : Response :=
  mkResponse status [("Content-Type", "application/json; charset=utf-8")] value.
Definition writeError (id : string) (status : Z) (code message : string) (retryable : bool) : Response :=
  writeJSON status (ErrorBody code message id retryable).
Definition method_not_allowed (id : string) : Response :=
  writeError id StatusBadRequest "method_not_allowed" "method not allowed" false.

(** [errors.As] for the two error types [handleError] knows. *)
Fixpoint as_CodedError (e : error) : option (string * string * bool) :=
  match e with
  | ErrText _ | ErrSentinel _ _ => None
  | ErrWrap _ i _ | ErrConnect _ _ i | ErrValidation i => as_CodedError i
  | ErrCoded code message retryable _ => Some (code, message, retryable)
  | ErrJoin a b => match as_CodedError a with Some c => Some c | None => as_CodedError b end
  end.
Fixpoint as_ValidationError (e : error) : option error :=
  match e with
  | ErrText _ | ErrSentinel _ _ => None
  | ErrWrap _ i _ | ErrConnect _ _ i => as_ValidationError i
  | ErrCoded _ _ _ cause => match cause with Some i => as_ValidationError i | None => None end
  | ErrValidation _ => Some e
  | ErrJoin a b => match as_ValidationError a with Some c => Some c | None => as_ValidationError b end
  end.

(** The status of a coded error. *)
Definition coded_status (code : string) : Z :=
  if code == "identity_unavailable" then StatusUnauthorized
  else if (code == "admin_required") || (code == "machine_mode_locked") then StatusForbidden
  else if (code == "profile_not_found") || (code == "operation_not_found") then StatusNotFound
  else if code == "daemon_in_use" then StatusConflict
  else if (code == "service_closing") || (code == "cleanup_failed") || (code == "profile_transaction_pending")
          || (code == "component_unavailable") then StatusServiceUnavailable
  else if code == "random_source_failed" then StatusInternalServerError
  else StatusUnprocessableEntity.

(** What [handleError] writes for an error. *)
Definition error_report (err : error) : Z * string * string * bool :=
  let '(status, code, message, retryable) :=
    match as_CodedError err with
    | Some (code, message, retryable) => (coded_status code, code, message, retryable)
    | None =>
      match as_ValidationError err with
      | Some validation => (StatusUnprocessableEntity, "invalid_profile", error_msg validation, false)
      | None => (StatusInternalServerError, "internal_error", "internal Local API error", false)
      end
    end in
  if errors_is err CtxCanceled then (StatusConflict, "operation_canceled", "operation was canceled", retryable)
  else if errors_is err CtxDeadlineExceeded then (StatusGatewayTimeout, "operation_timeout", "operation timed out", true)
  else (status, code, message, retryable).

Definition handleError (id : string) (err : error) : Response :=
  let '(status, code, message, retryable) := error_report err in writeError id status code message retryable.

(** ** Bodies *)

Inductive decode_failure := TooLarge | NotValid.

Definition handleDecodeError (id : string) (e : decode_failure) : Response :=
  match e with
  | TooLarge => writeError id StatusRequestEntityTooLarge "request_too_large" "request body exceeds the Local API limit" false
  | NotValid => writeError id StatusBadRequest "invalid_json" "request body is not valid for this endpoint" false
  end.

(** One value of the right shape and then nothing. *)
Definition decodeJSON {A} `{!Message A} (b : Body) : decode_failure + A :=
  match txt_values (bd_text b) with
  | [] => inl (if bd_tooLarge b then TooLarge else NotValid)
  | j :: rest =>
    match unmarshal j with
    | inl _ => inl NotValid
    | inr a =>
      match rest with
      | _ :: _ => inl NotValid
      | [] => if bd_tooLarge b then inl TooLarge else if txt_junk (bd_text b) then inl NotValid else inr a
      end
    end
  end.

(** [pathID]; [None] stands for its one error. *)
Definition pathID (path prefix : string) : option string :=
  let raw := TrimPrefix path prefix in
  if (raw == "") || Contains raw "/" then None
  else
    id ← PathUnescape raw;
    if (id == "") || contains_byte id "/" || contains_byte id "\" then None else Some id.

Section handlers.
Context {W : Type} `{!Daemon W}.
Notation H := (M W Response).

(** [if err != nil { s.handleError(w, r, err); return }]. *)
Definition or_error {A} (id : string) (m : M W A) (k : A → H) : H :=
  r ← try m;
  match r with inl err => mret (handleError id err) | inr a => k a end.

Definition requireMethod (id method : string) (rq : Request) (k : H) : H :=
  if rq_Method rq == method then k else mret (method_not_allowed id).

Definition identity_unavailable : error :=
  coded "identity_unavailable" "local client identity is unavailable" None.

(** [s.actor(r)]. *)
Definition with_actor (id : string) (rq : Request) (k : Actor → H) : H :=
  match rq_Actor rq with
  | Some actor => if ac_ID actor == "" then mret (handleError id identity_unavailable) else k actor
  | None => mret (handleError id identity_unavailable)
  end.

Definition with_body {A} `{!Message A} (id : string) (rq : Request) (k : A → H) : H :=
  match decodeJSON (rq_Body rq) with inl e => mret (handleDecodeError id e) | inr a => k a end.

(** A read of the daemon that is answered with its value. *)
Definition answer {A} (id : string) (status : Z) (m : M W A) (body : A → Payload) : H :=
  or_error id m (λ a, mret (writeJSON status (body a))).

Definition LocalAPICapabilities : list string :=
  ["component-health"; "machine-mode"; "operations"; "profile-scope"; "structured-errors"; "watch-replay"].
Definition LocalAPIMajor : Z := 2.

Definition handleLive (id : string) (rq : Request) : H :=
  requireMethod id "GET" rq
    (mret (writeJSON StatusOK (LiveBody (mkLiveStatus "ok" build_Version LocalAPIMajor LocalAPICapabilities)))).

Definition handleReady (id : string) (rq : Request) : H :=
  requireMethod id "GET" rq
    (ready ← d_Ready;
     mret (writeJSON (if rdy_Ready ready then StatusOK else StatusServiceUnavailable) (ReadyBody ready))).

Definition handleStatus (id : string) (rq : Request) : H :=
  requireMethod id "GET" rq (with_actor id rq (λ actor, answer id StatusOK (d_StatusFor actor) StatusBody)).

Definition handleProfiles (id : string) (rq : Request) : H :=
  with_actor id rq (λ actor,
    if rq_Method rq == "GET" then answer id StatusOK (d_ListProfilesFor actor) ProfilesBody
    else if rq_Method rq == "POST" then
      with_body id rq (λ req, answer id StatusCreated (d_CreateProfileFor actor req) ProfileBody)
    else mret (method_not_allowed id)).

Definition handleProfile (id : string) (rq : Request) : H :=
  with_actor id rq (λ actor,
    match pathID (rq_Path rq) "/v2/profiles/" with
    | None => mret (writeError id StatusBadRequest "invalid_profile_id" "invalid resource ID" false)
    | Some profile =>
      if rq_Method rq == "PATCH" then
        with_body id rq (λ req,
          active ← d_ProfileIsActive profile;
          if active : bool then answer id StatusAccepted (d_UpdateActiveProfileFor actor profile req) OperationBody
          else answer id StatusOK (d_UpdateProfileFor actor profile req) ProfileBody)
      else if rq_Method rq == "DELETE" then
        active ← d_ProfileIsActive profile;
        if active : bool then
          answer id StatusAccepted (d_StartOperation actor "profile-delete" profile (CmdDeleteProfile actor profile)) OperationBody
        else or_error id (d_DeleteProfileFor actor profile) (λ _, mret (mkResponse StatusNoContent [] NoContent))
      else mret (method_not_allowed id)
    end).

Definition handleConnection (id : string) (rq : Request) : H :=
  with_actor id rq (λ actor,
    if rq_Method rq == "PUT" then
      with_body id rq (λ req,
        if TrimSpace (cq_ProfileID req) == "" then
          mret (writeError id StatusUnprocessableEntity "profile_id_required" "profile_id is required" false)
        else
          answer id StatusAccepted
            (d_StartOperation actor "connect" (cq_ProfileID req) (CmdConnect actor (cq_ProfileID req))) OperationBody)
    else if rq_Method rq == "DELETE" then
      active ← d_ConnectionActive;
      if negb active then mret (mkResponse StatusNoContent [] NoContent)
      else answer id StatusAccepted (d_StartOperation actor "disconnect" "" (CmdDisconnect actor)) OperationBody
    else mret (method_not_allowed id)).

Definition handleControlMode (id : string) (rq : Request) : H :=
  requireMethod id "PUT" rq (with_actor id rq (λ actor,
    with_body id rq (λ req,
      answer id StatusAccepted
        (d_StartOperation actor "control-mode" (cm_ProfileID req) (CmdControlMode actor req)) OperationBody))).

Definition handleOperation (id : string) (rq : Request) : H :=
  requireMethod id "GET" rq (with_actor id rq (λ actor,
    match pathID (rq_Path rq) "/v2/operations/" with
    | None => mret (writeError id StatusBadRequest "invalid_operation_id" "invalid resource ID" false)
    | Some op => answer id StatusOK (d_OperationFor actor op) OperationBody
    end)).

(** Every connection of the listener can be flushed, so the stream starts. *)
Definition handleWatch (id : string) (rq : Request) : H :=
  requireMethod id "GET" rq (with_actor id rq (λ actor,
    let query := parse_query (rq_RawQuery rq) in
    let raw := query_Get query "since" in
    match (if raw == "" then Some 0 else ParseUint raw) with
    | None => mret (writeError id StatusBadRequest "invalid_revision" "since must be an unsigned integer" false)
    | Some since =>
      start ← d_WatchSince actor (query_Get query "epoch") since;
      mret (mkResponse StatusOK [("Content-Type", "application/x-ndjson")] (WatchBody start))
    end)).

Definition handleLogs (id : string) (rq : Request) : H :=
  requireMethod id "GET" rq (with_actor id rq (λ actor, answer id StatusOK (d_LogsFor actor) LogsBody)).
Definition handleTraffic (id : string) (rq : Request) : H :=
  requireMethod id "GET" rq (with_actor id rq (λ actor, answer id StatusOK (d_TrafficFor actor) TrafficBody)).
Definition handleDiagnostics (id : string) (rq : Request) : H :=
  requireMethod id "GET" rq (with_actor id rq (λ actor, answer id StatusOK (d_DiagnosticsFor actor) DiagnosticsBody)).
Definition handleUpdateCheck (id : string) (rq : Request) : H :=
  requireMethod id "GET" rq (answer id StatusOK d_UpdateCheck UpdateBody).

(** ** Routing

    The patterns of [routes] as http.ServeMux matches them: segment by segment,
    unescaped; a path that is not clean, and the one pattern that only exists
    with a slash at its end, are redirected. *)

Inductive route :=
  | RLive | RReady | RStatus | RProfiles | RProfile | RConnection | RControlMode | ROperation | RWatch | RLogs
  | RTraffic | RDiagnostics | RUpdateCheck | RNotFound | RMoved (path : string).

Definition segment (raw : string) : string := default raw (PathUnescape raw).
Definition path_segments (path : string) : list string := segment <$> split_byte (drop_str 1 path) "/".

Definition routes (segments : list string) : route :=
  match segments with
  | [v2; name] =>
    if v2 == "v2" then
      if name == "live" then RLive else if name == "ready" then RReady else if name == "status" then RStatus
      else if name == "profiles" then RProfiles else if name == "connection" then RConnection
      else if name == "control-mode" then RControlMode else if name == "watch" then RWatch
      else if name == "logs" then RLogs else if name == "traffic" then RTraffic
      else if name == "diagnostics" then RDiagnostics
      else if name == "operations" then RMoved "/v2/operations/" else RNotFound
    else RNotFound
  | v2 :: name :: rest =>
    if (v2 == "v2") && (name == "profiles") then RProfile
    else if (v2 == "v2") && (name == "operations") then ROperation
    else if (v2 == "v2") && (name == "update") && bool_decide (rest = ["check"]) then RUpdateCheck
    else RNotFound
  | _ => RNotFound
  end.

Definition mux (method path : string) : route :=
  let clean := if method == "CONNECT" then path else cleanPath path in
  match routes (path_segments clean) with
  | RMoved target => RMoved target
  | r => if clean == path then r else RMoved clean
  end.

Definition serve_route (r : route) (id : string) (rq : Request) : H :=
  match r with
  | RLive => handleLive id rq | RReady => handleReady id rq | RStatus => handleStatus id rq
  | RProfiles => handleProfiles id rq | RProfile => handleProfile id rq | RConnection => handleConnection id rq
  | RControlMode => handleControlMode id rq | ROperation => handleOperation id rq | RWatch => handleWatch id rq
  | RLogs => handleLogs id rq | RTraffic => handleTraffic id rq | RDiagnostics => handleDiagnostics id rq
  | RUpdateCheck => handleUpdateCheck id rq
  | RNotFound => mret (writeError id StatusNotFound "endpoint_not_found" "Local API endpoint not found" false)
  | RMoved path => mret (mkResponse StatusMovedPermanently [("Location", path)] (MovedTo path))
  end.

(** ** The gate *)

Definition allowedBrowserSource (value : string) : bool :=
  let value := TrimSpace value in
  if value == "" then true
  else match url_Parse value with
       | Some u => (url_Scheme u == "http") && (url_Host u == LocalAPIHost)
       | None => false
       end.

Definition common_headers (id : string) : list (string * string) :=
  [("X-FlexConnect-Request-ID", id); ("X-Content-Type-Options", "nosniff");
   ("Content-Security-Policy", "default-src 'none'; frame-ancestors 'none'"); ("Referrer-Policy", "no-referrer");
   ("Cache-Control", "no-store")].

Definition gate (id : string) (rq : Request) : H :=
  if rq_Host rq != LocalAPIHost then mret (writeError id StatusBadRequest "invalid_host" "invalid Local API host" false)
  else if negb (allowedBrowserSource (rq_Origin rq)) || negb (allowedBrowserSource (rq_Referer rq)) then
    mret (writeError id StatusForbidden "browser_source_rejected" "browser source is not allowed" false)
  else if maxRequestBodyBytes <? rq_ContentLength rq then
    mret (writeError id StatusRequestEntityTooLarge "request_too_large" "request body exceeds the Local API limit" false)
  else serve_route (mux (rq_Method rq) (rq_Path rq)) id rq.

(** The server: its request counter and the daemon behind it. *)
Record Server := mkServer { sr_nextID : Z; sr_daemon : W }.

Definition nextID (s : Server) : Z := (sr_nextID s + 1) mod 2 ^ 64.

Definition Handler (rq : Request) : M Server Response := λ s,
  let id := Itoa (nextID s) in
  let '(w, o) := gate id rq (sr_daemon s) in
  (mkServer (nextID s) w,
   match o with
   | Done r => Done (r <| rs_Headers ::= λ l, common_headers id ++ l |>)
   | Failed e => Failed e
   | Crashed => Crashed
   end).

(** ** What a handler answers *)

Definition responds (P : Response → Prop) (m : H) : Prop :=
  ∀ w, match (m w).2 with Done r => P r | Failed _ => False | Crashed => True end.

Lemma responds_ret (P : Response → Prop) r : P r → responds P (mret r).
Proof. by intros H w. Qed.

Lemma responds_or_error {A} (P : Response → Prop) id (m : M W A) k :
  (∀ err, P (handleError id err)) → (∀ a, responds P (k a)) → responds P (or_error id m k).
Proof.
  intros He Hk w. unfold or_error, try, mbind, M_bind. destruct (m w) as [w' [a|e|]]; [apply Hk|apply He|done].
Qed.

Lemma responds_answer {A} (P : Response → Prop) id status (m : M W A) body :
  (∀ err, P (handleError id err)) → (∀ a, P (writeJSON status (body a))) → responds P (answer id status m body).
Proof. intros He Hk. apply responds_or_error; [done|]. intros a. apply responds_ret, Hk. Qed.

Lemma responds_method (P : Response → Prop) id method rq k :
  P (method_not_allowed id) → responds P k → responds P (requireMethod id method rq k).
Proof. intros H1 H2. unfold requireMethod. destruct (_ == _); [done|by apply responds_ret]. Qed.

Lemma responds_actor (P : Response → Prop) id rq k :
  (∀ err, P (handleError id err)) → (∀ a, responds P (k a)) → responds P (with_actor id rq k).
Proof.
  intros He Hk. unfold with_actor. destruct (rq_Actor rq); [destruct (_ == _); [by apply responds_ret|apply Hk]|by apply responds_ret].
Qed.

Lemma responds_body {A} `{!Message A} (P : Response → Prop) id rq (k : A → H) :
  (∀ e, P (handleDecodeError id e)) → (∀ a, responds P (k a)) → responds P (with_body id rq k).
Proof. intros He Hk. unfold with_body. destruct (decodeJSON _); [by apply responds_ret|apply Hk]. Qed.

Lemma responds_bind {A} (P : Response → Prop) (m : M W A) k :
  (∀ w, ∃ w' v, m w = (w', Done v)) → (∀ a, responds P (k a)) → responds P (a ← m; k a).
Proof. intros Hm Hk w. destruct (Hm w) as (w' & v & E). unfold mbind, M_bind. rewrite E. apply Hk. Qed.

(** The status, the kind of body and the request number agree, and the body
    is one of those of the endpoint. *)
Definition body_of (r : route) (p : Payload) : bool :=
  match p, r with
  | ErrorBody _ _ _ _, _ | MovedTo _, RMoved _ | NoContent, (RProfile | RConnection)
  | LiveBody _, RLive | ReadyBody _, RReady | StatusBody _, RStatus | ProfilesBody _, RProfiles
  | ProfileBody _, (RProfiles | RProfile) | OperationBody _, (RProfile | RConnection | RControlMode | ROperation)
  | LogsBody _, RLogs | TrafficBody _, RTraffic | DiagnosticsBody _, RDiagnostics | UpdateBody _, RUpdateCheck
  | WatchBody _, RWatch => true
  | _, _ => false
  end.

Definition status_fits (id : string) (rs : Response) : Prop :=
  match rs_Body rs with
  | NoContent => rs_Status rs = StatusNoContent
  | MovedTo _ => rs_Status rs = StatusMovedPermanently
  | ErrorBody _ _ id' _ => 400 ≤ rs_Status rs ≤ 504 ∧ id' = id
  | ReadyBody v => rs_Status rs = if rdy_Ready v then StatusOK else StatusServiceUnavailable
  | _ => StatusOK ≤ rs_Status rs ≤ StatusAccepted
  end.
Definition typed (id : string) (r : route) (rs : Response) : Prop :=
  status_fits id rs ∧ body_of r (rs_Body rs) = true.

Lemma typed_error id r status code message retryable :
  400 ≤ status ≤ 504 → typed id r (writeError id status code message retryable).
Proof. by split. Qed.

Lemma coded_status_range code : 400 ≤ coded_status code ≤ 504.
Proof. unfold coded_status. repeat case_match; split; discriminate. Qed.

Lemma error_report_range err : 400 ≤ (error_report err).1.1.1 ≤ 504.
Proof.
  unfold error_report. destruct (as_CodedError err) as [[[code message] retryable]|]; [|destruct (as_ValidationError err)];
    destruct (errors_is err CtxCanceled), (errors_is err CtxDeadlineExceeded);
    first [apply coded_status_range | split; discriminate].
Qed.

Lemma typed_handleError id r err : typed id r (handleError id err).
Proof.
  unfold handleError. pose proof (error_report_range err). destruct (error_report err) as [[[status code] message] retryable].
  by apply typed_error.
Qed.
Lemma typed_decode id r e : typed id r (handleDecodeError id e).
Proof. destruct e; apply typed_error; split; discriminate. Qed.
Lemma typed_method id r : typed id r (method_not_allowed id).
Proof. apply typed_error; split; discriminate. Qed.
Lemma typed_OK id r rs :
  body_of r (rs_Body rs) = true → status_fits id rs → typed id r rs.
Proof. by split. Qed.

#[local] Hint Resolve responds_ret responds_answer responds_method responds_actor responds_body : responds.
#[local] Hint Resolve typed_handleError typed_decode typed_method : responds.
#[local] Hint Extern 1 (typed _ _ (writeError _ _ _ _ _)) => apply typed_error; split; discriminate : responds.
#[local] Hint Extern 2 (typed _ _ _) => apply typed_OK; [reflexivity|split; discriminate] : responds.
#[local] Hint Extern 3 (typed _ _ _) => apply typed_OK; reflexivity : responds.

Lemma profile_typed id rq : responds (typed id RProfile) (handleProfile id rq).
Proof.
  apply responds_actor; [auto with responds|]. intros actor.
  destruct (pathID _ _) as [profile|]; [|auto with responds].
  destruct (_ == "PATCH"); [|destruct (_ == "DELETE"); [|auto with responds]].
  - apply responds_body; [auto with responds|]. intros req. apply responds_bind; [apply d_ProfileIsActive_ok|].
    intros []; auto with responds.
  - apply responds_bind; [apply d_ProfileIsActive_ok|]. intros []; [auto with responds|].
    apply responds_or_error; auto with responds.
Qed.

Lemma connection_typed id rq : responds (typed id RConnection) (handleConnection id rq).
Proof.
  apply responds_actor; [auto with responds|]. intros actor.
  destruct (_ == "PUT"); [|destruct (_ == "DELETE"); [|auto with responds]].
  - apply responds_body; [auto with responds|]. intros req. destruct (_ == ""); auto with responds.
  - apply responds_bind; [apply d_ConnectionActive_ok|]. intros []; cbn [negb]; auto with responds.
Qed.

Lemma watch_typed id rq : responds (typed id RWatch) (handleWatch id rq).
Proof.
  apply responds_method; [auto with responds|]. apply responds_actor; [auto with responds|]. intros actor. cbv zeta.
  destruct (if _ == "" then _ else _); [|auto with responds]. apply responds_bind; [apply d_WatchSince_ok|]. auto with responds.
Qed.

Lemma serve_route_typed r id rq : responds (typed id r) (serve_route r id rq).
Proof.
  destruct r; cbn [serve_route].
  - apply responds_method; auto with responds.
  - apply responds_method; [auto with responds|]. apply responds_bind; [apply d_Ready_ok|]. intros v. apply responds_ret. by split.
  - apply responds_method; [auto with responds|]. apply responds_actor; auto with responds.
  - apply responds_actor; [auto with responds|]. intros actor.
    destruct (_ == "GET"); [|destruct (_ == "POST")]; auto with responds.
  - apply profile_typed.
  - apply connection_typed.
  - apply responds_method; [auto with responds|]. apply responds_actor; [auto with responds|]. intros actor.
    apply responds_body; auto with responds.
  - apply responds_method; [auto with responds|]. apply responds_actor; [auto with responds|]. intros actor.
    destruct (pathID _ _); auto with responds.
  - apply watch_typed.
  - apply responds_method; [auto with responds|]. apply responds_actor; auto with responds.
  - apply responds_method; [auto with responds|]. apply responds_actor; auto with responds.
  - apply responds_method; [auto with responds|]. apply responds_actor; auto with responds.
  - apply responds_method; auto with responds.
  - auto with responds.
  - apply responds_ret. by split.
Qed.

Lemma gate_typed id rq : responds (typed id (mux (rq_Method rq) (rq_Path rq))) (gate id rq).
Proof.
  unfold gate. destruct (rq_Host rq != LocalAPIHost); [auto with responds|].
  destruct (_ || _); [auto with responds|]. destruct (maxRequestBodyBytes <? _); [auto with responds|]. apply serve_route_typed.
Qed.

(** ** Who reaches the daemon *)

Definition method_allowed (r : route) (method : string) : bool :=
  match r with
  | RProfiles => (method == "GET") || (method == "POST")
  | RProfile => (method == "PATCH") || (method == "DELETE")
  | RConnection => (method == "PUT") || (method == "DELETE")
  | RControlMode => method == "PUT"
  | RNotFound | RMoved _ => false
  | _ => method == "GET"
  end.

(** The endpoints that ask nobody who they are. *)
Definition public (r : route) : bool := match r with RLive | RReady | RUpdateCheck => true | _ => false end.

Definition identified (rq : Request) : bool :=
  match rq_Actor rq with Some actor => ac_ID actor != "" | None => false end.

Definition decodes (A : Type) `{!Message A} (rq : Request) : bool :=
  match decodeJSON (A:=A) (rq_Body rq) with inl _ => false | inr _ => true end.

(** The resource the path names and the body the method needs are there. *)
Definition arguments_ok (r : route) (rq : Request) : bool :=
  match r with
  | RProfile => bool_decide (is_Some (pathID (rq_Path rq) "/v2/profiles/"))
                && ((rq_Method rq == "DELETE") || decodes ProfileUpdateRequest rq)
  | ROperation => bool_decide (is_Some (pathID (rq_Path rq) "/v2/operations/"))
  | RProfiles => (rq_Method rq == "GET") || decodes ProfileCreateRequest rq
  | RConnection => (rq_Method rq == "DELETE") || decodes ConnectionRequest rq
  | RControlMode => decodes ControlModeRequest rq
  | _ => true
  end.

Definition admitted (rq : Request) : bool :=
  let r := mux (rq_Method rq) (rq_Path rq) in
  (rq_Host rq == LocalAPIHost) && allowedBrowserSource (rq_Origin rq) && allowedBrowserSource (rq_Referer rq)
  && (rq_ContentLength rq <=? maxRequestBodyBytes) && method_allowed r (rq_Method rq)
  && (public r || identified rq) && arguments_ok r rq.

(** A refusal does nothing but answer, and the answer says so. *)
Definition refused (m : H) : Prop :=
  ∃ rs, m = mret rs ∧ match rs_Body rs with ErrorBody _ _ _ _ | MovedTo _ => True | _ => False end.

Lemma refused_ret rs :
  match rs_Body rs with ErrorBody _ _ _ _ | MovedTo _ => True | _ => False end → refused (mret rs).
Proof. by exists rs. Qed.

Lemma refused_actor id rq k : identified rq = false → refused (with_actor id rq k).
Proof.
  unfold identified, with_actor. destruct (rq_Actor rq) as [a|]; [destruct (ac_ID a == "")|]; intros H; try done; by apply refused_ret.
Qed.

Lemma refused_or_actor id rq k : (∀ a, refused (k a)) → refused (with_actor id rq k).
Proof. intros Hk. unfold with_actor. destruct (rq_Actor rq) as [a|]; [destruct (ac_ID a == "")|]; first [apply Hk|by apply refused_ret]. Qed.

Lemma refused_method id method rq k : (rq_Method rq == method) = false → refused (requireMethod id method rq k).
Proof. intros H. unfold requireMethod. rewrite H. by apply refused_ret. Qed.
Lemma refused_or_method id method rq k : refused k → refused (requireMethod id method rq k).
Proof. intros H. unfold requireMethod. destruct (_ == _); [done|by apply refused_ret]. Qed.

Lemma refused_body {A} `{!Message A} id rq (k : A → H) : decodes A rq = false → refused (with_body id rq k).
Proof.
  unfold decodes, with_body. destruct (decodeJSON _) as [e|]; [|done]. intros _. by apply refused_ret; destruct e.
Qed.

Lemma refused_option {A} (o : option A) (k : A → H) rs :
  match rs_Body rs with ErrorBody _ _ _ _ | MovedTo _ => True | _ => False end →
  (∀ a, o = Some a → refused (k a)) → refused (match o with None => mret rs | Some a => k a end).
Proof. intros H Hk. destruct o; [by apply Hk|by apply refused_ret]. Qed.

Lemma refused_read id rq k : (rq_Method rq == "GET") && identified rq = false → refused (requireMethod id "GET" rq (with_actor id rq k)).
Proof. intros [E|E]%andb_false_iff; [by apply refused_method|]. by apply refused_or_method, refused_actor. Qed.

Lemma refused_profiles id rq :
  method_allowed RProfiles (rq_Method rq) && identified rq && arguments_ok RProfiles rq = false → refused (handleProfiles id rq).
Proof.
  intros [[E|E]%andb_false_iff|E]%andb_false_iff; [|by apply refused_actor|]; apply refused_or_actor; intros a; cbn in E.
  - apply orb_false_iff in E as [-> ->]. by apply refused_ret.
  - apply orb_false_iff in E as [-> E]. destruct (_ == _); [by apply refused_body|by apply refused_ret].
Qed.

Lemma refused_profile id rq :
  method_allowed RProfile (rq_Method rq) && identified rq && arguments_ok RProfile rq = false → refused (handleProfile id rq).
Proof.
  intros [[E|E]%andb_false_iff|E]%andb_false_iff; [|by apply refused_actor|]; apply refused_or_actor; intros a; cbn in E.
  - apply refused_option; [done|]. intros i _. apply orb_false_iff in E as [-> ->]. by apply refused_ret.
  - apply refused_option; [done|]. intros i Ei. rewrite Ei, bool_decide_eq_true_2 in E by done. cbn in E.
    apply orb_false_iff in E as [-> E]. destruct (_ == _); [by apply refused_body|by apply refused_ret].
Qed.

Lemma refused_connection id rq :
  method_allowed RConnection (rq_Method rq) && identified rq && arguments_ok RConnection rq = false → refused (handleConnection id rq).
Proof.
  intros [[E|E]%andb_false_iff|E]%andb_false_iff; [|by apply refused_actor|]; apply refused_or_actor; intros a; cbn in E.
  - apply orb_false_iff in E as [-> ->]. by apply refused_ret.
  - apply orb_false_iff in E as [-> E]. destruct (_ == _); [by apply refused_body|by apply refused_ret].
Qed.

Lemma refused_mode id rq :
  method_allowed RControlMode (rq_Method rq) && identified rq && arguments_ok RControlMode rq = false → refused (handleControlMode id rq).
Proof.
  intros [[E|E]%andb_false_iff|E]%andb_false_iff; [by apply refused_method| |]; apply refused_or_method; [by apply refused_actor|].
  apply refused_or_actor. intros a. by apply refused_body.
Qed.

Lemma refused_operation id rq :
  method_allowed ROperation (rq_Method rq) && identified rq && arguments_ok ROperation rq = false → refused (handleOperation id rq).
Proof.
  intros [E|E]%andb_false_iff; [by apply refused_read|]. apply refused_or_method, refused_or_actor. intros a.
  apply refused_option; [done|]. intros i Ei. cbn in E. by rewrite Ei, bool_decide_eq_true_2 in E.
Qed.

Lemma refused_route r id rq :
  method_allowed r (rq_Method rq) && (public r || identified rq) && arguments_ok r rq = false → refused (serve_route r id rq).
Proof.
  intros E. destruct r; cbn [serve_route public orb] in *;
    first [by apply refused_profiles | by apply refused_profile | by apply refused_connection | by apply refused_mode
          |by apply refused_operation | idtac];
    cbn [method_allowed arguments_ok] in E; rewrite ?andb_true_r in E;
    first [by apply refused_read | by apply refused_method | by apply refused_ret].
Qed.

Lemma refused_gate id rq : admitted rq = false → refused (gate id rq).
Proof.
  intros E. unfold admitted in E. unfold gate. destruct (rq_Host rq == LocalAPIHost); [|by apply refused_ret].
  destruct (allowedBrowserSource (rq_Origin rq)); [|by apply refused_ret].
  destruct (allowedBrowserSource (rq_Referer rq)); [|by apply refused_ret]. cbn [andb negb orb] in *.
  destruct (maxRequestBodyBytes <? rq_ContentLength rq) eqn:El; [by apply refused_ret|].
  apply Z.ltb_ge, Z.leb_le in El. rewrite El in E. cbn in E. by apply refused_route.
Qed.

(** ** What a request may change

    A predicate that every operation keeps, called for the request's actor, is
    kept by the request. *)
Record keeps (I : W → Prop) (actor : Actor) : Prop := {
  k_StatusFor : preserves I (d_StatusFor actor);
  k_TrafficFor : preserves I (d_TrafficFor actor);
  k_LogsFor : preserves I (d_LogsFor actor);
  k_DiagnosticsFor : preserves I (d_DiagnosticsFor actor);
  k_ListProfilesFor : preserves I (d_ListProfilesFor actor);
  k_CreateProfileFor req : preserves I (d_CreateProfileFor actor req);
  k_UpdateProfileFor id req : preserves I (d_UpdateProfileFor actor id req);
  k_UpdateActiveProfileFor id req : preserves I (d_UpdateActiveProfileFor actor id req);
  k_DeleteProfileFor id : preserves I (d_DeleteProfileFor actor id);
  k_ProfileIsActive id : preserves I (d_ProfileIsActive id);
  k_ConnectionActive : preserves I d_ConnectionActive;
  k_StartOperation kind id command : preserves I (d_StartOperation actor kind id command);
  k_OperationFor id : preserves I (d_OperationFor actor id);
  k_WatchSince epoch since : preserves I (d_WatchSince actor epoch since);
}.

Lemma preserves_or_error {A} I id (m : M W A) k : preserves I m → (∀ a, preserves I (k a)) → preserves I (or_error id m k).
Proof. intros Hm Hk. apply preserves_bind; [by apply preserves_try|]. intros []; [apply preserves_ret|apply Hk]. Qed.
Lemma preserves_answer {A} I id status (m : M W A) body : preserves I m → preserves I (answer id status m body).
Proof. intros Hm. apply preserves_or_error; [done|]. intros a. apply preserves_ret. Qed.
Lemma preserves_method I id method rq k : preserves I k → preserves I (requireMethod id method rq k).
Proof. intros Hk. unfold requireMethod. destruct (_ == _); [done|apply preserves_ret]. Qed.
Lemma preserves_actor I id rq k :
  (∀ actor, rq_Actor rq = Some actor → preserves I (k actor)) → preserves I (with_actor id rq k).
Proof.
  intros Hk. unfold with_actor. destruct (rq_Actor rq) as [a|]; [destruct (_ == _); [apply preserves_ret|by apply Hk]|apply preserves_ret].
Qed.
Lemma preserves_body {A} `{!Message A} I id rq (k : A → H) : (∀ a, preserves I (k a)) → preserves I (with_body id rq k).
Proof. intros Hk. unfold with_body. destruct (decodeJSON _); [apply preserves_ret|apply Hk]. Qed.

Lemma gate_preserves I id rq :
  preserves I d_Ready → preserves I d_UpdateCheck → (∀ actor, rq_Actor rq = Some actor → keeps I actor) →
  preserves I (gate id rq).
Proof.
  intros Hr Hu Hk. unfold gate. do 3 (case_match; [apply preserves_ret|]).
  set (path := mux _ _). clearbody path. destruct path; cbn [serve_route];
    repeat first
      [ apply preserves_ret | apply preserves_method | apply preserves_actor; intros actor Ha
      | apply preserves_body; intros ? | assumption
      | match goal with
        | |- preserves I (answer _ _ _ _) => apply preserves_answer
        | |- preserves I (or_error _ _ _) => apply preserves_or_error; [|intros ?]
        | |- preserves I (mbind _ _) => apply preserves_bind; [|intros ?]
        | Ha : rq_Actor rq = Some ?actor |- preserves I _ => solve [apply (Hk actor Ha)]
        end
      | progress cbv zeta | case_match ].
Qed.
End handlers.
Arguments Server W : clear implicits.

(** C8: Only requests that are addressed to the Local API, come from no other
    web page, fit, use a method of their endpoint, carry an identity (unless
    the endpoint asks for none) and name what the endpoint needs reach the
    daemon: any other request leaves it exactly as it was and is answered with
    an error or a redirection. *)
Theorem gate_keeps_out {W} `{!Daemon W} rq (s : Server W) :
  admitted rq = false →
  ∃ rs, Handler rq s = (mkServer (nextID s) (sr_daemon s), Done rs) ∧
    match rs_Body rs with
    | ErrorBody _ _ id _ => 400 ≤ rs_Status rs ≤ 504 ∧ id = Itoa (nextID s)
    | MovedTo _ => rs_Status rs = StatusMovedPermanently
    | _ => False
    end.
Proof.
  intros E. destruct (refused_gate (Itoa (nextID s)) rq E) as (rs & Hg & Hb).
  pose proof (gate_typed (Itoa (nextID s)) rq (sr_daemon s)) as Ht. unfold Handler. rewrite Hg in *. cbn in Ht |- *.
  eexists. split; [reflexivity|]. destruct Ht as [Ht _]. unfold status_fits in Ht. cbn. by destruct (rs_Body rs).
Qed.

(** C28: Every request gets exactly one well formed answer: the request's own
    number (the counter modulo 2^64) in its header and in an error's body, the
    security headers, a status that agrees with the kind of body, and a body
    of the type the endpoint declares. *)
Theorem handler_typed {W} `{!Daemon W} rq (s : Server W) :
  match Handler rq s with
  | (s', Done rs) =>
    sr_nextID s' = nextID s ∧ take 5 (rs_Headers rs) = common_headers (Itoa (nextID s)) ∧
    typed (Itoa (nextID s)) (mux (rq_Method rq) (rq_Path rq)) rs
  | (_, Failed _) => False
  | (_, Crashed) => True
  end.
Proof.
  pose proof (gate_typed (Itoa (nextID s)) rq (sr_daemon s)) as Ht. unfold Handler.
  destruct (gate _ rq (sr_daemon s)) as [w [rs|e|]]; cbn in Ht |- *; done.
Qed.
