(* ===== verification/LocalClient.v ===== *)
(** * The Local API client (src/client/local/local.go)

    The methods programs call on [Client], over any transport; then the same
    methods over the server of ApiServer.v, where each of them is the
    daemon's operation it is named after. *)

From S2P Require Import Prelude GoStrings NetIP Types Json NetURL Escape Wire Service Access Appd ApiServer.

Open Scope go_scope.
Open Scope Z_scope.

(** ** Results *)

Inductive client_error :=
  | APIError (status : Z) (code message requestID : string) (retryable : bool)
  | IncompatibleAPIError (daemon : Z)
  | MissingCapability (capability : string)
  | NotReadyError (status : ReadyStatus)
  | TransportError (err : error)
  | DecodeError.

Definition C (W A : Type) : Type := W → W * (client_error + A).
#[export] Instance C_ret W : MRet (C W) := λ A a w, (w, inr a).
#[export] Instance C_bind W : MBind (C W) := λ A B f m w,
  match m w with (w', inr a) => f a w' | (w', inl e) => (w', inl e) end.
Definition throw {W A} (e : client_error) : C W A := λ w, (w, inl e).

Record LoginRequest := mkLoginRequest {
  lq_ProfileID : string; lq_Name : string; lq_ServerURL : string; lq_Username : string; lq_Group : string; lq_Password : string;
}.
Record Health := mkHealth { hl_Status : string; hl_Version : string; hl_APIVersion : string }.
Inductive ProfileMutationResult := MutatedProfile (p : Profile) | StartedOperation (op : Operation).

(** [NotReadyError.Error]. *)
Definition not_ready_message (status : ReadyStatus) : string :=
  let problems := (λ c, if cs_Message c == "" then cs_Name c else cs_Name c +:+ ": " +:+ cs_Message c)
                    <$> List.filter (λ c, negb (cs_Ready c)) (rdy_Components status) in
  match problems with [] => "flexconnectd is not ready" | _ => "flexconnectd is not ready: " +:+ Join problems "; " end.

Section client.
Context {W : Type}.

(** The transport; the length of a printed JSON value; the text of a body that
    is no error envelope. *)
Context (transport : Request → C W Response) (size : json → Z) (text : Payload → string).

(** [do]: the body is [json.Marshal]'s, read once. *)
Definition do (method path query : string) (body : option json) : C W Response :=
  transport (mkRequest method LocalAPIHost "" "" (match body with Some j => size j | None => 0 end) path query
               (match body with Some j => mkBody (text_of j) false | None => no_body end) None).

Definition responseError (res : Response) : client_error :=
  match rs_Body res with
  | ErrorBody code message id retryable =>
    if code != "" then APIError (rs_Status res) code message id retryable
    else APIError (rs_Status res) "" (text (rs_Body res)) "" false
  | body => APIError (rs_Status res) "" (text body) "" false
  end.

(** What the decoder makes of a body of another type is not modelled. *)
Definition decode {A} (f : Payload → option A) (res : Response) : C W A :=
  match f (rs_Body res) with Some a => mret a | None => throw DecodeError end.

Definition getJSON {A} (path : string) (f : Payload → option A) : C W A :=
  res ← do "GET" path "" None;
  if rs_Status res =? StatusOK then decode f res else throw (responseError res).

Definition sendJSON {A B} `{!Message A} (method path : string) (v : A) (f : Payload → option B) (want : Z) : C W B :=
  res ← do method path "" (Some (marshal v));
  if rs_Status res =? want then decode f res else throw (responseError res).

Definition expectStatus (method path : string) (body : option json) (allowed : list Z) : C W () :=
  res ← do method path "" body;
  if existsb (λ status, rs_Status res =? status) allowed then mret () else throw (responseError res).

(** ** Reads *)

Definition as_Status (p : Payload) : option Status := match p with StatusBody v => Some v | _ => None end.
Definition as_Live (p : Payload) : option LiveStatus := match p with LiveBody v => Some v | _ => None end.
Definition as_Ready (p : Payload) : option ReadyStatus := match p with ReadyBody v => Some v | _ => None end.
Definition as_Profiles (p : Payload) : option (list Profile) := match p with ProfilesBody v => Some v | _ => None end.
Definition as_Profile (p : Payload) : option Profile := match p with ProfileBody v => Some v | _ => None end.
Definition as_Operation (p : Payload) : option Operation := match p with OperationBody v => Some v | _ => None end.
Definition as_Logs (p : Payload) : option (list LogEntry) := match p with LogsBody v => Some v | _ => None end.
Definition as_Traffic (p : Payload) : option TrafficSnapshot := match p with TrafficBody v => Some v | _ => None end.
Definition as_Diagnostics (p : Payload) : option Diagnostics := match p with DiagnosticsBody v => Some v | _ => None end.
Definition as_Update (p : Payload) : option UpdateInfo := match p with UpdateBody v => Some v | _ => None end.
Definition as_Watch (p : Payload) : option WatchStart := match p with WatchBody v => Some v | _ => None end.

Definition client_Status : C W Status := getJSON "/v2/status" as_Status.
Definition client_Logs : C W (list LogEntry) := getJSON "/v2/logs" as_Logs.
Definition client_Diagnostics : C W Diagnostics := getJSON "/v2/diagnostics" as_Diagnostics.
Definition client_Traffic : C W TrafficSnapshot := getJSON "/v2/traffic" as_Traffic.
Definition client_UpdateCheck : C W UpdateInfo := getJSON "/v2/update/check" as_Update.

(** [return out, c.getJSON(..., &out)]: the slice as it is after the call,
    which is how the compiler orders the two. *)
Definition client_Profiles : C W (list Profile) := getJSON "/v2/profiles" as_Profiles.

Definition client_Live : C W LiveStatus :=
  live ← getJSON "/v2/live" as_Live;
  if lv_APIMajor live =? LocalAPIMajor then
    match List.find (λ required, negb (existsb (String.eqb required) (lv_Capabilities live))) LocalAPICapabilities with
    | Some required => throw (MissingCapability required)
    | None => mret live
    end
  else throw (IncompatibleAPIError (lv_APIMajor live)).

Definition client_Ready : C W ReadyStatus :=
  res ← do "GET" "/v2/ready" "" None;
  if (rs_Status res =? StatusOK) || (rs_Status res =? StatusServiceUnavailable) then decode as_Ready res
  else throw (responseError res).

Definition client_Health : C W Health :=
  live ← client_Live;
  ready ← client_Ready;
  if rdy_Ready ready then mret (mkHealth "ok" (lv_Version live) (Itoa (lv_APIMajor live))) else throw (NotReadyError ready).

Definition client_CurrentProfile : C W Profile :=
  status ← client_Status;
  profiles ← client_Profiles;
  match List.find (λ p, pr_ID p == st_SelectedProfileID status) profiles with
  | Some p => mret p
  | None => throw (APIError StatusNotFound "profile_not_found" "selected profile not found" "" false)
  end.

Definition client_WatchSince (epoch : string) (since : Z) : C W WatchStart :=
  let query := "since=" +:+ Itoa since +:+ (if epoch == "" then "" else "&epoch=" +:+ QueryEscape epoch) in
  res ← do "GET" "/v2/watch" query None;
  if rs_Status res =? StatusOK then decode as_Watch res else throw (responseError res).

(** ** Commands *)

Definition create_request (profile : Profile) (password : string) : ProfileCreateRequest :=
  mkProfileCreateRequest (pr_Name profile) (pr_ServerURL profile) (pr_Username profile) password (pr_Group profile)
    (pr_Scope profile) (Some (pr_AcceptServerRoutes profile)) (pr_AutoReconnect profile) (pr_ApplyDNS profile)
    (pr_CustomInclude profile) (pr_CustomExclude profile) (pr_DNSOverrides profile) (pr_SOCKS5Enabled profile)
    (pr_SOCKS5Listen profile) (pr_MTU profile).

Definition client_CreateProfile (profile : Profile) (password : string) : C W Profile :=
  sendJSON "POST" "/v2/profiles" (create_request profile password) as_Profile StatusCreated.

Definition profile_path (id : string) : string := "/v2/profiles/" +:+ PathEscape id.

Definition client_UpdateProfile (id : string) (req : ProfileUpdateRequest) : C W ProfileMutationResult :=
  res ← do "PATCH" (profile_path id) "" (Some (marshal req));
  if rs_Status res =? StatusOK then p ← decode as_Profile res; mret (MutatedProfile p)
  else if rs_Status res =? StatusAccepted then op ← decode as_Operation res; mret (StartedOperation op)
  else throw (responseError res).

Definition route_update (req : RouteUpdateRequest) : ProfileUpdateRequest :=
  zero_update <| ur_AcceptServerRoutes := ru_AcceptServerRoutes req |> <| ur_CustomInclude := ru_CustomInclude req |>
    <| ur_CustomExclude := ru_CustomExclude req |>.
Definition client_UpdateRoutes (id : string) (req : RouteUpdateRequest) : C W Profile :=
  sendJSON "PATCH" (profile_path id) (route_update req) as_Profile StatusOK.

Definition client_DeleteProfile (id : string) : C W () :=
  expectStatus "DELETE" (profile_path id) None [StatusNoContent; StatusAccepted].

Definition stringPtrNonEmpty (value : string) : option string := if value == "" then None else Some value.
(** [fresh] is what [types.NewProfile] makes of the name. *)
Definition client_Login (fresh : error + Profile) (req : LoginRequest) : C W () :=
  if lq_ProfileID req != "" then
    _ ← client_UpdateProfile (lq_ProfileID req)
          (zero_update <| ur_Name := stringPtrNonEmpty (lq_Name req) |> <| ur_ServerURL := stringPtrNonEmpty (lq_ServerURL req) |>
             <| ur_Username := stringPtrNonEmpty (lq_Username req) |> <| ur_Group := stringPtrNonEmpty (lq_Group req) |>
             <| ur_Password := stringPtrNonEmpty (lq_Password req) |>);
    mret ()
  else
    match fresh with
    | inl err => throw (TransportError err)
    | inr profile =>
      _ ← client_CreateProfile (profile <| pr_ServerURL := lq_ServerURL req |> <| pr_Username := lq_Username req |>
             <| pr_Group := lq_Group req |> <| pr_Scope := ProfileScopeUser |>) (lq_Password req);
      mret ()
    end.

(** [Connect] and [ConnectCurrent] call each other until there is a name. *)
Fixpoint client_Connect (fuel : nat) (id : string) : C W () :=
  if id == "" then
    match fuel with
    | O => throw DecodeError
    | S fuel => profile ← client_CurrentProfile; client_Connect fuel (pr_ID profile)
    end
  else expectStatus "PUT" "/v2/connection" (Some (marshal (mkConnectionRequest id))) [StatusAccepted].

Definition client_Disconnect : C W () := expectStatus "DELETE" "/v2/connection" None [StatusNoContent; StatusAccepted].
Definition client_SetControlMode (mode profileID : string) : C W Operation :=
  sendJSON "PUT" "/v2/control-mode" (mkControlModeRequest mode profileID) as_Operation StatusAccepted.
End client.

(** ** Over the server

    The listener knows the caller; what the client sends comes to [Handler]
    with its identity. *)

Section served.
Context {W : Type} `{!Daemon W} (actor : Actor) (Hactor : (ac_ID actor == "") = false).
Context (size : json → Z) (text : Payload → string).
#[local] Set Default Proof Using "Type*".

Definition connection_lost : client_error := TransportError (ErrSentinel IoUnexpectedEOF "unexpected EOF").
Definition serve : Request → C (Server W) Response := λ rq s,
  match Handler (rq <| rq_Actor := Some actor |>) s with
  | (s, Done res) => (s, inr res)
  | (s, _) => (s, inl connection_lost)
  end.

(** An operation of the daemon as a client sees it. *)
Definition called {A} (m : M W A) : C (Server W) A := λ s,
  let '(w, o) := m (sr_daemon s) in
  (mkServer (nextID s) w,
   match o with
   | Done a => inr a
   | Failed err => inl (responseError text (handleError (Itoa (nextID s)) err))
   | Crashed => inl connection_lost
   end).

Definition fits (body : option json) : Prop :=
  match body with Some j => size j ≤ maxRequestBodyBytes | None => True end.

(** The request as the server gets it. *)
Definition incoming (method path query : string) (body : option json) : Request :=
  mkRequest method LocalAPIHost "" "" (match body with Some j => size j | None => 0 end) path query
    (match body with Some j => mkBody (text_of j) false | None => no_body end) (Some actor).

Lemma do_served method path query body s :
  fits body →
  do serve size method path query body s =
  let '(w, o) := serve_route (mux method path) (Itoa (nextID s)) (incoming method path query body) (sr_daemon s) in
  (mkServer (nextID s) w,
   match o with
   | Done r => inr (r <| rs_Headers ::= λ l, common_headers (Itoa (nextID s)) ++ l |>)
   | _ => inl connection_lost
   end).
Proof.
  intros Hf. unfold do, serve, Handler. change ((mkRequest _ _ _ _ _ _ _ _ _) <| rq_Actor := Some actor |>) with (incoming method path query body).
  assert (E : gate (Itoa (nextID s)) (incoming method path query body) (sr_daemon s) =
              serve_route (mux method path) (Itoa (nextID s)) (incoming method path query body) (sr_daemon s)).
  { unfold gate. cbn -[serve_route mux maxRequestBodyBytes]. replace (_ <? _) with false; [done|].
    symmetry. apply Z.ltb_ge. by destruct body. }
  rewrite E. by destruct (serve_route _ _ _ _) as [w [r|e|]].
Qed.

(** The handler runs [m] and answers with [reply] of its value. *)
Definition yields {A} (id : string) (h : M W Response) (m : M W A) (reply : A → Response) : Prop :=
  ∀ w, h w = let '(w, o) := m w in
             (w, match o with Done a => Done (reply a) | Failed err => Done (handleError id err) | Crashed => Crashed end).

Lemma yields_answer {A} id status (m : M W A) body : yields id (answer id status m body) m (λ a, writeJSON status (body a)).
Proof. intros w. unfold answer, or_error, try, mbind, M_bind. by destruct (m w) as [w' [a|e|]]. Qed.

Lemma yields_bind {A B} id (m : M W A) h (k : A → M W B) reply :
  (∀ w, ∃ w' v, m w = (w', Done v)) → (∀ a, yields id (h a) (k a) reply) → yields id (a ← m; h a) (a ← m; k a) reply.
Proof. intros Hm Hk w. unfold mbind, M_bind. destruct (Hm w) as (w' & v & ->). apply Hk. Qed.

Lemma yields_map {A B} id h (m : M W A) (g : A → B) reply :
  yields id h m (λ a, reply (g a)) → yields id h (a ← m; mret (g a)) reply.
Proof. intros H w. rewrite H. unfold mbind, M_bind. by destruct (m w) as [w' [a|e|]]. Qed.

Lemma error_status id err l want :
  want < 400 → (rs_Status ((handleError id err) <| rs_Headers ::= l |>) =? want) = false.
Proof.
  intros Hw. pose proof (error_report_range err). unfold handleError. destruct (error_report err) as [[[status code] message] retryable].
  cbn in *. apply Z.eqb_neq. lia.
Qed.

Definition with_headers (s : Server W) (r : Response) : Response :=
  r <| rs_Headers ::= λ l, common_headers (Itoa (nextID s)) ++ l |>.

(** The client's half of an exchange. *)
Lemma exchange {A B} method path query body (m : M W A) reply (k : Response → C (Server W) B) s :
  fits body → yields (Itoa (nextID s)) (serve_route (mux method path) (Itoa (nextID s)) (incoming method path query body)) m reply →
  (do serve size method path query body ≫= k) s =
  let '(w, o) := m (sr_daemon s) in
  match o with
  | Done a => k (with_headers s (reply a)) (mkServer (nextID s) w)
  | Failed err => k (with_headers s (handleError (Itoa (nextID s)) err)) (mkServer (nextID s) w)
  | Crashed => (mkServer (nextID s) w, inl connection_lost)
  end.
Proof.
  intros Hf Hs. unfold mbind at 1, C_bind. rewrite do_served by done. rewrite Hs.
  by destruct (m (sr_daemon s)) as [w [a|e|]].
Qed.

(** What the client makes of a reply and of an error decides the call. *)
Lemma exchange_called {A B} method path query body (m : M W A) reply (k : Response → C (Server W) B) (g : A → B) s :
  fits body → yields (Itoa (nextID s)) (serve_route (mux method path) (Itoa (nextID s)) (incoming method path query body)) m reply →
  (∀ a s', k (with_headers s (reply a)) s' = (s', inr (g a))) →
  (∀ err s', k (with_headers s (handleError (Itoa (nextID s)) err)) s' =
             (s', inl (responseError text (handleError (Itoa (nextID s)) err)))) →
  (do serve size method path query body ≫= k) s = called (a ← m; mret (g a)) s.
Proof.
  intros Hf Hy Hk He. rewrite (exchange _ _ _ _ _ _ _ _ Hf Hy). unfold called, mbind, M_bind.
  destruct (m (sr_daemon s)) as [w [a|e|]]; [apply Hk|apply He|done].
Qed.

Lemma called_ret {A} (m : M W A) s : called (a ← m; mret a) s = called m s.
Proof. unfold called, mbind, M_bind. by destruct (m (sr_daemon s)) as [w [a|e|]]. Qed.

Lemma getJSON_served {A} path (m : M W A) b f s :
  yields (Itoa (nextID s)) (serve_route (mux "GET" path) (Itoa (nextID s)) (incoming "GET" path "" None)) m
    (λ a, writeJSON StatusOK (b a)) →
  (∀ a, f (b a) = Some a) → getJSON serve size text path f s = called m s.
Proof.
  intros Hy Hf. rewrite <- called_ret. unfold getJSON. eapply exchange_called; [done|exact Hy| |].
  - intros a s'. unfold decode. cbn -[common_headers]. by rewrite Hf.
  - intros err s'. unfold with_headers. by rewrite error_status.
Qed.

Lemma sendJSON_served {A B} `{!Message A} method path (v : A) want (m : M W B) b f s :
  fits (Some (marshal v)) → want < 400 →
  yields (Itoa (nextID s)) (serve_route (mux method path) (Itoa (nextID s)) (incoming method path "" (Some (marshal v)))) m
    (λ a, writeJSON want (b a)) →
  (∀ a, f (b a) = Some a) → sendJSON serve size text method path v f want s = called m s.
Proof.
  intros Hb Hw Hy Hf. rewrite <- called_ret. unfold sendJSON. eapply exchange_called; [done|exact Hy| |].
  - intros a s'. unfold decode. cbn -[common_headers]. by rewrite Z.eqb_refl, Hf.
  - intros err s'. unfold with_headers. by rewrite error_status.
Qed.

Lemma existsb_error id err l allowed :
  Forall (λ st, st < 400) allowed →
  existsb (λ st, rs_Status ((handleError id err) <| rs_Headers ::= l |>) =? st) allowed = false.
Proof. induction 1 as [|st allowed Hst _ IH]; [done|]. cbn [existsb]. by rewrite IH, error_status. Qed.

Lemma expectStatus_served {A} method path body allowed (m : M W A) reply s :
  fits body → Forall (λ st, st < 400) allowed →
  yields (Itoa (nextID s)) (serve_route (mux method path) (Itoa (nextID s)) (incoming method path "" body)) m reply →
  (∀ a, existsb (λ st, rs_Status (reply a) =? st) allowed = true) →
  expectStatus serve size text method path body allowed s = called (_ ← m; mret ()) s.
Proof.
  intros Hf Ha Hy Hr. unfold expectStatus. eapply exchange_called; [done|exact Hy| |].
  - intros a s'. change (rs_Status (with_headers s (reply a))) with (rs_Status (reply a)). by rewrite Hr.
  - intros err s'. unfold with_headers. by rewrite existsb_error.
Qed.

(** ** Arguments *)

Lemma with_actor_served method path query body id (k : Actor → M W Response) : with_actor id (incoming method path query body) k = k actor.
Proof. unfold with_actor. cbn. by rewrite Hactor. Qed.

Lemma with_body_served {A} `{!Message A} method path query id (v : A) (k : A → M W Response) :
  sendable v → with_body id (incoming method path query (Some (marshal v))) k = k (sent v).
Proof. intros Hv. unfold with_body, decodeJSON. cbn. by rewrite (unmarshal_marshal v Hv). Qed.

(** An identifier that comes through the path. *)
Definition path_safe (id : string) : Prop :=
  plain_id id ∧ contains_byte id "/" = false ∧ contains_byte id "\" = false.

Lemma Contains_byte s c : contains_byte s c = false → Contains s (String c "") = false.
Proof.
  unfold contains_byte. induction s as [|d s IH]; [done|]. cbn [Contains index_byte]. intros H.
  destruct (Ascii.eqb d c) eqn:E; [done|]. apply orb_false_iff. split.
  - unfold HasPrefix. cbn. destruct (ascii_dec c d) as [->|]; [by rewrite Ascii.eqb_refl in E|done].
  - apply IH. apply bool_decide_eq_false in H. apply bool_decide_eq_false. intros [n Hn]. apply H. rewrite Hn. by exists (S n).
Qed.

Lemma pathID_profile id : path_safe id → pathID (profile_path id) "/v2/profiles/" = Some id.
Proof.
  intros (Hp & H1 & H2). unfold pathID, profile_path. rewrite TrimPrefix_app. destruct (PathEscape_plain id Hp) as [Hn _].
  rewrite (proj2 (eqb_false _ _) Hn), (Contains_byte _ "/"), PathUnescape_PathEscape; cbn.
  - by rewrite (proj2 (eqb_false _ _) (proj1 Hp)), H1, H2.
  - unfold contains_byte. by rewrite PathEscape_free by auto.
Qed.

Lemma mux_profile method id : (method == "CONNECT") = false → path_safe id → mux method (profile_path id) = RProfile.
Proof.
  intros Hm (Hp & _). unfold mux. rewrite Hm. change (profile_path id) with ("/v2/" +:+ "profiles" +:+ "/" +:+ PathEscape id).
  assert (Hf : index_byte (PathEscape id) "/" = None) by (apply PathEscape_free; by auto).
  rewrite cleanPath_resource; [|by split_and!|by apply PathEscape_plain|done|done].
  unfold path_segments. change (drop_str 1 ("/v2/" +:+ ?x)) with ("v2" +:+ String "/" x).
  rewrite split_byte_app by done. change ("profiles" +:+ "/" +:+ ?x) with ("profiles" +:+ String "/" x).
  rewrite split_byte_app by done. rewrite split_byte_none by done. cbn [fmap list_fmap]. 
  change (segment "v2") with "v2". change (segment "profiles") with "profiles". cbn [routes].
  cbn -[PathEscape segment cleanPath String.append]. by rewrite String.eqb_refl.
Qed.

(** ** What each method is *)

Lemma reads_served s :
  client_Status serve size text s = called (d_StatusFor actor) s ∧
  client_Profiles serve size text s = called (d_ListProfilesFor actor) s ∧
  client_Logs serve size text s = called (d_LogsFor actor) s ∧
  client_Diagnostics serve size text s = called (d_DiagnosticsFor actor) s ∧
  client_Traffic serve size text s = called (d_TrafficFor actor) s ∧
  client_UpdateCheck serve size text s = called d_UpdateCheck s.
Proof.
  split_and!; (eapply getJSON_served;
    [lazymatch goal with |- yields _ (serve_route ?r _ _) _ _ => let r' := eval vm_compute in r in change r with r' end;
     cbn [serve_route];
     unfold handleStatus, handleProfiles, handleLogs, handleDiagnostics, handleTraffic, handleUpdateCheck, requireMethod;
     cbn [rq_Method incoming]; change ("GET" == "GET") with true; cbn iota; rewrite ?with_actor_served; apply yields_answer
    |done]).
Qed.

Lemma CreateProfile_served profile password s :
  int64 (pr_MTU profile) → fits (Some (marshal (create_request profile password))) →
  client_CreateProfile serve size text profile password s =
  called (d_CreateProfileFor actor (create_request profile password)) s.
Proof.
  intros Hm Hf. apply (sendJSON_served _ _ _ _ _ ProfileBody); [done|done| |done].
  change (mux _ _) with RProfiles. cbn [serve_route]. unfold handleProfiles. rewrite with_actor_served.
  cbn [rq_Method incoming]. change ("POST" == "GET") with false. change ("POST" == "POST") with true. cbn iota.
  rewrite with_body_served by done. apply yields_answer.
Qed.

Definition mutate (id : string) (req : ProfileUpdateRequest) : M W ProfileMutationResult :=
  active ← d_ProfileIsActive id;
  if active : bool then op ← d_UpdateActiveProfileFor actor id req; mret (StartedOperation op)
  else p ← d_UpdateProfileFor actor id req; mret (MutatedProfile p).
Definition mutation_reply (r : ProfileMutationResult) : Response :=
  match r with
  | MutatedProfile p => writeJSON StatusOK (ProfileBody p)
  | StartedOperation op => writeJSON StatusAccepted (OperationBody op)
  end.

Lemma patch_yields id req i :
  path_safe id → sendable req →
  yields i (serve_route (mux "PATCH" (profile_path id)) i (incoming "PATCH" (profile_path id) "" (Some (marshal req))))
    (mutate id (sent req)) mutation_reply.
Proof.
  intros Hid Hs. rewrite mux_profile by done. cbn [serve_route]. unfold handleProfile. rewrite with_actor_served.
  cbn [rq_Path rq_Method incoming]. rewrite pathID_profile by done. change ("PATCH" == "PATCH") with true. cbn iota.
  rewrite with_body_served by done. apply yields_bind; [apply d_ProfileIsActive_ok|].
  intros []; apply yields_map, yields_answer.
Qed.

Lemma UpdateProfile_served id req s :
  path_safe id → sendable req → fits (Some (marshal req)) →
  client_UpdateProfile serve size text id req s = called (mutate id (sent req)) s.
Proof.
  intros Hid Hs Hf. rewrite <- called_ret. unfold client_UpdateProfile.
  eapply exchange_called; [done|by apply patch_yields| |].
  - intros [p|op] s'; reflexivity.
  - intros err s'. unfold with_headers. by rewrite !error_status.
Qed.

(** Only the answer of an inactive profile is what [UpdateRoutes] expects. *)
Lemma UpdateRoutes_served id req s :
  path_safe id → fits (Some (marshal (route_update req))) →
  client_UpdateRoutes serve size text id req s =
  match called (mutate id (sent (route_update req))) s with
  | (s', inr (MutatedProfile p)) => (s', inr p)
  | (s', inr (StartedOperation op)) => (s', inl (APIError StatusAccepted "" (text (OperationBody op)) "" false))
  | (s', inl e) => (s', inl e)
  end.
Proof.
  intros Hid Hf. unfold client_UpdateRoutes, sendJSON.
  rewrite (exchange _ _ _ _ _ _ _ _ Hf (patch_yields id (route_update req) _ Hid I)). unfold called.
  destruct (mutate id _ (sr_daemon s)) as [w [[p|op]|e|]]; [reflexivity|reflexivity| |reflexivity].
  unfold with_headers. by rewrite error_status.
Qed.

Definition remove (id : string) : M W (option Operation) :=
  active ← d_ProfileIsActive id;
  if active : bool then op ← d_StartOperation actor "profile-delete" id (CmdDeleteProfile actor id); mret (Some op)
  else _ ← d_DeleteProfileFor actor id; mret None.
Definition disconnected : M W (option Operation) :=
  active ← d_ConnectionActive;
  if negb active then mret None else op ← d_StartOperation actor "disconnect" "" (CmdDisconnect actor); mret (Some op).
Definition operation_reply (r : option Operation) : Response :=
  match r with Some op => writeJSON StatusAccepted (OperationBody op) | None => mkResponse StatusNoContent [] NoContent end.

Lemma DeleteProfile_served id s :
  path_safe id → client_DeleteProfile serve size text id s = called (_ ← remove id; mret ()) s.
Proof.
  intros Hid. apply (expectStatus_served _ _ _ _ _ operation_reply); [done|by repeat constructor| |by intros [?|]].
  rewrite mux_profile by done. cbn [serve_route]. unfold handleProfile. rewrite with_actor_served.
  cbn [rq_Path rq_Method incoming]. rewrite pathID_profile by done. change ("DELETE" == "PATCH") with false.
  change ("DELETE" == "DELETE") with true. cbn iota. apply yields_bind; [apply d_ProfileIsActive_ok|].
  intros []; [apply yields_map, yields_answer|]. intros w. unfold or_error, try, mbind, M_bind.
  by destruct (d_DeleteProfileFor actor id w) as [w' [[]|e|]].
Qed.

Lemma Disconnect_served s : client_Disconnect serve size text s = called (_ ← disconnected; mret ()) s.
Proof.
  apply (expectStatus_served _ _ _ _ _ operation_reply); [done|by repeat constructor| |by intros [?|]].
  change (mux _ _) with RConnection. cbn [serve_route]. unfold handleConnection. rewrite with_actor_served.
  cbn [rq_Method incoming]. change ("DELETE" == "PUT") with false. change ("DELETE" == "DELETE") with true. cbn iota.
  apply yields_bind; [apply d_ConnectionActive_ok|]. intros []; cbn [negb]; [apply yields_map, yields_answer|done].
Qed.

Lemma Connect_served fuel id s :
  TrimSpace id ≠ "" → id ≠ "" → fits (Some (marshal (mkConnectionRequest id))) →
  client_Connect serve size text fuel id s =
  called (_ ← d_StartOperation actor "connect" id (CmdConnect actor id); mret ()) s.
Proof.
  intros Hid Hn Hf. destruct fuel; cbn [client_Connect]; rewrite (proj2 (eqb_false _ _) Hn);
  (apply (expectStatus_served _ _ _ _ _ (λ op, writeJSON StatusAccepted (OperationBody op)));
   [done|by repeat constructor| |done]);
  change (mux _ _) with RConnection; cbn [serve_route]; unfold handleConnection; rewrite with_actor_served;
  cbn [rq_Method incoming]; change ("PUT" == "PUT") with true; cbn iota;
  rewrite (with_body_served _ _ _ _ (mkConnectionRequest id)) by done; cbn [sent connection_message cq_ProfileID];
  rewrite (proj2 (eqb_false _ _) Hid); apply yields_answer.
Qed.

Lemma SetControlMode_served mode id s :
  fits (Some (marshal (mkControlModeRequest mode id))) →
  client_SetControlMode serve size text mode id s =
  called (d_StartOperation actor "control-mode" id (CmdControlMode actor (mkControlModeRequest mode id))) s.
Proof.
  intros Hf. apply (sendJSON_served _ _ _ _ _ OperationBody); [done|done| |done].
  change (mux _ _) with RControlMode. cbn [serve_route]. unfold handleControlMode, requireMethod. cbn [rq_Method incoming].
  change ("PUT" == "PUT") with true. cbn iota. rewrite with_actor_served, with_body_served by done. apply yields_answer.
Qed.

Lemma Live_served s :
  client_Live serve size text s =
  (mkServer (nextID s) (sr_daemon s), inr (mkLiveStatus "ok" build_Version LocalAPIMajor LocalAPICapabilities)).
Proof.
  unfold client_Live. unfold mbind at 1, C_bind.
  rewrite (getJSON_served "/v2/live" (mret (mkLiveStatus "ok" build_Version LocalAPIMajor LocalAPICapabilities)) LiveBody);
    [reflexivity| |done]. by intros w.
Qed.

Lemma ready_yields i :
  yields i (serve_route (mux "GET" "/v2/ready") i (incoming "GET" "/v2/ready" "" None)) d_Ready
    (λ v, writeJSON (if rdy_Ready v then StatusOK else StatusServiceUnavailable) (ReadyBody v)).
Proof.
  intros w. change (mux _ _) with RReady. cbn [serve_route]. unfold handleReady, requireMethod. cbn [rq_Method incoming].
  change ("GET" == "GET") with true. cbn iota. unfold mbind, M_bind. by destruct (d_Ready_ok w) as (w' & v & ->).
Qed.

Lemma Ready_served s : client_Ready serve size text s = called d_Ready s.
Proof.
  unfold client_Ready. rewrite (exchange _ _ _ None _ _ _ _ I (ready_yields _)). unfold called.
  destruct (d_Ready_ok (sr_daemon s)) as (w & v & ->). unfold decode. cbn -[common_headers]. by destruct (rdy_Ready v).
Qed.

(** [Health] is two requests. *)
Lemma Health_served s :
  client_Health serve size text s =
  match called d_Ready (mkServer (nextID s) (sr_daemon s)) with
  | (s', inr v) => (s', if rdy_Ready v then inr (mkHealth "ok" build_Version "2") else inl (NotReadyError v))
  | (s', inl e) => (s', inl e)
  end.
Proof.
  unfold client_Health. unfold mbind at 1, C_bind. rewrite Live_served. unfold mbind, C_bind. rewrite Ready_served.
  destruct (called d_Ready _) as [s' [e|v]]; [done|]. by destruct (rdy_Ready v).
Qed.

(** [Connect] without a name: the selected profile, in three requests. *)
Lemma ConnectCurrent_served fuel s :
  client_Connect serve size text (S fuel) "" s =
  match client_CurrentProfile serve size text s with
  | (s', inr p) => client_Connect serve size text fuel (pr_ID p) s'
  | (s', inl e) => (s', inl e)
  end.
Proof. done. Qed.
End served.


(** C30: What [UpdateRoutes], the command behind "route set", reports.  On the
    profile that is connected the daemon stores the routes and starts the
    operation that applies them, and the client returns an error, because it
    expects the status of an inactive profile.  And an empty list of routes is
    not sent at all: to the daemon it is a request that names no list, so
    routes cannot be cleared. *)
Theorem UpdateRoutes_misreports {W} `{!Daemon W} actor (size : json → Z) (text : Payload → string) id req (s : Server W) w w' op :
  ac_ID actor ≠ "" → path_safe id → (∀ j, size j ≤ maxRequestBodyBytes) →
  d_ProfileIsActive id (sr_daemon s) = (w, Done true) →
  d_UpdateActiveProfileFor actor id (sent_update (route_update req)) w = (w', Done op) →
  client_UpdateRoutes (serve actor) size text id req s =
    (mkServer (nextID s) w', inl (APIError StatusAccepted "" (text (OperationBody op)) "" false)) ∧
  (∀ accept exclude, sent_update (route_update (mkRouteUpdateRequest accept (Some []) exclude)) =
                     sent_update (route_update (mkRouteUpdateRequest accept None exclude))) ∧
  (∀ accept include, sent_update (route_update (mkRouteUpdateRequest accept include (Some []))) =
                     sent_update (route_update (mkRouteUpdateRequest accept include None))).
Proof.
  intros Ha%eqb_false Hid Hs E1 E2. split_and!; [|done|done].
  rewrite (UpdateRoutes_served actor Ha size text id req s Hid (Hs _)).
  unfold called, mutate, mbind, M_bind. rewrite E1. change (sent (route_update req)) with (sent_update (route_update req)). by rewrite E2.
Qed.
