(* ===== verification/LocalApi.v ===== *)
(** * The Local API over the daemon

    The daemon of appd as the server's [Daemon], with the diagnostics of
    v2.go and daemon.go, and what requests can do to it and see of it. *)

From S2P Require Import Prelude GoStrings Types Json Store Stores LogBuf Vpn ProfileIO Router Escape Wire Service Access Appd Isolation ApiServer LocalClient.

Open Scope go_scope.
Open Scope Z_scope.

Section local_api.
Context {St Sec : Type} `{!StateStore St} `{!SecretStore Sec}.
Notation World := (World St Sec).
Notation D := (M World).

(** What the backend says of itself: its runtime state and the server's
    configuration. *)
Context (gap : D ()) (runtime : World → option RuntimeDiagnostics) (serverConfig : World → option (list (string * json))).

(** ** Diagnostics *)

Definition with_network_change (s : Service) (r : option RuntimeDiagnostics) : option RuntimeDiagnostics :=
  match r, sv_lastNetworkChange s with
  | Some r, Some change =>
    let tunnel := default zero_tunnel_runtime (rd_Tunnel r) in
    Some (r <| rd_Tunnel := Some (tunnel <| tr_LastNetworkChange := nc_Time change |>
                                         <| tr_LastNetworkChangeInfo := Join (nc_Reasons change) "," |>) |>)
  | r, _ => r
  end.

(** [Diagnostics]: the profiles are copied before the session is read. *)
Definition Diagnostics_ : D Diagnostics :=
  before ← get (λ s, s);
  w ← read (λ w : World, w);
  when (bool_decide (st_State (sv_status before) = StateConnected))
    (upd (refreshConnectedStatusLocked (sc_session (w_script w))));;
  w ← read (λ w : World, w);
  let s := w_svc w in
  mret (mkDiagnostics build_Version (sv_status s) (List.find (λ p, pr_ID p == sv_currentID s) (sv_profiles before))
          (sv_profiles before) (serverConfig w) (sv_traffic s) (LogBuf.Snapshot (sv_logs s)) (stamp w)
          (sv_connectionHistory s) (reconnectSnapshotLocked s) (with_network_change s (runtime w)) (healthSnapshotLocked s)).

(** The loop over the history. *)
Definition filter_history (profiles : list Profile) : list ConnectionEvent → list ConnectionEvent :=
  List.filter (λ event, existsb (λ p, ce_ProfileID event == pr_ID p) profiles).

Definition DiagnosticsFor (actor : Actor) : D Diagnostics :=
  allowed (authorize actor false);;
  gap;;
  diagnostics ← Diagnostics_;
  gap;;
  status ← (r ← get (StatusFor actor); of_result r);
  gap;;
  profiles ← (r ← get (ListProfilesFor actor); of_result r);
  let diagnostics := diagnostics <| dg_Status := status |> <| dg_Profiles := profiles |>
    <| dg_CurrentProfile := List.find (λ p, pr_ID p == st_SelectedProfileID status) profiles |> in
  mret (if ordinary actor
        then diagnostics <| dg_ServerConfig := None |> <| dg_Logs := [] |>
                         <| dg_ConnectionHistory ::= filter_history profiles |>
        else diagnostics).

(** ** The daemon behind the server *)

Definition get_result {A} (f : Service → error + A) : D A := r ← get f; of_result r.
Definition WatchSince_ (actor : Actor) (epoch : string) (since : Z) : D WatchStart := λ w,
  let '(s, start) := WatchSince actor epoch since (w_svc w) in (w <| w_svc := s |>, Done start).

#[export] Program Instance appd_daemon : Daemon World := {|
  d_StatusFor actor := get_result (StatusFor actor);
  d_TrafficFor actor := get_result (TrafficFor actor);
  d_LogsFor actor := get_result (LogsFor actor);
  d_DiagnosticsFor := DiagnosticsFor;
  d_ListProfilesFor actor := get_result (ListProfilesFor actor);
  d_CreateProfileFor := CreateProfileFor gap;
  d_UpdateProfileFor := UpdateProfileFor gap;
  d_UpdateActiveProfileFor := UpdateActiveProfileFor gap;
  d_DeleteProfileFor := DeleteProfileFor gap;
  d_ProfileIsActive id := get (ProfileIsActive id);
  d_ConnectionActive := get ConnectionActive;
  d_StartOperation := StartOperation gap;
  d_OperationFor actor id := get_result (OperationFor actor id);
  d_Ready := get Ready;
  d_WatchSince := WatchSince_;
  d_UpdateCheck := UpdateCheck gap;
|}.
Next Obligation. intros id w. eexists _, _. reflexivity. Qed.
Next Obligation. intros w. eexists _, _. reflexivity. Qed.
Next Obligation. intros w. eexists _, _. reflexivity. Qed.
Next Obligation.
  intros actor epoch since w. unfold WatchSince_. destruct (WatchSince _ _ _ _) as [s start]. eexists _, _. reflexivity.
Qed.
End local_api.

(** ** Requests and the profiles of others *)

Section isolated.
Context {St Sec : Type} `{!StateStore St} `{!SecretStore Sec}.
Notation World := (World St Sec).
Notation D := (M World).
Context (gap : D ()) (runtime : World → option RuntimeDiagnostics) (serverConfig : World → option (list (string * json))).
Context (p : Profile) (Hgap : preserves (kept (has_profile p)) gap).
#[local] Set Default Proof Using "Type*".

Lemma kept_get {A} (f : Service → A) : preserves (kept (has_profile p)) (get f : D A).
Proof. apply preserves_read. Qed.
Lemma kept_get_result {A} (f : Service → error + A) : preserves (kept (has_profile p)) (get_result f : D A).
Proof. apply preserves_bind; [apply kept_get|]. intros r. apply kept_of_result. Qed.

Lemma kept_Diagnostics : preserves (kept (has_profile p)) (Diagnostics_ runtime serverConfig).
Proof.
  apply preserves_bind; [apply kept_get|intros before]. apply preserves_bind; [apply preserves_read|intros w].
  apply preserves_bind; [|intros _; apply preserves_bind; [apply preserves_read|intros ?; apply preserves_ret]].
  apply preserves_when, kept_upd. intros s. unfold refreshConnectedStatusLocked. by case_match.
Qed.

Lemma kept_DiagnosticsFor actor : preserves (kept (has_profile p)) (DiagnosticsFor gap runtime serverConfig actor).
Proof.
  unfold DiagnosticsFor, allowed.
  repeat first
    [ exact Hgap | apply kept_Diagnostics | apply kept_get | apply kept_of_error | apply kept_of_result | apply preserves_ret
    | apply preserves_bind; [|intros ?] ].
Qed.

Lemma kept_WatchSince actor epoch since : preserves (kept (has_profile p)) (WatchSince_ actor epoch since : D WatchStart).
Proof.
  intros w Hw. unfold wp, WatchSince_, WatchSince. destruct (authorize _ _ _); exact Hw.
Qed.

Lemma appd_keeps actor :
  actorCanMutateProfile actor p = false →
  keeps (Daemon0 := appd_daemon gap runtime serverConfig) (kept (has_profile p)) actor.
Proof.
  intros Ha. split; intros; cbn;
    first [ apply kept_get_result | apply kept_get | apply kept_DiagnosticsFor | by apply kept_CreateProfileFor
          | by apply kept_UpdateProfileFor | by apply kept_UpdateActiveProfileFor | by apply kept_DeleteProfileFor
          | by eapply kept_StartOperation | apply kept_WatchSince ].
Qed.
End isolated.


(** Bob asks for Alice's profile to be deleted. *)
Definition request (actor : Actor) (method path : string) (body : Body) : Request :=
  mkRequest method LocalAPIHost "" "" 0 path "" body (Some actor).
Definition no_runtime {W} : W → option RuntimeDiagnostics := λ _, None.
Definition no_config {W} : W → option (list (string * json)) := λ _, None.


(** A page of another origin asks for the same. *)
Lemma gate_keeps_out_witness :
  let rq := mkRequest "DELETE" LocalAPIHost "https://example.com" "" 0 "/v2/profiles/p1" "" no_body (Some bob) in
  let daemon := appd_daemon (mret ()) no_runtime no_config in
  let s := mkServer 0 shared_world in
  admitted rq = false ∧ ∃ rs, Handler (Daemon0 := daemon) rq s = (mkServer 1 shared_world, Done rs).
Proof.
  cbv zeta. split; [reflexivity|].
  destruct (gate_keeps_out (Daemon0 := appd_daemon (mret ()) no_runtime no_config)
    (mkRequest "DELETE" LocalAPIHost "https://example.com" "" 0 "/v2/profiles/p1" "" no_body (Some bob))
    (mkServer 0 shared_world)) as (rs & E & _); [reflexivity|]. by exists rs.
Defined.

(** ** Diagnostics and the connection of another user *)

Definition diagnostics_shown {St Sec} (runtime : World St Sec → option RuntimeDiagnostics) actor (w w' : World St Sec)
    (d : Diagnostics) : Prop :=
  dg_Status d = statusForActorLocked actor (w_svc w') ∧
  dg_Profiles d = visible_profiles actor (sv_profiles (w_svc w')) ∧
  (∀ q, dg_CurrentProfile d = Some q → q ∈ dg_Profiles d) ∧
  dg_Logs d = [] ∧ dg_ServerConfig d = None ∧
  Forall (λ event, ∃ q, q ∈ dg_Profiles d ∧ pr_ID q = ce_ProfileID event) (dg_ConnectionHistory d) ∧
  dg_Traffic d = sv_traffic (w_svc w) ∧ dg_Reconnect d = reconnectSnapshotLocked (w_svc w) ∧
  dg_Runtime d = with_network_change (w_svc w') (runtime w').

Lemma find_elem {A} (f : A → bool) l x : List.find f l = Some x → x ∈ l.
Proof. intros H. apply find_some in H as [H _]. by apply list_elem_of_In. Qed.

Lemma filter_history_own profiles l :
  Forall (λ event, ∃ q, q ∈ profiles ∧ pr_ID q = ce_ProfileID event) (filter_history profiles l).
Proof.
  apply Forall_forall. intros event H. apply list_elem_of_In, filter_In in H as [_ H].
  apply existsb_exists in H as (q & Hq & E). exists q. split; [by apply list_elem_of_In|]. by apply eqb_true in E.
Qed.

Lemma refresh_view session s :
  sv_traffic (refreshConnectedStatusLocked session s) = sv_traffic s ∧
  reconnectSnapshotLocked (refreshConnectedStatusLocked session s) = reconnectSnapshotLocked s.
Proof. unfold refreshConnectedStatusLocked. by destruct session. Qed.

Lemma wp_Diagnostics {St Sec} runtime config (Q : Outcome Diagnostics → World St Sec → Prop) w :
  (∀ d w', dg_Traffic d = sv_traffic (w_svc w) → dg_Reconnect d = reconnectSnapshotLocked (w_svc w) →
     dg_Runtime d = with_network_change (w_svc w') (runtime w') → Q (Done d) w') →
  wp (Diagnostics_ runtime config) Q w.
Proof.
  intros HQ. unfold Diagnostics_, get. wp_steps.
  - apply HQ; cbn; [apply refresh_view..|done].
  - by apply HQ.
Qed.

Lemma wp_DiagnosticsFor {St Sec} runtime config actor (w : World St Sec) :
  ordinary actor = true →
  wp (DiagnosticsFor (mret ()) runtime config actor) (λ o w', ∀ d, o = Done d → diagnostics_shown runtime actor w w' d) w.
Proof.
  intros Ho. unfold DiagnosticsFor, allowed, get. wp_steps. destruct (authorize actor false (w_svc w)); cbn [of_error]; [by wp_steps|].
  wp_steps. apply wp_Diagnostics. intros d w' Ht Hr Hn. wp_steps. unfold StatusFor.
  destruct (authorize actor false (w_svc w')) eqn:E; cbn [of_result]; [by wp_steps|]. wp_steps.
  unfold ListProfilesFor. rewrite E. cbn [of_result]. wp_steps. rewrite Ho. intros ? [= <-].
  unfold diagnostics_shown; cbn. split_and!; try done; [|apply filter_history_own].
  intros q Hq. by apply find_elem in Hq.
Qed.

(** C29: What DiagnosticsFor shows an ordinary client, when nothing else runs:
    its own view of the status and of the profiles, no log and no server
    configuration, the history of its own profiles.  The traffic counters, the
    reconnect state with its profile and the runtime state of the tunnel are
    the daemon's own, whoever's connection they are about, where TrafficFor
    would answer with zeros. *)
Theorem diagnostics_views {St Sec} runtime config actor (w w' : World St Sec) d :
  ordinary actor = true → DiagnosticsFor (mret ()) runtime config actor w = (w', Done d) →
  diagnostics_shown runtime actor w w' d.
Proof.
  intros Ho H. pose proof (wp_DiagnosticsFor runtime config actor w Ho) as Hw. unfold wp in Hw. rewrite H in Hw. by apply Hw.
Qed.

(** Alice is connected and has sent 1000 bytes; Bob, who is told nothing of it
    by TrafficFor, reads them in his diagnostics. *)
Definition busy_world : World Data (gmap string string) :=
  shared_world <| w_svc ::= λ s, s <| sv_connectedID := "p1" |> <| sv_activeOwnerID := "S-1" |>
    <| sv_traffic := mkTrafficSnapshot true 1000 2000 None None "t" |>
    <| sv_status ::= λ st, st <| st_State := StateConnected |> <| st_ConnectedProfileID := "p1" |> |> |>.

Lemma diagnostics_views_witness :
  TrafficFor bob (w_svc busy_world) = inr zero_traffic ∧
  ∃ w' d, DiagnosticsFor (mret ()) no_runtime no_config bob busy_world = (w', Done d) ∧ tn_BytesSent (dg_Traffic d) = 1000.
Proof.
  split; [vm_compute; reflexivity|].
  destruct (DiagnosticsFor (mret ()) no_runtime no_config bob busy_world) as [w' [d|e|]] eqn:E; [|by vm_compute in E..].
  exists w', d. split; [done|].
  destruct (diagnostics_views no_runtime no_config bob busy_world w' d) as (_ & _ & _ & _ & _ & _ & -> & _); [reflexivity|exact E|].
  reflexivity.
Defined.

(** ** Alice's client *)

Definition alice : Actor := mkActor "S-1" false false.
Definition appd_here := appd_daemon (St := Data) (Sec := gmap string string) (mret ()) no_runtime no_config.
Definition no_size : json → Z := λ _, 0.
Definition no_text : Payload → string := λ _, "".
Definition no_routes : RouteUpdateRequest := mkRouteUpdateRequest None (Some []) None.


Lemma alice_updates :
  ∃ w w' op, d_ProfileIsActive (Daemon := appd_here) "p1" busy_world = (w, Done true) ∧
    d_UpdateActiveProfileFor (Daemon := appd_here) alice "p1" (sent_update (route_update no_routes)) w = (w', Done op).
Proof.
  exists busy_world.
  destruct (d_UpdateActiveProfileFor (Daemon := appd_here) alice "p1" (sent_update (route_update no_routes)) busy_world) as [w' [op|e|]] eqn:E;
    [|by vm_compute in E..].
  exists w', op. by split.
Qed.

Lemma UpdateRoutes_misreports_witness :
  ∃ s op, client_UpdateRoutes (serve (Daemon0 := appd_here) alice) no_size no_text "p1" no_routes (mkServer 0 busy_world) =
    (s, inl (APIError 202 "" (no_text (OperationBody op)) "" false)).
Proof.
  destruct alice_updates as (w & w' & op & E1 & E2). eexists _, op.
  exact (proj1 (UpdateRoutes_misreports (Daemon0 := appd_here) alice no_size no_text "p1" no_routes (mkServer 0 busy_world) w w' op
    ltac:(done) ltac:(by split_and!) ltac:(done) E1 E2)).
Defined.
