(* ===== verification/Startup.v ===== *)
(** * The daemon's start (src/cmd/flexconnectd/env.go and main.go)

    The options and the startup profile read from the environment and the
    command line, the secret store they select, [bootstrapStartup] over the
    daemon of appd, and the order in which [runDaemonReady] opens and closes
    what it uses. *)

From S2P Require Import Prelude GoStrings Types Store Stores LogBuf Vpn ProfileIO Router Service Access Appd Isolation.

Open Scope go_scope.
Open Scope Z_scope.

(** ** The environment *)

Definition envLookup : Type := string → option string.

Definition invalid_env (key : string) (err : error) : error := ErrWrap ("invalid " +:+ key +:+ ": ") err "".

(** The value, when one is set that is not blank. *)
Definition env_set (lookup : envLookup) (key : string) : option string :=
  match lookup key with
  | Some raw => if TrimSpace raw == "" then None else Some (TrimSpace raw)
  | None => None
  end.

Definition envStringDefault (lookup : envLookup) (key fallback : string) : string :=
  match lookup key with Some v => TrimSpace v | None => fallback end.

Definition envBoolOptional (lookup : envLookup) (key : string) : error + option bool :=
  match env_set lookup key with
  | None => inr None
  | Some raw => match ParseBool raw with
                | Some v => inr (Some v)
                | None => inl (invalid_env key (syntax_error "ParseBool" raw))
                end
  end.

Definition envBoolDefault (lookup : envLookup) (key : string) (fallback : bool) : error + bool :=
  match envBoolOptional lookup key with
  | inl err => inl err
  | inr v => inr (default fallback v)
  end.

Definition envIntOptional (lookup : envLookup) (key : string) : error + option Z :=
  match env_set lookup key with
  | None => inr None
  | Some raw => match Atoi raw with
                | Some v => inr (Some v)
                | None => inl (invalid_env key (atoi_error raw))
                end
  end.

Definition envCSV (lookup : envLookup) (key : string) : list string :=
  match lookup key with
  | None => []
  | Some raw => List.filter (λ part, part != "") (TrimSpace <$> split_byte raw ",")
  end.

(** ** The startup profile *)

Record startupConfig := mkStartupConfig {
  su_ConnectOnStart : bool;
  su_Profile : Profile;
  su_Password : string;
  su_ConnectTimeout : Z;
  su_RequireSOCKS5 : bool;
}.

Definition defaultStartupProfile : string := "docker".
Definition defaultConnectTimeout : Z := 120 * 10 ^ 9.

Section environment.
(** [time.ParseDuration], whose fractions go through floating point, and
    [os.ReadFile]. *)
Context (ParseDuration : string → error + Z) (ReadFile : string → error + string).
Context (lookup : envLookup).

Definition envDurationDefault (key : string) (fallback : Z) : error + Z :=
  match env_set lookup key with
  | None => inr fallback
  | Some raw =>
    match ParseDuration raw with
    | inl err => inl (invalid_env key err)
    | inr v => if v <=? 0 then inl (ErrText ("invalid " +:+ key +:+ ": must be positive")) else inr v
    end
  end.

Definition readStartupPassword : error + string :=
  match lookup "FLEXCONNECT_PASSWORD", lookup "FLEXCONNECT_PASSWORD_FILE" with
  | Some _, Some _ => inl (ErrText "set only one of FLEXCONNECT_PASSWORD or FLEXCONNECT_PASSWORD_FILE")
  | Some password, None => inr password
  | None, None => inr ""
  | None, Some passwordFile =>
    let path := TrimSpace passwordFile in
    if path == "" then inl (ErrText "FLEXCONNECT_PASSWORD_FILE is empty")
    else match ReadFile path with
         | inl err => inl (ErrWrap "read FLEXCONNECT_PASSWORD_FILE: " err "")
         | inr data => inr (TrimRight data [ascii_of_nat 13; ascii_of_nat 10])
         end
  end.

(** [if v, set, err := ...; err != nil { return } else if set { ... }]. *)
Definition overriding {A} (v : error + option A) (set : A → Profile → Profile) (p : error + Profile) : error + Profile :=
  match p, v with
  | inl err, _ => inl err
  | inr _, inl err => inl err
  | inr p, inr None => inr p
  | inr p, inr (Some x) => inr (set x p)
  end.

Definition base_profile : Profile :=
  mkProfile "" (envStringDefault lookup "FLEXCONNECT_PROFILE_NAME" defaultStartupProfile)
    (envStringDefault lookup "FLEXCONNECT_SERVER" "") (envStringDefault lookup "FLEXCONNECT_USERNAME" "")
    "" ProfileScopeMachine "system" (envStringDefault lookup "FLEXCONNECT_GROUP" "") true (Some false) (Some true)
    (envCSV lookup "FLEXCONNECT_INCLUDE_ROUTES") (envCSV lookup "FLEXCONNECT_EXCLUDE_ROUTES") (envCSV lookup "FLEXCONNECT_DNS")
    false "127.0.0.1:1080" 1399 "" "".

Definition env_profile : error + Profile :=
  let p := overriding (envBoolOptional lookup "FLEXCONNECT_ACCEPT_SERVER_ROUTES") (λ v p, p <| pr_AcceptServerRoutes := v |>) (inr base_profile) in
  let p := overriding (envBoolOptional lookup "FLEXCONNECT_AUTO_RECONNECT") (λ v p, p <| pr_AutoReconnect := Some v |>) p in
  let p := overriding (envBoolOptional lookup "FLEXCONNECT_APPLY_DNS") (λ v p, p <| pr_ApplyDNS := Some v |>) p in
  let p := overriding (envIntOptional lookup "FLEXCONNECT_MTU") (λ v p, p <| pr_MTU := v |>) p in
  let p := overriding (envBoolOptional lookup "FLEXCONNECT_SOCKS5_ENABLED") (λ v p, p <| pr_SOCKS5Enabled := v |>) p in
  overriding (inr (lookup "FLEXCONNECT_SOCKS5_LISTEN")) (λ v p, p <| pr_SOCKS5Listen := TrimSpace v |>) p.

Definition missing_settings (profile : Profile) (password : string) : list string :=
  (if TrimSpace (pr_ServerURL profile) == "" then ["FLEXCONNECT_SERVER"] else []) ++
  (if TrimSpace (pr_Username profile) == "" then ["FLEXCONNECT_USERNAME"] else []) ++
  (if password == "" then ["FLEXCONNECT_PASSWORD or FLEXCONNECT_PASSWORD_FILE"] else []).

Definition parseStartupConfig : error + option startupConfig :=
  match envBoolDefault lookup "FLEXCONNECT_CONNECT_ON_START" false with
  | inl err => inl err
  | inr false => inr None
  | inr true =>
    match readStartupPassword with
    | inl err => inl err
    | inr password =>
      match env_profile with
      | inl err => inl err
      | inr profile =>
        match envDurationDefault "FLEXCONNECT_CONNECT_TIMEOUT" defaultConnectTimeout with
        | inl err => inl err
        | inr timeout =>
          match missing_settings profile password with
          | [] => inr (Some (mkStartupConfig true profile password timeout (pr_SOCKS5Enabled profile)))
          | missing => inl (ErrText ("FLEXCONNECT_CONNECT_ON_START requires " +:+ Join missing ", "))
          end
        end
      end
    end
  end.

(** ** The command line *)

Record daemonOptions := mkDaemonOptions {
  do_socket : string; do_state : string; do_verbose : bool; do_secretStore : string; do_startup : option startupConfig;
}.
#[export] Instance daemonOptions_eta : Eta daemonOptions := λ r,
  mkDaemonOptions (do_socket r) (do_state r) (do_verbose r) (do_secretStore r) (do_startup r).

Definition flagErrHelp : error := ErrText "flag: help requested".

(** What a flag is: a string that is stored, or a bool. *)
Inductive Flag := StringFlag (set : string → daemonOptions → daemonOptions) | BoolFlag (set : bool → daemonOptions → daemonOptions).
Definition daemon_flags (name : string) : option Flag :=
  if name == "socket" then Some (StringFlag (λ v o, o <| do_socket := v |>))
  else if name == "state" then Some (StringFlag (λ v o, o <| do_state := v |>))
  else if (name == "v") || (name == "verbose") then Some (BoolFlag (λ v o, o <| do_verbose := v |>))
  else None.

(** An argument of the flag package: no flag, the end of the flags, a name that
    is none, or a flag with the value written after [=]. *)
Inductive Arg := NotFlag | EndOfFlags | BadFlag | FlagArg (name : string) (value : option string).
Definition read_arg (s : string) : Arg :=
  match s with
  | String c rest =>
    if negb (Ascii.eqb c "-") || (rest == "") then NotFlag
    else if rest == "-" then EndOfFlags
    else
      let name := TrimPrefix rest "-" in
      if (name == "") || HasPrefix name "-" || HasPrefix name "=" then BadFlag
      else match index_byte name "=" with
           | Some i => FlagArg (take_str i name) (Some (drop_str (S i) name))
           | None => FlagArg name None
           end
  | EmptyString => NotFlag
  end.

(** [fs.Parse(args)] and what is left after the flags. *)
Fixpoint parse_flags (args : list string) (o : daemonOptions) : error + (daemonOptions * list string) :=
  match args with
  | [] => inr (o, [])
  | s :: rest =>
    match read_arg s with
    | NotFlag => inr (o, args)
    | EndOfFlags => inr (o, rest)
    | BadFlag => inl (ErrText ("bad flag syntax: " +:+ s))
    | FlagArg name value =>
      match daemon_flags name with
      | None => if (name == "help") || (name == "h") then inl flagErrHelp
                else inl (ErrText ("flag provided but not defined: -" +:+ name))
      | Some (BoolFlag set) =>
        match value with
        | None => parse_flags rest (set true o)
        | Some v => match ParseBool v with
                    | Some b => parse_flags rest (set b o)
                    | None => inl (ErrText ("invalid boolean value " +:+ quote v +:+ " for -" +:+ name +:+ ": parse error"))
                    end
        end
      | Some (StringFlag set) =>
        match value, rest with
        | Some v, _ => parse_flags rest (set v o)
        | None, v :: rest => parse_flags rest (set v o)
        | None, [] => inl (ErrText ("flag needs an argument: -" +:+ name))
        end
      end
    end
  end.

Inductive SecretStoreKind := KeyringStore | FileStoreAt (path : string) | MemoryStore.
Definition store_kind (kind : string) : string := ToLower (TrimSpace kind).
Definition invalid_store (kind : string) : error :=
  ErrText ("invalid FLEXCONNECT_SECRET_STORE " +:+ quote kind +:+ ": expected keyring, memory, or file").
Definition validateSecretStore (kind : string) : option error :=
  if bool_decide (store_kind kind ∈ [""; "keyring"; "memory"; "file"]) then None else Some (invalid_store kind).

(** [newSecretStore]: [probe] is what the keyring's Probe answers,
    [fileSecretPath] the path beside the state file. *)
Definition newSecretStore (probe : option error) (fileSecretPath : string → string) (statePath kind : string) : error + SecretStoreKind :=
  let k := store_kind kind in
  if (k == "") || (k == "keyring") then
    match probe with
    | Some err => inl (ErrWrap "OS keyring unavailable: " err "; explicitly set FLEXCONNECT_SECRET_STORE=file or memory if that storage mode is intended")
    | None => inr KeyringStore
    end
  else if k == "file" then inr (FileStoreAt (fileSecretPath statePath))
  else if k == "memory" then inr MemoryStore
  else inl (invalid_store kind).

(** [parseDaemonOptions]; the default paths depend on the platform. *)
Definition parseDaemonOptions (default_socket default_state : string) (args : list string) : error + daemonOptions :=
  match envBoolDefault lookup "FLEXCONNECT_VERBOSE" false with
  | inl err => inl err
  | inr verbose =>
    let secretStore := envStringDefault lookup "FLEXCONNECT_SECRET_STORE" "keyring" in
    match validateSecretStore secretStore with
    | Some err => inl err
    | None =>
      match parseStartupConfig with
      | inl err => inl err
      | inr startup =>
        let opts := mkDaemonOptions (envStringDefault lookup "FLEXCONNECT_SOCKET" default_socket)
                      (envStringDefault lookup "FLEXCONNECT_STATE" default_state) verbose secretStore startup in
        match parse_flags args opts with
        | inl err => inl err
        | inr (opts, []) => inr opts
        | inr (_, left_) => inl (ErrText ("unexpected arguments: " +:+ Join left_ " "))
        end
      end
    end
  end.
End environment.

(** ** The startup profile in the daemon *)

Definition pointer_copy (l : list string) : option (list string) := match l with [] => None | _ => Some l end.

(** [append([]string(nil), l...)] of an empty list is nil. *)
Definition startup_update (cfg : startupConfig) : ProfileUpdateRequest :=
  let profile := su_Profile cfg in
  mkProfileUpdateRequest (Some (pr_Name profile)) (Some (pr_ServerURL profile)) (Some (pr_Username profile))
    (Some (pr_Group profile)) (Some (pr_AcceptServerRoutes profile)) (pr_AutoReconnect profile) (pr_ApplyDNS profile)
    (pointer_copy (pr_CustomInclude profile)) (pointer_copy (pr_CustomExclude profile)) (pointer_copy (pr_DNSOverrides profile))
    (Some (pr_SOCKS5Enabled profile)) (Some (pr_SOCKS5Listen profile)) (Some (pr_MTU profile)) (Some (su_Password cfg)).

Definition startup_create (cfg : startupConfig) : ProfileCreateRequest :=
  let profile := su_Profile cfg in
  mkProfileCreateRequest (pr_Name profile) (pr_ServerURL profile) (pr_Username profile) (su_Password cfg) (pr_Group profile)
    ProfileScopeMachine (Some (pr_AcceptServerRoutes profile)) (pr_AutoReconnect profile) (pr_ApplyDNS profile)
    (pr_CustomInclude profile) (pr_CustomExclude profile) (pr_DNSOverrides profile)
    (pr_SOCKS5Enabled profile) (pr_SOCKS5Listen profile) (pr_MTU profile).

Definition is_startup_profile (name : string) (p : Profile) : bool :=
  (pr_Scope p == ProfileScopeMachine) && (pr_Name p == name).

Section bootstrap.
Context {St Sec : Type} `{!StateStore St} `{!SecretStore Sec}.
Notation World := (World St Sec).
Notation D := (M World).
Context (gap : D ()).

(** The loop that looks for the profile. *)
Definition find_startup (name : string) (profiles : list Profile) : D (option Profile) :=
  match List.filter (is_startup_profile name) profiles with
  | [] => mret None
  | [existing] => mret (Some existing)
  | _ => fail (ErrText ("multiple machine profiles are named " +:+ quote name))
  end.

(** The second half: machine mode, with the connect timeout. *)
Definition enter_machine (ctx : nat) (cfg : startupConfig) (id : string) : D () :=
  connectCtx ← (if 0 <? su_ConnectTimeout cfg then new_context else mret ctx);
  r ← try (SetControlMode gap connectCtx SystemActor (mkControlModeRequest "machine" id));
  gap;;
  result ← try
    (match r with
     | inl err =>
       status ← Status_;
       if st_ControlMode status != "machine" then fail (wrapf "enter startup machine mode: " err) else mret ()
     | inr _ =>
       when (su_RequireSOCKS5 cfg)
         (status ← Status_;
          fail_if (negb (st_SOCKS5Enabled status) || (st_SOCKS5Listen status == ""))
            (ErrText "startup required SOCKS5 listener is not active"))
     end);
  when (0 <? su_ConnectTimeout cfg) (cancel_context connectCtx);;
  of_result result.

(** [ctx] is the context of the process; the one with the connect timeout is
    new, and done when the world says so. *)
Definition bootstrapStartup (ctx : nat) (cfg : option startupConfig) : D () :=
  match cfg with
  | None => mret ()
  | Some cfg =>
    if negb (su_ConnectOnStart cfg) then mret ()
    else
      let profile := su_Profile cfg in
      profiles ← wrap (wrapf "list startup profiles: ") (r ← get (ListProfilesFor SystemActor); of_result r);
      existing ← find_startup (pr_Name profile) profiles;
      gap;;
      id ← match existing with
           | Some existing =>
             wrap (wrapf ("startup update profile " +:+ quote (pr_ID existing) +:+ ": "))
               (UpdateProfileFor gap SystemActor (pr_ID existing) (startup_update cfg));;
             mret (pr_ID existing)
           | None =>
             created ← wrap (wrapf "startup create machine profile: ") (CreateProfileFor gap SystemActor (startup_create cfg));
             mret (pr_ID created)
           end;
      gap;;
      enter_machine ctx cfg id
  end.
End bootstrap.

(** ** What the start leaves in the profile list *)

Section started.
Context {St Sec : Type} `{!StateStore St} `{!SecretStore Sec}.
Notation World := (World St Sec).
Notation D := (M World).
Context (gap : D ()) (Hgap : ∀ P, preserves (kept P) gap).
#[local] Set Default Proof Using "Type*".

Lemma wp_exact {A} l (m : D A) (Q : Outcome A → World → Prop) w :
  (∀ P, preserves (kept P) m) → sv_profiles (w_svc w) = l →
  (∀ o w', sv_profiles (w_svc w') = l → Q o w') → wp m Q w.
Proof. intros Hm. by apply wp_committed. Qed.

Lemma filter_visible name l :
  List.filter (is_startup_profile name) (visible_profiles SystemActor l) = publicProfile <$> List.filter (is_startup_profile name) l.
Proof.
  unfold visible_profiles. induction l as [|p l IH]; [done|]. cbn in *.
  replace (is_startup_profile name (publicProfile p)) with (is_startup_profile name p) by done.
  destruct (is_startup_profile name p); cbn; by rewrite IH.
Qed.

(** After the profile is stored, the list stays. *)
Lemma wp_enter_machine ctx cfg id l w :
  sv_profiles (w_svc w) = l →
  wp (enter_machine gap ctx cfg id) (λ _ w', sv_profiles (w_svc w') = l) w.
Proof.
  intros Hw.
  assert (Hstatus : preserves (kept (eq l)) (Status_ : D Status)).
  { unfold Status_. apply preserves_bind; [apply preserves_read|intros w0]. apply preserves_bind; [|intros _; apply preserves_read].
    apply kept_upd. intros s. unfold refreshConnectedStatusLocked. by case_match. }
  enough (∀ m : D (), preserves (kept (eq l)) m → wp m (λ _ w', sv_profiles (w_svc w') = l) w) as H.
  2:{ intros m Hm. eapply wp_mono; [by apply Hm|]. by intros o w' H. }
  apply H. unfold enter_machine.
  apply preserves_bind; [destruct (0 <? _); [by apply (kept_new_context gap)|apply preserves_ret]|intros c].
  apply preserves_bind; [by apply preserves_try, (kept_SetControlMode gap)|intros r].
  apply preserves_bind; [done|intros _].
  apply preserves_bind; [apply preserves_try; destruct r|intros result].
  - apply preserves_bind; [done|intros status]. destruct (_ != _); [apply preserves_fail|apply preserves_ret].
  - apply preserves_when, preserves_bind; [done|intros status]. apply preserves_fail_if.
  - apply preserves_bind; [apply preserves_when, kept_cancel_context|intros _; apply kept_of_result].
Qed.

Lemma wp_then_machine ctx cfg id l w :
  sv_profiles (w_svc w) = l → wp (gap;; enter_machine gap ctx cfg id) (λ _ w', sv_profiles (w_svc w') = l) w.
Proof.
  intros Hw. apply wp_bind, (wp_exact l); [done|done|]. intros [[]|e|] w1 H1; [by apply wp_enter_machine|done..].
Qed.

(** What the startup profile becomes in a list [l]: appended, or put in the
    place of the machine profile of that name. *)
Definition startup_stored (cfg : startupConfig) (l l' : list Profile) : Prop :=
  match List.filter (is_startup_profile (pr_Name (su_Profile cfg))) l with
  | [] => ∃ id now q', stored (asked_profile SystemActor (startup_create cfg) id now) q' ∧ l' = l ++ [q']
  | [before] => ∃ i q', l !! i = Some before ∧ stored (apply_update (startup_update cfg) before) q' ∧ l' = <[i := q']> l
  | _ => False
  end.

Lemma find_index_id l before :
  NoDup (pr_ID <$> l) → before ∈ l → ∃ i, find_index (λ p, pr_ID p == pr_ID before) l = Some i ∧ l !! i = Some before.
Proof.
  intros Hnd Hin. destruct (find_index (λ p, pr_ID p == pr_ID before) l) as [i|] eqn:E.
  - apply find_index_lookup in E as H. destruct H as (q & Hq & Hid). exists i. split; [done|].
    apply list_elem_of_lookup in Hin as [j Hj].
    assert (i = j) as ->; [|done].
    eapply (NoDup_lookup _ i j); [exact Hnd|by rewrite list_lookup_fmap, Hq|by rewrite list_lookup_fmap, Hj; cbn; f_equal].
  - rewrite find_index_None, Forall_forall in E. specialize (E _ Hin). cbn in E. by rewrite String.eqb_refl in E.
Qed.

Lemma wp_bootstrap ctx cfg l w :
  su_ConnectOnStart cfg = true → NoDup (pr_ID <$> l) → sv_profiles (w_svc w) = l →
  wp (bootstrapStartup gap ctx (Some cfg)) (λ o w',
    startup_stored cfg l (sv_profiles (w_svc w')) ∨ sv_profiles (w_svc w') = l ∧ o ≠ Done ()) w.
Proof.
  intros Hon Hnd Hw. unfold bootstrapStartup. rewrite Hon. cbn [negb]. cbv zeta.
  set (name := pr_Name (su_Profile cfg)). unfold startup_stored. fold name.
  apply wp_bind, wp_wrap, wp_bind, wp_read. unfold ListProfilesFor. cbn [authorize SystemActor ac_ID ac_System String.eqb Ascii.eqb Bool.eqb].
  rewrite Hw. apply wp_ret. apply wp_bind. unfold find_startup. rewrite filter_visible.
  destruct (List.filter (is_startup_profile name) l) as [|before [|]] eqn:Ef; cbn [fmap list_fmap].
  - apply wp_ret. apply wp_bind, (wp_exact l); [done|done|]. intros [[]|e|] w1 H1; [|by right..].
    apply wp_bind, wp_bind, wp_wrap. eapply wp_mono; [by apply (wp_CreateProfileFor_exact gap)|].
    intros o w2 [[H2 Ho]|(id & now & q' & Hq & H2 & Ho)].
    + destruct o as [a|e|]; [by destruct (Ho a)|by right..].
    + assert (Hs : ∃ id now q', stored (asked_profile SystemActor (startup_create cfg) id now) q' ∧ sv_profiles (w_svc w2) = l ++ [q'])
        by (by exists id, now, q').
      destruct o as [a|e|]; [|by left..]. apply wp_ret. eapply wp_mono; [by apply (wp_then_machine _ _ _ (sv_profiles (w_svc w2)))|].
      intros o' w4 H4. left. by rewrite H4.
  - apply wp_ret. apply wp_bind, (wp_exact l); [done|done|]. intros [[]|e|] w1 H1; [|by right..].
    destruct (find_index_id l before Hnd) as (i & Ei & Hb).
    { apply list_elem_of_In. eapply (proj1 (filter_In (is_startup_profile name) before l)). rewrite Ef. by left. }
    apply wp_bind, wp_bind, wp_wrap. eapply wp_mono; [by apply (wp_UpdateProfileFor_exact gap Hgap l _ _ _ _ i before)|].
    intros o w2 [[H2 Ho]|(q' & Hq & H2 & Ho)].
    + destruct o as [a|e|]; [by destruct (Ho a)|by right..].
    + assert (Hs : ∃ i q', l !! i = Some before ∧ stored (apply_update (startup_update cfg) before) q' ∧ sv_profiles (w_svc w2) = <[i := q']> l)
        by (by exists i, q').
      destruct o as [a|e|]; [|by left..]. apply wp_ret. eapply wp_mono; [by apply (wp_then_machine _ _ _ (sv_profiles (w_svc w2)))|].
      intros o' w4 H4. left. by rewrite H4.
  - apply wp_fail. by right.
Qed.

(** ** What the settings become *)

(** The settings of the environment in a stored profile; [cleared] is what an
    empty list leaves. *)
Definition settings_of (cfg : startupConfig) (cleared : Profile) (q' : Profile) : Prop :=
  let p := su_Profile cfg in
  pr_Scope q' = ProfileScopeMachine ∧
  pr_ServerURL q' = NormalizeServerURL (pr_ServerURL p) ∧ pr_Username q' = TrimSpace (pr_Username p) ∧
  pr_Group q' = TrimSpace (pr_Group p) ∧ pr_AcceptServerRoutes q' = pr_AcceptServerRoutes p ∧
  pr_AutoReconnect q' = pr_AutoReconnect p ∧ pr_ApplyDNS q' = pr_ApplyDNS p ∧ pr_SOCKS5Enabled q' = pr_SOCKS5Enabled p ∧
  pr_CustomInclude q' = normalizeList (default (pr_CustomInclude cleared) (pointer_copy (pr_CustomInclude p))) ∧
  pr_CustomExclude q' = normalizeList (default (pr_CustomExclude cleared) (pointer_copy (pr_CustomExclude p))) ∧
  pr_DNSOverrides q' = normalizeList (default (pr_DNSOverrides cleared) (pointer_copy (pr_DNSOverrides p))).

Lemma stored_fields q q' :
  stored q q' →
  pr_Scope q' = pr_Scope q ∧ pr_ServerURL q' = NormalizeServerURL (pr_ServerURL q) ∧
  pr_Username q' = TrimSpace (pr_Username q) ∧ pr_Group q' = TrimSpace (pr_Group q) ∧
  pr_AcceptServerRoutes q' = pr_AcceptServerRoutes q ∧
  pr_AutoReconnect q' = Some (BoolValue (pr_AutoReconnect q) false) ∧ pr_ApplyDNS q' = Some (BoolValue (pr_ApplyDNS q) true) ∧
  pr_SOCKS5Enabled q' = pr_SOCKS5Enabled q ∧ pr_CustomInclude q' = normalizeList (pr_CustomInclude q) ∧
  pr_CustomExclude q' = normalizeList (pr_CustomExclude q) ∧ pr_DNSOverrides q' = normalizeList (pr_DNSOverrides q) ∧
  pr_Name q' = normal_name q.
Proof.
  unfold stored. rewrite NormalizeProfile_eq. destruct q' as []. unfold blank_times. cbn. intros [=]. by subst.
Qed.

Lemma created_fields actor req id now :
  let q := asked_profile actor req id now in
  cr_Scope req = ProfileScopeMachine →
  pr_Scope q = ProfileScopeMachine ∧ pr_Name q = cr_Name req ∧ pr_ServerURL q = cr_ServerURL req ∧ pr_Username q = cr_Username req ∧
  pr_Group q = cr_Group req ∧ pr_AcceptServerRoutes q = default true (cr_AcceptServerRoutes req) ∧
  pr_AutoReconnect q = Some (BoolValue (cr_AutoReconnect req) false) ∧ pr_ApplyDNS q = Some (BoolValue (cr_ApplyDNS req) true) ∧
  pr_SOCKS5Enabled q = cr_SOCKS5Enabled req ∧ pr_CustomInclude q = cr_CustomInclude req ∧
  pr_CustomExclude q = cr_CustomExclude req ∧ pr_DNSOverrides q = cr_DNSOverrides req.
Proof.
  intros q Hs. unfold q, asked_profile. rewrite Hs. unfold requested_profile, assign, NewProfile.
  destruct (cr_AcceptServerRoutes req), (cr_MTU req =? 0); by split_and!.
Qed.

Lemma assign_same {A B} (f : Profile → B) (v : option A) set p :
  (∀ x p, f (set x p) = f p) → f (assign v set p) = f p.
Proof. intros H. destruct v; [apply H|done]. Qed.
Lemma assign_hit {A} (f : Profile → A) (v : option A) set p :
  (∀ x p, f (set x p) = x) → f (assign v set p) = default (f p) v.
Proof. intros H. destruct v; [apply H|done]. Qed.
Lemma assign_hit_some {A} (f : Profile → option A) (v : option A) set p :
  (∀ x p, f (set x p) = Some x) → is_Some v → f (assign v set p) = v.
Proof. intros H [x ->]. apply H. Qed.

Ltac through f :=
  repeat first [rewrite (assign_same f) by (intros; reflexivity)
               |rewrite (assign_hit f) by (intros; reflexivity)
               |rewrite (assign_hit_some f); [|intros; reflexivity|assumption]].

Lemma updated_fields req p :
  let q := apply_update req p in
  pr_Scope q = pr_Scope p ∧ pr_Name q = default (pr_Name p) (ur_Name req) ∧ pr_ServerURL q = default (pr_ServerURL p) (ur_ServerURL req) ∧
  pr_Username q = default (pr_Username p) (ur_Username req) ∧ pr_Group q = default (pr_Group p) (ur_Group req) ∧
  pr_AcceptServerRoutes q = default (pr_AcceptServerRoutes p) (ur_AcceptServerRoutes req) ∧
  (is_Some (ur_AutoReconnect req) → pr_AutoReconnect q = ur_AutoReconnect req) ∧
  (is_Some (ur_ApplyDNS req) → pr_ApplyDNS q = ur_ApplyDNS req) ∧
  pr_SOCKS5Enabled q = default (pr_SOCKS5Enabled p) (ur_SOCKS5Enabled req) ∧
  pr_CustomInclude q = default (pr_CustomInclude p) (ur_CustomInclude req) ∧
  pr_CustomExclude q = default (pr_CustomExclude p) (ur_CustomExclude req) ∧
  pr_DNSOverrides q = default (pr_DNSOverrides p) (ur_DNSOverrides req).
Proof.
  unfold apply_update. cbv zeta. split_and!; intros; [through pr_Scope|through pr_Name|through pr_ServerURL|through pr_Username
    |through pr_Group|through pr_AcceptServerRoutes|through pr_AutoReconnect|through pr_ApplyDNS|through pr_SOCKS5Enabled
    |through pr_CustomInclude|through pr_CustomExclude|through pr_DNSOverrides]; reflexivity.
Qed.

Lemma pointer_copy_self l : default l (pointer_copy l) = l.
Proof. by destruct l. Qed.

Definition both_set (cfg : startupConfig) : Prop := is_Some (pr_AutoReconnect (su_Profile cfg)) ∧ is_Some (pr_ApplyDNS (su_Profile cfg)).

Lemma BoolValue_set v b : is_Some v → Some (BoolValue v b) = v.
Proof. by intros [x ->]. Qed.

Lemma created_settings cfg id now q' :
  both_set cfg → stored (asked_profile SystemActor (startup_create cfg) id now) q' → settings_of cfg (su_Profile cfg) q'.
Proof.
  intros [Ha Hd] Hq. apply stored_fields in Hq.
  destruct (created_fields SystemActor (startup_create cfg) id now eq_refl) as (F1 & _ & F3 & F4 & F5 & F6 & F7 & F8 & F9 & F10 & F11 & F12).
  rewrite F1, F3, F4, F5, F6, F7, F8, F9, F10, F11, F12 in Hq. unfold settings_of. cbv zeta. destruct Hq as (-> & -> & -> & -> & -> & -> & -> & -> & -> & -> & -> & _).
  rewrite !pointer_copy_self. cbn [startup_create cr_AutoReconnect cr_ApplyDNS cr_ServerURL cr_Username
    cr_Group cr_AcceptServerRoutes cr_SOCKS5Enabled cr_CustomInclude cr_CustomExclude cr_DNSOverrides default BoolValue].
  split_and!; try done; [by apply BoolValue_set|by apply BoolValue_set].
Qed.

Lemma updated_settings cfg before q' :
  both_set cfg → pr_Scope before = ProfileScopeMachine → stored (apply_update (startup_update cfg) before) q' → settings_of cfg before q'.
Proof.
  intros [Ha Hd] Hs Hq. apply stored_fields in Hq.
  destruct (updated_fields (startup_update cfg) before) as (F1 & _ & F3 & F4 & F5 & F6 & F7 & F8 & F9 & F10 & F11 & F12).
  rewrite F1, F3, F4, F5, F6, (F7 Ha), (F8 Hd), F9, F10, F11, F12, Hs in Hq. unfold settings_of. cbv zeta. destruct Hq as (-> & -> & -> & -> & -> & -> & -> & -> & -> & -> & -> & _).
  cbn [startup_update ur_AutoReconnect ur_ApplyDNS ur_ServerURL ur_Username
    ur_Group ur_AcceptServerRoutes ur_SOCKS5Enabled ur_CustomInclude ur_CustomExclude ur_DNSOverrides default].
  split_and!; try done; rewrite BoolValue_set; done.
Qed.

(** The name it has then. *)
Definition startup_name (cfg : startupConfig) : string :=
  let p := su_Profile cfg in
  if TrimSpace (pr_Name p) == "" then DefaultProfileName (NormalizeServerURL (pr_ServerURL p)) (TrimSpace (pr_Username p))
  else TrimSpace (pr_Name p).

Lemma created_name cfg id now q' : stored (asked_profile SystemActor (startup_create cfg) id now) q' → pr_Name q' = startup_name cfg.
Proof.
  intros Hq. apply stored_fields in Hq as (_ & _ & _ & _ & _ & _ & _ & _ & _ & _ & _ & ->).
  unfold normal_name. destruct (created_fields SystemActor (startup_create cfg) id now eq_refl) as (_ & -> & -> & -> & _). done.
Qed.
Lemma updated_name cfg before q' : stored (apply_update (startup_update cfg) before) q' → pr_Name q' = startup_name cfg.
Proof.
  intros Hq. apply stored_fields in Hq as (_ & _ & _ & _ & _ & _ & _ & _ & _ & _ & _ & ->).
  unfold normal_name. destruct (updated_fields (startup_update cfg) before) as (_ & -> & -> & -> & _). done.
Qed.

Lemma startup_name_clean cfg : clean (startup_name cfg).
Proof.
  unfold startup_name. cbv zeta. destruct (TrimSpace _ == "") eqn:E; [apply DefaultProfileName_clean|].
  split; [apply TrimSpace_trimmed|by apply eqb_false].
Qed.

Lemma filter_replaced {A} (f : A → bool) l i x y :
  List.filter f l = [x] → l !! i = Some x → f x = true → f y = true → List.filter f (<[i := y]> l) = [y].
Proof.
  intros Hf Hi Hx Hy. apply list_elem_of_split_length in Hi as (l1 & l2 & -> & ->).
  rewrite insert_app_r_alt, Nat.sub_diag by lia. cbn [list_insert insert]. rewrite !List.filter_app in *. cbn in *. rewrite Hx in Hf. rewrite Hy.
  destruct (List.filter f l1) as [|a [|]], (List.filter f l2); cbn in *; congruence.
Qed.

Definition same_name (cfg : startupConfig) : list Profile → list Profile := List.filter (is_startup_profile (pr_Name (su_Profile cfg))).


(** With a blank FLEXCONNECT_PROFILE_NAME the profile that is stored has
    another name, so every start that succeeds adds one more. *)
Theorem blank_name_adds_a_profile ctx cfg l w :
  su_ConnectOnStart cfg = true → pr_Name (su_Profile cfg) = "" → Forall (λ p, pr_Name p ≠ "") l →
  NoDup (pr_ID <$> l) → sv_profiles (w_svc w) = l →
  wp (bootstrapStartup gap ctx (Some cfg)) (λ o w', o = Done () →
    ∃ q', sv_profiles (w_svc w') = l ++ [q'] ∧ Forall (λ p, pr_Name p ≠ "") (l ++ [q'])) w.
Proof.
  intros Hon Hname Hl Hnd Hw. eapply wp_mono; [by apply wp_bootstrap|]. intros o w' [H|[_ H]] ->; [|done].
  unfold startup_stored in H. rewrite Hname in H.
  replace (List.filter (is_startup_profile "") l) with (@nil Profile) in H.
  - destruct H as (id & now & q' & Hq & ->). exists q'. split; [done|]. apply Forall_app. split; [done|]. apply Forall_singleton.
    rewrite (created_name _ _ _ _ Hq). apply startup_name_clean.
  - clear -Hl. induction Hl as [|p l Hp _ IH]; [done|]. cbn. unfold is_startup_profile at 1.
    rewrite (proj2 (eqb_false _ _) Hp), andb_false_r. exact IH.
Qed.
End started.

(** ** Two starts of a container *)

Definition container_env (name routes : string) : envLookup := λ key,
  if key == "FLEXCONNECT_CONNECT_ON_START" then Some "true"
  else if key == "FLEXCONNECT_PROFILE_NAME" then Some name
  else if key == "FLEXCONNECT_SERVER" then Some "vpn.example.org"
  else if key == "FLEXCONNECT_USERNAME" then Some " alice "
  else if key == "FLEXCONNECT_PASSWORD" then Some "pw"
  else if key == "FLEXCONNECT_INCLUDE_ROUTES" then Some routes
  else None.
Definition no_durations : string → error + Z := λ _, inl (ErrText "time: invalid duration").
Definition no_files : string → error + string := λ _, inl (ErrText "no such file").
Definition container_config (name routes : string) : option startupConfig :=
  match parseStartupConfig no_durations no_files (container_env name routes) with inr cfg => cfg | inl _ => None end.

(** The backend refuses, so machine mode stays without a connection. *)
Definition container : World Data (gmap string string) :=
  mkWorld ((new_service "e" "t") <| sv_controlMode := "user" |>) fresh_data ∅ 0 (seq 1 512)
    (mkScript [] [] [] [] [] [] None None []) ∅ 1 [] None [] false.
Definition start_with (name routes : string) (w : World Data (gmap string string)) : World Data (gmap string string) * Outcome () :=
  bootstrapStartup (mret ()) 0 (container_config name routes) w.
Definition includes (w : World Data (gmap string string)) : list (string * list string) :=
  (λ p, (pr_Name p, pr_CustomInclude p)) <$> sv_profiles (w_svc w).

(** The routes that were removed from the environment are still there. *)
Example second_start_keeps_routes :
  let '(w1, o1) := start_with "docker" "10.0.0.0/8, 10.1.0.0/16" container in
  let '(w2, o2) := start_with "docker" "" w1 in
  o1 = Done () ∧ o2 = Done () ∧ includes w2 = [("docker", ["10.0.0.0/8"; "10.1.0.0/16"])].
Proof. vm_compute. split_and!; reflexivity. Qed.

Example blank_name_twice :
  let '(w1, o1) := start_with " " "" container in
  let '(w2, o2) := start_with " " "" w1 in
  o1 = Done () ∧ o2 = Done () ∧ includes w2 = [("alice@vpn.example.org", []); ("alice@vpn.example.org", [])].
Proof. vm_compute. split_and!; reflexivity. Qed.

Definition docker_config : startupConfig :=
  match container_config "docker" "10.0.0.0/8" with
  | Some cfg => cfg
  | None => mkStartupConfig false zero_profile "" 0 false
  end.


(** ** The order of the daemon's life (main.go) *)

(** What [runDaemonReady] does, in order. *)
Inductive Act :=
  | Elevate | RecoverJournal | OpenService | Bootstrap | ListenIPC | SayReady (err : option error)
  | ServeHTTP | ShutdownHTTP | CloseService | CloseListener.

(** What each call answers; [rn_stop] is how the select ends: the HTTP server's
    or the service's error, or the signal. *)
Record RunEnv := mkRunEnv {
  rn_elevated : option error; rn_journal : option error; rn_service : option error; rn_bootstrap : option error;
  rn_listen : option error; rn_stop : option error; rn_shutdown : option error;
  rn_close : option error; rn_close_again : option error; rn_listener_close : option error; rn_late : option error;
}.

(** [closeErr != nil && err == nil]: the first error is the one returned. *)
Definition first_err (err closeErr : option error) : option error := match err with Some _ => err | None => closeErr end.

Definition is_close (a : Act) : bool := match a with CloseService => true | _ => false end.
Definition is_ready (a : Act) : bool := match a with SayReady _ => true | _ => false end.
Definition is_close_listener (a : Act) : bool := match a with CloseListener => true | _ => false end.

(** The deferred functions, the last one first: the listener when there is one,
    the service unless it was closed, and the ready channel unless it was used. *)
Definition returning (env : RunEnv) (listener service closed ready : bool) (r : list Act * option error) : list Act * option error :=
  let r := if listener then (fst r ++ [CloseListener], first_err (snd r) (rn_listener_close env)) else r in
  let r := if service && negb closed
           then (fst r ++ [CloseService],
                 first_err (snd r) (if existsb is_close (fst r) then rn_close_again env else rn_close env)) else r in
  if ready then r else (fst r ++ [SayReady (snd r)], snd r).

(** The end of the function, from [service.Close(shutdownCtx)]. *)
Definition close_service (env : RunEnv) (acts : list Act) : list Act * option error :=
  let acts := acts ++ [CloseService] in
  match rn_close env with
  | Some err => returning env true true false true (acts, Some err)
  | None => returning env true true true true (acts, rn_late env)
  end.

Definition runDaemonReady (env : RunEnv) : list Act * option error :=
  match rn_elevated env with Some err => returning env false false false false ([Elevate], Some err) | None =>
  match rn_journal env with Some err => returning env false false false false ([Elevate; RecoverJournal], Some err) | None =>
  let start := [Elevate; RecoverJournal; OpenService] in
  match rn_service env with Some err => returning env false false false false (start, Some err) | None =>
  match rn_bootstrap env with Some err => returning env false true false false (start ++ [Bootstrap], Some err) | None =>
  let start := start ++ [Bootstrap; ListenIPC] in
  match rn_listen env with Some err => returning env false true false true (start ++ [SayReady (Some err)], Some err) | None =>
  let serving := start ++ [SayReady None; ServeHTTP] in
  match rn_stop env with Some err => returning env true true false true (serving, Some err) | None =>
  let serving := serving ++ [ShutdownHTTP] in
  match rn_shutdown env with
  | Some err =>
    if errors_is err CtxCanceled then close_service env serving else returning env true true false true (serving, Some err)
  | None => close_service env serving
  end end end end end end end.

Definition count (p : Act → bool) (l : list Act) : nat := length (List.filter p l).
Definition is_serve (a : Act) : bool := match a with ServeHTTP => true | _ => false end.
Definition is_open (a : Act) : bool := match a with OpenService => true | _ => false end.
Definition is_success (a : Act) : bool := match a with SayReady None => true | _ => false end.

(** The daemon's life is orderly, however it goes: who waits for it to be ready
    is told exactly once, with success exactly when it serves; the service is
    opened only after the network of a crashed run was put back, and one that
    was opened is closed; the listener is closed once if it was opened; and no
    error is returned only when it was asked to stop and every step of stopping
    went well. *)
Theorem daemon_run_orderly env :
  let '(acts, err) := runDaemonReady env in
  count is_ready acts = 1%nat ∧ existsb is_success acts = existsb is_serve acts ∧
  (existsb is_open acts = true → take 3 acts = [Elevate; RecoverJournal; OpenService]) ∧
  (existsb is_close acts = true ↔ existsb is_open acts = true ∧ rn_service env = None) ∧
  count is_close_listener acts = (if existsb is_serve acts then 1 else 0)%nat ∧
  (err = None → existsb is_serve acts = true ∧ rn_stop env = None ∧ rn_close env = None ∧ rn_listener_close env = None ∧ rn_late env = None).
Proof.
  destruct env as [elevated journal service bootstrap listen stop shutdown close again listener late].
  unfold runDaemonReady, close_service, returning. cbn.
  destruct elevated; [cbn; split_and!; naive_solver|]. destruct journal; [cbn; split_and!; naive_solver|].
  destruct service; [cbn; split_and!; naive_solver|]. destruct bootstrap; [cbn; split_and!; naive_solver|].
  destruct listen; [cbn; split_and!; naive_solver|]. destruct stop; [cbn; split_and!; naive_solver|].
  destruct shutdown as [e|]; [destruct (errors_is e CtxCanceled)|]; destruct close; cbn; split_and!; try naive_solver;
    destruct late, listener; cbn; naive_solver.
Qed.

Example flags_read :
  parse_flags ["-v=false"; "--socket"; "/run/x"; "-state=/s=1"; "--"; "rest"] (mkDaemonOptions "" "" true "keyring" None) =
  inr (mkDaemonOptions "/run/x" "/s=1" false "keyring" None, ["rest"]).
Proof. vm_compute. reflexivity. Qed.
