(* ===== verification/Tray.v ===== *)
(** * The tray (src/client/systray/menu_model.go and the parts of systray.go
    that compute)

    The menu as a value: what each status, profile list and update leaves in
    it, and which item does what.  Then the tooltip, the notifications that are
    shown once, and the delays between two watches.  A text that is cut to
    length is the list of its runes.  The handlers behind the items are in
    TrayActions.v; the widgets are not modelled. *)

From S2P Require Import Prelude GoStrings NetIP NetURL Types LocalClient.

Open Scope go_scope.
Open Scope Z_scope.

(** ** The menu *)

Inductive menuAction :=
  | menuActionNone | menuActionToggle | menuActionProfile | menuActionSocks5 | menuActionAutoReconnect | menuActionApplyDNS
  | menuActionCopyDiagnostics | menuActionQuit.
Inductive toggleAction := toggleNone | toggleConnect | toggleDisconnect.
Inductive trayIconColor := trayIconBlue | trayIconRed | trayIconGreen.

Inductive menuItemModel := mkItem {
  mi_Title : string; mi_Tooltip : string; mi_Disabled : bool; mi_Checked : bool; mi_Checkbox : bool; mi_Separator : bool;
  mi_Action : menuAction; mi_Toggle : toggleAction; mi_ProfileID : string; mi_Value : bool; mi_Children : list menuItemModel;
}.
Record menuModel := mkMenu { mm_Icon : trayIconColor; mm_Items : list menuItemModel }.

Definition zero_item : menuItemModel := mkItem "" "" false false false false menuActionNone toggleNone "" false [].
#[export] Instance menuItemModel_eta : Eta menuItemModel := λ r,
  mkItem (mi_Title r) (mi_Tooltip r) (mi_Disabled r) (mi_Checked r) (mi_Checkbox r) (mi_Separator r) (mi_Action r) (mi_Toggle r)
    (mi_ProfileID r) (mi_Value r) (mi_Children r).

Definition disabledItem (title : string) : menuItemModel := zero_item <| mi_Title := title |> <| mi_Disabled := true |>.
Definition separatorItem : menuItemModel := zero_item <| mi_Separator := true |>.

(** ** Names *)

Definition profileTitle (profile : Profile) : string :=
  if TrimSpace (pr_Name profile) != "" then pr_Name profile
  else if TrimSpace (pr_ServerURL profile) != "" then pr_ServerURL profile
  else if TrimSpace (pr_ID profile) != "" then pr_ID profile
  else "Profile".

Definition profileNameByID (profiles : list Profile) (id : string) : string :=
  match List.find (λ p, pr_ID p == id) profiles with Some profile => profileTitle profile | None => id end.
Definition currentProfileByID (profiles : list Profile) (id : string) : option Profile := List.find (λ p, pr_ID p == id) profiles.
Definition statusCurrentID (status : option Status) : string :=
  match status with Some status => st_SelectedProfileID status | None => "" end.

Definition stateText (status : option Status) : string :=
  match status with
  | Some status => if state_name (st_State status) == "" then "Unavailable" else state_name (st_State status)
  | None => "Unavailable"
  end.

Definition profileNameForStatus (status : option Status) (profiles : list Profile) : string :=
  match status with
  | Some status => if st_SelectedProfileID status == "" then "" else profileNameByID profiles (st_SelectedProfileID status)
  | None => ""
  end.
(** [if s := ...; s != nil] on the session of a status. *)
Definition session_of (status : option Status) : option SessionInfo :=
  match status with Some status => st_Session status | None => None end.

(** ** Sizes *)

(** [fmt.Sprintf("%.1f", float64(n) / float64(unit))] for a unit that is a power
    of two and n below 2^53: the quotient is exact and is rounded to the nearest
    tenth, to the even one in the middle. *)
Definition tenths (n unit : Z) : string :=
  let q := (10 * n) / unit in
  let r := (10 * n) mod unit in
  let t := if (2 * r <? unit) || ((2 * r =? unit) && Z.even q) then q else q + 1 in
  Itoa (t / 10) +:+ "." +:+ Itoa (t mod 10).

Definition formatByteSizeCompact (bytes : Z) : string :=
  if 2 ^ 30 <=? bytes then tenths bytes (2 ^ 30) +:+ "GB"
  else if 2 ^ 20 <=? bytes then tenths bytes (2 ^ 20) +:+ "MB"
  else if 2 ^ 10 <=? bytes then tenths bytes (2 ^ 10) +:+ "KB"
  else Itoa bytes +:+ "B".

Definition up_arrow : string := bytes_str [226; 134; 145]%nat.
Definition down_arrow : string := bytes_str [226; 134; 147]%nat.

Definition trafficSummaryRows (status : option Status) (traffic : TrafficSnapshot) (profiles : list Profile) : list string :=
  let name := profileNameForStatus status profiles in
  ["Status: " +:+ stateText status] ++
  (if name != "" then ["Profile: " +:+ name] else []) ++
  (match session_of status with
   | Some s => if TrimSpace (si_VPNAddress s) != "" then ["IP: " +:+ TrimSpace (si_VPNAddress s)] else []
   | None => []
   end) ++
  ["Traffic: " +:+ up_arrow +:+ formatByteSizeCompact (tn_BytesSent traffic) +:+ " " +:+ down_arrow +:+ formatByteSizeCompact (tn_BytesReceived traffic)].

(** ** The items *)

Definition statusItems (status : option Status) (profiles : list Profile) : list menuItemModel :=
  disabledItem ("Status: " +:+ stateText status) ::
  match status with
  | None => []
  | Some status =>
    (if st_SelectedProfileID status != "" then [disabledItem ("Selected Profile: " +:+ profileNameByID profiles (st_SelectedProfileID status))] else []) ++
    (if (st_ConnectedProfileID status != "") && (st_ConnectedProfileID status != st_SelectedProfileID status)
     then [disabledItem ("Connected Profile: " +:+ profileNameByID profiles (st_ConnectedProfileID status))] else []) ++
    (if st_LastError status != "" then [disabledItem ("Last Error: " +:+ st_LastError status)] else [])
  end.

Record toggleState := mkToggle { tg_Title : string; tg_Enabled : bool; tg_Action : toggleAction }.
Definition toggleForStatus (status : option Status) : toggleState :=
  match status with
  | None => mkToggle "Connect" true toggleConnect
  | Some status =>
    match st_State status with
    | StateConnected => mkToggle "Disconnect" true toggleDisconnect
    | StateConnecting | StateReconnecting => mkToggle (state_name (st_State status)) false toggleNone
    | _ => mkToggle "Connect" true toggleConnect
    end
  end.
Definition toggleItemForStatus (status : option Status) : menuItemModel :=
  let toggle := toggleForStatus status in
  let item := zero_item <| mi_Title := tg_Title toggle |> <| mi_Disabled := negb (tg_Enabled toggle) |> in
  if tg_Enabled toggle then item <| mi_Action := menuActionToggle |> <| mi_Toggle := tg_Action toggle |> else item.

(** An address that is no IPv4 address is shown as it is; a mask that is not
    contiguous has size zero. *)
Definition maskToCIDR (mask : string) : string :=
  match ParseIP4 mask with None => mask | Some v => Itoa (default 0 (mask_size v)) end.

Definition routesMenuItem (status : Status) : menuItemModel :=
  let routes := st_EffectiveRoutes status in
  let excluded := List.filter (λ r, rs_Action r == "exclude") routes in
  let included := List.filter (λ r, rs_Action r != "exclude") routes in
  let item := zero_item <| mi_Title := "Routes (" +:+ Itoa (Z.of_nat (length routes)) +:+ ")" |> in
  match routes with
  | [] => item <| mi_Children := [disabledItem "No routes"] |>
  | _ =>
    let summary := Itoa (Z.of_nat (length included)) +:+ " included" +:+
                   (match excluded with [] => "" | _ => ", " +:+ Itoa (Z.of_nat (length excluded)) +:+ " excluded" end) in
    item <| mi_Children := [disabledItem summary; separatorItem] ++
      ((λ r, disabledItem (rs_Destination r +:+ (if rs_Action r == "exclude" then " (excluded)" else "") +:+
                           (if rs_Source r != "" then " [" +:+ rs_Source r +:+ "]" else ""))) <$> routes) |>
  end.

(** The rows of a session, without those it has nothing for. *)
Definition session_rows (s : SessionInfo) : list string :=
  (if si_ServerAddress s != "" then ["Server: " +:+ si_ServerAddress s] else []) ++
  (if si_Hostname s != "" then ["Hostname: " +:+ si_Hostname s] else []) ++
  (if si_TUNName s != "" then ["TUN: " +:+ si_TUNName s] else []) ++
  (if (si_VPNAddress s != "") && (si_VPNMask s != "")
   then ["VPN IP: " +:+ si_VPNAddress s +:+ "/" +:+ maskToCIDR (si_VPNMask s)] else []) ++
  (if 0 <? si_MTU s then ["MTU: " +:+ Itoa (si_MTU s)] else []) ++
  (match si_DNS s with [] => [] | dns => ["DNS: " +:+ Join dns ", "] end) ++
  (if si_TLSCipher s != "" then ["TLS: " +:+ si_TLSCipher s] else []) ++
  (if si_DTLSCipher s != "" then ["DTLS: " +:+ si_DTLSCipher s] else []).

Definition informationItem (status : option Status) (traffic : TrafficSnapshot) (profiles : list Profile) : menuItemModel :=
  let title := match session_of status with
               | Some s => if si_VPNAddress s != "" then "Information: " +:+ si_VPNAddress s else "Information"
               | None => "Information"
               end in
  zero_item <| mi_Title := title |> <| mi_Children :=
    (disabledItem <$> List.filter (λ row, TrimSpace row != "") (trafficSummaryRows status traffic profiles)) ++
    (match session_of status with Some s => separatorItem :: (disabledItem <$> session_rows s) | None => [] end) ++
    (match status with Some status => [separatorItem; routesMenuItem status] | None => [] end) |>.

Definition profileMenuItem (status : option Status) (profiles : list Profile) : menuItemModel :=
  let item := zero_item <| mi_Title := "Profiles" |> in
  match profiles with
  | [] => item <| mi_Children := [disabledItem "No profiles"] |>
  | _ => item <| mi_Children := (λ p, zero_item <| mi_Title := profileTitle p |> <| mi_Tooltip := pr_ServerURL p |>
           <| mi_Checked := pr_ID p == statusCurrentID status |> <| mi_Checkbox := true |>
           <| mi_Action := menuActionProfile |> <| mi_ProfileID := pr_ID p |>) <$> profiles |>
  end.

Definition setting (title : string) (disabled checked : bool) (action : menuAction) : menuItemModel :=
  zero_item <| mi_Title := title |> <| mi_Disabled := disabled |> <| mi_Checked := checked |> <| mi_Checkbox := true |>
            <| mi_Action := action |> <| mi_Value := negb checked |>.
Definition settingsMenuItem (status : option Status) (profiles : list Profile) : menuItemModel :=
  let current := currentProfileByID profiles (statusCurrentID status) in
  let disabled := bool_decide (current = None) in
  let socks5 := match status with Some status => st_SOCKS5Enabled status | None => false end in
  let auto := match current with Some p => BoolValue (pr_AutoReconnect p) false | None => false end in
  let dns := match current with Some p => BoolValue (pr_ApplyDNS p) true | None => true end in
  zero_item <| mi_Title := "Settings" |> <| mi_Children :=
    [setting "Enable SOCKS5 Proxy" disabled socks5 menuActionSocks5; setting "Auto Reconnect" disabled auto menuActionAutoReconnect;
     setting "Apply DNS" disabled dns menuActionApplyDNS; zero_item <| mi_Title := "Copy Diagnostics" |> <| mi_Action := menuActionCopyDiagnostics |>] |>.

Definition updateMenuItem (update : option UpdateInfo) : option menuItemModel :=
  match update with
  | None => None
  | Some u => if negb (uin_UpdateAvailable u) || (uin_LatestVersion u == "") then None
              else Some ((disabledItem ("Update available: v" +:+ uin_LatestVersion u)) <| mi_Tooltip := uin_ReleaseURL u |>)
  end.

Definition trayIconColorForStatus (status : option Status) : trayIconColor :=
  match status with
  | None => trayIconBlue
  | Some status => match st_State status with
                   | StateConnected => trayIconGreen
                   | StateConnecting | StateReconnecting | StateError => trayIconRed
                   | StateDisconnected | StateNone => trayIconBlue
                   end
  end.

(** [buildMenuModel] once the profiles are sorted by title, in lower case; the
    order of equal titles is not specified. *)
Definition buildMenuModel (sort : list Profile → list Profile) (status : option Status) (traffic : TrafficSnapshot)
    (profiles : list Profile) (update : option UpdateInfo) : menuModel :=
  let profiles := sort profiles in
  mkMenu (trayIconColorForStatus status)
    (statusItems status profiles ++ option_list (updateMenuItem update) ++ [separatorItem; toggleItemForStatus status] ++
     [informationItem status traffic profiles] ++
     [separatorItem; profileMenuItem status profiles; separatorItem; settingsMenuItem status profiles; separatorItem;
      zero_item <| mi_Title := "Quit" |> <| mi_Tooltip := "Quit the app" |> <| mi_Action := menuActionQuit |>]).

(** What an item asks the daemon to do when it is clicked: nothing for a row
    that is disabled or has no action. *)
Definition acts (item : menuItemModel) : option (menuAction * toggleAction * string * bool) :=
  match mi_Action item with
  | menuActionNone => None
  | a => if mi_Disabled item then None else Some (a, mi_Toggle item, mi_ProfileID item, mi_Value item)
  end.
Fixpoint actions (item : menuItemModel) : list (menuAction * toggleAction * string * bool) :=
  option_list (acts item) ++ concat (actions <$> mi_Children item).
Definition menu_actions (m : menuModel) : list (menuAction * toggleAction * string * bool) := concat (actions <$> mm_Items m).

Lemma actions_eq item : actions item = option_list (acts item) ++ concat (actions <$> mi_Children item).
Proof. by destruct item. Qed.
Lemma actions_rows rows : concat (actions <$> (disabledItem <$> rows)) = [].
Proof. by induction rows as [|r rows IH]. Qed.
Lemma actions_app l1 l2 : concat (actions <$> (l1 ++ l2)) = concat (actions <$> l1) ++ concat (actions <$> l2).
Proof. by rewrite fmap_app, concat_app. Qed.
Lemma actions_status status profiles : concat (actions <$> statusItems status profiles) = [].
Proof.
  unfold statusItems. rewrite fmap_cons. cbn. destruct status as [status|]; [|done]. rewrite !actions_app. by repeat case_match.
Qed.
Lemma actions_routes status : actions (routesMenuItem status) = [].
Proof.
  unfold routesMenuItem. destruct (st_EffectiveRoutes status) as [|r l]; [done|]. cbn -[fmap].
  induction (r :: l) as [|x l' IH]; [done|]. exact IH.
Qed.
Lemma actions_information status traffic profiles : actions (informationItem status traffic profiles) = [].
Proof.
  rewrite actions_eq. unfold informationItem. cbv zeta. cbn [mi_Children set_field acts option_list app].
  change (option_list (acts _)) with (@nil (menuAction * toggleAction * string * bool)). cbn [app].
  rewrite !actions_app, actions_rows. destruct (session_of status) as [s|].
  - rewrite fmap_cons. cbn [concat]. rewrite actions_rows. destruct status; [|done]. rewrite !fmap_cons. cbn [concat fmap list_fmap].
    by rewrite actions_routes.
  - destruct status; [|done]. rewrite !fmap_cons. cbn [concat fmap list_fmap]. by rewrite actions_routes.
Qed.

Lemma actions_toggle status :
  actions (toggleItemForStatus status) =
  (let t := toggleForStatus status in if tg_Enabled t then [(menuActionToggle, tg_Action t, "", false)] else []).
Proof. unfold toggleItemForStatus, toggleForStatus. destruct status as [status|]; [|done]. by destruct (st_State status). Qed.
Lemma actions_profiles status profiles :
  actions (profileMenuItem status profiles) = (λ p, (menuActionProfile, toggleNone, pr_ID p, false)) <$> profiles.
Proof.
  rewrite actions_eq. unfold profileMenuItem. destruct profiles as [|p profiles]; [done|]. cbv zeta.
  change (option_list (acts _)) with (@nil (menuAction * toggleAction * string * bool)).
  change (mi_Children _) with ((λ p, zero_item <| mi_Title := profileTitle p |> <| mi_Tooltip := pr_ServerURL p |>
    <| mi_Checked := pr_ID p == statusCurrentID status |> <| mi_Checkbox := true |>
    <| mi_Action := menuActionProfile |> <| mi_ProfileID := pr_ID p |>) <$> (p :: profiles)).
  cbn [app]. induction (p :: profiles) as [|q l IH]; [done|]. rewrite !fmap_cons. cbn [concat fmap list_fmap] in *. by rewrite IH.
Qed.
Lemma actions_setting title disabled checked action :
  action ≠ menuActionNone →
  actions (setting title disabled checked action) = if disabled then [] else [(action, toggleNone, "", negb checked)].
Proof. intros H. by destruct action, disabled. Qed.

(** The actions a menu offers are these, in this order, whatever the status,
    the traffic and the update are: the connection's, when it is not on its
    way; one per profile; the settings of the selected profile, when it is
    known, each asking for what is not the case; the diagnostics; the end. *)
Theorem menu_offers sort status traffic profiles update :
  menu_actions (buildMenuModel sort status traffic profiles update) =
  (let t := toggleForStatus status in if tg_Enabled t then [(menuActionToggle, tg_Action t, "", false)] else []) ++
  ((λ p, (menuActionProfile, toggleNone, pr_ID p, false)) <$> sort profiles) ++
  (match currentProfileByID (sort profiles) (statusCurrentID status) with
   | Some p =>
     [(menuActionSocks5, toggleNone, "", negb (match status with Some s => st_SOCKS5Enabled s | None => false end));
      (menuActionAutoReconnect, toggleNone, "", negb (BoolValue (pr_AutoReconnect p) false));
      (menuActionApplyDNS, toggleNone, "", negb (BoolValue (pr_ApplyDNS p) true))]
   | None => []
   end) ++
  [(menuActionCopyDiagnostics, toggleNone, "", false); (menuActionQuit, toggleNone, "", false)].
Proof.
  unfold menu_actions, buildMenuModel. cbv zeta. cbn [mm_Items]. rewrite !actions_app, actions_status.
  replace (concat (actions <$> option_list (updateMenuItem update))) with (@nil (menuAction * toggleAction * string * bool)).
  2:{ unfold updateMenuItem. by repeat case_match. }
  rewrite !fmap_cons. cbn [concat fmap list_fmap app]. rewrite actions_information.
  change (actions separatorItem) with (@nil (menuAction * toggleAction * string * bool)).
  rewrite actions_toggle, actions_profiles. cbn [app]. rewrite !app_nil_r. do 2 f_equal.
  rewrite actions_eq. unfold settingsMenuItem. cbv zeta.
  change (option_list (acts _)) with (@nil (menuAction * toggleAction * string * bool)). cbn [app].
  lazymatch goal with |- context [mi_Children (_ <| mi_Children := ?l |>)] => change (mi_Children (_ <| mi_Children := l |>)) with l end.
  rewrite !fmap_cons. cbn [concat fmap list_fmap]. rewrite !actions_setting by done.
  destruct (currentProfileByID _ _) as [p|]; [rewrite bool_decide_false by done|rewrite bool_decide_true by done]; reflexivity.
Qed.

(** ** The tooltip *)

(** The limit of NOTIFYICONDATA, in runes. *)
Definition maxTooltipLen : Z := 127.
Definition ellipsis : Z := 0x2026.
(** Over the runes of a text. *)
Definition truncateTo (s : list Z) (max : Z) : list Z :=
  if max <=? 0 then []
  else if Z.of_nat (length s) <=? max then s
  else if max <=? 1 then [ellipsis]
  else take (Z.to_nat (max - 1)) s ++ [ellipsis].

Definition newline : Z := 10.
(** [tooltipText]: the state, what fits of the identity, the speed. *)
Definition tooltipText (state identity speed : list Z) : list Z :=
  let budget := maxTooltipLen - Z.of_nat (length state) - 1 - Z.of_nat (length speed) - 1 in
  let budget := if budget <? 0 then 0 else budget in
  state ++ [newline] ++ truncateTo identity budget ++ [newline] ++ speed.

Lemma truncateTo_fits s max : 0 ≤ max → Z.of_nat (length (truncateTo s max)) ≤ max.
Proof.
  intros Hm. unfold truncateTo. destruct (Z.leb_spec max 0); [cbn; lia|].
  destruct (Z.leb_spec (Z.of_nat (length s)) max); [lia|]. destruct (Z.leb_spec max 1); [cbn; lia|].
  rewrite length_app, length_take. cbn. lia.
Qed.

(** The tooltip keeps within the limit whenever state and speed leave room for
    the two line breaks, and an identity that fits is shown whole. *)
Theorem tooltip_fits state identity speed :
  Z.of_nat (length state) + Z.of_nat (length speed) + 2 ≤ maxTooltipLen →
  Z.of_nat (length (tooltipText state identity speed)) ≤ maxTooltipLen ∧
  (Z.of_nat (length state) + Z.of_nat (length identity) + Z.of_nat (length speed) + 2 ≤ maxTooltipLen →
   tooltipText state identity speed = state ++ [newline] ++ identity ++ [newline] ++ speed).
Proof.
  unfold tooltipText, maxTooltipLen. intros H. rewrite (proj2 (Z.ltb_ge _ _)) by lia.
  pose proof (truncateTo_fits identity (127 - Z.of_nat (length state) - 1 - Z.of_nat (length speed) - 1) ltac:(lia)) as Hf.
  split.
  - rewrite !length_app. cbn [length]. lia.
  - intros Hi. f_equal. f_equal. f_equal. unfold truncateTo. destruct (Z.leb_spec (127 - Z.of_nat (length state) - 1 - Z.of_nat (length speed) - 1) 0).
    + destruct identity; [done|]. cbn [length] in Hi. lia.
    + rewrite (proj2 (Z.leb_le _ _)) by lia. done.
Qed.

(** ** Notifications *)

Definition notifiedTTL : Z := 300 * 10 ^ 9.
Definition notifiedMax : nat := 64.
Definition shown_kinds : list string :=
  ["connection_lost"; "reconnect_scheduled"; "reconnected"; "reconnect_failed"; "reconnect_exhausted"].

Definition event_key (event : ConnectionEvent) : string :=
  if ce_ConnectionID event != "" then ce_ConnectionID event +:+ ":" +:+ ce_Kind event else ce_ID event.

(** The key of an oldest entry; which of several is not specified. *)
Definition oldest (m : gmap string Z) : option string :=
  fst <$> foldl (λ acc kv, match acc with
                           | None => Some kv
                           | Some old => if kv.2 <? old.2 then Some kv else Some old
                           end) None (map_to_list m).
(** The loop that evicts; [fuel] the number of entries. *)
Fixpoint evict (fuel : nat) (m : gmap string Z) : gmap string Z :=
  if (notifiedMax <? size m)%nat then
    match fuel, oldest m with
    | S fuel, Some key => evict fuel (delete key m)
    | _, _ => m
    end
  else m.

Definition notification (event : ConnectionEvent) : string * string :=
  let with_error body := if ce_Error event != "" then body +:+ ": " +:+ ce_Error event else body in
  if ce_Kind event == "connection_lost" then ("VPN connection lost", with_error (ce_ReasonCode event))
  else if ce_Kind event == "reconnect_scheduled" then ("VPN reconnecting", "Attempt " +:+ Itoa (ce_Attempt event) +:+ " scheduled")
  else if ce_Kind event == "reconnected" then ("VPN reconnected", "The VPN session was restored.")
  else if ce_Kind event == "reconnect_failed" then ("VPN reconnect failed", ce_Kind event)
  else if ce_Kind event == "reconnect_exhausted" then ("VPN reconnect stopped", with_error ("Attempt " +:+ Itoa (ce_Attempt event)))
  else ("FlexConnect", ce_Kind event).

(** [notifyConnection]: the table of what was shown, and what is shown now. *)
Definition notifyConnection (now : Z) (event : ConnectionEvent) (notified : gmap string Z) : gmap string Z * option (string * string) :=
  if negb (bool_decide (ce_Kind event ∈ shown_kinds)) then (notified, None)
  else
    let key := event_key event in
    match notified !! key with
    | Some last => if now - last <? notifiedTTL then (notified, None)
                   else let m := filter (λ kv, now - kv.2 < notifiedTTL) (<[key := now]> notified) in
                        (evict (size m) m, Some (notification event))
    | None => let m := filter (λ kv, now - kv.2 < notifiedTTL) (<[key := now]> notified) in
              (evict (size m) m, Some (notification event))
    end.

Lemma oldest_in m : m ≠ ∅ → ∃ key, oldest m = Some key ∧ is_Some (m !! key).
Proof.
  intros Hm. unfold oldest.
  assert (∀ l acc, (∀ kv, kv ∈ l → m !! kv.1 = Some kv.2) → (∀ kv, acc = Some kv → m !! kv.1 = Some kv.2) → (l ≠ [] ∨ acc ≠ None) →
    ∃ kv, foldl (λ acc (kv : string * Z), match acc with
                           | None => Some kv
                           | Some old => if kv.2 <? old.2 then Some kv else Some old
                           end) acc l = Some kv ∧ m !! kv.1 = Some kv.2) as H.
  { induction l as [|kv l IH]; intros acc Hl Ha Hn; cbn [foldl].
    - destruct acc as [kv|]; [|naive_solver]. exists kv. split; [done|by apply Ha].
    - apply IH; [intros x Hx; apply Hl; by right| |destruct acc as [o|]; [destruct (_ <? _)|]; naive_solver].
      intros x. destruct acc as [old|]; [destruct (_ <? _)|]; intros [= <-]; [apply Hl; by left|by apply Ha|apply Hl; by left]. }
  destruct (H (map_to_list m) None) as (kv & -> & Hk).
  - intros [k v] Hkv. by apply elem_of_map_to_list.
  - done.
  - left. by rewrite map_to_list_empty_iff.
  - exists kv.1. split; [done|]. by eexists.
Qed.

Lemma evict_bounded fuel m : (size m ≤ fuel + notifiedMax)%nat → (size (evict fuel m) ≤ notifiedMax)%nat.
Proof.
  revert m. induction fuel as [|fuel IH]; intros m Hm; cbn [evict]; destruct (Nat.ltb_spec notifiedMax (size m)) as [Hlt|]; try lia.
  destruct (oldest_in m) as (key & -> & [v Hv]).
  { intros ->. rewrite map_size_empty in Hlt. lia. }
  apply IH. rewrite map_size_delete_Some by by exists v. lia.
Qed.

(** The table stays small, and what was shown is not shown again for five
    minutes while it is remembered. *)
Theorem notified_bounded now event m :
  (size m ≤ notifiedMax)%nat →
  let '(m', shown) := notifyConnection now event m in
  (size m' ≤ notifiedMax)%nat ∧
  (∀ last, m !! event_key event = Some last → now - last < notifiedTTL → shown = None ∧ m' = m) ∧
  (shown ≠ None → ce_Kind event ∈ shown_kinds).
Proof.
  intros Hm. unfold notifyConnection. case_bool_decide as Hk; cbn [negb]; [|split_and!; done].
  set (m1 := filter _ _). assert (He : (size (evict (size m1) m1) ≤ notifiedMax)%nat) by (apply evict_bounded; lia).
  destruct (m !! event_key event) as [last|] eqn:El; [|split_and!; try done; by intros ? [=]].
  destruct (Z.ltb_spec (now - last) notifiedTTL); split_and!; try done. intros last' [= <-] Hlt. lia.
Qed.

(** ** Delays between two watches *)

Definition backoffBase : Z := 10 ^ 9.
Definition backoffMax : Z := 30 * 10 ^ 9.
Fixpoint double (attempt : nat) (d : Z) : Z :=
  match attempt with O => d | S attempt => if d <? backoffMax then double attempt (d * 2) else d end.
(** [delta] is the jitter, a random fifth of the delay at most. *)
Definition retryDelay (delta : Z → Z) (attempt : Z) : Z :=
  let attempt := if attempt <? 0 then 0 else attempt in
  let d := double (Z.to_nat attempt) backoffBase in
  let d := if d >? backoffMax then backoffMax else d in
  let d := d + delta d in
  let d := if d <? backoffBase then backoffBase else d in
  if d >? backoffMax then backoffMax else d.

(** Whatever the jitter, between one and thirty seconds; without it, one
    second, doubled per attempt, up to thirty. *)
Theorem retryDelay_bounds delta attempt :
  backoffBase ≤ retryDelay delta attempt ≤ backoffMax ∧
  (0 ≤ attempt → retryDelay (λ _, 0) attempt = Z.min backoffMax (2 ^ attempt * backoffBase)).
Proof.
  split.
  - unfold retryDelay. cbv zeta. set (d := (if _ >? _ then _ else _) + _).
    destruct (Z.ltb_spec d backoffBase); rewrite Z.gtb_ltb; case_match; unfold backoffBase, backoffMax in *; lia.
  - intros Ha.
    assert (Hd : ∀ n d, 0 < d → Z.min backoffMax (double n d) = Z.min backoffMax (2 ^ Z.of_nat n * d)).
    { induction n as [|n IH]; intros d Hp; cbn [double]; [f_equal; lia|]. rewrite Nat2Z.inj_succ, Z.pow_succ_r by lia.
      destruct (Z.ltb_spec d backoffMax); [rewrite IH by lia; f_equal; lia|].
      pose proof (Z.pow_pos_nonneg 2 (Z.of_nat n) ltac:(lia) ltac:(lia)). rewrite !Z.min_l by nia. done. }
    unfold retryDelay. rewrite (proj2 (Z.ltb_ge attempt 0)) by lia. specialize (Hd (Z.to_nat attempt) backoffBase ltac:(unfold backoffBase; lia)).
    rewrite Z2Nat.id in Hd by lia. rewrite <- Hd. cbv zeta. rewrite !Z.gtb_ltb, Z.add_0_r.
    assert (Hb : ∀ n d, backoffBase ≤ d → backoffBase ≤ double n d).
    { induction n as [|n IH]; intros d H; cbn [double]; [done|]. case_match; [apply IH; unfold backoffBase in *; lia|done]. }
    specialize (Hb (Z.to_nat attempt) backoffBase ltac:(lia)). set (d := double _ _) in *.
    destruct (Z.ltb_spec backoffMax d) as [H1|H1]; [rewrite Z.min_l by lia; reflexivity|].
    rewrite (proj2 (Z.ltb_ge d backoffBase)) by lia. rewrite (proj2 (Z.ltb_ge backoffMax d)) by lia. by rewrite Z.min_r.
Qed.

(** ** What the tray remembers *)

Record Tray := mkTray { ty_status : option Status; ty_traffic : TrafficSnapshot; ty_profiles : list Profile; ty_update : option UpdateInfo }.
#[export] Instance Tray_eta : Eta Tray := λ r, mkTray (ty_status r) (ty_traffic r) (ty_profiles r) (ty_update r).

(** [refresh]: the four answers.  The client returns the address of its result
    with every error, so a call that failed is the zero value and not nil; only
    the list of profiles can be nil.  The first error of the first three is
    reported. *)
Definition refresh (status : client_error + Status) (profiles : client_error + list Profile) (traffic : client_error + TrafficSnapshot)
    (update : client_error + UpdateInfo) (t : Tray) : Tray * option client_error :=
  let or_zero {A} (zero : A) (r : client_error + A) := match r with inr a => a | inl _ => zero end in
  let t := t <| ty_status := Some (or_zero zero_status status) |> in
  let t := match profiles with inr l => t <| ty_profiles := l |> | inl _ => t end in
  let t := t <| ty_traffic := or_zero zero_traffic traffic |> <| ty_update := Some (or_zero zero_update_info update) |> in
  (t, match status, profiles, traffic with
      | inl e, _, _ => Some e | inr _, inl e, _ => Some e | inr _, inr _, inl e => Some e | _, _, _ => None
      end).

(** [handleNotify]: the new state, whether the tooltip is set, whether the menu
    is built again.  The list of profiles is left out of an event's JSON when it
    is empty, so an empty one arrives as nil. *)
Definition handleNotify (notify : Notify) (t : Tray) : Tray * bool * bool :=
  let status := nt_Status notify in
  let stateChanged := bool_decide (is_Some status) || match nt_Profiles notify with [] => false | _ => true end in
  let t := match status with Some s => t <| ty_status := Some s |> | None => t end in
  let t := match nt_Profiles notify with [] => t | l => t <| ty_profiles := l |> end in
  let t := match nt_Traffic notify with Some tr => t <| ty_traffic := tr |> | None => t end in
  (t, bool_decide (is_Some (nt_Traffic notify)) && negb stateChanged, stateChanged).

Definition updateInfoEqual (a b : option UpdateInfo) : bool :=
  match a, b with
  | None, None => true
  | Some a, Some b =>
    Bool.eqb (uin_UpdateAvailable a) (uin_UpdateAvailable b) && (uin_LatestVersion a == uin_LatestVersion b) &&
    (uin_ReleaseURL a == uin_ReleaseURL b) && Bool.eqb (uin_Disabled a) (uin_Disabled b) && (uin_Error a == uin_Error b)
  | _, _ => false
  end.

(** Two updates that are equal here leave the same row in the menu. *)
Lemma updateInfoEqual_menu a b : updateInfoEqual a b = true → updateMenuItem a = updateMenuItem b.
Proof.
  destruct a as [a|], b as [b|]; try done. cbn. rewrite !andb_true_iff, !eqb_true, !Bool.eqb_true_iff.
  intros ((((-> & ->) & ->) & _) & _). done.
Qed.

(** The event after the last profile is deleted carries an empty list: the tray
    keeps showing the profile. *)
Theorem last_profile_stays notify t :
  nt_Profiles notify = [] → ty_profiles (handleNotify notify t).1.1 = ty_profiles t.
Proof. intros E. unfold handleNotify. rewrite E. by destruct (nt_Status notify), (nt_Traffic notify). Qed.
