(* ===== verification/Socks5.v ===== *)
(** * The SOCKS5 server (src/internal/socks5/server.go)

    One client's session ([handleConn] and what it calls) over the bytes the
    client sends, the writes its connection still takes and the answers of the
    tunnel's dialer.  The server around the sessions is in Socks5Server.v. *)

From S2P Require Import Prelude GoStrings NetIP NetURL Buffer.

Open Scope go_scope.
Open Scope Z_scope.

(** ** A session's world *)

Record TCPAddr := mkTCPAddr { ta_IP : option Addr; ta_Port : Z }.

Record Sock := mkSock {
  sk_in : Reader;              (* what the client sends *)
  sk_out : list Z;             (* what it was sent *)
  sk_writes : option nat;      (* writes that will still succeed; all *)
  sk_dials : list string;      (* the addresses that were dialed, in order *)
}.
#[export] Instance Sock_eta : Eta Sock := λ r, mkSock (sk_in r) (sk_out r) (sk_writes r) (sk_dials r).

Notation S5 := (M Sock).

Definition read_full (n : nat) : S5 (list Z) := λ s,
  let '(r, bytes, err) := ReadFull n (sk_in s) in
  (s <| sk_in := r |>, match err with Some e => Failed e | None => Done bytes end).

Definition write_error : error := ErrText "write: broken pipe".
Definition write (bytes : list Z) : S5 () := λ s,
  match sk_writes s with
  | Some O => (s, Failed write_error)
  | w => (s <| sk_out ::= λ out, out ++ bytes |> <| sk_writes := pred <$> w |>, Done ())
  end.
(** [_, _ = conn.Write(...)]. *)
Definition write_quietly (bytes : list Z) : S5 () := _ ← try (write bytes); mret ().

Definition bytes_value : list Z → Z := foldl (λ acc b, acc * 256 + b) 0.
Definition bytes_text (l : list Z) : string := String.string_of_list_ascii ((λ b, ascii_of_nat (Z.to_nat b)) <$> l).

(** [net.IP.String] of four and of sixteen bytes. *)
Definition ip_string (l : list Z) : string :=
  let v := bytes_value l in
  if (length l =? 4)%nat then v4_string v
  else if Z.shiftr v 32 =? 0xffff then v4_string (Z.land v 0xffffffff) else v6_string v.

(** ** The target *)

Record targetAddr := mkTarget { tg_host : string; tg_port : string; tg_atyp : Z }.

Definition unsupported (what : string) (n : Z) : error := ErrText ("unsupported " +:+ what +:+ " " +:+ Itoa n).

Definition readHost (atyp : Z) : S5 string :=
  if atyp =? 1 then ip ← read_full 4; mret (ip_string ip)
  else if atyp =? 3 then
    length ← read_full 1;
    data ← read_full (Z.to_nat (bytes_value length));
    mret (bytes_text data)
  else if atyp =? 4 then ip ← read_full 16; mret (ip_string ip)
  else fail (unsupported "address type" atyp).

Definition readTarget (atyp : Z) : S5 targetAddr :=
  host ← readHost atyp;
  port ← read_full 2;
  mret (mkTarget host (Itoa (bytes_value port)) atyp).

Definition errNoTunnelAddress : error := ErrSentinel NoTunnelAddress "no VPN DNS address".
Definition errUnsupportedIPv6Proxy : error :=
  ErrSentinel UnsupportedIPv6Proxy "SOCKS5 VPN proxy supports IPv4 TCP targets only".

Definition replyCodeForDialError (err : error) : Z :=
  if errors_is err UnsupportedIPv6Proxy then 8
  else if errors_is err NoTunnelAddress then 4
  else if errors_is err DnsError then 4 else 5.

Definition writeReply (addr : TCPAddr) : S5 () :=
  let port := be16 (ta_Port addr mod 65536) in
  match Unmap <$> ta_IP addr with
  | Some (Addr4 v) => write ([5; 0; 0; 1; octet v 0; octet v 1; octet v 2; octet v 3] ++ port)
  | Some (Addr6 v _) =>
    write ([5; 0; 0; 4] ++ ((λ i : nat, Z.land (Z.shiftr v (8 * (15 - Z.of_nat i))) 255) <$> seq 0 16) ++ port)
  | _ => write ([5; 0; 0; 4] ++ port)
  end.

(** ** The session *)

Section session.

(** The dialer: what the n-th dial of an address and a lookup answer (a local
    address that is no TCP address is [None]); what the two SetDeadline calls
    answer; how the two copies end. *)
Context (dial : nat → string → error + option TCPAddr) (lookup : string → error + list string).
Context (deadline reset : option error) (copied : option error * option error).

Definition DialContext (addr : string) : S5 (option TCPAddr) := λ s,
  (s <| sk_dials ::= λ l, l ++ [addr] |>,
   match dial (length (sk_dials s)) addr with inl e => Failed e | inr a => Done a end).

(** The loop over the resolved addresses. *)
Fixpoint dial_first (addrs : list string) (port : string) (firstErr : option error) : S5 (option TCPAddr) :=
  match addrs with
  | [] => fail (match firstErr with Some e => e | None => errNoTunnelAddress end)
  | addr :: addrs =>
    match ParseIP4 addr with
    | None => dial_first addrs port firstErr
    | Some v =>
      r ← try (DialContext (JoinHostPort (v4_string v) port));
      match r with
      | inr conn => mret conn
      | inl err => dial_first addrs port (match firstErr with None => Some err | e => e end)
      end
    end
  end.

Definition dialTarget (target : targetAddr) : S5 (option TCPAddr) :=
  match ParseIP (tg_host target) with
  | Some _ =>
    match ParseIP4 (tg_host target) with
    | None => fail errUnsupportedIPv6Proxy
    | Some v => DialContext (JoinHostPort (v4_string v) (tg_port target))
    end
  | None =>
    match lookup (tg_host target) with
    | inl err => fail (ErrWrap "" errNoTunnelAddress (": " +:+ error_msg err))
    | inr addrs => dial_first addrs (tg_port target) None
    end
  end.

Definition proxyBidirectional : S5 () :=
  let failed e := match e with Some err => if errors_is err NetErrClosed then None else Some err | None => None end in
  match failed (fst copied), failed (snd copied) with
  | Some err, _ => fail err
  | None, Some err => fail err
  | None, None => mret ()
  end.

(** What is sent back when there is no connection. *)
Definition refusal (code : Z) : list Z := [5; code; 0; 1; 0; 0; 0; 0; 0; 0].
(** [if err != nil { write a refusal; return err }]. *)
Definition or_refuse {A} (m : S5 A) (code : error → Z) : S5 A :=
  r ← try m;
  match r with inr a => mret a | inl err => write_quietly (refusal (code err));; fail err end.

Definition handleConn : S5 () :=
  match deadline with Some e => fail e | None =>
    hdr ← read_full 2;
    fail_if (negb (nth 0 hdr 0 =? 5)) (unsupported "SOCKS version" (nth 0 hdr 0));;
    methods ← read_full (Z.to_nat (nth 1 hdr 0));
    if negb (existsb (Z.eqb 0) methods) then
      write_quietly [5; 255];; fail (ErrText "SOCKS5 client did not offer no-authentication method")
    else
      write [5; 0];;
      reqHdr ← read_full 4;
      fail_if (negb (nth 0 reqHdr 0 =? 5)) (unsupported "request version" (nth 0 reqHdr 0));;
      if negb (nth 1 reqHdr 0 =? 1) then
        write_quietly (refusal 7);; fail (unsupported "command" (nth 1 reqHdr 0))
      else
        target ← or_refuse (readTarget (nth 3 reqHdr 0)) (λ _, 8);
        upstream ← or_refuse (dialTarget target) replyCodeForDialError;
        match reset with Some e => fail e | None =>
          writeReply (default (mkTCPAddr (Some (Addr4 0)) 0) upstream);;
          proxyBidirectional
        end
  end.
End session.

(** ** What a client can get *)

(** The only addresses that are dialed: an IPv4 address and a port. *)
Definition tunnel_addr (addr : string) : Prop :=
  ∃ v p, 0 ≤ p < 65536 ∧ addr = JoinHostPort (v4_string v) (Itoa p).

Definition byte (b : Z) : Prop := 0 ≤ b < 256.

(** What was sent and dialed, and that what is left to read are bytes. *)
Definition at_point (out : list Z) (dials : list string) (s : Sock) : Prop :=
  sk_out s = out ∧ sk_dials s = dials ∧ Forall byte (rd_bytes (sk_in s)).

Lemma wp_read_full n out dials (Q : Outcome (list Z) → Sock → Prop) s :
  at_point out dials s →
  (∀ l s', at_point out dials s' → length l = n → Forall byte l → Q (Done l) s') →
  (∀ e s', at_point out dials s' → Q (Failed e) s') → wp (read_full n) Q s.
Proof.
  intros (H1 & H2 & H3) Hd Hf. unfold wp, read_full, ReadFull. destruct (decide _) as [Hn|Hn]; cbn.
  - apply Hd; [split_and!; try done; cbn; by apply Forall_drop| |by apply Forall_take]. rewrite length_take. lia.
  - apply Hf. split_and!; try done; by apply Forall_nil_2.
Qed.

Lemma wp_write bytes out dials (Q : Outcome () → Sock → Prop) s :
  at_point out dials s → (∀ s', at_point (out ++ bytes) dials s' → Q (Done ()) s') →
  (∀ s', at_point out dials s' → Q (Failed write_error) s') → wp (write bytes) Q s.
Proof.
  intros (H1 & H2 & H3) Hd Hf. unfold wp, write. destruct (sk_writes s) as [[|n]|]; cbn;
    first [apply Hf; by split_and!|apply Hd; split_and!; try done; cbn; by rewrite H1].
Qed.

Lemma wp_write_quietly bytes out dials (Q : Outcome () → Sock → Prop) s :
  at_point out dials s → (∀ s', at_point (out ++ bytes) dials s' → Q (Done ()) s') →
  (∀ s', at_point out dials s' → Q (Done ()) s') → wp (write_quietly bytes) Q s.
Proof. intros H Hd Hf. unfold write_quietly. wp_steps. eapply wp_write; [done| |]; intros s' Hs'; wp_steps; auto. Qed.

Section spec.
Context (dial : nat → string → error + option TCPAddr) (lookup : string → error + list string).
Context (deadline reset : option error) (copied : option error * option error).

(** The last dial succeeded. *)
Definition connected (dials : list string) : Prop :=
  ∃ ds addr a, dials = ds ++ [addr] ∧ dial (length ds) addr = inr a.

Lemma wp_DialContext addr out dials (Q : Outcome (option TCPAddr) → Sock → Prop) s :
  at_point out dials s → (∀ a s', at_point out (dials ++ [addr]) s' → connected (dials ++ [addr]) → Q (Done a) s') →
  (∀ e s', at_point out (dials ++ [addr]) s' → Q (Failed e) s') → wp (DialContext dial addr) Q s.
Proof.
  intros (H1 & H2 & H3) Hd Hf. unfold wp, DialContext. rewrite H2.
  destruct (dial (length dials) addr) as [e|a] eqn:E; cbn.
  - apply Hf. split_and!; try done. cbn. by rewrite H2.
  - apply Hd; [split_and!; try done; cbn; by rewrite H2|]. by exists dials, addr, a.
Qed.

(** What dialing may do from a point where only tunnel addresses were dialed. *)
Definition dialed (out : list Z) (o : Outcome (option TCPAddr)) (s : Sock) : Prop :=
  ∃ dials, at_point out dials s ∧ Forall tunnel_addr dials ∧
    match o with Done _ => connected dials | Failed _ => True | Crashed => False end.

Lemma wp_dial_first addrs p firstErr out dials s :
  0 ≤ p < 65536 → at_point out dials s → Forall tunnel_addr dials →
  wp (dial_first dial addrs (Itoa p) firstErr) (dialed out) s.
Proof.
  intros Hp. revert firstErr dials s. induction addrs as [|addr addrs IH]; intros firstErr dials s Hs Hd; cbn [dial_first].
  - apply wp_fail. by exists dials.
  - destruct (ParseIP4 addr) as [v|]; [|by eapply IH].
    assert (Ht : Forall tunnel_addr (dials ++ [JoinHostPort (v4_string v) (Itoa p)])).
    { apply Forall_app. split; [done|]. apply Forall_singleton. by exists v, p. }
    wp_steps. eapply wp_DialContext; [done| |].
    + intros a s' Hs' Hc. wp_steps. by eexists.
    + intros e s' Hs'. wp_steps. by eapply IH.
Qed.

Lemma wp_dialTarget target p out s :
  0 ≤ p < 65536 → tg_port target = Itoa p → at_point out [] s → wp (dialTarget dial lookup target) (dialed out) s.
Proof.
  intros Hp Ht Hs. unfold dialTarget. rewrite Ht. destruct (ParseIP (tg_host target)).
  - destruct (ParseIP4 _) as [v|]; [|apply wp_fail; by exists []].
    assert (Hf : Forall tunnel_addr [JoinHostPort (v4_string v) (Itoa p)]) by (apply Forall_singleton; by exists v, p).
    eapply wp_DialContext; [done| |]; intros ? s' Hs'; [intros Hc|]; by eexists.
  - destruct (lookup _); [apply wp_fail; by exists []|]. by eapply wp_dial_first.
Qed.

(** The answers a client can see. *)
Definition session_end (s : Sock) : Prop :=
  ∃ dials, sk_dials s = dials ∧ Forall tunnel_addr dials ∧
    ((sk_out s = [] ∨ sk_out s = [5; 255]) ∧ dials = [] ∨
     ∃ reply, sk_out s = [5; 0] ++ reply ∧
       (reply = [] ∨
        (∃ code, code ∈ [4; 5; 8] ∧ reply = refusal code) ∨
        (dials = [] ∧ reply = refusal 7) ∨
        (take 2 reply = [5; 0] ∧ connected dials))).

Lemma reply_code err : replyCodeForDialError err ∈ [4; 5; 8].
Proof. unfold replyCodeForDialError. repeat case_match; set_solver. Qed.

Lemma bytes_value_range l : Forall byte l → 0 ≤ bytes_value l < 256 ^ Z.of_nat (length l).
Proof.
  unfold bytes_value. intros H. assert (∀ acc, 0 ≤ acc →
    0 ≤ foldl (λ acc b, acc * 256 + b) acc l < (acc + 1) * 256 ^ Z.of_nat (length l)) as Hl.
  { induction H as [|b l Hb _ IH]; intros acc Ha; cbn [foldl length]; [cbn; lia|]. unfold byte in Hb.
    rewrite Nat2Z.inj_succ, Z.pow_succ_r by lia. specialize (IH (acc * 256 + b) ltac:(lia)). nia. }
  specialize (Hl 0 ltac:(lia)). lia.
Qed.

Lemma wp_readHost atyp out s (Q : Outcome string → Sock → Prop) :
  at_point out [] s → (∀ h s', at_point out [] s' → Q (Done h) s') → (∀ e s', at_point out [] s' → Q (Failed e) s') →
  wp (readHost atyp) Q s.
Proof.
  intros Hs Hd Hf. unfold readHost. repeat case_match; wp_steps; try by apply Hf.
  - eapply wp_read_full; [done| |done]. intros l s' Hs' _ _. wp_steps. by apply Hd.
  - eapply wp_read_full; [done| |done]. intros l s' Hs' _ _. wp_steps.
    eapply wp_read_full; [done| |done]. intros l2 s2 Hs2 _ _. wp_steps. by apply Hd.
  - eapply wp_read_full; [done| |done]. intros l s' Hs' _ _. wp_steps. by apply Hd.
Qed.

Lemma wp_readTarget atyp out s (Q : Outcome targetAddr → Sock → Prop) :
  at_point out [] s →
  (∀ t p s', at_point out [] s' → 0 ≤ p < 65536 → tg_port t = Itoa p → Q (Done t) s') →
  (∀ e s', at_point out [] s' → Q (Failed e) s') → wp (readTarget atyp) Q s.
Proof.
  intros Hs Hd Hf. unfold readTarget. wp_steps. eapply wp_readHost; [done| |done]. intros h s1 H1. wp_steps.
  eapply wp_read_full; [done| |done]. intros l s2 H2 Hn Hb. wp_steps. apply Hd with (bytes_value l); [done| |done].
  pose proof (bytes_value_range l Hb) as Hr. rewrite Hn in Hr. exact Hr.
Qed.

Lemma end_refused out code dials s :
  at_point out dials s → out = [5; 0] ∨ out = [5; 0] ++ refusal code → Forall tunnel_addr dials → code ∈ [4; 5; 8] → session_end s.
Proof.
  intros (H1 & H2 & _) [-> | ->] Hd Hc; exists dials; (split_and!; [done|done|]); right.
  - exists []. split; [by rewrite H1|by left].
  - exists (refusal code). split; [done|]. right. left. by exists code.
Qed.

Lemma wp_after_dial dials upstream s :
  at_point [5; 0] dials s → Forall tunnel_addr dials → connected dials →
  wp (match reset with Some e => fail e | None =>
        writeReply (default (mkTCPAddr (Some (Addr4 0)) 0) upstream);; proxyBidirectional copied end) (λ _, session_end) s.
Proof.
  intros Hs Hd Hc.
  assert (H0 : ∀ s, at_point [5; 0] dials s → session_end s).
  { intros s' (H1 & H2 & _). exists dials. split_and!; try done. right. exists []. rewrite H1. split; [done|by left]. }
  destruct reset; [wp_steps; by apply H0|]. apply wp_bind. generalize (default (mkTCPAddr (Some (Addr4 0)) 0) upstream). intros addr.
  assert (Hw : ∀ l, take 2 l = [5; 0] → wp (write l) (λ o w',
    match o with
    | Done a => wp (proxyBidirectional copied) (λ _, session_end) w' | Failed e => session_end w' | Crashed => session_end w' end) s).
  { intros l Hl. eapply wp_write; [done| |done]. intros s' Hs'.
    assert (session_end s').
    { destruct Hs' as (H1 & H2 & _). exists dials. split_and!; try done. right. exists l. rewrite H1. split; [done|]. by do 3 right. }
    unfold proxyBidirectional. repeat case_match; by wp_steps. }
  unfold writeReply. repeat case_match; by apply Hw.
Qed.

Lemma wp_or_refuse {A B} (m : S5 A) code (k : A → S5 B) out (Q : Outcome B → Sock → Prop) s :
  wp m (λ o s', match o with
                | Done a => wp (k a) Q s'
                | Failed e => ∃ dials, at_point out dials s' ∧ (∀ s2, at_point out dials s2 ∨ at_point (out ++ refusal (code e)) dials s2 → Q (Failed e) s2)
                | Crashed => Q Crashed s'
                end) s →
  wp (a ← or_refuse m code; k a) Q s.
Proof.
  intros Hm. unfold or_refuse. wp_steps. eapply wp_mono; [exact Hm|]. intros [a|e|] s' H; cbn in H |- *; [by wp_steps| |done].
  destruct H as (dials & Hs & HQ). wp_steps. eapply wp_write_quietly; [done| |]; intros s2 H2; wp_steps; apply HQ; by auto.
Qed.

Lemma fresh_end out s : at_point out [] s → out = [] ∨ out = [5; 255] ∨ out = [5; 0] → session_end s.
Proof.
  intros (H1 & H2 & _) Ho. exists []. split_and!; [done|by apply Forall_nil_2|]. rewrite H1.
  destruct Ho as [->|[->| ->]]; [left; by auto..|]. right. exists []. split; [done|by left].
Qed.

Lemma wp_handleConn s :
  at_point [] [] s → wp (handleConn dial lookup deadline reset copied) (λ _, session_end) s.
Proof.
  intros Hs. unfold handleConn. destruct deadline; [wp_steps; eapply fresh_end; by eauto|]. wp_steps.
  eapply wp_read_full; [done| |intros; eapply fresh_end; by eauto]. intros hdr s1 H1 _ _. wp_steps; [eapply fresh_end; by eauto|].
  eapply wp_read_full; [done| |intros; eapply fresh_end; by eauto]. intros methods s2 H2 _ _.
  destruct (negb (existsb _ _)).
  { wp_steps. eapply wp_write_quietly; [done| |]; intros s3 H3; wp_steps; eapply fresh_end; by eauto. }
  wp_steps. eapply wp_write; [done| |intros; eapply fresh_end; by eauto]. cbn [app]. intros s3 H3. wp_steps.
  eapply wp_read_full; [done| |intros; eapply fresh_end; by eauto]. intros reqHdr s4 H4 _ _. wp_steps; [eapply fresh_end; by eauto|].
  destruct (negb (nth 1 reqHdr 0 =? 1)).
  { wp_steps. eapply wp_write_quietly; [done| |]; intros s5 H5; wp_steps; [|eapply fresh_end; by eauto].
    destruct H5 as (E1 & E2 & _). exists []. split_and!; [done|by apply Forall_nil_2|]. right. exists (refusal 7).
    rewrite E1. split; [done|]. by do 2 right; left. }
  assert (Hr : ∀ code dials s5, code ∈ [4; 5; 8] → Forall tunnel_addr dials →
    at_point [5; 0] dials s5 ∨ at_point ([5; 0] ++ refusal code) dials s5 → session_end s5).
  { intros code dials s5 Hc Hd [H5|H5]; eapply end_refused; by eauto. }
  apply (wp_or_refuse _ _ _ [5; 0]). eapply wp_readTarget; [done| |].
  2:{ intros e s5 H5. exists []. split; [done|]. intros s6 H6. apply (Hr 8 [] s6); [set_solver|by apply Forall_nil_2|done]. }
  intros t p s5 H5 Hp Ht. apply (wp_or_refuse _ _ _ [5; 0]).
  eapply wp_mono; [eapply wp_dialTarget; by eauto|]. intros [a|e|] s6 (dials & H6 & Hd & Hc); [|exists dials|done].
  - by eapply wp_after_dial.
  - split; [done|]. intros s7 H7. by apply (Hr (replyCodeForDialError e) dials s7); [apply reply_code| |].
Qed.
End spec.


(** ** A request that is well formed *)

Inductive asked := AskIPv4 (v : Z) | AskDomain (name : list Z).
Definition host_bytes (a : asked) : list Z :=
  match a with
  | AskIPv4 v => [1; octet v 0; octet v 1; octet v 2; octet v 3]
  | AskDomain name => [3; Z.of_nat (length name)] ++ name
  end.
Definition request_bytes (methods : list Z) (rsv : Z) (a : asked) (p : Z) : list Z :=
  [5; Z.of_nat (length methods)] ++ methods ++ [5; 1; rsv] ++ host_bytes a ++ be16 p.

Lemma read_full_app n l rest s :
  rd_bytes (sk_in s) = l ++ rest → length l = n →
  read_full n s = (s <| sk_in := mkReader rest (rd_err (sk_in s)) |>, Done l).
Proof.
  intros E Hn. unfold read_full, ReadFull. rewrite E, length_app. rewrite decide_True by lia.
  rewrite take_app_length', drop_app_length' by done. done.
Qed.

Lemma wp_read_app n l rest s (Q : Outcome (list Z) → Sock → Prop) :
  rd_bytes (sk_in s) = l ++ rest → length l = n → Q (Done l) (s <| sk_in := mkReader rest (rd_err (sk_in s)) |>) →
  wp (read_full n) Q s.
Proof. intros E Hn HQ. unfold wp. by rewrite (read_full_app n l rest). Qed.

Lemma wp_write_free bytes s (Q : Outcome () → Sock → Prop) :
  sk_writes s = None → Q (Done ()) (s <| sk_out ::= λ out, out ++ bytes |>) → wp (write bytes) Q s.
Proof. intros E HQ. unfold wp, write. rewrite E. cbn. destruct s; cbn in *; by subst. Qed.

(** The bytes of the reply that says "connected". *)
Definition reply_bytes (addr : TCPAddr) : list Z :=
  let port := be16 (ta_Port addr mod 65536) in
  match Unmap <$> ta_IP addr with
  | Some (Addr4 v) => [5; 0; 0; 1; octet v 0; octet v 1; octet v 2; octet v 3] ++ port
  | Some (Addr6 v _) => [5; 0; 0; 4] ++ ((λ i : nat, Z.land (Z.shiftr v (8 * (15 - Z.of_nat i))) 255) <$> seq 0 16) ++ port
  | _ => [5; 0; 0; 4] ++ port
  end.
Definition bound (upstream : option TCPAddr) : TCPAddr := default (mkTCPAddr (Some (Addr4 0)) 0) upstream.

Lemma writeReply_bytes addr : writeReply addr = write (reply_bytes addr).
Proof. unfold writeReply, reply_bytes. by repeat case_match. Qed.

Lemma ip_string_v4 v : 0 ≤ v < 2 ^ 32 → ip_string [octet v 0; octet v 1; octet v 2; octet v 3] = v4_string v.
Proof.
  intros Hv. unfold ip_string. cbn [length Nat.eqb]. f_equal. rewrite <- (octets_value v Hv) at 5. unfold bytes_value, v4_value. cbn. lia.
Qed.

Lemma uint16_bytes p : 0 ≤ p < 65536 → bytes_value (be16 p) = p.
Proof. intros Hp. unfold bytes_value, be16. cbn [foldl]. Z.div_mod_to_equations. lia. Qed.

Section answered.
Context (dial : nat → string → error + option TCPAddr) (lookup : string → error + list string).
Context (copied : option error * option error).

(** The addresses a request may be connected to, in order. *)
Definition candidates (a : asked) (p : Z) : list string :=
  (λ v, JoinHostPort (v4_string v) (Itoa p)) <$>
  match a with
  | AskIPv4 v => [v]
  | AskDomain name => match lookup (bytes_text name) with inr addrs => omap ParseIP4 addrs | inl _ => [] end
  end.

Definition fails_before (k : nat) (l : list string) : Prop := ∀ i addr, (i < k)%nat → l !! i = Some addr → ∃ e, dial i addr = inl e.

(** The first candidate that answers is connected; the others after it are not
    dialed; without one the client is refused. *)
Definition answered (l : list string) (s : Sock) : Prop :=
  (∃ k addr a, l !! k = Some addr ∧ dial k addr = inr a ∧ fails_before k l ∧
     sk_dials s = take (S k) l ∧ sk_out s = [5; 0] ++ reply_bytes (bound a)) ∨
  (fails_before (length l) l ∧ sk_dials s = l ∧ ∃ code, code ∈ [4; 5; 8] ∧ sk_out s = [5; 0] ++ refusal code).

(** What dialing leaves, the output not being touched. *)
Definition dialed_first (l : list string) (before : Sock) (o : Outcome (option TCPAddr)) (s : Sock) : Prop :=
  sk_out s = sk_out before ∧ sk_writes s = sk_writes before ∧ sk_in s = sk_in before ∧
  match o with
  | Done a => ∃ k addr, l !! k = Some addr ∧ dial k addr = inr a ∧ fails_before k l ∧ sk_dials s = take (S k) l
  | Failed _ => fails_before (length l) l ∧ sk_dials s = l
  | Crashed => False
  end.

Lemma wp_dial_in_order p addrs done_ firstErr s before :
  sk_dials s = done_ → sk_out s = sk_out before → sk_writes s = sk_writes before → sk_in s = sk_in before →
  let l := done_ ++ ((λ v, JoinHostPort (v4_string v) (Itoa p)) <$> omap ParseIP4 addrs) in
  fails_before (length done_) l →
  wp (dial_first dial addrs (Itoa p) firstErr) (dialed_first l before) s.
Proof.
  revert done_ firstErr s. induction addrs as [|addr addrs IH]; intros done_ firstErr s Hd Ho Hw Hi l Hl; cbn [dial_first].
  - apply wp_fail. unfold l in *. cbn in *. rewrite app_nil_r in *. by split_and!.
  - unfold l in *. cbn in *. destruct (ParseIP4 addr) as [v|]; [|by apply IH]. cbn in *.
    set (target := JoinHostPort (v4_string v) (Itoa p)) in *. wp_steps. unfold wp at 1, DialContext. rewrite Hd.
    assert (Ht : (done_ ++ target :: ((λ v0, JoinHostPort (v4_string v0) (Itoa p)) <$> omap ParseIP4 addrs)) !! length done_ = Some target).
    { by rewrite list_lookup_middle. }
    destruct (dial (length done_) target) as [e|a] eqn:E; cbn.
    + rewrite (cons_middle target), app_assoc. apply IH; cbn; try done; [by rewrite Hd|].
      rewrite <- app_assoc. cbn. intros i addr' Hlt Hi'. rewrite length_app in Hlt. cbn in Hlt.
      destruct (decide (i < length done_)%nat); [by eapply Hl|]. assert (i = length done_) as -> by lia.
      rewrite Ht in Hi'. injection Hi' as <-. by exists e.
    + wp_steps. split_and!; try done. exists (length done_), target. split_and!; try done. cbn. rewrite Hd.
      by rewrite (take_S_r _ _ target Ht), take_app_length.
Qed.

Lemma ParseIP_v4_string v : 0 ≤ v < 2 ^ 32 → ParseIP (v4_string v) = Some (Addr4 v) ∧ ParseIP4 (v4_string v) = Some v.
Proof. intros Hv. unfold ParseIP, ParseIP4. by rewrite ParseAddr_v4_string. Qed.

Definition well_asked (a : asked) : Prop :=
  match a with
  | AskIPv4 v => 0 ≤ v < 2 ^ 32
  | AskDomain name => Forall byte name ∧ (length name < 256)%nat ∧ ParseIP (bytes_text name) = None
  end.
Definition host_text (a : asked) : string := match a with AskIPv4 v => v4_string v | AskDomain name => bytes_text name end.

Lemma wp_readHost_asked a rest s (Q : Outcome string → Sock → Prop) atyp after :
  well_asked a → host_bytes a = atyp :: after → rd_bytes (sk_in s) = after ++ rest →
  (∀ s', sk_out s' = sk_out s → sk_writes s' = sk_writes s → sk_dials s' = sk_dials s → rd_bytes (sk_in s') = rest →
     Q (Done (host_text a)) s') →
  wp (readHost atyp) Q s.
Proof.
  intros Ha E Hin HQ. unfold readHost. destruct a as [v|name]; injection E as <- <-; cbn [Z.eqb Pos.eqb].
  - wp_steps. eapply (wp_read_app 4); [exact Hin|done|]. wp_steps. rewrite ip_string_v4 by done. by apply HQ.
  - destruct Ha as (Hb & Hn & _). wp_steps. eapply (wp_read_app 1 [Z.of_nat (length name)]); [exact Hin|done|]. wp_steps.
    eapply (wp_read_app _ name); [reflexivity|unfold bytes_value; cbn; lia|]. wp_steps. by apply HQ.
Qed.

Lemma wp_readTarget_asked a p rest s (Q : Outcome targetAddr → Sock → Prop) atyp after :
  well_asked a → 0 ≤ p < 65536 → host_bytes a = atyp :: after → rd_bytes (sk_in s) = after ++ be16 p ++ rest →
  (∀ s', sk_out s' = sk_out s → sk_writes s' = sk_writes s → sk_dials s' = sk_dials s → rd_bytes (sk_in s') = rest →
     Q (Done (mkTarget (host_text a) (Itoa p) atyp)) s') →
  wp (readTarget atyp) Q s.
Proof.
  intros Ha Hp E Hin HQ. unfold readTarget. wp_steps. eapply wp_readHost_asked; [done|exact E|exact Hin|].
  intros s1 H1 H2 H3 H4. wp_steps. eapply (wp_read_app 2 (be16 p) rest); [done|done|]. wp_steps.
  rewrite uint16_bytes by done. by apply HQ.
Qed.

Lemma wp_dialTarget_asked a p atyp s :
  well_asked a → sk_dials s = [] →
  wp (dialTarget dial lookup (mkTarget (host_text a) (Itoa p) atyp)) (dialed_first (candidates a p) s) s.
Proof.
  intros Ha Hd. unfold dialTarget. cbn [tg_host tg_port]. destruct a as [v|name]; cbn [host_text candidates well_asked] in *.
  - destruct (ParseIP_v4_string v Ha) as [-> ->]. set (addr := JoinHostPort _ _). change (_ <$> [v]) with [addr].
    unfold wp, DialContext, dialed_first. rewrite Hd. cbn [length fst snd]. destruct (dial 0 addr) as [e|a] eqn:E; cbn.
    + split_and!; try done; [|by rewrite Hd]. intros i ad Hi Hl. destruct i as [|i]; [|cbn in *; lia]. injection Hl as <-. by exists e.
    + split_and!; try done. exists 0%nat, addr. split_and!; [done|done|intros i ad Hi; lia|]. by rewrite Hd.
  - destruct Ha as (_ & _ & ->). unfold candidates. destruct (lookup (bytes_text name)) as [e|addrs].
    + apply wp_fail. by split_and!.
    + apply (wp_dial_in_order p addrs [] None s s); try done. by intros i ad Hi; cbn in Hi; lia.
Qed.

Lemma wp_connect_asked a p atyp s rest :
  well_asked a → sk_out s = [5; 0] → sk_writes s = None → sk_dials s = [] → rd_bytes (sk_in s) = rest →
  wp (upstream ← or_refuse (dialTarget dial lookup (mkTarget (host_text a) (Itoa p) atyp)) replyCodeForDialError;
      writeReply (bound upstream);; proxyBidirectional copied)
    (λ _ s', answered (candidates a p) s' ∧ rd_bytes (sk_in s') = rest) s.
Proof.
  intros Ha Ho Hw Hd Hin. unfold or_refuse. wp_steps.
  eapply wp_mono; [by apply wp_dialTarget_asked|]. intros [conn|e|] s2 (F1 & F2 & F3 & F4); [| |done]; rewrite Ho in F1; rewrite Hw in F2; rewrite <- F3 in Hin.
  - destruct F4 as (k & addr & Hl & Hc & Hf & Hds). wp_steps. rewrite writeReply_bytes. apply wp_write_free; [done|].
    set (s3 := s2 <| sk_out ::= _ |>).
    assert (answered (candidates a p) s3 ∧ rd_bytes (sk_in s3) = rest).
    { split; [|done]. left. exists k, addr, conn. split_and!; try done. cbn. by rewrite F1. }
    unfold proxyBidirectional. repeat case_match; by wp_steps.
  - destruct F4 as (Hf & Hds). wp_steps. unfold write_quietly. wp_steps. apply wp_write_free; [done|]. wp_steps.
    split; [|done]. right. split_and!; try done. exists (replyCodeForDialError e). split; [apply reply_code|]. cbn. by rewrite F1.
Qed.

Lemma wp_accepted {A B} (m : S5 A) code (k : A → S5 B) (Q : Outcome B → Sock → Prop) s :
  wp m (λ o s', match o with Done a => wp (k a) Q s' | _ => False end) s → wp (a ← or_refuse m code; k a) Q s.
Proof. intros H. unfold or_refuse. wp_steps. eapply wp_mono; [exact H|]. by intros [a|e|] s' H'. Qed.

Lemma request_shape methods rsv a p rest atyp after :
  host_bytes a = atyp :: after →
  request_bytes methods rsv a p ++ rest =
  [5; Z.of_nat (length methods)] ++ methods ++ [5; 1; rsv; atyp] ++ after ++ be16 p ++ rest.
Proof. intros E. unfold request_bytes. rewrite E, <- !app_assoc. done. Qed.
End answered.

(** C32: A client that speaks the protocol gets what it asks for.  For any
    methods that include no authentication, any IPv4 address or domain name
    and any port: the candidates (the address; the IPv4 addresses the name
    resolves to, in order) are dialed one after the other up to the first that
    answers, the client is told that connection's local address, and exactly
    the bytes of its request have been read; if none answers it is refused. *)
Theorem socks_request_answered dial lookup copied methods rsv a p rest err :
  Forall byte methods → (length methods < 256)%nat → 0 ∈ methods → well_asked a → 0 ≤ p < 65536 →
  let s := mkSock (mkReader (request_bytes methods rsv a p ++ rest) err) [] None [] in
  let s' := fst (handleConn dial lookup None None copied s) in
  answered dial (candidates lookup a p) s' ∧ rd_bytes (sk_in s') = rest.
Proof.
  intros Hb Hn H0 Ha Hp s. enough (wp (handleConn dial lookup None None copied)
    (λ _ s', answered dial (candidates lookup a p) s' ∧ rd_bytes (sk_in s') = rest) s) as H.
  { unfold wp in H. by destruct (handleConn _ _ _ _ _ s). }
  unfold handleConn. destruct (host_bytes a) as [|atyp after] eqn:Eh; [by destruct a|].
  unfold s. clear s. rewrite (request_shape _ _ _ _ rest _ _ Eh).
  wp_steps. eapply (wp_read_app 2 [5; Z.of_nat (length methods)]); [reflexivity|done|].
  wp_steps; [discriminate|]. eapply (wp_read_app _ methods); [reflexivity|cbn; lia|].
  replace (existsb (Z.eqb 0) methods) with true.
  2:{ symmetry. apply existsb_exists. exists 0. split; [by apply list_elem_of_In|done]. }
  cbn [negb]. wp_steps. eapply wp_write_free; [done|]. wp_steps.
  eapply (wp_read_app 4 [5; 1; rsv; atyp]); [reflexivity|done|]. wp_steps; [discriminate|]. cbn [nth Z.eqb Pos.eqb negb].
  apply wp_accepted. eapply (wp_readTarget_asked a p rest); [done|done|exact Eh|reflexivity|]. intros s1 E1 E2 E3 E4.
  by apply wp_connect_asked.
Qed.

(** Two sessions: one asks for a name whose second IPv4 address answers, one
    offers no method the server knows. *)
Definition example_dial (n : nat) (addr : string) : error + option TCPAddr :=
  match n with O => inl (ErrText "refused") | _ => inr (Some (mkTCPAddr (Some (Addr4 0x0a000001)) 40000)) end.
Definition example_lookup (name : string) : error + list string := inr ["192.0.2.7"; "2001:db8::1"; "192.0.2.8"; "192.0.2.9"].
Definition example_name : list Z := [120; 46; 121].
Definition example_session : Sock :=
  mkSock (mkReader (request_bytes [2; 0] 0 (AskDomain example_name) 443 ++ [1; 2]) io_EOF) [] None [].


Lemma socks_request_answered_witness :
  let s := fst (handleConn example_dial example_lookup None None (None, None) example_session) in
  sk_dials s = ["192.0.2.7:443"; "192.0.2.8:443"] ∧ sk_out s = [5; 0; 5; 0; 0; 1; 10; 0; 0; 1; 156; 64] ∧
  answered example_dial (candidates example_lookup (AskDomain example_name) 443) s ∧ rd_bytes (sk_in s) = [1; 2].
Proof.
  split; [vm_compute; reflexivity|]. split; [vm_compute; reflexivity|]. apply socks_request_answered.
  - repeat constructor; unfold byte; vm_compute; (reflexivity || discriminate).
  - vm_compute. repeat constructor.
  - right. left.
  - split_and!; [repeat constructor; unfold byte; vm_compute; (reflexivity || discriminate)|vm_compute; repeat constructor|reflexivity].
  - vm_compute. split; [discriminate|reflexivity].
Defined.
