(* ===== verification/Socks5Server.v ===== *)
(** * The SOCKS5 server around its sessions (src/internal/socks5/server.go)

    [serve], the goroutine of a session and [CloseContext] as steps that
    interleave: each step is what happens between two points at which another
    goroutine can be seen ([s.mu] held, a wait group changed, a connection
    closed).  What a session says to its client is [Socks5.handleConn]; here it
    is the step that takes as long as it likes. *)

From S2P Require Import Prelude GoStrings Socks5.

Open Scope go_scope.
Open Scope nat_scope.

(** ** The state *)

Inductive ServePhase :=
  | Accepting
  | Accepted (c : nat)        (* accepted, [s.mu] not yet taken *)
  | Registered (c : nat)      (* in [s.conns], its goroutine not yet started *)
  | Served.                   (* returned: [errors] closed, wait group left *)

(** A session: in [handleConn]; after it, out of [s.conns] and about to close. *)
Inductive SessionPhase := Handling | Leaving.

Record Server := mkServer {
  sv_serve : ServePhase;
  sv_sessions : gmap nat SessionPhase;
  sv_conns : gset nat;            (* s.conns *)
  sv_open : gset nat;             (* connections not closed yet *)
  sv_wg : nat;                    (* the wait group's counter *)
  sv_listening : bool;
  sv_closed : bool;
  sv_closeErr : option error;
  sv_errors : option error;       (* what the buffer of [errors] holds *)
}.
#[export] Instance Server_eta : Eta Server := λ r,
  mkServer (sv_serve r) (sv_sessions r) (sv_conns r) (sv_open r) (sv_wg r) (sv_listening r) (sv_closed r) (sv_closeErr r) (sv_errors r).

(** ** Listening *)

Definition no_dialer : error := ErrText "SOCKS5 requires a VPN tunnel dialer".
(** The address that is listened on. *)
Definition listen_addr (addr : string) : string := if String.eqb addr "" then "127.0.0.1:1080" else addr.
Definition listening_server : Server := mkServer Accepting ∅ ∅ ∅ 1 true false None None.
(** [net.Listen] answers the address it is bound to. *)
Definition Listen (listen : string → error + string) (addr : string) (dialer : bool) : error + (Server * string) :=
  if negb dialer then inl no_dialer
  else match listen (listen_addr addr) with inl err => inl err | inr bound => inr (listening_server, bound) end.

(** ** Closing *)

(** The loop over [s.conns]: the first error that is not ErrClosed is kept. *)
Definition close_conns (answer : nat → option error) (order : list nat) (closeErr : option error) : option error :=
  foldl (λ acc c, match answer c, acc with
                  | Some err, None => if errors_is err NetErrClosed then None else Some err
                  | _, _ => acc
                  end) closeErr order.
Definition listener_error (err : option error) : option error :=
  match err with Some e => if errors_is e NetErrClosed then None else Some e | None => None end.

(** What [closeOnce] runs; an error of [conn.Close] does not keep the
    connection open. *)
Definition close_once (listener : option error) (answer : nat → option error) (order : list nat) (s : Server) : Server :=
  if sv_closed s then s
  else s <| sv_closed := true |> <| sv_listening := false |>
         <| sv_closeErr := close_conns answer order (listener_error listener) |>
         <| sv_open ::= λ l, l ∖ sv_conns s |>.

(** What [CloseContext] may return: after the wait group is empty, or when its
    context ends first. *)
Inductive close_returns (s : Server) : option error → Prop :=
  | close_drained : sv_wg s = 0 → close_returns s (sv_closeErr s)
  | close_timeout err : close_returns s (Some (ErrWrap "close SOCKS5 server: " err "")).

(** ** The steps *)

(** The buffer of [errors] has room for one. *)
Definition report_accept (err : error) (s : Server) : Server := s <| sv_errors ::= λ e, match e with Some e => Some e | None => Some err end |>.
Definition leave_serve (s : Server) : Server := s <| sv_serve := Served |> <| sv_wg ::= pred |>.
Definition accept_failed (err : error) (s : Server) : Server :=
  leave_serve (if errors_is err NetErrClosed then s else report_accept (ErrWrap "SOCKS5 accept failed: " err "") s).
Definition accept (c : nat) (s : Server) : Server := s <| sv_serve := Accepted c |> <| sv_open ::= λ l, {[c]} ∪ l |>.
Definition register (c : nat) (s : Server) : Server :=
  if sv_closed s then leave_serve (s <| sv_open ::= λ l, l ∖ {[c]} |>)
  else s <| sv_conns ::= λ l, {[c]} ∪ l |> <| sv_serve := Registered c |>.
Definition start_session (c : nat) (s : Server) : Server :=
  s <| sv_wg ::= S |> <| sv_sessions ::= <[c := Handling]> |> <| sv_serve := Accepting |>.
Definition session_ends (c : nat) (s : Server) : Server :=
  s <| sv_conns ::= λ l, l ∖ {[c]} |> <| sv_sessions ::= <[c := Leaving]> |>.
Definition session_closes (c : nat) (s : Server) : Server :=
  s <| sv_open ::= λ l, l ∖ {[c]} |> <| sv_sessions ::= delete c |> <| sv_wg ::= pred |>.

(** A connection that was never seen before. *)
Definition fresh_conn (c : nat) (s : Server) : Prop := c ∉ sv_open s ∧ c ∉ sv_conns s ∧ sv_sessions s !! c = None.

Inductive step : Server → Server → Prop :=
  | step_accept s c : sv_serve s = Accepting → sv_listening s = true → fresh_conn c s → step s (accept c s)
  | step_accept_failed s err :
      sv_serve s = Accepting → sv_listening s = true ∨ errors_is err NetErrClosed = true → step s (accept_failed err s)
  | step_register s c : sv_serve s = Accepted c → step s (register c s)
  | step_spawn s c : sv_serve s = Registered c → step s (start_session c s)
  | step_session_ends s c : sv_sessions s !! c = Some Handling → step s (session_ends c s)
  | step_session_closes s c : sv_sessions s !! c = Some Leaving → step s (session_closes c s)
  | step_close s listener answer order :
      sv_closed s = false → order ≡ₚ elements (sv_conns s) → step s (close_once listener answer order s).

Definition reachable : Server → Prop := rtc step listening_server.

(** ** The invariant *)

Definition serving (s : Server) : nat := match sv_serve s with Served => 0 | _ => 1 end.
(** A connection some goroutine still has to close. *)
Definition owned (c : nat) (s : Server) : Prop :=
  sv_serve s = Accepted c ∨ sv_serve s = Registered c ∨ is_Some (sv_sessions s !! c).

Record inv (s : Server) : Prop := mkInv {
  inv_wg : sv_wg s = serving s + size (sv_sessions s);
  inv_listening : sv_listening s = negb (sv_closed s);
  inv_open : ∀ c, c ∈ sv_open s → owned c s;
  inv_conns : ∀ c, c ∈ sv_conns s ↔ sv_serve s = Registered c ∨ sv_sessions s !! c = Some Handling;
  inv_apart : ∀ c, sv_serve s = Accepted c ∨ sv_serve s = Registered c → sv_sessions s !! c = None;
  inv_dead : sv_closed s = true → ∀ c, c ∈ sv_conns s → c ∉ sv_open s;
  inv_errors : sv_serve s ≠ Served → sv_errors s = None;
}.

Lemma inv_started : inv listening_server.
Proof. split; cbn; try done; try set_solver. Qed.

Lemma owned_lookup c s : owned c s ↔ sv_serve s = Accepted c ∨ sv_serve s = Registered c ∨ ∃ p, sv_sessions s !! c = Some p.
Proof. done. Qed.

Lemma inv_accept s c : inv s → sv_serve s = Accepting → sv_listening s = true → fresh_conn c s → inv (accept c s).
Proof.
  intros [] Hs Hl (F1 & F2 & F3). unfold accept, start_session, session_ends, session_closes; split; unfold serving, owned in *; cbn; rewrite ?Hs in *; cbn; try done.
  - intros c'. rewrite elem_of_union, elem_of_singleton. intros [->|Hc]; [by left|]. destruct (inv_open0 c' Hc) as [?|[?|?]]; naive_solver.
  - intros c'. rewrite inv_conns0. naive_solver.
  - naive_solver.
  - intros Hc. rewrite Hc in inv_listening0. cbn in *. congruence.
  - by intros _; apply inv_errors0.
Qed.

Lemma inv_accept_failed s err : inv s → sv_serve s = Accepting → inv (accept_failed err s).
Proof.
  intros [] Hs. unfold accept_failed, leave_serve, report_accept.
  destruct (errors_is err NetErrClosed); unfold accept, start_session, session_ends, session_closes; split; unfold serving, owned in *; cbn; rewrite ?Hs in *; cbn; try done; try lia;
    intros c'; specialize (inv_open0 c'); specialize (inv_conns0 c'); naive_solver.
Qed.

Lemma inv_register s c : inv s → sv_serve s = Accepted c → inv (register c s).
Proof.
  intros [] Hs. unfold register, leave_serve. destruct (sv_closed s) eqn:Hc; unfold accept, start_session, session_ends, session_closes; split; unfold serving, owned in *; cbn; rewrite ?Hs, ?Hc in *; cbn; try done; try lia.
  - intros c'. specialize (inv_open0 c'). set_solver.
  - intros c'. specialize (inv_conns0 c'). naive_solver.
  - naive_solver.
  - intros _ c' H. specialize (inv_dead0 eq_refl c' H). set_solver.
  - intros c' H. specialize (inv_open0 c' H). naive_solver.
  - intros c'. specialize (inv_conns0 c'). set_solver.
  - naive_solver.
  - by intros _; apply inv_errors0.
Qed.

Lemma inv_start_session s c : inv s → sv_serve s = Registered c → inv (start_session c s).
Proof.
  intros [] Hs. assert (Hn : sv_sessions s !! c = None) by (apply inv_apart0; auto).
  unfold accept, start_session, session_ends, session_closes; split; unfold serving, owned in *; cbn; rewrite ?Hs in *; cbn; try done.
  - rewrite map_size_insert_None by done. lia.
  - intros c' Hc. destruct (decide (c = c')) as [->|Hne]; [right; right; by rewrite lookup_insert_eq|].
    rewrite lookup_insert_ne by done. specialize (inv_open0 c' Hc). naive_solver.
  - intros c'. rewrite inv_conns0. destruct (decide (c = c')) as [->|Hne]; [rewrite lookup_insert_eq; naive_solver|].
    rewrite lookup_insert_ne by done. naive_solver.
  - naive_solver.
  - by intros _; apply inv_errors0.
Qed.

Lemma inv_session_ends s c : inv s → sv_sessions s !! c = Some Handling → inv (session_ends c s).
Proof.
  intros [] Hs. unfold accept, start_session, session_ends, session_closes; split; unfold serving, owned in *; cbn; try done.
  - by rewrite map_size_insert_Some by done.
  - intros c' Hc. destruct (decide (c = c')) as [->|Hne]; [right; right; by rewrite lookup_insert_eq|].
    rewrite lookup_insert_ne by done. by apply inv_open0.
  - intros c'. rewrite elem_of_difference, elem_of_singleton, inv_conns0.
    destruct (decide (c = c')) as [->|Hne]; [|rewrite lookup_insert_ne by done; naive_solver].
    rewrite lookup_insert_eq. specialize (inv_apart0 c'). naive_solver.
  - intros c' Hc. destruct (decide (c = c')) as [->|Hne]; [|rewrite lookup_insert_ne by done; by apply inv_apart0].
    specialize (inv_apart0 c' Hc). congruence.
  - intros Hc c' Hin. apply inv_dead0; [done|]. set_solver.
Qed.

Lemma inv_session_closes s c : inv s → sv_sessions s !! c = Some Leaving → inv (session_closes c s).
Proof.
  intros [] Hs. unfold accept, start_session, session_ends, session_closes; split; unfold serving, owned in *; cbn; try done.
  - rewrite map_size_delete_Some by done. assert (size (sv_sessions s) ≠ 0); [|lia].
    intros H%map_size_empty_inv. rewrite H in Hs. done.
  - intros c'. rewrite elem_of_difference, elem_of_singleton. intros [Hc Hne]. rewrite lookup_delete_ne by done. by apply inv_open0.
  - intros c'. rewrite inv_conns0. destruct (decide (c = c')) as [->|Hne]; [|by rewrite lookup_delete_ne].
    rewrite lookup_delete_eq. specialize (inv_apart0 c'). naive_solver.
  - intros c' Hc. destruct (decide (c = c')) as [->|Hne]; [by rewrite lookup_delete_eq|]. rewrite lookup_delete_ne by done. by apply inv_apart0.
  - intros Hc c' Hin. specialize (inv_dead0 Hc c' Hin). set_solver.
Qed.

Lemma inv_close s listener answer order : inv s → sv_closed s = false → inv (close_once listener answer order s).
Proof.
  intros [] Hs. unfold close_once. rewrite Hs. unfold accept, start_session, session_ends, session_closes; split; unfold serving, owned in *; cbn; try done.
  - intros c. rewrite elem_of_difference. intros [Hc _]. by apply inv_open0.
  - intros _ c Hc. rewrite elem_of_difference. by intros [_ ?].
Qed.

#[local] Hint Resolve inv_accept inv_accept_failed inv_register inv_start_session inv_session_ends inv_session_closes inv_close : core.
Lemma server_step_inv s s' : inv s → step s s' → inv s'.
Proof. intros Hi Hst. revert Hi. destruct Hst; auto. Qed.

Lemma server_reachable_inv s : reachable s → inv s.
Proof.
  revert s. apply (rtc_ind_r inv); [apply inv_started|]. intros y z _ Hst Hy. by eapply server_step_inv.
Qed.

(** ** Closing ends *)

(** What is left to do once no connection is accepted any more. *)
Definition serve_weight (p : ServePhase) : nat :=
  match p with Served => 0 | Accepting | Accepted _ => 1 | Registered _ => 3 end.
Definition work (s : Server) : nat := serve_weight (sv_serve s) + size (sv_sessions s) + size (sv_conns s).

Lemma closed_step s s' : inv s → sv_closed s = true → step s s' → sv_closed s' = true ∧ work s' < work s.
Proof.
  intros Hi Hc Hst. destruct Hst as [s c Hs Hl _|s err Hs _|s c Hs|s c Hs|s c Hs|s c Hs|s ? ? ? Hn _]; unfold work.
  - rewrite (inv_listening _ Hi), Hc in Hl. done.
  - unfold accept_failed, leave_serve, report_accept. destruct (errors_is err NetErrClosed); cbn; rewrite Hs; cbn; split; [done|lia|done|lia].
  - unfold register, leave_serve. rewrite Hc. cbn. rewrite Hs. cbn. split; [done|lia].
  - unfold start_session. cbn. rewrite Hs, map_size_insert_None by (apply (inv_apart _ Hi); auto). cbn. split; [done|lia].
  - unfold session_ends. cbn. split; [done|]. rewrite map_size_insert_Some by done.
    assert (c ∈ sv_conns s) by (apply (inv_conns _ Hi); auto).
    assert (size (sv_conns s) ≠ 0) by (apply size_non_empty_iff; set_solver).
    rewrite size_difference by set_solver. rewrite size_singleton. lia.
  - unfold session_closes. cbn. split; [done|]. rewrite map_size_delete_Some by done.
    assert (size (sv_sessions s) ≠ 0); [|lia]. intros H%map_size_empty_inv. by rewrite H in Hs.
  - congruence.
Qed.

Lemma closed_steps n s s' : inv s → sv_closed s = true → nsteps step n s s' → inv s' ∧ sv_closed s' = true ∧ n + work s' ≤ work s.
Proof.
  intros Hi Hc H. induction H as [|n s1 s2 s3 Hst _ IH]; [split_and!; [done|done|lia]|].
  destruct (closed_step s1 s2 Hi Hc Hst) as [Hc2 Hw]. destruct IH as (H1 & H2 & H3); [by eapply server_step_inv|done|]. split_and!; [done|done|lia].
Qed.

Definition net_closed : error := ErrSentinel NetErrClosed "use of closed network connection".

Lemma closed_progress s : inv s → sv_closed s = true → sv_wg s ≠ 0 → ∃ s', step s s'.
Proof.
  intros Hi Hc Hw. destruct (sv_serve s) as [|c|c|] eqn:Hs.
  - exists (accept_failed net_closed s). constructor; [done|]. by right.
  - eexists. by constructor.
  - eexists. by constructor.
  - rewrite (inv_wg _ Hi) in Hw. unfold serving in Hw. rewrite Hs in Hw. cbn in Hw.
    destruct (map_choose (sv_sessions s)) as (c & [] & Hlook); [|eexists; by constructor..].
    intros H. rewrite H in Hw. by rewrite map_size_empty in Hw.
Qed.

Lemma drained_state s : inv s → sv_wg s = 0 → sv_serve s = Served ∧ sv_sessions s = ∅ ∧ sv_conns s = ∅ ∧ sv_open s = ∅.
Proof.
  intros Hi Hw. rewrite (inv_wg _ Hi) in Hw. unfold serving in Hw.
  assert (Hs : sv_serve s = Served) by (destruct (sv_serve s); (done || lia)).
  assert (Hm : sv_sessions s = ∅) by (apply map_size_empty_inv; lia).
  split_and!; [done|done| |]; apply set_eq; intros c; (split; [|set_solver]); intros H; exfalso.
  - apply (inv_conns _ Hi) in H. rewrite Hs, Hm in H. by destruct H.
  - destruct (inv_open _ Hi c H) as [E|[E|E]]; [congruence|congruence|]. rewrite Hm in E. by destruct E.
Qed.


(** A run: one client is served while a second is accepted, the server is
    closed in between, both go away. *)
Definition run_closed : Server := close_once None (λ _, Some net_closed) [1] (accept 2 (start_session 1 (register 1 (accept 1 listening_server)))).
Definition run_end : Server := session_closes 1 (session_ends 1 (register 2 run_closed)).

