(* ===== verification/Netcheck.v ===== *)
(** * The connection probe (src/internal/netcheck/netcheck.go)

    What the probe reads and writes: the dotenv file with the credentials, the
    numbers of the server's headers, the frames of the tunnel's TLS stream and
    DTLS datagrams; and the loop that watches a connection, over the events its
    select sees.  The dialing, the DTLS handshake, the user-space stack and the
    HTTP download are other programs' work. *)

From Stdlib Require Import QArith.
From S2P Require Import Prelude GoStrings NetIP OsNet NetURL Escape Buffer Session.

Open Scope Z_scope.

Open Scope go_scope.
Open Scope Z_scope.

(** ** The dotenv file *)

Definition single_quote : ascii := "'".
Definition double_quote : ascii := ascii_of_nat 34.
Definition newline : ascii := ascii_of_nat 10.

(** [strings.ReplaceAll(s, `\n`, "\n")]. *)
Fixpoint unescape_newlines (s : string) : string :=
  match s with
  | String a ((String b rest) as tail) =>
    if Ascii.eqb a "\" && Ascii.eqb b "n" then String newline (unescape_newlines rest) else String a (unescape_newlines tail)
  | _ => s
  end.

(** [strings.Index(value, " #")]. *)
Fixpoint comment_at (s : string) : option nat :=
  match s with
  | String a ((String b _) as tail) => if Ascii.eqb a " " && Ascii.eqb b "#" then Some O else S <$> comment_at tail
  | _ => None
  end.

Definition quoted_with (q : ascii) (value : string) : bool :=
  match value with String c _ => Ascii.eqb c q | _ => false end.
(** [len(value) >= 2 && value[len(value)-1] == q]. *)
Definition closed_with (q : ascii) (value : string) : bool := (2 <=? len value)%nat && HasSuffix value (String q "").
Definition inside (value : string) : string := take_str (len value - 2) (drop_str 1 value).

Definition parseDotenvValue (value : string) : error + string :=
  if value == "" then inr ""
  else if quoted_with single_quote value then
    if closed_with single_quote value then inr (inside value) else inl (ErrText "unterminated single quote")
  else if quoted_with double_quote value then
    if closed_with double_quote value then inr (unescape_newlines (inside value)) else inl (ErrText "unterminated double quote")
  else match comment_at value with
       | Some index => inr (TrimSpace (take_str index value))
       | None => inr value
       end.

Definition key_start (c : ascii) : bool := is_alpha c || Ascii.eqb c "_".
Fixpoint key_rest (s : string) : bool :=
  match s with EmptyString => true | String c s => (key_start c || is_digit c) && key_rest s end.
Definition validEnvKey (value : string) : bool :=
  match value with EmptyString => false | String c s => key_start c && key_rest s end.

Inductive Line := Skipped | Assigned (key value : string) | BadLine (err : error).
Definition dotenv_line (line : Z) (text : string) : Line :=
  let value := TrimSpace text in
  if (value == "") || HasPrefix value "#" then Skipped
  else
    let value := TrimPrefix value "export " in
    let '(key, rawValue, ok) := cut value "=" in
    let key := TrimSpace key in
    if negb ok || (key == "") || negb (validEnvKey key) then BadLine (ErrText ("invalid dotenv assignment at line " +:+ Itoa line))
    else match parseDotenvValue (TrimSpace rawValue) with
         | inl err => BadLine (ErrWrap ("invalid dotenv value at line " +:+ Itoa line +:+ ": ") err "")
         | inr parsed => Assigned key parsed
         end.

(** The lines of a scanner: its buffer has room for 65535 bytes before a line
    break. *)
Definition max_line : Z := 65536.
Fixpoint dotenv_lines (line : Z) (lines : list string) (values : gmap string string) : error + gmap string string :=
  match lines with
  | [] => inr values
  | text :: lines =>
    if max_line <=? Z.of_nat (len text) then inl (ErrText "bufio.Scanner: token too long")
    else match dotenv_line line text with
         | Skipped => dotenv_lines (line + 1) lines values
         | Assigned key value => dotenv_lines (line + 1) lines (<[key := value]> values)
         | BadLine err => inl err
         end
  end.
Definition bom : string := bytes_str [239; 187; 191]%nat.
Definition parseDotenv (raw : string) : error + gmap string string :=
  dotenv_lines 1 (split_byte (TrimPrefix raw bom) newline) ∅.

Record Credentials := mkCredentials { cr_Endpoint : string; cr_User : string; cr_Pass : string; cr_GroupName : string }.
Definition maxEnvFileBytes : Z := 64 * 1024.

Definition LoadCredentials (file : error + string) : error + Credentials :=
  match file with
  | inl err => inl err
  | inr data =>
    if maxEnvFileBytes <? Z.of_nat (len data) then inl (ErrText "dotenv file exceeds 65536 bytes")
    else match parseDotenv data with
         | inl err => inl err
         | inr values =>
           let value key := default "" (values !! key) in
           let creds := mkCredentials (value "ENDPOINT") (value "USERNAME") (value "PASSWORD") (value "GROUP") in
           let missing := (if TrimSpace (cr_Endpoint creds) == "" then ["ENDPOINT"] else []) ++
                          (if TrimSpace (cr_User creds) == "" then ["USERNAME"] else []) ++
                          (if cr_Pass creds == "" then ["PASSWORD"] else []) in
           match missing with [] => inr creds | _ => inl (ErrText ("missing " +:+ Join missing ", ")) end
         end
  end.

(** ** The numbers and texts of the server's headers *)

Definition second : Z := 10 ^ 9.
Definition defaultMTU : Z := 1399.

(** [headerDuration]: the product of durations wraps around. *)
Definition headerDuration (raw : string) (override : Z) : Z :=
  if 0 <? override then override
  else
    match Atoi (TrimSpace raw) with
    | Some value =>
      if 0 <? value then
        let interval := wrap64 ((value - 5) * second) in
        if 10 * second <=? interval then interval else 10 * second
      else 10 * second
    | None => 10 * second
    end.

Definition parseMTU (raw : string) (fallback : Z) : error + Z :=
  let value := TrimSpace raw in
  if value == "" then inr fallback
  else match Atoi value with
       | Some mtu =>
         if (mtu <? 576) || (65535 <? mtu) then inl (ErrText ("invalid CSTP MTU " +:+ quote raw))
         else if fallback <? mtu then inr fallback else inr mtu
       | None => inl (ErrText ("invalid CSTP MTU " +:+ quote raw))
       end.

Definition safeHeader (value : string) : string :=
  TrimSpace (replace_byte (replace_byte value (ascii_of_nat 13) " ") newline " ").

(** One text of [X-CSTP-DNS], then all of them. *)
Fixpoint parse_dns_items (items : list string) (out : list Addr) : error + list Addr :=
  match items with
  | [] => inr out
  | item :: items =>
    let item := TrimSpace item in
    if item == "" then parse_dns_items items out
    else match ParseAddr item with
         | Some addr => if Is4 addr then parse_dns_items items (out ++ [addr])
                        else inl (ErrText ("invalid VPN DNS address " +:+ quote item))
         | None => inl (ErrText ("invalid VPN DNS address " +:+ quote item))
         end
  end.
Fixpoint parse_dns_values (values : list string) (out : list Addr) : error + list Addr :=
  match values with
  | [] => inr out
  | value :: values =>
    match parse_dns_items (split_byte value ",") out with
    | inl err => inl err
    | inr out => parse_dns_values values out
    end
  end.
Definition parseProbeDNS (values : list string) : error + list Addr :=
  match parse_dns_values values [] with
  | inl err => inl err
  | inr [] => inl (ErrText "CSTP response did not provide an IPv4 DNS server")
  | inr out => inr out
  end.

Inductive CipherSuiteID :=
  | TLS_ECDHE_ECDSA_WITH_AES_128_GCM_SHA256 | TLS_ECDHE_RSA_WITH_AES_128_GCM_SHA256
  | TLS_ECDHE_ECDSA_WITH_AES_256_GCM_SHA384 | TLS_ECDHE_RSA_WITH_AES_256_GCM_SHA384.
Definition suite_of (name : string) : list CipherSuiteID :=
  let name := TrimSpace name in
  if name == "ECDHE-ECDSA-AES128-GCM-SHA256" then [TLS_ECDHE_ECDSA_WITH_AES_128_GCM_SHA256]
  else if name == "ECDHE-RSA-AES128-GCM-SHA256" then [TLS_ECDHE_RSA_WITH_AES_128_GCM_SHA256]
  else if name == "ECDHE-ECDSA-AES256-GCM-SHA384" then [TLS_ECDHE_ECDSA_WITH_AES_256_GCM_SHA384]
  else if name == "ECDHE-RSA-AES256-GCM-SHA384" then [TLS_ECDHE_RSA_WITH_AES_256_GCM_SHA384]
  else [].
Definition dtlsCipherSuites (raw : string) : list CipherSuiteID :=
  match mjoin (suite_of <$> split_byte raw ":") with
  | [] => [TLS_ECDHE_ECDSA_WITH_AES_128_GCM_SHA256]
  | suites => suites
  end.

(** ** The endpoint *)

(** [url_String] prints a parsed URL. *)
Definition endpointParts (url_String : URL → string) (raw : string) : error + (string * string * string) :=
  let raw := TrimSpace raw in
  if raw == "" then inl (ErrText "ENDPOINT is empty")
  else
    let parseRaw := if negb (Contains raw "://") then "https://" +:+ raw else raw in
    match url_Parse parseRaw with
    | None => inl (ErrWrap "invalid ENDPOINT: " (ErrText "url.Parse") "")
    | Some parsed =>
      if url_Host parsed == "" then inl (ErrWrap "invalid ENDPOINT: " (ErrText "missing host") "")
      else
        let hostWithPort := if url_Port parsed == "" then JoinHostPort (url_Hostname parsed) "443" else url_Host parsed in
        let parsed' := parsed <| url_Scheme := "https" |> <| url_RawQuery := "" |> <| url_Fragment := "" |> in
        inr (url_Host parsed, hostWithPort, TrimRight (url_String parsed') ["/"%char])
    end.

Definition endpointForOutput (raw : string) : string :=
  match url_Parse (TrimSpace raw) with
  | Some parsed => if url_Host parsed != "" then url_Host parsed
                   else TrimSpace (TrimPrefix (TrimPrefix raw "https://") "http://")
  | None => TrimSpace (TrimPrefix (TrimPrefix raw "https://") "http://")
  end.

(** ** Frames *)

Record cstpFrame := mkFrame { fr_Type : Z; fr_Size : Z; fr_Payload : list Z }.
Definition maxFrameBytes : Z := 64 * 1024.
Definition frame_of (type : Z) (payload : list Z) : cstpFrame := mkFrame type (Z.of_nat (length payload)) payload.

(** [readFrames]: the frames it passes on, and the error it ends with.  Each
    turn takes a header off the stream, so the stream bounds the turns. *)
Fixpoint readFrames_fuel (fuel : nat) (r : Reader) (frames : list cstpFrame) : option (list cstpFrame * error) :=
  match fuel with
  | O => None
  | S fuel =>
    match ReadFull 8 r with
    | (_, _, Some err) => Some (frames, err)
    | (r, header, None) =>
      if negb (bool_decide (take 4 header = take 4 proto_Header)) || negb (header !!! 7%nat =? 0)
      then Some (frames, ErrText ("invalid CSTP header " +:+ hex_bytes header))
      else
        let payloadSize := uint16_be (header !!! 4%nat) (header !!! 5%nat) in
        if maxFrameBytes <? payloadSize
        then Some (frames, ErrText ("CSTP payload exceeds " +:+ Itoa maxFrameBytes +:+ " bytes: " +:+ Itoa payloadSize))
        else
          match ReadFull (Z.to_nat payloadSize) r with
          | (_, _, Some err) => Some (frames, err)
          | (r, payload, None) => readFrames_fuel fuel r (frames ++ [mkFrame (header !!! 6%nat) payloadSize payload])
          end
    end
  end.
Definition readFrames (r : Reader) : option (list cstpFrame * error) := readFrames_fuel (S (length (rd_bytes r))) r [].

(** [readDTLSFrames]: a datagram per read, then the error of the read. *)
Fixpoint readDTLSFrames (datagrams : list (list Z)) (frames : list cstpFrame) : list cstpFrame :=
  match datagrams with
  | [] => frames
  | datagram :: datagrams =>
    match take (Z.to_nat maxFrameBytes) datagram with
    | [] => readDTLSFrames datagrams frames
    | type :: payload => readDTLSFrames datagrams (frames ++ [frame_of type payload])
    end
  end.

(** What [probeWriter] writes: on the TLS connection and on the DTLS one. *)
Inductive Write := ToTLS (bytes : list Z) | ToDTLS (bytes : list Z).

Definition sendControl (tls dtls : bool) (frameType : Z) (write : Write → option error) : list Write * option error :=
  let frame := ToTLS (<[6%nat := frameType]> proto_Header) in
  let via_dtls (written : list Write) :=
    if dtls then
      match write (ToDTLS [frameType]) with
      | Some err => (written, Some (ErrWrap "DTLS control frame: " err ""))
      | None => (written ++ [ToDTLS [frameType]], None)
      end
    else (written, None) in
  if tls then
    match write frame with
    | Some err => ([], Some (ErrWrap "TLS control frame: " err ""))
    | None => via_dtls [frame]
    end
  else via_dtls [].

Definition data_frame (packet : list Z) : list Z :=
  let frame := replicate (length packet + length proto_Header) 0 in
  let frame := copy_at 0 proto_Header frame in
  let frame := <[4%nat := Z.of_nat (length packet) / 256 mod 256]> frame in
  let frame := <[5%nat := Z.of_nat (length packet) mod 256]> frame in
  copy_at (length proto_Header) packet frame.

Definition sendData (dtls : bool) (packet : list Z) (write : Write → option error) : list Write * option error :=
  if (length packet =? 0)%nat then ([], Some (ErrText "empty IPv4 packet"))
  else if dtls then
    let frame := copy_at 1 packet (replicate (length packet + 1) 0) in
    match write (ToDTLS frame) with
    | Some err => ([], Some (ErrWrap "DTLS data frame: " err ""))
    | None => ([ToDTLS frame], None)
    end
  else
    match write (ToTLS (data_frame packet)) with
    | Some err => ([], Some (ErrWrap "TLS data frame: " err ""))
    | None => ([ToTLS (data_frame packet)], None)
    end.

Lemma data_frame_wire packet : data_frame packet = cstp_wire 0 packet.
Proof.
  unfold data_frame, cstp_wire, be16.
  set (hi := Z.of_nat (length packet) / 256 mod 256). set (lo := Z.of_nat (length packet) mod 256).
  rewrite Nat.add_comm, replicate_add, copy_at_start by done.
  change (<[5%nat := lo]> (<[4%nat := hi]> (proto_Header ++ replicate (length packet) 0)))
    with ([0x53; 0x54; 0x46; 0x01; hi; lo; 0; 0] ++ replicate (length packet) 0).
  change (length proto_Header) with (length [0x53; 0x54; 0x46; 0x01; hi; lo; 0; 0]).
  rewrite <-(app_nil_r (replicate _ _)), copy_at_app by (by rewrite length_replicate).
  by rewrite app_nil_r.
Qed.

(** What the reader does with the frames of a peer. *)
Definition stream (packets : list (Z * list Z)) : list Z := mjoin ((λ p, cstp_wire p.1 p.2) <$> packets).

Lemma readFrames_step fuel type packet rest e frames :
  Z.of_nat (length packet) < 65536 →
  readFrames_fuel (S fuel) (mkReader (cstp_wire type packet ++ rest) e) frames =
  readFrames_fuel fuel (mkReader rest e) (frames ++ [frame_of type packet]).
Proof.
  intros Hlen. cbn [readFrames_fuel]. unfold cstp_wire.
  set (n := Z.of_nat (length packet)).
  change (ReadFull 8 _) with
    (ReadFull (length ([0x53; 0x54; 0x46; 0x01] ++ be16 n ++ [type; 0]))
       (mkReader (([0x53; 0x54; 0x46; 0x01] ++ be16 n ++ [type; 0]) ++ (packet ++ rest)) e)).
  rewrite ReadFull_app. unfold be16.
  set (hi := n / 256 mod 256). set (lo := n mod 256). cbn -[uint16_be maxFrameBytes readFrames_fuel].
  rewrite (bool_decide_eq_true_2 _ eq_refl). cbn -[uint16_be maxFrameBytes readFrames_fuel].
  unfold hi, lo. rewrite be16_value by lia.
  rewrite (proj2 (Z.ltb_ge _ _)) by (unfold maxFrameBytes; lia).
  unfold n. by rewrite Nat2Z.id, ReadFull_app.
Qed.

(** Every frame of the peer arrives, in order and with its packet, and then
    the reader ends with the stream. *)
Theorem readFrames_stream packets e :
  Forall (λ p, Z.of_nat (length p.2) < 65536) packets →
  readFrames (mkReader (stream packets) e) =
    Some ((λ p, frame_of p.1 p.2) <$> packets, e).
Proof.
  intros Hall. unfold readFrames. cbn [rd_bytes].
  assert (G : ∀ packets fuel frames, Forall (λ p, Z.of_nat (length p.2) < 65536) packets →
    (length (stream packets) < fuel)%nat →
    readFrames_fuel fuel (mkReader (stream packets) e) frames = Some (frames ++ ((λ p, frame_of p.1 p.2) <$> packets), e)).
  { clear. induction packets as [|[type packet] packets IH]; intros [|fuel] frames Hall Hfuel; try (cbn in Hfuel; lia).
    - cbn. by rewrite app_nil_r.
    - apply Forall_cons in Hall as [Hp Hall]. change (stream ((type, packet) :: packets)) with (cstp_wire type packet ++ stream packets) in *.
      rewrite readFrames_step by done. rewrite IH; [|done|].
      + cbn. by rewrite <-(assoc_L (++)).
      + rewrite length_app in Hfuel. cbn in Hfuel. lia. }
  rewrite (G packets _ []) by (done || lia). done.
Qed.

(** The reader comes to an end on every stream of bytes: a turn takes a header
    off it, and no frame is longer than its two bytes of length can say. *)
Lemma bytes_at (l : list Z) i : Forall (λ b, 0 ≤ b < 256) l → 0 ≤ l !!! i < 256.
Proof.
  intros Hl. destruct (l !! i) as [b|] eqn:E.
  - rewrite (list_lookup_total_correct _ _ _ E). exact (Forall_lookup_1 _ _ _ _ Hl E).
  - rewrite list_lookup_total_alt, E. cbn. lia.
Qed.

Theorem readFrames_ends r :
  Forall (λ b, 0 ≤ b < 256) (rd_bytes r) →
  ∃ frames err, readFrames r = Some (frames, err) ∧
    Forall (λ f, fr_Size f = Z.of_nat (length (fr_Payload f)) ∧ 0 ≤ fr_Size f ≤ 65535) frames ∧
    (Z.of_nat (length frames) * 8 ≤ Z.of_nat (length (rd_bytes r))).
Proof.
  intros Hb. unfold readFrames.
  assert (G : ∀ fuel r frames, (length (rd_bytes r) < fuel)%nat → Forall (λ b, 0 ≤ b < 256) (rd_bytes r) →
    Forall (λ f, fr_Size f = Z.of_nat (length (fr_Payload f)) ∧ 0 ≤ fr_Size f ≤ 65535) frames →
    ∃ frames' err, readFrames_fuel fuel r frames = Some (frames', err) ∧
      Forall (λ f, fr_Size f = Z.of_nat (length (fr_Payload f)) ∧ 0 ≤ fr_Size f ≤ 65535) frames' ∧
      (Z.of_nat (length frames') * 8 ≤ Z.of_nat (length frames) * 8 + Z.of_nat (length (rd_bytes r)))).
  { clear r Hb. induction fuel as [|fuel IH]; intros r frames Hfuel Hb Hf; [lia|]. cbn [readFrames_fuel].
    destruct (ReadFull_cases 8 r) as [(header & rest & Hlen & E & ->)|[_ [e ->]]]; [|do 2 eexists; split; [done|]; split; [done|lia]].
    rewrite E in *. apply Forall_app in Hb as [Hh Hrest]. rewrite length_app in *.
    destruct (_ || _); [do 2 eexists; split; [done|]; split; [done|lia]|].
    pose proof (bytes_at header 4 Hh). pose proof (bytes_at header 5 Hh).
    assert (Hsize : 0 ≤ uint16_be (header !!! 4%nat) (header !!! 5%nat) ≤ 65535) by (unfold uint16_be; lia).
    rewrite (proj2 (Z.ltb_ge _ _)) by (unfold maxFrameBytes; lia).
    destruct (ReadFull_cases (Z.to_nat (uint16_be (header !!! 4%nat) (header !!! 5%nat))) (mkReader rest (rd_err r)))
      as [(payload & rest' & Hp & E' & ->)|[_ [e ->]]]; [|do 2 eexists; split; [done|]; split; [done|cbn; lia]].
    cbn [rd_bytes] in E'. subst rest. rewrite length_app in *. apply Forall_app in Hrest as [_ Hrest'].
    destruct (IH (mkReader rest' (rd_err r)) (frames ++ [mkFrame (header !!! 6%nat) (uint16_be (header !!! 4%nat) (header !!! 5%nat)) payload]))
      as (frames' & err & Hr & Hok & Hn); cbn [rd_bytes]; [lia|done| |].
    - apply Forall_app. split; [done|]. constructor; [|constructor]. cbn. lia.
    - exists frames', err. split; [done|]. split; [done|]. rewrite length_app in Hn. cbn in Hn. lia. }
  destruct (G (S (length (rd_bytes r))) r []) as (frames & err & ? & ? & ?); [lia|done|constructor|]. eauto.
Qed.

(** ** The loop that watches the connection *)

Record SpeedtestConfig := mkSpeedtestConfig { sc_URL : string; sc_MaxBytes : Z; sc_Timeout : Z }.
(** [MiBPS] is a float of the code; here it is the quotient itself. *)
Record SpeedtestResult := mkSpeedtestResult {
  sr_TargetHost : string; sr_Bytes : Z; sr_Duration : Z; sr_MiBPS : Q; sr_Transport : string;
  sr_OutboundFrameBytes : Z; sr_InboundFrameBytes : Z; sr_OutboundPackets : Z; sr_InboundPackets : Z;
}.
#[export] Instance SpeedtestResult_eta : Eta SpeedtestResult := λ r,
  mkSpeedtestResult (sr_TargetHost r) (sr_Bytes r) (sr_Duration r) (sr_MiBPS r) (sr_Transport r)
    (sr_OutboundFrameBytes r) (sr_InboundFrameBytes r) (sr_OutboundPackets r) (sr_InboundPackets r).

Record observationResult := mkObservation {
  ob_Duration : Z; ob_TLSFrames : Z; ob_DTLSFrames : Z; ob_DPDSent : Z; ob_Speedtest : option SpeedtestResult;
}.
#[export] Instance observationResult_eta : Eta observationResult := λ r,
  mkObservation (ob_Duration r) (ob_TLSFrames r) (ob_DTLSFrames r) (ob_DPDSent r) (ob_Speedtest r).

(** The counters of [trafficBridge]. *)
Record trafficStats := mkStats { ts_sentBytes : Z; ts_receivedBytes : Z; ts_sentPackets : Z; ts_receivedPackets : Z }.
#[export] Instance trafficStats_eta : Eta trafficStats := λ r,
  mkStats (ts_sentBytes r) (ts_receivedBytes r) (ts_sentPackets r) (ts_receivedPackets r).

(** [handleInbound]: [write] is the answer of the user-space device. *)
Definition handleInbound (write : list Z → option error) (frame : cstpFrame) (b : trafficStats) : trafficStats * option error :=
  if negb (fr_Type frame =? 0) || (length (fr_Payload frame) =? 0)%nat then (b, None)
  else
    match write (fr_Payload frame) with
    | Some err => (b, Some err)
    | None => (b <| ts_receivedBytes ::= Z.add (Z.of_nat (length (fr_Payload frame))) |> <| ts_receivedPackets ::= Z.add 1 |>, None)
    end.

(** One packet of [readOutbound] that is sent. *)
Definition count_sent (packet : list Z) (b : trafficStats) : trafficStats :=
  b <| ts_sentBytes ::= Z.add (Z.of_nat (length packet)) |> <| ts_sentPackets ::= Z.add 1 |>.

Definition speedtestHost (rawURL : string) : string :=
  match url_Parse rawURL with
  | Some parsed => if url_Host parsed != "" then url_Host parsed else "invalid"
  | None => "invalid"
  end.
Definition transportName (dtls : bool) : string := if dtls then "dtls" else "tls".

(** [bitsPerSecond / (1024 * 1024)], the duration in nanoseconds. *)
Definition MiBPS_of (bytes duration : Z) : Q :=
  (inject_Z (bytes * 8) / (inject_Z duration / inject_Z second) / inject_Z (1024 * 1024))%Q.

(** What the select finds ready, in the order it takes them; between them the
    bridge sends packets.  [now] is the time since the start. *)
Inductive Ready :=
  | TLSFrame (frame : cstpFrame) (write : list Z → option error)
  | DTLSFrame (frame : cstpFrame) (write : list Z → option error)
  | TLSFailed (err : error)
  | DTLSFailed (err : error)
  | OutboundFailed (err : error)
  | SpeedtestDone (outcome : error + (Z * Z))
  | Ticked (sent : option error)
  | Deadline (now : Z)
  | Canceled (now : Z) (err : error)
  | OutboundSent (packet : list Z).

Record Watch := mkWatch { wt_ob : observationResult; wt_stats : trafficStats; wt_finished : bool }.
#[export] Instance Watch_eta : Eta Watch := λ r, mkWatch (wt_ob r) (wt_stats r) (wt_finished r).

Definition hex_byte (b : Z) : string := hex_bytes [b].
Definition terminates (frame : cstpFrame) : bool := (fr_Type frame =? 5) || (fr_Type frame =? 9).

(** A frame of either channel: the bridge first, then the end it may say. *)
Definition on_frame (bridge : bool) (name : string) (frame : cstpFrame) (write : list Z → option error) (w : Watch) : Watch * option error :=
  let '(stats, err) := if bridge then handleInbound write frame (wt_stats w) else (wt_stats w, None) in
  let w := w <| wt_stats := stats |> in
  match err with
  | Some err => (w, Some (ErrWrap ("inject " +:+ name +:+ " frame into user-space stack: ") err ""))
  | None =>
    if terminates frame then (w, Some (ErrText ("server sent " +:+ name +:+ " termination frame type=0x" +:+ hex_byte (fr_Type frame))))
    else (w, None)
  end.

(** One turn: the state, and the error (or its absence) the loop returns with.
    The "after ..." of the error texts is left out. *)
Definition turn (speedtest : option SpeedtestConfig) (dtls : bool) (ready : Ready) (w : Watch) : Watch * option (option error) :=
  let bridge := bool_decide (is_Some speedtest) in
  let going (r : Watch * option error) := match r with (w, Some err) => (w, Some (Some err)) | (w, None) => (w, None) end in
  match ready with
  | TLSFrame frame write => going (on_frame bridge "CSTP" frame write (w <| wt_ob ::= λ o, o <| ob_TLSFrames ::= add_u64 1 |> |>))
  | DTLSFrame frame write => going (on_frame bridge "DTLS" frame write (w <| wt_ob ::= λ o, o <| ob_DTLSFrames ::= add_u64 1 |> |>))
  | TLSFailed err => (w, Some (Some (ErrWrap "CSTP read failed: " err "")))
  | DTLSFailed err => (w, Some (Some (ErrWrap "DTLS read failed: " err "")))
  | OutboundFailed err => (w, Some (Some (ErrWrap "user-space outbound traffic failed: " err "")))
  | SpeedtestDone (inl err) => (w, Some (Some (ErrWrap "speedtest failed: " err "")))
  | SpeedtestDone (inr (bytes, duration)) =>
    let stats := wt_stats w in
    let result := mkSpeedtestResult (speedtestHost (default "" (sc_URL <$> speedtest))) bytes duration (MiBPS_of bytes duration)
      (transportName dtls) (ts_sentBytes stats) (ts_receivedBytes stats) (ts_sentPackets stats) (ts_receivedPackets stats) in
    (w <| wt_finished := true |> <| wt_ob ::= λ o, o <| ob_Speedtest := Some result |> |>, None)
  | Ticked (Some err) => (w, Some (Some (ErrWrap "send TLS DPD: " err "")))
  | Ticked None => (w <| wt_ob ::= λ o, o <| ob_DPDSent ::= add_u64 1 |> |>, None)
  | Deadline now =>
    if negb (wt_finished w) then (w, Some (Some (ErrText "speedtest did not finish within observation window")))
    else (w <| wt_ob ::= λ o, o <| ob_Duration := now |> |>, Some None)
  | Canceled now err => (w <| wt_ob ::= λ o, o <| ob_Duration := now |> |>, Some (Some err))
  | OutboundSent packet => (w <| wt_stats ::= count_sent packet |>, None)
  end.

(** The loop over what becomes ready; [None] is a loop that is still waiting. *)
Fixpoint watch_loop (speedtest : option SpeedtestConfig) (dtls : bool) (events : list Ready) (w : Watch) : option (observationResult * option error) :=
  match events with
  | [] => None
  | ready :: events =>
    match turn speedtest dtls ready w with
    | (w, Some result) => Some (wt_ob w, result)
    | (w, None) => watch_loop speedtest dtls events w
    end
  end.

Definition zero_observation : observationResult := mkObservation 0 0 0 0 None.
(** [bridge]: what [newTrafficBridge] answers, when there is a speed test. *)
Definition observeCSTP (speedtest : option SpeedtestConfig) (dtls : bool) (bridge : option error) (events : list Ready)
    : option (observationResult * option error) :=
  match speedtest, bridge with
  | Some _, Some err => Some (zero_observation, Some err)
  | _, _ => watch_loop speedtest dtls events (mkWatch zero_observation (mkStats 0 0 0 0) (bool_decide (speedtest = None)))
  end.

(** ** What a stable connection is *)

Definition is_tls (ready : Ready) : bool := match ready with TLSFrame _ _ => true | _ => false end.
Definition is_dtls (ready : Ready) : bool := match ready with DTLSFrame _ _ => true | _ => false end.
Definition is_tick (ready : Ready) : bool := match ready with Ticked _ => true | _ => false end.
Definition speed_of (ready : Ready) : option (Z * Z) := match ready with SpeedtestDone (inr r) => Some r | _ => None end.

(** The turns after which the loop goes on. *)
Definition harmless (bridge : bool) (ready : Ready) : bool :=
  match ready with
  | TLSFrame frame write | DTLSFrame frame write =>
    negb (terminates frame) && (negb bridge || bool_decide (snd (handleInbound write frame (mkStats 0 0 0 0)) = None))
  | SpeedtestDone (inr _) | Ticked None | OutboundSent _ => true
  | _ => false
  end.

(** Whether the bridge takes a frame does not depend on its counters. *)
Lemma handleInbound_answer write frame b b' : snd (handleInbound write frame b) = snd (handleInbound write frame b').
Proof. unfold handleInbound. destruct (_ || _); [done|]. by destruct (write _). Qed.

Lemma on_frame_goes_on bridge name frame write w :
  snd (on_frame bridge name frame write w) = None ↔ harmless bridge (TLSFrame frame write) = true.
Proof.
  unfold on_frame, harmless. pose proof (handleInbound_answer write frame (wt_stats w) (mkStats 0 0 0 0)) as E.
  destruct bridge; cbn [negb orb].
  - destruct (handleInbound write frame (wt_stats w)) as [s [err|]]; cbn [snd] in E; rewrite <-E.
    + rewrite bool_decide_eq_false_2 by done. rewrite andb_false_r. cbn. done.
    + rewrite bool_decide_eq_true_2 by done. destruct (terminates frame); cbn; done.
  - destruct (terminates frame); cbn; done.
Qed.

Definition counts (ob : observationResult) : Z * Z * Z := (ob_TLSFrames ob, ob_DTLSFrames ob, ob_DPDSent ob).
Definition bump (b : bool) (n : Z) : Z := if b then add_u64 1 n else n.

Lemma on_frame_ob bridge name frame write w : wt_ob (on_frame bridge name frame write w).1 = wt_ob w ∧
  wt_finished (on_frame bridge name frame write w).1 = wt_finished w.
Proof.
  unfold on_frame. destruct (if bridge then _ else _) as [s [err|]]; [done|]. by destruct (terminates frame).
Qed.

(** A turn that goes on is a harmless one, and it counts what it saw. *)
Lemma turn_goes_on speedtest dtls ready w :
  (turn speedtest dtls ready w).2 = None ↔ harmless (bool_decide (is_Some speedtest)) ready = true.
Proof.
  assert (F : ∀ name frame write (w' : Watch),
    (match on_frame (bool_decide (is_Some speedtest)) name frame write w' with (w1, Some err) => (w1, Some (Some err)) | (w1, None) => (w1, None) end).2 = None
    ↔ harmless (bool_decide (is_Some speedtest)) (TLSFrame frame write) = true).
  { intros name frame write w'. rewrite <-(on_frame_goes_on _ name frame write w').
    destruct (on_frame _ _ _ _ _) as [? [?|]]; cbn; done. }
  destruct ready as [frame write|frame write|err|err|err|[err|[bytes duration]]|[err|]|now|now err|packet]; cbn [turn harmless];
    first [apply (F "CSTP")|apply (F "DTLS")|by destruct (negb (wt_finished w))|done].
Qed.

Lemma turn_counts speedtest dtls ready w w' :
  turn speedtest dtls ready w = (w', None) →
  counts (wt_ob w') = (bump (is_tls ready) (ob_TLSFrames (wt_ob w)), bump (is_dtls ready) (ob_DTLSFrames (wt_ob w)), bump (is_tick ready) (ob_DPDSent (wt_ob w))) ∧
  wt_finished w' = wt_finished w || bool_decide (is_Some (speed_of ready)) ∧
  (wt_finished w = true → (speedtest = None ∨ is_Some (ob_Speedtest (wt_ob w))) → speedtest = None ∨ is_Some (ob_Speedtest (wt_ob w'))) ∧
  (is_Some (speed_of ready) → is_Some (ob_Speedtest (wt_ob w'))).
Proof.
  assert (F : ∀ name frame write w0 w', (match on_frame (bool_decide (is_Some speedtest)) name frame write w0 with (w1, Some err) => (w1, Some (Some err)) | (w1, None) => (w1, None (A:=option error)) end) = (w', None) →
    wt_ob w' = wt_ob w0 ∧ wt_finished w' = wt_finished w0).
  { intros name frame write w0 w1. pose proof (on_frame_ob (bool_decide (is_Some speedtest)) name frame write w0) as G.
    destruct (on_frame _ _ _ _ _) as [w2 [err|]]; [done|]. intros [= <-]. exact G. }
  destruct ready as [frame write|frame write|err|err|err|[err|[bytes duration]]|[err|]|now|now err|packet]; cbn [turn]; try done;
    cbn [is_tls is_dtls is_tick speed_of bump]; try rewrite bool_decide_eq_false_2 by (intros [? [=]]); rewrite ?orb_false_r.
  - intros E%F. destruct E as [-> ->]. unfold counts. cbn. split_and!; try done; intros [? [=]].
  - intros E%F. destruct E as [-> ->]. unfold counts. cbn. split_and!; try done; intros [? [=]].
  - intros [= <-]. unfold counts. cbn. rewrite ?orb_true_r. split_and!; eauto.
  - intros [= <-]. unfold counts. cbn. split_and!; try done; intros [? [=]].
  - by destruct (negb (wt_finished w)).
  - intros [= <-]. unfold counts. cbn. split_and!; try done; intros [? [=]].
Qed.

Definition count_of (f : Ready → bool) (events : list Ready) : Z := Z.of_nat (length (filter (λ e, f e = true) events)) mod 2 ^ 64.

Lemma bump_count (f : Ready → bool) (ready : Ready) (events : list Ready) n :
  (bump (f ready) n + Z.of_nat (length (filter (λ e, f e = true) events))) mod 2 ^ 64 =
  (n + Z.of_nat (length (filter (λ e, f e = true) (ready :: events)))) mod 2 ^ 64.
Proof.
  rewrite filter_cons. unfold bump, add_u64. destruct (f ready); cbn [decide].
  - rewrite decide_True by done. cbn [length]. rewrite Z.add_mod_idemp_l by done. f_equal. lia.
  - by rewrite decide_False by done.
Qed.

(** The loop from any state: what it saw before it returned without an error. *)
Lemma watch_stable speedtest dtls events w ob :
  watch_loop speedtest dtls events w = Some (ob, None) →
  (wt_finished w = true → speedtest = None ∨ is_Some (ob_Speedtest (wt_ob w))) →
  ∃ before now rest, events = before ++ Deadline now :: rest ∧
    Forall (λ e, harmless (bool_decide (is_Some speedtest)) e = true) before ∧
    ob_Duration ob = now ∧ (speedtest = None ∨ is_Some (ob_Speedtest ob)) ∧
    (wt_finished w = true ∨ Exists (λ e, is_Some (speed_of e)) before) ∧
    (0 ≤ ob_TLSFrames (wt_ob w) < 2 ^ 64 → 0 ≤ ob_DTLSFrames (wt_ob w) < 2 ^ 64 → 0 ≤ ob_DPDSent (wt_ob w) < 2 ^ 64 →
     let seen f n := (n + Z.of_nat (length (filter (λ e, f e = true) before))) mod 2 ^ 64 in
     counts ob = (seen is_tls (ob_TLSFrames (wt_ob w)), seen is_dtls (ob_DTLSFrames (wt_ob w)), seen is_tick (ob_DPDSent (wt_ob w)))).
Proof.
  revert w. induction events as [|ready events IH]; intros w; cbn [watch_loop]; [done|].
  destruct (turn speedtest dtls ready w) as [w' [result|]] eqn:E.
  - intros [= <- ->] Hfin. exists [].
    assert (G : ∀ name frame write w0 w1 r, (match on_frame (bool_decide (is_Some speedtest)) name frame write w0 with (w1, Some err) => (w1, Some (Some err)) | (w1, None) => (w1, None (A:=option error)) end) = (w1, Some r) → r ≠ None).
    { intros name frame write w0 w1 r. destruct (on_frame _ _ _ _ _) as [? [?|]]; by intros [= <- <-]. }
    destruct ready as [frame write|frame write|err|err|err|[err|[bytes duration]]|[err|]|now|now err|packet]; cbn [turn] in E; try done;
      try (by apply G in E).
    destruct (wt_finished w) eqn:Ef; cbn in E; [|done]. injection E as <-. exists now, events.
    split_and!; [done|constructor|done|by apply Hfin|by left|].
    intros Ht Hd Hp. rewrite filter_nil. cbn [length]. rewrite !Z.add_0_r, !Z.mod_small by done. done.
  - intros H Hfin. destruct (turn_counts _ _ _ _ _ E) as (Hc & Hf & Hs & Hs').
    pose proof (proj1 (turn_goes_on speedtest dtls ready w)) as Hh. rewrite E in Hh. specialize (Hh eq_refl).
    destruct (IH w' H) as (before & now & rest & -> & Hb & Hd & Hsp & Hx & Hcount).
    { rewrite Hf. intros [Hw|Hw%bool_decide_eq_true]%orb_true_iff; [by apply Hs; auto|right; by apply Hs']. }
    exists (ready :: before), now, rest. split_and!; [done|by constructor|done|done| |].
    + destruct Hx as [Hw|Hw]; [|right; by apply Exists_cons_tl].
      rewrite Hf in Hw. apply orb_true_iff in Hw as [Hw|Hw%bool_decide_eq_true]; [by left|right; by apply Exists_cons_hd].
    + intros Ht Hdt Hp. unfold counts in Hc. injection Hc as E1 E2 E3. rewrite E1, E2, E3 in Hcount.
      assert (B : ∀ b n, 0 ≤ n < 2 ^ 64 → 0 ≤ bump b n < 2 ^ 64).
      { intros [] n Hn; cbn; [|done]. unfold add_u64. apply Z.mod_pos_bound. lia. }
      specialize (Hcount (B _ _ Ht) (B _ _ Hdt) (B _ _ Hp)). cbn zeta in *. by rewrite Hcount, !bump_count.
Qed.

(** C36: The connection is called stable only when its window is over, the speed
    test, if there is one, has brought a result, and nothing the loop saw before
    was an error, a frame that ends the connection, or a packet the user-space
    stack refused; the counters are what was seen and the duration is the
    window's. *)
Theorem observation_stable speedtest dtls bridge events ob :
  observeCSTP speedtest dtls bridge events = Some (ob, None) →
  ∃ before now rest, events = before ++ Deadline now :: rest ∧
    Forall (λ e, harmless (bool_decide (is_Some speedtest)) e = true) before ∧
    ob_Duration ob = now ∧
    (speedtest = None ∨ (is_Some (ob_Speedtest ob) ∧ Exists (λ e, is_Some (speed_of e)) before)) ∧
    counts ob = (count_of is_tls before, count_of is_dtls before, count_of is_tick before).
Proof.
  unfold observeCSTP. intros H.
  assert (H' : watch_loop speedtest dtls events (mkWatch zero_observation (mkStats 0 0 0 0) (bool_decide (speedtest = None))) = Some (ob, None)).
  { by destruct speedtest, bridge. }
  destruct (watch_stable _ _ _ _ _ H') as (before & now & rest & E & Hb & Hd & Hs & Hx & Hc).
  { cbn. intros ->%bool_decide_eq_true. by left. }
  exists before, now, rest. split_and!; [done..| |].
  - destruct Hx as [Hx|Hx]; cbn in Hx; [apply bool_decide_eq_true in Hx; by left|].
    destruct Hs; [by left|right; done].
  - rewrite Hc by (cbn; lia). done.
Qed.

Definition quiet_window : list Ready :=
  [TLSFrame (frame_of 4 []) (λ _, None); Ticked None; TLSFrame (frame_of 0 [69; 0]) (λ _, None); SpeedtestDone (inr (4194304, 2000000000)); Deadline 35000000000].
Definition speed_config : SpeedtestConfig := mkSpeedtestConfig "https://speed.example.test/d" 4194304 30000000000.

Lemma observation_stable_witness : ∃ ob, observeCSTP (Some speed_config) true None quiet_window = Some (ob, None) ∧
  counts ob = (2, 0, 1) ∧ ob_Duration ob = 35000000000.
Proof.
  eexists. split; [vm_compute; reflexivity|].
  destruct (observation_stable (Some speed_config) true None quiet_window _ ltac:(vm_compute; reflexivity)) as (before & now & rest & E & _ & Hd & _ & Hc).
  split; vm_compute; reflexivity.
Defined.

(** And every such window ends that way: what is harmless keeps the loop going. *)
Lemma harmless_before speedtest dtls before rest w :
  Forall (λ e, harmless (bool_decide (is_Some speedtest)) e = true) before →
  ∃ w', watch_loop speedtest dtls (before ++ rest) w = watch_loop speedtest dtls rest w' ∧
    wt_finished w' = wt_finished w || bool_decide (Exists (λ e, is_Some (speed_of e)) before).
Proof.
  intros Hb. revert w. induction Hb as [|ready before Hr Hb IH]; intros w; cbn [app watch_loop].
  { exists w. split; [done|]. rewrite bool_decide_eq_false_2 by (by intros ?%Exists_nil). by rewrite orb_false_r. }
  apply (turn_goes_on speedtest dtls ready w) in Hr.
  destruct (turn speedtest dtls ready w) as [w1 o] eqn:E. cbn in Hr. subst o.
  destruct (turn_counts _ _ _ _ _ E) as (_ & Hf & _).
  destruct (IH w1) as (w' & -> & Hw'). exists w'. split; [done|]. rewrite Hw', Hf.
  rewrite (bool_decide_ext (Exists _ (ready :: before)) (is_Some (speed_of ready) ∨ Exists (λ e, is_Some (speed_of e)) before)) by apply Exists_cons.
  rewrite bool_decide_or. by rewrite orb_assoc.
Qed.

Theorem window_decides speedtest dtls before now rest :
  Forall (λ e, harmless (bool_decide (is_Some speedtest)) e = true) before →
  ∃ ob, observeCSTP speedtest dtls None (before ++ Deadline now :: rest) =
    Some (ob, if bool_decide (speedtest = None) || bool_decide (Exists (λ e, is_Some (speed_of e)) before) then None
              else Some (ErrText "speedtest did not finish within observation window")).
Proof.
  intros Hb. unfold observeCSTP.
  destruct (harmless_before speedtest dtls before (Deadline now :: rest)
    (mkWatch zero_observation (mkStats 0 0 0 0) (bool_decide (speedtest = None))) Hb) as (w' & E & Hf).
  assert (G : ∀ A (x : A), match speedtest with Some _ | None => x end = x) by by destruct speedtest.
  exists (wt_ob (turn speedtest dtls (Deadline now) w').1).
  destruct speedtest; rewrite E; cbn [watch_loop turn]; cbn in Hf; rewrite Hf; cbn;
    try (by destruct (bool_decide (Exists _ before))); done.
Qed.

(** ** The numbers *)

(** The ticker's period is positive whatever the server asks for, overflow of
    the product included: [time.NewTicker] panics otherwise. *)
Theorem headerDuration_positive raw override :
  headerDuration raw override = override ∧ 0 < override ∨ override ≤ 0 ∧ 10 * second ≤ headerDuration raw override < 2 ^ 63.
Proof.
  unfold headerDuration. destruct (Z.ltb_spec 0 override); [by left|right; split; [done|]].
  destruct (Atoi _) as [value|]; [|unfold second; lia]. destruct (_ <? value); [|unfold second; lia].
  destruct (Z.leb_spec (10 * second) (wrap64 ((value - 5) * second))); [|unfold second; lia].
  split; [done|]. unfold wrap64. pose proof (Z.mod_pos_bound ((value - 5) * second + 2 ^ 63) (2 ^ 64) eq_refl). lia.
Qed.

(** The MTU the probe works with is between the protocol's smallest and what
    the user asked for; a header with another number is an error. *)
Theorem parseMTU_bounds raw fallback :
  match parseMTU raw fallback with
  | inr mtu => mtu = fallback ∨ 576 ≤ mtu < fallback
  | inl _ => TrimSpace raw ≠ "" ∧ ∀ mtu, Atoi (TrimSpace raw) = Some mtu → mtu < 576 ∨ 65535 < mtu
  end.
Proof.
  unfold parseMTU. destruct (TrimSpace raw == "") eqn:E; [by left|]. apply eqb_false in E.
  destruct (Atoi _) as [mtu|]; [|done].
  destruct (Z.ltb_spec mtu 576); cbn; [split; [done|]; intros ? [= <-]; lia|].
  destruct (Z.ltb_spec 65535 mtu); cbn; [split; [done|]; intros ? [= <-]; lia|].
  destruct (Z.ltb_spec fallback mtu); [by left|]. destruct (decide (mtu = fallback)); [by left|right; lia].
Qed.

(** Every DNS server the stack is given is an IPv4 address, and there is one. *)
Lemma parse_dns_items_4 items out : Forall (λ a, Is4 a = true) out →
  match parse_dns_items items out with inr out => Forall (λ a, Is4 a = true) out | inl _ => True end.
Proof.
  revert out. induction items as [|item items IH]; intros out Ho; cbn [parse_dns_items]; [done|].
  destruct (_ == ""); [by apply IH|]. destruct (ParseAddr _) as [addr|]; [|done].
  destruct (Is4 addr) eqn:E; [|done]. apply IH, Forall_app. by repeat constructor.
Qed.

Theorem parseProbeDNS_4 values :
  match parseProbeDNS values with inr out => out ≠ [] ∧ Forall (λ a, Is4 a = true) out | inl _ => True end.
Proof.
  unfold parseProbeDNS.
  assert (G : ∀ out, Forall (λ a, Is4 a = true) out →
    match parse_dns_values values out with inr out => Forall (λ a, Is4 a = true) out | inl _ => True end).
  { induction values as [|value values IH]; intros out Ho; cbn [parse_dns_values]; [done|].
    pose proof (parse_dns_items_4 (split_byte value ",") out Ho) as H.
    destruct (parse_dns_items _ _); [done|by apply IH]. }
  specialize (G [] (Forall_nil_2 _)). destruct (parse_dns_values _ _) as [?|[|a out]]; done.
Qed.

(** The DTLS client is always given a cipher suite to offer. *)
Lemma dtlsCipherSuites_some raw : dtlsCipherSuites raw ≠ [].
Proof. unfold dtlsCipherSuites. by destruct (mjoin _). Qed.

(** What is printed as MiB/s is the number of mebibits. *)
Theorem MiBPS_is_bits bytes duration :
  (MiBPS_of bytes duration == 8 * (inject_Z bytes / inject_Z (1024 * 1024) / (inject_Z duration / inject_Z second)))%Q.
Proof. unfold MiBPS_of. rewrite inject_Z_mult. unfold Qdiv. change (inject_Z 8) with 8%Q. ring. Qed.

(** ** The dotenv file, written and read *)

Definition edge (c : ascii) : bool := key_start c || is_digit c || Ascii.eqb c single_quote.

Lemma edge_not_space c : edge c = true →
  Forall (λ w, match w with String d _ => d ≠ c | EmptyString => False end) (white_space ++ (rev_str <$> white_space)).
Proof.
  destruct c as [[] [] [] [] [] [] [] []]; vm_compute; try discriminate; intros _; repeat constructor; discriminate.
Qed.

Lemma no_prefix_head ws c s :
  Forall (λ w, match w with String d _ => d ≠ c | EmptyString => False end) ws → no_prefix ws (String c s).
Proof.
  intros H. eapply Forall_impl; [exact H|]. intros [|d w] Hd; [done|]. unfold HasPrefix. cbn.
  destruct (ascii_dec d c); [done|reflexivity].
Qed.

(** A text between two such bytes has no white space to trim. *)
Lemma trimmed_edges c s d : edge c = true → edge d = true → trimmed (String c (s +:+ String d "")).
Proof.
  intros Hc%edge_not_space Hd%edge_not_space. apply Forall_app in Hc as [Hc _], Hd as [_ Hd]. split.
  - by apply no_prefix_head.
  - change (String c (s +:+ String d "")) with (String c s +:+ String d ""). rewrite rev_str_app. by apply no_prefix_head.
Qed.

Lemma trimmed_one c : edge c = true → trimmed (String c "").
Proof. intros Hc%edge_not_space. apply Forall_app in Hc as [H1 H2]. split; by apply no_prefix_head. Qed.

Lemma key_rest_last s : key_rest s = true → s = "" ∨ ∃ t d, s = t +:+ String d "" ∧ edge d = true.
Proof.
  induction s as [|c s IH]; [by left|]. cbn. intros [Hc Hs]%andb_true_iff. right.
  destruct (IH Hs) as [->|(t & d & -> & Hd)].
  - exists "", c. split; [done|]. unfold edge. by rewrite Hc.
  - by exists (String c t), d.
Qed.

Lemma valid_trimmed key : validEnvKey key = true → trimmed key ∧ key ≠ "".
Proof.
  destruct key as [|c s]; [done|]. cbn [validEnvKey]. intros [Hc Hs]%andb_true_iff. split; [|done].
  assert (He : edge c = true) by (unfold edge; by rewrite Hc).
  destruct (key_rest_last s Hs) as [->|(t & d & -> & Hd)]; [by apply trimmed_one|by apply trimmed_edges].
Qed.

Lemma key_rest_no s c : key_rest s = true → key_start c || is_digit c = false → index_byte s c = None.
Proof.
  intros Hs Hc. induction s as [|d s IH]; [done|]. cbn in *. apply andb_true_iff in Hs as [Hd Hs].
  destruct (Ascii.eqb_spec d c) as [->|]; [congruence|]. by rewrite IH.
Qed.

Lemma valid_no key c : validEnvKey key = true → key_start c || is_digit c = false → index_byte key c = None.
Proof.
  destruct key as [|d s]; [done|]. cbn [validEnvKey]. intros [Hd Hs]%andb_true_iff Hc. apply key_rest_no; [|done]. cbn. by rewrite Hd, Hs.
Qed.

Definition quoted_line (entry : string * string) : string := entry.1 +:+ "=" +:+ String single_quote (entry.2 +:+ String single_quote "").

Lemma cut_app a c r : index_byte a c = None → cut (a +:+ String c r) c = (a, r, true).
Proof.
  intros H. unfold cut.
  assert (E : index_byte (a +:+ String c r) c = Some (len a)).
  { induction a as [|d a IH]; [rewrite str_app_nil_l; cbn [index_byte]; by rewrite Ascii.eqb_refl|]. rewrite str_app_cons. cbn [index_byte len String.length] in *.
    destruct (Ascii.eqb d c); [done|]. destruct (index_byte a c); [done|]. by rewrite IH. }
  rewrite E, take_str_app. do 2 f_equal.
  replace (a +:+ String c r) with ((a +:+ String c "") +:+ r) by by rewrite str_app_assoc.
  replace (S (len a)) with (len (a +:+ String c "")) by (rewrite len_app; cbn; lia). apply drop_str_app.
Qed.

Lemma parse_quoted value : parseDotenvValue (String single_quote (value +:+ String single_quote "")) = inr value.
Proof.
  unfold parseDotenvValue. replace (String single_quote (value +:+ String single_quote "") == "") with false by done.
  replace (quoted_with single_quote (String single_quote (value +:+ String single_quote ""))) with true by done.
  assert (E : closed_with single_quote (String single_quote (value +:+ String single_quote "")) = true).
  { unfold closed_with. apply andb_true_iff. split; [apply Nat.leb_le; cbn; rewrite len_app; cbn; lia|].
    unfold HasSuffix. change (String single_quote (value +:+ String single_quote "")) with (String single_quote value +:+ String single_quote "").
    rewrite rev_str_app. apply (HasPrefix_app (String single_quote "")). }
  rewrite E. f_equal. unfold inside.
  replace (len (String single_quote (value +:+ String single_quote "")) - 2)%nat with (len value) by (cbn; rewrite len_app; cbn; lia).
  replace (drop_str 1 (String single_quote (value +:+ String single_quote ""))) with (value +:+ String single_quote "")
    by (cbn; by destruct (value +:+ _)).
  apply take_str_app.
Qed.

Lemma no_export key raw : validEnvKey key = true → HasPrefix (key +:+ "=" +:+ raw) "export " = false.
Proof.
  intros Hk. pose proof (valid_no _ " "%char Hk eq_refl) as Hs. clear Hk.
  destruct (HasPrefix _ "export ") eqn:E; [|done]. exfalso. apply HasPrefix_spec in E as [t E].
  do 7 (destruct key as [|? key]; [cbn in E; discriminate|]). cbn in E. injection E as -> -> -> -> -> -> -> _.
  cbn in Hs. discriminate.
Qed.

Lemma dotenv_line_quoted line entry : validEnvKey entry.1 = true → dotenv_line line (quoted_line entry) = Assigned entry.1 entry.2.
Proof.
  destruct entry as [key value]. cbn [fst snd]. intros Hk.
  destruct (valid_trimmed key Hk) as [Ht Hne]. unfold dotenv_line, quoted_line. cbn [fst snd].
  set (raw := String single_quote (value +:+ String single_quote "")).
  assert (Hraw : trimmed raw) by by apply trimmed_edges.
  assert (HT : TrimSpace (key +:+ "=" +:+ raw) = key +:+ "=" +:+ raw).
  { apply TrimSpace_id. apply (trimmed_join _ "="%char raw); [done|done|done|done|]. by apply Nat.ltb_lt. }
  rewrite HT.
  destruct key as [|c s]; [done|].
  replace ((String c s +:+ "=" +:+ raw) == "") with false by done.
  assert (Hc : key_start c = true) by (cbn in Hk; by apply andb_true_iff in Hk as [? _]).
  assert (Hh : HasPrefix (String c s +:+ "=" +:+ raw) "#" = false).
  { change (String c s +:+ "=" +:+ raw) with (String c (s +:+ "=" +:+ raw)). rewrite HasPrefix_cons.
    destruct (ascii_dec "#" c) as [<-|]; [discriminate Hc|done]. }
  rewrite Hh. cbn [orb].
  assert (He : TrimPrefix (String c s +:+ "=" +:+ raw) "export " = String c s +:+ "=" +:+ raw).
  { unfold TrimPrefix. by rewrite (no_export (String c s) raw Hk). }
  rewrite He. change ("=" +:+ raw) with (String "="%char raw). rewrite cut_app by by apply valid_no.
  rewrite (TrimSpace_id _ Ht). cbn [negb orb].
  replace (String c s == "") with false by done. rewrite Hk. cbn [negb orb].
  rewrite (TrimSpace_id _ Hraw). unfold raw. by rewrite parse_quoted.
Qed.

Definition quoted_file (entries : list (string * string)) : string :=
  String.concat "" ((λ e, quoted_line e +:+ String newline "") <$> entries).

(** A file of single-quoted assignments is read back as it was written,
    whatever bytes but a line break the values hold: quotes, hashes, spaces at
    the ends, equals signs. *)
Theorem dotenv_roundtrip entries :
  Forall (λ e, validEnvKey e.1 = true ∧ index_byte e.2 newline = None ∧ Z.of_nat (len (quoted_line e)) < max_line) entries →
  parseDotenv (quoted_file entries) = inr (foldl (λ m e, <[e.1 := e.2]> m) ∅ entries).
Proof.
  intros Hall. unfold parseDotenv.
  assert (Hcons : ∀ e es, quoted_file (e :: es) = quoted_line e +:+ String newline (quoted_file es)).
  { intros e es. unfold quoted_file. destruct es as [|e' es]; [done|]. cbn [fmap list_fmap].
    change (String.concat "" (?x :: ?y :: ?l)) with (x +:+ "" +:+ String.concat "" (y :: l)). by rewrite str_app_assoc. }
  assert (Hbom : TrimPrefix (quoted_file entries) bom = quoted_file entries).
  { destruct entries as [|[[|c k] v] es]; [done|by apply Forall_cons in Hall as [[? _] _]|].
    apply Forall_cons in Hall as [[Hk _] _]. cbn [fst validEnvKey] in Hk. apply andb_true_iff in Hk as [Hk _].
    rewrite Hcons. unfold TrimPrefix. destruct (HasPrefix _ bom) eqn:E; [|done]. apply HasPrefix_spec in E as [t E].
    exfalso. injection E as -> _. discriminate Hk. }
  rewrite Hbom. clear Hbom. generalize (1) (∅ : gmap string string).
  induction Hall as [|[k v] es (Hk & Hv & Hlen) Hall IH]; intros line m; [done|].
  rewrite Hcons, split_byte_app.
  - cbn [dotenv_lines]. rewrite (proj2 (Z.leb_gt _ _)) by done. rewrite dotenv_line_quoted by done. apply IH.
  - unfold quoted_line. cbn [fst snd] in *. apply index_byte_app_none; [by apply valid_no|].
    change ("=" +:+ ?x) with (String "="%char x). cbn [index_byte].
    rewrite !(proj2 (Ascii.eqb_neq _ _)) by discriminate.
    rewrite (index_byte_app_none v (String single_quote "") newline); done.
Qed.

(** ** The probe as a whole *)

Record Config := mkConfig {
  nc_Credentials : Credentials; nc_ObserveFor : Z; nc_DPDInterval : Z; nc_WithDTLS : bool; nc_LocalIP : string;
  nc_Speedtest : option SpeedtestConfig; nc_MTU : Z;
}.

Record Result := mkResult {
  rs_Status : string; rs_Mode : string; rs_UserSpaceStack : bool; rs_Endpoint : string; rs_LocalInterface : string;
  rs_LocalIPv4 : string; rs_Gateway : string; rs_RequestedLocalIP : string; rs_AuthLocalAddress : string;
  rs_AuthRemoteAddress : string; rs_CSTPStatus : string; rs_VPNAddress : string; rs_MTU : Z; rs_TLSDPD : string;
  rs_TLSKeepalive : string; rs_DTLSEnabled : bool; rs_DTLSPort : string; rs_DTLSPeer : string; rs_Transport : string;
  rs_DPDInterval : Z; rs_Observed : observationResult;
}.
#[export] Instance Result_eta : Eta Result := λ r,
  mkResult (rs_Status r) (rs_Mode r) (rs_UserSpaceStack r) (rs_Endpoint r) (rs_LocalInterface r) (rs_LocalIPv4 r)
    (rs_Gateway r) (rs_RequestedLocalIP r) (rs_AuthLocalAddress r) (rs_AuthRemoteAddress r) (rs_CSTPStatus r)
    (rs_VPNAddress r) (rs_MTU r) (rs_TLSDPD r) (rs_TLSKeepalive r) (rs_DTLSEnabled r) (rs_DTLSPort r) (rs_DTLSPeer r)
    (rs_Transport r) (rs_DPDInterval r) (rs_Observed r).
Definition zero_result : Result :=
  mkResult "" "" false "" "" "" "" "" "" "" "" "" 0 "" "" false "" "" "" 0 zero_observation.

(** What the calls of [Run] answer, each where it is reached: the interface,
    the initial authentication and whether it left a connection, its two
    addresses, the password exchange, the random source and the exchange of the
    CSTP request, whether the peer is a TCP address, the DTLS connection and
    its peer, the user-space stack, and what the loop sees. *)
Record Answers := mkAnswers {
  an_interface : error + LocalInterface;
  an_init : option error;
  an_connected : bool;
  an_local : string; an_remote : string;
  an_password : option error;
  an_secret : error + list Z; an_write : option error; an_response : error + (Z * string * Header);
  an_remote_ip : bool;
  an_dial : option error; an_handshake : option error; an_peer : string;
  an_create : option error;
  an_events : list Ready;
}.

(** [negotiateCSTP]: the headers it sends, next to the common ones, and what it
    makes of the answers of the random source, the connection and the server. *)
Definition cstp_headers (token localIPv4 : string) (mtu : Z) (secret : list Z) : list (string * string) :=
  [("Cookie", "webvpn=" +:+ token); ("X-CSTP-VPNAddress-Type", "IPv4"); ("X-CSTP-MTU", Itoa mtu); ("X-CSTP-Base-MTU", Itoa mtu);
   ("X-CSTP-Local-VPNAddress-IP4", localIPv4); ("X-DTLS-Master-Secret", hex_bytes secret);
   ("X-DTLS12-CipherSuite", "ECDHE-ECDSA-AES256-GCM-SHA384:ECDHE-RSA-AES256-GCM-SHA384:ECDHE-ECDSA-AES128-GCM-SHA256:ECDHE-RSA-AES128-GCM-SHA256:AES128-GCM-SHA256")].

Definition negotiateCSTP (secret : error + list Z) (write : option error) (response : error + (Z * string * Header)) : error + (string * Header) :=
  match secret, write, response with
  | inl err, _, _ => inl (ErrWrap "create DTLS master secret: " err "")
  | inr _, Some err, _ => inl (ErrWrap "write CSTP request: " err "")
  | inr _, None, inl err => inl (ErrWrap "read CSTP response: " err "")
  | inr _, None, inr (code, status, header) =>
    if negb (code =? 200) then inl (ErrText ("CSTP negotiation failed: " +:+ status)) else inr (status, header)
  end.

(** [newTrafficBridge]: what the user-space stack is created with; [create] is
    the stack's own answer. *)
Definition newTrafficBridge (create : option error) (headers : Header) : error + (Addr * list Addr * Z) :=
  match ParseAddr (TrimSpace (header_Get headers "X-CSTP-Address")) with
  | None => inl (ErrText ("invalid VPN IPv4 address " +:+ quote (header_Get headers "X-CSTP-Address")))
  | Some local =>
    if negb (Is4 local) then inl (ErrText ("invalid VPN IPv4 address " +:+ quote (header_Get headers "X-CSTP-Address")))
    else
      match parseProbeDNS (header_Values headers "X-CSTP-DNS") with
      | inl err => inl err
      | inr dns =>
        match Atoi (TrimSpace (header_Get headers "X-CSTP-MTU")) with
        | None => inl (ErrText ("invalid VPN MTU " +:+ quote (header_Get headers "X-CSTP-MTU")))
        | Some mtu =>
          if (mtu <? 576) || (65535 <? mtu) then inl (ErrText ("invalid VPN MTU " +:+ quote (header_Get headers "X-CSTP-MTU")))
          else match create with
               | Some err => inl (ErrWrap "create user-space network stack: " err "")
               | None => inr (local, dns, mtu)
               end
        end
      end
  end.

(** [hex.DecodeString]. *)
Fixpoint hex_decode (s : string) : option (list Z) :=
  match s with
  | EmptyString => Some []
  | String a (String b s) => x ← hex_val a; y ← hex_val b; l ← hex_decode s; Some (16 * x + y :: l)
  | _ => None
  end.

Definition negotiateDTLS (remote_ip : bool) (dial handshake : option error) (peer : string) (headers : Header) : error + string :=
  match Atoi (TrimSpace (header_Get headers "X-DTLS-Port")) with
  | Some port =>
    if (port <=? 0) || (65535 <? port) then inl (ErrText "invalid X-DTLS-Port")
    else if negb remote_ip then inl (ErrText "TLS peer address is unavailable for DTLS")
    else
      let idValue := header_Get headers "X-DTLS-Session-ID" in
      let idValue := if idValue == "" then header_Get headers "X-DTLS-App-ID" else idValue in
      match hex_decode idValue with
      | None => inl (ErrText "invalid DTLS session identifier")
      | Some _ =>
        match dial, handshake with
        | Some err, _ => inl (ErrWrap "DTLS dial: " err "")
        | None, Some err => inl (ErrWrap "DTLS handshake: " err "")
        | None, None => inr peer
        end
      end
  | None => inl (ErrText "invalid X-DTLS-Port")
  end.

Definition bad_local_ip (value : string) : bool :=
  (value != "") && match ParseIP (TrimSpace value) with Some addr => negb (Is4 (Unmap addr)) | None => true end.

(** [None] is a run whose loop is still waiting. *)
Definition Run (url_String : URL → string) (config : Config) (a : Answers) : option (Result * option error) :=
  let refuse err := Some (zero_result, Some err) in
  if nc_ObserveFor config <=? 0 then refuse (ErrText "netcheck observation duration must be positive")
  else if nc_DPDInterval config <? 0 then refuse (ErrText "netcheck DPD interval must not be negative")
  else
    let mtu := if nc_MTU config <=? 0 then defaultMTU else nc_MTU config in
    if (mtu <? 576) || (65535 <? mtu) then refuse (ErrText ("invalid netcheck MTU " +:+ Itoa mtu))
    else if TrimSpace (cr_Endpoint (nc_Credentials config)) == "" then refuse (ErrText "netcheck endpoint is empty")
    else
      match an_interface a with
      | inl err => refuse (ErrWrap "inspect local interface: " err "")
      | inr info =>
        match endpointParts url_String (cr_Endpoint (nc_Credentials config)) with
        | inl err => refuse err
        | inr _ =>
          if bad_local_ip (nc_LocalIP config) then refuse (ErrText ("invalid local IPv4 address " +:+ quote (nc_LocalIP config)))
          else
            let result := zero_result <| rs_Status := "running" |> <| rs_Mode := "CSTP" |>
              <| rs_UserSpaceStack := bool_decide (is_Some (nc_Speedtest config)) |>
              <| rs_Endpoint := endpointForOutput (cr_Endpoint (nc_Credentials config)) |>
              <| rs_LocalInterface := li_Name info |> <| rs_LocalIPv4 := li_IP4 info |> <| rs_Gateway := li_Gateway info |>
              <| rs_RequestedLocalIP := safeHeader (nc_LocalIP config) |> in
            match an_init a with
            | Some err => Some (result, Some err)
            | None =>
              if negb (an_connected a) then Some (result, Some (ErrText "authentication completed without a connection"))
              else
                let result := result <| rs_AuthLocalAddress := safeHeader (an_local a) |> <| rs_AuthRemoteAddress := safeHeader (an_remote a) |> in
                match an_password a, negotiateCSTP (an_secret a) (an_write a) (an_response a) with
                | Some err, _ => Some (result, Some err)
                | None, inl err => Some (result, Some err)
                | None, inr (status, header) =>
                  let result := result <| rs_CSTPStatus := status |>
                    <| rs_VPNAddress := safeHeader (header_Get header "X-CSTP-Address") |>
                    <| rs_TLSDPD := safeHeader (header_Get header "X-CSTP-DPD") |>
                    <| rs_TLSKeepalive := safeHeader (header_Get header "X-CSTP-Keepalive") |> in
                  match parseMTU (header_Get header "X-CSTP-MTU") mtu with
                  | inl err => Some (result, Some err)
                  | inr negotiated =>
                    let result := result <| rs_MTU := negotiated |> in
                    let wants := nc_WithDTLS config && (header_Get header "X-DTLS-Port" != "") in
                    match (if wants then negotiateDTLS (an_remote_ip a) (an_dial a) (an_handshake a) (an_peer a) header else inr "") with
                    | inl err => Some (result, Some err)
                    | inr peer =>
                      let result := result <| rs_DTLSEnabled := wants |> <| rs_DTLSPort := safeHeader (header_Get header "X-DTLS-Port") |>
                        <| rs_DTLSPeer := safeHeader peer |> in
                      let interval := headerDuration (rs_TLSDPD result) (nc_DPDInterval config) in
                      let result := result <| rs_DPDInterval := interval |> in
                      let bridge := match newTrafficBridge (an_create a) header with inl err => Some err | inr _ => None end in
                      match observeCSTP (nc_Speedtest config) wants bridge (an_events a) with
                      | None => None
                      | Some (observed, err) =>
                        let result := result <| rs_Observed := observed |> <| rs_Transport := transportName wants |> in
                        match err with
                        | Some err => Some (result, Some err)
                        | None => Some (result <| rs_Status := "stable" |>, None)
                        end
                      end
                    end
                  end
                end
            end
        end
      end.

(** A return with an error leaves the status short of "stable". *)
Local Ltac refused := intros [= <- <-]; split; [split; let E := fresh in intros E; cbn in E; discriminate E|discriminate].

(** A run says "stable" exactly when it returns no error, and then its loop
    ended at the end of its window; a run refused by its own configuration
    asks the network for nothing and returns the empty result. *)
Theorem Run_status url_String config a result err :
  Run url_String config a = Some (result, err) →
  (err = None ↔ rs_Status result = "stable") ∧
  (err = None → rs_Mode result = "CSTP" ∧ rs_Transport result = transportName (rs_DTLSEnabled result) ∧
     (rs_DTLSEnabled result = true → nc_WithDTLS config = true) ∧ 0 < rs_DPDInterval result ∧
     (576 ≤ rs_MTU result ≤ 65535) ∧
     ∃ before now rest, an_events a = before ++ Deadline now :: rest ∧ ob_Duration (rs_Observed result) = now ∧
       Forall (λ e, harmless (bool_decide (is_Some (nc_Speedtest config))) e = true) before).
Proof.
  unfold Run. destruct (_ <=? 0); [refused|].
  destruct (_ <? 0); [refused|].
  set (mtu := if _ <=? 0 then _ else _). clearbody mtu.
  destruct (Z.ltb_spec mtu 576); cbn [orb]; [refused|].
  destruct (Z.ltb_spec 65535 mtu); [refused|].
  destruct (_ == ""); [refused|].
  destruct (an_interface a) as [?|info]; [refused|].
  destruct (endpointParts _ _) as [?|_]; [refused|].
  destruct (bad_local_ip _); [refused|].
  destruct (an_init a) as [?|]; [refused|].
  destruct (negb (an_connected a)); [refused|].
  destruct (an_password a) as [?|], (negotiateCSTP (an_secret a) (an_write a) (an_response a)) as [?|[status header]]; try refused.
  pose proof (parseMTU_bounds (header_Get header "X-CSTP-MTU") mtu) as Hmtu.
  destruct (parseMTU _ _) as [?|negotiated]; [refused|].
  set (wants := nc_WithDTLS config && _).
  assert (Hwants : wants = true → nc_WithDTLS config = true) by (unfold wants; by intros [? _]%andb_true_iff).
  clearbody wants.
  destruct (if wants then _ else _) as [?|peer]; [refused|].
  cbn zeta. set (interval := headerDuration _ _).
  assert (Hi : 0 < interval) by (unfold interval; edestruct headerDuration_positive as [[-> ?]|[? [? ?]]]; unfold second in *; lia).
  clearbody interval.
  destruct (observeCSTP _ _ _ _) as [[observed [err'|]]|] eqn:E; [refused| |done].
  intros [= <- <-]. split; [done|]. intros _. cbn. split_and!; [done|done|done|done|lia|lia|].
  apply observation_stable in E as (before & now & rest & ? & ? & ? & _). eauto 10.
Qed.

(** [NewSpeedtestConfig]. *)
Definition NewSpeedtestConfig (url_String : URL → string) (rawURL : string) (maxBytes timeout : Z) : error + SpeedtestConfig :=
  match url_Parse (TrimSpace rawURL) with
  | None => inl (ErrText "speedtest URL must be an absolute http(s) URL")
  | Some parsed =>
    if (url_Host parsed == "") || ((url_Scheme parsed != "http") && (url_Scheme parsed != "https"))
    then inl (ErrText "speedtest URL must be an absolute http(s) URL")
    else if url_User parsed then inl (ErrText "speedtest URL must not contain user info")
    else if maxBytes <=? 0 then inl (ErrText "speedtest-bytes must be positive")
    else if timeout <=? 0 then inl (ErrText "speedtest-timeout must be positive")
    else inr (mkSpeedtestConfig (url_String parsed) maxBytes timeout)
  end.

(** The repository's own cases. *)
Definition line_break : string := String newline "".
Definition dquote : string := String double_quote "".
Example dotenv_cases :
  parseDotenv ("# comment" +:+ line_break +:+ "export ENDPOINT=https://vpn.example.test # inline" +:+ line_break +:+
               "USERNAME=alice" +:+ line_break +:+ "PASSWORD='p#ss'" +:+ line_break +:+
               "GROUP=" +:+ dquote +:+ "engineering\nteam" +:+ dquote +:+ line_break) =
    inr {["ENDPOINT" := "https://vpn.example.test"; "USERNAME" := "alice"; "PASSWORD" := "p#ss";
          "GROUP" := "engineering" +:+ line_break +:+ "team"]} ∧
  parseDotenv ("ENDPOINT" +:+ line_break) = inl (ErrText "invalid dotenv assignment at line 1") ∧
  parseMTU "" 1399 = inr 1399 ∧ parseMTU "1400" 1399 = inr 1399 ∧ parseMTU "1200" 1399 = inr 1200 ∧
  endpointForOutput "https://vpn.example.test/path" = "vpn.example.test".
Proof. vm_compute. done. Qed.

(** An endpoint without a scheme that carries user information is accepted,
    and printed with it. *)
Example endpoint_prints_password :
  endpointForOutput "alice:secret@vpn.example.test" = "alice:secret@vpn.example.test" ∧
  endpointParts (λ _, "") "alice:secret@vpn.example.test" = inr ("vpn.example.test", "vpn.example.test:443", "").
Proof. vm_compute. done. Qed.

(** The stack's MTU is the server's, whatever the configuration asked for, and
    there has to be one. *)
Example stack_mtu_is_the_servers :
  let header (mtu : list string) : Header := {["X-Cstp-Address" := ["10.8.0.2"]; "X-Cstp-Dns" := ["10.8.0.53"]; "X-Cstp-Mtu" := mtu]} in
  parseMTU (header_Get (header ["1400"]) "X-CSTP-MTU") 1200 = inr 1200 ∧
  newTrafficBridge None (header ["1400"]) = inr (Addr4 0x0a080002, [Addr4 0x0a080035], 1400) ∧
  parseMTU (header_Get (header []) "X-CSTP-MTU") 1200 = inr 1200 ∧
  newTrafficBridge None (header []) = inl (ErrText ("invalid VPN MTU " +:+ dquote +:+ dquote)).
Proof. vm_compute. done. Qed.

(** A quoted value with a comment behind it is an error, the first quote that
    closes it notwithstanding. *)
Example quoted_with_comment :
  parseDotenvValue "'secret' # the password" = inl (ErrText "unterminated single quote").
Proof. done. Qed.
