(* ===== verification/Updater.v ===== *)
(** * The update checker (src/internal/updater/checker.go and
    configureUpdater of src/cmd/flexconnectd/main.go)

    One query of the latest release, and what is made of the answer.  The
    comparison of versions is the semver library's: a version it can parse
    strictly ([StrictNewVersion]) and an order on those ([Compare]). *)

From S2P Require Import Prelude GoStrings Types Service Appd.

Open Scope go_scope.
Open Scope Z_scope.

(** ** Data *)

Record Asset := mkAsset { as_Name : string; as_DownloadURL : string; as_Size : Z }.
Record Release := mkRelease { rl_TagName : string; rl_HTMLURL : string; rl_PublishedAt : string; rl_Assets : list Asset }.
Record Info := mkInfo {
  in_CurrentVersion : string; in_LatestVersion : string; in_UpdateAvailable : bool; in_ReleaseURL : string;
  in_PublishedAt : string; in_Assets : list Asset; in_CheckedAt : string; in_Disabled : bool; in_Error : string;
}.
#[export] Instance Info_eta : Eta Info := λ r,
  mkInfo (in_CurrentVersion r) (in_LatestVersion r) (in_UpdateAvailable r) (in_ReleaseURL r) (in_PublishedAt r)
    (in_Assets r) (in_CheckedAt r) (in_Disabled r) (in_Error r).
Definition zero_info : Info := mkInfo "" "" false "" "" [] "" false "".

Record Checker := mkChecker { ck_repo : string; ck_baseURL : string }.
Definition githubAPIBase : string := "https://api.github.com/repos/".
Definition New (repo : string) : Checker := mkChecker (TrimSpace repo) githubAPIBase.

(** What becomes of the query: no request, no answer, an answer with another
    status than 200 and its remaining rate, a body that is no release, or a
    release. *)
Inductive Answer :=
  | BadRequest (err : error)
  | NoAnswer (err : error)
  | OtherStatus (code : Z) (remaining : string)
  | BadBody (err : error)
  | Latest (release : Release).

Section check.
Context {Version : Type} (StrictNewVersion : string → option Version) (Compare : Version → Version → Z).

Definition compareVersions (a b : string) : Z :=
  match StrictNewVersion (TrimPrefix (TrimSpace a) "v"), StrictNewVersion (TrimPrefix (TrimSpace b) "v") with
  | Some x, Some y => Compare x y
  | _, _ => 0
  end.

(** [Check]: [get] is the exchange for a URL, [now] the clock as [nowString]
    prints it. *)
Definition Check (c : option Checker) (now : string) (get : string → Answer) : Info :=
  let current := build_Version in
  let base := zero_info <| in_CurrentVersion := current |> <| in_CheckedAt := now |> in
  match c with
  | None => base <| in_Disabled := true |>
  | Some c =>
    if ck_repo c == "" then base <| in_Disabled := true |>
    else
      match get (ck_baseURL c +:+ ck_repo c +:+ "/releases/latest") with
      | BadRequest err | NoAnswer err => base <| in_Error := error_msg err |>
      | OtherStatus code remaining =>
        let msg := "github releases returned HTTP " +:+ Itoa code in
        base <| in_Error := if remaining != "" then msg +:+ " (rate limit remaining=" +:+ remaining +:+ ")" else msg |>
      | BadBody err => base <| in_Error := "decode release: " +:+ error_msg err |>
      | Latest release =>
        let latest := TrimPrefix (rl_TagName release) "v" in
        let available := 0 <? compareVersions latest current in
        mkInfo current latest available (rl_HTMLURL release) (rl_PublishedAt release) (rl_Assets release) now false ""
      end
  end.

Definition ToTypes (i : Info) : UpdateInfo :=
  mkUpdateInfo (in_CurrentVersion i) (in_LatestVersion i) (in_UpdateAvailable i) (in_ReleaseURL i) (in_PublishedAt i)
    ((λ a, mkUpdateAsset (as_Name a) (as_DownloadURL a) (as_Size a)) <$> in_Assets i)
    (in_CheckedAt i) (in_Disabled i) (in_Error i).

(** An update is announced for a release that both versions, parsed strictly,
    put after the running one; never with an error, never by a disabled
    checker. *)
Theorem announced_update c now get :
  uin_UpdateAvailable (ToTypes (Check c now get)) = true →
  uin_Error (ToTypes (Check c now get)) = "" ∧ uin_Disabled (ToTypes (Check c now get)) = false ∧
  ∃ ck release latest current, c = Some ck ∧ get (ck_baseURL ck +:+ ck_repo ck +:+ "/releases/latest") = Latest release ∧
    StrictNewVersion (TrimPrefix (TrimSpace (TrimPrefix (rl_TagName release) "v")) "v") = Some latest ∧
    StrictNewVersion build_Version = Some current ∧ 0 < Compare latest current.
Proof.
  unfold Check. destruct c as [ck|]; [|discriminate]. destruct (ck_repo ck == ""); [discriminate|].
  destruct (get _) as [err|err|code remaining|err|release] eqn:E; try discriminate.
  cbn -[compareVersions]. intros H%Z.ltb_lt. split; [done|]. split; [done|]. exists ck, release.
  unfold compareVersions in H. change (TrimPrefix (TrimSpace build_Version) "v") with build_Version in H.
  destruct (StrictNewVersion _) as [latest|] eqn:E1; [|lia]. destruct (StrictNewVersion build_Version) as [current|]; [|lia].
  exists latest, current. done.
Qed.

(** The running version is never announced as an update of itself, with or
    without its "v". *)
Theorem no_update_to_itself c now get :
  (∀ v, Compare v v = 0) →
  uin_LatestVersion (ToTypes (Check c now get)) = build_Version → uin_UpdateAvailable (ToTypes (Check c now get)) = false.
Proof.
  intros Hrefl. unfold Check. destruct c as [ck|]; [|done]. destruct (ck_repo ck == ""); [done|].
  destruct (get _) as [err|err|code remaining|err|release]; try done.
  cbn -[compareVersions]. intros ->. unfold compareVersions.
  change (TrimPrefix (TrimSpace build_Version) "v") with build_Version.
  destruct (StrictNewVersion build_Version) as [v|]; [|done]. by rewrite Hrefl.
Qed.

(** A version without its three numbers compares equal to every other: the
    strict parser refuses it. *)
Theorem incomplete_version_equal a b :
  StrictNewVersion (TrimPrefix (TrimSpace a) "v") = None → compareVersions a b = 0 ∧ compareVersions b a = 0.
Proof. intros H. unfold compareVersions. rewrite H. split; [done|]. by destruct (StrictNewVersion (TrimPrefix (TrimSpace b) "v")). Qed.
End check.

(** ** The daemon's updater *)

Definition defaultUpdateInterval : Z := 6 * 3600 * 10 ^ 9.

Section configure.
Context {St Sec : Type} (ParseDuration : string → option Z).

(** The repository and the interval of the checks, from the build and the
    environment. *)
Definition update_repo (UpdateRepo env_repo : string) : string :=
  if TrimSpace env_repo != "" then TrimSpace env_repo else TrimSpace UpdateRepo.
Definition update_interval (env_interval : string) : Z :=
  let env := TrimSpace env_interval in
  if env != "" then
    if (env == "disabled") || (env == "0") then 0
    else match ParseDuration env with Some d => d | None => defaultUpdateInterval end
  else defaultUpdateInterval.

Definition configureUpdater (UpdateRepo env_repo env_interval : string) : M (World St Sec) () :=
  let repo := update_repo UpdateRepo env_repo in
  let interval := update_interval env_interval in
  if (repo == "") || (interval <=? 0) then mret () else SetUpdater true interval.

(** The daemon asks for updates exactly when it was given a repository and an
    interval that is not turned off; then the interval it was given is kept
    positive, which is what its cache compares with. *)
Theorem updater_configured UpdateRepo env_repo env_interval w :
  let '(w', o) := configureUpdater UpdateRepo env_repo env_interval w in
  o = Done () ∧
  if bool_decide (update_repo UpdateRepo env_repo ≠ "" ∧ 0 < update_interval env_interval)
  then sv_updater (w_svc w') = true ∧ sv_updateInterval (w_svc w') = update_interval env_interval
  else w' = w.
Proof.
  unfold configureUpdater. destruct (update_repo _ _ == "") eqn:E; cbn [orb].
  - apply eqb_true in E. rewrite bool_decide_eq_false_2 by naive_solver. done.
  - apply eqb_false in E. destruct (Z.leb_spec (update_interval env_interval) 0).
    + rewrite bool_decide_eq_false_2 by lia. done.
    + rewrite bool_decide_eq_true_2 by done. done.
Qed.
End configure.
