(* ===== verification/CliFlags.v ===== *)
(** * The command line (src/cmd/flexconnect/main.go: main, the flag sets and
    the words of a command)

    Go's [flag] package as the CLI uses it, the start of [main], and the
    questions asked of the words: is the daemon needed, may it be unready, is
    help or JSON wanted. *)

From S2P Require Import Prelude GoStrings.

Open Scope go_scope.
Open Scope Z_scope.

(** ** Flag sets (package flag)

    A flag with a value checks it when it is set: [Some] is the error of its
    [Set].  The variables of a set are the list of what was assigned, in order;
    a variable holds the last value assigned under one of its names. *)

Inductive FlagValue :=
  | BoolFlag
  | TextFlag (bad : string → option error).
Definition StringFlag : FlagValue := TextFlag (λ _, None).
Definition FlagSet : Type := list (string * FlagValue).
Definition Assigned : Type := list (string * string).

Definition errHelp : error := ErrText "flag: help requested".

Definition formal (f : FlagSet) (name : string) : option FlagValue := snd <$> List.find (λ fl, fst fl == name) f.

(** The name up to the first '=' that is not its first byte, and the rest. *)
Definition cut_value (name : string) : string * option string :=
  match name with
  | EmptyString => ("", None)
  | String c r => match index_byte r "=" with
                  | Some n => (String c (take_str n r), Some (drop_str (S n) r))
                  | None => (name, None)
                  end
  end.

(** [parseOne] on an argument that is not empty: a flag with its name and what
    follows '=', the end of the flags, or bad syntax. *)
Inductive Word := NotFlag | EndOfFlags | BadSyntax | Flag (name : string) (value : option string).
Definition word (s : string) : Word :=
  match s with
  | String "-" (String "-" EmptyString) => EndOfFlags
  | String "-" (String c r as t) =>
    let name := if Ascii.eqb c "-" then r else t in
    match name with
    | EmptyString => EndOfFlags
    | String d _ => if Ascii.eqb d "-" || Ascii.eqb d "=" then BadSyntax
                    else let '(name, value) := cut_value name in Flag name value
    end
  | _ => NotFlag
  end.

Definition assign (name value : string) (r : error + Assigned * list string) : error + Assigned * list string :=
  match r with inr (l, rest) => inr ((name, value) :: l, rest) | inl err => inl err end.

Definition bad_value (value name : string) (err : error) : error :=
  ErrWrap ("invalid value " +:+ quote value +:+ " for flag -" +:+ name +:+ ": ") err "".

(** [FlagSet.Parse]: what was assigned, and the arguments that are left. *)
Fixpoint Parse (f : FlagSet) (args : list string) : error + Assigned * list string :=
  match args with
  | [] => inr ([], [])
  | s :: rest =>
    match word s with
    | NotFlag => inr ([], args)
    | EndOfFlags => inr ([], rest)
    | BadSyntax => inl (ErrText ("bad flag syntax: " +:+ s))
    | Flag name value =>
      match formal f name, value, rest with
      | None, _, _ => inl (if (name == "help") || (name == "h") then errHelp
                           else ErrText ("flag provided but not defined: -" +:+ name))
      | Some BoolFlag, None, _ => assign name "true" (Parse f rest)
      | Some BoolFlag, Some v, _ =>
        match ParseBool v with
        | Some b => assign name (if b : bool then "true" else "false") (Parse f rest)
        | None => inl (ErrText ("invalid boolean value " +:+ quote v +:+ " for -" +:+ name +:+ ": parse error"))
        end
      | Some (TextFlag bad), Some v, _ =>
        match bad v with None => assign name v (Parse f rest) | Some err => inl (bad_value v name err) end
      | Some (TextFlag bad), None, v :: rest' =>
        match bad v with None => assign name v (Parse f rest') | Some err => inl (bad_value v name err) end
      | Some (TextFlag _), None, [] => inl (ErrText ("flag needs an argument: -" +:+ name))
      end
    end
  end.

(** The variable that the flags [names] set. *)
Definition lookup_last (l : Assigned) (names : list string) : option string :=
  snd <$> last (List.filter (λ a, existsb (String.eqb (fst a)) names) l).
Definition text_flag (l : Assigned) (names : list string) (initial : string) : string := default initial (lookup_last l names).
Definition bool_flag (l : Assigned) (name : string) : bool := text_flag l [name] "false" == "true".

(** ** The words of a command *)

Definition isHelpArg (arg : string) : bool := (arg == "help") || (arg == "--help") || (arg == "-h").
Definition wantCommandHelp (args : list string) : bool := match args with arg :: _ => isHelpArg arg | [] => false end.
Definition hasJSONFlag (args : list string) : bool := existsb (λ arg, (arg == "--json") || (arg == "-json")) args.

Definition among (s : string) (l : list string) : bool := existsb (String.eqb s) l.

Definition commandNeedsDaemon (args : list string) : bool :=
  match args with
  | [] => false
  | command :: rest =>
    if (command == "help") || isHelpArg command then false
    else if (0 <? Z.of_nat (length rest)) && wantCommandHelp rest then false
    else if existsb (λ arg, (arg == "--help") || (arg == "-h")) rest then false
    else if among command ["status"; "login"; "up"; "down"; "logs"; "diag"; "traffic"; "watch"; "update"; "control-mode"] then true
    else if among command ["profile"; "route"; "proxy"] then 0 <? Z.of_nat (length rest)
    else false
  end.

Definition commandAllowsUnready (args : list string) : bool :=
  match args with
  | [] => false
  | command :: rest =>
    if among command ["status"; "logs"; "diag"; "traffic"; "watch"; "down"; "control-mode"] then true
    else match rest with
         | sub :: _ => if command == "profile" then (sub == "list") || (sub == "current")
                       else if command == "route" then sub == "show"
                       else if command == "proxy" then sub == "status"
                       else false
         | [] => false
         end
  end.

(** [splitCSV]: no value is the nil slice. *)
Definition splitCSV (v : string) : option (list string) := if v == "" then None else Some (split_byte v ",").

(** ** The start of main *)

Definition Duration : Type := Z.
Definition defaultCommandTimeout : Duration := 15 * 10 ^ 9.
Definition connectCommandTimeout : Duration := 120 * 10 ^ 9.

(** [-v] and [--verbose] are taken wherever they stand. *)
Definition is_verbose (arg : string) : bool := (arg == "-v") || (arg == "--verbose").
Definition filteredArgs (args : list string) : list string := List.filter (λ arg, negb (is_verbose arg)) args.

Inductive Start :=
  | FlagError (err : error)          (* of the flag set that exits: status 2, or 0 for help *)
  | ShowVersion
  | RootHelp
  | BadTimeout                       (* status 2 *)
  | Run (socket : string) (verbose : bool) (args : list string) (timeout connectTimeout : Duration).

Section main.
(** [time.ParseDuration], and the path of the socket for this system. *)
Context (ParseDuration : string → option Duration) (DefaultSocketPath : string).

Definition DurationFlag : FlagValue :=
  TextFlag (λ v, match ParseDuration v with Some _ => None | None => Some (ErrText "parse error") end).
Definition main_flags : FlagSet :=
  [("socket", StringFlag); ("timeout", DurationFlag); ("connect-timeout", DurationFlag); ("version", BoolFlag);
   ("v", BoolFlag); ("verbose", BoolFlag)].

Definition duration_flag (l : Assigned) (name : string) (initial : Duration) : Duration :=
  match lookup_last l [name] with Some v => default 0 (ParseDuration v) | None => initial end.

Definition main (argv : list string) : Start :=
  match Parse main_flags (filteredArgs argv) with
  | inl err => FlagError err
  | inr (l, args) =>
    if bool_flag l "version" then ShowVersion
    else
      let verbose := existsb is_verbose argv || bool_flag l "v" || bool_flag l "verbose" in
      if match args with [] => true | arg :: _ => isHelpArg arg end then RootHelp
      else
        let timeout := duration_flag l "timeout" defaultCommandTimeout in
        let connectTimeout := duration_flag l "connect-timeout" connectCommandTimeout in
        if (timeout <=? 0) || (connectTimeout <=? 0) then BadTimeout
        else Run (text_flag l ["socket"] DefaultSocketPath) verbose args timeout connectTimeout
  end.
End main.

(** ** Parsing and printing *)

(** A name a flag can have on the command line. *)
Definition flag_name (name : string) : Prop :=
  ∃ c r, name = String c r ∧ c ≠ "-"%char ∧ c ≠ "="%char ∧ index_byte r "=" = None.

Lemma cut_value_name name : flag_name name → cut_value name = (name, None).
Proof. intros (c & r & -> & _ & _ & H). cbn. by rewrite H. Qed.

Lemma index_byte_app r c t : index_byte r c = None → index_byte (r +:+ String c t) c = Some (len r).
Proof.
  induction r as [|d r IH]; [intros _; rewrite str_app_nil_l; cbn [index_byte]; by rewrite Ascii.eqb_refl|]. rewrite str_app_cons. cbn [index_byte].
  destruct (Ascii.eqb d c); [done|]. destruct (index_byte r c) eqn:E; [done|]. intros _. by rewrite IH.
Qed.

Lemma cut_value_pair name v : flag_name name → cut_value (name +:+ "=" +:+ v) = (name, Some v).
Proof.
  intros (c & r & -> & _ & _ & H). change ("=" +:+ v) with (String "=" v). rewrite str_app_cons. cbn [cut_value].
  rewrite index_byte_app by done. rewrite take_str_app.
  replace (drop_str (S (len r)) (r +:+ String "=" v)) with v; [done|].
  change (String "=" v) with (String "=" "" +:+ v). rewrite <- str_app_assoc.
  replace (S (len r)) with (len (r +:+ String "=" "")) by (rewrite len_app; cbn; lia). by rewrite drop_str_app.
Qed.

Lemma word_dash s c r : s = String c r → c ≠ "-"%char → c ≠ "="%char →
  word ("-" +:+ s) = let '(name, value) := cut_value s in Flag name value.
Proof.
  intros -> H1 H2. apply Ascii.eqb_neq in H1 as E1. apply Ascii.eqb_neq in H2 as E2. change ("-" +:+ String c r) with (String "-" (String c r)).
  assert (word (String "-" (String c r)) =
          match (if Ascii.eqb c "-" then r else String c r) with
          | EmptyString => EndOfFlags
          | String d _ => if Ascii.eqb d "-" || Ascii.eqb d "=" then BadSyntax
                          else let '(name, value) := cut_value (if Ascii.eqb c "-" then r else String c r) in Flag name value
          end) as ->.
  { destruct c as [[] [] [] [] [] [] [] []]; try reflexivity; by destruct H1. }
  rewrite E1. cbn iota. by rewrite E1, E2.
Qed.

Lemma word_separate name : flag_name name → word ("-" +:+ name) = Flag name None.
Proof. intros H. pose proof (cut_value_name _ H) as Hc. destruct H as (c & r & E & H1 & H2 & _). by rewrite (word_dash _ c r E), Hc. Qed.

Lemma word_joined name v : flag_name name → word ("-" +:+ name +:+ "=" +:+ v) = Flag name (Some v).
Proof.
  intros H. pose proof (cut_value_pair _ v H) as Hc. destruct H as (c & r & E & H1 & H2 & _).
  assert (E' : name +:+ "=" +:+ v = String c (r +:+ "=" +:+ v)) by by rewrite E.
  by rewrite (word_dash _ c (r +:+ "=" +:+ v) E'), Hc.
Qed.

(** The two ways to write a text flag. *)
Inductive written : string → string → list string → Prop :=
  | written_separate name v : written name v ["-" +:+ name; v]
  | written_joined name v : written name v ["-" +:+ name +:+ "=" +:+ v].
Inductive written_all : Assigned → list string → Prop :=
  | written_nil : written_all [] []
  | written_cons name v l ws ws' : written name v ws → written_all l ws' → written_all ((name, v) :: l) (ws ++ ws').

Definition accepts (f : FlagSet) (a : string * string) : Prop :=
  flag_name (fst a) ∧ ∃ bad, formal f (fst a) = Some (TextFlag bad) ∧ bad (snd a) = None.
Definition ends_flags (rest : list string) : Prop := match rest with [] => True | s :: _ => word s = NotFlag end.

Lemma Parse_end f rest : ends_flags rest → Parse f rest = inr ([], rest).
Proof. destruct rest as [|s rest]; [done|]. cbn. by intros ->. Qed.

(** What is written is what is read: flags in either form, then arguments. *)
Theorem Parse_written f l ws rest :
  Forall (accepts f) l → written_all l ws → ends_flags rest → Parse f (ws ++ rest) = inr (l, rest).
Proof.
  intros Hl Hw Hr. induction Hw as [|name v l ws ws' H Hw IH]; [by apply Parse_end|].
  apply Forall_cons in Hl as [(Hn & bad & Hf & Hb) Hl]. specialize (IH Hl). cbn in Hn, Hf, Hb. rewrite <- app_assoc.
  inversion H; subst; [change (?a ++ ws' ++ rest) with (("-" +:+ name) :: v :: ws' ++ rest) |
                       change (?a ++ ws' ++ rest) with (("-" +:+ name +:+ "=" +:+ v) :: ws' ++ rest)];
    cbn [Parse]; rewrite ?word_separate, ?word_joined by done; by rewrite Hf, Hb, IH.
Qed.

Lemma word_end s : word s = EndOfFlags → s = "--".
Proof.
  destruct s as [|a s]; [done|]. destruct (decide (a = "-"%char)) as [->|Ha];
    [|destruct a as [[] [] [] [] [] [] [] []]; try done; by destruct Ha].
  destruct s as [|b s]; [done|]. destruct (decide (b = "-"%char)) as [->|Hb].
  - destruct s as [|c s]; [done|]. cbn [word]. change (Ascii.eqb "-" "-") with true. cbn iota.
    destruct (Ascii.eqb c "-" || Ascii.eqb c "="); [done|]. by destruct (cut_value (String c s)).
  - intros H. exfalso. destruct (decide (b = "="%char)) as [->|He]; [by destruct s|].
    change (word ("-" +:+ String b s) = EndOfFlags) in H. rewrite (word_dash _ b s) in H by done.
    by destruct (cut_value (String b s)).
Qed.

(** The arguments that are left are the last ones, and they do not begin with
    a flag unless "--" stands before them. *)
Lemma assign_inr name v r l rest : assign name v r = inr (l, rest) → ∃ l', r = inr (l', rest) ∧ l = (name, v) :: l'.
Proof. destruct r as [|[l' rest']]; [done|]. intros [= <- <-]. by exists l'. Qed.

Theorem Parse_leaves f args l rest :
  Parse f args = inr (l, rest) →
  (∃ used, args = used ++ rest ∧ (ends_flags rest ∨ last used = Some "--")) ∧ Forall (λ a, is_Some (formal f (fst a))) l.
Proof.
  remember (length args) as n eqn:Hn. revert args Hn l rest.
  induction n as [n IH] using lt_wf_ind. intros args -> l rest H.
  destruct args as [|s args]; [by injection H as <- <-; split; [exists []; split; [done|by left]|]|].
  assert (Hrec : ∀ args' name v pre, (length args' < S (length args))%nat → s :: args = pre ++ args' → is_Some (formal f name) →
            assign name v (Parse f args') = inr (l, rest) →
            (∃ used, s :: args = used ++ rest ∧ (ends_flags rest ∨ last used = Some "--")) ∧ Forall (λ a, is_Some (formal f (fst a))) l).
  { intros args' name v pre Hlt E Hf (l' & E' & ->)%assign_inr. destruct (IH _ Hlt args' eq_refl _ _ E') as [(used & -> & Hu) Hl].
    split; [|by constructor]. exists (pre ++ used). rewrite E, app_assoc. split; [done|].
    destruct Hu as [Hu|Hu]; [by left|]. right. rewrite last_app. by rewrite Hu. }
  cbn [Parse] in H. destruct (word s) as [| | |name value] eqn:Ew.
  - injection H as <- <-. split; [|constructor]. exists []. split; [done|by left].
  - injection H as <- <-. split; [|constructor]. exists [s]. split; [done|]. right. cbn.
    by rewrite (word_end s Ew).
  - done.
  - destruct (formal f name) as [[|bad]|] eqn:Ef; [| |by destruct value, args].
    + destruct value as [v|]; [destruct (ParseBool v); [|done]|];
        eapply (Hrec args name _ [s]); try exact H; try done; cbn; lia.
    + destruct value as [v|]; [|destruct args as [|v args]; [done|]]; (destruct (bad v); [done|]).
      * eapply (Hrec args name _ [s]); try exact H; try done; cbn; lia.
      * eapply (Hrec args name _ [s; v]); try exact H; try done; cbn; lia.
Qed.
