(* ===== verification/CliInput.v ===== *)
(** * What the CLI asks and reads (src/cmd/flexconnect/main.go: readSecretInput,
    the prompts and readMaskedLine; src/cmd/flexconnect/secretfile_unix.go)

    A terminal or a pipe is the list of what one read after the other returns.
    The line reader keeps what it has read beyond a line; the masked line reads
    the terminal itself, a byte at a time.  Every write is checked, and may
    fail. *)

From S2P Require Import Prelude GoStrings.

Open Scope go_scope.
Open Scope nat_scope.

(** ** Input and output *)

Record Term := mkTerm {
  tm_buffer : string;          (* read by the line reader, not yet used *)
  tm_chunks : list string;     (* what the next reads return; an empty one is a read of no bytes *)
  tm_end : error;              (* what the reads after them return *)
  tm_terminal : bool;          (* [in] is a file and the file a terminal *)
  tm_noRaw : option error;     (* why the mode cannot be changed *)
  tm_raw : bool;
  tm_out : string;
  tm_room : option nat;        (* how many writes succeed, if not all *)
}.
#[export] Instance Term_eta : Eta Term := λ r,
  mkTerm (tm_buffer r) (tm_chunks r) (tm_end r) (tm_terminal r) (tm_noRaw r) (tm_raw r) (tm_out r) (tm_room r).

Definition io_EOF : error := ErrSentinel IoEOF "EOF".
Definition io_ErrUnexpectedEOF : error := ErrSentinel IoUnexpectedEOF "unexpected EOF".
Definition is_EOF (e : error) : bool := match e with ErrSentinel IoEOF _ => true | _ => false end.
Definition broken_pipe : error := ErrText "write |1: broken pipe".

Definition newline : ascii := "010".
Definition nl : string := String newline "".

Definition write (s : string) : M Term () := λ t,
  match tm_room t with
  | None => (t <| tm_out ::= λ o, o +:+ s |>, Done ())
  | Some 0 => (t, Failed broken_pipe)
  | Some (S n) => (t <| tm_out ::= λ o, o +:+ s |> <| tm_room := Some n |>, Done ())
  end.

(** [bufio.Reader.ReadString('\n')]: the bytes, the error next to them, and
    what is left.  A hundred reads of nothing in a row are an error too. *)
Definition io_ErrNoProgress : error := ErrText "multiple Read calls return no data or error".
Definition maxConsecutiveEmptyReads : nat := 100.

Fixpoint scan (tries : nat) (buffer : string) (chunks : list string) (eof : error) : string * option error * string * list string :=
  match index_byte buffer newline with
  | Some n => (take_str (S n) buffer, None, drop_str (S n) buffer, chunks)
  | None =>
    match chunks with
    | [] => (buffer, Some eof, "", [])
    | "" :: chunks => match tries with
                      | S (S tries) => scan (S tries) buffer chunks eof
                      | _ => (buffer, Some io_ErrNoProgress, "", chunks)
                      end
    | chunk :: chunks => scan maxConsecutiveEmptyReads (buffer +:+ chunk) chunks eof
    end
  end.
Definition ReadString : M Term (string * option error) := λ t,
  let '(line, err, buffer, chunks) := scan maxConsecutiveEmptyReads (tm_buffer t) (tm_chunks t) (tm_end t) in
  (t <| tm_buffer := buffer |> <| tm_chunks := chunks |>, Done (line, err)).

(** [file.Read(single)]: [None] is a read of no bytes. *)
Definition ReadByte : M Term (option ascii) := λ t,
  match tm_chunks t with
  | [] => (t, Failed (tm_end t))
  | "" :: chunks => (t <| tm_chunks := chunks |>, Done None)
  | String b s :: chunks => (t <| tm_chunks := match s with EmptyString => chunks | _ => s :: chunks end |>, Done (Some b))
  end.

(** No loop below takes more turns than there are bytes and reads to come. *)
Definition weight (chunks : list string) : nat := foldr (λ c n, S (len c + n)) 0 chunks.
Definition left (t : Term) : nat := len (tm_buffer t) + weight (tm_chunks t).

(** ** A value *)

Definition promptValue (label : string) (optional : bool) : M Term string :=
  _ ← write (label +:+ (if optional then " (optional)" else "") +:+ ": ");
  '(line, err) ← ReadString;
  match err with
  | Some err =>
    if is_EOF err then if TrimSpace line == "" then fail io_ErrUnexpectedEOF else mret (TrimSpace line) else fail err
  | None => mret (TrimSpace line)
  end.

(** [loop turn]: turns until one has a value.  The fuel is spent by the input
    (below); [Crashed] is not reached. *)
Fixpoint loop {W A} (fuel : nat) (turn : M W (option A)) : M W A :=
  match fuel with
  | O => λ w, (w, Crashed)
  | S fuel => o ← turn; match o with Some a => mret a | None => loop fuel turn end
  end.
Definition until {A} (turn : M Term (option A)) : M Term A := λ t, loop (S (S (left t))) turn t.

Definition promptRequiredValue (label : string) : M Term string :=
  until (value ← promptValue label false;
         if value != "" then mret (Some value) else _ ← write (label +:+ " is required." +:+ nl); mret None).

(** ** The group *)

Definition choose_group (groups : list string) (value : string) : option string :=
  if value == "" then head groups
  else
    match Atoi value with
    | Some index =>
      if ((1 <=? index) && (index <=? Z.of_nat (length groups)))%Z then groups !! Z.to_nat (index - 1)
      else List.find (λ group, value == group) groups
    | None => List.find (λ group, value == group) groups
    end.

Definition promptGroupSelection (groups : list string) : M Term string :=
  match groups with
  | [] => promptValue "VPN group" true
  | _ =>
    until (value ← promptValue ("VPN group [1-" +:+ Itoa (Z.of_nat (length groups)) +:+ ", default 1]") false;
           match choose_group groups value with
           | Some group => mret (Some group)
           | None => _ ← write ("Unknown group " +:+ quote value +:+ "; choose one of: " +:+ Join groups ", " +:+ nl); mret None
           end)
  end.

(** ** The masked line *)

Definition erase : string := bytes_str [8; 32; 8].
Definition drop_last (s : string) : string := take_str (pred (len s)) s.

(** [for len(buf) > 0]: one write for every byte. *)
Fixpoint erase_all (n : nat) : M Term () := match n with O => mret () | S n => _ ← write erase; erase_all n end.

Inductive Key := KeyEnter | KeyBackspace | KeyInterrupt | KeyEnd | KeyClear | KeyEscape | KeyIgnored | KeyTyped.
Definition key_of (b : ascii) : Key :=
  match nat_of_ascii b with
  | 13 | 10 => KeyEnter
  | 127 | 8 => KeyBackspace
  | 3 => KeyInterrupt
  | 4 => KeyEnd
  | 21 => KeyClear
  | 27 => KeyEscape
  | n => if n <? 32 then KeyIgnored else KeyTyped
  end.

(** After ESC: one more byte, and after '[' or 'O' another one. *)
Definition swallow : M Term () :=
  r ← try ReadByte;
  match r with
  | inl err => if is_EOF err then mret () else fail err
  | inr None => mret ()
  | inr (Some c) =>
    if Ascii.eqb c "[" || Ascii.eqb c "O" then
      r ← try ReadByte;
      match r with inl err => if is_EOF err then mret () else fail err | inr _ => mret () end
    else mret ()
  end.

Fixpoint masked (fuel : nat) (buf : string) : M Term string :=
  match fuel with
  | O => λ t, (t, Crashed)
  | S fuel =>
    r ← try ReadByte;
    match r with
    | inl err => if is_EOF err && (buf != "") then _ ← write nl; mret buf else fail err
    | inr None => masked fuel buf
    | inr (Some b) =>
      match key_of b with
      | KeyEnter => _ ← write nl; mret buf
      | KeyBackspace => if buf != "" then _ ← write erase; masked fuel (drop_last buf) else masked fuel buf
      | KeyInterrupt => _ ← write ("^C" +:+ nl); fail (ErrText "input interrupted")
      | KeyEnd => if buf == "" then _ ← write nl; fail io_EOF else masked fuel buf
      | KeyClear => _ ← erase_all (len buf); masked fuel ""
      | KeyEscape => _ ← swallow; masked fuel buf
      | KeyIgnored => masked fuel buf
      | KeyTyped => _ ← write "*"; masked fuel (buf +:+ String b "")
      end
    end
  end.

(** The mode is put back when the function returns, however it does. *)
Definition readMaskedLine : M Term string := λ t,
  match tm_noRaw t with
  | Some err => (t, Failed err)
  | None => let '(t, o) := masked (S (left t)) "" (t <| tm_raw := true |>) in (t <| tm_raw := false |>, o)
  end.

Definition promptSecretValue (label : string) : M Term string := λ t,
  if negb (tm_terminal t) then promptValue label false t
  else (_ ← write (label +:+ ": "); line ← readMaskedLine; mret (TrimSpace line)) t.

(** ** A password from a file or from standard input *)

Record SecretFile := mkSecretFile { sf_stat : option error; sf_regular : bool; sf_mode : Z; sf_data : string; sf_error : option error }.

Definition maxSecretInputBytes : nat := Z.to_nat 65536.

(** [%04o]. *)
Definition octal_digit (n : Z) : ascii := ascii_of_nat (48 + Z.to_nat (n mod 8)).
Definition octal (mode : Z) : string :=
  String (octal_digit (mode / 512)) (String (octal_digit (mode / 64)) (String (octal_digit (mode / 8)) (String (octal_digit mode) ""))).

(** secretfile_unix.go; on Windows every file will do. *)
Definition validateSecretFile (unix : bool) (mode : Z) : option error :=
  if unix && negb (Z.land mode 63 =? 0)%Z
  then Some (ErrText ("password file permissions " +:+ octal mode +:+ " are too broad; require 0600 or stricter"))
  else None.

(** [io.ReadAll(io.LimitReader(r, n))]: the limit comes before an error that is
    behind it. *)
Definition read_limited (n : nat) (data : string) (eof : option error) : error + string :=
  if len data <? n then match eof with Some err => inl err | None => inr data end else inr (take_str n data).

Definition secret_of (r : error + string) : error + option string :=
  match r with
  | inl err => inl (ErrWrap "read password input: " err "")
  | inr data =>
    if maxSecretInputBytes <? len data then inl (ErrText "password input exceeds 65536 bytes")
    else
      let secret := TrimSuffix (TrimSuffix data nl) (String "013" "") in
      if secret == "" then inl (ErrText "password input is empty") else inr (Some secret)
  end.

(** [None] is a password that was not asked for. *)
Definition readSecretInput (unix : bool) (Open : string → error + SecretFile) (path : string) (fromStdin : bool) : M Term (option string) := λ t,
  if (path != "") && fromStdin then (t, Failed (ErrText "--password-file and --password-stdin are mutually exclusive"))
  else if (path == "") && negb fromStdin then (t, Done None)
  else if path != "" then
    (t, match (match Open path with
               | inl err => inl (ErrWrap "open password file: " err "")
               | inr file =>
                 match sf_stat file with
                 | Some err => inl (ErrWrap "inspect password file: " err "")
                 | None =>
                   if negb (sf_regular file) then inl (ErrText "password file must be a regular file")
                   else match validateSecretFile unix (sf_mode file) with
                        | Some err => inl err
                        | None => secret_of (read_limited (S maxSecretInputBytes) (sf_data file) (sf_error file))
                        end
                 end
               end) with
        | inl err => Failed err
        | inr secret => Done secret
        end)
  else
    let data := Join (tm_chunks t) "" in
    let eof := if is_EOF (tm_end t) then None else Some (tm_end t) in
    (t <| tm_chunks := [] |>,
     match secret_of (read_limited (S maxSecretInputBytes) data eof) with inl err => Failed err | inr secret => Done secret end).

(** ** Reading takes from what is to come *)

(** The bytes that are still to come. *)
Definition pending (t : Term) : string := tm_buffer t +:+ Join (tm_chunks t) "".

Lemma Join_cons c l : Join (c :: l) "" = c +:+ Join l "".
Proof. destruct l; cbn; [by rewrite str_app_nil_r|done]. Qed.

Lemma len_take n s : len (take_str n s) = min n (len s).
Proof. revert n. induction s as [|c s IH]; intros [|n]; cbn; [done..|]. unfold len in IH. by rewrite IH. Qed.

Lemma take_drop_str n s : take_str n s +:+ drop_str n s = s.
Proof. revert n. induction s as [|c s IH]; intros [|n]; cbn [take_str drop_str]; [done..|]. by rewrite str_app_cons, IH. Qed.

Lemma index_byte_len s c n : index_byte s c = Some n → n < len s.
Proof.
  revert n. induction s as [|d s IH]; [done|]. intros n. cbn. destruct (Ascii.eqb d c); [intros [= <-]; lia|].
  destruct (index_byte s c) as [m|]; [|done]. intros [= <-]. specialize (IH m eq_refl). unfold len in IH. lia.
Qed.

Lemma cut_line buffer n chunks line err buffer' chunks' :
  index_byte buffer newline = Some n →
  (take_str (S n) buffer, @None error, drop_str (S n) buffer, chunks) = (line, err, buffer', chunks') →
  buffer +:+ Join chunks "" = line +:+ buffer' +:+ Join chunks' "" ∧
  len line + len buffer' + weight chunks' ≤ len buffer + weight chunks ∧ err = None ∧ 1 ≤ len line.
Proof.
  intros E%index_byte_len. assert (1 ≤ S n ≤ len buffer) as Hn by lia. revert Hn. generalize (S n). intros m Hm [= <- <- <- <-].
  rewrite <- str_app_assoc, take_drop_str, len_take, len_drop_str. split_and!; [done|lia|done|lia].
Qed.

Lemma scan_spec tries buffer chunks eof line err buffer' chunks' :
  scan tries buffer chunks eof = (line, err, buffer', chunks') →
  buffer +:+ Join chunks "" = line +:+ buffer' +:+ Join chunks' "" ∧
  len line + len buffer' + weight chunks' ≤ len buffer + weight chunks ∧
  match err with None => 1 ≤ len line | Some err => buffer' = "" ∧ (err = eof ∧ chunks' = [] ∨ err = io_ErrNoProgress) end.
Proof.
  revert tries buffer. induction chunks as [|c chunks IH]; intros tries buffer; cbn [scan].
  - destruct (index_byte buffer newline) as [n|] eqn:E; [intros H; destruct (cut_line _ _ _ _ _ _ _ E H) as (? & ? & -> & ?); by split_and!|].
    intros [= <- <- <- <-]. cbn. split; [done|]. split; [lia|]. split; [done|]. by left.
  - destruct (index_byte buffer newline) as [n|] eqn:E.
    + intros H. destruct (cut_line _ _ _ _ _ _ _ E H) as (? & ? & -> & ?). by split_and!.
    + destruct c as [|b c].
      * destruct tries as [|[|tries]]; [intros [= <- <- <- <-]..|intros H; apply IH in H as (H1 & H2 & H3)];
          rewrite Join_cons, ?str_app_nil_l; cbn [weight foldr len String.length].
        1, 2: (split; [done|]; split; [unfold weight, len; cbn; lia|]; split; [done|by right]).
        split; [done|]. split; [unfold weight, len in *; cbn in *; lia|done].
      * intros H. apply IH in H as (H1 & H2 & H3). rewrite Join_cons, <- str_app_assoc.
        split; [done|]. split; [|done]. rewrite len_app in H2. unfold weight in *. cbn [foldr]. lia.
Qed.

Lemma wp_write_term s Q t :
  (∀ n, Q (Done ()) (t <| tm_out ::= λ o, o +:+ s |> <| tm_room := n |>)) → Q (Failed broken_pipe) t → wp (write s) Q t.
Proof.
  intros H1 H2. unfold wp, write. destruct (tm_room t) as [[|n]|] eqn:E; [done|apply H1|].
  specialize (H1 None). by destruct t as [b c e k r w o m]; cbn in E; subst.
Qed.

(** A turn of a loop takes something off the input, or it fails. *)
Definition advances {A} (m : M Term A) : Prop :=
  ∀ t, wp m (λ o t', match o with Done _ => left t' < left t | Failed _ => True | Crashed => False end) t.

Lemma promptValue_advances label optional : advances (promptValue label optional).
Proof.
  intros t. unfold promptValue. wp_steps. apply wp_write_term; [|done]. intros n. wp_steps. unfold wp at 1, ReadString.
  destruct (scan _ _ _ _) as [[[line err] buffer'] chunks'] eqn:E. cbn [fst snd]. apply scan_spec in E as (_ & Hl & He).
  cbn in Hl. destruct err as [err|].
  - destruct He as [-> He]. destruct (is_EOF err); [|apply wp_fail; done].
    destruct (TrimSpace line == "") eqn:Et; [by apply wp_fail|]. apply wp_ret.
    assert (0 < len line); [destruct line; [by rewrite TrimSpace_nil in Et|cbn; lia]|].
    unfold left, weight, len in *. cbn in *. lia.
  - apply wp_ret. unfold left, weight, len in *. cbn in *. lia.
Qed.

Lemma loop_wp {A} (turn : M Term (option A)) (Q : Outcome A → Term → Prop) n fuel t :
  (∀ t, left t ≤ n → wp turn (λ o t', match o with
                                      | Done None => left t' < left t
                                      | Done (Some a) => Q (Done a) t'
                                      | Failed e => Q (Failed e) t'
                                      | Crashed => False
                                      end) t) →
  left t ≤ n → left t < fuel → wp (loop fuel turn) Q t.
Proof.
  intros Ht. revert t. induction fuel as [|fuel IH]; intros t Hn Hf; [lia|]. cbn [loop]. wp_steps.
  eapply wp_mono; [by apply Ht|]. intros [[a|]|e|] t' H; [by apply wp_ret| |done|done]. apply IH; lia.
Qed.

(** Turns that begin with a prompt come to an end. *)
Lemma until_wp {A} label (k : string → M Term (option A)) (Q : Outcome A → Term → Prop) t :
  (∀ value t', left t' < left t → wp (k value) (λ o u, match o with
                                                      | Done None => left u = left t'
                                                      | Done (Some a) => Q (Done a) u
                                                      | Failed e => Q (Failed e) u
                                                      | Crashed => False
                                                      end) t') →
  (∀ e t, Q (Failed e) t) → wp (until (value ← promptValue label false; k value)) Q t.
Proof.
  intros Hk He. apply (loop_wp _ _ (left t)); [|lia..]. intros t' Ht'. wp_steps. eapply wp_mono; [apply promptValue_advances|].
  intros [v|e|] t2 H; [|apply He|done]. eapply wp_mono; [apply Hk; lia|]. intros [[a|]|e|] t3 H'; [done| |done|done]. lia.
Qed.

Lemma promptRequiredValue_wp label t :
  wp (promptRequiredValue label)
     (λ o t', match o with Done value => value ≠ "" ∧ left t' < left t | Failed _ => True | Crashed => False end) t.
Proof.
  apply until_wp; [|done]. intros value t' Ht. destruct (value == "") eqn:E; cbn [negb].
  - wp_steps. apply wp_write_term; [|done]. intros n. by apply wp_ret.
  - apply wp_ret. split; [by apply eqb_false|done].
Qed.

Lemma choose_group_in groups value group : choose_group groups value = Some group → group ∈ groups.
Proof.
  unfold choose_group. intros H.
  assert (Hfind : ∀ f, List.find f groups = Some group → group ∈ groups).
  { intros f Hf. apply find_some in Hf as [Hf _]. by apply list_elem_of_In. }
  destruct (value == ""); [by destruct groups; [|injection H as ->; apply list_elem_of_here]|].
  destruct (Atoi value) as [index|]; [|by eapply Hfind]. destruct (_ && _); [|by eapply Hfind].
  by eapply list_elem_of_lookup_2.
Qed.

(** A selection comes to an end on every input, and is one of the groups. *)
Lemma promptGroupSelection_wp groups t :
  wp (promptGroupSelection groups)
     (λ o t', match o with
              | Done group => (groups = [] ∨ group ∈ groups) ∧ left t' < left t
              | Failed _ => True
              | Crashed => False
              end) t.
Proof.
  destruct groups as [|g groups].
  - eapply wp_mono; [apply promptValue_advances|]. intros [v|e|] t' H; [by split; [left|]|done|done].
  - apply until_wp; [|done]. intros value t' Ht. destruct (choose_group (g :: groups) value) as [group|] eqn:E.
    + apply wp_ret. split; [right; by eapply choose_group_in|done].
    + wp_steps. apply wp_write_term; [|done]. intros n. by apply wp_ret.
Qed.

(** A masked line comes to an end as well. *)
Lemma ReadByte_wp t :
  wp ReadByte (λ o t', match o with Done _ => left t' < left t | Failed e => t' = t | Crashed => False end) t.
Proof.
  unfold wp, ReadByte. destruct t as [b c e k r w o m]. cbn [tm_chunks]. destruct c as [|[|x s] c]; [done|..];
    unfold left, weight, len, set_field; cbn; [lia|]. destruct s; cbn; lia.
Qed.

Definition settles {A} (m : M Term A) (t : Term) : Prop :=
  wp m (λ o t', match o with Done _ => left t' ≤ left t | Failed _ => True | Crashed => False end) t.

Lemma erase_all_settles n t : settles (erase_all n) t.
Proof.
  revert t. induction n as [|n IH]; intros t; [by apply wp_ret|]. cbn [erase_all]. apply wp_bind, wp_write_term; [|done]. intros r.
  eapply wp_mono; [apply IH|]. by intros [].
Qed.

Lemma swallow_settles t : settles swallow t.
Proof.
  unfold settles, swallow. wp_steps. eapply wp_mono; [apply ReadByte_wp|]. intros [[c|]|e|] t1 H1; [| | |done].
  - destruct (_ || _); [|apply wp_ret; lia]. wp_steps. eapply wp_mono; [apply ReadByte_wp|].
    intros [x|e|] t2 H2; [apply wp_ret; lia| |done]. subst. destruct (is_EOF e); [apply wp_ret; lia|by apply wp_fail].
  - apply wp_ret; lia.
  - subst. destruct (is_EOF e); [by apply wp_ret|by apply wp_fail].
Qed.

Lemma masked_settles fuel buf t : left t < fuel → settles (masked fuel buf) t.
Proof.
  revert buf t. induction fuel as [|fuel IH]; intros buf t Hf; [lia|]. unfold settles. cbn [masked]. wp_steps.
  eapply wp_mono; [apply ReadByte_wp|]. intros [[b|]|e|] t1 H1; [| | |done].
  - assert (Hrec : ∀ buf' t2, left t2 ≤ left t1 → settles (masked fuel buf') t2 →
      wp (masked fuel buf') (λ o t', match o with Done _ => left t' ≤ left t | Failed _ => True | Crashed => False end) t2).
    { intros buf' t2 H2 H. unfold settles in H. eapply wp_mono; [exact H|]. intros [a|e|] t3; [lia|done|done]. }
    assert (Hgo : ∀ buf' t2, left t2 ≤ left t1 →
      wp (masked fuel buf') (λ o t', match o with Done _ => left t' ≤ left t | Failed _ => True | Crashed => False end) t2).
    { intros buf' t2 H2. apply Hrec; [done|]. apply IH. lia. }
    destruct (key_of b); try (apply Hgo; lia).
    + wp_steps. apply wp_write_term; [|done]. intros n. apply wp_ret. exact (Nat.lt_le_incl _ _ H1).
    + destruct (buf != ""); [|apply Hgo; lia]. wp_steps. apply wp_write_term; [|done]. intros n. by apply Hgo.
    + wp_steps. apply wp_write_term; [|done]. intros n. by apply wp_fail.
    + destruct (buf == ""); [|apply Hgo; lia]. wp_steps. apply wp_write_term; [|done]. intros n. by apply wp_fail.
    + wp_steps. eapply wp_mono; [apply erase_all_settles|]. intros [a|e|] t2 H2; [by apply Hgo|done|done].
    + wp_steps. eapply wp_mono; [apply swallow_settles|]. intros [a|e|] t2 H2; [by apply Hgo|done|done].
    + wp_steps. apply wp_write_term; [|done]. intros n. by apply Hgo.
  - eapply wp_mono; [apply IH; lia|]. intros [a|e|] t2; [lia|done|done].
  - subst. destruct (is_EOF e && (buf != "")); [|by apply wp_fail]. wp_steps. apply wp_write_term; [|done]. intros n. by apply wp_ret.
Qed.

Lemma readMaskedLine_settles t : settles readMaskedLine t.
Proof.
  unfold settles, wp, readMaskedLine. destruct (tm_noRaw t); [done|].
  match goal with |- context [masked ?f ?b ?u] => pose proof (masked_settles f b u (Nat.lt_succ_diag_r (left t))) as H;
    unfold settles, wp in H; destruct (masked f b u) as [t2 [a|e|]] end; [exact H|exact I|exact H].
Qed.

Lemma promptSecretValue_settles label t : settles (promptSecretValue label) t.
Proof.
  pose proof (promptValue_advances label false t) as H. unfold settles, wp, promptSecretValue in *.
  destruct (tm_terminal t); cbn [negb].
  - change (wp (_ ← write (label +:+ ": "); line ← readMaskedLine; mret (TrimSpace line))
            (λ o t', match o with Done _ => left t' ≤ left t | Failed _ => True | Crashed => False end) t).
    wp_steps. apply wp_write_term; [|done]. intros n. wp_steps. eapply wp_mono; [apply readMaskedLine_settles|]. by intros [].
  - destruct (promptValue label false t) as [t2 [a|e|]]; cbn [fst snd] in *; [lia|done|done].
Qed.

(** ** The masked line, key by key

    What a user does at the prompt: the bytes each key sends, what it makes of
    the line, and what the terminal shows for it. *)

Inductive Stroke :=
  | Char (b : ascii)
  | Rubout (b : ascii)             (* DEL or backspace *)
  | Wipe                           (* Ctrl-U *)
  | Noise (b : ascii)              (* another control character *)
  | Arrow (intro final : ascii)    (* a key that sends ESC, '[' or 'O', and one byte *)
  | Alt (c : ascii).               (* ESC and another byte *)

Definition stroke_bytes (k : Stroke) : string :=
  match k with
  | Char b | Rubout b | Noise b => String b ""
  | Wipe => String "021" ""
  | Arrow intro final => String "027" (String intro (String final ""))
  | Alt c => String "027" (String c "")
  end.
Definition encode (ks : list Stroke) : string := Join (stroke_bytes <$> ks) "".
Definition stroke_ok (k : Stroke) : Prop :=
  match k with
  | Char b => key_of b = KeyTyped
  | Rubout b => key_of b = KeyBackspace
  | Wipe => True
  | Noise b => key_of b = KeyIgnored
  | Arrow intro _ => intro = "["%char ∨ intro = "O"%char
  | Alt c => c ≠ "["%char ∧ c ≠ "O"%char
  end.

Definition press (buf : string) (k : Stroke) : string :=
  match k with Char b => buf +:+ String b "" | Rubout _ => drop_last buf | Wipe => "" | _ => buf end.
Definition edit (buf : string) (ks : list Stroke) : string := foldl press buf ks.

Fixpoint times (n : nat) (s : string) : string := match n with O => "" | S n => s +:+ times n s end.
Definition shows (width : nat) (k : Stroke) : string :=
  match k with
  | Char _ => "*"
  | Rubout _ => if (width =? 0)%nat then "" else erase
  | Wipe => times width erase
  | _ => ""
  end.
Definition width_after (width : nat) (k : Stroke) : nat :=
  match k with Char _ => S width | Rubout _ => pred width | Wipe => 0 | _ => width end.
Fixpoint echo (width : nat) (ks : list Stroke) : string :=
  match ks with [] => "" | k :: ks => shows width k +:+ echo (width_after width k) ks end.

Lemma len_press buf k : len (press buf k) = width_after (len buf) k.
Proof. destruct k; cbn [press width_after]; try done; [rewrite len_app; cbn; lia|]. unfold drop_last. rewrite len_take. lia. Qed.

(** The reads after some of them, and what was written. *)
Definition fed (t : Term) (chunks : list string) (o : string) : Term := t <| tm_chunks := chunks |> <| tm_out ::= λ x, x +:+ o |>.
Lemma fed_fed t c o c' o' : fed (fed t c o) c' o' = fed t c' (o +:+ o').
Proof. destruct t; unfold fed, set_field; cbn. by rewrite str_app_assoc. Qed.
Lemma room_fed t c o : tm_room (fed t c o) = tm_room t.
Proof. by destruct t. Qed.
Lemma chunks_fed t c o : tm_chunks (fed t c o) = c.
Proof. by destruct t. Qed.

Definition holds (chunks : list string) (s : string) : Prop := Forall (.≠ "") chunks ∧ Join chunks "" = s.

Lemma write_fed t c o s : tm_room t = None → write s (fed t c o) = (fed t c (o +:+ s), Done ()).
Proof. intros H. unfold write. rewrite room_fed, H. unfold fed, set_field. destruct t; cbn. by rewrite str_app_assoc. Qed.

Lemma ReadByte_fed t c o b s :
  holds c (String b s) → ∃ c', holds c' s ∧ ReadByte (fed t c o) = (fed t c' o, Done (Some b)).
Proof.
  intros [Hc Hj]. unfold ReadByte. rewrite chunks_fed. destruct Hc as [|x c Hx Hc]; [done|]. rewrite Join_cons in Hj.
  destruct x as [|b' x]; [done|]. rewrite str_app_cons in Hj. injection Hj as -> Hj.
  exists (match x with EmptyString => c | _ => x :: c end). split.
  - destruct x as [|d x]; [split; [done|by rewrite str_app_nil_l in Hj]|].
    split; [by constructor|by rewrite Join_cons].
  - destruct t; by destruct x.
Qed.

Lemma erase_all_fed t c o n : tm_room t = None → erase_all n (fed t c o) = (fed t c (o +:+ times n erase), Done ()).
Proof.
  intros H. revert o. induction n as [|n IH]; intros o; cbn [erase_all times]; [by rewrite str_app_nil_r|].
  unfold mbind, M_bind. rewrite write_fed by done. by rewrite IH, str_app_assoc.
Qed.

(** One key: [masked] with one turn more is [masked] on the edited line. *)
Lemma masked_press k fuel t c o buf s :
  tm_room t = None → stroke_ok k → holds c (stroke_bytes k +:+ s) →
  ∃ c', holds c' s ∧ masked (S fuel) buf (fed t c o) = masked fuel (press buf k) (fed t c' (o +:+ shows (len buf) k)).
Proof.
  intros Hr Hk Hc. cbn [masked]. unfold mbind at 1, M_bind, try.
  destruct k as [b|b| |b|i f|a]; cbn [stroke_bytes stroke_ok press shows] in *; rewrite ?str_app_cons, ?str_app_nil_l in Hc;
    destruct (ReadByte_fed t _ o _ _ Hc) as (c1 & Hc1 & ->); rewrite ?Hk.
  - exists c1. split; [done|]. unfold mbind, M_bind. by rewrite write_fed.
  - exists c1. split; [done|]. destruct buf as [|x buf]; [cbn; by rewrite str_app_nil_r|].
    change (String x buf != "") with true. cbn iota. unfold mbind, M_bind. by rewrite write_fed.
  - exists c1. split; [done|]. change (key_of "021") with KeyClear. cbn iota. unfold mbind, M_bind. by rewrite erase_all_fed.
  - exists c1. by rewrite str_app_nil_r.
  - change (key_of "027") with KeyEscape. cbn iota. unfold swallow, mbind at 1, M_bind, mbind at 1, M_bind, try.
    destruct (ReadByte_fed t _ o _ _ Hc1) as (c2 & Hc2 & ->).
    replace (Ascii.eqb i "[" || Ascii.eqb i "O") with true by by destruct Hk as [-> | ->].
    unfold mbind, M_bind. destruct (ReadByte_fed t _ o _ _ Hc2) as (c3 & Hc3 & ->). exists c3. by rewrite str_app_nil_r.
  - change (key_of "027") with KeyEscape. cbn iota. unfold swallow, mbind at 1, M_bind, mbind at 1, M_bind, try.
    destruct (ReadByte_fed t _ o _ _ Hc1) as (c2 & Hc2 & ->).
    destruct Hk as [Hk1%Ascii.eqb_neq Hk2%Ascii.eqb_neq]. rewrite Hk1, Hk2. exists c2. by rewrite str_app_nil_r.
Qed.

Lemma masked_line ks fuel t c o buf enter s :
  tm_room t = None → Forall stroke_ok ks → key_of enter = KeyEnter → holds c (encode ks +:+ String enter s) → length ks < fuel →
  ∃ c', holds c' s ∧ masked fuel buf (fed t c o) = (fed t c' (o +:+ echo (len buf) ks +:+ nl), Done (edit buf ks)).
Proof.
  intros Hr Hks He. revert fuel c o buf. induction Hks as [|k ks Hk _ IH]; intros fuel c o buf Hc Hf; (destruct fuel as [|fuel]; [cbn in Hf; lia|]).
  - cbn [encode] in Hc. rewrite str_app_nil_l in Hc. destruct (ReadByte_fed t _ o _ _ Hc) as (c1 & Hc1 & E).
    exists c1. split; [done|]. cbn [masked]. unfold mbind at 1, M_bind, try. rewrite E, He. unfold mbind, M_bind.
    by rewrite write_fed.
  - unfold encode in Hc. cbn [fmap list_fmap] in Hc. rewrite Join_cons, str_app_assoc in Hc.
    destruct (masked_press k fuel t c o buf _ Hr Hk Hc) as (c1 & Hc1 & ->).
    destruct (IH fuel c1 (o +:+ shows (len buf) k) (press buf k) Hc1) as (c2 & Hc2 & ->); [cbn in Hf; lia|].
    exists c2. split; [done|]. cbn [echo edit foldl]. by rewrite len_press, !str_app_assoc.
Qed.

Lemma holds_weight c s : holds c s → len s ≤ weight c.
Proof.
  intros [_ <-]. induction c as [|x c IH]; [cbn; lia|]. rewrite Join_cons, len_app. unfold weight in *. cbn [foldr]. lia.
Qed.
Lemma encode_len ks : length ks ≤ len (encode ks).
Proof.
  induction ks as [|k ks IH]; [cbn; lia|]. unfold encode in *. cbn [fmap list_fmap length]. rewrite Join_cons, len_app.
  assert (1 ≤ len (stroke_bytes k)) by (destruct k; cbn; lia). lia.
Qed.

Lemma readMaskedLine_typed t ks enter s :
  tm_noRaw t = None → tm_room t = None → Forall stroke_ok ks → key_of enter = KeyEnter →
  holds (tm_chunks t) (encode ks +:+ String enter s) →
  ∃ c, holds c s ∧ readMaskedLine t =
    (t <| tm_chunks := c |> <| tm_out ::= λ o, o +:+ echo 0 ks +:+ nl |> <| tm_raw := false |>, Done (edit "" ks)).
Proof.
  intros Hn Hr Hks He Hc. unfold readMaskedLine. rewrite Hn.
  assert (Hf : length ks < S (left t)).
  { apply holds_weight in Hc as Hw. rewrite len_app in Hw. pose proof (encode_len ks). unfold left. lia. }
  destruct (masked_line ks (S (left t)) (t <| tm_raw := true |>) (tm_chunks t) "" "" enter s) as (c & Hc' & E); [done..|].
  exists c. split; [done|]. rewrite str_app_nil_l in E.
  replace (fed (t <| tm_raw := true |>) (tm_chunks t) "") with (t <| tm_raw := true |>) in E
    by (destruct t; unfold fed, set_field; cbn; by rewrite str_app_nil_r).
  rewrite E. by destruct t.
Qed.

(** Two ways to type that differ only in which characters are typed. *)
Definition alike (k k' : Stroke) : Prop := match k, k' with Char _, Char _ => True | _, _ => k = k' end.

Lemma echo_alike ks ks' n : Forall2 alike ks ks' → echo n ks = echo n ks'.
Proof.
  intros H. revert n. induction H as [|k k' ks ks' Hk _ IH]; intros n; [done|]. cbn [echo].
  assert (shows n k = shows n k' ∧ width_after n k = width_after n k') as [-> ->]; [|by rewrite IH].
  by destruct k, k'; cbn in Hk; try discriminate Hk; try (injection Hk as ->).
Qed.

(** The stars a terminal has left: one for each '*', one less for each blank of
    an erasure. *)
Fixpoint stars (s : string) : Z :=
  match s with
  | EmptyString => 0
  | String c s => ((if Ascii.eqb c "*" then 1 else if Ascii.eqb c " " then -1 else 0) + stars s)%Z
  end.
Lemma stars_app a b : stars (a +:+ b) = (stars a + stars b)%Z.
Proof. induction a as [|c a IH]; [done|]. rewrite str_app_cons. cbn [stars]. rewrite IH. lia. Qed.
Lemma stars_times n : stars (times n erase) = (- Z.of_nat n)%Z.
Proof. induction n as [|n IH]; [done|]. cbn [times]. rewrite stars_app, IH. change (stars erase) with (-1)%Z. lia. Qed.
Lemma stars_echo ks buf : (Z.of_nat (len buf) + stars (echo (len buf) ks) = Z.of_nat (len (edit buf ks)))%Z.
Proof.
  revert buf. induction ks as [|k ks IH]; intros buf; [cbn [echo edit foldl stars]; lia|]. cbn [echo].
  change (edit buf (k :: ks)) with (edit (press buf k) ks). rewrite stars_app, <- len_press, <- IH, len_press.
  destruct k; cbn [shows width_after]; rewrite ?stars_times; try (cbn [stars]; lia); [change (stars "*") with 1%Z; lia|].
  destruct (len buf) as [|n]; [cbn; lia|]. cbn [Nat.eqb pred]. change (stars erase) with (-1)%Z. lia.
Qed.

(** C40: The masked line: for every way to type at the prompt (characters,
    backspace, Ctrl-U, arrow keys, ignored control characters) and every
    division of the input into reads, the line is what the keys make of it, the
    rest of the input is left, the terminal is out of raw mode, and what the
    screen shows is the same for every other text typed with the same keys: as
    many stars as the line has bytes. *)
Theorem secret_stays_hidden t t' ks ks' enter s s' :
  Forall2 alike ks ks' → Forall stroke_ok ks → Forall stroke_ok ks' → key_of enter = KeyEnter →
  tm_noRaw t = None → tm_room t = None → tm_noRaw t' = None → tm_room t' = None →
  holds (tm_chunks t) (encode ks +:+ String enter s) → holds (tm_chunks t') (encode ks' +:+ String enter s') →
  ∃ u u' shown,
    readMaskedLine t = (u, Done (edit "" ks)) ∧ readMaskedLine t' = (u', Done (edit "" ks')) ∧
    holds (tm_chunks u) s ∧ tm_raw u = false ∧
    tm_out u = tm_out t +:+ shown +:+ nl ∧ tm_out u' = tm_out t' +:+ shown +:+ nl ∧
    stars shown = Z.of_nat (len (edit "" ks)).
Proof.
  intros Ha Hk Hk' He Hn Hr Hn' Hr' Hc Hc'.
  destruct (readMaskedLine_typed t ks enter s Hn Hr Hk He Hc) as (c & Hs & E).
  destruct (readMaskedLine_typed t' ks' enter s' Hn' Hr' Hk' He Hc') as (c' & _ & E').
  eexists _, _, (echo 0 ks). split_and!; [exact E|exact E'|done|done|done| |].
  - by rewrite (echo_alike _ _ _ Ha).
  - pose proof (stars_echo ks ""). cbn in *. lia.
Qed.

(** ** A password from a file *)

Lemma TrimSuffix_app s w : TrimSuffix (s +:+ w) w = s.
Proof.
  unfold TrimSuffix, HasSuffix. rewrite rev_str_app. fold (HasPrefix (rev_str w +:+ rev_str s) (rev_str w)).
  rewrite HasPrefix_app, len_app. replace (len s + len w - len w) with (len s) by lia. apply take_str_app.
Qed.

(** The last byte is none of [l]. *)
Definition ends_without (l : list ascii) (s : string) : Prop := match rev_str s with String c _ => c ∉ l | EmptyString => True end.

Lemma TrimSuffix_other s c : ends_without [c] s → TrimSuffix s (String c "") = s.
Proof.
  unfold TrimSuffix, HasSuffix, ends_without. intros H.
  assert (String.prefix (rev_str (String c "")) (rev_str s) = false) as ->; [|done].
  change (rev_str (String c "")) with (String c ""). destruct (rev_str s) as [|d r]; [done|]. cbn.
  destruct (ascii_dec c d) as [->|]; [|done]. exfalso. apply H. by apply list_elem_of_singleton.
Qed.

Definition cr : ascii := "013".
Lemma ends_without_app l s c : c ∉ l → ends_without l (s +:+ String c "").
Proof. intros H. unfold ends_without. by rewrite rev_str_app. Qed.
Lemma ends_without_mono l l' s : (∀ c, c ∈ l' → c ∈ l) → ends_without l s → ends_without l' s.
Proof. unfold ends_without. destruct (rev_str s); set_solver. Qed.

Lemma secret_of_line p tail :
  p ≠ "" → ends_without [newline; cr] p → tail ∈ [""; nl; String cr nl] → (len p + 2 ≤ maxSecretInputBytes)%nat →
  secret_of (read_limited (S maxSecretInputBytes) (p +:+ tail) None) = inr (Some p).
Proof.
  intros Hp He Ht Hl. assert (tail = "" ∨ tail = nl ∨ tail = String cr nl) as Ht' by set_solver. clear Ht. rename Ht' into Ht.
  assert (Hlen : len (p +:+ tail) ≤ maxSecretInputBytes).
  { rewrite len_app. assert (len tail ≤ 2); [|lia]. clear -Ht.
    destruct Ht as [-> | [-> | ->]]; vm_compute; lia. }
  unfold read_limited, secret_of. rewrite (proj2 (Nat.ltb_lt _ _)) by lia. rewrite (proj2 (Nat.ltb_ge _ _)) by lia.
  assert (E1 : TrimSuffix (TrimSuffix (p +:+ tail) nl) (String "013" "") = p); [|by rewrite E1, (proj2 (eqb_false _ _) Hp)].
  assert (Hn : TrimSuffix p nl = p) by (apply TrimSuffix_other; eapply ends_without_mono; [|done]; set_solver).
  assert (Hc : TrimSuffix p (String "013" "") = p) by (apply TrimSuffix_other; eapply ends_without_mono; [|done]; set_solver).
  destruct Ht as [-> | [-> | ->]].
  - by rewrite str_app_nil_r, Hn, Hc.
  - by rewrite TrimSuffix_app, Hc.
  - change (String cr nl) with (String cr "" +:+ nl). rewrite <- str_app_assoc, TrimSuffix_app. apply TrimSuffix_app.
Qed.

(** A password with at most one line end behind it is read as it was written,
    blanks at its ends included, from a file only its owner can use. *)
Theorem password_file_read unix Open path t p tail mode :
  path ≠ "" → Open path = inr (mkSecretFile None true mode (p +:+ tail) None) → Z.land mode 63 = 0%Z →
  p ≠ "" → ends_without [newline; cr] p → tail ∈ [""; nl; String cr nl] → (len p + 2 ≤ maxSecretInputBytes)%nat →
  readSecretInput unix Open path false t = (t, Done (Some p)).
Proof.
  intros Hpath Ho Hm Hp He Ht Hl. unfold readSecretInput. rewrite (proj2 (eqb_false _ _) Hpath). cbn [negb andb].
  rewrite Ho. cbn [sf_stat sf_regular sf_mode sf_data sf_error negb]. unfold validateSecretFile. rewrite Hm.
  change (negb (0 =? 0)%Z) with false. rewrite andb_false_r. by rewrite secret_of_line.
Qed.

(** Nothing that comes out is empty or over the limit, and no file that others
    can use is read on Unix. *)
Theorem secret_input_checked unix Open path fromStdin t u p :
  readSecretInput unix Open path fromStdin t = (u, Done (Some p)) →
  p ≠ "" ∧ len p ≤ maxSecretInputBytes ∧
  (path ≠ "" → fromStdin = false ∧ ∃ file, Open path = inr file ∧ sf_regular file = true ∧ (unix = true → Z.land (sf_mode file) 63 = 0%Z)).
Proof.
  assert (Hs : ∀ r q, secret_of r = inr (Some q) → q ≠ "" ∧ len q ≤ maxSecretInputBytes).
  { intros [e|data] q; [done|]. unfold secret_of. destruct (_ <? _) eqn:El; [done|]. apply Nat.ltb_ge in El.
    destruct (_ == "") eqn:Eq; [done|]. intros [= <-]. split; [by apply eqb_false|].
    assert (Hle : ∀ s w, len (TrimSuffix s w) ≤ len s) by (intros s w; unfold TrimSuffix; destruct (HasSuffix s w); [rewrite len_take|]; lia).
    etrans; [apply Hle|]. etrans; [apply Hle|done]. }
  unfold readSecretInput. destruct (path == "") eqn:Ep; cbn [negb andb].
  - apply eqb_true in Ep as ->. destruct fromStdin; [|done]. cbn [negb].
    destruct (secret_of _) as [err|q] eqn:E; [done|]. intros [= _ ->]. apply Hs in E as [H1 H2]. split_and!; [done|done|by intros []].
  - destruct fromStdin; [done|]. destruct (Open path) as [err|file] eqn:Eo; [done|].
    destruct (sf_stat file); [done|]. destruct (sf_regular file) eqn:Er; [|done]. cbn [negb].
    destruct (validateSecretFile unix (sf_mode file)) eqn:Ev; [done|].
    destruct (secret_of _) as [err|q] eqn:E; [done|]. intros [= _ ->]. apply Hs in E as [H1 H2]. split_and!; [done|done|].
    intros _. split; [done|]. exists file. split_and!; [done|done|]. intros ->. unfold validateSecretFile in Ev. cbn [andb] in Ev.
    destruct (Z.land (sf_mode file) 63 =? 0)%Z eqn:Em; [by apply Z.eqb_eq|done].
Qed.

(** ** Examples *)

Module Example.
Definition tty (chunks : list string) : Term := mkTerm "" chunks io_EOF true None false "" None.
Definition pipe (text : string) : Term := mkTerm "" [text] io_EOF false None false "" None.

Definition typed : list Stroke := [Char "h"; Char "u"; Arrow "[" "D"; Rubout "127"; Char "i"].
Definition typed' : list Stroke := [Char "p"; Char "w"; Arrow "[" "D"; Rubout "127"; Char "q"].

Lemma secret_stays_hidden_witness :
  ∃ u u' shown,
    readMaskedLine (tty [encode typed +:+ String cr "more"]) = (u, Done "hi") ∧
    readMaskedLine (tty [encode typed' +:+ String cr ""]) = (u', Done "pq") ∧
    holds (tm_chunks u) "more" ∧ tm_raw u = false ∧ tm_out u = shown +:+ nl ∧ tm_out u' = shown +:+ nl ∧ stars shown = 2%Z.
Proof.
  apply (secret_stays_hidden (tty [encode typed +:+ String cr "more"]) (tty [encode typed' +:+ String cr ""]) typed typed' cr "more" "").
  1: by repeat constructor.
  1, 2: repeat constructor; left; reflexivity.
  all: try reflexivity.
  all: split; [by repeat constructor|reflexivity].
Defined.

(** The key Delete sends ESC [ 3 ~: four bytes, and three are discarded. *)
Lemma delete_key_is_typed :
  snd (readMaskedLine (tty ["ab"; String "027" "[3~"; String cr ""])) = Done "ab~".
Proof. reflexivity. Qed.

(** A character of two bytes is erased one byte at a time. *)
Lemma backspace_takes_a_byte :
  snd (readMaskedLine (tty [bytes_str [195; 169; 127; 13]])) = Done (bytes_str [195]).
Proof. reflexivity. Qed.

(** A blank at an end of a password is kept from a file and lost at a prompt. *)
Lemma blank_lost_at_prompt :
  snd (promptSecretValue "Password" (pipe (" secret " +:+ nl))) = Done "secret" ∧
  snd (promptSecretValue "Password" (tty [" secret " +:+ nl])) = Done "secret" ∧
  snd (readSecretInput true (λ _, inl io_EOF) "" true (pipe (" secret " +:+ nl))) = Done (Some " secret ").
Proof. vm_compute. done. Qed.

(** A group whose name is a number of the list cannot be chosen by its name. *)
Lemma number_before_name :
  snd (promptGroupSelection ["2"; "1"] (pipe ("1" +:+ nl))) = Done "2" ∧
  snd (promptGroupSelection ["staff"; "guests"] (pipe (nl +:+ "9" +:+ nl))) = Done "staff" ∧
  snd (promptGroupSelection ["staff"; "guests"] (pipe ("9" +:+ nl +:+ "guests" +:+ nl))) = Done "guests" ∧
  snd (promptGroupSelection ["staff"] (pipe "7")) = Failed io_ErrUnexpectedEOF.
Proof. vm_compute. done. Qed.
End Example.
