(* ===== verification/CliHelp.v ===== *)
(** * The help texts of the CLI (src/cmd/flexconnect/main.go: renderHelpTopic,
    rootHelpTopic, lookupHelpTopic) *)

From S2P Require Import Prelude GoStrings CliFlags CliInput.

Open Scope go_scope.
Open Scope nat_scope.

Inductive helpTopic := topic (Name Summary Usage Description : string) (Subcommands : list helpTopic) (Examples : list string).
Definition ht_Name (t : helpTopic) : string := match t with topic n _ _ _ _ _ => n end.
Definition ht_Summary (t : helpTopic) : string := match t with topic _ s _ _ _ _ => s end.
Definition ht_Subcommands (t : helpTopic) : list helpTopic := match t with topic _ _ _ _ l _ => l end.
Definition entry (name summary : string) : helpTopic := topic name summary "" "" [] [].

(** The verb %-*s. *)
Definition pad_right (width : nat) (s : string) : string := s +:+ Nat.iter (width - len s) (String " ") "".

Definition renderHelpTopic (t : helpTopic) : string :=
  match t with
  | topic name _ usage description subcommands examples =>
    (if usage != "" then "USAGE" +:+ nl +:+ "  " +:+ usage +:+ nl else "") +:+
    (if description != "" then nl +:+ description +:+ nl else "") +:+
    (match subcommands with
     | [] => ""
     | _ => let width := max_list (len ∘ ht_Name <$> subcommands) in
            nl +:+ "SUBCOMMANDS" +:+ nl +:+
            Join ((λ s, "  " +:+ pad_right width (ht_Name s) +:+ "  " +:+ ht_Summary s +:+ nl) <$> subcommands) ""
     end) +:+
    (match examples with [] => "" | _ => nl +:+ "EXAMPLES" +:+ nl +:+ Join ((λ s, "  " +:+ s +:+ nl) <$> examples) "" end) +:+
    nl +:+ "GLOBAL FLAGS" +:+ nl +:+
    "  --socket <path>               path to daemon socket or named pipe" +:+ nl +:+
    "  --timeout <duration>          connectivity and ordinary command timeout (default 15s)" +:+ nl +:+
    "  --connect-timeout <duration>  login and VPN connection timeout (default 2m)" +:+ nl +:+
    "  -v, --verbose                 enable verbose debug output" +:+ nl +:+
    "  --version                     print version and exit" +:+ nl +:+
    (if name == "flexconnect"
     then nl +:+ "For command-specific help, run `flexconnect help <command>` or add `--help` after a command." +:+ nl else "")
  end.

Definition rootHelpTopic : helpTopic :=
  topic "flexconnect" "CLI for the FlexConnect daemon"
    ("flexconnect [--socket <path>] [--timeout <duration>] [--connect-timeout <duration>] [-v|--verbose] <command> [command flags]")
    ("FlexConnect controls the local FlexConnect daemon, manages VPN profiles," +:+ nl +:+ "starts AnyConnect sessions, and exposes local tools like diagnostics and VPN-only SOCKS5 proxying.")
    [entry "status" "Show current daemon and VPN status";
     entry "login" "Create a profile and log in";
     entry "up" "Connect the current or named profile";
     entry "down" "Disconnect the current VPN session";
     entry "profile" "List, edit, and switch profiles";
     entry "route" "Show or update per-profile route rules";
     entry "proxy" "Control the built-in local SOCKS5 proxy";
     entry "control-mode" "Enter or exit administrator-owned machine mode";
     entry "logs" "Show recent daemon logs";
     entry "diag" "Export diagnostics as JSON";
     entry "traffic" "Show traffic totals and speeds";
     entry "netcheck" "Connect, inspect the underlay, and measure VPN traffic";
     entry "watch" "Stream daemon events as NDJSON";
     entry "update" "Check for a new FlexConnect release"]
    ["flexconnect status";
     "flexconnect login";
     "flexconnect login --server https://vpn.example.com --user alice --password-file ./secrets/flexconnect_password --name corp";
     "flexconnect up";
     "flexconnect up -p corp";
     "flexconnect down";
     "flexconnect traffic";
     "flexconnect netcheck --env-file .env";
     "flexconnect profile update -p corp --user alice --server vpn.example.com --password-file ./secrets/flexconnect_password --auto-reconnect true --apply-dns true --socks5-listen 127.0.0.1:1080";
     "flexconnect proxy enable 127.0.0.1:1080";
     "flexconnect control-mode user"].

Definition topics : list (string * helpTopic) :=
  [("status",
    topic "status" ""
      ("flexconnect status [--json]")
      ("Show the current daemon state, active profile, session details, routes, and local SOCKS5 proxy status.")
      []
      ["flexconnect status";
       "flexconnect status --json"]);
   ("login",
    topic "login" ""
      ("flexconnect login [--server <url> --user <username> (--password-file <path> | --password-stdin) --name <profile-name> --group <group>]")
      ("Create or update a profile, log in, and keep it as the last used profile. With no flags, prompts interactively: the server URL is connection-tested to list the available user groups, then group, username, and password are verified against the server (password input echoes '*') before the profile is saved.")
      []
      ["flexconnect login";
       "flexconnect login --server https://vpn.example.com --user alice --password-file ./secrets/flexconnect_password --name corp"]);
   ("up",
    topic "up" ""
      ("flexconnect up [-p <profile-name>]")
      ("Connect the last used profile, or the named profile when -p is provided.")
      []
      ["flexconnect up";
       "flexconnect up -p corp"]);
   ("down",
    topic "down" ""
      ("flexconnect down")
      ("Disconnect the active VPN session and stop any per-profile local proxy.")
      []
      ["flexconnect down"]);
   ("logs",
    topic "logs" ""
      ("flexconnect logs")
      ("Print recent daemon logs as JSON.")
      []
      []);
   ("diag",
    topic "diag" ""
      ("flexconnect diag [file]")
      ("Print diagnostics as JSON or write them to a file.")
      []
      ["flexconnect diag";
       "flexconnect diag diag.json"]);
   ("traffic",
    topic "traffic" ""
      ("flexconnect traffic [--json]")
      ("Show VPN traffic totals and sampled upload/download speeds.")
      []
      ["flexconnect traffic";
       "flexconnect traffic --json"]);
   ("netcheck",
    topic "netcheck" ""
      ("flexconnect netcheck [--env-file <path>] [--speedtest-url <url>] [--json]")
      ("Run a connection-level CSTP/DTLS probe without an OS TUN, keep it under observation, and download a bounded payload through the user-space VPN stack.")
      []
      ["flexconnect netcheck --env-file .env";
       "flexconnect netcheck --env-file .env --speedtest-url https://speed.example/download?bytes=4194304";
       "flexconnect netcheck --env-file .env --no-speedtest --json"]);
   ("watch",
    topic "watch" ""
      ("flexconnect watch")
      ("Stream daemon notifications as newline-delimited JSON.")
      []
      []);
   ("update",
    topic "update" ""
      ("flexconnect update [--json]")
      ("Check GitHub Releases for a newer FlexConnect version and report whether an update is available. This only checks and reports; it never downloads or installs anything.")
      []
      ["flexconnect update";
       "flexconnect update --json"]);
   ("profile",
    topic "profile" ""
      ("flexconnect profile <subcommand>")
      ("Manage stored VPN profiles.")
      [entry "list" "List all profiles";
       entry "current" "Show the current profile";
       entry "add" "Create a profile";
       entry "update" "Update profile fields";
       entry "switch" "Switch current profile";
       entry "remove" "Delete a profile"]
      ["flexconnect profile list";
       "flexconnect profile add --password-file ./secrets/flexconnect_password corp https://vpn.example.com alice";
       "flexconnect profile update -p corp --socks5 true --socks5-listen 127.0.0.1:1080"]);
   ("profile add",
    topic "profile add" ""
      ("flexconnect profile add [--scope user|machine] [--password-file <path> | --password-stdin] <name> <server_url> [username]")
      ("Create a user profile by default. Elevated administrators may create machine profiles with --scope machine.")
      []
      []);
   ("profile switch",
    topic "profile switch" ""
      ("flexconnect profile switch <profile-id>")
      ("Switch the daemon's current profile. If another profile is connected, it reconnects using the new profile.")
      []
      []);
   ("profile remove",
    topic "profile remove" ""
      ("flexconnect profile remove <profile-id>")
      ("Delete a profile and its stored secret reference.")
      []
      []);
   ("profile update",
    topic "profile update" ""
      ("flexconnect profile update -p <profile-name> [--name ..] [--server ..] [--user ..] [--group ..] [--password-file <path> | --password-stdin] [--dns a,b] [--mtu 1399] [--accept true|false] [--auto-reconnect true|false] [--apply-dns true|false] [--include a,b] [--exclude c,d] [--socks5 true|false] [--socks5-listen 127.0.0.1:1080]")
      ("Update profile fields in place. Runtime-relevant changes reconnect an active profile automatically." +:+ nl +:+ "Use `socks5=true` to enable the built-in VPN-only SOCKS5 proxy for that profile.")
      []
      []);
   ("route",
    topic "route" ""
      ("flexconnect route <subcommand>")
      ("Inspect or change per-profile route behavior.")
      [entry "show" "Show effective routes from current status";
       entry "set" "Update include/exclude route rules"]
      ["flexconnect route show";
       "flexconnect route set --accept true --include 10.0.0.0/8 --exclude 1.1.1.1/32";
       "flexconnect route set -p corp --accept false --include 10.0.0.0/8 --exclude 1.1.1.1/32"]);
   ("route set",
    topic "route set" ""
      ("flexconnect route set [-p <profile-name>] [--accept true|false] [--include a,b] [--exclude c,d]")
      ("Update route preferences for a profile. If that profile is connected, FlexConnect reapplies the connection.")
      []
      []);
   ("proxy",
    topic "proxy" ""
      ("flexconnect proxy <subcommand>")
      ("Control the built-in local SOCKS5 proxy. Proxy TCP connections and DNS resolution go through the connected VPN session only; FlexConnect does not fall back to the local network.")
      [entry "status" "Show current SOCKS5 status";
       entry "enable" "Enable SOCKS5 for current profile";
       entry "disable" "Disable SOCKS5 for current profile"]
      ["flexconnect proxy status";
       "flexconnect proxy enable 127.0.0.1:1080";
       "flexconnect proxy disable"]);
   ("proxy enable",
    topic "proxy enable" ""
      ("flexconnect proxy enable [listen-address]")
      ("Enable the built-in VPN-only SOCKS5 proxy on the current profile. The listener starts automatically when that profile connects and fails closed if VPN tunnel dialing is unavailable.")
      []
      []);
   ("proxy disable",
    topic "proxy disable" ""
      ("flexconnect proxy disable")
      ("Disable the built-in SOCKS5 proxy on the current profile.")
      []
      []);
   ("control-mode",
    topic "control-mode" ""
      ("flexconnect control-mode user | flexconnect control-mode machine [-p <profile-name>] [profile-id]")
      ("Elevated administrators enter unattended machine mode with a machine profile or explicitly exit it. Machine mode remains locked after connection failure until this command exits it.")
      []
      ["flexconnect profile add --scope machine --password-file ./secrets/flexconnect_password unattended https://vpn.example.com machine-user";
       "flexconnect control-mode machine -p unattended";
       "flexconnect control-mode user"])].

Definition lookupHelpTopic (name : string) : option helpTopic := snd <$> List.find (λ t, fst t == name) topics.
Definition rootHelp : string := renderHelpTopic rootHelpTopic.

(** Every command the root help lists has a topic; of the subcommands those
    that only show something have none. *)
Lemma commands_have_help : Forall (λ t, is_Some (lookupHelpTopic (ht_Name t))) (ht_Subcommands rootHelpTopic).
Proof. by repeat constructor; eexists. Qed.

Definition subcommand_names : list string :=
  t ← topics; s ← ht_Subcommands (snd t); [fst t +:+ " " +:+ ht_Name s].
Lemma subcommands_without_help :
  List.filter (λ name, bool_decide (lookupHelpTopic name = None)) subcommand_names =
  ["profile list"; "profile current"; "route show"; "proxy status"].
Proof. reflexivity. Qed.
