(* ===== verification/Cli.v ===== *)
(** * The commands of the CLI (src/cmd/flexconnect/main.go)

    Each command over the Local API client, with what it prints; the login
    dialog, which tries the server and the password before anything is saved.
    The text of a JSON document is the encoder's, a parameter; so are the two
    probes and the rates of the traffic text. *)

From S2P Require Import Prelude GoStrings Types Json Store Wire Service Access Appd ApiServer LocalClient LocalApi CliFlags CliInput CliHelp.

Open Scope go_scope.
Open Scope Z_scope.

(** ** The world of a command *)

Inductive Shown :=
  | ShStatus (v : Status) | ShLogs (v : list LogEntry) | ShDiagnostics (v : Diagnostics) | ShTraffic (v : TrafficSnapshot)
  | ShProfiles (v : list Profile) | ShProfile (v : Profile) | ShOperation (v : Operation) | ShOperationRef (v : Operation)
  | ShRoutes (v : list RouteSpec) | ShNotify (v : Notify) | ShUpdate (v : UpdateInfo).

(** What the CLI talks to, its standard streams, the files it wrote, and
    whether its errors went to the screen. *)
Record World (W : Type) := mkWorld { cw_env : W; cw_term : Term; cw_files : list (string * string); cw_errors : string }.
Arguments mkWorld {W}. Arguments cw_env {W}. Arguments cw_term {W}. Arguments cw_files {W}. Arguments cw_errors {W}.
#[export] Instance World_eta W : Eta (World W) := λ r, mkWorld (cw_env r) (cw_term r) (cw_files r) (cw_errors r).

(** [Exit] is os.Exit; [Stuck] is a loop that outlives its fuel (none does). *)
Inductive cli_error := Plain (e : error) | FromClient (e : client_error) | Explained (why : string) (e : client_error) | Exit (code : Z) | Stuck.

Definition K (W A : Type) : Type := World W → World W * (cli_error + A).
#[export] Instance K_ret W : MRet (K W) := λ A a w, (w, inr a).
#[export] Instance K_bind W : MBind (K W) := λ A B f m w,
  match m w with (w', inr a) => f a w' | (w', inl e) => (w', inl e) end.

Definition cli_fail {W A} (e : cli_error) : K W A := λ w, (w, inl e).
Definition cli_try {W A} (m : K W A) : K W (cli_error + A) := λ w, let '(w, r) := m w in (w, inr r).
Definition usage_error {W A} (text : string) : K W A := cli_fail (Plain (ErrText text)).
Definition of_sum {W A} (r : error + A) : K W A := match r with inr a => mret a | inl err => cli_fail (Plain err) end.
Definition of_M {W A} (m : M (World W) A) : K W A := λ w,
  match m w with (w, Done a) => (w, inr a) | (w, Failed e) => (w, inl (Plain e)) | (w, Crashed) => (w, inl Stuck) end.
Definition of_client {W A} (m : C W A) : K W A := λ w,
  let '(env, r) := m (cw_env w) in
  (w <| cw_env := env |>, match r with inr a => inr a | inl e => inl (FromClient e) end).

Definition on_term {W A} (m : M Term A) : M (World W) A := λ w, let '(t, o) := m (cw_term w) in (w <| cw_term := t |>, o).
Definition on_env {W A} (m : M W A) : M (World W) A := λ w, let '(e, o) := m (cw_env w) in (w <| cw_env := e |>, o).

(** [loginprobe.Options] without its timeout. *)
Record Options := mkOptions { lo_ServerURL : string; lo_Group : string; lo_Username : string; lo_Password : string }.

(** [strings.Join] of numbered lines. *)
Fixpoint numbered (n : Z) (l : list string) : list string :=
  match l with [] => [] | s :: l => ("  " +:+ Itoa n +:+ ". " +:+ s +:+ nl) :: numbered (n + 1) l end.

Section dialog.
Context {W : Type}.
(** loginprobe.FetchGroups and loginprobe.VerifyCredentials, and [ctx.Err()]. *)
Context (loginFetchGroups : string → M W (list string)) (loginVerify : Options → M W ()) (ctxErr : W → option error).

Definition say (s : string) : M (World W) () := on_term (write s).
(** A probe failed: the dialog is over when its context is. *)
Definition or_over {A} (k : M (World W) A) : M (World W) A :=
  over ← read (λ w, ctxErr (cw_env w)); match over with Some err => fail err | None => k end.
Definition until_answered {A} (turn : M (World W) (option A)) : M (World W) A := λ w, loop (S (S (left (cw_term w)))) turn w.

Definition server_turn : M (World W) (option (string * list string)) :=
  server ← on_term (promptRequiredValue "Server URL");
  _ ← say ("Testing connection to " +:+ server +:+ "..." +:+ nl);
  r ← try (on_env (loginFetchGroups server));
  match r with
  | inr groups => mret (Some (server, groups))
  | inl err => or_over (_ ← say ("Connection test failed: " +:+ error_msg err +:+ nl); mret None)
  end.

(** The selection that comes before the loop and the one at the end of a turn
    are the one a turn begins with. *)
Definition credentials_turn (server : string) (groups : list string) : M (World W) (option (string * string * string)) :=
  group ← on_term (promptGroupSelection groups);
  user ← on_term (promptRequiredValue "Username");
  password ← on_term (promptSecretValue "Password");
  _ ← say ("Verifying login..." +:+ nl);
  r ← try (on_env (loginVerify (mkOptions server group user password)));
  match r with
  | inr _ => mret (Some (group, user, password))
  | inl err =>
    or_over (_ ← say ("Login verification failed: " +:+ error_msg err +:+ nl);
             _ ← say ("Re-enter the VPN group, username, and password (Ctrl-C to cancel)." +:+ nl); mret None)
  end.
Definition promptVerifiedCredentials (server : string) (groups : list string) : M (World W) (string * string * string) :=
  until_answered (credentials_turn server groups).

Fixpoint say_all (l : list string) : M (World W) () := match l with [] => mret () | s :: l => _ ← say s; say_all l end.

Definition promptLoginRequest : M (World W) LoginRequest :=
  '(server, groups) ← until_answered server_turn;
  _ ← match groups with
      | [] => say ("Connection test succeeded. The server does not advertise user groups." +:+ nl)
      | _ => say_all (("Connection test succeeded. Available user groups:" +:+ nl) :: numbered 1 groups)
      end;
  '(group, user, password) ← promptVerifiedCredentials server groups;
  name ← on_term (promptValue "Profile name" true);
  _ ← say ((if name != "" then "Login verified; saving profile " +:+ quote name +:+ "..." else "Login verified; saving profile...") +:+ nl);
  mret (mkLoginRequest "" name server user group password).
End dialog.

(** ** What is printed *)

Definition line (s : string) : string := s +:+ nl.
Definition when_text (b : bool) (s : string) : string := if b then s else "".

Definition profile_label (profiles : list Profile) (id : string) : string :=
  match List.find (λ p, pr_ID p == id) profiles with
  | Some p => if pr_Name p != "" then pr_Name p else pr_ServerURL p
  | None => id
  end.

Definition session_text (status : Status) (s : SessionInfo) : string :=
  line ("Server: " +:+ si_ServerAddress s) +:+ line ("VPN IP: " +:+ si_VPNAddress s) +:+
  line ("Tunnel: " +:+ si_TUNName s +:+ " (" +:+ si_VPNAddress s +:+ "/" +:+ si_VPNMask s +:+ ")") +:+
  (match si_DNS s with [] => "" | dns => line ("DNS: " +:+ Join dns ", ") end) +:+
  (match st_EffectiveRoutes status with [] => "" | routes => line ("Routes: " +:+ Itoa (Z.of_nat (length routes)) +:+ " effective entries") end).

Definition formatStatusWithProfiles (status : option Status) (profiles : list Profile) : string :=
  match status with
  | None => line "No status available."
  | Some status =>
    line ("State: " +:+ state_name (st_State status)) +:+
    when_text (st_SelectedProfileID status != "") (line ("Selected Profile: " +:+ profile_label profiles (st_SelectedProfileID status))) +:+
    when_text (st_ConnectedProfileID status != "") (line ("Connected Profile: " +:+ profile_label profiles (st_ConnectedProfileID status))) +:+
    (match st_Session status with Some s => session_text status s | None => "" end) +:+
    when_text (st_SOCKS5Enabled status) (line ("SOCKS5: " +:+ st_SOCKS5Listen status)) +:+
    when_text (st_LastError status != "") (line ("Last Error: " +:+ st_LastError status)) +:+
    (if bool_decide (st_State status = StateDisconnected) && (st_SelectedProfileID status == "")
     then line "Next Step: run `flexconnect login` to add a connection."
     else when_text (bool_decide (st_State status = StateError))
            (line "Next Step: run `flexconnect up` to retry or `flexconnect diag diag.json` for diagnostics.")) +:+
    when_text (st_UpdatedAt status != "") (line ("Updated: " +:+ st_UpdatedAt status))
  end.

Definition formatUpdateInfo (info : UpdateInfo) : string :=
  line ("Current: " +:+ uin_CurrentVersion info) +:+
  (if uin_Disabled info then line "Update checks are disabled (no update repository configured)."
   else if uin_Error info != "" then line ("Update check failed: " +:+ uin_Error info)
   else line ("Latest: " +:+ uin_LatestVersion info) +:+
        line (if uin_UpdateAvailable info then "Update available: yes" else "Update available: no") +:+
        when_text (uin_ReleaseURL info != "") (line ("Release: " +:+ uin_ReleaseURL info))).

(** A rate is bytes over a time; its text (the verb %.0f) is a parameter. *)
Definition formatTrafficSnapshot (rate : option (Z * Z) → string) (traffic : TrafficSnapshot) : string :=
  line ("Connected: " +:+ (if tn_Connected traffic then "true" else "false")) +:+
  line ("Traffic Sent: " +:+ Itoa (tn_BytesSent traffic) +:+ " B") +:+
  line ("Traffic Received: " +:+ Itoa (tn_BytesReceived traffic) +:+ " B") +:+
  line ("Speed Sent: " +:+ rate (tn_BytesSentPerSecond traffic) +:+ " B/s") +:+
  line ("Speed Received: " +:+ rate (tn_BytesReceivedPerSecond traffic) +:+ " B/s") +:+
  when_text (tn_SampledAt traffic != "") (line ("Sampled: " +:+ tn_SampledAt traffic)).

(** ** The daemon behind the socket *)

Definition daemonConnectivityError (err : client_error) : cli_error :=
  let matches s := match err with TransportError e => errors_is e s | _ => false end in
  Explained
    (if matches CtxDeadlineExceeded then "cannot connect to flexconnectd: connectivity check timed out: "
     else if matches NoPermission then "cannot connect to flexconnectd: permission denied; on Linux, add this user to the flexconnect group and start a new login session: "
     else if matches NotExist then "cannot connect to flexconnectd: control socket not found; verify that the daemon service is running: "
     else "cannot connect to flexconnectd: ") err.

Section commands.
Context {W : Type}.
Context (transport : Request → C W Response) (size : json → Z) (text : Payload → string).
(** The probes of the login dialog; the indented JSON text; the rates. *)
Context (loginFetchGroups : string → M W (list string)) (loginVerify : Options → M W ()) (ctxErr : W → option error).
Context (encode : Shown → string) (rate : option (Z * Z) → string).
(** The random bytes and the time of [types.NewProfile]; the file system. *)
Context (random : list nat) (now : Z) (unix : bool) (Open : string → error + SecretFile) (WriteFile : string → option error).
(** What the events of a watch are, and how they end. *)
Context (watched : WatchStart → list Notify * error).
(** runNetcheck, whose flags and report are not modelled. *)
Context (runNetcheck : list string → K W ()).

Notation Kc := (K W).

Definition out (s : string) : Kc () := of_M (on_term (write s)).
Definition printJSON (v : Shown) : Kc () := out (line (encode v)).
Definition secret (path : string) (fromStdin : bool) : Kc (option string) := of_M (on_term (readSecretInput unix Open path fromStdin)).
Definition parse (f : FlagSet) (args : list string) : Kc (Assigned * list string) := of_sum (Parse f args).

Definition c_Status : Kc Status := of_client (client_Status transport size text).
Definition c_Profiles : Kc (list Profile) := of_client (client_Profiles transport size text).
Definition c_CurrentProfile : Kc Profile := of_client (client_CurrentProfile transport size text).
Definition c_UpdateProfile (id : string) (req : ProfileUpdateRequest) : Kc ProfileMutationResult :=
  of_client (client_UpdateProfile transport size text id req).
Definition c_Connect (id : string) : Kc () := of_client (client_Connect transport size text 1 id).
Definition c_SetControlMode (mode id : string) : Kc Operation := of_client (client_SetControlMode transport size text mode id).

Definition NewProfile_ (name : string) : error + Profile :=
  match newIDFrom random with inl err => inl err | inr (id, _) => inr (NewProfile name id now) end.
Definition c_Login (req : LoginRequest) : Kc () := of_client (client_Login transport size text (NewProfile_ (lq_Name req)) req).

Definition printNamedHelp (name : string) : Kc () :=
  match lookupHelpTopic name with Some t => out (renderHelpTopic t) | None => usage_error ("unknown help topic: " +:+ name) end.
Definition printHelpTopic (path : list string) : Kc () :=
  match path with [] => out rootHelp | _ => printNamedHelp (Join path " ") end.

(** The profiles are for the names only. *)
Definition printCurrentStatus : Kc () :=
  status ← c_Status;
  profiles ← cli_try c_Profiles;
  out (formatStatusWithProfiles (Some status) (match profiles with inr l => l | inl _ => [] end)).

Definition printProfileMutation (r : ProfileMutationResult) : Kc () :=
  match r with MutatedProfile p => printJSON (ShProfile p) | StartedOperation op => printJSON (ShOperationRef op) end.

(** [mustArg]: the process exits when there is none. *)
Definition mustArg (args : list string) (label : string) : Kc string := λ w,
  match args with
  | arg :: _ => (w, inr arg)
  | [] => (w <| cw_errors ::= λ s, s +:+ line ("missing " +:+ label) |>, inl (Exit 2))
  end.

Definition checkDaemonConnectivity (allowUnready : bool) : Kc () :=
  live ← cli_try (of_client (client_Live transport size text));
  match live with
  | inl (FromClient err) => cli_fail (daemonConnectivityError err)
  | inl err => cli_fail err
  | inr _ =>
    ready ← cli_try (of_client (client_Ready transport size text));
    match ready with
    | inl (FromClient err) => cli_fail (daemonConnectivityError err)
    | inl err => cli_fail err
    | inr ready => if negb (rdy_Ready ready) && negb allowUnready then cli_fail (daemonConnectivityError (NotReadyError ready)) else mret ()
    end
  end.

(** ** Login, up and control-mode *)

Definition runInteractiveLogin : Kc () :=
  req ← of_M (promptLoginRequest loginFetchGroups loginVerify ctxErr);
  _ ← c_Login req;
  printCurrentStatus.

Definition login_flags : FlagSet :=
  [("server", StringFlag); ("user", StringFlag); ("password", StringFlag); ("password-file", StringFlag);
   ("password-stdin", BoolFlag); ("name", StringFlag); ("group", StringFlag)].
Definition runLogin (args : list string) : Kc () :=
  '(l, rest) ← parse login_flags args;
  let flag name := text_flag l [name] "" in
  if bool_decide (rest ≠ []) then
    usage_error "usage: flexconnect login --server <url> --user <username> (--password-file <path> | --password-stdin) [--name <profile-name> --group <group>]"
  else if flag "password" != "" then
    usage_error "--password is not supported because command-line secrets leak through process listings and shell history; use --password-file or --password-stdin"
  else if (flag "server" == "") || (flag "user" == "") then usage_error "login requires --server and --user"
  else
    password ← secret (flag "password-file") (bool_flag l "password-stdin");
    match password with
    | None => usage_error "login requires --password-file or --password-stdin; omit all arguments for interactive login"
    | Some password =>
      _ ← c_Login (mkLoginRequest "" (flag "name") (flag "server") (flag "user") (flag "group") password);
      printCurrentStatus
    end.

(** The identifier of the only profile of that name. *)
Fixpoint match_name (name match_ : string) (profiles : list Profile) : error + string :=
  match profiles with
  | [] => if match_ == "" then inl (ErrText ("profile not found by name: " +:+ name)) else inr match_
  | p :: profiles =>
    if pr_Name p != name then match_name name match_ profiles
    else if match_ != "" then
      inl (ErrText ("multiple profiles named " +:+ quote name +:+ "; rename one or use `flexconnect profile switch <id>`"))
    else match_name name (pr_ID p) profiles
  end.
Definition findProfileIDByName (name : string) : Kc string :=
  profiles ← c_Profiles;
  of_sum (match_name name "" profiles).

Definition p_flag : FlagSet := [("p", StringFlag)].
Definition runUp (args : list string) : Kc () :=
  '(l, rest) ← parse p_flag args;
  let profileName := text_flag l ["p"] "" in
  if bool_decide (rest ≠ []) then usage_error "usage: flexconnect up [-p <profile-name>]"
  else if profileName != "" then
    id ← findProfileIDByName profileName;
    _ ← c_Connect id;
    printCurrentStatus
  else
    current ← cli_try c_CurrentProfile;
    match current with
    | inl _ => usage_error "no profile selected; run `flexconnect login` first"
    | inr _ =>
      (* client.ConnectCurrent *)
      _ ← c_Connect "";
      printCurrentStatus
    end.

Definition control_usage : string := "usage: flexconnect control-mode machine [-p <profile-name>] [profile-id]".
Definition runControlMode (args : list string) : Kc () :=
  match args with
  | [] => usage_error "usage: flexconnect control-mode user | flexconnect control-mode machine [-p <profile-name>] [profile-id]"
  | arg :: args =>
    let mode := ToLower (TrimSpace arg) in
    if mode == "user" then
      if bool_decide (args ≠ []) then usage_error "usage: flexconnect control-mode user"
      else op ← c_SetControlMode "user" ""; printJSON (ShOperation op)
    else if mode == "machine" then
      '(l, rest) ← parse p_flag args;
      let profileName := text_flag l ["p"] "" in
      if (profileName != "") && bool_decide (rest ≠ []) || (profileName == "") && negb (Z.of_nat (length rest) =? 1)
      then usage_error control_usage
      else
        profileID ← (if profileName != "" then findProfileIDByName profileName else mret (hd "" rest));
        op ← c_SetControlMode "machine" profileID;
        printJSON (ShOperation op)
    else usage_error "control mode must be user or machine"
  end.

(** ** The profile commands *)

Definition add_flags : FlagSet :=
  [("password", StringFlag); ("password-file", StringFlag); ("password-stdin", BoolFlag); ("scope", StringFlag)].
Definition profile_add (args : list string) : Kc () :=
  '(l, positionals) ← parse add_flags args;
  if text_flag l ["password"] "" != "" then usage_error "--password is not supported; use --password-file or --password-stdin"
  else
    match positionals with
    | name :: server :: ([] | [_]) as rest =>
      profile ← match NewProfile_ name with
                | inl err => cli_fail (Plain (ErrWrap "generate profile ID: " err ""))
                | inr profile => mret (profile <| pr_Scope := ToLower (TrimSpace (text_flag l ["scope"] ProfileScopeUser)) |>)
                end;
      if negb ((pr_Scope profile == ProfileScopeUser) || (pr_Scope profile == ProfileScopeMachine)) then usage_error "--scope must be user or machine"
      else
        let profile := profile <| pr_ServerURL := server |> in
        let profile := match drop 2 rest with username :: _ => profile <| pr_Username := username |> | [] => profile end in
        password ← secret (text_flag l ["password-file"] "") (bool_flag l "password-stdin");
        created ← of_client (client_CreateProfile transport size text profile (default "" password));
        printJSON (ShProfile created)
    | _ => usage_error "usage: profile add [--scope user|machine] [--password-file <path> | --password-stdin] <name> <server_url> [username]"
    end.

Definition update_usage : string :=
  "usage: profile update -p <profile-name> [--name ..] [--server ..] [--user ..] [--group ..] [--password-file <path> | --password-stdin] [--dns a,b] [--mtu 1399] [--accept true|false] [--auto-reconnect true|false] [--apply-dns true|false] [--include a,b] [--exclude c,d] [--socks5 true|false] [--socks5-listen 127.0.0.1:1080]".
Definition update_flags : FlagSet :=
  p_flag ++ [("name", StringFlag); ("server", StringFlag); ("user", StringFlag); ("group", StringFlag); ("password", StringFlag);
   ("password-file", StringFlag); ("password-stdin", BoolFlag); ("dns", StringFlag); ("mtu", StringFlag); ("accept", StringFlag);
   ("auto-reconnect", StringFlag); ("apply-dns", StringFlag); ("auto_reconnect", StringFlag); ("apply_dns", StringFlag);
   ("include", StringFlag); ("exclude", StringFlag); ("socks5", StringFlag); ("socks5-listen", StringFlag); ("socks5_listen", StringFlag)].

(** A flag that is not set, or set to nothing, names no field. *)
Definition given (v : string) : option string := if v == "" then None else Some v.
Definition parsed {A} (what : string) (read : string → option A) (err : string → error) (v : string) : error + option A :=
  if v == "" then inr None
  else match read v with Some a => inr (Some a) | None => inl (ErrWrap ("invalid --" +:+ what +:+ " value: ") (err v) "") end.
Definition parsed_bool (what v : string) : error + option bool := parsed what ParseBool (syntax_error "ParseBool") v.

Definition profile_update_request (flag : list string → string) (password : option string) : Kc ProfileUpdateRequest :=
  mtu ← of_sum (parsed "mtu" Atoi atoi_error (flag ["mtu"]));
  accept ← of_sum (parsed_bool "accept" (flag ["accept"]));
  autoReconnect ← of_sum (parsed_bool "auto-reconnect" (flag ["auto-reconnect"; "auto_reconnect"]));
  applyDNS ← of_sum (parsed_bool "apply-dns" (flag ["apply-dns"; "apply_dns"]));
  socks5 ← of_sum (parsed_bool "socks5" (flag ["socks5"]));
  mret (mkProfileUpdateRequest (given (flag ["name"])) (given (flag ["server"])) (given (flag ["user"])) (given (flag ["group"]))
          accept autoReconnect applyDNS (splitCSV (flag ["include"])) (splitCSV (flag ["exclude"])) (splitCSV (flag ["dns"]))
          socks5 (given (flag ["socks5-listen"; "socks5_listen"])) mtu password).

Definition profile_update (args : list string) : Kc () :=
  '(l, rest) ← parse update_flags args;
  let flag names := text_flag l names "" in
  if bool_decide (rest ≠ []) then usage_error update_usage
  else if flag ["password"] != "" then usage_error "--password is not supported; use --password-file or --password-stdin"
  else
    targetID ← (if flag ["p"] != "" then findProfileIDByName (flag ["p"])
                else current ← cli_try c_CurrentProfile;
                     match current with
                     | inl _ => usage_error "no profile selected; run `flexconnect login` first or provide -p <profile-name>"
                     | inr current => mret (pr_ID current)
                     end);
    password ← secret (flag ["password-file"]) (bool_flag l "password-stdin");
    req ← profile_update_request flag password;
    result ← c_UpdateProfile targetID req;
    printProfileMutation result.

Definition runProfile (args : list string) : Kc () :=
  match args with
  | [] => printNamedHelp "profile"
  | sub :: args =>
    if isHelpArg sub then printNamedHelp "profile"
    else if sub == "list" then profiles ← c_Profiles; printJSON (ShProfiles profiles)
    else if sub == "add" then if wantCommandHelp args then printNamedHelp "profile add" else profile_add args
    else if sub == "current" then profile ← c_CurrentProfile; printJSON (ShProfile profile)
    else if sub == "update" then if wantCommandHelp args then printNamedHelp "profile update" else profile_update args
    else if sub == "switch" then
      if wantCommandHelp args then printNamedHelp "profile switch"
      else id ← mustArg args "profile id"; c_Connect id (* client.SwitchProfile *)
    else if sub == "remove" then
      if wantCommandHelp args then printNamedHelp "profile remove"
      else id ← mustArg args "profile id"; of_client (client_DeleteProfile transport size text id)
    else usage_error ("unknown profile command: " +:+ sub)
  end.

(** ** The route and proxy commands *)

Definition route_usage : string := "usage: route set [-p <profile-name>] [--accept true|false] [--include a,b] [--exclude c,d]".
(** A list that is set to nothing is the empty list. *)
Definition cleared (v : option string) : option (list string) :=
  match v with None => None | Some raw => if raw == "" then Some [] else splitCSV raw end.
Definition route_set (args : list string) : Kc () :=
  '(l, rest) ← parse (p_flag ++ [("accept", StringFlag); ("include", StringFlag); ("exclude", StringFlag)]) args;
  let set_ name := lookup_last l [name] in
  if bool_decide (rest ≠ []) then usage_error route_usage
  else if bool_decide (set_ "accept" = None ∧ set_ "include" = None ∧ set_ "exclude" = None) then usage_error route_usage
  else
    let profileName := text_flag l ["p"] "" in
    targetID ← (if profileName == "" then current ← c_CurrentProfile; mret (pr_ID current) else findProfileIDByName profileName);
    accept ← match set_ "accept" with
             | None => mret None
             | Some raw => of_sum (match ParseBool raw with
                                   | Some v => inr (Some v)
                                   | None => inl (ErrWrap "invalid --accept value: " (syntax_error "ParseBool" raw) "")
                                   end)
             end;
    profile ← of_client (client_UpdateRoutes transport size text targetID
                           (mkRouteUpdateRequest accept (cleared (set_ "include")) (cleared (set_ "exclude"))));
    printJSON (ShProfile profile).

Definition runRoutes (args : list string) : Kc () :=
  match args with
  | [] => printNamedHelp "route"
  | sub :: args =>
    if isHelpArg sub then printNamedHelp "route"
    else if sub == "show" then status ← c_Status; printJSON (ShRoutes (st_EffectiveRoutes status))
    else if sub == "set" then if wantCommandHelp args then printNamedHelp "route set" else route_set args
    else usage_error ("unknown route command: " +:+ sub)
  end.

Definition set_proxy (enabled : bool) (listen : option string) : Kc () :=
  current ← c_CurrentProfile;
  result ← c_UpdateProfile (pr_ID current) (zero_update <| ur_SOCKS5Enabled := Some enabled |> <| ur_SOCKS5Listen := listen |>);
  printProfileMutation result.
Definition runProxy (args : list string) : Kc () :=
  match args with
  | [] => printNamedHelp "proxy"
  | sub :: args =>
    if isHelpArg sub then printNamedHelp "proxy"
    else if sub == "status" then
      status ← c_Status;
      out (line (if st_SOCKS5Enabled status then "SOCKS5: enabled on " +:+ st_SOCKS5Listen status else "SOCKS5: disabled"))
    else if sub == "enable" then if wantCommandHelp args then printNamedHelp "proxy enable" else set_proxy true (head args)
    else if sub == "disable" then if wantCommandHelp args then printNamedHelp "proxy disable" else set_proxy false None
    else usage_error ("unknown proxy command: " +:+ sub)
  end.

(** ** Every command *)

Definition wrote (path data : string) : Kc () := λ w, (w <| cw_files ::= λ l, l ++ [(path, data)] |>, inr ()).
Definition diag (args : list string) : Kc () :=
  diagnostics ← of_client (client_Diagnostics transport size text);
  match args with
  | [] => printJSON (ShDiagnostics diagnostics)
  | path :: _ =>
    match WriteFile path with
    | Some err => cli_fail (Plain err)
    | None =>
      _ ← wrote path (encode (ShDiagnostics diagnostics));
      out (line ("Wrote diagnostics to " +:+ path))
    end
  end.

Fixpoint show_events (events : list Notify) (eof : error) : Kc () :=
  match events with [] => cli_fail (Plain eof) | n :: events => _ ← printJSON (ShNotify n); show_events events eof end.

Definition runCommand (args : list string) : Kc () :=
  match args with
  | [] => mret () (* not called with none *)
  | command :: args =>
    let or_help (k : Kc ()) := if wantCommandHelp args then printNamedHelp command else k in
    if command == "help" then printHelpTopic args
    else if command == "status" then
      or_help (status ← c_Status;
               if hasJSONFlag args then printJSON (ShStatus status)
               else profiles ← cli_try c_Profiles;
                    out (formatStatusWithProfiles (Some status) (match profiles with inr l => l | inl _ => [] end)))
    else if command == "login" then or_help (runLogin args)
    else if command == "up" then or_help (runUp args)
    else if command == "down" then or_help (_ ← of_client (client_Disconnect transport size text); printCurrentStatus)
    else if command == "logs" then or_help (logs ← of_client (client_Logs transport size text); printJSON (ShLogs logs))
    else if command == "diag" then or_help (diag args)
    else if command == "traffic" then
      or_help (traffic ← of_client (client_Traffic transport size text);
               if hasJSONFlag args then printJSON (ShTraffic traffic) else out (formatTrafficSnapshot rate traffic))
    else if command == "netcheck" then or_help (runNetcheck args)
    else if command == "profile" then runProfile args
    else if command == "route" then runRoutes args
    else if command == "proxy" then runProxy args
    else if command == "control-mode" then or_help (runControlMode args)
    else if command == "watch" then
      or_help (start ← of_client (client_WatchSince transport size text "" 0);
               let '(events, eof) := watched start in show_events events eof)
    else if command == "update" then
      or_help (info ← of_client (client_UpdateCheck transport size text);
               if hasJSONFlag args then printJSON (ShUpdate info) else out (formatUpdateInfo info))
    else usage_error ("unknown command: " +:+ command)
  end.

(** [runWithTimeouts]; the deadlines it sets are the transport's. *)
Definition runWithTimeouts (args : list string) : Kc () :=
  match args with
  | [] => out rootHelp
  | command :: rest =>
    _ ← (if commandNeedsDaemon args then checkDaemonConnectivity (commandAllowsUnready args) else mret ());
    if (command == "login") && bool_decide (rest = []) then runInteractiveLogin else runCommand args
  end.
End commands.

(** ** The login dialog *)

Section dialog_lemmas.
Context {W : Type} (loginFetchGroups : string → M W (list string)) (loginVerify : Options → M W ()) (ctxErr : W → option error).
Implicit Types (w : World W).
Notation wleft w := (left (cw_term w)).

Lemma wp_on_term {A} (m : M Term A) Q w : wp m (λ o t, Q o (w <| cw_term := t |>)) (cw_term w) → wp (on_term m) Q w.
Proof. unfold wp, on_term. by destruct (m (cw_term w)). Qed.
Lemma wp_on_env {A} (m : M W A) Q w :
  (∀ e o, m (cw_env w) = (e, o) → Q o (w <| cw_env := e |>)) → wp (on_env m) Q w.
Proof. unfold wp, on_env. intros H. destruct (m (cw_env w)) as [e o]. by apply H. Qed.

(** Writing takes nothing off the input and does not crash. *)
Lemma wp_say s Q w :
  (∀ w', wleft w' = wleft w → cw_env w' = cw_env w → Q (Done ()) w') → (∀ e w', Q (Failed e) w') → wp (say s) Q w.
Proof. intros H1 H2. apply wp_on_term, wp_write_term; [intros n; by apply H1|apply H2]. Qed.

Lemma wp_say_all l Q w :
  (∀ w', wleft w' = wleft w → cw_env w' = cw_env w → Q (Done ()) w') → (∀ e w', Q (Failed e) w') → wp (say_all l) Q w.
Proof.
  revert w. induction l as [|s l IH]; intros w H1 H2; cbn [say_all]; [by apply wp_ret, H1|]. wp_steps.
  apply wp_say; [|done]. intros w' E1 E2. apply IH; [|done]. intros w2 E3 E4. apply H1; congruence.
Qed.

Lemma loop_until {A} (turn : M (World W) (option A)) (Q : Outcome A → World W → Prop) fuel w :
  (∀ w, wp turn (λ o w', match o with
                         | Done None => wleft w' < wleft w
                         | Done (Some a) => Q (Done a) w'
                         | Failed e => Q (Failed e) w'
                         | Crashed => False
                         end)%nat w) →
  (wleft w < fuel)%nat → wp (loop fuel turn) Q w.
Proof.
  intros Ht. revert w. induction fuel as [|fuel IH]; intros w Hf; [lia|]. cbn [loop]. wp_steps.
  eapply wp_mono; [apply Ht|]. intros [[a|]|e|] w' H; [by apply wp_ret| |done|done]. apply IH. lia.
Qed.

Lemma until_answered_wp {A} (turn : M (World W) (option A)) (Q : Outcome A → World W → Prop) w :
  (∀ w, wp turn (λ o w', match o with
                         | Done None => wleft w' < wleft w
                         | Done (Some a) => Q (Done a) w'
                         | Failed e => Q (Failed e) w'
                         | Crashed => False
                         end)%nat w) →
  wp (until_answered turn) Q w.
Proof. intros H. apply (loop_until turn Q (S (S (wleft w))) w H). lia. Qed.

(** A failed probe ends the turn, or with the context the dialog. *)
Lemma wp_or_over {A} (k : M (World W) A) Q w :
  wp k Q w → (∀ e w', Q (Failed e) w') → wp (or_over ctxErr k) Q w.
Proof. intros Hk He. unfold or_over. wp_steps. destruct (ctxErr (cw_env w)); [by apply wp_fail|done]. Qed.

Definition fetched (server : string) (groups : list string) : Prop := ∃ e e', loginFetchGroups server e = (e', Done groups).
Definition verified (o : Options) : Prop := ∃ e e', loginVerify o e = (e', Done ()).
(** A probe is a call that returns. *)
Definition returns {A} (m : M W A) : Prop := ∀ e, snd (m e) ≠ Crashed.
Context (Hfetch : ∀ server, returns (loginFetchGroups server)) (Hverify : ∀ o, returns (loginVerify o)).

Lemma wp_probe {A} (m : M W A) Q w :
  returns m →
  (∀ e' a, m (cw_env w) = (e', Done a) → Q (Done a) (w <| cw_env := e' |>)) →
  (∀ e' err, Q (Failed err) (w <| cw_env := e' |>)) → wp (on_env m) Q w.
Proof.
  intros Hr H1 H2. apply wp_on_env. intros e o E. specialize (Hr (cw_env w)). rewrite E in Hr.
  destruct o as [a|err|]; [by apply H1|apply H2|done].
Qed.

Lemma server_turn_wp w :
  wp (server_turn loginFetchGroups ctxErr)
     (λ o w', match o with
              | Done (Some (server, groups)) => server ≠ "" ∧ fetched server groups
              | Done None => wleft w' < wleft w
              | Failed _ => True
              | Crashed => False
              end)%nat w.
Proof using Hfetch.
  unfold server_turn. wp_steps. apply wp_on_term. eapply wp_mono; [apply promptRequiredValue_wp|].
  intros [server|e|] t H; [|done|done]. destruct H as [Hs Hl]. wp_steps. apply wp_say; [|done]. intros w1 E1 _. cbn in E1.
  wp_steps. apply wp_probe; [apply Hfetch| |].
  - intros e' groups E. apply wp_ret. split; [done|]. by eexists _, _.
  - intros e' err. apply wp_or_over; [|done]. wp_steps. apply wp_say; [|done]. intros w2 E2 _. apply wp_ret. cbn in E2. lia.
Qed.

Lemma credentials_turn_wp server groups w :
  wp (credentials_turn loginVerify ctxErr server groups)
     (λ o w', match o with
              | Done (Some (group, user, password)) =>
                (groups = [] ∨ group ∈ groups) ∧ user ≠ "" ∧ verified (mkOptions server group user password)
              | Done None => wleft w' < wleft w
              | Failed _ => True
              | Crashed => False
              end)%nat w.
Proof using Hverify.
  unfold credentials_turn. wp_steps. apply wp_on_term. eapply wp_mono; [apply promptGroupSelection_wp|].
  intros [group|e|] t H; [|done|done]. destruct H as [Hg H1]. wp_steps. apply wp_on_term.
  eapply wp_mono; [apply promptRequiredValue_wp|]. intros [user|e|] t2 H; [|done|done]. destruct H as [Hu H2]. cbn in H2.
  wp_steps. apply wp_on_term. eapply wp_mono; [apply promptSecretValue_settles|]. intros [password|e|] t3 H3; [|done|done]. cbn in H3.
  wp_steps. apply wp_say; [|done]. intros w1 E1 _. cbn in E1. wp_steps. apply wp_probe; [apply Hverify| |].
  - intros e' [] E. apply wp_ret. split_and!; [done|done|]. by eexists _, _.
  - intros e' err. apply wp_or_over; [|done]. wp_steps. apply wp_say; [|done]. intros w2 E2 _. wp_steps. apply wp_say; [|done].
    intros w3 E3 _. apply wp_ret. cbn in *. lia.
Qed.

(** What the dialog hands over to be saved. *)
Definition checked (req : LoginRequest) : Prop :=
  lq_ProfileID req = "" ∧ lq_ServerURL req ≠ "" ∧ lq_Username req ≠ "" ∧
  verified (mkOptions (lq_ServerURL req) (lq_Group req) (lq_Username req) (lq_Password req)) ∧
  ∃ groups, fetched (lq_ServerURL req) groups ∧ (groups = [] ∨ lq_Group req ∈ groups).

Lemma promptLoginRequest_wp w :
  wp (promptLoginRequest loginFetchGroups loginVerify ctxErr)
     (λ o _, match o with Done req => checked req | Failed _ => True | Crashed => False end) w.
Proof using Hfetch Hverify.
  unfold promptLoginRequest. wp_steps.
  apply until_answered_wp. intros w1. eapply wp_mono; [apply server_turn_wp|].
  intros [[[server groups]|]|e|] w2 H; [|done..]. destruct H as [Hs Hf]. wp_steps.
  assert (Hrest : ∀ w3, wp (promptVerifiedCredentials loginVerify ctxErr server groups ≫= λ x,
    let '(group, user, password) := x in
    name ← on_term (promptValue "Profile name" true);
    _ ← say ((if name != "" then "Login verified; saving profile " +:+ quote name +:+ "..." else "Login verified; saving profile...") +:+ nl);
    mret (mkLoginRequest "" name server user group password))
     (λ o _, match o with Done req => checked req | Failed _ => True | Crashed => False end) w3).
  { intros w3. wp_steps. apply until_answered_wp. intros w4. eapply wp_mono; [apply credentials_turn_wp|].
    intros [[[[group user] password]|]|e|] w5 H; [|done..]. destruct H as (Hg & Hu & Hv). wp_steps. apply wp_on_term.
    eapply wp_mono; [apply promptValue_advances|]. intros [name|e|] t H; [|done|done]. wp_steps. apply wp_say; [|done].
    intros w6 _ _. apply wp_ret. split_and!; [done|done|done|done|]. by exists groups. }
  destruct groups as [|g groups]; [apply wp_say|apply wp_say_all]; try done; intros w3 _ _; apply Hrest.
Qed.
End dialog_lemmas.

(** ** A command and the daemon *)

Section over_the_server.
Context {W : Type} `{!Daemon W} (actor : Actor) (Hactor : (ac_ID actor == "") = false).
Context (size : json → Z) (text : Payload → string) (Hsize : ∀ j, size j ≤ maxRequestBodyBytes).
Context (encode : Shown → string) (random : list nat) (now : Z).
Implicit Types (w : World (Server W)).
#[local] Set Default Proof Using "Type*".

Lemma K_bind_ext {A B} (m m' : K (Server W) A) (k : A → K (Server W) B) w : m w = m' w → (m ≫= k) w = (m' ≫= k) w.
Proof. unfold mbind, K_bind. by intros ->. Qed.

(** An operation of the daemon, in a command. *)
Definition asked {A} (m : M W A) : K (Server W) A := of_client (called text m).

Lemma of_client_ext {A} (m m' : C (Server W) A) w : m (cw_env w) = m' (cw_env w) → of_client m w = of_client m' w.
Proof. unfold of_client. by intros ->. Qed.

Lemma c_Profiles_served w : c_Profiles (serve actor) size text w = asked (d_ListProfilesFor actor) w.
Proof. apply of_client_ext. by destruct (reads_served actor Hactor size text (cw_env w)) as (_ & H & _). Qed.

Definition saved_profile (id : string) (req : LoginRequest) : Profile :=
  (NewProfile (lq_Name req) id now) <| pr_ServerURL := lq_ServerURL req |> <| pr_Username := lq_Username req |>
    <| pr_Group := lq_Group req |> <| pr_Scope := ProfileScopeUser |>.

Lemma c_Login_served id rest req w :
  newIDFrom random = inr (id, rest) → lq_ProfileID req = "" →
  c_Login (serve actor) size text random now req w =
  asked (_ ← d_CreateProfileFor actor (create_request (saved_profile id req) (lq_Password req)); mret ()) w.
Proof.
  intros Hr Hp. apply of_client_ext. unfold NewProfile_. rewrite Hr. unfold client_Login. rewrite Hp.
  change ("" != "") with false. cbn iota. unfold mbind at 1, C_bind.
  rewrite (CreateProfile_served actor Hactor size text) by (done || apply Hsize).
  unfold called, mbind, M_bind. by destruct (d_CreateProfileFor _ _ _) as [d [a|e|]].
Qed.

(** ** A name is one profile *)

Lemma match_name_found name id l : id ≠ "" →
  match_name name id l = match List.filter (λ p, pr_Name p == name) l with [] => inr id | _ => match_name name id l end ∧
  (List.filter (λ p, pr_Name p == name) l ≠ [] → ∃ err, match_name name id l = inl err).
Proof.
  intros Hid. induction l as [|p l IH]; cbn [match_name List.filter].
  - rewrite (proj2 (eqb_false _ _) Hid). done.
  - destruct (pr_Name p == name); cbn [negb].
    + rewrite (proj2 (eqb_false _ _) Hid). cbn [negb]. split; [done|]. intros _. by eexists.
    + exact IH.
Qed.

Lemma match_name_spec name l :
  Forall (λ p, pr_ID p ≠ "") l →
  match List.filter (λ p, pr_Name p == name) l with
  | [p] => match_name name "" l = inr (pr_ID p)
  | _ => ∃ err, match_name name "" l = inl err
  end.
Proof.
  induction 1 as [|p l Hp _ IH]; [by eexists|]. cbn [match_name List.filter]. destruct (pr_Name p == name); cbn [negb]; [|exact IH].
  change ("" != "") with false. cbn iota. destruct (match_name_found name (pr_ID p) l Hp) as [H1 H2].
  destruct (List.filter _ l) as [|q l'] eqn:E; [exact H1|]. by apply H2.
Qed.

(** "up -p": the profile that alone has the name is connected; when there is
    none or more than one nothing is asked but the list. *)
Theorem up_connects_the_named (name : string) (profiles : list Profile) d w :
  name ≠ "" → d_ListProfilesFor actor (sr_daemon (cw_env w)) = (d, Done profiles) →
  Forall (λ p, TrimSpace (pr_ID p) ≠ "") profiles →
  let listed := w <| cw_env := mkServer (nextID (cw_env w)) d |> in
  match List.filter (λ p, pr_Name p == name) profiles with
  | [p] => runUp (serve actor) size text ["-p"; name] w =
           (_ ← asked (_ ← d_StartOperation actor "connect" (pr_ID p) (CmdConnect actor (pr_ID p)); mret ());
            printCurrentStatus (serve actor) size text) listed
  | _ => ∃ err, runUp (serve actor) size text ["-p"; name] w = (listed, inl (Plain err))
  end.
Proof.
  intros Hn Hl Hp listed.
  assert (Hids : Forall (λ p, pr_ID p ≠ "") profiles) by (eapply Forall_impl; [exact Hp|]; intros p H E; apply H; by rewrite E).
  pose proof (match_name_spec name profiles Hids) as Hm.
  assert (Hf : findProfileIDByName (serve actor) size text name w =
               (listed, match match_name name "" profiles with inr id => inr id | inl err => inl (Plain err) end)).
  { unfold findProfileIDByName. unfold mbind, K_bind. rewrite c_Profiles_served. unfold asked, of_client, called. rewrite Hl.
    by destruct (match_name name "" profiles). }
  assert (Hup : runUp (serve actor) size text ["-p"; name] w =
                (id ← findProfileIDByName (serve actor) size text name;
                 _ ← c_Connect (serve actor) size text id; printCurrentStatus (serve actor) size text) w).
  { unfold runUp. unfold mbind at 1, K_bind at 1. change (parse p_flag ["-p"; name] w) with (w, @inr cli_error _ ([("p", name)], @nil string)).
    cbn beta iota.
    change (text_flag [("p", name)] ["p"] "") with name. change (bool_decide ([] ≠ [])) with false. cbn iota.
    by rewrite (proj2 (eqb_false _ _) Hn). }
  assert (Hb : ∀ id, match_name name "" profiles = inr id →
    runUp (serve actor) size text ["-p"; name] w = (_ ← c_Connect (serve actor) size text id; printCurrentStatus (serve actor) size text) listed).
  { intros id Hid. rewrite Hup. rewrite Hid in Hf. unfold mbind, K_bind. by rewrite Hf. }
  assert (He : ∀ err, match_name name "" profiles = inl err → runUp (serve actor) size text ["-p"; name] w = (listed, inl (Plain err))).
  { intros err Hid. rewrite Hup. rewrite Hid in Hf. unfold mbind, K_bind. by rewrite Hf. }
  destruct (List.filter _ profiles) as [|p [|q l]] eqn:E.
  - destruct Hm as [err Hm]. exists err. by apply He.
  - rewrite (Hb _ Hm). unfold mbind, K_bind.
    assert (p ∈ List.filter (λ p, pr_Name p == name) profiles) as Hin by (rewrite E; apply list_elem_of_here).
    apply list_elem_of_In, filter_In in Hin as [Hin%list_elem_of_In _].
    assert (Hc : c_Connect (serve actor) size text (pr_ID p) listed =
                 asked (_ ← d_StartOperation actor "connect" (pr_ID p) (CmdConnect actor (pr_ID p)); mret ()) listed).
    { apply of_client_ext. apply (Connect_served actor Hactor size text); [|intros H'|apply Hsize].
      - by apply (Forall_forall _ _) with (x := p) in Hp.
      - apply (Forall_forall _ _) with (x := p) in Hids; [|done]. by apply Hids. }
    by rewrite Hc.
  - destruct Hm as [err Hm]. exists err. by apply He.
Qed.
End over_the_server.

(** C39: The interactive login over the daemon.  For every input, however it is
    cut into reads, every server and every daemon: the dialog comes to an end;
    when it fails nothing has been asked of the daemon; and when it ends, the
    one thing asked is to create a user profile with the server whose groups
    were fetched, one of these groups (if there are any), a user name, and the
    password, exactly as the server accepted them together. *)
Theorem login_saves_what_was_verified {W} `{!Daemon W} actor (size : json → Z) (text : Payload → string)
    loginFetchGroups loginVerify ctxErr (encode : Shown → string) (random : list nat) now id rest (w : World (Server W)) :
  ac_ID actor ≠ "" → (∀ j, size j ≤ maxRequestBodyBytes) → newIDFrom random = inr (id, rest) →
  (∀ server, returns (loginFetchGroups server)) → (∀ o, returns (loginVerify o)) →
  ∃ w' o, promptLoginRequest loginFetchGroups loginVerify ctxErr w = (w', o) ∧
  match o with
  | Done req =>
    checked loginFetchGroups loginVerify req ∧
    runInteractiveLogin (serve actor) size text loginFetchGroups loginVerify ctxErr random now w =
    (_ ← asked text (_ ← d_CreateProfileFor actor (create_request (saved_profile now id req) (lq_Password req)); mret ());
     printCurrentStatus (serve actor) size text) w'
  | Failed err =>
    runInteractiveLogin (serve actor) size text loginFetchGroups loginVerify ctxErr random now w = (w', inl (Plain err))
  | Crashed => False
  end.
Proof.
  intros Ha%eqb_false Hs Hr Hf Hv. pose proof (promptLoginRequest_wp loginFetchGroups loginVerify ctxErr Hf Hv w) as Hp.
  unfold wp in Hp. destruct (promptLoginRequest _ _ _ w) as [w' o] eqn:E. exists w', o. split; [done|].
  assert (Hrun : ∀ k : LoginRequest → K (Server W) (), (req ← of_M (promptLoginRequest loginFetchGroups loginVerify ctxErr); k req) w =
            match o with Done req => k req w' | Failed err => (w', inl (Plain err)) | Crashed => (w', inl Stuck) end).
  { intros k. unfold mbind, K_bind, of_M. rewrite E. by destruct o. }
  unfold runInteractiveLogin. rewrite Hrun. destruct o as [req|err|]; [|done|done].
  split; [exact Hp|]. apply K_bind_ext, (c_Login_served actor Ha size text Hs random now id rest); [done|apply Hp].
Qed.

(** ** Help, readiness, and what a request can say *)

Section words.
Context {W : Type} (transport : Request → C W Response) (size : json → Z) (text : Payload → string).
Context (loginFetchGroups : string → M W (list string)) (loginVerify : Options → M W ()) (ctxErr : W → option error).
Context (encode : Shown → string) (rate : option (Z * Z) → string) (random : list nat) (now : Z) (unix : bool).
Context (Open : string → error + SecretFile) (WriteFile : string → option error) (watched : WatchStart → list Notify * error).
Context (runNetcheck : list string → K W ()).
Notation cli := (runWithTimeouts transport size text loginFetchGroups loginVerify ctxErr encode rate random now unix Open WriteFile watched runNetcheck).
Notation command := (runCommand transport size text encode rate random now unix Open WriteFile watched runNetcheck).

(** A command that leaves what is behind the socket alone. *)
Definition local {A} (m : K W A) : Prop := ∀ w, cw_env (fst (m w)) = cw_env w.

Lemma local_out s : local (out s).
Proof. intros w. unfold out, of_M, on_term, write. by destruct (tm_room (cw_term w)) as [[|n]|]. Qed.
Lemma local_usage t : local (usage_error (A:=()) t).
Proof. done. Qed.
Lemma local_help name : local (printNamedHelp name).
Proof. unfold printNamedHelp. destruct (lookupHelpTopic name); [apply local_out|apply local_usage]. Qed.

(** Help in the first or the second place asks nothing of the daemon. *)
Theorem help_is_local args :
  head args = Some "help" ∨ wantCommandHelp (tail args) = true → local (cli args).
Proof.
  intros H w. assert (Hn : commandNeedsDaemon args = false).
  { destruct args as [|c args]; [done|]. cbn [commandNeedsDaemon tail head] in *. destruct H as [[= ->]|H]; [done|].
    destruct ((c == "help") || isHelpArg c); [done|]. destruct args as [|a args]; [done|]. by rewrite H. }
  unfold runWithTimeouts. destruct args as [|c args]; [apply local_out|]. rewrite Hn.
  assert (Hl : (c == "login") && bool_decide (args = []) = false).
  { destruct H as [[= ->]|H]; [done|]. destruct args; [done|]. apply andb_false_r. }
  rewrite Hl. change ((_ ← mret (M:=K W) (); command (c :: args)) w) with (command (c :: args) w).
  unfold runCommand. destruct (c == "help") eqn:Ec.
  { unfold printHelpTopic. destruct args; [apply local_out|apply local_help]. }
  destruct H as [[= ->]|H]; [done|]. cbn [tail] in H. rewrite H. destruct args as [|a args]; [done|]. cbn [wantCommandHelp] in H.
  repeat (lazymatch goal with |- context [if ?b then _ else _] => destruct b end; [by (apply local_help || (unfold runProfile, runRoutes, runProxy; rewrite ?H; apply local_help))|]).
  apply local_usage.
Qed.

(** Further back it is no help: "profile remove ID --help" removes the profile,
    and the daemon is not even asked whether it is there. *)
Theorem late_help_removes id w :
  isHelpArg id = false → cli ["profile"; "remove"; id; "--help"] w = of_client (client_DeleteProfile transport size text id) w.
Proof.
  intros H. unfold runWithTimeouts. assert (Hn : commandNeedsDaemon ["profile"; "remove"; id; "--help"] = false).
  { unfold commandNeedsDaemon. cbn -[isHelpArg among String.eqb]. by destruct (_ == _), (id == "--help"), (id == "-h"). }
  rewrite Hn. cbn -[of_client client_DeleteProfile isHelpArg]. unfold mbind, K_bind, runCommand, runProfile.
  cbn -[of_client client_DeleteProfile isHelpArg]. change (isHelpArg "remove") with false. cbn -[of_client client_DeleteProfile isHelpArg].
  rewrite H. by unfold mbind, K_bind.
Qed.

(** "profile switch" connects, whether anything was connected or not. *)
Theorem switch_connects id more w :
  isHelpArg id = false →
  command ("profile" :: "switch" :: id :: more) w = of_client (client_Connect transport size text 1 id) w.
Proof.
  intros H. unfold runCommand, runProfile. cbn -[of_client client_Connect isHelpArg]. change (isHelpArg "switch") with false.
  cbn -[of_client client_Connect isHelpArg]. rewrite H. by unfold mbind, K_bind.
Qed.

(** A daemon that is alive and not ready gets no command that is not for such
    a daemon. *)
Theorem unready_gets_nothing args w w1 w2 live ready :
  commandNeedsDaemon args = true → commandAllowsUnready args = false →
  client_Live transport size text (cw_env w) = (w1, inr live) → client_Ready transport size text w1 = (w2, inr ready) → rdy_Ready ready = false →
  cli args w = (w <| cw_env := w2 |>, inl (Explained "cannot connect to flexconnectd: " (NotReadyError ready))).
Proof.
  intros Hn Ha Hl Hr E. unfold runWithTimeouts. destruct args as [|c args]; [done|]. rewrite Hn, Ha.
  unfold mbind, K_bind, checkDaemonConnectivity, cli_try, mbind, K_bind, of_client. rewrite Hl. cbn [cw_env].
  change (cw_env (w <| cw_env := w1 |>)) with w1. rewrite Hr, E. by destruct w.
Qed.

(** No field of an update is set to nothing: what "profile update" can say
    changes a text or a list to another one, and empties none. *)
Definition never_empties (r : ProfileUpdateRequest) : Prop :=
  Forall (λ f : option string, f ≠ Some "") [ur_Name r; ur_ServerURL r; ur_Username r; ur_Group r; ur_SOCKS5Listen r] ∧
  Forall (λ f : option (list string), f ≠ Some []) [ur_CustomInclude r; ur_CustomExclude r; ur_DNSOverrides r].

Lemma given_nonempty v : given v ≠ Some "".
Proof. unfold given. destruct (v == "") eqn:E; [done|]. apply eqb_false in E. congruence. Qed.
Lemma splitCSV_nonempty v : splitCSV v ≠ Some [].
Proof.
  unfold splitCSV. destruct (v == "") eqn:E; [done|]. intros [= H]. destruct v as [|c v]; [done|]. cbn in H.
  destruct (Ascii.eqb c ","); [done|]. by destruct (split_byte v ",").
Qed.

Theorem update_empties_nothing flag password w w' r :
  profile_update_request (W:=W) flag password w = (w', inr r) → never_empties r.
Proof.
  unfold profile_update_request, mbind, K_bind, of_sum. intros H.
  repeat match type of H with context [match parsed ?a ?b ?c ?d with _ => _ end] => destruct (parsed a b c d); [done|]
         | context [match parsed_bool ?a ?b with _ => _ end] => destruct (parsed_bool a b); [done|] end.
  injection H as _ <-. split; repeat constructor; cbn [ur_Name ur_ServerURL ur_Username ur_Group ur_SOCKS5Listen ur_CustomInclude ur_CustomExclude ur_DNSOverrides];
    first [apply given_nonempty|apply splitCSV_nonempty].
Qed.
End words.

(** ** A login, and two commands *)

Module Example.
Definition fetch (server : string) : M (Server (Appd.World Data (gmap string string))) (list string) :=
  if server == "vpn.example" then mret ["staff"; "guests"] else fail (ErrText "no such host").
Definition verify (o : Options) : M (Server (Appd.World Data (gmap string string))) () :=
  if lo_Password o == "secret" then mret () else fail (ErrText "login denied").
Definition typed_login : string :=
  Join ["vpn"; ""; "vpn.example"; ""; "alice"; "wrong"; "guests"; ""; "bob"; "secret"; "corp"; ""] nl.
Definition at_prompt (input : string) := mkWorld (mkServer 0 busy_world) (CliInput.Example.pipe input) [] "".
Definition sixteen : list nat := replicate 16 7%nat.
Definition encoded (v : Shown) : string := "{}".

Lemma login_saves_what_was_verified_witness :
  ∃ w', promptLoginRequest fetch verify (λ _, None) (at_prompt typed_login) =
          (w', Done (mkLoginRequest "" "corp" "vpn.example" "bob" "guests" "secret")) ∧
        checked fetch verify (mkLoginRequest "" "corp" "vpn.example" "bob" "guests" "secret").
Proof.
  destruct (login_saves_what_was_verified (Daemon0 := appd_here) alice no_size no_text fetch verify (λ _, None) encoded sixteen 0
              (hex_encode sixteen) [] (at_prompt typed_login)) as (w' & o & E & H);
    [done|by vm_compute|reflexivity|by intros s e; unfold fetch; destruct (s == _)|by intros o e; unfold verify; destruct (lo_Password o == _)|].
  exists w'. assert (Ho : snd (promptLoginRequest fetch verify (λ _, None) (at_prompt typed_login)) =
                          Done (mkLoginRequest "" "corp" "vpn.example" "bob" "guests" "secret")) by (vm_compute; reflexivity).
  rewrite E in Ho. change (o = Done (mkLoginRequest "" "corp" "vpn.example" "bob" "guests" "secret")) in Ho. subst o.
  split; [exact E|exact (proj1 H)].
Defined.

(** The dialog, as the screen shows it. *)
Lemma dialog_text :
  tm_out (cw_term (fst (promptLoginRequest fetch verify (λ _, None) (at_prompt typed_login)))) =
  Join ["Server URL: Testing connection to vpn..."; "Connection test failed: no such host";
        "Server URL: Server URL is required."; "Server URL: Testing connection to vpn.example...";
        "Connection test succeeded. Available user groups:"; "  1. staff"; "  2. guests";
        "VPN group [1-2, default 1]: Username: Password: Verifying login..."; "Login verification failed: login denied";
        "Re-enter the VPN group, username, and password (Ctrl-C to cancel).";
        "VPN group [1-2, default 1]: Username: Username is required."; "Username: Password: Verifying login...";
        "Profile name (optional): Login verified; saving profile " +:+ quote "corp" +:+ "..."; ""] nl.
Proof. vm_compute. reflexivity. Qed.

(** At the end of the input an optional answer is an error as well: the login
    was verified, and is not saved. *)
Lemma no_name_no_profile :
  snd (promptLoginRequest fetch verify (λ _, None) (at_prompt (Join ["vpn.example"; ""; "alice"; "secret"; ""] nl))) =
  Failed io_ErrUnexpectedEOF.
Proof. vm_compute. reflexivity. Qed.

(** The words of a command: "--help" before it is the flag package's, which
    ends the process with its own text. *)
Lemma words :
  main (λ _, None) "sock" ["--help"] = FlagError errHelp ∧ main (λ _, None) "sock" ["help"] = RootHelp ∧
  main (λ _, None) "sock" ["profile"; "-v"; "list"] = Run "sock" true ["profile"; "list"] defaultCommandTimeout connectCommandTimeout ∧
  main (λ s, Atoi s) "sock" ["--timeout=0"; "status"] = BadTimeout ∧
  commandNeedsDaemon ["profile"; "remove"; "p1"; "--help"] = false ∧ commandAllowsUnready ["down"] = true.
Proof. split_and!; reflexivity. Qed.
End Example.
