(* ===== verification/LoginProbe.v ===== *)
(** * The probes of a login (src/internal/loginprobe/loginprobe.go; NewClient of
    src/internal/anyconnect/auth/auth.go)

    The authentication of Auth.v without a tunnel: what the server's groups
    are, and whether it accepts a user and a password.  The facts of the host
    ([sysinfo]), the local interface and the printing of a URL are
    parameters, and the network is the script of Auth.v. *)

From S2P Require Import Prelude GoStrings NetIP NetURL OsNet Session Auth LocalClient CliInput Cli.

Open Scope go_scope.
Open Scope Z_scope.

(** ** A client *)

(** What sysinfo tells of the host, if it does. *)
Record HostInfo := mkHostInfo { hi_Hostname : string; hi_UniqueID : string; hi_OSVersion : string }.

Definition zero_auth_profile : AuthProfile :=
  mkAuthProfile "" "" "" "" "" false false [] [] [] 0 false "" "" "" "" "" "" "" "" "" "" "" "" "".

Definition newDefaultProfile (goos goarch : string) (host : option HostInfo) : AuthProfile :=
  let profile := zero_auth_profile <| ap_Scheme := "https://" |> <| ap_AcceptServerRoutes := true |> <| ap_ApplyDNS := true |>
    <| ap_DeviceType := if goos == "windows" then "win" else goos +:+ (if goarch == "amd64" then "-64" else "") |> in
  match host with
  | None => profile
  | Some info => profile <| ap_ComputerName := hi_Hostname info |> <| ap_UniqueId := hi_UniqueID info |>
                         <| ap_PlatformVersion := hd "" (split_byte (hi_OSVersion info) " ") |>
  end.

Definition or_default (v d : string) : string := if v == "" then d else v.
Definition NewClient (defaults profile : AuthProfile) (local : Interface) : Client :=
  mkClient (profile <| ap_Scheme ::= λ v, or_default v (ap_Scheme defaults) |>
                    <| ap_DeviceType ::= λ v, or_default v (ap_DeviceType defaults) |>
                    <| ap_PlatformVersion ::= λ v, or_default v (ap_PlatformVersion defaults) |>
                    <| ap_ComputerName ::= λ v, or_default v (ap_ComputerName defaults) |>
                    <| ap_UniqueId ::= λ v, or_default v (ap_UniqueId defaults) |>) false "" local [].

(** ** The probes *)

Section probes.
Context (url_String : URL → string) (defaults : AuthProfile) (interface : error + OsNet.LocalInterface).
Context (sprintf : string → string → string) (unmarshal : string → error + DTD) (dial : string → option error) (agent : string).

Definition serverParts (raw : string) : error + (string * string * string) :=
  let raw := TrimSpace raw in
  if raw == "" then inl (ErrText "server URL is empty")
  else
    let parseRaw := if negb (Contains raw "://") then "https://" +:+ raw else raw in
    match url_Parse parseRaw with
    | None => inl (ErrWrap "invalid server URL: " (ErrText "url.Parse") "")
    | Some parsed =>
      if url_Host parsed == "" then inl (ErrWrap "invalid server URL: " (ErrText "missing host") "")
      else if url_Scheme parsed != "https" then inl (ErrText "server URL must use https")
      else if url_User parsed then inl (ErrText "server URL must not contain user info")
      else
        let hostWithPort := if url_Port parsed == "" then JoinHostPort (url_Hostname parsed) "443" else url_Host parsed in
        let parsed' := parsed <| url_RawQuery := "" |> <| url_Fragment := "" |> in
        inr (url_Host parsed, hostWithPort, TrimRight (url_String parsed') ["/"%char])
    end.

Definition newAuthClient (serverURL : string) : AuthM () :=
  match serverParts serverURL with
  | inl err => fail err
  | inr (host, hostWithPort, groupAccess) =>
    match interface with
    | inl err => fail (ErrWrap "inspect local interface: " err "")
    | inr info =>
      let profile := zero_auth_profile <| ap_Host := host |> <| ap_HostWithPort := hostWithPort |>
                       <| ap_GroupAccess := groupAccess |> <| ap_Scheme := "https://" |> in
      on_client (λ _, NewClient defaults profile (mkInterface (li_Name info) (li_IP4 info) (li_MAC info) (li_Gateway info)))
    end
  end.

(** [defer client.Close()]. *)
Definition closing {A} (m : AuthM A) : AuthM A :=
  r ← try m; _ ← Client_Close; match r with inr a => mret a | inl err => fail err end.

Definition FetchGroups (serverURL : string) : AuthM (list string) :=
  _ ← newAuthClient serverURL;
  closing (r ← try (InitAuth sprintf unmarshal dial agent);
           groups ← read (λ w, serverGroups (aw_client w));
           match r with
           | inl err => if bool_decide (groups ≠ []) then mret groups else fail err
           | inr _ => mret groups
           end).

Definition VerifyCredentials (opts : Options) : AuthM () :=
  _ ← fail_if (TrimSpace (lo_Username opts) == "") (ErrText "username is empty");
  _ ← fail_if (lo_Password opts == "") (ErrText "password is empty");
  _ ← newAuthClient (lo_ServerURL opts);
  closing (_ ← on_prof (λ p, p <| ap_Group := TrimSpace (lo_Group opts) |> <| ap_Username := TrimSpace (lo_Username opts) |>
                               <| ap_Password := lo_Password opts |>);
           r ← try (InitAuth sprintf unmarshal dial agent);
           match r with
           | inl err =>
             groups ← read (λ w, serverGroups (aw_client w));
             group ← read (λ w, ap_Group (Prof (aw_client w)));
             if bool_decide (groups ≠ []) && (group == "")
             then fail (ErrText ("select one of the advertised user groups: " +:+ Join groups ", "))
             else fail err
           | inr _ => _ ← PasswordAuth sprintf unmarshal; mret ()
           end).

(** ** What a probe does *)

(** The part of the profile that says who logs in where. *)
Definition credentials (w : AuthWorld) : string * string * string * string :=
  let p := Prof (aw_client w) in (ap_HostWithPort p, ap_Group p, ap_Username p, ap_Password p).

Lemma wp_InitAuth w :
  wp (InitAuth sprintf unmarshal dial agent)
     (λ o w', o ≠ Crashed ∧ credentials w' = credentials w) w.
Proof.
  unfold InitAuth, on_prof, on_client. wp_steps.
  destruct (tlsServerName _) as [err|name]; [by apply wp_fail|]. destruct (dial name); [by apply wp_fail|]. wp_steps.
  eapply wp_mono; [apply wp_tplPost|]. intros [dtd|e|] w1 [HP H]; [|split; [done|]|done].
  2: { unfold credentials. by rewrite HP. }
  assert (Hc : credentials w1 = credentials w) by (unfold credentials; by rewrite HP).
  wp_steps; (split; [done|]); by rewrite <- Hc.
Qed.

Lemma wp_closing_client {A} (m : AuthM A) (Q : Outcome A → AuthWorld → Prop) w :
  wp m (λ o w', o ≠ Crashed ∧ Q o (w' <| aw_client ::= λ c, c <| Conn := false |> |>)) w → wp (closing m) Q w.
Proof.
  intros H. unfold closing, Client_Close, on_client. wp_steps. eapply wp_mono; [exact H|].
  intros [a|e|] w' [Hn HQ]; [| |done]; wp_steps; exact HQ.
Qed.

Definition unconnected (w : AuthWorld) : Prop := Conn (aw_client w) = false.

Lemma wp_newAuthClient url w (Q : Outcome () → AuthWorld → Prop) :
  (∀ e, Q (Failed e) w) →
  (∀ host hp access w', serverParts url = inr (host, hp, access) → unconnected w' → aw_sent w' = aw_sent w →
     ap_HostWithPort (Prof (aw_client w')) = hp → Q (Done ()) w') → wp (newAuthClient url) Q w.
Proof.
  intros He Hd. unfold newAuthClient. destruct (serverParts url) as [err|[[host hp] access]] eqn:E; [apply wp_fail, He|].
  destruct interface as [err|info]; [apply wp_fail, He|]. unfold on_client. apply wp_modify. by eapply Hd.
Qed.

(** A probe returns, and leaves no connection open. *)
Lemma FetchGroups_wp url w :
  wp (FetchGroups url) (λ o w', o ≠ Crashed ∧ (unconnected w → unconnected w')) w.
Proof.
  unfold FetchGroups. wp_steps. apply wp_newAuthClient; [done|]. intros host hp access w1 _ _ _ _.
  apply wp_closing_client. wp_steps. eapply wp_mono; [apply wp_InitAuth|]. intros [a|e|] w2 [Hn _]; [| |done]; wp_steps.
  - done.
  - destruct (bool_decide _); by (apply wp_ret || apply wp_fail).
Qed.

(** When a login is verified, the server accepted exactly these credentials
    (blanks around the group and the user are not sent). *)
Definition accepted_login (opts : Options) : Prop :=
  ∃ w w' token, PasswordAuth sprintf unmarshal w = (w', Done token) ∧ auth_ok unmarshal w (Done token) w' ∧
    (∃ host hp access, serverParts (lo_ServerURL opts) = inr (host, hp, access) ∧
       credentials w = (hp, TrimSpace (lo_Group opts), TrimSpace (lo_Username opts), lo_Password opts)) ∧
    TrimSpace (lo_Username opts) ≠ "" ∧ lo_Password opts ≠ "".

Lemma VerifyCredentials_wp opts w :
  wp (VerifyCredentials opts)
     (λ o w', o ≠ Crashed ∧ (unconnected w → unconnected w') ∧ ∀ u, o = Done u → accepted_login opts) w.
Proof.
  unfold VerifyCredentials. wp_steps; [done|done|]. apply wp_newAuthClient; [done|].
  intros host hp access w1 Es _ _ Ehp. apply wp_closing_client. unfold on_prof, on_client. wp_steps.
  eapply wp_mono; [apply wp_InitAuth|]. intros [a|e|] w2 [Hn Hc]; [| |done]; wp_steps.
  - apply wp_intro. intros w3 o Ho. pose proof (wp_run _ _ _ _ _ (wp_PasswordAuth sprintf unmarshal w2) Ho) as Hok.
    destruct o as [token|e|]; [|done|by destruct Hok as (_ & _ & Hx & _)]. apply wp_ret. do 3 (split; [done|]). intros u _.
    exists w2, w3, token. split_and!; [done|done| | |].
    + exists host, hp, access. split; [done|]. rewrite Hc. unfold credentials. cbn. by rewrite Ehp.
    + by apply eqb_false.
    + by apply eqb_false.
  - destruct (_ && _); by apply wp_fail.
Qed.

(** The dialog of the CLI over these probes, the network a part of its world:
    it comes to an end, and what it hands over to be saved is a login the
    server accepted. *)
Theorem dialog_over_the_probes {W} (get : W → AuthWorld) (put : AuthWorld → W → W) ctxErr (w : World W) :
  let through {A} (m : AuthM A) : M W A := λ e, let '(a, o) := m (get e) in (put a e, o) in
  wp (promptLoginRequest (λ url, through (FetchGroups url)) (λ o, through (VerifyCredentials o)) ctxErr)
     (λ o _, match o with
             | Done req => accepted_login (mkOptions (lq_ServerURL req) (lq_Group req) (lq_Username req) (lq_Password req))
             | Failed _ => True
             | Crashed => False
             end) w.
Proof.
  intros through. eapply wp_mono; [apply promptLoginRequest_wp|].
  - intros url e. unfold through. destruct (FetchGroups url (get e)) as [a o] eqn:E.
    pose proof (wp_run _ _ _ _ _ (FetchGroups_wp url (get e)) E) as [H _]. exact H.
  - intros opts e. unfold through. destruct (VerifyCredentials opts (get e)) as [a o] eqn:E.
    pose proof (wp_run _ _ _ _ _ (VerifyCredentials_wp opts (get e)) E) as [H _]. exact H.
  - intros [req|e|] w' H; [|done|done]. destruct H as (_ & _ & _ & (e & e' & Hv) & _). unfold through in Hv.
    destruct (VerifyCredentials _ (get e)) as [a o] eqn:E. injection Hv as _ ->.
    pose proof (wp_run _ _ _ _ _ (VerifyCredentials_wp _ (get e)) E) as (_ & _ & H). by eapply H.
Qed.
End probes.
