(* ===== verification/TrayActions.v ===== *)
(** * What the tray does (src/client/systray/systray.go: reportError, refresh, the
    handlers behind the items, fetchUpdateInfo, handleNotify and watch)

    The state of the menu and the client's methods; alerts and notifications
    are the list of what was shown.  The four calls of [refresh] run at the
    same time in the code and one after the other here.  The clock stands still
    within a handler.  The contexts' deadlines belong to the transport. *)

From S2P Require Import Prelude GoStrings Types Json Wire Service Access Appd ApiServer LocalClient Tray.

Open Scope go_scope.
Open Scope Z_scope.

Record Menu (W : Type) := mkMenuState {
  me_env : W;
  me_tray : Tray;
  me_rebuild : bool;                 (* the channel of one place holds a request *)
  me_errorSeen : gmap string Z;
  me_notified : gmap string Z;
  me_updateNotified : bool;
  me_alerts : list (string * string);
  me_sent : list (string * string);
  me_clipboard : string;
  me_tooltips : Z;                   (* how often the tooltip was set *)
}.
Arguments mkMenuState {W}. Arguments me_env {W}. Arguments me_tray {W}. Arguments me_rebuild {W}. Arguments me_errorSeen {W}.
Arguments me_notified {W}. Arguments me_updateNotified {W}. Arguments me_alerts {W}. Arguments me_sent {W}. Arguments me_clipboard {W}.
Arguments me_tooltips {W}.
#[export] Instance Menu_eta W : Eta (Menu W) := λ r,
  mkMenuState (me_env r) (me_tray r) (me_rebuild r) (me_errorSeen r) (me_notified r) (me_updateNotified r) (me_alerts r) (me_sent r)
    (me_clipboard r) (me_tooltips r).

(** A handler has no error: what goes wrong is shown. *)
Definition T (W A : Type) : Type := Menu W → Menu W * A.
#[export] Instance T_ret W : MRet (T W) := λ A a m, (m, a).
#[export] Instance T_bind W : MBind (T W) := λ A B f k m, let '(m, a) := k m in f a m.
Definition set_menu {W} (f : Menu W → Menu W) : T W () := λ m, (f m, ()).
Definition get_menu {W A} (f : Menu W → A) : T W A := λ m, (m, f m).
Definition call {W A} (k : C W A) : T W (client_error + A) := λ m,
  let '(env, r) := k (me_env m) in (m <| me_env := env |>, r).

(** ** Errors *)

(** The text of an error; [decoding] is what the JSON decoder says. *)
Definition client_error_text (decoding : string) (e : client_error) : string :=
  match e with
  | APIError status _ message _ _ => if message == "" then "local API returned HTTP " +:+ Itoa status else message
  | IncompatibleAPIError daemon => "local API version mismatch: client=" +:+ Itoa LocalAPIMajor +:+ " daemon=" +:+ Itoa daemon
  | MissingCapability capability => "local API is missing required capability " +:+ quote capability
  | NotReadyError status => not_ready_message status
  | TransportError err => error_msg err
  | DecodeError => decoding
  end.
Definition is_canceled (e : client_error) : bool := match e with TransportError err => errors_is err CtxCanceled | _ => false end.

Definition errTTL : Z := 30 * 10 ^ 9.
Definition alert_message (s : string) : string :=
  let message := Join (Fields s) " " in
  if 320 <? Z.of_nat (len message) then take_str 320 message +:+ "..." else message.
Definition blank_line : string := String "010" (String "010" "").

Section handlers.
Context {W : Type} (transport : Request → C W Response) (size : json → Z) (text : Payload → string).
Context (decoding : string) (now : Z).

Notation Tw := (T W).

Definition reportError (operation : string) (err : client_error) : Tw () :=
  if is_canceled err then mret ()
  else
    let message := alert_message (client_error_text decoding err) in
    let key := operation +:+ ":" +:+ message in
    seen ← get_menu me_errorSeen;
    if match seen !! key with Some last => now - last <? errTTL | None => false end then mret ()
    else
      set_menu (λ m, m <| me_errorSeen := filter (λ kv, now - kv.2 < errTTL) (<[key := now]> seen) |>
                       <| me_alerts ::= λ l, l ++ [("FlexConnect tray error", operation +:+ blank_line +:+ message)] |>).

Definition requestRebuild : Tw () := set_menu (λ m, m <| me_rebuild := true |>).

Definition refresh_menu : Tw () :=
  status ← call (client_Status transport size text);
  profiles ← call (client_Profiles transport size text);
  traffic ← call (client_Traffic transport size text);
  update ← call (client_UpdateCheck transport size text);
  tray ← get_menu me_tray;
  let '(tray, err) := Tray.refresh status profiles traffic update tray in
  _ ← set_menu (λ m, m <| me_tray := tray |>);
  match err with Some err => reportError "daemon unavailable" err | None => mret () end.
Definition refreshed : Tw () := _ ← refresh_menu; requestRebuild.

(** ** The handlers *)

(** [if err := call; err != nil { report; return }]. *)
Definition or_report {A} (operation : string) (r : client_error + A) (k : Tw ()) : Tw () :=
  match r with inl err => reportError operation err | inr _ => k end.

Definition connected (status : option Status) : bool :=
  match status with Some s => bool_decide (st_State s = StateConnected) | None => false end.

Definition handleProfileSelection (profileID : string) : Tw () :=
  status ← get_menu (λ m, ty_status (me_tray m));
  if match status with Some s => st_SelectedProfileID s == profileID | None => false end then mret ()
  else
    d ← (if connected status then call (client_Disconnect transport size text) else mret (inr ()));
    or_report "disconnect failed" d (
      s ← call (client_Connect transport size text 1 profileID); (* client.SwitchProfile *)
      or_report "switch profile failed" s (
        c ← (if connected status then call (client_Connect transport size text 1 profileID) else mret (inr ()));
        or_report "reconnect after profile switch failed" c refreshed)).

Definition no_profile_selected : client_error := TransportError (ErrText "no profile selected").
Definition change_setting (operation : string) (req : ProfileUpdateRequest) : Tw () :=
  status ← get_menu (λ m, ty_status (me_tray m));
  let id := statusCurrentID status in
  if id == "" then reportError operation no_profile_selected
  else
    r ← call (client_UpdateProfile transport size text id req);
    or_report operation r refreshed.
Definition handleSocks5Toggle (enabled : bool) : Tw () :=
  change_setting "update SOCKS5 setting failed" (zero_update <| ur_SOCKS5Enabled := Some enabled |>).
Definition handleAutoReconnectToggle (enabled : bool) : Tw () :=
  change_setting "update auto-reconnect setting failed" (zero_update <| ur_AutoReconnect := Some enabled |>).
Definition handleApplyDNSToggle (enabled : bool) : Tw () :=
  change_setting "update DNS setting failed" (zero_update <| ur_ApplyDNS := Some enabled |>).

Definition handleToggle (action : toggleAction) : Tw () :=
  _ ← match action with
      | toggleConnect =>
        r ← call (client_Connect transport size text 1 ""); (* client.ConnectCurrent *)
        or_report "connect failed" r (mret ())
      | toggleDisconnect => r ← call (client_Disconnect transport size text); or_report "disconnect failed" r (mret ())
      | toggleNone => mret ()
      end;
  refreshed.

(** [encode] prints the diagnostics, [writeClipboard] says whether they can be
    copied. *)
Definition copyDiagnostics (encode : Diagnostics → string) (writeClipboard : string → option error) : Tw () :=
  r ← call (client_Diagnostics transport size text);
  match r with
  | inl err => reportError "read diagnostics failed" err
  | inr d =>
    match writeClipboard (encode d) with
    | Some err => reportError "copy diagnostics failed" (TransportError err)
    | None => set_menu (λ m, m <| me_clipboard := encode d |>)
    end
  end.

(** [bindMenuAction]: what a click on an item does; quitting ends the program. *)
Definition click (encode : Diagnostics → string) (writeClipboard : string → option error)
    (a : menuAction * toggleAction * string * bool) : Tw () :=
  let '(action, toggle, profileID, value) := a in
  match action with
  | menuActionToggle => handleToggle toggle
  | menuActionProfile => handleProfileSelection profileID
  | menuActionSocks5 => handleSocks5Toggle value
  | menuActionAutoReconnect => handleAutoReconnectToggle value
  | menuActionApplyDNS => handleApplyDNSToggle value
  | menuActionCopyDiagnostics => copyDiagnostics encode writeClipboard
  | menuActionQuit | menuActionNone => mret ()
  end.

(** ** Updates *)

Definition update_notification (u : UpdateInfo) : string * string :=
  ("FlexConnect update available",
   "Version " +:+ uin_LatestVersion u +:+ " is available." +:+ (if uin_ReleaseURL u != "" then String "010" (uin_ReleaseURL u) else "")).

Definition fetchUpdateInfo : Tw () :=
  r ← call (client_UpdateCheck transport size text);
  match r with
  | inl _ => mret ()
  | inr update =>
    known ← get_menu (λ m, ty_update (me_tray m));
    notified ← get_menu me_updateNotified;
    let notified := match known with
                    | Some k => if uin_LatestVersion k != uin_LatestVersion update then false else notified
                    | None => notified
                    end in
    let shouldNotify := uin_UpdateAvailable update && negb notified in
    _ ← set_menu (λ m, m <| me_tray ::= λ t, t <| ty_update := Some update |> |> <| me_updateNotified := notified || shouldNotify |>);
    _ ← (if negb (updateInfoEqual known (Some update)) then requestRebuild else mret ());
    if shouldNotify then set_menu (λ m, m <| me_sent ::= λ l, l ++ [update_notification update] |>) else mret ()
  end.

(** [updateCheckInterval]; zero is no check at all.  [strings.EqualFold] is on
    ASCII letters. *)
Definition defaultUpdateCheckInterval : Z := 6 * 3600 * 10 ^ 9.
Definition updateCheckInterval (ParseDuration : string → option Z) (env : string) : Z :=
  let raw := TrimSpace env in
  if raw == "" then defaultUpdateCheckInterval
  else if ToLower raw == "disabled" then 0
  else match ParseDuration raw with Some d => if d <=? 0 then 0 else d | None => 0 end.

(** ** The watch *)

Definition handle_notify (notify : Notify) : Tw () :=
  tray ← get_menu me_tray;
  let '(tray, tooltip, changed) := Tray.handleNotify notify tray in
  _ ← set_menu (λ m, m <| me_tray := tray |>);
  _ ← match nt_Connection notify with
      | Some event =>
        notified ← get_menu me_notified;
        let '(notified, shown) := notifyConnection now event notified in
        set_menu (λ m, m <| me_notified := notified |> <| me_sent ::= λ l, l ++ option_list shown |>)
      | None => mret ()
      end;
  _ ← (if tooltip : bool then set_menu (λ m, m <| me_tooltips ::= Z.add 1 |>) else mret ());
  if changed : bool then requestRebuild else mret ().

Fixpoint handle_all (l : list Notify) : Tw () := match l with [] => mret () | n :: l => _ ← handle_notify n; handle_all l end.

(** [watch], for the streams it is given: a connection that fails, or what it
    delivers and the error it ends with.  The result is the attempt number of
    each wait. *)
Fixpoint watch (attempt : Z) (streams : list (client_error + list Notify * client_error)) : Tw (list Z) :=
  match streams with
  | [] => mret []
  | inl err :: streams =>
    _ ← reportError "watch connection failed" err;
    waits ← watch (attempt + 1) streams;
    mret (attempt :: waits)
  | inr (events, err) :: streams =>
    _ ← handle_all events;
    _ ← reportError "watch stream failed" err;
    waits ← watch 1 streams;
    mret (0 :: waits)
  end.
End handlers.

(** ** Alerts *)

Section alerts.
Context {W : Type} (decoding : string).
Implicit Types (m : Menu W).

Definition alert_key (operation : string) (err : client_error) : string :=
  operation +:+ ":" +:+ alert_message (client_error_text decoding err).

Lemma reportError_shown now operation err m :
  let m' := fst (reportError (W:=W) decoding now operation err m) in
  m' = m ∧ (is_canceled err = true ∨ ∃ last, me_errorSeen m !! alert_key operation err = Some last ∧ now - last < errTTL) ∨
  me_errorSeen m' !! alert_key operation err = Some now ∧
  me_alerts m' = me_alerts m ++ [("FlexConnect tray error", operation +:+ blank_line +:+ alert_message (client_error_text decoding err))].
Proof.
  unfold reportError. destruct (is_canceled err) eqn:Ec; [left; split; [done|by left]|].
  unfold mbind, T_bind, get_menu. cbv zeta. fold (alert_key operation err).
  destruct (me_errorSeen m !! alert_key operation err) as [last|] eqn:E.
  - destruct (Z.ltb_spec (now - last) errTTL).
    + left. split; [done|]. right. by exists last.
    + right. cbn. split; [|done]. apply map_lookup_filter_Some. split; [by rewrite lookup_insert_eq|]. cbn. unfold errTTL. lia.
  - right. cbn. split; [|done]. apply map_lookup_filter_Some. split; [by rewrite lookup_insert_eq|]. cbn. unfold errTTL. lia.
Qed.

(** The same error is shown once in thirty seconds. *)
Theorem error_shown_once now now' operation err m :
  now' - now < errTTL → is_canceled err = false →
  (∀ last, me_errorSeen m !! alert_key operation err = Some last → errTTL ≤ now - last) →
  let m' := fst (reportError decoding now operation err m) in
  length (me_alerts m') = S (length (me_alerts m)) ∧ reportError decoding now' operation err m' = (m', ()).
Proof.
  intros Ht Hc Hl. cbv zeta. destruct (reportError_shown now operation err m) as [[_ [H|(last & H & Hlt)]]|[Hs Ha]].
  - congruence.
  - specialize (Hl last H). lia.
  - rewrite Ha, length_app. cbn [length]. split; [lia|]. set (m' := fst _) in *. unfold reportError. rewrite Hc.
    unfold mbind, T_bind, get_menu. cbv zeta. fold (alert_key operation err). rewrite Hs. by rewrite (proj2 (Z.ltb_lt _ _)).
Qed.
End alerts.

(** ** A refresh that fails *)

(** The client returns a pointer with every error, so what the tray guards
    against (nil) does not come: when the daemon does not answer, the status,
    the traffic and the update are forgotten, and the profiles are kept. *)
Theorem failed_refresh_forgets e1 e2 e3 e4 t :
  Tray.refresh (inl e1) (inl e2) (inl e3) (inl e4) t = (mkTray (Some zero_status) zero_traffic (ty_profiles t) (Some zero_update_info), Some e1).
Proof. by destruct t. Qed.

(** A check that fails in a refresh makes the next one announce the release
    again, although it was announced before. *)
Theorem announced_again {W} (transport : Request → C W Response) size text status profiles traffic e (m : Menu W) env u :
  client_UpdateCheck transport size text (me_env m) = (env, inr u) → uin_UpdateAvailable u = true → uin_LatestVersion u ≠ "" →
  me_tray m = fst (Tray.refresh status profiles traffic (inl e) (me_tray m)) →
  me_sent (fst (fetchUpdateInfo transport size text m)) = me_sent m ++ [update_notification u].
Proof.
  intros Hc Ha Hv Ht. unfold fetchUpdateInfo, mbind, T_bind, call, get_menu, set_menu. rewrite Hc. cbn [me_tray].
  change (me_tray (m <| me_env := env |>)) with (me_tray m). rewrite Ht. cbn [ty_update].
  assert (Hu : ty_update (fst (Tray.refresh status profiles traffic (inl e) (me_tray m))) = Some zero_update_info) by by destruct status, profiles, traffic.
  rewrite Hu. change (uin_LatestVersion zero_update_info) with "". rewrite Ha.
  assert (("" != uin_LatestVersion u) = true) as -> by (apply negb_true_iff; apply eqb_false; congruence).
  cbn [andb negb]. destruct (updateInfoEqual (Some zero_update_info) (Some u)); reflexivity.
Qed.

(** Otherwise a release is announced once: after a check that found [u], a check
    that finds the same version says nothing. *)
Theorem announced_once {W} (transport : Request → C W Response) size text (m : Menu W) env u u' :
  client_UpdateCheck transport size text (me_env m) = (env, inr u') → uin_LatestVersion u' = uin_LatestVersion u →
  ty_update (me_tray m) = Some u → me_updateNotified m = true →
  me_sent (fst (fetchUpdateInfo transport size text m)) = me_sent m ∧ me_updateNotified (fst (fetchUpdateInfo transport size text m)) = true.
Proof.
  intros Hc Hv Ht Hn. unfold fetchUpdateInfo, mbind, T_bind, call, get_menu, set_menu. rewrite Hc.
  change (ty_update (me_tray (m <| me_env := env |>))) with (ty_update (me_tray m)). rewrite Ht, Hv, String.eqb_refl. cbn [negb].
  change (me_updateNotified (m <| me_env := env |>)) with (me_updateNotified m). rewrite Hn. cbn [negb]. rewrite andb_false_r. cbn [orb].
  destruct (updateInfoEqual (Some u) (Some u')); split; reflexivity.
Qed.

(** ** A profile is selected *)

Section served.
Context {W : Type} `{!Daemon W} (actor : Actor) (Hactor : (ac_ID actor == "") = false).
Context (size : json → Z) (text : Payload → string) (Hsize : ∀ j, size j ≤ maxRequestBodyBytes) (decoding : string) (now : Z).
Implicit Types (m : Menu (Server W)).
#[local] Set Default Proof Using "Type*".

Definition starts {A} (k : M W A) : T (Server W) (client_error + ()) := call (called text (_ ← k; mret ())).
Definition start_connect (id : string) : M W Operation := d_StartOperation actor "connect" id (CmdConnect actor id).

Lemma call_connect id m :
  TrimSpace id ≠ "" → call (client_Connect (serve actor) size text 1 id) m = starts (start_connect id) m.
Proof.
  intros Hid. unfold starts, call.
  assert (id ≠ "") as Hn by by intros ->.
  by rewrite (Connect_served actor Hactor size text 1 id _ Hid Hn (Hsize _)).
Qed.

(** Choosing a profile while another one is connected asks the daemon for three
    operations and waits for none: a disconnection, a connection, and the same
    connection again. *)
Theorem selection_asks_twice id m s :
  TrimSpace id ≠ "" → ty_status (me_tray m) = Some s → st_State s = StateConnected → st_SelectedProfileID s ≠ id →
  handleProfileSelection (serve actor) size text decoding now id m =
  (d ← starts (disconnected actor);
   or_report decoding now "disconnect failed" d (
     s ← starts (start_connect id);
     or_report decoding now "switch profile failed" s (
       c ← starts (start_connect id);
       or_report decoding now "reconnect after profile switch failed" c (refreshed (serve actor) size text decoding now)))) m.
Proof.
  intros Hid Hs Hc Hn. unfold handleProfileSelection. unfold mbind at 1, T_bind at 1, get_menu. rewrite Hs.
  rewrite (proj2 (eqb_false _ _) Hn). assert (connected (Some s) = true) as -> by (cbn; by rewrite bool_decide_true).
  assert (Hd : ∀ m, call (client_Disconnect (serve actor) size text) m = starts (disconnected actor) m).
  { intros m'. unfold starts, call. by rewrite (Disconnect_served actor Hactor size text). }
  unfold mbind, T_bind. rewrite Hd. destruct (starts (disconnected actor) m) as [m1 [e|[]]]; [done|]. cbn [or_report].
  rewrite call_connect by done. destruct (starts (start_connect id) m1) as [m2 [e|[]]]; [done|]. cbn [or_report].
  by rewrite call_connect.
Qed.
End served.

(** ** The watch *)

(** The waits double from one second while connections fail, and a stream that
    was established starts them over. *)
Lemma watch_waits {W} decoding now n k (errs : nat → client_error) events err (m : Menu W) :
  snd (watch decoding now k ((λ i, inl (errs i)) <$> seq 0 n) m) = Z.add k ∘ Z.of_nat <$> seq 0 n ∧
  snd (watch decoding now k [inr (events, err)] m) = [0].
Proof.
  split.
  - assert (∀ j, snd (watch decoding now k ((λ i, inl (errs i)) <$> seq j n) m) = Z.add k ∘ Z.of_nat <$> seq 0 n) as H; [|apply H].
    revert k m. induction n as [|n IH]; intros k m j; [done|]. cbn [seq fmap list_fmap watch]. unfold mbind, T_bind.
    destruct (reportError _ _ _ _ m) as [m1 []]. specialize (IH (k + 1) m1 (S j)). change (list_fmap ?A ?B ?f ?l) with (f <$> l) in *.
    destruct (watch _ _ _ _ m1) as [m2 waits]. cbn [snd] in *. subst waits. apply (f_equal2 cons); [cbn; lia|].
    rewrite <- (fmap_S_seq 0 n), <- list_fmap_compose. apply list_fmap_ext. intros i x _. cbn. lia.
  - cbn [watch]. unfold mbind, T_bind. destruct (handle_all _ _ m) as [m1 []]. by destruct (reportError _ _ _ _ m1) as [m2 []].
Qed.
